(* ===== verification/_CoqProject ===== *)
-Q . S2P
Prelude.v
Mem.v
Update.v
Fmt.v
Pci.v
Bench.v
Result.v
Rtc.v
UserShell.v
Logic.v
Boot.v
Pmm.v
Paging.v
PageTables.v
AddressSpace.v
PagingInit.v
UserImage.v
BootLoader.v
BootRun.v
Heap.v
RamFs.v
Ring.v
Tty.v
Ps2.v
Sync.v
Types.v
Vga.v
State.v
Task.v
Proc.v
Fd.v
Interrupts.v
Pipes.v
FdRefs.v
UserCopy.v
Signal.v
Futex.v
SysProc.v
Mm.v
MmSpec.v
SysIo.v
SysVfs.v
Time.v
Sys.v
Elf.v
ElfLoad.v
Exec.v
ExecImage.v
Libc.v
Dispatch.v
Abi.v
CString.v
Invariant.v
SigReturn.v
Wrappers.v
SafeFd.v
Waiting.v
SafeCalls.v
Safety.v
KernelBoot.v
KernelUi.v
Commands.v
