(* ===== verification/Prelude.v ===== *)
(** * CoreOS: a verification development

    CoreOS is a small x86-64 operating system in Rust: a UEFI boot loader
    ([src/bootloader]), a kernel ([src/kernel]) with paging, processes,
    threads, signals, futexes, pipes, a RAM disk and a Linux-like system-call
    interface, and user programs in C ([src/user]).  This library translates
    it into executable definitions and proves what makes its parts correct.
    Paths below are relative to [src/kernel/src] unless they start with
    [bootloader/] or [user/].

    ** How the parts interact

    The boot loader asks the firmware for pages and files, builds the page
    tables the kernel starts on and hands it a [CoreOS_BootInfo].  The kernel
    validates it, starts the frame allocator, builds its own tables, puts the
    embedded programs on the RAM disk and runs the shell program.  A program
    enters the kernel by a system call, an interrupt or an exception.  System
    calls go through one dispatch table to handlers that copy arguments from
    user memory and act on the tables of processes, threads, descriptors,
    pipes and memory regions; on the way back a pending signal is delivered.
    The timer interrupt chooses the next task.  Programs call the kernel
    through the wrappers of a small C library.

    ** How the code is modelled

    - Integers are [Z]; an operation that can leave the width of its type is
      written with its wrap-around ([+w], [-w], [*w]: the kernel is built in
      release mode).  An index out of range is a panic.
    - A stateful function is a computation [M S A] ([Result.v]): a value, an
      error that keeps the state changes made before it, or a panic.
      [State.Kernel] gathers the global state of the kernel; the memory
      layer works on [Paging.Machine] inside it.
    - Physical memory is a function from addresses to bytes reached through
      the direct map, and page tables are bytes in it.  [k_umem] is the memory
      of the running process by user address.  The page tables and [k_umem]
      are two views of the same bytes; [MmSpec.agree] relates them, and the
      theorems about [exec], [fork], [brk] and [malloc] are about the page
      tables.
    - A critical section (lock, or interrupts off) is one atomic step;
      [Sync.v] justifies it for the spin lock by interleaving.
    - Waiting is a sequence of rounds.  What other tasks and interrupts do in
      a round is an argument ([Pause], [Irq]), and a call that has not
      returned when its rounds are used up is [Blocked].
    - Hardware, firmware and link addresses are arguments: what a clock chip
      or a device answers, the pages and files the firmware provides, the
      addresses of assembly routines, the bytes of the embedded programs.

    ** The files

    Foundations: [Prelude] (integers, lists, tactics, hints), [Mem] (byte
    memory), [Update] (record update), [Fmt] (number formatting), [Result]
    ([syscall/result.rs] and the monad), [Logic] (the rules of [safe]),
    [Types] ([syscall/types.rs]).

    Memory:
    - [Boot]: [boot.rs], [mem/validate.rs]; [Pmm]: [mem/pmm.rs]; [Heap]:
      [mem/heap.rs].
    - [Paging]: the operations of [arch/amd64/paging.rs]; [PageTables]: the
      ownership invariant [pt_wf] and the effect of each operation on it;
      [AddressSpace]: [map_page_in] and the copy of an address space;
      [PagingInit]: the tables of [paging::init]; [UserImage]: what a program
      reads through its tables.

    Start: [BootLoader] and [BootRun] ([bootloader/src]), [KernelBoot]
    ([kernel_boot/], [mem/pmm_test.rs]), [KernelUi] ([shell/ui.rs], [_start]
    of [main.rs]),
    [Commands] ([shell/mod.rs], [shell/commands.rs]).

    Devices: [Pci] ([hw/pci.rs]), [Rtc] ([hw/rtc.rs]), [Bench] ([bench.rs]),
    [Ring] and [Tty] ([hw/kbd_buffer.rs], [hw/tty.rs]), [Ps2] ([hw/ps2.rs],
    [hw/keyboard.rs]), [Vga] ([drivers/vga/]), [Interrupts]
    ([arch/amd64/gdt.rs], [idt.rs], [hw/pic.rs], [panic.rs]), [Sync]
    ([sync.rs]).

    Processes and files: [State] ([proc/state.rs]), [Task] ([proc/task.rs],
    [proc/scheduler.rs], the tick of [hw/pit.rs]), [Proc]
    ([proc/process.rs], [proc/vm.rs]), [Fd] ([proc/fd*.rs]), [Pipes] and
    [FdRefs] (theorems about them), [RamFs] ([fs.rs], [vfs.rs],
    [syscall/fs.rs]), [Elf] and [ElfLoad] ([proc/elf.rs]), [Exec] and
    [ExecImage] ([proc/exec.rs]).

    System calls: [UserCopy] ([usercopy.rs], [syscall/helpers.rs]),
    [Signal], [Futex] and [SysProc] ([syscall/process.rs]), [SigReturn]
    (theorems), [Mm] and [MmSpec] ([syscall/mm.rs]), [SysIo]
    ([syscall/io.rs]), [SysVfs] ([syscall/vfs.rs]), [Time]
    ([syscall/time.rs]), [Waiting] (theorems), [Sys] ([syscall/sys.rs],
    [syscall/net.rs]), [Dispatch] ([syscall/mod.rs], [syscall/dispatch.rs]),
    [Abi] ([syscall/nr.rs], [user/libcshim/sysnr.h]).  [Invariant], [SafeFd],
    [SafeCalls] and [Safety] prove that all of them keep the invariant.

    User programs: [UserShell] ([user/shell.c]); [Libc], [Wrappers] and
    [CString] ([user/libcshim]).

    ** What the theorems show

    - The whole kernel.  Every system call, with any number and arguments,
      keeps [sys_inv] and returns a value, and only listed calls can panic
      ([Safety.syscall_entry_safe]).  [sys_inv] is about the tables, the
      signal sets and the pipes; it can be extended by memory outside the
      user half, which every call leaves alone, [brk] and [mmap] if they are
      asked for user addresses ([Safety.maps_user]: the kernel does not
      check it).  Every state the kernel reaches, through the boot sequence,
      the shell and any mix of system calls, interrupts and faults
      ([Safety.runs]), satisfies it ([KernelUi.reachable_states_ok]).  On
      boot information that satisfies [KernelBoot.boot_ok] the start-up
      succeeds with page tables that satisfy their invariant
      ([KernelBoot.boot_setup_ready]).
    - Memory.  The frame allocator refines a set of free frames; the heap
      keeps its free lists exact; mapping, unmapping and the copy for [fork]
      act on the translation of addresses exactly as intended and touch no
      other address space; [exec] builds exactly the memory its program
      asks for; the boot loader's tables are what the kernel assumes;
      [malloc] returns aligned, disjoint, mapped blocks.
    - Processes.  The scheduler is fair, a context switch and a signal
      delivery are undone exactly by their returns, thread counts are exact
      and so are reference counts but for one leak, an exception ends exactly
      its thread, and timed waits end, neither early nor late.
    - Files and devices.  The RAM disk refines a finite map, pipes and rings
      refine a bounded queue (the class [BoundedQueue]), the terminal follows
      its line discipline, the console stays on the screen, the bus
      enumeration is exact, reading the clock terminates.
    - Programs.  The shell's tokenizer stays in its buffer and returns the
      words of a specification on lists, early end included; the string
      functions are exact; a call of any wrapper of the C library runs the
      handler of its name on its parameters; the numbers of header and
      dispatcher agree.
    - Flaws.  Some theorems state what the code does although it should not:
      [pipe_read_never_wakes], [remove_shifts_indices],
      [tokenize_drops_arguments], the panic of [fs_read_to_vec], the
      descriptors lost when [fork] or [exec] reuses the slot of a process
      that waits to be reaped ([fd_refcounts_exact]), the pointer
      [nanosleep] checks too late ([nanosleep_ends]), and the frame of an
      exception whose stub does not expect the error code the processor
      pushes ([exception_ends_thread]).

    ** Bounds and fuel

    A loop over a table, a buffer or a range recurses on a list or on a number
    of rounds computed from the size of the table, the buffer or the range,
    so it cannot run out.  Fuel
    appears where the source itself can loop forever: waiting for events
    (rounds; [nanosleep_ends], [timed_wait_ends], [tty_read_returns] give the
    number that is enough), the clock chip ([get_time_settles]: up to the
    end of a quiet window), strings
    without a terminator ([string_functions_exact] gives the bound), and the
    endless loop that restarts the shell (any number of rounds).  No theorem
    but the invariants, which hold for every amount of fuel, is only about
    runs that return.

    ** Not modelled

    - Log messages and the serial driver ([drivers/serial.rs], [debug.rs]),
      pure output; the bytes the terminal sends there are in the state.
    - A page fault by the kernel on an unmapped user page: the check of user
      pointers looks at the range only, and the model reads total memory.
    - The frames the kernel heap takes while the kernel runs: vectors and
      strings are values.  The heap itself is verified in [Heap].
    - Single privileged instructions and port writes with no effect on the
      state ([arch/amd64/cpu.rs], [hw/mod.rs], programming the timer and the
      system-call registers), the assembly that drops to user mode
      ([user_task_iretq]) and the first instructions of [main.rs].
    - [sys_write_file] and [sys_push_file] of [user/libcshim], which pass a
      structure on their stack.
    - Files no module declaration includes ([proc/signal.rs],
      [syscall/legacy/]), the test programs of [user/], and the build tools,
      which run on another machine; the tables of numbers they generate are
      checked in [Abi]. *)

From Stdlib Require Export ZArith Lia Bool.
From stdpp Require Export base numbers list gmap sets option.

#[global] Set Default Goal Selector "!".

Open Scope Z_scope.

(** ** Machine integers

    The kernel is built with [cargo build --release], so arithmetic on the
    fixed-width types wraps; an unsigned w-bit integer is a [Z] in
    [0, 2^w), and every operation that can leave that range is written with
    its wrap-around. *)

Definition U8 : Z := 2 ^ 8.
Definition U16 : Z := 2 ^ 16.
Definition U32 : Z := 2 ^ 32.
Definition U64 : Z := 2 ^ 64.
Definition I63 : Z := 2 ^ 63.

Definition is_u8 (z : Z) : Prop := 0 <= z < U8.
Definition is_u32 (z : Z) : Prop := 0 <= z < U32.
Definition is_u64 (z : Z) : Prop := 0 <= z < U64.

Definition wrap8 (z : Z) : Z := z mod U8.
Definition wrap16 (z : Z) : Z := z mod U16.
Definition wrap32 (z : Z) : Z := z mod U32.
Definition wrap64 (z : Z) : Z := z mod U64.

(** [as i64] and [as i32] of an unsigned value of that width. *)
Definition as_i64 (z : Z) : Z := if z <? I63 then z else z - U64.
Definition as_i32 (z : Z) : Z := let w := wrap32 z in if w <? 2 ^ 31 then w else w - U32.

(** [checked_add], [checked_sub], [saturating_add], [saturating_sub],
    [saturating_mul], [div_ceil] of [usize]/[u64]. *)
Definition checked_add64 (a b : Z) : option Z := if a + b <? U64 then Some (a + b) else None.
Definition checked_sub64 (a b : Z) : option Z := if b <=? a then Some (a - b) else None.
Definition sat_add64 (a b : Z) : Z := Z.min (a + b) (U64 - 1).
Definition sat_sub64 (a b : Z) : Z := Z.max (a - b) 0.
Definition sat_mul64 (a b : Z) : Z := Z.min (a * b) (U64 - 1).
Definition div_ceil (a b : Z) : Z := if a mod b =? 0 then a / b else a / b + 1.

(** [saturating_add] of [i64]. *)
Definition sat_addi64 (a b : Z) : Z := Z.max (- I63) (Z.min (a + b) (I63 - 1)).

(** Bitwise complement at 64, 32 and 8 bits. *)
Definition not64 (z : Z) : Z := Z.lxor z (U64 - 1).
Definition not32 (z : Z) : Z := Z.lxor z (U32 - 1).
Definition not8 (z : Z) : Z := Z.lxor z (U8 - 1).

(** [x & m != 0]. *)
Definition has_bits (x m : Z) : bool := negb (Z.land x m =? 0).

(** ** Notations of the development *)

Declare Scope coreos_scope.
Delimit Scope coreos_scope with coreos.
Notation "a '+w' b" := (wrap64 (a + b)) (at level 50, left associativity) : coreos_scope.
Notation "a '-w' b" := (wrap64 (a - b)) (at level 50, left associativity) : coreos_scope.
Notation "a '*w' b" := (wrap64 (a * b)) (at level 40, left associativity) : coreos_scope.
Notation "a '&' b" := (Z.land a b) (at level 40, left associativity) : coreos_scope.
Notation "a '.|' b" := (Z.lor a b) (at level 50, left associativity) : coreos_scope.
Notation "a '^^' b" := (Z.lxor a b) (at level 50, left associativity) : coreos_scope.
Notation "a '>>' b" := (Z.shiftr a b) (at level 40, left associativity) : coreos_scope.
Open Scope coreos_scope.

(** ** Automation *)

Create HintDb coreos.

(** Reflect the boolean tests of the code into propositions. *)
Ltac breflect :=
  repeat match goal with
  | H : (_ && _) = true |- _ => apply andb_true_iff in H as [? ?]
  | H : (_ || _) = false |- _ => apply orb_false_iff in H as [? ?]
  | H : negb _ = true |- _ => apply negb_true_iff in H
  | H : negb _ = false |- _ => apply negb_false_iff in H
  | H : (_ =? _) = true |- _ => apply Z.eqb_eq in H
  | H : (_ =? _) = false |- _ => apply Z.eqb_neq in H
  | H : (_ <? _) = true |- _ => apply Z.ltb_lt in H
  | H : (_ <? _) = false |- _ => apply Z.ltb_ge in H
  | H : (_ <=? _) = true |- _ => apply Z.leb_le in H
  | H : (_ <=? _) = false |- _ => apply Z.leb_gt in H
  | H : bool_decide _ = true |- _ => apply bool_decide_eq_true in H
  | H : bool_decide _ = false |- _ => apply bool_decide_eq_false in H
  end.

(** Case analysis on the innermost test or match of the goal (or of [H]). *)
Ltac case_goal :=
  match goal with
  | |- context [if ?b then _ else _] =>
      match b with context [if _ then _ else _] => fail 1 | _ => destruct b eqn:? end
  | |- context [match ?x with _ => _ end] =>
      match x with context [match _ with _ => _ end] => fail 1 | _ => destruct x eqn:? end
  end.

Ltac case_hyp H :=
  match type of H with
  | context [if ?b then _ else _] =>
      match b with context [if _ then _ else _] => fail 1 | _ => destruct b eqn:? end
  | context [match ?x with _ => _ end] =>
      match x with context [match _ with _ => _ end] => fail 1 | _ => destruct x eqn:? end
  end.

(** ** Arithmetic lemmas *)

Lemma wrap64_small z : 0 <= z < U64 -> wrap64 z = z.
Proof. apply Z.mod_small. Qed.

Lemma wrap64_range z : 0 <= wrap64 z < U64.
Proof. apply Z.mod_pos_bound. reflexivity. Qed.

Lemma wrap8_range z : 0 <= wrap8 z < U8.
Proof. apply Z.mod_pos_bound. reflexivity. Qed.

Lemma has_bits_pow2 x k : 0 <= k -> has_bits x (2 ^ k) = Z.testbit x k.
Proof.
  intros Hk. unfold has_bits. destruct (Z.testbit x k) eqn:E.
  - apply negb_true_iff, Z.eqb_neq. intros H0.
    assert (Z.testbit (Z.land x (2 ^ k)) k = false) as H by (rewrite H0; apply Z.bits_0).
    rewrite Z.land_spec, E, Z.pow2_bits_true in H by lia. discriminate.
  - apply negb_false_iff, Z.eqb_eq. apply Z.bits_inj'. intros i Hi.
    rewrite Z.land_spec, Z.bits_0, Z.pow2_bits_eqb by lia.
    destruct (Z.eqb_spec k i); subst; rewrite ?E, ?andb_false_r; done.
Qed.

Lemma testbit_high x n i : 0 <= x < 2 ^ n -> n <= i -> Z.testbit x i = false.
Proof.
  intros Hx Hi. destruct (Z.ltb_spec n 0).
  - rewrite Z.pow_neg_r in Hx by lia. lia.
  - rewrite <- (Z.mod_small x (2 ^ n)) by lia. apply Z.mod_pow2_bits_high. lia.
Qed.

(** A value is bounded by [2^n] exactly when its bits from [n] on are clear. *)
Lemma bits_bound x n :
  0 <= n -> 0 <= x -> (forall i, n <= i -> Z.testbit x i = false) -> x < 2 ^ n.
Proof.
  intros Hn Hx Hb. destruct (Z.eq_dec x 0) as [->|]; [lia|].
  destruct (Z.ltb_spec (Z.log2 x) n) as [H|H].
  - apply Z.log2_lt_pow2; lia.
  - specialize (Hb (Z.log2 x) ltac:(lia)). rewrite Z.bit_log2 in Hb by lia. discriminate.
Qed.

Lemma lor_add a b n : 0 <= n -> (2 ^ n | a) -> 0 <= b < 2 ^ n -> Z.lor a b = a + b.
Proof.
  intros Hn [q ->] Hb. assert (Z.land (q * 2 ^ n) b = 0) as H0.
  { apply Z.bits_inj'. intros i Hi. rewrite Z.land_spec, Z.bits_0, <- Z.shiftl_mul_pow2, Z.shiftl_spec by done.
    destruct (decide (i < n)) as [Hl|Hl]; [by rewrite Z.testbit_neg_r by lia|].
    rewrite <- (Z.mod_small b (2 ^ n)), Z.mod_pow2_bits_high by lia. apply andb_false_r. }
  by rewrite <- Z.lxor_lor, Z.add_nocarry_lxor.
Qed.

Lemma lor_range a b n : 0 <= n -> 0 <= a < 2 ^ n -> 0 <= b < 2 ^ n -> 0 <= Z.lor a b < 2 ^ n.
Proof.
  intros Hn Ha Hb. split; [apply Z.lor_nonneg; lia|].
  apply bits_bound; [lia|apply Z.lor_nonneg; lia|].
  intros i Hi. rewrite Z.lor_spec, (testbit_high a n), (testbit_high b n) by lia. done.
Qed.

Lemma land_range a b n : 0 <= n -> 0 <= a < 2 ^ n -> 0 <= b -> 0 <= Z.land a b < 2 ^ n.
Proof.
  intros Hn Ha Hb. split; [apply Z.land_nonneg; lia|].
  apply bits_bound; [lia|apply Z.land_nonneg; lia|].
  intros i Hi. rewrite Z.land_spec, (testbit_high a n) by lia. done.
Qed.

Lemma lxor_range a b n : 0 <= n -> 0 <= a < 2 ^ n -> 0 <= b < 2 ^ n -> 0 <= Z.lxor a b < 2 ^ n.
Proof.
  intros Hn Ha Hb. assert (0 <= Z.lxor a b) by (apply Z.lxor_nonneg; lia). split; [done|].
  apply bits_bound; [lia|done|].
  intros i Hi. rewrite Z.lxor_spec, (testbit_high a n), (testbit_high b n) by lia. done.
Qed.

Lemma ones_minus_1 n : 0 <= n -> 2 ^ n - 1 = Z.ones n.
Proof. intros. rewrite Z.ones_equiv. lia. Qed.

Lemma not64_testbit x i : 0 <= i < 64 -> Z.testbit (not64 x) i = negb (Z.testbit x i).
Proof.
  intros Hi. unfold not64, U64. rewrite Z.lxor_spec, ones_minus_1, Z.ones_spec_low by lia.
  by rewrite xorb_true_r.
Qed.

Lemma not8_testbit x i : 0 <= i < 8 -> Z.testbit (not8 x) i = negb (Z.testbit x i).
Proof.
  intros Hi. unfold not8, U8. rewrite Z.lxor_spec, ones_minus_1, Z.ones_spec_low by lia.
  by rewrite xorb_true_r.
Qed.

(** Masking with [!(2^k - 1)] rounds a 64-bit value down to a multiple of [2^k]. *)
Lemma land_not64_mask x k :
  0 <= k <= 64 -> 0 <= x < U64 -> Z.land x (not64 (2 ^ k - 1)) = x - x mod 2 ^ k.
Proof.
  intros Hk Hx. pose proof (Z.pow_pos_nonneg 2 k ltac:(lia) ltac:(lia)).
  replace (x - x mod 2 ^ k) with (Z.shiftl (Z.shiftr x k) k).
  2: { rewrite Z.shiftl_mul_pow2, Z.shiftr_div_pow2 by lia.
       rewrite (Z.div_mod x (2 ^ k)) at 2 by lia. lia. }
  apply Z.bits_inj'. intros i Hi. rewrite Z.land_spec, Z.shiftl_spec by lia.
  destruct (Z.ltb_spec i 64).
  - rewrite not64_testbit, ones_minus_1 by lia. destruct (Z.ltb_spec i k).
    + rewrite Z.ones_spec_low by lia. rewrite (Z.testbit_neg_r _ (i - k)) by lia.
      apply andb_false_r.
    + rewrite Z.ones_spec_high, Z.shiftr_spec by lia. rewrite andb_true_r. f_equal. lia.
  - rewrite Z.shiftr_spec by lia. replace (i - k + k) with i by lia.
    rewrite (testbit_high x 64) by (unfold U64 in *; lia). done.
Qed.

Lemma align_up_ge x : 0 <= x -> x + 4095 < U64 ->
  let a := Z.land (x +w 0xFFF) (not64 0xFFF) in x <= a < x + 4096 /\ a mod 4096 = 0.
Proof.
  intros H0 H1 a. unfold a. rewrite wrap64_small by lia.
  change 0xFFF with (2 ^ 12 - 1). rewrite land_not64_mask by (change (2 ^ 12) with 4096; lia).
  change (2 ^ 12) with 4096. replace (x + (4096 - 1)) with (x + 4095) by lia.
  pose proof (Z.mod_pos_bound (x + 4095) 4096). split; [lia|].
  rewrite Zminus_mod_idemp_r. rewrite Z.sub_diag. done.
Qed.

Lemma land_ones_mod x n : 0 <= n -> Z.land x (2 ^ n - 1) = x mod 2 ^ n.
Proof. intros. rewrite ones_minus_1 by lia. apply Z.land_ones. lia. Qed.

(** ** Lists *)

(** The position of the first element that satisfies [p] ([Iterator::position]). *)
Fixpoint position {A} (p : A -> bool) (l : list A) : option nat :=
  match l with
  | [] => None
  | x :: l' => if p x then Some O else S <$> position p l'
  end.

Lemma position_Some {A} (p : A -> bool) l i :
  position p l = Some i ->
  exists x, l !! i = Some x /\ p x = true /\
    forall j y, (j < i)%nat -> l !! j = Some y -> p y = false.
Proof.
  revert i; induction l as [|x l IH]; simpl; intros i H; [done|].
  destruct (p x) eqn:E; simplify_eq.
  - exists x. split_and!; try done. intros; lia.
  - destruct (position p l) as [k|] eqn:Ek; simplify_eq/=.
    destruct (IH k eq_refl) as (y & Hy & Hp & Hmin). exists y. split_and!; try done.
    intros [|j] z Hj Hz; simplify_eq/=; [done|]. eapply Hmin; [|done]. lia.
Qed.

Lemma position_None {A} (p : A -> bool) l :
  position p l = None -> forall i x, l !! i = Some x -> p x = false.
Proof.
  induction l as [|x l IH]; simpl; intros H i y Hy; [done|].
  destruct (p x) eqn:E; [done|]. destruct (position p l) eqn:Ek; [done|].
  destruct i; simplify_eq/=; eauto.
Qed.

Lemma position_lt {A} (p : A -> bool) l i : position p l = Some i -> (i < length l)%nat.
Proof. intros H. apply position_Some in H as (x & Hx & _). by eapply lookup_lt_Some. Qed.

Lemma position_is_Some {A} (p : A -> bool) l i x :
  l !! i = Some x -> p x = true -> is_Some (position p l).
Proof.
  intros Hi Hp. destruct (position p l) eqn:E; [eauto|].
  rewrite (position_None _ _ E _ _ Hi) in Hp. done.
Qed.

(** Counting with a boolean predicate. *)
Definition countb {A} (p : A -> bool) (l : list A) : Z :=
  Z.of_nat (length (List.filter p l)).

Lemma countb_nil {A} (p : A -> bool) : countb p [] = 0.
Proof. done. Qed.

Lemma countb_cons {A} (p : A -> bool) x l :
  countb p (x :: l) = (if p x then 1 else 0) + countb p l.
Proof. unfold countb. simpl. destruct (p x); simpl; lia. Qed.

Lemma countb_app {A} (p : A -> bool) l1 l2 : countb p (l1 ++ l2) = countb p l1 + countb p l2.
Proof. unfold countb. rewrite List.filter_app, length_app. lia. Qed.

Lemma countb_nonneg {A} (p : A -> bool) l : 0 <= countb p l.
Proof. unfold countb. lia. Qed.

Lemma countb_ext {A} (p q : A -> bool) l :
  (forall x, x ∈ l -> p x = q x) -> countb p l = countb q l.
Proof.
  induction l as [|x l IH]; intros H; [done|]. rewrite !countb_cons, IH, H; [done|set_solver..].
Qed.

(** Changing a predicate at one element of a duplicate-free list changes the
    count by the change at that element. *)
Lemma countb_update {A} (p q : A -> bool) x l :
  NoDup l -> x ∈ l -> (forall y, y ∈ l -> y <> x -> p y = q y) ->
  countb q l = countb p l + (if q x then 1 else 0) - (if p x then 1 else 0).
Proof.
  induction l as [|y l IH]; intros Hnd Hx H; [set_solver|].
  apply list.NoDup_cons in Hnd as [Hy Hnd]. rewrite !countb_cons.
  apply elem_of_cons in Hx as [<-|Hx].
  - rewrite (countb_ext p q l); [lia|]. intros z Hz. apply H; set_solver.
  - rewrite IH by (try done; intros; apply H; set_solver).
    assert (y <> x) by set_solver. rewrite (H y) by set_solver. lia.
Qed.

(** Counting over an updated list. *)
Lemma countb_insert {A} (p : A -> bool) l i x y :
  l !! i = Some x ->
  countb p (<[i:=y]> l) = countb p l + (if p y then 1 else 0) - (if p x then 1 else 0).
Proof.
  revert i; induction l as [|z l IH]; intros [|i] H; simplify_eq/=;
    rewrite ?countb_cons; [lia|]. rewrite (IH _ H). lia.
Qed.

Lemma countb_zero {A} (p : A -> bool) l : (forall x, x ∈ l -> p x = false) -> countb p l = 0.
Proof.
  intros H. rewrite (countb_ext p (fun _ => false)) by done. clear H.
  induction l; [done|]. rewrite countb_cons. done.
Qed.

Lemma countb_pos {A} (p : A -> bool) l i x : l !! i = Some x -> p x = true -> 0 < countb p l.
Proof.
  revert i; induction l as [|z l IH]; intros [|i] H Hp; simplify_eq/=;
    rewrite countb_cons.
  - rewrite Hp. pose proof (countb_nonneg p l). lia.
  - specialize (IH _ H Hp). destruct (p z); lia.
Qed.

Lemma find_Some_seqZ (p : Z -> bool) lo n f :
  List.find p (seqZ lo n) = Some f ->
  lo <= f < lo + n /\ p f = true /\ forall g, lo <= g < f -> p g = false.
Proof.
  intros H. destruct (Z.ltb_spec n 0) as [Hn|Hn].
  { rewrite seqZ_nil in H by lia. done. }
  revert lo H. pattern n. apply natlike_ind; [| |done]; clear n Hn.
  - intros lo H. done.
  - intros n Hn IH lo H. rewrite seqZ_cons in H by lia. simpl in H.
    destruct (p lo) eqn:E.
    + simplify_eq. split_and!; [lia..|done|]. intros; lia.
    + replace (Z.pred (Z.succ n)) with n in H by lia. apply IH in H as (H1 & H2 & H3).
      split_and!; [lia..|done|]. intros g Hg.
      destruct (Z.eq_dec g lo) as [->|]; [done|]. apply H3. lia.
Qed.

Lemma find_None_seqZ (p : Z -> bool) lo n :
  List.find p (seqZ lo n) = None -> forall g, lo <= g < lo + n -> p g = false.
Proof. intros H g Hg. eapply List.find_none; [done|]. apply list_elem_of_In, elem_of_seqZ. lia. Qed.
