(* ===== verification/Mem.v ===== *)
(** * Byte-addressed memory

    The kernel reads and writes physical memory through raw pointers into its
    direct map ([arch::paging::p2v]) and user memory through user pointers.
    Both are modelled by a total function from addresses to bytes; the
    pointer operations the sources use ([read], [write], [write_volatile],
    [ptr::write_bytes], [ptr::copy_nonoverlapping]) are the definitions
    below, little-endian for multi-byte values (x86-64). *)

From S2P Require Import Prelude.

Definition Mem : Type := Z -> Z.

(** [lo <= x < lo + n]. *)
Definition in_range (x lo n : Z) : bool := (lo <=? x) && (x <? lo + n).

Fixpoint read_le (n : nat) (m : Mem) (a : Z) : Z :=
  match n with
  | O => 0
  | S n' => m a + 256 * read_le n' m (a + 1)
  end.

Definition write_le (n : nat) (m : Mem) (a v : Z) : Mem :=
  fun x => if in_range x a (Z.of_nat n) then (v / 256 ^ (x - a)) mod 256 else m x.

(** [*(a as *const u64)] and [*(a as *mut u64) = v]. *)
Definition read64 : Mem -> Z -> Z := read_le 8.
Definition write64 : Mem -> Z -> Z -> Mem := write_le 8.
Definition read32 : Mem -> Z -> Z := read_le 4.
Definition write32 : Mem -> Z -> Z -> Mem := write_le 4.

(** [ptr::write_bytes(a, b, n)]. *)
Definition fill (m : Mem) (a b n : Z) : Mem :=
  fun x => if in_range x a n then b else m x.

(** [ptr::copy_nonoverlapping(src, dst, n)] inside one memory. *)
Definition copy_within (m : Mem) (src dst n : Z) : Mem :=
  fun x => if in_range x dst n then m (src + (x - dst)) else m x.

(** The bytes of a slice written at [a], and [n] bytes read from [a]. *)
Definition store_bytes (m : Mem) (a : Z) (bs : list Z) : Mem :=
  fun x => if in_range x a (Z.of_nat (length bs))
           then default 0 (bs !! Z.to_nat (x - a)) else m x.

Definition load_bytes (m : Mem) (a n : Z) : list Z := (fun i => m (a + i)) <$> seqZ 0 n.

(** The direct map: physical address [p] is mapped at [p2v p]. *)
Definition PHYSICAL_OFFSET : Z := 0xFFFF800000000000.

Definition p2v (phys : Z) : Z := phys +w PHYSICAL_OFFSET.

Definition v2p (virt : Z) : Z :=
  if PHYSICAL_OFFSET <=? virt then virt -w PHYSICAL_OFFSET
  else virt -w 0xFFFFFFFF80000000.

(** Bytes are bytes. *)
Definition mem_ok (m : Mem) : Prop := forall a, is_u8 (m a).

(** The little-endian bytes of a value ([to_ne_bytes] on x86-64), and back. *)
Fixpoint to_le (n : nat) (v : Z) : list Z :=
  match n with
  | O => []
  | S n' => v mod 256 :: to_le n' (v / 256)
  end.

Fixpoint of_le (bs : list Z) : Z :=
  match bs with
  | [] => 0
  | b :: bs' => b + 256 * of_le bs'
  end.

#[global] Arguments read64 : simpl never.
#[global] Arguments write64 : simpl never.
#[global] Arguments fill : simpl never.
#[global] Arguments p2v : simpl never.
#[global] Arguments v2p : simpl never.

(** ** Lemmas *)

Lemma in_range_spec x lo n : in_range x lo n = true <-> lo <= x < lo + n.
Proof. unfold in_range. rewrite andb_true_iff, Z.leb_le, Z.ltb_lt. lia. Qed.

Lemma in_range_false x lo n : in_range x lo n = false <-> x < lo \/ lo + n <= x.
Proof. unfold in_range. rewrite andb_false_iff, Z.leb_gt, Z.ltb_ge. lia. Qed.

Ltac range_case x lo n :=
  let E := fresh "E" in
  destruct (in_range x lo n) eqn:E;
  [apply in_range_spec in E | apply in_range_false in E].

Lemma read_le_ext n m m' a :
  (forall x, a <= x < a + Z.of_nat n -> m x = m' x) -> read_le n m a = read_le n m' a.
Proof.
  revert a; induction n as [|n IH]; intros a H; simpl; [done|].
  rewrite (H a) by lia. rewrite (IH (a + 1)); [done|]. intros. apply H. lia.
Qed.

Lemma read_le_range n m a : mem_ok m -> 0 <= read_le n m a < 256 ^ Z.of_nat n.
Proof.
  intros Hm. revert a; induction n as [|n IH]; intros a; simpl read_le; [simpl; lia|].
  specialize (IH (a + 1)). pose proof (Hm a) as Ha. unfold is_u8, U8 in Ha.
  rewrite Nat2Z.inj_succ, Z.pow_succ_r by lia. lia.
Qed.

Lemma read_write_le_same n m a v :
  0 <= v < 256 ^ Z.of_nat n -> read_le n (write_le n m a v) a = v.
Proof.
  intros Hv.
  assert (forall k j, (j + k <= n)%nat ->
    read_le k (write_le n m a v) (a + Z.of_nat j)
    = (v / 256 ^ Z.of_nat j) mod 256 ^ Z.of_nat k) as H.
  { induction k as [|k IH]; intros j Hj; cbn [read_le].
    { rewrite Z.mod_1_r. done. }
    replace (a + Z.of_nat j + 1) with (a + Z.of_nat (S j)) by lia. rewrite IH by lia.
    unfold write_le. replace (in_range _ _ _) with true by (symmetry; apply in_range_spec; lia).
    replace (a + Z.of_nat j - a) with (Z.of_nat j) by lia.
    rewrite (Nat2Z.inj_succ k), (Nat2Z.inj_succ j), !Z.pow_succ_r by lia.
    rewrite Z.rem_mul_r, Z.div_div by lia. do 4 f_equal. lia. }
  specialize (H n 0%nat ltac:(lia)). rewrite Z.add_0_r, Z.div_1_r in H. rewrite H.
  apply Z.mod_small. lia.
Qed.

Lemma read_write_le_disj n k m a b v :
  b + Z.of_nat k <= a \/ a + Z.of_nat n <= b ->
  read_le k (write_le n m a v) b = read_le k m b.
Proof.
  intros H. apply read_le_ext. intros x Hx. unfold write_le. range_case x a (Z.of_nat n); [lia|done].
Qed.

Lemma read_le_fill_0 k m a n b :
  a <= b -> b + Z.of_nat k <= a + n -> read_le k (fill m a 0 n) b = 0.
Proof.
  intros H1 H2. transitivity (read_le k (fun _ => 0) b).
  - apply read_le_ext. intros x Hx. unfold fill. range_case x a n; [done|lia].
  - clear. revert b; induction k; intros; simpl; [done|]. rewrite IHk. done.
Qed.

Lemma read_le_fill_disj k m a n c b :
  b + Z.of_nat k <= a \/ a + n <= b -> read_le k (fill m a c n) b = read_le k m b.
Proof.
  intros H. apply read_le_ext. intros x Hx. unfold fill. range_case x a n; [lia|done].
Qed.

Lemma read64_write64_same m a v : is_u64 v -> read64 (write64 m a v) a = v.
Proof. intros. apply read_write_le_same. done. Qed.

Lemma read64_write64_disj m a b v : b + 8 <= a \/ a + 8 <= b -> read64 (write64 m a v) b = read64 m b.
Proof. intros. apply read_write_le_disj. simpl; lia. Qed.

Lemma read64_range m a : mem_ok m -> is_u64 (read64 m a).
Proof. intros H. apply (read_le_range 8 m a H). Qed.

Lemma write_le_ok n m a v : mem_ok m -> mem_ok (write_le n m a v).
Proof.
  intros H x. unfold write_le. case_goal; [|apply H].
  unfold is_u8, U8. change (2 ^ 8) with 256. apply Z.mod_pos_bound. lia.
Qed.

Lemma write64_ok m a v : mem_ok m -> mem_ok (write64 m a v).
Proof. apply write_le_ok. Qed.

Lemma fill_ok m a b n : is_u8 b -> mem_ok m -> mem_ok (fill m a b n).
Proof. intros Hb H x. unfold fill. case_goal; [done|apply H]. Qed.

Lemma copy_within_ok m s d n : mem_ok m -> mem_ok (copy_within m s d n).
Proof. intros H x. unfold copy_within. case_goal; apply H. Qed.

Lemma store_bytes_ok m a bs : Forall is_u8 bs -> mem_ok m -> mem_ok (store_bytes m a bs).
Proof.
  intros Hb H x. unfold store_bytes. case_goal; [|apply H].
  destruct (bs !! _) eqn:E; simpl; [|split; [lia|reflexivity]].
  by eapply Forall_lookup_1 in E.
Qed.

#[export] Hint Resolve write_le_ok write64_ok fill_ok copy_within_ok store_bytes_ok : coreos.

Lemma length_load_bytes m a n : length (load_bytes m a n) = Z.to_nat n.
Proof. unfold load_bytes. by rewrite length_fmap, length_seqZ. Qed.

Lemma lookup_load_bytes m a n i :
  (i < Z.to_nat n)%nat -> load_bytes m a n !! i = Some (m (a + Z.of_nat i)).
Proof. intros H. unfold load_bytes. rewrite list_lookup_fmap, lookup_seqZ_lt by lia. done. Qed.

(** What was stored is what is loaded. *)
Lemma load_store_bytes m a bs : load_bytes (store_bytes m a bs) a (Z.of_nat (length bs)) = bs.
Proof.
  apply list_eq. intros i. destruct (decide (i < length bs)%nat) as [Hi|Hi].
  - rewrite lookup_load_bytes by lia. unfold store_bytes.
    replace (in_range _ _ _) with true by (symmetry; apply in_range_spec; lia).
    replace (Z.to_nat _) with i by lia. by destruct (lookup_lt_is_Some_2 bs i Hi) as [x ->].
  - rewrite !lookup_ge_None_2; [done|lia|]. rewrite length_load_bytes. lia.
Qed.

Lemma load_bytes_ext m m' a n :
  (forall x, a <= x < a + n -> m x = m' x) -> load_bytes m a n = load_bytes m' a n.
Proof. intros H. apply list_fmap_ext. intros i x Hi. apply lookup_seqZ in Hi. apply H. lia. Qed.

Lemma load_store_bytes_disj m a bs b n :
  b + n <= a \/ a + Z.of_nat (length bs) <= b -> load_bytes (store_bytes m a bs) b n = load_bytes m b n.
Proof.
  intros H. apply load_bytes_ext. intros x Hx. unfold store_bytes.
  range_case x a (Z.of_nat (length bs)); [lia|done].
Qed.

(** Physical addresses the direct map covers without wrapping. *)
Definition PHYS_TOP : Z := U64 - PHYSICAL_OFFSET.

Lemma p2v_small p : 0 <= p < PHYS_TOP -> p2v p = p + PHYSICAL_OFFSET.
Proof. intros H. unfold p2v. apply wrap64_small. unfold PHYS_TOP, PHYSICAL_OFFSET in *. lia. Qed.

Lemma length_to_le n v : length (to_le n v) = n.
Proof. revert v; induction n; intros; simpl; auto. Qed.

Lemma of_to_le n v : 0 <= v < 256 ^ Z.of_nat n -> of_le (to_le n v) = v.
Proof.
  revert v; induction n as [|n IH]; intros v Hv; simpl of_le; [simpl in Hv; lia|].
  rewrite Nat2Z.inj_succ, Z.pow_succ_r in Hv by lia. rewrite IH.
  - pose proof (Z.div_mod v 256). lia.
  - split; [apply Z.div_pos; lia|]. apply Z.div_lt_upper_bound; lia.
Qed.

Lemma to_le_bytes n v : Forall is_u8 (to_le n v).
Proof.
  revert v; induction n; intros; simpl; constructor; [|done].
  unfold is_u8, U8. change (2 ^ 8) with 256. apply Z.mod_pos_bound. lia.
Qed.

Lemma of_le_load m a n : of_le (load_bytes m a (Z.of_nat n)) = read_le n m a.
Proof.
  revert a; induction n as [|n IH]; intros a; [done|].
  rewrite Nat2Z.inj_succ. unfold load_bytes. rewrite seqZ_cons by lia. simpl.
  replace (a + 0) with a by lia. rewrite <- (IH (a + 1)). do 3 f_equal. unfold load_bytes.
  replace (Z.pred (Z.succ (Z.of_nat n))) with (Z.of_nat n) by lia.
  apply list_eq. intros i. rewrite !list_lookup_fmap.
  destruct (decide (i < n)%nat).
  - rewrite !lookup_seqZ_lt by lia. simpl. f_equal. f_equal. lia.
  - rewrite !lookup_seqZ_ge by lia. done.
Qed.
