(* ===== verification/Update.v ===== *)
(** * Field update of records

    The kernel's structures have up to twenty fields and the code assigns
    them one at a time.  [r <| f := v |>] is [r] with field [f] set to [v];
    the setter of a field is computed from the record's [Eta] instance, which
    rebuilds a record from its fields. *)

From S2P Require Import Prelude.

Class Eta (R : Type) := eta : R -> R.

Class Setter {R T : Type} (proj : R -> T) := set_field : (T -> T) -> R -> R.
Arguments set_field {R T} proj {Setter} f r /.

(** Abstract the projection in the record's eta-expansion. *)
Ltac make_setter :=
  match goal with
  | |- @Setter ?R ?T ?proj =>
      let e := constr:(_ : Eta R) in
      let e := eval red in e in
      match eval pattern proj in e with
      | ?g _ => let t := eval cbv beta in (fun f : T -> T => g (fun r : R => f (proj r))) in exact t
      end
  end.

#[export] Hint Extern 0 (Setter _) => make_setter : typeclass_instances.

Notation "r '<|' p ':=' v '|>'" := (set_field p (fun _ => v) r)
  (at level 1, left associativity, p at level 10, v at level 200) : coreos_scope.

(** ** Tables indexed by a [usize] *)

(** [l[i]]; [None] is the panic of an index out of range. *)
Definition zget {A} (l : list A) (i : Z) : option A :=
  if (0 <=? i) then l !! Z.to_nat i else None.

(** [l[i] = x], for an index in range. *)
Definition zset {A} (l : list A) (i : Z) (x : A) : list A := <[Z.to_nat i := x]> l.

Lemma length_zset {A} (l : list A) i x : length (zset l i x) = length l.
Proof. apply length_insert. Qed.

Lemma zget_Some {A} (l : list A) i x : zget l i = Some x -> 0 <= i < Z.of_nat (length l).
Proof.
  unfold zget. case_goal; [|done]. intros H. apply lookup_lt_Some in H. breflect. lia.
Qed.

Lemma zget_is_Some {A} (l : list A) i : 0 <= i < Z.of_nat (length l) -> exists x, zget l i = Some x.
Proof.
  intros H. unfold zget. rewrite (proj2 (Z.leb_le 0 i)) by lia. apply lookup_lt_is_Some. lia.
Qed.

Lemma zget_zset {A} (l : list A) i j x :
  0 <= i < Z.of_nat (length l) -> 0 <= j ->
  zget (zset l i x) j = if j =? i then Some x else zget l j.
Proof.
  intros Hi Hj. unfold zget, zset. rewrite (proj2 (Z.leb_le 0 j)) by lia. destruct (Z.eqb_spec j i) as [->|].
  - apply list_lookup_insert_eq. lia.
  - apply list_lookup_insert_ne. lia.
Qed.

Lemma zget_zset_eq {A} (l : list A) i x : 0 <= i < Z.of_nat (length l) -> zget (zset l i x) i = Some x.
Proof. intros Hi. rewrite zget_zset, Z.eqb_refl; [done|lia..]. Qed.

Lemma zget_zset_ne {A} (l : list A) i j x : i <> j -> 0 <= i -> zget (zset l i x) j = zget l j.
Proof.
  intros Hne Hi. unfold zget, zset. destruct (Z.leb_spec 0 j); [|done]. apply list_lookup_insert_ne. lia.
Qed.

Lemma zget_elem {A} (l : list A) i x : zget l i = Some x -> x ∈ l.
Proof. unfold zget. case_goal; [|done]. apply list_elem_of_lookup_2. Qed.

Lemma elem_zget {A} (l : list A) x : x ∈ l -> exists i, 0 <= i < Z.of_nat (length l) /\ zget l i = Some x.
Proof.
  intros [i Hi]%list_elem_of_lookup. exists (Z.of_nat i). unfold zget.
  rewrite (proj2 (Z.leb_le _ _)) by lia. rewrite Nat2Z.id. split; [|done].
  apply lookup_lt_Some in Hi. lia.
Qed.

(** [iter().position(p)] as a [usize]. *)
Definition zposition {A} (p : A -> bool) (l : list A) : option Z := Z.of_nat <$> position p l.

Lemma zposition_Some {A} (p : A -> bool) l i :
  zposition p l = Some i -> exists x, zget l i = Some x /\ p x = true /\ 0 <= i < Z.of_nat (length l).
Proof.
  unfold zposition. destruct (position p l) as [n|] eqn:E; [|done]. intros [= <-].
  pose proof (position_lt _ _ _ E). apply position_Some in E as (x & Hx & Hp & _). exists x.
  unfold zget. rewrite (proj2 (Z.leb_le _ _)) by lia. rewrite Nat2Z.id. split_and!; [done|done|lia..].
Qed.

Lemma zposition_first {A} (p : A -> bool) l i j x :
  zposition p l = Some i -> 0 <= j < i -> zget l j = Some x -> p x = false.
Proof.
  unfold zposition. destruct (position p l) as [n|] eqn:E; [|done]. intros [= <-] Hj Hx.
  apply position_Some in E as (y & Hy & Hp & Hfirst). unfold zget in Hx.
  rewrite (proj2 (Z.leb_le _ _)) in Hx by lia. eapply (Hfirst (Z.to_nat j)); [lia|done].
Qed.

Lemma zposition_None {A} (p : A -> bool) l : zposition p l = None -> forall x, x ∈ l -> p x = false.
Proof.
  unfold zposition. destruct (position p l) eqn:E; [done|]. intros _ x [i Hi]%list_elem_of_lookup.
  by eapply position_None.
Qed.

(** Update in place of an entry that is there. *)
Definition zmodify {A} (f : A -> A) (l : list A) (i : Z) : list A :=
  match zget l i with Some x => zset l i (f x) | None => l end.
