(* ===== verification/Fmt.v ===== *)
(** * Formatting of numbers

    What the kernel uses of the formatting macros of the standard library:
    unsigned numbers in decimal ([{}]) and hexadecimal ([{:x}]), padded with
    zeros ([{:02x}]) or with spaces on the right ([{:<22}]), as bytes. *)

From Stdlib Require Import Ascii String.
From S2P Require Import Prelude.

(** The bytes of a string literal. *)
Definition lit (s : string) : list Z := (fun c => Z.of_N (N_of_ascii c)) <$> list_ascii_of_string s.

Definition newline : list Z := [0x0A].

Definition digit (d : Z) : Z := if d <? 10 then 0x30 + d else 0x61 + (d - 10).

(** The digits of [v], last digit first, at most [n] of them. *)
Fixpoint rev_digits (base : Z) (n : nat) (v : Z) : list Z :=
  match n with
  | O => []
  | S n => digit (v mod base) :: (if v / base =? 0 then [] else rev_digits base n (v / base))
  end.

(** Twenty decimal digits hold every [u64]; sixteen hexadecimal ones do. *)
Definition dec (v : Z) : list Z := rev (rev_digits 10 20 v).
Definition hex (v : Z) : list Z := rev (rev_digits 16 16 v).

Definition pad_zero (w : nat) (s : list Z) : list Z := replicate (w - length s) 0x30 ++ s.
Definition pad_right (w : nat) (s : list Z) : list Z := s ++ replicate (w - length s) 0x20.

(** ** Reading back *)

Definition digit_value (c : Z) : Z := if c <? 0x3A then c - 0x30 else c - 0x61 + 10.

Fixpoint rev_value (base : Z) (s : list Z) : Z :=
  match s with
  | [] => 0
  | c :: s => digit_value c + base * rev_value base s
  end.

Definition value (base : Z) (s : list Z) : Z := rev_value base (rev s).

Lemma digit_value_digit d : 0 <= d < 36 -> digit_value (digit d) = d.
Proof. unfold digit_value, digit. intros H. repeat case_goal; breflect; lia. Qed.

Lemma rev_value_digits base n v : 1 < base <= 36 -> 0 <= v < base ^ Z.of_nat n -> rev_value base (rev_digits base n v) = v.
Proof.
  intros Hb. revert v. induction n as [|n IH]; intros v Hv; cbn [rev_digits rev_value].
  - change (base ^ Z.of_nat 0) with 1 in Hv. lia.
  - pose proof (Z.mod_pos_bound v base ltac:(lia)) as Hm. pose proof (Z.div_mod v base ltac:(lia)) as Hd.
    rewrite digit_value_digit by lia. case_goal; breflect; [cbn [rev_value]; lia|].
    rewrite IH; [lia|]. split; [apply Z.div_pos; lia|]. apply Z.div_lt_upper_bound; [lia|].
    rewrite <- Z.pow_succ_r by lia. rewrite <- Nat2Z.inj_succ. apply Hv.
Qed.

Lemma dec_value v : is_u64 v -> value 10 (dec v) = v.
Proof. intros [H1 H2]. unfold value, dec. rewrite rev_involutive. apply rev_value_digits; [lia|]. split; [done|]. by etrans. Qed.

Lemma hex_value v : is_u64 v -> value 16 (hex v) = v.
Proof. intros H. unfold value, hex. rewrite rev_involutive. by apply rev_value_digits. Qed.

(** Zeros in front change nothing. *)
Lemma rev_value_zeros base s k : rev_value base (s ++ replicate k 0x30) = rev_value base s.
Proof.
  induction s as [|c s IH]; cbn; [|by rewrite IH]. induction k as [|k IH]; cbn; [done|]. rewrite IH. unfold digit_value. cbn. lia.
Qed.

Lemma pad_zero_value base w s : value base (pad_zero w s) = value base s.
Proof.
  unfold value, pad_zero. rewrite rev_app_distr. replace (rev (replicate (w - length s) 0x30)) with (replicate (w - length s) 0x30).
  - apply rev_value_zeros.
  - rewrite rev_alt. symmetry. apply reverse_replicate.
Qed.
