(* ===== verification/Pci.v ===== *)
(** * PCI enumeration ([hw/pci.rs])

    The configuration space is reached through two ports; a read has no
    effect on it and is a function [pci_bus] of the address written to
    [CONFIG_ADDRESS].  What a device makes of a write is up to the device:
    [bus_write] is an argument of the operations that write. *)

From Stdlib Require Import Ascii String.
From stdpp Require Import sorting.
From S2P Require Import Prelude Update Fmt.

Record PciDeviceInfo := mkPciDeviceInfo {
  pd_bus : Z; pd_device : Z; pd_function : Z;
  pd_vendor_id : Z; pd_device_id : Z;
  pd_class_code : Z; pd_subclass : Z; pd_prog_if : Z; pd_revision : Z; pd_header_type : Z;
}.

(** [PCI_DEVICES], [PCI_SCANNED] and the configuration space. *)
Record Pci := mkPci {
  pci_devices : list PciDeviceInfo;
  pci_scanned : bool;
  pci_bus : Z -> Z;
}.

#[export] Instance eta_pci : Eta Pci := fun p => mkPci (pci_devices p) (pci_scanned p) (pci_bus p).

Definition Pci_new (bus : Z -> Z) : Pci := mkPci [] false bus.

(** ** Configuration space *)

Definition config_address (bus device function offset : Z) : Z :=
  Z.shiftl 1 31 .| Z.shiftl bus 16 .| Z.shiftl (device & 0x1F) 11 .| Z.shiftl (function & 0x07) 8 .| (offset & 0xFC).

Definition pci_read_dword (cfg : Z -> Z) (bus device func offset : Z) : Z := cfg (config_address bus device func offset).

Definition pci_read_word (cfg : Z -> Z) (bus device func offset : Z) : Z :=
  let dword := pci_read_dword cfg bus device func (offset & 0xFC) in
  (dword >> ((offset & 2) * 8)) & 0xFFFF.

Definition pci_read_byte (cfg : Z -> Z) (bus device func offset : Z) : Z :=
  let dword := pci_read_dword cfg bus device func (offset & 0xFC) in
  (dword >> ((offset & 3) * 8)) & 0xFF.

Section Write.
Context (bus_write : (Z -> Z) -> Z -> Z -> (Z -> Z)).

Definition pci_write_dword (bus device func offset value : Z) (p : Pci) : Pci :=
  p <| pci_bus := bus_write (pci_bus p) (config_address bus device func offset) value |>.
End Write.

(** ** Devices *)

Definition from_address (cfg : Z -> Z) (bus device func : Z) : option PciDeviceInfo :=
  let vendor := pci_read_word cfg bus device func 0x00 in
  if vendor =? 0xFFFF then None
  else
    let device_id := pci_read_word cfg bus device func 0x02 in
    let class_code := pci_read_byte cfg bus device func 0x0B in
    let subclass := pci_read_byte cfg bus device func 0x0A in
    let prog_if := pci_read_byte cfg bus device func 0x09 in
    let revision := pci_read_byte cfg bus device func 0x08 in
    let header_type := pci_read_byte cfg bus device func 0x0E & 0x7F in
    Some (mkPciDeviceInfo bus device func vendor device_id class_code subclass prog_if revision header_type).

(** [Display]: bus:device.function, vendor:device, class and revision. *)
Definition fmt_device (d : PciDeviceInfo) : list Z :=
  let h2 v := pad_zero 2 (hex v) in
  let h4 v := pad_zero 4 (hex v) in
  h2 (pd_bus d) ++ lit ":" ++ h2 (pd_device d) ++ lit "." ++ hex (pd_function d) ++ lit "  " ++
  h4 (pd_vendor_id d) ++ lit ":" ++ h4 (pd_device_id d) ++ lit "  class=" ++
  h2 (pd_class_code d) ++ h2 (pd_subclass d) ++ h2 (pd_prog_if d) ++ lit "  rev=" ++ h2 (pd_revision d).

(** ** Enumeration *)

Definition func_mask (cfg : Z -> Z) (bus device : Z) : Z :=
  let header := pci_read_byte cfg bus device 0 0x0E in
  if has_bits header 0x80 then 0x07 else 0x01.

Definition scan_device (cfg : Z -> Z) (bus device : Z) : list PciDeviceInfo :=
  omap (from_address cfg bus device) (seqZ 0 (func_mask cfg bus device + 1)).

Definition scan_bus (cfg : Z -> Z) (bus : Z) : list PciDeviceInfo := seqZ 0 32 ≫= scan_device cfg bus.

Definition enumerate_pci (p : Pci) : Pci :=
  if pci_scanned p then p
  else p <| pci_scanned := true |> <| pci_devices := seqZ 0 256 ≫= scan_bus (pci_bus p) |>.

Definition device_list (p : Pci) : list PciDeviceInfo := pci_devices p.

(** The text of the listing ([syscall/pci.rs], [pci_list_impl]). *)
Definition list_text (devices : list PciDeviceInfo) : list Z :=
  lit "PCI devices:" ++ newline ++
  match devices with
  | [] => lit "  (none)" ++ newline
  | _ => devices ≫= fun d => lit "  " ++ fmt_device d ++ newline
  end.

(** ** Self test *)

Definition count (b : bool) : Z := if b then 1 else 0.

(** Tests 2 to 4. *)
Definition device_failures (d : PciDeviceInfo) : Z :=
  count (pd_vendor_id d =? 0xFFFF) + count (pd_device_id d =? 0xFFFF) +
  count ((pd_class_code d =? 0xFF) || (pd_class_code d =? 0xFE)).

(** Test 5. *)
Definition header_failure (cfg : Z -> Z) (d : PciDeviceInfo) : Z :=
  let hdr := pci_read_byte cfg (pd_bus d) (pd_device d) (pd_function d) 0x0E & 0x7F in
  count (negb (hdr =? pd_header_type d)).

(** Test 6. *)
Definition reread_failure (cfg : Z -> Z) (d : PciDeviceInfo) : Z :=
  let vendor := pci_read_word cfg (pd_bus d) (pd_device d) (pd_function d) 0x00 in
  let device := pci_read_word cfg (pd_bus d) (pd_device d) (pd_function d) 0x02 in
  let class := pci_read_byte cfg (pd_bus d) (pd_device d) (pd_function d) 0x0B in
  count (negb (vendor =? pd_vendor_id d) || negb (device =? pd_device_id d) || negb (class =? pd_class_code d)).

Section SelfTest.
Context (bus_write : (Z -> Z) -> Z -> Z -> (Z -> Z)).

(** Test 7: all ones are written to BAR0, what it then reads as is its size,
    and the original value is put back. *)
Definition bar_failure (d : PciDeviceInfo) (p : Pci) : Z * Pci :=
  if negb (pd_class_code d =? 0x06) && negb (pd_class_code d =? 0x04) then
    let bar0_offset := 0x10 in
    let original := pci_read_dword (pci_bus p) (pd_bus d) (pd_device d) (pd_function d) bar0_offset in
    let p := pci_write_dword bus_write (pd_bus d) (pd_device d) (pd_function d) bar0_offset 0xFFFFFFFF p in
    let sized_val := pci_read_dword (pci_bus p) (pd_bus d) (pd_device d) (pd_function d) bar0_offset in
    let p := pci_write_dword bus_write (pd_bus d) (pd_device d) (pd_function d) bar0_offset original p in
    (count ((sized_val =? 0) || (sized_val =? 0xFFFFFFFF)), p)
  else (0, p).

Definition pci_self_test (p : Pci) : Z * Pci :=
  let p := enumerate_pci p in
  let devices := device_list p in
  let failures := count (match devices with [] => true | _ => false end) in
  let failures := failures + foldr Z.add 0 (device_failures <$> devices) in
  let failures := failures + foldr Z.add 0 (header_failure (pci_bus p) <$> devices) in
  match devices with
  | [] => (failures, p)
  | first_dev :: _ =>
      let failures := failures + reread_failure (pci_bus p) first_dev in
      let '(f, p) := bar_failure first_dev p in
      (failures + f, p)
  end.
End SelfTest.

(** ** Byte lanes *)

(** Byte [i] of the configuration header of a function. *)
Definition header_byte (cfg : Z -> Z) (bus device func i : Z) : Z :=
  (pci_read_dword cfg bus device func (i / 4 * 4) >> (8 * (i mod 4))) mod 256.

Lemma aligned_offset i : 0 <= i < 256 -> i & 0xFC = i / 4 * 4.
Proof.
  intros H. assert (Forall (fun i => i & 0xFC = i / 4 * 4) (seqZ 0 256)) as Hall.
  { apply (bool_decide_unpack _). vm_compute. exact I. }
  apply (proj1 (list.Forall_forall _ _) Hall), elem_of_seqZ. lia.
Qed.

Lemma config_address_aligned bus device func i : config_address bus device func (i & 0xFC) = config_address bus device func i.
Proof. unfold config_address. by rewrite <- Z.land_assoc. Qed.

(** A byte of the header is its lane of the dword; a word is two bytes. *)
Lemma pci_read_byte_spec cfg bus device func i : 0 <= i < 256 ->
  pci_read_byte cfg bus device func i = header_byte cfg bus device func i.
Proof.
  intros H. unfold pci_read_byte, header_byte. rewrite aligned_offset by done.
  change 3 with (Z.ones 2). change 0xFF with (Z.ones 8). rewrite !Z.land_ones by lia. by rewrite (Z.mul_comm 8).
Qed.

Lemma pci_read_word_spec cfg bus device func i : 0 <= i < 256 -> i mod 2 = 0 ->
  pci_read_word cfg bus device func i = header_byte cfg bus device func i + 256 * header_byte cfg bus device func (i + 1).
Proof.
  intros H He. unfold pci_read_word, header_byte. rewrite aligned_offset by done.
  assert (i & 2 = i mod 4) as ->.
  { assert (Forall (fun i => i mod 2 = 0 -> i & 2 = i mod 4) (seqZ 0 256)) as Hall.
    { apply (bool_decide_unpack _). vm_compute. exact I. }
    apply (proj1 (list.Forall_forall _ _) Hall); [apply elem_of_seqZ; lia|done]. }
  assert ((i + 1) / 4 = i / 4 /\ (i + 1) mod 4 = i mod 4 + 1) as [-> ->].
  { pose proof (Z.div_mod i 4 ltac:(lia)). pose proof (Z.div_mod i 2 ltac:(lia)). pose proof (Z.mod_pos_bound i 4 ltac:(lia)).
    assert (i mod 4 <> 3) by lia.
    split; [symmetry; apply Z.div_unique with (i mod 4 + 1); lia|symmetry; apply Z.mod_unique with (i / 4); lia]. }
  change 0xFFFF with (Z.ones 16). rewrite Z.land_ones by lia. set (d := pci_read_dword _ _ _ _ _).
  rewrite (Z.mul_comm (i mod 4)). replace (8 * (i mod 4 + 1)) with (8 * (i mod 4) + 8) by lia.
  pose proof (Z.mod_pos_bound i 4 ltac:(lia)). rewrite <- Z.shiftr_shiftr by lia. set (x := d >> (8 * (i mod 4))).
  rewrite (Z.shiftr_div_pow2 x 8) by lia. change (2 ^ 16) with (256 * 256). rewrite Z.rem_mul_r by lia. done.
Qed.

(** Different functions and registers have different addresses. *)
Lemma config_address_value bus device func offset : 0 <= bus < 256 -> 0 <= device < 32 -> 0 <= func < 8 -> 0 <= offset < 256 ->
  config_address bus device func offset = 2 ^ 31 + bus * 2 ^ 16 + device * 2 ^ 11 + func * 2 ^ 8 + offset / 4 * 4.
Proof.
  intros Hb Hd Hf Ho. unfold config_address. rewrite aligned_offset by done.
  change (device & 0x1F) with (device & Z.ones 5). change (func & 0x07) with (func & Z.ones 3). rewrite !Z.land_ones, !Z.mod_small by (cbn; lia).
  rewrite !Z.shiftl_mul_pow2 by lia. pose proof (Z.div_mod offset 4 ltac:(lia)). pose proof (Z.mod_pos_bound offset 4 ltac:(lia)).
  rewrite (lor_add _ (bus * _) 24); [|lia|by exists (2 ^ 7)|lia].
  rewrite (lor_add _ (device * _) 16); [|lia|exists (2 ^ 15 + bus); lia|lia].
  rewrite (lor_add _ (func * _) 11); [|lia|exists (2 ^ 20 + bus * 2 ^ 5 + device); lia|lia].
  rewrite (lor_add _ (offset / 4 * 4) 8); [lia|lia|exists (2 ^ 23 + bus * 2 ^ 8 + device * 2 ^ 3 + func); lia|lia].
Qed.

Lemma config_address_inj b d f o b' d' f' o' :
  0 <= b < 256 -> 0 <= d < 32 -> 0 <= f < 8 -> 0 <= o < 256 -> 0 <= b' < 256 -> 0 <= d' < 32 -> 0 <= f' < 8 -> 0 <= o' < 256 ->
  config_address b d f o = config_address b' d' f' o' -> b = b' /\ d = d' /\ f = f' /\ o / 4 = o' / 4.
Proof.
  intros ? ? ? ? ? ? ? ?. rewrite !config_address_value by done.
  pose proof (Z.div_mod o 4 ltac:(lia)). pose proof (Z.mod_pos_bound o 4 ltac:(lia)).
  pose proof (Z.div_mod o' 4 ltac:(lia)). pose proof (Z.mod_pos_bound o' 4 ltac:(lia)). lia.
Qed.

(** ** What the enumeration finds *)

Definition address (d : PciDeviceInfo) : Z * Z * Z := (pd_bus d, pd_device d, pd_function d).

(** Order of the scan: bus, then device, then function. *)
Definition scan_key (d : PciDeviceInfo) : Z := pd_bus d * 256 + pd_device d * 8 + pd_function d.

Lemma from_address_inv cfg b d f dev : from_address cfg b d f = Some dev -> address dev = (b, d, f).
Proof. unfold from_address. case_goal; intros [= <-]. done. Qed.

Lemma scan_device_elem cfg b d dev : dev ∈ scan_device cfg b d <->
  exists f, 0 <= f <= func_mask cfg b d /\ from_address cfg b d f = Some dev.
Proof.
  unfold scan_device. rewrite list_elem_of_omap. setoid_rewrite elem_of_seqZ.
  split; intros (f & Hf & ?); exists f; (split; [lia|done]).
Qed.

Lemma func_mask_bound cfg b d : 1 <= func_mask cfg b d <= 7.
Proof. unfold func_mask. case_goal; lia. Qed.

(** Lists in order, one after the other in order. *)
Lemma sorted_bind {A} (key : A -> Z) (f : Z -> list A) (c w : Z) (l : list Z) :
  StronglySorted Z.lt l -> (forall x, x ∈ l -> StronglySorted Z.lt (key <$> f x)) ->
  (forall x a, x ∈ l -> a ∈ f x -> c + x * w <= key a < c + (x + 1) * w) -> StronglySorted Z.lt (key <$> (l ≫= f)).
Proof.
  intros Hs. induction Hs as [|x l Hs IH Hall]; intros Hf Hk; [constructor|]. cbn [mbind list_bind]. rewrite fmap_app.
  apply StronglySorted_app_2; [|apply Hf; left|apply IH; intros; [apply Hf|apply Hk]; try right; done].
  intros k1 k2 (a & -> & Ha)%list_elem_of_fmap (a2 & -> & (y & Ha2 & Hy)%list_elem_of_bind)%list_elem_of_fmap.
  pose proof (proj1 (list.Forall_forall _ _) Hall y Hy) as Hlt. cbn in Hlt.
  pose proof (Hk x a ltac:(left) Ha). pose proof (Hk y a2 ltac:(by right) Ha2). nia.
Qed.

Lemma seqZ_sorted m n : StronglySorted Z.lt (seqZ m n).
Proof.
  destruct (decide (n <= 0)) as [Hn|Hn]; [rewrite seqZ_nil by done; constructor|].
  rewrite <- (Z2Nat.id n) by lia. generalize (Z.to_nat n) as k. intros k. revert m. induction k as [|k IH]; intros m; [constructor|].
  rewrite Nat2Z.inj_succ, seqZ_cons by lia. constructor; [rewrite Z.pred_succ; apply IH|].
  apply list.Forall_forall. intros x Hx%elem_of_seqZ. lia.
Qed.

Lemma sorted_omap cfg b d l : StronglySorted Z.lt l ->
  StronglySorted Z.lt (scan_key <$> omap (from_address cfg b d) l).
Proof.
  intros Hs. induction Hs as [|x l Hs IH Hall]; [constructor|]. cbn. destruct (from_address cfg b d x) as [dev|] eqn:E; [|done].
  cbn. constructor; [done|]. apply list.Forall_forall. intros k (dev' & -> & (y & Hy & E')%list_elem_of_omap)%list_elem_of_fmap.
  pose proof (proj1 (list.Forall_forall _ _) Hall y Hy). apply from_address_inv in E, E'. unfold scan_key.
  injection E as -> -> ->. injection E' as -> -> ->. lia.
Qed.

(** A function answers when its vendor is not all ones; it is asked when its
    device says that it has several functions, or when it is one of the first
    two. *)
Definition answers (cfg : Z -> Z) (b d f : Z) : Prop :=
  0 <= b < 256 /\ 0 <= d < 32 /\ 0 <= f /\
  (if has_bits (header_byte cfg b d 0 0x0E) 0x80 then f < 8 else f < 2) /\
  ~ (header_byte cfg b d f 0 = 0xFF /\ header_byte cfg b d f 1 = 0xFF).

(** The entry of the list for a function, from the bytes of its header. *)
Definition info_of (cfg : Z -> Z) (b d f : Z) : PciDeviceInfo :=
  let h := header_byte cfg b d f in
  mkPciDeviceInfo b d f (h 0 + 256 * h 1) (h 2 + 256 * h 3) (h 0x0B) (h 0x0A) (h 0x09) (h 0x08) (h 0x0E mod 128).

Lemma header_byte_range cfg b d f i : 0 <= header_byte cfg b d f i < 256.
Proof. apply Z.mod_pos_bound. lia. Qed.

Lemma from_address_spec cfg b d f : from_address cfg b d f =
  if decide (header_byte cfg b d f 0 = 0xFF /\ header_byte cfg b d f 1 = 0xFF) then None else Some (info_of cfg b d f).
Proof.
  unfold from_address, info_of. rewrite !pci_read_word_spec, !pci_read_byte_spec by done.
  change 0x7F with (Z.ones 7). rewrite Z.land_ones by lia. change (0 + 1) with 1. change (2 + 1) with 3.
  pose proof (header_byte_range cfg b d f 0). pose proof (header_byte_range cfg b d f 1).
  destruct (decide _) as [[-> ->]|Hne]; [done|]. rewrite (proj2 (Z.eqb_neq _ _)); [done|lia].
Qed.

Lemma func_mask_spec cfg b d : func_mask cfg b d + 1 = if has_bits (header_byte cfg b d 0 0x0E) 0x80 then 8 else 2.
Proof. unfold func_mask. rewrite pci_read_byte_spec by lia. by case_goal. Qed.

Lemma enumerate_elem cfg dev : dev ∈ (seqZ 0 256 ≫= scan_bus cfg) <-> exists b d f, answers cfg b d f /\ dev = info_of cfg b d f.
Proof.
  unfold scan_bus. rewrite list_elem_of_bind. setoid_rewrite list_elem_of_bind. setoid_rewrite scan_device_elem.
  setoid_rewrite elem_of_seqZ. setoid_rewrite from_address_spec. split.
  - intros (b & (d & (f & Hf & E) & Hd) & Hb). exists b, d, f. pose proof (func_mask_spec cfg b d) as Hm.
    destruct (decide _) as [|Hne]; [done|]. injection E as <-. split; [|done].
    split; [lia|]. split; [lia|]. split; [lia|]. split; [|done]. case_goal; lia.
  - intros (b & d & f & (Hb & Hd & H0 & Hf & Hv) & ->). exists b. split; [|lia]. exists d. split; [|lia]. exists f.
    pose proof (func_mask_spec cfg b d) as Hm. rewrite decide_False by done. split; [|done]. case_hyp Hf; lia.
Qed.

Lemma enumerate_sorted cfg : StronglySorted Z.lt (scan_key <$> (seqZ 0 256 ≫= scan_bus cfg)).
Proof.
  assert (forall b d dev, dev ∈ scan_device cfg b d -> exists f, 0 <= f < 8 /\ scan_key dev = b * 256 + d * 8 + f) as Hk.
  { intros b d dev (f & Hf & E%from_address_inv)%scan_device_elem. pose proof (func_mask_bound cfg b d).
    exists f. injection E as <- <- <-. split; [lia|done]. }
  apply (sorted_bind _ _ 0 256); [apply seqZ_sorted| |].
  - intros b Hb. apply (sorted_bind _ _ (b * 256) 8); [apply seqZ_sorted|intros; apply sorted_omap, seqZ_sorted|].
    intros d dev _ Hdev. destruct (Hk _ _ _ Hdev) as (f & Hf & ->). lia.
  - intros b dev _ (d & Hdev & Hd%elem_of_seqZ)%list_elem_of_bind. destruct (Hk _ _ _ Hdev) as (f & Hf & ->). lia.
Qed.

(** C38: The first enumeration of the bus lists exactly the functions that
    answer: each one once, in the order of the scan, with the vendor, device,
    class and revision that the bytes of its configuration header hold.  The
    list is made once: enumerating again changes nothing.  Of a device that
    does not say it has several functions the first two are asked, not only
    the first. *)
Theorem pci_enumeration_exact p : pci_scanned p = false ->
  (forall dev, dev ∈ device_list (enumerate_pci p) <-> exists b d f, answers (pci_bus p) b d f /\ dev = info_of (pci_bus p) b d f) /\
  StronglySorted Z.lt (scan_key <$> device_list (enumerate_pci p)) /\
  enumerate_pci (enumerate_pci p) = enumerate_pci p.
Proof.
  intros Hs. unfold enumerate_pci at 1 2. rewrite Hs. split; [|split].
  - intros dev. apply enumerate_elem.
  - apply enumerate_sorted.
  - unfold enumerate_pci. by rewrite Hs.
Qed.

(** One bus with a host bridge and, at device 3, a card of one function that
    answers to every function number. *)
Definition sample_bus (a : Z) : Z :=
  if a =? 0x80000000 then 0x12378086 else if a =? 0x80000008 then 0x06000002
  else if (a =? 0x80001800) || (a =? 0x80001900) then 0x100E8086
  else if (a =? 0x80001808) || (a =? 0x80001908) then 0x02000003
  else if a & 0xFF =? 0 then 0xFFFFFFFF else 0.

Lemma pci_enumeration_exact_witness :
  address <$> device_list (enumerate_pci (Pci_new sample_bus)) = [(0, 0, 0); (0, 3, 0); (0, 3, 1)] /\
  enumerate_pci (enumerate_pci (Pci_new sample_bus)) = enumerate_pci (Pci_new sample_bus).
Proof.
  split; [vm_compute; reflexivity|]. apply (pci_enumeration_exact (Pci_new sample_bus)). reflexivity.
Defined.
