(* ===== verification/Bench.v ===== *)
(** * Boot-time stamps ([bench.rs])

    The cycle counts recorded at the phases of the boot and the report made
    of them.  The time-stamp counter is read by the hardware: the value read
    is an argument of [stamp]. *)

From Stdlib Require Import Ascii String.
From S2P Require Import Prelude Update Fmt.

Inductive Phase :=
| KernelEntry | PmmDone | PagingDone | GdtDone | IdtDone | SyscallDone | PitDone | HeapDone | RamfsDone | ShellReady.

Definition label (p : Phase) : list Z :=
  match p with
  | KernelEntry => lit "kernel entry"
  | PmmDone => lit "pmm init"
  | PagingDone => lit "paging init"
  | GdtDone => lit "gdt init"
  | IdtDone => lit "idt init"
  | SyscallDone => lit "syscall init"
  | PitDone => lit "pit init"
  | HeapDone => lit "heap smoke-test"
  | RamfsDone => lit "ramfs + elf load"
  | ShellReady => lit "shell ready"
  end.

Definition index (p : Phase) : Z :=
  match p with
  | KernelEntry => 0 | PmmDone => 1 | PagingDone => 2 | GdtDone => 3 | IdtDone => 4
  | SyscallDone => 5 | PitDone => 6 | HeapDone => 7 | RamfsDone => 8 | ShellReady => 9
  end.

Definition NUM_PHASES : nat := 10.

Record Bench := mkBench { bootloader_tsc : Z; stamps : list Z }.

#[export] Instance eta_bench : Eta Bench := fun b => mkBench (bootloader_tsc b) (stamps b).

Definition Bench_new : Bench := mkBench 0 (replicate NUM_PHASES 0).

Definition stamp (phase : Phase) (tsc : Z) (b : Bench) : Bench := b <| stamps := zset (stamps b) (index phase) tsc |>.

Definition set_bootloader_tsc (tsc : Z) (b : Bench) : Bench := b <| bootloader_tsc := tsc |>.

(** ** The report *)

(** The stamp of phase [i]; the array has ten. *)
Definition stamp_at (b : Bench) (i : Z) : Z := default 0 (zget (stamps b) i).

(** The last stamp before phase [i] that was recorded, or [p]. *)
Fixpoint last_before (b : Bench) (j : nat) (p : Z) : Z :=
  match j with
  | O => p
  | S j => if 0 <? stamp_at b (Z.of_nat j) then stamp_at b (Z.of_nat j) else last_before b j p
  end.

Definition prev_stamp (b : Bench) (i : nat) : Z :=
  let s := stamp_at b (Z.of_nat i) in
  match i with
  | O => if 0 <? bootloader_tsc b then bootloader_tsc b else s
  | _ => last_before b i s
  end.

Definition delta (b : Bench) (i : nat) : Z := sat_sub64 (stamp_at b (Z.of_nat i)) (prev_stamp b i).

Definition phase_of (i : nat) : list Z :=
  match i with
  | 0 => label KernelEntry | 1 => label PmmDone | 2 => label PagingDone | 3 => label GdtDone | 4 => label IdtDone
  | 5 => label SyscallDone | 6 => label PitDone | 7 => label HeapDone | 8 => label RamfsDone | 9 => label ShellReady
  | _ => lit "unknown"
  end%nat.

Definition phase_line (b : Bench) (i : nat) : list Z :=
  if stamp_at b (Z.of_nat i) =? 0 then []
  else pad_right 22 (phase_of i) ++ lit ": " ++ dec (delta b i) ++ lit " cycles" ++ newline.

(** The last phase that was recorded. *)
Fixpoint last_phase (b : Bench) (j : nat) : option nat :=
  match j with
  | O => None
  | S j => if 0 <? stamp_at b (Z.of_nat j) then Some j else last_phase b j
  end.

(** The arrow of the first line is three bytes of UTF-8. *)
Definition report (b : Bench) : list Z :=
  let bl := bootloader_tsc b in
  let kernel_entry := stamp_at b (index KernelEntry) in
  let rule := lit "------------------------" ++ newline in
  lit "Boot timing (TSC cycles)" ++ newline ++ rule ++
  (if (0 <? bl) && (bl <? kernel_entry) then
     lit "bootloader " ++ [0xE2; 0x86; 0x92] ++ lit " kernel entry : " ++ dec (kernel_entry - bl) ++ lit " cycles" ++ newline
   else []) ++
  (seq 0 NUM_PHASES ≫= phase_line b) ++
  match last_phase b NUM_PHASES with
  | Some li =>
      let last := stamp_at b (Z.of_nat li) in
      if (kernel_entry <? last) && (0 <? kernel_entry) then
        rule ++ lit "total kernel init         : " ++ dec (last - kernel_entry) ++ lit " cycles" ++ newline
      else []
  | None => []
  end.

(** ** The times of the report add up *)

(** The stamps recorded so far, the boot loader's first, are in order. *)
Definition in_order (b : Bench) (n : nat) : Prop :=
  0 < stamp_at b 0 /\ forall i, (0 < i < n)%nat -> 0 < stamp_at b (Z.of_nat i) -> prev_stamp b i <= stamp_at b (Z.of_nat i).

Definition shown (b : Bench) (i : nat) : Z := if stamp_at b (Z.of_nat i) =? 0 then 0 else delta b i.

Lemma last_before_some b j p : (0 < j)%nat -> 0 < stamp_at b 0 -> last_before b j p = last_before b j 0.
Proof.
  induction j as [|[|j] IH]; intros Hj H0; [lia| |].
  - cbn. rewrite (proj2 (Z.ltb_lt _ _)) by done. done.
  - cbn [last_before] in *. rewrite IH by (done || lia). done.
Qed.

(** The lines of the phases after the entry of the kernel show times that add
    up to the time between that entry and the last phase recorded. *)
Lemma report_adds_up b n : in_order b (S n) -> (forall i, 0 <= stamp_at b i) ->
  foldr Z.add 0 (shown b <$> seq 1 n) = last_before b (S n) 0 - stamp_at b 0.
Proof.
  intros [H0 Hin] Hpos. induction n as [|n IH].
  - cbn [seq fmap list_fmap foldr last_before]. change (Z.of_nat 0) with 0. rewrite (proj2 (Z.ltb_lt _ _)) by done. lia.
  - rewrite seq_S, fmap_app, foldr_app. cbn [fmap list_fmap foldr].
    assert (forall l z, foldr Z.add z l = foldr Z.add 0 l + z) as Hfold by (intros l z; induction l; cbn; lia).
    rewrite Hfold, IH by (intros; apply Hin; done || lia). change (1 + n)%nat with (S n).
    change (last_before b (S (S n)) 0) with
      (if 0 <? stamp_at b (Z.of_nat (S n)) then stamp_at b (Z.of_nat (S n)) else last_before b (S n) 0).
    unfold shown, delta. pose proof (Hpos (Z.of_nat (S n))) as Hn. destruct (Z.ltb_spec 0 (stamp_at b (Z.of_nat (S n)))) as [Hs|Hs].
    + rewrite (proj2 (Z.eqb_neq _ _)) by lia. pose proof (Hin (S n) ltac:(lia) Hs) as Hp.
      unfold sat_sub64. unfold prev_stamp in *.
      pose proof (last_before_some b (S n) (stamp_at b (Z.of_nat (S n))) ltac:(lia) H0). lia.
    + rewrite (proj2 (Z.eqb_eq _ _)) by lia. lia.
Qed.
