(* ===== verification/Result.v ===== *)
(** * System-call results ([syscall/result.rs]) and the kernel's effects

    A system call either returns a value, fails with a [SysError], or panics
    the kernel (an index out of range, an [expect] on [None]; the kernel is
    built with [panic = "abort"]).  An error return keeps the state changes
    made before it, so the state is threaded through the error as well. *)

From S2P Require Import Prelude.

Inductive SysError :=
| Again | BadFd | Child | Fault | Invalid | NoEntry | NoMem | NoSys
| AddrFamilyNotSupported | Access | NotSeekable | NotTty | Range | TimedOut | Unsupported.

#[export] Instance SysError_eq_dec : EqDecision SysError.
Proof. solve_decision. Defined.

Definition errno_code (e : SysError) : Z :=
  match e with
  | BadFd => 9
  | Again => 11
  | Child => 10
  | Fault => 14
  | Invalid => 22
  | NoEntry => 2
  | NoMem => 12
  | NoSys => 38
  | AddrFamilyNotSupported => 97
  | Access => 13
  | NotSeekable => 29
  | NotTty => 25
  | Range => 34
  | TimedOut => 110
  | Unsupported => 95
  end.

(** [(-(code as i64)) as u64]. *)
Definition errno (e : SysError) : Z := wrap64 (- errno_code e).

(** ** The effect: state, error, panic *)

Inductive Out (S A : Type) : Type :=
| OOk (a : A) (s : S)
| OErr (e : SysError) (s : S)
| OPanic.
Arguments OOk {S A} a s.
Arguments OErr {S A} e s.
Arguments OPanic {S A}.

Definition M (S A : Type) : Type := S -> Out S A.

Section Monad.
Context {S : Type}.

Definition retM {A} (a : A) : M S A := fun s => OOk a s.

Definition bindM {A B} (m : M S A) (f : A -> M S B) : M S B :=
  fun s => match m s with
           | OOk a s' => f a s'
           | OErr e s' => OErr e s'
           | OPanic => OPanic
           end.

Definition errM {A} (e : SysError) : M S A := fun s => OErr e s.
Definition panicM {A} : M S A := fun _ => OPanic.
Definition getM : M S S := fun s => OOk s s.
Definition putM (s : S) : M S unit := fun _ => OOk tt s.
Definition modifyM (f : S -> S) : M S unit := fun s => OOk tt (f s).

(** [result::ensure(c, e)?] and [result::option(o, e)?]. *)
Definition ensure (c : bool) (e : SysError) : M S unit := if c then retM tt else errM e.
Definition option_ok {A} (o : option A) (e : SysError) : M S A :=
  match o with Some a => retM a | None => errM e end.

(** [o.unwrap()], [o.expect(..)], [a[i]]. *)
Definition unwrap {A} (o : option A) : M S A :=
  match o with Some a => retM a | None => panicM end.

(** [for x in l]. *)
Fixpoint forM {A} (l : list A) (f : A -> M S unit) : M S unit :=
  match l with
  | [] => retM tt
  | x :: l' => bindM (f x) (fun _ => forM l' f)
  end.
End Monad.

Notation "'let*' x ':=' c 'in' k" := (bindM c (fun x => k))
  (at level 10, x pattern, c at level 100, k at level 200) : coreos_scope.
Notation "c ';;;' k" := (bindM c (fun _ => k))
  (at level 100, k at level 200, right associativity) : coreos_scope.

(** A computation on a part of the state. *)
Definition zoom {S T A} (get : S -> T) (set : T -> S -> S) (m : M T A) : M S A :=
  fun s => match m (get s) with
           | OOk a t => OOk a (set t s)
           | OErr e t => OErr e (set t s)
           | OPanic => OPanic
           end.

(** ** Preservation of a state predicate *)

Definition preserves {S A} (I : S -> Prop) (m : M S A) : Prop :=
  forall s, I s -> match m s with
                   | OOk _ s' => I s'
                   | OErr _ s' => I s'
                   | OPanic => True
                   end.

Section Preserves.
Context {S : Type} (I : S -> Prop).

Lemma preserves_ret {A} (a : A) : preserves I (retM a).
Proof. intros s H. done. Qed.

Lemma preserves_err {A} e : preserves I (errM e : M S A).
Proof. intros s H. done. Qed.

Lemma preserves_panic {A} : preserves I (panicM : M S A).
Proof. intros s H. done. Qed.

Lemma preserves_bind {A B} (m : M S A) (f : A -> M S B) :
  preserves I m -> (forall a, preserves I (f a)) -> preserves I (bindM m f).
Proof.
  intros Hm Hf s Hs. unfold bindM. specialize (Hm s Hs).
  destruct (m s); [apply Hf|..]; done.
Qed.

Lemma preserves_get_bind {A} (f : S -> M S A) :
  (forall s, I s -> match f s s with
                    | OOk _ s' => I s' | OErr _ s' => I s' | OPanic => True end) ->
  preserves I (bindM getM f).
Proof. intros H s Hs. apply (H s Hs). Qed.

Lemma preserves_modify f : (forall s, I s -> I (f s)) -> preserves I (modifyM f).
Proof. intros H s Hs. by apply H. Qed.

Lemma preserves_ensure c e : preserves I (ensure c e).
Proof. intros s H. unfold ensure. by destruct c. Qed.

Lemma preserves_option_ok {A} (o : option A) e : preserves I (option_ok o e).
Proof. intros s H. unfold option_ok. by destruct o. Qed.

Lemma preserves_unwrap {A} (o : option A) : preserves I (unwrap o).
Proof. intros s H. unfold unwrap. by destruct o. Qed.

Lemma preserves_if {A} (b : bool) (m n : M S A) :
  preserves I m -> preserves I n -> preserves I (if b then m else n).
Proof. by destruct b. Qed.

Lemma preserves_forM {A} (l : list A) (f : A -> M S unit) :
  (forall x, preserves I (f x)) -> preserves I (forM l f).
Proof.
  intros H. induction l as [|x l IH]; simpl; [apply preserves_ret|].
  apply preserves_bind; auto.
Qed.
End Preserves.

#[export] Hint Resolve preserves_ret preserves_err preserves_panic preserves_bind
  preserves_ensure preserves_option_ok preserves_unwrap preserves_if preserves_forM : coreos.

(** Loop invariant of [for i in lo..lo+n]. *)
Lemma forM_seqZ_inv {S} (P : Z -> S -> Prop) (Q : Prop) lo n (f : Z -> M S unit) s :
  0 <= n -> P lo s ->
  (forall i s, lo <= i < lo + n -> P i s ->
     match f i s with OOk _ s' => P (i + 1) s' | OErr _ _ => False | OPanic => Q end) ->
  match forM (seqZ lo n) f s with OOk _ s' => P (lo + n) s' | OErr _ _ => False | OPanic => Q end.
Proof.
  intros Hn. revert lo s. pattern n. apply natlike_ind; [| |done]; clear n Hn.
  - intros lo s Hs _. simpl. by rewrite Z.add_0_r.
  - intros n Hn IH lo s Hs Hstep. rewrite seqZ_cons by lia. replace (Z.pred (Z.succ n)) with n by lia.
    simpl. unfold bindM. pose proof (Hstep lo s ltac:(lia) Hs) as H.
    destruct (f lo s) as [u s'|e s'|]; [|done..].
    replace (lo + Z.succ n) with (Z.succ lo + n) by lia. apply IH; [done|].
    intros i s1 Hi. apply Hstep. lia.
Qed.

Lemma getM_bind {S A} (f : S -> M S A) s : bindM getM f s = f s s.
Proof. done. Qed.

(** Running the first step of a sequence. *)
Lemma bind_ok {S A B} (m : M S A) (f : A -> M S B) s a s' : m s = OOk a s' -> bindM m f s = f a s'.
Proof. intros H. unfold bindM. by rewrite H. Qed.

(** ** The error codes *)

(** Every error is reported as a value in the last page of the
    64-bit range, and different errors as different values. *)
Lemma errno_range e : U64 - 4095 <= errno e < U64.
Proof. destruct e; vm_compute; split; congruence. Qed.

Lemma errno_code_inj e1 e2 : errno_code e1 = errno_code e2 -> e1 = e2.
Proof. destruct e1, e2; done. Qed.

Lemma errno_inj e1 e2 : errno e1 = errno e2 -> e1 = e2.
Proof. destruct e1, e2; vm_compute; congruence. Qed.
