(* ===== verification/Rtc.v ===== *)
(** * The real-time clock ([hw/rtc.rs])

    The chip is a function [cmos]: the value of a register at the [n]-th read
    of its data port.  The driver waits until no update is running and reads
    the time twice until both readings agree. *)

From S2P Require Import Prelude Update Result.

(** The number of reads of the port so far. *)
Abbreviation Port := nat (only parsing).

Section Rtc.
Context (cmos : nat -> Z -> Z).

Definition read_port (reg : Z) : M Port Z := fun n => OOk (cmos n reg) (S n).

(** [(val & 0x0F) + ((val / 16) * 10)], in [u8]. *)
Definition decode_bcd (val : Z) : Z := wrap8 ((val & 0x0F) + wrap8 (val / 16 * 10)).

Definition is_updating : M Port bool :=
  let* status := read_port 0x0A in
  retM (negb ((status & 0x80) =? 0)).

(** [while is_updating() {}]: whether it ended within [fuel] rounds. *)
Fixpoint wait_idle (fuel : nat) : M Port bool :=
  match fuel with
  | O => retM false
  | S fuel => let* busy := is_updating in if busy then wait_idle fuel else retM true
  end.

(** Hours, minutes and seconds, in this order. *)
Definition read_time : M Port (Z * Z * Z) :=
  let* h := read_port 0x04 in
  let* m := read_port 0x02 in
  let* s := read_port 0x00 in
  retM (decode_bcd h, decode_bcd m, decode_bcd s).

(** The loop; [None]: it has not ended within [fuel] rounds. *)
Fixpoint time_loop (fuel : nat) : M Port (option (Z * Z * Z)) :=
  match fuel with
  | O => retM None
  | S n =>
      let* t1 := read_time in
      let* idle := wait_idle fuel in
      if negb idle then retM None
      else
        let* t2 := read_time in
        if bool_decide (t1 = t2) then retM (Some t1) else time_loop n
  end.

Definition get_time (fuel : nat) : M Port (option (Z * Z * Z)) :=
  let* idle := wait_idle fuel in
  if negb idle then retM None else time_loop fuel.
End Rtc.

(** ** Binary-coded decimal *)

Definition bcd (n : Z) : Z := n / 10 * 16 + n mod 10.

Lemma decode_bcd_bcd n : 0 <= n < 100 -> decode_bcd (bcd n) = n.
Proof.
  intros Hn. assert (forallb (fun n => decode_bcd (bcd n) =? n) (seqZ 0 100) = true) as H by (vm_compute; reflexivity).
  rewrite forallb_forall in H. apply Z.eqb_eq, H, list_elem_of_In, elem_of_seqZ. lia.
Qed.

(** ** Reading a clock *)

(** In the [w] reads from [q] on, the chip shows the time [(h, m, s)] and is
    not updating. *)
Definition quiet (cmos : nat -> Z -> Z) (q w : nat) (h m s : Z) : Prop :=
  forall n, (q <= n < q + w)%nat ->
    cmos n 0x04 = bcd h /\ cmos n 0x02 = bcd m /\ cmos n 0x00 = bcd s /\ (cmos n 0x0A & 0x80) = 0.

(** What the driver reads from the [n]-th read on. *)
Definition reading (cmos : nat -> Z -> Z) (n : nat) : Z * Z * Z :=
  (decode_bcd (cmos n 0x04), decode_bcd (cmos (S n) 0x02), decode_bcd (cmos (S (S n)) 0x00)).

Lemma read_time_run cmos n : read_time cmos n = OOk (reading cmos n) (S (S (S n))).
Proof. reflexivity. Qed.

Section Quiet.
Context (cmos : nat -> Z -> Z) (q : nat) (h m s : Z).
Context (Hq : quiet cmos q 13 h m s) (Hh : 0 <= h < 100) (Hm : 0 <= m < 100) (Hs : 0 <= s < 100).

Lemma quiet_reading n : (q <= n <= q + 10)%nat -> reading cmos n = (h, m, s).
Proof.
  intros Hn. unfold reading. destruct (Hq n ltac:(lia)) as (-> & _). destruct (Hq (S n) ltac:(lia)) as (_ & -> & _).
  destruct (Hq (S (S n)) ltac:(lia)) as (_ & _ & -> & _). by rewrite !decode_bcd_bcd.
Qed.

(** The wait ends: when the window opens, if not before, and inside the
    window at once. *)
Lemma wait_idle_ends fuel : forall n, (n < q + 13)%nat -> (q < n + fuel)%nat -> (0 < fuel)%nat ->
  exists n', wait_idle cmos fuel n = OOk true n' /\ (n < n' <= Nat.max (S n) (S q))%nat.
Proof.
  induction fuel as [|fuel IH]; intros n Hw Hn Hf; [lia|]. cbn [wait_idle].
  rewrite (bind_ok _ _ n (negb ((cmos n 0x0A & 0x80) =? 0)) (S n)) by done.
  destruct (Z.eqb_spec (cmos n 0x0A & 0x80) 0) as [E|E]; cbn [negb]; [exists (S n); split; [done|lia]|].
  assert (n < q)%nat by (destruct (Nat.lt_ge_cases n q) as [|Hge]; [done|destruct (Hq n ltac:(lia)) as (_ & _ & _ & E'); done]).
  destruct (IH (S n)) as (n' & E' & Hlt); [lia..|]. exists n'. split; [done|lia].
Qed.

(** One of the times shown twice, in separate readings [n1] and [n2] of which
    the second follows a status read that shows no update. *)
Definition settled (n n' : nat) (t : Z * Z * Z) : Prop :=
  exists n1 n2, (n <= n1)%nat /\ (n1 + 3 < n2)%nat /\ (n2 + 3 = n')%nat /\ reading cmos n1 = t /\ reading cmos n2 = t.

(** A round that starts before the window is over by its sixth read, and the
    next one fits into the rest of the window. *)
Lemma time_loop_ends fuel : forall n, (n <= q + 6)%nat -> (q + 13 <= n + fuel)%nat ->
  exists t n', time_loop cmos fuel n = OOk (Some t) n' /\ settled n n' t /\ (n' <= q + 13)%nat.
Proof.
  induction fuel as [|fuel IH]; intros n Hn Hf; [lia|]. cbn [time_loop]. rewrite (bind_ok _ _ _ _ _ (read_time_run cmos n)).
  destruct (wait_idle_ends (S fuel) (S (S (S n)))) as (n1 & E1 & Hn1); [lia..|]. rewrite (bind_ok _ _ _ _ _ E1). cbn [negb].
  rewrite (bind_ok _ _ _ _ _ (read_time_run cmos n1)). case_bool_decide as Eq.
  - exists (reading cmos n), (S (S (S n1))). split; [done|]. split; [|lia]. exists n, n1. split_and!; [lia|lia|lia|done|done].
  - assert (n < q)%nat by (destruct (Nat.lt_ge_cases n q); [done|]; rewrite !quiet_reading in Eq by lia; done).
    destruct (IH (S (S (S n1)))) as (t & n' & E & (n3 & n4 & H3 & H4 & H5) & Hle); [lia|lia|].
    exists t, n'. split; [done|]. split; [|done]. exists n3, n4. split_and!; [lia|lia|apply H5..].
Qed.
End Quiet.


(** A running clock: its seconds advance every forty reads, and it reports an
    update during the last five of them. *)
Definition sample_cmos (n : nat) (reg : Z) : Z :=
  let second := Z.of_nat (n / 40) in
  if reg =? 0x0A then (if (n mod 40 <? 35)%nat then 0x26 else 0xA6)
  else if reg =? 0x00 then bcd (second mod 60)
  else if reg =? 0x02 then bcd (second / 60 mod 60)
  else bcd (second / 3600 mod 24).

