(* ===== verification/UserShell.v ===== *)
(** * The user shell ([user/shell.c])

    The line editor, the tokenizer, the variables and the built-in commands
    of the program the kernel starts.  The line buffer is modelled byte by
    byte because the tokenizer works in it: an access outside of it is
    undefined behaviour in C and ends the model ([OPanic]).  Strings are lists
    of bytes without the terminator. *)

From Stdlib Require Import String.
From S2P Require Import Prelude Mem Update Fmt Result.

Definition LINE_BUF : Z := 256.
Definition MAX_ARGS : Z := 16.
Definition MAX_ENV : Z := 16.
Definition NAME_LEN : Z := 32.
Definition VALUE_LEN : Z := 128.

(** What [strlcpy_local] leaves in a buffer of [dst_len] bytes. *)
Definition strlcpy_local (src : list Z) (dst_len : Z) : list Z := take (Z.to_nat (dst_len - 1)) src.

(** ** Variables *)

Record shell_var := mkVar { sv_used : bool; sv_name : list Z; sv_value : list Z }.
Abbreviation Vars := (list shell_var).
Definition vars_new : Vars := replicate (Z.to_nat MAX_ENV) (mkVar false [] []).

Definition streq (a b : list Z) : bool := bool_decide (a = b).

(** The index stands for the pointer. *)
Definition find_var (name : list Z) (vs : Vars) : option nat :=
  position (fun v => sv_used v && streq (sv_name v) name) vs.

Definition get_var (name : list Z) (vs : Vars) : list Z :=
  match find_var name vs with
  | Some i => from_option sv_value [] (vs !! i)
  | None => []
  end.

(** The index of the variable and the table after a free entry was taken. *)
Definition claim_var (name : list Z) (vs : Vars) : option nat * Vars :=
  match find_var name vs with
  | Some i => (Some i, vs)
  | None =>
      match position (fun v => negb (sv_used v)) vs with
      | None => (None, vs)
      | Some i => (Some i, alter (fun v => mkVar true (strlcpy_local name NAME_LEN) (sv_value v)) i vs)
      end
  end.

Definition set_var (name value : list Z) (vs : Vars) : Vars :=
  match claim_var name vs with
  | (Some i, vs) => alter (fun v => mkVar (sv_used v) (sv_name v) (strlcpy_local value VALUE_LEN)) i vs
  | (None, vs) => vs
  end.

Definition unset_var (name : list Z) (vs : Vars) : Vars :=
  match find_var name vs with
  | Some i => alter (fun _ => mkVar false [] []) i vs
  | None => vs
  end.

Definition init_shell_vars (cwd : option (list Z)) (vs : Vars) : Vars :=
  let vs := set_var (lit "PS1") (lit "$ ") vs in
  let vs := set_var (lit "HOME") (lit "/") vs in
  set_var (lit "PWD") (from_option (fun cwd => cwd) (lit "/") cwd) vs.

(** ** Reading a line *)

(** [read(fd, &c, 1)] gives the bytes of [input] one by one, [None] an error
    or the end of the file; the line and the input left. *)
Fixpoint read_loop (room : nat) (input : list (option Z)) (used : list Z) : list Z * list (option Z) :=
  match room with
  | O => (used, input)
  | S _ =>
      match input with
      | [] => (used, [])
      | None :: input => (used, input)
      | Some c :: input =>
          if c =? 0x0A then (used, input)
          else if c =? 0x0D then read_loop room input used
          else read_loop (pred room) input (used ++ [c])
      end
  end.

Definition read_line (input : list (option Z)) (len : Z) : list Z * list (option Z) :=
  if len =? 0 then ([], input) else read_loop (Z.to_nat (len - 1)) input [].

(** ** The line buffer *)

Definition Line (A : Type) : Type := M (list Z) A.

Definition rd (i : Z) : Line Z := let* line := getM in unwrap (zget line i).
Definition wr (i c : Z) : Line unit :=
  let* _ := rd i in modifyM (fun line => zset line i c).

(** [memcpy(dst, src, copy); dst[copy] = '\0']. *)
Fixpoint wr_string (i : Z) (s : list Z) : Line unit :=
  match s with
  | [] => wr i 0
  | c :: s => wr i c ;;; wr_string (i + 1) s
  end.

(** The string at [i]: the bytes up to the terminator. *)
Fixpoint c_string (s : list Z) : list Z :=
  match s with
  | [] => []
  | c :: s => if c =? 0 then [] else c :: c_string s
  end.
Definition str_at (line : list Z) (i : Z) : list Z := c_string (drop (Z.to_nat i) line).

(** ** Tokens *)

(** The text of [$?]: at most twelve digits. *)
Definition status_text (value : Z) : list Z :=
  if value =? 0 then lit "0"
  else if value <? 0 then 0x2D :: rev (rev_digits 10 12 (- value)) else rev (rev_digits 10 12 value).

Definition expand_token (vs : Vars) (last_status : Z) (token token_len : Z) : Line unit :=
  let* c := rd token in
  if negb (c =? 0x24) then retM tt
  else
    let* line := getM in
    let text := str_at line token in
    if streq text (lit "$?") then wr_string token (strlcpy_local (status_text last_status) token_len)
    else wr_string token (strlcpy_local (get_var (drop 1 text) vs) token_len).

Definition is_blank (c : Z) : bool := (c =? 0x20) || (c =? 0x09).
Definition is_quote (c : Z) : bool := (c =? 0x27) || (c =? 0x22).

(** [while ( *src == ' ' || *src == '\t') src++]. *)
Fixpoint skip_blanks (n : nat) (src : Z) : Line Z :=
  match n with
  | O => retM src
  | S n => let* c := rd src in if is_blank c then skip_blanks n (src + 1) else retM src
  end.

(** The loop that copies one token to its start: [src] and [dst] at its end. *)
Fixpoint token_loop (n : nat) (src dst quote : Z) : Line (Z * Z) :=
  match n with
  | O => retM (src, dst)
  | S n =>
      let* c := rd src in
      if c =? 0 then retM (src, dst)
      else if (quote =? 0) && is_blank c then retM (src, dst)
      else if is_quote c && (quote =? 0) then token_loop n (src + 1) dst c
      else if is_quote c && (quote =? c) then token_loop n (src + 1) dst 0
      else
        let* c' := if c =? 0x5C then rd (src + 1) else retM 0 in
        let src := if (c =? 0x5C) && negb (c' =? 0) then src + 1 else src in
        let* c := rd src in
        wr dst c ;;;
        token_loop n (src + 1) (dst + 1) quote
  end.

(** One token, copied, terminated and expanded; where the scan goes on. *)
Definition one_token (vs : Vars) (last_status : Z) (len : nat) (start : Z) : Line Z :=
  let* (src, dst) := token_loop len start start 0 in
  wr dst 0 ;;;
  expand_token vs last_status start VALUE_LEN ;;;
  retM src.

(** The loop over the tokens; [n] is the room in [argv]. *)
Fixpoint tokenize_loop (vs : Vars) (last_status : Z) (n : nat) (src : Z) : Line (list Z) :=
  match n with
  | O => retM []
  | S n =>
      let* line := getM in
      let* c := rd src in
      if c =? 0 then retM []
      else
        let* start := skip_blanks (length line) src in
        let* c := rd start in
        if c =? 0 then retM []
        else
          let* src := one_token vs last_status (length line) start in
          let* c := rd src in
          let* src := if c =? 0 then retM src else wr src 0 ;;; retM (src + 1) in
          let* argv := tokenize_loop vs last_status n src in
          retM (start :: argv)
  end.

(** [argv] as offsets into the line. *)
Definition tokenize (vs : Vars) (last_status : Z) : Line (list Z) :=
  tokenize_loop vs last_status (Z.to_nat (MAX_ARGS - 1)) 0.

(** ** Built-in commands *)

Record Shell := mkShell { sh_vars : Vars; sh_status : Z; sh_out : list Z }.

#[export] Instance eta_shell : Eta Shell := fun s => mkShell (sh_vars s) (sh_status s) (sh_out s).

(** [write(STDOUT_FILENO, ..)] and [printf]. *)
Definition emit (bytes : list Z) (s : Shell) : Shell := s <| sh_out := sh_out s ++ bytes |>.
Definition with_vars (f : Vars -> Vars) (s : Shell) : Shell := s <| sh_vars := f (sh_vars s) |>.

(** A command returns its status; [exit] ends the program with a code. *)
Inductive Ran := Returned (status : Z) | Exited (code : Z).

Fixpoint parse_digits (s : list Z) (value : Z) : Z :=
  match s with
  | [] => value
  | c :: s => if (0x30 <=? c) && (c <=? 0x39) then parse_digits s (value * 10 + (c - 0x30)) else value
  end.

(** The digits that fit an [int]; more are undefined behaviour. *)
Definition parse_status (s : list Z) : Z :=
  match s with
  | 0x2D :: s => - parse_digits s 0
  | _ => parse_digits s 0
  end.

Definition sep (i : nat) : list Z := match i with O => [] | S _ => [0x20] end.
Definition builtin_echo (args : list (list Z)) (s : Shell) : Ran * Shell :=
  (Returned 0, emit (mjoin (imap (fun i a => sep i ++ a) args) ++ newline) s).

Section Commands.
(** The system calls of the C library: the working directory, [chdir], and
    the two PCI calls. *)
Context (getcwd : option (list Z)) (chdir : list Z -> bool) (pci_list : option (list Z)) (pci_test : Z).

Definition builtin_pwd (s : Shell) : Ran * Shell :=
  match getcwd with
  | None => (Returned 1, emit (lit "pwd: failed" ++ newline) s)
  | Some cwd => (Returned 0, with_vars (set_var (lit "PWD") cwd) (emit (cwd ++ newline) s))
  end.

Definition builtin_cd (args : list (list Z)) (s : Shell) : Ran * Shell :=
  let target := match args with [] => get_var (lit "HOME") (sh_vars s) | a :: _ => a end in
  let target := match target with [] => lit "/" | _ => target end in
  if negb (chdir target) then (Returned 1, emit (lit "cd: " ++ target ++ lit ": not found" ++ newline) s)
  else (Returned 0, match getcwd with Some cwd => with_vars (set_var (lit "PWD") cwd) s | None => s end).

Definition list_vars (prefix : list Z) (vs : Vars) : list Z :=
  mjoin ((fun v => if sv_used v then prefix ++ sv_name v ++ [0x3D] ++ sv_value v ++ newline else []) <$> vs).

(** The name before the first [=], and the value after it. *)
Fixpoint split_eq (s : list Z) : list Z * option (list Z) :=
  match s with
  | [] => ([], None)
  | c :: s => if c =? 0x3D then ([], Some s) else let (n, v) := split_eq s in (c :: n, v)
  end.

Definition export_one (vs : Vars) (arg : list Z) : Vars :=
  match split_eq arg with
  | (_, None) => match find_var arg vs with None => set_var arg [] vs | Some _ => vs end
  | (name, Some value) => set_var name value vs
  end.

Definition builtin_export (args : list (list Z)) (s : Shell) : Ran * Shell :=
  match args with
  | [] => (Returned 0, emit (list_vars (lit "export ") (sh_vars s)) s)
  | _ => (Returned 0, with_vars (fun vs => fold_left export_one args vs) s)
  end.

Definition builtin_unset (args : list (list Z)) (s : Shell) : Ran * Shell :=
  (Returned 0, with_vars (fun vs => fold_left (fun vs a => unset_var a vs) args vs) s).

Definition builtin_set (s : Shell) : Ran * Shell := (Returned 0, emit (list_vars [] (sh_vars s)) s).

Definition builtin_exit (args : list (list Z)) (s : Shell) : Ran * Shell :=
  (Exited (match args with [] => sh_status s | a :: _ => parse_status a end), s).

Definition builtin_help (s : Shell) : Ran * Shell :=
  (Returned 0, emit (lit "Builtins: : true false echo pwd cd export unset set exit help" ++ newline) s).

(** [%ld]. *)
Definition signed_dec (v : Z) : list Z := if v <? 0 then 0x2D :: dec (- v) else dec v.

(** [argv] as strings. *)
Definition run_builtin (argv : list (list Z)) (s : Shell) : Ran * Shell :=
  match argv with
  | [] => (Returned 0, s)
  | cmd :: args =>
      if streq cmd (lit ":") then (Returned 0, s)
      else if streq cmd (lit "true") then (Returned 0, s)
      else if streq cmd (lit "false") then (Returned 1, s)
      else if streq cmd (lit "echo") then builtin_echo args s
      else if streq cmd (lit "pwd") then builtin_pwd s
      else if streq cmd (lit "cd") then builtin_cd args s
      else if streq cmd (lit "export") then builtin_export args s
      else if streq cmd (lit "unset") then builtin_unset args s
      else if streq cmd (lit "set") then builtin_set s
      else if streq cmd (lit "exit") then builtin_exit args s
      else if streq cmd (lit "help") then builtin_help s
      else if streq cmd (lit "pci") then (Returned 0, match pci_list with Some text => emit text s | None => s end)
      else if streq cmd (lit "pci_test") then
        (Returned (as_i32 (wrap32 pci_test)),
         emit ((if pci_test =? 0 then lit "PCI self-test: PASS"
                else lit "PCI self-test: " ++ signed_dec pci_test ++ lit " failure(s)") ++ newline) s)
      else (Returned 127, emit (cmd ++ lit ": not found" ++ newline) s)
  end.

(** ** The main loop *)

(** The buffer after [read_line]. *)
Definition line_buffer (text old : list Z) : list Z := text ++ [0] ++ drop (S (length text)) old.

(** One round: the prompt, a line, its tokens, the command.  A code means
    that the program ended with it. *)
Definition shell_round (line : list Z) (input : list (option Z)) (s : Shell) : Out (list Z) (option Z * list (option Z) * Shell) :=
  let s := emit (get_var (lit "PS1") (sh_vars s)) s in
  let (text, input) := read_line input LINE_BUF in
  match text with
  | [] => OOk (None, input, s) (line_buffer [] line)
  | _ =>
      match tokenize (sh_vars s) (sh_status s) (line_buffer text line) with
      | OOk argv line =>
          match run_builtin (str_at line <$> argv) s with
          | (Returned st, s) => OOk (None, input, s <| sh_status := st |>) line
          | (Exited code, s) => OOk (Some code, input, s) line
          end
      | OErr e line => OErr e line
      | OPanic => OPanic
      end
  end.
End Commands.

(** ** The tokens of a line *)

(** One word as the copying loop reads it: the word without its quotes and
    backslashes, and the rest of the line. *)
Fixpoint lex (quote : Z) (s : list Z) : list Z * list Z :=
  match s with
  | [] => ([], [])
  | c :: s' =>
      if (quote =? 0) && is_blank c then ([], s)
      else if is_quote c && (quote =? 0) then lex c s'
      else if is_quote c && (quote =? c) then lex 0 s'
      else
        match s' with
        | c' :: s'' =>
            if c =? 0x5C then let (w, r) := lex quote s'' in (c' :: w, r) else let (w, r) := lex quote s' in (c :: w, r)
        | [] => ([c], [])
        end
  end.

Fixpoint trim (s : list Z) : list Z :=
  match s with
  | [] => []
  | c :: s' => if is_blank c then trim s' else s
  end.

(** The words the tokenizer finds.  A word that lost no quote or backslash is
    terminated on top of the blank after it, and there the scan ends. *)
Fixpoint words_of (n : nat) (s : list Z) : list (list Z) :=
  match n with
  | O => []
  | S n =>
      match trim s with
      | [] => []
      | s =>
          let (w, r) := lex 0 s in
          match r with
          | [] => [w]
          | _ :: r' => if (length w + length r =? length s)%nat then [w] else w :: words_of n r'
          end
      end
  end.

Lemma rd_at l i c s : 0 <= i -> drop (Z.to_nat i) l = c :: s -> rd i l = OOk c l.
Proof.
  intros Hi E. unfold rd. rewrite getM_bind. unfold zget. rewrite (proj2 (Z.leb_le _ _)) by lia.
  assert (l !! Z.to_nat i = Some c) as ->; [|done].
  rewrite <- (Nat.add_0_r (Z.to_nat i)), <- lookup_drop, E. done.
Qed.

Lemma drop_next (l : list Z) i c s : 0 <= i -> drop (Z.to_nat i) l = c :: s -> drop (Z.to_nat (i + 1)) l = s.
Proof. intros Hi E. rewrite Z2Nat.inj_add, <- drop_drop, E by lia. done. Qed.

Lemma drop_length_at (l : list Z) i c s : 0 <= i -> drop (Z.to_nat i) l = c :: s -> i < Z.of_nat (length l).
Proof. intros Hi E. pose proof (f_equal length E) as H. rewrite length_drop in H. cbn [length] in H. lia. Qed.

Lemma wr_at l i c : 0 <= i < Z.of_nat (length l) -> wr i c l = OOk tt (zset l i c).
Proof.
  intros Hi. unfold wr. destruct (zget_is_Some l i Hi) as [x Hx].
  rewrite (bind_ok (rd i) _ l x l); [done|]. unfold rd. by rewrite getM_bind, Hx.
Qed.

(** What the loop leaves: the word at [dst], the rest of the line at [src']. *)
Definition copied (tl l : list Z) (src dst : Z) (len : nat) (w r l' : list Z) (src' dst' : Z) : Prop :=
  src' + Z.of_nat (length r) = src + Z.of_nat len /\ dst' = dst + Z.of_nat (length w) /\ dst' <= src' /\
  length l' = length l /\ drop (Z.to_nat src') l' = r ++ 0 :: tl /\
  take (Z.to_nat dst) l' = take (Z.to_nat dst) l /\ take (length w) (drop (Z.to_nat dst) l') = w /\
  Forall (fun c => c <> 0) w /\ Forall (fun c => c <> 0) r.

(** One byte is copied down, then the loop goes on. *)
Lemma copied_cons tl l src src2 dst c (s : list Z) w r l' src' dst' :
  0 <= dst <= src2 -> src <= src2 -> src2 < Z.of_nat (length l) -> c <> 0 ->
  copied tl (zset l dst c) (src2 + 1) (dst + 1) (length s) w r l' src' dst' ->
  copied tl l src dst (Z.to_nat (src2 - src) + S (length s)) (c :: w) r l' src' dst'.
Proof.
  intros Hd Hsrc Hlen Hc (H1 & H2 & H3 & H4 & H5 & H6 & H7 & H8 & H9). unfold copied. cbn [length].
  rewrite length_zset in H4. split_and!; [lia|lia|done|done|done| | |by constructor|done].
  - apply (f_equal (take (Z.to_nat dst))) in H6. rewrite !take_take in H6. rewrite !Nat.min_l in H6 by lia.
    rewrite H6. unfold zset. by rewrite take_insert_ge.
  - assert (l' !! Z.to_nat dst = Some c) as Hx.
    { rewrite <- (lookup_take_lt l' (Z.to_nat (dst + 1))) by lia. rewrite H6, lookup_take_lt by lia. apply list_lookup_insert_eq. lia. }
    rewrite (drop_S _ _ _ Hx). cbn [take]. f_equal. by replace (S (Z.to_nat dst)) with (Z.to_nat (dst + 1)) by lia.
Qed.

Lemma token_loop_spec tl n : forall l src dst quote s w r,
  0 <= dst <= src -> drop (Z.to_nat src) l = s ++ 0 :: tl -> Forall (fun c => c <> 0) s -> (length s <= n)%nat ->
  lex quote s = (w, r) ->
  exists l' src' dst', token_loop n src dst quote l = OOk (src', dst') l' /\ copied tl l src dst (length s) w r l' src' dst'.
Proof.
  induction n as [|n IH]; intros l src dst quote s w r Hd Hs Hnz Hn Hl.
  - destruct s; [|cbn in Hn; lia]. injection Hl as <- <-. exists l, src, dst. split; [done|]. unfold copied. split_and!; try done; cbn [length]; lia.
  - cbn [token_loop]. destruct s as [|c s'].
    { injection Hl as <- <-. rewrite (bind_ok _ _ _ _ _ (rd_at l src 0 tl ltac:(lia) Hs)). cbn [Z.eqb].
      exists l, src, dst. split; [done|]. unfold copied. split_and!; try done; cbn [length]; lia. }
    cbn [app] in Hs. rewrite (bind_ok _ _ _ _ _ (rd_at l src c _ ltac:(lia) Hs)).
    apply Forall_cons_1 in Hnz as [Hc Hnz]. rewrite (proj2 (Z.eqb_neq _ _) Hc). cbn [lex] in Hl. cbn [length] in Hn |- *.
    pose proof (drop_next l src c _ ltac:(lia) Hs) as Hs1. pose proof (drop_length_at l src c _ ltac:(lia) Hs) as Hlen.
    destruct ((quote =? 0) && is_blank c).
    { injection Hl as <- <-. exists l, src, dst. split; [done|]. unfold copied. split_and!; try done; cbn [length]; try lia. by constructor. }
    assert (forall q, lex q s' = (w, r) -> exists l' src' dst', token_loop n (src + 1) dst q l = OOk (src', dst') l' /\
      copied tl l src dst (S (length s')) w r l' src' dst') as Hskip.
    { intros q Hq. destruct (IH l (src + 1) dst q s' w r ltac:(lia) Hs1 Hnz ltac:(lia) Hq) as (l' & src' & dst' & E & C1 & C).
      exists l', src', dst'. split; [exact E|]. split; [lia|exact C]. }
    destruct (is_quote c && (quote =? 0)); [by apply Hskip|]. destruct (is_quote c && (quote =? c)); [by apply Hskip|]. clear Hskip.
    assert (forall src2 x s2 w2, src <= src2 -> drop (Z.to_nat src2) l = x :: s2 ++ 0 :: tl -> x <> 0 -> Forall (fun c => c <> 0) s2 ->
      (length s2 <= n)%nat -> lex quote s2 = (w2, r) -> w = x :: w2 ->
      exists l' src' dst', (let* c := rd src2 in wr dst c ;;; token_loop n (src2 + 1) (dst + 1) quote) l = OOk (src', dst') l' /\
        copied tl l src dst (Z.to_nat (src2 - src) + S (length s2)) w r l' src' dst') as Hcopy.
    { intros src2 x s2 w2 Hsrc Hx Hx0 Hs2 Hn2 Hl2 ->. pose proof (drop_length_at l src2 x _ ltac:(lia) Hx) as Hlen2.
      rewrite (bind_ok _ _ _ _ _ (rd_at l src2 x _ ltac:(lia) Hx)), (bind_ok _ _ _ _ _ (wr_at l dst x ltac:(lia))).
      destruct (IH (zset l dst x) (src2 + 1) (dst + 1) quote s2 w2 r) as (l' & src' & dst' & E & C); [lia| |done|done|done|].
      { unfold zset. rewrite drop_insert_lt by lia. exact (drop_next l src2 x _ ltac:(lia) Hx). }
      exists l', src', dst'. split; [exact E|]. by apply copied_cons; [lia|lia| | |]. }
    destruct (Z.eqb_spec c 0x5C) as [->|Hbs]; cbn [andb].
    + destruct s' as [|c' s''].
      * injection Hl as <- <-. rewrite (bind_ok _ _ _ _ _ (rd_at l (src + 1) 0 tl ltac:(lia) Hs1)). cbn [Z.eqb negb].
        replace (S (@length Z [])) with (Z.to_nat (src - src) + S (@length Z []))%nat by lia.
        apply (Hcopy src 0x5C [] []); done || lia.
      * apply Forall_cons_1 in Hnz as [Hc' Hnz]. cbn [app] in Hs1. rewrite (bind_ok _ _ _ _ _ (rd_at l (src + 1) c' _ ltac:(lia) Hs1)).
        rewrite (proj2 (Z.eqb_neq _ _) Hc'). cbn [negb]. destruct (lex quote s'') as [w2 r2] eqn:E2. injection Hl as <- <-.
        cbn [length] in *. replace (S (S (length s''))) with (Z.to_nat (src + 1 - src) + S (length s''))%nat by lia.
        apply (Hcopy (src + 1) c' s'' w2); done || lia.
    + rewrite (bind_ok (retM 0) _ l 0 l eq_refl).
      replace (S (length s')) with (Z.to_nat (src - src) + S (length s'))%nat by lia.
      destruct s' as [|c' s'']; [injection Hl as <- <-; apply (Hcopy src c [] []); done || lia|].
      destruct (lex quote (c' :: s'')) as [w2 r2] eqn:E2. injection Hl as <- <-. apply (Hcopy src c (c' :: s'') w2); done || lia.
Qed.

Lemma c_string_at w s : Forall (fun c => c <> 0) w -> c_string (w ++ 0 :: s) = w.
Proof.
  induction 1 as [|c w Hc _ IH]; [done|]. cbn [app c_string]. by rewrite (proj2 (Z.eqb_neq _ _) Hc), IH.
Qed.

Lemma str_at_word l i w : 0 <= i -> take (length w) (drop (Z.to_nat i) l) = w -> l !! (Z.to_nat i + length w)%nat = Some 0 ->
  Forall (fun c => c <> 0) w -> str_at l i = w.
Proof.
  intros Hi Hw H0 Hnz. unfold str_at. rewrite <- (take_drop (length w) (drop (Z.to_nat i) l)), Hw, drop_drop.
  rewrite (drop_S _ _ _ H0). by apply c_string_at.
Qed.

Lemma trim_spec s : (length (trim s) <= length s)%nat /\ forall P, Forall P s -> Forall P (trim s).
Proof.
  induction s as [|c s [IH1 IH2]]; [done|]. cbn [trim]. case_goal; cbn [length]; split; try lia; try done.
  intros P HP. apply IH2. by apply Forall_cons_1 in HP as [_ HP].
Qed.

Lemma skip_blanks_spec tl l n : forall src s, 0 <= src -> drop (Z.to_nat src) l = s ++ 0 :: tl -> (length s <= n)%nat ->
  exists src', skip_blanks n src l = OOk src' l /\ src' + Z.of_nat (length (trim s)) = src + Z.of_nat (length s) /\
    drop (Z.to_nat src') l = trim s ++ 0 :: tl.
Proof.
  induction n as [|n IH]; intros src s Hsrc Hs Hn; cbn [skip_blanks].
  - destruct s; [by exists src|cbn [length] in Hn; lia].
  - destruct s as [|c s].
    { rewrite (bind_ok _ _ _ _ _ (rd_at l src 0 tl Hsrc Hs)). by exists src. }
    cbn [app] in Hs. rewrite (bind_ok _ _ _ _ _ (rd_at l src c _ Hsrc Hs)). cbn [trim]. destruct (is_blank c); [|by exists src].
    destruct (IH (src + 1) s) as (src' & E & H1 & H2); [lia|exact (drop_next l src c _ Hsrc Hs)|cbn [length] in Hn; lia|].
    exists src'. split_and!; [done|cbn [length]; lia|done].
Qed.

(** What holds of the bytes of a line holds of its words. *)
Lemma lex_Forall (P : Z -> Prop) n : forall quote s w r, (length s <= n)%nat -> lex quote s = (w, r) -> Forall P s -> Forall P w /\ Forall P r.
Proof.
  induction n as [|n IH]; intros quote s w r Hn Hl HP; (destruct s as [|c s]; [by injection Hl as <- <-|]); cbn [length] in Hn; [lia|].
  cbn [lex] in Hl. destruct (_ && is_blank c); [by injection Hl as <- <-|]. apply Forall_cons_1 in HP as [Hc HP].
  destruct (is_quote c && (quote =? 0)); [eapply IH; [|exact Hl|done]; lia|].
  destruct (is_quote c && (quote =? c)); [eapply IH; [|exact Hl|done]; lia|].
  destruct s as [|c' s]; [injection Hl as <- <-; split; by repeat constructor|].
  destruct (c =? 0x5C).
  - destruct (lex quote s) as [w2 r2] eqn:E. injection Hl as <- <-. apply Forall_cons_1 in HP as [Hc' HP]. cbn [length] in Hn.
    destruct (IH quote s w2 r2 ltac:(lia) E HP). split; [by constructor|done].
  - destruct (lex quote (c' :: s)) as [w2 r2] eqn:E. injection Hl as <- <-.
    destruct (IH quote (c' :: s) w2 r2 ltac:(lia) E HP). split; [by constructor|done].
Qed.

(** A byte of a line that is neither the terminator nor a dollar sign. *)
Definition plain (c : Z) : Prop := c <> 0 /\ c <> 0x24.

Lemma expand_plain vs st l i c : 0 <= i -> l !! Z.to_nat i = Some c -> c <> 0x24 -> expand_token vs st i VALUE_LEN l = OOk tt l.
Proof.
  intros Hi Hc Hne. unfold expand_token. rewrite (bind_ok _ _ _ _ _ (rd_at l i c _ Hi (drop_S _ _ _ Hc))).
  by rewrite (proj2 (Z.eqb_neq _ _) Hne).
Qed.

Lemma one_token_spec vs st tl l start s w r :
  0 <= start -> drop (Z.to_nat start) l = s ++ 0 :: tl -> Forall (fun c => c <> 0) s -> lex 0 s = (w, r) -> head w <> Some 0x24 ->
  exists l1 src, one_token vs st (length l) start l = OOk src l1 /\ length l1 = length l /\
    take (Z.to_nat start) l1 = take (Z.to_nat start) l /\ src + Z.of_nat (length r) = start + Z.of_nat (length s) /\
    start + Z.of_nat (length w) <= src < Z.of_nat (length l1) /\
    take (length w) (drop (Z.to_nat start) l1) = w /\ l1 !! (Z.to_nat start + length w)%nat = Some 0 /\ Forall (fun c => c <> 0) w /\
    drop (Z.to_nat src) l1 = if start + Z.of_nat (length w) =? src then 0 :: drop 1 (r ++ 0 :: tl) else r ++ 0 :: tl.
Proof.
  intros Hst Hs Hnz Hl Hhd. pose proof (f_equal length Hs) as Hlen. rewrite length_drop, length_app in Hlen. cbn [length] in Hlen.
  destruct (token_loop_spec tl (length l) l start start 0 s w r ltac:(lia) Hs Hnz ltac:(lia) Hl)
    as (l' & src & dst & E & C1 & C2 & C3 & C4 & C5 & C6 & C7 & C8 & C9).
  pose proof (f_equal length C5) as Hlen'. rewrite length_drop, length_app in Hlen'. cbn [length] in Hlen'.
  assert (Z.to_nat dst = Z.to_nat start + length w)%nat as Hdst by lia.
  unfold one_token. rewrite (bind_ok _ _ _ _ _ E). cbv beta iota. rewrite (bind_ok _ _ _ _ _ (wr_at l' dst 0 ltac:(lia))).
  set (l1 := zset l' dst 0).
  assert (l1 !! Z.to_nat dst = Some 0) as H0 by (apply list_lookup_insert_eq; lia).
  assert (take (length w) (drop (Z.to_nat start) l1) = w) as Hw.
  { unfold l1, zset. rewrite drop_insert_ge, take_insert_ge by lia. exact C7. }
  rewrite (bind_ok (expand_token _ _ _ _) _ l1 tt l1).
  2: { assert (exists c, l1 !! Z.to_nat start = Some c /\ c <> 0x24) as (c & Hc & Hne).
       { destruct w as [|c w]; [exists 0; split; [|done]; rewrite <- H0; f_equal; cbn [length] in Hdst; lia|].
         exists c. split; [|cbn in Hhd; congruence].
         rewrite <- (Nat.add_0_r (Z.to_nat start)), <- lookup_drop, <- (lookup_take_lt _ (length (c :: w))), Hw by (cbn [length]; lia). done. }
       by apply (expand_plain vs st l1 start c). }
  exists l1, src. unfold l1. rewrite length_zset. fold l1. split_and!; try done; try lia.
  - unfold l1, zset. by rewrite take_insert_ge by lia.
  - by rewrite <- Hdst.
  - destruct (Z.eqb_spec (start + Z.of_nat (length w)) src) as [Eq|Ne].
    + assert (dst = src) as <- by lia. rewrite (drop_S _ _ _ H0). f_equal. unfold l1, zset. rewrite drop_insert_lt by lia.
      rewrite <- C5, drop_drop. f_equal. lia.
    + unfold l1, zset. by rewrite drop_insert_lt by lia.
Qed.

Lemma tokenize_loop_nil vs st n l src x : 0 <= src -> drop (Z.to_nat src) l = 0 :: x -> tokenize_loop vs st n src l = OOk [] l.
Proof. intros Hsrc Hs. destruct n; [done|]. cbn [tokenize_loop]. by rewrite getM_bind, (bind_ok _ _ _ _ _ (rd_at l src 0 x Hsrc Hs)). Qed.

Lemma tokenize_loop_spec vs st tl n : forall l src s,
  0 <= src -> drop (Z.to_nat src) l = s ++ 0 :: tl -> Forall plain s ->
  exists l' argv, tokenize_loop vs st n src l = OOk argv l' /\ length l' = length l /\
    take (Z.to_nat src) l' = take (Z.to_nat src) l /\ str_at l' <$> argv = words_of n s.
Proof.
  induction n as [|n IH]; intros l src s Hsrc Hs HP; cbn [words_of].
  { exists l, []. done. }
  destruct s as [|c0 s0]; [exists l, []; rewrite (tokenize_loop_nil vs st _ l src tl Hsrc Hs); done|]. set (s := c0 :: s0) in *.
  cbn [tokenize_loop]. rewrite getM_bind, (bind_ok _ _ _ _ _ (rd_at l src c0 _ Hsrc Hs)).
  assert (c0 <> 0) as Hc0 by (by apply Forall_cons_1 in HP as [[? _] _]). rewrite (proj2 (Z.eqb_neq _ _) Hc0).
  pose proof (f_equal length Hs) as Hlen. rewrite length_drop, length_app in Hlen. cbn [length] in Hlen.
  destruct (skip_blanks_spec tl l (length l) src s Hsrc Hs ltac:(lia)) as (start & Esk & Hstart & Hs1). rewrite (bind_ok _ _ _ _ _ Esk).
  destruct (trim_spec s) as [Htl Htf]. specialize (Htf plain HP). destruct (trim s) as [|c1 s1].
  { rewrite (bind_ok _ _ _ _ _ (rd_at l start 0 tl ltac:(lia) Hs1)). exists l, []. done. }
  rewrite (bind_ok _ _ _ _ _ (rd_at l start c1 _ ltac:(lia) Hs1)).
  assert (c1 <> 0) as Hc1 by (by apply Forall_cons_1 in Htf as [[? _] _]). rewrite (proj2 (Z.eqb_neq _ _) Hc1).
  destruct (lex 0 (c1 :: s1)) as [w r] eqn:Hl. destruct (lex_Forall plain _ _ _ _ _ (le_n _) Hl Htf) as [HPw HPr].
  assert (Forall (fun c => c <> 0) (c1 :: s1)) as Hnz1 by (eapply List.Forall_impl; [|exact Htf]; by intros c []).
  assert (head w <> Some 0x24) as Hhd by (destruct w as [|c w]; [done|]; apply Forall_cons_1 in HPw as [[_ ?] _]; cbn; congruence).
  destruct (one_token_spec vs st tl l start (c1 :: s1) w r ltac:(lia) Hs1 Hnz1 Hl Hhd)
    as (l1 & src1 & E1 & L1 & T1 & S1 & B1 & W1 & Z1 & Nz & D1). rewrite (bind_ok _ _ _ _ _ E1).
  assert (forall l' k, (Z.to_nat start + length w < k)%nat -> take k l' = take k l1 ->
    str_at l' start = w /\ take (Z.to_nat src) l' = take (Z.to_nat src) l) as Hkeep.
  { intros l' k Hk Ht. assert (forall j, (j <= k)%nat -> take j l' = take j l1) as Hj.
    { intros j Hj. rewrite <- (Nat.min_l j k), <- !take_take, Ht by lia. done. }
    split; [apply str_at_word; [lia| | |done]|].
    - by rewrite take_drop_commute, Hj, <- take_drop_commute by lia.
    - rewrite <- (lookup_take_lt l' k), Ht, lookup_take_lt by lia. done.
    - rewrite Hj by lia. apply (f_equal (take (Z.to_nat src))) in T1. rewrite !take_take, !Nat.min_l in T1 by lia. exact T1. }
  destruct r as [|c2 r']; [|destruct (Z.eqb_spec (start + Z.of_nat (length w)) src1) as [Eq|Ne]].
  - assert (drop (Z.to_nat src1) l1 = 0 :: tl) as D by (by destruct (_ =? src1) in D1).
    rewrite (bind_ok _ _ _ _ _ (rd_at l1 src1 0 _ ltac:(lia) D)). rewrite (bind_ok (retM src1) _ l1 src1 l1 eq_refl).
    rewrite (bind_ok _ _ _ _ _ (tokenize_loop_nil vs st n l1 src1 _ ltac:(lia) D)). exists l1, [start].
    destruct (Hkeep l1 (length l1)) as [K1 K2]; [lia|done|]. split_and!; [done|done|done|]. cbn. by rewrite K1.
  - rewrite (bind_ok _ _ _ _ _ (rd_at l1 src1 0 _ ltac:(lia) D1)). rewrite (bind_ok (retM src1) _ l1 src1 l1 eq_refl).
    rewrite (bind_ok _ _ _ _ _ (tokenize_loop_nil vs st n l1 src1 _ ltac:(lia) D1)). exists l1, [start].
    destruct (Hkeep l1 (length l1)) as [K1 K2]; [lia|done|]. split_and!; [done|done|done|].
    rewrite (proj2 (Nat.eqb_eq _ _)) by lia. cbn. by rewrite K1.
  - apply Forall_cons_1 in HPr as [[Hc2 _] HPr]. cbn [app] in D1. rewrite (bind_ok _ _ _ _ _ (rd_at l1 src1 c2 _ ltac:(lia) D1)).
    rewrite (proj2 (Z.eqb_neq _ _) Hc2). rewrite (bind_ok _ _ l1 (src1 + 1) (zset l1 src1 0)).
    2: { by rewrite (bind_ok _ _ _ _ _ (wr_at l1 src1 0 ltac:(lia))). }
    destruct (IH (zset l1 src1 0) (src1 + 1) r') as (l' & argv & E' & L' & T' & W'); [lia| |done|].
    { unfold zset. rewrite drop_insert_lt by lia. exact (drop_next l1 src1 c2 _ ltac:(lia) D1). }
    rewrite (bind_ok _ _ _ _ _ E'). exists l', (start :: argv). rewrite length_zset in L'.
    destruct (Hkeep l' (Z.to_nat src1)) as [K1 K2]; [lia| |].
    { apply (f_equal (take (Z.to_nat src1))) in T'. rewrite !take_take, !Nat.min_l in T' by lia. rewrite T'. unfold zset. by rewrite take_insert_ge. }
    split_and!; [done|congruence|done|]. rewrite (proj2 (Nat.eqb_neq _ _)) by (cbn [length] in *; lia). cbn [fmap list_fmap]. by rewrite K1, <- W'.
Qed.

(** C19: The in-place tokenizer against its list specification.  On a
    line without dollar signs it never leaves the buffer and the strings at
    the offsets it returns are [words_of] the line: quotes and backslashes
    are removed by copying each word down over itself, a word is never
    damaged by the ones after it, and the scan ends after the first word
    from which nothing was removed, because its terminator overwrites the
    blank the scan would have gone on from. *)
Theorem tokenize_exact vs st s pad :
  Forall plain s ->
  exists l argv, tokenize vs st (s ++ 0 :: pad) = OOk argv l /\ length l = length (s ++ 0 :: pad) /\
    str_at l <$> argv = words_of 15 s.
Proof.
  intros HP. destruct (tokenize_loop_spec vs st pad 15 (s ++ 0 :: pad) 0 s) as (l & argv & E & L & _ & W); [done|done|done|].
  by exists l, argv.
Qed.

Lemma tokenize_exact_witness :
  exists l argv, tokenize [] 0 (lit "'a b' c d" ++ 0 :: replicate 246 0) = OOk argv l /\ str_at l <$> argv = [lit "a b"; lit "c"].
Proof.
  destruct (tokenize_exact [] 0 (lit "'a b' c d") (replicate 246 0)) as (l & argv & E & _ & W).
  - repeat constructor; discriminate.
  - exists l, argv. split; [exact E|]. rewrite W. vm_compute. reflexivity.
Defined.

(** A byte the copying loop takes as it is. *)
Definition word_byte (c : Z) : Prop := c <> 0 /\ is_blank c = false /\ is_quote c = false /\ c <> 0x5C.

Lemma lex_word w b rest : Forall word_byte w -> is_blank b = true -> lex 0 (w ++ b :: rest) = (w, b :: rest).
Proof.
  intros Hw Hb. induction Hw as [|c w (_ & Hc & Hq & Hs) _ IH]; [cbn; by rewrite Hb|]. cbn [app lex]. rewrite Hc, Hq, andb_false_r. cbn [andb].
  rewrite (proj2 (Z.eqb_neq _ _) Hs), IH. by destruct (w ++ b :: rest) eqn:E; [destruct w|].
Qed.

Lemma trim_blanks bs w s : Forall (fun c => is_blank c = true) bs -> w <> [] -> Forall word_byte w -> trim (bs ++ w ++ s) = w ++ s.
Proof.
  intros Hbs Hne Hw. induction Hbs as [|b bs Hb _ IH]; cbn [app trim]; [|by rewrite Hb].
  destruct w as [|c w]; [done|]. apply Forall_cons_1 in Hw as [(_ & Hc & _) _]. cbn [app trim]. by rewrite Hc.
Qed.

(** C39: A command never gets its arguments.  When the first word of a line
    has no quote and no backslash and does not start with a dollar sign, its
    terminator replaces the blank after it, the scan takes that for the end
    of the line, and the word is the only one the tokenizer returns, whatever
    comes after it. *)
Theorem tokenize_drops_arguments vs st blanks w b rest pad :
  Forall (fun c => is_blank c = true) blanks -> w <> [] -> Forall word_byte w -> head w <> Some 0x24 ->
  is_blank b = true -> Forall (fun c => c <> 0) rest ->
  exists l, tokenize vs st (blanks ++ w ++ b :: rest ++ 0 :: pad) = OOk [Z.of_nat (length blanks)] l /\
    str_at l (Z.of_nat (length blanks)) = w.
Proof.
  intros Hbs Hne Hw Hhd Hb Hr. set (line := blanks ++ w ++ b :: rest ++ 0 :: pad). set (s := blanks ++ w ++ b :: rest).
  assert (line = s ++ 0 :: pad) as Es by (unfold line, s; by rewrite <- !app_assoc).
  assert (forall c, is_blank c = true -> c <> 0) as Hbz by (intros c Hc ->; discriminate Hc).
  assert (Forall (fun c => c <> 0) (w ++ b :: rest)) as Hnz.
  { apply Forall_app. split; [eapply List.Forall_impl; [|exact Hw]; by intros c []|constructor; [by apply Hbz|done]]. }
  assert (length line = length s + S (length pad))%nat as Hlen by (by rewrite Es, length_app).
  destruct (skip_blanks_spec pad line (length line) 0 s ltac:(lia) Es ltac:(lia)) as (start & Esk & Hstart & Hs1).
  assert (trim s = w ++ b :: rest) as Et by (by apply trim_blanks). rewrite Et in Hs1, Hstart.
  assert (start = Z.of_nat (length blanks)) as Hst by (unfold s in Hstart; rewrite (length_app blanks) in Hstart; lia). clear Hstart.
  destruct (one_token_spec vs st pad line start (w ++ b :: rest) w (b :: rest) ltac:(lia) Hs1 Hnz (lex_word w b rest Hw Hb) Hhd)
    as (l1 & src & E1 & L1 & _ & S1 & B1 & W1 & Z1 & Nz & D1).
  rewrite length_app in S1. assert (start + Z.of_nat (length w) = src) as Esrc by lia. rewrite (proj2 (Z.eqb_eq _ _) Esrc) in D1.
  assert (exists c0 t, line = c0 :: t /\ c0 <> 0) as (c0 & t & E0 & Hc0).
  { unfold line. destruct blanks as [|c bs]; [destruct w as [|c w]; [done|]; apply Forall_cons_1 in Hnz as [? _]|
      apply Forall_cons_1 in Hbs as [? _]]; eexists c, _; (split; [reflexivity|auto]). }
  destruct w as [|c1 w1]; [done|]. pose proof Hnz as Hc1. apply Forall_cons_1 in Hc1 as [Hc1 _].
  exists l1. rewrite <- Hst. split; [|by apply str_at_word; [lia|..]].
  unfold tokenize. change (Z.to_nat (MAX_ARGS - 1)) with 15%nat. cbn [tokenize_loop]. rewrite getM_bind.
  rewrite (bind_ok _ _ _ _ _ (rd_at line 0 c0 t ltac:(lia) E0)), (proj2 (Z.eqb_neq _ _) Hc0), (bind_ok _ _ _ _ _ Esk).
  rewrite (bind_ok _ _ _ _ _ (rd_at line start c1 _ ltac:(lia) Hs1)), (proj2 (Z.eqb_neq _ _) Hc1), (bind_ok _ _ _ _ _ E1).
  rewrite (bind_ok _ _ _ _ _ (rd_at l1 src 0 _ ltac:(lia) D1)), (bind_ok (retM src) _ l1 src l1 eq_refl).
  by rewrite (bind_ok _ _ _ _ _ (tokenize_loop_nil vs st 14 l1 src _ ltac:(lia) D1)).
Qed.

(** Not even a variable after the word is looked at. *)
Lemma tokenize_drops_arguments_witness :
  exists l, tokenize [] 0 (lit "  echo $HOME 'a b'" ++ 0 :: replicate 237 0) = OOk [2] l /\ str_at l 2 = lit "echo".
Proof.
  apply (tokenize_drops_arguments [] 0 (lit "  ") (lit "echo") 0x20 (lit "$HOME 'a b'") (replicate 237 0)).
  all: first [discriminate | reflexivity | repeat constructor; discriminate].
Defined.

(** A variable can be longer than the room for it.  The value of a
    variable is copied over its name in the line buffer, up to 128 bytes
    whatever the room: with a value of 100 bytes, a line of 202 bytes that
    ends in the variable makes the shell write outside the buffer. *)
Theorem expand_overflows_line :
  let vs := set_var (lit "A") (replicate 100 0x78) vars_new in
  let line := replicate 200 0x20 ++ lit "$A" in
  tokenize vs 0 (line_buffer line (replicate 256 0)) = OPanic.
Proof. vm_compute. reflexivity. Qed.

(** ** Variables *)

Lemma position_alter_same {A} (p : A -> bool) (f : A -> A) l i x : l !! i = Some x -> p (f x) = true ->
  (forall j y, (j < i)%nat -> l !! j = Some y -> p y = false) -> position p (alter f i l) = Some i.
Proof.
  revert i. induction l as [|a l IH]; intros i Hx Hp Hlt; [done|]. destruct i as [|i]; cbn [alter list_alter position].
  - cbn in Hx. injection Hx as ->. by rewrite Hp.
  - rewrite (Hlt 0%nat a) by (done || lia). rewrite IH; [done|done|done|]. intros j y Hj Hy. apply (Hlt (S j) y); [lia|done].
Qed.

(** A variable that was set reads back, cut to 127 bytes; a name of 32 bytes
    or more is cut as well and never found again. *)
Lemma get_set_var name value vs :
  (length name < 32)%nat -> fst (claim_var name vs) <> None -> get_var name (set_var name value vs) = strlcpy_local value VALUE_LEN.
Proof.
  intros Hlen. unfold set_var, claim_var. set (p := fun v => sv_used v && streq (sv_name v) name).
  destruct (find_var name vs) as [i|] eqn:Ef; cbn [fst]; intros Hc.
  - destruct (position_Some _ _ _ Ef) as (x & Hx & Hp & Hlt). unfold get_var, find_var.
    rewrite (position_alter_same p _ vs i x Hx); [by rewrite list_lookup_alter_eq, Hx|exact Hp|exact Hlt].
  - destruct (position (fun v => negb (sv_used v)) vs) as [i|] eqn:Ep; [|done].
    destruct (position_Some _ _ _ Ep) as (x & Hx & _ & _). unfold get_var, find_var.
    set (vs1 := alter _ i vs). assert (vs1 !! i = Some (mkVar true name (sv_value x))) as Hx1.
    { unfold vs1. rewrite list_lookup_alter_eq, Hx. cbn. unfold strlcpy_local, NAME_LEN. rewrite take_ge by (change (Z.to_nat (32 - 1)) with 31%nat; lia). done. }
    rewrite (position_alter_same p _ vs1 i _ Hx1); [by rewrite list_lookup_alter_eq, Hx1| |].
    + unfold p. cbn [sv_used sv_name andb]. unfold streq. by rewrite bool_decide_true.
    + intros j y Hj Hy. unfold vs1 in Hy. rewrite list_lookup_alter_ne in Hy by lia. exact (position_None _ _ Ef j y Hy).
Qed.
