(* ===== verification/Logic.v ===== *)
(** * Reasoning about the kernel's effects

    [safe P I m Q]: from a state that satisfies the invariant [I], the
    computation [m] ends in a state that satisfies it, also when it returns an
    error; a value it returns satisfies [Q]; and it panics only if [P].  The
    rules follow the shape of the code, so the proof for an operation applies
    the lemmas of the operations it calls. *)

From S2P Require Import Prelude Result.

Create HintDb safe.

Section Safe.
Context {S : Type} (P : Prop) (I : S -> Prop).

Definition safe {A} (m : M S A) (Q : A -> Prop) : Prop :=
  forall s, I s -> match m s with OOk a s' => I s' /\ Q a | OErr _ s' => I s' | OPanic => P end.

Lemma safe_ret {A} (a : A) (Q : A -> Prop) : Q a -> safe (retM a) Q.
Proof. intros H s Hs. by split. Qed.

Lemma safe_err {A} e (Q : A -> Prop) : safe (errM e) Q.
Proof. intros s Hs. done. Qed.

Lemma safe_panic {A} (Q : A -> Prop) : P -> safe panicM Q.
Proof. intros H s Hs. done. Qed.

Lemma safe_get : safe getM I.
Proof. intros s Hs. by split. Qed.

Lemma safe_modify f : (forall s, I s -> I (f s)) -> safe (modifyM f) (fun _ => True).
Proof. intros H s Hs. split; [by apply H|done]. Qed.

Lemma safe_bind {A B} (m : M S A) (f : A -> M S B) (R : A -> Prop) (Q : B -> Prop) :
  safe m R -> (forall a, R a -> safe (f a) Q) -> safe (bindM m f) Q.
Proof.
  intros Hm Hf s Hs. unfold bindM. specialize (Hm s Hs).
  destruct (m s) as [a s'|e s'|]; [|done..]. destruct Hm as [Hs' Ha]. by apply Hf.
Qed.

Lemma safe_weaken {A} (m : M S A) (R Q : A -> Prop) : safe m R -> (forall a, R a -> Q a) -> safe m Q.
Proof.
  intros H HR s Hs. specialize (H s Hs). destruct (m s); [|done..]. destruct H. split; auto.
Qed.

Lemma safe_any {A} (m : M S A) (R : A -> Prop) : safe m R -> safe m (fun _ => True).
Proof. intros H. by apply (safe_weaken m R). Qed.

Lemma safe_ensure c e : safe (ensure c e) (fun _ => c = true).
Proof. intros s Hs. unfold ensure. by destruct c. Qed.

Lemma safe_option_ok {A} (o : option A) e : safe (option_ok o e) (fun a => o = Some a).
Proof. intros s Hs. unfold option_ok. by destruct o. Qed.

Lemma safe_unwrap {A} (o : option A) : (exists a, o = Some a) -> safe (unwrap o) (fun a => o = Some a).
Proof. intros [a ->] s Hs. done. Qed.

Lemma safe_unwrap_any {A} (o : option A) : P -> safe (unwrap o) (fun a => o = Some a).
Proof. intros HP s Hs. unfold unwrap. by destruct o. Qed.

Lemma safe_unwrap_some {A} (a : A) : safe (unwrap (Some a)) (fun x => x = a).
Proof. intros s Hs. done. Qed.

(** A loop over a list, the index satisfying a predicate. *)
Lemma safe_forM {A} (l : list A) (f : A -> M S unit) :
  (forall x, x ∈ l -> safe (f x) (fun _ => True)) -> safe (forM l f) (fun _ => True).
Proof.
  induction l as [|x l IH]; intros H; cbn [forM]; [by apply safe_ret|].
  apply (safe_bind _ _ (fun _ => True)); [apply H; set_solver|]. intros _ _. apply IH. intros y Hy. apply H. set_solver.
Qed.
End Safe.

(** The same from one state. *)
Definition safe_from {S A} (P : Prop) (I : S -> Prop) (s : S) (m : M S A) (Q : A -> Prop) : Prop :=
  match m s with OOk a s' => I s' /\ Q a | OErr _ s' => I s' | OPanic => P end.

Lemma safe_from_bind {S A B} (P : Prop) (I : S -> Prop) s (m : M S A) (f : A -> M S B) (R : A -> Prop) (Q : B -> Prop) :
  safe_from P I s m R -> (forall a, R a -> safe P I (f a) Q) -> safe_from P I s (bindM m f) Q.
Proof.
  unfold safe_from, bindM. intros Hm Hf. destruct (m s) as [a s'|e s'|]; [|done..]. destruct Hm as [Hs Ha]. by apply Hf.
Qed.

(** A computation that does not touch what the invariant is about. *)
Lemma safe_zoom {S T A} (P : Prop) (I : S -> Prop) (get : S -> T) (set : T -> S -> S) (m : M T A) :
  (forall s t, I s -> I (set t s)) -> (P \/ forall t, m t <> OPanic) -> safe P I (zoom get set m) (fun _ => True).
Proof.
  intros H HP s Hs. unfold zoom. destruct (m (get s)) eqn:E; [split; [by apply H|done]|by apply H|].
  destruct HP as [HP|HP]; [done|]. by destruct (HP (get s)).
Qed.

Arguments safe {S} P I {A} m Q.

#[export] Hint Resolve safe_get safe_ensure safe_option_ok safe_unwrap_some safe_err : safe.

(** One step: the rule for the head of the computation; the lemma of a called
    operation comes from the hint database. *)
Ltac safe_call := solve [eauto 3 with safe | eapply safe_any; eauto 3 with safe].

Ltac safe_step :=
  lazymatch goal with
  | |- safe _ _ (let _ := _ in _) _ => cbv zeta
  | |- safe _ _ (retM _) _ => apply safe_ret
  | |- safe _ _ (errM _) _ => apply safe_err
  | |- safe _ _ (bindM _ _) _ =>
      first [eapply safe_bind; [solve [eauto 3 with safe] | cbn beta; intros]
            |eapply (safe_bind _ _ _ _ (fun _ => True)); [|intros ? _]]
  | |- safe _ _ (if ?b then _ else _) _ => destruct b eqn:?
  | |- safe _ _ (match ?x with _ => _ end) _ => destruct x eqn:?
  | |- safe _ _ _ _ => safe_call
  end.

Ltac safe_go := repeat safe_step.
