(* ===== verification/Boot.v ===== *)
(** * Boot information ([boot.rs]) and its validation ([mem/validate.rs]) *)

From S2P Require Import Prelude Mem.

Record MemMapEntry := {
  physical_start : Z;
  num_pages : Z;
  mem_type : Z;
}.

Definition EFI_CONVENTIONAL_MEMORY : Z := 7.

Record CoreOS_BootInfo := {
  fb_base : Z; fb_size : Z;
  width : Z; height : Z; pitch : Z;
  mmap : list MemMapEntry;      (* [MemMapEntry; 256] *)
  mmap_count : Z;
  kernel_phys_base : Z; kernel_alloc_size : Z;
  user_elf_base : Z; user_elf_size : Z;
  font_base : Z; font_size : Z;
  tsc_bootloader_start : Z;
}.

(** The entries the loops [for i in 0..mmap_count] visit. *)
Definition entries (bi : CoreOS_BootInfo) : list MemMapEntry :=
  take (Z.to_nat (mmap_count bi)) (mmap bi).

Definition region_end (e : MemMapEntry) : Z := physical_start e +w num_pages e *w 4096.

Definition overlaps (e o : MemMapEntry) : bool :=
  (physical_start e <? region_end o) && (physical_start o <? region_end e).

(** The loop over [i], with the loop over [j in i+1..count]; [false] is the
    panic. *)
Fixpoint validate_entries (l : list MemMapEntry) : bool :=
  match l with
  | [] => true
  | e :: l' =>
      if negb (physical_start e mod 4096 =? 0) then false
      else if num_pages e =? 0 then false
      else if existsb (overlaps e) l' then false
      else validate_entries l'
  end.

Definition validate_mmap (bi : CoreOS_BootInfo) : bool :=
  if (mmap_count bi =? 0) || (256 <? mmap_count bi) then false
  else validate_entries (entries bi).

(** [boot_info_high_half]: the pointers of the boot information move to the
    direct map. *)
Definition boot_info_high_half (bi : CoreOS_BootInfo) : CoreOS_BootInfo :=
  {| fb_base := p2v (fb_base bi); fb_size := fb_size bi;
     width := width bi; height := height bi; pitch := pitch bi;
     mmap := mmap bi; mmap_count := mmap_count bi;
     kernel_phys_base := kernel_phys_base bi; kernel_alloc_size := kernel_alloc_size bi;
     user_elf_base := if user_elf_base bi =? 0 then user_elf_base bi else p2v (user_elf_base bi);
     user_elf_size := user_elf_size bi;
     font_base := if font_base bi =? 0 then font_base bi else p2v (font_base bi);
     font_size := font_size bi;
     tsc_bootloader_start := tsc_bootloader_start bi |}.

(** The byte range a region really covers. *)
Definition covers (e : MemMapEntry) (a : Z) : Prop :=
  physical_start e <= a < physical_start e + num_pages e * 4096.

(** A region that lies in the 64-bit physical space. *)
Definition region_fits (e : MemMapEntry) : Prop :=
  0 <= physical_start e /\ 0 <= num_pages e /\ physical_start e + num_pages e * 4096 < U64.

Lemma region_end_fits e : region_fits e -> region_end e = physical_start e + num_pages e * 4096.
Proof.
  intros (H1 & H2 & H3). unfold region_end. rewrite (wrap64_small (_ * _)) by lia.
  apply wrap64_small. lia.
Qed.

Lemma validate_entries_spec l :
  validate_entries l = true ->
  Forall (fun e => physical_start e mod 4096 = 0 /\ num_pages e <> 0) l /\
  ForallOrdPairs (fun e o => overlaps e o = false) l.
Proof.
  induction l as [|e l IH]; simpl; intros H; [split; constructor|].
  do 3 (case_hyp H; [done|]). apply IH in H as [H1 H2]. breflect. split.
  - constructor; auto.
  - constructor; [|done]. apply Forall_forall. intros o Ho.
    destruct (overlaps e o) eqn:E; [|done].
    match goal with H : existsb _ _ = false |- _ =>
      apply not_true_iff_false in H; destruct H end.
    apply existsb_exists. exists o. split; [first [done|by apply list_elem_of_In]|done].
Qed.

Lemma overlaps_false_disjoint e o a :
  region_fits e -> region_fits o -> overlaps e o = false -> covers e a -> covers o a -> False.
Proof.
  intros He Ho H Ha Hb. unfold overlaps in H. rewrite !region_end_fits in H by done.
  unfold covers in *. apply andb_false_iff in H as [H|H]; breflect; lia.
Qed.

(** a memory map that passes [validate_mmap] has page-aligned,
    non-empty regions, and no physical address lies in two of them (for
    regions that do not reach past the end of the 64-bit address space). *)
Theorem validate_mmap_sound bi i j e o :
  validate_mmap bi = true ->
  entries bi !! i = Some e -> entries bi !! j = Some o -> (i < j)%nat ->
  region_fits e -> region_fits o ->
  physical_start e mod 4096 = 0 /\ num_pages e <> 0 /\
  forall a, covers e a -> ~ covers o a.
Proof.
  unfold validate_mmap. intros H Hi Hj Hij He Ho. case_hyp H; [done|].
  apply validate_entries_spec in H as [H1 H2].
  destruct (Forall_lookup_1 _ _ _ _ H1 Hi) as [Ha Hn]. split_and!; [done..|].
  intros a Hea Hoa. eapply (overlaps_false_disjoint e o a); try done.
  clear -H2 Hi Hj Hij. revert i j Hi Hj Hij.
  induction H2 as [|x l Hx Hl IH]; intros i j Hi Hj Hij; [done|].
  destruct j as [|j]; [lia|]. simpl in Hj. destruct i as [|i]; simplify_eq/=.
  - by eapply Forall_lookup_1 in Hx.
  - apply (IH i j); auto with lia.
Qed.

Definition sample_entry (s n t : Z) : MemMapEntry :=
  {| physical_start := s; num_pages := n; mem_type := t |}.

Definition sample_boot_info : CoreOS_BootInfo :=
  {| fb_base := 0x80000000; fb_size := 0x300000; width := 1024; height := 768; pitch := 1024;
     mmap := [sample_entry 0 4 7; sample_entry 0x4000 2 2; sample_entry 0x8000 8 7]; mmap_count := 3;
     kernel_phys_base := 0x9000; kernel_alloc_size := 0x1800;
     user_elf_base := 0; user_elf_size := 0; font_base := 0; font_size := 0;
     tsc_bootloader_start := 0 |}.

Lemma validate_mmap_sound_witness :
  validate_mmap sample_boot_info = true /\
  (forall a, covers (sample_entry 0 4 7) a -> ~ covers (sample_entry 0x8000 8 7) a).
Proof.
  split; [reflexivity|].
  apply (validate_mmap_sound sample_boot_info 0 2);
    [reflexivity|reflexivity|reflexivity|lia|unfold region_fits, U64; simpl; lia..].
Defined.
