(* ===== verification/Pmm.v ===== *)
(** * Physical memory manager ([mem/pmm.rs])

    A bitmap of 2^20 frames, one bit per 4 KiB frame (set: used), with a
    counter of free frames.  [alloc_frame]/[alloc_frames] zero the memory
    they return through the direct map, so they also act on [Mem]. *)

From S2P Require Import Prelude Mem Boot.

Definition PAGE_SIZE : Z := 4096.
Definition MAX_FRAMES : Z := 1024 * 1024.
Definition BITMAP_BYTES : Z := MAX_FRAMES / 8.

(** [bitmap i] is byte [i] of the array, for [0 <= i < BITMAP_BYTES]. *)
Record PMMState := mkPMM {
  bitmap : Z -> Z;
  total_frames : Z;
  free_frames : Z;
}.

Definition PMMState_new : PMMState :=
  {| bitmap := fun _ => 0xFF; total_frames := 0; free_frames := 0 |}.

Definition upd (b : Z -> Z) (i v : Z) : Z -> Z := fun j => if j =? i then v else b j.

Definition set_used (s : PMMState) (f : Z) : PMMState :=
  mkPMM (upd (bitmap s) (f / 8) (bitmap s (f / 8) .| Z.shiftl 1 (f mod 8)))
        (total_frames s) (free_frames s).

Definition set_free (s : PMMState) (f : Z) : PMMState :=
  mkPMM (upd (bitmap s) (f / 8) (bitmap s (f / 8) & not8 (Z.shiftl 1 (f mod 8))))
        (total_frames s) (free_frames s).

Definition is_free (s : PMMState) (f : Z) : bool :=
  (bitmap s (f / 8) & Z.shiftl 1 (f mod 8)) =? 0.

Definition set_counts (s : PMMState) (total free : Z) : PMMState := mkPMM (bitmap s) total free.

(** ** Initialisation *)

(** One frame of a conventional region. *)
Definition init_release (s : PMMState) (f : Z) : PMMState :=
  if (f <? MAX_FRAMES) && negb (is_free s f) then
    let s := set_free s f in
    set_counts s (total_frames s +w 1) (free_frames s +w 1)
  else s.

Definition init_entry (s : PMMState) (e : MemMapEntry) : PMMState :=
  if negb (mem_type e =? EFI_CONVENTIONAL_MEMORY) then s
  else
    let start_frame := physical_start e / PAGE_SIZE in
    let frame_count := num_pages e in
    fold_left init_release (seqZ start_frame ((start_frame +w frame_count) - start_frame)) s.

(** One frame of the kernel image. *)
Definition init_reserve (s : PMMState) (f : Z) : PMMState :=
  if (f <? MAX_FRAMES) && is_free s f then
    let s := set_used s f in
    set_counts s (total_frames s) (free_frames s -w 1)
  else s.

Definition init (s : PMMState) (bi : CoreOS_BootInfo) : PMMState :=
  let s := fold_left init_entry (entries bi) s in
  let start := kernel_phys_base bi / PAGE_SIZE in
  let end_ := div_ceil (kernel_phys_base bi +w kernel_alloc_size bi) PAGE_SIZE in
  let s := fold_left init_reserve (seqZ start (end_ - start)) s in
  if is_free s 0 then
    let s := set_used s 0 in
    set_counts s (total_frames s) (sat_sub64 (free_frames s) 1)
  else s.

(** ** Allocation *)

Definition alloc_frame (s : PMMState) (m : Mem) : Z * (PMMState * Mem) :=
  match List.find (is_free s) (seqZ 1 (MAX_FRAMES - 1)) with
  | Some f =>
      let s := set_used s f in
      let s := set_counts s (total_frames s) (sat_sub64 (free_frames s) 1) in
      let addr := f *w PAGE_SIZE in
      (addr, (s, fill m (p2v addr) 0 PAGE_SIZE))
  | None => (0, (s, m))
  end.

(** The scan of [alloc_frames]: the start of the first run of [count] free
    frames. *)
Fixpoint alloc_scan (s : PMMState) (count : Z) (fs : list Z) (consecutive start_frame : Z)
    : option Z :=
  match fs with
  | [] => None
  | f :: fs' =>
      if is_free s f then
        let start_frame := if consecutive =? 0 then f else start_frame in
        let consecutive := consecutive + 1 in
        if consecutive =? count then Some start_frame
        else alloc_scan s count fs' consecutive start_frame
      else alloc_scan s count fs' 0 start_frame
  end.

Definition alloc_frames (count : Z) (s : PMMState) (m : Mem) : Z * (PMMState * Mem) :=
  if count =? 0 then (0, (s, m))
  else if count =? 1 then alloc_frame s m
  else match alloc_scan s count (seqZ 1 (MAX_FRAMES - 1)) 0 0 with
       | Some start_frame =>
           let s := fold_left (fun s i => set_used s (start_frame + i)) (seqZ 0 count) s in
           let s := set_counts s (total_frames s) (sat_sub64 (free_frames s) count) in
           let addr := start_frame *w PAGE_SIZE in
           (addr, (s, fill m (p2v addr) 0 (count *w PAGE_SIZE)))
       | None => (0, (s, m))
       end.

Definition free_frame (s : PMMState) (phys_addr : Z) : PMMState :=
  let f := phys_addr / PAGE_SIZE in
  if (f =? 0) || (MAX_FRAMES <=? f) then s
  else if negb (is_free s f) then
    let s := set_free s f in
    set_counts s (total_frames s) (free_frames s +w 1)
  else s.

Definition free_bytes (s : PMMState) : Z := free_frames s *w PAGE_SIZE.
Definition total_bytes (s : PMMState) : Z := total_frames s *w PAGE_SIZE.

(** ** The abstract state: the set of free frames *)

Definition free_set (s : PMMState) : gset Z :=
  list_to_set (filter (fun f => is_free s f = true) (seqZ 0 MAX_FRAMES)).

Definition pmm_wf (s : PMMState) : Prop :=
  (forall i, is_u8 (bitmap s i)) /\ free_frames s = Z.of_nat (size (free_set s)).

(** The invariant after initialisation: frame 0 is never free. *)
Definition pmm_ok (s : PMMState) : Prop := pmm_wf s /\ 0 ∉ free_set s.

(** The frames [lo, lo+n). *)
Definition frames (lo n : Z) : gset Z := list_to_set (seqZ lo n).

#[global] Opaque MAX_FRAMES.

Lemma MAX_FRAMES_eq : MAX_FRAMES = 1048576.
Proof. reflexivity. Qed.

Lemma elem_of_frames f lo n : f ∈ frames lo n <-> lo <= f < lo + n.
Proof. unfold frames. rewrite elem_of_list_to_set, elem_of_seqZ. done. Qed.

Lemma elem_of_free_set s f : f ∈ free_set s <-> 0 <= f < MAX_FRAMES /\ is_free s f = true.
Proof.
  unfold free_set. rewrite elem_of_list_to_set, list_elem_of_filter, elem_of_seqZ.
  rewrite Z.add_0_l. tauto.
Qed.

Lemma size_frames lo n : 0 <= n -> Z.of_nat (size (frames lo n)) = n.
Proof.
  intros. unfold frames. rewrite size_list_to_set by apply NoDup_seqZ.
  rewrite length_seqZ. lia.
Qed.

Lemma free_set_subseteq s : free_set s ⊆ frames 0 MAX_FRAMES.
Proof. intros f Hf. apply elem_of_frames. apply elem_of_free_set in Hf. lia. Qed.

Lemma free_set_size_bound s : Z.of_nat (size (free_set s)) <= MAX_FRAMES.
Proof.
  rewrite <- (size_frames 0 MAX_FRAMES) by (pose proof MAX_FRAMES_eq; lia).
  apply Nat2Z.inj_le, subseteq_size, free_set_subseteq.
Qed.

#[global] Opaque free_set frames.

(** ** Bits *)

Lemma is_free_testbit s f :
  0 <= f -> is_free s f = negb (Z.testbit (bitmap s (f / 8)) (f mod 8)).
Proof.
  intros Hf. pose proof (Z.mod_pos_bound f 8 ltac:(lia)). unfold is_free.
  rewrite Z.shiftl_1_l, <- has_bits_pow2 by lia. unfold has_bits. by rewrite negb_involutive.
Qed.

Lemma frame_index_eq f g : 0 <= f -> 0 <= g -> g / 8 = f / 8 -> (g mod 8 =? f mod 8) = (g =? f).
Proof.
  intros Hf Hg E. pose proof (Z.div_mod f 8). pose proof (Z.div_mod g 8).
  destruct (Z.eqb_spec (g mod 8) (f mod 8)), (Z.eqb_spec g f); subst; congruence || lia.
Qed.

Lemma is_free_set_used s f g :
  0 <= f -> 0 <= g -> is_free (set_used s f) g = is_free s g && negb (g =? f).
Proof.
  intros Hf Hg. rewrite !is_free_testbit by done. simpl. unfold upd.
  pose proof (Z.mod_pos_bound f 8). pose proof (Z.mod_pos_bound g 8).
  destruct (Z.eqb_spec (g / 8) (f / 8)) as [E|E].
  - rewrite Z.lor_spec, Z.shiftl_1_l, Z.pow2_bits_eqb by lia. rewrite negb_orb.
    rewrite Z.eqb_sym, (frame_index_eq f g) by done. by rewrite E.
  - destruct (Z.eqb_spec g f); [congruence|]. by rewrite andb_true_r.
Qed.

Lemma is_free_set_free s f g :
  0 <= f -> 0 <= g -> is_free (set_free s f) g = is_free s g || (g =? f).
Proof.
  intros Hf Hg. rewrite !is_free_testbit by done. simpl. unfold upd.
  pose proof (Z.mod_pos_bound f 8). pose proof (Z.mod_pos_bound g 8).
  destruct (Z.eqb_spec (g / 8) (f / 8)) as [E|E].
  - rewrite Z.land_spec, not8_testbit, Z.shiftl_1_l, Z.pow2_bits_eqb by lia.
    rewrite negb_andb, negb_involutive.
    rewrite (Z.eqb_sym (f mod 8)), (frame_index_eq f g) by done. by rewrite E.
  - destruct (Z.eqb_spec g f); [congruence|]. by rewrite orb_false_r.
Qed.

Lemma set_used_bytes s f : 0 <= f ->
  (forall i, is_u8 (bitmap s i)) -> forall i, is_u8 (bitmap (set_used s f) i).
Proof.
  intros Hf H i. simpl. unfold upd. case_goal; [|apply H].
  pose proof (Z.mod_pos_bound f 8 ltac:(lia)).
  apply (lor_range _ _ 8); [lia|apply H|]. rewrite Z.shiftl_1_l.
  split; [lia|]. apply Z.pow_lt_mono_r; lia.
Qed.

Lemma set_free_bytes s f :
  (forall i, is_u8 (bitmap s i)) -> forall i, is_u8 (bitmap (set_free s f) i).
Proof.
  intros H i. simpl. unfold upd. case_goal; [|apply H].
  apply (land_range _ _ 8); [lia|apply H|].
  unfold not8. apply Z.lxor_nonneg. split; intros; [|apply Z.shiftl_nonneg; lia].
  unfold U8; lia.
Qed.

Lemma free_set_counts s t f : free_set (set_counts s t f) = free_set s.
Proof. apply set_eq. intros g. by rewrite !elem_of_free_set. Qed.

Lemma free_set_set_used s f : 0 <= f -> free_set (set_used s f) = free_set s ∖ {[f]}.
Proof.
  intros Hf. apply set_eq. intros g.
  rewrite elem_of_difference, elem_of_singleton, !elem_of_free_set. split.
  - intros [Hg H]. rewrite is_free_set_used in H by lia. breflect. auto.
  - intros [[Hg H] Hne]. split; [done|]. rewrite is_free_set_used, H by lia.
    by apply negb_true_iff, Z.eqb_neq.
Qed.

Lemma free_set_set_free s f :
  0 <= f < MAX_FRAMES -> free_set (set_free s f) = {[f]} ∪ free_set s.
Proof.
  intros Hf. apply set_eq. intros g.
  rewrite elem_of_union, elem_of_singleton, !elem_of_free_set. split.
  - intros [Hg H]. rewrite is_free_set_free in H by lia.
    apply orb_true_iff in H as [H|H]; breflect; auto.
  - intros [->|[Hg H]]; (split; [done|]); rewrite is_free_set_free by lia.
    + rewrite Z.eqb_refl. apply orb_true_r.
    + by rewrite H.
Qed.

Lemma is_free_false_not_in s f : is_free s f = false -> f ∉ free_set s.
Proof. intros H Hf. apply elem_of_free_set in Hf as [_ Hf]. congruence. Qed.

(** Releasing a used frame and reserving a free one keep the counter exact. *)
Lemma pmm_wf_release s f t :
  pmm_wf s -> 0 <= f < MAX_FRAMES -> is_free s f = false ->
  pmm_wf (set_counts (set_free s f) t (free_frames s +w 1)).
Proof.
  intros [Hb Hn] Hf Hu. split; [by apply set_free_bytes|].
  rewrite free_set_counts, free_set_set_free by done. simpl.
  pose proof (free_set_size_bound s). rewrite wrap64_small by (pose proof MAX_FRAMES_eq; unfold U64; lia).
  rewrite size_union, size_singleton; [lia|].
  apply is_free_false_not_in in Hu. set_solver.
Qed.

Lemma size_remove (F : gset Z) f : f ∈ F -> Z.of_nat (size (F ∖ {[f]})) = Z.of_nat (size F) - 1.
Proof.
  intros Hf. rewrite size_difference, size_singleton by set_solver.
  assert (size F <> 0)%nat by (intros ?%size_empty_inv; set_solver). lia.
Qed.

Lemma pmm_wf_reserve s f t :
  pmm_wf s -> f ∈ free_set s -> pmm_wf (set_counts (set_used s f) t (free_frames s - 1)).
Proof.
  intros [Hb Hn] Hf. pose proof (proj1 (elem_of_free_set s f) Hf) as [Hr _].
  split; [apply set_used_bytes; [lia|done]|].
  rewrite free_set_counts, free_set_set_used by lia. simpl. rewrite size_remove by done. lia.
Qed.

Lemma free_frames_bounds s f : pmm_wf s -> f ∈ free_set s -> 1 <= free_frames s <= MAX_FRAMES.
Proof.
  intros [_ ->] Hf. pose proof (free_set_size_bound s).
  assert (size (free_set s) <> 0)%nat by (intros ?%size_empty_inv; set_solver). lia.
Qed.

(** ** Initialisation *)

(** The frames of a region, with the wrap-around of [start_frame + frame_count]. *)
Definition entry_frames (e : MemMapEntry) (f : Z) : Prop :=
  mem_type e = EFI_CONVENTIONAL_MEMORY /\
  physical_start e / PAGE_SIZE <= f < (physical_start e / PAGE_SIZE +w num_pages e).

Definition kernel_frames (bi : CoreOS_BootInfo) (f : Z) : Prop :=
  kernel_phys_base bi / PAGE_SIZE <= f
  < div_ceil (kernel_phys_base bi +w kernel_alloc_size bi) PAGE_SIZE.

Lemma init_release_spec s f :
  pmm_wf s -> 0 <= f ->
  pmm_wf (init_release s f) /\
  forall g, g ∈ free_set (init_release s f) <-> g ∈ free_set s \/ (g = f /\ f < MAX_FRAMES).
Proof.
  intros Hs Hf. unfold init_release.
  destruct ((f <? MAX_FRAMES) && negb (is_free s f)) eqn:E; breflect.
  - split; [by apply (pmm_wf_release s f)|]. intros g.
    rewrite free_set_counts, free_set_set_free by lia. set_solver.
  - split; [done|]. intros g. split; [tauto|]. intros [?|[-> ?]]; [done|].
    apply andb_false_iff in E as [E|E]; breflect; [lia|]. apply elem_of_free_set. auto.
Qed.

Lemma init_reserve_spec s f :
  pmm_wf s -> 0 <= f ->
  pmm_wf (init_reserve s f) /\
  forall g, g ∈ free_set (init_reserve s f) <-> g ∈ free_set s /\ g <> f.
Proof.
  intros Hs Hf. unfold init_reserve.
  destruct ((f <? MAX_FRAMES) && is_free s f) eqn:E; breflect.
  - assert (f ∈ free_set s) as Hin by (apply elem_of_free_set; auto).
    pose proof (free_frames_bounds s f Hs Hin). pose proof MAX_FRAMES_eq. simpl.
    rewrite wrap64_small by (unfold U64; lia). split; [by apply (pmm_wf_reserve s)|].
    intros g. rewrite free_set_counts, free_set_set_used by lia. set_solver.
  - split; [done|]. intros g. split; [|tauto]. intros Hg. split; [done|]. intros ->.
    apply elem_of_free_set in Hg as [Hr Hg]. apply andb_false_iff in E as [E|E]; [|congruence].
    breflect. lia.
Qed.

(** A fold of steps that keep [pmm_wf] and add (remove) one frame each. *)
Lemma fold_release l s :
  pmm_wf s -> (forall f, f ∈ l -> 0 <= f) ->
  pmm_wf (fold_left init_release l s) /\
  forall g, g ∈ free_set (fold_left init_release l s)
            <-> g ∈ free_set s \/ (g ∈ l /\ g < MAX_FRAMES).
Proof.
  revert s; induction l as [|f l IH]; intros s Hs Hl; simpl; [set_solver|].
  destruct (init_release_spec s f Hs) as [H1 H2]; [set_solver|].
  destruct (IH _ H1) as [H3 H4]; [set_solver|]. split; [done|].
  intros g. rewrite H4, H2, elem_of_cons. naive_solver.
Qed.

Lemma fold_reserve l s :
  pmm_wf s -> (forall f, f ∈ l -> 0 <= f) ->
  pmm_wf (fold_left init_reserve l s) /\
  forall g, g ∈ free_set (fold_left init_reserve l s) <-> g ∈ free_set s /\ g ∉ l.
Proof.
  revert s; induction l as [|f l IH]; intros s Hs Hl; simpl; [set_solver|].
  destruct (init_reserve_spec s f Hs) as [H1 H2]; [set_solver|].
  destruct (IH _ H1) as [H3 H4]; [set_solver|]. split; [done|].
  intros g. rewrite H4, H2. set_solver.
Qed.

Lemma elem_of_seqZ_to f lo hi : f ∈ seqZ lo (hi - lo) <-> lo <= f < hi.
Proof. rewrite elem_of_seqZ. lia. Qed.

Lemma init_entry_spec s e :
  pmm_wf s -> 0 <= physical_start e ->
  pmm_wf (init_entry s e) /\
  forall g, g ∈ free_set (init_entry s e)
            <-> g ∈ free_set s \/ (entry_frames e g /\ g < MAX_FRAMES).
Proof.
  intros Hs He. unfold init_entry, entry_frames.
  assert (0 <= physical_start e / PAGE_SIZE) by (apply Z.div_pos; [done|reflexivity]).
  case_goal; breflect; [naive_solver|].
  destruct (fold_release (seqZ (physical_start e / PAGE_SIZE)
    ((physical_start e / PAGE_SIZE +w num_pages e) - physical_start e / PAGE_SIZE)) s Hs)
    as [H1 H2].
  - intros f. rewrite elem_of_seqZ_to. lia.
  - split; [done|]. intros g. rewrite H2, elem_of_seqZ_to. tauto.
Qed.

Lemma fold_entries l s :
  pmm_wf s -> Forall (fun e => 0 <= physical_start e) l ->
  pmm_wf (fold_left init_entry l s) /\
  forall g, g ∈ free_set (fold_left init_entry l s)
            <-> g ∈ free_set s \/ ((exists e, e ∈ l /\ entry_frames e g) /\ g < MAX_FRAMES).
Proof.
  revert s; induction l as [|e l IH]; intros s Hs Hl; simpl; [set_solver|].
  apply list.Forall_cons in Hl as [He Hl].
  destruct (init_entry_spec s e Hs He) as [H1 H2]. destruct (IH _ H1 Hl) as [H3 H4].
  split; [done|]. intros g. rewrite H4, H2. setoid_rewrite elem_of_cons. naive_solver.
Qed.

Lemma PMMState_new_free_set : free_set PMMState_new = ∅.
Proof.
  apply set_eq. intros f. rewrite elem_of_free_set. split; [|set_solver]. intros [Hf H].
  rewrite is_free_testbit in H by lia. simpl in H.
  pose proof (Z.mod_pos_bound f 8 ltac:(lia)).
  change 255 with (2 ^ 8 - 1) in H. rewrite ones_minus_1, Z.ones_spec_low in H by lia. done.
Qed.

Lemma PMMState_new_wf : pmm_wf PMMState_new.
Proof. split; [done|]. rewrite PMMState_new_free_set, size_empty. done. Qed.

(** Clearing frame 0 at the end of [init]. *)
Lemma clear_frame0_spec s :
  pmm_wf s ->
  let s' := if is_free s 0
            then set_counts (set_used s 0) (total_frames s) (sat_sub64 (free_frames s) 1) else s in
  pmm_ok s' /\ forall g, g ∈ free_set s' <-> g ∈ free_set s /\ g <> 0.
Proof.
  intros Hs s'. unfold s'. case_goal.
  - assert (0 ∈ free_set s) as H0 by (apply elem_of_free_set; rewrite MAX_FRAMES_eq; auto with lia).
    pose proof (free_frames_bounds s 0 Hs H0). unfold sat_sub64. rewrite Z.max_l by lia.
    split; [split; [by apply (pmm_wf_reserve s)|]|intros g];
      rewrite free_set_counts, free_set_set_used by lia; set_solver.
  - assert (0 ∉ free_set s) by (by apply is_free_false_not_in).
    split; [done|]. set_solver.
Qed.

Lemma init_spec bi :
  Forall (fun e => 0 <= physical_start e) (entries bi) -> 0 <= kernel_phys_base bi ->
  pmm_ok (init PMMState_new bi) /\
  forall f, f ∈ free_set (init PMMState_new bi) <->
    1 <= f < MAX_FRAMES /\ (exists e, e ∈ entries bi /\ entry_frames e f) /\ ~ kernel_frames bi f.
Proof.
  intros He Hk.
  destruct (fold_entries _ _ PMMState_new_wf He) as [H1 H2].
  set (s1 := fold_left init_entry (entries bi) PMMState_new) in *.
  set (l := seqZ (kernel_phys_base bi / PAGE_SIZE)
    (div_ceil (kernel_phys_base bi +w kernel_alloc_size bi) PAGE_SIZE - kernel_phys_base bi / PAGE_SIZE)).
  destruct (fold_reserve l s1 H1) as [H3 H4].
  { intros f. unfold l. rewrite elem_of_seqZ_to.
    assert (0 <= kernel_phys_base bi / PAGE_SIZE) by (apply Z.div_pos; [done|reflexivity]). lia. }
  destruct (clear_frame0_spec _ H3) as [H5 H6]. split; [apply H5|].
  intros f. change (init PMMState_new bi) with
    (let s := fold_left init_reserve l s1 in if is_free s 0 then
       set_counts (set_used s 0) (total_frames s) (sat_sub64 (free_frames s) 1) else s).
  rewrite H6, H4, H2, PMMState_new_free_set. unfold l, kernel_frames. rewrite elem_of_seqZ_to.
  split; [|intros (Hf & Hex & Hn); split_and!; [right; auto with lia|done|lia]].
  intros [[[Hf|[Hex Hf]] Hn] H0]; [set_solver|]. split_and!; [|done..|done].
  destruct Hex as (e & Hin & _ & He'). eapply list.Forall_forall in Hin; [|done]. simpl in Hin.
  assert (0 <= physical_start e / PAGE_SIZE) by (apply Z.div_pos; [done|reflexivity]). lia.
Qed.

(** ** Allocation *)

Lemma pmm_ok_pos s f : pmm_ok s -> f ∈ free_set s -> 1 <= f < MAX_FRAMES.
Proof.
  intros [_ H0] Hf. destruct (Z.eq_dec f 0) as [->|]; [done|].
  apply elem_of_free_set in Hf. lia.
Qed.

Lemma frame_addr_small f : 0 <= f <= MAX_FRAMES -> f *w PAGE_SIZE = f * PAGE_SIZE.
Proof. intros H. rewrite MAX_FRAMES_eq in H. apply wrap64_small. unfold U64, PAGE_SIZE. lia. Qed.

Lemma pmm_ok_reserve s f t :
  pmm_ok s -> f ∈ free_set s ->
  let s' := set_counts (set_used s f) t (sat_sub64 (free_frames s) 1) in
  pmm_ok s' /\ free_set s' = free_set s ∖ {[f]}.
Proof.
  intros [Hw H0] Hf s'. pose proof (free_frames_bounds s f Hw Hf).
  pose proof (proj1 (elem_of_free_set s f) Hf). unfold s', sat_sub64. rewrite Z.max_l by lia.
  assert (free_set (set_counts (set_used s f) t (free_frames s - 1)) = free_set s ∖ {[f]}) as E
    by (rewrite free_set_counts, free_set_set_used by lia; done).
  split; [|done]. split; [by apply pmm_wf_reserve|]. rewrite E. set_solver.
Qed.

(** The two outcomes of [alloc_frame]. *)
Lemma alloc_frame_cases s m :
  pmm_ok s ->
  (alloc_frame s m = (0, (s, m)) /\ free_set s = ∅) \/
  exists f s', alloc_frame s m = (f * PAGE_SIZE, (s', fill m (p2v (f * PAGE_SIZE)) 0 PAGE_SIZE)) /\
    f ∈ free_set s /\ (forall g, g ∈ free_set s -> f <= g) /\
    free_set s' = free_set s ∖ {[f]} /\ pmm_ok s'.
Proof.
  intros Hs. unfold alloc_frame. destruct (List.find _ _) as [f|] eqn:E.
  - right. apply find_Some_seqZ in E as (Hf & Hfree & Hmin).
    assert (f ∈ free_set s) as Hin by (apply elem_of_free_set; auto with lia).
    destruct (pmm_ok_reserve s f (total_frames s) Hs Hin) as [H1 H2].
    exists f. eexists. cbn zeta. rewrite frame_addr_small by lia.
    split; [reflexivity|]. split_and!; [done| |exact H2|exact H1].
    intros g Hg. pose proof (pmm_ok_pos s g Hs Hg). apply elem_of_free_set in Hg as [_ Hg].
    destruct (Z.le_gt_cases f g); [done|]. rewrite Hmin in Hg by lia. done.
  - left. split; [done|]. apply set_eq. intros g. split; [|set_solver]. intros Hg.
    pose proof (pmm_ok_pos s g Hs Hg). apply elem_of_free_set in Hg as [_ Hg].
    rewrite (find_None_seqZ _ _ _ E) in Hg by lia. done.
Qed.

(** Window [st, st+count) is free. *)
Definition window (s : PMMState) (st count : Z) : Prop :=
  forall g, st <= g < st + count -> is_free s g = true.

Lemma alloc_scan_spec s count n :
  2 <= count -> 0 <= n ->
  forall f c st,
  0 <= c < count -> 1 <= f - c -> (c <> 0 -> st = f - c) ->
  (forall g, f - c <= g < f -> is_free s g = true) ->
  (f - c = 1 \/ is_free s (f - c - 1) = false) ->
  (forall st', 1 <= st' -> st' + count <= f -> ~ window s st' count) ->
  match alloc_scan s count (seqZ f n) c st with
  | Some st' => 1 <= st' /\ st' + count <= f + n /\ window s st' count /\
                forall st'', 1 <= st'' < st' -> ~ window s st'' count
  | None => forall st', 1 <= st' -> st' + count <= f + n -> ~ window s st' count
  end.
Proof.
  intros Hcount Hn. pattern n. apply natlike_ind; [| |done]; clear n Hn.
  - intros f c st **. simpl. intros st'. rewrite Z.add_0_r. auto.
  - intros n Hn IH f c st Hc Hfc Hst Hrun Hleft Hno.
    rewrite seqZ_cons by lia. replace (Z.pred (Z.succ n)) with n by lia. simpl.
    assert (Hstart : (if c =? 0 then f else st) = f - c)
      by (destruct (Z.eqb_spec c 0); [lia|auto]).
    replace (f + Z.succ n) with (Z.succ f + n) by lia.
    destruct (is_free s f) eqn:Hf; [rewrite Hstart; destruct (Z.eqb_spec (c + 1) count)|].
    + split_and!; [lia|lia| |].
      * intros g Hg. destruct (Z.eq_dec g f) as [->|]; [done|]. apply Hrun. lia.
      * intros st'' Hst''. apply Hno; lia.
    + apply IH; [lia|lia|lia| | |].
      * intros g Hg. destruct (Z.eq_dec g f) as [->|]; [done|]. apply Hrun. lia.
      * replace (Z.succ f - (c + 1)) with (f - c) by lia. done.
      * intros st' H1 H2 Hw. destruct (Z.eq_dec (st' + count) (Z.succ f)); [|eapply Hno; eauto with lia].
        destruct Hleft as [?|Hl]; [lia|]. rewrite Hw in Hl by lia. done.
    + apply IH; [lia|lia|lia|lia| |].
      * right. replace (Z.succ f - 0 - 1) with f by lia. done.
      * intros st' H1 H2 Hw. destruct (Z.eq_dec (st' + count) (Z.succ f)); [|eapply Hno; eauto with lia].
        rewrite Hw in Hf by lia. done.
Qed.

Lemma alloc_scan_first_fit s count :
  2 <= count ->
  match alloc_scan s count (seqZ 1 (MAX_FRAMES - 1)) 0 0 with
  | Some st => 1 <= st /\ st + count <= MAX_FRAMES /\ window s st count /\
               forall st', 1 <= st' < st -> ~ window s st' count
  | None => forall st, 1 <= st -> st + count <= MAX_FRAMES -> ~ window s st count
  end.
Proof.
  intros Hc. pose proof MAX_FRAMES_eq.
  pose proof (alloc_scan_spec s count (MAX_FRAMES - 1) Hc ltac:(lia) 1 0 0) as H1.
  replace (1 + (MAX_FRAMES - 1)) with MAX_FRAMES in H1 by lia.
  apply H1; auto with lia.
Qed.

(** Marking a window. *)
Lemma fold_set_used s st l :
  (forall i, is_u8 (bitmap s i)) -> (forall i, i ∈ l -> 0 <= st + i) ->
  let s' := fold_left (fun s i => set_used s (st + i)) l s in
  (forall i, is_u8 (bitmap s' i)) /\ total_frames s' = total_frames s /\
  free_frames s' = free_frames s /\
  forall g, g ∈ free_set s' <-> g ∈ free_set s /\ forall i, i ∈ l -> g <> st + i.
Proof.
  revert s; induction l as [|i l IH]; intros s Hb Hl; simpl; [set_solver|].
  destruct (IH (set_used s (st + i))) as (H1 & H2 & H3 & H4);
    [apply set_used_bytes; [set_solver|done]|set_solver|].
  split_and!; [done..|]. intros g. rewrite H4, free_set_set_used by set_solver. set_solver.
Qed.

Lemma window_free_set s st count :
  1 <= st -> st + count <= MAX_FRAMES -> window s st count <-> frames st count ⊆ free_set s.
Proof.
  intros H1 H2. split.
  - intros Hw g Hg. apply elem_of_frames in Hg. apply elem_of_free_set. split; [lia|]. apply Hw. lia.
  - intros Hs g Hg. specialize (Hs g). rewrite elem_of_frames, elem_of_free_set in Hs. apply Hs. lia.
Qed.

Lemma pmm_ok_reserve_window s st count t :
  pmm_ok s -> 1 <= st -> st + count <= MAX_FRAMES -> 0 <= count -> window s st count ->
  let s1 := fold_left (fun s i => set_used s (st + i)) (seqZ 0 count) s in
  let s' := set_counts s1 t (sat_sub64 (free_frames s1) count) in
  pmm_ok s' /\ free_set s' = free_set s ∖ frames st count.
Proof.
  intros [[Hb Hn] H0] Hst Hmax Hc Hw s1 s'.
  destruct (fold_set_used s st (seqZ 0 count) Hb) as (H1 & H2 & H3 & H4).
  { intros i. rewrite elem_of_seqZ. lia. }
  fold s1 in H1, H2, H3, H4.
  apply window_free_set in Hw; [|done..].
  assert (free_set s' = free_set s ∖ frames st count) as E.
  { apply set_eq. intros g. unfold s'. rewrite free_set_counts, H4, elem_of_difference, elem_of_frames.
    setoid_rewrite elem_of_seqZ. split; intros [Hg Hno]; (split; [done|]); [|intros; lia].
    intros Hr. apply (Hno (g - st)); lia. }
  split; [|done]. split; [split; [done|]|rewrite E; set_solver].
  rewrite E. unfold s'. simpl. rewrite H3, Hn, size_difference by done.
  pose proof (size_frames st count Hc). pose proof (subseteq_size _ _ Hw). unfold sat_sub64. lia.
Qed.

(** ** Freeing *)

Lemma free_frame_spec s a :
  pmm_ok s -> 0 <= a ->
  pmm_ok (free_frame s a) /\
  free_set (free_frame s a) =
    if (1 <=? a / PAGE_SIZE) && (a / PAGE_SIZE <? MAX_FRAMES)
    then {[a / PAGE_SIZE]} ∪ free_set s else free_set s.
Proof.
  intros Hs Ha. set (f := a / PAGE_SIZE).
  assert (0 <= f) by (apply Z.div_pos; [done|reflexivity]). unfold free_frame. fold f.
  destruct ((f =? 0) || (MAX_FRAMES <=? f)) eqn:E.
  { split; [done|]. destruct ((1 <=? f) && (f <? MAX_FRAMES)) eqn:E'; [|done]. breflect.
    apply orb_true_iff in E as [E|E]; breflect; lia. }
  breflect. replace ((1 <=? f) && (f <? MAX_FRAMES)) with true
    by (symmetry; apply andb_true_iff; rewrite Z.leb_le, Z.ltb_lt; lia).
  destruct (is_free s f) eqn:Ef; simpl.
  - split; [done|]. assert (f ∈ free_set s) by (apply elem_of_free_set; auto with lia). set_solver.
  - destruct Hs as [Hw Hz]. pose proof (pmm_wf_release s f (total_frames s) Hw ltac:(lia) Ef).
    assert (free_set (set_counts (set_free s f) (total_frames s) (free_frames s +w 1))
            = {[f]} ∪ free_set s) as E by (rewrite free_set_counts, free_set_set_free by lia; done).
    split; [split; [done|]; rewrite E; set_solver|done].
Qed.

(** ** Properties *)

(** C23: After [init] on the boot memory map, a frame is free exactly when it
    is below [MAX_FRAMES], not frame 0, in a conventional region of the map
    and outside the kernel image; and the free counter is the number of free
    frames. *)
Theorem init_free_frames bi :
  Forall (fun e => 0 <= physical_start e) (entries bi) -> 0 <= kernel_phys_base bi ->
  (forall f, f ∈ free_set (init PMMState_new bi) <->
    1 <= f < MAX_FRAMES /\ (exists e, e ∈ entries bi /\ entry_frames e f) /\ ~ kernel_frames bi f)
  /\ free_frames (init PMMState_new bi) = Z.of_nat (size (free_set (init PMMState_new bi))).
Proof. intros He Hk. destruct (init_spec bi He Hk) as [[[_ Hn] _] H]. done. Qed.

(** On the sample map, frame 1 (conventional) is free, frame 9 (kernel image)
    and frame 4 (reserved region) are not. *)
Lemma init_free_frames_witness :
  let F := free_set (init PMMState_new sample_boot_info) in 1 ∈ F /\ (9 ∉ F) /\ (4 ∉ F).
Proof.
  destruct (init_free_frames sample_boot_info) as [H _];
    [repeat constructor; done|done|].
  split_and!; rewrite H, MAX_FRAMES_eq.
  - split; [lia|]. split; [|intros [Hk _]; vm_compute in Hk; congruence].
    exists (sample_entry 0 4 7). split; [constructor|]. vm_compute. split; [done|split; congruence].
  - intros (_ & _ & Hk). apply Hk. vm_compute. split; congruence.
  - intros (_ & (e & He & Hm & Hf) & _).
    change (entries sample_boot_info) with (mmap sample_boot_info) in He. cbn [mmap sample_boot_info] in He.
    repeat (apply elem_of_cons in He as [->|He]; [vm_compute in Hf, Hm; destruct Hf; congruence|]). by apply elem_of_nil in He.
Defined.

(** C11: [alloc_frame] implements "take the least element of the free set":
    it returns 0 and changes nothing when no frame is free; otherwise it
    returns the address of the lowest free frame, removes that frame (and no
    other) from the free set, zeroes exactly that page through the direct
    map, and keeps the allocator invariant. *)
Theorem alloc_frame_refines s m :
  pmm_ok s ->
  match alloc_frame s m with
  | (a, (s', m')) =>
      pmm_ok s' /\
      (free_set s = ∅ /\ a = 0 /\ s' = s /\ m' = m \/
       exists f, a = f * PAGE_SIZE /\ a <> 0 /\
         f ∈ free_set s /\ (forall g, g ∈ free_set s -> f <= g) /\
         free_set s' = free_set s ∖ {[f]} /\
         forall x, m' x = if in_range x (p2v a) PAGE_SIZE then 0 else m x)
  end.
Proof.
  intros Hs. destruct (alloc_frame_cases s m Hs) as [[-> HF]|(f & s' & -> & Hin & Hmin & HF & Hok)].
  - split; [done|]. left. done.
  - split; [done|]. right. exists f. pose proof (pmm_ok_pos s f Hs Hin).
    split_and!; try done. unfold PAGE_SIZE. lia.
Qed.

Definition sample_pmm : PMMState := init PMMState_new sample_boot_info.

Lemma sample_pmm_ok : pmm_ok sample_pmm.
Proof. apply init_spec; [repeat constructor; done|done]. Qed.

Lemma alloc_frame_refines_witness : pmm_ok (fst (snd (alloc_frame sample_pmm (fun _ => 0)))).
Proof.
  pose proof (alloc_frame_refines sample_pmm (fun _ => 0) sample_pmm_ok) as H.
  destruct (alloc_frame sample_pmm (fun _ => 0)) as [a [s' m']]. apply H.
Defined.

(** The two outcomes of [alloc_frames]. *)
Lemma alloc_frames_cases s m count :
  pmm_ok s -> 1 <= count ->
  (alloc_frames count s m = (0, (s, m)) /\
   forall st, 1 <= st -> st + count <= MAX_FRAMES -> ~ frames st count ⊆ free_set s) \/
  exists st s', alloc_frames count s m =
      (st * PAGE_SIZE, (s', fill m (p2v (st * PAGE_SIZE)) 0 (count * PAGE_SIZE))) /\
    1 <= st /\ st + count <= MAX_FRAMES /\ frames st count ⊆ free_set s /\
    (forall st', 1 <= st' < st -> ~ frames st' count ⊆ free_set s) /\
    free_set s' = free_set s ∖ frames st count /\ pmm_ok s'.
Proof.
  intros Hs Hc. unfold alloc_frames. destruct (Z.eqb_spec count 0); [lia|].
  destruct (Z.eqb_spec count 1) as [->|].
  { assert (forall st, frames st 1 = {[st]}) as H1
      by (intros st; apply set_eq; intros g; rewrite elem_of_frames, elem_of_singleton; lia).
    destruct (alloc_frame_cases s m Hs) as [[-> HF]|(f & s' & -> & Hin & Hmin & HF & Hok)].
    - left. split; [done|]. intros st ? ? Hsub. rewrite H1, HF in Hsub. set_solver.
    - right. exists f, s'. pose proof (pmm_ok_pos s f Hs Hin). rewrite Z.mul_1_l, H1.
      split_and!; [done|lia|lia|set_solver| |done|done].
      intros st' Hst' Hsub. rewrite H1 in Hsub. specialize (Hmin st' ltac:(set_solver)). lia. }
  pose proof (alloc_scan_first_fit s count ltac:(lia)) as H. destruct (alloc_scan _ _ _ _ _) as [st|].
  - destruct H as (H1 & H2 & H3 & H4). right.
    destruct (pmm_ok_reserve_window s st count (total_frames s) Hs H1 H2 ltac:(lia) H3) as [H5 H6].
    destruct (fold_set_used s st (seqZ 0 count)) as (_ & Ht & _);
      [apply Hs|intros i; rewrite elem_of_seqZ; lia|].
    cbn zeta in *. rewrite Ht, !frame_addr_small by lia. eexists st, _. split; [reflexivity|].
    split_and!; try done; [by apply window_free_set|].
    intros st' Hst'. rewrite <- window_free_set by lia. auto.
  - left. split; [done|]. intros st ? ?. rewrite <- window_free_set by lia. auto.
Qed.

(** [alloc_frames] of at least two frames is first fit: it returns the
    lowest [start] such that all of [start, start+count) is free, takes
    exactly these frames out of the free set and zeroes exactly their pages;
    it returns 0 and changes nothing when there is no such run. *)
Theorem alloc_frames_first_fit s m count :
  pmm_ok s -> 2 <= count ->
  match alloc_frames count s m with
  | (a, (s', m')) =>
      pmm_ok s' /\
      ((forall st, 1 <= st -> st + count <= MAX_FRAMES -> ~ frames st count ⊆ free_set s) /\
       a = 0 /\ s' = s /\ m' = m \/
       exists st, a = st * PAGE_SIZE /\ 1 <= st /\ st + count <= MAX_FRAMES /\
         frames st count ⊆ free_set s /\
         (forall st', 1 <= st' < st -> ~ frames st' count ⊆ free_set s) /\
         free_set s' = free_set s ∖ frames st count /\
         forall x, m' x = if in_range x (p2v a) (count * PAGE_SIZE) then 0 else m x)
  end.
Proof.
  intros Hs Hc. destruct (alloc_frames_cases s m count Hs ltac:(lia))
    as [[-> Hno]|(st & s' & -> & H1 & H2 & H3 & H4 & H5 & H6)].
  - split; [done|]. left. done.
  - split; [done|]. right. exists st. split_and!; done.
Qed.

Lemma alloc_frames_first_fit_witness : pmm_ok (fst (snd (alloc_frames 3 sample_pmm (fun _ => 0)))).
Proof.
  pose proof (alloc_frames_first_fit sample_pmm (fun _ => 0) 3 sample_pmm_ok ltac:(lia)) as H.
  destruct (alloc_frames 3 sample_pmm (fun _ => 0)) as [a [s' m']]. apply H.
Defined.

(** Freeing gives a frame back: any address inside an allocatable frame
    returns that frame to the free set (freeing twice, frame 0, or an address
    past the managed memory changes nothing), the counter stays exact, and
    [free_frame] undoes [alloc_frame]. *)
Theorem free_frame_refines s m a :
  pmm_ok s -> 0 <= a ->
  pmm_ok (free_frame s a) /\
  free_set (free_frame s a) =
    (if (1 <=? a / PAGE_SIZE) && (a / PAGE_SIZE <? MAX_FRAMES)
     then {[a / PAGE_SIZE]} ∪ free_set s else free_set s) /\
  free_set (free_frame (fst (snd (alloc_frame s m))) (fst (alloc_frame s m))) = free_set s.
Proof.
  intros Hs Ha. destruct (free_frame_spec s a Hs Ha) as [H1 H2]. split_and!; [done..|].
  destruct (alloc_frame_cases s m Hs) as [[-> HF]|(f & s' & -> & Hin & Hmin & HF & Hok)]; simpl.
  - destruct (free_frame_spec s 0 Hs ltac:(lia)) as [_ ->]. done.
  - pose proof (pmm_ok_pos s f Hs Hin).
    destruct (free_frame_spec s' (f * PAGE_SIZE) Hok) as [_ ->]; [unfold PAGE_SIZE; lia|].
    rewrite Z.div_mul by done. replace ((1 <=? f) && (f <? MAX_FRAMES)) with true
      by (symmetry; apply andb_true_iff; rewrite Z.leb_le, Z.ltb_lt; lia).
    rewrite HF. symmetry. by apply union_difference_singleton_L.
Qed.

Lemma free_frame_refines_witness : pmm_ok (free_frame sample_pmm 0x5123).
Proof. apply (free_frame_refines sample_pmm (fun _ => 0) 0x5123 sample_pmm_ok). lia. Defined.
