(* ===== verification/Paging.v ===== *)
(** * Page tables ([arch/amd64/paging.rs])

    Four-level x86-64 page tables, read and written through the direct map.
    [Machine] is the part of the machine the memory layer touches: the frame
    allocator, RAM, the kernel's PML4, CR3 and the trace of [invlpg]
    instructions.  The operations panic (never fail otherwise), so they are
    computations [M Machine _]. *)

From S2P Require Import Prelude Mem Result Boot Pmm.

Definition PTE_PRESENT : Z := Z.shiftl 1 0.
Definition PTE_WRITABLE : Z := Z.shiftl 1 1.
Definition PTE_USER : Z := Z.shiftl 1 2.
Definition PTE_HUGE : Z := Z.shiftl 1 7.
Definition PTE_NX : Z := Z.shiftl 1 63.
Definition PTE_ADDR_MASK : Z := 0x000ffffffffff000.

Definition KERNEL_IMAGE_BASE : Z := 0xFFFFFFFF80100000.

Record MapFlags := { writable : bool; user : bool; executable : bool }.

Record Machine := mkMachine {
  pmm : PMMState;
  ram : Mem;
  kernel_pml4 : Z;
  cr3 : Z;
  invlpgs : list Z;    (* newest first *)
}.

Definition set_ram (m : Mem) (s : Machine) : Machine :=
  mkMachine (pmm s) m (kernel_pml4 s) (cr3 s) (invlpgs s).
Definition set_pmm (p : PMMState) (s : Machine) : Machine :=
  mkMachine p (ram s) (kernel_pml4 s) (cr3 s) (invlpgs s).
Definition set_kernel_pml4 (a : Z) (s : Machine) : Machine :=
  mkMachine (pmm s) (ram s) a (cr3 s) (invlpgs s).
Definition set_cr3 (a : Z) (s : Machine) : Machine :=
  mkMachine (pmm s) (ram s) (kernel_pml4 s) a (invlpgs s).
Definition add_invlpg (a : Z) (s : Machine) : Machine :=
  mkMachine (pmm s) (ram s) (kernel_pml4 s) (cr3 s) (a :: invlpgs s).

(** ** Machine accesses *)

Definition rd64 (a : Z) : M Machine Z := fun s => OOk (read64 (ram s) a) s.
Definition wr64 (a v : Z) : M Machine unit := modifyM (fun s => set_ram (write64 (ram s) a v) s).
Definition invlpg (virt : Z) : M Machine unit := modifyM (add_invlpg virt).

(** [pmm::alloc_frame()] and [pmm::free_frame(a)] on the machine. *)
Definition alloc_frameM : M Machine Z := fun s =>
  match alloc_frame (pmm s) (ram s) with
  | (a, (p, m)) => OOk a (set_ram m (set_pmm p s))
  end.

Definition free_frameM (a : Z) : M Machine unit :=
  modifyM (fun s => set_pmm (free_frame (pmm s) a) s).

(** ** Walking *)

Definition idx (virt k : Z) : Z := (virt >> k) & 0x1FF.

(** [p2v(table + i * 8)]. *)
Definition slot (table i : Z) : Z := p2v (table +w i *w 8).

Definition pte_ptr (m : Mem) (pml4 virt : Z) : option Z :=
  let pml4_i := idx virt 39 in
  let pdpt_i := idx virt 30 in
  let pd_i := idx virt 21 in
  let pt_i := idx virt 12 in
  let pml4e := read64 m (slot pml4 pml4_i) in
  if (pml4e & PTE_PRESENT) =? 0 then None
  else
    let pdpt := pml4e & not64 0xFFF in
    let pdpte := read64 m (slot pdpt pdpt_i) in
    if (pdpte & PTE_PRESENT) =? 0 then None
    else
      let pd := pdpte & not64 0xFFF in
      let pde := read64 m (slot pd pd_i) in
      if ((pde & PTE_PRESENT) =? 0) || negb ((pde & PTE_HUGE) =? 0) then None
      else
        let pt := pde & not64 0xFFF in
        Some (slot pt pt_i).

Definition translate_page (m : Mem) (pml4 virt : Z) : option Z :=
  let pml4_i := idx virt 39 in
  let pdpt_i := idx virt 30 in
  let pd_i := idx virt 21 in
  let pml4e := read64 m (slot pml4 pml4_i) in
  if (pml4e & PTE_PRESENT) =? 0 then None
  else
    let pdpt := pml4e & not64 0xFFF in
    let pdpte := read64 m (slot pdpt pdpt_i) in
    if (pdpte & PTE_PRESENT) =? 0 then None
    else
      let pd := pdpte & not64 0xFFF in
      let pde := read64 m (slot pd pd_i) in
      if (pde & PTE_PRESENT) =? 0 then None
      else if negb ((pde & PTE_HUGE) =? 0) then
        let base := pde & PTE_ADDR_MASK in
        Some (base +w (virt & (2 * 1024 * 1024 - 1)))
      else
        match pte_ptr m pml4 virt with
        | None => None
        | Some p =>
            let pte := read64 m p in
            if (pte & PTE_PRESENT) =? 0 then None else Some (pte & PTE_ADDR_MASK)
        end.

(** ** Updates *)

Definition alloc_table : M Machine Z :=
  let* addr := alloc_frameM in
  if addr =? 0 then panicM else retM addr.

Definition write_entry (table_phys index value : Z) : M Machine unit :=
  wr64 (slot table_phys index) value.

(** [invlpg] when [pml4] is the active address space. *)
Definition flush_if_active (pml4 virt : Z) : M Machine unit :=
  let* s := getM in
  if (cr3 s & not64 0xFFF) =? pml4 then invlpg virt else retM tt.

(** [if *ptr == 0 { let t = alloc_table(); *ptr = t | PRESENT | WRITABLE | user }]. *)
Definition ensure_entry (ptr user : Z) : M Machine unit :=
  let* e := rd64 ptr in
  if e =? 0 then
    let* t := alloc_table in
    wr64 ptr (t .| PTE_PRESENT .| PTE_WRITABLE .| user)
  else retM tt.

(** The permission bits of a leaf entry. *)
Definition flag_bits (flags : MapFlags) (entry : Z) : Z :=
  let entry := if writable flags then entry .| PTE_WRITABLE else entry in
  let entry := if user flags then entry .| PTE_USER else entry in
  if executable flags then entry else entry .| PTE_NX.

Definition map_page_in (pml4 virt phys : Z) (flags : MapFlags) : M Machine unit :=
  let user := if user flags then PTE_USER else 0 in
  let pml4_ptr := slot pml4 (idx virt 39) in
  ensure_entry pml4_ptr user ;;;
  let* pml4e := rd64 pml4_ptr in
  let pdpt := pml4e & not64 0xFFF in
  let pdpt_ptr := slot pdpt (idx virt 30) in
  ensure_entry pdpt_ptr user ;;;
  let* pdpte := rd64 pdpt_ptr in
  let pd := pdpte & not64 0xFFF in
  let pd_ptr := slot pd (idx virt 21) in
  ensure_entry pd_ptr user ;;;
  let* pde := rd64 pd_ptr in
  if negb ((pde & PTE_HUGE) =? 0) then retM tt
  else
    let pt := pde & not64 0xFFF in
    let pt_ptr := slot pt (idx virt 12) in
    wr64 pt_ptr (flag_bits flags (phys .| PTE_PRESENT)) ;;;
    flush_if_active pml4 virt.

Definition unmap_page_in (pml4 virt : Z) : M Machine (option Z) :=
  let* s := getM in
  match pte_ptr (ram s) pml4 virt with
  | None => retM None
  | Some pte =>
      let* entry := rd64 pte in
      if (entry & PTE_PRESENT) =? 0 then retM None
      else
        wr64 pte 0 ;;;
        flush_if_active pml4 virt ;;;
        retM (Some (entry & PTE_ADDR_MASK))
  end.

Definition protect_page_in (pml4 virt : Z) (flags : MapFlags) : M Machine bool :=
  let* s := getM in
  match pte_ptr (ram s) pml4 virt with
  | None => retM false
  | Some pte =>
      let* entry := rd64 pte in
      if (entry & PTE_PRESENT) =? 0 then retM false
      else
        let entry := entry & not64 (PTE_WRITABLE .| PTE_USER .| PTE_NX) in
        wr64 pte (flag_bits flags entry) ;;;
        flush_if_active pml4 virt ;;;
        retM true
  end.

(** ** Ranges and the kernel address space *)

(** [while virt < virt_end]: both addresses are multiples of 2 MiB and
    [virt_end] is below 2^64, so step [k] is at [virt + k * 2 MiB] and the
    loop runs [(virt_end - virt) / 2 MiB] times. *)
Definition map_range_2mb (pml4 virt_start phys_start size : Z) : M Machine unit :=
  let two_mb := 2 * 1024 * 1024 in
  let virt0 := virt_start & not64 (two_mb - 1) in
  let phys0 := phys_start & not64 (two_mb - 1) in
  let virt_end := (virt_start +w size +w two_mb -w 1) & not64 (two_mb - 1) in
  forM (seqZ 0 ((virt_end - virt0) / two_mb)) (fun k =>
    let virt := virt0 + k * two_mb in
    let phys := phys0 +w k * two_mb in
    let pml4_ptr := slot pml4 (idx virt 39) in
    ensure_entry pml4_ptr 0 ;;;
    let* pml4e := rd64 pml4_ptr in
    let pdpt := pml4e & not64 0xFFF in
    let pdpt_ptr := slot pdpt (idx virt 30) in
    ensure_entry pdpt_ptr 0 ;;;
    let* pdpte := rd64 pdpt_ptr in
    let pd := pdpte & not64 0xFFF in
    let pd_ptr := slot pd (idx virt 21) in
    wr64 pd_ptr (phys .| PTE_PRESENT .| PTE_WRITABLE .| PTE_HUGE)).

(** [virt_end - virt_start] is a multiple of 4 KiB (modulo 2^64), so the loop
    ends exactly at [virt_end], after [(virt_end - virt_start) / 4096] steps. *)
Definition map_range_4k (pml4 virt_start phys_start size : Z) : M Machine unit :=
  let virt_end := virt_start +w div_ceil size 0x1000 *w 0x1000 in
  forM (seqZ 0 ((virt_end - virt_start) / 0x1000)) (fun k =>
    map_page_in pml4 (virt_start + k * 0x1000) (phys_start +w k * 0x1000)
      {| writable := true; user := false; executable := true |}).

(** One gigabyte of the direct map and of the identity map. *)
Definition init_gigabyte (dm_pdpt id_pdpt i : Z) : M Machine unit :=
  let* pd := alloc_table in
  write_entry dm_pdpt i (pd .| PTE_PRESENT .| PTE_WRITABLE) ;;;
  write_entry id_pdpt i (pd .| PTE_PRESENT .| PTE_WRITABLE) ;;;
  forM (seqZ 0 512) (fun j =>
    let phys := (i * 512 + j) * (2 * 1024 * 1024) in
    write_entry pd j (phys .| PTE_PRESENT .| PTE_WRITABLE .| PTE_HUGE)).

Definition init (bi : CoreOS_BootInfo) : M Machine unit :=
  let* pml4 := alloc_table in
  let* k_pdpt := alloc_table in
  let* dm_pdpt := alloc_table in
  let* id_pdpt := alloc_table in
  write_entry pml4 511 (k_pdpt .| PTE_PRESENT .| PTE_WRITABLE) ;;;
  write_entry pml4 256 (dm_pdpt .| PTE_PRESENT .| PTE_WRITABLE) ;;;
  write_entry pml4 0 (id_pdpt .| PTE_PRESENT .| PTE_WRITABLE) ;;;
  forM (seqZ 0 4) (init_gigabyte dm_pdpt id_pdpt) ;;;
  map_range_4k pml4 KERNEL_IMAGE_BASE (kernel_phys_base bi) (kernel_alloc_size bi) ;;;
  let fb_phys := v2p (fb_base bi) in
  (if 4 * 1024 * 1024 * 1024 <=? fb_phys
   then map_range_2mb pml4 (fb_base bi) fb_phys (fb_size bi) else retM tt) ;;;
  modifyM (set_kernel_pml4 pml4) ;;;
  modifyM (set_cr3 pml4).

(** ** Address-space copies *)

Definition clone_kernel_address_space : M Machine Z :=
  let* new_pml4 := alloc_frameM in
  modifyM (fun s => set_ram (fill (ram s) (p2v new_pml4) 0 4096) s) ;;;
  let* s := getM in
  let src := p2v (kernel_pml4 s) in
  let dst := p2v new_pml4 in
  forM (seqZ 256 256) (fun i =>
    let* e := rd64 (src +w i *w 8) in
    wr64 (dst +w i *w 8) e) ;;;
  retM new_pml4.

(** The four nested loops of [clone_user_address_space], innermost first. *)
Definition clone_pt (src_pt dst_pt : Z) : M Machine unit :=
  forM (seqZ 0 512) (fun pt_i =>
    let* src_pte := rd64 (src_pt +w pt_i *w 8) in
    if (src_pte & PTE_PRESENT) =? 0 then retM tt
    else
      let src_frame := src_pte & PTE_ADDR_MASK in
      let* new_frame := alloc_frameM in
      if new_frame =? 0 then panicM
      else
        modifyM (fun s => set_ram (copy_within (ram s) (p2v src_frame) (p2v new_frame) 4096) s) ;;;
        let pte_flags := src_pte & not64 PTE_ADDR_MASK in
        wr64 (dst_pt +w pt_i *w 8) (new_frame .| pte_flags)).

(** The loop of an inner level over [n] entries: copy a huge entry (only the
    page-directory loop tests for one), otherwise allocate a table, link it
    with the source's flags and copy the table below. *)
Definition clone_level (n : Z) (test_huge : bool) (below : Z -> Z -> M Machine unit)
    (src dst : Z) : M Machine unit :=
  forM (seqZ 0 n) (fun i =>
    let* src_e := rd64 (src +w i *w 8) in
    if (src_e & PTE_PRESENT) =? 0 then retM tt
    else if test_huge && negb ((src_e & PTE_HUGE) =? 0) then wr64 (dst +w i *w 8) src_e
    else
      let* new_table := alloc_table in
      let flags := src_e & not64 PTE_ADDR_MASK in
      wr64 (dst +w i *w 8) (new_table .| flags) ;;;
      below (p2v (src_e & PTE_ADDR_MASK)) (p2v new_table)).

Definition clone_pd : Z -> Z -> M Machine unit := clone_level 512 true clone_pt.
Definition clone_pdpt : Z -> Z -> M Machine unit := clone_level 512 false clone_pd.

Definition clone_user_address_space (src_pml4 : Z) : M Machine Z :=
  let* new_pml4 := clone_kernel_address_space in
  clone_level 256 false clone_pdpt (p2v src_pml4) (p2v new_pml4) ;;;
  retM new_pml4.
