(* ===== verification/PageTables.v ===== *)
(** * Page tables: ownership invariant and correctness of the operations

    The state of the page tables is described by a ghost map from frames to
    owners: a frame is a table of the shared kernel half, the table of one
    user address space at one path, or a data frame mapped into a user
    address space.  Because a frame has one owner, tables of different
    address spaces or paths never alias, which is what makes an update of one
    page leave every other page alone.

    A user address space is abstracted by [upte], the map from user virtual
    addresses to leaf entries (0: nothing there); every operation is shown to
    be an update of that map. *)

From S2P Require Import Prelude Mem Result Boot Pmm Paging.

#[local] Arguments slot : simpl never.
#[local] Arguments idx : simpl never.

(** ** Frames and entries *)

Definition is_frame (t : Z) : Prop := t mod PAGE_SIZE = 0 /\ PAGE_SIZE <= t < MAX_FRAMES * PAGE_SIZE.

Definition ent (m : Mem) (t i : Z) : Z := read64 m (slot t i).

#[global] Arguments ent : simpl never.

Definition is_idx (i : Z) : Prop := 0 <= i < 512.

Lemma is_frame_bounds t : is_frame t -> 4096 <= t /\ t + 4096 <= 2 ^ 32.
Proof.
  intros [Hm Hr]. unfold PAGE_SIZE in *. rewrite MAX_FRAMES_eq in Hr.
  change (2 ^ 32) with (1048576 * 4096). split; [lia|].
  apply Z.mod_divide in Hm as [k Hk]; lia.
Qed.

Lemma is_frame_apart t t' : is_frame t -> is_frame t' -> t <> t' -> t + 4096 <= t' \/ t' + 4096 <= t.
Proof.
  intros [Hm _] [Hm' _] Hne. unfold PAGE_SIZE in *.
  apply Z.mod_divide in Hm as [k Hk]; [|lia]. apply Z.mod_divide in Hm' as [k' Hk']; lia.
Qed.

Lemma is_frame_mul f : 1 <= f < MAX_FRAMES -> is_frame (f * PAGE_SIZE).
Proof. intros H. split; [apply Z.mod_mul; done|]. unfold PAGE_SIZE. lia. Qed.

Lemma p2v_frame t x : is_frame t -> 0 <= x <= 4096 -> p2v (t + x) = t + x + PHYSICAL_OFFSET.
Proof.
  intros Ht Hx. apply is_frame_bounds in Ht. apply p2v_small.
  unfold PHYS_TOP, PHYSICAL_OFFSET, U64. lia.
Qed.

Lemma p2v_frame0 t : is_frame t -> p2v t = t + PHYSICAL_OFFSET.
Proof. intros Ht. rewrite <- (Z.add_0_r t) at 1. rewrite p2v_frame by (done || lia). lia. Qed.

Lemma slot_frame t i : is_frame t -> is_idx i -> slot t i = t + i * 8 + PHYSICAL_OFFSET.
Proof.
  intros Ht Hi. unfold slot, is_idx in *. pose proof (is_frame_bounds t Ht).
  rewrite (wrap64_small (i * 8)) by (unfold U64; lia).
  rewrite wrap64_small by (unfold U64; lia). apply p2v_frame; [done|lia].
Qed.

(** The pointer arithmetic of the copy loops addresses the same slots. *)
Lemma ptr_add_slot t i : is_frame t -> is_idx i -> p2v t +w i *w 8 = slot t i.
Proof.
  intros Ht Hi. rewrite slot_frame, p2v_frame0 by done. unfold is_idx in Hi.
  pose proof (is_frame_bounds t Ht). rewrite (wrap64_small (i * 8)) by (unfold U64; lia).
  rewrite wrap64_small by (unfold U64, PHYSICAL_OFFSET; lia). lia.
Qed.

Lemma ent_write m t i v t' i' :
  is_frame t -> is_frame t' -> is_idx i -> is_idx i' -> is_u64 v ->
  ent (write64 m (slot t i) v) t' i' = if decide (t' = t /\ i' = i) then v else ent m t' i'.
Proof.
  intros Ht Ht' Hi Hi' Hv. unfold ent. case_decide as E.
  - destruct E as [-> ->]. by apply read64_write64_same.
  - apply read64_write64_disj. rewrite !slot_frame by done. unfold is_idx in *.
    destruct (Z.eq_dec t t') as [->|Hne]; [lia|].
    pose proof (is_frame_apart t t' Ht Ht' Hne). lia.
Qed.

Lemma ent_fill m t t' i' :
  is_frame t -> is_frame t' -> is_idx i' ->
  ent (fill m (p2v t) 0 PAGE_SIZE) t' i' = if decide (t' = t) then 0 else ent m t' i'.
Proof.
  intros Ht Ht' Hi'. unfold ent, read64, is_idx, PAGE_SIZE in *. rewrite p2v_frame0, slot_frame by done.
  case_decide as E.
  - subst. apply read_le_fill_0; simpl; lia.
  - apply read_le_fill_disj. pose proof (is_frame_apart t t' Ht Ht'). simpl. lia.
Qed.

Lemma ent_range m t i : mem_ok m -> is_u64 (ent m t i).
Proof. apply read64_range. Qed.

(** The bytes of a frame. *)
Definition same_page (m m' : Mem) (t : Z) : Prop :=
  forall x, 0 <= x < PAGE_SIZE -> m' (p2v t + x) = m (p2v t + x).

Lemma same_page_write m t i v t' :
  is_frame t -> is_frame t' -> is_idx i -> t <> t' -> same_page m (write64 m (slot t i) v) t'.
Proof.
  intros Ht Ht' Hi Hne x Hx. rewrite p2v_frame0, slot_frame by done. unfold write64, write_le.
  pose proof (is_frame_apart t t' Ht Ht' Hne). unfold is_idx, PAGE_SIZE in *.
  range_case (t' + PHYSICAL_OFFSET + x) (t + i * 8 + PHYSICAL_OFFSET) (Z.of_nat 8); [lia|done].
Qed.

Lemma same_page_fill m t t' :
  is_frame t -> is_frame t' -> t <> t' -> same_page m (fill m (p2v t) 0 PAGE_SIZE) t'.
Proof.
  intros Ht Ht' Hne x Hx. rewrite !p2v_frame0 by done. unfold fill.
  pose proof (is_frame_apart t t' Ht Ht' Hne). unfold PAGE_SIZE in *.
  range_case (t' + PHYSICAL_OFFSET + x) (t + PHYSICAL_OFFSET) 4096; [lia|done].
Qed.

Lemma same_page_trans m1 m2 m3 t : same_page m1 m2 t -> same_page m2 m3 t -> same_page m1 m3 t.
Proof. intros H1 H2 x Hx. rewrite H2, H1; done. Qed.

Lemma same_page_ent m m' t i : same_page m m' t -> is_frame t -> is_idx i -> ent m' t i = ent m t i.
Proof.
  intros H Ht Hi. apply read_le_ext. intros x Hx. rewrite slot_frame in Hx by done.
  unfold is_idx, same_page, PAGE_SIZE in *. rewrite p2v_frame0 in H by done.
  specialize (H (x - t - PHYSICAL_OFFSET) ltac:(lia)).
  by replace (t + PHYSICAL_OFFSET + (x - t - PHYSICAL_OFFSET)) with x in H by lia.
Qed.

(** ** Entry bits *)

Definition present (e : Z) : bool := negb ((e & PTE_PRESENT) =? 0).
Definition huge (e : Z) : bool := negb ((e & PTE_HUGE) =? 0).
Definition child_of (e : Z) : Z := e & not64 0xFFF.
Definition frame_of (e : Z) : Z := e & PTE_ADDR_MASK.

Lemma present_testbit e : present e = Z.testbit e 0.
Proof. apply (has_bits_pow2 e 0). lia. Qed.

Lemma huge_testbit e : huge e = Z.testbit e 7.
Proof. apply (has_bits_pow2 e 7). lia. Qed.

Lemma present_0 : present 0 = false.
Proof. done. Qed.

(** Low bits of an aligned address are clear. *)
Lemma aligned_testbit t i : t mod PAGE_SIZE = 0 -> 0 <= i < 12 -> Z.testbit t i = false.
Proof.
  intros H Hi. unfold PAGE_SIZE in H. rewrite <- (Z.mod_pow2_bits_low t 12) by lia.
  change (2 ^ 12) with 4096. rewrite H. apply Z.bits_0.
Qed.

Lemma PTE_ADDR_MASK_testbit i : 0 <= i -> Z.testbit PTE_ADDR_MASK i = (12 <=? i) && (i <? 52).
Proof.
  intros Hi. replace PTE_ADDR_MASK with (Z.shiftl (Z.ones 40) 12) by reflexivity.
  rewrite Z.shiftl_spec by lia. destruct (Z.leb_spec 12 i); simpl.
  - rewrite Z.testbit_ones by lia.
    destruct (Z.ltb_spec i 52), (Z.leb_spec 0 (i - 12)), (Z.ltb_spec (i - 12) 40); done || lia.
  - apply Z.testbit_neg_r. lia.
Qed.

Lemma not64_0xFFF_testbit i : 0 <= i < 64 -> Z.testbit (not64 0xFFF) i = (12 <=? i).
Proof.
  intros Hi. rewrite not64_testbit by done. change 0xFFF with (Z.ones 12).
  rewrite Z.testbit_ones by lia.
  destruct (Z.leb_spec 0 i), (Z.ltb_spec i 12), (Z.leb_spec 12 i); simpl; done || lia.
Qed.

(** An entry is an aligned address with bits outside the address field. *)
Lemma frame_of_lor t b :
  0 <= t < 2 ^ 52 -> t mod PAGE_SIZE = 0 -> 0 <= b -> frame_of b = 0 -> frame_of (t .| b) = t.
Proof.
  intros Ht Ha Hb0 Hb. unfold frame_of. apply Z.bits_inj'. intros i Hi.
  rewrite Z.land_spec, Z.lor_spec, PTE_ADDR_MASK_testbit by done.
  assert (Z.testbit (b & PTE_ADDR_MASK) i = false) as Hbi by (unfold frame_of in Hb; rewrite Hb; apply Z.bits_0).
  rewrite Z.land_spec, PTE_ADDR_MASK_testbit in Hbi by done.
  destruct (Z.leb_spec 12 i), (Z.ltb_spec i 52); simpl in *; rewrite ?andb_true_r, ?andb_false_r in *.
  - by rewrite Hbi, orb_false_r.
  - symmetry. by apply (testbit_high t 52).
  - symmetry. apply aligned_testbit; [done|lia].
  - lia.
Qed.

Lemma child_of_lor t b :
  0 <= t < 2 ^ 52 -> t mod PAGE_SIZE = 0 -> 0 <= b < 4096 -> child_of (t .| b) = t.
Proof.
  intros Ht Ha Hb. unfold child_of. apply Z.bits_inj'. intros i Hi.
  rewrite Z.land_spec, Z.lor_spec. destruct (Z.ltb_spec i 64).
  - rewrite not64_0xFFF_testbit by lia. destruct (Z.leb_spec 12 i).
    + rewrite (testbit_high b 12), andb_true_r, orb_false_r; [done|change (2 ^ 12) with 4096; lia|lia].
    + rewrite andb_false_r. symmetry. apply aligned_testbit; [done|lia].
  - rewrite (testbit_high t 52), (testbit_high b 12); [done|change (2 ^ 12) with 4096; lia|lia|done|lia].
Qed.

Lemma child_of_frame_of e : is_u64 e -> child_of e < 2 ^ 52 -> frame_of e = child_of e.
Proof.
  intros He Hc. unfold frame_of, child_of in *. apply Z.bits_inj'. intros i Hi.
  rewrite !Z.land_spec, PTE_ADDR_MASK_testbit by done. destruct (Z.ltb_spec i 64).
  - destruct (Z.ltb_spec i 52).
    + rewrite not64_0xFFF_testbit, andb_true_r by lia. done.
    + rewrite andb_false_r, andb_false_r. symmetry.
      rewrite <- Z.land_spec. apply (testbit_high _ 52); [|lia].
      split; [apply Z.land_nonneg; left; apply He|done].
  - rewrite (testbit_high e 64) by (done || apply He). done.
Qed.

(** ** Ownership *)

Inductive Owner :=
| OKernel (level : nat)                (* a table of the kernel half; 0: a PML4 *)
| OUser (root : Z) (path : list Z)     (* the table of [root] at [path] *)
| OData.                               (* a page mapped into a user address space *)

#[export] Instance Owner_eq_dec : EqDecision Owner.
Proof. solve_decision. Defined.

(** A user link: absent, or a present non-huge entry to the table that the
    path leads to. *)
Definition user_link (own : gmap Z Owner) (o : Owner) (e : Z) : Prop :=
  e = 0 \/ (present e = true /\ huge e = false /\ own !! child_of e = Some o).

Definition kernel_link (own : gmap Z Owner) (level : nat) (e : Z) : Prop :=
  present e = true -> (level = 3%nat /\ huge e = true) \/ own !! child_of e = Some (OKernel level).

(** What the owner of a table says about its entry [i]. *)
Definition entry_ok (own : gmap Z Owner) (o : Owner) (i e : Z) : Prop :=
  match o with
  | OData => True
  | OKernel level => (level < 3)%nat -> kernel_link own (S level) e
  | OUser r [] => if i <? 256 then user_link own (OUser r [i]) e else kernel_link own 1 e
  | OUser r [a] => user_link own (OUser r [a; i]) e
  | OUser r [a; b] => user_link own (OUser r [a; b; i]) e
  | OUser r _ => present e = true -> own !! frame_of e = Some OData
  end.

Record pt_wf (own : gmap Z Owner) (s : Machine) : Prop := {
  wf_pmm : pmm_ok (pmm s);
  wf_mem : mem_ok (ram s);
  wf_frame : forall t o, own !! t = Some o -> is_frame t;
  wf_used : forall t o, own !! t = Some o -> t / PAGE_SIZE ∉ free_set (pmm s);
  wf_entry : forall t o i, own !! t = Some o -> is_idx i -> entry_ok own o i (ent (ram s) t i);
}.

(** Nothing the invariant says about an entry is lost when frames get owners. *)
Lemma user_link_mono own own' o e : own ⊆ own' -> user_link own o e -> user_link own' o e.
Proof. intros Hsub [->|(H1 & H2 & H3)]; [by left|]. right. eauto using lookup_weaken. Qed.

Lemma kernel_link_mono own own' l e : own ⊆ own' -> kernel_link own l e -> kernel_link own' l e.
Proof.
  intros Hsub H Hp. destruct (H Hp) as [?|Hc]; [by left|]. right. eauto using lookup_weaken.
Qed.

Lemma entry_ok_mono own own' o i e : own ⊆ own' -> entry_ok own o i e -> entry_ok own' o i e.
Proof.
  intros Hsub H. destruct o as [l|r [|a [|b [|c p]]]|]; simpl in *;
    try case_goal; eauto using user_link_mono, kernel_link_mono, lookup_weaken.
Qed.

(** A zeroed table satisfies the invariant of every owner. *)
Lemma entry_ok_0 own o i : entry_ok own o i 0.
Proof.
  destruct o as [l|r [|a [|b [|c p]]]|]; simpl; try case_goal; unfold user_link, kernel_link;
    rewrite ?present_0; auto; done.
Qed.

(** What an operation leaves alone: kernel tables, the kernel half of every
    user PML4, and data pages. *)
Definition kept (own : gmap Z Owner) (m m' : Mem) : Prop :=
  (forall t l i, own !! t = Some (OKernel l) -> is_idx i -> ent m' t i = ent m t i) /\
  (forall r i, own !! r = Some (OUser r []) -> 256 <= i < 512 -> ent m' r i = ent m r i) /\
  (forall t, own !! t = Some OData -> same_page m m' t).

Lemma kept_refl own m : kept own m m.
Proof. split_and!; try done. Qed.

Lemma kept_trans own own' m1 m2 m3 :
  own ⊆ own' -> kept own m1 m2 -> kept own' m2 m3 -> kept own m1 m3.
Proof.
  intros Hsub (A1 & A2 & A3) (B1 & B2 & B3). split_and!.
  - intros t l i Ht Hi. rewrite (B1 t l i), (A1 t l i); eauto using lookup_weaken.
  - intros r i Hr Hi. rewrite (B2 r i), (A2 r i); eauto using lookup_weaken.
  - intros t Ht. eapply same_page_trans; eauto using lookup_weaken.
Qed.

(** ** Allocating a frame *)

(** A frame from the allocator is owned by nobody; giving it an owner keeps
    the invariant, and no owned frame changes. *)
Lemma alloc_frameM_spec own s :
  pt_wf own s ->
  (alloc_frameM s = OOk 0 s /\ free_set (pmm s) = ∅) \/
  exists a s', alloc_frameM s = OOk a s' /\ a <> 0 /\ is_frame a /\ own !! a = None /\
    (forall o, pt_wf (<[a := o]> own) s') /\
    (forall i, is_idx i -> ent (ram s') a i = 0) /\
    (forall t o, own !! t = Some o -> same_page (ram s) (ram s') t) /\
    (forall x, 0 <= x < PAGE_SIZE -> ram s' (p2v a + x) = 0) /\
    free_set (pmm s') = free_set (pmm s) ∖ {[a / PAGE_SIZE]} /\ a / PAGE_SIZE ∈ free_set (pmm s) /\
    kernel_pml4 s' = kernel_pml4 s /\ cr3 s' = cr3 s /\ invlpgs s' = invlpgs s.
Proof.
  intros [Hp Hm Hfr Hus Hen]. unfold alloc_frameM.
  destruct (alloc_frame_cases (pmm s) (ram s) Hp)
    as [[-> HF]|(f & p' & -> & Hin & Hmin & HF & Hok)].
  { left. split; [|done]. destruct s; done. }
  right. pose proof (pmm_ok_pos _ _ Hp Hin) as Hf. set (a := f * PAGE_SIZE).
  assert (Ha : is_frame a) by by apply is_frame_mul.
  assert (Hdiv : a / PAGE_SIZE = f) by (apply Z.div_mul; done).
  assert (Hfresh : own !! a = None).
  { destruct (own !! a) eqn:E; [|done]. apply Hus in E. rewrite Hdiv in E. done. }
  assert (Hpages : forall t o, own !! t = Some o -> same_page (ram s) (fill (ram s) (p2v a) 0 PAGE_SIZE) t).
  { intros t o Ht. apply same_page_fill; [done|eauto|congruence]. }
  eexists a, _. split; [reflexivity|]. simpl. rewrite Hdiv.
  split_and!; try done; [destruct Ha; unfold PAGE_SIZE in *; lia| | |].
  - intros o. split; simpl.
    + done.
    + apply fill_ok; [split; [lia|reflexivity]|done].
    + intros t o' Ht. apply lookup_insert_Some in Ht as [[<- _]|[_ Ht]]; eauto.
    + intros t o' Ht. rewrite HF. apply lookup_insert_Some in Ht as [[<- _]|[_ Ht]].
      * rewrite Hdiv. set_solver.
      * apply Hus in Ht. set_solver.
    + intros t o' i Ht Hi.
      assert (own ⊆ <[a:=o]> own) as Hsub by by apply insert_subseteq.
      apply lookup_insert_Some in Ht as [[<- <-]|[Hne Ht]].
      * rewrite ent_fill, decide_True by done. apply entry_ok_0.
      * rewrite ent_fill, decide_False by eauto. eauto using entry_ok_mono.
  - intros i Hi. rewrite ent_fill, decide_True by done. done.
  - intros x Hx. unfold fill. range_case (p2v a + x) (p2v a) PAGE_SIZE; [done|lia].
Qed.

(** Writing an entry that the owner of the table accepts. *)
Lemma pt_wf_write own s t o i e :
  pt_wf own s -> own !! t = Some o -> is_idx i -> is_u64 e -> entry_ok own o i e ->
  pt_wf own (set_ram (write64 (ram s) (slot t i) e) s).
Proof.
  intros [Hp Hm Hfr Hus Hen] Ht Hi He Hok. split; simpl; try done; [by apply write64_ok|].
  intros t' o' i' Ht' Hi'. rewrite ent_write by eauto. case_decide as E; [|auto].
  destruct E as [-> ->]. congruence.
Qed.

Lemma same_page_write_owned own s t o i e t' o' :
  pt_wf own s -> own !! t = Some o -> own !! t' = Some o' -> t <> t' -> is_idx i ->
  same_page (ram s) (write64 (ram s) (slot t i) e) t'.
Proof. intros Hwf Ht Ht' Hne Hi. apply same_page_write; eauto using wf_frame. Qed.

(** Writing an entry of a user table in the user half keeps everything else. *)
Lemma kept_write own s r p t i e :
  pt_wf own s -> own !! t = Some (OUser r p) -> is_idx i -> (p = [] -> i < 256) -> is_u64 e ->
  kept own (ram s) (write64 (ram s) (slot t i) e).
Proof.
  intros Hwf Ht Hi Hp He. pose proof (wf_frame _ _ Hwf) as Hfr. split_and!.
  - intros t' l i' Ht' Hi'. rewrite ent_write by eauto. rewrite decide_False; [done|].
    intros [-> _]. congruence.
  - intros r' i' Hr' Hi'. rewrite ent_write by (eauto; unfold is_idx; lia).
    rewrite decide_False; [done|]. intros [-> ->].
    assert (p = []) by congruence. naive_solver lia.
  - intros t' Ht'. eapply same_page_write_owned; eauto. congruence.
Qed.

Lemma kept_pages own m m' :
  (forall t o, own !! t = Some o -> is_frame t) ->
  (forall t o, own !! t = Some o -> same_page m m' t) -> kept own m m'.
Proof.
  intros Hfr H. split_and!; eauto.
  - intros. apply same_page_ent; eauto.
  - intros. apply same_page_ent; eauto. unfold is_idx; lia.
Qed.

(** ** User address spaces as maps *)

Definition is_user (v : Z) : Prop := 0 <= v < 2 ^ 47.

Definition child (m : Mem) (t i : Z) : option Z :=
  let e := ent m t i in if present e then Some (child_of e) else None.

Fixpoint descend (m : Mem) (t : Z) (p : list Z) : option Z :=
  match p with
  | [] => Some t
  | i :: p' => match child m t i with Some c => descend m c p' | None => None end
  end.

Definition upath (v : Z) : list Z := [idx v 39; idx v 30; idx v 21].

(** The leaf entry of user address [v]; 0 where there is no table. *)
Definition upte (m : Mem) (r v : Z) : Z :=
  match descend m r (upath v) with
  | Some pt => ent m pt (idx v 12)
  | None => 0
  end.

Lemma idx_mod v k : 0 <= k -> idx v k = v / 2 ^ k mod 512.
Proof.
  intros Hk. unfold idx. change 0x1FF with (2 ^ 9 - 1).
  rewrite land_ones_mod, Z.shiftr_div_pow2 by lia. done.
Qed.

Lemma idx_is_idx v k : 0 <= k -> is_idx (idx v k).
Proof. intros Hk. rewrite idx_mod by done. apply Z.mod_pos_bound. lia. Qed.

Lemma idx39_user v : is_user v -> idx v 39 < 256.
Proof.
  intros Hv. rewrite idx_mod by lia. unfold is_user in Hv.
  assert (v / 2 ^ 39 < 256) by (apply Z.div_lt_upper_bound; lia).
  pose proof (Z.div_pos v (2 ^ 39)). pose proof (Z.mod_le (v / 2 ^ 39) 512). lia.
Qed.

Lemma page_of_idx v : is_user v ->
  v / 4096 = ((idx v 39 * 512 + idx v 30) * 512 + idx v 21) * 512 + idx v 12.
Proof.
  intros Hv. pose proof (idx39_user v Hv) as H39. rewrite !idx_mod in * by lia. unfold is_user in Hv.
  assert (forall k, 0 <= k -> v / 2 ^ k = 512 * (v / 2 ^ (k + 9)) + v / 2 ^ k mod 512) as H.
  { intros k Hk. rewrite Z.pow_add_r by lia. change (2 ^ 9) with 512.
    rewrite <- Z.div_div by lia. apply Z.div_mod. lia. }
  pose proof (H 12 ltac:(lia)). pose proof (H 21 ltac:(lia)). pose proof (H 30 ltac:(lia)).
  assert (v / 2 ^ 39 mod 512 = v / 2 ^ 39).
  { apply Z.mod_small. split; [apply Z.div_pos; lia|].
    apply Z.div_lt_upper_bound; lia. }
  change (2 ^ 12) with 4096 in *. change (12 + 9) with 21 in *. change (21 + 9) with 30 in *.
  change (30 + 9) with 39 in *. lia.
Qed.

(** Two user addresses have the same path and index exactly when they are in
    the same page. *)
Lemma same_path v v' : is_user v -> is_user v' ->
  upath v = upath v' /\ idx v 12 = idx v' 12 <-> v / 4096 = v' / 4096.
Proof.
  intros Hv Hv'. rewrite !page_of_idx by done. unfold upath.
  pose proof (idx_is_idx v 30). pose proof (idx_is_idx v 21). pose proof (idx_is_idx v 12).
  pose proof (idx_is_idx v' 30). pose proof (idx_is_idx v' 21). pose proof (idx_is_idx v' 12).
  unfold is_idx in *. split; [intros [Hu ?]; simplify_eq; congruence|].
  intros H'. assert (idx v 12 = idx v' 12) by lia. assert (idx v 21 = idx v' 21) by lia.
  assert (idx v 30 = idx v' 30) by lia. assert (idx v 39 = idx v' 39) by lia. split; congruence.
Qed.

(** Indices a walk from a table at path [p] may use. *)
Fixpoint path_ok (p q : list Z) : Prop :=
  match q with
  | [] => (length p <= 3)%nat
  | i :: q' => is_idx i /\ (p = [] -> i < 256) /\ path_ok (p ++ [i]) q'
  end.

Lemma path_ok_length p q : path_ok p q -> (length p + length q <= 3)%nat.
Proof.
  revert p; induction q as [|i q IH]; intros p H; simpl in *; [lia|].
  destruct H as (_ & _ & H). apply IH in H. rewrite length_app in H. simpl in H. lia.
Qed.

Lemma path_ok_upath v : is_user v -> path_ok [] (upath v).
Proof.
  intros Hv. simpl. split_and!; try done; try (apply idx_is_idx; lia); try lia.
  intros _. by apply idx39_user.
Qed.

(** ** Walks stay inside the tables of their address space *)

Lemma user_entry own s r p t i :
  pt_wf own s -> own !! t = Some (OUser r p) -> (length p < 3)%nat -> is_idx i ->
  (p = [] -> i < 256) -> user_link own (OUser r (p ++ [i])) (ent (ram s) t i).
Proof.
  intros Hwf Ht Hp Hi H0. pose proof (wf_entry _ _ Hwf t _ i Ht Hi) as H.
  destruct p as [|a [|b [|c p]]]; simpl in *; [|done|done|lia].
  specialize (H0 eq_refl). destruct (Z.ltb_spec i 256); [done|lia].
Qed.

Lemma child_owned own s r p t i c :
  pt_wf own s -> own !! t = Some (OUser r p) -> (length p < 3)%nat -> is_idx i ->
  (p = [] -> i < 256) -> child (ram s) t i = Some c ->
  own !! c = Some (OUser r (p ++ [i])).
Proof.
  intros Hwf Ht Hp Hi H0 Hc. unfold child in Hc.
  destruct (user_entry own s r p t i) as [E|(H1 & H2 & H3)]; try done.
  - rewrite E, present_0 in Hc. done.
  - rewrite H1 in Hc. congruence.
Qed.

Lemma descend_owned own s r p t q t' :
  pt_wf own s -> own !! t = Some (OUser r p) -> path_ok p q ->
  descend (ram s) t q = Some t' -> own !! t' = Some (OUser r (p ++ q)).
Proof.
  intros Hwf. revert p t. induction q as [|i q IH]; intros p t Ht Hq Hd; simpl in *.
  - rewrite app_nil_r. congruence.
  - destruct Hq as (Hi & H0 & Hq). destruct (child _ _ _) as [c|] eqn:Hc; [|done].
    pose proof (path_ok_length _ _ Hq) as Hl. rewrite length_app in Hl. simpl in Hl.
    eapply child_owned in Hc; eauto; [|lia]. eapply IH in Hd; eauto.
    by rewrite <- app_assoc in Hd.
Qed.

(** Walks in two memories that agree on the inner tables agree. *)
Lemma descend_ext own s m' r p t q :
  pt_wf own s -> own !! t = Some (OUser r p) -> path_ok p q ->
  (forall y p' j, own !! y = Some (OUser r p') -> (length p' < 3)%nat -> is_idx j ->
     (p' = [] -> j < 256) -> ent m' y j = ent (ram s) y j) ->
  descend m' t q = descend (ram s) t q.
Proof.
  intros Hwf Ht Hq Hext. revert p t Ht Hq. induction q as [|i q IH]; intros p t Ht Hq; simpl; [done|].
  destruct Hq as (Hi & H0 & Hq). pose proof (path_ok_length _ _ Hq) as Hl.
  rewrite length_app in Hl. simpl in Hl.
  assert (child m' t i = child (ram s) t i) as ->
    by (unfold child; rewrite (Hext t p i) by (done || lia); done).
  destruct (child _ _ _) as [c|] eqn:Hc; [|done].
  eapply IH; eauto. eapply child_owned; eauto. lia.
Qed.

(** Linking a fresh zeroed table [c] where there was nothing. *)
Lemma descend_link own s m' r p y q t i e :
  pt_wf own s -> own !! y = Some (OUser r p) -> path_ok p q ->
  (forall y j o, own !! y = Some o -> is_idx j ->
     ent m' y j = if decide (y = t /\ j = i) then e else ent (ram s) y j) ->
  ent (ram s) t i = 0 -> present e = true -> (forall j, is_idx j -> ent m' (child_of e) j = 0) ->
  descend m' y q = descend (ram s) y q \/
  (descend (ram s) y q = None /\ descend m' y q = Some (child_of e)).
Proof.
  intros Hwf Hy Hq Hm Ht0 He Hzero. revert p y Hy Hq.
  induction q as [|j q IH]; intros p y Hy Hq; simpl; [by left|].
  destruct Hq as (Hj & H0 & Hq). pose proof (path_ok_length _ _ Hq) as Hl.
  rewrite length_app in Hl. simpl in Hl.
  assert (child m' y j = if decide (y = t /\ j = i) then Some (child_of e) else child (ram s) y j) as ->
    by (unfold child; rewrite (Hm y j _ Hy Hj); case_decide; [by rewrite He|done]).
  case_decide as E.
  - destruct E as [-> ->].
    assert (child (ram s) t i = None) as -> by (unfold child; by rewrite Ht0, present_0).
    destruct q as [|k q]; simpl; [by right|]. left.
    destruct Hq as (Hk & _). unfold child. by rewrite Hzero, present_0 by done.
  - destruct (child (ram s) y j) as [c|] eqn:Ec; [|by left].
    eapply IH; eauto. eapply child_owned; eauto. lia.
Qed.

(** ** The code's walks compute [upte] *)

Lemma upath_descend m r v :
  descend m r (upath v) =
  match child m r (idx v 39) with
  | None => None
  | Some pdpt => match child m pdpt (idx v 30) with
                 | None => None
                 | Some pd => child m pd (idx v 21)
                 end
  end.
Proof. simpl. repeat (case_match; try done). Qed.

(** In the user half a directory entry is never huge. *)
Lemma user_not_huge own s r v pdpt pd :
  pt_wf own s -> own !! r = Some (OUser r []) -> is_user v ->
  child (ram s) r (idx v 39) = Some pdpt -> child (ram s) pdpt (idx v 30) = Some pd ->
  huge (ent (ram s) pd (idx v 21)) = false.
Proof.
  intros Hwf Hr Hv H1 H2.
  pose proof (idx_is_idx v 39 ltac:(lia)). pose proof (idx_is_idx v 30 ltac:(lia)).
  pose proof (idx_is_idx v 21 ltac:(lia)).
  assert (own !! pdpt = Some (OUser r [idx v 39])) as Hpdpt.
  { eapply (child_owned own s r []); eauto; simpl; first [lia|intros; by apply idx39_user]. }
  assert (own !! pd = Some (OUser r [idx v 39; idx v 30])) as Hpd.
  { eapply (child_owned own s r [_]); eauto; simpl; first [lia|done]. }
  destruct (user_entry own s r _ pd (idx v 21) Hwf Hpd) as [->|(_ & ? & _)]; done || simpl; lia.
Qed.

Lemma pte_ptr_child m r v :
  pte_ptr m r v =
  match child m r (idx v 39) with
  | None => None
  | Some pdpt =>
      match child m pdpt (idx v 30) with
      | None => None
      | Some pd => if huge (ent m pd (idx v 21)) then None
                   else match child m pd (idx v 21) with
                        | None => None
                        | Some pt => Some (slot pt (idx v 12))
                        end
      end
  end.
Proof.
  unfold pte_ptr, child, present, huge, child_of. fold (ent m r (idx v 39)).
  destruct (ent m r (idx v 39) & PTE_PRESENT =? 0); simpl; [done|].
  set (pdpt := ent m r (idx v 39) & not64 0xFFF). fold (ent m pdpt (idx v 30)).
  destruct (ent m pdpt (idx v 30) & PTE_PRESENT =? 0); simpl; [done|].
  set (pd := ent m pdpt (idx v 30) & not64 0xFFF). fold (ent m pd (idx v 21)).
  destruct (ent m pd (idx v 21) & PTE_PRESENT =? 0), (ent m pd (idx v 21) & PTE_HUGE =? 0); done.
Qed.

Lemma pte_ptr_descend own s r v :
  pt_wf own s -> own !! r = Some (OUser r []) -> is_user v ->
  pte_ptr (ram s) r v =
  match descend (ram s) r (upath v) with Some pt => Some (slot pt (idx v 12)) | None => None end.
Proof.
  intros Hwf Hr Hv. rewrite upath_descend, pte_ptr_child.
  destruct (child (ram s) r _) as [pdpt|] eqn:E1; [|done].
  destruct (child (ram s) pdpt _) as [pd|] eqn:E2; [|done].
  by rewrite (user_not_huge own s r v pdpt pd).
Qed.

Lemma translate_child m r v :
  translate_page m r v =
  match child m r (idx v 39) with
  | None => None
  | Some pdpt =>
      match child m pdpt (idx v 30) with
      | None => None
      | Some pd =>
          if present (ent m pd (idx v 21)) then
            if huge (ent m pd (idx v 21))
            then Some (frame_of (ent m pd (idx v 21)) +w (v & (2 * 1024 * 1024 - 1)))
            else match pte_ptr m r v with
                 | None => None
                 | Some p => if present (read64 m p) then Some (frame_of (read64 m p)) else None
                 end
          else None
      end
  end.
Proof.
  unfold translate_page, child, present, huge, child_of, frame_of. fold (ent m r (idx v 39)).
  destruct (ent m r (idx v 39) & PTE_PRESENT =? 0); simpl; [done|].
  set (pdpt := ent m r (idx v 39) & not64 0xFFF). fold (ent m pdpt (idx v 30)).
  destruct (ent m pdpt (idx v 30) & PTE_PRESENT =? 0); simpl; [done|].
  set (pd := ent m pdpt (idx v 30) & not64 0xFFF). fold (ent m pd (idx v 21)).
  destruct (ent m pd (idx v 21) & PTE_PRESENT =? 0), (ent m pd (idx v 21) & PTE_HUGE =? 0); simpl;
    try done.
  destruct (pte_ptr m r v); [|done]. by destruct (_ =? 0).
Qed.

(** [translate_page] of a user address is its leaf entry's frame. *)
Lemma translate_upte own s r v :
  pt_wf own s -> own !! r = Some (OUser r []) -> is_user v ->
  translate_page (ram s) r v =
  if present (upte (ram s) r v) then Some (frame_of (upte (ram s) r v)) else None.
Proof.
  intros Hwf Hr Hv. rewrite translate_child, (pte_ptr_descend own) by done.
  unfold upte. rewrite upath_descend.
  destruct (child (ram s) r _) as [pdpt|] eqn:E1; [|done].
  destruct (child (ram s) pdpt _) as [pd|] eqn:E2; [|done].
  rewrite (user_not_huge own s r v pdpt pd) by done. unfold child.
  destruct (present (ent (ram s) pd _)); done.
Qed.

(** ** The effect of single writes on [upte] *)

Lemma upte_link own s m' r t i p rt e v :
  pt_wf own s -> own !! r = Some (OUser r []) -> is_user v ->
  own !! t = Some (OUser rt p) -> (length p < 3)%nat ->
  (forall y j o, own !! y = Some o -> is_idx j ->
     ent m' y j = if decide (y = t /\ j = i) then e else ent (ram s) y j) ->
  ent (ram s) t i = 0 -> present e = true -> (forall j, is_idx j -> ent m' (child_of e) j = 0) ->
  upte m' r v = upte (ram s) r v.
Proof.
  intros Hwf Hr Hv Ht Hp Hm Ht0 He Hz. unfold upte. pose proof (idx_is_idx v 12 ltac:(lia)) as Hi.
  destruct (descend_link own s m' r [] r (upath v) t i e) as [->|[-> ->]]; try done.
  - by apply path_ok_upath.
  - destruct (descend (ram s) r (upath v)) as [pt|] eqn:E; [|done].
    eapply descend_owned in E; eauto; [|by apply path_ok_upath].
    rewrite (Hm pt _ _ E Hi), decide_False; [done|]. intros [-> _].
    rewrite E in Ht. injection Ht as <- <-. simpl in Hp. lia.
  - by apply Hz.
Qed.

(** Writing leaf entry [i] of a page table changes exactly one page. *)
Lemma upte_write own s r v pt e :
  pt_wf own s -> own !! r = Some (OUser r []) -> is_user v ->
  descend (ram s) r (upath v) = Some pt -> is_u64 e ->
  forall r' v', own !! r' = Some (OUser r' []) -> is_user v' ->
  upte (write64 (ram s) (slot pt (idx v 12)) e) r' v' =
  if decide (r' = r /\ v' / 4096 = v / 4096) then e else upte (ram s) r' v'.
Proof.
  intros Hwf Hr Hv Hd He r' v' Hr' Hv'.
  pose proof (descend_owned own s r [] r _ _ Hwf Hr (path_ok_upath v Hv) Hd) as Hpt. simpl in Hpt.
  pose proof (idx_is_idx v 12 ltac:(lia)) as Hi. pose proof (idx_is_idx v' 12 ltac:(lia)) as Hi'.
  unfold upte. rewrite (descend_ext own s _ r' [] r' (upath v')); try done.
  - destruct (descend (ram s) r' (upath v')) as [pt'|] eqn:E.
    + pose proof (descend_owned own s r' [] r' _ _ Hwf Hr' (path_ok_upath v' Hv') E) as Hpt'. simpl in Hpt'.
      rewrite ent_write by eauto using wf_frame.
      destruct (decide (pt' = pt /\ idx v' 12 = idx v 12)) as [[-> Hii]|Hne].
      * rewrite Hpt in Hpt'. injection Hpt' as -> H1 H2 H3. rewrite decide_True; [done|]. split; [done|].
        apply same_path; try done. split; [|done]. unfold upath. congruence.
      * rewrite decide_False; [done|]. intros [-> Hpg]. apply Hne.
        apply same_path in Hpg as [Hp12 ?]; try done. rewrite Hp12 in E. split; congruence.
    + rewrite decide_False; [done|]. intros [-> Hpg].
      apply same_path in Hpg as [Hp12 _]; try done. congruence.
  - by apply path_ok_upath.
  - intros y p' j Hy Hp' Hj _. rewrite ent_write by eauto using wf_frame.
    rewrite decide_False; [done|]. intros [-> _]. rewrite Hpt in Hy. injection Hy as _ <-. simpl in Hp'. lia.
Qed.

(** ** Operations *)

(** What a step of an operation preserves: it may give owners to new frames,
    and changes no user leaf entry. *)
Record pt_step (own : gmap Z Owner) (s : Machine) (own' : gmap Z Owner) (s' : Machine) : Prop := {
  step_sub : own ⊆ own';
  step_wf : pt_wf own' s';
  step_kept : kept own (ram s) (ram s');
  step_upte : forall r v, own !! r = Some (OUser r []) -> is_user v ->
                upte (ram s') r v = upte (ram s) r v;
  step_regs : kernel_pml4 s' = kernel_pml4 s /\ cr3 s' = cr3 s /\ invlpgs s' = invlpgs s;
}.

Lemma pt_step_refl own s : pt_wf own s -> pt_step own s own s.
Proof. intros. split; done. Qed.

Lemma pt_step_trans own1 s1 own2 s2 own3 s3 :
  pt_step own1 s1 own2 s2 -> pt_step own2 s2 own3 s3 -> pt_step own1 s1 own3 s3.
Proof.
  intros [A1 A2 A3 A4 (A5 & A6 & A7)] [B1 B2 B3 B4 (B5 & B6 & B7)]. split; try done.
  - by etrans.
  - by eapply kept_trans.
  - intros r v Hr Hv. rewrite B4, A4; eauto using lookup_weaken.
  - split_and!; congruence.
Qed.

(** The link bits of a new table entry. *)
Definition link_bits (u : Z) : Z := PTE_PRESENT .| PTE_WRITABLE .| u.

Lemma link_entry a u :
  is_frame a -> u = 0 \/ u = PTE_USER ->
  let e := a .| PTE_PRESENT .| PTE_WRITABLE .| u in
  present e = true /\ huge e = false /\ child_of e = a /\ frame_of e = a /\ is_u64 e.
Proof.
  intros Ha Hu e. pose proof (is_frame_bounds a Ha) as Hb. destruct Ha as [Hm _].
  assert (e = a .| link_bits u) as ->
    by (unfold e, link_bits; rewrite !Z.lor_assoc; done).
  assert (0 <= link_bits u < 4096 /\ Z.testbit (link_bits u) 0 = true /\
          Z.testbit (link_bits u) 7 = false /\ frame_of (link_bits u) = 0)
    as (Hr & H0 & H7 & Hf) by (destruct Hu as [-> | ->]; vm_compute; split_and!; congruence).
  assert (2 ^ 32 < 2 ^ 52) by reflexivity.
  rewrite present_testbit, huge_testbit, !Z.lor_spec, H0, H7, (aligned_testbit a 7) by (done || lia).
  split_and!; [apply orb_true_r|done|apply child_of_lor; done || lia|apply frame_of_lor; done || lia|].
  apply (lor_range _ _ 64); [lia| |]; change (2 ^ 64) with 18446744073709551616; lia.
Qed.

Lemma ensure_entry_eq ptr u s :
  ensure_entry ptr u s =
  if read64 (ram s) ptr =? 0 then
    match alloc_frameM s with
    | OOk a s1 => if a =? 0 then OPanic
                  else OOk tt (set_ram (write64 (ram s1) ptr (a .| PTE_PRESENT .| PTE_WRITABLE .| u)) s1)
    | OErr e s1 => OErr e s1
    | OPanic => OPanic
    end
  else OOk tt s.
Proof.
  unfold ensure_entry, bindM at 1, rd64. destruct (_ =? 0); [|done].
  unfold alloc_table, bindM. destruct (alloc_frameM s); [|done..]. by destruct (_ =? 0).
Qed.

Lemma ensure_entry_spec own s rt p t i u :
  pt_wf own s -> own !! t = Some (OUser rt p) -> (length p < 3)%nat -> is_idx i ->
  (p = [] -> i < 256) -> u = 0 \/ u = PTE_USER ->
  (ensure_entry (slot t i) u s = OPanic /\ free_set (pmm s) = ∅) \/
  exists own' s', ensure_entry (slot t i) u s = OOk tt s' /\ pt_step own s own' s' /\
    user_link own' (OUser rt (p ++ [i])) (ent (ram s') t i) /\ present (ent (ram s') t i) = true /\
    (forall y o j, own !! y = Some o -> is_idx j -> ~ (y = t /\ j = i) ->
       ent (ram s') y j = ent (ram s) y j) /\
    Z.of_nat (size (free_set (pmm s))) <= Z.of_nat (size (free_set (pmm s'))) + 1.
Proof.
  intros Hwf Ht Hp Hi H0 Hu. rewrite ensure_entry_eq. fold (ent (ram s) t i).
  pose proof (user_entry own s rt p t i Hwf Ht Hp Hi H0) as Hlink.
  destruct (Z.eqb_spec (ent (ram s) t i) 0) as [E0|E0].
  2: { right. exists own, s. split_and!; [done|by apply pt_step_refl|done| |done|lia].
       by destruct Hlink as [?|(? & _)]. }
  destruct (alloc_frameM_spec own s Hwf)
    as [[-> HF]|(a & s1 & -> & Ha0 & Ha & Hfresh & Hwf1 & Hz & Hpg & _ & HF & Hin & Hregs)].
  { left. done. }
  right. rewrite (proj2 (Z.eqb_neq a 0) Ha0).
  destruct (link_entry a u Ha Hu) as (Hpr & Hhu & Hch & _ & He64).
  set (e := a .| PTE_PRESENT .| PTE_WRITABLE .| u) in *.
  specialize (Hwf1 (OUser rt (p ++ [i]))). set (own' := <[a:=_]> own) in *.
  assert (own ⊆ own') as Hsub by by apply insert_subseteq.
  assert (own' !! a = Some (OUser rt (p ++ [i]))) as Hown_a by apply lookup_insert_eq.
  assert (a <> t) as Hat by congruence.
  assert (user_link own' (OUser rt (p ++ [i])) e) as Hlink' by (right; rewrite Hch; done).
  assert (own' !! t = Some (OUser rt p)) as Ht' by by apply (lookup_weaken own).
  assert (forall y j o, own !! y = Some o -> is_idx j ->
    ent (write64 (ram s1) (slot t i) e) y j = if decide (y = t /\ j = i) then e else ent (ram s) y j) as Hent.
  { intros y j o Hy Hj. rewrite ent_write by eauto using wf_frame. case_decide; [done|].
    apply same_page_ent; eauto using wf_frame. }
  eexists own', _. split; [reflexivity|]. split_and!.
  - split; simpl; [done| | | |done].
    + eapply pt_wf_write; eauto.
      destruct p as [|x [|y [|z p]]]; simpl in *; try done; [|lia].
      destruct (Z.ltb_spec i 256); [done|]. specialize (H0 eq_refl). lia.
    + eapply kept_trans; [done|apply kept_pages; eauto using wf_frame|].
      eapply kept_write; eauto.
    + intros r v Hr Hv. apply (upte_link own s _ r t i p rt e v); try done. intros j Hj. rewrite Hch.
      rewrite ent_write by eauto using wf_frame. rewrite decide_False; [auto|]. intros [? _]; done.
  - simpl. rewrite (Hent t i _ Ht Hi), decide_True by done. done.
  - simpl. rewrite (Hent t i _ Ht Hi), decide_True by done. done.
  - intros y o j Hy Hj Hne. simpl. by rewrite (Hent y j _ Hy Hj), decide_False.
  - simpl. rewrite HF, size_remove by done. lia.
Qed.

(** Leaf entries. *)
Definition leaf (phys : Z) (fl : MapFlags) : Z := flag_bits fl (phys .| PTE_PRESENT).

Lemma flag_bits_lor fl e : flag_bits fl e = e .| flag_bits fl 0.
Proof.
  destruct fl as [[|] [|] [|]]; unfold flag_bits; simpl writable; simpl user; simpl executable;
    cbn iota; rewrite <- ?Z.lor_assoc; f_equal.
  all: by rewrite ?Z.lor_0_r.
Qed.

Lemma flag_bits_0 fl :
  is_u64 (flag_bits fl 0) /\ frame_of (flag_bits fl 0) = 0 /\ Z.testbit (flag_bits fl 0) 0 = false.
Proof. destruct fl as [[|] [|] [|]]; vm_compute; split_and!; congruence. Qed.

Lemma leaf_spec phys fl :
  is_frame phys -> present (leaf phys fl) = true /\ frame_of (leaf phys fl) = phys /\ is_u64 (leaf phys fl).
Proof.
  intros Hp. pose proof (is_frame_bounds phys Hp) as Hb. destruct Hp as [Hm _].
  destruct (flag_bits_0 fl) as (H64 & Hf & _).
  unfold leaf. rewrite flag_bits_lor, <- Z.lor_assoc.
  assert (2 ^ 32 < 2 ^ 52) by reflexivity. unfold is_u64, U64 in *.
  assert (0 <= PTE_PRESENT .| flag_bits fl 0 < 2 ^ 64) as Hr
    by (apply lor_range; [lia|vm_compute; split; congruence|done]).
  split_and!.
  - rewrite present_testbit, !Z.lor_spec. change (Z.testbit PTE_PRESENT 0) with true.
    by rewrite orb_true_r.
  - apply frame_of_lor; [lia|done|lia|].
    unfold frame_of in *. rewrite Z.land_lor_distr_l, Hf. reflexivity.
  - apply Z.lor_nonneg. lia.
  - apply lor_range; [lia| |done]. lia.
Qed.

(** The same entry as the processor's manual lays it out: the frame's address,
    bit 0 for present, bit 1 for writable, bit 2 for user, and bit 63 for
    no-execute; every other bit is clear. *)
Definition entry_of (phys : Z) (w u x : bool) : Z :=
  phys + 1 + 2 * Z.b2z w + 4 * Z.b2z u + 2 ^ 63 * Z.b2z (negb x).

(** What the processor allows through an entry. *)
Definition grants (e : Z) (w u x : bool) : Prop :=
  Z.testbit e 0 = true /\ Z.testbit e 1 = w /\ Z.testbit e 2 = u /\ Z.testbit e 63 = negb x.

Lemma frame_bits phys i : is_frame phys -> 0 <= i < 12 \/ i = 63 -> Z.testbit phys i = false.
Proof.
  intros Hp Hi. pose proof (is_frame_bounds phys Hp) as Hb. destruct Hp as [Hm _]. destruct Hi as [Hi| ->].
  - apply Z.mod_divide in Hm as [q ->]; [|done]. change PAGE_SIZE with (2 ^ 12). rewrite <- Z.shiftl_mul_pow2, Z.shiftl_spec by lia.
    by apply Z.testbit_neg_r; lia.
  - apply (Z.bits_above_log2 phys 63); [lia|]. destruct (Z.eq_dec phys 0) as [->|]; [done|]. apply Z.log2_lt_pow2; [lia|].
    assert (2 ^ 32 < 2 ^ 63) by reflexivity. lia.
Qed.

Lemma leaf_grants phys fl : is_frame phys -> grants (leaf phys fl) (writable fl) (user fl) (executable fl).
Proof.
  intros Hp. unfold grants, leaf. rewrite flag_bits_lor. rewrite !Z.lor_spec, !(frame_bits phys) by (done || lia).
  by destruct fl as [[|] [|] [|]].
Qed.

Lemma leaf_entry phys fl : is_frame phys -> leaf phys fl = entry_of phys (writable fl) (user fl) (executable fl).
Proof.
  intros Hp. pose proof (is_frame_bounds phys Hp) as Hb. destruct Hp as [Hm _].
  assert (2 ^ 12 | phys) as Hd by (by apply Z.mod_divide in Hm). assert (2 ^ 32 < 2 ^ 62) as H62 by reflexivity.
  assert (forall c, 0 <= c < 8 -> phys .| c = phys + c) as Hlow by (intros c Hc; apply (lor_add _ _ 12); [lia|done|lia]).
  assert (forall c, 0 <= c < 8 -> phys .| (2 ^ 63 .| c) = phys + c + 2 ^ 63) as Hhigh.
  { intros c Hc. rewrite Z.lor_assoc, (Z.lor_comm phys), <- Z.lor_assoc, Hlow by lia.
    rewrite (lor_add _ _ 63); [lia|lia|by exists 1|]. assert (2 ^ 63 = 2 * 2 ^ 62) by reflexivity. lia. }
  unfold leaf, entry_of. rewrite flag_bits_lor, <- Z.lor_assoc.
  destruct fl as [[|] [|] [|]]; cbn [writable user executable negb Z.b2z].
  all: match goal with |- Z.lor ?p ?c = _ => let v := eval vm_compute in c in
         first [ change c with v; rewrite Hlow by lia; lia
               | let l := eval vm_compute in (v - 2 ^ 63) in change c with (2 ^ 63 .| l); rewrite Hhigh by lia; lia ] end.
Qed.

(** What a page update does: one page of one address space gets the entry
    [e], the other pages of all address spaces, the kernel half and the data
    pages stay. *)
Record pt_update (own : gmap Z Owner) (s : Machine) (own' : gmap Z Owner) (s' : Machine)
    (r v e : Z) : Prop := {
  upd_sub : own ⊆ own';
  upd_wf : pt_wf own' s';
  upd_kept : kept own (ram s) (ram s');
  upd_upte : forall r' v', own !! r' = Some (OUser r' []) -> is_user v' ->
    upte (ram s') r' v' = if decide (r' = r /\ v' / 4096 = v / 4096) then e else upte (ram s) r' v';
  upd_regs : kernel_pml4 s' = kernel_pml4 s /\ cr3 s' = cr3 s;
  upd_tlb : invlpgs s' = if (cr3 s & not64 0xFFF) =? r then v :: invlpgs s else invlpgs s;
}.

(** The common tail of the three operations: write the leaf, then [invlpg]. *)
Lemma leaf_write_spec own s r v pt e :
  pt_wf own s -> own !! r = Some (OUser r []) -> is_user v ->
  descend (ram s) r (upath v) = Some pt -> is_u64 e ->
  (present e = true -> own !! frame_of e = Some OData) ->
  exists s', (wr64 (slot pt (idx v 12)) e ;;; flush_if_active r v) s = OOk tt s' /\
    pt_update own s own s' r v e /\ pmm s' = pmm s.
Proof.
  intros Hwf Hr Hv Hd He Hdata.
  pose proof (descend_owned own s r [] r _ _ Hwf Hr (path_ok_upath v Hv) Hd) as Hpt. simpl in Hpt.
  pose proof (idx_is_idx v 12 ltac:(lia)) as Hi.
  assert (pt_wf own (set_ram (write64 (ram s) (slot pt (idx v 12)) e) s)) as Hwf'
    by (eapply pt_wf_write; eauto).
  assert (kept own (ram s) (write64 (ram s) (slot pt (idx v 12)) e)) as Hk
    by (eapply kept_write; eauto; done).
  pose proof (upte_write own s r v pt e Hwf Hr Hv Hd He) as Hu.
  unfold wr64, flush_if_active, modifyM, bindM, getM, retM, invlpg. simpl.
  destruct (_ =? r) eqn:E; eexists; (split; [reflexivity|]); (split; [|done]); split; simpl; try done.
  - by destruct Hwf' as [? ? ? ? ?]; split.
  - by rewrite E.
  - by rewrite E.
Qed.

Lemma pt_step_update own s own1 s1 own2 s2 r v e :
  pt_step own s own1 s1 -> pt_update own1 s1 own2 s2 r v e -> pt_update own s own2 s2 r v e.
Proof.
  intros [A1 A2 A3 A4 (A5 & A6 & A7)] [B1 B2 B3 B4 (B5 & B6) B7]. split; try done.
  - by etrans.
  - by eapply kept_trans.
  - intros r' v' Hr Hv. rewrite B4 by eauto using lookup_weaken. case_decide; [done|]. by apply A4.
  - split; congruence.
  - rewrite B7, A6, A7. done.
Qed.

(** Free frames left. *)
Definition nfree (s : Machine) : Z := free_frames (pmm s).

Lemma nfree_size own s : pt_wf own s -> nfree s = Z.of_nat (size (free_set (pmm s))).
Proof. intros Hwf. apply (wf_pmm _ _ Hwf). Qed.

(** One level of [map_page_in]: after it, the entry leads to the table that
    the path names. *)
Lemma ensure_level own s r p t i u :
  pt_wf own s -> own !! t = Some (OUser r p) -> (length p < 3)%nat -> is_idx i ->
  (p = [] -> i < 256) -> u = 0 \/ u = PTE_USER ->
  (ensure_entry (slot t i) u s = OPanic /\ nfree s = 0) \/
  exists own' s' c, ensure_entry (slot t i) u s = OOk tt s' /\ pt_step own s own' s' /\
    child (ram s') t i = Some c /\ child_of (ent (ram s') t i) = c /\ huge (ent (ram s') t i) = false /\
    own' !! c = Some (OUser r (p ++ [i])) /\
    (forall y o j, own !! y = Some o -> is_idx j -> y <> t -> child (ram s') y j = child (ram s) y j) /\
    nfree s <= nfree s' + 1.
Proof.
  intros Hwf Ht Hp Hi H0 Hu.
  destruct (ensure_entry_spec own s r p t i u Hwf Ht Hp Hi H0 Hu)
    as [[E HF]|(own' & s' & E & Hst & Hl & Hpr & Hfr & Hn)].
  - left. split; [done|]. rewrite (nfree_size own) by done. by rewrite HF, size_empty.
  - right. exists own', s', (child_of (ent (ram s') t i)).
    destruct Hl as [Hl|(_ & Hh & Ho)]; [rewrite Hl, present_0 in Hpr; done|].
    split_and!; try done.
    + unfold child. by rewrite Hpr.
    + intros y o j Hy Hj Hne. unfold child. rewrite (Hfr y o j) by naive_solver. done.
    + rewrite (nfree_size own), (nfree_size own') by eauto using step_wf. done.
Qed.

Lemma map_page_in_spec own s r v phys fl :
  pt_wf own s -> own !! r = Some (OUser r []) -> is_user v -> own !! phys = Some OData ->
  (map_page_in r v phys fl s = OPanic /\ nfree s < 3) \/
  exists own' s', map_page_in r v phys fl s = OOk tt s' /\
    pt_update own s own' s' r v (leaf phys fl) /\ nfree s <= nfree s' + 3.
Proof.
  intros Hwf Hr Hv Hph. unfold map_page_in. set (u := if user fl then PTE_USER else 0).
  assert (Hu : u = 0 \/ u = PTE_USER) by (unfold u; destruct (user fl); auto).
  pose proof (idx39_user v Hv) as H39.
  pose proof (idx_is_idx v 39 ltac:(lia)) as I4. pose proof (idx_is_idx v 30 ltac:(lia)) as I3.
  pose proof (idx_is_idx v 21 ltac:(lia)) as I2.
  destruct (ensure_level own s r [] r (idx v 39) u Hwf Hr ltac:(simpl; lia) I4 ltac:(done) Hu)
    as [[E HF]|(own1 & s1 & t1 & E1 & S1 & C1 & D1 & _ & O1 & _ & N1)].
  { left. unfold bindM. rewrite E. split; [done|lia]. }
  pose proof (step_wf _ _ _ _ S1) as Hwf1.
  destruct (ensure_level own1 s1 r [idx v 39] t1 (idx v 30) u Hwf1 O1 ltac:(simpl; lia) I3 ltac:(done) Hu)
    as [[E HF]|(own2 & s2 & t2 & E2 & S2 & C2 & D2 & _ & O2 & F2 & N2)].
  { left. unfold bindM. rewrite E1. unfold rd64. fold (ent (ram s1) r (idx v 39)).
    fold (child_of (ent (ram s1) r (idx v 39))). rewrite D1, E. split; [done|lia]. }
  pose proof (step_wf _ _ _ _ S2) as Hwf2.
  destruct (ensure_level own2 s2 r [idx v 39; idx v 30] t2 (idx v 21) u Hwf2 O2 ltac:(simpl; lia) I2 ltac:(done) Hu)
    as [[E HF]|(own3 & s3 & t3 & E3 & S3 & C3 & D3 & G3 & O3 & F3 & N3)].
  { left. unfold bindM. rewrite E1. unfold rd64. fold (ent (ram s1) r (idx v 39)).
    fold (child_of (ent (ram s1) r (idx v 39))). rewrite D1, E2. fold (ent (ram s2) t1 (idx v 30)).
    fold (child_of (ent (ram s2) t1 (idx v 30))). rewrite D2, E. split; [done|lia]. }
  pose proof (step_wf _ _ _ _ S3) as Hwf3. simpl in O1, O2, O3.
  pose proof (pt_step_trans _ _ _ _ _ _ (pt_step_trans _ _ _ _ _ _ S1 S2) S3) as S.
  pose proof (lookup_weaken _ _ _ _ Hr (step_sub _ _ _ _ S1)) as Hr1.
  pose proof (lookup_weaken _ _ _ _ Hr1 (step_sub _ _ _ _ S2)) as Hr2.
  pose proof (lookup_weaken _ _ _ _ O1 (step_sub _ _ _ _ S2)) as O1'.
  assert (descend (ram s3) r (upath v) = Some t3) as Hd.
  { rewrite upath_descend, (F3 r _ _ Hr2 I4), (F2 r _ _ Hr1 I4), C1 by congruence.
    rewrite (F3 t1 _ _ O1' I3), C2 by congruence. done. }
  pose proof (lookup_weaken _ _ _ _ Hph (step_sub _ _ _ _ S)) as Hph3.
  destruct (leaf_spec phys fl (wf_frame _ _ Hwf _ _ Hph)) as (L1 & L2 & L3).
  destruct (leaf_write_spec own3 s3 r v t3 (leaf phys fl) Hwf3) as (s' & E4 & U & Hpm); try done.
  { by eapply lookup_weaken; [exact Hr2|apply S3]. }
  { by rewrite L2. }
  right. exists own3, s'. split; [|split; [by eapply pt_step_update|unfold nfree in *; rewrite Hpm; lia]].
  unfold bindM at 1. rewrite E1. unfold bindM at 1, rd64. fold (ent (ram s1) r (idx v 39)).
  fold (child_of (ent (ram s1) r (idx v 39))). rewrite D1. unfold bindM at 1. rewrite E2.
  unfold bindM at 1. fold (ent (ram s2) t1 (idx v 30)).
  fold (child_of (ent (ram s2) t1 (idx v 30))). rewrite D2. unfold bindM at 1. rewrite E3.
  unfold bindM at 1. fold (ent (ram s3) t2 (idx v 21)).
  fold (huge (ent (ram s3) t2 (idx v 21))). rewrite G3.
  fold (child_of (ent (ram s3) t2 (idx v 21))). rewrite D3. exact E4.
Qed.

(** The leaf entry an update would find. *)
Lemma upte_present_descend m r v :
  present (upte m r v) = true -> exists pt, descend m r (upath v) = Some pt /\ ent m pt (idx v 12) = upte m r v.
Proof. unfold upte. destruct (descend _ _ _) as [pt|]; [eauto|]. by rewrite present_0. Qed.

Lemma upte_u64 own s r v : pt_wf own s -> is_u64 (upte (ram s) r v).
Proof.
  intros Hwf. unfold upte. destruct (descend _ _ _); [by apply ent_range, (wf_mem own)|].
  split; [lia|reflexivity].
Qed.

Lemma upte_data own s r v :
  pt_wf own s -> own !! r = Some (OUser r []) -> is_user v ->
  present (upte (ram s) r v) = true -> own !! frame_of (upte (ram s) r v) = Some OData.
Proof.
  intros Hwf Hr Hv Hp. destruct (upte_present_descend _ _ _ Hp) as (pt & Hd & He).
  eapply (descend_owned own s r []) in Hd; eauto; [|by apply path_ok_upath]. simpl in Hd.
  pose proof (wf_entry _ _ Hwf pt _ (idx v 12) Hd (idx_is_idx v 12 ltac:(lia))) as H.
  simpl in H. rewrite He in H. auto.
Qed.

Lemma unmap_page_in_spec own s r v :
  pt_wf own s -> own !! r = Some (OUser r []) -> is_user v ->
  if present (upte (ram s) r v) then
    exists s', unmap_page_in r v s = OOk (Some (frame_of (upte (ram s) r v))) s' /\
               pt_update own s own s' r v 0
  else unmap_page_in r v s = OOk None s.
Proof.
  intros Hwf Hr Hv. unfold unmap_page_in. rewrite getM_bind.
  rewrite (pte_ptr_descend own) by done. destruct (present (upte (ram s) r v)) eqn:Hp.
  - destruct (upte_present_descend _ _ _ Hp) as (pt & Hd & He). rewrite Hd.
    destruct (leaf_write_spec own s r v pt 0 Hwf Hr Hv Hd) as (s' & E & U & _);
      [split; [lia|reflexivity]|done|]. exists s'. split; [|done].
    unfold bindM at 1, rd64. fold (ent (ram s) pt (idx v 12)). rewrite He.
    unfold present in Hp. apply negb_true_iff in Hp. rewrite Hp.
    unfold bindM in *. revert E. destruct (wr64 _ _ s); intros E; [|done..]. by rewrite E.
  - unfold upte in Hp. destruct (descend _ _ _) as [pt|] eqn:Hd; [|done].
    unfold bindM at 1, rd64. fold (ent (ram s) pt (idx v 12)).
    unfold present in Hp. apply negb_false_iff in Hp. by rewrite Hp.
Qed.

(** The entry [protect_page_in] writes. *)
Definition reprotect (e : Z) (fl : MapFlags) : Z :=
  flag_bits fl (e & not64 (PTE_WRITABLE .| PTE_USER .| PTE_NX)).

Lemma reprotect_spec e fl :
  is_u64 e -> present e = true ->
  present (reprotect e fl) = true /\ frame_of (reprotect e fl) = frame_of e /\ is_u64 (reprotect e fl).
Proof.
  intros He Hp. destruct (flag_bits_0 fl) as (H64 & Hf & H0). unfold reprotect. rewrite flag_bits_lor.
  rewrite present_testbit in *. set (k := PTE_WRITABLE .| PTE_USER .| PTE_NX). split_and!.
  - rewrite Z.lor_spec, Z.land_spec, Hp. reflexivity.
  - unfold frame_of in *. rewrite Z.land_lor_distr_l, Hf, Z.lor_0_r, <- Z.land_assoc. f_equal.
  - apply (lor_range _ _ 64); [lia| |done]. apply land_range; [lia|done|]. apply Z.lxor_nonneg.
    split; intros; vm_compute; congruence.
Qed.

Lemma protect_page_in_spec own s r v fl :
  pt_wf own s -> own !! r = Some (OUser r []) -> is_user v ->
  if present (upte (ram s) r v) then
    exists s', protect_page_in r v fl s = OOk true s' /\
               pt_update own s own s' r v (reprotect (upte (ram s) r v) fl)
  else protect_page_in r v fl s = OOk false s.
Proof.
  intros Hwf Hr Hv. unfold protect_page_in. rewrite getM_bind.
  rewrite (pte_ptr_descend own) by done. destruct (present (upte (ram s) r v)) eqn:Hp.
  - destruct (upte_present_descend _ _ _ Hp) as (pt & Hd & He). rewrite Hd.
    destruct (reprotect_spec (upte (ram s) r v) fl) as (R1 & R2 & R3); [by eapply upte_u64|done|].
    destruct (leaf_write_spec own s r v pt (reprotect (upte (ram s) r v) fl) Hwf Hr Hv Hd R3)
      as (s' & E & U & _); [intros _; rewrite R2; by apply upte_data|]. exists s'. split; [|done].
    unfold bindM at 1, rd64. fold (ent (ram s) pt (idx v 12)). rewrite He.
    unfold present in Hp. apply negb_true_iff in Hp. rewrite Hp.
    unfold reprotect, bindM in *. revert E. destruct (wr64 _ _ s); intros E; [|done..]. by rewrite E.
  - unfold upte in Hp. destruct (descend _ _ _) as [pt|] eqn:Hd; [|done].
    unfold bindM at 1, rd64. fold (ent (ram s) pt (idx v 12)).
    unfold present in Hp. apply negb_false_iff in Hp. by rewrite Hp.
Qed.

(** ** The kernel half *)

Lemma kernel_child own s t l i c :
  pt_wf own s -> own !! t = Some (OKernel l) -> (l < 3)%nat -> is_idx i ->
  child (ram s) t i = Some c ->
  (l = 2%nat /\ huge (ent (ram s) t i) = true) \/ own !! c = Some (OKernel (S l)).
Proof.
  intros Hwf Ht Hl Hi Hc. pose proof (wf_entry _ _ Hwf t _ i Ht Hi Hl) as H. unfold child in Hc.
  destruct (present (ent (ram s) t i)) eqn:Hp; [|done]. destruct (H Hp) as [[? ?]|?].
  - left. split; [lia|done].
  - right. congruence.
Qed.

(** The tables of the kernel half decide the translation of every address
    of it. *)
Lemma kernel_translate own s m' r v :
  pt_wf own s -> (forall t l i, own !! t = Some (OKernel l) -> is_idx i -> ent m' t i = ent (ram s) t i) ->
  (forall r i, own !! r = Some (OUser r []) -> 256 <= i < 512 -> ent m' r i = ent (ram s) r i) ->
  own !! r = Some (OUser r []) -> 256 <= idx v 39 -> translate_page m' r v = translate_page (ram s) r v.
Proof.
  intros Hwf Hk Hroot Hr Hv. rewrite !translate_child, !pte_ptr_child.
  pose proof (idx_is_idx v 39 ltac:(lia)) as I4. pose proof (idx_is_idx v 30 ltac:(lia)) as I3.
  pose proof (idx_is_idx v 21 ltac:(lia)) as I2. pose proof (idx_is_idx v 12 ltac:(lia)) as I1.
  assert (child m' r (idx v 39) = child (ram s) r (idx v 39)) as ->
    by (unfold child; rewrite Hroot by (done || unfold is_idx in *; lia); done).
  destruct (child (ram s) r _) as [pdpt|] eqn:E1; [|done].
  assert (own !! pdpt = Some (OKernel 1)) as O1.
  { pose proof (wf_entry _ _ Hwf r _ _ Hr I4) as H. cbn [entry_ok] in H. unfold child in E1.
    destruct (Z.ltb_spec (idx v 39) 256); [lia|]. destruct (present _) eqn:Hp; [|done].
    destruct (H Hp) as [[? ?]|?]; [done|congruence]. }
  assert (child m' pdpt (idx v 30) = child (ram s) pdpt (idx v 30)) as ->
    by (unfold child; rewrite (Hk pdpt 1%nat) by done; done).
  destruct (child (ram s) pdpt _) as [pd|] eqn:E2; [|done].
  destruct (kernel_child own s pdpt 1 (idx v 30) pd Hwf O1 ltac:(lia) I3 E2) as [[? _]|O2]; [done|].
  rewrite !(Hk pd 2%nat) by done.
  assert (child m' pd (idx v 21) = child (ram s) pd (idx v 21)) as ->
    by (unfold child; rewrite (Hk pd 2%nat) by done; done).
  destruct (huge (ent (ram s) pd (idx v 21))) eqn:Eh; [done|].
  destruct (child (ram s) pd _) as [pt|] eqn:E3; [|done].
  destruct (kernel_child own s pd 2 (idx v 21) pt Hwf O2 ltac:(lia) I2 E3) as [[_ ?]|O3]; [congruence|].
  change (read64 m' (slot pt (idx v 12))) with (ent m' pt (idx v 12)).
  rewrite (Hk pt 3%nat) by done. done.
Qed.

Lemma kept_translate own s m' r v :
  pt_wf own s -> kept own (ram s) m' -> own !! r = Some (OUser r []) -> 256 <= idx v 39 ->
  translate_page m' r v = translate_page (ram s) r v.
Proof. intros Hwf (Hk & Hroot & _). by apply (kernel_translate own). Qed.

(** ** Pages of two megabytes *)

Definition HUGE_PAGE_SIZE : Z := 0x200000.
Definition huge_leaf (p : Z) : Z := p .| PTE_PRESENT .| PTE_WRITABLE .| PTE_HUGE.

Lemma huge_leaf_spec p : 0 <= p < 2 ^ 52 -> p mod 4096 = 0 ->
  present (huge_leaf p) = true /\ huge (huge_leaf p) = true /\ frame_of (huge_leaf p) = p /\ is_u64 (huge_leaf p).
Proof.
  intros Hp Ha. unfold huge_leaf. rewrite <- !Z.lor_assoc. change (PTE_PRESENT .| (PTE_WRITABLE .| PTE_HUGE)) with 131.
  rewrite present_testbit, huge_testbit, !Z.lor_spec, !(aligned_testbit p) by (done || lia).
  split_and!; [done|done|by apply frame_of_lor|].
  split; [apply Z.lor_nonneg; lia|]. unfold U64. apply (lor_range _ _ 64); lia.
Qed.

(** The indices of the address [w] bytes into the upper half. *)
Lemma high_indices w : 0 <= w < 2 ^ 47 -> let v := PHYSICAL_OFFSET + w in
  idx v 39 = 256 + w / 2 ^ 39 /\ idx v 30 = w / 2 ^ 30 mod 512 /\ idx v 21 = w / 2 ^ 21 mod 512 /\ idx v 12 = w / 2 ^ 12 mod 512 /\
  v mod HUGE_PAGE_SIZE = w mod HUGE_PAGE_SIZE /\ v mod PAGE_SIZE = w mod PAGE_SIZE.
Proof.
  intros Hw v. rewrite !idx_mod by lia. unfold v, HUGE_PAGE_SIZE. change PAGE_SIZE with 4096.
  assert (forall k c, 0 <= k -> PHYSICAL_OFFSET = c * 2 ^ k -> (PHYSICAL_OFFSET + w) / 2 ^ k = c + w / 2 ^ k) as Hdiv.
  { intros k c Hk ->. rewrite Z.add_comm, Z.div_add by (pose proof (Z.pow_pos_nonneg 2 k); lia). lia. }
  rewrite (Hdiv 39 0x1FFFF00), (Hdiv 30 (0x1FFFF00 * 512)), (Hdiv 21 (0x1FFFF00 * 512 * 512)), (Hdiv 12 (0x1FFFF00 * 512 * 512 * 512)) by (done || lia).
  split_and!.
  - pose proof (Z.div_pos w (2 ^ 39) ltac:(lia) ltac:(lia)). pose proof (Z.div_lt_upper_bound w (2 ^ 39) 256 ltac:(lia) ltac:(lia)).
    change 0x1FFFF00 with (256 + 65535 * 512). replace (256 + 65535 * 512 + w / 2 ^ 39) with (256 + w / 2 ^ 39 + 65535 * 512) by lia.
    rewrite Z.mod_add by lia. apply Z.mod_small. lia.
  - by rewrite Z.add_comm, Z.mod_add by lia.
  - by rewrite Z.add_comm, Z.mod_add by lia.
  - by rewrite Z.add_comm, Z.mod_add by lia.
  - change PHYSICAL_OFFSET with (0x1FFFF00 * 512 * 512 * 0x200000). by rewrite Z.add_comm, Z.mod_add by lia.
  - change PHYSICAL_OFFSET with (0x1FFFF00 * 512 * 512 * 512 * 4096). by rewrite Z.add_comm, Z.mod_add by lia.
Qed.

(** The digits of an address, highest first. *)
Lemma address_digits w : 0 <= w < 2 ^ 47 ->
  let a := w / 2 ^ 39 in let b := w / 2 ^ 30 mod 512 in let c := w / 2 ^ 21 mod 512 in let d := w / 2 ^ 12 mod 512 in
  0 <= a < 256 /\ 0 <= b < 512 /\ 0 <= c < 512 /\ 0 <= d < 512 /\
  w mod HUGE_PAGE_SIZE = d * 4096 + w mod 4096 /\ w = (((a * 512 + b) * 512 + c) * 512 + d) * 4096 + w mod 4096.
Proof.
  intros Hw. unfold HUGE_PAGE_SIZE. change (2 ^ 39) with (4096 * 512 * 512 * 512). change (2 ^ 30) with (4096 * 512 * 512). change (2 ^ 21) with (4096 * 512).
  change (2 ^ 12) with 4096. change 0x200000 with (4096 * 512).
  rewrite <- !Z.div_div by lia. rewrite Z.rem_mul_r by lia.
  pose proof (Z.div_mod w 4096 ltac:(lia)). pose proof (Z.div_mod (w / 4096) 512 ltac:(lia)).
  pose proof (Z.div_mod (w / 4096 / 512) 512 ltac:(lia)). pose proof (Z.div_mod (w / 4096 / 512 / 512) 512 ltac:(lia)).
  pose proof (Z.mod_pos_bound w 4096 ltac:(lia)). pose proof (Z.mod_pos_bound (w / 4096) 512 ltac:(lia)).
  pose proof (Z.mod_pos_bound (w / 4096 / 512) 512 ltac:(lia)). pose proof (Z.mod_pos_bound (w / 4096 / 512 / 512) 512 ltac:(lia)).
  split_and!; lia.
Qed.
