(* ===== verification/AddressSpace.v ===== *)
(** * Address spaces: creation, [fork] copies, and the paging properties

    [clone_kernel_address_space] makes an empty user address space that
    shares the kernel half; [clone_user_address_space] copies a user address
    space page by page.  The copy is described by [copied]: a table of the
    copy against the table of the source at the same path. *)

From S2P Require Import Prelude Mem Result Boot Pmm Paging PageTables.

(** Bits of an entry outside the address field. *)
Definition flags_of (e : Z) : Z := e & not64 PTE_ADDR_MASK.

Lemma not64_mask_testbit i :
  0 <= i < 64 -> Z.testbit (not64 PTE_ADDR_MASK) i = negb ((12 <=? i) && (i <? 52)).
Proof. intros Hi. rewrite not64_testbit, PTE_ADDR_MASK_testbit by lia. done. Qed.

Lemma not64_mask_high i : 64 <= i -> Z.testbit (not64 PTE_ADDR_MASK) i = false.
Proof. intros Hi. apply (testbit_high _ 64); [vm_compute; split; congruence|done]. Qed.

Lemma frame_of_flags e : frame_of (flags_of e) = 0.
Proof.
  unfold frame_of, flags_of. rewrite <- Z.land_assoc. replace (not64 PTE_ADDR_MASK & PTE_ADDR_MASK) with 0.
  - apply Z.land_0_r.
  - reflexivity.
Qed.

Lemma flags_of_u64 e : is_u64 e -> is_u64 (flags_of e).
Proof. intros He. apply (land_range _ _ 64); [lia|done|]. vm_compute; congruence. Qed.

(** The flags of an entry to a table are its twelve low bits. *)
Lemma flags_of_link e : is_u64 e -> child_of e < 2 ^ 52 -> flags_of e = e mod 4096.
Proof.
  intros He Hc. change 4096 with (2 ^ 12). apply Z.bits_inj'. intros i Hi. unfold flags_of.
  rewrite Z.land_spec. destruct (Z.ltb_spec i 64).
  - rewrite not64_mask_testbit by lia. destruct (Z.leb_spec 12 i); simpl.
    + rewrite Z.mod_pow2_bits_high by lia. destruct (Z.ltb_spec i 52); simpl; [apply andb_false_r|].
      rewrite andb_true_r.
      assert (Z.testbit (child_of e) i = false) as Hb.
      { apply (testbit_high _ 52); [|lia]. split; [apply Z.land_nonneg; left; apply He|done]. }
      unfold child_of in Hb. rewrite Z.land_spec, not64_0xFFF_testbit in Hb by lia.
      destruct (Z.leb_spec 12 i); [by rewrite andb_true_r in Hb|lia].
    + rewrite andb_true_r, Z.mod_pow2_bits_low by lia. done.
  - rewrite not64_mask_high, andb_false_r, Z.mod_pow2_bits_high by lia. done.
Qed.

(** The entry of the copy: a new frame with the flags of the source. *)
Lemma clone_entry t e :
  is_frame t -> is_u64 e -> present e = true ->
  let e' := t .| flags_of e in
  is_u64 e' /\ present e' = true /\ frame_of e' = t /\ flags_of e' = flags_of e.
Proof.
  intros Ht He Hp e'. pose proof (is_frame_bounds t Ht) as Hb. destruct Ht as [Hm _].
  pose proof (flags_of_u64 e He) as Hf. unfold is_u64, U64 in *.
  assert (2 ^ 32 < 2 ^ 52 /\ 2 ^ 32 < 2 ^ 64) by (split; reflexivity). unfold e'. split_and!.
  - apply Z.lor_nonneg. lia.
  - apply lor_range; [lia| |done]. lia.
  - rewrite present_testbit in *. rewrite Z.lor_spec. unfold flags_of.
    rewrite Z.land_spec, Hp, not64_mask_testbit by lia. apply orb_true_r.
  - apply frame_of_lor; [lia|done|lia|apply frame_of_flags].
  - unfold flags_of. rewrite Z.land_lor_distr_l, <- Z.land_assoc, Z.land_diag.
    replace (t & not64 PTE_ADDR_MASK) with 0; [done|]. symmetry. apply Z.bits_inj'. intros i Hi.
    rewrite Z.land_spec, Z.bits_0. destruct (Z.ltb_spec i 64).
    + rewrite not64_mask_testbit by lia. destruct (Z.leb_spec 12 i); simpl.
      * destruct (Z.ltb_spec i 52); [apply andb_false_r|]. rewrite (testbit_high t 52) by lia. done.
      * rewrite aligned_testbit by (done || lia). done.
    + rewrite not64_mask_high by lia. apply andb_false_r.
Qed.

Lemma clone_link t e :
  is_frame t -> is_u64 e -> present e = true -> huge e = false -> child_of e < 2 ^ 52 ->
  let e' := t .| flags_of e in present e' = true /\ huge e' = false /\ child_of e' = t.
Proof.
  intros Ht He Hp Hh Hc e'. destruct (clone_entry t e Ht He Hp) as (_ & Hp' & _ & _).
  pose proof (is_frame_bounds t Ht) as Hb. destruct Ht as [Hm _].
  assert (2 ^ 32 < 2 ^ 52) by reflexivity. split_and!; [done| |].
  - unfold e'. rewrite huge_testbit, Z.lor_spec, aligned_testbit by (done || lia).
    rewrite flags_of_link by done. change 4096 with (2 ^ 12). rewrite Z.mod_pow2_bits_low by lia.
    by rewrite <- huge_testbit.
  - unfold e'. rewrite flags_of_link by done. apply child_of_lor; [lia|done|].
    apply Z.mod_pos_bound. lia.
Qed.

(** Changing a data page keeps the invariant. *)
Lemma pt_wf_data own s d m' :
  pt_wf own s -> own !! d = Some OData -> mem_ok m' ->
  (forall t o, own !! t = Some o -> t <> d -> same_page (ram s) m' t) ->
  pt_wf own (set_ram m' s).
Proof.
  intros [Hp Hm Hfr Hus Hen] Hd Hm' Hsame. split; simpl; try done.
  intros t o i Ht Hi. destruct (decide (t = d)) as [->|Hne].
  - assert (o = OData) as -> by congruence. done.
  - rewrite (same_page_ent (ram s)); eauto.
Qed.

Lemma copy_within_page m src dst t :
  is_frame src -> is_frame dst -> is_frame t ->
  (t <> dst -> same_page m (copy_within m (p2v src) (p2v dst) 4096) t) /\
  (forall x, 0 <= x < PAGE_SIZE -> copy_within m (p2v src) (p2v dst) 4096 (p2v dst + x) = m (p2v src + x)).
Proof.
  intros Hs Hd Ht. unfold copy_within, same_page, PAGE_SIZE. split.
  - intros Hne x Hx. pose proof (is_frame_apart t dst Ht Hd Hne). rewrite !(p2v_frame0 dst), (p2v_frame0 t) by done.
    range_case (t + PHYSICAL_OFFSET + x) (dst + PHYSICAL_OFFSET) 4096; [lia|done].
  - intros x Hx. range_case (p2v dst + x) (p2v dst) 4096; [|lia]. f_equal. lia.
Qed.

(** ** The copy of a user address space *)

(** [f 0 + ... + f (n-1)]. *)
Fixpoint sum_upto (f : Z -> Z) (n : nat) : Z :=
  match n with
  | O => 0
  | S n' => sum_upto f n' + f (Z.of_nat n')
  end.

Lemma sum_upto_step f i : 0 <= i -> sum_upto f (Z.to_nat (i + 1)) = sum_upto f (Z.to_nat i) + f i.
Proof.
  intros Hi. replace (Z.to_nat (i + 1)) with (S (Z.to_nat i)) by lia. simpl. do 2 f_equal. lia.
Qed.

Lemma sum_upto_le f i n :
  (forall j, 0 <= f j) -> 0 <= i < n -> sum_upto f (Z.to_nat i) + f i <= sum_upto f (Z.to_nat n).
Proof.
  intros Hf Hi. rewrite <- sum_upto_step by lia.
  assert (Z.to_nat (i + 1) <= Z.to_nat n)%nat as H by lia.
  induction H as [|k Hk IH]; [lia|]. simpl. specialize (Hf (Z.of_nat k)). lia.
Qed.

Section Clone.
(** The source: root [R] in the machine [s0]; [a] is the root of the copy. *)
Context (own0 : gmap Z Owner) (s0 : Machine) (R a : Z).
Context (Hwf0 : pt_wf own0 s0).

(** A leaf of the copy: same flags, a frame of its own, the same bytes. *)
Definition copied_pte (own : gmap Z Owner) (m : Mem) (e e' : Z) : Prop :=
  if present e then
    present e' = true /\ flags_of e' = flags_of e /\
    own !! frame_of e' = Some OData /\ own0 !! frame_of e' = None /\
    forall x, 0 <= x < PAGE_SIZE -> m (p2v (frame_of e') + x) = ram s0 (p2v (frame_of e) + x)
  else e' = 0.

(** Table [dst] of the copy against table [src], [k] levels above the page
    tables, both at path [p]. *)
Fixpoint copied (k : nat) (own : gmap Z Owner) (m : Mem) (p : list Z) (src dst : Z) (n : Z) : Prop :=
  match k with
  | O => forall i, 0 <= i < n -> copied_pte own m (ent (ram s0) src i) (ent m dst i)
  | S k' => forall i, 0 <= i < n ->
      match child (ram s0) src i with
      | None => ent m dst i = 0
      | Some c => exists c', child m dst i = Some c' /\ own !! c' = Some (OUser a (p ++ [i])) /\
                             copied k' own m (p ++ [i]) c c' 512
      end
  end.

(** Frames the copy of a table needs. *)
Fixpoint cost (k : nat) (src n : Z) : Z :=
  match k with
  | O => sum_upto (fun i => if present (ent (ram s0) src i) then 1 else 0) (Z.to_nat n)
  | S k' => sum_upto (fun i => match child (ram s0) src i with
                               | None => 0
                               | Some c => 1 + cost k' c 512
                               end) (Z.to_nat n)
  end.

Lemma sum_upto_nonneg f n : (forall j, 0 <= f j) -> 0 <= sum_upto f n.
Proof. intros Hf. induction n; simpl; [lia|]. specialize (Hf (Z.of_nat n)). lia. Qed.

Lemma cost_nonneg k src n : 0 <= cost k src n.
Proof.
  revert src n; induction k as [|k IH]; intros src n; cbn [cost]; apply sum_upto_nonneg; intros j;
    case_goal; try lia. specialize (IH z 512). lia.
Qed.

(** The copy below [dst] only depends on tables below [dst] and on data pages. *)
Lemma copied_frame k own own' m m' p src dst n T pT :
  own ⊆ own' -> n <= 512 ->
  (forall t o, own !! t = Some o -> is_frame t) ->
  own !! T = Some (OUser a pT) -> (length pT < length p)%nat ->
  own !! dst = Some (OUser a p) ->
  (forall t o, own !! t = Some o -> t <> T -> same_page m m' t) ->
  copied k own m p src dst n -> copied k own' m' p src dst n.
Proof.
  intros Hsub Hn Hfr HT Hlen. revert p src dst n Hn Hlen.
  induction k as [|k IH]; intros p src dst n Hn Hlen Hdst Hsame H i Hi; specialize (H i Hi);
    (assert (ent m' dst i = ent m dst i) as He
      by (apply same_page_ent; [eapply Hsame; [done|]; intros ->;
            rewrite Hdst in HT; injection HT as <-; lia|eauto|unfold is_idx; lia])).
  - rewrite He. unfold copied_pte in *. destruct (present (ent (ram s0) src i)); [|done].
    destruct H as (H1 & H2 & H3 & H4 & H5). split_and!; eauto using lookup_weaken.
    intros x Hx. rewrite <- H5 by done. eapply Hsame; [done|congruence|done].
  - destruct (child (ram s0) src i) as [c|]; [|congruence].
    destruct H as (c' & H1 & H2 & H3). exists c'. unfold child in *. rewrite He.
    split_and!; eauto using lookup_weaken. eapply IH; eauto; [lia|]. rewrite length_app. simpl. lia.
Qed.

(** What a copy loop guarantees when it starts with the empty table [dst]. *)
Definition clone_post (k : nat) (own : gmap Z Owner) (s s' : Machine) (p : list Z) (src dst n : Z) : Prop :=
  exists own', own ⊆ own' /\ pt_wf own' s' /\
    (forall t o, own !! t = Some o -> t <> dst -> same_page (ram s) (ram s') t) /\
    copied k own' (ram s') p src dst n /\
    (forall i, n <= i < 512 -> ent (ram s') dst i = ent (ram s) dst i) /\
    nfree s' = nfree s - cost k src n /\
    kernel_pml4 s' = kernel_pml4 s /\ cr3 s' = cr3 s /\ invlpgs s' = invlpgs s.

Definition clone_pre (own : gmap Z Owner) (s : Machine) (p : list Z) (src dst n : Z) : Prop :=
  pt_wf own s /\ own0 ⊆ own /\ own0 !! src = Some (OUser R p) /\ own0 !! dst = None /\
  own !! dst = Some (OUser a p) /\
  (forall t o, own0 !! t = Some o -> same_page (ram s0) (ram s) t) /\
  (forall i, 0 <= i < n -> ent (ram s) dst i = 0).

Definition clone_correct (k : nat) (p : list Z) (n : Z) (f : Z -> Z -> M Machine unit) : Prop :=
  forall own s src dst, clone_pre own s p src dst n ->
    match f (p2v src) (p2v dst) s with
    | OOk _ s' => clone_post k own s s' p src dst n
    | OErr _ _ => False
    | OPanic => nfree s < cost k src n
    end.

(** Growing the copied part of [dst]: what is below the entries done so far
    is not touched. *)
Lemma copied_step k own own' m m' p src dst i :
  own ⊆ own' -> i <= 512 -> (forall t o, own !! t = Some o -> is_frame t) ->
  own !! dst = Some (OUser a p) ->
  (forall t o, own !! t = Some o -> t <> dst -> same_page m m' t) ->
  (forall j, 0 <= j < i -> ent m' dst j = ent m dst j) ->
  copied k own m p src dst i -> copied k own' m' p src dst i.
Proof.
  intros Hsub Hi Hfr Hdst Hsame Hent H. destruct k as [|k]; intros j Hj; specialize (H j Hj).
  - rewrite Hent by done. unfold copied_pte in *. destruct (present (ent (ram s0) src j)); [|done].
    destruct H as (H1 & H2 & H3 & H4 & H5). split_and!; eauto using lookup_weaken.
    intros x Hx. rewrite <- H5 by done. eapply Hsame; [done|congruence|done].
  - destruct (child (ram s0) src j) as [c|]; [|by rewrite Hent].
    destruct H as (c' & H1 & H2 & H3). exists c'. unfold child in *. rewrite Hent by done.
    split_and!; eauto using lookup_weaken.
    eapply (copied_frame k own own' m m' _ _ _ _ dst p); eauto; try lia. rewrite length_app. simpl. lia.
Qed.

(** Reading entry [i] of the source table during the loop. *)
Lemma src_read own s s1 k p src dst n i :
  clone_pre own s p src dst n -> clone_post k own s s1 p src dst i -> is_idx i ->
  read64 (ram s1) (p2v src +w i *w 8) = ent (ram s0) src i.
Proof.
  intros (Hwf & Hsub & Hsrc & Hnew & Hdst & Hs0 & _) (own1 & _ & _ & Hpg & _) Hi.
  pose proof (wf_frame _ _ Hwf0 _ _ Hsrc) as Hf. rewrite ptr_add_slot by done.
  fold (ent (ram s1) src i). rewrite (same_page_ent (ram s)), (same_page_ent (ram s0)); eauto.
  eapply Hpg; [by eapply lookup_weaken|congruence].
Qed.

(** An absent entry is skipped. *)
Lemma clone_skip own s s1 k p src dst n i :
  clone_pre own s p src dst n -> clone_post k own s s1 p src dst i -> 0 <= i < n -> n <= 512 ->
  present (ent (ram s0) src i) = false -> clone_post k own s s1 p src dst (i + 1).
Proof.
  intros (Hwf & Hsub & Hsrc & Hnew & Hdst & Hs0 & Hz)
    (own1 & Hsub1 & Hwf1 & Hpg & Hc & Hrest & Hn & Hregs) Hi Hn512 Hp.
  assert (ent (ram s1) dst i = 0) as H0 by (rewrite Hrest, Hz by lia; done).
  assert (child (ram s0) src i = None) as Hch by (unfold child; by rewrite Hp).
  exists own1. split_and!; try done; try apply Hregs.
  - destruct k; intros j Hj; (destruct (decide (j = i)) as [->|]; [|apply Hc; lia]).
    + unfold copied_pte. by rewrite Hp.
    + by rewrite Hch.
  - intros j Hj. apply Hrest. lia.
  - rewrite Hn. destruct k; cbn [cost]; rewrite sum_upto_step by lia; rewrite ?Hp, ?Hch; lia.
Qed.

(** The panic of the loop at entry [i] means that there were too few frames. *)
Lemma clone_panic own s s1 k p src dst n i c :
  clone_post k own s s1 p src dst i -> 0 <= i < n -> nfree s1 < c ->
  (k = 0%nat -> c = if present (ent (ram s0) src i) then 1 else 0) ->
  (forall k', k = S k' -> exists ch, child (ram s0) src i = Some ch /\ c = 1 + cost k' ch 512) ->
  nfree s < cost k src n.
Proof.
  intros (own1 & _ & _ & _ & _ & _ & Hn & _) Hi Hc H0 HS. destruct k as [|k]; cbn [cost] in *.
  - rewrite (H0 eq_refl) in Hc.
    assert (forall j, 0 <= (if present (ent (ram s0) src j) then 1 else 0)) as Hnn
      by (intros j; case_goal; lia).
    pose proof (sum_upto_le _ i n Hnn Hi) as H. cbn beta in H. lia.
  - destruct (HS k eq_refl) as (ch & Hch & ->).
    assert (forall j, 0 <= match child (ram s0) src j with None => 0 | Some c => 1 + cost k c 512 end) as Hnn
      by (intros j; case_goal; [pose proof (cost_nonneg k z 512)|]; lia).
    pose proof (sum_upto_le _ i n Hnn Hi) as H. cbn beta in H. rewrite Hch in H. lia.
Qed.

Lemma nfree_insert own own' s s' f :
  pt_wf own s -> pt_wf own' s' -> free_set (pmm s') = free_set (pmm s) ∖ {[f]} -> f ∈ free_set (pmm s) ->
  nfree s' = nfree s - 1.
Proof.
  intros H1 H2 HF Hin. rewrite (nfree_size own s), (nfree_size own' s') by done. rewrite HF. by apply size_remove.
Qed.

(** ** One entry of a page table: a fresh frame with the source's bytes *)

Lemma clone_pt_entry own s s1 p src dst i :
  length p = 3%nat -> clone_pre own s p src dst 512 -> clone_post 0 own s s1 p src dst i -> is_idx i ->
  match (let* src_pte := rd64 (p2v src +w i *w 8) in
    if (src_pte & PTE_PRESENT) =? 0 then retM tt
    else
      let src_frame := src_pte & PTE_ADDR_MASK in
      let* new_frame := alloc_frameM in
      if new_frame =? 0 then panicM
      else
        modifyM (fun s => set_ram (copy_within (ram s) (p2v src_frame) (p2v new_frame) 4096) s) ;;;
        let pte_flags := src_pte & not64 PTE_ADDR_MASK in
        wr64 (p2v dst +w i *w 8) (new_frame .| pte_flags)) s1 with
  | OOk _ s2 => clone_post 0 own s s2 p src dst (i + 1)
  | OErr _ _ => False
  | OPanic => nfree s < cost 0 src 512
  end.
Proof.
  intros Hp3 Hpre Hpost Hi. unfold bindM at 1, rd64. rewrite (src_read own s s1 0 p src dst 512 i) by done.
  set (e := ent (ram s0) src i). fold (frame_of e) (flags_of e). pose proof Hi as Hi'. unfold is_idx in Hi'.
  destruct ((e & PTE_PRESENT) =? 0) eqn:Epr.
  { unfold retM. eapply clone_skip; eauto; [lia|]. unfold present. fold e. by rewrite Epr. }
  assert (Hpr : present e = true) by (unfold present; by rewrite Epr).
  destruct Hpre as (Hwf & Hsub & Hsrc & Hnew & Hdst & Hs0 & Hz).
  pose proof Hpost as (own1 & Hsub1 & Hwf1 & Hpg & Hc & Hrest & Hn & Hregs).
  assert (He64 : is_u64 e) by apply ent_range, (wf_mem _ _ Hwf0).
  assert (Hdata : own0 !! frame_of e = Some OData).
  { pose proof (wf_entry _ _ Hwf0 src _ i Hsrc Hi) as H.
    destruct p as [|? [|? [|? [|]]]]; try done. by apply H. }
  assert (Hdata1 : own1 !! frame_of e = Some OData) by eauto using lookup_weaken.
  assert (Hdst1 : own1 !! dst = Some (OUser a p)) by eauto using lookup_weaken.
  unfold bindM at 1.
  destruct (alloc_frameM_spec own1 s1 Hwf1)
    as [[-> HF]|(f & s2 & -> & Hf0 & Hf & Hfresh & Hwf2 & _ & Hpg2 & _ & HF & Hin & Hr2)].
  { rewrite Z.eqb_refl. unfold panicM. eapply (clone_panic own s s1 0 p src dst 512 i 1 Hpost Hi'); [|intros _; fold e; by rewrite Hpr|done].
    rewrite (nfree_size own1) by done. by rewrite HF, size_empty. }
  rewrite (proj2 (Z.eqb_neq f 0) Hf0). specialize (Hwf2 OData). set (own2 := <[f:=OData]> own1) in *.
  assert (Hsub2 : own1 ⊆ own2) by by apply insert_subseteq.
  assert (Hf2 : own2 !! f = Some OData) by apply lookup_insert_eq.
  pose proof (wf_frame _ _ Hwf0 _ _ Hdata) as Hsf. pose proof (wf_frame _ _ Hwf1 _ _ Hdst1) as Hdf.
  unfold bindM, modifyM, wr64. rewrite ptr_add_slot by done. cbn [ram set_ram].
  set (m3 := copy_within (ram s2) (p2v (frame_of e)) (p2v f) 4096).
  assert (Hcp : forall t o, own1 !! t = Some o -> same_page (ram s1) m3 t).
  { intros t o Ht. eapply same_page_trans; [by eapply Hpg2|].
    apply (copy_within_page (ram s2) (frame_of e) f t); eauto using wf_frame. congruence. }
  assert (Hwf3 : pt_wf own2 (set_ram m3 s2)).
  { apply (pt_wf_data own2 s2 f); try done; [by apply copy_within_ok, (wf_mem own2)|].
    intros t o Ht Hne. apply (copy_within_page (ram s2) (frame_of e) f t); eauto using wf_frame. }
  destruct (clone_entry f e Hf He64 Hpr) as (N64 & Npr & Nfr & Nfl). set (e' := f .| flags_of e) in *.
  assert (Hwf4 : pt_wf own2 (set_ram (write64 m3 (slot dst i) e') (set_ram m3 s2))).
  { eapply (pt_wf_write own2 (set_ram m3 s2)); eauto using lookup_weaken.
    destruct p as [|? [|? [|? [|]]]]; try done. simpl. rewrite Nfr. done. }
  assert (Hw : forall t o, own1 !! t = Some o -> t <> dst ->
    same_page (ram s1) (write64 m3 (slot dst i) e') t).
  { intros t o Ht Hne. eapply same_page_trans; [by eapply Hcp|].
    apply same_page_write; eauto using wf_frame. }
  assert (Hent : forall j, is_idx j ->
    ent (write64 m3 (slot dst i) e') dst j = if decide (j = i) then e' else ent (ram s1) dst j).
  { intros j Hj. rewrite ent_write by done. destruct (decide (j = i)) as [->|Hne].
    - by rewrite decide_True.
    - rewrite decide_False by naive_solver. by apply same_page_ent; eauto. }
  exists own2. split_and!; cbn [ram pmm set_ram kernel_pml4 cr3 invlpgs].
  - by etrans.
  - done.
  - intros t o Ht Hne. eapply same_page_trans; [by eapply Hpg|]. eapply Hw; eauto using lookup_weaken.
  - intros j Hj. destruct (decide (j = i)) as [->|Hne].
    + fold e. rewrite (Hent i Hi), decide_True by done. unfold copied_pte. rewrite Hpr, Nfr.
      split_and!; try done.
      * destruct (own0 !! f) eqn:E; [|done]. eapply lookup_weaken in E; [|by etrans]. congruence.
      * intros x Hx. rewrite <- (Hs0 _ _ Hdata x Hx).
        rewrite <- (Hpg _ _ (lookup_weaken _ _ _ _ Hdata Hsub) ltac:(congruence) x Hx).
        rewrite <- (Hpg2 _ _ Hdata1 x Hx).
        rewrite (same_page_write m3 dst i e' f); eauto; [|congruence].
        by apply (copy_within_page (ram s2) (frame_of e) f f).
    + pose proof (copied_step 0 own1 own2 (ram s1) (write64 m3 (slot dst i) e') p src dst i) as H.
      apply H; eauto using wf_frame; try lia. intros j' Hj'.
      rewrite Hent by (unfold is_idx; lia). rewrite decide_False by lia. done.
  - intros j Hj. rewrite Hent by (unfold is_idx; lia). rewrite decide_False by lia. apply Hrest. lia.
  - change (nfree (set_ram (write64 m3 (slot dst i) e') (set_ram m3 s2))) with (nfree s2).
    rewrite (nfree_insert own1 own2 s1 s2 (f / PAGE_SIZE)) by done.
    cbn [cost]. rewrite sum_upto_step by lia. fold e. rewrite Hpr. cbn [cost] in Hn. lia.
  - destruct Hregs as (<- & _ & _). apply Hr2.
  - destruct Hregs as (_ & <- & _). apply Hr2.
  - destruct Hregs as (_ & _ & <-). apply Hr2.
Qed.

Lemma clone_post_0 k own s p src dst n : clone_pre own s p src dst n -> clone_post k own s s p src dst 0.
Proof.
  intros (Hwf & _). exists own. split_and!; try done.
  - destruct k; intros j Hj; lia.
  - destruct k; cbn [cost]; simpl; lia.
Qed.

Lemma clone_pt_correct p : length p = 3%nat -> clone_correct 0 p 512 clone_pt.
Proof.
  intros Hp own s src dst Hpre. unfold clone_pt.
  apply (forM_seqZ_inv (fun i s1 => clone_post 0 own s s1 p src dst i)); [lia| |].
  - by eapply clone_post_0.
  - intros i s1 Hi Hpost. by apply clone_pt_entry.
Qed.

(** ** One entry of an inner table: a fresh table, linked and filled *)

Definition clone_level_body (test_huge : bool) (below : Z -> Z -> M Machine unit) (src dst i : Z)
    : M Machine unit :=
  let* src_e := rd64 (src +w i *w 8) in
  if (src_e & PTE_PRESENT) =? 0 then retM tt
  else if test_huge && negb ((src_e & PTE_HUGE) =? 0) then wr64 (dst +w i *w 8) src_e
  else
    let* new_table := alloc_table in
    let flags := src_e & not64 PTE_ADDR_MASK in
    wr64 (dst +w i *w 8) (new_table .| flags) ;;;
    below (p2v (src_e & PTE_ADDR_MASK)) (p2v new_table).

(** The state after linking the fresh table [t]: ready for the copy below. *)
Lemma clone_link_table own s s1 p src dst n i (e := ent (ram s0) src i) c t s2 :
  (length p < 3)%nat -> (p = [] -> i < 256) -> is_idx i -> 0 <= i < n -> n <= 512 ->
  clone_pre own s p src dst n ->
  forall own1, own ⊆ own1 -> pt_wf own1 s1 ->
  (forall t o, own !! t = Some o -> t <> dst -> same_page (ram s) (ram s1) t) ->
  present e = true -> huge e = false -> child_of e = c -> own0 !! c = Some (OUser R (p ++ [i])) ->
  is_frame t -> own1 !! t = None ->
  (forall t' o, own1 !! t' = Some o -> same_page (ram s1) (ram s2) t') ->
  (forall j, is_idx j -> ent (ram s2) t j = 0) ->
  pt_wf (<[t := OUser a (p ++ [i])]> own1) s2 ->
  let own2 := <[t := OUser a (p ++ [i])]> own1 in
  let s3 := set_ram (write64 (ram s2) (slot dst i) (t .| flags_of e)) s2 in
  clone_pre own2 s3 (p ++ [i]) c t 512 /\
  (forall t' o, own1 !! t' = Some o -> t' <> dst -> same_page (ram s1) (ram s3) t') /\
  (forall j, is_idx j -> ent (ram s3) dst j = if decide (j = i) then t .| flags_of e else ent (ram s1) dst j) /\
  present (t .| flags_of e) = true /\ child_of (t .| flags_of e) = t.
Proof.
  intros Hp3 H256 Hi Hin Hn (Hwf & Hsub & Hsrc & Hnew & Hdst & Hs0 & Hz) own1 Hsub1 Hwf1 Hpg Hpr Hhu Hch Hc
    Ht Hfresh Hpg2 Hzt Hwf2 own2 s3.
  assert (He64 : is_u64 e) by apply ent_range, (wf_mem _ _ Hwf0).
  pose proof (is_frame_bounds _ (wf_frame _ _ Hwf0 _ _ Hc)) as Hcb.
  assert (child_of e < 2 ^ 52) as Hc52 by (rewrite Hch; assert (2 ^ 32 < 2 ^ 52) by reflexivity; lia).
  destruct (clone_entry t e Ht He64 Hpr) as (N64 & Npr & _ & _).
  destruct (clone_link t e Ht He64 Hpr Hhu Hc52) as (_ & Nhu & Nch).
  assert (Hdst1 : own1 !! dst = Some (OUser a p)) by eauto using lookup_weaken.
  assert (Hsub2 : own1 ⊆ own2) by by apply insert_subseteq.
  assert (Ht2 : own2 !! t = Some (OUser a (p ++ [i]))) by apply lookup_insert_eq.
  pose proof (wf_frame _ _ Hwf1 _ _ Hdst1) as Hdf. assert (t <> dst) as Htd by congruence.
  assert (Hent : forall j, is_idx j ->
    ent (ram s3) dst j = if decide (j = i) then t .| flags_of e else ent (ram s1) dst j).
  { intros j Hj. unfold s3. cbn [ram set_ram]. rewrite ent_write by done. destruct (decide (j = i)) as [->|Hne].
    - by rewrite decide_True.
    - rewrite decide_False by naive_solver. apply same_page_ent; eauto. }
  assert (Hw : forall t' o, own1 !! t' = Some o -> t' <> dst -> same_page (ram s1) (ram s3) t').
  { intros t' o Ht' Hne. eapply same_page_trans; [by eapply Hpg2|].
    apply same_page_write; eauto using wf_frame. }
  split; [|done]. unfold clone_pre. split_and!; try done.
  - eapply (pt_wf_write own2 s2); eauto using lookup_weaken.
    assert (user_link own2 (OUser a (p ++ [i])) (t .| flags_of e)) as Hl by (right; rewrite Nch; done).
    destruct p as [|? [|? [|? ?]]]; simpl in *; try done; [|lia].
    destruct (Z.ltb_spec i 256); [done|]. specialize (H256 eq_refl). lia.
  - by do 2 (etrans; [done|]).
  - destruct (own0 !! t) eqn:E; [|done]. eapply lookup_weaken in E; [|by etrans]. congruence.
  - intros t' o Ht'. eapply same_page_trans; [by eapply Hs0|].
    assert (own !! t' = Some o) by eauto using lookup_weaken.
    eapply same_page_trans; [eapply Hpg; eauto; congruence|]. eapply Hw; eauto using lookup_weaken. congruence.
  - intros j Hj. unfold s3. cbn [ram set_ram]. rewrite ent_write by done. rewrite decide_False by naive_solver.
    apply Hzt. done.
Qed.

Lemma clone_level_entry own s s1 k p src dst n i th below :
  (length p < 3)%nat -> (p = [] -> n <= 256) -> n <= 512 -> 0 <= i < n ->
  clone_correct k (p ++ [i]) 512 below ->
  clone_pre own s p src dst n -> clone_post (S k) own s s1 p src dst i ->
  match clone_level_body th below (p2v src) (p2v dst) i s1 with
  | OOk _ s2 => clone_post (S k) own s s2 p src dst (i + 1)
  | OErr _ _ => False
  | OPanic => nfree s < cost (S k) src n
  end.
Proof.
  intros Hp3 H256 Hn Hin Hbelow Hpre Hpost. assert (Hi : is_idx i) by (unfold is_idx; lia).
  unfold clone_level_body, bindM at 1, rd64. rewrite (src_read own s s1 (S k) p src dst n i) by done.
  set (e := ent (ram s0) src i). fold (frame_of e) (flags_of e) (huge e).
  destruct ((e & PTE_PRESENT) =? 0) eqn:Epr.
  { eapply clone_skip; eauto. unfold present. fold e. by rewrite Epr. }
  assert (Hpr : present e = true) by (unfold present; by rewrite Epr).
  pose proof Hpre as (Hwf & Hsub & Hsrc & Hnew & Hdst & Hs0 & Hz).
  assert (Hpi : p = [] -> i < 256) by (intros Hp0; specialize (H256 Hp0); lia).
  destruct (user_entry own0 s0 R p src i Hwf0 Hsrc Hp3 Hi Hpi) as [E|(_ & Hhu & Hc)].
  { fold e in E. rewrite E, present_0 in Hpr. done. }
  fold e in Hhu, Hc. rewrite Hhu, andb_false_r.
  assert (Hch : child (ram s0) src i = Some (child_of e)) by (unfold child; fold e; by rewrite Hpr).
  pose proof Hpost as (own1 & Hsub1 & Hwf1 & Hpg & Hcp & Hrest & Hnf & Hregs).
  unfold alloc_table, bindM at 1 2.
  destruct (alloc_frameM_spec own1 s1 Hwf1)
    as [[-> HF]|(t & s2 & -> & Ht0 & Ht & Hfresh & Hwf2 & Hzt & Hpg2 & _ & HF & Hfin & Hr2)].
  { rewrite Z.eqb_refl. unfold panicM. pose proof (cost_nonneg k (child_of e) 512).
    eapply (clone_panic own s s1 (S k) p src dst n i (1 + cost k (child_of e) 512) Hpost Hin); [|done|naive_solver].
    rewrite (nfree_size own1) by done. rewrite HF, size_empty. lia. }
  rewrite (proj2 (Z.eqb_neq t 0) Ht0). specialize (Hwf2 (OUser a (p ++ [i]))).
  destruct (clone_link_table own s s1 p src dst n i (child_of e) t s2 Hp3 Hpi
    Hi Hin Hn Hpre own1 Hsub1 Hwf1 Hpg Hpr Hhu eq_refl Hc Ht Hfresh Hpg2 Hzt Hwf2)
    as (Hpre3 & Hw3 & Hent3 & Npr & Nch). fold e in Hpre3, Hw3, Hent3, Npr, Nch.
  assert (Hdst1 : own1 !! dst = Some (OUser a p)) by eauto using lookup_weaken.
  rewrite ptr_add_slot by eauto using wf_frame. unfold retM, bindM, wr64, modifyM.
  set (s3 := set_ram (write64 (ram s2) (slot dst i) (t .| flags_of e)) s2) in *.
  assert (frame_of e = child_of e) as ->.
  { apply child_of_frame_of; [apply ent_range, (wf_mem _ _ Hwf0)|].
    pose proof (is_frame_bounds _ (wf_frame _ _ Hwf0 _ _ Hc)). assert (2 ^ 32 < 2 ^ 52) by reflexivity. lia. }
  assert (Hn3 : nfree s3 = nfree s1 - 1) by (eapply (nfree_insert own1 _ s1 s2); eauto).
  pose proof (Hbelow _ s3 _ t Hpre3) as Hb.
  destruct (below (p2v (child_of e)) (p2v t) s3) as [u s4|err s4|]; [|done|].
  2: { eapply (clone_panic own s s1 (S k) p src dst n i (1 + cost k (child_of e) 512) Hpost Hin);
         [lia|done|naive_solver]. }
  destruct Hb as (own4 & Hsub4 & Hwf4 & Hpg4 & Hcp4 & _ & Hn4 & Hreg4). set (own2 := <[t:=_]> own1) in *.
  assert (Hsub2 : own1 ⊆ own2) by by apply insert_subseteq.
  assert (Htd : dst <> t) by congruence.
  assert (Hdst2 : own2 !! dst = Some (OUser a p)) by eauto using lookup_weaken.
  assert (Hent4 : forall j, is_idx j -> ent (ram s4) dst j = ent (ram s3) dst j).
  { intros j Hj. apply same_page_ent; eauto using wf_frame. }
  assert (Hw4 : forall t' o, own1 !! t' = Some o -> t' <> dst -> same_page (ram s1) (ram s4) t').
  { intros t' o Ht' Hne. eapply same_page_trans; [by eapply Hw3|].
    eapply Hpg4; [eauto using lookup_weaken|congruence]. }
  exists own4. split_and!.
  - by do 2 (etrans; [done|]).
  - done.
  - intros t' o Ht' Hne. eapply same_page_trans; [by eapply Hpg|]. eauto using lookup_weaken.
  - intros j Hj. destruct (decide (j = i)) as [->|Hne].
    + rewrite Hch. exists t. unfold child. rewrite Hent4, Hent3, decide_True by done. rewrite Npr, Nch.
      split_and!; try done. eapply lookup_weaken; [apply lookup_insert_eq|done].
    + apply (copied_step (S k) own1 own4 (ram s1) (ram s4) p src dst i); eauto using wf_frame; try lia.
      * by etrans.
      * intros j' Hj'. rewrite Hent4, Hent3, decide_False by (unfold is_idx; lia). done.
  - intros j Hj. rewrite Hent4, Hent3, decide_False by (unfold is_idx; lia). apply Hrest. lia.
  - rewrite Hn4, Hn3, Hnf. cbn [cost]. rewrite sum_upto_step, Hch by lia. lia.
  - destruct Hregs as (<- & _ & _), Hreg4 as (-> & _ & _). apply Hr2.
  - destruct Hregs as (_ & <- & _), Hreg4 as (_ & -> & _). apply Hr2.
  - destruct Hregs as (_ & _ & <-), Hreg4 as (_ & _ & ->). apply Hr2.
Qed.

Lemma clone_level_correct k p n th below :
  (length p < 3)%nat -> (p = [] -> n <= 256) -> 0 <= n <= 512 ->
  (forall i, clone_correct k (p ++ [i]) 512 below) ->
  clone_correct (S k) p n (clone_level n th below).
Proof.
  intros Hp H256 Hn Hb own s src dst Hpre.
  apply (forM_seqZ_inv (fun i s1 => clone_post (S k) own s s1 p src dst i)); [lia| |].
  - by eapply clone_post_0.
  - intros i s1 Hi Hpost. apply clone_level_entry; try done; lia.
Qed.

Lemma clone_pdpt_correct i : clone_correct 2 [i] 512 clone_pdpt.
Proof.
  apply clone_level_correct; [simpl; lia|done|lia|]. intros j.
  apply clone_level_correct; [simpl; lia|done|lia|]. intros l. by apply clone_pt_correct.
Qed.
End Clone.

(** The copy, seen through the address-space maps. *)
Lemma copied_upte own0 s0 a own m r v :
  copied own0 s0 a 3 own m [] r a 256 -> is_user v ->
  copied_pte own0 s0 own m (upte (ram s0) r v) (upte m a v).
Proof.
  intros H Hv. unfold upte. rewrite !upath_descend.
  pose proof (idx_is_idx v 39 ltac:(lia)) as I4. pose proof (idx39_user v Hv).
  pose proof (idx_is_idx v 30 ltac:(lia)) as I3. pose proof (idx_is_idx v 21 ltac:(lia)) as I2.
  pose proof (idx_is_idx v 12 ltac:(lia)) as I1. unfold is_idx in *.
  assert (forall e, e = 0 -> present e = false) as Hz by (intros ? ->; apply present_0).
  specialize (H (idx v 39) ltac:(lia)). destruct (child (ram s0) r _) as [c1|].
  2: { unfold child. rewrite (Hz _ H). done. }
  destruct H as (c1' & -> & _ & H). specialize (H _ I3). destruct (child (ram s0) c1 _) as [c2|].
  2: { unfold child. rewrite (Hz _ H). done. }
  destruct H as (c2' & -> & _ & H). specialize (H _ I2). destruct (child (ram s0) c2 _) as [c3|].
  2: { unfold child. rewrite (Hz _ H). done. }
  destruct H as (c3' & -> & _ & H). apply (H _ I1).
Qed.

(** ** [clone_kernel_address_space] *)

(** The copy loop of the kernel half, from the state [s2] after zeroing. *)
Lemma clone_kernel_loop own k a s2 :
  own !! k = Some (OKernel 0) -> own !! a = None -> is_frame a ->
  pt_wf (<[a := OUser a []]> own) s2 -> (forall i, is_idx i -> ent (ram s2) a i = 0) ->
  exists s', forM (seqZ 256 256) (fun i =>
      let* e := rd64 (p2v k +w i *w 8) in wr64 (p2v a +w i *w 8) e) s2 = OOk tt s' /\
    pt_wf (<[a := OUser a []]> own) s' /\
    (forall t o, own !! t = Some o -> same_page (ram s2) (ram s') t) /\
    (forall j, is_idx j -> ent (ram s') a j = if 256 <=? j then ent (ram s2) k j else 0) /\
    pmm s' = pmm s2 /\ kernel_pml4 s' = kernel_pml4 s2 /\ cr3 s' = cr3 s2 /\ invlpgs s' = invlpgs s2.
Proof.
  intros Hk Ha Hfa Hwf2 Hz. set (own' := <[a := OUser a []]> own) in *.
  assert (Hsub : own ⊆ own') by by apply insert_subseteq.
  assert (Ha' : own' !! a = Some (OUser a [])) by apply lookup_insert_eq.
  assert (Hk' : own' !! k = Some (OKernel 0)) by eauto using lookup_weaken.
  pose proof (wf_frame _ _ Hwf2 _ _ Hk') as Hkf.
  set (P := fun (i : Z) (s1 : Machine) => pt_wf own' s1 /\
    (forall t o, own !! t = Some o -> same_page (ram s2) (ram s1) t) /\
    (forall j, is_idx j -> ent (ram s1) a j = if (256 <=? j) && (j <? i) then ent (ram s2) k j else 0) /\
    pmm s1 = pmm s2 /\ kernel_pml4 s1 = kernel_pml4 s2 /\ cr3 s1 = cr3 s2 /\ invlpgs s1 = invlpgs s2).
  set (f := fun i => let* e := rd64 (p2v k +w i *w 8) in wr64 (p2v a +w i *w 8) e).
  assert (match forM (seqZ 256 256) f s2 with OOk _ s' => P 512 s' | OErr _ _ => False | OPanic => False end) as Hloop.
  { apply (forM_seqZ_inv P False); [lia| |].
    - split_and!; try done. intros j Hj. rewrite Hz by done. case_goal; [breflect; lia|done].
    - intros i s1 Hi (Hwf1 & Hpg & Hent & ? & ? & ? & ?). assert (Hii : is_idx i) by (unfold is_idx; lia).
      unfold f, bindM, rd64, wr64, modifyM. rewrite !ptr_add_slot by done. fold (ent (ram s1) k i).
      assert (Hki : ent (ram s1) k i = ent (ram s2) k i) by (apply same_page_ent; eauto).
      assert (is_u64 (ent (ram s2) k i)) by (apply ent_range, (wf_mem _ _ Hwf2)). rewrite Hki. split_and!; try done.
      + eapply pt_wf_write; eauto. simpl. destruct (Z.ltb_spec i 256); [lia|].
        apply (wf_entry _ _ Hwf2 k _ i Hk' Hii). lia.
      + intros t o Ht. eapply same_page_trans; [by eapply Hpg|].
        apply same_page_write; [done|eauto using wf_frame, lookup_weaken|done|congruence].
      + intros j Hj. cbn [ram set_ram]. rewrite ent_write by done. destruct (decide (a = a /\ j = i)) as [[_ ->]|Hne].
        * replace ((256 <=? i) && (i <? i + 1)) with true by (symmetry; apply andb_true_iff; rewrite Z.leb_le, Z.ltb_lt; lia). done.
        * rewrite Hent by done. assert (j <> i) by naive_solver.
          destruct (Z.leb_spec 256 j), (Z.ltb_spec j i), (Z.ltb_spec j (i + 1)); simpl; done || lia. }
  destruct (forM (seqZ 256 256) f s2) as [[] s'|? ?|]; [|done..].
  destruct Hloop as (H1 & H2 & H3 & H4). exists s'. split_and!; try done; try apply H4.
  intros j Hj. rewrite H3 by done. unfold is_idx in Hj. destruct (Z.ltb_spec j 512); [by rewrite andb_true_r|lia].
Qed.

Lemma clone_kernel_spec own s :
  pt_wf own s -> own !! kernel_pml4 s = Some (OKernel 0) -> 0 < nfree s ->
  exists a s', clone_kernel_address_space s = OOk a s' /\ own !! a = None /\ is_frame a /\
    pt_wf (<[a := OUser a []]> own) s' /\
    (forall t o, own !! t = Some o -> same_page (ram s) (ram s') t) /\
    (forall j, is_idx j -> ent (ram s') a j = if 256 <=? j then ent (ram s) (kernel_pml4 s) j else 0) /\
    nfree s' = nfree s - 1 /\
    kernel_pml4 s' = kernel_pml4 s /\ cr3 s' = cr3 s /\ invlpgs s' = invlpgs s.
Proof.
  intros Hwf Hk Hn. unfold clone_kernel_address_space. unfold bindM at 1.
  destruct (alloc_frameM_spec own s Hwf)
    as [[-> HF]|(a & s1 & -> & Ha0 & Ha & Hfresh & Hwf1 & Hz & Hpg & _ & HF & Hin & Hk1 & Hc1 & Hi1)].
  { rewrite (nfree_size own), HF, size_empty in Hn by done. lia. }
  specialize (Hwf1 (OUser a [])). set (own' := <[a := OUser a []]> own) in *.
  unfold bindM at 1, modifyM. rewrite getM_bind. cbn [ram set_ram kernel_pml4].
  set (s2 := set_ram (fill (ram s1) (p2v a) 0 4096) s1).
  assert (Hent : forall t o i, own' !! t = Some o -> is_idx i -> ent (ram s2) t i = ent (ram s1) t i).
  { intros t o i Ht Hi. unfold s2. cbn [ram set_ram]. change 4096 with PAGE_SIZE.
    rewrite ent_fill by eauto using wf_frame. case_decide; [subst; by rewrite Hz|done]. }
  assert (Hwf2 : pt_wf own' s2).
  { destruct Hwf1 as [? ? ? ? Hen]. split; try done.
    - unfold s2. simpl. apply fill_ok; [split; [lia|reflexivity]|done].
    - intros t o i Ht Hi. rewrite (Hent t o) by done. by apply Hen. }
  assert (Hpg2 : forall t o, own !! t = Some o -> same_page (ram s) (ram s2) t).
  { intros t o Ht. eapply same_page_trans; [by eapply Hpg|].
    apply same_page_fill; eauto using wf_frame. congruence. }
  destruct (clone_kernel_loop own (kernel_pml4 s) a s2 Hk Hfresh Ha Hwf2)
    as (s' & E & H1 & H2 & H3 & H4 & H5 & H6 & H7).
  { intros i Hi. rewrite (Hent a (OUser a [])) by (done || apply lookup_insert_eq). auto. }
  rewrite Hk1. unfold bindM at 1. fold s2. rewrite E. exists a, s'. split_and!; [done|done|done|done|..].
  - intros t o Ht. eapply same_page_trans; [by eapply Hpg2|by eapply H2].
  - intros j Hj. rewrite H3 by done. case_goal; [|done]. apply same_page_ent; [exact (Hpg2 _ _ Hk)|exact (wf_frame _ _ Hwf _ _ Hk)|exact Hj].
  - unfold nfree. rewrite H4. change (nfree s1 = nfree s - 1).
    exact (nfree_insert own own' s s1 _ Hwf Hwf1 HF Hin).
  - rewrite H5. exact Hk1.
  - rewrite H6. exact Hc1.
  - rewrite H7. exact Hi1.
Qed.

(** ** Properties *)

(** C10: Mapping a user page.  With three free frames [map_page_in] succeeds;
    afterwards the page translates to the frame, and its leaf entry is the
    frame's address with bit 0 (present) set, bit 1 set exactly if writable,
    bit 2 exactly if user and bit 63 exactly if not executable, and no other
    bit; every other user page of every address
    space, every kernel-half address and every data page are unchanged; the
    page-table invariant is kept; and the page is flushed from the TLB
    exactly when the address space is the active one. *)
Theorem map_page_in_correct own s r v phys fl :
  pt_wf own s -> own !! r = Some (OUser r []) -> is_user v -> own !! phys = Some OData ->
  3 <= nfree s ->
  exists own' s', map_page_in r v phys fl s = OOk tt s' /\ own ⊆ own' /\ pt_wf own' s' /\
    translate_page (ram s') r v = Some phys /\
    upte (ram s') r v = entry_of phys (writable fl) (user fl) (executable fl) /\
    grants (upte (ram s') r v) (writable fl) (user fl) (executable fl) /\
    (forall r' v', own !! r' = Some (OUser r' []) -> is_user v' -> ~ (r' = r /\ v' / 4096 = v / 4096) ->
       translate_page (ram s') r' v' = translate_page (ram s) r' v' /\ upte (ram s') r' v' = upte (ram s) r' v') /\
    (forall r' v', own !! r' = Some (OUser r' []) -> 256 <= idx v' 39 ->
       translate_page (ram s') r' v' = translate_page (ram s) r' v') /\
    (forall t, own !! t = Some OData -> same_page (ram s) (ram s') t) /\
    invlpgs s' = (if (cr3 s & not64 0xFFF) =? r then v :: invlpgs s else invlpgs s).
Proof.
  intros Hwf Hr Hv Hph Hn.
  destruct (map_page_in_spec own s r v phys fl Hwf Hr Hv Hph) as [[_ H]|(own' & s' & E & [U1 U2 U3 U4 U5 U6] & _)];
    [lia|].
  assert (forall r', own !! r' = Some (OUser r' []) -> own' !! r' = Some (OUser r' [])) as Hw
    by eauto using lookup_weaken.
  assert (upte (ram s') r v = leaf phys fl) as Hleaf by (rewrite U4, decide_True by done; done).
  destruct (leaf_spec phys fl (wf_frame _ _ Hwf _ _ Hph)) as (L1 & L2 & _).
  exists own', s'. split_and!; try done; [..|apply U3].
  - rewrite (translate_upte own') by auto. by rewrite Hleaf, L1, L2.
  - rewrite Hleaf. apply leaf_entry, (wf_frame _ _ Hwf _ _ Hph).
  - rewrite Hleaf. apply leaf_grants, (wf_frame _ _ Hwf _ _ Hph).
  - intros r' v' Hr' Hv' Hne. rewrite (translate_upte own'), (translate_upte own) by auto.
    by rewrite U4, decide_False.
  - intros r' v' Hr' Hv'. by apply (kept_translate own).
Qed.

(** Unmapping a user page returns the frame it was mapped to and leaves
    the page untranslated; a page that is not mapped is left alone and [None]
    is returned; no other user page, no kernel-half address and no data page
    changes, and nothing panics. *)
Theorem unmap_page_in_correct own s r v :
  pt_wf own s -> own !! r = Some (OUser r []) -> is_user v ->
  exists s', unmap_page_in r v s = OOk (translate_page (ram s) r v) s' /\ pt_wf own s' /\
    translate_page (ram s') r v = None /\
    (forall r' v', own !! r' = Some (OUser r' []) -> is_user v' -> ~ (r' = r /\ v' / 4096 = v / 4096) ->
       translate_page (ram s') r' v' = translate_page (ram s) r' v') /\
    (forall r' v', own !! r' = Some (OUser r' []) -> 256 <= idx v' 39 ->
       translate_page (ram s') r' v' = translate_page (ram s) r' v') /\
    (forall t, own !! t = Some OData -> same_page (ram s) (ram s') t).
Proof.
  intros Hwf Hr Hv. pose proof (unmap_page_in_spec own s r v Hwf Hr Hv) as H.
  rewrite (translate_upte own) by done. destruct (present (upte (ram s) r v)) eqn:Hp.
  - destruct H as (s' & E & [U1 U2 U3 U4 U5 U6]). exists s'. split_and!; try done; [..|apply U3].
    + rewrite (translate_upte own) by done. by rewrite U4, decide_True.
    + intros r' v' Hr' Hv' Hne. rewrite !(translate_upte own) by done. by rewrite U4, decide_False.
    + intros r' v' Hr' Hv'. by apply (kept_translate own).
  - exists s. split_and!; try done. by rewrite (translate_upte own), Hp.
Qed.

(** Changing the protection of a user page keeps its frame and replaces
    exactly the writable, user and no-execute bits; it reports whether the
    page was mapped and changes nothing when it was not. *)
Theorem protect_page_in_correct own s r v fl :
  pt_wf own s -> own !! r = Some (OUser r []) -> is_user v ->
  exists s', protect_page_in r v fl s = OOk (present (upte (ram s) r v)) s' /\ pt_wf own s' /\
    (forall r' v', own !! r' = Some (OUser r' []) -> is_user v' ->
       translate_page (ram s') r' v' = translate_page (ram s) r' v') /\
    (forall r' v', own !! r' = Some (OUser r' []) -> is_user v' -> upte (ram s') r' v' =
       if decide (r' = r /\ v' / 4096 = v / 4096) then
         if present (upte (ram s) r v) then reprotect (upte (ram s) r v) fl else upte (ram s) r' v'
       else upte (ram s) r' v').
Proof.
  intros Hwf Hr Hv. pose proof (protect_page_in_spec own s r v fl Hwf Hr Hv) as H.
  destruct (present (upte (ram s) r v)) eqn:Hp.
  - destruct H as (s' & E & [U1 U2 U3 U4 U5 U6]). exists s'. split_and!; try done.
    intros r' v' Hr' Hv'. rewrite !(translate_upte own) by done. rewrite U4 by done.
    case_decide as Hd; [|done]. destruct Hd as [-> Hpg].
    assert (upte (ram s) r v' = upte (ram s) r v) as ->.
    { unfold upte. by apply (same_path v' v) in Hpg as [-> ->]. }
    destruct (reprotect_spec (upte (ram s) r v) fl) as (-> & -> & _); [by eapply upte_u64|done|by rewrite Hp].
  - exists s. split_and!; try done. intros. by case_decide.
Qed.

(** A root without user entries maps no user page. *)
Lemma empty_root m a (k : Z -> Z) : (forall j, is_idx j -> ent m a j = if 256 <=? j then k j else 0) ->
  forall v, is_user v -> present (upte m a v) = false.
Proof.
  intros Hent v Hv. unfold upte. rewrite upath_descend. unfold child at 1. rewrite Hent by (apply idx_is_idx; lia).
  pose proof (idx39_user v Hv). destruct (Z.leb_spec 256 (idx v 39)); [lia|]. by rewrite present_0.
Qed.

(** A new address space.  With a free frame, [clone_kernel_address_space]
    returns a frame nobody owned, which becomes the root of an address space
    that maps no user page and translates every kernel-half address like the
    kernel's own PML4; all existing frames keep their bytes. *)
Theorem clone_kernel_address_space_correct own s :
  pt_wf own s -> own !! kernel_pml4 s = Some (OKernel 0) -> 0 < nfree s ->
  exists a s', clone_kernel_address_space s = OOk a s' /\ own !! a = None /\
    pt_wf (<[a := OUser a []]> own) s' /\
    (forall v, is_user v -> translate_page (ram s') a v = None) /\
    (forall v, 256 <= idx v 39 -> translate_page (ram s') a v = translate_page (ram s') (kernel_pml4 s) v) /\
    (forall t o, own !! t = Some o -> same_page (ram s) (ram s') t) /\
    nfree s' = nfree s - 1.
Proof.
  intros Hwf Hk Hn. destruct (clone_kernel_spec own s Hwf Hk Hn)
    as (a & s' & E & Ha & Hf & Hwf' & Hpg & Hent & Hn' & _).
  exists a, s'. split_and!; [exact E|exact Ha|exact Hwf'| | |exact Hpg|exact Hn'].
  - intros v Hv. rewrite (translate_upte (<[a := OUser a []]> own)) by (done || apply lookup_insert_eq).
    by rewrite (empty_root _ _ _ Hent v Hv).
  - intros v Hv. rewrite !translate_child, !pte_ptr_child.
    assert (child (ram s') a (idx v 39) = child (ram s') (kernel_pml4 s) (idx v 39)) as ->; [|done].
    unfold child. rewrite Hent by (apply idx_is_idx; lia). destruct (Z.leb_spec 256 (idx v 39)); [|lia].
    by rewrite (same_page_ent (ram s) (ram s') (kernel_pml4 s))
      by (eauto using wf_frame || apply idx_is_idx; lia).
Qed.

(** C4: Copying an address space ([fork]).  [clone_user_address_space] needs
    one frame for the root and one for each table and each mapped page of the
    source, and panics for lack of memory only when there are fewer; otherwise
    every user page mapped in the source is mapped in the copy with the same
    flags, to a frame of its own that nobody owned before, with the same
    bytes; no other user page is mapped in the copy; and no frame that had an
    owner (the source's tables and pages among them) changes. *)
Theorem clone_user_address_space_correct own s r :
  pt_wf own s -> own !! kernel_pml4 s = Some (OKernel 0) -> own !! r = Some (OUser r []) -> 0 < nfree s ->
  match clone_user_address_space r s with
  | OOk a s' => exists own', own ⊆ own' /\ pt_wf own' s' /\
      own !! a = None /\ own' !! a = Some (OUser a []) /\
      (forall v, is_user v -> copied_pte own s own' (ram s') (upte (ram s) r v) (upte (ram s') a v)) /\
      (forall t o, own !! t = Some o -> same_page (ram s) (ram s') t) /\
      nfree s' = nfree s - (1 + cost s 3 r 256)
  | OErr _ _ => False
  | OPanic => nfree s < 1 + cost s 3 r 256
  end.
Proof.
  intros Hwf Hk Hr Hn. destruct (clone_kernel_spec own s Hwf Hk Hn)
    as (a & s1 & E & Ha & Hf & Hwf1 & Hpg & Hent & Hn1 & _).
  unfold clone_user_address_space, bindM at 1. rewrite E. set (own1 := <[a := OUser a []]> own) in *.
  assert (Hsub : own ⊆ own1) by by apply insert_subseteq.
  assert (Ha1 : own1 !! a = Some (OUser a [])) by apply lookup_insert_eq.
  pose proof (clone_level_correct own s r a Hwf 2 [] 256 false clone_pdpt ltac:(simpl; lia) ltac:(done)
    ltac:(lia) (clone_pdpt_correct own s r a Hwf) own1 s1 r a) as Hc.
  assert (Hpre : clone_pre own s r a own1 s1 [] r a 256).
  { unfold clone_pre. split_and!; auto. intros i Hi. rewrite Hent by (unfold is_idx; lia).
    destruct (Z.leb_spec 256 i); [lia|done]. }
  specialize (Hc Hpre). unfold bindM. destruct (clone_level _ _ _ _ _ s1) as [u s'|e s'|].
  - destruct Hc as (own' & H1 & H2 & H3 & H4 & _ & H6 & _).
    exists own'. split_and!; [by etrans|exact H2|exact Ha|by eapply lookup_weaken| | |lia].
    + intros v Hv. by apply copied_upte.
    + intros t o Ht. eapply same_page_trans; [by eapply Hpg|].
      apply (H3 t o); [by eapply lookup_weaken|congruence].
  - exact Hc.
  - lia.
Qed.

(** ** A concrete machine *)

Definition sample_machine : Machine :=
  {| pmm := sample_pmm; ram := fun _ => 0; kernel_pml4 := 0; cr3 := 0; invlpgs := [] |}.

Lemma blank_machine_wf p : pmm_ok p -> pt_wf ∅ {| pmm := p; ram := fun _ => 0; kernel_pml4 := 0; cr3 := 0; invlpgs := [] |}.
Proof.
  intros Hp. split.
  - exact Hp.
  - intros x; split; reflexivity.
  - intros t o H. discriminate H.
  - intros t o H. discriminate H.
  - intros t o i H. discriminate H.
Qed.

Lemma sample_machine_wf : pt_wf ∅ sample_machine.
Proof. exact (blank_machine_wf _ sample_pmm_ok). Qed.

Lemma sample_machine_nfree : nfree sample_machine = 9.
Proof. vm_compute. reflexivity. Qed.

(** One frame each for the kernel's PML4, a user root and a data page. *)
Lemma space_from s0 : pt_wf ∅ s0 -> 3 <= nfree s0 ->
  exists own s r d, pt_wf own s /\ own !! r = Some (OUser r []) /\ own !! d = Some OData /\
    own !! kernel_pml4 s = Some (OKernel 0) /\ nfree s = nfree s0 - 3.
Proof.
  intros Hwf0 Hn0.
  assert (forall own s, pt_wf own s -> 0 < nfree s -> exists a s', own !! a = None /\
    (forall o, pt_wf (<[a := o]> own) s') /\ nfree s' = nfree s - 1 /\ kernel_pml4 s' = kernel_pml4 s) as Halloc.
  { intros own s Hwf Hn. destruct (alloc_frameM_spec own s Hwf)
      as [[_ HF]|(a & s' & _ & _ & _ & Ha & Hwf' & _ & _ & _ & HF & Hin & Hk & _)].
    - rewrite (nfree_size own), HF, size_empty in Hn by done. lia.
    - exists a, s'. split_and!; try done. exact (nfree_insert _ _ _ _ _ Hwf (Hwf' OData) HF Hin). }
  destruct (Halloc _ _ Hwf0 ltac:(lia)) as (k & s1 & _ & W1 & N1 & _).
  specialize (W1 (OKernel 0)).
  assert (pt_wf (<[k := OKernel 0]> ∅) (set_kernel_pml4 k s1)) as W1' by (destruct W1; split; done).
  destruct (Halloc _ _ W1') as (r & s2 & F2 & W2 & N2 & K2);
    [change (0 < nfree s1); lia|]. specialize (W2 (OUser r [])).
  change (nfree s2 = nfree s1 - 1) in N2.
  destruct (Halloc _ _ W2 ltac:(lia)) as (d & s3 & F3 & W3 & N3 & K3). specialize (W3 OData).
  assert (d <> r) by (intros ->; rewrite lookup_insert_eq in F3; done).
  assert (r <> k) by (intros ->; rewrite lookup_insert_eq in F2; done).
  assert (d <> k) by (intros ->; rewrite lookup_insert_ne, lookup_insert_eq in F3; done).
  eexists _, s3, r, d. split; [exact W3|]. rewrite K3, K2. simpl.
  split_and!; [|apply lookup_insert_eq| |lia].
  - rewrite lookup_insert_ne by congruence. apply lookup_insert_eq.
  - rewrite !lookup_insert_ne by congruence. apply lookup_insert_eq.
Qed.

(** Nine frames are free, six are left. *)
Lemma sample_space :
  exists own s r d, pt_wf own s /\ own !! r = Some (OUser r []) /\ own !! d = Some OData /\
    own !! kernel_pml4 s = Some (OKernel 0) /\ nfree s = 6.
Proof.
  pose proof sample_machine_nfree as H9. destruct (space_from _ sample_machine_wf ltac:(lia)) as (own & s & r & d & H). rewrite H9 in H. by exists own, s, r, d.
Qed.

Lemma map_page_in_correct_witness :
  exists own s r d, let fl := {| writable := true; user := true; executable := false |} in
    pt_wf own s /\ exists s', map_page_in r 0x400000 d fl s = OOk tt s' /\ translate_page (ram s') r 0x400000 = Some d.
Proof.
  destruct sample_space as (own & s & r & d & Hwf & Hr & Hd & _ & Hn). exists own, s, r, d. split; [done|].
  destruct (map_page_in_correct own s r 0x400000 d {| writable := true; user := true; executable := false |}
    Hwf Hr ltac:(unfold is_user; lia) Hd ltac:(lia)) as (own' & s' & E & _ & _ & T & _).
  exists s'. split; [exact E|exact T].
Defined.

Lemma unmap_page_in_correct_witness :
  exists own s r s', pt_wf own s /\ unmap_page_in r 0x400000 s = OOk (translate_page (ram s) r 0x400000) s'.
Proof.
  destruct sample_space as (own & s & r & d & Hwf & Hr & _). exists own, s, r.
  destruct (unmap_page_in_correct own s r 0x400000 Hwf Hr ltac:(unfold is_user; lia)) as (s' & E & _).
  exists s'. split; [exact Hwf|exact E].
Defined.

Lemma protect_page_in_correct_witness :
  exists own s r s', let fl := {| writable := false; user := true; executable := true |} in
    pt_wf own s /\ protect_page_in r 0x400000 fl s = OOk (present (upte (ram s) r 0x400000)) s'.
Proof.
  destruct sample_space as (own & s & r & d & Hwf & Hr & _). exists own, s, r.
  destruct (protect_page_in_correct own s r 0x400000 {| writable := false; user := true; executable := true |}
    Hwf Hr ltac:(unfold is_user; lia)) as (s' & E & _).
  exists s'. split; [exact Hwf|exact E].
Defined.

Lemma clone_kernel_address_space_correct_witness :
  exists own s a s', pt_wf own s /\ clone_kernel_address_space s = OOk a s' /\ nfree s' = 5.
Proof.
  destruct sample_space as (own & s & r & d & Hwf & Hr & _ & Hk & Hn).
  destruct (clone_kernel_address_space_correct own s Hwf Hk ltac:(lia)) as (a & s' & E & _ & _ & _ & _ & _ & Hn').
  exists own, s, a, s'. split_and!; [exact Hwf|exact E|lia].
Defined.

Lemma clone_user_address_space_correct_witness :
  exists own s r, pt_wf own s /\ forall e s', clone_user_address_space r s <> OErr e s'.
Proof.
  destruct sample_space as (own & s & r & d & Hwf & Hr & _ & Hk & Hn). exists own, s, r. split; [exact Hwf|].
  intros e s' E. pose proof (clone_user_address_space_correct own s r Hwf Hk Hr ltac:(lia)) as H.
  rewrite E in H. exact H.
Defined.
