(* ===== verification/PagingInit.v ===== *)
(** * The kernel's own page tables ([paging::init])

    The tables built at boot: a direct map and an identity map of the first
    four gigabytes, and the pages of the kernel image at their link address.
    The theorem says that they translate as the kernel assumes and that they
    satisfy the invariant all theorems about address spaces start from. *)

From S2P Require Import Prelude Mem Update Result Boot Pmm Paging PageTables AddressSpace.

(** A loop whose rounds all succeed. *)
Lemma forM_seqZ_ok {S} (P : Z -> S -> Prop) lo n (f : Z -> M S unit) s : 0 <= n -> P lo s ->
  (forall i s, lo <= i < lo + n -> P i s -> exists s', f i s = OOk tt s' /\ P (i + 1) s') ->
  exists s', forM (seqZ lo n) f s = OOk tt s' /\ P (lo + n) s'.
Proof.
  intros Hn Hs Hf. pose proof (forM_seqZ_inv P False lo n f s Hn Hs) as L. destruct (forM (seqZ lo n) f s) as [[] s'| |].
  2, 3: destruct L; intros i s1 Hi H1; destruct (Hf i s1 Hi H1) as (s' & -> & H'); exact H'.
  exists s'. split; [done|]. apply L. intros i s1 Hi H1. destruct (Hf i s1 Hi H1) as (s2 & -> & H'). exact H'.
Qed.

(** ** Kernel tables *)

(** The tables of the kernel: an entry of the upper levels is empty or leads
    to a table. *)
Record ktables (own : gmap Z Owner) (s : Machine) : Prop := {
  kt_wf : pt_wf own s;
  kt_clean : forall t l i, own !! t = Some (OKernel l) -> (l < 3)%nat -> is_idx i ->
    ent (ram s) t i = 0 \/ present (ent (ram s) t i) = true;
}.

(** What an operation keeps: owners, the entries in use of the upper levels,
    and the registers. *)
Record kstable (own : gmap Z Owner) (s : Machine) (own' : gmap Z Owner) (s' : Machine) : Prop := {
  ks_sub : own ⊆ own';
  ks_tables : ktables own' s';
  ks_entry : forall t l i, own !! t = Some (OKernel l) -> (l < 3)%nat -> is_idx i ->
    ent (ram s) t i <> 0 -> ent (ram s') t i = ent (ram s) t i;
}.

Lemma kstable_refl own s : ktables own s -> kstable own s own s.
Proof. by constructor. Qed.

Lemma kstable_trans own1 s1 own2 s2 own3 s3 : kstable own1 s1 own2 s2 -> kstable own2 s2 own3 s3 -> kstable own1 s1 own3 s3.
Proof.
  intros [A1 A2 A3] [B1 B2 B3]. constructor; [by etrans|done|]. intros t l i Ht Hl Hi He.
  rewrite (B3 t l i), (A3 t l i); eauto using lookup_weaken. by rewrite (A3 t l i).
Qed.

(** A new table, empty. *)
Lemma alloc_kernel own s l : ktables own s -> 0 < nfree s ->
  exists a s', alloc_frameM s = OOk a s' /\ a <> 0 /\ is_frame a /\ own !! a = None /\
    kstable own s (<[a := OKernel l]> own) s' /\ (forall i, is_idx i -> ent (ram s') a i = 0) /\
    (forall t o i, own !! t = Some o -> is_idx i -> ent (ram s') t i = ent (ram s) t i) /\ nfree s' = nfree s - 1.
Proof.
  intros [Hwf Hcl] Hn. destruct (alloc_frameM_spec own s Hwf)
    as [[_ HF]|(a & s' & E & Ha0 & Ha & Hfresh & Hwf' & Hz & Hpg & _ & HF & Hin & _)].
  { rewrite (nfree_size own), HF, size_empty in Hn by done. lia. }
  assert (forall t o i, own !! t = Some o -> is_idx i -> ent (ram s') t i = ent (ram s) t i) as Hent.
  { intros t o i Ht Hi. apply same_page_ent; eauto using wf_frame. }
  exists a, s'. split_and!; [done|done|done|done| |done|done|exact (nfree_insert own _ s s' _ Hwf (Hwf' (OKernel l)) HF Hin)].
  constructor; [by apply insert_subseteq| |eauto].
  constructor; [done|]. intros t l' i Ht Hl Hi. apply lookup_insert_Some in Ht as [[<- _]|[_ Ht]]; [left; auto|].
  rewrite (Hent t _ i Ht Hi). eauto.
Qed.

(** An entry of a kernel table is set to a link or to a huge page. *)
Lemma set_entry own s t l i e : ktables own s -> own !! t = Some (OKernel l) -> is_idx i -> is_u64 e ->
  ((l < 3)%nat -> present e = true /\ kernel_link own (S l) e) ->
  let s' := set_ram (write64 (ram s) (slot t i) e) s in
  ktables own s' /\ (forall t' o j, own !! t' = Some o -> is_idx j -> ent (ram s') t' j = if decide (t' = t /\ j = i) then e else ent (ram s) t' j).
Proof.
  intros [Hwf Hcl] Ht Hi He Hl s'.
  assert (forall t' o j, own !! t' = Some o -> is_idx j -> ent (ram s') t' j = if decide (t' = t /\ j = i) then e else ent (ram s) t' j) as Hent.
  { intros t' o j Ht' Hj. apply ent_write; eauto using wf_frame. }
  split; [|exact Hent]. constructor.
  - eapply pt_wf_write; eauto. intros Hlt. by apply Hl.
  - intros t' l' j Ht' Hlt Hj. rewrite (Hent t' _ j Ht' Hj). case_decide as E; [|eauto]. destruct E as [-> ->].
    right. rewrite Ht in Ht'. injection Ht' as <-. by apply Hl.
Qed.

(** The entry that leads to a table. *)
Definition klink (a : Z) : Z := a .| PTE_PRESENT .| PTE_WRITABLE .| 0.

Lemma klink_spec a : is_frame a -> present (klink a) = true /\ huge (klink a) = false /\ child_of (klink a) = a /\ is_u64 (klink a) /\ klink a <> 0.
Proof.
  intros Ha. destruct (link_entry a 0 Ha (or_introl eq_refl)) as (H1 & H2 & H3 & _ & H5). split_and!; try done.
  intros E. fold (klink a) in H1. by rewrite E in H1.
Qed.

Lemma klink_eq a : a .| PTE_PRESENT .| PTE_WRITABLE = klink a.
Proof. unfold klink. by rewrite Z.lor_0_r. Qed.

(** [ensure_entry] on a kernel table: nothing, or a new empty table. *)
Lemma ensure_kernel own s t l i : ktables own s -> own !! t = Some (OKernel l) -> (l < 3)%nat -> is_idx i ->
  (ent (ram s) t i = 0 -> 0 < nfree s) ->
  exists own' s', ensure_entry (slot t i) 0 s = OOk tt s' /\ kstable own s own' s' /\ present (ent (ram s') t i) = true /\
    (forall t' o j, own !! t' = Some o -> is_idx j -> ~ (t' = t /\ j = i) -> ent (ram s') t' j = ent (ram s) t' j) /\
    if ent (ram s) t i =? 0 then
      exists a, own !! a = None /\ is_frame a /\ own' = <[a := OKernel (S l)]> own /\ ent (ram s') t i = klink a /\
        (forall j, is_idx j -> ent (ram s') a j = 0) /\ nfree s' = nfree s - 1
    else own' = own /\ s' = s.
Proof.
  intros Hk Ht Hl Hi Hn. rewrite ensure_entry_eq. fold (ent (ram s) t i). destruct (Z.eqb_spec (ent (ram s) t i) 0) as [E0|E0].
  2:{ exists own, s. split_and!; [done|by apply kstable_refl| |done|done|done]. by destruct (kt_clean _ _ Hk t l i Ht Hl Hi). }
  destruct (alloc_kernel own s (S l) Hk (Hn E0)) as (a & s1 & E & Ha0 & Ha & Hfresh & S1 & Hz & Hent & Hn1).
  rewrite E, (proj2 (Z.eqb_neq a 0) Ha0). fold (klink a). destruct (klink_spec a Ha) as (L1 & L2 & L3 & L4 & L5).
  set (own' := <[a := OKernel (S l)]> own) in *. assert (own ⊆ own') as Hsub by apply S1.
  pose proof (lookup_weaken _ _ _ _ Ht Hsub) as Ht'. assert (own' !! a = Some (OKernel (S l))) as Ha' by apply lookup_insert_eq.
  destruct (set_entry own' s1 t l i (klink a) (ks_tables _ _ _ _ S1) Ht' Hi L4) as [K2 Hent2].
  { intros _. split; [done|]. intros _. right. by rewrite L3. }
  set (s2 := set_ram _ s1) in *. assert (a <> t) as Hat by congruence.
  assert (ent (ram s2) t i = klink a) as Eti by (rewrite (Hent2 _ _ _ Ht' Hi); by rewrite decide_True).
  exists own', s2. split_and!; [done| |by rewrite Eti| |].
  - constructor; [done|done|]. intros t' l' j Ht2 Hl' Hj He. rewrite (Hent2 t' _ j (lookup_weaken _ _ _ _ Ht2 Hsub) Hj).
    case_decide as D; [destruct D as [-> ->]; done|]. exact (Hent t' _ j Ht2 Hj).
  - intros t' o j Ht2 Hj Hne. rewrite (Hent2 t' _ j (lookup_weaken _ _ _ _ Ht2 Hsub) Hj), decide_False by done. exact (Hent t' _ j Ht2 Hj).
  - exists a. split_and!; [done|done|done|done| |exact Hn1]. intros j Hj. rewrite (Hent2 a _ j Ha' Hj), decide_False by (by intros [? _]).
    by apply Hz.
Qed.

(** ** The pages of the image *)

Lemma child_Some m t i c : child m t i = Some c <-> present (ent m t i) = true /\ child_of (ent m t i) = c.
Proof. unfold child. destruct (present _); naive_solver. Qed.

Lemma kchild_owned own s t l i c : ktables own s -> own !! t = Some (OKernel l) -> (l < 3)%nat -> is_idx i ->
  child (ram s) t i = Some c -> huge (ent (ram s) t i) = false \/ (l < 2)%nat -> own !! c = Some (OKernel (S l)).
Proof.
  intros [Hwf _] Ht Hl Hi [Hp <-]%child_Some Hh. destruct (wf_entry _ _ Hwf t _ i Ht Hi Hl Hp) as [[E Hu]|Ho]; [|done].
  destruct Hh; [congruence|lia].
Qed.

(** The table and the entry of the image page with indices [a], [b], [c]
    below the page-directory-pointer table [kp]. *)
Definition kpt (m : Mem) (kp a b : Z) : option Z := child m kp a ≫= fun pd => child m pd b.
Definition kleaf (m : Mem) (kp a b c : Z) : Z := from_option (fun pt => ent m pt c) 0 (kpt m kp a b).

(** The image's tables form a tree without huge pages. *)
Record image (own : gmap Z Owner) (s : Machine) (kp : Z) : Prop := {
  im_tables : ktables own s;
  im_root : own !! kp = Some (OKernel 1);
  im_small : forall a pd b, is_idx a -> is_idx b -> child (ram s) kp a = Some pd -> huge (ent (ram s) pd b) = false;
  im_inj1 : forall a a' pd, is_idx a -> is_idx a' -> child (ram s) kp a = Some pd -> child (ram s) kp a' = Some pd -> a = a';
  im_inj2 : forall a b a' b' pt, is_idx a -> is_idx b -> is_idx a' -> is_idx b' ->
    kpt (ram s) kp a b = Some pt -> kpt (ram s) kp a' b' = Some pt -> a = a' /\ b = b';
}.

Section Image.
Context (kp : Z).

Lemma image_pd own s a pd : image own s kp -> is_idx a -> child (ram s) kp a = Some pd -> own !! pd = Some (OKernel 2).
Proof. intros H Ha Hc. eapply kchild_owned; [apply H|apply H|lia|done|done|right; lia]. Qed.

Lemma image_pt own s a b pt : image own s kp -> is_idx a -> is_idx b -> kpt (ram s) kp a b = Some pt -> own !! pt = Some (OKernel 3).
Proof.
  intros H Ha Hb (pd & Hpd & Hpt)%bind_Some.
  exact (kchild_owned own s pd 2 b pt (im_tables _ _ _ H) (image_pd own s a pd H Ha Hpd) ltac:(lia) Hb Hpt (or_introl (im_small _ _ _ H a pd b Ha Hb Hpd))).
Qed.

(** Nothing but empty entries of the upper levels changed, and no leaf. *)
Record grown (own : gmap Z Owner) (s : Machine) (own' : gmap Z Owner) (s' : Machine) : Prop := {
  gr_stable : kstable own s own' s';
  gr_image : image own' s' kp;
  gr_leaf : forall a b c, is_idx a -> is_idx b -> is_idx c -> kleaf (ram s') kp a b c = kleaf (ram s) kp a b c;
}.

Lemma grown_refl own s : image own s kp -> grown own s own s.
Proof. intros H. constructor; [apply kstable_refl, H|done|done]. Qed.

Lemma grown_trans own1 s1 own2 s2 own3 s3 : grown own1 s1 own2 s2 -> grown own2 s2 own3 s3 -> grown own1 s1 own3 s3.
Proof.
  intros [A1 A2 A3] [B1 B2 B3]. constructor; [by eapply kstable_trans|done|]. intros a b c Ha Hb Hc. by rewrite B3, A3.
Qed.

Lemma child_ext m m' t i : ent m' t i = ent m t i -> child m' t i = child m t i.
Proof. intros E. unfold child. by rewrite E. Qed.

Lemma child_empty m t i : ent m t i = 0 -> child m t i = None.
Proof. intros E. unfold child. by rewrite E, present_0. Qed.

Lemma child_klink m t i a : is_frame a -> ent m t i = klink a -> child m t i = Some a.
Proof. intros Ha E. unfold child. destruct (klink_spec a Ha) as (H1 & _ & H3 & _). by rewrite E, H1, H3. Qed.

(** The frame a missing table costs. *)
Definition missing (t : option Z) : Z := match t with Some _ => 0 | None => 1 end.

(** The page directory of index [a]. *)
Lemma ensure_pd own s a : image own s kp -> is_idx a -> (child (ram s) kp a = None -> 0 < nfree s) ->
  exists own' s' pd, ensure_entry (slot kp a) 0 s = OOk tt s' /\ grown own s own' s' /\
    child (ram s') kp a = Some pd /\ child_of (ent (ram s') kp a) = pd /\
    nfree s = nfree s' + missing (child (ram s) kp a) /\
    (forall a' b, is_idx a' -> is_idx b -> kpt (ram s') kp a' b = kpt (ram s) kp a' b).
Proof.
  intros H Ha Hn. pose proof (im_root _ _ _ H) as Hr.
  destruct (ensure_kernel own s kp 1 a (im_tables _ _ _ H) Hr ltac:(lia) Ha) as (own' & s' & E & S & Hp & Hent & Hcase).
  { intros E0. apply Hn. by apply child_empty. }
  exists own', s', (child_of (ent (ram s') kp a)). assert (child (ram s') kp a = Some (child_of (ent (ram s') kp a))) as Hc by by apply child_Some.
  destruct (Z.eqb_spec (ent (ram s) kp a) 0) as [E0|E0].
  2:{ destruct Hcase as [-> ->]. rewrite Hc. split_and!; [done|by apply grown_refl|done|done|cbn; lia|done]. }
  destruct Hcase as (x & Hx & Hxf & -> & Ex & Hz & Hn').
  rewrite (child_empty _ _ _ E0). assert (child_of (ent (ram s') kp a) = x) as Ec by (rewrite Ex; by apply klink_spec). rewrite Ec in *.
  assert (forall a', is_idx a' -> a' <> a -> child (ram s') kp a' = child (ram s) kp a') as Hkp.
  { intros a' Ha' Hne. apply child_ext, (Hent kp _ a' Hr Ha'). naive_solver. }
  assert (forall a' pd b, is_idx a' -> is_idx b -> child (ram s) kp a' = Some pd -> ent (ram s') pd b = ent (ram s) pd b) as Hpd.
  { intros a' pd b Ha' Hb Hcc. pose proof (image_pd own s a' pd H Ha' Hcc) as Ho. apply (Hent pd _ b Ho Hb). intros [-> _]. congruence. }
  assert (forall a' b, is_idx a' -> is_idx b -> kpt (ram s') kp a' b = kpt (ram s) kp a' b) as Hkpt.
  { intros a' b Ha' Hb. unfold kpt. destruct (decide (a' = a)) as [->|Hne].
    - rewrite Hc, (child_empty _ _ _ E0). cbn. apply child_empty. by apply Hz.
    - rewrite Hkp by done. destruct (child (ram s) kp a') as [pd|] eqn:Hcc; [|done]. cbn. apply child_ext. exact (Hpd a' pd b Ha' Hb Hcc). }
  assert (forall a' pd, is_idx a' -> child (ram s') kp a' = Some pd -> (a' = a /\ pd = x) \/ (a' <> a /\ child (ram s) kp a' = Some pd)) as Hch.
  { intros a' pd Ha' Hcc. destruct (decide (a' = a)) as [->|Hne]; [left; split; congruence|right; by rewrite <- Hkp]. }
  assert (forall a', is_idx a' -> child (ram s) kp a' <> Some x) as Hfresh.
  { intros a' Ha' Hcc. pose proof (image_pd own s a' x H Ha' Hcc). congruence. }
  split_and!; [done| |done|done|cbn; lia|done]. constructor; [done| |].
  - constructor; [apply S|by eapply lookup_weaken; [|apply S]| | |].
    + intros a' pd b Ha' Hb Hcc. destruct (Hch a' pd Ha' Hcc) as [[-> ->]|[Hne Hcc']]; [by rewrite Hz|].
      rewrite (Hpd a' pd b) by done. exact (im_small _ _ _ H a' pd b Ha' Hb Hcc').
    + intros a1 a2 pd H1 H2 C1 C2. destruct (Hch a1 pd H1 C1) as [[E1 E2]|[N1 D1]], (Hch a2 pd H2 C2) as [[E3 E4]|[N2 D2]].
      * congruence.
      * subst. by destruct (Hfresh a2 H2).
      * subst. by destruct (Hfresh a1 H1).
      * exact (im_inj1 _ _ _ H a1 a2 pd H1 H2 D1 D2).
    + intros a1 b1 a2 b2 pt H1 H2 H3 H4. rewrite !Hkpt by done. by apply (im_inj2 _ _ _ H).
  - intros a' b c Ha' Hb Hcc. unfold kleaf. rewrite Hkpt by done. destruct (kpt (ram s) kp a' b) as [pt|] eqn:Ept; [|done]. cbn.
    pose proof (image_pt own s a' b pt H Ha' Hb Ept) as Ho. apply (Hent pt _ c Ho Hcc). intros [-> _]. congruence.
Qed.

(** The page table of indices [a] and [b]. *)
Lemma ensure_pt own s a b pd : image own s kp -> is_idx a -> is_idx b -> child (ram s) kp a = Some pd ->
  (kpt (ram s) kp a b = None -> 0 < nfree s) ->
  exists own' s' pt, ensure_entry (slot pd b) 0 s = OOk tt s' /\ grown own s own' s' /\
    kpt (ram s') kp a b = Some pt /\ child (ram s') kp a = Some pd /\ child_of (ent (ram s') pd b) = pt /\
    nfree s = nfree s' + missing (kpt (ram s) kp a b).
Proof.
  intros H Ha Hb Hpd Hn. pose proof (im_root _ _ _ H) as Hr. pose proof (image_pd own s a pd H Ha Hpd) as Hpo.
  assert (kpt (ram s) kp a b = child (ram s) pd b) as Ek by (unfold kpt; by rewrite Hpd). rewrite Ek in *.
  destruct (ensure_kernel own s pd 2 b (im_tables _ _ _ H) Hpo ltac:(lia) Hb) as (own' & s' & E & S & Hp & Hent & Hcase).
  { intros E0. apply Hn. by apply child_empty. }
  assert (child (ram s') pd b = Some (child_of (ent (ram s') pd b))) as Hc by by apply child_Some.
  exists own', s', (child_of (ent (ram s') pd b)). destruct (Z.eqb_spec (ent (ram s) pd b) 0) as [E0|E0].
  2:{ destruct Hcase as [-> ->]. rewrite Ek, Hc. split_and!; [done|by apply grown_refl|done|done|done|cbn; lia]. }
  destruct Hcase as (x & Hx & Hxf & -> & Ex & Hz & Hn'). rewrite (child_empty _ _ _ E0).
  assert (child_of (ent (ram s') pd b) = x) as Ec by (rewrite Ex; by apply klink_spec). rewrite Ec in *.
  assert (forall a', is_idx a' -> child (ram s') kp a' = child (ram s) kp a') as Hkp.
  { intros a' Ha'. apply child_ext, (Hent kp _ a' Hr Ha'). intros [-> _]. congruence. }
  assert (forall a' b', is_idx a' -> is_idx b' -> kpt (ram s') kp a' b' = if decide (a' = a /\ b' = b) then Some x else kpt (ram s) kp a' b') as Hkpt.
  { intros a' b' Ha' Hb'. unfold kpt. rewrite Hkp by done. case_decide as D; [destruct D as [-> ->]; by rewrite Hpd|].
    destruct (child (ram s) kp a') as [pd'|] eqn:Hcc; [|done]. cbn. pose proof (image_pd own s a' pd' H Ha' Hcc) as Ho.
    apply child_ext, (Hent pd' _ b' Ho Hb'). intros [-> ->]. apply D. split; [|done]. exact (im_inj1 _ _ _ H a' a pd Ha' Ha Hcc Hpd). }
  assert (forall a' b', is_idx a' -> is_idx b' -> kpt (ram s) kp a' b' <> Some x) as Hfresh.
  { intros a' b' Ha' Hb' Hcc. pose proof (image_pt own s a' b' x H Ha' Hb' Hcc). congruence. }
  assert (kpt (ram s) kp a b = None) as Enone by (by rewrite Ek, child_empty).
  split_and!; [done| |by rewrite Hkpt, decide_True|by rewrite Hkp|done|cbn; lia]. constructor; [done| |].
  - constructor; [apply S|by eapply lookup_weaken; [|apply S]| | |].
    + intros a' pd' b' Ha' Hb' Hcc. rewrite Hkp in Hcc by done. pose proof (image_pd own s a' pd' H Ha' Hcc) as Ho.
      destruct (decide (pd' = pd /\ b' = b)) as [[-> ->]|Hne]; [rewrite Ex; by apply klink_spec|].
      rewrite (Hent pd' _ b' Ho Hb' Hne). exact (im_small _ _ _ H a' pd' b' Ha' Hb' Hcc).
    + intros a1 a2 pd' H1 H2. rewrite !Hkp by done. by apply (im_inj1 _ _ _ H).
    + intros a1 b1 a2 b2 pt H1 H2 H3 H4. rewrite !Hkpt by done. do 2 case_decide; [naive_solver|..].
      * intros [= ->] D2. by destruct (Hfresh a2 b2 H3 H4).
      * intros D1 [= ->]. by destruct (Hfresh a1 b1 H1 H2).
      * by apply (im_inj2 _ _ _ H).
  - intros a' b' c Ha' Hb' Hcc. unfold kleaf. rewrite Hkpt by done. case_decide as D.
    + destruct D as [-> ->]. rewrite Enone. cbn. by apply Hz.
    + destruct (kpt (ram s) kp a' b') as [pt|] eqn:Ept; [|done]. cbn.
      pose proof (image_pt own s a' b' pt H Ha' Hb' Ept) as Ho. apply (Hent pt _ c Ho Hcc). intros [-> _]. congruence.
Qed.

(** An entry of a page table of the image is set. *)
Lemma set_leaf own s a b c pt e : image own s kp -> is_idx a -> is_idx b -> is_idx c -> kpt (ram s) kp a b = Some pt -> is_u64 e ->
  let s' := set_ram (write64 (ram s) (slot pt c) e) s in
  kstable own s own s' /\ image own s' kp /\
  (forall a' b', is_idx a' -> is_idx b' -> kpt (ram s') kp a' b' = kpt (ram s) kp a' b') /\
  (forall a' b' c', is_idx a' -> is_idx b' -> is_idx c' ->
     kleaf (ram s') kp a' b' c' = if decide (a' = a /\ b' = b /\ c' = c) then e else kleaf (ram s) kp a' b' c').
Proof.
  intros H Ha Hb Hc Hpt He s'. pose proof (image_pt own s a b pt H Ha Hb Hpt) as Ho. pose proof (im_root _ _ _ H) as Hr.
  destruct (set_entry own s pt 3 c e (im_tables _ _ _ H) Ho Hc He ltac:(lia)) as [K Hent]. fold s' in K, Hent.
  assert (forall t l i, own !! t = Some (OKernel l) -> (l < 3)%nat -> is_idx i -> ent (ram s') t i = ent (ram s) t i) as Hup.
  { intros t l i Ht Hl Hi. rewrite (Hent t _ i Ht Hi). rewrite decide_False; [done|]. intros [-> _]. rewrite Ho in Ht. injection Ht as <-. lia. }
  assert (forall a', is_idx a' -> child (ram s') kp a' = child (ram s) kp a') as Hkp.
  { intros a' Ha'. apply child_ext. exact (Hup kp 1%nat a' Hr ltac:(lia) Ha'). }
  assert (forall a' b', is_idx a' -> is_idx b' -> kpt (ram s') kp a' b' = kpt (ram s) kp a' b') as Hkpt.
  { intros a' b' Ha' Hb'. unfold kpt. rewrite Hkp by done. destruct (child (ram s) kp a') as [pd|] eqn:Hcc; [|done]. cbn.
    apply child_ext. exact (Hup pd 2%nat b' (image_pd own s a' pd H Ha' Hcc) ltac:(lia) Hb'). }
  split_and!; [| |done|].
  - constructor; [done|done|]. intros t l i Ht Hl Hi _. exact (Hup t l i Ht Hl Hi).
  - constructor; [done|done| | |].
    + intros a' pd b' Ha' Hb'. rewrite Hkp by done. intros Hcc.
      rewrite (Hup pd 2%nat b' (image_pd own s a' pd H Ha' Hcc)) by (done || lia). exact (im_small _ _ _ H a' pd b' Ha' Hb' Hcc).
    + intros a1 a2 pd H1 H2. rewrite !Hkp by done. by apply (im_inj1 _ _ _ H).
    + intros a1 b1 a2 b2 pt' H1 H2 H3 H4. rewrite !Hkpt by done. by apply (im_inj2 _ _ _ H).
  - intros a' b' c' Ha' Hb' Hc'. unfold kleaf. rewrite Hkpt by done. destruct (kpt (ram s) kp a' b') as [pt'|] eqn:Ept; cbn [from_option].
    + rewrite (Hent pt' _ c' (image_pt own s a' b' pt' H Ha' Hb' Ept) Hc').
      destruct (decide (pt' = pt /\ c' = c)) as [[E1 E2]|D1], (decide (a' = a /\ b' = b /\ c' = c)) as [(F1 & F2 & F3)|D2]; [done| | |done].
      * subst. destruct D2. destruct (im_inj2 _ _ _ H a' b' a b pt Ha' Hb' Ha Hb Ept Hpt). done.
      * subst. destruct D1. rewrite Hpt in Ept. injection Ept as ->. done.
    + rewrite decide_False; [done|]. intros (-> & -> & _). congruence.
Qed.

(** [invlpg] and the registers are not part of the tables. *)
Lemma ktables_ext own s s' : ram s' = ram s -> pmm s' = pmm s -> ktables own s -> ktables own s'.
Proof. intros Er Ep [[H1 H2 H3 H4 H5] Hc]. constructor; [constructor|]; rewrite ?Er, ?Ep; done. Qed.

Lemma image_ext own s s' : ram s' = ram s -> pmm s' = pmm s -> image own s kp -> image own s' kp.
Proof. intros Er Ep [H1 H2 H3 H4 H5]. constructor; rewrite ?Er; try done. by eapply ktables_ext. Qed.

Lemma flush_run K v s : exists s', flush_if_active K v s = OOk tt s' /\ ram s' = ram s /\ pmm s' = pmm s.
Proof. unfold flush_if_active. rewrite getM_bind. destruct (_ =? K); eexists; split; [reflexivity|done|reflexivity|done]. Qed.

(** A page table stays where it is. *)
Lemma kpt_stable own s own' s' a b pt : image own s kp -> kstable own s own' s' -> is_idx a -> is_idx b ->
  kpt (ram s) kp a b = Some pt -> kpt (ram s') kp a b = Some pt.
Proof.
  intros H S Ha Hb (pd & Hpd & Hpt)%bind_Some. pose proof (image_pd own s a pd H Ha Hpd) as Ho.
  assert (forall t l i, own !! t = Some (OKernel l) -> (l < 3)%nat -> is_idx i -> is_Some (child (ram s) t i) -> child (ram s') t i = child (ram s) t i) as Hch.
  { intros t l i Ht Hl Hi Hs. apply child_ext. apply (ks_entry _ _ _ _ S t l i Ht Hl Hi). intros E0. rewrite (child_empty _ _ _ E0) in Hs. by destruct Hs. }
  unfold kpt. rewrite (Hch kp 1%nat a (im_root _ _ _ H) ltac:(lia) Ha), Hpd by (rewrite Hpd; eauto). cbn.
  rewrite (Hch pd 2%nat b Ho ltac:(lia) Hb) by (rewrite Hpt; eauto). done.
Qed.

Definition image_page (phys : Z) : Z := leaf phys {| writable := true; user := false; executable := true |}.

Lemma image_page_spec phys : 0 <= phys < 2 ^ 52 -> phys mod 4096 = 0 ->
  present (image_page phys) = true /\ frame_of (image_page phys) = phys /\ is_u64 (image_page phys).
Proof.
  intros Hp Hm. unfold image_page, leaf, flag_bits. cbn [writable user executable].
  rewrite <- Z.lor_assoc. change (PTE_PRESENT .| PTE_WRITABLE) with 3.
  rewrite present_testbit, Z.lor_spec. split_and!; [by rewrite orb_true_r|by apply frame_of_lor|].
  split; [apply Z.lor_nonneg; lia|]. unfold U64. apply (lor_range _ _ 64); lia.
Qed.

(** The frames a page of the image costs: those of the missing tables. *)
Definition page_cost (m : Mem) (v : Z) : Z := missing (child m kp (idx v 30)) + missing (kpt m kp (idx v 30) (idx v 21)).

Lemma map_image_page own s K v phys :
  image own s kp -> own !! K = Some (OKernel 0) -> ent (ram s) K 511 = klink kp -> idx v 39 = 511 -> 0 <= phys < 2 ^ 52 -> phys mod 4096 = 0 ->
  page_cost (ram s) v <= nfree s ->
  exists own' s', map_page_in K v phys {| writable := true; user := false; executable := true |} s = OOk tt s' /\
    kstable own s own' s' /\ image own' s' kp /\ is_Some (kpt (ram s') kp (idx v 30) (idx v 21)) /\ nfree s = nfree s' + page_cost (ram s) v /\
    (forall a b c, is_idx a -> is_idx b -> is_idx c ->
       kleaf (ram s') kp a b c = if decide (a = idx v 30 /\ b = idx v 21 /\ c = idx v 12) then image_page phys else kleaf (ram s) kp a b c).
Proof.
  intros H HK E511 Hv Hp Hpm Hn. pose proof (idx_is_idx v 30 ltac:(lia)) as I3. pose proof (idx_is_idx v 21 ltac:(lia)) as I2.
  pose proof (idx_is_idx v 12 ltac:(lia)) as I1. set (a := idx v 30) in *. set (b := idx v 21) in *. set (c := idx v 12) in *.
  assert (is_frame kp) as Hf by (eapply wf_frame; apply H). destruct (klink_spec kp Hf) as (_ & _ & L3 & _ & L5).
  destruct (image_page_spec phys Hp Hpm) as (_ & _ & Pu). unfold page_cost in *. fold a b in Hn |- *.
  assert (0 <= missing (child (ram s) kp a) /\ 0 <= missing (kpt (ram s) kp a b)) as [M1 M2] by (unfold missing; split; case_match; lia).
  destruct (ensure_pd own s a H I3) as (own1 & s1 & pd & E1 & G1 & C1 & D1 & N1 & K1).
  { intros E. rewrite E in Hn. cbn in Hn. lia. }
  destruct (ensure_pt own1 s1 a b pd (gr_image _ _ _ _ G1) I3 I2 C1) as (own2 & s2 & pt & E2 & G2 & C2 & B2 & D2 & N2).
  { rewrite K1 by done. intros E. rewrite E in Hn. cbn in Hn. lia. }
  rewrite K1 in N2 by done. pose proof (grown_trans _ _ _ _ _ _ G1 G2) as G.
  destruct (set_leaf own2 s2 a b c pt (image_page phys) (gr_image _ _ _ _ G) I3 I2 I1 C2 Pu) as (S3 & H3 & K3 & F3).
  set (s3 := set_ram _ s2) in *. destruct (flush_run K v s3) as (s4 & E4 & R4 & P4).
  assert (huge (ent (ram s2) pd b) = false) as Hh by exact (im_small _ _ _ (gr_image _ _ _ _ G) a pd b I3 I2 B2).
  assert (kstable own s own2 s4) as S.
  { eapply kstable_trans; [apply G|]. destruct S3 as [Q1 Q2 Q3]. constructor; [done|by apply (ktables_ext _ s3)|by rewrite R4]. }
  exists own2, s4. split_and!; [|done|by apply (image_ext _ s3)| | |].
  - unfold map_page_in. cbn [user]. fold a b c. rewrite Hv.
    rewrite (bind_ok _ _ s tt s) by (rewrite ensure_entry_eq; fold (ent (ram s) K 511); by rewrite E511, (proj2 (Z.eqb_neq _ _) L5)).
    rewrite (bind_ok _ _ s (ent (ram s) K 511) s) by done. cbv zeta. fold (child_of (ent (ram s) K 511)). rewrite E511, L3.
    rewrite (bind_ok _ _ _ _ _ E1). rewrite (bind_ok _ _ s1 (ent (ram s1) kp a) s1) by done. fold (child_of (ent (ram s1) kp a)). rewrite D1.
    rewrite (bind_ok _ _ _ _ _ E2). rewrite (bind_ok _ _ s2 (ent (ram s2) pd b) s2) by done.
    fold (huge (ent (ram s2) pd b)). rewrite Hh. fold (child_of (ent (ram s2) pd b)). rewrite D2.
    rewrite (bind_ok _ _ s2 tt s3) by done. exact E4.
  - rewrite R4, K3, C2 by done. eauto.
  - unfold nfree in *. rewrite P4. change (pmm s3) with (pmm s2). lia.
  - intros a' b' c' Ha' Hb' Hc'. rewrite R4, F3 by done. case_decide; [done|]. by apply (gr_leaf _ _ _ _ G).
Qed.
End Image.

(** ** The kernel image *)

(** The indices of the [k]-th page of the image. *)
Lemma image_idx k : 0 <= k < 2 ^ 19 - 256 ->
  let v := KERNEL_IMAGE_BASE + k * 4096 in
  idx v 39 = 511 /\ idx v 30 = 510 + (256 + k) / 2 ^ 18 /\ idx v 21 = (256 + k) / 512 mod 512 /\ idx v 12 = (256 + k) mod 512.
Proof.
  intros Hk v. set (q := 256 + k). assert (0 <= q < 2 ^ 19) as Hq by lia.
  assert (v / 2 ^ 12 = (2 ^ 33 - 1) * 2 ^ 19 + q) as E12.
  { unfold v, q, KERNEL_IMAGE_BASE. replace (_ + k * 4096) with (((2 ^ 33 - 1) * 2 ^ 19 + (256 + k)) * 2 ^ 12) by lia. by rewrite Z.div_mul. }
  assert (v / 2 ^ 21 = (2 ^ 33 - 1) * 2 ^ 10 + q / 512) as E21.
  { change (2 ^ 21) with (2 ^ 12 * 512). rewrite <- Z.div_div, E12 by lia.
    replace ((2 ^ 33 - 1) * 2 ^ 19) with ((2 ^ 33 - 1) * 2 ^ 10 * 512) by lia. by rewrite Z.div_add_l. }
  assert (v / 2 ^ 30 = (2 ^ 33 - 1) * 2 + q / 2 ^ 18) as E30.
  { change (2 ^ 30) with (2 ^ 21 * 512). rewrite <- Z.div_div, E21 by lia.
    replace ((2 ^ 33 - 1) * 2 ^ 10) with ((2 ^ 33 - 1) * 2 * 512) by lia. rewrite Z.div_add_l, Z.div_div by lia. done. }
  assert (0 <= q / 2 ^ 18 <= 1) as Hd by (split; [apply Z.div_pos; lia|enough (q / 2 ^ 18 < 2) by lia; apply Z.div_lt_upper_bound; lia]).
  rewrite !idx_mod by lia. rewrite E12, E21, E30. split_and!.
  - change (2 ^ 39) with (2 ^ 30 * 512). rewrite <- Z.div_div, E30 by lia. set (x := q / 2 ^ 18) in *.
    assert (x = 0 \/ x = 1) as [-> | ->] by lia; reflexivity.
  - set (x := q / 2 ^ 18) in *. assert (x = 0 \/ x = 1) as [-> | ->] by lia; reflexivity.
  - replace ((2 ^ 33 - 1) * 2 ^ 10 + q / 512) with (q / 512 + (2 ^ 33 - 1) * 2 * 512) by lia. by rewrite Z.mod_add.
  - replace ((2 ^ 33 - 1) * 2 ^ 19 + q) with (q + (2 ^ 33 - 1) * 2 ^ 10 * 512) by lia. by rewrite Z.mod_add.
Qed.

(** The number of the image page with indices [a], [b], [c]. *)
Definition page_number (a b c : Z) : Z := (a - 510) * 2 ^ 18 + b * 512 + c - 256.

Lemma page_number_idx k a b c : 0 <= k < 2 ^ 19 - 256 -> is_idx a -> is_idx b -> is_idx c ->
  let v := KERNEL_IMAGE_BASE + k * 4096 in
  (a = idx v 30 /\ b = idx v 21 /\ c = idx v 12) <-> page_number a b c = k.
Proof.
  intros Hk Ha Hb Hc v. destruct (image_idx k Hk) as (_ & E1 & E2 & E3). fold v in E1, E2, E3. rewrite E1, E2, E3. unfold page_number, is_idx in *.
  pose proof (Z.div_mod (256 + k) 512 ltac:(lia)) as D1. pose proof (Z.mod_pos_bound (256 + k) 512 ltac:(lia)) as D2.
  pose proof (Z.div_mod ((256 + k) / 512) 512 ltac:(lia)) as D3. pose proof (Z.mod_pos_bound ((256 + k) / 512) 512 ltac:(lia)) as D4.
  rewrite Z.div_div in D3 by lia. change (512 * 512) with (2 ^ 18) in D3. lia.
Qed.

(** The regions of two megabytes that [k] pages of the image touch. *)
Definition regions (k : Z) : Z := if k =? 0 then 0 else (255 + k) / 512 + 1.

(** The entries of the image after [k] pages. *)
Definition image_leaf (phys k a b c : Z) : Z :=
  let j := page_number a b c in if (0 <=? j) && (j <? k) then image_page (phys + j * 4096) else 0.

Section Range.
Context (kp K phys n : Z) (own0 : gmap Z Owner) (s0 : Machine).
Context (Hn : 0 <= n < 2 ^ 19 - 256) (Hp : 0 <= phys) (Hpm : phys mod 4096 = 0) (Hpe : phys + n * 4096 <= 2 ^ 52).

Record mapped_pages (k : Z) (own : gmap Z Owner) (s : Machine) : Prop := {
  mp_stable : kstable own0 s0 own s;
  mp_image : image own s kp;
  mp_last : 0 < k -> is_Some (kpt (ram s) kp (idx (KERNEL_IMAGE_BASE + (k - 1) * 4096) 30) (idx (KERNEL_IMAGE_BASE + (k - 1) * 4096) 21));
  mp_free : nfree s0 <= nfree s + 2 * regions k;
  mp_leaf : forall a b c, is_idx a -> is_idx b -> is_idx c -> kleaf (ram s) kp a b c = image_leaf phys k a b c;
}.

Lemma missing_range t : 0 <= missing t <= 1.
Proof. destruct t; cbn; lia. Qed.

Lemma regions_step k own s : 0 <= k < n -> mapped_pages k own s ->
  page_cost kp (ram s) (KERNEL_IMAGE_BASE + k * 4096) + 2 * regions k <= 2 * regions (k + 1).
Proof.
  intros Hk M. set (v := KERNEL_IMAGE_BASE + k * 4096). unfold page_cost, regions.
  pose proof (missing_range (child (ram s) kp (idx v 30))). pose proof (missing_range (kpt (ram s) kp (idx v 30) (idx v 21))).
  rewrite (proj2 (Z.eqb_neq (k + 1) 0)) by lia. replace (255 + (k + 1)) with (256 + k) by lia.
  destruct (Z.eqb_spec k 0) as [->|Hk0]; [change ((256 + 0) / 512) with 0; lia|].
  pose proof (Z.div_mod (256 + k) 512 ltac:(lia)) as D1. pose proof (Z.mod_pos_bound (256 + k) 512 ltac:(lia)) as D2.
  pose proof (Z.div_mod (255 + k) 512 ltac:(lia)) as D3. pose proof (Z.mod_pos_bound (255 + k) 512 ltac:(lia)) as D4.
  destruct (Z.eq_dec ((256 + k) / 512) ((255 + k) / 512)) as [E|E]; [|lia].
  destruct (mp_last _ _ _ M ltac:(lia)) as (pt & Hpt).
  destruct (image_idx k ltac:(lia)) as (_ & A1 & A2 & _). fold v in A1, A2.
  destruct (image_idx (k - 1) ltac:(lia)) as (_ & B1 & B2 & _). replace (256 + (k - 1)) with (255 + k) in B1, B2 by lia.
  assert ((256 + k) / 2 ^ 18 = (255 + k) / 2 ^ 18) as E18 by (change (2 ^ 18) with (512 * 512); rewrite <- !Z.div_div by lia; by rewrite E).
  rewrite B1, B2, <- E, <- E18, <- A1, <- A2 in Hpt. rewrite Hpt. apply bind_Some in Hpt as (pd & -> & _). cbn. lia.
Qed.

Context (HK : own0 !! K = Some (OKernel 0)) (E511 : ent (ram s0) K 511 = klink kp) (Hfree : 2 * regions n <= nfree s0).

Lemma regions_le k : 0 <= k <= n -> 0 <= regions k <= regions n.
Proof.
  intros Hk. unfold regions. pose proof (Z.div_pos (255 + k) 512 ltac:(lia) ltac:(lia)). pose proof (Z.div_pos (255 + n) 512 ltac:(lia) ltac:(lia)).
  destruct (Z.eqb_spec k 0), (Z.eqb_spec n 0); try lia. pose proof (Z.div_le_mono (255 + k) (255 + n) 512 ltac:(lia) ltac:(lia)). lia.
Qed.

Lemma map_image_step k own s : 0 <= k < n -> is_frame kp -> mapped_pages k own s ->
  exists own' s', map_page_in K (KERNEL_IMAGE_BASE + k * 4096) (phys +w k * 4096) {| writable := true; user := false; executable := true |} s = OOk tt s' /\
    mapped_pages (k + 1) own' s'.
Proof.
  intros Hk Hkp M. pose proof (regions_step k own s Hk M) as Hc. pose proof (regions_le (k + 1) ltac:(lia)) as Hr.
  destruct M as [M1 M2 M3 M4 M5]. set (v := KERNEL_IMAGE_BASE + k * 4096) in *. destruct (klink_spec kp Hkp) as (_ & _ & _ & _ & L5).
  destruct (image_idx k ltac:(lia)) as (I39 & _). fold v in I39. rewrite wrap64_small by (unfold U64; lia).
  destruct (map_image_page kp own s K v (phys + k * 4096)) as (own' & s' & E & S & I' & Hs & Hf & Hl); [done|by eapply lookup_weaken; [|apply M1]| |done|lia| |lia|].
  { rewrite <- E511. apply (ks_entry _ _ _ _ M1 K 0%nat 511 HK); [lia|split; lia|]. by rewrite E511. }
  { rewrite Z.add_mod, Hpm, Z.mod_mul by lia. done. }
  exists own', s'. split; [exact E|]. constructor; [by eapply kstable_trans|done| |lia|].
  - intros _. by replace (k + 1 - 1) with k by lia.
  - intros a b c Ha Hb Hcc. rewrite Hl, M5 by done. pose proof (page_number_idx k a b c ltac:(lia) Ha Hb Hcc) as Hpn. fold v in Hpn. cbv zeta in Hpn.
    unfold image_leaf. set (j := page_number a b c) in *. destruct (decide (a = idx v 30 /\ b = idx v 21 /\ c = idx v 12)) as [D|D].
    + apply Hpn in D as ->. rewrite (proj2 (Z.leb_le 0 k)), (proj2 (Z.ltb_lt k (k + 1))) by lia. done.
    + assert (j <> k) by (intros Ej; apply D, Hpn, Ej). destruct (Z.leb_spec 0 j), (Z.ltb_spec j k), (Z.ltb_spec j (k + 1)); done || lia.
Qed.

Lemma map_image : image own0 s0 kp -> (forall a, is_idx a -> ent (ram s0) kp a = 0) ->
  exists own s, forM (seqZ 0 n) (fun k => map_page_in K (KERNEL_IMAGE_BASE + k * 4096) (phys +w k * 4096)
                                             {| writable := true; user := false; executable := true |}) s0 = OOk tt s /\ mapped_pages n own s.
Proof.
  intros H Hz. assert (is_frame kp) as Hkp by (eapply wf_frame; apply H).
  match goal with |- context [forM _ ?g s0] => destruct (forM_seqZ_ok (fun k s => exists own, mapped_pages k own s) 0 n g s0) as (s & E & own & M) end;
    [lia| | |by exists own, s].
  - exists own0. constructor; [apply kstable_refl, H|done|lia|unfold regions; cbn -[nfree]; lia|]. intros a b c Ha Hb Hc. unfold kleaf, kpt.
    rewrite (child_empty _ _ _ (Hz a Ha)). cbn. unfold image_leaf. destruct (Z.leb_spec 0 (page_number a b c)), (Z.ltb_spec (page_number a b c) 0); done || lia.
  - intros k s1 Hk (own & M). destruct (map_image_step k own s1 ltac:(lia) Hkp M) as (own' & s' & E & M'). eauto.
Qed.
End Range.

(** ** The direct map and the identity map *)

Section Direct.
Context (K kp dm im : Z).

(** After [g] gigabytes. *)
Record direct (g : Z) (own : gmap Z Owner) (s : Machine) : Prop := {
  dr_tables : ktables own s;
  dr_K : own !! K = Some (OKernel 0);
  dr_kp : own !! kp = Some (OKernel 1);
  dr_dm : own !! dm = Some (OKernel 1);
  dr_im : own !! im = Some (OKernel 1);
  dr_apart : kp <> dm /\ kp <> im /\ dm <> im;
  dr_root : ent (ram s) K 511 = klink kp /\ ent (ram s) K 256 = klink dm /\ ent (ram s) K 0 = klink im;
  dr_kernel : forall a, is_idx a -> ent (ram s) kp a = 0;
  dr_rest : forall i, g <= i < 512 -> ent (ram s) dm i = 0 /\ ent (ram s) im i = 0;
  dr_done : forall i, 0 <= i < g -> exists pd, own !! pd = Some (OKernel 2) /\ ent (ram s) dm i = klink pd /\ ent (ram s) im i = klink pd /\
    forall j, is_idx j -> ent (ram s) pd j = huge_leaf ((i * 512 + j) * HUGE_PAGE_SIZE);
}.

(** The entries of the directory [pd]; nothing else changes. *)
Lemma fill_directory own s pd i : ktables own s -> own !! pd = Some (OKernel 2) -> 0 <= i < 4 ->
  exists s', forM (seqZ 0 512) (fun j => write_entry pd j ((i * 512 + j) * (2 * 1024 * 1024) .| PTE_PRESENT .| PTE_WRITABLE .| PTE_HUGE)) s = OOk tt s' /\
    ktables own s' /\ pmm s' = pmm s /\ (forall j, is_idx j -> ent (ram s') pd j = huge_leaf ((i * 512 + j) * HUGE_PAGE_SIZE)) /\
    (forall t o j, own !! t = Some o -> t <> pd -> is_idx j -> ent (ram s') t j = ent (ram s) t j).
Proof.
  intros H Hpd Hi. match goal with |- context [forM _ ?g s] =>
    destruct (forM_seqZ_ok (fun n s1 => ktables own s1 /\ pmm s1 = pmm s /\ (forall j, is_idx j -> j < n -> ent (ram s1) pd j = huge_leaf ((i * 512 + j) * HUGE_PAGE_SIZE)) /\
      (forall t o j, own !! t = Some o -> t <> pd -> is_idx j -> ent (ram s1) t j = ent (ram s) t j)) 0 512 g s) as (s' & E & H1 & H2 & H3 & H4) end;
    [lia| | |].
  - split_and!; [done|done| |done]. intros j Hj Hlt. unfold is_idx in Hj. lia.
  - intros j s1 Hj (K1 & P1 & D1 & O1). assert (is_idx j) as Ij by (split; lia). eexists. split; [reflexivity|].
    change (2 * 1024 * 1024) with HUGE_PAGE_SIZE. fold (huge_leaf ((i * 512 + j) * HUGE_PAGE_SIZE)).
    destruct (huge_leaf_spec ((i * 512 + j) * HUGE_PAGE_SIZE)) as (Q1 & Q2 & Q3 & Q4); [unfold HUGE_PAGE_SIZE; lia| |].
    { replace ((i * 512 + j) * HUGE_PAGE_SIZE) with ((i * 512 + j) * 512 * 4096) by (unfold HUGE_PAGE_SIZE; lia). by rewrite Z.mod_mul. }
    destruct (set_entry own s1 pd 2 j _ K1 Hpd Ij Q4) as [K2 Hent]; [intros _; split; [done|]; intros _; by left|].
    split_and!; [exact K2|exact P1| |].
    + intros x Hx Hlt. rewrite (Hent pd _ x Hpd Hx). case_decide as D; [by destruct D as [_ ->]|]. apply D1; [done|]. assert (x <> j) by naive_solver. lia.
    + intros t o x Ht Hne Hx. rewrite (Hent t _ x Ht Hx), decide_False by (by intros [-> _]). exact (O1 t o x Ht Hne Hx).
  - exists s'. split_and!; [exact E|exact H1|exact H2| |exact H4]. intros j Hj. apply H3; [done|]. unfold is_idx in Hj. lia.
Qed.

Lemma init_gigabyte_spec g own s : 0 <= g < 4 -> direct g own s -> 0 < nfree s ->
  exists own' s', init_gigabyte dm im g s = OOk tt s' /\ direct (g + 1) own' s' /\ nfree s' = nfree s - 1.
Proof.
  intros Hg [D1 D2 D3 D4 D5 (A1 & A2 & A3) (R1 & R2 & R3) D6 D7 D8] Hn.
  assert (is_idx g) as Ig by (split; lia). assert (is_idx 511 /\ is_idx 256 /\ is_idx 0) as (I5 & I2 & I0) by (split_and!; split; lia).
  destruct (alloc_kernel own s 2 D1 Hn) as (pd & s1 & E1 & Hpd0 & Hpdf & Hfresh & S1 & Z1 & O1 & N1).
  set (own1 := <[pd := OKernel 2]> own) in *. assert (own ⊆ own1) as Hsub by apply S1.
  assert (forall t o, own !! t = Some o -> own1 !! t = Some o) as W by (intros t o Ht; by eapply lookup_weaken).
  assert (own1 !! pd = Some (OKernel 2)) as Hpd by apply lookup_insert_eq.
  destruct (klink_spec pd Hpdf) as (L1 & L2 & L3 & L4 & L5).
  assert (kernel_link own1 2 (klink pd)) as Hlink by (intros _; right; by rewrite L3).
  destruct (set_entry own1 s1 dm 1 g (klink pd) (ks_tables _ _ _ _ S1) (W _ _ D4) Ig L4 ltac:(done)) as [K2 O2]. set (s2 := set_ram _ s1) in *.
  destruct (set_entry own1 s2 im 1 g (klink pd) K2 (W _ _ D5) Ig L4 ltac:(done)) as [K3 O3]. set (s3 := set_ram _ s2) in *.
  destruct (fill_directory own1 s3 pd g K3 Hpd Hg) as (s4 & E4 & K4 & P4 & F4 & O4).
  assert (forall t o j, own !! t = Some o -> is_idx j -> ent (ram s4) t j =
    if decide ((t = dm \/ t = im) /\ j = g) then klink pd else ent (ram s) t j) as Hent.
  { intros t o j Ht Hj. assert (t <> pd) by congruence.
    rewrite (O4 t o j (W _ _ Ht)), (O3 t o j (W _ _ Ht)), (O2 t o j (W _ _ Ht)), (O1 t o j Ht) by done. clear. repeat case_decide; try reflexivity; exfalso; tauto. }
  exists own1, s4. split_and!.
  - unfold init_gigabyte. rewrite (bind_ok _ _ s pd s1) by (unfold alloc_table; rewrite (bind_ok _ _ _ _ _ E1); by rewrite (proj2 (Z.eqb_neq pd 0) Hpd0)).
    rewrite klink_eq. rewrite (bind_ok _ _ s1 tt s2) by done. rewrite (bind_ok _ _ s2 tt s3) by done. exact E4.
  - constructor; [done|by apply W..|done| | | |].
    + rewrite !(Hent K _ _ D2) by done. rewrite !decide_False by (intros [[-> | ->] _]; congruence). done.
    + intros a Ha. rewrite (Hent kp _ a D3 Ha), decide_False by (intros [[?|?] _]; done). by apply D6.
    + intros i Hi. assert (is_idx i) by (split; lia). rewrite (Hent dm _ i D4), (Hent im _ i D5) by done. rewrite !decide_False by (intros [_ ->]; lia). apply D7. lia.
    + intros i Hi. assert (is_idx i) as Ii by (split; lia). rewrite (Hent dm _ i D4 Ii), (Hent im _ i D5 Ii). destruct (decide (i = g)) as [->|Hne].
      * exists pd. rewrite !decide_True by auto. split_and!; [done|done|done|done].
      * destruct (D8 i ltac:(lia)) as (pd' & P1 & P2 & P3 & P5). exists pd'. rewrite !decide_False by (by intros [_ ->]).
        split_and!; [by apply W|done|done|]. intros j Hj. rewrite (Hent pd' _ j P1 Hj), decide_False by (intros [[-> | ->] _]; congruence). by apply P5.
  - unfold nfree in *. rewrite P4. change (pmm s3) with (pmm s1). lia.
Qed.
End Direct.

(** ** A framebuffer above four gigabytes *)

Lemma huge_bits x : is_u64 x -> present (huge_leaf x) = true /\ huge (huge_leaf x) = true /\ is_u64 (huge_leaf x).
Proof.
  intros [H0 H1]. unfold huge_leaf. rewrite <- !Z.lor_assoc. change (PTE_PRESENT .| (PTE_WRITABLE .| PTE_HUGE)) with 131.
  rewrite present_testbit, huge_testbit, !Z.lor_spec. split_and!; [apply orb_true_r|apply orb_true_r|].
  unfold is_u64, U64 in *. apply lor_range; lia.
Qed.

(** One page of two megabytes. *)
Lemma map_huge own s K i4 i3 i2 x : ktables own s -> own !! K = Some (OKernel 0) -> is_idx i4 -> is_idx i3 -> is_idx i2 -> is_u64 x -> 2 <= nfree s ->
  exists own' s', (ensure_entry (slot K i4) 0 ;;;
    let* pml4e := rd64 (slot K i4) in
    ensure_entry (slot (pml4e & not64 0xFFF) i3) 0 ;;;
    let* pdpte := rd64 (slot (pml4e & not64 0xFFF) i3) in
    wr64 (slot (pdpte & not64 0xFFF) i2) (x .| PTE_PRESENT .| PTE_WRITABLE .| PTE_HUGE)) s = OOk tt s' /\
    ktables own' s' /\ own ⊆ own' /\ nfree s <= nfree s' + 2.
Proof.
  intros H HK I4 I3 I2 Hx Hn.
  destruct (ensure_kernel own s K 0 i4 H HK ltac:(lia) I4 ltac:(lia)) as (own1 & s1 & E1 & S1 & P1 & _ & C1).
  assert (nfree s <= nfree s1 + 1) as N1 by (destruct (ent (ram s) K i4 =? 0); [destruct C1 as (a & _ & _ & _ & _ & _ & C1); lia|destruct C1 as [_ ->]; lia]).
  pose proof (lookup_weaken _ _ _ _ HK (ks_sub _ _ _ _ S1)) as HK1. pose proof (ks_tables _ _ _ _ S1) as T1.
  set (pdpt := child_of (ent (ram s1) K i4)). assert (own1 !! pdpt = Some (OKernel 1)) as Hp.
  { apply (kchild_owned own1 s1 K 0 i4 pdpt T1 HK1 ltac:(lia) I4); [by apply child_Some|right; lia]. }
  destruct (ensure_kernel own1 s1 pdpt 1 i3 T1 Hp ltac:(lia) I3 ltac:(lia)) as (own2 & s2 & E2 & S2 & P2 & _ & C2).
  assert (nfree s1 <= nfree s2 + 1) as N2 by (destruct (ent (ram s1) pdpt i3 =? 0); [destruct C2 as (a & _ & _ & _ & _ & _ & C2); lia|destruct C2 as [_ ->]; lia]).
  pose proof (lookup_weaken _ _ _ _ Hp (ks_sub _ _ _ _ S2)) as Hp2. pose proof (ks_tables _ _ _ _ S2) as T2.
  set (pd := child_of (ent (ram s2) pdpt i3)). assert (own2 !! pd = Some (OKernel 2)) as Hd.
  { apply (kchild_owned own2 s2 pdpt 1 i3 pd T2 Hp2 ltac:(lia) I3); [by apply child_Some|right; lia]. }
  destruct (huge_bits x Hx) as (B1 & B2 & B3).
  destruct (set_entry own2 s2 pd 2 i2 (huge_leaf x) T2 Hd I2 B3) as [T3 _]; [intros _; split; [done|]; intros _; by left|].
  exists own2, (set_ram (write64 (ram s2) (slot pd i2) (huge_leaf x)) s2). split_and!; [|done| |].
  - rewrite (bind_ok _ _ _ _ _ E1). rewrite (bind_ok _ _ s1 (ent (ram s1) K i4) s1) by done. fold (child_of (ent (ram s1) K i4)). fold pdpt.
    rewrite (bind_ok _ _ _ _ _ E2). rewrite (bind_ok _ _ s2 (ent (ram s2) pdpt i3) s2) by done. fold (child_of (ent (ram s2) pdpt i3)). fold pd. done.
  - etrans; [apply S1|apply S2].
  - change (nfree (set_ram _ s2)) with (nfree s2). lia.
Qed.

(** The pages of two megabytes that [map_range_2mb] maps. *)
Definition huge_pages (virt_start size : Z) : Z :=
  let two_mb := 2 * 1024 * 1024 in
  (((virt_start +w size +w two_mb -w 1) & not64 (two_mb - 1)) - (virt_start & not64 (two_mb - 1))) / two_mb.

Lemma map_range_2mb_spec own s K virt phys size : ktables own s -> own !! K = Some (OKernel 0) -> 2 * Z.max 0 (huge_pages virt size) <= nfree s ->
  exists own' s', map_range_2mb K virt phys size s = OOk tt s' /\ ktables own' s' /\ own ⊆ own'.
Proof.
  intros H HK Hn. unfold map_range_2mb. cbv zeta. fold (huge_pages virt size). set (c := huge_pages virt size) in *.
  destruct (Z.le_gt_cases c 0) as [Hc|Hc].
  { rewrite seqZ_nil by lia. exists own, s. split_and!; [done|done|done]. }
  match goal with |- context [forM _ ?g s] =>
    destruct (forM_seqZ_ok (fun n s1 => exists own1, ktables own1 s1 /\ own ⊆ own1 /\ nfree s <= nfree s1 + 2 * n) 0 c g s) as (s' & E & own' & H1 & H2 & _) end;
    [lia| | |by exists own', s'].
  - exists own. split_and!; [done|done|lia].
  - intros k s1 Hk (own1 & K1 & Hsub & N1). cbv beta.
    destruct (map_huge own1 s1 K (idx ((virt & not64 (2 * 1024 * 1024 - 1)) + k * (2 * 1024 * 1024)) 39)
      (idx ((virt & not64 (2 * 1024 * 1024 - 1)) + k * (2 * 1024 * 1024)) 30) (idx ((virt & not64 (2 * 1024 * 1024 - 1)) + k * (2 * 1024 * 1024)) 21)
      ((phys & not64 (2 * 1024 * 1024 - 1)) +w k * (2 * 1024 * 1024)) K1 (lookup_weaken _ _ _ _ HK Hsub)) as (own2 & s2 & E2 & K2 & Hs2 & N2);
      [apply idx_is_idx; lia..|apply wrap64_range|lia|].
    exists s2. split; [exact E2|]. exists own2. split_and!; [done|by etrans|lia].
Qed.

(** ** The whole initialisation *)

Lemma new_table own s l : ktables own s -> 0 < nfree s ->
  exists a s', alloc_table s = OOk a s' /\ is_frame a /\ own !! a = None /\
    kstable own s (<[a := OKernel l]> own) s' /\ (forall i, is_idx i -> ent (ram s') a i = 0) /\
    (forall t o i, own !! t = Some o -> is_idx i -> ent (ram s') t i = ent (ram s) t i) /\ nfree s' = nfree s - 1.
Proof.
  intros H Hn. destruct (alloc_kernel own s l H Hn) as (a & s' & E & H0 & R). exists a, s'. split; [|exact R].
  unfold alloc_table. rewrite (bind_ok _ _ _ _ _ E). by rewrite (proj2 (Z.eqb_neq a 0) H0).
Qed.

Lemma set_link own s t l i a : ktables own s -> own !! t = Some (OKernel l) -> own !! a = Some (OKernel (S l)) -> is_idx i -> is_frame a ->
  exists s', write_entry t i (a .| PTE_PRESENT .| PTE_WRITABLE) s = OOk tt s' /\ ktables own s' /\ nfree s' = nfree s /\
    (forall t' o j, own !! t' = Some o -> is_idx j -> ent (ram s') t' j = if decide (t' = t /\ j = i) then klink a else ent (ram s) t' j).
Proof.
  intros H Ht Ha Hi Hf. rewrite klink_eq. destruct (klink_spec a Hf) as (L1 & L2 & L3 & L4 & L5).
  destruct (set_entry own s t l i (klink a) H Ht Hi L4) as [K1 O1]; [intros _; split; [done|]; intros _; right; by rewrite L3|].
  eexists. split; [reflexivity|]. split_and!; [exact K1|done|exact O1].
Qed.

(** The root and its three tables. *)
Lemma root_tables s : ktables ∅ s -> 4 <= nfree s ->
  exists K kp dm im own s', direct K kp dm im 0 own s' /\ nfree s' = nfree s - 4 /\
    forall (k : Z -> Z -> Z -> M Machine unit),
      (let* pml4 := alloc_table in let* k_pdpt := alloc_table in let* dm_pdpt := alloc_table in let* id_pdpt := alloc_table in
       write_entry pml4 511 (k_pdpt .| PTE_PRESENT .| PTE_WRITABLE) ;;;
       write_entry pml4 256 (dm_pdpt .| PTE_PRESENT .| PTE_WRITABLE) ;;;
       write_entry pml4 0 (id_pdpt .| PTE_PRESENT .| PTE_WRITABLE) ;;; k pml4 dm_pdpt id_pdpt) s = k K dm im s'.
Proof.
  intros H Hn. assert (is_idx 511 /\ is_idx 256 /\ is_idx 0) as (I5 & I2 & I0) by (split_and!; split; lia).
  destruct (new_table ∅ s 0 H ltac:(lia)) as (K & s1 & E1 & F1 & A1 & S1 & Z1 & _ & N1). set (o1 := <[K := OKernel 0]> ∅) in *.
  destruct (new_table o1 s1 1 (ks_tables _ _ _ _ S1) ltac:(lia)) as (kp & s2 & E2 & F2 & A2 & S2 & Z2 & _ & N2). set (o2 := <[kp := OKernel 1]> o1) in *.
  destruct (new_table o2 s2 1 (ks_tables _ _ _ _ S2) ltac:(lia)) as (dm & s3 & E3 & F3 & A3 & S3 & Z3 & O3 & N3). set (o3 := <[dm := OKernel 1]> o2) in *.
  destruct (new_table o3 s3 1 (ks_tables _ _ _ _ S3) ltac:(lia)) as (im & s4 & E4 & F4 & A4 & S4 & Z4 & O4 & N4). set (o4 := <[im := OKernel 1]> o3) in *.
  assert (o1 !! K = Some (OKernel 0)) as K1 by apply lookup_insert_eq. assert (o2 !! kp = Some (OKernel 1)) as P2 by apply lookup_insert_eq.
  assert (o3 !! dm = Some (OKernel 1)) as D3 by apply lookup_insert_eq. assert (o4 !! im = Some (OKernel 1)) as J4 by apply lookup_insert_eq.
  pose proof (ks_sub _ _ _ _ S2) as U2. pose proof (ks_sub _ _ _ _ S3) as U3. pose proof (ks_sub _ _ _ _ S4) as U4.
  assert (o4 !! K = Some (OKernel 0)) as K4 by eauto using lookup_weaken. assert (o4 !! kp = Some (OKernel 1)) as P4 by eauto using lookup_weaken.
  assert (o4 !! dm = Some (OKernel 1)) as D4 by eauto using lookup_weaken. assert (o3 !! kp = Some (OKernel 1)) as P3 by eauto using lookup_weaken.
  destruct (set_link o4 s4 K 0 511 kp (ks_tables _ _ _ _ S4) K4 P4 I5 F2) as (s5 & E5 & T5 & N5 & O5).
  destruct (set_link o4 s5 K 0 256 dm T5 K4 D4 I2 F3) as (s6 & E6 & T6 & N6 & O6).
  destruct (set_link o4 s6 K 0 0 im T6 K4 J4 I0 F4) as (s7 & E7 & T7 & N7 & O7).
  assert (forall t i, o4 !! t = Some (OKernel 1) -> is_idx i -> ent (ram s7) t i = ent (ram s4) t i) as Hsame.
  { intros t i Ht Hi. rewrite (O7 t _ i Ht Hi), (O6 t _ i Ht Hi), (O5 t _ i Ht Hi), !decide_False by (intros [-> _]; congruence). done. }
  exists K, kp, dm, im, o4, s7. split_and!.
  - constructor; [done|done|done|done|done|split_and!; congruence| | | |lia].
    + rewrite !(O7 K _ _ K4), !(O6 K _ _ K4), !(O5 K _ _ K4) by done. repeat case_decide; naive_solver.
    + intros a Ha. rewrite (Hsame kp a P4 Ha), (O4 kp _ a P3 Ha), (O3 kp _ a P2 Ha). by apply Z2.
    + intros i Hi. assert (is_idx i) as Ii by (split; lia). rewrite (Hsame dm i D4 Ii), (Hsame im i J4 Ii), (O4 dm _ i D3 Ii). auto.
  - lia.
  - intros k. by rewrite (bind_ok _ _ _ _ _ E1), (bind_ok _ _ _ _ _ E2), (bind_ok _ _ _ _ _ E3), (bind_ok _ _ _ _ _ E4), (bind_ok _ _ _ _ _ E5), (bind_ok _ _ _ _ _ E6), (bind_ok _ _ _ _ _ E7).
Qed.

Lemma four_gigabytes K kp dm im own s : direct K kp dm im 0 own s -> 4 <= nfree s ->
  exists own' s', forM (seqZ 0 4) (init_gigabyte dm im) s = OOk tt s' /\ direct K kp dm im 4 own' s' /\ nfree s' = nfree s - 4.
Proof.
  intros D Hn. destruct (forM_seqZ_ok (fun g s1 => exists own1, direct K kp dm im g own1 s1 /\ nfree s1 = nfree s - g) 0 4 (init_gigabyte dm im) s)
    as (s' & E & own' & D' & N'); [lia|exists own; split; [done|lia]| |by exists own', s'].
  intros g s1 Hg (own1 & D1 & N1). destruct (init_gigabyte_spec K kp dm im g own1 s1 ltac:(lia) D1 ltac:(lia)) as (own2 & s2 & E2 & D2 & N2).
  exists s2. split; [done|]. exists own2. split; [done|lia].
Qed.

(** An address below four gigabytes, through either of the two maps. *)
Lemma direct_translates K kp dm im own s own' s' v p : direct K kp dm im 4 own s -> kstable own s own' s' -> 0 <= p < 2 ^ 32 ->
  v = PHYSICAL_OFFSET + p \/ v = p -> translate_page (ram s') K v = Some p.
Proof.
  intros D S Hp Hv. destruct (high_indices p ltac:(lia)) as (H4 & H3 & H2 & _ & M2 & _). destruct (address_digits p ltac:(lia)) as (Da & Db & Dc & Dd & Dm & Dw).
  assert (p / 2 ^ 39 = 0) as E39 by (apply Z.div_small; lia). rewrite E39 in *.
  set (i := p / 2 ^ 30 mod 512) in *. set (j := p / 2 ^ 21 mod 512) in *. set (d := p / 2 ^ 12 mod 512) in *.
  assert (exists r t, is_idx r /\ own !! t = Some (OKernel 1) /\ ent (ram s) K r = klink t /\ idx v 39 = r /\ idx v 30 = i /\ idx v 21 = j /\ v mod HUGE_PAGE_SIZE = p mod HUGE_PAGE_SIZE /\
    (t = dm \/ t = im)) as (r & t & Ir & Ht & Er & I4 & I3 & I2 & Em & Ht').
  { destruct (dr_root _ _ _ _ _ _ _ D) as (_ & R2 & R3). destruct Hv as [-> | ->].
    - exists 256, dm. split_and!; [split; lia|apply D|done|lia|done|done|done|by left].
    - exists 0, im. rewrite !idx_mod by lia. split_and!; [split; lia|apply D|done|by rewrite E39|done|done|done|by right]. }
  pose proof (Z.mod_pos_bound p 4096 ltac:(lia)) as Hlow.
  destruct (dr_done _ _ _ _ _ _ _ D i ltac:(lia)) as (pd & Hpd & L1 & L2 & Hl). assert (ent (ram s) t i = klink pd) as Lt by (destruct Ht' as [-> | ->]; done).
  assert (forall t o, own !! t = Some o -> is_frame t) as Hfr by (intros t' o; exact (wf_frame _ _ (kt_wf _ _ (dr_tables _ _ _ _ _ _ _ D)) t' o)).
  pose proof (ks_entry _ _ _ _ S) as Hst. assert (is_idx i /\ is_idx j) as [Ii Ij] by (split; split; lia).
  assert (0 <= (i * 512 + j) * HUGE_PAGE_SIZE < 2 ^ 52) as Hb by (unfold HUGE_PAGE_SIZE; lia).
  destruct (huge_leaf_spec ((i * 512 + j) * HUGE_PAGE_SIZE) Hb) as (Q1 & Q2 & Q3 & Q4).
  { replace ((i * 512 + j) * HUGE_PAGE_SIZE) with ((i * 512 + j) * 512 * 4096) by (unfold HUGE_PAGE_SIZE; lia). by rewrite Z.mod_mul. }
  assert (ent (ram s') pd j = huge_leaf ((i * 512 + j) * HUGE_PAGE_SIZE)) as Ej.
  { rewrite (Hst pd 2%nat j Hpd), Hl by (done || lia || (rewrite Hl by done; intros E; rewrite E in Q1; done)). done. }
  rewrite translate_child, I4, I3, I2. rewrite (child_klink (ram s') K r t); [|eauto|].
  2:{ rewrite (Hst K 0%nat r), Er; [done|apply D|lia|done|]. rewrite Er. by apply klink_spec; eauto. }
  rewrite (child_klink (ram s') t i pd); [|eauto|].
  2:{ rewrite (Hst t 1%nat i), Lt; [done|done|lia|done|]. rewrite Lt. by apply klink_spec; eauto. }
  rewrite Ej, Q1, Q2, Q3. f_equal.
  change (2 * 1024 * 1024 - 1) with (2 ^ 21 - 1). rewrite land_ones_mod by lia. change (2 ^ 21) with HUGE_PAGE_SIZE. rewrite Em, Dm.
  rewrite wrap64_small by (unfold HUGE_PAGE_SIZE, U64 in *; lia). unfold HUGE_PAGE_SIZE. lia.
Qed.

(** A page of the image at its link address. *)
Lemma image_translates K kp phys n own0 s0 own s k : mapped_pages kp phys own0 s0 n own s -> own0 !! K = Some (OKernel 0) -> ent (ram s0) K 511 = klink kp ->
  is_frame kp -> 0 <= n < 2 ^ 19 - 256 -> 0 <= phys -> phys mod 4096 = 0 -> phys + n * 4096 <= 2 ^ 52 -> 0 <= k < n ->
  translate_page (ram s) K (KERNEL_IMAGE_BASE + k * 4096) = Some (phys + k * 4096).
Proof.
  intros M HK E511 Hkp Hn Hp Hpm Hpe Hk. set (v := KERNEL_IMAGE_BASE + k * 4096). destruct (klink_spec kp Hkp) as (_ & _ & _ & _ & L5).
  assert (is_idx (idx v 30) /\ is_idx (idx v 21) /\ is_idx (idx v 12)) as (Ia & Ib & Ic) by (split_and!; apply idx_is_idx; lia).
  destruct (image_page_spec (phys + k * 4096)) as (P1 & P2 & _); [lia|by rewrite Z.add_mod, Hpm, Z.mod_mul by lia|].
  pose proof (mp_leaf _ _ _ _ _ _ _ M _ _ _ Ia Ib Ic) as Hl. unfold image_leaf in Hl.
  rewrite (proj1 (page_number_idx k _ _ _ ltac:(lia) Ia Ib Ic)) in Hl by done.
  rewrite (proj2 (Z.leb_le 0 k)), (proj2 (Z.ltb_lt k n)) in Hl by lia. cbn [andb] in Hl. unfold kleaf, kpt in Hl.
  set (e := image_page (phys + k * 4096)) in *. clearbody e.
  assert (child (ram s) K (idx v 39) = Some kp) as C1.
  { destruct (image_idx k ltac:(lia)) as (I39 & _). fold v in I39. rewrite I39. apply child_klink; [done|].
    rewrite <- E511. apply (ks_entry _ _ _ _ (mp_stable _ _ _ _ _ _ _ M) K 0%nat 511 HK); [lia|split; lia|]. by rewrite E511. }
  destruct (child (ram s) kp (idx v 30)) as [pd|] eqn:C2; [|cbn in Hl; rewrite <- Hl in P1; done].
  destruct (child (ram s) pd (idx v 21)) as [pt|] eqn:C3; [|cbn in Hl; rewrite C3 in Hl; cbn in Hl; rewrite <- Hl in P1; done].
  cbn [mbind option_bind] in Hl. rewrite C3 in Hl. cbn [from_option] in Hl.
  pose proof (im_small _ _ _ (mp_image _ _ _ _ _ _ _ M) _ pd _ Ia Ib C2) as Hsm.
  pose proof (proj1 (proj1 (child_Some _ _ _ _) C3)) as Hpr.
  rewrite translate_child, pte_ptr_child, C1, C2, C3, Hpr, Hsm. fold (ent (ram s) pt (idx v 12)). by rewrite Hl, P1, P2.
Qed.

(** The pages of the framebuffer that need tables of their own. *)
Definition fb_pages (bi : CoreOS_BootInfo) : Z :=
  if 4 * 1024 * 1024 * 1024 <=? v2p (fb_base bi) then Z.max 0 (huge_pages (fb_base bi) (fb_size bi)) else 0.

(** The number of pages [map_range_4k] maps at the image's address. *)
Lemma image_range n : 0 <= n < 2 ^ 19 - 256 -> ((KERNEL_IMAGE_BASE +w n *w 0x1000) - KERNEL_IMAGE_BASE) / 0x1000 = n.
Proof.
  intros Hn. rewrite (wrap64_small (n * 0x1000)) by (unfold U64; lia).
  rewrite (wrap64_small (KERNEL_IMAGE_BASE + _)) by (unfold KERNEL_IMAGE_BASE, U64; lia).
  rewrite Z.add_simpl_l. apply Z.div_mul. lia.
Qed.

Lemma empty_image own s kp : ktables own s -> own !! kp = Some (OKernel 1) -> (forall a, is_idx a -> ent (ram s) kp a = 0) -> image own s kp.
Proof.
  intros H Hk Hz. assert (forall a, is_idx a -> child (ram s) kp a = None) as Hc by (intros a Ha; by apply child_empty, Hz).
  constructor; [done|done|intros a pd b Ha _; by rewrite Hc|intros a a' pd Ha _; by rewrite Hc|].
  intros a b a' b' pt Ha _ _ _. unfold kpt. by rewrite Hc.
Qed.

Lemma ktables_empty s : pt_wf ∅ s -> ktables ∅ s.
Proof. intros H. constructor; [done|]. intros t l i Ht. by rewrite lookup_empty in Ht. Qed.

(** [paging::init] on a machine with enough free frames: it succeeds, the
    new root is the active one, and the tables satisfy the ownership
    invariant that the theorems about address spaces assume.  With the
    framebuffer below four gigabytes, every physical address below four
    gigabytes is reached both at its own address and at [PHYSICAL_OFFSET],
    and every page of the kernel image at its link address. *)
Lemma paging_init_correct bi s0 :
  let n := div_ceil (kernel_alloc_size bi) 0x1000 in
  pt_wf ∅ s0 -> 0 <= n < 2 ^ 19 - 256 -> 0 <= kernel_phys_base bi -> kernel_phys_base bi mod 4096 = 0 -> kernel_phys_base bi + n * 4096 <= 2 ^ 52 ->
  8 + 2 * regions n + 2 * fb_pages bi <= nfree s0 ->
  exists own s, init bi s0 = OOk tt s /\ pt_wf own s /\ own !! kernel_pml4 s = Some (OKernel 0) /\ cr3 s = kernel_pml4 s /\
    (v2p (fb_base bi) < 2 ^ 32 ->
      (forall p, 0 <= p < 2 ^ 32 -> translate_page (ram s) (kernel_pml4 s) (PHYSICAL_OFFSET + p) = Some p /\ translate_page (ram s) (kernel_pml4 s) p = Some p) /\
      (forall k, 0 <= k < n -> translate_page (ram s) (kernel_pml4 s) (KERNEL_IMAGE_BASE + k * 4096) = Some (kernel_phys_base bi + k * 4096))).
Proof.
  intros n Hwf Hn Hp Hpm Hpe Hfree. assert (0 <= regions n) as Hr by (unfold regions; pose proof (Z.div_pos (255 + n) 512); case_goal; lia).
  assert (0 <= fb_pages bi) as Hfb by (unfold fb_pages; case_goal; lia).
  destruct (root_tables s0 (ktables_empty s0 Hwf) ltac:(lia)) as (K & kp & dm & im & own1 & s1 & D1 & N1 & E1).
  destruct (four_gigabytes K kp dm im own1 s1 D1 ltac:(lia)) as (own2 & s2 & E2 & D2 & N2).
  destruct (dr_root _ _ _ _ _ _ _ D2) as (R511 & _). pose proof (dr_K _ _ _ _ _ _ _ D2) as HK.
  destruct (map_image kp K (kernel_phys_base bi) n own2 s2 Hn Hp Hpm Hpe HK R511 ltac:(lia)) as (own3 & s3 & E3 & M3); [apply empty_image; apply D2|apply D2|].
  pose proof (mp_stable _ _ _ _ _ _ _ M3) as S3. pose proof (ks_tables _ _ _ _ S3) as T3. pose proof (lookup_weaken _ _ _ _ HK (ks_sub _ _ _ _ S3)) as HK3.
  pose proof (mp_free _ _ _ _ _ _ _ M3) as N3.
  assert (exists own s, (if 4 * 1024 * 1024 * 1024 <=? v2p (fb_base bi) then map_range_2mb K (fb_base bi) (v2p (fb_base bi)) (fb_size bi) else retM tt) s3 = OOk tt s /\
    ktables own s /\ own3 ⊆ own /\ (v2p (fb_base bi) < 2 ^ 32 -> s = s3)) as (own & s4 & E4 & T4 & U4 & Q4).
  { unfold fb_pages in *. destruct (Z.leb_spec (4 * 1024 * 1024 * 1024) (v2p (fb_base bi))); [|by exists own3, s3].
    destruct (map_range_2mb_spec own3 s3 K (fb_base bi) (v2p (fb_base bi)) (fb_size bi) T3 HK3 ltac:(lia)) as (own & s & ? & ? & ?).
    exists own, s. split_and!; [done|done|done|lia]. }
  exists own, (set_cr3 K (set_kernel_pml4 K s4)). split_and!; [| |by eapply lookup_weaken|done|].
  - unfold init. rewrite E1, (bind_ok _ _ _ _ _ E2). unfold map_range_4k. fold n. rewrite (image_range n Hn), (bind_ok _ _ _ _ _ E3), (bind_ok _ _ _ _ _ E4). done.
  - destruct (kt_wf _ _ T4). by split.
  - intros Hlow. rewrite (Q4 Hlow). cbn [set_cr3 set_kernel_pml4 kernel_pml4 ram]. split.
    + intros p Hpp. split; (eapply direct_translates; [exact D2|exact S3|exact Hpp|auto]).
    + intros k Hk. eapply image_translates; eauto. eapply wf_frame; [apply D2|apply D2].
Qed.
