(* ===== verification/UserImage.v ===== *)
(** * What a program finds in its address space

    [ubyte m r v] is the byte at user address [v] of the address space with
    root [r], through its page tables.  The operations that build a new
    address space - a fresh zeroed page, bytes copied through the direct map
    - are described by what they do to these bytes: [repainted] says that the
    address space now reads as a given function and that no other address
    space and no kernel address changed. *)

From S2P Require Import Prelude Mem Update Result Boot Pmm Paging PageTables AddressSpace.

Definition ubyte (m : Mem) (r v : Z) : option Z :=
  match translate_page m r v with
  | Some frame => Some (m (p2v frame + v mod 4096))
  | None => None
  end.

(** ** Images: partial memories *)

Definition Image : Type := Z -> option Z.

(** [bs] at [v]. *)
Definition overlay (f : Image) (v : Z) (bs : list Z) : Image := fun v' =>
  if (v <=? v') && (v' <? v + Z.of_nat (length bs)) then zget bs (v' - v) else f v'.

(** The pages of [a, b) that are not there yet read as zero. *)
Definition zeroed (f : Image) (a b : Z) : Image := fun v' =>
  if (a <=? v') && (v' <? b) then Some (default 0 (f v')) else f v'.

(** The pages of [a, b) are new and zero. *)
Definition wiped (f : Image) (a b : Z) : Image := fun v => if (a <=? v) && (v <? b) then Some 0 else f v.

Lemma overlay_app f v bs1 bs2 v' : 0 <= v ->
  overlay (overlay f v bs1) (v + Z.of_nat (length bs1)) bs2 v' = overlay f v (bs1 ++ bs2) v'.
Proof.
  intros Hv. unfold overlay. rewrite length_app, Nat2Z.inj_add.
  destruct (Z.leb_spec v v'), (Z.ltb_spec v' (v + Z.of_nat (length bs1))), (Z.leb_spec (v + Z.of_nat (length bs1)) v'),
    (Z.ltb_spec v' (v + Z.of_nat (length bs1) + Z.of_nat (length bs2))),
    (Z.ltb_spec v' (v + (Z.of_nat (length bs1) + Z.of_nat (length bs2)))); try lia; cbn [andb]; try done.
  - unfold zget. rewrite (proj2 (Z.leb_le 0 (v' - v))) by lia. by rewrite lookup_app_l by lia.
  - unfold zget. rewrite !(proj2 (Z.leb_le 0 _)) by lia. rewrite lookup_app_r by lia.
    by rewrite Z.sub_add_distr, Z2Nat.inj_sub, Nat2Z.id by lia.
Qed.

Lemma overlay_nil f v v' : overlay f v [] v' = f v'.
Proof.
  unfold overlay. change (Z.of_nat (length [])) with 0. rewrite Z.add_0_r.
  destruct (Z.leb_spec v v'), (Z.ltb_spec v' v); try lia; done.
Qed.

Lemma overlay_ext f g v bs v' : (forall v, f v = g v) -> overlay f v bs v' = overlay g v bs v'.
Proof. intros H. unfold overlay. by rewrite H. Qed.

Lemma zeroed_app f a c b v' : a <= c <= b -> zeroed (zeroed f a c) c b v' = zeroed f a b v'.
Proof.
  intros H. unfold zeroed.
  destruct (Z.leb_spec a v'), (Z.ltb_spec v' b), (Z.leb_spec c v'), (Z.ltb_spec v' c); try lia; cbn [andb default]; done.
Qed.

(** ** Leaf entries and changes elsewhere *)

Lemma upte_tables own s m' r v :
  pt_wf own s -> own !! r = Some (OUser r []) -> is_user v ->
  (forall t rt p i, own !! t = Some (OUser rt p) -> is_idx i -> ent m' t i = ent (ram s) t i) ->
  upte m' r v = upte (ram s) r v.
Proof.
  intros Hwf Hr Hv Hent. unfold upte. rewrite (descend_ext own s m' r [] r (upath v)); try done.
  - destruct (descend (ram s) r (upath v)) as [pt|] eqn:E; [|done].
    eapply (descend_owned own s r []) in E; eauto; [|by apply path_ok_upath]. eapply Hent; [exact E|]. apply idx_is_idx. lia.
  - by apply path_ok_upath.
  - intros y p' j Hy _ Hj _. by eapply Hent.
Qed.

Lemma ubyte_upte own s r v : pt_wf own s -> own !! r = Some (OUser r []) -> is_user v ->
  ubyte (ram s) r v =
  if present (upte (ram s) r v) then Some (ram s (p2v (frame_of (upte (ram s) r v)) + v mod 4096)) else None.
Proof. intros Hwf Hr Hv. unfold ubyte. rewrite (translate_upte own) by done. by case_goal. Qed.

(** ** An address space of its own *)

Section Space.
(** [own0]: the owners when the building of the address space [r] began. *)
Context (own0 : gmap Z Owner) (r : Z).
Context (Hroot : own0 !! r = Some (OUser r [])).

(** No frame of [r] is mapped twice, in [r] or in another address space. *)
Record space (own : gmap Z Owner) (s : Machine) : Prop := {
  sp_wf : pt_wf own s;
  sp_sub : own0 ⊆ own;
  sp_own : forall r' v v', own0 !! r' = Some (OUser r' []) -> is_user v -> is_user v' ->
    present (upte (ram s) r v) = true -> present (upte (ram s) r' v') = true ->
    frame_of (upte (ram s) r' v') = frame_of (upte (ram s) r v) -> r' = r /\ v' / 4096 = v / 4096;
}.

Record repainted (s : Machine) (own' : gmap Z Owner) (s' : Machine) (new : Image) (cost : Z) : Prop := {
  rp_space : space own' s';
  rp_bytes : forall v, is_user v -> ubyte (ram s') r v = new v;
  rp_other : forall r' v, own0 !! r' = Some (OUser r' []) -> r' <> r -> is_user v -> ubyte (ram s') r' v = ubyte (ram s) r' v;
  rp_kernel : forall r' v, own0 !! r' = Some (OUser r' []) -> 256 <= idx v 39 ->
    translate_page (ram s') r' v = translate_page (ram s) r' v;
  rp_regs : kernel_pml4 s' = kernel_pml4 s /\ cr3 s' = cr3 s;
  rp_free : nfree s <= nfree s' + cost;
}.

Lemma space_root own s r' : space own s -> own0 !! r' = Some (OUser r' []) -> own !! r' = Some (OUser r' []).
Proof. intros Hs Hr. exact (lookup_weaken _ _ _ _ Hr (sp_sub _ _ Hs)). Qed.

Lemma repainted_refl own s : space own s -> repainted s own s (ubyte (ram s) r) 0.
Proof. intros Hs. constructor; try done. lia. Qed.

Lemma repainted_trans s own1 s1 f c1 own2 s2 g c2 :
  repainted s own1 s1 f c1 -> repainted s1 own2 s2 g c2 -> repainted s own2 s2 g (c1 + c2).
Proof.
  intros [A1 A2 A3 A4 [A5 A6] A7] [B1 B2 B3 B4 [B5 B6] B7]. constructor; try done.
  - intros r' v Hr' Hne Hv. rewrite B3, A3 by done. done.
  - intros r' v Hr' Hv. rewrite B4, A4 by done. done.
  - split; congruence.
  - lia.
Qed.

Lemma repainted_ext s own' s' f g c c' : (forall v, is_user v -> f v = g v) -> c <= c' ->
  repainted s own' s' f c -> repainted s own' s' g c'.
Proof.
  intros Hfg Hc [A1 A2 A3 A4 A5 A6]. constructor; try done; [|lia]. intros v Hv. rewrite A2 by done. by apply Hfg.
Qed.

(** Mapped is the same as readable. *)
Lemma ubyte_mapped own s v : space own s -> is_user v ->
  translate_page (ram s) r v = None <-> ubyte (ram s) r v = None.
Proof. intros Hs Hv. unfold ubyte. by destruct (translate_page (ram s) r v). Qed.

(** ** A fresh page *)

Lemma frame_page_apart f g x : is_frame f -> is_frame g -> f <> g -> 0 <= x < 4096 ->
  p2v g + x < p2v f \/ p2v f + 4096 <= p2v g + x.
Proof. intros Hf Hg Hne Hx. pose proof (is_frame_apart f g Hf Hg Hne). rewrite !p2v_frame0 by done. lia. Qed.

(** A page of data changes: nothing else does. *)
Lemma data_page_changed own s d m' :
  space own s -> own !! d = Some OData -> mem_ok m' -> (forall t o, own !! t = Some o -> t <> d -> same_page (ram s) m' t) ->
  space own (set_ram m' s) /\
  (forall r' v, own !! r' = Some (OUser r' []) -> is_user v -> upte m' r' v = upte (ram s) r' v) /\
  (forall r' v, own !! r' = Some (OUser r' []) -> 256 <= idx v 39 -> translate_page m' r' v = translate_page (ram s) r' v).
Proof.
  intros Hs Hd Hm Hpage. destruct Hs as [Hwf Hsub Hown].
  assert (forall t o i, own !! t = Some o -> o <> OData -> is_idx i -> ent m' t i = ent (ram s) t i) as Hent.
  { intros t o i Ht Ho Hi. apply same_page_ent; [|exact (wf_frame _ _ Hwf _ _ Ht)|done]. eapply Hpage; [exact Ht|]. congruence. }
  assert (forall r' v, own !! r' = Some (OUser r' []) -> is_user v -> upte m' r' v = upte (ram s) r' v) as Hu.
  { intros r' v Hr' Hv. apply (upte_tables own); try done. intros t rt p i Ht. by apply (Hent t _ i Ht). }
  assert (forall r' v, own !! r' = Some (OUser r' []) -> 256 <= idx v 39 -> translate_page m' r' v = translate_page (ram s) r' v) as Hk.
  { intros r' v Hr' Hv. apply (kernel_translate own); try done; [intros t l i Ht; by apply (Hent t _ i Ht)|].
    intros t i Ht Hi. apply (Hent t _ i Ht); [done|]. split; lia. }
  split; [|done]. constructor; [by apply (pt_wf_data own s d)|done|]. cbn [ram set_ram].
  intros r' v v' Hr' Hv Hv'. rewrite !Hu by (done || exact (lookup_weaken _ _ _ _ Hr' Hsub) || exact (lookup_weaken _ _ _ _ Hroot Hsub)).
  by apply Hown.
Qed.

(** Bytes stored inside one frame. *)
Lemma store_in_frame m f g o x bs : is_frame f -> is_frame g -> 0 <= o -> o + Z.of_nat (length bs) <= 4096 -> 0 <= x < 4096 ->
  store_bytes m (p2v f + o) bs (p2v g + x) =
  if decide (g = f /\ o <= x < o + Z.of_nat (length bs)) then default 0 (zget bs (x - o)) else m (p2v g + x).
Proof.
  intros Hf Hg Ho Hl Hx. unfold store_bytes. destruct (decide (g = f)) as [->|Hne].
  - destruct (decide (o <= x < o + Z.of_nat (length bs))) as [Hin|Hout].
    + rewrite (proj2 (in_range_spec _ _ _)), decide_True by (done || lia). unfold zget. rewrite (proj2 (Z.leb_le _ _)) by lia.
      by replace (p2v f + x - (p2v f + o)) with (x - o) by lia.
    + rewrite (proj2 (in_range_false _ _ _)), decide_False by (lia || intros [_ ?]; lia). done.
  - rewrite decide_False by (by intros [? _]). rewrite (proj2 (in_range_false _ _ _)); [done|].
    destruct (frame_page_apart f g x Hf Hg ltac:(auto) Hx); lia.
Qed.

Lemma store_other_page m f t o bs : is_frame f -> is_frame t -> t <> f -> 0 <= o -> o + Z.of_nat (length bs) <= 4096 ->
  same_page m (store_bytes m (p2v f + o) bs) t.
Proof. intros Hf Ht Hne Ho Hl x Hx. rewrite store_in_frame by done. by rewrite decide_False by (by intros [? _]). Qed.

(** Bytes written into a mapped page. *)
Lemma write_chunk own s v frame bs :
  space own s -> is_user v -> translate_page (ram s) r v = Some frame -> v mod 4096 + Z.of_nat (length bs) <= 4096 ->
  Forall is_u8 bs ->
  repainted s own (set_ram (store_bytes (ram s) (p2v frame +w v mod 4096) bs) s) (overlay (ubyte (ram s) r) v bs) 0.
Proof.
  intros Hs Hv Htr Hl Hbs. pose proof (space_root own s r Hs Hroot) as Hr. pose proof (sp_wf _ _ Hs) as Hwf.
  pose proof (Z.mod_pos_bound v 4096 ltac:(lia)) as Hmod. pose proof Htr as Htr'. rewrite (translate_upte own) in Htr' by (done || apply Hwf).
  destruct (present (upte (ram s) r v)) eqn:Hp; [|done]. injection Htr' as Hfr.
  assert (own !! frame = Some OData) as Hd by (rewrite <- Hfr; by apply upte_data).
  pose proof (wf_frame _ _ Hwf _ _ Hd) as Hif.
  assert (p2v frame +w v mod 4096 = p2v frame + v mod 4096) as ->.
  { apply wrap64_small. rewrite p2v_frame0 by done. pose proof (is_frame_bounds frame Hif). unfold PHYSICAL_OFFSET, U64. lia. }
  set (m' := store_bytes _ _ _).
  destruct (data_page_changed own s frame m' Hs Hd) as (Hs' & Hu & Hk).
  { apply store_bytes_ok; [done|apply (wf_mem _ _ Hwf)]. }
  { intros t o Ht Hne. apply store_other_page; [done|exact (wf_frame _ _ Hwf _ _ Ht)|done|lia|lia]. }
  assert (forall r' v', own0 !! r' = Some (OUser r' []) -> is_user v' -> ubyte m' r' v' =
    if decide (r' = r /\ v <= v' < v + Z.of_nat (length bs)) then Some (default 0 (zget bs (v' - v))) else ubyte (ram s) r' v') as Hub.
  { intros r' v' Hr' Hv'. pose proof (space_root own s r' Hs Hr') as Hr1.
    change (ubyte m' r' v') with (ubyte (ram (set_ram m' s)) r' v').
    rewrite (ubyte_upte own) by (done || apply Hs'). cbn [ram set_ram]. rewrite Hu, (ubyte_upte own s) by done.
    pose proof (Z.mod_pos_bound v' 4096 ltac:(lia)) as Hmod'.
    pose proof (Z.div_mod v 4096 ltac:(lia)). pose proof (Z.div_mod v' 4096 ltac:(lia)).
    destruct (present (upte (ram s) r' v')) eqn:Hp'.
    - pose proof (wf_frame _ _ Hwf _ _ (upte_data own s r' v' Hwf Hr1 Hv' Hp')) as Hif'. unfold m'. rewrite store_in_frame by (done || lia).
      destruct (decide (r' = r /\ v <= v' < v + Z.of_nat (length bs))) as [[-> Hin]|Hout].
      + assert (v' / 4096 = v / 4096) as Hpg by lia. rewrite decide_True; [do 2 f_equal; f_equal; lia|]. split; [|lia].
        rewrite <- Hfr. unfold upte. by apply (same_path v' v) in Hpg as [-> ->].
      + rewrite decide_False; [done|]. intros [Hff Hin]. rewrite <- Hfr in Hff.
        destruct (sp_own _ _ Hs r' v v' Hr' Hv Hv' Hp Hp' Hff) as [-> Hpg]. apply Hout. split; [done|]. lia.
    - rewrite decide_False; [done|]. intros [-> Hin]. assert (v' / 4096 = v / 4096) as Hpg by lia.
      unfold upte in Hp, Hp'. apply (same_path v' v) in Hpg as [E1 E2]; [|done..]. rewrite E1, E2, Hp in Hp'. done. }
  constructor; [done| | | |done|change (nfree (set_ram m' s)) with (nfree s); lia].
  - intros v' Hv'. cbn [ram set_ram]. rewrite Hub by done. unfold overlay.
    destruct (decide _) as [[_ Hin]|Hout].
    + rewrite (proj2 (Z.leb_le v v')), (proj2 (Z.ltb_lt v' _)) by lia. cbn [andb].
      destruct (zget_is_Some bs (v' - v)) as [b ->]; [lia|]. done.
    + destruct (Z.leb_spec v v'), (Z.ltb_spec v' (v + Z.of_nat (length bs))); cbn [andb]; try done. destruct Hout. split; [done|lia].
  - intros r' v' Hr' Hne Hv'. cbn [ram set_ram]. rewrite Hub by done. by rewrite decide_False by (by intros [? _]).
  - intros r' v' Hr' Hv'. cbn [ram set_ram]. apply Hk; [by apply (space_root own s)|done].
Qed.

(** A frame just allocated and mapped. *)
Lemma fresh_leaf own s v fl :
  space own s -> is_user v -> 4 <= nfree s ->
  exists f s1 s2 own', alloc_frameM s = OOk f s1 /\ f <> 0 /\ map_page_in r v f fl s1 = OOk tt s2 /\
    is_frame f /\ own !! f = None /\ own' !! f = Some OData /\ space own' s2 /\
    (forall r' v', own0 !! r' = Some (OUser r' []) -> is_user v' -> upte (ram s2) r' v' =
       if decide (r' = r /\ v' / 4096 = v / 4096) then leaf f fl else upte (ram s) r' v') /\
    (forall t, own !! t = Some OData -> same_page (ram s) (ram s2) t) /\
    (forall r' v', own0 !! r' = Some (OUser r' []) -> 256 <= idx v' 39 ->
       translate_page (ram s2) r' v' = translate_page (ram s) r' v') /\
    (kernel_pml4 s2 = kernel_pml4 s /\ cr3 s2 = cr3 s) /\ nfree s <= nfree s2 + 4.
Proof.
  intros Hs Hv Hn. pose proof (space_root own s r Hs Hroot) as Hr. pose proof (sp_wf _ _ Hs) as Hwf.
  destruct (alloc_frameM_spec own s Hwf)
    as [[_ HF]|(f & s1 & Ea & Hf0 & Hif & Hfresh & Hwf1 & _ & Hpg1 & _ & HF & Hin & Hk1 & Hc1 & _)].
  { rewrite (nfree_size own), HF, size_empty in Hn by done. lia. }
  specialize (Hwf1 OData). set (own1 := <[f := OData]> own) in *.
  assert (own ⊆ own1) as Hsub1 by by apply insert_subseteq.
  assert (own1 !! f = Some OData) as Hfd by apply lookup_insert_eq.
  pose proof (nfree_insert own own1 s s1 _ Hwf Hwf1 HF Hin) as Hn1.
  destruct (map_page_in_spec own1 s1 r v f fl Hwf1 (lookup_weaken _ _ _ _ Hr Hsub1) Hv Hfd)
    as [[_ ?]|(own' & s2 & Em & [U1 U2 U3 U4 [U5 U5'] _] & Hn2)]; [lia|].
  destruct (leaf_spec f fl Hif) as (L1 & L2 & _).
  assert (forall r' v', own0 !! r' = Some (OUser r' []) -> is_user v' -> upte (ram s2) r' v' =
    if decide (r' = r /\ v' / 4096 = v / 4096) then leaf f fl else upte (ram s) r' v') as Hu2.
  { intros r' v' Hr' Hv'. pose proof (space_root own s r' Hs Hr') as Hr1. rewrite U4 by eauto using lookup_weaken.
    case_decide; [done|]. apply (upte_tables own _ _ _ _ Hwf Hr1 Hv'). intros t rt p i Ht Hi.
    exact (same_page_ent _ _ _ _ (Hpg1 _ _ Ht) (wf_frame _ _ Hwf _ _ Ht) Hi). }
  assert (forall r' v', own0 !! r' = Some (OUser r' []) -> is_user v' -> present (upte (ram s) r' v') = true ->
    frame_of (upte (ram s) r' v') <> f) as Hold.
  { intros r' v' Hr' Hv' Hp'. pose proof (upte_data own s r' v' Hwf (space_root own s r' Hs Hr') Hv' Hp'). congruence. }
  assert (space own' s2) as Hs2.
  { constructor; [done|by transitivity own; [apply Hs|transitivity own1]|]. intros r' x y Hr' Hx Hy. rewrite !Hu2 by done.
    destruct (decide (r' = r /\ y / 4096 = v / 4096)) as [[-> Hy']|Ny], (decide (r = r /\ x / 4096 = v / 4096)) as [[_ Hx']|Nx].
    - intros _ _ _. split; [done|congruence].
    - rewrite L2. intros Hp _ E. by destruct (Hold r x Hroot Hx Hp).
    - rewrite L2. intros _ Hp E. by destruct (Hold r' y Hr' Hy Hp).
    - by apply (sp_own _ _ Hs). }
  exists f, s1, s2, own'. split_and!; try done; [exact (lookup_weaken _ _ _ _ Hfd U1)| | |congruence|congruence|lia].
  - intros t Ht. destruct U3 as (_ & _ & U3). exact (same_page_trans _ _ _ _ (Hpg1 _ _ Ht) (U3 _ (lookup_weaken _ _ _ _ Ht Hsub1))).
  - intros r' v' Hr' Hv'. pose proof (space_root own s r' Hs Hr') as Hr1.
    rewrite (kept_translate own1 s1 _ _ _ Hwf1 U3 (lookup_weaken _ _ _ _ Hr1 Hsub1) Hv').
    apply (kernel_translate own _ _ _ _ Hwf); [| |exact Hr1|exact Hv'].
    + intros t l i Ht Hi. exact (same_page_ent _ _ _ _ (Hpg1 _ _ Ht) (wf_frame _ _ Hwf _ _ Ht) Hi).
    + intros t i Ht Hi. apply (same_page_ent _ _ _ _ (Hpg1 _ _ Ht) (wf_frame _ _ Hwf _ _ Ht)). split; lia.
Qed.

(** A page that was just allocated, mapped and zeroed. *)
Lemma fresh_page own s v fl :
  space own s -> is_user v -> 4 <= nfree s ->
  exists frame s1 s2 own', alloc_frameM s = OOk frame s1 /\ frame <> 0 /\ map_page_in r v frame fl s1 = OOk tt s2 /\
    repainted s own' (set_ram (fill (ram s2) (p2v frame) 0 4096) s2)
      (fun v' => if v' / 4096 =? v / 4096 then Some 0 else ubyte (ram s) r v') 4 /\
    upte (fill (ram s2) (p2v frame) 0 4096) r v = leaf frame fl.
Proof.
  intros Hs Hv Hn. pose proof (sp_wf _ _ Hs) as Hwf.
  destruct (fresh_leaf own s v fl Hs Hv Hn)
    as (f & s1 & s2 & own' & Ea & Hf0 & Em & Hif & Hfresh & Hfd & Hs2 & Hu2 & Hpg & Hk & Hregs & Hn2).
  destruct (leaf_spec f fl Hif) as (L1 & L2 & _). set (m3 := fill (ram s2) (p2v f) 0 4096).
  destruct (data_page_changed own' s2 f m3 Hs2 Hfd) as (Hs3 & Hu3 & Hk3).
  { apply fill_ok; [split; [lia|done]|apply (wf_mem _ _ (sp_wf _ _ Hs2))]. }
  { intros t o Ht Hne. apply same_page_fill; [done|exact (wf_frame _ _ (sp_wf _ _ Hs2) _ _ Ht)|done]. }
  assert (forall r' v', own0 !! r' = Some (OUser r' []) -> is_user v' -> ubyte m3 r' v' =
    if decide (r' = r /\ v' / 4096 = v / 4096) then Some 0 else ubyte (ram s) r' v') as Hub.
  { intros r' v' Hr' Hv'. pose proof (space_root own s r' Hs Hr') as Hr1. pose proof (space_root own' s2 r' Hs2 Hr') as Hr2.
    pose proof (Z.mod_pos_bound v' 4096 ltac:(lia)) as Hmod.
    change (ubyte m3 r' v') with (ubyte (ram (set_ram m3 s2)) r' v'). rewrite (ubyte_upte own' _ r' v' (sp_wf _ _ Hs3) Hr2 Hv').
    cbn [ram set_ram]. rewrite Hu3, Hu2 by done. destruct (decide (r' = r /\ v' / 4096 = v / 4096)) as [_|Hne].
    - rewrite L1, L2. unfold m3, fill. by rewrite (proj2 (in_range_spec _ _ _)) by lia.
    - rewrite (ubyte_upte own s _ _ Hwf Hr1 Hv'). destruct (present (upte (ram s) r' v')) eqn:Hp; [|done].
      pose proof (upte_data own s r' v' Hwf Hr1 Hv' Hp) as Hd. pose proof (wf_frame _ _ Hwf _ _ Hd) as Hif'.
      assert (f <> frame_of (upte (ram s) r' v')) as Hnf by congruence. f_equal. unfold m3.
      by rewrite (same_page_fill (ram s2) f _ Hif Hif' Hnf), (Hpg _ Hd) by done. }
  exists f, s1, s2, own'. do 3 (split; [done|]).
  split; [|rewrite Hu3, Hu2 by (done || by apply (space_root own' s2)); by rewrite decide_True].
  constructor; [done| | | |exact Hregs|exact Hn2].
  - intros v' Hv'. cbn [ram set_ram]. rewrite Hub by done. destruct (Z.eqb_spec (v' / 4096) (v / 4096)) as [E|E].
    + by rewrite decide_True.
    + by rewrite decide_False by (by intros [_ ?]).
  - intros r' v' Hr' Hne Hv'. cbn [ram set_ram]. rewrite Hub by done. by rewrite decide_False by (by intros [? _]).
  - intros r' v' Hr' Hv'. cbn [ram set_ram]. rewrite Hk3 by (done || by apply (space_root own' s2)). by apply Hk.
Qed.
End Space.
