(* ===== verification/BootLoader.v ===== *)
(** * The boot loader ([bootloader/src/paging.rs], [memory.rs], [file_loader.rs])

    The page tables the kernel starts on, the memory map it is handed, and
    the loading of its files.  Physical memory is the memory of the kernel's
    model: the byte at physical address [a] is at [p2v a].

    The firmware is a parameter: [page n] is the answer to the [n]-th request
    for a page of boot services' [allocate_pages], [None] an error. *)

From S2P Require Import Prelude Mem Update Result Boot Pmm Paging PageTables.

Definition KERNEL_VIRT_BASE : Z := 0xFFFFFFFF80000000.
Definition KERNEL_ENTRY_VIRT_ADDR : Z := KERNEL_VIRT_BASE + 0x00100000.

(** Memory and the number of pages requested so far. *)
Record Loader := mkLoader { ld_mem : Mem; ld_calls : nat }.

(** [uefi::Result]: [None] ends the boot. *)
Definition Ld (A : Type) : Type := Loader -> option (A * Loader).
Definition retL {A} (a : A) : Ld A := fun s => Some (a, s).
Definition bindL {A B} (m : Ld A) (f : A -> Ld B) : Ld B := fun s =>
  match m s with
  | Some (a, s') => f a s'
  | None => None
  end.

Notation "'ld' x ':=' c 'in' k" := (bindL c (fun x => k))
  (at level 10, x pattern, c at level 100, k at level 200) : coreos_scope.

Definition read_entry (table index : Z) : Ld Z := fun s => Some (read64 (ld_mem s) (slot table index), s).
Definition write_entry (table index value : Z) : Ld unit := fun s =>
  Some (tt, mkLoader (write64 (ld_mem s) (slot table index) value) (ld_calls s)).

(** [for i in l]. *)
Fixpoint forL (l : list Z) (f : Z -> Ld unit) : Ld unit :=
  match l with
  | [] => retL tt
  | i :: l => ld _ := f i in forL l f
  end.

Section Tables.
Context (page : nat -> option Z).

Definition alloc_zeroed_table : Ld Z := fun s =>
  match page (ld_calls s) with
  | None => None
  | Some ptr => Some (ptr, mkLoader (fill (ld_mem s) (p2v ptr) 0 PAGE_SIZE) (S (ld_calls s)))
  end.

Definition ensure_child_table (parent index : Z) : Ld Z :=
  ld entry := read_entry parent index in
  if negb ((entry & PTE_PRESENT) =? 0) then retL (entry & PTE_ADDR_MASK)
  else
    ld child := alloc_zeroed_table in
    ld _ := write_entry parent index (child .| PTE_PRESENT .| PTE_WRITABLE) in
    retL child.

(** One round of [map_4k_range]. *)
Definition map_4k_page (pml4 virt phys : Z) : Ld unit :=
  let pml4_i := (virt >> 39) & 0x1FF in
  let pdpt_i := (virt >> 30) & 0x1FF in
  let pd_i := (virt >> 21) & 0x1FF in
  let pt_i := (virt >> 12) & 0x1FF in
  ld pdpt := ensure_child_table pml4 pml4_i in
  ld pd := ensure_child_table pdpt pdpt_i in
  ld pt := ensure_child_table pd pd_i in
  write_entry pt pt_i (phys .| PTE_PRESENT .| PTE_WRITABLE).

(** [while offset < size { .. offset += PAGE_SIZE }]. *)
Definition map_4k_range (pml4 virt_start phys_start size : Z) : Ld unit :=
  forL (seqZ 0 (div_ceil size PAGE_SIZE)) (fun q =>
    let offset := q * PAGE_SIZE in
    map_4k_page pml4 (virt_start +w offset) (phys_start +w offset)).

(** The 512 entries of the [i]-th gigabyte of the direct map. *)
Definition huge_entries (pd i : Z) : Ld unit :=
  forL (seqZ 0 512) (fun j =>
    let phys := (i * 512 + j) *w HUGE_PAGE_SIZE in
    write_entry pd j (phys .| PTE_PRESENT .| PTE_WRITABLE .| PTE_HUGE)).

Definition direct_map (dm_pdpt : Z) : Ld unit :=
  forL (seqZ 0 4) (fun i =>
    ld pd := alloc_zeroed_table in
    ld _ := write_entry dm_pdpt i (pd .| PTE_PRESENT .| PTE_WRITABLE) in
    huge_entries pd i).

Definition setup_page_tables (kernel_phys kernel_span : Z) : Ld Z :=
  ld pml4 := alloc_zeroed_table in
  ld dm_pdpt := alloc_zeroed_table in
  ld k_pdpt := alloc_zeroed_table in
  ld _ := write_entry pml4 256 (dm_pdpt .| PTE_PRESENT .| PTE_WRITABLE) in
  ld _ := write_entry pml4 511 (k_pdpt .| PTE_PRESENT .| PTE_WRITABLE) in
  ld _ := direct_map dm_pdpt in
  ld _ := map_4k_range pml4 KERNEL_ENTRY_VIRT_ADDR kernel_phys kernel_span in
  retL pml4.

(** The entries the new PML4 does not have are taken from the one in [CR3];
    [CR3] becomes [new_pml4]. *)
Definition activate_page_tables (cr3 new_pml4 : Z) : Ld Z :=
  let old_pml4 := cr3 & not64 0xFFF in
  ld _ := forL (seqZ 0 512) (fun i =>
    ld new := read_entry new_pml4 i in
    if new =? 0 then ld old := read_entry old_pml4 i in write_entry new_pml4 i old else retL tt) in
  retL new_pml4.
End Tables.

(** ** The memory map *)

Definition MAX_MMAP_ENTRIES : Z := 256.

(** [descs]: the firmware's memory map. *)
Definition capture_memory_map (descs : list MemMapEntry) (boot_info : CoreOS_BootInfo) : CoreOS_BootInfo :=
  let stored := take (Z.to_nat MAX_MMAP_ENTRIES) descs in
  {| fb_base := fb_base boot_info; fb_size := fb_size boot_info; width := width boot_info; height := height boot_info;
     pitch := pitch boot_info; mmap := stored ++ drop (length stored) (mmap boot_info);
     mmap_count := Z.of_nat (length stored);
     kernel_phys_base := kernel_phys_base boot_info; kernel_alloc_size := kernel_alloc_size boot_info;
     user_elf_base := user_elf_base boot_info; user_elf_size := user_elf_size boot_info;
     font_base := font_base boot_info; font_size := font_size boot_info;
     tsc_bootloader_start := tsc_bootloader_start boot_info |}.

(** ** Files *)

Inductive Status := NOT_FOUND | OUT_OF_RESOURCES | BAD_BUFFER_SIZE | LOAD_ERROR | UNSUPPORTED | OtherStatus (code : Z).

Definition is_status (a b : Status) : bool :=
  match a, b with
  | NOT_FOUND, NOT_FOUND | OUT_OF_RESOURCES, OUT_OF_RESOURCES => true
  | _, _ => false
  end.

Record LoadSpec := mkSpec { max_address : Z; extra_bytes : Z }.
Definition kernel_with_extra (extra : Z) : LoadSpec := mkSpec 0x3FFFF000 extra.
Definition asset : LoadSpec := mkSpec 0xFFFFF000 0.

Record LoadedFile := mkLoaded { lf_addr : Z; lf_file_size : Z; lf_allocation_size : Z }.

(** An opened file as the firmware shows it: whether it is a regular file,
    the size it reports, and the bytes a read of a number of bytes returns. *)
Record BootFile := mkBootFile { bf_regular : bool; bf_info : Status + Z; bf_read : Z -> Status + list Z }.

Definition pages_for (bytes : Z) : Z := div_ceil bytes 0x1000.

Section Files.
(** The [n]-th request for [pages] pages below a highest address, and the
    file a path names. *)
Context (allocate_pages : nat -> Z -> Z -> Status + Z) (open : list Z -> Status + BootFile).

Definition allocate_max (size max_address : Z) (s : Loader) : (Status + Z) * Loader :=
  (allocate_pages (ld_calls s) (pages_for size) max_address, mkLoader (ld_mem s) (S (ld_calls s))).

Definition open_regular_file (path : list Z) : Status + BootFile :=
  match open path with
  | inl err => inl err
  | inr file => if bf_regular file then inr file else inl UNSUPPORTED
  end.

(** The allocation of [requested] bytes, or of the bytes of the file alone. *)
Definition allocate_file (file_size requested : Z) (spec : LoadSpec) (s : Loader) : (Status + Z * Z) * Loader :=
  match allocate_max requested (max_address spec) s with
  | (inr addr, s) => (inr (addr, requested), s)
  | (inl err, s) =>
      if is_status err OUT_OF_RESOURCES && negb (extra_bytes spec =? 0) then
        match allocate_max file_size (max_address spec) s with
        | (inr addr, s) => (inr (addr, file_size), s)
        | (inl err, s) => (inl err, s)
        end
      else (inl err, s)
  end.

Definition load_regular_file (file : BootFile) (spec : LoadSpec) (s : Loader) : (Status + LoadedFile) * Loader :=
  match bf_info file with
  | inl err => (inl err, s)
  | inr file_size =>
      match checked_add64 file_size (extra_bytes spec) with
      | None => (inl BAD_BUFFER_SIZE, s)
      | Some requested_size =>
          match allocate_file file_size requested_size spec s with
          | (inl err, s) => (inl err, s)
          | (inr (addr, allocation_size), s) =>
              match bf_read file file_size with
              | inl err => (inl err, s)
              | inr read =>
                  let s := mkLoader (store_bytes (ld_mem s) (p2v addr) read) (ld_calls s) in
                  if negb (Z.of_nat (length read) =? file_size) then (inl LOAD_ERROR, s)
                  else (inr (mkLoaded addr file_size allocation_size), s)
              end
          end
      end
  end.

Definition load_required_file (path : list Z) (spec : LoadSpec) (s : Loader) : (Status + LoadedFile) * Loader :=
  match open_regular_file path with
  | inl err => (inl err, s)
  | inr file => load_regular_file file spec s
  end.

Definition load_optional_file (path : list Z) (spec : LoadSpec) (s : Loader) : (Status + option LoadedFile) * Loader :=
  match open_regular_file path with
  | inr file =>
      match load_regular_file file spec s with
      | (inr f, s) => (inr (Some f), s)
      | (inl err, s) => (inl err, s)
      end
  | inl err => if is_status err NOT_FOUND then (inr None, s) else (inl err, s)
  end.
End Files.

(** ** What the processor sees *)

(** The walk of four-level tables with pages of 4 KiB and 2 MiB. *)
Definition walk1 (m : Mem) (pt v : Z) : option Z :=
  let e := ent m pt (idx v 12) in
  if negb (present e) then None else Some (frame_of e + v mod PAGE_SIZE).
Definition walk2 (m : Mem) (pd v : Z) : option Z :=
  let e := ent m pd (idx v 21) in
  if negb (present e) then None
  else if huge e then Some (frame_of e + v mod HUGE_PAGE_SIZE) else walk1 m (frame_of e) v.
Definition walk3 (m : Mem) (pdpt v : Z) : option Z :=
  let e := ent m pdpt (idx v 30) in
  if negb (present e) then None else walk2 m (frame_of e) v.
Definition walk (m : Mem) (pml4 v : Z) : option Z :=
  let e := ent m pml4 (idx v 39) in
  if negb (present e) then None else walk3 m (frame_of e) v.

Definition link (t : Z) : Z := t .| PTE_PRESENT .| PTE_WRITABLE.

Lemma link_spec t : 0 <= t < 2 ^ 52 -> t mod 4096 = 0 ->
  present (link t) = true /\ huge (link t) = false /\ frame_of (link t) = t /\ is_u64 (link t) /\ link t <> 0.
Proof.
  intros Ht Ha. unfold link. rewrite <- Z.lor_assoc. change (PTE_PRESENT .| PTE_WRITABLE) with 3.
  rewrite present_testbit, huge_testbit, !Z.lor_spec, !(aligned_testbit t) by (done || lia).
  split_and!; [done|done|by apply frame_of_lor| |].
  - split; [apply Z.lor_nonneg; lia|]. unfold U64. apply (lor_range _ _ 64); lia.
  - intros E. apply Z.lor_eq_0_iff in E as [_ E]. done.
Qed.

(** ** The tables in closed form *)

(** Case analysis on the tests of an entry's definition. *)
Ltac entry_cases :=
  repeat match goal with
  | |- context [?a =? ?b] => destruct (Z.eqb_spec a b); try lia
  | |- context [?a <? ?b] => destruct (Z.ltb_spec a b); try lia
  | |- context [?a <=? ?b] => destruct (Z.leb_spec a b); try lia
  end; subst; cbn [andb]; try done; try lia.

Lemma bindL_ok {A B} (m : Ld A) (f : A -> Ld B) s a s' : m s = Some (a, s') -> bindL m f s = f a s'.
Proof. intros H. unfold bindL. by rewrite H. Qed.

(** The number of tables for [q] pages of kernel. *)
Definition table_count (q : Z) : Z := if q =? 0 then 7 else 9 + (255 + q) / 512.

Lemma table_count_ge n : 0 <= n -> 7 <= table_count n /\ 0 <= (255 + n) / 512.
Proof.
  intros Hn. pose proof (Z.div_pos (255 + n) 512 ltac:(lia) ltac:(lia)). split; [|done]. unfold table_count. case_goal; lia.
Qed.

Section Built.
Context (page : nat -> option Z) (N : Z) (m0 : Mem).

(** The [k]-th page the firmware hands out. *)
Definition T (k : Z) : Z := default 0 (page (Z.to_nat k)).

Context (Hpage : forall k, 0 <= k < N -> page (Z.to_nat k) = Some (T k)).
Context (Hframe : forall k, 0 <= k < N -> is_frame (T k)).
Context (Hm0 : mem_ok m0).
Context (Hinj : forall k k', 0 <= k < N -> 0 <= k' < N -> T k = T k' -> k = k').

(** [c] tables, with entries [f]; no other frame has changed. *)
Record built (c : Z) (f : Z -> Z -> Z) (s : Loader) : Prop := {
  bt_bound : 0 <= c <= N;
  bt_calls : Z.of_nat (ld_calls s) = c;
  bt_mem : mem_ok (ld_mem s);
  bt_entry : forall k i, 0 <= k < c -> is_idx i -> ent (ld_mem s) (T k) i = f k i;
  bt_other : forall t, is_frame t -> (forall k, 0 <= k < c -> t <> T k) -> same_page m0 (ld_mem s) t;
}.

Lemma built_ext c f g s : (forall k i, 0 <= k < c -> is_idx i -> f k i = g k i) -> built c f s -> built c g s.
Proof. intros Hfg [B1 B2 Bm B3 B4]. constructor; try done. intros k i Hk Hi. rewrite B3 by done. by apply Hfg. Qed.

Definition upd (f : Z -> Z -> Z) (k i v : Z) : Z -> Z -> Z := fun k' i' => if (k' =? k) && (i' =? i) then v else f k' i'.
Definition zero_table (f : Z -> Z -> Z) (k : Z) : Z -> Z -> Z := fun k' i' => if k' =? k then 0 else f k' i'.

Lemma built_alloc c f s : built c f s -> c < N ->
  exists s', alloc_zeroed_table page s = Some (T c, s') /\ built (c + 1) (zero_table f c) s'.
Proof.
  intros [B1 B2 Bm B3 B4] Hc. unfold alloc_zeroed_table. rewrite <- (Nat2Z.id (ld_calls s)), B2, Hpage by lia.
  eexists. split; [reflexivity|]. pose proof (Hframe c ltac:(lia)) as Hf. constructor; cbn [ld_mem ld_calls]; [lia|lia|by apply fill_ok| |].
  - intros k i Hk Hi. rewrite ent_fill by (done || apply Hframe; lia). unfold zero_table. destruct (Z.eqb_spec k c) as [->|Hne].
    + by rewrite decide_True.
    + rewrite decide_False by (intros E; apply Hne, Hinj; done || lia). apply B3; [lia|done].
  - intros t Ht Hne. eapply same_page_trans; [apply B4; [done|]|apply same_page_fill; [done|done|]].
    + intros k Hk. apply Hne. lia.
    + intros E. apply (Hne c); [lia|done].
Qed.

Lemma built_write c f s k i v : built c f s -> 0 <= k < c -> is_idx i -> is_u64 v ->
  exists s', write_entry (T k) i v s = Some (tt, s') /\ built c (upd f k i v) s'.
Proof.
  intros [B1 B2 Bm B3 B4] Hk Hi Hv. eexists. split; [reflexivity|]. pose proof (Hframe k ltac:(lia)) as Hf.
  constructor; cbn [ld_mem ld_calls]; [done|done|by apply write64_ok| |].
  - intros k' i' Hk' Hi'. rewrite ent_write by (done || apply Hframe; lia). unfold upd.
    destruct (Z.eqb_spec k' k) as [->|Hne], (Z.eqb_spec i' i) as [->|Hne']; cbn [andb].
    + by rewrite decide_True.
    + rewrite decide_False by (by intros [_ ?]). by apply B3.
    + rewrite decide_False by (intros [E _]; apply Hne, Hinj; done || lia). by apply B3.
    + rewrite decide_False by (by intros [_ ?]). by apply B3.
  - intros t Ht Hne. eapply same_page_trans; [by apply B4|]. apply same_page_write; [done|done|done|]. intros E. by apply (Hne k).
Qed.

Lemma built_read c f s k i : built c f s -> 0 <= k < c -> is_idx i -> read_entry (T k) i s = Some (f k i, s).
Proof. intros [B1 B2 Bm B3 B4] Hk Hi. unfold read_entry. by rewrite <- B3. Qed.

Lemma T_range k : 0 <= k < N -> 0 <= T k < 2 ^ 52 /\ T k mod 4096 = 0.
Proof. intros Hk. pose proof (Hframe k Hk) as Hf. pose proof (is_frame_bounds _ Hf). split; [lia|apply Hf]. Qed.

(** A child that is there, and a child that is not. *)
Lemma ensure_there c f s k i k' : built c f s -> 0 <= k < c -> 0 <= k' < c -> is_idx i -> f k i = link (T k') ->
  ensure_child_table page (T k) i s = Some (T k', s).
Proof.
  intros B Hk Hk' Hi E. unfold ensure_child_table, bindL. rewrite (built_read c f s k i B Hk Hi), E.
  pose proof (bt_bound _ _ _ B). destruct (T_range k' ltac:(lia)) as [H1 H2]. destruct (link_spec _ H1 H2) as (L1 & _ & L3 & _).
  unfold present in L1. rewrite L1. unfold frame_of in L3. by rewrite L3.
Qed.

Lemma ensure_new c f s k i : built c f s -> 0 <= k < c -> c < N -> is_idx i -> f k i = 0 ->
  exists s', ensure_child_table page (T k) i s = Some (T c, s') /\ built (c + 1) (upd (zero_table f c) k i (link (T c))) s'.
Proof.
  intros B Hk Hc Hi E. unfold ensure_child_table. rewrite (bindL_ok _ _ _ _ _ (built_read c f s k i B Hk Hi)), E. change (negb ((0 & PTE_PRESENT) =? 0)) with false. cbv iota.
  destruct (built_alloc c f s B Hc) as (s1 & E1 & B1). rewrite (bindL_ok _ _ _ _ _ E1).
  destruct (T_range c) as [H1 H2]; [pose proof (bt_bound _ _ _ B); lia|].
  destruct (built_write (c + 1) _ s1 k i (link (T c)) B1 ltac:(lia) Hi) as (s2 & E2 & B2); [apply (link_spec _ H1 H2)|].
  unfold link in E2 at 1. rewrite (bindL_ok _ _ _ _ _ E2). by exists s2.
Qed.

(** Loops. *)
Lemma forL_rule (P : Z -> Loader -> Prop) f n : forall a s, 
  (forall i s, a <= i < a + Z.of_nat n -> P i s -> exists s', f i s = Some (tt, s') /\ P (i + 1) s') -> P a s ->
  exists s', forL (seqZ a (Z.of_nat n)) f s = Some (tt, s') /\ P (a + Z.of_nat n) s'.
Proof.
  induction n as [|n IH]; intros a s Hstep HP.
  - exists s. split; [done|]. by rewrite Z.add_0_r.
  - replace (a + Z.of_nat (S n)) with (a + 1 + Z.of_nat n) by lia.
    rewrite Nat2Z.inj_succ, seqZ_cons, Z.pred_succ by lia. cbn [forL]. unfold bindL.
    destruct (Hstep a s ltac:(lia) HP) as (s1 & -> & HP1).
    destruct (IH (a + 1) s1) as (s2 & E2 & HP2); [intros i s' Hi; apply Hstep; lia|done|]. by exists s2.
Qed.

Context (kernel_phys : Z).

(** Entry [j] of table [k] when [q] pages of the kernel are mapped: the PML4,
    the two page-directory-pointer tables, the four directories of the direct
    map, the directory of the kernel and its page tables. *)
Definition expected (q k j : Z) : Z :=
  if k =? 0 then if j =? 256 then link (T 1) else if j =? 511 then link (T 2) else 0
  else if k =? 1 then if j <? 4 then link (T (3 + j)) else 0
  else if k =? 2 then if (0 <? q) && (j =? 510) then link (T 7) else 0
  else if k <? 7 then huge_leaf (((k - 3) * 512 + j) * HUGE_PAGE_SIZE)
  else if k =? 7 then if j <=? (255 + q) / 512 then link (T (8 + j)) else 0
  else let x := (k - 8) * 512 + j - 256 in if (0 <=? x) && (x <? q) then link (kernel_phys + x * PAGE_SIZE) else 0.

Lemma kernel_indices q : 0 <= q -> q + 256 < 512 * 512 -> let v := KERNEL_ENTRY_VIRT_ADDR +w q * PAGE_SIZE in
  (v >> 39) & 0x1FF = 511 /\ (v >> 30) & 0x1FF = 510 /\ (v >> 21) & 0x1FF = (256 + q) / 512 /\ (v >> 12) & 0x1FF = (256 + q) mod 512.
Proof.
  intros H0 H1 v. set (p := 256 + q). assert (v = 0x3FFFFFFFE * 2 ^ 30 + p * 4096) as Hv.
  { unfold v. change PAGE_SIZE with 4096. rewrite wrap64_small by (unfold U64, KERNEL_ENTRY_VIRT_ADDR, KERNEL_VIRT_BASE; lia).
    unfold p, KERNEL_ENTRY_VIRT_ADDR, KERNEL_VIRT_BASE. lia. }
  assert (0 <= p < 262144) as Hp by (unfold p; lia). clearbody p v. subst v.
  repeat match goal with |- context [(?v >> ?k) & 0x1FF] => change ((v >> k) & 0x1FF) with (idx v k); rewrite (idx_mod v k) by lia end.
  change (2 ^ 39) with (549755813888). change (2 ^ 30) with 1073741824. change (2 ^ 21) with 2097152. change (2 ^ 12) with 4096.
  pose proof (Z.div_mod p 512 ltac:(lia)). pose proof (Z.mod_pos_bound p 512 ltac:(lia)).
  split_and!.
  - rewrite <- (Z.div_unique (0x3FFFFFFFE * 1073741824 + p * 4096) 549755813888 0x1FFFFFF (510 * 1073741824 + p * 4096)) by lia. done.
  - rewrite <- (Z.div_unique (0x3FFFFFFFE * 1073741824 + p * 4096) 1073741824 0x3FFFFFFFE (p * 4096)) by lia. done.
  - rewrite <- (Z.div_unique (0x3FFFFFFFE * 1073741824 + p * 4096) 2097152 (0x3FFFFFFFE * 512 + p / 512) (p mod 512 * 4096)) by lia.
    rewrite Z.add_comm, Z.mod_add by lia. apply Z.mod_small. lia.
  - rewrite <- (Z.div_unique (0x3FFFFFFFE * 1073741824 + p * 4096) 4096 (0x3FFFFFFFE * 262144 + p) 0) by lia.
    rewrite Z.add_comm. replace (0x3FFFFFFFE * 262144) with (0x3FFFFFFFE * 512 * 512) by lia. by rewrite Z.mod_add by lia.
Qed.

Context (Hphys : kernel_phys mod 4096 = 0 /\ 0 <= kernel_phys).

(** The directory of the kernel is there after the first round asks for it. *)
Definition with_pd (q k x : Z) : Z :=
  if (k =? 2) && (x =? 510) then link (T 7) else if (k =? 7) && (q =? 0) then 0 else expected q k x.
Definition pd_count (q : Z) : Z := if q =? 0 then 8 else 9 + (255 + q) / 512.

Ltac by_entries :=
  intros k x Hk Hx; unfold upd, zero_table, with_pd, expected in *; unfold is_idx in Hx; cbv zeta; entry_cases.

Lemma step_pd q s : 0 <= q -> pd_count q <= N -> built (table_count q) (expected q) s ->
  exists s1, ensure_child_table page (T 2) 510 s = Some (T 7, s1) /\ built (pd_count q) (with_pd q) s1.
Proof.
  intros H0 HN B. unfold table_count, pd_count in *. pose proof (Z.div_pos (255 + q) 512 ltac:(lia) ltac:(lia)).
  destruct (Z.eqb_spec q 0) as [->|Hq].
  - destruct (ensure_new 7 _ s 2 510 B) as (s1 & E1 & B1); [lia|lia|split; lia|done|]. exists s1. split; [exact E1|].
    change (7 + 1) with 8 in B1. revert B1. apply built_ext. by_entries.
  - exists s. split.
    + apply (ensure_there _ _ _ 2 510 7 B); [lia|lia|split; lia|]. unfold expected. by rewrite (proj2 (Z.ltb_lt 0 q)) by lia.
    + revert B. apply built_ext. by_entries.
Qed.

(** The page table of the page to be mapped is there. *)
Definition with_pt (q k x : Z) : Z :=
  if k =? 7 then if x <=? (256 + q) / 512 then link (T (8 + x)) else 0 else with_pd q k x.

Lemma next_table q : 0 <= q -> let j := (256 + q) / 512 in
  (0 < q /\ j = (255 + q) / 512) \/ ((q = 0 /\ j = 0 \/ j = (255 + q) / 512 + 1 /\ q = 512 * j - 256) /\ pd_count q = 8 + j).
Proof.
  intros Hq j. unfold j, pd_count.
  pose proof (Z.div_mod (256 + q) 512 ltac:(lia)) as D. pose proof (Z.mod_pos_bound (256 + q) 512 ltac:(lia)) as D'.
  pose proof (Z.div_mod (255 + q) 512 ltac:(lia)) as F. pose proof (Z.mod_pos_bound (255 + q) 512 ltac:(lia)) as F'.
  destruct (Z.eqb_spec q 0) as [->|Hne]; [right; split; [by left|done]|].
  destruct (Z.eq_dec ((256 + q) / 512) ((255 + q) / 512)); [left; lia|right; lia].
Qed.

Lemma step_pt q s : 0 <= q -> q + 256 < 512 * 512 -> table_count (q + 1) <= N -> built (pd_count q) (with_pd q) s ->
  exists s1, ensure_child_table page (T 7) ((256 + q) / 512) s = Some (T (8 + (256 + q) / 512), s1) /\
    built (table_count (q + 1)) (with_pt q) s1.
Proof.
  intros H0 H1 HN B. assert (table_count (q + 1) = 9 + (256 + q) / 512) as Hc.
  { unfold table_count. rewrite (proj2 (Z.eqb_neq _ _)) by lia. by replace (255 + (q + 1)) with (256 + q) by lia. }
  rewrite Hc in *. pose proof (next_table q H0) as Hcase. cbv zeta in Hcase. unfold with_pt.
  assert (0 <= (256 + q) / 512 < 512) as Hj by (split; [apply Z.div_pos; lia|apply Z.div_lt_upper_bound; lia]).
  set (j := (256 + q) / 512) in *. destruct Hcase as [[Hq Ej]|(Hq & Ec)].
  - exists s. assert (pd_count q = 9 + j) as Ec by (unfold pd_count; rewrite (proj2 (Z.eqb_neq q 0)) by lia; lia). rewrite Ec in B.
    split.
    + apply (ensure_there _ _ _ 7 j (8 + j) B); [lia|lia|done|]. unfold with_pd, expected. rewrite (proj2 (Z.eqb_neq q 0)) by lia.
      cbn [Z.eqb Pos.eqb andb Z.ltb Z.compare Pos.compare Pos.compare_cont]. rewrite (proj2 (Z.leb_le j _)) by lia. done.
    + revert B. apply built_ext. by_entries.
  - rewrite Ec in B. destruct (ensure_new (8 + j) _ s 7 j B) as (s1 & E1 & B1); [lia|lia|done| |].
    + unfold with_pd, expected. cbn [Z.eqb Pos.eqb andb Z.ltb Z.compare Pos.compare Pos.compare_cont].
      destruct (Z.eqb_spec q 0); [done|]. rewrite (proj2 (Z.leb_gt j _)) by lia. done.
    + exists s1. split; [exact E1|]. replace (8 + j + 1) with (9 + j) in B1 by lia. revert B1. apply built_ext. by_entries.
Qed.

Lemma kernel_page_step q s :
  0 <= q -> q + 256 < 512 * 512 -> kernel_phys + q * 4096 < 2 ^ 52 -> table_count (q + 1) <= N -> built (table_count q) (expected q) s ->
  exists s', map_4k_page page (T 0) (KERNEL_ENTRY_VIRT_ADDR +w q * PAGE_SIZE) (kernel_phys +w q * PAGE_SIZE) s = Some (tt, s') /\
    built (table_count (q + 1)) (expected (q + 1)) s'.
Proof.
  intros H0 H1 H2 HN B. destruct (kernel_indices q H0 H1) as (I4 & I3 & I2 & I1).
  assert (table_count (q + 1) = 9 + (256 + q) / 512) as Hc.
  { unfold table_count. rewrite (proj2 (Z.eqb_neq _ _)) by lia. by replace (255 + (q + 1)) with (256 + q) by lia. }
  unfold map_4k_page. cbv zeta. rewrite I4, I3, I2, I1. clear I4 I3 I2 I1.
  assert (0 <= (256 + q) / 512 < 512) as Hj by (split; [apply Z.div_pos; lia|apply Z.div_lt_upper_bound; lia]).
  rewrite (bindL_ok _ _ s (T 2) s).
  2: { apply (ensure_there (table_count q) (expected q)); [done|..|split; lia|done]; unfold table_count; pose proof (Z.div_pos (255 + q) 512); case_goal; lia. }
  destruct (step_pd q s H0) as (s1 & E1 & B1); [|done|].
  { unfold pd_count. pose proof (Z.div_le_mono (255 + q) (256 + q) 512). case_goal; lia. }
  rewrite (bindL_ok _ _ _ _ _ E1). destruct (step_pt q s1 H0 H1 HN B1) as (s2 & E2 & B2). rewrite (bindL_ok _ _ _ _ _ E2).
  rewrite wrap64_small by (change PAGE_SIZE with 4096; unfold U64; lia). fold (link (kernel_phys + q * PAGE_SIZE)).
  assert (is_idx ((256 + q) mod 512)) as Hi by (apply Z.mod_pos_bound; lia).
  destruct (built_write _ _ s2 (8 + (256 + q) / 512) ((256 + q) mod 512) (link (kernel_phys + q * PAGE_SIZE)) B2) as (s3 & E3 & B3);
    [lia|done| |].
  { apply link_spec; change PAGE_SIZE with 4096; [lia|]. destruct Hphys as [Hp _].
    by rewrite <- Z.add_mod_idemp_l, Hp, Z.add_0_l, Z.mod_mul by lia. }
  exists s3. split; [exact E3|]. revert B3. apply built_ext. rewrite Hc. unfold with_pt.
  pose proof (Z.div_mod (256 + q) 512 ltac:(lia)). unfold is_idx in Hi.
  intros k x Hk Hx. unfold upd, with_pd, expected in *. replace (255 + (q + 1)) with (256 + q) by lia. unfold is_idx in Hx. cbv zeta.
  set (j := (256 + q) / 512) in *. set (i := (256 + q) mod 512) in *.
  entry_cases; do 2 f_equal; change PAGE_SIZE with 4096; lia.
Qed.

Lemma map_4k_range_built n s :
  n + 256 <= 512 * 512 -> kernel_phys + n * 4096 <= 2 ^ 52 -> table_count n <= N -> 0 <= n -> built (table_count 0) (expected 0) s ->
  exists s', forL (seqZ 0 n) (fun q => map_4k_page page (T 0) (KERNEL_ENTRY_VIRT_ADDR +w q * PAGE_SIZE) (kernel_phys +w q * PAGE_SIZE)) s =
    Some (tt, s') /\ built (table_count n) (expected n) s'.
Proof.
  intros H1 H2 HN Hn B. rewrite <- (Z2Nat.id n) by lia.
  destruct (forL_rule (fun q s => built (table_count q) (expected q) s)
    (fun q => map_4k_page page (T 0) (KERNEL_ENTRY_VIRT_ADDR +w q * PAGE_SIZE) (kernel_phys +w q * PAGE_SIZE)) (Z.to_nat n) 0 s)
    as (s' & E & B'); [|exact B|by exists s'].
  intros q s' Hq B'. apply kernel_page_step; try lia; [|exact B'].
  etransitivity; [|exact HN]. unfold table_count. rewrite (proj2 (Z.eqb_neq (q + 1) 0)), (proj2 (Z.eqb_neq n 0)) by lia.
  pose proof (Z.div_le_mono (255 + (q + 1)) (255 + n) 512). lia.
Qed.

(** [g] gigabytes of the direct map, and [h] pages of the next. *)
Definition dm_stage (g h k j : Z) : Z :=
  if k =? 0 then if j =? 256 then link (T 1) else if j =? 511 then link (T 2) else 0
  else if k =? 1 then if j <? (if 0 <=? h then g + 1 else g) then link (T (3 + j)) else 0
  else if k =? 2 then 0
  else if k <? 3 + g then huge_leaf (((k - 3) * 512 + j) * HUGE_PAGE_SIZE)
  else if j <? h then huge_leaf ((g * 512 + j) * HUGE_PAGE_SIZE) else 0.

Lemma huge_entries_built g s : 0 <= g < 4 -> built (4 + g) (dm_stage g 0) s ->
  exists s', huge_entries (T (3 + g)) g s = Some (tt, s') /\ built (4 + g) (dm_stage g 512) s'.
Proof.
  intros Hg B. destruct (forL_rule (fun h s => built (4 + g) (dm_stage g h) s) (fun j =>
    let phys := (g * 512 + j) *w HUGE_PAGE_SIZE in
    write_entry (T (3 + g)) j (phys .| PTE_PRESENT .| PTE_WRITABLE .| PTE_HUGE)) 512 0 s) as (s' & E & B');
    [|exact B|by exists s'].
  intros j s' Hj B'. cbv zeta. rewrite wrap64_small by (unfold HUGE_PAGE_SIZE, U64; lia).
  fold (huge_leaf ((g * 512 + j) * HUGE_PAGE_SIZE)).
  destruct (built_write _ _ s' (3 + g) j (huge_leaf ((g * 512 + j) * HUGE_PAGE_SIZE)) B') as (s2 & E2 & B2); [lia|split; lia| |].
  { apply huge_leaf_spec; unfold HUGE_PAGE_SIZE; [lia|]. replace ((g * 512 + j) * 0x200000) with ((g * 512 + j) * 512 * 4096) by lia.
    apply Z.mod_mul. lia. }
  exists s2. split; [exact E2|]. revert B2. apply built_ext. intros k x Hk Hx. unfold upd, dm_stage. unfold is_idx in Hx.
  rewrite !(proj2 (Z.leb_le 0 _)) by lia. entry_cases.
Qed.

Lemma direct_map_built s : 7 <= N -> built 3 (dm_stage 0 (-1)) s ->
  exists s', direct_map page (T 1) s = Some (tt, s') /\ built 7 (dm_stage 4 (-1)) s'.
Proof.
  intros HN B. destruct (forL_rule (fun g s => built (3 + g) (dm_stage g (-1)) s) (fun i =>
    ld pd := alloc_zeroed_table page in ld _ := write_entry (T 1) i (pd .| PTE_PRESENT .| PTE_WRITABLE) in huge_entries pd i) 4 0 s)
    as (s' & E & B'); [|exact B|by exists s'].
  intros g s' Hg B'. destruct (built_alloc _ _ s' B' ltac:(lia)) as (s1 & E1 & B1). rewrite (bindL_ok _ _ _ _ _ E1).
  destruct (T_range (3 + g) ltac:(lia)) as [R1 R2]. replace (3 + g + 1) with (4 + g) in B1 by lia.
  destruct (built_write _ _ s1 1 g (link (T (3 + g))) B1) as (s2 & E2 & B2); [lia|split; lia|apply (link_spec _ R1 R2)|].
  unfold link in E2 at 1. rewrite (bindL_ok _ _ _ _ _ E2).
  destruct (huge_entries_built g s2) as (s3 & E3 & B3); [lia| |].
  { revert B2. apply built_ext. intros k x Hk Hx. unfold upd, zero_table, dm_stage. unfold is_idx in Hx. cbn [Z.leb Z.compare]. entry_cases. }
  exists s3. split; [exact E3|]. replace (3 + (g + 1)) with (4 + g) by lia. revert B3. apply built_ext.
  intros k x Hk Hx. unfold dm_stage. unfold is_idx in Hx. cbn [Z.leb Z.compare]. entry_cases. by replace (k - 3) with g by lia.
Qed.

(** The number of pages of the kernel. *)
Definition kernel_pages (span : Z) : Z := div_ceil span PAGE_SIZE.

Lemma setup_built span calls0 :
  let n := kernel_pages span in
  0 <= span -> n + 256 <= 512 * 512 -> kernel_phys + n * 4096 <= 2 ^ 52 -> table_count n <= N -> calls0 = O ->
  exists s', setup_page_tables page kernel_phys span (mkLoader m0 calls0) = Some (T 0, s') /\ built (table_count n) (expected n) s'.
Proof.
  intros n Hspan H1 H2 HN ->. assert (0 <= n) as Hn.
  { unfold n, kernel_pages, div_ceil. change PAGE_SIZE with 4096. pose proof (Z.div_pos span 4096). case_goal; lia. }
  assert (7 <= table_count n) as H7 by (unfold table_count; pose proof (Z.div_pos (255 + n) 512); case_goal; lia).
  assert (built 0 (fun _ _ => 0) (mkLoader m0 0)) as B0 by (constructor; [lia|done|done|intros; lia|intros t Ht _ x Hx; done]).
  unfold setup_page_tables.
  destruct (built_alloc _ _ _ B0 ltac:(lia)) as (s1 & E1 & B1). rewrite (bindL_ok _ _ _ _ _ E1).
  destruct (built_alloc _ _ _ B1 ltac:(lia)) as (s2 & E2 & B2). rewrite (bindL_ok _ _ _ _ _ E2).
  destruct (built_alloc _ _ _ B2 ltac:(lia)) as (s3 & E3 & B3). rewrite (bindL_ok _ _ _ _ _ E3).
  destruct (T_range 1 ltac:(lia)) as [Ra Rb]. destruct (T_range 2 ltac:(lia)) as [Rc Rd].
  destruct (built_write _ _ _ 0 256 (link (T 1)) B3) as (s4 & E4 & B4); [lia|split; lia|apply (link_spec _ Ra Rb)|].
  unfold link in E4 at 1. rewrite (bindL_ok _ _ _ _ _ E4).
  destruct (built_write _ _ _ 0 511 (link (T 2)) B4) as (s5 & E5 & B5); [lia|split; lia|apply (link_spec _ Rc Rd)|].
  unfold link in E5 at 1. rewrite (bindL_ok _ _ _ _ _ E5).
  destruct (direct_map_built s5) as (s6 & E6 & B6); [lia| |].
  { change (0 + 1 + 1 + 1) with 3 in B5. revert B5. apply built_ext. intros k x Hk Hx. unfold upd, zero_table, dm_stage. cbn [Z.leb Z.compare]. unfold is_idx in Hx. entry_cases. }
  change (0 + 1) with 1. rewrite (bindL_ok _ _ _ _ _ E6).
  destruct (map_4k_range_built n s6 H1 H2 HN Hn) as (s7 & E7 & B7).
  { revert B6. apply built_ext. intros k x Hk Hx. unfold dm_stage, expected. change (table_count 0) with 7 in *. cbn [Z.leb Z.compare]. unfold is_idx in Hx. entry_cases. }
  unfold map_4k_range. fold (kernel_pages span). fold n. cbv zeta. rewrite (bindL_ok _ _ _ _ _ E7). by exists s7.
Qed.

(** What the tables translate in the upper half. *)
Definition boot_view (n w : Z) : option Z :=
  let kernel := KERNEL_ENTRY_VIRT_ADDR - PHYSICAL_OFFSET in
  if w <? 4 * 2 ^ 30 then Some w
  else if (kernel <=? w) && (w <? kernel + n * PAGE_SIZE) then Some (kernel_phys + (w - kernel)) else None.

Section Walk.
(** The tables below the PML4. *)
Context (n : Z) (m : Mem).
Context (Hn : 0 <= n) (Hfit : n + 256 <= 512 * 512) (Htop : kernel_phys + n * 4096 <= 2 ^ 52) (Hcount : table_count n <= N).
Context (Hbelow : forall k i, 1 <= k < table_count n -> is_idx i -> ent m (T k) i = expected n k i).

Lemma built_ent k i e : 1 <= k < table_count n -> is_idx i -> expected n k i = e -> ent m (T k) i = e.
Proof. intros Hk Hi <-. by apply Hbelow. Qed.

Lemma built_link k : 0 <= k < table_count n -> present (link (T k)) = true /\ huge (link (T k)) = false /\ frame_of (link (T k)) = T k.
Proof.
  intros Hk. destruct (table_count_ge n Hn). destruct (T_range k ltac:(lia)) as [R1 R2].
  destruct (link_spec _ R1 R2) as (L1 & L2 & L3 & _). done.
Qed.

Ltac entry := first [lia|split; lia|unfold expected; cbv zeta; entry_cases].

(** Below the direct map's PML4 entry. *)
Lemma walk_direct v b c o : idx v 30 = b -> idx v 21 = c -> v mod HUGE_PAGE_SIZE = o -> 0 <= b < 512 -> 0 <= c < 512 ->
  walk3 m (T 1) v = if b <? 4 then Some ((b * 512 + c) * HUGE_PAGE_SIZE + o) else None.
Proof.
  intros Ib Ic Io Hb Hc. destruct (table_count_ge n Hn). unfold walk3. rewrite Ib. destruct (Z.ltb_spec b 4) as [Hb4|Hb4].
  - rewrite (built_ent 1 b (link (T (3 + b)))) by entry. destruct (built_link (3 + b) ltac:(lia)) as (-> & _ & ->). cbn [negb].
    unfold walk2. rewrite Ic, Io. rewrite (built_ent (3 + b) c (huge_leaf ((b * 512 + c) * HUGE_PAGE_SIZE))); [|lia|done|].
    2: { unfold expected. entry_cases. do 2 f_equal. lia. }
    destruct (huge_leaf_spec ((b * 512 + c) * HUGE_PAGE_SIZE)) as (-> & -> & -> & _); [unfold HUGE_PAGE_SIZE; lia| |done].
    unfold HUGE_PAGE_SIZE. replace ((b * 512 + c) * 0x200000) with ((b * 512 + c) * 512 * 4096) by lia. by apply Z.mod_mul.
  - rewrite (built_ent 1 b 0) by entry. by rewrite present_0.
Qed.

(** Below the kernel's. *)
Lemma walk_kernel v b c d o : idx v 30 = b -> idx v 21 = c -> idx v 12 = d -> v mod 4096 = o ->
  0 <= b < 512 -> 0 <= c < 512 -> 0 <= d < 512 ->
  let x := c * 512 + d - 256 in
  walk3 m (T 2) v = if (b =? 510) && (0 <=? x) && (x <? n) then Some (kernel_phys + x * 4096 + o) else None.
Proof.
  intros Ib Ic Id Io Hb Hc Hd x. destruct (table_count_ge n Hn) as [Ht Hd0]. unfold walk3. rewrite Ib.
  destruct (decide (0 < n /\ b = 510)) as [[Hn0 ->]|Hb'].
  2: { rewrite (built_ent 2 b 0) by (entry; exfalso; apply Hb'; lia). rewrite present_0. cbn [negb].
    destruct (_ && _) eqn:E; [breflect; exfalso; apply Hb'; lia|done]. }
  assert (table_count n = 9 + (255 + n) / 512) as Hc9 by (unfold table_count; by rewrite (proj2 (Z.eqb_neq n 0)) by lia).
  rewrite (built_ent 2 510 (link (T 7))) by entry. destruct (built_link 7 ltac:(lia)) as (-> & _ & ->). cbn [negb Z.eqb Pos.eqb andb].
  pose proof (Z.div_mod (255 + n) 512 ltac:(lia)). pose proof (Z.mod_pos_bound (255 + n) 512 ltac:(lia)).
  unfold walk2. rewrite Ic. destruct (Z_le_gt_dec c ((255 + n) / 512)) as [Hcn|Hcn].
  2: { rewrite (built_ent 7 c 0) by entry. rewrite present_0. cbn [negb]. destruct (_ && _) eqn:E; [breflect; unfold x in *; lia|done]. }
  rewrite (built_ent 7 c (link (T (8 + c)))) by entry. destruct (built_link (8 + c) ltac:(lia)) as (-> & -> & ->). cbn [negb].
  unfold walk1. rewrite Id. change PAGE_SIZE with 4096. rewrite Io. destruct ((0 <=? x) && (x <? n)) eqn:E.
  - breflect. rewrite (built_ent (8 + c) d (link (kernel_phys + x * 4096))); [|lia|done|].
    2: { unfold expected, x in *. change PAGE_SIZE with 4096. entry_cases. do 2 f_equal. lia. }
    destruct Hphys as [Hp1 Hp2].
    destruct (link_spec (kernel_phys + x * 4096)) as (-> & _ & -> & _); [lia| |done].
    by rewrite <- Z.add_mod_idemp_l, Hp1, Z.add_0_l, Z.mod_mul by lia.
  - rewrite (built_ent (8 + c) d 0); [by rewrite present_0|lia|done|]. unfold expected, x in *. entry_cases.
Qed.

(** A PML4 with the two entries, whatever the others. *)
Lemma walk_upper r w : ent m r 256 = link (T 1) -> ent m r 511 = link (T 2) -> 0 <= w < 2 ^ 47 ->
  walk m r (PHYSICAL_OFFSET + w) =
  if (2 ^ 39 <=? w) && (w <? 255 * 2 ^ 39) then
    let e := ent m r (256 + w / 2 ^ 39) in if negb (present e) then None else walk3 m (frame_of e) (PHYSICAL_OFFSET + w)
  else boot_view n w.
Proof.
  intros E256 E511 Hw. destruct (high_indices w Hw) as (I4 & I3 & I2 & I1 & M2 & M1). destruct (address_digits w Hw) as (Da & Db & Dc & Dd & Dm & Dw).
  rewrite Dm in M2. change PAGE_SIZE with 4096 in M1. set (v := PHYSICAL_OFFSET + w) in *. destruct (table_count_ge n Hn).
  assert (KERNEL_ENTRY_VIRT_ADDR - PHYSICAL_OFFSET = ((255 * 512 + 510) * 512 * 512 + 256) * 4096) as HK by done.
  unfold boot_view. cbv zeta. rewrite HK. change PAGE_SIZE with 4096. unfold walk. rewrite I4. clear HK.
  set (a := w / 2 ^ 39) in *. set (b := w / 2 ^ 30 mod 512) in *. set (c := w / 2 ^ 21 mod 512) in *. set (d := w / 2 ^ 12 mod 512) in *.
  pose proof (Z.mod_pos_bound w 4096 ltac:(lia)) as Hm. set (o := w mod 4096) in *. clearbody a b c d o v.
  destruct (Z.leb_spec (2 ^ 39) w) as [Hlo|Hlo], (Z.ltb_spec w (255 * 2 ^ 39)) as [Hhi|Hhi]; try lia; cbn [andb]; [done| |].
  - assert (a = 255) as -> by lia. change (256 + 255) with 511. rewrite E511. destruct (built_link 2 ltac:(lia)) as (-> & _ & ->). cbn [negb].
    rewrite (walk_kernel v b c d o I3 I2 I1 M1) by lia. rewrite (proj2 (Z.ltb_ge w _)) by lia. cbv zeta.
    destruct (_ && (_ <? n)) eqn:E.
    + breflect. rewrite (proj2 (Z.leb_le _ w)), (proj2 (Z.ltb_lt w _)) by lia. cbn [andb]. f_equal. lia.
    + destruct (_ && (w <? _)) eqn:E'; [|done]. breflect. apply andb_false_iff in E as [E%andb_false_iff|E]; [destruct E as [E|E]|]; breflect; lia.
  - assert (a = 0) as -> by lia. change (256 + 0) with 256. rewrite E256. destruct (built_link 1 ltac:(lia)) as (-> & _ & ->). cbn [negb].
    rewrite (walk_direct v b c _ I3 I2 M2) by lia. unfold HUGE_PAGE_SIZE.
    destruct (Z.ltb_spec b 4); [rewrite (proj2 (Z.ltb_lt w _)) by lia; f_equal; lia|].
    rewrite (proj2 (Z.ltb_ge w _)) by lia. destruct (_ && _) eqn:E; [breflect; lia|done].
Qed.
End Walk.
End Built.

(** ** The switch *)

Lemma activate_entries cr3 old new s :
  cr3 & not64 0xFFF = old -> is_frame old -> is_frame new -> old <> new -> mem_ok (ld_mem s) ->
  exists s', activate_page_tables cr3 new s = Some (new, s') /\
    (forall i, is_idx i -> ent (ld_mem s') new i = if ent (ld_mem s) new i =? 0 then ent (ld_mem s) old i else ent (ld_mem s) new i) /\
    (forall t, is_frame t -> t <> new -> same_page (ld_mem s) (ld_mem s') t).
Proof.
  intros <- Hold Hnew Hne Hm. set (old := cr3 & not64 0xFFF) in *. unfold activate_page_tables. fold old.
  destruct (forL_rule (fun i s' => mem_ok (ld_mem s') /\ (forall t, is_frame t -> t <> new -> same_page (ld_mem s) (ld_mem s') t) /\
    forall j, is_idx j -> ent (ld_mem s') new j =
      if (j <? i) && (ent (ld_mem s) new j =? 0) then ent (ld_mem s) old j else ent (ld_mem s) new j)
    (fun i => ld n := read_entry new i in if n =? 0 then ld o := read_entry old i in write_entry new i o else retL tt) 512 0 s)
    as (s' & E & _ & Hpg & Hent).
  - intros i s1 Hi (Hm1 & Hpg & Hent). assert (is_idx i) as Hii by (split; lia). rewrite (bindL_ok (read_entry new i) _ s1 (ent (ld_mem s1) new i) s1) by done.
    rewrite (Hent i Hii), Z.ltb_irrefl. cbn [andb]. destruct (Z.eqb_spec (ent (ld_mem s) new i) 0) as [E0|E0].
    + rewrite (bindL_ok (read_entry old i) _ s1 (ent (ld_mem s1) old i) s1) by done.
      pose proof (ent_range (ld_mem s1) old i Hm1) as Hr. eexists. split; [reflexivity|]. cbn [ld_mem]. split_and!.
      * by apply write64_ok.
      * intros t Ht Hnt. eapply same_page_trans; [by apply Hpg|]. by apply same_page_write; [| | |intros <-].
      * intros j Hj. rewrite ent_write by done. case_decide as Ed.
        -- destruct Ed as [_ ->]. rewrite (proj2 (Z.ltb_lt _ _)), E0 by lia. cbn [Z.eqb andb]. by rewrite (same_page_ent (ld_mem s)) by auto.
        -- rewrite Hent by done. destruct (Z.ltb_spec j i), (Z.ltb_spec j (i + 1)); try done; [lia|]. destruct Ed. split; [done|lia].
    + exists s1. split; [done|]. split_and!; [done|done|]. intros j Hj. rewrite Hent by done.
      destruct (Z.ltb_spec j i), (Z.ltb_spec j (i + 1)); cbn [andb]; try done; [lia|]. assert (j = i) as -> by lia.
      by rewrite (proj2 (Z.eqb_neq _ _) E0).
  - split_and!; [done|intros t _ _ x Hx; done|]. intros j Hj. unfold is_idx in Hj. by rewrite (proj2 (Z.ltb_ge j 0)) by lia.
  - exists s'. rewrite (bindL_ok _ _ _ _ _ E). split_and!; [done| |done]. intros i Hi. rewrite Hent by done. unfold is_idx in Hi.
    by rewrite (proj2 (Z.ltb_lt i _)) by lia.
Qed.

(** Nothing of the view is below another entry of the PML4. *)
Lemma boot_view_middle kernel_phys n w : 2 ^ 39 <= w < 255 * 2 ^ 39 -> boot_view kernel_phys n w = None.
Proof.
  intros Hw. unfold boot_view. cbv zeta. rewrite (proj2 (Z.ltb_ge w _)) by lia.
  assert (w < KERNEL_ENTRY_VIRT_ADDR - PHYSICAL_OFFSET) by (unfold KERNEL_ENTRY_VIRT_ADDR, KERNEL_VIRT_BASE, PHYSICAL_OFFSET; lia).
  by rewrite (proj2 (Z.leb_gt _ w)) by lia.
Qed.

(** What the firmware promises: [c] requests succeed with distinct frames,
    none of them the PML4 in use. *)
Record firmware_ok (page : nat -> option Z) (c old : Z) : Prop := {
  fw_page : forall k, 0 <= k < c -> page (Z.to_nat k) = Some (T page k);
  fw_frame : forall k, 0 <= k < c -> is_frame (T page k);
  fw_inj : forall k k', 0 <= k < c -> 0 <= k' < c -> T page k = T page k' -> k = k';
  fw_old : is_frame old /\ forall k, 0 <= k < c -> old <> T page k;
}.

(** C9: The page tables the kernel starts on.  With enough pages from the
    firmware, a page-aligned kernel of at most one gigabyte less the first
    megabyte, the boot loader builds tables that translate the upper half
    exactly as the kernel assumes: the first four gigabytes of physical memory
    at the direct map, the kernel's pages at its link address, nothing else;
    the lower half is empty and memory outside the tables is untouched.
    Switching to them keeps both ranges and takes the lower half from the
    tables in use. *)
Theorem boot_tables_exact page m kernel_phys span cr3 old :
  let n := kernel_pages span in
  firmware_ok page (table_count n) old -> mem_ok m -> cr3 & not64 0xFFF = old ->
  kernel_phys mod 4096 = 0 -> 0 <= kernel_phys -> kernel_phys + n * 4096 <= 2 ^ 52 -> 0 <= span -> n + 256 <= 512 * 512 ->
  exists r s s', setup_page_tables page kernel_phys span (mkLoader m 0) = Some (r, s) /\
    (forall w, 0 <= w < 2 ^ 47 -> walk (ld_mem s) r (PHYSICAL_OFFSET + w) = boot_view kernel_phys n w) /\
    (forall v, is_user v -> walk (ld_mem s) r v = None) /\
    (forall t, is_frame t -> (forall k, 0 <= k < table_count n -> t <> T page k) -> same_page m (ld_mem s) t) /\
    activate_page_tables cr3 r s = Some (r, s') /\
    (forall w p, 0 <= w < 2 ^ 47 -> boot_view kernel_phys n w = Some p -> walk (ld_mem s') r (PHYSICAL_OFFSET + w) = Some p) /\
    (forall v, is_user v -> walk (ld_mem s') r v = walk (ld_mem s') old v).
Proof.
  intros n [F1 F2 F3 [F4 F5]] Hm Hcr3 Hp1 Hp2 Hp3 Hspan Hfit. set (N := table_count n) in *.
  assert (0 <= n) as Hn by (unfold n, kernel_pages, div_ceil; change PAGE_SIZE with 4096; pose proof (Z.div_pos span 4096); case_goal; lia).
  destruct (setup_built page N m F1 F2 Hm F3 kernel_phys (conj Hp1 Hp2) span 0 Hspan Hfit Hp3 ltac:(done) eq_refl) as (s & E & B).
  fold n in B. destruct (table_count_ge n Hn) as [H7 _]. fold N in H7.
  pose proof (F2 0 ltac:(lia)) as HT0.
  destruct (activate_entries cr3 old (T page 0) s Hcr3 F4 HT0 (F5 0 ltac:(lia)) (bt_mem _ _ _ _ _ _ B)) as (s' & E' & Hent & Hpg).
  assert (forall k i, 0 <= k < N -> is_idx i -> ent (ld_mem s) (T page k) i = expected page kernel_phys n k i) as Hs by apply B.
  assert (forall k i, 1 <= k < N -> is_idx i -> ent (ld_mem s') (T page k) i = expected page kernel_phys n k i) as Hs'.
  { intros k i Hk Hi. pose proof (F2 k ltac:(lia)) as HTk. rewrite <- Hs by (done || lia). apply same_page_ent; [|done|done].
    apply Hpg; [done|]. intros Ek. apply F3 in Ek; lia. }
  assert (forall v, is_user v -> is_idx (idx v 39) /\ ent (ld_mem s) (T page 0) (idx v 39) = 0) as Hlow.
  { intros v Hv. pose proof (idx39_user v Hv). pose proof (idx_is_idx v 39 ltac:(lia)). split; [done|]. rewrite Hs by (done || lia). unfold expected.
    entry_cases. }
  assert (forall k, 0 <= k < N -> link (T page k) <> 0) as Hne.
  { intros k Hk. destruct (T_range page N F2 k Hk) as [R1 R2]. by apply link_spec. }
  assert (is_idx 256 /\ is_idx 511) as [I1 I2] by (split; split; lia).
  assert (forall e, e = ent (ld_mem s) (T page 0) 256 -> e = link (T page 1)) as H256 by (intros e ->; by rewrite Hs by (done || lia)).
  assert (forall e, e = ent (ld_mem s) (T page 0) 511 -> e = link (T page 2)) as H511 by (intros e ->; by rewrite Hs by (done || lia)).
  exists (T page 0), s, s'. split_and!; [exact E| | |apply B|exact E'| |].
  - intros w Hw. destruct (address_digits w Hw) as (Da & _).
    rewrite (walk_upper page N F2 kernel_phys (conj Hp1 Hp2) n (ld_mem s) Hn Hfit Hp3); [|done|intros; apply Hs; done || lia|by apply H256|by apply H511|done].
    destruct (_ && _) eqn:Eb; [|done]. breflect. rewrite boot_view_middle by lia. 
    pose proof (Z.div_le_lower_bound w (2 ^ 39) 1 ltac:(lia) ltac:(lia)). pose proof (Z.div_lt_upper_bound w (2 ^ 39) 255 ltac:(lia) ltac:(lia)).
    rewrite Hs by (lia || (split; lia)). unfold expected. cbn [Z.eqb]. by rewrite (proj2 (Z.eqb_neq _ 256)), (proj2 (Z.eqb_neq _ 511)), present_0 by lia.
  - intros v Hv. destruct (Hlow v Hv) as [Hi E0]. unfold walk. by rewrite E0, present_0.
  - intros w p Hw Hp.
    rewrite (walk_upper page N F2 kernel_phys (conj Hp1 Hp2) n (ld_mem s') Hn Hfit Hp3); [|done|intros; apply Hs'; done || lia| | |done].
    + destruct (_ && _) eqn:Eb; [|done]. breflect. by rewrite boot_view_middle in Hp by lia.
    + rewrite Hent, (H256 _ eq_refl) by done. by rewrite (proj2 (Z.eqb_neq _ _) (Hne 1 ltac:(lia))).
    + rewrite Hent, (H511 _ eq_refl) by done. by rewrite (proj2 (Z.eqb_neq _ _) (Hne 2 ltac:(lia))).
  - intros v Hv. destruct (Hlow v Hv) as [Hi E0]. unfold walk. rewrite Hent, E0 by done. cbn [Z.eqb].
    by rewrite (same_page_ent (ld_mem s) (ld_mem s') old) by (done || (apply Hpg; [done|apply F5; lia])).
Qed.

(** A firmware that hands out the pages from 2 MiB on. *)
Definition sample_page (k : nat) : option Z := Some ((512 + Z.of_nat k) * 4096).

Lemma sample_firmware_ok : firmware_ok sample_page 9 0x1000.
Proof.
  assert (forall k, 0 <= k < 9 -> T sample_page k = (512 + k) * 4096) as HT.
  { intros k Hk. unfold T, sample_page. cbn [default]. by rewrite Z2Nat.id by lia. }
  split.
  - intros k Hk. reflexivity.
  - intros k Hk. rewrite HT by done. apply (is_frame_mul (512 + k)). rewrite MAX_FRAMES_eq. lia.
  - intros k k' Hk Hk'. rewrite !HT by done. lia.
  - split; [apply (is_frame_mul 1); rewrite MAX_FRAMES_eq; lia|]. intros k Hk. rewrite HT by done. lia.
Qed.

Lemma boot_tables_exact_witness :
  exists r s, setup_page_tables sample_page 0x100000 0x5000 (mkLoader (fun _ => 0) 0) = Some (r, s) /\
    walk (ld_mem s) r KERNEL_ENTRY_VIRT_ADDR = Some 0x100000 /\ walk (ld_mem s) r 0xFFFF800012345678 = Some 0x12345678.
Proof.
  destruct (boot_tables_exact sample_page (fun _ => 0) 0x100000 0x5000 0x1000 0x1000 sample_firmware_ok) as (r & s & s' & E & Hw & _);
    [intros x; split; reflexivity|reflexivity|reflexivity|lia|vm_compute; congruence|lia|vm_compute; congruence|].
  exists r, s. split_and!; [exact E| |].
  - exact (Hw (KERNEL_ENTRY_VIRT_ADDR - PHYSICAL_OFFSET) ltac:(vm_compute; split; congruence)).
  - exact (Hw 0x12345678 ltac:(vm_compute; split; congruence)).
Defined.

(** ** Loaded files *)

(** A loaded file is at its address in full, in an allocation that holds it. *)
Lemma load_regular_file_spec alloc file spec s f s' :
  load_regular_file alloc file spec s = (inr f, s') -> 0 <= extra_bytes spec ->
  exists bs, bf_info file = inr (lf_file_size f) /\ bf_read file (lf_file_size f) = inr bs /\ Z.of_nat (length bs) = lf_file_size f /\
    (lf_allocation_size f = lf_file_size f + extra_bytes spec \/ lf_allocation_size f = lf_file_size f) /\
    ld_mem s' = store_bytes (ld_mem s) (p2v (lf_addr f)) bs /\
    exists k, alloc k (pages_for (lf_allocation_size f)) (max_address spec) = inr (lf_addr f).
Proof.
  unfold load_regular_file. destruct (bf_info file) as [|size] eqn:Ei; [done|]. unfold checked_add64.
  destruct (size + extra_bytes spec <? U64); [|done]. unfold allocate_file, allocate_max.
  intros H Hx. destruct (alloc (ld_calls s) _ _) as [err|addr] eqn:Ea; cbn [ld_calls ld_mem] in H.
  - destruct (is_status err OUT_OF_RESOURCES && _); [|done]. destruct (alloc (S (ld_calls s)) _ _) as [|addr] eqn:Eb; [done|].
    destruct (bf_read file size) as [|bs] eqn:Er; [done|]. cbn [ld_mem ld_calls] in H.
    destruct (Z.eqb_spec (Z.of_nat (length bs)) size); [|done]. injection H as <- <-. exists bs. cbn [lf_file_size lf_allocation_size lf_addr ld_mem].
    split_and!; eauto.
  - destruct (bf_read file size) as [|bs] eqn:Er; [done|]. cbn [ld_mem ld_calls] in H.
    destruct (Z.eqb_spec (Z.of_nat (length bs)) size); [|done]. injection H as <- <-. exists bs. cbn [lf_file_size lf_allocation_size lf_addr ld_mem].
    split_and!; eauto.
Qed.
