(* ===== verification/BootRun.v ===== *)
(** * The boot loader's main program ([bootloader/src/main.rs], [bootinfo.rs])

    The order of its steps and the information it hands to the kernel.  The
    firmware's answers (the graphics mode, the volume, files, pages and the
    memory map) are arguments. *)

From Stdlib Require Import Ascii String.
From S2P Require Import Prelude Mem Update Fmt Result Boot Pmm Paging PageTables BootLoader.

Local Open Scope string_scope.
Local Open Scope Z_scope.

#[export] Instance eta_boot_info : Eta CoreOS_BootInfo := fun b =>
  Build_CoreOS_BootInfo (fb_base b) (fb_size b) (width b) (height b) (pitch b) (mmap b) (mmap_count b) (kernel_phys_base b)
    (kernel_alloc_size b) (user_elf_base b) (user_elf_size b) (font_base b) (font_size b) (tsc_bootloader_start b).

(** [CoreOsBootInfo::zeroed]. *)
Definition zeroed : CoreOS_BootInfo :=
  Build_CoreOS_BootInfo 0 0 0 0 0 (replicate (Z.to_nat MAX_MMAP_ENTRIES) (sample_entry 0 0 0)) 0 0 0 0 0 0 0 0.

(** The current mode and the framebuffer. *)
Record Gop := mkGop { gop_base : Z; gop_size : Z; gop_width : Z; gop_height : Z; gop_stride : Z }.

(** 500 * 500 pixels from the start of the framebuffer. *)
Definition draw_white_square (bi : CoreOS_BootInfo) (s : Loader) : Loader :=
  mkLoader (fill (ld_mem s) (p2v (fb_base bi)) 0xFF (500 * 500 * 4)) (ld_calls s).

(** ** Steps that may fail *)

(** [uefi::Result] with its status. *)
Definition Uefi (A : Type) : Type := Loader -> (Status + A) * Loader.
Definition bindU {A B} (m : Uefi A) (f : A -> Uefi B) : Uefi B := fun s =>
  match m s with
  | (inr a, s) => f a s
  | (inl err, s) => (inl err, s)
  end.
Definition answer {A} (r : Status + A) : Uefi A := fun s => (r, s).

Notation "'uefi' x ':=' c 'in' k" := (bindU c (fun x => k))
  (at level 10, x pattern, c at level 100, k at level 200) : coreos_scope.

Section Run.
Context (allocate_pages : nat -> Z -> Z -> Status + Z) (open : list Z -> Status + BootFile) (page : nat -> option Z).
Context (gop : Status + Gop) (volume : Status + unit) (memory_map : Status + list MemMapEntry) (cr3 : Z).

(** A failure of the page tables is an allocation failure. *)
Definition lift_tables {A} (m : Ld A) : Uefi A := fun s =>
  match m s with
  | Some (a, s) => (inr a, s)
  | None => (inl OUT_OF_RESOURCES, s)
  end.

(** The two optional files. *)
Definition load_user_elf (bi : CoreOS_BootInfo) : Uefi CoreOS_BootInfo :=
  uefi f := load_optional_file allocate_pages open (lit "\test.elf") asset in
  answer (inr (match f with Some f => bi <| user_elf_base := lf_addr f |> <| user_elf_size := lf_file_size f |> | None => bi end)).

Definition load_font (bi : CoreOS_BootInfo) : Uefi CoreOS_BootInfo :=
  uefi f := load_optional_file allocate_pages open (lit "\font.psfu") asset in
  answer (inr (match f with Some f => bi <| font_base := lf_addr f |> <| font_size := lf_file_size f |> | None => bi end)).

(** The result is the new [CR3], the kernel's entry point and the boot
    information. *)
Definition run (bi : CoreOS_BootInfo) : Uefi (Z * Z * CoreOS_BootInfo) :=
  uefi gop := answer gop in
  uefi _ := answer volume in
  uefi kernel := load_required_file allocate_pages open (lit "\kernel.bin") (kernel_with_extra (128 * 1024 * 1024)) in
  let bi := bi <| kernel_phys_base := lf_addr kernel |> <| kernel_alloc_size := lf_allocation_size kernel |> in
  let bi := bi <| fb_base := gop_base gop |> <| fb_size := gop_size gop |> <| width := gop_width gop |>
               <| height := gop_height gop |> <| pitch := gop_stride gop |> in
  uefi bi := load_user_elf bi in
  uefi bi := load_font bi in
  uefi new_pml4 := lift_tables (setup_page_tables page (lf_addr kernel) (lf_allocation_size kernel)) in
  uefi descs := answer memory_map in
  let bi := capture_memory_map descs bi in
  uefi _ := (fun s => (inr tt, draw_white_square bi s)) in
  uefi cr3 := lift_tables (activate_page_tables cr3 new_pml4) in
  answer (inr (cr3, KERNEL_ENTRY_VIRT_ADDR, bi)).

(** [efi_main]: the time stamp, then [run]. *)
Definition efi_main (tsc : Z) : Uefi (Z * Z * CoreOS_BootInfo) := run (zeroed <| tsc_bootloader_start := tsc |>).

(** ** What the kernel is told *)

Lemma bindU_inr {A B} (m : Uefi A) (f : A -> Uefi B) s b s' : bindU m f s = (inr b, s') -> exists a s1, m s = (inr a, s1) /\ f a s1 = (inr b, s').
Proof. unfold bindU. destruct (m s) as [[err|a] s1]; [done|]. intros E. by exists a, s1. Qed.

Lemma lift_tables_inr {A} (m : Ld A) s a s' : lift_tables m s = (inr a, s') -> m s = Some (a, s').
Proof. unfold lift_tables. destruct (m s) as [[b s1]|]; [|done]. by intros [= -> ->]. Qed.

(** The kernel reads the first 256 entries of the firmware's map. *)
Lemma captured_entries descs bi : entries (capture_memory_map descs bi) = take 256 descs.
Proof.
  unfold entries, capture_memory_map. cbn [mmap mmap_count]. rewrite Nat2Z.id. change (Z.to_nat MAX_MMAP_ENTRIES) with 256%nat.
  by rewrite take_app_length.
Qed.

(** A successful run: the information is what the firmware reported, with the
    kernel where it was loaded, its entry point is the start of the image in
    the tables that were built, and these are the active ones. *)
Lemma run_reports tsc s c entry bi s' : efi_main tsc s = (inr (c, entry, bi), s') ->
  exists g descs kernel s1 s2 s3 s4,
    gop = inr g /\ memory_map = inr descs /\ load_required_file allocate_pages open (lit "\kernel.bin") (kernel_with_extra (128 * 1024 * 1024)) s = (inr kernel, s1) /\
    setup_page_tables page (lf_addr kernel) (lf_allocation_size kernel) s2 = Some (c, s3) /\ activate_page_tables cr3 c s4 = Some (c, s') /\
    entry = KERNEL_ENTRY_VIRT_ADDR /\ kernel_phys_base bi = lf_addr kernel /\ kernel_alloc_size bi = lf_allocation_size kernel /\
    fb_base bi = gop_base g /\ fb_size bi = gop_size g /\ entries bi = take 256 descs /\ tsc_bootloader_start bi = tsc.
Proof.
  unfold efi_main, run. intros H. apply bindU_inr in H as (g & sa & Eg & H). injection Eg as Eg <-.
  apply bindU_inr in H as (u & sb & Eu & H). injection Eu as _ <-.
  apply bindU_inr in H as (kernel & s1 & Ek & H). apply bindU_inr in H as (b1 & sc & E1 & H). apply bindU_inr in H as (b2 & s2 & E2 & H).
  apply bindU_inr in H as (r & s3 & Er%lift_tables_inr & H). apply bindU_inr in H as (descs & sd & Ed & H). injection Ed as Ed <-.
  apply bindU_inr in H as (x & s4 & Ex & H). injection Ex as Ex Es4. apply bindU_inr in H as (c' & s5 & Ec%lift_tables_inr & H). injection H as -> <- <- ->.
  assert (c = r) as ->.
  { unfold activate_page_tables, bindL, retL in Ec. destruct (forL _ _ _) as [[? ?]|]; [|done]. congruence. }
  exists g, descs, kernel, s1, s2, s3, s4. rewrite captured_entries.
  apply bindU_inr in E1 as (f1 & ? & _ & E1). apply bindU_inr in E2 as (f2 & ? & _ & E2). injection E1 as <- _. injection E2 as <- _.
  destruct f1 as [f1|], f2 as [f2|]; split_and!; done.
Qed.
End Run.
