(* ===== verification/Heap.v ===== *)
(** * Kernel heap ([mem/heap.rs]): slab allocator

    Eight size classes; a slab is one page cut into slots of its class, with
    the free slots chained through their first word.  Larger requests go to
    [alloc_frames].  The operations run with interrupts disabled, so each is
    one atomic step on the slab table, the frame allocator and memory. *)

From S2P Require Import Prelude Mem Boot Pmm PageTables.

Definition SIZE_CLASSES : list Z := [16; 32; 64; 128; 256; 512; 1024; 2048].
Definition NUM_CLASSES : nat := length SIZE_CLASSES.
Definition MAX_SLABS_PER_CLASS : nat := 64.

Record SlabHeader := mkSlab {
  page : Z;
  free_head : Z;
  free_count : Z;
  capacity : Z;
}.

Definition SlabHeader_empty : SlabHeader := mkSlab 0 0 0 0.
Definition is_empty_slot (h : SlabHeader) : bool := page h =? 0.

Record HeapState := mkHeap {
  slabs : list (list SlabHeader);
  hp : PMMState;
  hm : Mem;
}.

(** The static [SLABS] table. *)
Definition SLABS_init : list (list SlabHeader) :=
  replicate NUM_CLASSES (replicate MAX_SLABS_PER_CLASS SlabHeader_empty).

Definition class_for (size : Z) : option nat := position (fun s => size <=? s) SIZE_CLASSES.

(** [SIZE_CLASSES[ci]], and row [ci] of the table. *)
Definition class_size (ci : nat) : Z := default 0 (SIZE_CLASSES !! ci).
Definition row (s : HeapState) (ci : nat) : list SlabHeader := default [] (slabs s !! ci).
Definition set_slab (s : HeapState) (ci k : nat) (h : SlabHeader) : HeapState :=
  mkHeap (<[ci := <[k := h]> (row s ci)]> (slabs s)) (hp s) (hm s).

(** Chaining the slots of a new page, last slot first: the memory and the
    head of the chain. *)
Definition init_slots (m : Mem) (pg slot_size cap : Z) : Mem * Z :=
  fold_left (fun st i =>
      let slot_virt := p2v (pg +w i *w slot_size) in
      (write64 (fst st) slot_virt (snd st), slot_virt))
    (reverse (seqZ 0 cap)) (m, 0).

(** The index of the new slab in row [ci]. *)
Definition new_slab (ci : nat) (s : HeapState) : option nat * HeapState :=
  let slot_size := class_size ci in
  match position is_empty_slot (row s ci) with
  | None => (None, s)
  | Some k =>
      match alloc_frame (hp s) (hm s) with
      | (pg, (p, m)) =>
          if pg =? 0 then (None, mkHeap (slabs s) p m)
          else
            let cap := PAGE_SIZE / slot_size in
            let '(m, prev) := init_slots m pg slot_size cap in
            (Some k, set_slab (mkHeap (slabs s) p m) ci k (mkSlab pg prev cap cap))
      end
  end.

(** [layout.size().max(layout.align()).max(size_of::<usize>())]. *)
Definition request_size (size align : Z) : Z := Z.max (Z.max size align) 8.

(** Taking the first free slot of slab [k] of class [ci]. *)
Definition take_slot (ci k : nat) (s : HeapState) : Z * HeapState :=
  let slab := default SlabHeader_empty (row s ci !! k) in
  let slot := free_head slab in
  let slab := mkSlab (page slab) (read64 (hm s) slot) (free_count slab -w 1) (capacity slab) in
  let s := set_slab s ci k slab in
  (slot, mkHeap (slabs s) (hp s) (fill (hm s) slot 0 (class_size ci))).

Definition alloc (size align : Z) (s : HeapState) : Z * HeapState :=
  let size := request_size size align in
  match class_for size with
  | Some ci =>
      match position (fun h => negb (is_empty_slot h) && (0 <? free_count h)) (row s ci) with
      | Some k => take_slot ci k s
      | None => match new_slab ci s with
                | (Some k, s) => take_slot ci k s
                | (None, s) => (0, s)
                end
      end
  | None =>
      let pages_needed := div_ceil size PAGE_SIZE in
      match alloc_frames pages_needed (hp s) (hm s) with
      | (first, (p, m)) =>
          let s := mkHeap (slabs s) p m in
          if first =? 0 then (0, s) else (p2v first, s)
      end
  end.

Definition dealloc (ptr size align : Z) (s : HeapState) : HeapState :=
  if ptr =? 0 then s
  else
    let size := request_size size align in
    match class_for size with
    | Some ci =>
        let addr_phys := v2p ptr in
        match position (fun h => negb (is_empty_slot h) && (page h <=? addr_phys)
                                 && (addr_phys <? page h +w PAGE_SIZE)) (row s ci) with
        | Some k =>
            let slab := default SlabHeader_empty (row s ci !! k) in
            let m := write64 (hm s) ptr (free_head slab) in
            let slab := mkSlab (page slab) ptr (free_count slab +w 1) (capacity slab) in
            let s := set_slab (mkHeap (slabs s) (hp s) m) ci k slab in
            if free_count slab =? capacity slab then
              set_slab (mkHeap (slabs s) (free_frame (hp s) (page slab)) (hm s)) ci k SlabHeader_empty
            else s
        | None => s
        end
    | None =>
        let pages_needed := div_ceil size PAGE_SIZE in
        let addr_phys := v2p ptr in
        mkHeap (slabs s)
          (fold_left (fun p i => free_frame p (addr_phys +w i *w PAGE_SIZE)) (seqZ 0 pages_needed) (hp s))
          (hm s)
    end.

(** ** Free chains *)

Fixpoint walk (m : Mem) (head : Z) (n : nat) : list Z :=
  match n with
  | O => []
  | S n' => head :: walk m (read64 m head) n'
  end.

Lemma walk_ext m m' head n :
  (forall a, a ∈ walk m head n -> read64 m' a = read64 m a) -> walk m' head n = walk m head n.
Proof.
  revert head; induction n as [|n IH]; intros head H; simpl; [done|].
  rewrite H by (simpl; set_solver). f_equal. apply IH. intros a Ha. apply H. simpl. set_solver.
Qed.

(** ** Geometry of slabs *)

Definition slot_addr (pg size i : Z) : Z := pg + i * size + PHYSICAL_OFFSET.
Definition slots (pg size : Z) : list Z := slot_addr pg size <$> seqZ 0 (PAGE_SIZE / size).

(** A slot size: a divisor of the page size that can hold a chain word. *)
Definition good_size (size : Z) : Prop := 8 <= size /\ size * (PAGE_SIZE / size) = PAGE_SIZE.

Lemma class_good ci size : SIZE_CLASSES !! ci = Some size -> good_size size.
Proof.
  intros H. assert (Forall good_size SIZE_CLASSES) as HF
    by (repeat constructor; vm_compute; congruence).
  by eapply Forall_lookup_1 in H.
Qed.

Lemma elem_of_slots pg size a :
  a ∈ slots pg size <-> exists i, a = slot_addr pg size i /\ 0 <= i < PAGE_SIZE / size.
Proof.
  unfold slots. rewrite list_elem_of_fmap. setoid_rewrite elem_of_seqZ. rewrite Z.add_0_l. done.
Qed.

Lemma slots_in_page pg size a :
  good_size size -> a ∈ slots pg size ->
  pg + PHYSICAL_OFFSET <= a /\ a + size <= pg + PHYSICAL_OFFSET + PAGE_SIZE.
Proof.
  intros [H8 Hd] Ha. apply elem_of_slots in Ha as (i & -> & Hi). unfold slot_addr.
  assert (i * size + size <= PAGE_SIZE) by nia. nia.
Qed.

(** Distinct slots of one slab are disjoint. *)
Lemma slots_apart pg size a b :
  good_size size -> a ∈ slots pg size -> b ∈ slots pg size -> a <> b -> a + size <= b \/ b + size <= a.
Proof.
  intros [H8 Hd] Ha Hb Hne. apply elem_of_slots in Ha as (i & -> & Hi).
  apply elem_of_slots in Hb as (j & -> & Hj). unfold slot_addr in *.
  destruct (Z.lt_trichotomy i j) as [H|[->|H]]; [|done|]; nia.
Qed.

(** Slots of slabs on different pages are disjoint. *)
Lemma slots_apart_pages pg pg' size size' a b :
  good_size size -> good_size size' -> is_frame pg -> is_frame pg' -> pg <> pg' ->
  a ∈ slots pg size -> b ∈ slots pg' size' -> a + size <= b \/ b + size' <= a.
Proof.
  intros Hs Hs' Hp Hp' Hne Ha Hb. apply slots_in_page in Ha; [|done]. apply slots_in_page in Hb; [|done].
  pose proof (is_frame_apart pg pg' Hp Hp' Hne). unfold PAGE_SIZE in *. lia.
Qed.

Lemma NoDup_slots pg size : good_size size -> NoDup (slots pg size).
Proof.
  intros [H8 Hd]. apply NoDup_fmap_2; [|apply NoDup_seqZ]. intros i j. unfold slot_addr. nia.
Qed.

(** ** The invariant *)

(** The free slots of a slab. *)
Definition free_slots (m : Mem) (h : SlabHeader) : list Z := walk m (free_head h) (Z.to_nat (free_count h)).

Record slab_ok (p : PMMState) (m : Mem) (size : Z) (h : SlabHeader) : Prop := {
  sl_frame : is_frame (page h);
  sl_used : page h / PAGE_SIZE ∉ free_set p;
  sl_cap : capacity h = PAGE_SIZE / size;
  sl_count : 0 <= free_count h <= capacity h;
  sl_head : is_u64 (free_head h);
  sl_nodup : NoDup (free_slots m h);
  sl_in : forall a, a ∈ free_slots m h -> a ∈ slots (page h) size;
}.

Definition slab_at (s : HeapState) (ci k : nat) (h : SlabHeader) : Prop :=
  exists r, slabs s !! ci = Some r /\ r !! k = Some h.

Record heap_ok (s : HeapState) : Prop := {
  hok_pmm : pmm_ok (hp s);
  hok_mem : mem_ok (hm s);
  hok_len : length (slabs s) = NUM_CLASSES;
  hok_row : forall ci r, slabs s !! ci = Some r -> length r = MAX_SLABS_PER_CLASS;
  hok_slab : forall ci k h, slab_at s ci k h -> page h <> 0 -> slab_ok (hp s) (hm s) (class_size ci) h;
  hok_apart : forall ci k h ci' k' h', slab_at s ci k h -> slab_at s ci' k' h' -> page h <> 0 ->
    page h' = page h -> ci' = ci /\ k' = k;
}.

(** A slot that has been handed out. *)
Definition alloc_in (m : Mem) (ci : nat) (h : SlabHeader) (b size : Z) : Prop :=
  page h <> 0 /\ size = class_size ci /\ b ∈ slots (page h) size /\ b ∉ free_slots m h.

Definition allocated (s : HeapState) (b size : Z) : Prop :=
  exists ci k h, slab_at s ci k h /\ alloc_in (hm s) ci h b size.

(** Handed out by a slab other than [k] of class [ci]. *)
Definition allocated_elsewhere (s : HeapState) (ci k : nat) (b size : Z) : Prop :=
  exists ci' k' h, slab_at s ci' k' h /\ ~ (ci' = ci /\ k' = k) /\ alloc_in (hm s) ci' h b size.

Lemma slab_at_class s ci k h : heap_ok s -> slab_at s ci k h -> good_size (class_size ci).
Proof.
  intros Hs (r & Hr & _). apply lookup_lt_Some in Hr. rewrite (hok_len _ Hs) in Hr.
  destruct (lookup_lt_is_Some_2 SIZE_CLASSES ci Hr) as [size E].
  unfold class_size. rewrite E. by eapply class_good.
Qed.

Lemma slab_at_fun s ci k h h' : slab_at s ci k h -> slab_at s ci k h' -> h = h'.
Proof. intros (r & H1 & H2) (r' & H1' & H2'). congruence. Qed.

Lemma slab_at_row s ci k h : slab_at s ci k h -> row s ci !! k = Some h.
Proof. intros (r & H1 & H2). unfold row. by rewrite H1. Qed.

Lemma row_slab_at s ci k h : row s ci !! k = Some h -> slab_at s ci k h.
Proof. unfold row, slab_at. destruct (slabs s !! ci) as [r|]; [eauto|done]. Qed.

Lemma slab_at_set s ci k h h' p m ci' k' x :
  slab_at s ci k h ->
  slab_at (set_slab (mkHeap (slabs s) p m) ci k h') ci' k' x <->
  ((ci' = ci /\ k' = k /\ x = h') \/ (~ (ci' = ci /\ k' = k) /\ slab_at s ci' k' x)).
Proof.
  intros (r & Hr & Hk). pose proof (lookup_lt_Some _ _ _ Hr) as L1. pose proof (lookup_lt_Some _ _ _ Hk) as L2.
  unfold slab_at, set_slab, row. cbn [slabs]. rewrite Hr. simpl. split.
  - intros (r' & H1 & H2). apply list_lookup_insert_Some in H1 as [(-> & <- & _)|[Hne H1]].
    + apply list_lookup_insert_Some in H2 as [(-> & <- & _)|[Hne H2]]; [by left|].
      right. split; [naive_solver|]. eauto.
    + right. split; [naive_solver|]. eauto.
  - intros [(-> & -> & ->)|[Hne (r' & H1 & H2)]].
    + exists (<[k:=h']> r). split; by apply list_lookup_insert_eq.
    + destruct (decide (ci' = ci)) as [->|Hci].
      * assert (r' = r) as -> by congruence. exists (<[k:=h']> r).
        split; [by apply list_lookup_insert_eq|]. rewrite list_lookup_insert_ne; [done|naive_solver].
      * exists r'. split; [|done]. by rewrite list_lookup_insert_ne.
Qed.

Lemma allocated_split s ci k h b size :
  slab_at s ci k h ->
  allocated s b size <-> (allocated_elsewhere s ci k b size \/ alloc_in (hm s) ci h b size).
Proof.
  intros Hh. split.
  - intros (ci' & k' & h' & H1 & H2). destruct (decide (ci' = ci /\ k' = k)) as [[-> ->]|Hne].
    + right. by rewrite (slab_at_fun _ _ _ _ _ Hh H1).
    + left. exists ci', k', h'. done.
  - intros [(ci' & k' & h' & H1 & _ & H2)|H]; [exists ci', k', h'; done|exists ci, k, h; done].
Qed.

(** The free slots of a slab only depend on its page. *)
Lemma free_slots_page p m m' size h :
  good_size size -> slab_ok p m size h -> same_page m m' (page h) -> free_slots m' h = free_slots m h.
Proof.
  intros Hg [Hf _ _ _ _ _ Hin] Hsame. apply walk_ext. intros a Ha. apply Hin in Ha.
  apply slots_in_page in Ha; [|done]. destruct Hg as [H8 _]. apply read_le_ext. intros x Hx.
  specialize (Hsame (x - p2v (page h))). rewrite p2v_frame0 in Hsame by done.
  replace (page h + PHYSICAL_OFFSET + (x - (page h + PHYSICAL_OFFSET))) with x in Hsame by lia.
  apply Hsame. lia.
Qed.

(** Replacing one slab: what has to be checked, and what it does to the set
    of allocated blocks. *)
Lemma heap_update s ci k h h' p' m' :
  heap_ok s -> slab_at s ci k h -> pmm_ok p' -> mem_ok m' ->
  (page h' <> 0 -> slab_ok p' m' (class_size ci) h') ->
  (forall ci' k' x, slab_at s ci' k' x -> ~ (ci' = ci /\ k' = k) -> page x <> 0 ->
     page x <> page h' /\ (page x / PAGE_SIZE ∉ free_set p') /\ same_page (hm s) m' (page x)) ->
  let s' := set_slab (mkHeap (slabs s) p' m') ci k h' in
  heap_ok s' /\
  forall b size, allocated s' b size <-> (allocated_elsewhere s ci k b size \/ alloc_in m' ci h' b size).
Proof.
  intros Hs Hh Hp Hm Hh' Hother s'.
  assert (Hfree : forall ci' k' x, slab_at s ci' k' x -> ~ (ci' = ci /\ k' = k) -> page x <> 0 ->
    free_slots m' x = free_slots (hm s) x).
  { intros ci' k' x Hx Hne H0. eapply free_slots_page; [by eapply slab_at_class|by eapply hok_slab|].
    by eapply Hother. }
  split.
  - split; try done.
    + unfold s'. simpl. rewrite length_insert. apply Hs.
    + intros ci' r Hr. unfold s' in Hr. simpl in Hr.
      apply list_lookup_insert_Some in Hr as [(_ & <- & _)|[_ Hr]]; [|by eapply hok_row].
      rewrite length_insert. destruct Hh as (r & Hr & _). unfold row. simpl. rewrite Hr. by eapply hok_row.
    + intros ci' k' x Hx H0. apply (slab_at_set s ci k h) in Hx as [(-> & -> & ->)|[Hne Hx]]; [by apply Hh'| |done].
      destruct (hok_slab _ Hs _ _ _ Hx H0) as [A1 A2 A3 A4 A5 A6 A7]. destruct (Hother _ _ _ Hx Hne H0) as (_ & B & _).
      split; try done; simpl; rewrite (Hfree _ _ _ Hx Hne H0); done.
    + intros ci1 k1 h1 ci2 k2 h2 H1 H2 H0 Hpg.
      apply (slab_at_set s ci k h) in H1; [|done]. apply (slab_at_set s ci k h) in H2; [|done].
      destruct H1 as [(-> & -> & ->)|[Hn1 H1]], H2 as [(-> & -> & ->)|[Hn2 H2]].
      * done.
      * destruct (Hother _ _ _ H2 Hn2) as (? & _); congruence.
      * destruct (Hother _ _ _ H1 Hn1) as (? & _); congruence.
      * by eapply hok_apart.
  - intros b size. split.
    + intros (ci' & k' & x & Hx & Hin). apply (slab_at_set s ci k h) in Hx as [(-> & -> & ->)|[Hne Hx]]; [by right| |done].
      left. exists ci', k', x. split_and!; try done. destruct Hin as (H0 & H1 & H2 & H3).
      unfold s' in H3. simpl in H3. rewrite (Hfree _ _ _ Hx Hne H0) in H3. done.
    + intros [(ci' & k' & x & Hx & Hne & H0 & H1 & H2 & H3)|Hin].
      * exists ci', k', x. split; [apply (slab_at_set s ci k h); auto|]. split_and!; try done.
        unfold s'. simpl. by rewrite (Hfree _ _ _ Hx Hne H0).
      * exists ci, k, h'. split; [apply (slab_at_set s ci k h); auto|done].
Qed.

(** ** Taking a slot *)

(** Memory that changes only inside the page of a slab. *)
Definition only_page (m m' : Mem) (pg : Z) : Prop :=
  forall x, x < pg + PHYSICAL_OFFSET \/ pg + PHYSICAL_OFFSET + PAGE_SIZE <= x -> m' x = m x.

Lemma only_page_same m m' pg t :
  only_page m m' pg -> is_frame pg -> is_frame t -> t <> pg -> same_page m m' t.
Proof.
  intros H Hp Ht Hne x Hx. apply H. rewrite p2v_frame0 by done.
  pose proof (is_frame_apart t pg Ht Hp Hne). unfold PAGE_SIZE in *. lia.
Qed.

Lemma only_page_slot m m' pg size a :
  good_size size -> a ∈ slots pg size ->
  (forall x, x < a \/ a + size <= x -> m' x = m x) -> only_page m m' pg.
Proof. intros Hg Ha H x Hx. apply slots_in_page in Ha; [|done]. apply H. lia. Qed.

Lemma fill_outside m a b n x : x < a \/ a + n <= x -> fill m a b n x = m x.
Proof. intros H. unfold fill. range_case x a n; [lia|done]. Qed.

(** The slabs other than [k] of class [ci] when only the page of that slab
    changes and no frame is freed. *)
Lemma other_slabs s ci k h h' p' m' :
  heap_ok s -> slab_at s ci k h -> page h <> 0 -> page h' = page h ->
  (forall f, f ∈ free_set p' -> f ∈ free_set (hp s)) -> only_page (hm s) m' (page h) ->
  forall ci' k' x, slab_at s ci' k' x -> ~ (ci' = ci /\ k' = k) -> page x <> 0 ->
    page x <> page h' /\ (page x / PAGE_SIZE ∉ free_set p') /\ same_page (hm s) m' (page x).
Proof.
  intros Hs Hh H0 Hpg Hf Honly ci' k' x Hx Hne Hx0.
  assert (page x <> page h) as Hd.
  { intros E. apply Hne. eapply (hok_apart s Hs ci k h); eauto. }
  destruct (hok_slab _ Hs _ _ _ Hx Hx0) as [F1 F2 _ _ _ _ _]. destruct (hok_slab _ Hs _ _ _ Hh H0) as [G1 _ _ _ _ _ _].
  split_and!; [congruence|intros ?; by apply F2, Hf|]. by eapply only_page_same.
Qed.

Lemma free_slots_take p m size h :
  good_size size -> slab_ok p m size h -> 0 < free_count h ->
  let a := free_head h in
  let h' := mkSlab (page h) (read64 m a) (free_count h - 1) (capacity h) in
  free_slots m h = a :: free_slots (fill m a 0 size) h'.
Proof.
  intros Hg [Hf _ _ Hc _ Hnd Hin] Hpos a h'. unfold free_slots in *. simpl.
  replace (Z.to_nat (free_count h)) with (S (Z.to_nat (free_count h - 1))) in * by lia. simpl in *.
  f_equal. symmetry. apply walk_ext. intros b Hb. apply list.NoDup_cons in Hnd as [Hna Hnd].
  assert (Ha : a ∈ slots (page h) size) by (apply Hin; set_solver).
  assert (Hbs : b ∈ slots (page h) size) by (apply Hin; set_solver).
  assert (b <> a) as Hne by (intros ->; done).
  pose proof (slots_apart _ _ _ _ Hg Hbs Ha Hne). destruct Hg as [H8 _].
  apply read_le_fill_disj. simpl. lia.
Qed.

Lemma take_slot_spec s ci k h :
  heap_ok s -> slab_at s ci k h -> page h <> 0 -> 0 < free_count h ->
  exists s', take_slot ci k s = (free_head h, s') /\ heap_ok s' /\
    free_head h ∈ slots (page h) (class_size ci) /\ free_head h ∈ free_slots (hm s) h /\
    (forall b size, allocated s' b size <-> (allocated s b size \/ (b = free_head h /\ size = class_size ci))) /\
    hp s' = hp s /\ hm s' = fill (hm s) (free_head h) 0 (class_size ci).
Proof.
  intros Hs Hh H0 Hpos. set (a := free_head h). set (size := class_size ci).
  pose proof (slab_at_class _ _ _ _ Hs Hh) as Hg. fold size in Hg.
  pose proof (hok_slab _ Hs _ _ _ Hh H0) as Hok. fold size in Hok.
  pose proof (free_slots_take _ _ _ _ Hg Hok Hpos) as Htake. cbn zeta in Htake. fold a in Htake.
  pose proof Hok as [F1 F2 F3 F4 F7 F5 F6]. rewrite Htake in F5. apply list.NoDup_cons in F5 as [Hna Hnd].
  set (h' := mkSlab (page h) (read64 (hm s) a) (free_count h - 1) (capacity h)) in *.
  assert (Ha : a ∈ slots (page h) size) by (apply F6; rewrite Htake; set_solver).
  assert (Honly : only_page (hm s) (fill (hm s) a 0 size) (page h))
    by (eapply only_page_slot; eauto using fill_outside).
  destruct (heap_update s ci k h h' (hp s) (fill (hm s) a 0 size) Hs Hh) as [Hs' Hal].
  - apply Hs.
  - apply fill_ok; [split; [lia|reflexivity]|apply Hs].
  - intros _. split; simpl; try done; [lia|by apply read64_range, Hs|]. intros b Hb. apply F6. rewrite Htake. set_solver.
  - by apply other_slabs with (h := h).
  - eexists. split_and!; [| exact Hs'|done|rewrite Htake; set_solver| |done|done].
    + unfold take_slot. rewrite (slab_at_row _ _ _ _ Hh). simpl. unfold h', a, size.
      rewrite wrap64_small; [done|]. assert (capacity h <= PAGE_SIZE).
      { rewrite F3. apply Z.div_le_upper_bound; [|]; destruct Hg; unfold PAGE_SIZE; lia. }
      unfold U64, PAGE_SIZE in *. lia.
    + intros b sz. rewrite Hal, (allocated_split s ci k h) by done. unfold alloc_in. fold size. simpl.
      rewrite Htake, not_elem_of_cons. destruct (decide (b = a)) as [->|]; naive_solver.
Qed.

(** ** A new slab *)

Lemma slot_addr_p2v pg size i :
  is_frame pg -> good_size size -> 0 <= i < PAGE_SIZE / size ->
  p2v (pg +w i *w size) = slot_addr pg size i.
Proof.
  intros Hf [H8 Hd] Hi. pose proof (is_frame_bounds pg Hf).
  assert (0 <= i * size /\ i * size + size <= 4096) by (unfold PAGE_SIZE in *; nia).
  rewrite (wrap64_small (i * size)) by (unfold U64; lia). rewrite wrap64_small by (unfold U64; lia).
  apply p2v_frame; [done|lia].
Qed.

Lemma write64_outside m a v x : x < a \/ a + 8 <= x -> write64 m a v x = m x.
Proof. intros H. unfold write64, write_le. range_case x a (Z.of_nat 8); [lia|done]. Qed.

Lemma slot_addr_u64 pg size i :
  is_frame pg -> good_size size -> 0 <= i < PAGE_SIZE / size -> 0 < slot_addr pg size i < U64.
Proof.
  intros Hf [H8 Hd] Hi. pose proof (is_frame_bounds pg Hf). unfold slot_addr, PHYSICAL_OFFSET, U64.
  assert (0 <= i * size /\ i * size + size <= 4096) by (unfold PAGE_SIZE in *; nia). lia.
Qed.

(** The initialisation loop chains the slots in address order. *)
Lemma init_slots_chain pg size m n :
  is_frame pg -> good_size size -> mem_ok m -> 0 <= n -> forall lo, 0 <= lo -> lo + n <= PAGE_SIZE / size ->
  let st := fold_left (fun st i => let slot_virt := p2v (pg +w i *w size) in
              (write64 (fst st) slot_virt (snd st), slot_virt)) (reverse (seqZ lo n)) (m, 0) in
  walk (fst st) (snd st) (Z.to_nat n) = slot_addr pg size <$> seqZ lo n /\
  only_page m (fst st) pg /\ mem_ok (fst st) /\ is_u64 (snd st).
Proof.
  intros Hf Hg Hm Hn. pattern n. apply natlike_ind; [| |done]; clear n Hn.
  - intros lo _ _. simpl. split_and!; done || (split; [lia|reflexivity]).
  - intros n Hn IH lo Hlo Hcap. rewrite seqZ_cons by lia. replace (Z.pred (Z.succ n)) with n by lia.
    rewrite reverse_cons, fold_left_app. destruct (IH (Z.succ lo)) as (H1 & H2 & H3 & H4); [lia..|].
    set (st := fold_left _ (reverse (seqZ (Z.succ lo) n)) (m, 0)) in *.
    rewrite fmap_cons. cbn [fold_left fst snd].
    rewrite slot_addr_p2v by (done || lia). pose proof (slot_addr_u64 pg size lo Hf Hg ltac:(lia)).
    pose proof Hg as [H8 Hd].
    assert (Hlo' : slot_addr pg size lo ∈ slots pg size) by (apply elem_of_slots; exists lo; split; [done|lia]).
    replace (Z.to_nat (Z.succ n)) with (S (Z.to_nat n)) by lia. split_and!.
    + cbn [walk]. f_equal. rewrite read64_write64_same by done. rewrite <- H1. apply walk_ext. intros a Ha.
      rewrite H1 in Ha. apply list_elem_of_fmap in Ha as (j & -> & Hj). apply elem_of_seqZ in Hj.
      apply read64_write64_disj. unfold slot_addr. nia.
    + intros x Hx. apply slots_in_page in Hlo'; [|done]. rewrite write64_outside by lia. by apply H2.
    + by apply write64_ok.
    + unfold is_u64. lia.
Qed.

Lemma init_slots_spec m pg size :
  is_frame pg -> good_size size -> mem_ok m ->
  let st := init_slots m pg size (PAGE_SIZE / size) in
  walk (fst st) (snd st) (Z.to_nat (PAGE_SIZE / size)) = slots pg size /\
  only_page m (fst st) pg /\ mem_ok (fst st) /\ is_u64 (snd st).
Proof.
  intros Hf Hg Hm. pose proof Hg as [H8 Hd].
  assert (0 <= PAGE_SIZE / size) by (apply Z.div_pos; unfold PAGE_SIZE; lia).
  destruct (init_slots_chain pg size m (PAGE_SIZE / size) Hf Hg Hm ltac:(lia) 0) as (H1 & H2 & H3 & H4); [lia..|].
  done.
Qed.

Lemma new_slab_spec s ci :
  heap_ok s -> (ci < NUM_CLASSES)%nat ->
  (exists s', new_slab ci s = (None, s') /\ s' = s /\
     (position is_empty_slot (row s ci) = None \/ free_set (hp s) = ∅)) \/
  exists k h s' pg, new_slab ci s = (Some k, s') /\ heap_ok s' /\ slab_at s' ci k h /\
    page h = pg /\ page h <> 0 /\ 0 < free_count h /\
    (forall b size, allocated s' b size <-> allocated s b size) /\
    (pg / PAGE_SIZE ∈ free_set (hp s)) /\ free_set (hp s') = free_set (hp s) ∖ {[pg / PAGE_SIZE]} /\
    only_page (hm s) (hm s') pg.
Proof.
  intros Hs Hci. unfold new_slab.
  destruct (position is_empty_slot (row s ci)) as [k|] eqn:Epos; [|left; eauto].
  destruct (alloc_frame_cases (hp s) (hm s) (hok_pmm _ Hs))
    as [[-> HF]|(f & p' & -> & Hin & _ & HF & Hok)].
  { left. simpl. exists s. destruct s; auto. }
  right. apply position_Some in Epos as (h & Hh & Hempty & _). apply row_slab_at in Hh.
  unfold is_empty_slot in Hempty. apply Z.eqb_eq in Hempty.
  pose proof (slab_at_class _ _ _ _ Hs Hh) as Hg. set (size := class_size ci) in *.
  pose proof (pmm_ok_pos _ _ (hok_pmm _ Hs) Hin) as Hf. set (pg := f * PAGE_SIZE).
  assert (Hpg : is_frame pg) by by apply is_frame_mul.
  assert (Hdiv : pg / PAGE_SIZE = f) by (apply Z.div_mul; done).
  pose proof (is_frame_bounds _ Hpg) as Hpb. destruct (Z.eqb_spec pg 0); [lia|].
  set (m1 := fill (hm s) (p2v pg) 0 PAGE_SIZE).
  assert (Hm1 : mem_ok m1) by (apply fill_ok; [split; [lia|reflexivity]|apply Hs]).
  destruct (init_slots_spec m1 pg size Hpg Hg Hm1) as (Hw & Honly & Hm2 & Hu2).
  destruct (init_slots m1 pg size (PAGE_SIZE / size)) as [m2 prev] eqn:Einit. simpl in Hw, Honly, Hm2, Hu2.
  assert (Honly2 : only_page (hm s) m2 pg).
  { intros x Hx. rewrite Honly by done. apply fill_outside. rewrite p2v_frame0 by done. lia. }
  set (h' := mkSlab pg prev (PAGE_SIZE / size) (PAGE_SIZE / size)).
  pose proof Hg as [H8 Hd].
  assert (0 < PAGE_SIZE / size) by (unfold PAGE_SIZE in *; nia).
  destruct (heap_update s ci k h h' p' m2 Hs Hh Hok Hm2) as [Hs' Hal].
  - intros _. split; simpl; try done; [|lia| |].
    + rewrite Hdiv, HF. set_solver.
    + unfold free_slots. simpl. rewrite Hw. by apply NoDup_slots.
    + unfold free_slots. simpl. by rewrite Hw.
  - intros ci' k' x Hx Hne Hx0. destruct (hok_slab _ Hs _ _ _ Hx Hx0) as [G1 G2 _ _ _ _ _]. simpl.
    assert (page x <> pg) by (intros E; rewrite E, Hdiv in G2; done).
    split_and!; [done|rewrite HF; set_solver|by eapply only_page_same].
  - exists k, h', (set_slab (mkHeap (slabs s) p' m2) ci k h'), pg. split_and!; try done.
    + apply (slab_at_set s ci k h); auto.
    + intros b sz. rewrite Hal, (allocated_split s ci k h) by done. unfold alloc_in, free_slots. simpl.
      rewrite Hw. fold size. split; intros [He|(E1 & E2 & E3 & E4)]; auto; exfalso; congruence.
    + by rewrite Hdiv.
    + simpl. by rewrite HF, Hdiv.
Qed.

(** ** Correctness *)

Lemma position_free_slab s ci k :
  position (fun h => negb (is_empty_slot h) && (0 <? free_count h)) (row s ci) = Some k ->
  exists h, slab_at s ci k h /\ page h <> 0 /\ 0 < free_count h.
Proof.
  intros H. apply position_Some in H as (h & Hh & Hb & _). exists h. unfold is_empty_slot in Hb. breflect.
  split_and!; [by apply row_slab_at|done|done].
Qed.

Lemma class_for_spec size ci :
  class_for size = Some ci -> (ci < NUM_CLASSES)%nat /\ size <= class_size ci.
Proof.
  intros H. apply position_Some in H as (x & Hx & Hle & _). apply Z.leb_le in Hle.
  split; [by eapply lookup_lt_Some|]. unfold class_size. by rewrite Hx.
Qed.

Lemma good_size_class ci : (ci < NUM_CLASSES)%nat -> good_size (class_size ci).
Proof.
  intros H. destruct (lookup_lt_is_Some_2 SIZE_CLASSES ci H) as [x Hx].
  unfold class_size. rewrite Hx. by eapply class_good.
Qed.

Lemma class_size_inj ci ci' :
  (ci < NUM_CLASSES)%nat -> (ci' < NUM_CLASSES)%nat -> class_size ci = class_size ci' -> ci = ci'.
Proof.
  intros H H'. destruct (lookup_lt_is_Some_2 SIZE_CLASSES ci H) as [x Hx].
  destruct (lookup_lt_is_Some_2 SIZE_CLASSES ci' H') as [x' Hx'].
  unfold class_size. rewrite Hx, Hx'. simpl. intros ->.
  eapply NoDup_lookup; [|done..]. vm_compute. repeat constructor; set_solver.
Qed.

(** Allocated blocks are disjoint. *)
Lemma allocated_disjoint s b size b' size' :
  heap_ok s -> allocated s b size -> allocated s b' size' -> b <> b' ->
  b + size <= b' \/ b' + size' <= b.
Proof.
  intros Hs (ci & k & h & Hh & H0 & -> & Hb & _) (ci' & k' & h' & Hh' & H0' & -> & Hb' & _) Hne.
  pose proof (slab_at_class _ _ _ _ Hs Hh) as Hg. pose proof (slab_at_class _ _ _ _ Hs Hh') as Hg'.
  destruct (decide (page h' = page h)) as [E|E].
  - destruct (hok_apart _ Hs _ _ _ _ _ _ Hh Hh' H0 E) as [-> ->].
    assert (h' = h) as -> by by eapply slab_at_fun. by eapply slots_apart.
  - eapply slots_apart_pages; [done|done| | | |done|done];
      [by apply (hok_slab _ Hs _ _ _ Hh)|by apply (hok_slab _ Hs _ _ _ Hh')|done].
Qed.

(** An allocated block lies in a used frame. *)
Lemma allocated_frame s b size :
  heap_ok s -> allocated s b size ->
  exists t, is_frame t /\ (t / PAGE_SIZE ∉ free_set (hp s)) /\
    t + PHYSICAL_OFFSET <= b /\ b + size <= t + PHYSICAL_OFFSET + PAGE_SIZE /\ 8 <= size.
Proof.
  intros Hs (ci & k & h & Hh & H0 & -> & Hb & _). pose proof (slab_at_class _ _ _ _ Hs Hh) as Hg.
  destruct (hok_slab _ Hs _ _ _ Hh H0) as [F1 F2 _ _ _ _ _]. apply slots_in_page in Hb; [|done].
  exists (page h). destruct Hg. split_and!; try done; lia.
Qed.

Lemma slots_aligned pg size a : is_frame pg -> good_size size -> a ∈ slots pg size -> a mod size = 0.
Proof.
  intros [Hm _] [H8 Hd] Ha. apply elem_of_slots in Ha as (i & -> & _). unfold slot_addr.
  apply Z.mod_divide; [lia|]. assert ((size | PAGE_SIZE)) as Hdiv by (exists (PAGE_SIZE / size); lia).
  apply Z.divide_add_r; [apply Z.divide_add_r|].
  - apply Z.mod_divide in Hm; [|done]. by etrans.
  - by exists i.
  - etrans; [done|]. exists (PHYSICAL_OFFSET / PAGE_SIZE). reflexivity.
Qed.

Lemma take_slot_fresh s ci k h s' ptr :
  heap_ok s -> slab_at s ci k h -> page h <> 0 -> 0 < free_count h -> take_slot ci k s = (ptr, s') ->
  heap_ok s' /\ ptr <> 0 /\ ptr mod class_size ci = 0 /\
  (forall b size, allocated s b size -> ptr + class_size ci <= b \/ b + size <= ptr) /\
  (forall b size, allocated s' b size <-> (allocated s b size \/ (b = ptr /\ size = class_size ci))) /\
  (forall x, hm s' x = if in_range x ptr (class_size ci) then 0 else hm s x) /\
  hp s' = hp s.
Proof.
  intros Hs Hh H0 Hc E. destruct (take_slot_spec s ci k h Hs Hh H0 Hc) as (s1 & E1 & Hs1 & Hsl & Hfr & Hal & Hp & Hm).
  rewrite E1 in E. injection E as <- <-. pose proof (slab_at_class _ _ _ _ Hs Hh) as Hg.
  destruct (hok_slab _ Hs _ _ _ Hh H0) as [F1 _ _ _ _ _ _]. split_and!; try done.
  - apply slots_in_page in Hsl; [|done]. pose proof (is_frame_bounds _ F1). unfold PHYSICAL_OFFSET in *. lia.
  - by eapply slots_aligned.
  - intros b size Hb. assert (b <> free_head h) as Hne.
    { intros ->. destruct Hb as (ci' & k' & h' & Hh' & H0' & -> & Hb & Hnf).
      destruct (decide (page h' = page h)) as [Epg|Epg].
      - destruct (hok_apart _ Hs _ _ _ _ _ _ Hh Hh' H0 Epg) as [-> ->].
        rewrite (slab_at_fun _ _ _ _ _ Hh' Hh) in Hnf. done.
      - pose proof (slab_at_class _ _ _ _ Hs Hh') as Hg'.
        destruct (hok_slab _ Hs _ _ _ Hh' H0') as [F1' _ _ _ _ _ _].
        pose proof (slots_apart_pages _ _ _ _ _ _ Hg' Hg F1' F1 Epg Hb Hsl). destruct Hg, Hg'. lia. }
    assert (allocated s1 (free_head h) (class_size ci)) as Hnew by (apply Hal; auto).
    assert (allocated s1 b size) as Hb1 by (apply Hal; auto).
    pose proof (allocated_disjoint s1 _ _ _ _ Hs1 Hnew Hb1 ltac:(congruence)). lia.
  - intros x. by rewrite Hm.
Qed.

(** The bytes of every allocated block of [s] are the same in [m']. *)
Definition blocks_kept (s : HeapState) (m' : Mem) : Prop :=
  forall b size x, allocated s b size -> b <= x < b + size -> m' x = hm s x.

Lemma only_page_blocks s m' pg :
  heap_ok s -> is_frame pg -> pg / PAGE_SIZE ∈ free_set (hp s) -> only_page (hm s) m' pg -> blocks_kept s m'.
Proof.
  intros Hs Hf Hfree Honly b size x Hb Hx. destruct (allocated_frame s b size Hs Hb) as (t & Ht & Hu & H1 & H2 & _).
  assert (t <> pg) as Hne by (intros ->; done). pose proof (is_frame_apart t pg Ht Hf Hne).
  apply Honly. unfold PAGE_SIZE in *. lia.
Qed.

(** Outcome of a small allocation of class [ci]. *)
Definition small_alloc_post (ci : nat) (s : HeapState) (ptr : Z) (s' : HeapState) : Prop :=
  ptr <> 0 /\ ptr mod class_size ci = 0 /\
  (forall b size, allocated s b size -> ptr + class_size ci <= b \/ b + size <= ptr) /\
  (forall b size, allocated s' b size <-> (allocated s b size \/ (b = ptr /\ size = class_size ci))) /\
  (forall x, ptr <= x < ptr + class_size ci -> hm s' x = 0) /\ blocks_kept s (hm s').

Lemma take_slot_post s0 s ci k h s' ptr :
  heap_ok s -> slab_at s ci k h -> page h <> 0 -> 0 < free_count h -> take_slot ci k s = (ptr, s') ->
  (forall b size, allocated s b size <-> allocated s0 b size) -> blocks_kept s0 (hm s) ->
  heap_ok s' /\ small_alloc_post ci s0 ptr s'.
Proof.
  intros Hs Hh H0 Hc E Heq Hkept.
  destruct (take_slot_fresh s ci k h s' ptr Hs Hh H0 Hc E) as (Hs' & Hnz & Hal & Hdis & Hall & Hm & _).
  split; [done|]. split_and!; try done.
  - intros b size Hb. apply Hdis. by apply Heq.
  - intros b size. rewrite Hall, Heq. done.
  - intros x Hx. rewrite Hm. by rewrite (proj2 (in_range_spec x ptr (class_size ci)) Hx).
  - intros b size x Hb Hx. rewrite Hm. rewrite <- (Hkept b size x) by done.
    apply Heq in Hb. specialize (Hdis b size Hb). range_case x ptr (class_size ci); [lia|done].
Qed.

Lemma alloc_small s size align ci :
  heap_ok s -> class_for (request_size size align) = Some ci ->
  let '(ptr, s') := alloc size align s in
  heap_ok s' /\ (small_alloc_post ci s ptr s' \/ (ptr = 0 /\ s' = s /\
    (forall k h, slab_at s ci k h -> page h = 0 \/ free_count h <= 0) /\
    (position is_empty_slot (row s ci) = None \/ free_set (hp s) = ∅))).
Proof.
  intros Hs Hci. pose proof (class_for_spec _ _ Hci) as [Hlt _]. unfold alloc. rewrite Hci.
  destruct (position _ (row s ci)) as [k|] eqn:Epos.
  - apply position_free_slab in Epos as (h & Hh & H0 & Hc). destruct (take_slot ci k s) as [ptr s'] eqn:E.
    destruct (take_slot_post s s ci k h s' ptr) as [? ?]; try done. auto.
  - destruct (new_slab_spec s ci Hs Hlt) as [(s' & -> & -> & Hwhy)|(k & h & s1 & pg & -> & Hs1 & Hh & Hpg & H0 & Hc & Hal & Hfree & _ & Honly)].
    + split; [done|]. right. split_and!; try done. intros k h Hh. apply slab_at_row in Hh.
      pose proof (position_None _ _ Epos k h Hh) as Hf. cbn beta in Hf.
      apply andb_false_iff in Hf as [Hf|Hf]; breflect; [|by right].
      left. unfold is_empty_slot in Hf. by apply Z.eqb_eq.
    + destruct (take_slot ci k s1) as [ptr s'] eqn:E.
      destruct (take_slot_post s s1 ci k h s' ptr) as [? ?]; try done; [|by auto].
      eapply only_page_blocks; eauto. rewrite <- Hpg. apply (hok_slab _ Hs1 _ _ _ Hh H0).
Qed.

(** C17: Small allocations.  A request that fits a size class gets a block of
    that class: aligned to the class size, zeroed, disjoint from every block
    allocated before, with all earlier blocks keeping their bytes; the set of
    allocated blocks grows by exactly this block, and the slab invariant is
    kept.  Null is returned, with nothing changed, only when no slab of the
    class has a free slot and no slab can be added (the 64 slabs are in use,
    or no frame is free). *)
Theorem heap_alloc_small s size align ci :
  heap_ok s -> class_for (request_size size align) = Some ci ->
  let '(ptr, s') := alloc size align s in
  heap_ok s' /\ size <= class_size ci /\ align <= class_size ci /\
  (small_alloc_post ci s ptr s' \/ (ptr = 0 /\ s' = s /\
    (forall k h, slab_at s ci k h -> page h = 0 \/ free_count h <= 0) /\
    (position is_empty_slot (row s ci) = None \/ free_set (hp s) = ∅))).
Proof.
  intros Hs Hci. pose proof (alloc_small s size align ci Hs Hci) as H.
  destruct (alloc size align s) as [ptr s']. pose proof (class_for_spec _ _ Hci) as [_ Hle].
  unfold request_size in Hle. destruct H as [? ?]. split_and!; try done; lia.
Qed.

(** ** Freeing a block *)

Lemma find_block s ci k h ptr :
  heap_ok s -> slab_at s ci k h -> page h <> 0 -> ptr ∈ slots (page h) (class_size ci) ->
  position (fun h => negb (is_empty_slot h) && (page h <=? v2p ptr)
                     && (v2p ptr <? page h +w PAGE_SIZE)) (row s ci) = Some k.
Proof.
  intros Hs Hh H0 Hp. pose proof (slab_at_class _ _ _ _ Hs Hh) as Hg.
  destruct (hok_slab _ Hs _ _ _ Hh H0) as [F1 _ _ _ _ _ _].
  pose proof (slots_in_page _ _ _ Hg Hp) as Hr. pose proof (is_frame_bounds _ F1) as Hb. destruct Hg as [H8 _].
  assert (Hv : v2p ptr = ptr - PHYSICAL_OFFSET).
  { unfold v2p. destruct (Z.leb_spec PHYSICAL_OFFSET ptr); [|lia]. apply wrap64_small.
    unfold U64, PAGE_SIZE in *. lia. }
  assert (Hw : forall t, is_frame t -> t +w PAGE_SIZE = t + PAGE_SIZE).
  { intros t Ht. apply is_frame_bounds in Ht. apply wrap64_small. unfold U64, PAGE_SIZE. lia. }
  rewrite Hv. destruct (position _ (row s ci)) as [k'|] eqn:E.
  - apply position_Some in E as (h' & Hh' & Hb' & _). apply row_slab_at in Hh'.
    unfold is_empty_slot in Hb'. breflect. f_equal.
    destruct (hok_slab _ Hs _ _ _ Hh' ltac:(done)) as [F1' _ _ _ _ _ _]. rewrite Hw in * by done.
    assert (page h' = page h) as Epg.
    { destruct (decide (page h' = page h)) as [|Hne]; [done|].
      pose proof (is_frame_apart _ _ F1' F1 Hne). unfold PAGE_SIZE in *. lia. }
    by eapply (hok_apart _ Hs ci k h ci k' h').
  - exfalso. pose proof (position_None _ _ E k h (slab_at_row _ _ _ _ Hh)) as Hf. cbn beta in Hf.
    rewrite Hw in Hf by done. unfold is_empty_slot in Hf.
    destruct (Z.eqb_spec (page h) 0), (Z.leb_spec (page h) (ptr - PHYSICAL_OFFSET)),
      (Z.ltb_spec (ptr - PHYSICAL_OFFSET) (page h + PAGE_SIZE)); simpl in Hf; done || lia.
Qed.

(** Pushing a block on the free chain of its slab. *)
Lemma free_slots_push p m size h ptr :
  good_size size -> slab_ok p m size h -> ptr ∈ slots (page h) size -> ptr ∉ free_slots m h ->
  let h' := mkSlab (page h) ptr (free_count h + 1) (capacity h) in
  free_slots (write64 m ptr (free_head h)) h' = ptr :: free_slots m h.
Proof.
  intros Hg [F1 F2 F3 F4 Hu F5 F6] Hp Hn h'. unfold free_slots in *. simpl.
  replace (Z.to_nat (free_count h + 1)) with (S (Z.to_nat (free_count h))) by lia. simpl. f_equal.
  rewrite read64_write64_same by done. apply walk_ext. intros a Ha.
  pose proof (slots_apart _ _ a ptr Hg (F6 _ Ha) Hp ltac:(congruence)). destruct Hg.
  apply read64_write64_disj. lia.
Qed.

(** A used slot is not in the chain, so there is room to push it. *)
Lemma free_slots_room p m size h ptr :
  good_size size -> slab_ok p m size h -> ptr ∈ slots (page h) size -> ptr ∉ free_slots m h ->
  free_count h + 1 <= capacity h /\
  (free_count h + 1 = capacity h -> forall b, b ∈ slots (page h) size -> b = ptr \/ b ∈ free_slots m h).
Proof.
  intros Hg [F1 F2 F3 F4 Hu F5 F6] Hp Hn.
  assert (Hlen : forall n a, length (walk m a n) = n) by (induction n; simpl; auto).
  assert (Hsub : ptr :: free_slots m h ⊆+ slots (page h) size).
  { apply NoDup_submseteq; [by apply list.NoDup_cons|]. intros x. rewrite elem_of_cons. intros [->|Hx]; auto. }
  pose proof (submseteq_length _ _ Hsub) as Hle.
  assert (length (slots (page h) size) = Z.to_nat (capacity h)) as Hls
    by (unfold slots; rewrite length_fmap, length_seqZ, F3; done).
  simpl in Hle. unfold free_slots in Hle at 1. rewrite Hlen, Hls in Hle. split; [lia|].
  intros Hfull b Hb. apply submseteq_length_Permutation in Hsub.
  - rewrite <- Hsub in Hb. by apply elem_of_cons in Hb.
  - rewrite Hls. simpl. unfold free_slots. rewrite Hlen. lia.
Qed.

(** The state after pushing block [ptr] of slab [k], before the test for an
    empty slab. *)
Lemma dealloc_push s ci k h ptr :
  heap_ok s -> slab_at s ci k h -> alloc_in (hm s) ci h ptr (class_size ci) ->
  let m' := write64 (hm s) ptr (free_head h) in
  let h' := mkSlab (page h) ptr (free_count h + 1) (capacity h) in
  let s' := set_slab (mkHeap (slabs s) (hp s) m') ci k h' in
  heap_ok s' /\ slab_at s' ci k h' /\
  (forall b size, allocated s' b size <-> (allocated s b size /\ b <> ptr)) /\
  only_page (hm s) m' (page h).
Proof.
  intros Hs Hh (H0 & _ & Hp & Hn) m' h' s'. pose proof (slab_at_class _ _ _ _ Hs Hh) as Hg.
  pose proof (hok_slab _ Hs _ _ _ Hh H0) as Hok.
  pose proof (free_slots_push _ _ _ _ _ Hg Hok Hp Hn) as Hpush. cbn zeta in Hpush. fold m' h' in Hpush.
  destruct (free_slots_room _ _ _ _ _ Hg Hok Hp Hn) as [Hroom _].
  pose proof Hok as [F1 F2 F3 F4 Hu F5 F6].
  assert (Honly : only_page (hm s) m' (page h)).
  { intros x Hx. apply slots_in_page in Hp; [|done]. destruct Hg. apply write64_outside. lia. }
  assert (Hpu : is_u64 ptr).
  { apply elem_of_slots in Hp as (i & -> & Hi). pose proof (slot_addr_u64 _ _ _ F1 Hg Hi). unfold is_u64. lia. }
  destruct (heap_update s ci k h h' (hp s) m' Hs Hh) as [Hs' Hal].
  - apply Hs.
  - apply write64_ok, Hs.
  - intros _. split; simpl; try done; [lia|rewrite Hpush; by apply list.NoDup_cons|].
    intros a. rewrite Hpush, elem_of_cons. intros [->|?]; auto.
  - by apply other_slabs with (h := h).
  - split_and!; [done|apply (slab_at_set s ci k h); auto| |done].
    intros b size. unfold s'. rewrite Hal, (allocated_split s ci k h) by done. unfold alloc_in. simpl.
    rewrite Hpush, not_elem_of_cons. split; [|naive_solver]. intros [He|?]; [|naive_solver].
    split; [by left|]. intros ->. destruct He as (ci' & k' & x & Hx & Hne & Hx0 & -> & Hpx & _).
    pose proof (slab_at_class _ _ _ _ Hs Hx) as Hgx. destruct (hok_slab _ Hs _ _ _ Hx Hx0) as [F1x _ _ _ _ _ _].
    destruct (decide (page x = page h)) as [E|E].
    + apply Hne. by eapply (hok_apart _ Hs ci k h ci' k' x).
    + pose proof (slots_apart_pages _ _ _ _ _ _ Hgx Hg F1x F1 E Hpx Hp). destruct Hg, Hgx. lia.
Qed.

(** C24: Freeing a block.  [dealloc] of an allocated block, with the layout it
    was allocated with, removes exactly that block from the set of allocated
    blocks (returning the page to the frame allocator when it was the last
    block of its slab), keeps the slab invariant and the bytes of every other
    block. *)
Theorem heap_dealloc_small s ptr size align ci :
  heap_ok s -> class_for (request_size size align) = Some ci -> allocated s ptr (class_size ci) ->
  let s' := dealloc ptr size align s in
  heap_ok s' /\
  (forall b sz, allocated s' b sz <-> (allocated s b sz /\ b <> ptr)) /\
  (forall b sz x, allocated s' b sz -> b <= x < b + sz -> hm s' x = hm s x).
Proof.
  intros Hs Hci (ci' & k & h & Hh & Hin). pose proof (class_for_spec _ _ Hci) as [Hlt _].
  assert (ci' = ci) as ->.
  { destruct Hh as (r & Hr & _). apply lookup_lt_Some in Hr. rewrite (hok_len _ Hs) in Hr.
    destruct Hin as (_ & Heq & _). symmetry. by apply class_size_inj. }
  pose proof Hin as (H0 & _ & Hp & Hn). pose proof (slab_at_class _ _ _ _ Hs Hh) as Hg.
  pose proof (hok_slab _ Hs _ _ _ Hh H0) as Hok. pose proof Hok as [F1 F2 F3 F4 Hu F5 F6].
  destruct (free_slots_room _ _ _ _ _ Hg Hok Hp Hn) as [Hroom Hfull].
  pose proof (slots_in_page _ _ _ Hg Hp) as Hrange. pose proof (is_frame_bounds _ F1) as Hb.
  assert (Hcap : capacity h <= 4096).
  { rewrite F3. apply Z.div_le_upper_bound; destruct Hg; unfold PAGE_SIZE; lia. }
  destruct (dealloc_push s ci k h ptr Hs Hh Hin) as (Hs1 & Hh1 & Hal1 & Honly).
  assert (Hkept : forall b sz x, allocated s b sz -> b <> ptr -> b <= x < b + sz ->
    write64 (hm s) ptr (free_head h) x = hm s x).
  { intros b sz x Hbl Hne Hx. apply write64_outside.
    assert (allocated s ptr (class_size ci)) as Hal by (exists ci, k, h; done).
    pose proof (allocated_disjoint s _ _ _ _ Hs Hal Hbl ltac:(congruence)). destruct Hg. lia. }
  pose proof (free_slots_push _ _ _ _ _ Hg Hok Hp Hn) as Hpush. cbn zeta in Hpush.
  unfold dealloc. destruct (Z.eqb_spec ptr 0); [unfold PHYSICAL_OFFSET in *; lia|].
  rewrite Hci, (find_block s ci k h ptr), (slab_at_row _ _ _ _ Hh) by done.
  cbn [default page free_head free_count capacity option_map]. unfold default, id.
  rewrite (wrap64_small (free_count h + 1)) by (unfold U64; lia).
  set (h1 := mkSlab (page h) ptr (free_count h + 1) (capacity h)) in *.
  set (s1 := set_slab (mkHeap (slabs s) (hp s) (write64 (hm s) ptr (free_head h))) ci k h1) in *.
  destruct (Z.eqb_spec (free_count h + 1) (capacity h)) as [Ef|Ef].
  2: { split_and!; [done|done|]. intros b sz x Hbl Hx. apply Hal1 in Hbl as [Hbl Hne]. by eapply Hkept. }
  destruct (free_frame_spec (hp s1) (page h) (hok_pmm _ Hs1) ltac:(lia)) as [Hp2 HF2].
  destruct (heap_update s1 ci k h1 SlabHeader_empty (free_frame (hp s1) (page h)) (hm s1) Hs1 Hh1 Hp2) as [Hs2 Hal2].
  - apply Hs1.
  - done.
  - intros ci' k' x Hx Hne Hx0. destruct (hok_slab _ Hs1 _ _ _ Hx Hx0) as [G1 G2 _ _ _ _ _].
    assert (page x <> page h) as Hpx.
    { intros E. apply Hne. by eapply (hok_apart _ Hs1 ci k h1 ci' k' x). }
    split_and!; [done| |done]. rewrite HF2. assert (page x / PAGE_SIZE <> page h / PAGE_SIZE) as Hd.
    { intros E. destruct G1 as [M1 _], F1 as [M2 _]. apply Hpx.
      rewrite (Z.div_mod (page x) PAGE_SIZE), (Z.div_mod (page h) PAGE_SIZE) by done. lia. }
    case_goal; [|exact G2]. rewrite elem_of_union, elem_of_singleton. intros [?|?]; [congruence|by apply G2].
  - split_and!; [exact Hs2| |].
    + intros b sz. rewrite Hal2, <- Hal1, (allocated_split s1 ci k h1) by done.
      split; [intros [?|(? & _)]; [by left|done]|]. intros [?|(_ & -> & Hbs & Hbn)]; [by left|].
      exfalso. destruct (Hfull Ef b Hbs) as [->|Hbf]; apply Hbn;
        change (hm s1) with (write64 (hm s) ptr (free_head h)); rewrite Hpush; set_solver.
    + intros b sz x Hbl Hx. apply Hal2 in Hbl as [Hbl|(? & _)]; [|done].
      assert (allocated s1 b sz) as Hbl1 by (apply (allocated_split s1 ci k h1); auto).
      apply Hal1 in Hbl1 as [Hbl1 Hne]. by eapply Hkept.
Qed.

(** ** Large blocks *)

Lemma class_for_none size : class_for size = None -> 2048 < size.
Proof.
  intros H. pose proof (position_None _ _ H 7%nat 2048 eq_refl) as Hb. cbn beta in Hb.
  by apply Z.leb_gt in Hb.
Qed.

Lemma div_ceil_pos a b : 0 < a -> 0 < b -> 1 <= div_ceil a b /\ a <= div_ceil a b * b.
Proof.
  intros Ha Hb. unfold div_ceil. pose proof (Z.div_mod a b). pose proof (Z.mod_pos_bound a b Hb).
  destruct (Z.eqb_spec (a mod b) 0) as [E|E].
  - assert (a / b <> 0) by (intros E'; rewrite E', E in *; lia). pose proof (Z.div_pos a b). lia.
  - pose proof (Z.div_pos a b). lia.
Qed.

(** Large allocations.  A request above 2048 bytes gets whole pages: the
    block covers the request, is page-aligned in the direct map, zeroed and
    disjoint from every slab block; slab blocks and their bytes are not
    affected, and the frames it covers leave the free set.  Null means that no
    run of that many frames is free. *)
Theorem heap_alloc_large s size align :
  heap_ok s -> class_for (request_size size align) = None ->
  let pages := div_ceil (request_size size align) PAGE_SIZE in
  let '(ptr, s') := alloc size align s in
  heap_ok s' /\ (forall b sz, allocated s' b sz <-> allocated s b sz) /\ blocks_kept s (hm s') /\
  ((ptr = 0 /\ forall st, 1 <= st -> st + pages <= MAX_FRAMES -> ~ frames st pages ⊆ free_set (hp s)) \/
   exists st, ptr = st * PAGE_SIZE + PHYSICAL_OFFSET /\ 1 <= st /\ size <= pages * PAGE_SIZE /\
     frames st pages ⊆ free_set (hp s) /\ free_set (hp s') = free_set (hp s) ∖ frames st pages /\
     (forall b sz, allocated s b sz -> ptr + pages * PAGE_SIZE <= b \/ b + sz <= ptr) /\
     (forall x, ptr <= x < ptr + pages * PAGE_SIZE -> hm s' x = 0)).
Proof.
  intros Hs Hcl pages. pose proof (class_for_none _ Hcl) as Hbig. unfold alloc. rewrite Hcl. fold pages.
  destruct (div_ceil_pos (request_size size align) PAGE_SIZE) as [Hp1 Hp2]; [lia|done|]. fold pages in Hp1, Hp2.
  destruct (alloc_frames_cases (hp s) (hm s) pages (hok_pmm _ Hs) Hp1)
    as [[-> Hno]|(st & p' & -> & H1 & H2 & H3 & _ & H5 & H6)].
  { simpl. assert (mkHeap (slabs s) (hp s) (hm s) = s) as -> by (destruct s; done).
    split_and!; try done. left. done. }
  assert (Hst : is_frame (st * PAGE_SIZE)) by (apply is_frame_mul; lia).
  pose proof (p2v_frame0 _ Hst) as Hv. pose proof (is_frame_bounds _ Hst) as Hb.
  destruct (Z.eqb_spec (st * PAGE_SIZE) 0); [lia|]. rewrite Hv.
  set (ptr := st * PAGE_SIZE + PHYSICAL_OFFSET). set (m' := fill (hm s) ptr 0 (pages * PAGE_SIZE)).
  assert (Happ : forall t, is_frame t -> t / PAGE_SIZE ∉ free_set (hp s) ->
    ptr + pages * PAGE_SIZE <= t + PHYSICAL_OFFSET \/ t + PAGE_SIZE + PHYSICAL_OFFSET <= ptr).
  { intros t [Ht _] Hu. unfold ptr. apply Z.mod_divide in Ht as [f ->]; [|done].
    rewrite Z.div_mul in Hu by done.
    assert (~ st <= f < st + pages) as Hn by (intros Hr; apply Hu, H3, elem_of_frames; done).
    unfold PAGE_SIZE. lia. }
  assert (Hsame : forall ci k h, slab_at s ci k h -> page h <> 0 -> same_page (hm s) m' (page h)).
  { intros ci k h Hh H0 x Hx. destruct (hok_slab _ Hs _ _ _ Hh H0) as [F1 F2 _ _ _ _ _].
    specialize (Happ _ F1 F2). rewrite p2v_frame0 by done. apply fill_outside. lia. }
  set (s' := mkHeap (slabs s) p' m').
  assert (Hfs : forall ci k h, slab_at s ci k h -> page h <> 0 -> free_slots m' h = free_slots (hm s) h).
  { intros ci k h Hh H0. eapply free_slots_page; [by eapply slab_at_class|by eapply hok_slab|by eapply Hsame]. }
  assert (Hblock : forall b sz, allocated s b sz -> ptr + pages * PAGE_SIZE <= b \/ b + sz <= ptr).
  { intros b sz Hbl. destruct (allocated_frame s b sz Hs Hbl) as (t & Ht & Hu & ? & ? & _).
    specialize (Happ t Ht Hu). lia. }
  split_and!.
  - split; [exact H6| |exact (hok_len _ Hs)|exact (hok_row _ Hs)| |exact (hok_apart _ Hs)].
    + apply fill_ok; [split; [lia|reflexivity]|exact (hok_mem _ Hs)].
    + intros ci k h Hh H0. destruct (hok_slab _ Hs _ _ _ Hh H0) as [F1 F2 F3 F4 Hu F5 F6].
      split; try done; simpl; rewrite ?(Hfs _ _ _ Hh H0); try done. rewrite H5. set_solver.
  - intros b sz. unfold allocated, alloc_in. simpl.
    split; intros (ci & k & h & Hh & H0 & He & Hbs & Hn); exists ci, k, h; split_and!; try done;
      [by rewrite <- (Hfs ci k h)|by rewrite (Hfs ci k h)].
  - intros b sz x Hbl Hx. specialize (Hblock b sz Hbl). apply fill_outside. lia.
  - right. exists st. split_and!; try done; [unfold request_size in Hp2; lia|].
    intros x Hx. change (fill (hm s) ptr 0 (pages * PAGE_SIZE) x = 0). unfold fill.
    by rewrite (proj2 (in_range_spec x ptr (pages * PAGE_SIZE)) Hx).
Qed.

(** ** A concrete heap *)

Definition sample_heap : HeapState := mkHeap SLABS_init sample_pmm (fun _ => 0).

Lemma sample_heap_at ci k h : slab_at sample_heap ci k h -> page h = 0.
Proof.
  intros (r & Hr & Hh). unfold sample_heap, SLABS_init in Hr. cbn [slabs] in Hr.
  apply lookup_replicate in Hr as [-> _]. apply lookup_replicate in Hh as [-> _]. done.
Qed.

Lemma sample_heap_ok : heap_ok sample_heap.
Proof.
  split.
  - exact sample_pmm_ok.
  - intros x. split; reflexivity.
  - reflexivity.
  - intros ci r Hr. cbn [slabs sample_heap] in Hr. unfold SLABS_init in Hr.
    apply lookup_replicate in Hr as [-> _]. apply length_replicate.
  - intros ci k h Hh H0. by apply sample_heap_at in Hh.
  - intros ci k h ci' k' h' Hh _ H0 _. by apply sample_heap_at in Hh.
Qed.

Lemma heap_alloc_small_witness : heap_ok (snd (alloc 24 8 sample_heap)).
Proof.
  pose proof (heap_alloc_small sample_heap 24 8 1 sample_heap_ok eq_refl) as H.
  destruct (alloc 24 8 sample_heap) as [ptr s']. exact (proj1 H).
Defined.

Lemma heap_alloc_large_witness : heap_ok (snd (alloc 9000 8 sample_heap)).
Proof.
  pose proof (heap_alloc_large sample_heap 9000 8 sample_heap_ok eq_refl) as H. cbn zeta in H.
  destruct (alloc 9000 8 sample_heap) as [ptr s']. exact (proj1 H).
Defined.

(** Allocate 24 bytes and free them. *)
Lemma sample_heap_alloc :
  exists ptr s, heap_ok s /\ allocated s ptr (class_size 1).
Proof.
  pose proof (alloc_small sample_heap 24 8 1 sample_heap_ok eq_refl) as H.
  destruct (alloc 24 8 sample_heap) as [ptr s']. exists ptr, s'. destruct H as [Hs [H|H]].
  - split; [done|]. apply H. auto.
  - exfalso. destruct H as (_ & _ & _ & [H|H]); [discriminate H|].
    change (hp sample_heap) with sample_pmm in H. pose proof (proj2 (proj1 sample_pmm_ok)) as Hn.
    rewrite H, size_empty in Hn. vm_compute in Hn. discriminate Hn.
Qed.

Lemma heap_dealloc_small_witness :
  exists ptr s, heap_ok s /\ allocated s ptr 32 /\ ~ allocated (dealloc ptr 24 8 s) ptr 32.
Proof.
  destruct sample_heap_alloc as (ptr & s & Hs & Hal). exists ptr, s.
  destruct (heap_dealloc_small s ptr 24 8 1 Hs eq_refl Hal) as (_ & Heq & _).
  split_and!; [exact Hs|exact Hal|]. intros H. by apply Heq in H as [_ H].
Defined.
