(* ===== verification/RamFs.v ===== *)
(** * The RAM file system ([fs.rs], [vfs.rs], [syscall/fs.rs])

    A vector of named byte vectors behind a lock that is taken for the whole
    of each operation.  [FILESYSTEM] is [None] until [vfs::init].  Names are
    character sequences (code points), file contents byte sequences; open
    files refer to files by their index in the vector.  Running out of heap
    while a vector grows is outside the model. *)

From S2P Require Import Prelude Mem Result.

Record File := mkFile { name : list Z; data : list Z }.

Abbreviation RamFS := (list File).
Abbreviation FS := (option RamFS).

Definition RamFS_new : RamFS := [].

Definition has_name (n : list Z) (f : File) : bool := bool_decide (name f = n).

Definition RamFS_create (n : list Z) (files : RamFS) : bool * RamFS :=
  if bool_decide (n = []) then (false, files)
  else if existsb (has_name n) files then (false, files)
  else (true, files ++ [mkFile n []]).

Definition RamFS_find (n : list Z) (files : RamFS) : option File := List.find (has_name n) files.

(** [find_mut] followed by an update of the file found. *)
Definition RamFS_update (n : list Z) (f : File -> File) (files : RamFS) : bool * RamFS :=
  match position (has_name n) files with
  | Some i => (true, alter f i files)
  | None => (false, files)
  end.

Definition RamFS_remove (n : list Z) (files : RamFS) : bool * RamFS :=
  match position (has_name n) files with
  | Some idx => (true, delete idx files)
  | None => (false, files)
  end.

(** ** [vfs.rs] *)

Definition vfs_init (_ : FS) : FS := Some RamFS_new.

Definition with_fs {R} (f : RamFS -> R) (fs : FS) : option R := f <$> fs.

(** [with_fs_mut(f).unwrap_or(false)]. *)
Definition with_fs_mut (f : RamFS -> bool * RamFS) (fs : FS) : bool * FS :=
  match fs with
  | Some files => let '(r, files) := f files in (r, Some files)
  | None => (false, None)
  end.

Definition vfs_create (n : list Z) : FS -> bool * FS := with_fs_mut (RamFS_create n).
Definition vfs_find (n : list Z) (fs : FS) : option File := mjoin (with_fs (RamFS_find n) fs).
Definition vfs_clone_bytes (n : list Z) (fs : FS) : option (list Z) := data <$> vfs_find n fs.
Definition vfs_remove (n : list Z) : FS -> bool * FS := with_fs_mut (RamFS_remove n).
Definition vfs_append_all (n bytes : list Z) : FS -> bool * FS :=
  with_fs_mut (RamFS_update n (fun f => mkFile (name f) (data f ++ bytes))).
Definition vfs_replace_all (n bytes : list Z) : FS -> bool * FS :=
  with_fs_mut (RamFS_update n (fun f => mkFile (name f) bytes)).
Definition vfs_list (fs : FS) : option RamFS := with_fs id fs.

(** Slices [d[a..b]]; [None]: the index panics. *)
Definition slice (d : list Z) (a b : Z) : option (list Z) :=
  if (a <=? b) && (b <=? Z.of_nat (length d)) then Some (take (Z.to_nat (b - a)) (drop (Z.to_nat a) d))
  else None.

Definition vlen (d : list Z) : Z := Z.of_nat (length d).

(** The file at an index given as a machine word. *)
Definition file_at (files : RamFS) (i : Z) : option File := files !! Z.to_nat i.

Definition vfs_read_range (file_idx offset len : Z) : M FS (option (list Z)) := fun fs =>
  match fs with
  | None => OOk None fs
  | Some files =>
      match file_at files file_idx with
      | None => OOk None fs
      | Some file =>
          let start := Z.min offset (vlen (data file)) in
          let end_ := Z.min (sat_add64 start len) (vlen (data file)) in
          match slice (data file) start end_ with
          | Some v => OOk (Some v) fs
          | None => OPanic
          end
      end
  end.

(** ** [syscall/fs.rs] *)

Definition fs_find_idx (n : list Z) (fs : FS) : option Z :=
  match fs with
  | None => None
  | Some files => Z.of_nat <$> position (has_name n) files
  end.

Definition fs_file_size (file_idx : Z) (fs : FS) : Z :=
  match fs with
  | Some files => match file_at files file_idx with Some f => vlen (data f) | None => 0 end
  | None => 0
  end.

(** Copies into memory at [buf]; returns the number of bytes. *)
Definition fs_read (file_idx offset buf count : Z) (fs : FS) (m : Mem) : Z * Mem :=
  match fs with
  | None => (0, m)
  | Some files =>
      match file_at files file_idx with
      | None => (0, m)
      | Some file =>
          let available := sat_sub64 (vlen (data file)) offset in
          let to_read := Z.min count available in
          if to_read =? 0 then (0, m)
          else (to_read, store_bytes m buf (take (Z.to_nat to_read) (drop (Z.to_nat offset) (data file))))
      end
  end.

Definition fs_read_to_vec (file_idx offset count : Z) : M FS (option (list Z)) := fun fs =>
  match fs with
  | None => OOk None fs
  | Some files =>
      match file_at files file_idx with
      | None => OOk None fs
      | Some file =>
          let available := sat_sub64 (vlen (data file)) offset in
          let to_read := Z.min count available in
          match slice (data file) offset (offset +w to_read) with
          | Some v => OOk (Some v) fs
          | None => OPanic
          end
      end
  end.

(** [Vec::resize(n, 0)]; lengths from 2^63 on panic (capacity overflow). *)
Definition vec_resize (d : list Z) (n : Z) : option (list Z) :=
  if vlen d <? n then
    if I63 <=? n then None else Some (d ++ replicate (Z.to_nat (n - vlen d)) 0)
  else Some (take (Z.to_nat n) d).

(** [d[offset..offset + bytes.len()].copy_from_slice(bytes)]. *)
Definition splice (d : list Z) (offset : Z) (bytes : list Z) : list Z :=
  take (Z.to_nat offset) d ++ bytes ++ drop (Z.to_nat offset + length bytes) d.

Definition fs_write_at (file_idx offset : Z) (bytes : list Z) : M FS bool := fun fs =>
  match fs with
  | None => OOk false fs
  | Some files =>
      match file_at files file_idx with
      | None => OOk false fs
      | Some file =>
          let end_ := offset +w vlen bytes in
          match (if vlen (data file) <? end_ then vec_resize (data file) end_ else Some (data file)) with
          | None => OPanic
          | Some d =>
              match slice d offset end_ with
              | None => OPanic
              | Some _ =>
                  OOk true (Some (<[Z.to_nat file_idx := mkFile (name file) (splice d offset bytes)]> files))
              end
          end
      end
  end.

Definition fs_resize (file_idx len : Z) : M FS bool := fun fs =>
  match fs with
  | None => OOk false fs
  | Some files =>
      match file_at files file_idx with
      | None => OOk false fs
      | Some file =>
          match vec_resize (data file) len with
          | None => OPanic
          | Some d => OOk true (Some (<[Z.to_nat file_idx := mkFile (name file) d]> files))
          end
      end
  end.

(** ** Abstraction: a finite map from names to contents *)

Definition abs (files : RamFS) : gmap (list Z) (list Z) :=
  list_to_map ((fun f => (name f, data f)) <$> files).

Definition fs_ok (files : RamFS) : Prop := NoDup (name <$> files) /\ Forall (fun f => name f <> []) files.

Lemma has_name_true n f : has_name n f = true <-> name f = n.
Proof. unfold has_name. apply bool_decide_eq_true. Qed.

Lemma position_name_Some n files i :
  position (has_name n) files = Some i -> exists f, files !! i = Some f /\ name f = n.
Proof. intros H. apply position_Some in H as (f & Hf & Hn & _). apply has_name_true in Hn. eauto. Qed.

Lemma abs_lookup files i f : fs_ok files -> files !! i = Some f -> abs files !! name f = Some (data f).
Proof.
  intros [Hnd _] Hf. unfold abs. apply elem_of_list_to_map_1.
  - rewrite <- list_fmap_compose. exact Hnd.
  - apply list_elem_of_fmap. exists f. split; [done|]. by eapply list_elem_of_lookup_2.
Qed.

Lemma abs_None files n : position (has_name n) files = None -> abs files !! n = None.
Proof.
  intros H. unfold abs. apply not_elem_of_list_to_map_1. rewrite <- list_fmap_compose.
  intros Hin. apply list_elem_of_fmap in Hin as (f & Hn & Hf).
  apply list_elem_of_lookup in Hf as [i Hi].
  pose proof (position_None _ _ H i f Hi) as Hb. rewrite (proj2 (has_name_true n f)) in Hb; done.
Qed.

Lemma find_position {A} (p : A -> bool) (l : list A) :
  List.find p l = match position p l with Some i => l !! i | None => None end.
Proof.
  induction l as [|x l IH]; [done|]. cbn [List.find position]. destruct (p x); [done|]. rewrite IH.
  by destruct (position p l).
Qed.

Lemma existsb_position {A} (p : A -> bool) l :
  existsb p l = match position p l with Some _ => true | None => false end.
Proof. induction l as [|x l IH]; simpl; [done|]. destruct (p x); [done|]. rewrite IH. by destruct (position p l). Qed.

(** Lookup by name is first match, which is the map's lookup. *)
Lemma abs_find files n : fs_ok files -> abs files !! n = data <$> RamFS_find n files.
Proof.
  intros Hok. unfold RamFS_find. rewrite find_position.
  destruct (position (has_name n) files) as [i|] eqn:E; [|by apply abs_None].
  apply position_name_Some in E as (f & Hf & <-). rewrite Hf. by eapply abs_lookup.
Qed.

Lemma fs_ok_name_inj files i j f g :
  fs_ok files -> files !! i = Some f -> files !! j = Some g -> name f = name g -> i = j.
Proof.
  intros [Hnd _] Hi Hj Hn. apply (NoDup_lookup (name <$> files) i j (name f)); [exact Hnd| |].
  - by rewrite list_lookup_fmap, Hi.
  - by rewrite list_lookup_fmap, Hj, Hn.
Qed.

(** The content of the file with a given name decides the map. *)
Lemma abs_eq files files' n :
  fs_ok files -> fs_ok files' ->
  (forall d, (exists i f, files !! i = Some f /\ name f = n /\ data f = d) <->
             (exists i f, files' !! i = Some f /\ name f = n /\ data f = d)) ->
  abs files !! n = abs files' !! n.
Proof.
  intros H1 H2 H. apply option_eq. intros d.
  assert (forall fs, fs_ok fs -> abs fs !! n = Some d <-> exists i f, fs !! i = Some f /\ name f = n /\ data f = d) as Hc.
  { intros fs Hok. split.
    - rewrite abs_find by done. unfold RamFS_find. rewrite find_position.
      destruct (position (has_name n) fs) as [i|] eqn:E; [|done].
      apply position_name_Some in E as (f & Hf & Hn). rewrite Hf. intros [= <-]. eauto.
    - intros (i & f & Hf & <- & <-). by eapply abs_lookup. }
  rewrite !Hc by done. apply H.
Qed.

(** ** The operations on the map *)

Lemma RamFS_create_spec n files :
  fs_ok files ->
  let '(r, files') := RamFS_create n files in
  fs_ok files' /\ (forall i f, files !! i = Some f -> files' !! i = Some f) /\
  if decide (n = [] \/ is_Some (abs files !! n)) then r = false /\ files' = files
  else r = true /\ abs files' = <[n := []]> (abs files).
Proof.
  intros Hok. unfold RamFS_create. case_bool_decide as Hn.
  { rewrite decide_True by auto. done. }
  rewrite existsb_position. destruct (position (has_name n) files) as [i|] eqn:E.
  - rewrite decide_True; [done|]. right. apply position_name_Some in E as (f & Hf & <-).
    rewrite (abs_lookup _ _ _ Hok Hf). eauto.
  - pose proof (abs_None _ _ E) as Hnone. rewrite decide_False by (rewrite Hnone; intros [?|[? ?]]; done).
    destruct Hok as [Hnd Hne]. split_and!; [split| |done|].
    + rewrite fmap_app. apply list.NoDup_app. split_and!; [done| |repeat constructor; set_solver].
      intros x Hx Hx'. simpl in Hx'. apply list_elem_of_singleton in Hx' as ->.
      apply list_elem_of_fmap in Hx as (f & -> & Hf). apply list_elem_of_lookup in Hf as [i Hi].
      pose proof (position_None _ _ E i f Hi) as Hb. by rewrite (proj2 (has_name_true _ f)) in Hb.
    + apply list.Forall_app. auto.
    + intros i f Hf. by apply lookup_app_l_Some.
    + unfold abs. rewrite fmap_app, list_to_map_app. simpl.
      rewrite insert_empty. apply map_eq. intros k. rewrite lookup_union. fold (abs files).
      destruct (decide (k = n)) as [->|Hk].
      * rewrite Hnone, lookup_insert_eq, lookup_singleton_eq. done.
      * rewrite lookup_insert_ne, lookup_singleton_ne by done. by destruct (abs files !! k).
Qed.

(** Updating the contents of one file. *)
Lemma fs_ok_set files i f d :
  fs_ok files -> files !! i = Some f -> fs_ok (<[i := mkFile (name f) d]> files).
Proof.
  intros [Hnd Hne] Hi. split.
  - rewrite list_fmap_insert. rewrite list_insert_id; [done|]. by rewrite list_lookup_fmap, Hi.
  - apply Forall_insert; [done|]. exact (Forall_lookup_1 _ _ _ _ Hne Hi).
Qed.

Lemma abs_set files i f d :
  fs_ok files -> files !! i = Some f ->
  abs (<[i := mkFile (name f) d]> files) = <[name f := d]> (abs files).
Proof.
  intros Hok Hi. pose proof (fs_ok_set files i f d Hok Hi) as Hok'. apply map_eq. intros k.
  pose proof (lookup_lt_Some _ _ _ Hi) as Hlt.
  destruct (decide (k = name f)) as [->|Hk].
  - rewrite lookup_insert_eq.
    apply (abs_lookup _ i (mkFile (name f) d) Hok'). by apply list_lookup_insert_eq.
  - rewrite lookup_insert_ne by done. apply abs_eq; [done..|]. intros d'.
    split; intros (j & g & Hg & <- & <-); exists j, g; (split; [|done]).
    + rewrite list_lookup_insert_Some in Hg. naive_solver.
    + rewrite list_lookup_insert_ne; [done|]. intros ->. congruence.
Qed.

Lemma RamFS_update_spec n g files :
  fs_ok files -> (forall f, name (g f) = name f) ->
  let '(r, files') := RamFS_update n g files in
  fs_ok files' /\
  match RamFS_find n files with
  | Some f => r = true /\ abs files' = <[n := data (g f)]> (abs files)
  | None => r = false /\ files' = files
  end.
Proof.
  intros Hok Hg. unfold RamFS_update, RamFS_find. rewrite find_position.
  destruct (position (has_name n) files) as [i|] eqn:E; [|done].
  apply position_name_Some in E as (f & Hf & <-). rewrite Hf.
  assert (alter g i files = <[i := mkFile (name f) (data (g f))]> files) as ->.
  { apply list_eq. intros j. destruct (decide (i = j)) as [->|Hne].
    - rewrite list_lookup_alter_eq, Hf, list_lookup_insert_eq by (by eapply lookup_lt_Some). simpl. f_equal.
      rewrite <- (Hg f). by destruct (g f).
    - by rewrite list_lookup_alter_ne, list_lookup_insert_ne. }
  split; [by apply fs_ok_set|]. split; [done|]. by apply abs_set.
Qed.

Lemma RamFS_remove_spec n files :
  fs_ok files ->
  let '(r, files') := RamFS_remove n files in
  fs_ok files' /\ abs files' = delete n (abs files) /\ (r = true <-> is_Some (abs files !! n)).
Proof.
  intros Hok. unfold RamFS_remove.
  destruct (position (has_name n) files) as [i|] eqn:E.
  2: { split_and!; [done| |].
       - symmetry. by apply delete_id, abs_None.
       - rewrite (abs_None _ _ E). split; [done|]. intros [? ?]. done. }
  apply position_name_Some in E as (f & Hf & <-).
  assert (Hsub : sublist (delete i files) files) by apply sublist_delete.
  assert (Hok' : fs_ok (delete i files)).
  { destruct Hok as [Hnd Hne]. split.
    - eapply sublist_NoDup; [exact Hnd|]. by apply fmap_sublist.
    - by apply Forall_delete. }
  split_and!; [done| |by rewrite (abs_lookup _ _ _ Hok Hf)].
  apply map_eq. intros k. destruct (decide (k = name f)) as [->|Hk].
  - rewrite lookup_delete_eq, abs_find by done. unfold RamFS_find. rewrite find_position.
    destruct (position _ (delete i files)) as [j|] eqn:Ej; [|done]. exfalso.
    apply position_name_Some in Ej as (g & Hg & Hn).
    destruct (decide (j < i)%nat).
    + rewrite list_lookup_delete_lt in Hg by done. pose proof (fs_ok_name_inj _ _ _ _ _ Hok Hg Hf Hn). lia.
    + rewrite list_lookup_delete_ge in Hg by lia. pose proof (fs_ok_name_inj _ _ _ _ _ Hok Hg Hf Hn). lia.
  - rewrite lookup_delete_ne by done. apply abs_eq; [done..|]. intros d.
    split; intros (j & g & Hg & <- & <-).
    + destruct (decide (j < i)%nat); [rewrite list_lookup_delete_lt in Hg by done|rewrite list_lookup_delete_ge in Hg by lia]; eauto.
    + destruct (decide (j < i)%nat).
      * exists j, g. by rewrite list_lookup_delete_lt.
      * assert (j <> i) by (intros ->; congruence). exists (j - 1)%nat, g.
        rewrite list_lookup_delete_ge by lia. by replace (S (j - 1)) with j by lia.
Qed.

(** C25: The file system is a finite map from names to contents.  On a file
    vector with distinct non-empty names, [find] is lookup; [create] adds an
    empty file and refuses an empty or existing name; [append_all] and
    [replace_all] change the contents of an existing file and refuse an
    unknown name; [remove] deletes the name and reports whether it existed;
    and every operation keeps the names distinct and non-empty. *)
Theorem ramfs_refines_map n bytes files :
  fs_ok files ->
  vfs_clone_bytes n (Some files) = abs files !! n /\
  (exists files', vfs_create n (Some files) =
      (bool_decide (n <> [] /\ abs files !! n = None), Some files') /\ fs_ok files' /\
     abs files' = if decide (n <> [] /\ abs files !! n = None) then <[n := []]> (abs files) else abs files) /\
  (exists files', vfs_append_all n bytes (Some files) =
      (bool_decide (is_Some (abs files !! n)), Some files') /\ fs_ok files' /\
     abs files' = alter (fun d => d ++ bytes) n (abs files)) /\
  (exists files', vfs_replace_all n bytes (Some files) =
      (bool_decide (is_Some (abs files !! n)), Some files') /\ fs_ok files' /\
     abs files' = alter (fun _ => bytes) n (abs files)) /\
  (exists files', vfs_remove n (Some files) =
      (bool_decide (is_Some (abs files !! n)), Some files') /\ fs_ok files' /\
     abs files' = delete n (abs files)).
Proof.
  intros Hok.
  assert (Hupd : forall g, (forall f, name (g f) = name f) -> forall h, (forall f, data (g f) = h (data f)) ->
    exists files', with_fs_mut (RamFS_update n g) (Some files) =
      (bool_decide (is_Some (abs files !! n)), Some files') /\ fs_ok files' /\
      abs files' = alter h n (abs files)).
  { intros g Hg h Hh. pose proof (RamFS_update_spec n g files Hok Hg) as H. unfold with_fs_mut.
    rewrite abs_find by done. destruct (RamFS_update n g files) as [r files'].
    destruct H as [Hok' H]. exists files'. destruct (RamFS_find n files) as [f|] eqn:Ef; destruct H as [-> H].
    - split; [done|]. split; [done|]. rewrite H. symmetry. apply map_eq. intros k.
      destruct (decide (k = n)) as [->|Hk].
      + rewrite lookup_alter_eq, lookup_insert_eq, abs_find, Ef by done. simpl. by rewrite Hh.
      + by rewrite lookup_alter_ne, lookup_insert_ne.
    - subst. split_and!; try done. apply map_eq. intros k. destruct (decide (k = n)) as [->|Hk].
      + by rewrite lookup_alter_eq, abs_find, Ef.
      + by rewrite lookup_alter_ne. }
  split_and!.
  - by rewrite abs_find.
  - pose proof (RamFS_create_spec n files Hok) as H. unfold vfs_create, with_fs_mut.
    destruct (RamFS_create n files) as [r files']. destruct H as (Hok' & _ & H). exists files'.
    destruct (decide (n = [] \/ is_Some (abs files !! n))) as [Hd|Hd]; destruct H as [-> H].
    + rewrite bool_decide_false, decide_False by (rewrite eq_None_not_Some; naive_solver). by subst.
    + rewrite bool_decide_true, decide_True by (rewrite eq_None_not_Some; naive_solver). done.
  - by apply Hupd.
  - by apply Hupd.
  - pose proof (RamFS_remove_spec n files Hok) as H. unfold vfs_remove, with_fs_mut.
    destruct (RamFS_remove n files) as [r files']. destruct H as (Hok' & Ha & Hr). exists files'.
    split_and!; try done. f_equal. apply eq_true_iff_eq. by rewrite bool_decide_eq_true.
Qed.

Definition sample_files : list File := [mkFile [97] [1; 2; 3]; mkFile [98] [7]].

Lemma sample_files_ok : fs_ok sample_files.
Proof.
  split; [|repeat constructor; done].
  apply (bool_decide_unpack _). vm_compute. exact I.
Qed.

Lemma ramfs_refines_map_witness :
  fs_ok sample_files /\ vfs_clone_bytes [97] (Some sample_files) = abs sample_files !! [97].
Proof. split; [exact sample_files_ok|]. apply (ramfs_refines_map [97] [] sample_files sample_files_ok). Defined.

(** ** Reading and writing by index *)

Lemma slice_full d a b :
  0 <= a -> a <= b -> b <= vlen d -> slice d a b = Some (take (Z.to_nat (b - a)) (drop (Z.to_nat a) d)).
Proof.
  intros Ha Hab Hb. unfold slice, vlen in *.
  destruct (Z.leb_spec a b), (Z.leb_spec b (Z.of_nat (length d))); done || lia.
Qed.

Lemma length_splice d o bytes :
  0 <= o -> o + vlen bytes <= vlen d -> length (splice d o bytes) = length d.
Proof. intros Ho Hle. unfold splice, vlen in *. rewrite !length_app, length_take, length_drop. lia. Qed.

Lemma lookup_splice d o bytes i :
  0 <= o -> o + vlen bytes <= vlen d ->
  splice d o bytes !! i =
    if decide (Z.to_nat o <= i < Z.to_nat o + length bytes)%nat then bytes !! (i - Z.to_nat o)%nat else d !! i.
Proof.
  intros Ho Hle. unfold splice, vlen in *. destruct (decide (i < Z.to_nat o)%nat).
  - rewrite lookup_app_l by (rewrite length_take; lia). rewrite lookup_take_lt by done.
    by rewrite decide_False by lia.
  - rewrite lookup_app_r by (rewrite length_take; lia). rewrite length_take, Nat.min_l by lia.
    case_decide.
    + by rewrite lookup_app_l by lia.
    + rewrite lookup_app_r by lia. rewrite lookup_drop. f_equal. lia.
Qed.

Lemma splice_read d o bytes :
  0 <= o -> o + vlen bytes <= vlen d -> take (length bytes) (drop (Z.to_nat o) (splice d o bytes)) = bytes.
Proof.
  intros Ho Hle. apply list_eq. intros i. destruct (decide (i < length bytes)%nat).
  - rewrite lookup_take_lt by done. rewrite lookup_drop, lookup_splice by done. rewrite decide_True by lia. f_equal. lia.
  - rewrite lookup_take_ge by lia. symmetry. apply lookup_ge_None. lia.
Qed.

(** The contents [fs_write_at] leaves: the old bytes, zeros in the gap, the
    new bytes at their place. *)
Definition write_spec (d : list Z) (o : Z) (bytes : list Z) (i : nat) : option Z :=
  if decide (Z.to_nat o <= i < Z.to_nat o + length bytes)%nat then bytes !! (i - Z.to_nat o)%nat
  else if decide (i < length d)%nat then d !! i
  else if decide (Z.of_nat i < o + vlen bytes) then Some 0 else None.

Lemma fs_write_at_spec files i f o bytes :
  files !! Z.to_nat i = Some f -> 0 <= o -> o + vlen bytes < I63 ->
  exists d, fs_write_at i o bytes (Some files) =
      OOk true (Some (<[Z.to_nat i := mkFile (name f) d]> files)) /\
    vlen d = Z.max (vlen (data f)) (o + vlen bytes) /\
    take (length bytes) (drop (Z.to_nat o) d) = bytes /\
    forall k, d !! k = write_spec (data f) o bytes k.
Proof.
  intros Hf Ho Hlt. unfold fs_write_at, file_at. rewrite Hf. unfold vlen in *.
  rewrite wrap64_small by (unfold U64, I63 in *; lia).
  set (e := o + Z.of_nat (length bytes)) in *.
  set (d0 := if Z.of_nat (length (data f)) <? e then data f ++ replicate (Z.to_nat (e - Z.of_nat (length (data f)))) 0 else data f).
  assert (E0 : (if Z.of_nat (length (data f)) <? e then vec_resize (data f) e else Some (data f)) = Some d0).
  { unfold d0, vec_resize, vlen. destruct (Z.ltb_spec (Z.of_nat (length (data f))) e); [|done].
    destruct (Z.leb_spec I63 e); [lia|done]. }
  rewrite E0. assert (Hl0 : Z.of_nat (length d0) = Z.max (Z.of_nat (length (data f))) e).
  { unfold d0. destruct (Z.ltb_spec (Z.of_nat (length (data f))) e); [rewrite length_app, length_replicate|]; lia. }
  rewrite slice_full by (unfold vlen; lia). eexists. split; [reflexivity|].
  assert (Hle : o + vlen bytes <= vlen d0) by (unfold vlen; lia).
  rewrite length_splice by done. split_and!; [done|by apply splice_read|].
  intros k. rewrite lookup_splice by done. unfold write_spec. case_decide; [done|]. unfold d0.
  destruct (Z.ltb_spec (Z.of_nat (length (data f))) e).
  - case_decide; [by rewrite lookup_app_l|]. rewrite lookup_app_r by lia. unfold vlen. case_decide.
    + apply lookup_replicate_2. lia.
    + apply lookup_ge_None. rewrite length_replicate. lia.
  - case_decide; [done|]. unfold vlen. rewrite decide_False by lia. apply lookup_ge_None. lia.
Qed.

(** C26: Writing then reading.  A write at an offset of an existing file (its
    end below 2^63) succeeds; reading the same range back gives the bytes
    written; the file is exactly as long as it has to be; bytes outside the
    range keep their value and a gap before the offset reads as zeros; no
    other file and no name changes. *)
Theorem fs_write_read_roundtrip files i f o bytes :
  files !! Z.to_nat i = Some f -> 0 <= i -> 0 <= o -> o + vlen bytes < I63 ->
  exists files', fs_write_at i o bytes (Some files) = OOk true (Some files') /\
    fs_read_to_vec i o (vlen bytes) (Some files') = OOk (Some bytes) (Some files') /\
    fs_file_size i (Some files') = Z.max (vlen (data f)) (o + vlen bytes) /\
    (exists d, files' !! Z.to_nat i = Some (mkFile (name f) d) /\
       forall k, d !! k = write_spec (data f) o bytes k) /\
    (forall j, j <> Z.to_nat i -> files' !! j = files !! j).
Proof.
  intros Hf Hi Ho Hlt. destruct (fs_write_at_spec files i f o bytes Hf Ho Hlt) as (d & Ew & Hlen & Hrd & Hd).
  pose proof (lookup_lt_Some _ _ _ Hf) as Hl. eexists. split; [exact Ew|].
  assert (Hlk : <[Z.to_nat i:=mkFile (name f) d]> files !! Z.to_nat i = Some (mkFile (name f) d))
    by by apply list_lookup_insert_eq.
  assert (Hle : o + vlen bytes <= vlen d) by lia. split_and!.
  - unfold fs_read_to_vec, file_at. rewrite Hlk. cbn [data]. unfold sat_sub64.
    rewrite Z.max_l, Z.min_l by (unfold vlen in *; lia).
    rewrite wrap64_small by (unfold U64, I63, vlen in *; lia).
    rewrite slice_full by (unfold vlen in *; lia).
    replace (Z.to_nat (o + vlen bytes - o)) with (length bytes) by (unfold vlen; lia). by rewrite Hrd.
  - unfold fs_file_size, file_at. by rewrite Hlk.
  - eauto.
  - intros j Hj. by apply list_lookup_insert_ne.
Qed.

Lemma fs_write_read_roundtrip_witness :
  exists files', fs_write_at 1 3 [5; 6] (Some sample_files) = OOk true (Some files') /\
    fs_read_to_vec 1 3 2 (Some files') = OOk (Some [5; 6]) (Some files').
Proof.
  destruct (fs_write_read_roundtrip sample_files 1 (mkFile [98] [7]) 3 [5; 6])
    as (files' & H1 & H2 & _); [reflexivity|lia|lia|reflexivity|].
  exists files'. split; [exact H1|exact H2].
Defined.

(** C27: [fs_read_to_vec] of an existing file reads at most [count] bytes from
    the offset when the offset is within the file, and panics the kernel when
    the offset is past its end (the slice start is then out of range). *)
Theorem fs_read_to_vec_outcome files i f o count :
  files !! Z.to_nat i = Some f -> 0 <= o < U64 -> 0 <= count < U64 -> vlen (data f) < I63 ->
  fs_read_to_vec i o count (Some files) =
    if o <=? vlen (data f)
    then OOk (Some (take (Z.to_nat count) (drop (Z.to_nat o) (data f)))) (Some files)
    else OPanic.
Proof.
  intros Hf Ho Hc Hl. unfold fs_read_to_vec, file_at. rewrite Hf. unfold sat_sub64.
  destruct (Z.leb_spec o (vlen (data f))).
  - rewrite Z.max_l by lia. rewrite wrap64_small by (unfold U64, I63 in *; lia).
    rewrite slice_full by lia. do 2 f_equal.
    replace (o + Z.min count (vlen (data f) - o) - o) with (Z.min count (vlen (data f) - o)) by lia.
    apply list_eq. intros k. unfold vlen in *.
    destruct (decide (k < Z.to_nat count)%nat) as [Hk|Hk]; [|rewrite !lookup_take_ge by lia; done].
    rewrite (lookup_take_lt _ (Z.to_nat count)) by done.
    destruct (decide (k < Z.to_nat (Z.min count (Z.of_nat (length (data f)) - o)))%nat).
    + by rewrite lookup_take_lt.
    + rewrite lookup_take_ge by lia. symmetry. rewrite lookup_drop. apply lookup_ge_None. lia.
  - rewrite Z.max_r, Z.min_r, Z.add_0_r by lia. rewrite wrap64_small by done.
    unfold slice. destruct (Z.leb_spec o (Z.of_nat (length (data f)))); [unfold vlen in *; lia|].
    by rewrite andb_false_r.
Qed.

Lemma fs_read_to_vec_outcome_witness :
  fs_read_to_vec 1 2 4 (Some sample_files) = OPanic /\
  fs_read_to_vec 1 1 4 (Some sample_files) = OOk (Some []) (Some sample_files).
Proof.
  split.
  - apply (fs_read_to_vec_outcome sample_files 1 (mkFile [98] [7]) 2 4); [reflexivity|split; reflexivity||discriminate..|reflexivity].
  - apply (fs_read_to_vec_outcome sample_files 1 (mkFile [98] [7]) 1 4); [reflexivity|split; reflexivity||discriminate..|reflexivity].
Defined.

(** C28: Removing a file moves every later file down one index, so an index
    kept by an open file afterwards denotes the next file (or none). *)
Theorem remove_shifts_indices n files k f :
  fs_ok files -> files !! k = Some f -> name f = n ->
  vfs_remove n (Some files) = (true, Some (delete k files)) /\
  forall j, (k <= j)%nat -> delete k files !! j = files !! S j.
Proof.
  intros Hok Hk Hn. split; [|intros j Hj; by apply list_lookup_delete_ge].
  unfold vfs_remove, with_fs_mut, RamFS_remove. destruct (position (has_name n) files) as [i|] eqn:E.
  - apply position_name_Some in E as (g & Hg & Hgn).
    by rewrite (fs_ok_name_inj files i k g f Hok Hg Hk ltac:(congruence)).
  - pose proof (position_None _ _ E k f Hk) as Hb. by rewrite (proj2 (has_name_true n f)) in Hb.
Qed.

Lemma remove_shifts_indices_witness :
  vfs_remove [97] (Some sample_files) = (true, Some (delete 0%nat sample_files)) /\
  delete 0%nat sample_files !! 0%nat = Some (mkFile [98] [7]).
Proof.
  destruct (remove_shifts_indices [97] sample_files 0 (mkFile [97] [1; 2; 3]) sample_files_ok eq_refl eq_refl)
    as [H1 H2]. split; [exact H1|]. rewrite H2 by lia. reflexivity.
Defined.
