(* ===== verification/Ring.v ===== *)
(** * Bounded queues and ring buffers ([hw/kbd_buffer.rs], [hw/tty.rs])

    [BoundedQueue] is what the keyboard, the terminal and the pipes promise
    to their clients: a first-in first-out queue of bounded length that drops
    what does not fit.  The ring buffer keeps one slot free to tell full from
    empty, so a buffer of [N] slots holds [N - 1] elements. *)

From S2P Require Import Prelude.

(** ** The interface *)

Class BoundedQueue (Q A : Type) := {
  q_ok : Q -> Prop;
  q_cap : nat;
  q_list : Q -> list A;
  q_push : A -> Q -> Q;
  q_pop : Q -> option A * Q;
  q_bound : forall q, q_ok q -> (length (q_list q) <= q_cap)%nat;
  q_push_ok : forall a q, q_ok q -> q_ok (q_push a q);
  q_push_spec : forall a q, q_ok q ->
    q_list (q_push a q) = if decide (length (q_list q) < q_cap)%nat then q_list q ++ [a] else q_list q;
  q_pop_ok : forall q, q_ok q -> q_ok (snd (q_pop q));
  q_pop_spec : forall q, q_ok q ->
    match q_list q with
    | [] => q_pop q = (None, q)
    | x :: l => fst (q_pop q) = Some x /\ q_list (snd (q_pop q)) = l
    end;
}.

(** ** Clients: sequences of pushes and pops *)

Section Clients.
Context {Q A : Type} `{BoundedQueue Q A}.

(** Pushing a sequence. *)
Definition push_all (l : list A) (q : Q) : Q := fold_left (fun q a => q_push a q) l q.

Lemma push_all_ok l q : q_ok q -> q_ok (push_all l q).
Proof. revert q; induction l as [|a l IH]; intros q Hq; simpl; [done|]. by apply IH, q_push_ok. Qed.

(** A queue keeps the prefix that fits. *)
Lemma push_all_spec l q :
  q_ok q -> q_list (push_all l q) = q_list q ++ take (q_cap - length (q_list q)) l.
Proof.
  revert q; induction l as [|a l IH]; intros q Hq; simpl; [by rewrite take_nil, app_nil_r|].
  rewrite IH by by apply q_push_ok. rewrite q_push_spec by done. pose proof (q_bound q Hq). case_decide.
  - rewrite length_app. simpl. rewrite <- app_assoc. simpl.
    replace (q_cap - length (q_list q))%nat with (S (q_cap - (length (q_list q) + 1)))%nat by lia. done.
  - replace (q_cap - length (q_list q))%nat with 0%nat by lia. by rewrite !take_0.
Qed.

(** Popping until [stop] has been popped or [n] elements are taken. *)
Fixpoint pop_until (stop : A -> bool) (n : nat) (q : Q) : list A * Q :=
  match n with
  | O => ([], q)
  | S n' =>
      match q_pop q with
      | (None, q) => ([], q)
      | (Some a, q) => if stop a then ([a], q)
                       else let '(l, q) := pop_until stop n' q in (a :: l, q)
      end
  end.

(** The prefix through the first [stop] element, at most [n] elements. *)
Fixpoint take_until (stop : A -> bool) (n : nat) (l : list A) : list A :=
  match n, l with
  | S n', a :: l' => if stop a then [a] else a :: take_until stop n' l'
  | _, _ => []
  end.

Lemma pop_until_spec stop n q :
  q_ok q ->
  let '(l, q') := pop_until stop n q in
  q_ok q' /\ l = take_until stop n (q_list q) /\ q_list q = l ++ q_list q'.
Proof.
  revert q; induction n as [|n IH]; intros q Hq; simpl; [done|].
  pose proof (q_pop_spec q Hq) as Hp. pose proof (q_pop_ok q Hq) as Hok.
  destruct (q_list q) as [|x l] eqn:El.
  - rewrite Hp. simpl. by rewrite El.
  - destruct (q_pop q) as [r q1]. simpl in *. destruct Hp as [-> Hl]. destruct (stop x).
    + split_and!; [done|done|]. by rewrite Hl.
    + specialize (IH q1 Hok). destruct (pop_until stop n q1) as [l2 q2].
      destruct IH as (H1 & H2 & H3). rewrite Hl in *. split_and!; [done|congruence|]. simpl. by rewrite <- H3.
Qed.

Lemma take_until_length stop n l : (length (take_until stop n l) <= n)%nat.
Proof.
  revert l; induction n as [|n IH]; intros [|a l]; simpl; try lia.
  destruct (stop a); simpl; [lia|]. specialize (IH l). lia.
Qed.

Lemma take_until_nil stop n l : take_until stop n l = [] <-> n = 0%nat \/ l = [].
Proof. destruct n, l; simpl; try (split; auto; done). destruct (stop a); split; try done; naive_solver. Qed.
End Clients.

(** ** The ring buffer *)

Record Ring (A : Type) := mkRing { buf : list A; head : Z; tail : Z }.
Arguments mkRing {A} buf head tail.
Arguments buf {A} r.
Arguments head {A} r.
Arguments tail {A} r.

Section Ring.
Context {A : Type} (dflt : A) (N : Z).

Definition ring_new : Ring A := mkRing (replicate (Z.to_nat N) dflt) 0 0.

Definition is_empty (r : Ring A) : bool := head r =? tail r.

Definition is_full (r : Ring A) : bool := (head r + 1) mod N =? tail r.

Definition push (c : A) (r : Ring A) : Ring A :=
  if is_full r then r
  else mkRing (<[Z.to_nat (head r) := c]> (buf r)) ((head r + 1) mod N) (tail r).

Definition pop (r : Ring A) : option A * Ring A :=
  if is_empty r then (None, r)
  else
    let c := default dflt (buf r !! Z.to_nat (tail r)) in
    (Some c, mkRing (buf r) (head r) ((tail r + 1) mod N)).

(** Every access stays inside the buffer: this is the class invariant. *)
Definition ring_ok (r : Ring A) : Prop :=
  length (buf r) = Z.to_nat N /\ 0 <= head r < N /\ 0 <= tail r < N.

Definition ring_len (r : Ring A) : Z := (head r + N - tail r) mod N.

Definition ring_list (r : Ring A) : list A :=
  (fun i => default dflt (buf r !! Z.to_nat ((tail r + i) mod N))) <$> seqZ 0 (ring_len r).

Context (HN : 1 < N).

(** [x mod N] for [x] below [2 N]. *)
Lemma mod_wrap x : 0 <= x < 2 * N -> x mod N = if x <? N then x else x - N.
Proof.
  intros Hx. destruct (Z.ltb_spec x N).
  - apply Z.mod_small. lia.
  - rewrite <- (Z_mod_plus_full x (-1) N). replace (x + -1 * N) with (x - N) by lia. apply Z.mod_small. lia.
Qed.

Lemma ring_len_cases r : ring_ok r ->
  ring_len r = if tail r <=? head r then head r - tail r else head r + N - tail r.
Proof.
  intros (_ & Hh & Ht). unfold ring_len. rewrite mod_wrap by lia.
  destruct (Z.ltb_spec (head r + N - tail r) N), (Z.leb_spec (tail r) (head r)); lia.
Qed.

Ltac ring_arith :=
  repeat match goal with
  | H : context [?x mod N] |- _ => rewrite (mod_wrap x) in H by lia
  | |- context [?x mod N] => rewrite (mod_wrap x) by lia
  end;
  repeat match goal with
  | H : context [if ?b then _ else _] |- _ => destruct b eqn:?
  | |- context [if ?b then _ else _] => destruct b eqn:?
  end; breflect; try lia.

Lemma ring_full_len r : ring_ok r -> is_full r = (ring_len r =? N - 1).
Proof.
  intros Hr. rewrite ring_len_cases by done. destruct Hr as (_ & Hh & Ht). unfold is_full.
  apply eq_true_iff_eq. rewrite !Z.eqb_eq. ring_arith.
Qed.

Lemma ring_empty_len r : ring_ok r -> is_empty r = (ring_len r =? 0).
Proof.
  intros Hr. rewrite ring_len_cases by done. destruct Hr as (_ & Hh & Ht). unfold is_empty.
  apply eq_true_iff_eq. rewrite !Z.eqb_eq. ring_arith.
Qed.

Lemma ring_len_bound r : ring_ok r -> 0 <= ring_len r <= N - 1.
Proof. intros _. unfold ring_len. pose proof (Z.mod_pos_bound (head r + N - tail r) N). lia. Qed.

Lemma ring_push_ok c r : ring_ok r -> ring_ok (push c r).
Proof.
  intros (Hl & Hh & Ht). unfold push. destruct (is_full r); [done|].
  split; simpl; [by rewrite length_insert|]. split; [apply Z.mod_pos_bound; lia|done].
Qed.

Lemma ring_pop_ok r : ring_ok r -> ring_ok (snd (pop r)).
Proof.
  intros (Hl & Hh & Ht). unfold pop. destruct (is_empty r); [done|].
  split; simpl; [done|]. split; [done|]. apply Z.mod_pos_bound; lia.
Qed.

Lemma length_ring_list r : Z.of_nat (length (ring_list r)) = ring_len r.
Proof.
  unfold ring_list. rewrite length_fmap, length_seqZ. unfold ring_len.
  pose proof (Z.mod_pos_bound (head r + N - tail r) N). lia.
Qed.

Lemma ring_push_list c r : ring_ok r -> is_full r = false -> ring_list (push c r) = ring_list r ++ [c].
Proof.
  intros Hr Hf. pose proof (ring_push_ok c r Hr) as Hr'. pose proof (ring_len_bound r Hr) as Hb.
  pose proof (ring_full_len r Hr) as Hfl. rewrite Hf in Hfl. symmetry in Hfl. apply Z.eqb_neq in Hfl.
  pose proof (ring_len_cases r Hr) as Hc. pose proof (ring_len_cases _ Hr') as Hc'.
  unfold push in *. rewrite Hf in *. simpl in *.
  set (r' := mkRing _ _ _) in *. destruct Hr as (Hl & Hh & Ht).
  assert (Hlen : ring_len r' = ring_len r + 1) by (rewrite Hc'; ring_arith).
  unfold ring_list at 1. rewrite Hlen. rewrite seqZ_app, fmap_app by lia. f_equal.
  - apply list_fmap_ext. intros i x Hi. apply lookup_seqZ in Hi as [-> Hi]. unfold r'. simpl.
    rewrite list_lookup_insert_ne; [done|]. intros E. apply Z2Nat.inj in E; [|lia|apply Z.mod_pos_bound; lia].
    rewrite Hc in Hi. ring_arith.
  - rewrite seqZ_cons, seqZ_nil by lia. rewrite Z.add_0_l. simpl. f_equal.
    replace ((tail r + ring_len r) mod N) with (head r) by (rewrite Hc; ring_arith).
    rewrite list_lookup_insert_eq by lia. done.
Qed.

Lemma ring_pop_list r :
  ring_ok r -> is_empty r = false ->
  exists c, pop r = (Some c, snd (pop r)) /\ ring_list r = c :: ring_list (snd (pop r)).
Proof.
  intros Hr He. pose proof (ring_pop_ok r Hr) as Hr'. pose proof (ring_len_bound r Hr) as Hb.
  pose proof (ring_empty_len r Hr) as Hel. rewrite He in Hel. symmetry in Hel. apply Z.eqb_neq in Hel.
  pose proof (ring_len_cases r Hr) as Hc. pose proof (ring_len_cases _ Hr') as Hc'.
  unfold pop in *. rewrite He in *. simpl in *. set (r' := mkRing _ _ _) in *. destruct Hr as (Hl & Hh & Ht).
  assert (Hlen : ring_len r' = ring_len r - 1) by (rewrite Hc'; ring_arith).
  eexists. split; [done|]. unfold ring_list. rewrite Hlen, (seqZ_cons 0 (ring_len r)) by lia.
  rewrite fmap_cons. f_equal.
  - rewrite Z.add_0_r, Z.mod_small by lia. done.
  - replace (Z.pred (ring_len r)) with (ring_len r - 1) by lia. apply list_eq. intros i.
    rewrite !list_lookup_fmap. destruct (decide (Z.of_nat i < ring_len r - 1)) as [Hi|Hi].
    + rewrite !lookup_seqZ_lt by lia. simpl. do 4 f_equal. rewrite Z.add_mod_idemp_l by lia. f_equal. lia.
    + rewrite !lookup_seqZ_ge by lia. done.
Qed.
End Ring.
