(* ===== verification/Tty.v ===== *)
(** * Keyboard buffer and terminal ([hw/kbd_buffer.rs], [hw/tty.rs])

    Both run their operations with interrupts disabled ([with_lock]), so each
    is one atomic step.  The terminal's line discipline collects a line,
    echoes it, and commits it to the cooked queue at a newline; [read] takes
    bytes from the cooked queue up to a newline, waiting while it is empty. *)

From S2P Require Import Prelude Ring.

(** ** Rings as queues *)

(** A ring of bytes or characters with [N] slots. *)
Definition RingN (N : Z) : Type := Ring Z.

#[export] Program Instance ring_queue (N : Z) {HN : TCEq (1 <? N) true} : BoundedQueue (RingN N) Z := {|
  q_ok := ring_ok N;
  q_cap := Z.to_nat (N - 1);
  q_list := ring_list 0 N;
  q_push := push N;
  q_pop := pop 0 N;
|}.
Next Obligation.
  intros N HN q Hq. apply TCEq_eq, Z.ltb_lt in HN. pose proof (length_ring_list 0 N HN q).
  pose proof (ring_len_bound N HN q Hq). lia.
Qed.
Next Obligation. intros N HN a q Hq. apply TCEq_eq, Z.ltb_lt in HN. by apply ring_push_ok. Qed.
Next Obligation.
  intros N HN a q Hq. apply TCEq_eq, Z.ltb_lt in HN. pose proof (length_ring_list 0 N HN q).
  pose proof (ring_len_bound N HN q Hq). destruct (is_full N q) eqn:Ef.
  - rewrite (ring_full_len N HN q Hq) in Ef. apply Z.eqb_eq in Ef. rewrite decide_False by lia.
    unfold push. rewrite (ring_full_len N HN q Hq), Ef, Z.eqb_refl. done.
  - pose proof (ring_full_len N HN q Hq) as E. rewrite Ef in E. symmetry in E. apply Z.eqb_neq in E.
    rewrite decide_True by lia. by apply ring_push_list.
Qed.
Next Obligation. intros N HN q Hq. apply TCEq_eq, Z.ltb_lt in HN. by apply ring_pop_ok. Qed.
Next Obligation.
  intros N HN q Hq. apply TCEq_eq, Z.ltb_lt in HN. pose proof (length_ring_list 0 N HN q) as Hl.
  destruct (is_empty q) eqn:Ee.
  - pose proof (ring_empty_len N HN q Hq) as E. rewrite Ee in E. symmetry in E. apply Z.eqb_eq in E.
    destruct (ring_list 0 N q); [|simpl in Hl; lia]. unfold pop. by rewrite Ee.
  - destruct (ring_pop_list 0 N HN q Hq Ee) as (c & E1 & E2). rewrite E2. rewrite E1. done.
Qed.

(** ** Keyboard buffer *)

Module KeyBuffer.
Definition BUF_SIZE : Z := 128.
Definition Inner : Type := RingN BUF_SIZE.
Definition new : Inner := ring_new 0 BUF_SIZE.
Definition push (c : Z) : Inner -> Inner := Ring.push BUF_SIZE c.
Definition pop : Inner -> option Z * Inner := Ring.pop 0 BUF_SIZE.
Definition is_empty : Inner -> bool := Ring.is_empty.
End KeyBuffer.

(** ** Terminal *)

Definition COOKED_CAPACITY : Z := 1024.
Definition LINE_CAPACITY : Z := 256.

Record Tty := mkTty {
  cooked : RingN COOKED_CAPACITY;
  line : list Z;       (* [u8; LINE_CAPACITY] *)
  line_len : Z;
}.

Definition Tty_new : Tty :=
  mkTty (ring_new 0 COOKED_CAPACITY) (replicate (Z.to_nat LINE_CAPACITY) 0) 0.

Definition cooked_push (byte : Z) (t : Tty) : Tty :=
  mkTty (push COOKED_CAPACITY byte (cooked t)) (line t) (line_len t).

Definition cooked_pop (t : Tty) : option Z * Tty :=
  let '(r, c) := pop 0 COOKED_CAPACITY (cooked t) in (r, mkTty c (line t) (line_len t)).

Definition commit_line (t : Tty) : Tty :=
  let t := fold_left (fun t i => cooked_push (default 0 (line t !! Z.to_nat i)) t)
                     (seqZ 0 (line_len t)) t in
  let t := cooked_push 10 t in
  mkTty (cooked t) (line t) 0.

Inductive Echo := EchoNone | EchoByte (b : Z) | EchoBackspace | EchoNewline.

Definition input_step (byte : Z) (t : Tty) : Echo * Tty :=
  if (byte =? 13) || (byte =? 10) then (EchoNewline, commit_line t)
  else if (byte =? 0x08) || (byte =? 0x7f) then
    if line_len t =? 0 then (EchoNone, t)
    else (EchoBackspace, mkTty (cooked t) (line t) (line_len t - 1))
  else if (0x20 <=? byte) && (byte <=? 0x7e) then
    if LINE_CAPACITY <=? line_len t then (EchoNone, t)
    else (EchoByte byte,
          mkTty (cooked t) (<[Z.to_nat (line_len t) := byte]> (line t)) (line_len t + 1))
  else (EchoNone, t).

(** The bytes [write_bytes] sends to the serial port and the console. *)
Definition echo_bytes (e : Echo) : list Z :=
  match e with
  | EchoNone => []
  | EchoByte b => [b]
  | EchoBackspace => [0x08; 0x20; 0x08]
  | EchoNewline => [10]
  end.

Definition input_char (byte : Z) (t : Tty) : list Z * Tty :=
  let '(e, t) := input_step byte t in (echo_bytes e, t).

(** One round of the loop of [read]: the bytes written to the buffer. *)
Fixpoint read_round (count : nat) (t : Tty) : list Z * Tty :=
  match count with
  | O => ([], t)
  | S n =>
      match cooked_pop t with
      | (None, t) => ([], t)
      | (Some byte, t) =>
          if byte =? 10 then ([byte], t)
          else let '(l, t) := read_round n t in (byte :: l, t)
      end
  end.

(** [read], with [wait i] what happens to the terminal while the [i]-th
    [wait_for_event] runs other tasks and interrupt handlers. *)
Fixpoint read (fuel : nat) (wait : nat -> Tty -> Tty) (i : nat) (count : Z) (t : Tty)
    : option (list Z * Tty) :=
  if count =? 0 then Some ([], t)
  else
    match read_round (Z.to_nat count) t with
    | ([], t) => match fuel with
                 | O => None
                 | S f => read f wait (S i) count (wait i t)
                 end
    | (l, t) => Some (l, t)
    end.

(** ** Abstract terminal: the queue of committed bytes and the edited line *)

Definition tty_ok (t : Tty) : Prop :=
  ring_ok COOKED_CAPACITY (cooked t) /\ length (line t) = Z.to_nat LINE_CAPACITY /\
  0 <= line_len t <= LINE_CAPACITY.

Definition queue (t : Tty) : list Z := ring_list 0 COOKED_CAPACITY (cooked t).
Definition edited (t : Tty) : list Z := take (Z.to_nat (line_len t)) (line t).

(** The line discipline. *)
Definition discipline (byte : Z) (q l : list Z) : list Z * list Z * list Z :=
  if (byte =? 13) || (byte =? 10) then (q ++ take (1023 - length q) (l ++ [10]), [], [10])
  else if (byte =? 0x08) || (byte =? 0x7f) then
    (q, take (length l - 1) l, match l with [] => [] | _ => [0x08; 0x20; 0x08] end)
  else if (0x20 <=? byte) && (byte <=? 0x7e) then
    if decide (length l < 256)%nat then (q, l ++ [byte], [byte]) else (q, l, [])
  else (q, l, []).

#[export] Instance cooked_queue : BoundedQueue (RingN COOKED_CAPACITY) Z := ring_queue COOKED_CAPACITY.

Lemma cooked_push_all (l : list Z) (c : RingN COOKED_CAPACITY) :
  ring_ok COOKED_CAPACITY c ->
  ring_ok COOKED_CAPACITY (push_all l c) /\
  ring_list 0 COOKED_CAPACITY (push_all l c) =
    ring_list 0 COOKED_CAPACITY c ++ take (1023 - length (ring_list 0 COOKED_CAPACITY c)) l.
Proof.
  intros Hc. split.
  - exact (push_all_ok (H := cooked_queue) l c Hc).
  - exact (push_all_spec (H := cooked_queue) l c Hc).
Qed.

Lemma length_edited t : tty_ok t -> Z.of_nat (length (edited t)) = line_len t.
Proof.
  intros (_ & Hl & Hr). unfold edited. rewrite length_take, Hl. unfold LINE_CAPACITY in *. lia.
Qed.

Lemma Tty_new_ok : tty_ok Tty_new.
Proof.
  split; [split; [apply length_replicate|]|split; [apply length_replicate|]]; unfold LINE_CAPACITY, COOKED_CAPACITY;
    simpl; lia.
Qed.

(** Committing pushes the edited line and a newline. *)
Lemma commit_line_push_all t :
  tty_ok t -> cooked (commit_line t) = push_all (edited t ++ [10]) (cooked t) /\
  line (commit_line t) = line t /\ line_len (commit_line t) = 0.
Proof.
  intros Ht. pose proof (length_edited t Ht) as Hle. destruct Ht as (_ & Hl & Hr).
  unfold commit_line, push_all. rewrite fold_left_app. cbn [fold_left].
  assert (forall n t', 0 <= n <= line_len t -> line t' = line t ->
    let t1 := fold_left (fun t i => cooked_push (default 0 (line t !! Z.to_nat i)) t) (seqZ 0 n) t' in
    cooked t1 = fold_left (fun q a => push COOKED_CAPACITY a q) (take (Z.to_nat n) (line t)) (cooked t') /\
    line t1 = line t) as H.
  { intros n t' Hn Ht'. destruct Hn as [Hn0 Hn]. revert Hn. pattern n. apply natlike_ind; [| |done].
    - intros _. done.
    - intros k Hk IH Hn. specialize (IH ltac:(lia)). rewrite <- Z.add_1_r, seqZ_app by lia.
      rewrite fold_left_app. rewrite (seqZ_cons _ 1), seqZ_nil by lia. cbn [fold_left].
      set (t1 := fold_left _ (seqZ 0 k) t') in *. destruct IH as [I1 I2].
      destruct (lookup_lt_is_Some_2 (line t) (Z.to_nat k)) as [b Hb]; [lia|].
      replace (Z.to_nat (k + 1)) with (S (Z.to_nat k)) by lia.
      rewrite (take_S_r _ _ b) by done. rewrite fold_left_app. simpl. rewrite <- I1, I2, Z.add_0_l, Hb. done. }
  destruct (H (line_len t) t) as [H1 H2]; [lia|done|].
  set (t1 := fold_left _ (seqZ 0 (line_len t)) t) in *. simpl. rewrite H1. done.
Qed.

(** No index leaves the buffers. *)
Lemma input_char_ok byte t : tty_ok t -> tty_ok (snd (input_char byte t)).
Proof.
  intros Ht. pose proof Ht as (Hc & Hl & Hr). unfold input_char, input_step.
  destruct ((byte =? 13) || (byte =? 10)).
  { destruct (commit_line_push_all t Ht) as (H1 & H2 & H3). unfold tty_ok. cbn [snd]. rewrite H1, H2, H3.
    split; [by apply cooked_push_all|]. split; [done|unfold LINE_CAPACITY; lia]. }
  repeat case_goal; breflect; simpl; try done; split_and!; simpl; rewrite ?length_insert; try done; lia.
Qed.

(** C29: The terminal implements the line discipline: on every byte, the
    committed queue, the edited line and the echoed bytes change exactly as
    [discipline] says (newline commits what fits of the line and a newline,
    backspace and delete drop the last character, printable characters are
    appended up to 256, anything else is ignored), and no index ever leaves
    the buffers. *)
Theorem input_char_discipline byte t :
  tty_ok t ->
  let '(e, t') := input_char byte t in
  tty_ok t' /\ (queue t', edited t', e) = discipline byte (queue t) (edited t).
Proof.
  intros Ht. pose proof (length_edited t Ht) as Hle. pose proof (input_char_ok byte t Ht) as Hok.
  pose proof Ht as (Hc & Hl & Hr).
  destruct (input_char byte t) as [e t'] eqn:Ein. split; [exact Hok|]. clear Hok. revert Ein.
  unfold input_char, input_step, discipline. destruct ((byte =? 13) || (byte =? 10)) eqn:E1.
  { destruct (commit_line_push_all t Ht) as (H1 & H2 & H3). intros [= <- <-].
    unfold queue, edited at 1. rewrite H1, H3.
    rewrite (proj2 (cooked_push_all (edited t ++ [10]) (cooked t) Hc)). done. }
  destruct ((byte =? 0x08) || (byte =? 0x7f)) eqn:E2.
  { destruct (Z.eqb_spec (line_len t) 0) as [E|E]; intros [= <- <-].
    - destruct (edited t); [done|simpl in Hle; lia].
    - unfold edited. simpl. f_equal; [f_equal|].
      + rewrite take_take. f_equal. fold (edited t). lia.
      + fold (edited t). destruct (edited t); [simpl in Hle; lia|done]. }
  destruct ((0x20 <=? byte) && (byte <=? 0x7e)) eqn:E3; [|by intros [= <- <-]].
  destruct (Z.leb_spec LINE_CAPACITY (line_len t)) as [E|E]; intros [= <- <-]; unfold LINE_CAPACITY in *.
  - rewrite decide_False by lia. done.
  - rewrite decide_True by lia. unfold edited, queue. simpl. f_equal. f_equal.
    replace (Z.to_nat (line_len t + 1)) with (S (Z.to_nat (line_len t))) by lia.
    rewrite (take_S_r _ _ byte) by (apply list_lookup_insert_eq; lia).
    rewrite take_insert_ge by lia. done.
Qed.

Lemma input_char_discipline_witness :
  queue (snd (input_char 10 (snd (input_char 97 Tty_new)))) = [97; 10] /\
  tty_ok (snd (input_char 97 Tty_new)).
Proof.
  split; [vm_compute; reflexivity|].
  pose proof (input_char_discipline 97 Tty_new Tty_new_ok) as H.
  destruct (input_char 97 Tty_new) as [e t']. exact (proj1 H).
Defined.

(** ** Reading *)

Lemma read_round_pop n t :
  read_round n t = let '(l, c) := pop_until (fun b => b =? 10) n (cooked t) in (l, mkTty c (line t) (line_len t)).
Proof.
  revert t; induction n as [|n IH]; intros t; simpl; [by destruct t|].
  change (q_pop (cooked t)) with (pop 0 COOKED_CAPACITY (cooked t)).
  unfold cooked_pop. destruct (pop 0 COOKED_CAPACITY (cooked t)) as [[b|] c]; [|done].
  destruct (b =? 10); [done|]. rewrite IH. cbn [cooked line line_len].
  by repeat case_match; simplify_eq.
Qed.

Lemma read_round_spec n t :
  tty_ok t ->
  let '(l, t') := read_round n t in
  tty_ok t' /\ l = take_until (fun b => b =? 10) n (queue t) /\ queue t = l ++ queue t' /\ edited t' = edited t.
Proof.
  intros (Hc & Hl & Hr). rewrite read_round_pop.
  pose proof (pop_until_spec (H := cooked_queue) (fun b => b =? 10) n (cooked t) Hc) as H.
  destruct (pop_until _ n (cooked t)) as [l c]. destruct H as (H1 & H2 & H3). split_and!; try done.
Qed.

Lemma read_round_empty n t : tty_ok t -> queue t = [] -> read_round n t = ([], t).
Proof.
  intros (Hc & _) Hq. destruct n; [done|]. simpl.
  pose proof (q_pop_spec (BoundedQueue := cooked_queue) (cooked t) Hc) as H.
  change (q_list (cooked t)) with (queue t) in H. rewrite Hq in H.
  change (pop 0 COOKED_CAPACITY (cooked t) = (None, cooked t)) in H.
  unfold cooked_pop. rewrite H. by destruct t.
Qed.

(** The terminal as [read] sees it before round [i]. *)
Fixpoint waited (wait : nat -> Tty -> Tty) (i : nat) (t : Tty) : Tty :=
  match i with
  | O => t
  | S i' => wait i' (waited wait i' t)
  end.

Lemma read_waits wait count t k fuel i :
  0 < count -> (forall j, (j <= k)%nat -> tty_ok (waited wait (i + j) t)) ->
  (forall j, (j < k)%nat -> queue (waited wait (i + j) t) = []) ->
  read (k + fuel) wait i count (waited wait i t) = read fuel wait (i + k) count (waited wait (i + k) t).
Proof.
  intros Hc. revert i; induction k as [|k IH]; intros i Hok He; simpl; [by rewrite Nat.add_0_r|].
  destruct (Z.eqb_spec count 0); [lia|]. pose proof (He 0%nat ltac:(lia)) as H0. rewrite Nat.add_0_r in H0.
  pose proof (Hok 0%nat ltac:(lia)) as Hok0. rewrite Nat.add_0_r in Hok0.
  rewrite read_round_empty by done. change (wait i (waited wait i t)) with (waited wait (S i) t).
  rewrite IH.
  - by replace (S i + k)%nat with (i + S k)%nat by lia.
  - intros j Hj. replace (S i + j)%nat with (i + S j)%nat by lia. apply Hok. lia.
  - intros j Hj. replace (S i + j)%nat with (i + S j)%nat by lia. apply He. lia.
Qed.

(** C30: Reading the terminal.  Whatever other tasks and interrupts do to the
    terminal while [read] waits, if committed bytes are there after [k] waits
    (and not before), [read] returns after [k] waits with a non-empty prefix
    of the committed bytes: up to and including the first newline, at most
    [count] bytes; exactly these bytes leave the queue and the line being
    edited is untouched. *)
Theorem tty_read_returns wait count t k fuel :
  0 < count -> (forall i, (i <= k)%nat -> tty_ok (waited wait i t)) ->
  (forall i, (i < k)%nat -> queue (waited wait i t) = []) -> queue (waited wait k t) <> [] ->
  exists l t', read (k + fuel) wait 0 count t = Some (l, t') /\ tty_ok t' /\ l <> [] /\
    l = take_until (fun b => b =? 10) (Z.to_nat count) (queue (waited wait k t)) /\
    (length l <= Z.to_nat count)%nat /\
    queue (waited wait k t) = l ++ queue t' /\ edited t' = edited (waited wait k t).
Proof.
  intros Hc Hok He Hne. pose proof (read_waits wait count t k fuel 0 Hc Hok He) as Hr.
  change (waited wait 0 t) with t in Hr. change (0 + k)%nat with k in Hr. rewrite Hr.
  pose proof (read_round_spec (Z.to_nat count) _ (Hok k ltac:(lia))) as H.
  assert (read fuel wait k count (waited wait k t) =
    match read_round (Z.to_nat count) (waited wait k t) with
    | ([], t) => match fuel with O => None | S f => read f wait (S k) count (wait k t) end
    | (l, t) => Some (l, t)
    end) as -> by (destruct fuel; simpl; destruct (Z.eqb_spec count 0); done || lia).
  destruct (read_round _ _) as [l t']. destruct H as (H1 & H2 & H3 & H4).
  assert (l <> []) as Hl by (rewrite H2; rewrite take_until_nil; intros [?|?]; [lia|done]).
  destruct l as [|b l]; [done|]. exists (b :: l), t'. split_and!; try done.
  rewrite H2. apply take_until_length.
Qed.

(** Nothing committed at first; during the first wait the line "a" is typed. *)
Lemma tty_read_returns_witness :
  exists l t', read 1 (fun _ t => snd (input_char 10 (snd (input_char 97 t)))) 0 8 Tty_new = Some (l, t') /\ l <> [].
Proof.
  destruct (tty_read_returns (fun _ t => snd (input_char 10 (snd (input_char 97 t)))) 8 Tty_new 1 0)
    as (l & t' & E & _ & Hl & _).
  - lia.
  - intros [|[|i]] Hi; [exact Tty_new_ok| |lia]. cbn [waited]. apply input_char_ok, input_char_ok, Tty_new_ok.
  - intros [|i] Hi; [reflexivity|lia].
  - vm_compute. discriminate.
  - exists l, t'. split; [exact E|exact Hl].
Defined.
