(* ===== verification/Ps2.v ===== *)
(** * PS/2 keyboard ([hw/ps2.rs], [hw/keyboard.rs])

    Scancodes are decoded to key events, which update the modifier state and
    are turned into characters for the terminal.  Characters are code points
    ([Z]).  The interrupt handler reads the port, acknowledges the interrupt
    and processes the scancode; the port read is the argument here. *)

From S2P Require Import Prelude Ring Tty.

Inductive KeyCode :=
| Printable (normal shifted : Z)
| Enter | Backspace | Space | Shift | CapsLock | Unknown.

Inductive KeyEvent := Press (k : KeyCode) | Release (k : KeyCode).

Record KeyboardState := mkKbd { shift : bool; caps_lock : bool }.

Definition KeyboardState_new : KeyboardState := mkKbd false false.
Definition set_shift (v : bool) (s : KeyboardState) : KeyboardState := mkKbd v (caps_lock s).
Definition toggle_caps (s : KeyboardState) : KeyboardState := mkKbd (shift s) (negb (caps_lock s)).

Definition map_alpha (sc : Z) : Z :=
  match sc with
  | 0x1E => 97 | 0x30 => 98 | 0x2E => 99 | 0x20 => 100 | 0x12 => 101 | 0x21 => 102
  | 0x22 => 103 | 0x23 => 104 | 0x17 => 105 | 0x24 => 106 | 0x25 => 107 | 0x26 => 108
  | 0x32 => 109 | 0x31 => 110 | 0x18 => 111 | 0x19 => 112 | 0x10 => 113 | 0x13 => 114
  | 0x1F => 115 | 0x14 => 116 | 0x16 => 117 | 0x2F => 118 | 0x11 => 119 | 0x2D => 120
  | 0x15 => 121 | 0x2C => 122 | _ => 0
  end.

(** [char::to_ascii_uppercase], [char::is_ascii_alphabetic]. *)
Definition to_ascii_uppercase (c : Z) : Z := if (97 <=? c) && (c <=? 122) then c - 32 else c.
Definition is_ascii_alphabetic (c : Z) : bool :=
  ((65 <=? c) && (c <=? 90)) || ((97 <=? c) && (c <=? 122)).

Definition key_of_code (code : Z) : KeyCode :=
  match code with
  | 0x2A | 0x36 => Shift
  | 0x3A => CapsLock
  | 0x1C => Enter
  | 0x0E => Backspace
  | 0x39 => Space
  | 0x02 => Printable 49 33
  | 0x03 => Printable 50 64
  | 0x04 => Printable 51 35
  | 0x05 => Printable 52 36
  | 0x06 => Printable 53 37
  | 0x07 => Printable 54 94
  | 0x08 => Printable 55 38
  | 0x09 => Printable 56 42
  | 0x0A => Printable 57 40
  | 0x0B => Printable 48 41
  | 0x0C => Printable 45 95
  | 0x0D => Printable 61 43
  | 0x1A => Printable 91 123
  | 0x1B => Printable 93 125
  | 0x27 => Printable 59 58
  | 0x28 => Printable 39 34
  | 0x29 => Printable 96 126
  | 0x2B => Printable 92 124
  | 0x33 => Printable 44 60
  | 0x34 => Printable 46 62
  | 0x35 => Printable 47 63
  | sc =>
      if (0x10 <=? sc) && (sc <=? 0x32) then
        let c := map_alpha sc in
        if negb (c =? 0) then Printable c (to_ascii_uppercase c) else Unknown
      else Unknown
  end.

Definition apply_state (event : KeyEvent) (s : KeyboardState) : KeyboardState :=
  match event with
  | Press Shift => set_shift true s
  | Release Shift => set_shift false s
  | Press CapsLock => toggle_caps s
  | _ => s
  end.

Definition decode_scancode (scancode : Z) (s : KeyboardState) : KeyEvent * KeyboardState :=
  let release := negb ((scancode & 0x80) =? 0) in
  let code := scancode & 0x7F in
  let key := key_of_code code in
  let event := if release then Release key else Press key in
  (event, apply_state event s).

Definition keyevent_to_char (event : KeyEvent) (s : KeyboardState) : option Z :=
  match event with
  | Release _ => None
  | Press key =>
      match key with
      | Printable normal shifted =>
          if is_ascii_alphabetic normal then
            let upper := xorb (shift s) (caps_lock s) in
            Some (if upper then shifted else normal)
          else Some (if shift s then shifted else normal)
      | Enter => Some 10
      | Backspace => Some 8
      | Space => Some 32
      | _ => None
      end
  end.

(** [handle_scancode]: the echoed bytes, the modifiers and the terminal. *)
Definition handle_scancode (scancode : Z) (s : KeyboardState) (t : Tty) : list Z * KeyboardState * Tty :=
  let '(event, s) := decode_scancode scancode s in
  match keyevent_to_char event s with
  | Some c => let '(e, t) := input_char (wrap8 c) t in (e, s, t)
  | None => ([], s, t)
  end.

(** The handler: read the port, acknowledge, handle. *)
Definition keyboard_handler (port : Z) (s : KeyboardState) (t : Tty) : list Z * KeyboardState * Tty :=
  let scancode := port in
  handle_scancode scancode s t.

(** ** Properties *)

(** The characters the keyboard can produce: printable ASCII, newline and
    backspace. *)
Definition typed_ok (c : Z) : bool := ((0x20 <=? c) && (c <=? 0x7e)) || (c =? 10) || (c =? 8).

Definition char_ok (sc : Z) (s : KeyboardState) : bool :=
  let '(ev, s') := decode_scancode sc s in
  match keyevent_to_char ev s' with Some c => typed_ok c | None => true end.

Definition all_states : list KeyboardState := [mkKbd false false; mkKbd false true; mkKbd true false; mkKbd true true].

Lemma elem_of_all_states s : s ∈ all_states.
Proof. destruct s as [[] []]; unfold all_states; set_solver. Qed.

(** Checking a property of all scancodes and modifier states by evaluation. *)
Lemma scancode_exhaust (P : Z -> KeyboardState -> bool) :
  forallb (fun sc => forallb (P sc) all_states) (seqZ 0 256) = true ->
  forall sc s, is_u8 sc -> P sc s = true.
Proof.
  intros H sc s Hsc. rewrite forallb_forall in H. specialize (H sc).
  rewrite forallb_forall in H. apply H.
  - apply list_elem_of_In, elem_of_seqZ. unfold is_u8, U8 in Hsc. lia.
  - apply list_elem_of_In, elem_of_all_states.
Qed.

(** C31: Every scancode is handled: whatever byte the controller delivers and
    whatever the modifiers are, the character sent to the terminal (if any) is
    printable ASCII, newline or backspace, so it survives the conversion to a
    byte, and the terminal invariant is kept; a key release never produces a
    character. *)
Theorem keyboard_handler_total sc s t :
  is_u8 sc -> tty_ok t ->
  tty_ok (snd (keyboard_handler sc s t)) /\ char_ok sc s = true /\
  (sc & 0x80 <> 0 -> snd (keyboard_handler sc s t) = t).
Proof.
  intros Hsc Ht. split_and!.
  - unfold keyboard_handler, handle_scancode. destruct (decode_scancode sc s) as [ev s'].
    destruct (keyevent_to_char ev s') as [c|]; [|done].
    pose proof (input_char_ok (wrap8 c) t Ht) as H. by destruct (input_char (wrap8 c) t).
  - revert sc s Hsc. apply scancode_exhaust. vm_compute. reflexivity.
  - intros Hrel. unfold keyboard_handler, handle_scancode, decode_scancode.
    apply Z.eqb_neq in Hrel. rewrite Hrel. done.
Qed.

Lemma keyboard_handler_total_witness : tty_ok (snd (keyboard_handler 0x1E (mkKbd true false) Tty_new)).
Proof. apply (keyboard_handler_total 0x1E (mkKbd true false) Tty_new); [split; [lia|reflexivity]|exact Tty_new_ok]. Defined.

(** The scancode of a lower-case letter. *)
Definition letter_scancode (c : Z) : option Z := List.find (fun sc => map_alpha sc =? c) (seqZ 0x10 0x23).

(** Letters.  Each of the 26 letters has a scancode that types it: the
    lower-case letter, or the upper-case one exactly when shift and caps-lock
    differ; the modifiers themselves are switched by their own scancodes. *)
Theorem letters_typed c s :
  97 <= c <= 122 ->
  exists sc, letter_scancode c = Some sc /\
    (let '(ev, s') := decode_scancode sc s in
     s' = s /\ keyevent_to_char ev s' = Some (if xorb (shift s) (caps_lock s) then c - 32 else c)) /\
    shift (snd (decode_scancode 0x2A s)) = true /\ shift (snd (decode_scancode 0xAA s)) = false /\
    caps_lock (snd (decode_scancode 0x3A s)) = negb (caps_lock s).
Proof.
  intros Hc.
  assert (c ∈ seqZ 97 26) as Hin by (apply elem_of_seqZ; lia). clear Hc. revert c Hin s.
  refine (proj1 (list.Forall_forall _ _) _). unfold seqZ. cbn [Z.to_nat Pos.to_nat Pos.iter_op seq fmap list_fmap].
  simpl (seq _ _). cbn [fmap list_fmap].
  repeat (constructor; [intros [[] []]; eexists; (split; [vm_compute; reflexivity|]);
                        vm_compute; split_and!; reflexivity|]). constructor.
Qed.

Lemma letters_typed_witness : exists sc, letter_scancode 113 = Some sc /\ sc = 0x10.
Proof.
  destruct (letters_typed 113 KeyboardState_new ltac:(lia)) as (sc & H & _). exists sc. split; [exact H|].
  vm_compute in H. congruence.
Defined.
