(* ===== verification/Sync.v ===== *)
(** * Spin lock ([sync.rs])

    [lock] saves the interrupt flag, disables interrupts and tries to take
    the lock with a compare-and-exchange; on failure it restores the flag,
    spins until the lock looks free and starts over.  Dropping the guard
    releases the lock and restores the flag.  The lock is a step relation
    over any number of contexts (a context is whatever may run concurrently:
    a task, an interrupt handler), each with its own interrupt flag; a step is
    one atomic access of the code.  The frame allocator's own lock
    ([mem/pmm.rs]) is the same protocol without the interrupt flag. *)

From S2P Require Import Prelude.
From stdpp Require Import relations.

(** Program points of [lock] and of the guard's [drop]. *)
Inductive Pc :=
| Outside                   (* not using the lock *)
| Start                     (* head of the loop of [lock] *)
| TryCas (irq : bool)       (* flag saved, interrupts off, before the exchange *)
| Spinning                  (* [while self.held.load()] *)
| Critical (irq : bool)     (* holding the guard *)
| Released (irq : bool).    (* [held] stored false, before the flag is restored *)

Record Ctx := mkCtx {
  pc : Pc;
  iflag : bool;      (* interrupts enabled *)
  entry : bool;      (* ghost: the flag when [lock] was called *)
}.

Record LockState := mkLock { held : bool; ctxs : nat -> Ctx }.

Definition set_ctx (f : nat -> Ctx) (i : nat) (c : Ctx) : nat -> Ctx :=
  fun j => if decide (j = i) then c else f j.

(** One atomic step of context [i]; a context spinning on a held lock stays
    where it is. *)
Definition lock_step (i : nat) (s : LockState) : LockState :=
  let c := ctxs s i in
  let go c' := mkLock (held s) (set_ctx (ctxs s) i c') in
  match pc c with
  | Outside => go (mkCtx Start (iflag c) (iflag c))
  | Start => go (mkCtx (TryCas (iflag c)) false (entry c))
  | TryCas irq =>
      if held s then go (mkCtx Spinning irq (entry c))
      else mkLock true (set_ctx (ctxs s) i (mkCtx (Critical irq) (iflag c) (entry c)))
  | Spinning => if held s then s else go (mkCtx Start (iflag c) (entry c))
  | Critical irq => mkLock false (set_ctx (ctxs s) i (mkCtx (Released irq) (iflag c) (entry c)))
  | Released irq => go (mkCtx Outside irq (entry c))
  end.

Inductive step : LockState -> LockState -> Prop :=
| step_ctx i s : step s (lock_step i s).

Definition initial (s : LockState) : Prop := held s = false /\ forall i, pc (ctxs s i) = Outside.

Definition in_critical (c : Ctx) : Prop := exists irq, pc c = Critical irq.

(** ** The invariant *)

Definition flags_ok (c : Ctx) : Prop :=
  match pc c with
  | Outside => True
  | Start | Spinning => iflag c = entry c
  | TryCas irq | Critical irq | Released irq => irq = entry c /\ iflag c = false
  end.

Record lock_inv (s : LockState) : Prop := {
  inv_held : held s = true <-> exists i, in_critical (ctxs s i);
  inv_one : forall i j, in_critical (ctxs s i) -> in_critical (ctxs s j) -> i = j;
  inv_flags : forall i, flags_ok (ctxs s i);
}.

Lemma set_ctx_same f i c : set_ctx f i c i = c.
Proof. unfold set_ctx. by rewrite decide_True. Qed.

Lemma set_ctx_other f i c j : j <> i -> set_ctx f i c j = f j.
Proof. intros. unfold set_ctx. by rewrite decide_False. Qed.

Lemma initial_inv s : initial s -> lock_inv s.
Proof.
  intros [Hh Hpc]. split.
  - rewrite Hh. split; [done|]. intros (i & irq & E). rewrite Hpc in E. done.
  - intros i j [irq E]. rewrite Hpc in E. done.
  - intros i. unfold flags_ok. by rewrite Hpc.
Qed.

(** A step that neither enters nor leaves the critical section. *)
Lemma inv_quiet s i c :
  lock_inv s -> ~ in_critical (ctxs s i) -> ~ in_critical c -> flags_ok c ->
  lock_inv (mkLock (held s) (set_ctx (ctxs s) i c)).
Proof.
  intros [H1 H2 H3] Hi Hc Hf.
  assert (forall j, in_critical (set_ctx (ctxs s) i c j) <-> in_critical (ctxs s j)) as Heq.
  { intros j. destruct (decide (j = i)) as [->|]; [rewrite set_ctx_same; tauto|by rewrite set_ctx_other]. }
  split; simpl.
  - rewrite H1. by setoid_rewrite Heq.
  - intros j k. rewrite !Heq. apply H2.
  - intros j. destruct (decide (j = i)) as [->|]; [by rewrite set_ctx_same|by rewrite set_ctx_other].
Qed.

Ltac not_critical := intros [? E]; simpl in E; congruence.

Lemma step_inv s s' : step s s' -> lock_inv s -> lock_inv s'.
Proof.
  intros [i s0] Hinv. pose proof (inv_flags _ Hinv i) as Hf. unfold flags_ok in Hf.
  unfold lock_step. destruct (pc (ctxs s0 i)) eqn:Epc.
  - apply inv_quiet; [done|not_critical..|]. unfold flags_ok; simpl; tauto.
  - apply inv_quiet; [done|not_critical..|]. unfold flags_ok; simpl; tauto.
  - destruct (held s0) eqn:Eh.
    + rewrite <- Eh. apply inv_quiet; [done|not_critical..|]. unfold flags_ok; simpl; tauto.
    + assert (forall j, ~ in_critical (ctxs s0 j)) as Hnone.
      { intros j Hj. assert (held s0 = true) by (apply Hinv; eauto). congruence. }
      split; simpl.
      * split; [|done]. intros _. exists i. rewrite set_ctx_same. by exists irq.
      * intros j k. destruct (decide (j = i)) as [->|], (decide (k = i)) as [->|];
          rewrite ?set_ctx_same, ?set_ctx_other by done; intros A B; try done; exfalso; eapply Hnone; eauto.
      * intros j. destruct (decide (j = i)) as [->|]; [rewrite set_ctx_same; unfold flags_ok; simpl; tauto|].
        rewrite set_ctx_other by done. apply Hinv.
  - destruct (held s0) eqn:Eh; [done|]. rewrite <- Eh. apply inv_quiet; [done|not_critical..|]. unfold flags_ok; simpl; tauto.
  - assert (forall j, j <> i -> ~ in_critical (ctxs s0 j)) as Hnone.
    { intros j Hne Hj. apply Hne. eapply (inv_one _ Hinv); [done|]. by exists irq. }
    assert (forall j c, ~ in_critical c -> ~ in_critical (set_ctx (ctxs s0) i c j)) as Hnone'.
    { intros j c Hc. destruct (decide (j = i)) as [->|]; [by rewrite set_ctx_same|]. rewrite set_ctx_other; auto. }
    split; simpl.
    + split; [done|]. intros [j Hj]. exfalso. eapply Hnone'; [|exact Hj]. not_critical.
    + intros j k Hj. exfalso. eapply Hnone'; [|exact Hj]. not_critical.
    + intros j. destruct (decide (j = i)) as [->|]; [rewrite set_ctx_same; unfold flags_ok; simpl; tauto|].
      rewrite set_ctx_other by done. apply Hinv.
  - apply inv_quiet; [done|not_critical..|]. unfold flags_ok; simpl; tauto.
Qed.

Lemma reachable_inv s s' : rtc step s s' -> lock_inv s -> lock_inv s'.
Proof. induction 1; eauto using step_inv. Qed.

(** C32: Mutual exclusion.  From a state in which nobody uses the lock,
    whatever the interleaving of the contexts' steps, at most one context is
    in the critical section, it has interrupts disabled, and the lock word
    says exactly whether there is one; and a context that leaves gets the
    interrupt flag it called [lock] with. *)
Theorem spinlock_mutual_exclusion s0 s :
  initial s0 -> rtc step s0 s ->
  (forall i j, in_critical (ctxs s i) -> in_critical (ctxs s j) -> i = j) /\
  (held s = true <-> exists i, in_critical (ctxs s i)) /\
  (forall i, in_critical (ctxs s i) -> iflag (ctxs s i) = false) /\
  (forall i irq, pc (ctxs s i) = Released irq ->
     iflag (ctxs (lock_step i s) i) = entry (ctxs s i) /\ pc (ctxs (lock_step i s) i) = Outside).
Proof.
  intros H0 Hr. pose proof (reachable_inv _ _ Hr (initial_inv _ H0)) as [H1 H2 H3]. split_and!; try done.
  - intros i [irq E]. specialize (H3 i). unfold flags_ok in H3. rewrite E in H3. apply H3.
  - intros i irq E. specialize (H3 i). unfold flags_ok in H3. rewrite E in H3. unfold lock_step. rewrite E.
    simpl. rewrite set_ctx_same. simpl. split; [apply H3|done].
Qed.

Definition sample_lock : LockState := mkLock false (fun _ => mkCtx Outside true true).

(** Two contexts race: the first takes the lock, the second spins. *)
Definition sample_race : LockState :=
  fold_left (fun s i => lock_step i s) [0; 1; 0; 1; 0; 1]%nat sample_lock.

Lemma spinlock_mutual_exclusion_witness :
  pc (ctxs sample_race 0%nat) = Critical true /\ pc (ctxs sample_race 1%nat) = Spinning /\
  ~ in_critical (ctxs sample_race 1%nat).
Proof.
  split_and!; [reflexivity|reflexivity|]. intros H1.
  destruct (spinlock_mutual_exclusion sample_lock sample_race) as [Hm _].
  - split; done.
  - unfold sample_race. cbn [fold_left]. do 6 (eapply rtc_r; [|constructor]). apply rtc_refl.
  - assert (0%nat = 1%nat) as E by (apply Hm; [by exists true|exact H1]). discriminate E.
Defined.

(** A free lock is taken: a context that finds the lock free after its
    failed attempt enters after three of its own steps, if no other context
    steps in between. *)
Lemma spinlock_progress i s :
  held s = false -> pc (ctxs s i) = Spinning ->
  in_critical (ctxs (lock_step i (lock_step i (lock_step i s))) i).
Proof.
  intros Hh Hp. unfold lock_step. rewrite Hp, Hh.
  do 4 (simpl; rewrite ?Hh, ?set_ctx_same). by eexists.
Qed.
