(* ===== verification/Types.v ===== *)
(** * System-call data types ([syscall/types.rs])

    The [repr(C)] structures that cross the user boundary, with the bytes
    they occupy: [words] lays out a structure made of 64-bit words, and the
    [_bytes]/[_of] functions are the copy out and the copy in of each. *)

From S2P Require Import Prelude Mem Update.

Definition TCGETS : Z := 0x5401.
Definition TIOCGWINSZ : Z := 0x5413.

Record Stat := mkStat {
  st_dev : Z; st_ino : Z; st_mode : Z; st_nlink : Z; st_uid : Z; st_gid : Z; st_rdev : Z;
  st_size : Z; st_blksize : Z; st_blocks : Z; st_atime : Z; st_mtime : Z; st_ctime : Z;
}.

Record WinSize := mkWinSize { ws_row : Z; ws_col : Z; ws_xpixel : Z; ws_ypixel : Z }.

Record Termios := mkTermios {
  c_iflag : Z; c_oflag : Z; c_cflag : Z; c_lflag : Z; c_line : Z; c_cc : list Z;
  c_ispeed : Z; c_ospeed : Z;
}.

Record Iovec := mkIovec { iov_base : Z; iov_len : Z }.

Record SigSet := mkSigSet { sig_bits : list Z }.

Definition SigSet_empty : SigSet := mkSigSet (replicate 16 0).

Record SigAction := mkSigAction { sa_handler : Z; sa_flags : Z; sa_restorer : Z; sa_mask : SigSet }.

Definition SigAction_empty : SigAction := mkSigAction 0 0 0 SigSet_empty.

Record StackT := mkStackT { ss_sp : Z; ss_flags : Z; ss_size : Z }.

Definition StackT_disabled : StackT := mkStackT 0 2 0.

Record TimeSpec := mkTimeSpec { tv_sec : Z; tv_nsec : Z }.

Record SysInfo := mkSysInfo {
  si_uptime : Z; si_loads : list Z; si_totalram : Z; si_freeram : Z; si_sharedram : Z;
  si_bufferram : Z; si_totalswap : Z; si_freeswap : Z; si_procs : Z; si_totalhigh : Z;
  si_freehigh : Z; si_mem_unit : Z;
}.

Record SyscallFrame := mkFrame {
  f_rbp : Z; f_r15 : Z; f_r14 : Z; f_r13 : Z; f_r12 : Z; f_r9 : Z; f_r8 : Z; f_rsi : Z;
  f_rdi : Z; f_rdx : Z; f_rbx : Z; f_rax : Z; f_rcx : Z; f_r11 : Z; f_r10 : Z;
}.

#[export] Instance eta_frame : Eta SyscallFrame := fun f =>
  mkFrame (f_rbp f) (f_r15 f) (f_r14 f) (f_r13 f) (f_r12 f) (f_r9 f) (f_r8 f) (f_rsi f)
          (f_rdi f) (f_rdx f) (f_rbx f) (f_rax f) (f_rcx f) (f_r11 f) (f_r10 f).

(** ** Layout *)

(** A signed value as the unsigned value of its bits. *)
Definition i64_bits (z : Z) : Z := wrap64 z.

Definition words (ws : list Z) : list Z := mjoin (to_le 8 <$> ws).

(** The words read back; a word is a 64-bit value whatever is in memory. *)
Fixpoint unwords (n : nat) (bs : list Z) : list Z :=
  match n with
  | O => []
  | S n => wrap64 (of_le (take 8 bs)) :: unwords n (drop 8 bs)
  end.

Definition Stat_bytes (s : Stat) : list Z :=
  words [st_dev s; st_ino s] ++ to_le 4 (st_mode s) ++ to_le 4 (st_nlink s) ++ to_le 4 (st_uid s) ++
  to_le 4 (st_gid s) ++
  words [st_rdev s; i64_bits (st_size s); i64_bits (st_blksize s); i64_bits (st_blocks s);
         i64_bits (st_atime s); i64_bits (st_mtime s); i64_bits (st_ctime s)].

Definition WinSize_bytes (w : WinSize) : list Z :=
  to_le 2 (ws_row w) ++ to_le 2 (ws_col w) ++ to_le 2 (ws_xpixel w) ++ to_le 2 (ws_ypixel w).

Definition Iovec_of (bs : list Z) : Iovec :=
  match unwords 2 bs with [b; l] => mkIovec b l | _ => mkIovec 0 0 end.

Definition SigSet_bytes (s : SigSet) : list Z := words (sig_bits s).
Definition SigSet_of (bs : list Z) : SigSet := mkSigSet (unwords 16 bs).

Definition SigAction_bytes (a : SigAction) : list Z :=
  words [sa_handler a; sa_flags a; sa_restorer a] ++ SigSet_bytes (sa_mask a).
Definition SigAction_of (bs : list Z) : SigAction :=
  match unwords 3 bs with
  | [h; f; r] => mkSigAction h f r (SigSet_of (drop 24 bs))
  | _ => SigAction_empty
  end.

(** [ss_flags] is followed by four bytes of padding. *)
Definition StackT_bytes (s : StackT) : list Z :=
  to_le 8 (ss_sp s) ++ to_le 4 (wrap32 (ss_flags s)) ++ replicate 4 0 ++ to_le 8 (ss_size s).
Definition StackT_of (bs : list Z) : StackT :=
  mkStackT (of_le (take 8 bs)) (as_i32 (of_le (take 4 (drop 8 bs)))) (of_le (take 8 (drop 16 bs))).

Definition TimeSpec_bytes (t : TimeSpec) : list Z := words [i64_bits (tv_sec t); i64_bits (tv_nsec t)].
Definition TimeSpec_of (bs : list Z) : TimeSpec :=
  match unwords 2 bs with [s; n] => mkTimeSpec (as_i64 s) (as_i64 n) | _ => mkTimeSpec 0 0 end.

Definition frame_words (f : SyscallFrame) : list Z :=
  [f_rbp f; f_r15 f; f_r14 f; f_r13 f; f_r12 f; f_r9 f; f_r8 f; f_rsi f; f_rdi f; f_rdx f; f_rbx f;
   f_rax f; f_rcx f; f_r11 f; f_r10 f].
Definition frame_of_words (ws : list Z) : SyscallFrame :=
  match ws with
  | [a; b; c; d; e; f; g; h; i; j; k; l; m; n; o] => mkFrame a b c d e f g h i j k l m n o
  | _ => mkFrame 0 0 0 0 0 0 0 0 0 0 0 0 0 0 0
  end.
Definition SyscallFrame_bytes (f : SyscallFrame) : list Z := words (frame_words f).
Definition SyscallFrame_of (bs : list Z) : SyscallFrame := frame_of_words (unwords 15 bs).
Definition SyscallFrame_size : Z := 120.

(** ** Round trips *)

Lemma words_cons w ws : words (w :: ws) = to_le 8 w ++ words ws.
Proof. done. Qed.

Lemma length_words ws : length (words ws) = (8 * length ws)%nat.
Proof. induction ws as [|w ws IH]; [done|]. rewrite words_cons, length_app, length_to_le, IH. simpl. lia. Qed.

Lemma words_bytes ws : Forall is_u8 (words ws).
Proof.
  induction ws as [|w ws IH]; [constructor|]. rewrite words_cons.
  apply list.Forall_app. split; [apply to_le_bytes|done].
Qed.

Lemma unwords_words ws bs : Forall is_u64 ws -> unwords (length ws) (words ws ++ bs) = ws.
Proof.
  induction 1 as [|w ws Hw _ IH]; [done|]. rewrite words_cons. cbn [length unwords].
  rewrite <- (app_assoc (to_le 8 w)).
  rewrite take_app_length' by (by rewrite length_to_le). rewrite drop_app_length' by (by rewrite length_to_le).
  rewrite IH, of_to_le by exact Hw. by rewrite wrap64_small.
Qed.

Lemma unwords_words_nil ws : Forall is_u64 ws -> unwords (length ws) (words ws) = ws.
Proof. intros H. rewrite <- (app_nil_r (words ws)). by apply unwords_words. Qed.

Definition sigset_ok (s : SigSet) : Prop := length (sig_bits s) = 16%nat /\ Forall is_u64 (sig_bits s).

Lemma SigSet_roundtrip s : sigset_ok s -> SigSet_of (SigSet_bytes s) = s.
Proof.
  destruct s as [ws]. intros [Hl Hw]. unfold SigSet_of, SigSet_bytes. cbn [sig_bits] in *.
  rewrite <- Hl. by rewrite unwords_words_nil.
Qed.

Definition frame_ok (f : SyscallFrame) : Prop := Forall is_u64 (frame_words f).

Lemma length_frame_bytes f : length (SyscallFrame_bytes f) = 120%nat.
Proof. done. Qed.

Lemma SyscallFrame_roundtrip f : frame_ok f -> SyscallFrame_of (SyscallFrame_bytes f) = f.
Proof.
  intros H. unfold SyscallFrame_of, SyscallFrame_bytes.
  change 15%nat with (length (frame_words f)). rewrite unwords_words_nil by done. by destruct f.
Qed.
