(* ===== verification/Vga.v ===== *)
(** * The framebuffer console ([drivers/vga/mod.rs], [drivers/vga/console.rs])

    Rectangles, glyphs and the output cursor.  [fb] is the framebuffer as
    32-bit pixels, indexed from [fb_base]; [font] is the memory of the PSF
    font.  The scale is between 1 and 4, so no division below is by zero. *)

From S2P Require Import Prelude Mem Update.

Definition BG_COLOR : Z := 0xFF1A161F.
Definition TEXT_COLOR : Z := 0xFFE6E1CF.
Definition MARGIN_LEFT : Z := 20.
Definition START_Y : Z := 120.

Record Vga := mkVga {
  fb_base : Z; fb_pitch : Z; fb_width : Z; fb_height : Z; font_base : Z;
  font : Mem;
  cursor_x : Z; cursor_y : Z; font_scale : Z;
  fb : Z -> Z;
}.

#[export] Instance eta_vga : Eta Vga := fun v =>
  mkVga (fb_base v) (fb_pitch v) (fb_width v) (fb_height v) (font_base v) (font v) (cursor_x v) (cursor_y v)
        (font_scale v) (fb v).

(** Before [init_global]: no framebuffer. *)
Definition Vga_new : Vga := mkVga 0 0 0 0 0 (fun _ => 0) 20 0 1 (fun _ => 0).

(** [init_global]: the fields of the boot information. *)
Definition init_global (base pitch width height fontb : Z) (v : Vga) : Vga :=
  v <| fb_base := base |> <| fb_pitch := pitch |> <| fb_width := width |> <| fb_height := height |> <| font_base := fontb |>.

(** [base.add(i).write_volatile(color)]. *)
Definition put_pixel (i color : Z) (v : Vga) : Vga :=
  v <| fb := fun j => if j =? i then color else fb v j |>.

(** ** Rectangles *)

(** [for dx in 0..w], with [n] columns left from [px] on the row at [row]. *)
Fixpoint rect_row (n : nat) (row px color : Z) (v : Vga) : Vga :=
  match n with
  | O => v
  | S n =>
      if fb_width v <=? px then v
      else rect_row n row (px +w 1) color (put_pixel (row +w px) color v)
  end.

(** [for dy in 0..h], with [n] rows left from [py]. *)
Fixpoint rect_rows (n : nat) (py x w color : Z) (v : Vga) : Vga :=
  match n with
  | O => v
  | S n =>
      if fb_height v <=? py then v
      else rect_rows n (py +w 1) x w color (rect_row (Z.to_nat w) (py *w fb_pitch v) x color v)
  end.

Definition draw_rect_raw (x y w h color : Z) (v : Vga) : Vga :=
  if (fb_base v =? 0) || (fb_width v =? 0) || (fb_height v =? 0) then v
  else rect_rows (Z.to_nat h) y x w color v.

Definition draw_rect (x y w h color : Z) (v : Vga) : Vga :=
  if fb_base v =? 0 then v else draw_rect_raw x y w h color v.

Definition clear_from (start_y : Z) (v : Vga) : Vga :=
  if (fb_base v =? 0) || (fb_width v =? 0) || (fb_height v <=? start_y) then v
  else draw_rect_raw 0 start_y (fb_width v) (fb_height v - start_y) BG_COLOR v.

Definition clear_line (y scale : Z) (v : Vga) : Vga :=
  if (fb_base v =? 0) || (fb_width v =? 0) then v
  else draw_rect_raw 0 y (fb_width v) (16 *w scale) BG_COLOR v.

Definition clear_terminal_area (v : Vga) : Vga :=
  if (fb_base v =? 0) || (fb_width v =? 0) || (fb_height v <=? 120) then v
  else draw_rect_raw 0 120 (fb_width v) (fb_height v - 120) BG_COLOR v.

(** ** Glyphs *)

(** The pixels of one bit of a row: [sx] and [sy] below the scale. *)
Definition glyph_pixel (x py bit scale color sy sx : Z) (v : Vga) : Vga :=
  let px := x +w bit *w scale +w sx in
  let py2 := py +w sy in
  if (fb_width v <=? px) || (fb_height v <=? py2) then v
  else put_pixel (py2 *w fb_pitch v +w px) color v.

Definition glyph_bit (x py scale color bitmask bit : Z) (v : Vga) : Vga :=
  (* the shift amount is taken modulo the width of the byte *)
  if has_bits bitmask (0x80 >> (bit mod 8)) then
    fold_left (fun v sy => fold_left (fun v sx => glyph_pixel x py bit scale color sy sx v) (seqZ 0 scale) v)
              (seqZ 0 scale) v
  else v.

(** [for row in 0..font_height], with [n] rows left. *)
Fixpoint glyph_rows (n : nat) (glyph row x y scale color font_width : Z) (v : Vga) : Vga :=
  match n with
  | O => v
  | S n =>
      let py := y +w row *w scale in
      if fb_height v <=? py then v
      else
        let bitmask := font v (glyph + row) in
        glyph_rows n glyph (row + 1) x y scale color font_width
          (fold_left (fun v bit => glyph_bit x py scale color bitmask bit v) (seqZ 0 font_width) v)
  end.

Definition putchar_raw (c x y color scale : Z) (v : Vga) : Vga :=
  if (fb_base v =? 0) || (font_base v =? 0) then v
  else
    let rd o := read32 (font v) (font_base v + o) in
    let header_size := rd 8 in
    let bytes_per_glyph := rd 20 in
    let font_height := rd 24 in
    let font_width := rd 28 in
    let num_glyphs := rd 16 in
    if (font_height =? 0) || (32 <? font_height) || (font_width =? 0) || (32 <? font_width)
       || (bytes_per_glyph =? 0) || (256 <? bytes_per_glyph) || (num_glyphs =? 0) then v
    else if (fb_width v <=? x) || (fb_height v <=? y) then v
    else
      let glyph_idx := Z.min c (num_glyphs - 1) in
      let glyph := font_base v + (header_size + glyph_idx * bytes_per_glyph) in
      glyph_rows (Z.to_nat font_height) glyph 0 x y scale color font_width v.

Definition putchar (c x y color scale : Z) (v : Vga) : Vga := putchar_raw c x y color scale v.

(** ** The output cursor ([console.rs]) *)

Definition set_userspace_cursor (x y : Z) (v : Vga) : Vga := v <| cursor_x := x |> <| cursor_y := y |>.
Definition get_userspace_cursor_y (v : Vga) : Z := cursor_y v.
Definition set_font_scale (scale : Z) (v : Vga) : Vga := v <| font_scale := Z.min (Z.max scale 1) 4 |>.
Definition get_font_scale (v : Vga) : Z := font_scale v.

Definition tty_winsize (v : Vga) : Z * Z * Z * Z :=
  let scale := Z.max (get_font_scale v) 1 in
  let cols := sat_sub64 (fb_width v) 40 / (8 *w scale) in
  let rows := sat_sub64 (fb_height v) 120 / (16 *w scale) in
  (Z.min rows 0xFFFF, Z.min cols 0xFFFF, Z.min (fb_width v) 0xFFFF, Z.min (fb_height v) 0xFFFF).

(** [y += char_h], and back to the top after clearing when at the bottom. *)
Definition next_line (y char_h : Z) (v : Vga) : Z * Vga :=
  let y := y +w char_h in
  if fb_height v <=? y +w char_h then (START_Y, clear_terminal_area v) else (y, v).

(** The pixels of the character before the cursor are cleared: row by row,
    [n] rows left from [py]. *)
Fixpoint erase_rows (n : nat) (py x char_w : Z) (v : Vga) : Vga :=
  match n with
  | O => v
  | S n =>
      if fb_height v <=? py then v
      else erase_rows n (py +w 1) x char_w (rect_row (Z.to_nat char_w) (py *w fb_pitch v) x BG_COLOR v)
  end.

Definition write_byte_to_fb (b : Z) (v : Vga) : Vga :=
  if (fb_base v =? 0) || (font_base v =? 0) || (fb_width v =? 0) || (fb_height v =? 0) then v
  else
    let x := cursor_x v in
    let y := if cursor_y v =? 0 then 120 else cursor_y v in
    let scale := font_scale v in
    let char_w := 8 *w scale in
    let char_h := 16 *w scale in
    let '(x, y, v) :=
      if b =? 0 then (x, y, v)
      else if b =? 0x0A then
        let '(y, v) := next_line y char_h v in (MARGIN_LEFT, y, v)
      else if b =? 0x0D then (MARGIN_LEFT, y, v)
      else if b =? 0x09 then
        let tab_w := char_w *w 4 in
        let x := ((x -w MARGIN_LEFT +w tab_w) / tab_w) *w tab_w +w MARGIN_LEFT in
        if fb_width v <=? x +w char_w then
          let '(y, v) := next_line y char_h v in (MARGIN_LEFT, y, v)
        else (x, y, v)
      else if b =? 0x08 then
        if MARGIN_LEFT +w char_w <=? x then
          let x := x - char_w in
          (x, y, erase_rows (Z.to_nat char_h) y x char_w v)
        else (x, y, v)
      else if negb ((0x20 <=? b) && (b <=? 0x7e)) then (x, y, v)
      else
        let v := if (y +w char_h <=? fb_height v) && (x +w char_w <=? fb_width v)
                 then putchar_raw b x y TEXT_COLOR scale v else v in
        let x := x +w char_w in
        if fb_width v <=? x +w char_w then
          let '(y, v) := next_line y char_h v in (MARGIN_LEFT, y, v)
        else (x, y, v) in
    v <| cursor_x := x |> <| cursor_y := y |>.

(** ** Drawing stays on the screen *)

Definition on_screen (v : Vga) (i : Z) : Prop :=
  exists px py, 0 <= px < fb_width v /\ 0 <= py < fb_height v /\ i = py *w fb_pitch v +w px.

(** [v'] is [v] with pixels of the screen changed. *)
Record draws (v v' : Vga) : Prop := {
  dr_base : fb_base v' = fb_base v;
  dr_pitch : fb_pitch v' = fb_pitch v;
  dr_width : fb_width v' = fb_width v;
  dr_height : fb_height v' = fb_height v;
  dr_fontb : font_base v' = font_base v;
  dr_scale : font_scale v' = font_scale v;
  dr_font : font v' = font v;
  dr_fb : forall i, fb v' i <> fb v i -> on_screen v i;
}.

#[export] Instance draws_preorder : PreOrder draws.
Proof.
  split.
  - intros v. by split.
  - intros v1 v2 v3 [] []. split; try congruence. intros i Hi.
    destruct (decide (fb v2 i = fb v1 i)) as [E|E]; [|by apply dr_fb0].
    destruct (dr_fb1 i) as (px & py & ? & ? & ->); [congruence|]. exists px, py. split_and!; congruence || lia.
Qed.

Lemma draws_pixel v px py color : 0 <= px < fb_width v -> 0 <= py < fb_height v ->
  draws v (put_pixel (py *w fb_pitch v +w px) color v).
Proof.
  intros Hx Hy. split; try done. intros i. unfold put_pixel. cbn [fb set_field].
  destruct (Z.eqb_spec i (py *w fb_pitch v +w px)) as [->|]; [|done]. intros _. by exists px, py.
Qed.

Lemma draws_fold {A} (f : Vga -> A -> Vga) l v : (forall v a, draws v (f v a)) -> draws v (fold_left f l v).
Proof. intros H. revert v. induction l as [|a l IH]; intros v; cbn; [done|]. etrans; [apply H|apply IH]. Qed.

Lemma draws_rect_row n py px color v : 0 <= px -> 0 <= py < fb_height v ->
  draws v (rect_row n (py *w fb_pitch v) px color v).
Proof.
  revert px v. induction n as [|n IH]; intros px v Hx Hy; cbn [rect_row]; [done|].
  destruct (Z.leb_spec (fb_width v) px); [done|]. pose proof (draws_pixel v px py color ltac:(lia) Hy) as Hd.
  etrans; [exact Hd|]. apply (IH (px +w 1) (put_pixel _ color v)); [apply wrap64_range|exact Hy].
Qed.

Lemma draws_rect_rows n py x w color v : 0 <= x -> 0 <= py -> draws v (rect_rows n py x w color v).
Proof.
  revert py v. induction n as [|n IH]; intros py v Hx Hy; cbn [rect_rows]; [done|].
  destruct (Z.leb_spec (fb_height v) py); [done|].
  etrans; [apply (draws_rect_row (Z.to_nat w) py x color v); lia|]. apply IH; [done|apply wrap64_range].
Qed.

Lemma draws_erase_rows n py x w v : 0 <= x -> 0 <= py -> draws v (erase_rows n py x w v).
Proof.
  revert py v. induction n as [|n IH]; intros py v Hx Hy; cbn [erase_rows]; [done|].
  destruct (Z.leb_spec (fb_height v) py); [done|].
  etrans; [apply (draws_rect_row (Z.to_nat w) py x BG_COLOR v); lia|]. apply IH; [done|apply wrap64_range].
Qed.

Lemma draws_rect x y w h color v : 0 <= x -> 0 <= y -> draws v (draw_rect_raw x y w h color v).
Proof. intros Hx Hy. unfold draw_rect_raw. case_goal; [done|by apply draws_rect_rows]. Qed.

Lemma draws_clear v : draws v (clear_terminal_area v).
Proof. unfold clear_terminal_area. case_goal; [done|]. apply draws_rect; lia. Qed.

Lemma draws_glyph_pixel x py bit scale color sy sx v : draws v (glyph_pixel x py bit scale color sy sx v).
Proof.
  unfold glyph_pixel. case_goal; [done|]. breflect. apply draws_pixel; split; try done; apply wrap64_range.
Qed.

Lemma draws_glyph_rows n glyph row x y scale color fw v :
  draws v (glyph_rows n glyph row x y scale color fw v).
Proof.
  revert row v. induction n as [|n IH]; intros row v; cbn [glyph_rows]; [done|]. case_goal; [done|].
  etrans; [|apply IH]. apply draws_fold. intros v1 bit. unfold glyph_bit. case_goal; [|done].
  apply draws_fold. intros v2 sy. apply draws_fold. intros v3 sx. apply draws_glyph_pixel.
Qed.

Lemma draws_putchar c x y color scale v : draws v (putchar_raw c x y color scale v).
Proof. unfold putchar_raw. repeat (case_goal; [done|]). apply draws_glyph_rows. Qed.

(** The screen is large enough for one character below the header. *)
Record screen_ok (v : Vga) : Prop := {
  so_scale : 1 <= font_scale v <= 4;
  so_width : 20 + 8 * font_scale v < fb_width v < 2 ^ 32;
  so_height : 120 + 16 * font_scale v < fb_height v < 2 ^ 32;
}.

(** The cursor leaves room for a character; [0] is a row that was never set. *)
Definition cursor_ok (v : Vga) : Prop :=
  20 <= cursor_x v /\ cursor_x v + 8 * font_scale v < fb_width v /\
  (cursor_y v = 0 \/ 0 < cursor_y v /\ cursor_y v + 16 * font_scale v < fb_height v).

Lemma screen_ok_draws v v' : screen_ok v -> draws v v' -> screen_ok v'.
Proof. intros [H1 H2 H3] []. split; congruence || (rewrite ?dr_scale0, ?dr_width0, ?dr_height0; done). Qed.

Lemma next_line_spec y v y' v' :
  screen_ok v -> 0 < y -> y + 16 * font_scale v < fb_height v ->
  next_line y (16 *w font_scale v) v = (y', v') ->
  draws v v' /\ 0 < y' /\ y' + 16 * font_scale v < fb_height v.
Proof.
  intros [Hs Hw Hh] Hy Hyh. unfold next_line.
  rewrite (wrap64_small (16 * font_scale v)) by (unfold U64; lia).
  rewrite (wrap64_small (y + 16 * font_scale v)), wrap64_small by (unfold U64; lia).
  destruct (Z.leb_spec (fb_height v) (y + 16 * font_scale v + 16 * font_scale v)); intros [= <- <-].
  - split; [apply draws_clear|]. unfold START_Y. lia.
  - split; [done|]. lia.
Qed.

(** What a printed byte guarantees. *)
Definition printed (v v' : Vga) : Prop :=
  screen_ok v' /\ draws v v' /\ 20 <= cursor_x v' /\ cursor_x v' + 8 * font_scale v < fb_width v /\
  0 < cursor_y v' /\ cursor_y v' + 16 * font_scale v < fb_height v.

Lemma printed_move v v' x y :
  screen_ok v -> draws v v' -> 20 <= x -> x + 8 * font_scale v < fb_width v ->
  0 < y -> y + 16 * font_scale v < fb_height v ->
  printed v (v' <| cursor_x := x |> <| cursor_y := y |>).
Proof.
  intros Hs Hd Hx Hxw Hy Hyh. split_and!; try done.
  - destruct (screen_ok_draws v v' Hs Hd). by split.
  - destruct Hd. by constructor.
Qed.

(** A position on the line, or the start of the next line. *)
Lemma printed_advance v v' x y :
  screen_ok v -> draws v v' -> 20 <= x -> x < 2 ^ 33 -> 0 < y -> y + 16 * font_scale v < fb_height v ->
  printed v (let '(x, y, v1) :=
               if fb_width v' <=? x +w 8 *w font_scale v then
                 let '(y, v1) := next_line y (16 *w font_scale v) v' in (MARGIN_LEFT, y, v1)
               else (x, y, v') in v1 <| cursor_x := x |> <| cursor_y := y |>).
Proof.
  intros Hok Hd Hx Hxu Hy Hyh. pose proof (screen_ok_draws v v' Hok Hd) as Hok'.
  pose proof Hok as [Hs Hw Hh]. pose proof Hd as [D1 D2 D3 D4 D5 D6 D7 D8].
  rewrite (wrap64_small (8 * font_scale v)), wrap64_small by (unfold U64; lia).
  destruct (Z.leb_spec (fb_width v') (x + 8 * font_scale v)).
  - destruct (next_line y (16 *w font_scale v) v') as [y' v1] eqn:En. rewrite <- D6 in En.
    apply next_line_spec in En as (Hd1 & Hy1 & Hy2); [|done|done|rewrite D6, D4; done].
    rewrite D6, D4 in Hy2. apply printed_move; unfold MARGIN_LEFT; try done; [by etrans|lia].
  - apply printed_move; try done. congruence.
Qed.

Lemma tab_stop x cw : 1 <= cw -> 20 <= x ->
  let t := ((x - 20 + cw * 4) / (cw * 4)) * (cw * 4) + 20 in x < t <= x + cw * 4 /\ 20 <= t.
Proof.
  intros Hc Hx t. unfold t. pose proof (Z.div_mod (x - 20 + cw * 4) (cw * 4) ltac:(lia)).
  pose proof (Z.mod_pos_bound (x - 20 + cw * 4) (cw * 4) ltac:(lia)). nia.
Qed.

Lemma tab_stop_wrap x s : 1 <= s <= 4 -> 20 <= x < 2 ^ 32 ->
  let t := ((x -w MARGIN_LEFT +w (8 *w s) *w 4) / ((8 *w s) *w 4)) *w ((8 *w s) *w 4) +w MARGIN_LEFT in
  20 <= t < 2 ^ 33.
Proof.
  intros Hs Hx. pose proof (tab_stop x (8 * s) ltac:(lia) ltac:(lia)) as H. cbv zeta in *.
  unfold MARGIN_LEFT. rewrite (wrap64_small (8 * s)), (wrap64_small (8 * s * 4)) by (unfold U64; lia).
  rewrite (wrap64_small (x - 20)), (wrap64_small (x - 20 + _)) by (unfold U64; lia).
  rewrite (wrap64_small (_ / _ * _)), wrap64_small by (unfold U64; lia). lia.
Qed.

(** C36: the console never writes outside the framebuffer: whatever byte is
    printed, only pixels in a column below the width and a row below the
    height change, and the cursor stays where a whole character fits. *)
Theorem console_stays_on_screen b v :
  screen_ok v -> cursor_ok v -> fb_base v <> 0 -> font_base v <> 0 -> printed v (write_byte_to_fb b v).
Proof.
  intros Hok (Hx & Hxw & Hy) Hb Hf. pose proof Hok as [Hs Hw Hh]. unfold write_byte_to_fb.
  rewrite !(proj2 (Z.eqb_neq _ _)) by lia. cbn [orb].
  set (y := if cursor_y v =? 0 then 120 else cursor_y v).
  assert (0 < y /\ y + 16 * font_scale v < fb_height v) as [Hy1 Hy2].
  { unfold y. destruct (Z.eqb_spec (cursor_y v) 0); lia. }
  destruct (b =? 0); [by apply printed_move|]. destruct (b =? 0x0A).
  { destruct (next_line y _ v) as [y' v1] eqn:En. apply next_line_spec in En as (Hd1 & ? & ?); try done.
    apply printed_move; unfold MARGIN_LEFT; done || lia. }
  destruct (b =? 0x0D); [apply printed_move; unfold MARGIN_LEFT; done || lia|]. destruct (b =? 0x09).
  { pose proof (tab_stop_wrap (cursor_x v) (font_scale v) Hs ltac:(lia)) as [Ht1 Ht2].
    by apply printed_advance. }
  destruct (b =? 0x08).
  { unfold MARGIN_LEFT. rewrite (wrap64_small (8 * _)), wrap64_small by (unfold U64; lia).
    destruct (Z.leb_spec (20 + 8 * font_scale v) (cursor_x v)); apply printed_move; try done; try lia.
    apply draws_erase_rows; lia. }
  destruct (negb _); [by apply printed_move|].
  set (x := cursor_x v +w 8 *w font_scale v).
  assert (20 <= x < 2 ^ 33) as [Hx1 Hx2].
  { unfold x. rewrite (wrap64_small (8 * font_scale v)), wrap64_small by (unfold U64; lia). lia. }
  set (v1 := if _ && _ then _ else v). assert (draws v v1) as Hd by (unfold v1; case_goal; [apply draws_putchar|done]).
  by apply printed_advance.
Qed.

(** A 640 by 480 screen with the cursor at the top of the output area. *)
Definition sample_vga : Vga := mkVga 0x80000000 640 640 480 0x1000 (fun _ => 0) 20 120 1 (fun _ => 0).

Lemma console_stays_on_screen_witness : printed sample_vga (write_byte_to_fb 0x41 sample_vga).
Proof.
  apply console_stays_on_screen.
  - split; cbn; lia.
  - unfold cursor_ok; cbn; lia.
  - cbn; lia.
  - cbn; lia.
Defined.
