(* ===== verification/State.v ===== *)
(** * The process subsystem's state ([proc/state.rs], [proc/task.rs])

    The tables of tasks, processes, threads, open files and pipes, and the
    [Kernel] record that gathers every piece of global state the system calls
    touch.  [k_mach] holds physical memory, the frame allocator and the page
    tables; [k_umem] is the memory of the running process as its user
    addresses show it. *)

From S2P Require Import Prelude Mem Update Pci Bench Result Paging RamFs Ring Tty Types Vga.

Definition MAX_FDS : Z := 16.
Definition MAX_OPEN_FILES : Z := 32.
Definition MAX_PIPES : Z := 16.
Definition MAX_VMAS : Z := 32.
Definition EXE_PATH_MAX : Z := 64.
Definition MMAP_BASE : Z := 0x0000000100000000.
Definition FD_CLOEXEC : Z := 1.
Definition O_ACCMODE : Z := 0x3.      (* 0o3 *)
Definition O_RDONLY : Z := 0x0.       (* 0o0 *)
Definition O_WRONLY : Z := 0x1.       (* 0o1 *)
Definition O_RDWR : Z := 0x2.         (* 0o2 *)
Definition O_CREAT : Z := 0x40.       (* 0o100 *)
Definition O_EXCL : Z := 0x80.        (* 0o200 *)
Definition O_TRUNC : Z := 0x200.      (* 0o1000 *)
Definition O_APPEND : Z := 0x400.     (* 0o2000 *)
Definition O_NONBLOCK : Z := 0x800.   (* 0o4000 *)
Definition PIPE_CAPACITY : Z := 1024.

(** ** Open files, descriptors, pipes, regions *)

Record OpenFile := mkOpenFile {
  of_file_idx : Z; of_offset : Z; of_status_flags : Z; of_refs : Z; of_in_use : bool;
}.

#[export] Instance eta_open_file : Eta OpenFile := fun f =>
  mkOpenFile (of_file_idx f) (of_offset f) (of_status_flags f) (of_refs f) (of_in_use f).

Definition OpenFile_empty : OpenFile := mkOpenFile 0 0 0 0 false.
Definition OpenFile_new (file_idx status_flags : Z) : OpenFile := mkOpenFile file_idx 0 status_flags 1 true.

Inductive FdTarget :=
| Empty | Stdio (n : Z) | TtyDev | Null | Zero | Open (i : Z) | PipeRead (i : Z) | PipeWrite (i : Z).

#[export] Instance FdTarget_eq_dec : EqDecision FdTarget.
Proof. solve_decision. Defined.

(** [matches!(t, FdTarget::Empty)]. *)
Definition is_empty_target (t : FdTarget) : bool := match t with Empty => true | _ => false end.

Inductive DescriptorInfo :=
| DStdio (index : Z) | DCharDevice | DFile (file_idx size : Z) | DPipe.

Record Pipe := mkPipe {
  pp_buf : list Z; pp_read_pos : Z; pp_write_pos : Z; pp_len : Z;
  pp_read_refs : Z; pp_write_refs : Z; pp_read_flags : Z; pp_write_flags : Z; pp_in_use : bool;
}.

#[export] Instance eta_pipe : Eta Pipe := fun p =>
  mkPipe (pp_buf p) (pp_read_pos p) (pp_write_pos p) (pp_len p) (pp_read_refs p) (pp_write_refs p)
         (pp_read_flags p) (pp_write_flags p) (pp_in_use p).

Definition Pipe_empty : Pipe := mkPipe (replicate (Z.to_nat PIPE_CAPACITY) 0) 0 0 0 0 0 0 0 false.
Definition Pipe_new : Pipe := mkPipe (replicate (Z.to_nat PIPE_CAPACITY) 0) 0 0 0 1 1 0 0 true.

Record VmRegion := mkVmRegion {
  vm_start : Z; vm_len : Z; vm_prot : Z; vm_flags : Z; vm_in_use : bool;
}.

#[export] Instance eta_region : Eta VmRegion := fun v =>
  mkVmRegion (vm_start v) (vm_len v) (vm_prot v) (vm_flags v) (vm_in_use v).

Definition VmRegion_empty : VmRegion := mkVmRegion 0 0 0 0 false.
Definition VmRegion_new (start len prot flags : Z) : VmRegion := mkVmRegion start len prot flags true.

(** ** Processes, threads, tasks *)

Inductive ProcessState := PRunning | PZombie.
Inductive ThreadState := TRunning | TZombie.
Inductive TaskState := Ready | Running | Dead.

#[export] Instance ProcessState_eq_dec : EqDecision ProcessState.
Proof. solve_decision. Defined.
#[export] Instance ThreadState_eq_dec : EqDecision ThreadState.
Proof. solve_decision. Defined.
#[export] Instance TaskState_eq_dec : EqDecision TaskState.
Proof. solve_decision. Defined.

Record Thread := mkThread {
  th_tid : Z; th_parent_tid : Z; th_group_slot : Z; th_task_slot : Z; th_state : ThreadState;
  th_clear_child_tid : Z; th_fs_base : Z;
  th_sig_pending : SigSet; th_sig_mask : SigSet; th_saved_sig_mask : SigSet; th_sig_altstack : StackT;
  th_in_signal_handler : bool; th_on_altstack : bool; th_robust_list_head : Z; th_robust_list_len : Z;
}.

#[export] Instance eta_thread : Eta Thread := fun t =>
  mkThread (th_tid t) (th_parent_tid t) (th_group_slot t) (th_task_slot t) (th_state t)
    (th_clear_child_tid t) (th_fs_base t) (th_sig_pending t) (th_sig_mask t) (th_saved_sig_mask t)
    (th_sig_altstack t) (th_in_signal_handler t) (th_on_altstack t) (th_robust_list_head t)
    (th_robust_list_len t).

Definition Thread_new_leader (tid parent_tid group_slot task_slot : Z) : Thread :=
  mkThread tid parent_tid group_slot task_slot TRunning 0 0 SigSet_empty SigSet_empty SigSet_empty
    StackT_disabled false false 0 0.

Definition Thread_new_group_member (tid parent_tid group_slot task_slot clear_child_tid fs_base : Z)
    (sig_mask : SigSet) : Thread :=
  mkThread tid parent_tid group_slot task_slot TRunning clear_child_tid fs_base SigSet_empty sig_mask
    SigSet_empty StackT_disabled false false 0 0.

Record Process := mkProcess {
  p_pid : Z; p_parent_pid : Z; p_pgid : Z; p_sid : Z; p_state : ProcessState; p_thread_count : Z;
  p_exit_code : Z; p_uid : Z; p_euid : Z; p_gid : Z; p_egid : Z; p_umask : Z; p_exe_path : list Z;
  p_exe_path_len : Z; p_program_break : Z; p_next_mmap_base : Z; p_sig_handlers : list SigAction;
  p_sig_pending : SigSet; p_fds : list FdTarget; p_fd_flags : list Z; p_vmas : list VmRegion;
}.

#[export] Instance eta_process : Eta Process := fun p =>
  mkProcess (p_pid p) (p_parent_pid p) (p_pgid p) (p_sid p) (p_state p) (p_thread_count p)
    (p_exit_code p) (p_uid p) (p_euid p) (p_gid p) (p_egid p) (p_umask p) (p_exe_path p)
    (p_exe_path_len p) (p_program_break p) (p_next_mmap_base p) (p_sig_handlers p)
    (p_sig_pending p) (p_fds p) (p_fd_flags p) (p_vmas p).

Definition default_fds : list FdTarget := [Stdio 0; Stdio 1; Stdio 2] ++ replicate 13 Empty.
Definition default_fd_flags : list Z := replicate (Z.to_nat MAX_FDS) 0.

(** [exe_path]: the first [EXE_PATH_MAX] characters, truncated to bytes. *)
Definition exe_path_of (name : list Z) : list Z :=
  let path := wrap8 <$> take (Z.to_nat EXE_PATH_MAX) name in
  path ++ replicate (Z.to_nat EXE_PATH_MAX - length path) 0.

Definition Process_new_leader (pid parent_pid : Z) (name : list Z) : Process :=
  mkProcess pid parent_pid pid pid PRunning 1 0 0 0 0 0 0x12 (exe_path_of name)
    (Z.min (Z.of_nat (length name)) EXE_PATH_MAX) 0x40000000 MMAP_BASE (replicate 65 SigAction_empty)
    SigSet_empty default_fds default_fd_flags (replicate (Z.to_nat MAX_VMAS) VmRegion_empty).

Definition Process_fork_from (parent : Process) (pid : Z) : Process :=
  mkProcess pid (p_pid parent) (p_pgid parent) (p_sid parent) PRunning 1 0 (p_uid parent)
    (p_euid parent) (p_gid parent) (p_egid parent) (p_umask parent) (p_exe_path parent)
    (p_exe_path_len parent) (p_program_break parent) (p_next_mmap_base parent)
    (p_sig_handlers parent) SigSet_empty (p_fds parent) (p_fd_flags parent) (p_vmas parent).

Record Task := mkTask {
  tk_rsp : Z; tk_stack_base : Z; tk_state : TaskState; tk_id : Z; tk_rsp_valid : bool; tk_pml4 : Z;
}.

#[export] Instance eta_task : Eta Task := fun t =>
  mkTask (tk_rsp t) (tk_stack_base t) (tk_state t) (tk_id t) (tk_rsp_valid t) (tk_pml4 t).

Definition MAX_TASKS : Z := 8.

(** An entry of the futex wait table ([syscall/process.rs]). *)
Record FutexWaiter := mkWaiter { fw_in_use : bool; fw_addr : Z }.
Definition FutexWaiter_empty : FutexWaiter := mkWaiter false 0.

(** ** The kernel *)

Record Kernel := mkKernel {
  k_mach : Machine;                     (* physical memory, allocator, page tables, CR3 *)
  k_umem : Mem;                         (* user memory of the running process *)
  k_fs : FS;                            (* [vfs::FS] *)
  k_tty : Tty;                          (* [tty::TTY0] *)
  k_out : list Z;                       (* bytes sent to the serial port, oldest first *)
  k_vga : Vga;                          (* framebuffer console *)
  k_tasks : list (option Task);         (* [TASKS] *)
  k_current : Z;                        (* [CURRENT] *)
  k_next_id : Z;                        (* [NEXT_ID] *)
  k_rsp0 : Z;                           (* [TSS.rsp0] and [TSS_RSP0] *)
  k_in_syscall : bool;                  (* [IN_SYSCALL] *)
  k_processes : list (option Process);  (* [PROCESSES] *)
  k_threads : list (option Thread);     (* [THREADS] *)
  k_next_pid : Z;                       (* [NEXT_PID] *)
  k_open_files : list OpenFile;         (* [OPEN_FILES] *)
  k_pipes : list Pipe;                  (* [PIPES] *)
  k_futex : list FutexWaiter;           (* [FUTEX_WAITERS] *)
  k_ticks : Z;                          (* [pit::TICKS] *)
  k_rng : Z;                            (* [sys::RNG_STATE] *)
  k_pci : Pci;                          (* [PCI_DEVICES], [PCI_SCANNED] and the bus *)
  k_bench : Bench;                      (* [bench::STAMPS] and [BOOTLOADER_TSC] *)
}.

#[export] Instance eta_kernel : Eta Kernel := fun k =>
  mkKernel (k_mach k) (k_umem k) (k_fs k) (k_tty k) (k_out k) (k_vga k) (k_tasks k) (k_current k)
    (k_next_id k) (k_rsp0 k) (k_in_syscall k) (k_processes k) (k_threads k) (k_next_pid k)
    (k_open_files k) (k_pipes k) (k_futex k) (k_ticks k) (k_rng k) (k_pci k) (k_bench k).

(** A computation on the machine, on the files, on the terminal. *)
Definition on_mach {A} : M Machine A -> M Kernel A := zoom k_mach (fun m k => k <| k_mach := m |>).
Definition on_fs {A} : M FS A -> M Kernel A := zoom k_fs (fun f k => k <| k_fs := f |>).

Lemma on_mach_ok {A} (m : M Machine A) k a s' : m (k_mach k) = OOk a s' -> on_mach m k = OOk a (k <| k_mach := s' |>).
Proof. intros H. unfold on_mach, zoom. by rewrite H. Qed.

(** A second step on the machine. *)
Lemma on_mach_next {A} (m : M Machine A) (k : Kernel) s a s' : m s = OOk a s' -> on_mach m (k <| k_mach := s |>) = OOk a (k <| k_mach := s' |>).
Proof. intros H. exact (on_mach_ok m (k <| k_mach := s |>) a s' H). Qed.

(** [PROCESSES[slot]], [THREADS[slot]] and assignments to them: the index is
    checked. *)
Definition process_at (slot : Z) : M Kernel (option Process) :=
  let* k := getM in unwrap (zget (k_processes k) slot).
Definition thread_at (slot : Z) : M Kernel (option Thread) :=
  let* k := getM in unwrap (zget (k_threads k) slot).

Definition set_process (slot : Z) (p : option Process) : M Kernel unit :=
  let* _ := process_at slot in
  modifyM (fun k => k <| k_processes := zset (k_processes k) slot p |>).
Definition set_thread (slot : Z) (t : option Thread) : M Kernel unit :=
  let* _ := thread_at slot in
  modifyM (fun k => k <| k_threads := zset (k_threads k) slot t |>).

(** [tty::write_bytes]: the serial port and the framebuffer. *)
Definition write_bytes (bytes : list Z) (k : Kernel) : Kernel :=
  k <| k_out := k_out k ++ bytes |> <| k_vga := fold_left (fun v b => write_byte_to_fb b v) bytes (k_vga k) |>.

(** ** Initial state and well-formedness *)

(** The static data before boot: no task, no process, no file system. *)
Definition init_kernel (m : Machine) (bus : Z -> Z) : Kernel :=
  mkKernel m (fun _ => 0) None Tty_new [] Vga_new (replicate 8 None) 0 1 0 false (replicate 8 None)
    (replicate 8 None) 1 (replicate 32 OpenFile_empty) (replicate 16 Pipe_empty)
    (replicate 16 FutexWaiter_empty) 0 0 (Pci_new bus) Bench_new.

Definition process_wf (p : Process) : Prop :=
  length (p_fds p) = 16%nat /\ length (p_fd_flags p) = 16%nat /\ length (p_vmas p) = 32%nat /\
  length (p_sig_handlers p) = 65%nat.

Definition thread_wf (slot : Z) (t : Thread) : Prop :=
  0 <= th_group_slot t < 8 /\ th_task_slot t = slot.

Record kernel_wf (k : Kernel) : Prop := {
  wf_tasks : length (k_tasks k) = 8%nat;
  wf_processes : length (k_processes k) = 8%nat;
  wf_threads : length (k_threads k) = 8%nat;
  wf_open_files : length (k_open_files k) = 32%nat;
  wf_pipes : length (k_pipes k) = 16%nat;
  wf_futex : length (k_futex k) = 16%nat;
  wf_current : 0 <= k_current k < 8;
  wf_process : forall s p, zget (k_processes k) s = Some (Some p) -> process_wf p;
  wf_thread : forall s t, zget (k_threads k) s = Some (Some t) -> thread_wf s t;
}.

Lemma zget_replicate {A} (x : A) n i y : zget (replicate n x) i = Some y -> y = x.
Proof. intros H%zget_elem. by apply elem_of_replicate in H as [-> _]. Qed.

Lemma init_kernel_wf m bus : kernel_wf (init_kernel m bus).
Proof. split; simpl; try done; intros s x H; apply (zget_replicate (A := option _) None 8) in H; done. Qed.

Lemma Process_new_leader_wf pid ppid name : process_wf (Process_new_leader pid ppid name).
Proof. done. Qed.

Lemma Process_fork_from_wf p pid : process_wf p -> process_wf (Process_fork_from p pid).
Proof. done. Qed.
