(* ===== verification/Task.v ===== *)
(** * Tasks and the scheduler ([proc/task.rs], [proc/scheduler.rs], [hw/pit.rs])

    The task table with its kernel stacks, the round-robin choice of the next
    task, the context switch, and the timer interrupt that drives it.  The
    registers the context switch saves are in [Cpu]; the stacks live in the
    machine's memory.  The addresses of the two assembly trampolines are
    parameters: the linker chooses them. *)

From S2P Require Import Prelude Mem Update Result Pmm Paging RamFs Ring Tty Types State.

(** ** Lookups of [proc/process.rs] *)

Definition current_task_slot : M Kernel Z := let* k := getM in retM (k_current k).

(** [current_thread_mut]: the slot stands for the reference. *)
Definition current_thread_mut : M Kernel (option (Z * Thread)) :=
  let* slot := current_task_slot in
  let* t := thread_at slot in
  retM ((fun t => (slot, t)) <$> t).

Definition current_thread : M Kernel (option Thread) :=
  let* t := current_thread_mut in retM (snd <$> t).

Definition current_process_mut : M Kernel (option (Z * Process)) :=
  let* t := current_thread in
  match t with
  | None => retM None
  | Some t =>
      let* p := process_at (th_group_slot t) in
      retM ((fun p => (th_group_slot t, p)) <$> p)
  end.

Definition current_process : M Kernel (option Process) :=
  let* p := current_process_mut in retM (snd <$> p).

Definition task_slot_reaped (slot : Z) : M Kernel unit :=
  let* t := thread_at slot in
  match t with
  | None => retM tt
  | Some t => if negb (th_group_slot t =? slot) then set_thread slot None else retM tt
  end.

(** ** Creating tasks *)

Definition SYSCALL_FRAME_SIZE : Z := 16 * 8.
Definition CONTEXT_SIZE : Z := 48.
Definition STACK_PAGES : Z := 4.

(** A store to kernel memory. *)
Definition poke64 (a v : Z) : M Kernel unit := on_mach (wr64 a v).

(** [(sp as *mut Context).write(Context { 0, .. })]. *)
Definition write_zero_context (sp : Z) : M Kernel unit :=
  forM (seqZ 0 6) (fun i => poke64 (sp + 8 * i) 0).

Definition alloc_framesM (n : Z) : M Machine Z := fun s =>
  match alloc_frames n (pmm s) (ram s) with
  | (a, (p, m)) => OOk a (set_ram m (set_pmm p s))
  end.

(** [tasks.iter_mut().position(|t| t.is_none())]. *)
Definition is_none {A} (o : option A) : bool := match o with None => true | Some _ => false end.
Definition free_task_slot (k : Kernel) : option Z := zposition is_none (k_tasks k).

Definition fetch_add_id : M Kernel Z :=
  let* k := getM in modifyM (fun k => k <| k_next_id := k_next_id k +w 1 |>) ;;; retM (k_next_id k).

Definition set_task (slot : Z) (t : option Task) : M Kernel unit :=
  let* k := getM in
  let* _ := unwrap (zget (k_tasks k) slot) in
  modifyM (fun k => k <| k_tasks := zset (k_tasks k) slot t |>).

(** The common end of the three task constructors. *)
Definition install_task (slot sp stack_base pml4 : Z) : M Kernel unit :=
  let* id := fetch_add_id in
  set_task slot (Some (mkTask sp stack_base Ready id true pml4)).

Definition add_task (entry : Z) : M Kernel bool :=
  let* k := getM in
  match free_task_slot k with
  | None => retM false
  | Some slot =>
      let* stack_phys := on_mach (alloc_framesM STACK_PAGES) in
      if stack_phys =? 0 then retM false
      else
        let stack_base := p2v stack_phys in
        let stack_top := stack_base +w STACK_PAGES *w PAGE_SIZE in
        let sp := stack_top -w 8 in
        poke64 sp entry ;;;
        let sp := sp -w CONTEXT_SIZE in
        write_zero_context sp ;;;
        let* k := getM in
        install_task slot sp stack_base (kernel_pml4 (k_mach k)) ;;;
        retM true
  end.

Definition current_pml4 : M Kernel Z :=
  let* k := getM in
  let* t := unwrap (zget (k_tasks k) (k_current k)) in
  retM (match t with Some t => tk_pml4 t | None => kernel_pml4 (k_mach k) end).

Definition init_main_task (stack_base : Z) : M Kernel unit :=
  let* k := getM in
  set_task 0 (Some (mkTask 0 stack_base Running 0 true (kernel_pml4 (k_mach k)))) ;;;
  modifyM (fun k => k <| k_current := 0 |>).

Definition spawn_user_task (user_task_trampoline entry stack_top pml4 : Z) : M Kernel (option Z) :=
  let* k := getM in
  match free_task_slot k with
  | None => retM None
  | Some slot =>
      let* stack_phys := on_mach (alloc_framesM STACK_PAGES) in
      if stack_phys =? 0 then retM None
      else
        let stack_base := p2v stack_phys in
        let kstack_top := stack_base +w STACK_PAGES *w PAGE_SIZE in
        let sp := kstack_top -w 8 in
        poke64 sp pml4 ;;;
        let sp := sp -w 8 in
        poke64 sp stack_top ;;;
        let sp := sp -w 8 in
        poke64 sp entry ;;;
        let sp := sp -w 8 in
        poke64 sp user_task_trampoline ;;;
        let sp := sp -w CONTEXT_SIZE in
        write_zero_context sp ;;;
        install_task slot sp stack_base pml4 ;;;
        retM (Some slot)
  end.

Definition spawn_forked_task (fork_return_trampoline syscall_frame pml4 : Z) : M Kernel (option Z) :=
  let* k := getM in
  match free_task_slot k with
  | None => retM None
  | Some slot =>
      let* stack_phys := on_mach (alloc_framesM STACK_PAGES) in
      if stack_phys =? 0 then retM None
      else
        let stack_base := p2v stack_phys in
        let kstack_top := stack_base +w STACK_PAGES *w PAGE_SIZE in
        let frame_start := kstack_top -w SYSCALL_FRAME_SIZE in
        on_mach (modifyM (fun s => set_ram (copy_within (ram s) syscall_frame frame_start SYSCALL_FRAME_SIZE) s)) ;;;
        poke64 (frame_start +w 88) 0 ;;;
        let sp := frame_start -w 8 in
        poke64 sp fork_return_trampoline ;;;
        let sp := sp -w CONTEXT_SIZE in
        write_zero_context sp ;;;
        install_task slot sp stack_base pml4 ;;;
        retM (Some slot)
  end.

(** The address of the saved frame of a forked task. *)
Definition task_frame_mut (slot : Z) : M Kernel (option Z) :=
  let* k := getM in
  retM (match zget (k_tasks k) slot with
        | Some (Some t) => Some (tk_rsp t +w CONTEXT_SIZE +w 8)
        | _ => None
        end).

Definition kill_task (slot : Z) : M Kernel unit :=
  let* k := getM in
  let* t := unwrap (zget (k_tasks k) slot) in
  match t with
  | Some t => set_task slot (Some (t <| tk_state := Dead |>))
  | None => retM tt
  end.

(** ** Choosing the next task *)

(** Where the context switch saves the stack pointer. *)
Inductive RspPtr := DeadRsp | TaskRsp (slot : Z).

Definition ready (k : Kernel) (i : Z) : bool :=
  match zget (k_tasks k) i with
  | Some (Some t) => bool_decide (tk_state t = Ready) && tk_rsp_valid t
  | _ => false
  end.

Definition next_idx (k : Kernel) : option Z :=
  List.find (ready k) ((fun i => (k_current k + i) mod MAX_TASKS) <$> seqZ 1 MAX_TASKS).

(** The outgoing task. *)
Definition retire_current (cur : Z) : M Kernel RspPtr :=
  let* k := getM in
  let* t := unwrap (zget (k_tasks k) cur) in
  match t with
  | None => retM DeadRsp
  | Some task =>
      let task := if bool_decide (tk_state task = Running) then task <| tk_state := Ready |> else task in
      if bool_decide (tk_state task = Dead) then
        task_slot_reaped cur ;;;
        set_task cur None ;;;
        retM DeadRsp
      else
        set_task cur (Some (task <| tk_rsp_valid := true |>)) ;;;
        retM (TaskRsp cur)
  end.

Definition next_task_switch : M Kernel (option (RspPtr * Z * Z * Z)) :=
  let* k := getM in
  match next_idx k with
  | None => retM None
  | Some next =>
      let* old_rsp_ptr := retire_current (k_current k) in
      let* k := getM in
      let* t := unwrap (mjoin (zget (k_tasks k) next)) in
      set_task next (Some (t <| tk_state := Running |>)) ;;;
      let next_stack_top := tk_stack_base t +w 4 *w PAGE_SIZE in
      modifyM (fun k => k <| k_current := next |> <| k_rsp0 := next_stack_top |>) ;;;
      let* th := thread_at next in
      let fs_base := match th with Some th => th_fs_base th | None => 0 end in
      retM (Some (old_rsp_ptr, tk_rsp t, tk_pml4 t, fs_base))
  end.

(** ** The context switch *)

Record Cpu := mkCpu {
  rsp : Z; rip : Z; rbx : Z; rbp : Z; r12 : Z; r13 : Z; r14 : Z; r15 : Z; fs_base : Z; iflag : bool;
}.

#[export] Instance eta_cpu : Eta Cpu := fun c =>
  mkCpu (rsp c) (rip c) (rbx c) (rbp c) (r12 c) (r13 c) (r14 c) (r15 c) (fs_base c) (iflag c).

Definition push64 (v : Z) (s : Cpu * Mem) : Cpu * Mem :=
  let sp := rsp (fst s) -w 8 in ((fst s) <| rsp := sp |>, write64 (snd s) sp v).

Definition pop64 (s : Cpu * Mem) : Z * (Cpu * Mem) :=
  (read64 (snd s) (rsp (fst s)), ((fst s) <| rsp := rsp (fst s) +w 8 |>, snd s)).

(** The pushes of [switch_to]. *)
Definition save_context (s : Cpu * Mem) : Cpu * Mem :=
  let c := fst s in
  push64 (r15 c) (push64 (r14 c) (push64 (r13 c) (push64 (r12 c) (push64 (rbx c) (push64 (rbp c) s))))).

(** The pops and the [ret] of [switch_to]. *)
Definition restore_context (s : Cpu * Mem) : Cpu * Mem :=
  let '(v15, s) := pop64 s in
  let '(v14, s) := pop64 s in
  let '(v13, s) := pop64 s in
  let '(v12, s) := pop64 s in
  let '(vbx, s) := pop64 s in
  let '(vbp, s) := pop64 s in
  let '(vip, s) := pop64 s in
  ((fst s) <| r15 := v15 |> <| r14 := v14 |> <| r13 := v13 |> <| r12 := v12 |> <| rbx := vbx |>
         <| rbp := vbp |> <| iflag := true |> <| rip := vip |>, snd s).

(** [mov [rdi], rsp]. *)
Definition store_rsp (old : RspPtr) (v : Z) (k : Kernel) : Kernel :=
  match old with
  | DeadRsp => k
  | TaskRsp i =>
      match zget (k_tasks k) i with
      | Some (Some t) => k <| k_tasks := zset (k_tasks k) i (Some (t <| tk_rsp := v |>)) |>
      | _ => k
      end
  end.

(** [switch_to], entered with the return address on top of the stack. *)
Definition switch_to (old : RspPtr) (new_rsp new_pml4 new_fs_base : Z) (c : Cpu) (k : Kernel) : Cpu * Kernel :=
  let '(c, m) := save_context (c, ram (k_mach k)) in
  let k := store_rsp old (rsp c) k in
  let c := c <| fs_base := new_fs_base |> <| rsp := new_rsp |> in
  let '(c, m) := restore_context (c, m) in
  (c, k <| k_mach := set_cr3 new_pml4 (set_ram m (k_mach k)) |>).

(** [try_switch]; the switch itself is the processor's and is returned. *)
Definition try_switch : M Kernel (option (RspPtr * Z * Z * Z)) :=
  let* k := getM in
  if k_in_syscall k then retM None else next_task_switch.

(** [yield_now]: [resume] is what happens between the switch away and the
    switch back. *)
Definition yield_now (resume : Kernel -> Kernel) : M Kernel unit :=
  let* k := getM in
  let prev := k_in_syscall k in
  modifyM (fun k => k <| k_in_syscall := false |>) ;;;
  let* sw := try_switch in
  (match sw with Some _ => modifyM resume | None => retM tt end) ;;;
  modifyM (fun k => k <| k_in_syscall := prev |>).

(** [scheduler::tick] and [pit_handler]. *)
Definition tick : M Kernel (option (RspPtr * Z * Z * Z)) :=
  let* k := getM in
  if k_ticks k mod 10 =? 0 then try_switch else retM None.

Definition pit_handler : M Kernel (option (RspPtr * Z * Z * Z)) :=
  modifyM (fun k => k <| k_ticks := k_ticks k +w 1 |>) ;;; tick.

Definition uptime_seconds (k : Kernel) : Z := k_ticks k / 100.

(** ** Running the table operations *)

Lemma thread_at_run k s t : zget (k_threads k) s = Some t -> thread_at s k = OOk t k.
Proof. intros H. unfold thread_at. rewrite getM_bind. by rewrite H. Qed.

Lemma process_at_run k s p : zget (k_processes k) s = Some p -> process_at s k = OOk p k.
Proof. intros H. unfold process_at. rewrite getM_bind. by rewrite H. Qed.

Lemma set_thread_run k s t t' : zget (k_threads k) s = Some t ->
  set_thread s t' k = OOk tt (k <| k_threads := zset (k_threads k) s t' |>).
Proof. intros H. unfold set_thread, bindM. by rewrite (thread_at_run _ _ _ H). Qed.

Lemma set_process_run k s p p' : zget (k_processes k) s = Some p ->
  set_process s p' k = OOk tt (k <| k_processes := zset (k_processes k) s p' |>).
Proof. intros H. unfold set_process, bindM. by rewrite (process_at_run _ _ _ H). Qed.

Lemma set_task_run k s t t' : zget (k_tasks k) s = Some t ->
  set_task s t' k = OOk tt (k <| k_tasks := zset (k_tasks k) s t' |>).
Proof. intros H. unfold set_task. rewrite getM_bind. by rewrite H. Qed.

Lemma wf_set_tasks k ts : kernel_wf k -> length ts = 8%nat -> kernel_wf (k <| k_tasks := ts |>).
Proof. intros [] H. by constructor. Qed.

Lemma wf_set_current k c r : kernel_wf k -> 0 <= c < 8 -> kernel_wf (k <| k_current := c |> <| k_rsp0 := r |>).
Proof. intros [] H. by constructor. Qed.

Lemma wf_drop_thread k s : kernel_wf k -> 0 <= s < 8 -> kernel_wf (k <| k_threads := zset (k_threads k) s None |>).
Proof.
  intros Hk H. pose proof Hk as []. constructor; simpl; rewrite ?length_zset; try done. intros s' t' Ht.
  pose proof (zget_Some _ _ _ Ht) as Hb. rewrite length_zset in Hb.
  rewrite zget_zset in Ht by lia. destruct (s' =? s); [done|]. by apply wf_thread.
Qed.

Lemma wf_slot_task k s : kernel_wf k -> 0 <= s < 8 -> exists t, zget (k_tasks k) s = Some t.
Proof. intros Hk Hs. apply zget_is_Some. rewrite (wf_tasks _ Hk). lia. Qed.

Lemma wf_slot_thread k s : kernel_wf k -> 0 <= s < 8 -> exists t, zget (k_threads k) s = Some t.
Proof. intros Hk Hs. apply zget_is_Some. rewrite (wf_threads _ Hk). lia. Qed.

Lemma wf_slot_process k s : kernel_wf k -> 0 <= s < 8 -> exists t, zget (k_processes k) s = Some t.
Proof. intros Hk Hs. apply zget_is_Some. rewrite (wf_processes _ Hk). lia. Qed.

Lemma task_slot_reaped_run k s : kernel_wf k -> 0 <= s < 8 ->
  exists k', task_slot_reaped s k = OOk tt k' /\ kernel_wf k' /\ k_tasks k' = k_tasks k /\
    k_current k' = k_current k /\ k_next_id k' = k_next_id k.
Proof.
  intros Hk Hs. destruct (wf_slot_thread k s Hk Hs) as [t Ht].
  unfold task_slot_reaped, bindM. rewrite (thread_at_run _ _ _ Ht). destruct t as [t|]; [|by exists k].
  case_goal; [|by exists k]. rewrite (set_thread_run _ _ _ _ Ht). eexists. split; [done|].
  split_and!; [by apply wf_drop_thread|done..].
Qed.

(** ** The next task *)

(** Number of steps from slot [c] forward to slot [i], between 1 and 8. *)
Definition dist (c i : Z) : Z := (i - c - 1) mod 8 + 1.

Lemma dist_range c i : 1 <= dist c i <= 8.
Proof. unfold dist. pose proof (Z.mod_pos_bound (i - c - 1) 8). lia. Qed.

Lemma mod8 x : -16 <= x < 24 ->
  x mod 8 = if x <? -8 then x + 16 else if x <? 0 then x + 8 else if x <? 8 then x
            else if x <? 16 then x - 8 else x - 16.
Proof.
  intros Hx. destruct (Z.ltb_spec x (-8)); [symmetry; apply Z.mod_unique with (-2); lia|].
  destruct (Z.ltb_spec x 0); [symmetry; apply Z.mod_unique with (-1); lia|].
  destruct (Z.ltb_spec x 8); [apply Z.mod_small; lia|].
  destruct (Z.ltb_spec x 16); symmetry; [apply Z.mod_unique with 1|apply Z.mod_unique with 2]; lia.
Qed.

Ltac dist_arith := unfold dist in *; rewrite !mod8 in * by lia; repeat case_match; breflect; lia.

Lemma dist_step c d : 0 <= c < 8 -> 1 <= d <= 8 -> dist c ((c + d) mod 8) = d.
Proof. intros Hc Hd. rewrite (mod8 (c + d)) by lia. repeat case_match; breflect; dist_arith. Qed.

Lemma step_dist c i : 0 <= i < 8 -> (c + dist c i) mod 8 = i.
Proof.
  intros Hi. unfold dist. replace (c + ((i - c - 1) mod 8 + 1)) with ((i - c - 1) mod 8 + (c + 1)) by lia.
  rewrite Zplus_mod_idemp_l. replace (i - c - 1 + (c + 1)) with i by lia. by apply Z.mod_small.
Qed.

(** Moving forward by [d] brings a slot that is further away closer by [d]. *)
Lemma dist_closer c n i :
  0 <= c < 8 -> 0 <= n < 8 -> 0 <= i < 8 -> i <> n -> dist c n <= dist c i ->
  dist n i = dist c i - dist c n.
Proof.
  intros Hc Hn Hi Hne Hle. dist_arith.
Qed.

Lemma find_fmap {A B} (f : A -> B) (p : B -> bool) l :
  List.find p (f <$> l) = f <$> List.find (fun x => p (f x)) l.
Proof. induction l as [|x l IH]; simpl; [done|]. by destruct (p (f x)). Qed.

Lemma next_idx_Some k i : 0 <= k_current k < 8 -> next_idx k = Some i ->
  0 <= i < 8 /\ ready k i = true /\
  forall j, 0 <= j < 8 -> ready k j = true -> dist (k_current k) i <= dist (k_current k) j.
Proof.
  intros Hc. unfold next_idx. rewrite find_fmap. change MAX_TASKS with 8.
  destruct (List.find _ _) as [d|] eqn:E; [|done]. intros [= <-].
  apply find_Some_seqZ in E as (Hd & Hp & Hfirst). split_and!; [apply Z.mod_pos_bound; lia..|done|].
  intros j Hj Hr. rewrite dist_step by lia. destruct (Z.leb_spec d (dist (k_current k) j)); [done|].
  pose proof (dist_range (k_current k) j).
  specialize (Hfirst (dist (k_current k) j) ltac:(lia)). simpl in Hfirst. rewrite step_dist in Hfirst by done. congruence.
Qed.

Lemma next_idx_None k : 0 <= k_current k < 8 ->
  next_idx k = None -> forall j, 0 <= j < 8 -> ready k j = false.
Proof.
  intros Hc. unfold next_idx. rewrite find_fmap. change MAX_TASKS with 8.
  destruct (List.find _ _) as [d|] eqn:E; [done|]. intros _ j Hj. pose proof (dist_range (k_current k) j).
  pose proof (find_None_seqZ _ 1 8 E (dist (k_current k) j)) as H0.
  simpl in H0. rewrite step_dist in H0 by done. apply H0. lia.
Qed.

(** What becomes of the outgoing task's slot. *)
Definition retired (o : option Task) : option Task :=
  match o with
  | None => None
  | Some t =>
      match tk_state t with
      | Dead => None
      | _ => Some (t <| tk_state := Ready |> <| tk_rsp_valid := true |>)
      end
  end.

Lemma retire_current_run k o : kernel_wf k -> zget (k_tasks k) (k_current k) = Some o ->
  exists ptr k', retire_current (k_current k) k = OOk ptr k' /\ kernel_wf k' /\
    k_tasks k' = zset (k_tasks k) (k_current k) (retired o) /\ k_current k' = k_current k /\
    k_next_id k' = k_next_id k /\
    ptr = match retired o with Some _ => TaskRsp (k_current k) | None => DeadRsp end.
Proof.
  intros Hk Ho. pose proof (wf_current _ Hk) as Hc. unfold retire_current. rewrite getM_bind, Ho.
  unfold unwrap, bindM, retM. destruct o as [t|].
  - destruct (tk_state t) eqn:E; rewrite ?bool_decide_eq_false_2, ?bool_decide_eq_true_2 by (simpl; congruence).
    + rewrite (set_task_run _ _ _ _ Ho). do 2 eexists. split; [done|].
      assert (Some (t <| tk_rsp_valid := true |>) = retired (Some t)) as ->
        by (simpl; rewrite E; destruct t; simpl in *; congruence).
      split_and!; [apply wf_set_tasks; [done|by rewrite length_zset, (wf_tasks _ Hk)]|done..|simpl; by rewrite E].
    + rewrite (set_task_run _ _ _ _ Ho). do 2 eexists. split; [done|]. simpl retired. rewrite E.
      split_and!; [apply wf_set_tasks; [done|by rewrite length_zset, (wf_tasks _ Hk)]|done..].
    + destruct (task_slot_reaped_run k (k_current k) Hk Hc) as (k1 & -> & Hk1 & Ht1 & Hc1 & Hid).
      rewrite (set_task_run k1 _ (Some t)) by congruence. do 2 eexists. split; [done|]. simpl retired. rewrite E, Ht1.
      split_and!; [apply wf_set_tasks; [done|by rewrite length_zset, (wf_tasks _ Hk)]|done..].
  - exists DeadRsp, k. split_and!; try done. unfold zset. symmetry. apply list_insert_id.
    unfold zget in Ho. by destruct (0 <=? k_current k).
Qed.

Lemma ready_task k i : ready k i = true ->
  exists t, zget (k_tasks k) i = Some (Some t) /\ tk_state t = Ready /\ tk_rsp_valid t = true.
Proof.
  unfold ready. destruct (zget (k_tasks k) i) as [[t|]|]; [|done..]. intros H. breflect. by exists t.
Qed.

Lemma task_ready k i t : zget (k_tasks k) i = Some (Some t) -> tk_state t = Ready -> tk_rsp_valid t = true ->
  ready k i = true.
Proof. intros H1 H2 H3. unfold ready. by rewrite H1, H2, H3. Qed.

(** The task table after a switch. *)
Definition after_switch (ts : list (option Task)) (cur next : Z) (o : option Task) (t : Task) : list (option Task) :=
  zset (zset ts cur (retired o)) next (Some (t <| tk_state := Running |>)).

Lemma next_task_switch_run k next o :
  kernel_wf k -> next_idx k = Some next -> zget (k_tasks k) (k_current k) = Some o ->
  exists t ptr fs k', zget (k_tasks k) next = Some (Some t) /\
    next_task_switch k = OOk (Some (ptr, tk_rsp t, tk_pml4 t, fs)) k' /\ kernel_wf k' /\
    k_current k' = next /\ k_rsp0 k' = tk_stack_base t +w 4 *w PAGE_SIZE /\
    k_tasks k' = after_switch (k_tasks k) (k_current k) next o t /\
    ptr = match retired o with Some _ => TaskRsp (k_current k) | None => DeadRsp end.
Proof.
  intros Hk Hn Ho. pose proof (wf_current _ Hk) as Hc. pose proof (wf_tasks _ Hk) as Hl.
  destruct (next_idx_Some _ _ Hc Hn) as (Hb & Hr & _). destruct (ready_task _ _ Hr) as (t & Ht & Hst & Hv).
  destruct (retire_current_run k o Hk Ho) as (ptr & k1 & Hrun & Hk1 & Hts & Hcur & _ & Hptr).
  assert (zget (k_tasks k1) next = Some (Some t)) as Ht1.
  { rewrite Hts, zget_zset by lia. destruct (Z.eqb_spec next (k_current k)) as [->|]; [|done].
    rewrite Ho in Ht. injection Ht as ->. simpl. rewrite Hst. destruct t; simpl in *. congruence. }
  exists t, ptr. unfold next_task_switch. rewrite getM_bind, Hn. unfold bindM at 1. rewrite Hrun, getM_bind, Ht1.
  simpl mjoin. unfold unwrap, retM at 1. unfold bindM at 1. cbn beta iota. unfold bindM at 1.
  rewrite (set_task_run _ _ _ _ Ht1).
  set (k2 := k1 <| k_tasks := _ |>). unfold bindM at 1, modifyM. cbn beta iota.
  set (k3 := k2 <| k_current := _ |> <| k_rsp0 := _ |>).
  assert (kernel_wf k3) as Hk3.
  { apply wf_set_current; [|done]. apply wf_set_tasks; [done|]. by rewrite length_zset, (wf_tasks _ Hk1). }
  destruct (wf_slot_thread k3 next Hk3 Hb) as [th Hth]. unfold bindM at 1. rewrite (thread_at_run _ _ _ Hth).
  do 2 eexists. split_and!; [done|reflexivity|done|done|done| |done].
  change (k_tasks k3) with (zset (k_tasks k1) next (Some (t <| tk_state := Running |>))). by rewrite Hts.
Qed.

Lemma zget_after_switch ts cur next o t s :
  0 <= cur < Z.of_nat (length ts) -> 0 <= next < Z.of_nat (length ts) -> 0 <= s ->
  zget (after_switch ts cur next o t) s =
    if s =? next then Some (Some (t <| tk_state := Running |>))
    else if s =? cur then Some (retired o) else zget ts s.
Proof. intros. unfold after_switch. rewrite !zget_zset by (rewrite ?length_zset; lia). done. Qed.

(** ** Invariant and round robin *)

(** Only the current task is marked running. *)
Definition one_running (k : Kernel) : Prop :=
  forall s t, zget (k_tasks k) s = Some (Some t) -> tk_state t = Running -> s = k_current k.

Lemma retired_not_running o t : retired o = Some t -> tk_state t = Ready.
Proof. destruct o as [u|]; [|done]. simpl. destruct (tk_state u); intros; by simplify_eq. Qed.

(** Round robin.  In a well-formed kernel in which only the current task
    is running, a switch never panics; when some task is ready it goes to the
    ready task that comes first after the current slot in cyclic order, which
    becomes current and the only running task, runs on its own kernel stack
    from its saved stack pointer and page tables; the task that was running
    becomes ready, a dead one gives up its slot, every other slot is
    unchanged.  When none is ready nothing changes. *)
Theorem round_robin_switch k :
  kernel_wf k -> one_running k ->
  exists o, zget (k_tasks k) (k_current k) = Some o /\
  match next_idx k with
  | None => next_task_switch k = OOk None k /\ forall j, 0 <= j < 8 -> ready k j = false
  | Some next =>
      exists t ptr fs k', zget (k_tasks k) next = Some (Some t) /\ ready k next = true /\
        (forall j, 0 <= j < 8 -> ready k j = true -> dist (k_current k) next <= dist (k_current k) j) /\
        next_task_switch k = OOk (Some (ptr, tk_rsp t, tk_pml4 t, fs)) k' /\
        kernel_wf k' /\ one_running k' /\ k_current k' = next /\
        k_rsp0 k' = tk_stack_base t +w 4 *w PAGE_SIZE /\
        zget (k_tasks k') next = Some (Some (t <| tk_state := Running |>)) /\
        (k_current k <> next -> zget (k_tasks k') (k_current k) = Some (retired o)) /\
        (forall s, 0 <= s < 8 -> s <> next -> s <> k_current k -> zget (k_tasks k') s = zget (k_tasks k) s)
  end.
Proof.
  intros Hk Hone. pose proof (wf_current _ Hk) as Hc. pose proof (wf_tasks _ Hk) as Hl.
  destruct (wf_slot_task k _ Hk Hc) as [o Ho]. exists o. split; [done|]. destruct (next_idx k) as [next|] eqn:Hn.
  - destruct (next_idx_Some _ _ Hc Hn) as (Hb & Hr & Hmin).
    destruct (next_task_switch_run k next o Hk Hn Ho) as (t & ptr & fs & k' & Ht & Hrun & Hk' & Hcur & H0 & Hts & _).
    pose proof (fun s => zget_after_switch (k_tasks k) (k_current k) next o t s ltac:(lia) ltac:(lia)) as Hz.
    rewrite <- Hts in Hz.
    exists t, ptr, fs, k'. split_and!; try done.
    + intros s u Hu Hrunning. rewrite Hcur. pose proof (zget_Some _ _ _ Hu) as Hsb. rewrite Hz in Hu by lia.
      destruct (Z.eqb_spec s next); [done|]. destruct (Z.eqb_spec s (k_current k)).
      * injection Hu as Hu. apply retired_not_running in Hu. congruence.
      * by pose proof (Hone _ _ Hu Hrunning).
    + rewrite Hz, Z.eqb_refl by lia. done.
    + intros Hne. rewrite Hz by lia. rewrite (proj2 (Z.eqb_neq _ _)) by done. by rewrite Z.eqb_refl.
    + intros s Hs H1 H2. rewrite Hz by lia. by rewrite !(proj2 (Z.eqb_neq _ _)) by done.
  - split; [|by apply next_idx_None]. unfold next_task_switch. rewrite getM_bind, Hn. done.
Qed.

(** A kernel with the main task in slot 0 and a ready task in slot 3. *)
Definition sample_sched : Kernel :=
  (init_kernel (mkMachine PMMState_new (fun _ => 0) 0 0 []) (fun _ => 0xFFFFFFFF))
    <| k_tasks := <[0%nat := Some (mkTask 0 0x1000 Running 0 true 7)]>
                  (<[3%nat := Some (mkTask 100 0x8000 Ready 1 true 9)]> (replicate 8 None)) |>.

Lemma sample_sched_wf : kernel_wf sample_sched.
Proof. apply wf_set_tasks; [apply init_kernel_wf|done]. Qed.

Lemma sample_sched_running : one_running sample_sched.
Proof.
  intros s t H Hr. pose proof (zget_Some _ _ _ H) as Hb. change (Z.of_nat (length (k_tasks sample_sched))) with 8 in Hb.
  change (k_current sample_sched) with 0.
  assert (s = 0 \/ s = 1 \/ s = 2 \/ s = 3 \/ s = 4 \/ s = 5 \/ s = 6 \/ s = 7) as Hs by lia.
  destruct Hs as [->|[->|[->|[->|[->|[->|[->| ->]]]]]]]; vm_compute in H; simplify_eq; done.
Qed.

Lemma round_robin_switch_witness :
  next_idx sample_sched = Some 3 /\
  exists ptr fs k', next_task_switch sample_sched = OOk (Some (ptr, 100, 9, fs)) k' /\ k_current k' = 3 /\
    zget (k_tasks k') 0 = Some (Some (mkTask 0 0x1000 Ready 0 true 7)).
Proof.
  split; [reflexivity|].
  destruct (round_robin_switch sample_sched sample_sched_wf sample_sched_running) as (o & Ho & H).
  change (next_idx sample_sched) with (Some 3) in H. cbv beta iota in H.
  destruct H as (t & ptr & fs & k' & Ht & _ & _ & Hrun & _ & _ & Hc & _ & _ & Hold & _).
  vm_compute in Ht. injection Ht as <-. vm_compute in Ho. injection Ho as <-.
  exists ptr, fs, k'. split; [exact Hrun|]. split; [exact Hc|]. refine (Hold _). discriminate.
Defined.

(** ** Liveness *)

Definition switch (k : Kernel) : Kernel :=
  match next_task_switch k with OOk _ k' => k' | _ => k end.

(** The kernel before the [n]-th switch; [env n] is what happens between the
    [n]-th switch and the next. *)
Fixpoint sched (env : nat -> Kernel -> Kernel) (n : nat) (k : Kernel) : Kernel :=
  match n with
  | O => k
  | S n => env n (switch (sched env n k))
  end.

(** A switch runs a ready task or brings it closer to its turn. *)
Lemma switch_progress k s :
  kernel_wf k -> 0 <= s < 8 -> ready k s = true ->
  kernel_wf (switch k) /\
  (k_current (switch k) = s \/
   ready (switch k) s = true /\ dist (k_current (switch k)) s < dist (k_current k) s).
Proof.
  intros Hk Hs Hr. pose proof (wf_current _ Hk) as Hc. pose proof (wf_tasks _ Hk) as Hl.
  destruct (next_idx k) as [next|] eqn:Hn; [|pose proof (next_idx_None _ Hc Hn s Hs); congruence].
  destruct (next_idx_Some _ _ Hc Hn) as (Hb & _ & Hmin). destruct (wf_slot_task k _ Hk Hc) as [o Ho].
  destruct (next_task_switch_run k next o Hk Hn Ho) as (t & ptr & fs & k' & Ht & Hrun & Hk' & Hcur & _ & Hts & _).
  unfold switch. rewrite Hrun. split; [done|]. rewrite Hcur. destruct (Z.eq_dec next s) as [|Hne]; [by left|right].
  split.
  - destruct (ready_task _ _ Hr) as (u & Hu & Hst & Hv). unfold ready.
    rewrite Hts, zget_after_switch by lia. rewrite (proj2 (Z.eqb_neq s next)) by lia.
    destruct (Z.eqb_spec s (k_current k)) as [->|]; [|by rewrite Hu, Hst, Hv].
    rewrite Ho in Hu. injection Hu as ->. simpl. by rewrite Hst.
  - rewrite dist_closer with (c := k_current k); [|done..|auto|by apply Hmin].
    pose proof (dist_range (k_current k) next). lia.
Qed.

(** C12: No starvation.  A task that is ready and stays ready (nobody kills it
    between switches) is running after at most eight switches, at most one
    per slot between the current one and its own, whatever the other tasks
    and system calls do in between. *)
Theorem scheduler_fair env k s :
  kernel_wf k -> 0 <= s < 8 -> ready k s = true ->
  (forall i k', kernel_wf k' -> kernel_wf (env i k') /\ k_current (env i k') = k_current k' /\
     (ready k' s = true -> ready (env i k') s = true)) ->
  exists n, Z.of_nat n < dist (k_current k) s <= 8 /\ k_current (switch (sched env n k)) = s.
Proof.
  intros Hk Hs Hr Henv.
  assert (forall d n, kernel_wf (sched env n k) -> ready (sched env n k) s = true ->
    dist (k_current (sched env n k)) s <= Z.of_nat d ->
    exists m, Z.of_nat n <= Z.of_nat m < Z.of_nat n + Z.of_nat d /\ k_current (switch (sched env m k)) = s) as H.
  { induction d as [|d IH]; intros n Hw Hrn Hd.
    - pose proof (dist_range (k_current (sched env n k)) s). lia.
    - destruct (switch_progress _ s Hw Hs Hrn) as (Hw' & [|[Hr' Hd']]); [exists n; split; [lia|done]|].
      destruct (Henv n (switch (sched env n k)) Hw') as (He1 & He2 & He3).
      destruct (IH (S n) He1 (He3 Hr')) as (m & Hm & ?); [cbn [sched]; rewrite He2; lia|]. exists m. split; [lia|done]. }
  pose proof (dist_range (k_current k) s).
  destruct (H (Z.to_nat (dist (k_current k) s)) 0%nat) as (m & Hm & ?); [done|done|cbn [sched]; lia|].
  exists m. split; [lia|done].
Qed.

Lemma scheduler_fair_witness :
  exists n, Z.of_nat n < 3 /\ k_current (switch (sched (fun _ k => k) n sample_sched)) = 3.
Proof.
  destruct (scheduler_fair (fun _ k => k) sample_sched 3 sample_sched_wf ltac:(lia) eq_refl) as (n & Hn & H).
  - intros i k' Hk'. split; [exact Hk'|]. split; [reflexivity|]. intros Hr. exact Hr.
  - exists n. split; [|exact H]. change (dist (k_current sample_sched) 3) with 3 in Hn. lia.
Defined.

(** ** The context switch restores what it saved *)

Definition with_ram (m : Mem) (k : Kernel) : Kernel := k <| k_mach := set_ram m (k_mach k) |>.

(** The six words [save_context] leaves below [sp]. *)
Definition saved (c : Cpu) (sp : Z) (m : Mem) : Mem :=
  let m := write64 m (sp - 8) (rbp c) in
  let m := write64 m (sp - 16) (rbx c) in
  let m := write64 m (sp - 24) (r12 c) in
  let m := write64 m (sp - 32) (r13 c) in
  let m := write64 m (sp - 40) (r14 c) in
  write64 m (sp - 48) (r15 c).

Lemma wrap64_sub x d : is_u64 x -> 0 <= d <= x -> x -w d = x - d.
Proof. intros Hx Hd. apply wrap64_small. unfold is_u64 in Hx. lia. Qed.

(** The stack pointer of [c] moved to [sp]. *)
Definition at_sp (c : Cpu) (sp : Z) : Cpu := c <| rsp := sp |>.

Lemma push64_eq c sp v m : 8 <= sp < U64 -> push64 v (at_sp c sp, m) = (at_sp c (sp - 8), write64 m (sp - 8) v).
Proof.
  intros H. unfold push64. cbn [fst snd]. change (rsp (at_sp c sp)) with sp. rewrite wrap64_small by lia. done.
Qed.

Lemma pop64_eq c sp m : 0 <= sp -> sp + 8 < U64 -> pop64 (at_sp c sp, m) = (read64 m sp, (at_sp c (sp + 8), m)).
Proof.
  intros H0 H. unfold pop64. cbn [fst snd]. change (rsp (at_sp c sp)) with sp. rewrite wrap64_small by lia. done.
Qed.

Lemma save_context_eq c m : 48 <= rsp c < U64 ->
  save_context (c, m) = (at_sp c (rsp c - 48), saved c (rsp c) m).
Proof.
  intros H. unfold save_context. cbn [fst]. replace (c, m) with (at_sp c (rsp c), m) by by destruct c.
  rewrite push64_eq by lia. rewrite push64_eq by lia. rewrite push64_eq by lia.
  rewrite push64_eq by lia. rewrite push64_eq by lia. rewrite push64_eq by lia.
  unfold saved. rewrite <- !Z.sub_add_distr. reflexivity.
Qed.

Lemma restore_context_eq c sp m : 0 <= sp -> sp + 56 < U64 ->
  restore_context (at_sp c sp, m) =
    (mkCpu (sp + 56) (read64 m (sp + 48)) (read64 m (sp + 32)) (read64 m (sp + 40))
       (read64 m (sp + 24)) (read64 m (sp + 16)) (read64 m (sp + 8)) (read64 m sp)
       (fs_base c) true, m).
Proof.
  intros H0 H. unfold restore_context.
  rewrite pop64_eq by lia. rewrite pop64_eq by lia. rewrite pop64_eq by lia. rewrite pop64_eq by lia.
  rewrite pop64_eq by lia. rewrite pop64_eq by lia. rewrite pop64_eq by lia.
  rewrite <- !Z.add_assoc. reflexivity.
Qed.

Definition cpu_ok (c : Cpu) : Prop :=
  is_u64 (rbx c) /\ is_u64 (rbp c) /\ is_u64 (r12 c) /\ is_u64 (r13 c) /\ is_u64 (r14 c) /\ is_u64 (r15 c).

Lemma saved_below c sp m x : x < sp - 48 \/ sp <= x -> saved c sp m x = m x.
Proof.
  intros H. unfold saved, write64, write_le.
  repeat match goal with |- context [in_range ?x ?l ?n] => rewrite (proj2 (in_range_false x l n)) by lia end. done.
Qed.

Ltac read_saved :=
  unfold saved; rewrite ?read64_write64_disj by lia; apply read64_write64_same; assumption.

(** The saved words, read back from memory that still has them. *)
Lemma saved_read c sp m m' :
  cpu_ok c -> (forall x, sp - 48 <= x < sp + 8 -> m' x = saved c sp m x) ->
  read64 m' (sp - 48) = r15 c /\ read64 m' (sp - 40) = r14 c /\ read64 m' (sp - 32) = r13 c /\
  read64 m' (sp - 24) = r12 c /\ read64 m' (sp - 16) = rbx c /\ read64 m' (sp - 8) = rbp c /\
  read64 m' sp = read64 m sp.
Proof.
  intros (Hbx & Hbp & H12 & H13 & H14 & H15) Hm.
  assert (forall a, sp - 48 <= a <= sp -> read64 m' a = read64 (saved c sp m) a) as E
    by (intros a Ha; apply read_le_ext; intros; apply Hm; lia).
  rewrite !E by lia. split_and!; try read_saved. apply read_le_ext. intros x Hx. apply saved_below. lia.
Qed.

Lemma store_rsp_ram old v k : ram (k_mach (store_rsp old v k)) = ram (k_mach k).
Proof. unfold store_rsp. repeat case_match; done. Qed.

(** C33: The context switch is invisible to the task.  A task that calls
    [switch_to] and is later switched back to (with the stack pointer that
    was saved, by a switch made on another stack, with its own 56 bytes of
    stack untouched in between) returns from its call with its callee-saved
    registers and stack pointer as they were, interrupts enabled, in the
    address space and with the FS base of the task table. *)
Theorem context_switch_restores old new_rsp pml4 fs c k c2 k2 old2 pml4' fs' :
  cpu_ok c -> 48 <= rsp c -> rsp c + 8 < U64 -> 48 <= rsp c2 < U64 ->
  (rsp c2 <= rsp c - 48 \/ rsp c + 8 <= rsp c2 - 48) ->
  (forall x, rsp c - 48 <= x < rsp c + 8 ->
     ram (k_mach k2) x = saved c (rsp c) (ram (k_mach k)) x) ->
  snd (save_context (c, ram (k_mach k))) = saved c (rsp c) (ram (k_mach k)) /\
  (forall i t, old = TaskRsp i -> zget (k_tasks k) i = Some (Some t) ->
     zget (k_tasks (snd (switch_to old new_rsp pml4 fs c k))) i = Some (Some (t <| tk_rsp := rsp c - 48 |>))) /\
  fst (switch_to old2 (rsp c - 48) pml4' fs' c2 k2) =
    mkCpu (rsp c + 8) (read64 (ram (k_mach k)) (rsp c)) (rbx c) (rbp c) (r12 c) (r13 c) (r14 c) (r15 c) fs' true /\
  cr3 (k_mach (snd (switch_to old2 (rsp c - 48) pml4' fs' c2 k2))) = pml4'.
Proof.
  intros Hc Hsp Htop Hsp2 Hdisj Hram. unfold switch_to. rewrite !save_context_eq by lia.
  split; [done|]. change (rsp (at_sp c (rsp c - 48))) with (rsp c - 48). split.
  { intros i t -> Ht. simpl store_rsp. rewrite Ht. destruct (restore_context _) as [c' m'].
    simpl k_tasks. apply zget_zset_eq. by eapply zget_Some. }
  assert (forall x, rsp c - 48 <= x < rsp c + 8 ->
    saved c2 (rsp c2) (ram (k_mach k2)) x = saved c (rsp c) (ram (k_mach k)) x) as Hm
    by (intros x Hx; rewrite saved_below by lia; by apply Hram).
  destruct (saved_read c (rsp c) _ _ Hc Hm) as (E1 & E2 & E3 & E4 & E5 & E6 & E7).
  change ((at_sp c2 (rsp c2 - 48)) <| fs_base := fs' |> <| rsp := rsp c - 48 |>)
    with (at_sp (c2 <| fs_base := fs' |>) (rsp c - 48)).
  rewrite restore_context_eq by lia. split; [|done].
  replace (rsp c - 48 + 56) with (rsp c + 8) by lia. replace (rsp c - 48 + 48) with (rsp c) by lia.
  replace (rsp c - 48 + 40) with (rsp c - 8) by lia. replace (rsp c - 48 + 32) with (rsp c - 16) by lia.
  replace (rsp c - 48 + 24) with (rsp c - 24) by lia. replace (rsp c - 48 + 16) with (rsp c - 32) by lia.
  replace (rsp c - 48 + 8) with (rsp c - 40) by lia. cbn [fst]. by rewrite E1, E2, E3, E4, E5, E6, E7.
Qed.

Definition sample_cpu (sp : Z) : Cpu := mkCpu sp 5 11 12 13 14 15 16 0 false.

Lemma context_switch_restores_witness :
  let c := sample_cpu 0x9000 in
  let k := sample_sched in
  fst (switch_to DeadRsp (0x9000 - 48) 7 0 (sample_cpu 0x4000)
         (with_ram (saved c 0x9000 (ram (k_mach k))) k)) =
    mkCpu 0x9008 0 11 12 13 14 15 16 0 true.
Proof.
  intros c k.
  destruct (context_switch_restores (TaskRsp 0) 100 9 0 c k (sample_cpu 0x4000)
    (with_ram (saved c 0x9000 (ram (k_mach k))) k) DeadRsp 7 0) as (_ & _ & H & _).
  - repeat split; cbn; lia.
  - cbn. lia.
  - cbn. unfold U64. lia.
  - cbn. unfold U64. lia.
  - cbn. lia.
  - intros x Hx. reflexivity.
  - exact H.
Defined.

(** ** A forked task *)

(** The registers a system-call return path pops from the frame at [sp];
    [rcx] is the user instruction pointer and [r10] the user stack pointer. *)
Definition frame_at (m : Mem) (sp : Z) : SyscallFrame :=
  frame_of_words ((fun i => read64 m (sp + 8 * i)) <$> seqZ 0 15).

Lemma poke64_run a v k : poke64 a v k = OOk tt (with_ram (write64 (ram (k_mach k)) a v) k).
Proof. done. Qed.

Definition zero_context (sp : Z) (m : Mem) : Mem :=
  fold_left (fun m i => write64 m (sp + 8 * i) 0) (seqZ 0 6) m.

Lemma write_zero_context_run sp k :
  write_zero_context sp k = OOk tt (with_ram (zero_context sp (ram (k_mach k))) k).
Proof.
  unfold write_zero_context, zero_context. generalize (seqZ 0 6) as l. intros l. revert k.
  induction l as [|i l IH]; intros k; simpl; [destruct k as [[] ? ? ? ? ? ? ? ? ? ? ? ? ? ? ? ? ?]; done|].
  unfold bindM. rewrite poke64_run. by rewrite IH.
Qed.

Lemma zero_context_other sp m x : x < sp \/ sp + 48 <= x -> zero_context sp m x = m x.
Proof.
  intros H. unfold zero_context. change (seqZ 0 6) with [0; 1; 2; 3; 4; 5]. cbn [fold_left].
  unfold write64, write_le.
  repeat match goal with |- context [in_range ?x ?l ?n] => rewrite (proj2 (in_range_false x l n)) by lia end. done.
Qed.

Lemma zero_context_read sp m i : 0 <= i < 6 -> read64 (zero_context sp m) (sp + 8 * i) = 0.
Proof.
  intros Hi. unfold zero_context. change (seqZ 0 6) with [0; 1; 2; 3; 4; 5]. cbn [fold_left].
  assert (i = 0 \/ i = 1 \/ i = 2 \/ i = 3 \/ i = 4 \/ i = 5) as Hs by lia.
  destruct Hs as [->|[->|[->|[->|[->| ->]]]]]; rewrite ?read64_write64_disj by lia;
    apply read64_write64_same; done.
Qed.

(** Memory after [spawn_forked_task] has filled the new stack. *)
Definition forked_stack (tramp frame base : Z) (m : Mem) : Mem :=
  let F := base + 16384 - 128 in
  let m := copy_within m frame F 128 in
  let m := write64 m (F + 88) 0 in
  let m := write64 m (F - 8) tramp in
  zero_context (F - 56) m.

Lemma read_le_shift n m m' a b :
  (forall j, 0 <= j < Z.of_nat n -> m (a + j) = m' (b + j)) -> read_le n m a = read_le n m' b.
Proof.
  revert a b; induction n as [|n IH]; intros a b H; [done|]. cbn [read_le].
  rewrite <- (Z.add_0_r a) at 1. rewrite <- (Z.add_0_r b) at 1. rewrite (H 0) by lia.
  rewrite (IH (a + 1) (b + 1)); [done|]. intros j Hj. rewrite <- !Z.add_assoc. apply H. lia.
Qed.

Lemma forked_stack_frame tramp frame base m :
  frame_at (forked_stack tramp frame base m) (base + 16384 - 128) = (frame_at m frame) <| f_rax := 0 |>.
Proof.
  set (F := base + 16384 - 128).
  assert (forall i, 0 <= i < 15 ->
    read64 (forked_stack tramp frame base m) (F + 8 * i) = if i =? 11 then 0 else read64 m (frame + 8 * i)) as E.
  { intros i Hi. unfold forked_stack. fold F. cbv zeta.
    trans (read64 (write64 (copy_within m frame F 128) (F + 88) 0) (F + 8 * i)).
    { apply read_le_ext. intros x Hx. rewrite zero_context_other by lia. unfold write64 at 1, write_le.
      by rewrite (proj2 (in_range_false x (F - 8) _)) by lia. }
    destruct (Z.eqb_spec i 11) as [->|Hne]; [by apply read64_write64_same|].
    rewrite read64_write64_disj by lia. apply read_le_shift.
    intros j Hj. unfold copy_within. rewrite (proj2 (in_range_spec _ _ _)) by lia. f_equal. lia. }
  unfold frame_at. change (seqZ 0 15) with [0; 1; 2; 3; 4; 5; 6; 7; 8; 9; 10; 11; 12; 13; 14].
  cbn [fmap list_fmap]. rewrite !E by lia. reflexivity.
Qed.

Lemma with_ram_ram m k : ram (k_mach (with_ram m k)) = m.
Proof. done. Qed.

Lemma with_ram_twice m m' k : with_ram m (with_ram m' k) = with_ram m k.
Proof. done. Qed.

(** A fresh kernel stack: where it is, and that it avoids [lo..hi) when the
    free frames do. *)
Lemma alloc_stack_cases k :
  pmm_ok (pmm (k_mach k)) ->
  on_mach (alloc_framesM STACK_PAGES) k = OOk 0 (k <| k_mach := set_ram (ram (k_mach k)) (set_pmm (pmm (k_mach k)) (k_mach k)) |>) \/
  exists st p', 1 <= st /\ st + 4 <= MAX_FRAMES /\ pmm_ok p' /\
    frames st 4 ⊆ free_set (pmm (k_mach k)) /\
    on_mach (alloc_framesM STACK_PAGES) k =
      OOk (st * PAGE_SIZE)
        (k <| k_mach := set_ram (fill (ram (k_mach k)) (p2v (st * PAGE_SIZE)) 0 16384) (set_pmm p' (k_mach k)) |>).
Proof.
  intros Hp. unfold on_mach, zoom, alloc_framesM, STACK_PAGES.
  destruct (alloc_frames_cases (pmm (k_mach k)) (ram (k_mach k)) 4 Hp ltac:(lia))
    as [[-> _]|(st & p' & -> & H1 & H2 & H3 & _ & _ & H4)]; [by left|right].
  exists st, p'. split_and!; done.
Qed.

Lemma install_task_run k slot sp base pml4 o :
  zget (k_tasks k) slot = Some o ->
  install_task slot sp base pml4 k =
    OOk tt (k <| k_next_id := k_next_id k +w 1 |>
              <| k_tasks := zset (k_tasks k) slot (Some (mkTask sp base Ready (k_next_id k) true pml4)) |>).
Proof.
  intros Ho. unfold install_task, fetch_add_id, bindM, getM, modifyM, retM. cbn beta iota.
  by rewrite set_task_run with (t := o) by exact Ho.
Qed.

Lemma spawn_forked_task_run k tramp frame pml4 slot st p' :
  free_task_slot k = Some slot -> 1 <= st -> st + 4 <= MAX_FRAMES ->
  on_mach (alloc_framesM STACK_PAGES) k =
    OOk (st * PAGE_SIZE)
      (k <| k_mach := set_ram (fill (ram (k_mach k)) (p2v (st * PAGE_SIZE)) 0 16384) (set_pmm p' (k_mach k)) |>) ->
  let base := st * PAGE_SIZE + PHYSICAL_OFFSET in
  spawn_forked_task tramp frame pml4 k =
    OOk (Some slot)
      (k <| k_mach := set_ram (forked_stack tramp frame base (fill (ram (k_mach k)) base 0 16384))
                        (set_pmm p' (k_mach k)) |>
         <| k_next_id := k_next_id k +w 1 |>
         <| k_tasks := zset (k_tasks k) slot (Some (mkTask (base + 16384 - 184) base Ready (k_next_id k) true pml4)) |>).
Proof.
  intros Hs H1 H2 Ha base.
  assert (p2v (st * PAGE_SIZE) = base) as Ep
    by (rewrite MAX_FRAMES_eq in H2; apply p2v_small; unfold PAGE_SIZE, PHYS_TOP, PHYSICAL_OFFSET, U64; lia).
  assert (4096 <= base /\ base + 16384 < U64) as Hb
    by (rewrite MAX_FRAMES_eq in H2; unfold base, PAGE_SIZE, PHYSICAL_OFFSET, U64; lia).
  unfold spawn_forked_task. rewrite getM_bind, Hs. unfold bindM at 1. rewrite Ha.
  rewrite (proj2 (Z.eqb_neq _ _)) by (unfold PAGE_SIZE; lia). cbv zeta. rewrite Ep.
  change (STACK_PAGES *w PAGE_SIZE) with 16384. change SYSCALL_FRAME_SIZE with 128. change CONTEXT_SIZE with 48.
  rewrite (wrap64_small (base + 16384)) by lia. rewrite (wrap64_small (base + 16384 - 128)) by lia.
  rewrite (wrap64_small (base + 16384 - 128 + 88)) by lia. rewrite (wrap64_small (base + 16384 - 128 - 8)) by lia.
  rewrite (wrap64_small (base + 16384 - 128 - 8 - 48)) by lia.
  set (k1 := k <| k_mach := _ |>).
  unfold bindM at 1. change (on_mach (modifyM ?f) k1) with (OOk (S := Kernel) tt (k1 <| k_mach := f (k_mach k1) |>)).
  unfold bindM at 1. rewrite poke64_run. unfold bindM at 1. rewrite poke64_run.
  unfold bindM at 1. rewrite write_zero_context_run.
  replace (base + 16384 - 128 - 8 - 48) with (base + 16384 - 128 - 56) by lia.
  replace (base + 16384 - 184) with (base + 16384 - 128 - 56) by lia.
  destruct (zposition_Some _ _ _ Hs) as (o & Ho & _ & _).
  unfold bindM at 1. rewrite install_task_run with (o := o) by exact Ho. reflexivity.
Qed.

Lemma same_mach k : k <| k_mach := set_ram (ram (k_mach k)) (set_pmm (pmm (k_mach k)) (k_mach k)) |> = k.
Proof. by destruct k as [[] ? ? ? ? ? ? ? ? ? ? ? ? ? ? ? ? ?]. Qed.

Lemma forked_stack_context tramp frame base m :
  is_u64 tramp -> 56 <= base -> base + 16384 < U64 -> forall c,
  restore_context (at_sp c (base + 16384 - 184), forked_stack tramp frame base m) =
    (mkCpu (base + 16384 - 128) tramp 0 0 0 0 0 0 (fs_base c) true, forked_stack tramp frame base m).
Proof.
  intros Ht H0 H c. rewrite restore_context_eq by lia. set (m' := forked_stack tramp frame base m).
  assert (forall i, 0 <= i < 6 -> read64 m' (base + 16384 - 184 + 8 * i) = 0) as E.
  { intros i Hi. unfold m', forked_stack. replace (base + 16384 - 184) with (base + 16384 - 128 - 56) by lia.
    by apply zero_context_read. }
  assert (read64 m' (base + 16384 - 184 + 48) = tramp) as E2.
  { unfold m', forked_stack. cbv zeta.
    replace (base + 16384 - 184 + 48) with (base + 16384 - 128 - 8) by lia.
    rewrite <- (read64_write64_same (write64 (copy_within m frame (base + 16384 - 128) 128) (base + 16384 - 128 + 88) 0)
      (base + 16384 - 128 - 8) tramp) at 2 by done.
    apply read_le_ext. intros x Hx. apply zero_context_other. lia. }
  pose proof (E 0) as E0. rewrite Z.add_0_r in E0. rewrite E0, E2 by lia.
  rewrite (E 1 ltac:(lia) : read64 m' (base + 16384 - 184 + 8) = 0),
    (E 2 ltac:(lia) : read64 m' (base + 16384 - 184 + 16) = 0),
    (E 3 ltac:(lia) : read64 m' (base + 16384 - 184 + 24) = 0),
    (E 4 ltac:(lia) : read64 m' (base + 16384 - 184 + 32) = 0),
    (E 5 ltac:(lia) : read64 m' (base + 16384 - 184 + 40) = 0).
  f_equal. f_equal. lia.
Qed.

(** Fork's child.  When a slot and four contiguous frames are free,
    [spawn_forked_task] fills the first free slot with a ready task in the
    given address space whose first switch enters the return trampoline with
    the stack pointer at a copy of the parent's system-call frame in which
    only [rax] differs: it is zero, the child's return value.  Otherwise the
    kernel is left as it was. *)
Theorem forked_task_resumes tramp frame pml4 k :
  kernel_wf k -> pmm_ok (pmm (k_mach k)) -> is_u64 tramp ->
  (forall f x, f ∈ free_set (pmm (k_mach k)) -> frame <= x < frame + 128 ->
     x < f * PAGE_SIZE + PHYSICAL_OFFSET \/ f * PAGE_SIZE + PHYSICAL_OFFSET + PAGE_SIZE <= x) ->
  match spawn_forked_task tramp frame pml4 k with
  | OOk None k' => k' = k
  | OOk (Some slot) k' =>
      free_task_slot k = Some slot /\ kernel_wf k' /\ ready k' slot = true /\
      exists t, zget (k_tasks k') slot = Some (Some t) /\ tk_pml4 t = pml4 /\
        forall c, exists c', restore_context (at_sp c (tk_rsp t), ram (k_mach k')) = (c', ram (k_mach k')) /\
          rip c' = tramp /\
          frame_at (ram (k_mach k')) (rsp c') = (frame_at (ram (k_mach k)) frame) <| f_rax := 0 |>
  | _ => False
  end.
Proof.
  intros Hk Hp Ht Hframe. destruct (free_task_slot k) as [slot|] eqn:Hs.
  2:{ unfold spawn_forked_task. rewrite getM_bind, Hs. done. }
  destruct (alloc_stack_cases k Hp) as [Ha|(st & p' & H1 & H2 & _ & Hfree & Ha)].
  { unfold spawn_forked_task. rewrite getM_bind, Hs. unfold bindM. rewrite Ha. simpl. apply same_mach. }
  rewrite (spawn_forked_task_run k tramp frame pml4 slot st p' Hs H1 H2 Ha). cbv zeta.
  set (base := st * PAGE_SIZE + PHYSICAL_OFFSET). set (t := mkTask _ base _ _ _ _).
  assert (56 <= base /\ base + 16384 < U64) as Hb
    by (rewrite MAX_FRAMES_eq in H2; unfold base, PAGE_SIZE, PHYSICAL_OFFSET, U64; lia).
  pose proof (zposition_Some _ _ _ Hs) as (o & _ & _ & Hrange). pose proof (wf_tasks _ Hk) as Hl.
  set (k' := _ <| k_tasks := _ |>).
  assert (zget (k_tasks k') slot = Some (Some t)) as Hz by (by apply zget_zset_eq).
  split; [done|]. split.
  { pose proof Hk as []. constructor; try done. change (length (k_tasks k') = 8%nat). simpl. by rewrite length_zset. }
  split; [by apply (task_ready k' slot t)|]. exists t. split; [done|]. split; [done|].
  change (ram (k_mach k')) with (forked_stack tramp frame base (fill (ram (k_mach k)) base 0 16384)).
  change (tk_rsp t) with (base + 16384 - 184). intros c. eexists. split; [apply forked_stack_context; [done|lia..]|].
  split; [done|]. cbn [rsp]. rewrite forked_stack_frame. f_equal. unfold frame_at. f_equal.
  apply list_fmap_ext. intros j i Hi%lookup_seqZ. apply read_le_ext. intros x Hx. unfold fill.
  rewrite (proj2 (in_range_false _ _ _)); [done|].
  destruct (decide (x < base \/ base + 16384 <= x)) as [|Hin]; [lia|exfalso].
  set (f := st + (x - base) / PAGE_SIZE).
  assert (base + (x - base) / 4096 * 4096 <= x < base + (x - base) / 4096 * 4096 + 4096 /\ 0 <= (x - base) / 4096 < 4) as Hf.
  { pose proof (Z.div_mod (x - base) 4096). pose proof (Z.mod_pos_bound (x - base) 4096).
    split; [lia|]. split; [apply Z.div_pos; lia|apply Z.div_lt_upper_bound; lia]. }
  destruct (Hframe f x) as [Hlt|Hlt]; [apply Hfree, elem_of_frames; unfold f, PAGE_SIZE; lia|lia|..];
    unfold f, base, PAGE_SIZE in *; lia.
Qed.

Definition sample_fork : Kernel := sample_sched <| k_mach := mkMachine sample_pmm (fun _ => 0) 0 0 [] |>.

Lemma forked_task_resumes_witness :
  match spawn_forked_task 5 0 7 sample_fork with
  | OOk (Some slot) k' => slot = 1 /\ ready k' 1 = true
  | OOk None k' => k' = sample_fork
  | _ => False
  end.
Proof.
  assert (pmm_ok (pmm (k_mach sample_fork))) as Hp by exact sample_pmm_ok.
  assert (kernel_wf sample_fork) as Hk by (pose proof sample_sched_wf as []; constructor; assumption).
  assert (is_u64 5) as H5 by (unfold is_u64, U64; lia).
  pose proof (forked_task_resumes 5 0 7 sample_fork Hk Hp H5) as H.
  destruct (spawn_forked_task 5 0 7 sample_fork) as [[slot|] k'| |].
  1: destruct H as (Hs & _ & Hr & _); [|change (Some 1 = Some slot) in Hs; injection Hs as <-; split; [reflexivity|exact Hr]].
  2-4: apply H.
  all: intros f x Hf Hx; left; pose proof (pmm_ok_pos _ f Hp Hf); unfold PAGE_SIZE, PHYSICAL_OFFSET; lia.
Defined.
