(* ===== verification/Proc.v ===== *)
(** * Processes, threads and memory regions ([proc/process.rs], [proc/vm.rs])

    Creation, lookup and exit of processes and threads, the program break,
    and the table of memory regions of a process. *)

From S2P Require Import Prelude Mem Update Result Pmm Paging RamFs Ring Tty Types State Task.

(** ** Identity *)

Definition fetch_add_pid : M Kernel Z :=
  let* k := getM in modifyM (fun k => k <| k_next_pid := k_next_pid k +w 1 |>) ;;; retM (k_next_pid k).

Definition current_pid : M Kernel Z := let* p := current_process in retM (from_option p_pid 0 p).
Definition current_tid : M Kernel Z := let* t := current_thread in retM (from_option th_tid 0 t).
Definition current_ppid : M Kernel Z := let* p := current_process in retM (from_option p_parent_pid 0 p).
Definition current_brk : M Kernel Z := let* p := current_process in retM (from_option p_program_break 0 p).
Definition current_fs_base : M Kernel Z := let* t := current_thread in retM (from_option th_fs_base 0 t).

Definition current_exe_path : M Kernel (list Z * Z) :=
  let* p := current_process in
  retM (match p with
        | Some p => (p_exe_path p, p_exe_path_len p)
        | None => (replicate (Z.to_nat EXE_PATH_MAX) 0, 0)
        end).

Definition is_some {A} (o : option A) : bool := match o with Some _ => true | None => false end.

Definition active_process_count (k : Kernel) : Z := countb is_some (k_processes k).

Definition set_brk (new_brk : Z) : M Kernel unit :=
  let* p := current_process_mut in
  match p with
  | Some (slot, p) => set_process slot (Some (p <| p_program_break := new_brk |>))
  | None => retM tt
  end.

Definition is_running_in_slot (slot : Z) : M Kernel bool :=
  let* p := process_at slot in
  retM (match p with Some p => bool_decide (p_state p = PRunning) | None => false end).

(** The entry with identifier [n]. *)
Definition has_id {A} (id : A -> Z) (n : Z) (o : option A) : bool :=
  match o with Some x => id x =? n | None => false end.

Definition find_slot_by_pid (pid : Z) (k : Kernel) : option Z :=
  zposition (has_id p_pid pid) (k_processes k).

Definition find_thread_slot_by_tid (tid : Z) (k : Kernel) : option Z :=
  zposition (has_id th_tid tid) (k_threads k).

(** ** Creation *)

Definition spawn_named (task_slot : Z) (name : list Z) : M Kernel Z :=
  let* pid := fetch_add_pid in
  let* parent_pid := current_pid in
  set_process task_slot (Some (Process_new_leader pid parent_pid name)) ;;;
  set_thread task_slot (Some (Thread_new_leader pid parent_pid task_slot task_slot)) ;;;
  retM pid.

Definition spawn_thread_in_group (task_slot clear_child_tid fs_base : Z) : M Kernel Z :=
  let* tid := fetch_add_pid in
  let* current := current_thread in
  let* current := unwrap current in
  let group_slot := th_group_slot current in
  let* process := process_at group_slot in
  let* process := unwrap process in
  set_process group_slot (Some (process <| p_thread_count := p_thread_count process +w 1 |>)) ;;;
  set_thread task_slot (Some (Thread_new_group_member tid (th_tid current) group_slot task_slot
                                clear_child_tid fs_base (th_sig_mask current))) ;;;
  retM tid.

(** ** Exit *)

(** One round of the loop over [THREADS] of a whole-group exit. *)
Definition exit_group_thread (task_slot group_slot slot : Z) : M Kernel unit :=
  let* t := thread_at slot in
  match t with
  | None => retM tt
  | Some t =>
      if negb (th_group_slot t =? group_slot) then retM tt
      else
        set_thread slot (Some (t <| th_state := TZombie |>)) ;;;
        if negb (slot =? task_slot) then kill_task slot else retM tt
  end.

Definition exit_thread (code : Z) (whole_group : bool) : M Kernel bool :=
  let* thread := current_thread_mut in
  match thread with
  | None => retM false
  | Some (slot, thread) =>
      let task_slot := th_task_slot thread in
      let group_slot := th_group_slot thread in
      set_thread slot (Some (thread <| th_state := TZombie |>)) ;;;
      let* process := process_at group_slot in
      match process with
      | None => retM false
      | Some process =>
          if whole_group then
            set_process group_slot
              (Some (process <| p_state := PZombie |> <| p_exit_code := code |> <| p_thread_count := 0 |>)) ;;;
            forM (seqZ 0 8) (exit_group_thread task_slot group_slot) ;;;
            retM true
          else
            let count := if 0 <? p_thread_count process then p_thread_count process - 1 else p_thread_count process in
            if count =? 0 then
              set_process group_slot
                (Some (process <| p_thread_count := count |> <| p_state := PZombie |> <| p_exit_code := code |>)) ;;;
              retM true
            else
              set_process group_slot (Some (process <| p_thread_count := count |>)) ;;;
              retM false
      end
  end.

Definition exit (code : Z) : M Kernel unit := exit_thread code false ;;; retM tt.

(** ** Memory regions ([proc/vm.rs]) *)

Definition overlaps (a_start a_len b_start b_len : Z) : bool :=
  let a_end := sat_add64 a_start a_len in
  let b_end := sat_add64 b_start b_len in
  (a_start <? b_end) && (b_start <? a_end).

Definition region_hits (start len : Z) (v : VmRegion) : bool :=
  vm_in_use v && overlaps start len (vm_start v) (vm_len v).

Definition region_conflicts (start len : Z) : M Kernel bool :=
  let* p := current_process in
  retM (match p with None => true | Some p => existsb (region_hits start len) (p_vmas p) end).

(** [for vma in &mut p.vmas { if !vma.in_use { *vma = r; return true } } false]. *)
Definition vmas_alloc (r : VmRegion) (vs : list VmRegion) : option (list VmRegion) :=
  match zposition (fun v => negb (vm_in_use v)) vs with
  | Some i => Some (zset vs i r)
  | None => None
  end.

Definition alloc_vma (start len prot flags : Z) : M Kernel bool :=
  let* p := current_process_mut in
  match p with
  | None => retM false
  | Some (slot, p) =>
      match vmas_alloc (VmRegion_new start len prot flags) (p_vmas p) with
      | Some vs => set_process slot (Some (p <| p_vmas := vs |>)) ;;; retM true
      | None => retM false
      end
  end.

Definition vma_is (start len : Z) (v : VmRegion) : bool :=
  vm_in_use v && (vm_start v =? start) && (vm_len v =? len).

(** The reference to the region found: the process slot, and the index of the
    region with the region. *)
Definition find_vma_exact_mut (start len : Z) : M Kernel (option (Z * Process * Z * VmRegion)) :=
  let* p := current_process_mut in
  retM (match p with
        | None => None
        | Some (slot, p) =>
            match zposition (vma_is start len) (p_vmas p) with
            | Some i => (fun v => (slot, p, i, v)) <$> zget (p_vmas p) i
            | None => None
            end
        end).

(** [*vma = v] through the reference. *)
Definition set_vma (slot i : Z) (v : VmRegion) : M Kernel unit :=
  let* p := process_at slot in
  match p with
  | Some p => set_process slot (Some (p <| p_vmas := zset (p_vmas p) i v |>))
  | None => retM tt
  end.

Definition align_up (x : Z) : Z := (x +w 0xFFF) & not64 0xFFF.

Definition reserve_mmap_base (len : Z) : M Kernel (option Z) :=
  let* p := current_process_mut in
  match p with
  | None => retM None
  | Some (slot, p) =>
      let start := align_up (p_next_mmap_base p) in
      match checked_add64 start len with
      | None => retM None
      | Some end_ => set_process slot (Some (p <| p_next_mmap_base := end_ |>)) ;;; retM (Some start)
      end
  end.

(** ** Running the lookups *)

Definition cur_thread (k : Kernel) : option Thread := mjoin (zget (k_threads k) (k_current k)).

Definition cur_proc (k : Kernel) : option (Z * Process) :=
  match cur_thread k with
  | None => None
  | Some t => (fun p => (th_group_slot t, p)) <$> mjoin (zget (k_processes k) (th_group_slot t))
  end.

Lemma cur_thread_wf k t : kernel_wf k -> cur_thread k = Some t ->
  zget (k_threads k) (k_current k) = Some (Some t) /\ thread_wf (k_current k) t.
Proof.
  intros Hk H. unfold cur_thread in H. destruct (zget (k_threads k) (k_current k)) as [[u|]|] eqn:E; try done.
  simpl in H. injection H as ->. split; [done|]. by apply (wf_thread _ Hk).
Qed.

Lemma cur_proc_wf k s p : kernel_wf k -> cur_proc k = Some (s, p) ->
  exists t, cur_thread k = Some t /\ s = th_group_slot t /\ 0 <= s < 8 /\
    zget (k_processes k) s = Some (Some p) /\ process_wf p.
Proof.
  intros Hk H. unfold cur_proc in H. destruct (cur_thread k) as [t|] eqn:Et; [|done].
  destruct (cur_thread_wf k t Hk Et) as [_ [Hg _]].
  destruct (zget (k_processes k) (th_group_slot t)) as [[q|]|] eqn:E; try done. simpl in H. injection H as <- <-.
  exists t. split_and!; try done; try lia. by apply (wf_process _ Hk _ _ E).
Qed.

Lemma current_thread_mut_eq k : kernel_wf k ->
  current_thread_mut k = OOk ((fun t => (k_current k, t)) <$> cur_thread k) k.
Proof.
  intros Hk. destruct (wf_slot_thread k _ Hk (wf_current _ Hk)) as [o Ho].
  unfold current_thread_mut, current_task_slot, cur_thread, bindM, getM, retM. cbn beta iota.
  rewrite (thread_at_run _ _ _ Ho), Ho. by destruct o.
Qed.

Lemma current_thread_eq k : kernel_wf k -> current_thread k = OOk (cur_thread k) k.
Proof.
  intros Hk. unfold current_thread, bindM. rewrite current_thread_mut_eq by done. by destruct (cur_thread k).
Qed.

Lemma current_process_mut_eq k : kernel_wf k -> current_process_mut k = OOk (cur_proc k) k.
Proof.
  intros Hk. unfold current_process_mut, cur_proc. unfold bindM at 1. rewrite current_thread_eq by done.
  destruct (cur_thread k) as [t|] eqn:Et; [|done]. destruct (cur_thread_wf k t Hk Et) as [_ [Hg _]].
  destruct (wf_slot_process k _ Hk Hg) as [p Hp]. unfold bindM. rewrite (process_at_run _ _ _ Hp), Hp.
  by destruct p.
Qed.

Lemma current_process_eq k : kernel_wf k -> current_process k = OOk (snd <$> cur_proc k) k.
Proof. intros Hk. unfold current_process, bindM. by rewrite current_process_mut_eq by done. Qed.

Lemma wf_set_process k s p :
  kernel_wf k -> process_wf p -> kernel_wf (k <| k_processes := zset (k_processes k) s (Some p) |>).
Proof.
  intros Hk Hp. pose proof Hk as []. constructor; simpl; rewrite ?length_zset; try done. intros s' p' Ht.
  destruct (decide (s' = s)) as [->|Hne].
  - pose proof (zget_Some _ _ _ Ht) as Hb. rewrite length_zset in Hb. rewrite zget_zset_eq in Ht by done.
    by simplify_eq.
  - destruct (decide (0 <= s)); [rewrite zget_zset_ne in Ht by auto; eauto|].
    unfold zget, zset in Ht. case_match eqn:E; [|done]. breflect.
    destruct (decide (Z.to_nat s' = Z.to_nat s)) as [E'|]; [|rewrite list_lookup_insert_ne in Ht by lia;
      apply (wf_process s'); unfold zget; by rewrite (proj2 (Z.leb_le _ _)) by lia].
    rewrite E' in Ht. pose proof (lookup_lt_Some _ _ _ Ht) as Hl. rewrite length_insert in Hl.
    rewrite list_lookup_insert_eq in Ht by done. by simplify_eq.
Qed.

Lemma wf_set_thread k s t :
  kernel_wf k -> 0 <= s -> thread_wf s t -> kernel_wf (k <| k_threads := zset (k_threads k) s (Some t) |>).
Proof.
  intros Hk Hs Ht. pose proof Hk as []. constructor; simpl; rewrite ?length_zset; try done. intros s' t' Ht'.
  destruct (decide (s' = s)) as [->|Hne]; [|rewrite zget_zset_ne in Ht' by auto; eauto].
  pose proof (zget_Some _ _ _ Ht') as Hb. rewrite length_zset in Hb. rewrite zget_zset_eq in Ht' by done.
  by simplify_eq.
Qed.

Lemma wf_set_thread' k ts s t :
  kernel_wf k -> ts = zset (k_threads k) s (Some t) -> 0 <= s -> thread_wf s t -> kernel_wf (k <| k_threads := ts |>).
Proof. intros Hk ->. by apply wf_set_thread. Qed.

Lemma wf_set_process' k ps s p :
  kernel_wf k -> ps = zset (k_processes k) s (Some p) -> process_wf p -> kernel_wf (k <| k_processes := ps |>).
Proof. intros Hk ->. by apply wf_set_process. Qed.

Lemma wf_next_pid k n : kernel_wf k -> kernel_wf (k <| k_next_pid := n |>).
Proof. intros []. by constructor. Qed.

(** ** Identifiers are unique *)

Section Fresh.
Context {A : Type} (id : A -> Z).

(** Identifiers in use are positive and below the counter, and no two
    entries share one. *)
Definition table_ok (l : list (option A)) (n : Z) : Prop :=
  (forall s x, zget l s = Some (Some x) -> 0 < id x < n) /\
  (forall s1 s2 x1 x2, zget l s1 = Some (Some x1) -> zget l s2 = Some (Some x2) -> id x1 = id x2 -> s1 = s2).

Lemma table_ok_mono l n n' : table_ok l n -> n <= n' -> table_ok l n'.
Proof. intros [H1 H2] Hn. split; [|done]. intros s x Hx. specialize (H1 s x Hx). lia. Qed.

Lemma table_ok_add l n s x :
  table_ok l n -> 0 <= s < Z.of_nat (length l) -> 0 < n -> id x = n -> table_ok (zset l s (Some x)) (n + 1).
Proof.
  intros [H1 H2] Hs Hn Hx.
  assert (forall s' y, zget (zset l s (Some x)) s' = Some (Some y) ->
    s' = s /\ y = x \/ s' <> s /\ zget l s' = Some (Some y)) as Hget.
  { intros s' y Hy. destruct (decide (s' = s)) as [->|]; [left; rewrite zget_zset_eq in Hy by done; by simplify_eq|].
    right. by rewrite zget_zset_ne in Hy by (auto; lia). }
  split.
  - intros s' y [[-> ->]|[_ Hy]]%Hget; [lia|]. apply H1 in Hy. lia.
  - intros s1 s2 y1 y2 [[-> ->]|[Hn1 Hy1]]%Hget [[-> ->]|[Hn2 Hy2]]%Hget E; [done|..|by eapply H2].
    + apply H1 in Hy2. lia.
    + apply H1 in Hy1. lia.
Qed.

(** Replacing an entry by one with the same identifier. *)
Lemma table_ok_keep l n s x y :
  table_ok l n -> zget l s = Some (Some x) -> id y = id x -> table_ok (zset l s (Some y)) n.
Proof.
  intros [H1 H2] Hx Hy. pose proof (zget_Some _ _ _ Hx) as Hs.
  assert (forall s' z, zget (zset l s (Some y)) s' = Some (Some z) ->
    exists z', zget l s' = Some (Some z') /\ id z = id z') as Hget.
  { intros s' z Hz. destruct (decide (s' = s)) as [->|]; [rewrite zget_zset_eq in Hz by done; simplify_eq; eauto|].
    rewrite zget_zset_ne in Hz by (auto; lia). eauto. }
  split.
  - intros s' z (z' & Hz & ->)%Hget. eauto.
  - intros s1 s2 z1 z2 (z1' & Hz1 & ->)%Hget (z2' & Hz2 & ->)%Hget E. eauto.
Qed.

Lemma table_fresh l n : table_ok l n -> zposition (has_id id n) l = None.
Proof.
  intros [H _]. destruct (zposition (has_id id n) l) as [i|] eqn:E; [|done].
  apply zposition_Some in E as ([x|] & Hx & Hp & _); [|done]. simpl in Hp. apply H in Hx. breflect. lia.
Qed.

Lemma table_find l n s x : table_ok l n -> zget l s = Some (Some x) -> zposition (has_id id (id x)) l = Some s.
Proof.
  intros [_ H] Hx. destruct (zposition (has_id id (id x)) l) as [i|] eqn:E.
  - apply zposition_Some in E as ([y|] & Hy & Hp & _); [|done]. simpl in Hp. breflect.
    f_equal. by eapply H.
  - pose proof (zposition_None _ _ E (Some x) (zget_elem _ _ _ Hx)) as H1. simpl in H1. by rewrite Z.eqb_refl in H1.
Qed.
End Fresh.

Definition ids_ok (k : Kernel) : Prop :=
  table_ok p_pid (k_processes k) (k_next_pid k) /\ table_ok th_tid (k_threads k) (k_next_pid k) /\
  0 < k_next_pid k.

Lemma cur_proc_next_pid k n : cur_proc (k <| k_next_pid := n |>) = cur_proc k.
Proof. done. Qed.

Lemma spawn_named_run k s name : kernel_wf k -> 0 <= s < 8 ->
  spawn_named s name k = OOk (k_next_pid k)
    (k <| k_next_pid := k_next_pid k +w 1 |>
       <| k_processes := zset (k_processes k) s
            (Some (Process_new_leader (k_next_pid k) (from_option (p_pid ∘ snd) 0 (cur_proc k)) name)) |>
       <| k_threads := zset (k_threads k) s
            (Some (Thread_new_leader (k_next_pid k) (from_option (p_pid ∘ snd) 0 (cur_proc k)) s s)) |>).
Proof.
  intros Hk Hs. destruct (wf_slot_process k s Hk Hs) as [p Hp]. destruct (wf_slot_thread k s Hk Hs) as [t Ht].
  unfold spawn_named, fetch_add_pid, current_pid, bindM, getM, modifyM, retM. cbn beta iota.
  rewrite current_process_eq by by apply wf_next_pid. rewrite cur_proc_next_pid.
  rewrite set_process_run with (p := p) by exact Hp. rewrite set_thread_run with (t := t) by exact Ht.
  by destruct (cur_proc k) as [[]|].
Qed.

(** Process identifiers.  While the counter has not wrapped, spawning a
    process in a slot whose previous process and thread are gone or replaced
    gives an identifier nobody has, keeps all identifiers of processes and
    of threads pairwise distinct, makes the spawning process the parent, and
    the new process is what the lookup by identifier finds. *)
Theorem spawn_named_fresh k s name :
  kernel_wf k -> ids_ok k -> k_next_pid k + 1 < U64 -> 0 <= s < 8 ->
  exists k', spawn_named s name k = OOk (k_next_pid k) k' /\ kernel_wf k' /\ ids_ok k' /\
    find_slot_by_pid (k_next_pid k) k = None /\ find_thread_slot_by_tid (k_next_pid k) k = None /\
    find_slot_by_pid (k_next_pid k) k' = Some s /\ find_thread_slot_by_tid (k_next_pid k) k' = Some s /\
    (forall s', s' <> s -> zget (k_processes k') s' = zget (k_processes k) s') /\
    (exists p, zget (k_processes k') s = Some (Some p) /\ p_pid p = k_next_pid k /\
       p_parent_pid p = from_option (p_pid ∘ snd) 0 (cur_proc k)) /\
    k_next_pid k' = k_next_pid k + 1.
Proof.
  intros Hk (Hp & Ht & Hn) Hlt Hs. rewrite spawn_named_run by done. eexists. split; [done|].
  rewrite !(wrap64_small (k_next_pid k + 1)) by lia.
  set (p := Process_new_leader _ _ _). set (t := Thread_new_leader _ _ _ _).
  pose proof (wf_processes _ Hk) as Hlp. pose proof (wf_threads _ Hk) as Hlt'.
  assert (table_ok p_pid (zset (k_processes k) s (Some p)) (k_next_pid k + 1)) as Hp'
    by (apply table_ok_add; (done || lia)).
  assert (table_ok th_tid (zset (k_threads k) s (Some t)) (k_next_pid k + 1)) as Ht'
    by (apply table_ok_add; (done || lia)).
  split; [|split; [|split; [|split; [|split; [|split; [|split; [|split; [|done]]]]]]]].
  - eapply wf_set_thread'; [|reflexivity|lia|split; [simpl; lia|done]].
    eapply wf_set_process'; [by apply wf_next_pid|reflexivity|apply Process_new_leader_wf].
  - split; [done|]. split; [done|]. simpl. lia.
  - by apply table_fresh.
  - by apply table_fresh.
  - apply (table_find p_pid _ _ s p Hp'). apply zget_zset_eq. lia.
  - apply (table_find th_tid _ _ s t Ht'). apply zget_zset_eq. lia.
  - intros s' Hne. simpl. apply zget_zset_ne; [auto|lia].
  - exists p. split; [apply zget_zset_eq; lia|done].
Qed.

Lemma init_kernel_ids m bus : ids_ok (init_kernel m bus).
Proof.
  split_and!; [split|split|done]; simpl; intros s; intros; 
    match goal with H : zget _ _ = Some (Some _) |- _ => apply (zget_replicate (A := option _) None 8) in H; done end.
Qed.

Lemma spawn_named_fresh_witness :
  exists k', spawn_named 2 [104; 105] sample_sched = OOk 1 k' /\ find_slot_by_pid 1 k' = Some 2.
Proof.
  destruct (spawn_named_fresh sample_sched 2 [104; 105]) as (k' & H1 & _ & _ & _ & _ & H2 & _).
  - exact sample_sched_wf.
  - exact (init_kernel_ids _ _).
  - reflexivity.
  - lia.
  - exists k'. split; [exact H1|exact H2].
Defined.

(** ** Exit keeps the thread count *)

(** A live thread of the group in slot [g], and how many there are. *)
Definition live (g : Z) (o : option Thread) : bool :=
  match o with Some t => (th_group_slot t =? g) && bool_decide (th_state t = TRunning) | None => false end.

Definition group_live (k : Kernel) (g : Z) : Z := countb (live g) (k_threads k).

(** What a whole-group exit makes of a thread. *)
Definition zombify (g : Z) (o : option Thread) : option Thread :=
  match o with
  | Some t => if th_group_slot t =? g then Some (t <| th_state := TZombie |>) else Some t
  | None => None
  end.

(** ... and of its task, unless it is the one that exits. *)
Definition task_killed (g task_slot s : Z) (o : option Thread) (tk : option Task) : option Task :=
  match o with
  | Some t => if (th_group_slot t =? g) && negb (s =? task_slot) then (fun t => t <| tk_state := Dead |>) <$> tk else tk
  | None => tk
  end.

Lemma zget_ext {A} (l1 l2 : list A) : (forall i, zget l1 i = zget l2 i) -> l1 = l2.
Proof.
  intros H. apply list_eq. intros i. specialize (H (Z.of_nat i)). unfold zget in H.
  rewrite (proj2 (Z.leb_le _ _)) in H by lia. by rewrite Nat2Z.id in H.
Qed.

Lemma zget_fmap {A B} (f : A -> B) l i : zget (f <$> l) i = f <$> zget l i.
Proof. unfold zget. case_goal; [|done]. apply list_lookup_fmap. Qed.

Lemma countb_fmap {A B} (f : A -> B) (p : B -> bool) l : countb p (f <$> l) = countb (fun x => p (f x)) l.
Proof. induction l as [|x l IH]; [done|]. rewrite fmap_cons, !countb_cons. by rewrite IH. Qed.

Lemma live_zombify g o : live g (zombify g o) = false.
Proof.
  destruct o as [t|]; [|done]. simpl. destruct (th_group_slot t =? g) eqn:E; simpl; by rewrite E.
Qed.

Lemma live_zombify_other g g' o : g' <> g -> live g' (zombify g o) = live g' o.
Proof.
  intros Hne. destruct o as [t|]; [|done]. simpl. destruct (Z.eqb_spec (th_group_slot t) g) as [E|]; [|done].
  simpl. rewrite E. by rewrite (proj2 (Z.eqb_neq g g')) by auto.
Qed.

Lemma kill_task_run k s o : zget (k_tasks k) s = Some o ->
  kill_task s k = OOk tt (k <| k_tasks := zset (k_tasks k) s ((fun t => t <| tk_state := Dead |>) <$> o) |>) \/
  o = None /\ kill_task s k = OOk tt k.
Proof.
  intros H. unfold kill_task. rewrite getM_bind, H. unfold unwrap, bindM, retM.
  destruct o as [t|]; [left|by right]. by rewrite (set_task_run _ _ _ _ H).
Qed.

(** One round of the loop. *)
Lemma exit_group_thread_run k task_slot g s o tk :
  kernel_wf k -> 0 <= s < 8 -> zget (k_threads k) s = Some o -> zget (k_tasks k) s = Some tk ->
  exists k', exit_group_thread task_slot g s k = OOk tt k' /\ kernel_wf k' /\
    k_processes k' = k_processes k /\ k_current k' = k_current k /\
    (forall s', zget (k_threads k') s' = if s' =? s then Some (zombify g o) else zget (k_threads k) s') /\
    (forall s', zget (k_tasks k') s' = if s' =? s then Some (task_killed g task_slot s o tk) else zget (k_tasks k) s').
Proof.
  intros Hk Hs Ho Htk. unfold exit_group_thread. unfold bindM at 1. rewrite (thread_at_run _ _ _ Ho).
  assert (forall A (l : list A) x, zget l s = Some x -> forall s', zget l s' = if s' =? s then Some x else zget l s') as Hsame
    by (intros A l x Hx s'; by destruct (Z.eqb_spec s' s) as [->|]).
  destruct o as [t|]; [|exists k; split_and!; auto].
  unfold zombify, task_killed.
  destruct (Z.eqb_spec (th_group_slot t) g) as [Eg|]; [|exists k; split_and!; auto].
  cbn [negb andb]. unfold bindM. rewrite (set_thread_run _ _ _ _ Ho).
  pose proof (wf_thread _ Hk _ _ Ho) as Hwt. pose proof (wf_threads _ Hk) as Hl. pose proof (wf_tasks _ Hk) as Hl'.
  set (k1 := k <| k_threads := _ |>).
  assert (kernel_wf k1) as Hk1 by (apply wf_set_thread; [done|lia|done]).
  assert (forall s', zget (k_threads k1) s' = if s' =? s then Some (Some (t <| th_state := TZombie |>)) else zget (k_threads k) s') as Hth.
  { intros s'. change (k_threads k1) with (zset (k_threads k) s (Some (t <| th_state := TZombie |>))).
    destruct (Z.eqb_spec s' s) as [->|]; [apply zget_zset_eq; lia|apply zget_zset_ne; [auto|lia]]. }
  destruct (Z.eqb_spec s task_slot) as [|Hne]; cbn [negb andb].
  { exists k1. split_and!; auto. }
  destruct (kill_task_run k1 s tk Htk) as [->|[-> ->]]; [|exists k1; split_and!; auto].
  eexists. split; [done|]. split; [apply wf_set_tasks; [done|by rewrite length_zset]|].
  split; [done|]. split; [done|]. split; [exact Hth|]. intros s'.
  change (k_tasks _) with (zset (k_tasks k) s ((fun t => t <| tk_state := Dead |>) <$> tk)) at 1.
  destruct (Z.eqb_spec s' s) as [->|]; [apply zget_zset_eq; lia|apply zget_zset_ne; [auto|lia]].
Qed.

Lemma exit_group_loop k task_slot g :
  kernel_wf k ->
  exists k', forM (seqZ 0 8) (exit_group_thread task_slot g) k = OOk tt k' /\ kernel_wf k' /\
    k_processes k' = k_processes k /\ k_threads k' = zombify g <$> k_threads k /\
    (forall s o tk, zget (k_threads k) s = Some o -> zget (k_tasks k) s = Some tk ->
       zget (k_tasks k') s = Some (task_killed g task_slot s o tk)).
Proof.
  intros Hk.
  set (P := fun i k' => kernel_wf k' /\ k_processes k' = k_processes k /\ k_current k' = k_current k /\
    (forall s, zget (k_threads k') s = if s <? i then zombify g <$> zget (k_threads k) s else zget (k_threads k) s) /\
    (forall s o tk, zget (k_threads k) s = Some o -> zget (k_tasks k) s = Some tk ->
       zget (k_tasks k') s = Some (if s <? i then task_killed g task_slot s o tk else tk))).
  assert (P 0 k) as H0.
  { split_and!; try done.
    - intros s. destruct (Z.ltb_spec s 0); [|done]. unfold zget. by rewrite (proj2 (Z.leb_gt _ _)) by lia.
    - intros s o tk Ho Htk. destruct (Z.ltb_spec s 0); [|done]. apply zget_Some in Ho. lia. }
  pose proof (forM_seqZ_inv P False 0 8 (exit_group_thread task_slot g) k ltac:(lia) H0) as Hloop.
  match type of Hloop with ?A -> _ => assert A as Hstep end.
  { intros i k1 Hi (Hk1 & Hp1 & Hc1 & Ht1 & Htk1).
    destruct (wf_slot_thread k i Hk ltac:(lia)) as [o Ho]. destruct (wf_slot_task k i Hk ltac:(lia)) as [tk Htk].
    specialize (Ht1 i) as Hoi. rewrite Z.ltb_irrefl, Ho in Hoi.
    specialize (Htk1 i _ _ Ho Htk) as Hti. rewrite Z.ltb_irrefl in Hti.
    destruct (exit_group_thread_run k1 task_slot g i o tk Hk1 ltac:(lia) Hoi Hti) as (k2 & -> & Hk2 & Hp2 & Hc2 & Ht2 & Htk2).
    split_and!; [done|congruence|congruence|..].
    - intros s. rewrite Ht2, Ht1. destruct (Z.eqb_spec s i) as [->|].
      + by rewrite (proj2 (Z.ltb_lt _ _)), Ho by lia.
      + destruct (Z.ltb_spec s i), (Z.ltb_spec s (i + 1)); (done || lia).
    - intros s o' tk' Ho' Htk'. rewrite Htk2. destruct (Z.eqb_spec s i) as [->|].
      + rewrite (proj2 (Z.ltb_lt _ _)) by lia. congruence.
      + rewrite (Htk1 s o' tk' Ho' Htk'). destruct (Z.ltb_spec s i), (Z.ltb_spec s (i + 1)); (done || lia). }
  specialize (Hloop Hstep).
  destruct (forM (seqZ 0 8) (exit_group_thread task_slot g) k) as [[] k'|e k'|]; [|done..].
  destruct Hloop as (H1 & H2 & _ & H3 & H4).
  exists k'. split_and!; try done.
  - apply zget_ext. intros i. rewrite H3, zget_fmap. destruct (Z.ltb_spec i (0 + 8)); [done|].
    destruct (zget (k_threads k) i) eqn:E; [|done]. apply zget_Some in E. rewrite (wf_threads _ Hk) in E. lia.
  - intros s o tk Ho Htk. rewrite (H4 s o tk Ho Htk). pose proof (zget_Some _ _ _ Ho) as Hb.
    rewrite (wf_threads _ Hk) in Hb. by rewrite (proj2 (Z.ltb_lt _ _)) by lia.
Qed.

Lemma group_live_zombie k k' g : k_threads k' = zombify g <$> k_threads k ->
  group_live k' g = 0 /\ forall g', g' <> g -> group_live k' g' = group_live k g'.
Proof.
  intros E. unfold group_live. rewrite E, countb_fmap. split.
  - apply countb_zero. intros o _. apply live_zombify.
  - intros g' Hne. rewrite countb_fmap. apply countb_ext. intros o _. by apply live_zombify_other.
Qed.

Lemma group_live_one k s t g' :
  zget (k_threads k) s = Some (Some t) -> th_state t = TRunning ->
  countb (live g') (zset (k_threads k) s (Some (t <| th_state := TZombie |>))) =
    group_live k g' - (if g' =? th_group_slot t then 1 else 0).
Proof.
  intros H Hr. unfold group_live, zset. unfold zget in H. destruct (0 <=? s); [|done].
  rewrite (countb_insert _ _ _ _ _ H). simpl. rewrite Hr, Z.eqb_sym, andb_false_r.
  rewrite (bool_decide_eq_true_2 (TRunning = TRunning)) by done. rewrite andb_true_r. lia.
Qed.

(** The state after the current thread has become a zombie and its process is
    [q]. *)
Definition exited (k : Kernel) (t : Thread) (g : Z) (q : Process) : Kernel :=
  k <| k_threads := zset (k_threads k) (k_current k) (Some (t <| th_state := TZombie |>)) |>
    <| k_processes := zset (k_processes k) g (Some q) |>.

Section Exit.
Context (k : Kernel) (t : Thread) (g : Z) (p : Process).
Context (Hk : kernel_wf k) (Ht : cur_thread k = Some t) (Hrun : th_state t = TRunning) (Hp : cur_proc k = Some (g, p)).

Lemma exit_facts : zget (k_threads k) (k_current k) = Some (Some t) /\ thread_wf (k_current k) t /\ th_group_slot t = g /\
  zget (k_processes k) g = Some (Some p) /\ process_wf p.
Proof.
  destruct (cur_thread_wf k t Hk Ht) as [Hgt Hwt]. destruct (cur_proc_wf k g p Hk Hp) as (t' & Ht' & -> & Hg & Hgp & Hwp).
  rewrite Ht in Ht'. by injection Ht' as <-.
Qed.

Lemma exited_wf q : process_wf q -> kernel_wf (exited k t g q).
Proof.
  intros Hq. destruct exit_facts as (Hgt & Hwt & Hg & Hgp & _). pose proof (wf_current _ Hk).
  eapply wf_set_process'; [|reflexivity|done]. apply wf_set_thread; [done|lia|done].
Qed.

Lemma exited_process q g' :
  zget (k_processes (exited k t g q)) g' = if g' =? g then Some (Some q) else zget (k_processes k) g'.
Proof.
  destruct exit_facts as (_ & _ & _ & Hgp & _). apply zget_Some in Hgp. cbn.
  destruct (Z.eqb_spec g' g) as [->|]; [apply zget_zset_eq; lia|apply zget_zset_ne; [auto|lia]].
Qed.

Lemma exited_live q g' : group_live (exited k t g q) g' = group_live k g' - (if g' =? g then 1 else 0).
Proof. destruct exit_facts as (Hgt & _ & Hg & _). rewrite <- Hg. exact (group_live_one k _ t g' Hgt Hrun). Qed.

(** What a thread that exits alone makes of its process. *)
Definition left_alone (code : Z) : Process :=
  if p_thread_count p - 1 =? 0
  then p <| p_thread_count := p_thread_count p - 1 |> <| p_state := PZombie |> <| p_exit_code := code |>
  else p <| p_thread_count := p_thread_count p - 1 |>.

Lemma exit_thread_alone code : 0 < p_thread_count p ->
  exit_thread code false k = OOk (p_thread_count p - 1 =? 0) (exited k t g (left_alone code)).
Proof.
  intros Hpos. destruct exit_facts as (Hgt & Hwt & Hg & Hgp & Hwp). unfold exit_thread.
  rewrite (bind_ok _ _ _ _ _ (current_thread_mut_eq k Hk)), Ht. cbn [fmap option_fmap option_map].
  rewrite (bind_ok _ _ _ _ _ (set_thread_run _ _ _ _ Hgt)). rewrite Hg.
  set (k1 := k <| k_threads := _ |>). rewrite (bind_ok _ _ _ _ _ (process_at_run k1 g (Some p) Hgp)).
  rewrite (proj2 (Z.ltb_lt _ _)) by done. unfold left_alone.
  destruct (p_thread_count p - 1 =? 0); by rewrite (bind_ok _ _ _ _ _ (set_process_run k1 g _ _ Hgp)).
Qed.

Lemma exit_thread_whole code :
  let q := p <| p_state := PZombie |> <| p_exit_code := code |> <| p_thread_count := 0 |> in
  exists k', exit_thread code true k = OOk true k' /\ kernel_wf k' /\ k_processes k' = k_processes (exited k t g q) /\
    k_threads k' = zombify g <$> k_threads (exited k t g q) /\
    (forall s o tk, zget (k_threads (exited k t g q)) s = Some o -> zget (k_tasks k) s = Some tk ->
       zget (k_tasks k') s = Some (task_killed g (k_current k) s o tk)).
Proof.
  intros q. destruct exit_facts as (Hgt & Hwt & Hg & Hgp & Hwp). unfold exit_thread.
  rewrite (bind_ok _ _ _ _ _ (current_thread_mut_eq k Hk)), Ht. cbn [fmap option_fmap option_map].
  rewrite (bind_ok _ _ _ _ _ (set_thread_run _ _ _ _ Hgt)). rewrite Hg.
  set (k1 := k <| k_threads := _ |>). rewrite (bind_ok _ _ _ _ _ (process_at_run k1 g (Some p) Hgp)).
  rewrite (bind_ok _ _ _ _ _ (set_process_run k1 g _ _ Hgp)). destruct Hwt as [_ ->].
  destruct (exit_group_loop (exited k t g q) (k_current k) g (exited_wf q Hwp)) as (k3 & Hloop & Hk3 & Hp3 & Ht3 & Htk3).
  exists k3. split; [by rewrite (bind_ok _ _ _ _ _ Hloop)|done].
Qed.
End Exit.

(** C34: Exit keeps the books.  If the process's thread count is the number
    of live threads of its group, then after a thread exits (alone or with its
    whole group) it still is; the call reports the group dead exactly when no
    live thread is left, and then (and only then) the process is a zombie
    with the exit code of the call; a whole-group exit leaves none and marks
    the tasks of all other threads of the group dead; no other process and no
    other group's count changes. *)
Theorem exit_thread_accounting code whole k t g p :
  kernel_wf k -> cur_thread k = Some t -> th_state t = TRunning -> cur_proc k = Some (g, p) ->
  p_thread_count p = group_live k g ->
  exists dead k' p', exit_thread code whole k = OOk dead k' /\ kernel_wf k' /\
    zget (k_processes k') g = Some (Some p') /\ p_thread_count p' = group_live k' g /\
    dead = (group_live k' g =? 0) /\ (whole = true -> dead = true) /\
    (if dead then p_state p' = PZombie /\ p_exit_code p' = code
     else p' = p <| p_thread_count := p_thread_count p - 1 |>) /\
    (forall g', g' <> g -> group_live k' g' = group_live k g' /\ zget (k_processes k') g' = zget (k_processes k) g') /\
    (whole = true -> forall s u tk, s <> k_current k -> zget (k_threads k) s = Some (Some u) ->
       th_group_slot u = g -> zget (k_tasks k) s = Some (Some tk) ->
       zget (k_tasks k') s = Some (Some (tk <| tk_state := Dead |>))).
Proof.
  intros Hk Ht Hrun Hp Hcount. destruct (exit_facts k t g p Hk Ht Hp) as (Hgt & Hwt & Hg & Hgp & Hwp).
  pose proof (exited_live k t g p Hk Ht Hrun Hp) as Hlive. pose proof (exited_process k t g p Hk Ht Hp) as Hget.
  assert (forall q, 0 <= group_live (exited k t g q) g) as Hnn by (intros; apply countb_nonneg).
  pose proof (Hlive p g) as Hlg. rewrite Z.eqb_refl in Hlg. specialize (Hnn p). destruct whole.
  - destruct (exit_thread_whole k t g p Hk Ht Hp code) as (k' & Hx & Hk' & Hp' & Ht' & Htk').
    set (q := p <| p_state := _ |> <| p_exit_code := _ |> <| p_thread_count := _ |>) in *.
    destruct (group_live_zombie _ k' g Ht') as [Hz Hzo]. exists true, k', q. rewrite Hp', Hz.
    split_and!; [done|done|by rewrite Hget, Z.eqb_refl|done..| |].
    + intros g' Hne. rewrite Hzo, Hlive, Hget, (proj2 (Z.eqb_neq _ _)) by done. split; [lia|done].
    + intros _ s u tk Hne Hu Hug Htk. rewrite (Htk' s (Some u) (Some tk));
        [|cbn; pose proof (wf_current _ Hk); by rewrite zget_zset_ne by (auto; lia)|done].
      simpl. rewrite Hug, Z.eqb_refl. by rewrite (proj2 (Z.eqb_neq _ _)).
  - exists (p_thread_count p - 1 =? 0), (exited k t g (left_alone p code)), (left_alone p code).
    rewrite (exit_thread_alone k t g p Hk Ht Hp code) by lia. rewrite Hlive, Hget, Z.eqb_refl, <- Hcount.
    unfold left_alone. split_and!; [done|by apply (exited_wf k t g p Hk Ht Hp); case_goal|done|by case_goal|done|done|by case_goal| |done].
    intros g' Hne. rewrite Hlive, Hget, (proj2 (Z.eqb_neq _ _)) by done. split; [lia|done].
Qed.

(** A kernel whose task 0 is the only thread of process 1. *)
Definition sample_proc : Kernel :=
  sample_sched
    <| k_next_pid := 2 |>
    <| k_processes := zset (replicate 8 None) 0 (Some (Process_new_leader 1 0 [105])) |>
    <| k_threads := zset (replicate 8 None) 0 (Some (Thread_new_leader 1 0 0 0)) |>.

Lemma sample_proc_wf : kernel_wf sample_proc.
Proof.
  eapply (wf_set_thread' _ _ 0); [|reflexivity|lia|split; [simpl; lia|done]].
  eapply (wf_set_process' _ _ 0); [|reflexivity|apply Process_new_leader_wf].
  apply wf_next_pid, sample_sched_wf.
Qed.

Lemma exit_thread_accounting_witness :
  exists k' p', exit_thread 42 false sample_proc = OOk true k' /\
    zget (k_processes k') 0 = Some (Some p') /\ p_state p' = PZombie /\ p_exit_code p' = 42.
Proof.
  destruct (exit_thread_accounting 42 false sample_proc (Thread_new_leader 1 0 0 0) 0
    (Process_new_leader 1 0 [105]) sample_proc_wf eq_refl eq_refl eq_refl eq_refl)
    as (dead & k' & p' & H1 & _ & H2 & _ & H3 & _ & H4 & _).
  assert (dead = true) as ->.
  { assert (exists k1, exit_thread 42 false sample_proc = OOk true k1) as [k1 E] by (eexists; vm_compute; reflexivity).
    rewrite E in H1. by injection H1. }
  exists k', p'. split; [exact H1|]. split; [exact H2|exact H4].
Defined.
