(* ===== verification/Fd.v ===== *)
(** * File descriptors ([proc/fd.rs], [proc/fd_open.rs], [proc/fd_pipe.rs], [proc/fd_io.rs])

    The descriptor table of a process points into the tables of open files
    and of pipes, which count their references.  Blocking reads wait for
    interrupts: [Irq] is an interrupt taken while the kernel waits, and a
    read that has not returned when its rounds of waiting are used up is
    [Blocked]. *)

From S2P Require Import Prelude Mem Update Result Pmm Paging RamFs Ring Tty Types Vga State Task Proc.

(** ** Open files ([fd_open.rs]) *)

Module FdOpen.

Definition set_file (i : Z) (f : OpenFile) : M Kernel unit :=
  modifyM (fun k => k <| k_open_files := zset (k_open_files k) i f |>).

(** The entry at an index that is checked against the table's size and
    tested for use: [open_idx >= MAX_OPEN_FILES || !files[open_idx].in_use]. *)
Definition used (k : Kernel) (open_idx : Z) : option OpenFile :=
  if open_idx <? MAX_OPEN_FILES then
    match zget (k_open_files k) open_idx with
    | Some f => if of_in_use f then Some f else None
    | None => None
    end
  else None.

Definition alloc (file_idx status_flags : Z) : M Kernel (option Z) :=
  let* k := getM in
  match zposition (fun f => negb (of_in_use f)) (k_open_files k) with
  | Some i => set_file i (OpenFile_new file_idx status_flags) ;;; retM (Some i)
  | None => retM None
  end.

Definition retain (open_idx : Z) : M Kernel bool :=
  let* k := getM in
  match used k open_idx with
  | None => retM false
  | Some f => set_file open_idx (f <| of_refs := of_refs f +w 1 |>) ;;; retM true
  end.

Definition release (open_idx : Z) : M Kernel unit :=
  let* k := getM in
  match used k open_idx with
  | None => retM tt
  | Some f =>
      if 1 <? of_refs f then set_file open_idx (f <| of_refs := of_refs f - 1 |>)
      else set_file open_idx OpenFile_empty
  end.

Definition descriptor_info (open_idx : Z) : M Kernel (option DescriptorInfo) :=
  let* k := getM in
  retM (match used k open_idx with
        | None => None
        | Some f => Some (DFile (of_file_idx f) (fs_file_size (of_file_idx f) (k_fs k)))
        end).

(** [with_mut(open_idx, f)]: [f] computes a result and the new entry. *)
Definition with_mut {R} (open_idx : Z) (f : OpenFile -> M Kernel (R * OpenFile)) : M Kernel (option R) :=
  let* k := getM in
  match used k open_idx with
  | None => retM None
  | Some file => let* rf := f file in set_file open_idx (snd rf) ;;; retM (Some (fst rf))
  end.

Definition status_flags (open_idx : Z) : M Kernel (option Z) :=
  let* k := getM in retM (of_status_flags <$> used k open_idx).

Definition set_status_flags (open_idx flags : Z) : M Kernel bool :=
  let* k := getM in
  match used k open_idx with
  | None => retM false
  | Some f => set_file open_idx (f <| of_status_flags := flags |>) ;;; retM true
  end.

End FdOpen.

(** [get_fd_target] of [fd.rs]. *)
Definition get_fd_target (fd : Z) : M Kernel (option FdTarget) :=
  let* p := current_process in
  match p with
  | None => retM None
  | Some p =>
      if MAX_FDS <=? fd then retM None
      else
        let* t := unwrap (zget (p_fds p) fd) in
        retM (match t with Empty => None | t => Some t end)
  end.

(** ** Interrupts taken while waiting *)

Inductive Irq :=
| TimerIrq                 (* the PIT *)
| KeyIrq (byte : Z).       (* a key press that decodes to a character *)

(** With [IN_SYSCALL] set the timer never switches. *)
Definition take_irq (i : Irq) : M Kernel unit :=
  match i with
  | TimerIrq => pit_handler ;;; retM tt
  | KeyIrq byte =>
      modifyM (fun k => let '(echo, t) := input_char byte (k_tty k) in
                        write_bytes echo (k <| k_tty := t |>))
  end.

Definition wait_for_event (irqs : list Irq) : M Kernel unit := forM irqs take_irq.

(** The outcome of an operation that may wait. *)
Inductive Wait (A : Type) := Blocked | Done (a : A).
Arguments Blocked {A}.
Arguments Done {A} a.

(** ** Pipes ([fd_pipe.rs]) *)

Module FdPipe.

Definition set_pipe (i : Z) (p : Pipe) : M Kernel unit :=
  modifyM (fun k => k <| k_pipes := zset (k_pipes k) i p |>).

Definition used (k : Kernel) (pipe_idx : Z) : option Pipe :=
  if pipe_idx <? MAX_PIPES then
    match zget (k_pipes k) pipe_idx with
    | Some p => if pp_in_use p then Some p else None
    | None => None
    end
  else None.

Definition retain_read (pipe_idx : Z) : M Kernel bool :=
  let* k := getM in
  match used k pipe_idx with
  | None => retM false
  | Some p => set_pipe pipe_idx (p <| pp_read_refs := pp_read_refs p +w 1 |>) ;;; retM true
  end.

Definition retain_write (pipe_idx : Z) : M Kernel bool :=
  let* k := getM in
  match used k pipe_idx with
  | None => retM false
  | Some p => set_pipe pipe_idx (p <| pp_write_refs := pp_write_refs p +w 1 |>) ;;; retM true
  end.

(** [if pipe.read_refs == 0 && pipe.write_refs == 0 { *pipe = Pipe::empty() }]. *)
Definition reclaim (p : Pipe) : Pipe :=
  if (pp_read_refs p =? 0) && (pp_write_refs p =? 0) then Pipe_empty else p.

Definition release_read (pipe_idx : Z) : M Kernel unit :=
  let* k := getM in
  match used k pipe_idx with
  | None => retM tt
  | Some p =>
      let p := if 0 <? pp_read_refs p then p <| pp_read_refs := pp_read_refs p - 1 |> else p in
      set_pipe pipe_idx (reclaim p)
  end.

Definition release_write (pipe_idx : Z) : M Kernel unit :=
  let* k := getM in
  match used k pipe_idx with
  | None => retM tt
  | Some p =>
      let p := if 0 <? pp_write_refs p then p <| pp_write_refs := pp_write_refs p - 1 |> else p in
      set_pipe pipe_idx (reclaim p)
  end.

(** [get_mut]: the index stands for the reference; the flag is [is_read_end]. *)
Definition get_mut (fd : Z) : M Kernel (option (Z * Pipe * bool)) :=
  let* t := get_fd_target fd in
  let* k := getM in
  retM (match t with
        | Some (PipeRead i) => (fun p => (i, p, true)) <$> used k i
        | Some (PipeWrite i) => (fun p => (i, p, false)) <$> used k i
        | _ => None
        end).

Definition peer_closed (fd : Z) : M Kernel (option bool) :=
  let* t := get_fd_target fd in
  let* k := getM in
  retM (match t with
        | Some (PipeRead i) => (fun p => pp_write_refs p =? 0) <$> used k i
        | Some (PipeWrite i) => (fun p => pp_read_refs p =? 0) <$> used k i
        | _ => None
        end).

Definition status_flags (fd : Z) : M Kernel (option Z) :=
  let* t := get_fd_target fd in
  let* k := getM in
  retM (match t with
        | Some (PipeRead i) => pp_read_flags <$> used k i
        | Some (PipeWrite i) => pp_write_flags <$> used k i
        | _ => None
        end).

Definition set_status_flags (fd flags : Z) : M Kernel bool :=
  let* t := get_fd_target fd in
  let* k := getM in
  match t with
  | Some (PipeRead i) =>
      match used k i with
      | Some p => set_pipe i (p <| pp_read_flags := flags |>) ;;; retM true
      | None => retM false
      end
  | Some (PipeWrite i) =>
      match used k i with
      | Some p => set_pipe i (p <| pp_write_flags := flags |>) ;;; retM true
      | None => retM false
      end
  | _ => retM false
  end.

(** The loop of [write]: how many of the bytes were taken. *)
Fixpoint write_loop (bytes : list Z) (written : Z) : M Pipe Z :=
  match bytes with
  | [] => retM written
  | b :: bytes =>
      let* p := getM in
      if pp_len p <? PIPE_CAPACITY then
        let* _ := unwrap (zget (pp_buf p) (pp_write_pos p)) in
        putM (p <| pp_buf := zset (pp_buf p) (pp_write_pos p) b |>
                <| pp_write_pos := (pp_write_pos p + 1) mod PIPE_CAPACITY |>
                <| pp_len := pp_len p + 1 |>) ;;;
        write_loop bytes (written + 1)
      else retM written
  end.

(** The loop of [read]: the bytes copied out. *)
Fixpoint read_loop (count : nat) : M Pipe (list Z) :=
  match count with
  | O => retM []
  | S n =>
      let* p := getM in
      if 0 <? pp_len p then
        let* b := unwrap (zget (pp_buf p) (pp_read_pos p)) in
        putM (p <| pp_read_pos := (pp_read_pos p + 1) mod PIPE_CAPACITY |>
                <| pp_len := pp_len p - 1 |>) ;;;
        let* l := read_loop n in
        retM (b :: l)
      else retM []
  end.

(** A computation on the pipe at an index. *)
Definition on_pipe {A} (i : Z) (p : Pipe) (m : M Pipe A) : M Kernel A := fun k =>
  match m p with
  | OOk a p' => OOk a (k <| k_pipes := zset (k_pipes k) i p' |>)
  | OErr e p' => OErr e (k <| k_pipes := zset (k_pipes k) i p' |>)
  | OPanic => OPanic
  end.

(** The bytes at [buf..buf + len] are the argument of the writes. *)
Definition write (fd : Z) (bytes : list Z) : M Kernel (option Z) :=
  let* g := get_mut fd in
  match g with
  | None => retM None
  | Some (i, pipe, is_read_end) =>
      if is_read_end then retM None
      else if pp_read_refs pipe =? 0 then retM (Some 0)
      else
        let* written := on_pipe i pipe (write_loop bytes 0) in
        retM (Some written)
  end.

(** [irqs n] are the interrupts taken in the wait with [n] waits to go. *)
Fixpoint read (fuel : nat) (irqs : nat -> list Irq) (fd buf count : Z) : M Kernel (Wait (option Z)) :=
  let* closed := peer_closed fd in
  match closed with
  | None => retM (Done None)
  | Some closed =>
      let* g := get_mut fd in
      match g with
      | None => retM (Done None)
      | Some (i, pipe, is_read_end) =>
          if negb is_read_end then retM (Done None)
          else if 0 <? pp_len pipe then
            let* bytes := on_pipe i pipe (read_loop (Z.to_nat count)) in
            modifyM (fun k => k <| k_umem := store_bytes (k_umem k) buf bytes |>) ;;;
            retM (Done (Some (Z.of_nat (length bytes))))
          else if closed then retM (Done (Some 0))
          else
            match fuel with
            | O => retM Blocked
            | S f => wait_for_event (irqs f) ;;; read f irqs fd buf count
            end
      end
  end.

Definition alloc : M Kernel (option Z) :=
  let* k := getM in
  match zposition (fun p => negb (pp_in_use p)) (k_pipes k) with
  | Some i => set_pipe i Pipe_new ;;; retM (Some i)
  | None => retM None
  end.

Definition clear (pipe_idx : Z) : M Kernel unit :=
  if pipe_idx <? MAX_PIPES then set_pipe pipe_idx Pipe_empty else retM tt.

End FdPipe.

(** ** Descriptors ([fd.rs]) *)

Definition retain_fd_target (target : FdTarget) : M Kernel bool :=
  match target with
  | Empty => retM false
  | Stdio _ | TtyDev | Null | Zero => retM true
  | Open i => FdOpen.retain i
  | PipeRead i => FdPipe.retain_read i
  | PipeWrite i => FdPipe.retain_write i
  end.

Definition release_fd_target (target : FdTarget) : M Kernel unit :=
  match target with
  | Open i => FdOpen.release i
  | PipeRead i => FdPipe.release_read i
  | PipeWrite i => FdPipe.release_write i
  | _ => retM tt
  end.

Definition release_fds (fds : list FdTarget) : M Kernel unit := forM fds release_fd_target.

(** The loop of [fork_current] over the parent's descriptors. *)
Definition fork_retain (target : FdTarget) : M Kernel unit :=
  let* k := getM in
  match target with
  | Open i =>
      match FdOpen.used k i with
      | Some f => FdOpen.set_file i (f <| of_refs := of_refs f +w 1 |>)
      | None => retM tt
      end
  | PipeRead i =>
      match FdPipe.used k i with
      | Some p => FdPipe.set_pipe i (p <| pp_read_refs := pp_read_refs p +w 1 |>)
      | None => retM tt
      end
  | PipeWrite i =>
      match FdPipe.used k i with
      | Some p => FdPipe.set_pipe i (p <| pp_write_refs := pp_write_refs p +w 1 |>)
      | None => retM tt
      end
  | _ => retM tt
  end.

Definition fork_current (task_slot : Z) : M Kernel Z :=
  let* pid := fetch_add_pid in
  let* parent := current_process in
  let* parent := unwrap parent in
  let* parent_thread := current_thread in
  let* parent_thread := unwrap parent_thread in
  forM (p_fds parent) fork_retain ;;;
  set_process task_slot (Some (Process_fork_from parent pid)) ;;;
  set_thread task_slot (Some (Thread_new_group_member pid (th_tid parent_thread) task_slot task_slot 0
                                (th_fs_base parent_thread) (th_sig_mask parent_thread))) ;;;
  retM pid.

Definition reap_slot (slot : Z) : M Kernel (option Z) :=
  let* p := process_at slot in
  match p with
  | Some p =>
      if bool_decide (p_state p = PZombie) then
        release_fds (p_fds p) ;;;
        set_process slot None ;;;
        set_thread slot None ;;;
        retM (Some (p_exit_code p))
      else retM None
  | None => retM None
  end.

(** [for fd in 3..MAX_FDS { if matches!(p.fds[fd], Empty) { .. return } }]. *)
Definition free_fd (fds : list FdTarget) (from : Z) : option Z :=
  List.find (fun fd => match zget fds fd with Some Empty => true | _ => false end) (seqZ from (MAX_FDS - from)).

Definition set_fd (slot : Z) (p : Process) (fd : Z) (t : FdTarget) (flags : Z) : M Kernel unit :=
  set_process slot (Some (p <| p_fds := zset (p_fds p) fd t |> <| p_fd_flags := zset (p_fd_flags p) fd flags |>)).

Definition alloc_fd_with_flags (file_idx status_flags : Z) : M Kernel (option Z) :=
  let* o := FdOpen.alloc file_idx status_flags in
  match o with
  | None => retM None
  | Some open_idx =>
      let* p := current_process_mut in
      match p with
      | None => retM None
      | Some (slot, p) =>
          match free_fd (p_fds p) 3 with
          | Some fd => set_fd slot p fd (Open open_idx) 0 ;;; retM (Some fd)
          | None => release_fd_target (Open open_idx) ;;; retM None
          end
      end
  end.

(** A negative result is [None]. *)
Definition open_file (file_idx status_flags : Z) : M Kernel (option Z) := alloc_fd_with_flags file_idx status_flags.

Definition descriptor_info (fd : Z) : M Kernel (option DescriptorInfo) :=
  let* t := get_fd_target fd in
  match t with
  | Some (Stdio i) => retM (Some (DStdio i))
  | Some TtyDev | Some Null | Some Zero => retM (Some DCharDevice)
  | Some (Open i) => FdOpen.descriptor_info i
  | Some (PipeRead _) | Some (PipeWrite _) => retM (Some DPipe)
  | _ => retM None
  end.

Definition with_fd_mut {R} (fd : Z) (f : OpenFile -> M Kernel (R * OpenFile)) : M Kernel (option R) :=
  let* t := get_fd_target fd in
  match t with
  | Some (Open i) => FdOpen.with_mut i f
  | _ => retM None
  end.

Definition close_fd (fd : Z) : M Kernel bool :=
  let* p := current_process_mut in
  match p with
  | None => retM false
  | Some (slot, p) =>
      if MAX_FDS <=? fd then retM false
      else
        let* target := unwrap (zget (p_fds p) fd) in
        if is_empty_target target then retM false
        else
          set_fd slot p fd Empty 0 ;;;
          release_fd_target target ;;;
          retM true
  end.

Definition close_descriptor (fd : Z) : M Kernel bool := close_fd fd.

(** [p.fds[dest_fd] = target] on the process in [slot]. *)
Definition put_fd_target (slot fd : Z) (t : FdTarget) : M Kernel unit :=
  let* p := process_at slot in
  match p with
  | Some p => set_process slot (Some (p <| p_fds := zset (p_fds p) fd t |>))
  | None => retM tt
  end.

Definition put_fd_flags (slot fd flags : Z) : M Kernel unit :=
  let* p := process_at slot in
  match p with
  | Some p => set_process slot (Some (p <| p_fd_flags := zset (p_fd_flags p) fd flags |>))
  | None => retM tt
  end.

(** The end of [dup_fd], once the destination is known. *)
Definition dup_to (slot : Z) (p : Process) (target : FdTarget) (dest_fd : Z) (cloexec : bool) : M Kernel (option Z) :=
  let* old_target := unwrap (zget (p_fds p) dest_fd) in
  (if negb (is_empty_target old_target) then
     put_fd_target slot dest_fd Empty ;;;
     release_fd_target old_target
   else retM tt) ;;;
  let* ok := retain_fd_target target in
  if negb ok then retM None
  else
    put_fd_target slot dest_fd target ;;;
    put_fd_flags slot dest_fd (if cloexec then FD_CLOEXEC else 0) ;;;
    retM (Some dest_fd).

Definition dup_fd (old_fd min_fd : Z) (new_fd : option Z) (cloexec : bool) : M Kernel (option Z) :=
  let* p := current_process_mut in
  match p with
  | None => retM None
  | Some (slot, p) =>
      if MAX_FDS <=? old_fd then retM None
      else
        let* target := unwrap (zget (p_fds p) old_fd) in
        if is_empty_target target then retM None
        else
          match new_fd with
          | Some fd =>
              if MAX_FDS <=? fd then retM None
              else if fd =? old_fd then retM (Some fd)
              else dup_to slot p target fd cloexec
          | None =>
              match free_fd (p_fds p) min_fd with
              | Some fd => dup_to slot p target fd cloexec
              | None => retM None
              end
          end
  end.

Definition dup_min (old_fd min_fd : Z) (cloexec : bool) : M Kernel (option Z) := dup_fd old_fd min_fd None cloexec.
Definition dup_exact (old_fd new_fd : Z) (cloexec : bool) : M Kernel (option Z) := dup_fd old_fd 0 (Some new_fd) cloexec.

Definition get_fd_flags (fd : Z) : M Kernel (option Z) :=
  let* p := current_process in
  match p with
  | None => retM None
  | Some p =>
      if MAX_FDS <=? fd then retM None
      else
        let* t := unwrap (zget (p_fds p) fd) in
        if is_empty_target t then retM None
        else let* f := unwrap (zget (p_fd_flags p) fd) in retM (Some f)
  end.

Definition set_fd_flags (fd flags : Z) : M Kernel bool :=
  let* p := current_process_mut in
  match p with
  | None => retM false
  | Some (slot, p) =>
      if MAX_FDS <=? fd then retM false
      else
        let* t := unwrap (zget (p_fds p) fd) in
        if is_empty_target t then retM false
        else put_fd_flags slot fd flags ;;; retM true
  end.

Definition set_cloexec (fd : Z) (cloexec : bool) : M Kernel bool :=
  set_fd_flags fd (if cloexec then FD_CLOEXEC else 0).

Definition get_status_flags (fd : Z) : M Kernel (option Z) :=
  let* t := get_fd_target fd in
  match t with
  | Some (Stdio _) | Some TtyDev | Some Null | Some Zero => retM (Some 0)
  | Some (Open i) => FdOpen.status_flags i
  | Some (PipeRead _) | Some (PipeWrite _) => FdPipe.status_flags fd
  | _ => retM None
  end.

Definition set_status_flags (fd flags : Z) : M Kernel bool :=
  let* t := get_fd_target fd in
  match t with
  | Some (Stdio _) | Some TtyDev | Some Null | Some Zero => retM true
  | Some (Open i) => FdOpen.set_status_flags i flags
  | Some (PipeRead _) | Some (PipeWrite _) => FdPipe.set_status_flags fd flags
  | _ => retM false
  end.

Definition file_size (fd : Z) : M Kernel (option Z) :=
  let* d := descriptor_info fd in
  retM (match d with Some (DFile _ size) => Some size | _ => None end).

Definition is_stdin (fd : Z) : M Kernel bool :=
  let* d := descriptor_info fd in
  retM (match d with Some (DStdio i) => i =? 0 | _ => false end).

Definition is_stdout_or_stderr (fd : Z) : M Kernel bool :=
  let* d := descriptor_info fd in
  retM (match d with Some (DStdio i) => (i =? 1) || (i =? 2) | _ => false end).

(** [offset] is an [i64], [whence] a [u64]. *)
Definition seek (fd offset whence : Z) : M Kernel (option Z) :=
  let* r := with_fd_mut fd (fun file =>
    let* k := getM in
    let file_size := as_i64 (fs_file_size (of_file_idx file) (k_fs k)) in
    let cur := as_i64 (of_offset file) in
    let new_off :=
      if whence =? 0 then Some offset
      else if whence =? 1 then Some (sat_addi64 cur offset)
      else if whence =? 2 then Some (sat_addi64 file_size offset)
      else None in
    match new_off with
    | None => retM (None, file)
    | Some new_off =>
        if new_off <? 0 then retM (None, file)
        else retM (Some new_off, file <| of_offset := new_off |>)
    end) in
  retM (mjoin r).

Definition read_file (fd buf count : Z) : M Kernel (option Z) :=
  let* r := with_fd_mut fd (fun file =>
    if (of_status_flags file & O_ACCMODE) =? O_WRONLY then retM (None, file)
    else
      let* k := getM in
      let '(n, m) := fs_read (of_file_idx file) (of_offset file) buf count (k_fs k) (k_umem k) in
      modifyM (fun k => k <| k_umem := m |>) ;;;
      retM (Some n, file <| of_offset := of_offset file +w n |>)) in
  retM (mjoin r).

Definition write_file (fd : Z) (bytes : list Z) : M Kernel (option Z) :=
  let len := Z.of_nat (length bytes) in
  let* r := with_fd_mut fd (fun file =>
    let mode := of_status_flags file & O_ACCMODE in
    if negb ((mode =? O_WRONLY) || (mode =? O_RDWR)) then retM (None, file)
    else
      let* k := getM in
      let offset := if has_bits (of_status_flags file) O_APPEND then fs_file_size (of_file_idx file) (k_fs k)
                    else of_offset file in
      let* ok := on_fs (fs_write_at (of_file_idx file) offset bytes) in
      if negb ok then retM (None, file)
      else retM (Some len, file <| of_offset := offset +w len |>)) in
  retM (mjoin r).

Definition write_pipe (fd : Z) (bytes : list Z) : M Kernel (option Z) := FdPipe.write fd bytes.
Definition read_pipe (fuel : nat) (irqs : nat -> list Irq) (fd buf count : Z) : M Kernel (Wait (option Z)) :=
  FdPipe.read fuel irqs fd buf count.

Definition alloc_specific_fd (target : FdTarget) (fd_flags : Z) : M Kernel (option Z) :=
  let* p := current_process_mut in
  match p with
  | None => retM None
  | Some (slot, p) =>
      match free_fd (p_fds p) 3 with
      | Some fd => set_fd slot p fd target fd_flags ;;; retM (Some fd)
      | None => retM None
      end
  end.

Definition alloc_pipe : M Kernel (option (Z * Z)) :=
  let* o := FdPipe.alloc in
  match o with
  | None => retM None
  | Some pipe_idx =>
      let* r := alloc_specific_fd (PipeRead pipe_idx) 0 in
      match r with
      | None => FdPipe.clear pipe_idx ;;; retM None
      | Some read_fd =>
          let* w := alloc_specific_fd (PipeWrite pipe_idx) 0 in
          match w with
          | None => close_fd read_fd ;;; FdPipe.clear pipe_idx ;;; retM None
          | Some write_fd => retM (Some (read_fd, write_fd))
          end
      end
  end.

Definition create_pipe_pair : M Kernel (option (Z * Z)) := alloc_pipe.

Definition open_char_device (target : FdTarget) : M Kernel (option Z) :=
  match target with
  | TtyDev | Null | Zero => alloc_specific_fd target 0
  | _ => retM None
  end.

(** ** Reading and writing a descriptor ([fd_io.rs]) *)

(** [TTY0.write]: the console receives the bytes. *)
Definition tty_write (bytes : list Z) : M Kernel Z :=
  modifyM (write_bytes bytes) ;;; retM (Z.of_nat (length bytes)).

(** [TTY0.read]. *)
Fixpoint tty_read (fuel : nat) (irqs : nat -> list Irq) (buf count : Z) : M Kernel (Wait Z) :=
  if count =? 0 then retM (Done 0)
  else
    let* k := getM in
    let '(bytes, t) := read_round (Z.to_nat count) (k_tty k) in
    modifyM (fun k => k <| k_tty := t |> <| k_umem := store_bytes (k_umem k) buf bytes |>) ;;;
    match bytes with
    | [] => match fuel with
            | O => retM Blocked
            | S f => wait_for_event (irqs f) ;;; tty_read f irqs buf count
            end
    | _ => retM (Done (Z.of_nat (length bytes)))
    end.

Definition write_char_device (target : FdTarget) (bytes : list Z) : M Kernel Z :=
  match target with
  | TtyDev => tty_write bytes
  | Null | Zero => retM (Z.of_nat (length bytes))
  | _ => retM 0
  end.

Definition read_char_device (fuel : nat) (irqs : nat -> list Irq) (target : FdTarget) (buf count : Z) : M Kernel (Wait Z) :=
  match target with
  | TtyDev => tty_read fuel irqs buf count
  | Null => retM (Done 0)
  | Zero => modifyM (fun k => k <| k_umem := fill (k_umem k) buf 0 count |>) ;;; retM (Done count)
  | _ => retM (Done 0)
  end.

Definition is_char_device (t : FdTarget) : bool :=
  match t with TtyDev | Null | Zero => true | _ => false end.

Definition write_to_fd (fd : Z) (bytes : list Z) : M Kernel (option Z) :=
  let* out := is_stdout_or_stderr fd in
  if out then let* n := tty_write bytes in retM (Some n)
  else
    let* t := get_fd_target fd in
    let dev := match t with Some t => if is_char_device t then Some t else None | None => None end in
    match dev with
    | Some t => let* n := write_char_device t bytes in retM (Some n)
    | None =>
        let* w := write_file fd bytes in
        match w with
        | Some written => retM (Some written)
        | None => write_pipe fd bytes
        end
    end.

Definition wait_some {A} (w : Wait A) : Wait (option A) :=
  match w with Blocked => Blocked | Done a => Done (Some a) end.

Definition read_from_fd (fuel : nat) (irqs : nat -> list Irq) (fd buf count : Z) : M Kernel (Wait (option Z)) :=
  if count =? 0 then retM (Done (Some 0))
  else
    let* input := is_stdin fd in
    if input then let* w := tty_read fuel irqs buf count in retM (wait_some w)
    else
      let* t := get_fd_target fd in
      let dev := match t with Some t => if is_char_device t then Some t else None | None => None end in
      match dev with
      | Some t => let* w := read_char_device fuel irqs t buf count in retM (wait_some w)
      | None =>
          let* w := read_pipe fuel irqs fd buf count in
          match w with
          | Blocked => retM Blocked
          | Done (Some n) => retM (Done (Some n))
          | Done None => let* r := read_file fd buf count in retM (Done r)
          end
      end.
