(* ===== verification/Interrupts.v ===== *)
(** * Descriptor tables, interrupt gates and exceptions
    ([arch/amd64/gdt.rs], [arch/amd64/idt.rs], [hw/pic.rs], [panic.rs])

    The tables are the words the processor reads, with the processor's own
    decoding of a descriptor beside them; the entry stubs are modelled by the
    stack they leave for [default_exception].  The bytes sent to the ports of
    the interrupt controllers are lists of (port, value). *)

From S2P Require Import Prelude Mem Update Result Types State Task Proc Fd.

(** ** Segment descriptors *)

Definition SEG_KCODE : Z := 0x08.
Definition SEG_KDATA : Z := 0x10.
Definition SEG_UDATA : Z := 0x18 .| 3.
Definition SEG_UCODE : Z := 0x20 .| 3.
Definition SEG_TSS : Z := 0x28.

Record GdtEntry := mkGdtEntry { ge_limit_low : Z; ge_base_low : Z; ge_base_mid : Z; ge_access : Z; ge_granul : Z; ge_base_high : Z }.

Definition GdtEntry_new (access flags : Z) : GdtEntry := mkGdtEntry 0xFFFF 0 0 access (wrap8 (Z.shiftl flags 4) .| 0x0F) 0.

(** [transmute] to eight bytes and [from_le_bytes]. *)
Definition encode (e : GdtEntry) : Z :=
  of_le (to_le 2 (ge_limit_low e) ++ to_le 2 (ge_base_low e) ++ [ge_base_mid e; ge_access e; ge_granul e; ge_base_high e]).

Record TssDescriptor := mkTssDescriptor {
  td_limit_low : Z; td_base_0_15 : Z; td_base_16_23 : Z; td_access : Z;
  td_limit_flags : Z; td_base_24_31 : Z; td_base_32_63 : Z; td_reserved : Z;
}.

Definition TssDescriptor_new (base limit : Z) : TssDescriptor :=
  mkTssDescriptor (limit & 0xFFFF) (base & 0xFFFF) ((base >> 16) & 0xFF) 0x89 ((limit >> 16) & 0xF) ((base >> 24) & 0xFF)
    (wrap32 (base >> 32)) 0.

Definition tss_bytes (d : TssDescriptor) : list Z :=
  to_le 2 (td_limit_low d) ++ to_le 2 (td_base_0_15 d) ++
  [td_base_16_23 d; td_access d; td_limit_flags d; td_base_24_31 d] ++ to_le 4 (td_base_32_63 d) ++ to_le 4 (td_reserved d).

(** [size_of::<Tss>()]: the structure is packed. *)
Definition TSS_SIZE : Z := 4 + 3 * 8 + 8 + 7 * 8 + 8 + 2 + 2.

Definition gdt_init (tss_base : Z) : list Z :=
  let PRESENT := 0x80 in let DPL0 := 0x00 in let DPL3 := 0x60 in let DTYPE := 0x10 in let EXEC := 0x08 in let RW := 0x02 in
  let LONG := 0x2 in let DB := 0x4 in let GRAN := 0x8 in
  let bytes := tss_bytes (TssDescriptor_new tss_base (TSS_SIZE - 1)) in
  [ 0;
    encode (GdtEntry_new (PRESENT .| DPL0 .| DTYPE .| EXEC .| RW) (LONG .| GRAN));
    encode (GdtEntry_new (PRESENT .| DPL0 .| DTYPE .| RW) (DB .| GRAN));
    encode (GdtEntry_new (PRESENT .| DPL3 .| DTYPE .| RW) (DB .| GRAN));
    encode (GdtEntry_new (PRESENT .| DPL3 .| DTYPE .| EXEC .| RW) (LONG .| GRAN));
    of_le (take 8 bytes);
    of_le (take 8 (drop 8 bytes)) ].

(** ** Interrupt gates *)

Record IdtEntry := mkIdtEntry { ie_offset_low : Z; ie_selector : Z; ie_options : Z; ie_offset_mid : Z; ie_offset_high : Z; ie_zero : Z }.

Definition IdtEntry_missing : IdtEntry := mkIdtEntry 0 0 0 0 0 0.

Definition set_handler (addr : Z) : IdtEntry :=
  mkIdtEntry (wrap16 addr) SEG_KCODE 0x8E00 (wrap16 (addr >> 16)) (wrap32 (addr >> 32)) 0.

(** [for (vector, handler) in EXCEPTION_STUBS.iter().enumerate()]. *)
Fixpoint set_gates (idt : list IdtEntry) (vector : Z) (handlers : list Z) : list IdtEntry :=
  match handlers with
  | [] => idt
  | h :: handlers => set_gates (zset idt vector (set_handler h)) (vector + 1) handlers
  end.

(** The addresses of the assembly stubs are arguments. *)
Definition idt_init (exception_stubs : list Z) (pit_interrupt keyboard_interrupt : Z) : list IdtEntry :=
  let idt := set_gates (replicate 256 IdtEntry_missing) 0 exception_stubs in
  let idt := zset idt 32 (set_handler pit_interrupt) in
  zset idt 33 (set_handler keyboard_interrupt).

(** ** The interrupt controllers *)

Definition PIC1_CMD : Z := 0x20.
Definition PIC1_DATA : Z := 0x21.
Definition PIC2_CMD : Z := 0xA0.
Definition PIC2_DATA : Z := 0xA1.

Definition pic_init : list (Z * Z) :=
  [ (PIC1_CMD, 0x11); (PIC2_CMD, 0x11); (PIC1_DATA, 0x20); (PIC2_DATA, 0x28); (PIC1_DATA, 0x04); (PIC2_DATA, 0x02);
    (PIC1_DATA, 0x01); (PIC2_DATA, 0x01); (PIC1_DATA, 0xFC); (PIC2_DATA, 0xFF) ].

Definition eoi (irq : Z) : list (Z * Z) := (if 8 <=? irq then [(PIC2_CMD, 0x20)] else []) ++ [(PIC1_CMD, 0x20)].

(** ** Exceptions *)

(** The registers [exc_common] saves. *)
Record SavedRegs := mkSavedRegs {
  sr_r15 : Z; sr_r14 : Z; sr_r13 : Z; sr_r12 : Z; sr_r11 : Z; sr_r10 : Z; sr_r9 : Z; sr_r8 : Z;
  sr_rbp : Z; sr_rdi : Z; sr_rsi : Z; sr_rdx : Z; sr_rcx : Z; sr_rbx : Z; sr_rax : Z;
}.

(** What the processor pushes before the error code. *)
Record CpuFrame := mkCpuFrame { cf_rip : Z; cf_cs : Z; cf_rflags : Z; cf_rsp : Z; cf_ss : Z }.

Record InterruptFrame := mkInterruptFrame {
  if_regs : SavedRegs; if_padding : Z; if_vector : Z; if_error_code : Z; if_cpu : CpuFrame;
}.

(** The vectors declared with [EXC_ERR]; the others are [EXC_NOERR]. *)
Definition exc_err (v : Z) : bool := existsb (Z.eqb v) [8; 10; 11; 12; 13; 14; 17; 21; 30].

(** The stack is a list of words, the top first. *)
Definition exc_stub (v : Z) (stack : list Z) : list Z :=
  if exc_err v then 0 :: v :: stack else 0 :: v :: 0 :: stack.

Definition exc_common (r : SavedRegs) (stack : list Z) : list Z :=
  let push x s := x :: s in
  push (sr_r15 r) (push (sr_r14 r) (push (sr_r13 r) (push (sr_r12 r) (push (sr_r11 r) (push (sr_r10 r) (push (sr_r9 r)
    (push (sr_r8 r) (push (sr_rbp r) (push (sr_rdi r) (push (sr_rsi r) (push (sr_rdx r) (push (sr_rcx r) (push (sr_rbx r)
    (push (sr_rax r) stack)))))))))))))).

(** The pops at the end of the stubs. *)
Definition pop_regs (stack : list Z) : option (SavedRegs * list Z) :=
  match stack with
  | r15 :: r14 :: r13 :: r12 :: r11 :: r10 :: r9 :: r8 :: rbp :: rdi :: rsi :: rdx :: rcx :: rbx :: rax :: stack =>
      Some (mkSavedRegs r15 r14 r13 r12 r11 r10 r9 r8 rbp rdi rsi rdx rcx rbx rax, stack)
  | _ => None
  end.

(** The end of [exc_common]: the padding, the vector and the error code go. *)
Definition exc_return (stack : list Z) : option (SavedRegs * list Z) :=
  match pop_regs stack with
  | Some (r, _ :: _ :: _ :: stack) => Some (r, stack)
  | _ => None
  end.

(** The two interrupt stubs save the same registers; [handler] is what the
    call leaves on the stack. *)
Definition pit_interrupt (handler : list Z -> list Z) (r : SavedRegs) (stack : list Z) : option (SavedRegs * list Z) :=
  pop_regs (handler (exc_common r stack)).
Definition keyboard_interrupt (handler : list Z -> list Z) (r : SavedRegs) (stack : list Z) : option (SavedRegs * list Z) :=
  pop_regs (handler (exc_common r stack)).

(** The words at the stack pointer read as an [InterruptFrame]. *)
Definition frame_of_stack (stack : list Z) : option InterruptFrame :=
  match stack with
  | r15 :: r14 :: r13 :: r12 :: r11 :: r10 :: r9 :: r8 :: rbp :: rdi :: rsi :: rdx :: rcx :: rbx :: rax ::
    padding :: vector :: error_code :: rip :: cs :: rflags :: rsp :: ss :: _ =>
      Some (mkInterruptFrame (mkSavedRegs r15 r14 r13 r12 r11 r10 r9 r8 rbp rdi rsi rdx rcx rbx rax) padding vector error_code
              (mkCpuFrame rip cs rflags rsp ss))
  | _ => None
  end.

(** The report goes to the debug log; the task then halts until it is
    switched away for good. *)
Definition default_exception (frame : InterruptFrame) : M Kernel (Wait unit) :=
  exit (as_i64 (if_vector frame)) ;;;
  let* slot := current_task_slot in
  kill_task slot ;;;
  retM Blocked.

(** ** The processor's view of a gate and of a descriptor *)

Definition gate_offset (e : IdtEntry) : Z := ie_offset_low e + ie_offset_mid e * 2 ^ 16 + ie_offset_high e * 2 ^ 32.
Definition gate_present (e : IdtEntry) : bool := Z.testbit (ie_options e) 15.

Lemma set_handler_offset addr : is_u64 addr -> gate_offset (set_handler addr) = addr /\ gate_present (set_handler addr) = true.
Proof.
  intros [H0 H1]. split; [|done]. unfold gate_offset, set_handler, wrap16, wrap32, U16, U32. cbn [ie_offset_low ie_offset_mid ie_offset_high].
  rewrite !Z.shiftr_div_pow2 by lia.
  pose proof (Z.div_mod addr (2 ^ 16) ltac:(lia)). pose proof (Z.div_mod (addr / 2 ^ 16) (2 ^ 16) ltac:(lia)) as E.
  rewrite Z.div_div in E by lia. change (2 ^ 16 * 2 ^ 16) with (2 ^ 32) in E.
  rewrite (Z.mod_small (addr / 2 ^ 32)); [lia|]. split; [apply Z.div_pos; lia|]. apply Z.div_lt_upper_bound; [lia|]. exact H1.
Qed.

Lemma set_gates_length hs idt v : length (set_gates idt v hs) = length idt.
Proof. revert idt v. induction hs as [|h hs IH]; intros; [done|]. cbn. by rewrite IH, length_zset. Qed.

Lemma set_gates_lookup hs idt v j : 0 <= v -> v + Z.of_nat (length hs) <= Z.of_nat (length idt) -> 0 <= j ->
  zget (set_gates idt v hs) j =
  if (v <=? j) && (j <? v + Z.of_nat (length hs)) then set_handler <$> zget hs (j - v) else zget idt j.
Proof.
  revert idt v. induction hs as [|h hs IH]; intros idt v Hv Hl Hj; cbn [set_gates length] in *.
  - destruct (Z.leb_spec v j); [|done]. cbn [andb]. case_goal; [breflect; lia|done].
  - rewrite IH by (rewrite ?length_zset; lia). rewrite zget_zset by lia. destruct (Z.eqb_spec j v) as [->|Hne].
    + rewrite Z.leb_refl, (proj2 (Z.leb_gt (v + 1) v)), (proj2 (Z.ltb_lt v (v + Z.of_nat (S _)))), Z.sub_diag by lia. done.
    + destruct (Z.leb_spec v j), (Z.leb_spec (v + 1) j); try lia; cbn [andb]; [|done].
      replace (v + 1 + Z.of_nat (length hs)) with (v + Z.of_nat (S (length hs))) by lia.
      case_goal; [|done]. f_equal. unfold zget. rewrite !(proj2 (Z.leb_le _ _)) by lia.
      replace (Z.to_nat (j - v)) with (S (Z.to_nat (j - (v + 1)))) by lia. done.
Qed.

(** Where the processor goes for vector [v]. *)
Definition vector_target (idt : list IdtEntry) (v : Z) : option Z :=
  match zget idt v with
  | Some e => if gate_present e then Some (gate_offset e) else None
  | None => None
  end.

Lemma idt_init_target stubs pit kbd v : length stubs = 32%nat -> Forall is_u64 stubs -> is_u64 pit -> is_u64 kbd -> 0 <= v < 256 ->
  vector_target (idt_init stubs pit kbd) v = zget (stubs ++ [pit; kbd]) v.
Proof.
  intros Hl Hs Hp Hk Hv. unfold vector_target, idt_init.
  rewrite !zget_zset by (rewrite ?length_zset, ?set_gates_length, ?length_replicate; lia).
  assert (forall h, is_u64 h -> (if gate_present (set_handler h) then Some (gate_offset (set_handler h)) else None) = Some h) as Hset
    by (intros h Hh; destruct (set_handler_offset h Hh) as [-> ->]; done).
  unfold zget at 2. rewrite (proj2 (Z.leb_le 0 v)) by lia.
  destruct (Z.eqb_spec v 33) as [->|H33]; [by rewrite Hset, lookup_app_r by (rewrite ?Hl; done || (cbn; lia)); rewrite Hl|].
  destruct (Z.eqb_spec v 32) as [->|H32]; [by rewrite Hset, lookup_app_r by (rewrite ?Hl; done || (cbn; lia)); rewrite Hl|].
  rewrite set_gates_lookup by (rewrite ?length_replicate, ?Hl; lia). rewrite Hl, (proj2 (Z.leb_le 0 v)), Z.sub_0_r by lia. cbn [andb].
  destruct (Z.ltb_spec v (0 + Z.of_nat 32)) as [Hlt|Hge].
  - destruct (zget_is_Some stubs v) as [h Hh]; [lia|]. rewrite Hh. cbn [fmap option_fmap option_map].
    rewrite Hset; [|exact (proj1 (list.Forall_forall _ _) Hs h (zget_elem _ _ _ Hh))].
    unfold zget in Hh. rewrite (proj2 (Z.leb_le 0 v)) in Hh by lia. by rewrite lookup_app_l by (rewrite Hl; lia).
  - destruct (zget (replicate 256 IdtEntry_missing) v) as [e|] eqn:E; [apply zget_replicate in E as ->|];
      cbn [gate_present IdtEntry_missing ie_options]; symmetry; apply lookup_ge_None_2; rewrite length_app, Hl; cbn; lia.
Qed.

(** ** A fault ends the thread that caused it *)

(** The stack when the processor enters a stub: the error code, if the
    processor pushes one, and its frame; [above] is the word above them. *)
Definition entry_stack (pushed : option Z) (c : CpuFrame) (above : Z) : list Z :=
  option_list pushed ++ [cf_rip c; cf_cs c; cf_rflags c; cf_rsp c; cf_ss c; above].

(** The error code and the frame the handler sees: the processor's own where
    the stub and the processor agree on whether there is an error code, and
    otherwise a frame that is off by one word. *)
Definition reported (v : Z) (pushed : option Z) (c : CpuFrame) (above : Z) : Z * CpuFrame :=
  match exc_err v, pushed with
  | true, Some err => (err, c)
  | false, None => (0, c)
  | false, Some err => (0, mkCpuFrame err (cf_rip c) (cf_cs c) (cf_rflags c) (cf_rsp c))
  | true, None => (cf_rip c, mkCpuFrame (cf_cs c) (cf_rflags c) (cf_rsp c) (cf_ss c) above)
  end.

Lemma frame_of_exception regs v pushed c above : exists f,
  frame_of_stack (exc_common regs (exc_stub v (entry_stack pushed c above))) = Some f /\
  if_regs f = regs /\ if_vector f = v /\ (if_error_code f, if_cpu f) = reported v pushed c above.
Proof. destruct regs, c. unfold exc_stub, reported. destruct (exc_err v), pushed; eexists; split_and!; done. Qed.

(** The exceptions with an error code, as the processors' manuals list them:
    Intel's, and AMD's, which adds the vectors 29 and 30.  The stubs agree with both but for two vectors:
    29, where AMD's processors push a code the stub does not expect, and 30,
    which Intel's processors never raise. *)
Definition intel_error_codes : list Z := [8; 10; 11; 12; 13; 14; 17; 21].
Definition amd_error_codes : list Z := intel_error_codes ++ [29; 30].

Lemma stubs_and_manuals v : 0 <= v < 32 ->
  (v <> 30 -> exc_err v = bool_decide (v ∈ intel_error_codes)) /\ (v <> 29 -> exc_err v = bool_decide (v ∈ amd_error_codes)).
Proof.
  intros Hv.
  assert (forallb (fun v => ((v =? 30) || Bool.eqb (exc_err v) (bool_decide (v ∈ intel_error_codes))) &&
                            ((v =? 29) || Bool.eqb (exc_err v) (bool_decide (v ∈ amd_error_codes)))) (seqZ 0 32) = true) as H
    by (vm_compute; reflexivity).
  rewrite forallb_forall in H. specialize (H v ltac:(apply list_elem_of_In, elem_of_seqZ; lia)).
  apply andb_true_iff in H as [H1 H2]. rewrite orb_true_iff, Z.eqb_eq, eqb_true_iff in H1, H2. split; intros; tauto.
Qed.

Lemma default_exception_run f k t g p tk :
  kernel_wf k -> cur_thread k = Some t -> th_state t = TRunning -> cur_proc k = Some (g, p) -> 0 < p_thread_count p ->
  zget (k_tasks k) (k_current k) = Some (Some tk) ->
  default_exception f k = OOk Blocked
    ((exited k t g (left_alone p (as_i64 (if_vector f))))
       <| k_tasks := zset (k_tasks k) (k_current k) (Some (tk <| tk_state := Dead |>)) |>).
Proof.
  intros Hk Ht Hrun Hp Hc Htk. unfold default_exception. set (k1 := exited k t g _).
  assert (exit (as_i64 (if_vector f)) k = OOk tt k1) as Hx
    by (unfold exit; by rewrite (bind_ok _ _ _ _ _ (exit_thread_alone k t g p Hk Ht Hp _ Hc))).
  rewrite (bind_ok _ _ _ _ _ Hx). rewrite (bind_ok current_task_slot _ k1 (k_current k) k1 eq_refl).
  destruct (kill_task_run k1 (k_current k) (Some tk) Htk) as [E|[? E]]; [|done || discriminate].
  by rewrite (bind_ok _ _ _ _ _ E).
Qed.

(** A handler that returns with the stack as it was: the interrupted code goes
    on with its registers and with the processor's frame on top. *)
Lemma interrupts_transparent r v stack :
  pit_interrupt id r stack = Some (r, stack) /\ keyboard_interrupt id r stack = Some (r, stack) /\
  (exc_err v = false -> exc_return (exc_common r (exc_stub v stack)) = Some (r, stack)) /\
  (forall err, exc_err v = true -> exc_return (exc_common r (exc_stub v (err :: stack))) = Some (r, stack)).
Proof. destruct r. split_and!; [done|done| |]; intros; unfold exc_stub; case_goal; done || congruence. Qed.

(** The processor aligns the stack to 16 bytes and pushes five words (and the
    error code).  At the calls of the interrupt handlers the stack is aligned
    again; at the call of [default_exception] it is off by eight, because of
    the padding word. *)
Lemma call_alignment r v err c :
  let frame := [cf_rip c; cf_cs c; cf_rflags c; cf_rsp c; cf_ss c] in
  8 * Z.of_nat (length (exc_common r frame)) mod 16 = 0 /\
  8 * Z.of_nat (length (exc_common r (exc_stub v ((if exc_err v then [err] else []) ++ frame)))) mod 16 = 8.
Proof. unfold exc_stub. by destruct (exc_err v). Qed.

Lemma u64_small z : (0 <=? z) && (z <? U64) = true -> is_u64 z.
Proof. intros H. unfold is_u64. breflect. lia. Qed.

