(* ===== verification/Pipes.v ===== *)
(** * Pipes are bounded queues ([proc/fd_pipe.rs])

    The ring of a pipe counts its bytes, so all 1024 slots are used; it is an
    instance of the queue interface of [Ring], and writing to and reading
    from a pipe descriptor are the queue's operations. *)

From S2P Require Import Prelude Mem Update Result Pmm Paging RamFs Ring Tty Types State Task Proc Fd.

Definition pipe_push (b : Z) (p : Pipe) : Pipe :=
  if pp_len p <? PIPE_CAPACITY then
    p <| pp_buf := zset (pp_buf p) (pp_write_pos p) b |>
      <| pp_write_pos := (pp_write_pos p + 1) mod PIPE_CAPACITY |>
      <| pp_len := pp_len p + 1 |>
  else p.

Definition pipe_pop (p : Pipe) : option Z * Pipe :=
  if 0 <? pp_len p then
    (Some (default 0 (zget (pp_buf p) (pp_read_pos p))),
     p <| pp_read_pos := (pp_read_pos p + 1) mod PIPE_CAPACITY |> <| pp_len := pp_len p - 1 |>)
  else (None, p).

(** Positions are in range and the write position is [len] after the read
    position. *)
Definition pipe_ok (p : Pipe) : Prop :=
  Z.of_nat (length (pp_buf p)) = PIPE_CAPACITY /\ 0 <= pp_read_pos p < PIPE_CAPACITY /\
  0 <= pp_len p <= PIPE_CAPACITY /\ pp_write_pos p = (pp_read_pos p + pp_len p) mod PIPE_CAPACITY.

(** The bytes in the pipe, oldest first. *)
Definition pipe_list (p : Pipe) : list Z :=
  (fun i => default 0 (zget (pp_buf p) ((pp_read_pos p + i) mod PIPE_CAPACITY))) <$> seqZ 0 (pp_len p).

Lemma length_pipe_list p : length (pipe_list p) = Z.to_nat (pp_len p).
Proof. unfold pipe_list. by rewrite length_fmap, length_seqZ. Qed.

Lemma mod_cap x : 0 <= x mod PIPE_CAPACITY < PIPE_CAPACITY.
Proof. apply Z.mod_pos_bound. done. Qed.

Lemma pipe_push_ok b p : pipe_ok p -> pipe_ok (pipe_push b p).
Proof.
  intros (H1 & H2 & H3 & H4). unfold pipe_push. destruct (Z.ltb_spec (pp_len p) PIPE_CAPACITY); [|done].
  split_and!; simpl; rewrite ?length_zset; [done|lia..|].
  rewrite H4, Zplus_mod_idemp_l. f_equal. lia.
Qed.

Lemma pipe_pop_ok p : pipe_ok p -> pipe_ok (snd (pipe_pop p)).
Proof.
  intros (H1 & H2 & H3 & H4). unfold pipe_pop. destruct (Z.ltb_spec 0 (pp_len p)); [|done].
  pose proof (mod_cap (pp_read_pos p + 1)). split_and!; simpl; [done|lia..|].
  rewrite H4, Zplus_mod_idemp_l. f_equal. lia.
Qed.

Lemma pipe_push_list b p : pipe_ok p ->
  pipe_list (pipe_push b p) = if decide (length (pipe_list p) < 1024)%nat then pipe_list p ++ [b] else pipe_list p.
Proof.
  intros (H1 & H2 & H3 & H4). rewrite length_pipe_list. unfold pipe_push. change PIPE_CAPACITY with 1024 in *.
  destruct (Z.ltb_spec (pp_len p) 1024); [rewrite decide_True by lia|by rewrite decide_False by lia].
  unfold pipe_list. change PIPE_CAPACITY with 1024. cbn [pp_len pp_buf pp_read_pos set_field].
  rewrite seqZ_app by lia. rewrite fmap_app. f_equal.
  - apply list_fmap_ext. intros j i Hi%lookup_seqZ. rewrite zget_zset_ne; [done| |rewrite H4; apply mod_cap].
    rewrite H4. intros E. pose proof (Z.mod_pos_bound (pp_read_pos p + pp_len p) 1024).
    pose proof (Z.div_mod (pp_read_pos p + pp_len p) 1024). pose proof (Z.div_mod (pp_read_pos p + i) 1024). lia.
  - change (seqZ (0 + pp_len p) 1) with [0 + pp_len p]. cbn [fmap list_fmap]. rewrite Z.add_0_l, <- H4.
    rewrite zget_zset_eq; [done|]. rewrite H1, H4. apply mod_cap.
Qed.

Lemma pipe_pop_list p : pipe_ok p ->
  match pipe_list p with
  | [] => pipe_pop p = (None, p)
  | x :: l => fst (pipe_pop p) = Some x /\ pipe_list (snd (pipe_pop p)) = l
  end.
Proof.
  intros (H1 & H2 & H3 & H4). unfold pipe_pop, pipe_list. destruct (Z.ltb_spec 0 (pp_len p)).
  - rewrite seqZ_cons by lia. cbn [fmap list_fmap fst snd pp_buf pp_read_pos pp_len set_field].
    rewrite Z.add_0_r, (Z.mod_small (pp_read_pos p)) by done. split; [done|].
    replace (Z.pred (pp_len p)) with (pp_len p - 1) by lia.
    change (Z.succ 0) with 1. rewrite <- (fmap_add_seqZ 1 0). rewrite <- list_fmap_compose.
    apply list_fmap_ext. intros j i Hi. simpl. rewrite Zplus_mod_idemp_l. do 3 f_equal. lia.
  - replace (pp_len p) with 0 by lia. done.
Qed.

Lemma pipe_bound p : pipe_ok p -> (length (pipe_list p) <= 1024)%nat.
Proof. intros (_ & _ & H & _). rewrite length_pipe_list. unfold PIPE_CAPACITY in H. lia. Qed.

#[export] Instance pipe_queue : BoundedQueue Pipe Z := {
  q_ok := pipe_ok; q_cap := 1024; q_list := pipe_list; q_push := pipe_push; q_pop := pipe_pop;
  q_bound := pipe_bound;
  q_push_ok := pipe_push_ok; q_push_spec := pipe_push_list; q_pop_ok := pipe_pop_ok; q_pop_spec := pipe_pop_list;
}.

(** ** The loops *)

Lemma write_loop_spec bytes n p :
  pipe_ok p ->
  FdPipe.write_loop bytes n p =
    OOk (n + Z.of_nat (length (take (1024 - length (pipe_list p)) bytes))) (push_all bytes p).
Proof.
  revert n p. induction bytes as [|b bytes IH]; intros n p Hp.
  { rewrite take_nil. simpl. rewrite Z.add_0_r. done. }
  pose proof Hp as (H1 & H2 & H3 & H4). pose proof (pipe_push_ok b p Hp) as Hp'.
  pose proof (pipe_push_list b p Hp) as Hl. cbn [FdPipe.write_loop]. rewrite getM_bind.
  change (push_all (b :: bytes) p) with (push_all bytes (pipe_push b p)). rewrite length_pipe_list in *.
  unfold PIPE_CAPACITY in H3. unfold pipe_push in *. change PIPE_CAPACITY with 1024 in *.
  destruct (Z.ltb_spec (pp_len p) 1024).
  - destruct (zget_is_Some (pp_buf p) (pp_write_pos p)) as [x Hx]; [rewrite H1, H4; apply mod_cap|].
    rewrite Hx. unfold unwrap, retM at 1, putM. unfold bindM. cbn beta iota.
    rewrite IH by exact Hp'. rewrite decide_True in Hl by lia. rewrite Hl, length_app, length_pipe_list. simpl length at 1.
    replace (1024 - Z.to_nat (pp_len p))%nat with (S (1024 - (Z.to_nat (pp_len p) + 1)))%nat by lia.
    f_equal. cbn [take length]. lia.
  - replace (1024 - Z.to_nat (pp_len p))%nat with 0%nat by lia. rewrite take_0. unfold retM. simpl length. rewrite Z.add_0_r.
    f_equal. clear IH Hl Hp'. induction bytes as [|c bytes IH]; [done|].
    change (p = push_all bytes (pipe_push c p)). unfold pipe_push. change PIPE_CAPACITY with 1024.
    by rewrite (proj2 (Z.ltb_ge _ _)) by lia.
Qed.

Lemma read_loop_spec n p :
  pipe_ok p ->
  exists p', FdPipe.read_loop n p = OOk (take n (pipe_list p)) p' /\ pipe_ok p' /\ pipe_list p' = drop n (pipe_list p) /\
    pp_read_refs p' = pp_read_refs p /\ pp_write_refs p' = pp_write_refs p /\ pp_in_use p' = pp_in_use p.
Proof.
  revert p. induction n as [|n IH]; intros p Hp; [exists p; by rewrite take_0, drop_0|].
  pose proof Hp as (H1 & H2 & H3 & H4). pose proof (pipe_pop_list p Hp) as Hl. pose proof (pipe_pop_ok p Hp) as Hp'.
  cbn [FdPipe.read_loop]. rewrite getM_bind. unfold pipe_pop in *. destruct (Z.ltb_spec 0 (pp_len p)).
  - destruct (zget_is_Some (pp_buf p) (pp_read_pos p)) as [x Hx]; [lia|]. rewrite Hx in *. cbn [default fst snd] in *.
    destruct (pipe_list p) as [|y l]; [done|]. destruct Hl as [[= ->] Hl].
    destruct (IH _ Hp') as (p' & Hrun & Hok & Hlist & Hr & Hw & Hu). unfold unwrap, retM at 1, putM. unfold bindM. cbn beta iota.
    rewrite Hrun. rewrite Hl in *. exists p'. split_and!; try done.
  - destruct (pipe_list p) as [|y l] eqn:E; [|by destruct Hl]. exists p. rewrite E. by rewrite take_nil, drop_nil.
Qed.

(** ** Descriptors *)

(** Descriptor [fd] of the current process. *)
Definition cur_fd (k : Kernel) (fd : Z) : option FdTarget :=
  match cur_proc k with
  | Some (_, p) =>
      if (0 <=? fd) && (fd <? MAX_FDS) then
        match zget (p_fds p) fd with Some Empty => None | o => o end
      else None
  | None => None
  end.

Lemma get_fd_target_eq k fd : kernel_wf k -> 0 <= fd -> get_fd_target fd k = OOk (cur_fd k fd) k.
Proof.
  intros Hk Hfd. unfold get_fd_target, cur_fd. rewrite (bind_ok _ _ _ _ _ (current_process_eq k Hk)).
  destruct (cur_proc k) as [[slot p]|] eqn:Hp; [|done]. cbn [fmap option_fmap option_map snd].
  destruct (cur_proc_wf k slot p Hk Hp) as (_ & _ & _ & _ & _ & (Hl & _)).
  rewrite (proj2 (Z.leb_le 0 fd)) by done. destruct (Z.leb_spec MAX_FDS fd).
  - rewrite (proj2 (Z.ltb_ge _ _)) by done. done.
  - rewrite (proj2 (Z.ltb_lt _ _)) by done. destruct (zget_is_Some (p_fds p) fd) as [t Ht]; [unfold MAX_FDS in *; lia|].
    rewrite Ht. unfold unwrap, bindM, retM. by destruct t.
Qed.

(** The pipe and the end a descriptor designates. *)
Definition fd_pipe (k : Kernel) (fd : Z) : option (Z * Pipe * bool) :=
  match cur_fd k fd with
  | Some (PipeRead i) => (fun p => (i, p, true)) <$> FdPipe.used k i
  | Some (PipeWrite i) => (fun p => (i, p, false)) <$> FdPipe.used k i
  | _ => None
  end.

Lemma get_mut_eq k fd : kernel_wf k -> 0 <= fd -> FdPipe.get_mut fd k = OOk (fd_pipe k fd) k.
Proof.
  intros Hk Hfd. unfold FdPipe.get_mut. rewrite (bind_ok _ _ _ _ _ (get_fd_target_eq k fd Hk Hfd)), getM_bind. done.
Qed.

Lemma peer_closed_eq k fd i p e : kernel_wf k -> 0 <= fd -> fd_pipe k fd = Some (i, p, e) ->
  FdPipe.peer_closed fd k = OOk (Some (if e then pp_write_refs p =? 0 else pp_read_refs p =? 0)) k.
Proof.
  intros Hk Hfd H. unfold FdPipe.peer_closed. rewrite (bind_ok _ _ _ _ _ (get_fd_target_eq k fd Hk Hfd)), getM_bind.
  unfold fd_pipe in H. destruct (cur_fd k fd) as [[]|]; try done;
    destruct (FdPipe.used k _); try done; simpl in *; by simplify_eq.
Qed.

Lemma fd_pipe_used k fd i p e : fd_pipe k fd = Some (i, p, e) -> FdPipe.used k i = Some p.
Proof.
  unfold fd_pipe. destruct (cur_fd k fd) as [[]|]; try done;
    destruct (FdPipe.used k _) eqn:E; try done; simpl; intros; by simplify_eq.
Qed.

Lemma used_zget k i p : FdPipe.used k i = Some p -> zget (k_pipes k) i = Some p /\ pp_in_use p = true.
Proof.
  unfold FdPipe.used. case_goal; [|done]. destruct (zget (k_pipes k) i) as [q|]; [|done].
  destruct (pp_in_use q) eqn:E; [|done]. intros; by simplify_eq.
Qed.

(** C13: A pipe is a bounded first-in first-out channel of 1024 bytes.
    Writing to the write end with a reader open takes the longest prefix of
    the bytes that fits, appends it to the bytes in the pipe and
    returns its length; with no reader it returns 0; writing to the read end
    and reading from the write end fail.  Reading from a pipe that holds bytes
    returns at once with the oldest ones, at most [count], stored at the
    user's buffer, and leaves the rest; an empty pipe whose writers are gone
    reads as end of file. *)
Theorem pipe_is_bounded_fifo k fd i p is_read_end bytes buf n fuel irqs :
  kernel_wf k -> 0 <= fd -> 0 <= n -> fd_pipe k fd = Some (i, p, is_read_end) -> pipe_ok p ->
  (if is_read_end then FdPipe.write fd bytes k = OOk None k
   else if pp_read_refs p =? 0 then FdPipe.write fd bytes k = OOk (Some 0) k
   else exists p', let taken := take (1024 - length (pipe_list p)) bytes in
     FdPipe.write fd bytes k = OOk (Some (Z.of_nat (length taken))) (k <| k_pipes := zset (k_pipes k) i p' |>) /\
     pipe_ok p' /\ pipe_list p' = pipe_list p ++ taken) /\
  (if negb is_read_end then FdPipe.read fuel irqs fd buf n k = OOk (Done None) k
   else if 0 <? pp_len p then exists p', let given := take (Z.to_nat n) (pipe_list p) in
     FdPipe.read fuel irqs fd buf n k =
       OOk (Done (Some (Z.of_nat (length given))))
         (k <| k_pipes := zset (k_pipes k) i p' |> <| k_umem := store_bytes (k_umem k) buf given |>) /\
     pipe_ok p' /\ pipe_list p' = drop (Z.to_nat n) (pipe_list p)
   else pp_write_refs p = 0 -> FdPipe.read fuel irqs fd buf n k = OOk (Done (Some 0)) k).
Proof.
  intros Hk Hfd Hn Hpipe Hok. pose proof (get_mut_eq k fd Hk Hfd) as Hg. rewrite Hpipe in Hg.
  pose proof (peer_closed_eq k fd i p is_read_end Hk Hfd Hpipe) as Hc. split.
  - unfold FdPipe.write. rewrite (bind_ok _ _ _ _ _ Hg). destruct is_read_end; [done|].
    destruct (Z.eqb_spec (pp_read_refs p) 0); [done|].
    exists (push_all bytes p). cbv zeta.
    unfold FdPipe.on_pipe, bindM. rewrite write_loop_spec by done. split; [done|].
    split; [by apply (push_all_ok (H := pipe_queue))|by apply (push_all_spec (H := pipe_queue))].
  - destruct fuel; cbn [FdPipe.read]; rewrite (bind_ok _ _ _ _ _ Hc), (bind_ok _ _ _ _ _ Hg);
      (destruct is_read_end; [|done]); cbn [negb]; (destruct (Z.ltb_spec 0 (pp_len p)); [|intros ->; done]);
      destruct (read_loop_spec (Z.to_nat n) p Hok) as (p' & Hrun & Hok' & Hl & _);
      exists p'; cbv zeta; unfold FdPipe.on_pipe, bindM; rewrite Hrun; done.
Qed.

(** ** Waiting inside a system call *)

(** What interrupts leave alone while [IN_SYSCALL] is set. *)
Definition frozen (k k' : Kernel) : Prop :=
  k_pipes k' = k_pipes k /\ k_processes k' = k_processes k /\ k_threads k' = k_threads k /\
  k_tasks k' = k_tasks k /\ k_current k' = k_current k /\ k_in_syscall k' = k_in_syscall k /\
  (kernel_wf k -> kernel_wf k').

Lemma frozen_refl k : frozen k k.
Proof. split_and!; done. Qed.

Lemma frozen_trans k1 k2 k3 : frozen k1 k2 -> frozen k2 k3 -> frozen k1 k3.
Proof. intros (?&?&?&?&?&?&?) (?&?&?&?&?&?&?). split_and!; try congruence; auto. Qed.

Lemma take_irq_frozen i k : k_in_syscall k = true -> exists k', take_irq i k = OOk tt k' /\ frozen k k'.
Proof.
  intros Hs. destruct i as [|b]; unfold take_irq.
  - set (k1 := k <| k_ticks := k_ticks k +w 1 |>). exists k1. split.
    + assert (pit_handler k = OOk None k1) as E; [|by rewrite (bind_ok _ _ _ _ _ E)].
      unfold pit_handler, bindM, modifyM, tick, try_switch. fold k1.
      rewrite getM_bind. case_goal; [|done]. rewrite getM_bind. change (k_in_syscall k1) with (k_in_syscall k).
      by rewrite Hs.
    + split_and!; try done. intros []. by constructor.
  - unfold modifyM. eexists. split; [done|]. destruct (input_char b (k_tty k)). split_and!; try done.
    intros []. by constructor.
Qed.

Lemma wait_for_event_frozen irqs k : k_in_syscall k = true -> exists k', wait_for_event irqs k = OOk tt k' /\ frozen k k'.
Proof.
  revert k. induction irqs as [|i irqs IH]; intros k Hs.
  - exists k. split; [done|apply frozen_refl].
  - destruct (take_irq_frozen i k Hs) as (k1 & H1 & F1). pose proof F1 as (_ & _ & _ & _ & _ & Hs1 & _).
    destruct (IH k1) as (k2 & H2 & F2); [congruence|]. exists k2. split; [|by eapply frozen_trans].
    unfold wait_for_event in *. cbn [forM]. by rewrite (bind_ok _ _ _ _ _ H1).
Qed.

Lemma fd_pipe_frozen k k' fd : frozen k k' -> fd_pipe k' fd = fd_pipe k fd.
Proof.
  intros (H1 & H2 & H3 & _ & H4 & _). unfold fd_pipe, cur_fd, cur_proc, cur_thread, FdPipe.used.
  by rewrite H1, H2, H3, H4.
Qed.

(** C35: A read of an empty pipe with a writer open never returns.  The
    reader waits with [wait_for_event], and the timer does not switch tasks
    while [IN_SYSCALL] is set, so no writer runs: however long it waits and
    whatever interrupts arrive, the read is still blocked and the current
    task and the task table are unchanged. *)
Theorem pipe_read_never_wakes k fd i p buf n fuel irqs :
  kernel_wf k -> 0 <= fd -> fd_pipe k fd = Some (i, p, true) ->
  k_in_syscall k = true -> pp_len p <= 0 -> pp_write_refs p <> 0 ->
  exists k', FdPipe.read fuel irqs fd buf n k = OOk Blocked k' /\
    k_tasks k' = k_tasks k /\ k_current k' = k_current k.
Proof.
  intros Hk Hfd Hpipe Hs Hempty Hw. revert k Hk Hpipe Hs.
  induction fuel as [|f IH]; intros k Hk Hpipe Hs;
    pose proof (get_mut_eq k fd Hk Hfd) as Hg; rewrite Hpipe in Hg;
    pose proof (peer_closed_eq k fd i p true Hk Hfd Hpipe) as Hc;
    rewrite (proj2 (Z.eqb_neq _ _)) in Hc by done;
    cbn [FdPipe.read]; rewrite (bind_ok _ _ _ _ _ Hc), (bind_ok _ _ _ _ _ Hg); cbn [negb];
    rewrite (proj2 (Z.ltb_ge _ _)) by done; [by exists k|].
  destruct (wait_for_event_frozen (irqs f) k Hs) as (k1 & H1 & F). rewrite (bind_ok _ _ _ _ _ H1).
  pose proof F as (_ & _ & _ & Ht & Hcur & Hs1 & Hwf).
  destruct (IH k1 (Hwf Hk)) as (k2 & H2 & Ht2 & Hc2); [by rewrite (fd_pipe_frozen _ _ _ F)|congruence|].
  exists k2. split_and!; [done|congruence..].
Qed.

(** Process 1 with a pipe on descriptors 3 and 4. *)
Definition sample_pipe (p : Pipe) : Kernel :=
  sample_proc
    <| k_processes := zset (replicate 8 None) 0
         (Some ((Process_new_leader 1 0 [105]) <| p_fds := zset (zset default_fds 3 (PipeRead 0)) 4 (PipeWrite 0) |>)) |>
    <| k_pipes := zset (replicate 16 Pipe_empty) 0 p |>
    <| k_in_syscall := true |>.

Lemma sample_pipe_wf p : kernel_wf (sample_pipe p).
Proof.
  assert (kernel_wf (sample_proc <| k_processes := zset (replicate 8 None) 0
    (Some ((Process_new_leader 1 0 [105]) <| p_fds := zset (zset default_fds 3 (PipeRead 0)) 4 (PipeWrite 0) |>)) |>)) as [].
  { eapply (wf_set_process' sample_proc _ 0 ((Process_new_leader 1 0 [105])
      <| p_fds := zset (zset default_fds 3 (PipeRead 0)) 4 (PipeWrite 0) |>));
      [apply sample_proc_wf|reflexivity|repeat split]. }
  by constructor.
Qed.

Lemma Pipe_new_ok : pipe_ok Pipe_new.
Proof. split_and!; try done. Qed.

Lemma pipe_is_bounded_fifo_witness :
  let k := sample_pipe Pipe_new in
  exists p', FdPipe.write 4 [0x41; 0x42; 0x43] k = OOk (Some 3) (k <| k_pipes := zset (k_pipes k) 0 p' |>) /\
    pipe_list p' = [0x41; 0x42; 0x43].
Proof.
  intros k.
  destruct (pipe_is_bounded_fifo k 4 0 Pipe_new false [0x41; 0x42; 0x43] 0 3 0 (fun _ => [])) as [(p' & H1 & _ & H2) _].
  - apply sample_pipe_wf.
  - lia.
  - lia.
  - reflexivity.
  - exact Pipe_new_ok.
  - exists p'. split; [exact H1|exact H2].
Defined.

Lemma pipe_read_never_wakes_witness :
  exists k', FdPipe.read 3 (fun _ => [TimerIrq; KeyIrq 10; TimerIrq]) 3 0 8 (sample_pipe Pipe_new) = OOk Blocked k' /\
    k_current k' = 0.
Proof.
  destruct (pipe_read_never_wakes (sample_pipe Pipe_new) 3 0 Pipe_new 0 8 3 (fun _ => [TimerIrq; KeyIrq 10; TimerIrq]))
    as (k' & H1 & _ & H2).
  - apply sample_pipe_wf.
  - lia.
  - reflexivity.
  - reflexivity.
  - cbn. lia.
  - discriminate.
  - exists k'. split; [exact H1|exact H2].
Defined.
