(* ===== verification/FdRefs.v ===== *)
(** * Reference counts of open files and pipes ([proc/fd.rs])

    Every entry of the open-file table and both ends of every pipe count the
    descriptors, over all processes, that designate them.  The invariant is
    proved by tracking the difference between the two sides through the steps
    of each operation. *)

From S2P Require Import Prelude Mem Update Result Pmm Paging RamFs Ring Tty Types State Task Proc Fd Pipes.

(** ** Counting *)

Definition fd_is (t x : FdTarget) : bool := bool_decide (x = t).

Definition fds_of (o : option Process) : list FdTarget := match o with Some p => p_fds p | None => [] end.

(** Descriptors of all processes that designate [t]. *)
Definition fd_count (t : FdTarget) (ps : list (option Process)) : Z := countb (fd_is t) (mjoin (fds_of <$> ps)).

(** The targets whose references are counted. *)
Definition counted (t : FdTarget) : bool :=
  match t with Open _ | PipeRead _ | PipeWrite _ => true | _ => false end.

(** The count the kernel keeps for [t]. *)
Definition refs_of (k : Kernel) (t : FdTarget) : Z :=
  match t with
  | Open i => match zget (k_open_files k) i with Some f => if of_in_use f then of_refs f else 0 | None => 0 end
  | PipeRead i => match zget (k_pipes k) i with Some p => if pp_in_use p then pp_read_refs p else 0 | None => 0 end
  | PipeWrite i => match zget (k_pipes k) i with Some p => if pp_in_use p then pp_write_refs p else 0 | None => 0 end
  | _ => 0
  end.

(** Entries in use have references. *)
Definition tables_ok (k : Kernel) : Prop :=
  (forall i f, zget (k_open_files k) i = Some f -> of_in_use f = true -> 0 < of_refs f) /\
  (forall i p, zget (k_pipes k) i = Some p -> pp_in_use p = true ->
     0 <= pp_read_refs p /\ 0 <= pp_write_refs p /\ 0 < pp_read_refs p + pp_write_refs p).

(** Kept counts exceed the descriptors by [D]. *)
Definition balance (D : FdTarget -> Z) (k : Kernel) : Prop :=
  tables_ok k /\ forall t, counted t = true -> refs_of k t = fd_count t (k_processes k) + D t.

Definition refs_ok (k : Kernel) : Prop := balance (fun _ => 0) k.

Definition ind (t t' : FdTarget) : Z := if decide (t' = t) then 1 else 0.

Lemma balance_ext D D' k : (forall t, counted t = true -> D t = D' t) -> balance D k -> balance D' k.
Proof. intros H [H1 H2]. split; [done|]. intros t Ht. rewrite <- H by done. by apply H2. Qed.

Lemma countb_mjoin_insert {A} (p : A -> bool) (ls : list (list A)) i l l' :
  ls !! i = Some l -> countb p (mjoin (<[i := l']> ls)) = countb p (mjoin ls) - countb p l + countb p l'.
Proof.
  revert i. induction ls as [|x ls IH]; intros [|i] H; simplify_eq/=; rewrite !countb_app; [lia|].
  rewrite (IH i H). lia.
Qed.

Lemma fd_count_set t ps s o o' : zget ps s = Some o ->
  fd_count t (zset ps s o') = fd_count t ps - countb (fd_is t) (fds_of o) + countb (fd_is t) (fds_of o').
Proof.
  intros H. unfold fd_count, zset. rewrite list_fmap_insert. apply countb_mjoin_insert.
  rewrite list_lookup_fmap. unfold zget in H. destruct (0 <=? s); [|done]. by rewrite H.
Qed.

Lemma countb_zset {A} (p : A -> bool) l i x y : zget l i = Some x ->
  countb p (zset l i y) = countb p l + (if p y then 1 else 0) - (if p x then 1 else 0).
Proof.
  intros H. unfold zget in H. destruct (0 <=? i); [|done]. by apply countb_insert.
Qed.

Lemma countb_le_length {A} (p : A -> bool) l : countb p l <= Z.of_nat (length l).
Proof. induction l as [|x l IH]; [done|]. rewrite countb_cons. simpl length. destruct (p x); lia. Qed.

Lemma countb_mjoin_bound {A} (p : A -> bool) n (ls : list (list A)) :
  Forall (fun l => (length l <= n)%nat) ls -> countb p (mjoin ls) <= Z.of_nat n * Z.of_nat (length ls).
Proof.
  induction 1 as [|l ls Hl _ IH]; [change (mjoin []) with (@nil A); rewrite countb_nil; simpl length; lia|].
  change (mjoin (l :: ls)) with (l ++ mjoin ls). cbn [length]. rewrite countb_app, Nat2Z.inj_succ, Z.mul_succ_r.
  pose proof (countb_le_length p l). lia.
Qed.

Lemma fd_count_bound k t : kernel_wf k -> fd_count t (k_processes k) <= 128.
Proof.
  intros Hk. pose proof (countb_mjoin_bound (fd_is t) 16 (fds_of <$> k_processes k)) as H.
  rewrite length_fmap, (wf_processes _ Hk) in H. apply H. apply list.Forall_forall. intros l Hl.
  apply list_elem_of_fmap in Hl as (o & -> & Ho). apply elem_zget in Ho as (i & _ & Hi).
  destruct o as [p|]; [|simpl; lia]. destruct (wf_process _ Hk _ _ Hi) as [Hp _]. simpl. lia.
Qed.

Lemma fd_count_nonneg t ps : 0 <= fd_count t ps.
Proof. apply countb_nonneg. Qed.

(** A descriptor that designates [t] is counted. *)
Lemma fd_count_pos k s p fd t :
  zget (k_processes k) s = Some (Some p) -> zget (p_fds p) fd = Some t -> 0 < fd_count t (k_processes k).
Proof.
  intros Hs Hf. pose proof (fd_count_set t _ s (Some p) None Hs) as H. simpl in H.
  pose proof (fd_count_nonneg t (zset (k_processes k) s None)). rewrite countb_nil in H.
  unfold zget in Hf. destruct (0 <=? fd); [|done].
  pose proof (countb_pos (fd_is t) (p_fds p) _ t Hf) as Hp. unfold fd_is in Hp at 1.
  rewrite bool_decide_eq_true_2 in Hp by done. specialize (Hp eq_refl). lia.
Qed.

(** ** The tables *)

(** Only the tables of open files and of pipes change. *)
Definition only_tables (k k' : Kernel) : Prop :=
  k' = k <| k_open_files := k_open_files k' |> <| k_pipes := k_pipes k' |> /\
  length (k_open_files k') = length (k_open_files k) /\ length (k_pipes k') = length (k_pipes k).

Lemma only_tables_trans k1 k2 k3 : only_tables k1 k2 -> only_tables k2 k3 -> only_tables k1 k3.
Proof.
  intros (H1 & H2 & H3) (H4 & H5 & H6). split; [|split; congruence].
  destruct k1, k2, k3. cbn in *. injection H1. injection H4. intros. subst. reflexivity.
Qed.

Lemma only_tables_refl k : only_tables k k.
Proof. split; [by destruct k|done]. Qed.

Lemma only_tables_wf k k' : only_tables k k' -> kernel_wf k -> kernel_wf k'.
Proof.
  intros (-> & H1 & H2) []. constructor; try done.
  - simpl in *. congruence.
  - simpl in *. congruence.
Qed.

Lemma only_tables_processes k k' : only_tables k k' ->
  k_processes k' = k_processes k /\ k_threads k' = k_threads k /\ k_current k' = k_current k.
Proof. intros (-> & _). done. Qed.

Lemma only_tables_cur k k' : only_tables k k' -> cur_proc k' = cur_proc k.
Proof. intros (-> & _). done. Qed.

Lemma set_file_only i f k : only_tables k (k <| k_open_files := zset (k_open_files k) i f |>).
Proof. split; [by destruct k|]. simpl. by rewrite length_zset. Qed.

Lemma set_pipe_only i f k : only_tables k (k <| k_pipes := zset (k_pipes k) i f |>).
Proof. split; [by destruct k|]. simpl. by rewrite length_zset. Qed.

(** Replacing an open file. *)
Lemma set_file_refs k i f f' t :
  zget (k_open_files k) i = Some f ->
  refs_of (k <| k_open_files := zset (k_open_files k) i f' |>) t =
    refs_of k t + ind (Open i) t * ((if of_in_use f' then of_refs f' else 0) - (if of_in_use f then of_refs f else 0)).
Proof.
  intros Hf. pose proof (zget_Some _ _ _ Hf) as Hb. unfold ind.
  destruct t as [| | | | |j|j|j]; simpl refs_of; try (rewrite decide_False by done; lia).
  destruct (decide (j = i)) as [->|Hne].
  - rewrite zget_zset_eq, Hf by done. rewrite decide_True by done. lia.
  - rewrite zget_zset_ne by (auto; lia). rewrite decide_False by congruence. lia.
Qed.

Lemma set_pipe_refs k i p p' t :
  zget (k_pipes k) i = Some p ->
  refs_of (k <| k_pipes := zset (k_pipes k) i p' |>) t =
    refs_of k t
    + ind (PipeRead i) t * ((if pp_in_use p' then pp_read_refs p' else 0) - (if pp_in_use p then pp_read_refs p else 0))
    + ind (PipeWrite i) t * ((if pp_in_use p' then pp_write_refs p' else 0) - (if pp_in_use p then pp_write_refs p else 0)).
Proof.
  intros Hf. pose proof (zget_Some _ _ _ Hf) as Hb. unfold ind.
  destruct t as [| | | | |j|j|j]; simpl refs_of; try (rewrite !decide_False by done; lia).
  - rewrite (decide_False (P := PipeRead j = PipeWrite i)) by done. destruct (decide (j = i)) as [->|Hne].
    + rewrite zget_zset_eq, Hf by done. rewrite decide_True by done. lia.
    + rewrite zget_zset_ne by (auto; lia). rewrite decide_False by congruence. lia.
  - rewrite (decide_False (P := PipeWrite j = PipeRead i)) by done. destruct (decide (j = i)) as [->|Hne].
    + rewrite zget_zset_eq, Hf by done. rewrite decide_True by done. lia.
    + rewrite zget_zset_ne by (auto; lia). rewrite decide_False by congruence. lia.
Qed.

Lemma tables_ok_set_file k i f' : 0 <= i ->
  tables_ok k -> (of_in_use f' = true -> 0 < of_refs f') ->
  tables_ok (k <| k_open_files := zset (k_open_files k) i f' |>).
Proof.
  intros Hi [H1 H2] Hf. split; [|done]. intros j g Hg Hu. simpl in Hg. destruct (decide (j = i)) as [->|].
  - pose proof (zget_Some _ _ _ Hg) as Hb. rewrite length_zset in Hb. rewrite zget_zset_eq in Hg by done. simplify_eq. auto.
  - rewrite zget_zset_ne in Hg by auto. eauto.
Qed.

Lemma tables_ok_set_pipe k i p' : 0 <= i ->
  tables_ok k ->
  (pp_in_use p' = true -> 0 <= pp_read_refs p' /\ 0 <= pp_write_refs p' /\ 0 < pp_read_refs p' + pp_write_refs p') ->
  tables_ok (k <| k_pipes := zset (k_pipes k) i p' |>).
Proof.
  intros Hi [H1 H2] Hf. split; [done|]. intros j g Hg Hu. simpl in Hg. destruct (decide (j = i)) as [->|].
  - pose proof (zget_Some _ _ _ Hg) as Hb. rewrite length_zset in Hb. rewrite zget_zset_eq in Hg by done. simplify_eq. auto.
  - rewrite zget_zset_ne in Hg by auto. eauto.
Qed.

(** ** Taking and dropping a reference *)

Lemma refs_used_open k i : kernel_wf k -> 0 < refs_of k (Open i) ->
  exists f, FdOpen.used k i = Some f /\ zget (k_open_files k) i = Some f /\ of_in_use f = true /\
    of_refs f = refs_of k (Open i).
Proof.
  intros Hk H. simpl in *. destruct (zget (k_open_files k) i) as [f|] eqn:E; [|done].
  destruct (of_in_use f) eqn:Eu; [|done]. exists f. split_and!; try done. unfold FdOpen.used.
  apply zget_Some in E as Hb. rewrite (wf_open_files _ Hk) in Hb. unfold MAX_OPEN_FILES.
  rewrite (proj2 (Z.ltb_lt _ _)) by lia. by rewrite E, Eu.
Qed.

Lemma refs_used_pipe k i : kernel_wf k -> 0 < refs_of k (PipeRead i) \/ 0 < refs_of k (PipeWrite i) ->
  exists p, FdPipe.used k i = Some p /\ zget (k_pipes k) i = Some p /\ pp_in_use p = true /\
    pp_read_refs p = refs_of k (PipeRead i) /\ pp_write_refs p = refs_of k (PipeWrite i).
Proof.
  intros Hk H. simpl in *. destruct (zget (k_pipes k) i) as [p|] eqn:E; [|by destruct H].
  destruct (pp_in_use p) eqn:Eu; [|by destruct H]. exists p. split_and!; try done. unfold FdPipe.used.
  apply zget_Some in E as Hb. rewrite (wf_pipes _ Hk) in Hb. unfold MAX_PIPES.
  rewrite (proj2 (Z.ltb_lt _ _)) by lia. by rewrite E, Eu.
Qed.

Lemma ind_uncounted t t' : counted t = false -> counted t' = true -> ind t t' = 0.
Proof. intros. unfold ind. case_decide; [congruence|done]. Qed.

(** A step that changes the tables by [d] and keeps them sound. *)
Lemma balance_tables D d k k' :
  balance D k -> only_tables k k' -> tables_ok k' -> (forall t, counted t = true -> refs_of k' t = refs_of k t + d t) ->
  balance (fun t => D t + d t) k'.
Proof.
  intros [_ H] Ho Ht Hd. split; [done|]. intros t Hc. rewrite Hd by done.
  destruct (only_tables_processes k k' Ho) as (-> & _). rewrite (H t Hc). lia.
Qed.

Lemma retain_balance D k t :
  kernel_wf k -> balance D k -> t <> Empty -> (counted t = true -> 0 < refs_of k t < U64 - 1) ->
  exists k', retain_fd_target t k = OOk true k' /\ only_tables k k' /\ balance (fun t' => D t' + ind t t') k'.
Proof.
  intros Hk Hb Hne Hpos.
  assert (counted t = false -> retain_fd_target t k = OOk true k ->
    exists k', retain_fd_target t k = OOk true k' /\ only_tables k k' /\ balance (fun t' => D t' + ind t t') k') as Huncounted.
  { intros Hc E. exists k. split; [done|]. split; [apply only_tables_refl|].
    eapply balance_ext; [|done]. intros t' Ht'. simpl. rewrite ind_uncounted by done. lia. }
  destruct t as [| | | | |i|i|i]; try done; try (by apply Huncounted); specialize (Hpos eq_refl); clear Huncounted.
  - destruct (refs_used_open k i Hk ltac:(lia)) as (f & Hu & Hf & Hin & Hr).
    simpl retain_fd_target. unfold FdOpen.retain. rewrite getM_bind, Hu. eexists. split; [reflexivity|].
    split; [apply set_file_only|]. apply (balance_tables D _ k); [done|apply set_file_only|..].
    + apply tables_ok_set_file; [by eapply zget_Some|apply Hb|]. intros _. simpl. rewrite wrap64_small by lia. lia.
    + intros t _. rewrite (set_file_refs k i f _ t Hf). simpl. rewrite Hin, wrap64_small by lia. lia.
  - destruct (refs_used_pipe k i Hk ltac:(lia)) as (p & Hu & Hp & Hin & Hr & Hw).
    destruct (proj2 (proj1 Hb) _ _ Hp Hin) as (H1 & H2 & H3).
    simpl retain_fd_target. unfold FdPipe.retain_read. rewrite getM_bind, Hu. eexists. split; [reflexivity|].
    split; [apply set_pipe_only|]. apply (balance_tables D _ k); [done|apply set_pipe_only|..].
    + apply tables_ok_set_pipe; [by eapply zget_Some|apply Hb|]. intros _. simpl. rewrite wrap64_small by lia. lia.
    + intros t _. rewrite (set_pipe_refs k i p _ t Hp). simpl. rewrite Hin, wrap64_small by lia. lia.
  - destruct (refs_used_pipe k i Hk ltac:(lia)) as (p & Hu & Hp & Hin & Hr & Hw).
    destruct (proj2 (proj1 Hb) _ _ Hp Hin) as (H1 & H2 & H3).
    simpl retain_fd_target. unfold FdPipe.retain_write. rewrite getM_bind, Hu. eexists. split; [reflexivity|].
    split; [apply set_pipe_only|]. apply (balance_tables D _ k); [done|apply set_pipe_only|..].
    + apply tables_ok_set_pipe; [by eapply zget_Some|apply Hb|]. intros _. simpl. rewrite wrap64_small by lia. lia.
    + intros t _. rewrite (set_pipe_refs k i p _ t Hp). simpl. rewrite Hin, wrap64_small by lia. lia.
Qed.

(** Dropping one end of a pipe. *)
Lemma reclaim_refs p :
  0 <= pp_read_refs p -> 0 <= pp_write_refs p -> pp_in_use p = true ->
  let q := FdPipe.reclaim p in
  (if pp_in_use q then pp_read_refs q else 0) = pp_read_refs p /\
  (if pp_in_use q then pp_write_refs q else 0) = pp_write_refs p /\
  (pp_in_use q = true -> 0 <= pp_read_refs q /\ 0 <= pp_write_refs q /\ 0 < pp_read_refs q + pp_write_refs q).
Proof.
  intros H1 H2 Hu. unfold FdPipe.reclaim. cbv zeta.
  destruct (Z.eqb_spec (pp_read_refs p) 0), (Z.eqb_spec (pp_write_refs p) 0); cbn [andb];
    rewrite ?Hu; change (pp_in_use Pipe_empty) with false; cbn iota; split_and!; try done; try lia.
Qed.

Lemma release_balance D k t :
  kernel_wf k -> balance D k -> (counted t = true -> 0 < refs_of k t) ->
  exists k', release_fd_target t k = OOk tt k' /\ only_tables k k' /\ balance (fun t' => D t' - ind t t') k'.
Proof.
  intros Hk Hb Hpos.
  assert (counted t = false -> release_fd_target t k = OOk tt k ->
    exists k', release_fd_target t k = OOk tt k' /\ only_tables k k' /\ balance (fun t' => D t' - ind t t') k') as Huncounted.
  { intros Hc E. exists k. split; [done|]. split; [apply only_tables_refl|].
    eapply balance_ext; [|done]. intros t' Ht'. simpl. rewrite ind_uncounted by done. lia. }
  destruct t as [| | | | |i|i|i]; try (by apply Huncounted); specialize (Hpos eq_refl); clear Huncounted.
  - destruct (refs_used_open k i Hk Hpos) as (f & Hu & Hf & Hin & Hr).
    simpl release_fd_target. unfold FdOpen.release. rewrite getM_bind, Hu. pose proof (zget_Some _ _ _ Hf) as Hi.
    destruct (Z.ltb_spec 1 (of_refs f)).
    + eexists. split; [reflexivity|]. split; [apply set_file_only|].
      apply (balance_tables D (fun t' => - ind (Open i) t') k); [done|apply set_file_only|..].
      * apply tables_ok_set_file; [lia|apply Hb|]. intros _. simpl. lia.
      * intros t _. rewrite (set_file_refs k i f _ t Hf). simpl. rewrite Hin. lia.
    + eexists. split; [reflexivity|]. split; [apply set_file_only|].
      apply (balance_tables D (fun t' => - ind (Open i) t') k); [done|apply set_file_only|..].
      * apply tables_ok_set_file; [lia|apply Hb|]. done.
      * intros t _. rewrite (set_file_refs k i f _ t Hf), Hin. replace (of_refs f) with 1 by lia. change (of_in_use OpenFile_empty) with false. cbn iota. lia.
  - destruct (refs_used_pipe k i Hk ltac:(lia)) as (p & Hu & Hp & Hin & Hr & Hw).
    destruct (proj2 (proj1 Hb) _ _ Hp Hin) as (H1 & H2 & H3). pose proof (zget_Some _ _ _ Hp) as Hi.
    simpl release_fd_target. unfold FdPipe.release_read. rewrite getM_bind, Hu. rewrite (proj2 (Z.ltb_lt _ _)) by lia. cbv zeta.
    set (q := p <| pp_read_refs := pp_read_refs p - 1 |>).
    destruct (reclaim_refs q ltac:(simpl; lia) ltac:(simpl; lia) Hin) as (E1 & E2 & E3).
    eexists. split; [reflexivity|]. split; [apply set_pipe_only|].
    apply (balance_tables D (fun t' => - ind (PipeRead i) t') k); [done|apply set_pipe_only|..].
    + apply tables_ok_set_pipe; [lia|apply Hb|done].
    + intros t _. rewrite (set_pipe_refs k i p _ t Hp), E1, E2, Hin. simpl. lia.
  - destruct (refs_used_pipe k i Hk ltac:(lia)) as (p & Hu & Hp & Hin & Hr & Hw).
    destruct (proj2 (proj1 Hb) _ _ Hp Hin) as (H1 & H2 & H3). pose proof (zget_Some _ _ _ Hp) as Hi.
    simpl release_fd_target. unfold FdPipe.release_write. rewrite getM_bind, Hu. rewrite (proj2 (Z.ltb_lt _ _)) by lia. cbv zeta.
    set (q := p <| pp_write_refs := pp_write_refs p - 1 |>).
    destruct (reclaim_refs q ltac:(simpl; lia) ltac:(simpl; lia) Hin) as (E1 & E2 & E3).
    eexists. split; [reflexivity|]. split; [apply set_pipe_only|].
    apply (balance_tables D (fun t' => - ind (PipeWrite i) t') k); [done|apply set_pipe_only|..].
    + apply tables_ok_set_pipe; [lia|apply Hb|done].
    + intros t _. rewrite (set_pipe_refs k i p _ t Hp), E1, E2, Hin. simpl. lia.
Qed.

(** ** Changing a descriptor *)

Lemma fd_change_balance D k slot p p' fd old new :
  kernel_wf k -> balance D k -> zget (k_processes k) slot = Some (Some p) -> zget (p_fds p) fd = Some old ->
  p_fds p' = zset (p_fds p) fd new -> process_wf p' ->
  let k' := k <| k_processes := zset (k_processes k) slot (Some p') |> in
  set_process slot (Some p') k = OOk tt k' /\ kernel_wf k' /\ balance (fun t => D t + ind old t - ind new t) k'.
Proof.
  intros Hk [Ht Hb] Hp Hfd Hp' Hwf k'. split; [by apply set_process_run with (p := Some p)|].
  split; [by apply wf_set_process|]. split; [done|]. intros t Hc. change (refs_of k' t) with (refs_of k t).
  change (k_processes k') with (zset (k_processes k) slot (Some p')). rewrite (Hb t Hc).
  rewrite (fd_count_set t _ _ _ (Some p') Hp). simpl fds_of. rewrite Hp', (countb_zset _ _ _ _ new Hfd).
  unfold fd_is, ind. repeat case_decide; repeat case_bool_decide; try congruence; lia.
Qed.

Lemma free_fd_Some fds from fd : free_fd fds from = Some fd -> zget fds fd = Some Empty /\ from <= fd < 16.
Proof.
  unfold free_fd. intros H. apply find_Some_seqZ in H as (Hr & Hp & _).
  destruct (zget fds fd) as [[]|]; try done. split; [done|]. unfold MAX_FDS in Hr. lia.
Qed.

(** The operation succeeds and keeps the kernel well formed and the counts
    exact. *)
Definition keeps {A} (k : Kernel) (m : M Kernel A) : Prop :=
  exists a k', m k = OOk a k' /\ kernel_wf k' /\ refs_ok k'.

(** The operation succeeds and keeps the kernel well formed; the counts are
    those of the descriptors and of the [lost] ones, which no process holds
    any more. *)
Definition leaves_behind {A} (k : Kernel) (m : M Kernel A) (lost : list FdTarget) : Prop :=
  exists a k', m k = OOk a k' /\ kernel_wf k' /\ balance (fun t => countb (fd_is t) lost) k'.

Lemma leaves_nothing {A} k (m : M Kernel A) lost : Forall (fun t => counted t = false) lost -> leaves_behind k m lost -> keeps k m.
Proof.
  intros Hl (a & k' & E & Hk & Hb). exists a, k'. split; [done|]. split; [done|]. eapply balance_ext; [|exact Hb].
  intros t Ht. cbn beta. induction Hl as [|x lost Hx _ IH]; [done|]. rewrite countb_cons. unfold fd_is at 1.
  case_bool_decide; [congruence|]. rewrite IH; [lia|]. eapply balance_ext; [|exact Hb]. intros t' Ht'. cbn beta. rewrite countb_cons.
  unfold fd_is at 1. case_bool_decide; [congruence|lia].
Qed.

Lemma keeps_same {A} k (m : M Kernel A) a : kernel_wf k -> refs_ok k -> m k = OOk a k -> keeps k m.
Proof. intros H1 H2 H3. by exists a, k. Qed.

Lemma set_fd_wf p fd t flags : process_wf p ->
  process_wf (p <| p_fds := zset (p_fds p) fd t |> <| p_fd_flags := zset (p_fd_flags p) fd flags |>).
Proof. intros (H1 & H2 & H3 & H4). split_and!; simpl; rewrite ?length_zset; done. Qed.

Lemma refs_change D D' k k' t :
  only_tables k k' -> balance D k -> balance D' k' -> counted t = true -> refs_of k' t = refs_of k t + (D' t - D t).
Proof.
  intros Ho [_ H] [_ H'] Hc. rewrite (H t Hc), (H' t Hc). destruct (only_tables_processes _ _ Ho) as (-> & _). lia.
Qed.

Lemma cur_proc_set k slot p p' : kernel_wf k -> cur_proc k = Some (slot, p) ->
  cur_proc (k <| k_processes := zset (k_processes k) slot (Some p') |>) = Some (slot, p').
Proof.
  intros Hk Hp. destruct (cur_proc_wf k slot p Hk Hp) as (th & Hth & Hs & Hsl & Hgp & Hwp).
  unfold cur_proc. change (cur_thread (k <| k_processes := ?ps |>)) with (cur_thread k). rewrite Hth, <- Hs.
  change (k_processes (k <| k_processes := ?ps |>)) with ps. rewrite zget_zset_eq; [done|].
  rewrite (wf_processes _ Hk). lia.
Qed.

Lemma set_fd_balance D k slot p fd old new flags :
  kernel_wf k -> balance D k -> cur_proc k = Some (slot, p) -> zget (p_fds p) fd = Some old ->
  exists k' p', set_fd slot p fd new flags k = OOk tt k' /\ kernel_wf k' /\
    balance (fun t => D t + ind old t - ind new t) k' /\ cur_proc k' = Some (slot, p') /\
    p_fds p' = zset (p_fds p) fd new /\ (forall t, refs_of k' t = refs_of k t).
Proof.
  intros Hk Hb Hp Hfd. destruct (cur_proc_wf k slot p Hk Hp) as (th & Hth & Hs & Hsl & Hgp & Hwp).
  pose proof (set_fd_wf p fd new flags Hwp) as Hwf. unfold set_fd. set (p' := p <| p_fds := _ |> <| p_fd_flags := _ |>) in *.
  destruct (fd_change_balance D k slot p p' fd old new Hk Hb Hgp Hfd eq_refl Hwf) as (E1 & Hk1 & Hb1).
  eexists. exists p'. split; [exact E1|]. split_and!; try done. by apply cur_proc_set with p.
Qed.

(** [close_fd] on a descriptor that is open. *)
Lemma close_fd_run D k slot p fd t :
  kernel_wf k -> balance D k -> cur_proc k = Some (slot, p) -> 0 <= fd < 16 -> zget (p_fds p) fd = Some t ->
  t <> Empty -> (counted t = true -> 0 < refs_of k t) ->
  exists k', close_fd fd k = OOk true k' /\ kernel_wf k' /\ balance D k' /\
    (forall t', counted t' = true -> refs_of k' t' = refs_of k t' - ind t t').
Proof.
  intros Hk Hb Hp Hfd Ht Hne Hpos.
  unfold close_fd. rewrite (bind_ok _ _ _ _ _ (current_process_mut_eq k Hk)), Hp.
  rewrite (proj2 (Z.leb_gt _ _)) by (unfold MAX_FDS; lia). rewrite Ht.
  unfold unwrap at 1. rewrite (bind_ok _ _ k t k eq_refl).
  replace (is_empty_target t) with false by (destruct t; done).
  destruct (set_fd_balance D k slot p fd t Empty 0 Hk Hb Hp Ht) as (k1 & p1 & E1 & Hk1 & Hb1 & _ & _ & Hr1).
  rewrite (bind_ok _ _ _ _ _ E1).
  destruct (release_balance _ k1 t Hk1 Hb1) as (k2 & E2 & Ho & Hb2); [by rewrite Hr1|]. rewrite (bind_ok _ _ _ _ _ E2).
  exists k2. split; [done|]. split; [by eapply only_tables_wf|]. split.
  - eapply balance_ext; [|exact Hb2]. intros t' Hc. cbn beta. rewrite (ind_uncounted Empty t') by done. lia.
  - intros t' Hc. rewrite (refs_change _ _ _ _ t' Ho Hb1 Hb2 Hc), Hr1. lia.
Qed.

Lemma close_keeps k fd : kernel_wf k -> refs_ok k -> 0 <= fd -> keeps k (close_fd fd).
Proof.
  intros Hk Hr Hfd. destruct (cur_proc k) as [[slot p]|] eqn:Hp.
  2:{ apply (keeps_same k _ false); [done..|]. unfold close_fd.
      by rewrite (bind_ok _ _ _ _ _ (current_process_mut_eq k Hk)), Hp. }
  destruct (cur_proc_wf k slot p Hk Hp) as (th & Hth & Hs & Hsl & Hgp & (Hl & Hl2)).
  destruct (Z.leb_spec MAX_FDS fd).
  { apply (keeps_same k _ false); [done..|]. unfold close_fd.
    rewrite (bind_ok _ _ _ _ _ (current_process_mut_eq k Hk)), Hp. by rewrite (proj2 (Z.leb_le _ _)). }
  unfold MAX_FDS in *. destruct (zget_is_Some (p_fds p) fd) as [t Ht]; [lia|]. destruct (decide (t = Empty)) as [->|Hne].
  { apply (keeps_same k _ false); [done..|]. unfold close_fd.
    rewrite (bind_ok _ _ _ _ _ (current_process_mut_eq k Hk)), Hp.
    rewrite (proj2 (Z.leb_gt _ _)) by (unfold MAX_FDS; lia). by rewrite Ht. }
  destruct (close_fd_run _ k slot p fd t Hk Hr Hp ltac:(lia) Ht Hne) as (k' & E & Hk' & Hb' & _); [|by exists true, k'].
  intros Hc. rewrite (proj2 Hr t Hc). pose proof (fd_count_pos k slot p fd t Hgp Ht). lia.
Qed.

(** ** Allocation *)

Lemma alloc_open_balance D k file_idx flags :
  kernel_wf k -> balance D k ->
  FdOpen.alloc file_idx flags k = OOk None k \/
  exists i k', FdOpen.alloc file_idx flags k = OOk (Some i) k' /\ only_tables k k' /\
    balance (fun t => D t + ind (Open i) t) k' /\ refs_of k' (Open i) = 1.
Proof.
  intros Hk Hb. unfold FdOpen.alloc. rewrite getM_bind.
  destruct (zposition _ _) as [i|] eqn:E; [right|by left].
  apply zposition_Some in E as (f & Hf & Hu & Hi). breflect. exists i. eexists. split; [reflexivity|].
  split; [apply set_file_only|]. split.
  - apply (balance_tables D _ k); [done|apply set_file_only|..].
    + apply tables_ok_set_file; [lia|apply Hb|]. done.
    + intros t _. rewrite (set_file_refs k i f _ t Hf), Hu. simpl. lia.
  - simpl. by rewrite zget_zset_eq.
Qed.

Lemma alloc_pipe_balance D k :
  kernel_wf k -> balance D k ->
  FdPipe.alloc k = OOk None k \/
  exists i k', FdPipe.alloc k = OOk (Some i) k' /\ only_tables k k' /\ 0 <= i < 16 /\
    balance (fun t => D t + ind (PipeRead i) t + ind (PipeWrite i) t) k' /\
    refs_of k' (PipeRead i) = 1 /\ refs_of k' (PipeWrite i) = 1.
Proof.
  intros Hk Hb. unfold FdPipe.alloc. rewrite getM_bind.
  destruct (zposition _ _) as [i|] eqn:E; [right|by left].
  apply zposition_Some in E as (p & Hp & Hu & Hi). breflect. exists i. eexists. split; [reflexivity|].
  split; [apply set_pipe_only|]. split; [rewrite (wf_pipes _ Hk) in Hi; lia|]. split.
  - apply balance_ext with (fun t => D t + (ind (PipeRead i) t + ind (PipeWrite i) t)); [intros; lia|].
    apply (balance_tables D _ k); [done|apply set_pipe_only|..].
    + apply tables_ok_set_pipe; [lia|apply Hb|]. done.
    + intros t _. rewrite (set_pipe_refs k i p _ t Hp), Hu. simpl. lia.
  - simpl. by rewrite !zget_zset_eq.
Qed.

Lemma alloc_specific_fd_balance D k slot p t flags :
  kernel_wf k -> balance D k -> cur_proc k = Some (slot, p) ->
  alloc_specific_fd t flags k = OOk None k \/
  exists fd k' p', alloc_specific_fd t flags k = OOk (Some fd) k' /\ kernel_wf k' /\ cur_proc k' = Some (slot, p') /\
    balance (fun t' => D t' - ind t t') k' /\ (forall t', refs_of k' t' = refs_of k t') /\
    zget (p_fds p') fd = Some t /\ 3 <= fd < 16.
Proof.
  intros Hk Hb Hp. destruct (cur_proc_wf k slot p Hk Hp) as (th & Hth & Hs & Hsl & Hgp & Hwp).
  unfold alloc_specific_fd. rewrite (bind_ok _ _ _ _ _ (current_process_mut_eq k Hk)), Hp.
  destruct (free_fd (p_fds p) 3) as [fd|] eqn:Ef; [right|by left]. apply free_fd_Some in Ef as [Hfd Hr].
  destruct (set_fd_balance D k slot p fd Empty t flags Hk Hb Hp Hfd) as (k1 & p1 & E1 & Hk1 & Hb1 & Hp1 & Hf1 & Hr1).
  rewrite (bind_ok _ _ _ _ _ E1). exists fd, k1, p1. split; [done|]. split; [done|]. split; [done|]. split.
  - eapply balance_ext; [|exact Hb1]. intros t' Hc. cbn beta. rewrite (ind_uncounted Empty t') by done. lia.
  - split; [done|]. split; [|done]. rewrite Hf1. apply zget_zset_eq. destruct Hwp as [-> _]. lia.
Qed.

Lemma open_keeps k slot p file_idx flags :
  kernel_wf k -> refs_ok k -> cur_proc k = Some (slot, p) -> keeps k (open_file file_idx flags).
Proof.
  intros Hk Hr Hp. unfold open_file, alloc_fd_with_flags, keeps.
  destruct (alloc_open_balance _ k file_idx flags Hk Hr) as [E|(i & k1 & E & Ho & Hb1 & H1)];
    rewrite (bind_ok _ _ _ _ _ E); [by exists None, k|].
  assert (kernel_wf k1) as Hk1 by by eapply only_tables_wf.
  assert (cur_proc k1 = Some (slot, p)) as Hp1 by by rewrite (only_tables_cur _ _ Ho).
  destruct (cur_proc_wf k1 slot p Hk1 Hp1) as (th & Hth & Hs & Hsl & Hgp & Hwp).
  rewrite (bind_ok _ _ _ _ _ (current_process_mut_eq k1 Hk1)), Hp1.
  destruct (free_fd (p_fds p) 3) as [fd|] eqn:Ef.
  - apply free_fd_Some in Ef as [Hfd Hrange].
    destruct (set_fd_balance _ k1 slot p fd Empty (Open i) 0 Hk1 Hb1 Hp1 Hfd) as (k2 & p2 & E1 & Hk2 & Hb2 & _).
    rewrite (bind_ok _ _ _ _ _ E1). do 2 eexists. split; [reflexivity|]. split; [done|].
    eapply balance_ext; [|exact Hb2]. intros t Hc. cbn beta. rewrite (ind_uncounted Empty t) by done. lia.
  - destruct (release_balance _ k1 (Open i) Hk1 Hb1) as (k2 & E2 & Ho2 & Hb2); [intros _; lia|].
    rewrite (bind_ok _ _ _ _ _ E2). do 2 eexists. split; [reflexivity|]. split; [by eapply only_tables_wf|].
    eapply balance_ext; [|exact Hb2]. intros t Hc. simpl. lia.
Qed.

Lemma clear_balance D k i :
  kernel_wf k -> balance D k -> 0 <= i < 16 ->
  exists k', FdPipe.clear i k = OOk tt k' /\ only_tables k k' /\
    balance (fun t => D t - ind (PipeRead i) t * refs_of k (PipeRead i) - ind (PipeWrite i) t * refs_of k (PipeWrite i)) k'.
Proof.
  intros Hk Hb Hi. unfold FdPipe.clear. rewrite (proj2 (Z.ltb_lt _ _)) by (unfold MAX_PIPES; lia).
  destruct (zget_is_Some (k_pipes k) i) as [p Hp]; [rewrite (wf_pipes _ Hk); lia|].
  eexists. split; [reflexivity|]. split; [apply set_pipe_only|].
  apply balance_ext with (fun t => D t + (- ind (PipeRead i) t * refs_of k (PipeRead i) - ind (PipeWrite i) t * refs_of k (PipeWrite i)));
    [intros; lia|].
  apply (balance_tables D _ k); [done|apply set_pipe_only|..].
  - apply tables_ok_set_pipe; [lia|apply Hb|done].
  - intros t _. rewrite (set_pipe_refs k i p _ t Hp). simpl refs_of. rewrite Hp.
    change (pp_in_use Pipe_empty) with false. cbn iota. lia.
Qed.

Lemma pipe_keeps k slot p : kernel_wf k -> refs_ok k -> cur_proc k = Some (slot, p) -> keeps k create_pipe_pair.
Proof.
  intros Hk Hr Hp. unfold create_pipe_pair, alloc_pipe, keeps.
  destruct (alloc_pipe_balance _ k Hk Hr) as [E|(i & k1 & E & Ho & Hi & Hb1 & HR & HW)];
    rewrite (bind_ok _ _ _ _ _ E); [by exists None, k|].
  assert (kernel_wf k1) as Hk1 by by eapply only_tables_wf.
  assert (cur_proc k1 = Some (slot, p)) as Hp1 by by rewrite (only_tables_cur _ _ Ho).
  destruct (alloc_specific_fd_balance _ k1 slot p (PipeRead i) 0 Hk1 Hb1 Hp1)
    as [E1|(rfd & k2 & p2 & E1 & Hk2 & Hp2 & Hb2 & Hrefs2 & Hrfd & Hrange)]; rewrite (bind_ok _ _ _ _ _ E1).
  { destruct (clear_balance _ k1 i Hk1 Hb1 Hi) as (k3 & E3 & Ho3 & Hb3). rewrite (bind_ok _ _ _ _ _ E3).
    do 2 eexists. split; [reflexivity|]. split; [by eapply only_tables_wf|].
    eapply balance_ext; [|exact Hb3]. intros t _. cbn beta. rewrite HR, HW. lia. }
  destruct (alloc_specific_fd_balance _ k2 slot p2 (PipeWrite i) 0 Hk2 Hb2 Hp2)
    as [E2|(wfd & k3 & p3 & E2 & Hk3 & Hp3 & Hb3 & _)]; rewrite (bind_ok _ _ _ _ _ E2).
  - destruct (close_fd_run _ k2 slot p2 rfd (PipeRead i) Hk2 Hb2 Hp2 ltac:(lia) Hrfd) as (k3 & E3 & Hk3 & Hb3 & Hd3);
      [done|intros _; rewrite Hrefs2; lia|]. rewrite (bind_ok _ _ _ _ _ E3).
    destruct (clear_balance _ k3 i Hk3 Hb3 Hi) as (k4 & E4 & Ho4 & Hb4). rewrite (bind_ok _ _ _ _ _ E4).
    do 2 eexists. split; [reflexivity|]. split; [by eapply only_tables_wf|].
    eapply balance_ext; [|exact Hb4]. intros t _. cbn beta.
    rewrite !Hd3, !Hrefs2, HR, HW by done. unfold ind. repeat case_decide; simplify_eq; lia.
  - do 2 eexists. split; [reflexivity|]. split; [done|].
    eapply balance_ext; [|exact Hb3]. intros t _. simpl. lia.
Qed.

(** ** Duplication *)

Lemma put_fd_target_balance D k slot p fd old new :
  kernel_wf k -> balance D k -> cur_proc k = Some (slot, p) -> zget (p_fds p) fd = Some old ->
  exists k', put_fd_target slot fd new k = OOk tt k' /\ kernel_wf k' /\
    balance (fun t => D t + ind old t - ind new t) k' /\
    cur_proc k' = Some (slot, p <| p_fds := zset (p_fds p) fd new |>) /\ (forall t, refs_of k' t = refs_of k t).
Proof.
  intros Hk Hb Hp Hfd. destruct (cur_proc_wf k slot p Hk Hp) as (th & Hth & Hs & Hsl & Hgp & Hwp).
  unfold put_fd_target. rewrite (bind_ok _ _ _ _ _ (process_at_run _ _ _ Hgp)).
  set (p' := p <| p_fds := zset (p_fds p) fd new |>).
  destruct (fd_change_balance D k slot p p' fd old new Hk Hb Hgp Hfd eq_refl) as (E1 & Hk1 & Hb1).
  { destruct Hwp as (H1 & H2 & H3 & H4). split_and!; simpl; rewrite ?length_zset; done. }
  eexists. split; [exact E1|]. split_and!; try done. by apply cur_proc_set with p.
Qed.

Lemma put_fd_flags_balance D k slot p fd flags :
  kernel_wf k -> balance D k -> cur_proc k = Some (slot, p) ->
  exists k', put_fd_flags slot fd flags k = OOk tt k' /\ kernel_wf k' /\ balance D k'.
Proof.
  intros Hk [Ht Hb] Hp. destruct (cur_proc_wf k slot p Hk Hp) as (th & Hth & Hs & Hsl & Hgp & Hwp).
  unfold put_fd_flags. rewrite (bind_ok _ _ _ _ _ (process_at_run _ _ _ Hgp)).
  eexists. split; [by apply set_process_run with (p := Some p)|]. split.
  - apply wf_set_process; [done|]. destruct Hwp as (H1 & H2 & H3 & H4). split_and!; simpl; rewrite ?length_zset; done.
  - split; [done|]. intros t Hc. pose proof (Hb t Hc) as E. change (refs_of _ t) with (refs_of k t) at 1. rewrite E.
    match goal with |- context [k_processes (k <| k_processes := ?ps |>)] =>
      change (k_processes (k <| k_processes := ps |>)) with ps end.
    rewrite (fd_count_set t _ _ _ _ Hgp). simpl fds_of. lia.
Qed.

Lemma refs_bounds k slot p fd t :
  kernel_wf k -> refs_ok k -> zget (k_processes k) slot = Some (Some p) -> zget (p_fds p) fd = Some t ->
  counted t = true -> 0 < refs_of k t < U64 - 1.
Proof.
  intros Hk Hr Hp Hfd Hc. rewrite (proj2 Hr t Hc). pose proof (fd_count_pos k slot p fd t Hp Hfd).
  pose proof (fd_count_bound k t Hk). unfold U64. lia.
Qed.

Lemma dup_to_keeps k slot p old_fd target dest cloexec :
  kernel_wf k -> refs_ok k -> cur_proc k = Some (slot, p) -> zget (p_fds p) old_fd = Some target ->
  target <> Empty -> 0 <= dest < 16 -> dest <> old_fd -> keeps k (dup_to slot p target dest cloexec).
Proof.
  intros Hk Hr Hp Hold Hne Hd Hneq.
  destruct (cur_proc_wf k slot p Hk Hp) as (th & Hth & Hs & Hsl & Hgp & Hwp).
  destruct (zget_is_Some (p_fds p) dest) as [ot Hot]; [destruct Hwp as [-> _]; lia|].
  unfold keeps, dup_to. rewrite Hot. unfold unwrap at 1. rewrite (bind_ok _ _ k ot k eq_refl).
  assert (exists k1 p1, (if negb (is_empty_target ot) then put_fd_target slot dest Empty ;;; release_fd_target ot else retM tt) k
     = OOk tt k1 /\ kernel_wf k1 /\ refs_ok k1 /\ cur_proc k1 = Some (slot, p1) /\
     zget (p_fds p1) dest = Some Empty /\ zget (p_fds p1) old_fd = Some target) as (k1 & p1 & E1 & Hk1 & Hr1 & Hp1 & Hd1 & Ho1).
  { destruct (decide (ot = Empty)) as [->|Hot']; [by exists k, p|].
    replace (is_empty_target ot) with false by (destruct ot; done). cbn [negb].
    destruct (put_fd_target_balance _ k slot p dest ot Empty Hk Hr Hp Hot) as (k1 & E1 & Hk1 & Hb1 & Hp1 & Hrefs).
    rewrite (bind_ok _ _ _ _ _ E1). destruct (release_balance _ k1 ot Hk1 Hb1) as (k2 & E2 & Ho & Hb2).
    { intros Hc. rewrite Hrefs. pose proof (refs_bounds k slot p dest ot Hk Hr Hgp Hot Hc). lia. }
    exists k2. eexists. split; [exact E2|]. split; [by eapply only_tables_wf|]. split.
    { eapply balance_ext; [|exact Hb2]. intros t Hc. cbn beta. rewrite (ind_uncounted Empty t) by done. lia. }
    rewrite (only_tables_cur _ _ Ho). split; [exact Hp1|]. simpl.
    pose proof (zget_Some _ _ _ Hot). split; [by apply zget_zset_eq|by rewrite zget_zset_ne by lia]. }
  rewrite (bind_ok _ _ _ _ _ E1).
  destruct (cur_proc_wf k1 slot p1 Hk1 Hp1) as (_ & _ & _ & _ & Hgp1 & Hwp1).
  destruct (retain_balance _ k1 target Hk1 Hr1 Hne) as (k2 & E2 & Ho2 & Hb2).
  { intros Hc. by apply (refs_bounds k1 slot p1 old_fd). }
  rewrite (bind_ok _ _ _ _ _ E2). cbn [negb]. assert (kernel_wf k2) as Hk2 by by eapply only_tables_wf.
  assert (cur_proc k2 = Some (slot, p1)) as Hp2 by by rewrite (only_tables_cur _ _ Ho2).
  destruct (put_fd_target_balance _ k2 slot p1 dest Empty target Hk2 Hb2 Hp2 Hd1) as (k3 & E3 & Hk3 & Hb3 & Hp3 & _).
  rewrite (bind_ok _ _ _ _ _ E3).
  destruct (put_fd_flags_balance _ k3 slot _ dest (if cloexec then FD_CLOEXEC else 0) Hk3 Hb3 Hp3) as (k4 & E4 & Hk4 & Hb4).
  rewrite (bind_ok _ _ _ _ _ E4). do 2 eexists. split; [reflexivity|]. split; [done|].
  eapply balance_ext; [|exact Hb4]. intros t Hc. cbn beta. rewrite (ind_uncounted Empty t) by done. lia.
Qed.

Lemma dup_keeps k old_fd min_fd new_fd cloexec :
  kernel_wf k -> refs_ok k -> 0 <= old_fd -> 0 <= min_fd -> (forall fd, new_fd = Some fd -> 0 <= fd) ->
  keeps k (dup_fd old_fd min_fd new_fd cloexec).
Proof.
  intros Hk Hr Hold Hmin Hnew. unfold keeps, dup_fd. rewrite (bind_ok _ _ _ _ _ (current_process_mut_eq k Hk)).
  destruct (cur_proc k) as [[slot p]|] eqn:Hp; [|by exists None, k].
  destruct (cur_proc_wf k slot p Hk Hp) as (th & Hth & Hs & Hsl & Hgp & Hwp).
  destruct (Z.leb_spec MAX_FDS old_fd); [by exists None, k|]. unfold MAX_FDS in *.
  destruct (zget_is_Some (p_fds p) old_fd) as [t Ht]; [destruct Hwp as [-> _]; lia|]. rewrite Ht.
  unfold unwrap at 1. rewrite (bind_ok _ _ k t k eq_refl).
  destruct (decide (t = Empty)) as [->|Hne]; [by exists None, k|].
  replace (is_empty_target t) with false by (destruct t; done). destruct new_fd as [fd|].
  - specialize (Hnew fd eq_refl). destruct (Z.leb_spec 16 fd); [by exists None, k|].
    destruct (Z.eqb_spec fd old_fd) as [->|]; [by exists (Some old_fd), k|]. by apply (dup_to_keeps k slot p old_fd).
  - destruct (free_fd (p_fds p) min_fd) as [fd|] eqn:Ef; [|by exists None, k].
    apply free_fd_Some in Ef as [Hfd Hrange]. apply (dup_to_keeps k slot p old_fd); try done; [lia|].
    intros ->. congruence.
Qed.

(** ** Fork and reap *)

Lemma fork_retain_eq t k b k' : retain_fd_target t k = OOk b k' -> fork_retain t k = OOk tt k'.
Proof.
  unfold fork_retain. rewrite getM_bind. destruct t; simpl; unfold retM;
    unfold FdOpen.retain, FdPipe.retain_read, FdPipe.retain_write; rewrite ?getM_bind;
    repeat case_match; unfold bindM, FdOpen.set_file, FdPipe.set_pipe, modifyM, retM; intros [= <- <-]; done.
Qed.

Lemma countb_fd_cons t x fds : countb (fd_is t) (x :: fds) = ind x t + countb (fd_is t) fds.
Proof. rewrite countb_cons. unfold fd_is at 1, ind. case_bool_decide; case_decide; try congruence; lia. Qed.

Lemma retain_all D k fds :
  kernel_wf k -> balance D k ->
  (forall t, t ∈ fds -> counted t = true -> 0 < refs_of k t /\ refs_of k t + Z.of_nat (length fds) < U64) ->
  exists k', forM fds fork_retain k = OOk tt k' /\ only_tables k k' /\
    balance (fun t => D t + countb (fd_is t) fds) k'.
Proof.
  revert D k. induction fds as [|t fds IH]; intros D k Hk Hb Hpos.
  { exists k. split; [done|]. split; [apply only_tables_refl|]. eapply balance_ext; [|done]. intros t _.
    cbn beta. rewrite countb_nil. lia. }
  assert (exists k1, fork_retain t k = OOk tt k1 /\ only_tables k k1 /\ balance (fun t' => D t' + ind t t') k1)
    as (k1 & E1 & Ho1 & Hb1).
  { destruct (decide (t = Empty)) as [->|Hne].
    - exists k. split; [done|]. split; [apply only_tables_refl|]. eapply balance_ext; [|done]. intros t' Hc.
      cbn beta. rewrite ind_uncounted by done. lia.
    - destruct (retain_balance D k t Hk Hb Hne) as (k1 & E1 & Ho1 & Hb1).
      { intros Hc. destruct (Hpos t) as [H1 H2]; [set_solver|done|]. simpl length in H2. lia. }
      exists k1. split; [by eapply fork_retain_eq|done]. }
  destruct (IH _ k1 (only_tables_wf _ _ Ho1 Hk) Hb1) as (k2 & E2 & Ho2 & Hb2).
  { intros t' Ht' Hc. destruct (Hpos t') as [H1 H2]; [set_solver|done|]. simpl length in H2.
    rewrite (refs_change _ _ _ _ t' Ho1 Hb Hb1 Hc). unfold ind. case_decide; lia. }
  exists k2. cbn [forM]. rewrite (bind_ok _ _ _ _ _ E1). split; [done|]. split; [by eapply only_tables_trans|].
  eapply balance_ext; [|exact Hb2]. intros t' _. cbn beta. rewrite countb_fd_cons. lia.
Qed.

Lemma release_all D k fds :
  kernel_wf k -> balance D k -> (forall t, counted t = true -> countb (fd_is t) fds <= refs_of k t) ->
  exists k', release_fds fds k = OOk tt k' /\ only_tables k k' /\
    balance (fun t => D t - countb (fd_is t) fds) k'.
Proof.
  unfold release_fds. revert D k. induction fds as [|t fds IH]; intros D k Hk Hb Hpos.
  { exists k. split; [done|]. split; [apply only_tables_refl|]. eapply balance_ext; [|done]. intros t _.
    cbn beta. rewrite countb_nil. lia. }
  destruct (release_balance D k t Hk Hb) as (k1 & E1 & Ho1 & Hb1).
  { intros Hc. specialize (Hpos t Hc). rewrite countb_fd_cons in Hpos. unfold ind in Hpos.
    rewrite decide_True in Hpos by done. pose proof (countb_nonneg (fd_is t) fds). lia. }
  destruct (IH _ k1 (only_tables_wf _ _ Ho1 Hk) Hb1) as (k2 & E2 & Ho2 & Hb2).
  { intros t' Hc. specialize (Hpos t' Hc). rewrite countb_fd_cons in Hpos.
    rewrite (refs_change _ _ _ _ t' Ho1 Hb Hb1 Hc). lia. }
  exists k2. cbn [forM]. rewrite (bind_ok _ _ _ _ _ E1). split; [done|]. split; [by eapply only_tables_trans|].
  eapply balance_ext; [|exact Hb2]. intros t' _. cbn beta. rewrite countb_fd_cons. lia.
Qed.

(** Replacing a whole process entry. *)
Lemma set_process_balance D k s o o' :
  balance D k -> zget (k_processes k) s = Some o ->
  balance (fun t => D t + countb (fd_is t) (fds_of o) - countb (fd_is t) (fds_of o'))
    (k <| k_processes := zset (k_processes k) s o' |>).
Proof.
  intros [Ht Hb] Hs. split; [done|]. intros t Hc. change (refs_of _ t) with (refs_of k t) at 1. rewrite (Hb t Hc).
  match goal with |- context [k_processes (k <| k_processes := ?ps |>)] =>
    change (k_processes (k <| k_processes := ps |>)) with ps end.
  rewrite (fd_count_set t _ _ _ _ Hs). lia.
Qed.

Lemma set_thread_balance D k ts : balance D k -> balance D (k <| k_threads := ts |>).
Proof. done. Qed.

Lemma wf_drop_process k s : kernel_wf k -> 0 <= s -> kernel_wf (k <| k_processes := zset (k_processes k) s None |>).
Proof.
  intros Hk Hs. pose proof Hk as []. constructor; simpl; rewrite ?length_zset; try done. intros s' p Hp.
  pose proof (zget_Some _ _ _ Hp) as Hb. rewrite length_zset in Hb.
  destruct (decide (s' = s)) as [->|]; [by rewrite zget_zset_eq in Hp|]. rewrite zget_zset_ne in Hp by auto. eauto.
Qed.

(** A new process takes over its slot from whatever record was there. *)
Lemma fork_leaves k slot p s o :
  kernel_wf k -> refs_ok k -> cur_proc k = Some (slot, p) -> 0 <= s < 8 -> zget (k_processes k) s = Some o ->
  leaves_behind k (fork_current s) (fds_of o).
Proof.
  intros Hk Hr Hp Hs Hnone. unfold leaves_behind, fork_current, fetch_add_pid.
  set (k0 := k <| k_next_pid := k_next_pid k +w 1 |>).
  assert ((let* k := getM in modifyM (fun k => k <| k_next_pid := k_next_pid k +w 1 |>) ;;; retM (k_next_pid k)) k
    = OOk (k_next_pid k) k0) as E0 by done.
  rewrite (bind_ok _ _ _ _ _ E0). assert (kernel_wf k0) as Hk0 by by apply wf_next_pid.
  assert (refs_ok k0) as Hr0 by done. assert (cur_proc k0 = Some (slot, p)) as Hp0 by done.
  destruct (cur_proc_wf k0 slot p Hk0 Hp0) as (th & Hth & _ & _ & Hgp & Hwp).
  rewrite (bind_ok _ _ _ _ _ (current_process_eq k0 Hk0)), Hp0. cbn [fmap option_fmap option_map snd unwrap].
  rewrite (bind_ok _ _ k0 p k0 eq_refl). rewrite (bind_ok _ _ _ _ _ (current_thread_eq k0 Hk0)), Hth. cbn [unwrap].
  rewrite (bind_ok _ _ k0 th k0 eq_refl).
  destruct (retain_all _ k0 (p_fds p) Hk0 Hr0) as (k1 & E1 & Ho1 & Hb1).
  { intros t Ht Hc. apply elem_zget in Ht as (fd & _ & Hfd).
    rewrite (proj2 Hr0 t Hc). pose proof (fd_count_pos k0 slot p fd t Hgp Hfd). pose proof (fd_count_bound k0 t Hk0).
    destruct Hwp as [-> _]. unfold U64. lia. }
  rewrite (bind_ok _ _ _ _ _ E1). assert (kernel_wf k1) as Hk1 by by eapply only_tables_wf.
  destruct (only_tables_processes _ _ Ho1) as (Hps & Hts & _).
  assert (zget (k_processes k1) s = Some o) as Hs1 by by rewrite Hps.
  rewrite (bind_ok _ _ _ _ _ (set_process_run k1 s o _ Hs1)).
  set (q := Process_fork_from p (k_next_pid k)).
  pose proof (set_process_balance _ k1 s o (Some q) Hb1 Hs1) as Hb2.
  assert (kernel_wf (k1 <| k_processes := zset (k_processes k1) s (Some q) |>)) as Hk2
    by (apply wf_set_process; [done|by apply Process_fork_from_wf]).
  set (k2 := k1 <| k_processes := _ |>) in *. destruct (wf_slot_thread k2 s Hk2 Hs) as [th' Ho].
  rewrite (bind_ok _ _ _ _ _ (set_thread_run k2 s th' _ Ho)). do 2 eexists. split; [reflexivity|]. split.
  - apply wf_set_thread; [done|lia|]. split; simpl; [lia|done].
  - apply set_thread_balance. eapply balance_ext; [|exact Hb2]. intros t Hc. cbn beta. simpl fds_of. change (p_fds q) with (p_fds p). lia.
Qed.

Lemma spawn_leaves k s name o :
  kernel_wf k -> refs_ok k -> 0 <= s < 8 -> zget (k_processes k) s = Some o -> leaves_behind k (spawn_named s name) (fds_of o).
Proof.
  intros Hk Hr Hs Ho. unfold leaves_behind. rewrite spawn_named_run by done. do 2 eexists. split; [reflexivity|]. split.
  - eapply wf_set_thread'; [|reflexivity|lia|split; [simpl; lia|done]].
    eapply wf_set_process'; [by apply wf_next_pid|reflexivity|apply Process_new_leader_wf].
  - apply set_thread_balance. set (q := Process_new_leader _ _ _).
    set (k0 := k <| k_next_pid := _ |>). assert (refs_ok k0) as Hr0 by done. assert (zget (k_processes k0) s = Some o) as Ho0 by done.
    eapply balance_ext; [|exact (set_process_balance _ k0 s o (Some q) Hr0 Ho0)].
    intros t Hc. cbn beta. assert (countb (fd_is t) (fds_of (Some q)) = 0) as -> by (by destruct t). lia.
Qed.

Lemma reap_keeps k s : kernel_wf k -> refs_ok k -> 0 <= s < 8 -> keeps k (reap_slot s).
Proof.
  intros Hk Hr Hs. unfold keeps, reap_slot. destruct (wf_slot_process k s Hk Hs) as [o Ho].
  rewrite (bind_ok _ _ _ _ _ (process_at_run _ _ _ Ho)). destruct o as [p|]; [|by exists None, k].
  case_bool_decide; [|by exists None, k].
  destruct (release_all _ k (p_fds p) Hk Hr) as (k1 & E1 & Ho1 & Hb1).
  { intros t Hc. rewrite (proj2 Hr t Hc). pose proof (fd_count_set t _ s _ None Ho) as E. simpl in E.
    rewrite countb_nil in E. pose proof (fd_count_nonneg t (zset (k_processes k) s None)). lia. }
  rewrite (bind_ok _ _ _ _ _ E1). assert (kernel_wf k1) as Hk1 by by eapply only_tables_wf.
  destruct (only_tables_processes _ _ Ho1) as (Hps & Hts & _).
  assert (zget (k_processes k1) s = Some (Some p)) as Hs1 by by rewrite Hps.
  rewrite (bind_ok _ _ _ _ _ (set_process_run k1 s _ None Hs1)).
  pose proof (set_process_balance _ k1 s (Some p) None Hb1 Hs1) as Hb2.
  pose proof (wf_drop_process k1 s Hk1 ltac:(lia)) as Hk2. set (k2 := k1 <| k_processes := _ |>) in *.
  destruct (wf_slot_thread k2 s Hk2 Hs) as [o Hth].
  rewrite (bind_ok _ _ _ _ _ (set_thread_run k2 s o _ Hth)). do 2 eexists. split; [reflexivity|]. split.
  - by apply wf_drop_thread.
  - apply set_thread_balance. eapply balance_ext; [|exact Hb2]. intros t Hc. cbn beta. simpl fds_of. rewrite countb_nil. lia.
Qed.

(** ** The property *)

(** No descriptor dangles, nothing in use is forgotten. *)
Definition fds_sound (k : Kernel) : Prop :=
  (forall s p fd i, zget (k_processes k) s = Some (Some p) -> zget (p_fds p) fd = Some (Open i) ->
     exists f, FdOpen.used k i = Some f) /\
  (forall s p fd i, zget (k_processes k) s = Some (Some p) ->
     zget (p_fds p) fd = Some (PipeRead i) \/ zget (p_fds p) fd = Some (PipeWrite i) ->
     exists q, FdPipe.used k i = Some q) /\
  (forall i f, FdOpen.used k i = Some f -> 0 < fd_count (Open i) (k_processes k)) /\
  (forall i q, FdPipe.used k i = Some q -> 0 < fd_count (PipeRead i) (k_processes k) + fd_count (PipeWrite i) (k_processes k)).

Lemma refs_ok_sound k : kernel_wf k -> refs_ok k -> fds_sound k.
Proof.
  intros Hk [[Hf Hq] Hr]. split_and!.
  - intros s p fd i Hp Hfd. pose proof (fd_count_pos k s p fd _ Hp Hfd).
    destruct (refs_used_open k i Hk) as (f & Hu & _); [rewrite Hr by done; lia|by exists f].
  - intros s p fd i Hp Hfd. destruct (refs_used_pipe k i Hk) as (q & Hu & _); [|by exists q].
    destruct Hfd as [Hfd|Hfd]; [left|right]; rewrite Hr by done; pose proof (fd_count_pos k s p fd _ Hp Hfd); lia.
  - intros i f Hu. specialize (Hr (Open i) eq_refl). simpl in Hr. unfold FdOpen.used in Hu.
    destruct (i <? MAX_OPEN_FILES); [|done]. destruct (zget (k_open_files k) i) as [g|] eqn:E; [|done].
    destruct (of_in_use g) eqn:Eu; [|done]. specialize (Hf i g E Eu). lia.
  - intros i q Hu. pose proof (Hr (PipeRead i) eq_refl) as H1. pose proof (Hr (PipeWrite i) eq_refl) as H2. simpl in *.
    apply used_zget in Hu as [E Eu]. rewrite E, Eu in *. specialize (Hq i q E Eu). lia.
Qed.

(** C7: Descriptors never dangle and the descriptor calls leak nothing.  If
    every open file and pipe end counts exactly the descriptors of all
    processes that designate it, then every descriptor designates an entry in
    use and every entry in use is designated by some descriptor; and opening,
    closing, duplicating, making a pipe and reaping succeed without panicking
    and leave the counts exact.  So do forking and spawning when the process
    slot they are given is empty or its record holds no file and no pipe.
    They do not look at what is in the slot, and a task slot is reused while
    the record of a dead process in it still waits to be reaped: in that case
    the counts exceed the descriptors by exactly the descriptors of the
    overwritten record, which are never released. *)
Theorem fd_refcounts_exact k slot p :
  kernel_wf k -> refs_ok k -> cur_proc k = Some (slot, p) ->
  fds_sound k /\
  (forall file_idx flags, keeps k (open_file file_idx flags)) /\
  (forall fd, 0 <= fd -> keeps k (close_descriptor fd)) /\
  (forall old_fd min_fd cloexec, 0 <= old_fd -> 0 <= min_fd -> keeps k (dup_min old_fd min_fd cloexec)) /\
  (forall old_fd new_fd cloexec, 0 <= old_fd -> 0 <= new_fd -> keeps k (dup_exact old_fd new_fd cloexec)) /\
  keeps k create_pipe_pair /\
  (forall s, 0 <= s < 8 -> keeps k (reap_slot s)) /\
  (forall s o, 0 <= s < 8 -> zget (k_processes k) s = Some o ->
     leaves_behind k (fork_current s) (fds_of o) /\ (forall name, leaves_behind k (spawn_named s name) (fds_of o)) /\
     (Forall (fun t => counted t = false) (fds_of o) -> keeps k (fork_current s) /\ forall name, keeps k (spawn_named s name))).
Proof.
  intros Hk Hr Hp. split_and!.
  - by apply refs_ok_sound.
  - intros. by apply (open_keeps k slot p).
  - intros. by apply close_keeps.
  - intros. by apply dup_keeps.
  - intros. apply dup_keeps; try done. intros fd [= <-]. done.
  - by apply (pipe_keeps k slot p).
  - intros. by apply reap_keeps.
  - intros s o Hs Ho. pose proof (fork_leaves k slot p s o Hk Hr Hp Hs Ho) as Hf.
    assert (forall name, leaves_behind k (spawn_named s name) (fds_of o)) as Hn by (intros; by apply spawn_leaves).
    split; [done|]. split; [done|]. intros Hu. split; [by eapply leaves_nothing|]. intros. by eapply leaves_nothing.
Qed.

Lemma sample_proc_refs : refs_ok sample_proc.
Proof.
  split; [split|].
  - intros i f Hf Hu. apply (zget_replicate OpenFile_empty 32) in Hf. subst. discriminate Hu.
  - intros i f Hf Hu. apply (zget_replicate Pipe_empty 16) in Hf. subst. discriminate Hu.
  - assert (forall t, counted t = true -> fd_count t (k_processes sample_proc) = 0) as H0 by (intros []; done).
    intros t Ht. cbn beta. rewrite H0, Z.add_0_r by done. destruct t as [| | | | |i|i|i]; try done; unfold refs_of.
    + destruct (zget (k_open_files sample_proc) i) eqn:E; [apply (zget_replicate OpenFile_empty 32) in E; by subst|done].
    + destruct (zget (k_pipes sample_proc) i) eqn:E; [apply (zget_replicate Pipe_empty 16) in E; by subst|done].
    + destruct (zget (k_pipes sample_proc) i) eqn:E; [apply (zget_replicate Pipe_empty 16) in E; by subst|done].
Qed.

(** A dead process in slot 2 that had a file open and waits to be reaped. *)
Definition dead_with_file : Kernel :=
  let p := Process_new_leader 2 1 [100] in
  sample_proc
    <| k_open_files := zset (replicate 32 OpenFile_empty) 0 (mkOpenFile 0 0 0 1 true) |>
    <| k_processes := zset (k_processes sample_proc) 2
         (Some (p <| p_state := PZombie |> <| p_fds := zset default_fds 3 (Open 0) |>)) |>.

Lemma dead_with_file_wf : kernel_wf dead_with_file.
Proof. eapply wf_set_process'; [|reflexivity|done]. destruct sample_proc_wf. by constructor. Qed.

Lemma dead_with_file_refs : refs_ok dead_with_file.
Proof.
  assert (forall i f, zget (k_open_files dead_with_file) i = Some f -> i = 0 /\ f = mkOpenFile 0 0 0 1 true \/ i <> 0 /\ f = OpenFile_empty) as Hget.
  { intros i f Hf. pose proof (zget_Some _ _ _ Hf) as Hb. destruct (Z.eq_dec i 0) as [->|Hne]; [left; by injection Hf as <-|right].
    split; [done|]. cbn [k_open_files dead_with_file set_field] in Hf. unfold dead_with_file in Hf. cbn in Hf.
    apply (zget_replicate OpenFile_empty 32 i). rewrite <- Hf. symmetry. by apply zget_zset_ne. }
  split; [split|].
  - intros i f Hf Hu. by destruct (Hget i f Hf) as [[_ ->]|[_ ->]].
  - intros i f Hf Hu. apply (zget_replicate Pipe_empty 16) in Hf. subst. discriminate Hu.
  - intros t Ht. cbn beta. rewrite Z.add_0_r. destruct t as [| | | | |i|i|i]; try done; unfold refs_of.
    + trans (if i =? 0 then 1 else 0).
      * destruct (zget (k_open_files dead_with_file) i) as [f|] eqn:E.
        { destruct (Hget i f E) as [[-> ->]|[Hne ->]]; [done|]. by rewrite (proj2 (Z.eqb_neq _ _) Hne). }
        destruct (Z.eqb_spec i 0) as [->|]; [discriminate E|done].
      * unfold fd_count. vm_compute. by destruct i.
    + destruct (zget (k_pipes dead_with_file) i) eqn:E; [apply (zget_replicate Pipe_empty 16) in E; by subst|done].
    + destruct (zget (k_pipes dead_with_file) i) eqn:E; [apply (zget_replicate Pipe_empty 16) in E; by subst|done].
Qed.

(** A fork into an empty slot, and one into the slot of the dead process: its
    file stays in use with a reference that no descriptor accounts for. *)
Lemma fd_refcounts_exact_witness :
  keeps sample_proc create_pipe_pair /\ keeps sample_proc (fork_current 1) /\
  exists k', fork_current 2 dead_with_file = OOk 2 k' /\ refs_of k' (Open 0) = 1 /\ fd_count (Open 0) (k_processes k') = 0.
Proof.
  destruct (fd_refcounts_exact sample_proc 0 (Process_new_leader 1 0 [105]) sample_proc_wf sample_proc_refs eq_refl)
    as (_ & _ & _ & _ & _ & H1 & _ & H2).
  split; [exact H1|]. destruct (H2 1 None ltac:(lia) eq_refl) as (_ & _ & H2').
  split; [exact (proj1 (H2' (Forall_nil _)))|].
  destruct (fd_refcounts_exact dead_with_file 0 (Process_new_leader 1 0 [105]) dead_with_file_wf dead_with_file_refs eq_refl)
    as (_ & _ & _ & _ & _ & _ & _ & H3).
  destruct (H3 2 _ ltac:(lia) eq_refl) as ((pid & k' & E & _ & _ & Hb) & _). exists k'.
  assert (match fork_current 2 dead_with_file with OOk pid k' => pid = 2 /\ fd_count (Open 0) (k_processes k') = 0 | _ => False end)
    as Hrun by (vm_compute; split; reflexivity). rewrite E in Hrun. destruct Hrun as [Hpid H0].
  split; [rewrite E, Hpid; reflexivity|]. split; [|exact H0]. rewrite (Hb (Open 0) eq_refl), H0. vm_compute. reflexivity.
Defined.
