(* ===== verification/UserCopy.v ===== *)
(** * Crossing the user boundary ([usercopy.rs], [syscall/helpers.rs])

    The check of a user range, the copies in and out, the structures that are
    copied, and the paths that system calls take.  [UserStruct] gives the
    bytes of a [repr(C)] structure; padding bytes are written as zero.
    Whether the pages of a user range are mapped is not part of the check and
    is not part of the model: an access to an unmapped page faults. *)

From S2P Require Import Prelude Mem Update Result Paging Types State Task Proc.

(** ** The range check and the copies ([usercopy.rs]) *)

Definition USER_TOP : Z := 0x0000800000000000.

Definition user_range_ok (ptr len : Z) : bool :=
  (ptr <? USER_TOP) &&
  match checked_add64 ptr len with Some end_ => end_ <=? USER_TOP | None => false end.

(** [copy_from_user(&mut dst, src)]: the bytes that [dst] receives. *)
Definition copy_from_user (src len : Z) : M Kernel (option (list Z)) :=
  if negb (user_range_ok src len) then retM None
  else let* k := getM in retM (Some (load_bytes (k_umem k) src len)).

Definition copy_to_user (dst : Z) (src : list Z) : M Kernel bool :=
  if negb (user_range_ok dst (Z.of_nat (length src))) then retM false
  else modifyM (fun k => k <| k_umem := store_bytes (k_umem k) dst src |>) ;;; retM true.

(** ** Structures *)

Class UserStruct (T : Type) := {
  size_of : Z;
  bytes_of : T -> list Z;
  of_bytes : list Z -> T;
}.
Arguments size_of T {_}.

(** A structure fills its size, and a copy out followed by a copy in gives
    the value back. *)
Class UserStructLaws (T : Type) (ok : T -> Prop) {ST : UserStruct T} := {
  bytes_of_length : forall x, ok x -> Z.of_nat (length (bytes_of x)) = size_of T;
  of_bytes_of : forall x, ok x -> of_bytes (bytes_of x) = x;
}.

(** Integers; a newtype per width. *)
Record u32 := U32V { u32_val : Z }.
Record u64 := U64V { u64_val : Z }.

#[export] Instance UserStruct_u32 : UserStruct u32 :=
  {| size_of := 4; bytes_of x := to_le 4 (u32_val x); of_bytes bs := U32V (wrap32 (of_le (take 4 bs))) |}.
#[export] Instance UserStruct_u64 : UserStruct u64 :=
  {| size_of := 8; bytes_of x := to_le 8 (u64_val x); of_bytes bs := U64V (wrap64 (of_le (take 8 bs))) |}.

(** An [i32] by its bits. *)
Definition i32v (x : Z) : u32 := U32V (wrap32 x).

#[export] Instance UserStruct_SigSet : UserStruct SigSet :=
  {| size_of := 128; bytes_of := SigSet_bytes; of_bytes := SigSet_of |}.
#[export] Instance UserStruct_SigAction : UserStruct SigAction :=
  {| size_of := 152; bytes_of := SigAction_bytes; of_bytes := SigAction_of |}.
#[export] Instance UserStruct_StackT : UserStruct StackT :=
  {| size_of := 24; bytes_of := StackT_bytes; of_bytes := StackT_of |}.
#[export] Instance UserStruct_TimeSpec : UserStruct TimeSpec :=
  {| size_of := 16; bytes_of := TimeSpec_bytes; of_bytes := TimeSpec_of |}.
#[export] Instance UserStruct_SyscallFrame : UserStruct SyscallFrame :=
  {| size_of := SyscallFrame_size; bytes_of := SyscallFrame_bytes; of_bytes := SyscallFrame_of |}.

Definition copy_struct_from_user (T : Type) `{UserStruct T} (user_ptr : Z) : M Kernel (option T) :=
  if negb (user_range_ok user_ptr (size_of T)) then retM None
  else
    let* raw := copy_from_user user_ptr (size_of T) in
    retM (of_bytes <$> raw).

Definition copy_struct_to_user {T : Type} `{UserStruct T} (user_ptr : Z) (value : T) : M Kernel bool :=
  if negb (user_range_ok user_ptr (size_of T)) then retM false
  else copy_to_user user_ptr (bytes_of value).

(** ** Paths *)

Definition MAX_PATH_LEN : Z := 64.
Definition MAX_IOV : Z := 16.

Definition SLASH : Z := 0x2F.

(** [while start < raw.len() && raw[start] == b'/' { start += 1 }]. *)
Fixpoint skip_slashes (raw : list Z) : Z :=
  match raw with
  | b :: raw' => if b =? SLASH then 1 + skip_slashes raw' else 0
  | [] => 0
  end.

(** The loop over [&raw[start..]]. *)
Fixpoint fill_name (bs : list Z) (name_buf : list Z) (out_len : Z) : option (list Z * Z) :=
  match bs with
  | [] => Some (name_buf, out_len)
  | b :: bs' =>
      if (b =? SLASH) || (Z.of_nat (length name_buf) <=? out_len) then None
      else fill_name bs' (zset name_buf out_len b) (out_len + 1)
  end.

Definition normalize_path_bytes (raw : list Z) : option (list Z * Z) :=
  let len := Z.of_nat (length raw) in
  if (len =? 0) || (MAX_PATH_LEN <? len) then None
  else
    let start := skip_slashes raw in
    if len <=? start then None
    else
      match fill_name (drop (Z.to_nat start) raw) (replicate (Z.to_nat MAX_PATH_LEN) 0) 0 with
      | None => None
      | Some (name_buf, out_len) => if out_len =? 0 then None else Some (name_buf, out_len)
      end.

(** [&name_buf[..len]]. *)
Definition prefix_of (p : list Z * Z) : list Z := take (Z.to_nat (snd p)) (fst p).

Definition copy_path_from_user (path_ptr path_len : Z) : M Kernel (option (list Z * Z)) :=
  if (path_len =? 0) || (MAX_PATH_LEN <? path_len) then retM None
  else
    let* raw := copy_from_user path_ptr path_len in
    retM (match raw with Some raw => normalize_path_bytes raw | None => None end).

(** The loop [for i in 0..MAX_PATH_LEN], with [n] rounds to go. *)
Fixpoint cstr_loop (n : nat) (path_ptr i : Z) (raw : list Z) : M Kernel (option (list Z * Z)) :=
  match n with
  | O => retM None
  | S n =>
      let* byte := copy_from_user (path_ptr +w i) 1 in
      match byte with
      | Some [b] =>
          let raw := zset raw i b in
          if b =? 0 then retM (Some (raw, i)) else cstr_loop n path_ptr (i + 1) raw
      | _ => retM None
      end
  end.

Definition copy_cstr_from_user (path_ptr : Z) : M Kernel (option (list Z * Z)) :=
  if path_ptr =? 0 then retM None
  else cstr_loop (Z.to_nat MAX_PATH_LEN) path_ptr 0 (replicate (Z.to_nat MAX_PATH_LEN) 0).

Definition copy_path_cstr_from_user (path_ptr : Z) : M Kernel (option (list Z * Z)) :=
  let* raw := copy_cstr_from_user path_ptr in
  retM (match raw with Some raw => normalize_path_bytes (prefix_of raw) | None => None end).

(** The first [count] entries of the array of [MAX_IOV]. *)
Fixpoint iovecs_of (count : nat) (bs : list Z) : list Iovec :=
  match count with
  | O => []
  | S n => Iovec_of (take 16 bs) :: iovecs_of n (drop 16 bs)
  end.

Definition copy_iovecs_from_user (iov_ptr iovcnt : Z) : M Kernel (option (list Iovec * Z)) :=
  let count := iovcnt in
  if (count =? 0) || (MAX_IOV <? count) then retM None
  else
    let bytes_len := count *w 16 in
    if negb (user_range_ok iov_ptr bytes_len) then retM None
    else
      let* raw := copy_from_user iov_ptr bytes_len in
      retM (match raw with
            | Some raw =>
                Some (iovecs_of (Z.to_nat count) raw ++
                      replicate (Z.to_nat (MAX_IOV - count)) (mkIovec 0 0), count)
            | None => None
            end).

(** ** The range check *)

(** The range check accepts exactly the ranges of user addresses. *)
Lemma user_range_ok_spec ptr len : is_u64 ptr -> is_u64 len ->
  user_range_ok ptr len = true <-> ptr < USER_TOP /\ ptr + len <= USER_TOP.
Proof.
  intros Hp Hl. unfold user_range_ok, checked_add64. rewrite andb_true_iff, Z.ltb_lt.
  unfold USER_TOP, is_u64, U64 in *. destruct (Z.ltb_spec (ptr + len) (2 ^ 64)); [rewrite Z.leb_le|]; lia.
Qed.

Lemma user_range_ok_bound ptr len : user_range_ok ptr len = true -> ptr < USER_TOP /\ ptr + len <= USER_TOP.
Proof.
  unfold user_range_ok, checked_add64. intros [H1 H2]%andb_true_iff. breflect.
  destruct (ptr + len <? U64); [|done]. breflect. lia.
Qed.

(** ** Running the copies *)

Lemma copy_from_user_run k src len : user_range_ok src len = true ->
  copy_from_user src len k = OOk (Some (load_bytes (k_umem k) src len)) k.
Proof. intros H. unfold copy_from_user. by rewrite H. Qed.

Lemma copy_to_user_run k dst bs : user_range_ok dst (Z.of_nat (length bs)) = true ->
  copy_to_user dst bs k = OOk true (k <| k_umem := store_bytes (k_umem k) dst bs |>).
Proof. intros H. unfold copy_to_user. by rewrite H. Qed.

Section Structs.
Context {T : Type} `{UserStruct T}.

Lemma copy_struct_from_user_run k ptr : user_range_ok ptr (size_of T) = true ->
  copy_struct_from_user T ptr k = OOk (Some (of_bytes (load_bytes (k_umem k) ptr (size_of T)))) k.
Proof.
  intros Hr. unfold copy_struct_from_user. rewrite Hr. cbn [negb].
  by rewrite (bind_ok _ _ _ _ _ (copy_from_user_run k _ _ Hr)).
Qed.

Lemma copy_struct_from_user_eq k ptr :
  copy_struct_from_user T ptr k =
  OOk (if user_range_ok ptr (size_of T) then Some (of_bytes (load_bytes (k_umem k) ptr (size_of T))) else None) k.
Proof.
  destruct (user_range_ok ptr (size_of T)) eqn:E; [by apply copy_struct_from_user_run|].
  unfold copy_struct_from_user. by rewrite E.
Qed.

Lemma copy_struct_to_user_run k ptr (x : T) :
  Z.of_nat (length (bytes_of x)) = size_of T -> user_range_ok ptr (size_of T) = true ->
  copy_struct_to_user ptr x k = OOk true (k <| k_umem := store_bytes (k_umem k) ptr (bytes_of x) |>).
Proof.
  intros Hl Hr. unfold copy_struct_to_user. rewrite Hr. cbn [negb]. apply copy_to_user_run. by rewrite Hl.
Qed.
End Structs.

#[export] Instance SyscallFrame_laws : UserStructLaws SyscallFrame frame_ok.
Proof. split; [done|apply SyscallFrame_roundtrip]. Qed.

#[export] Instance SigSet_laws : UserStructLaws SigSet sigset_ok.
Proof.
  split; [|apply SigSet_roundtrip]. intros s [Hs _]. cbn [bytes_of UserStruct_SigSet size_of]. unfold SigSet_bytes.
  rewrite length_words, Hs. done.
Qed.

#[export] Instance u64_laws : UserStructLaws u64 (fun x => is_u64 (u64_val x)).
Proof.
  split; [done|]. intros [x] Hx. cbn [of_bytes bytes_of UserStruct_u64 u64_val]. f_equal.
  rewrite take_ge by (by rewrite length_to_le). rewrite of_to_le by exact Hx. by apply wrap64_small.
Qed.

#[export] Instance u32_laws : UserStructLaws u32 (fun x => is_u32 (u32_val x)).
Proof.
  split; [done|]. intros [x] Hx. cbn [of_bytes bytes_of UserStruct_u32 u32_val]. f_equal.
  rewrite take_ge by (by rewrite length_to_le). rewrite of_to_le by exact Hx. by apply Z.mod_small.
Qed.

(** ** Confinement: the kernel half of the address space *)

(** User memory differs from [m0] at user addresses only. *)
Definition confined (m0 : Mem) (k : Kernel) : Prop :=
  forall a, a < 0 \/ USER_TOP <= a -> k_umem k a = m0 a.

Lemma confined_same m0 k k' : confined m0 k -> k_umem k' = k_umem k -> confined m0 k'.
Proof. intros H E a Ha. rewrite E. by apply H. Qed.

Lemma confined_write m0 k p n m : confined m0 k -> 0 <= p -> p + n <= USER_TOP ->
  (forall a, a < p \/ p + n <= a -> m a = k_umem k a) -> confined m0 (k <| k_umem := m |>).
Proof. intros H Hp Hn Hm a Ha. simpl. rewrite Hm by lia. by apply H. Qed.

Lemma store_bytes_outside m p bs a : a < p \/ p + Z.of_nat (length bs) <= a -> store_bytes m p bs a = m a.
Proof. intros H. unfold store_bytes. range_case a p (Z.of_nat (length bs)); [lia|done]. Qed.

(** ** Paths *)

Lemma fill_name_Some bs buf n buf' n' :
  0 <= n -> fill_name bs buf n = Some (buf', n') ->
  (SLASH ∉ bs) /\ n' = n + Z.of_nat (length bs) /\ n' <= Z.max n (Z.of_nat (length buf)) /\ length buf' = length buf /\
  take (Z.to_nat n') buf' = take (Z.to_nat n) buf ++ bs /\ drop (Z.to_nat n') buf' = drop (Z.to_nat n') buf.
Proof.
  revert buf n. induction bs as [|b bs IH]; intros buf n Hn H; cbn [fill_name] in H.
  - injection H as <- <-. rewrite app_nil_r. split_and!; [set_solver|cbn; lia|lia|done..].
  - destruct (b =? SLASH) eqn:Eb; [done|]. destruct (Z.leb_spec (Z.of_nat (length buf)) n); [done|].
    cbn [orb] in H. breflect. apply IH in H as (H1 & H2 & H3 & H4 & H5 & H6); [|lia].
    rewrite length_zset in *. split_and!.
    + set_solver.
    + cbn [length]. lia.
    + lia.
    + done.
    + rewrite H5. replace (Z.to_nat (n + 1)) with (S (Z.to_nat n)) by lia. unfold zset.
      rewrite (take_S_r _ _ b) by (apply list_lookup_insert_eq; lia).
      rewrite take_insert_ge by lia. by rewrite <- app_assoc.
    + rewrite H6. unfold zset. by rewrite drop_insert_lt by lia.
Qed.

Lemma fill_name_total bs buf n : SLASH ∉ bs -> 0 <= n -> n + Z.of_nat (length bs) <= Z.of_nat (length buf) ->
  exists r, fill_name bs buf n = Some r.
Proof.
  revert buf n. induction bs as [|b bs IH]; intros buf n Hs Hn Hl; cbn [fill_name]; [eauto|].
  cbn [length] in Hl. rewrite (proj2 (Z.eqb_neq b SLASH)) by set_solver.
  rewrite (proj2 (Z.leb_gt _ _)) by lia. cbn [orb]. apply IH; [set_solver|lia|rewrite length_zset; lia].
Qed.

Lemma skip_slashes_split raw : exists name,
  raw = replicate (Z.to_nat (skip_slashes raw)) SLASH ++ name /\ head name <> Some SLASH /\
  0 <= skip_slashes raw /\ drop (Z.to_nat (skip_slashes raw)) raw = name.
Proof.
  induction raw as [|b raw (name & IH1 & IH2 & IH3 & IH4)]; cbn [skip_slashes]; [by exists []|].
  destruct (Z.eqb_spec b SLASH) as [->|Hb].
  - exists name. replace (Z.to_nat (1 + skip_slashes raw)) with (S (Z.to_nat (skip_slashes raw))) by lia.
    cbn. split_and!; [by f_equal|done|lia|done].
  - exists (b :: raw). split_and!; [done|cbn; congruence|lia|done].
Qed.

Lemma skip_slashes_app n name : head name <> Some SLASH -> skip_slashes (replicate n SLASH ++ name) = Z.of_nat n.
Proof.
  intros Hn. induction n as [|n IH]; cbn [replicate app skip_slashes].
  - destruct name as [|b name]; [done|]. cbn [skip_slashes].
    rewrite (proj2 (Z.eqb_neq b SLASH)); [done|]. intros ->. by apply Hn.
  - rewrite Z.eqb_refl, IH. lia.
Qed.

(** A path [name] is accepted exactly when it is written, after any number
    of leading slashes, as a single non-empty component. *)
Definition path_of (raw name : list Z) : Prop :=
  exists n, raw = replicate n SLASH ++ name /\ name <> [] /\ SLASH ∉ name.

Lemma normalize_path_Some raw buf n : normalize_path_bytes raw = Some (buf, n) ->
  path_of raw (prefix_of (buf, n)) /\ (length raw <= 64)%nat /\ length buf = 64%nat /\
  0 < n <= 64 /\ drop (Z.to_nat n) buf = replicate (64 - Z.to_nat n) 0.
Proof.
  unfold normalize_path_bytes. set (len := Z.of_nat (length raw)). change MAX_PATH_LEN with 64.
  destruct ((len =? 0) || (64 <? len)) eqn:El; [done|]. breflect. destruct (skip_slashes_split raw) as (name & Hraw & Hh & Hs & Hd).
  destruct (Z.leb_spec len (skip_slashes raw)) as [|Hlt]; [done|]. rewrite Hd.
  destruct (fill_name _ _ _) as [[buf' n']|] eqn:E; [|done].
  destruct (n' =? 0) eqn:En; [done|]. breflect. intros [= -> ->].
  apply fill_name_Some in E as (H1 & H2 & H3 & H4 & H5 & H6); [|lia]. rewrite length_replicate in *.
  assert (name <> []) by (intros ->; cbn in H2; lia).
  split_and!; try done; try lia.
  - exists (Z.to_nat (skip_slashes raw)). unfold prefix_of. cbn [fst snd]. rewrite H5. done.
  - rewrite H6, drop_replicate. f_equal.
Qed.

Lemma normalize_path_accepts raw name : path_of raw name -> (length raw <= 64)%nat ->
  exists buf n, normalize_path_bytes raw = Some (buf, n) /\ prefix_of (buf, n) = name.
Proof.
  intros (m & -> & Hne & Hs) Hl. rewrite length_app, length_replicate in Hl.
  assert (head name <> Some SLASH) as Hh.
  { destruct name as [|b name]; [done|]. cbn. intros [= ->]. set_solver. }
  assert (0 < length name)%nat by (destruct name; [done|cbn; lia]).
  unfold normalize_path_bytes. change MAX_PATH_LEN with 64.
  rewrite skip_slashes_app by done. rewrite length_app, length_replicate.
  rewrite (proj2 (Z.eqb_neq _ _)), (proj2 (Z.ltb_ge _ _)) by lia. cbn [orb].
  rewrite (proj2 (Z.leb_gt _ _)) by lia. rewrite Nat2Z.id, drop_app_length' by (by rewrite length_replicate).
  destruct (fill_name_total name (replicate (Z.to_nat 64) 0) 0) as [[buf n] E]; [done|lia|rewrite length_replicate; lia|].
  rewrite E. pose proof E as (_ & Hn & _ & _ & Ht & _)%fill_name_Some; [|lia].
  rewrite (proj2 (Z.eqb_neq n 0)) by lia. exists buf, n. by split.
Qed.

(** The bytes of a C string. *)
Definition cstr_at (m : Mem) (p : Z) (s : list Z) : Prop :=
  load_bytes m p (Z.of_nat (length s) + 1) = s ++ [0] /\ 0 ∉ s.

Lemma load_bytes_cons m p n : 0 <= n -> load_bytes m p (n + 1) = m p :: load_bytes m (p + 1) n.
Proof.
  intros Hn. unfold load_bytes. rewrite seqZ_cons by lia. cbn. rewrite Z.add_0_r. f_equal.
  replace (Z.pred (n + 1)) with n by lia. apply list_eq. intros i. rewrite !list_lookup_fmap.
  destruct (decide (i < Z.to_nat n)%nat); [rewrite !lookup_seqZ_lt by lia|rewrite !lookup_seqZ_ge by lia; done].
  cbn. do 2 f_equal. lia.
Qed.

Lemma cstr_at_cons m p b s : cstr_at m p (b :: s) <-> m p = b /\ b <> 0 /\ cstr_at m (p + 1) s.
Proof.
  unfold cstr_at. cbn [length]. replace (Z.of_nat (S (length s)) + 1) with ((Z.of_nat (length s) + 1) + 1) by lia.
  rewrite load_bytes_cons by lia. cbn [app]. split.
  - intros [[= -> H] Hn]. set_solver.
  - intros (-> & Hb & H1 & H2). rewrite H1. set_solver.
Qed.

Lemma cstr_at_nil m p : cstr_at m p [] <-> m p = 0.
Proof.
  unfold cstr_at. cbn [length app]. change (Z.of_nat 0 + 1) with (0 + 1). rewrite load_bytes_cons by lia. cbn.
  split; [by intros [[= ->] _]|intros ->; set_solver].
Qed.

Lemma load1 m p : load_bytes m p 1 = [m p].
Proof. change 1 with (0 + 1). by rewrite load_bytes_cons by lia. Qed.

(** Each byte of the string and its terminator is a user address. *)
Lemma cstr_loop_Some n k p i raw raw' len :
  0 <= p -> 0 <= i -> p + i + Z.of_nat n <= U64 ->
  cstr_loop n p i raw k = OOk (Some (raw', len)) k ->
  exists s, cstr_at (k_umem k) (p + i) s /\ (length s < n)%nat /\ len = i + Z.of_nat (length s) /\
    p + len < USER_TOP /\ length raw' = length raw /\
    ((Z.to_nat i + n <= length raw)%nat -> take (Z.to_nat len) raw' = take (Z.to_nat i) raw ++ s).
Proof.
  revert i raw. induction n as [|n IH]; intros i raw Hp Hi Hb H; cbn [cstr_loop] in H; [done|].
  rewrite wrap64_small in H by (unfold U64 in *; lia).
  destruct (user_range_ok (p + i) 1) eqn:Er.
  2: { unfold bindM, copy_from_user in H. by rewrite Er in H. }
  rewrite (bind_ok _ _ _ _ _ (copy_from_user_run k _ _ Er)), load1 in H. cbn beta iota in H.
  pose proof (user_range_ok_bound _ _ Er) as [_ Hu].
  destruct (Z.eqb_spec (k_umem k (p + i)) 0) as [E|E].
  - injection H as <- <-. exists []. cbn [length]. rewrite length_zset, cstr_at_nil, app_nil_r. split_and!; try done; try lia.
    intros Hl. unfold zset. by rewrite take_insert_ge by lia.
  - apply IH in H as (s & H1 & H2 & H3 & H4 & H5 & H6); [|lia..]. exists (k_umem k (p + i) :: s).
    cbn [length]. rewrite length_zset in *. split_and!; try done; try lia.
    + apply cstr_at_cons. replace (p + i + 1) with (p + (i + 1)) by lia. done.
    + intros Hl. rewrite H6 by lia. replace (Z.to_nat (i + 1)) with (S (Z.to_nat i)) by lia. unfold zset.
      rewrite (take_S_r _ _ (k_umem k (p + i))) by (apply list_lookup_insert_eq; lia).
      rewrite take_insert_ge by lia. by rewrite <- app_assoc.
Qed.

Lemma cstr_loop_accepts n k p i raw s :
  0 <= p -> 0 <= i -> p + i + Z.of_nat (length s) < USER_TOP -> cstr_at (k_umem k) (p + i) s -> (length s < n)%nat ->
  exists raw', cstr_loop n p i raw k = OOk (Some (raw', i + Z.of_nat (length s))) k.
Proof.
  revert i raw s. induction n as [|n IH]; intros i raw s Hp Hi Hu Hs Hl; [lia|]. cbn [cstr_loop].
  rewrite wrap64_small by (unfold USER_TOP, U64 in *; lia).
  assert (user_range_ok (p + i) 1 = true) as Er.
  { apply user_range_ok_spec; unfold is_u64, USER_TOP, U64 in *; lia. }
  rewrite (bind_ok _ _ _ _ _ (copy_from_user_run k _ _ Er)), load1. cbn beta iota.
  destruct s as [|b s].
  - rewrite cstr_at_nil in Hs. rewrite Hs. cbn. rewrite Z.add_0_r. eauto.
  - apply cstr_at_cons in Hs as (-> & Hb & Hs). rewrite (proj2 (Z.eqb_neq _ _)) by done. cbn [length] in *.
    destruct (IH (i + 1) (zset raw i b) s) as [raw' E]; [lia|lia|lia|by replace (p + (i + 1)) with (p + i + 1) by lia|lia|].
    exists raw'. rewrite E. do 3 f_equal. lia.
Qed.

Lemma cstr_at_unique m p s s' : cstr_at m p s -> cstr_at m p s' -> s = s'.
Proof.
  revert p s'. induction s as [|b s IH]; intros p [|b' s']; rewrite ?cstr_at_cons, ?cstr_at_nil; [done|..].
  - intros H (H1 & H2 & _). congruence.
  - intros (H1 & H2 & _) H. congruence.
  - intros (<- & _ & H) (<- & _ & H'). f_equal. by eapply IH.
Qed.

Lemma cstr_loop_total n k p i raw : exists r, cstr_loop n p i raw k = OOk r k.
Proof.
  revert i raw. induction n as [|n IH]; intros i raw; cbn [cstr_loop]; [eauto|].
  destruct (user_range_ok (p +w i) 1) eqn:Er; [|unfold bindM, copy_from_user; rewrite Er; cbn; eauto].
  rewrite (bind_ok _ _ _ _ _ (copy_from_user_run k _ _ Er)), load1. cbn beta iota. case_goal; eauto.
Qed.

(** A pointer that wraps around is refused at its first byte. *)
Lemma cstr_loop_high n k p raw : is_u64 p -> U64 - 64 < p -> cstr_loop n p 0 raw k = OOk None k.
Proof.
  intros [H0 H1] Hp. destruct n as [|n]; [done|]. cbn [cstr_loop]. rewrite Z.add_0_r, wrap64_small by lia.
  unfold bindM, copy_from_user. replace (user_range_ok p 1) with false; [done|].
  symmetry. apply not_true_is_false. intros [H _]%user_range_ok_bound. unfold USER_TOP, U64 in *. lia.
Qed.

(** C37: reading a path from user memory succeeds with the name [name] exactly
    when the pointer is not null and points, in user memory, to a string of
    fewer than 64 bytes that is [name] after any number of slashes, with
    [name] a single non-empty component; the state is unchanged and no input
    makes the kernel fail. *)
Theorem copy_path_cstr_exact k p : is_u64 p ->
  exists r, copy_path_cstr_from_user p k = OOk r k /\
    forall name, prefix_of <$> r = Some name <->
      p <> 0 /\ exists s, cstr_at (k_umem k) p s /\ (length s < 64)%nat /\
        p + Z.of_nat (length s) < USER_TOP /\ path_of s name.
Proof.
  intros Hp. unfold copy_path_cstr_from_user, copy_cstr_from_user. destruct (Z.eqb_spec p 0) as [->|Hp0].
  { exists None. split; [done|]. intros name. split; [done|]. by intros [? _]. }
  destruct (Z.leb_spec p (U64 - 64)) as [Hpu|Hpu].
  2: { exists None. rewrite (bind_ok _ _ _ _ _ (cstr_loop_high _ _ _ _ Hp Hpu)). split; [done|]. intros name.
       split; [done|]. intros (_ & s & _ & _ & Hs & _). unfold USER_TOP, U64 in *. lia. }
  destruct (cstr_loop_total (Z.to_nat MAX_PATH_LEN) k p 0 (replicate (Z.to_nat MAX_PATH_LEN) 0)) as [r E].
  rewrite (bind_ok _ _ _ _ _ E). eexists. split; [done|]. intros name.
  change (Z.to_nat MAX_PATH_LEN) with 64%nat in E. destruct Hp as [Hp1 Hp2]. split.
  - intros Hr. split; [done|]. destruct r as [[raw len]|]; [|done].
    apply cstr_loop_Some in E as (s & H1 & H2 & H3 & H4 & H5 & H6); [|lia..].
    rewrite Z.add_0_r in H1. exists s. split_and!; [done|done|lia|].
    unfold prefix_of in Hr at 2. cbn [fst snd] in Hr. rewrite H6 in Hr by (rewrite length_replicate; lia).
    change (take (Z.to_nat 0) (replicate 64 0) ++ s) with s in Hr. destruct (normalize_path_bytes s) as [[buf n]|] eqn:En; [|done].
    apply normalize_path_Some in En as (Hpath & _). by injection Hr as <-.
  - intros (_ & s & Hs & Hl & Hu & Hpath).
    destruct (cstr_loop_accepts 64 k p 0 (replicate 64 0) s) as [raw' E']; [lia|lia|lia|by rewrite Z.add_0_r|done|].
    change (Z.to_nat MAX_PATH_LEN) with 64%nat in *.
    rewrite E' in E. injection E as <-. pose proof E' as E''.
    apply cstr_loop_Some in E'' as (s' & H1 & _ & _ & _ & _ & H6); [|lia..]. rewrite Z.add_0_r in H1.
    rewrite (cstr_at_unique _ _ _ _ Hs H1) in *. unfold prefix_of at 2. cbn [fst snd].
    rewrite H6 by (rewrite length_replicate; lia). change (take (Z.to_nat 0) (replicate 64 0) ++ s') with s'.
    destruct (normalize_path_accepts s' name Hpath) as (buf & n & -> & <-); [lia|done].
Qed.

(** A process whose memory holds [//sh] at address 4096. *)
Definition sample_path : Kernel :=
  sample_proc <| k_umem := store_bytes (fun _ => 0) 4096 [SLASH; SLASH; 0x73; 0x68; 0] |>.

Lemma copy_path_cstr_exact_witness :
  exists r, copy_path_cstr_from_user 4096 sample_path = OOk r sample_path /\ prefix_of <$> r = Some [0x73; 0x68].
Proof.
  destruct (copy_path_cstr_exact sample_path 4096) as (r & H1 & H2); [by vm_compute|].
  exists r. split; [done|]. apply H2. split; [done|]. exists [SLASH; SLASH; 0x73; 0x68].
  split_and!; [split; [by vm_compute|]| |by vm_compute|].
  - by apply (bool_decide_unpack _).
  - cbn. lia.
  - exists 2%nat. split_and!; [done|done|]. by apply (bool_decide_unpack _).
Defined.
