(* ===== verification/Signal.v ===== *)
(** * Signals ([syscall/process.rs])

    Signal sets, sending, the delivery of a pending signal on the way back to
    user mode and the return from a handler.  The frame of the interrupted
    program is on the kernel stack at [frame_ptr], in the machine's memory;
    the copy the handler returns through is in user memory. *)

From S2P Require Import Prelude Mem Update Result Pmm Paging Types State Task Proc UserCopy.

Definition SIGSET_SIZE : Z := 128.
Definition SA_RESTORER : Z := 0x04000000.
Definition SA_ONSTACK : Z := 0x08000000.
Definition SIG_BLOCK : Z := 0.
Definition SIG_UNBLOCK : Z := 1.
Definition SIG_SETMASK : Z := 2.
Definition SIGKILL : Z := 9.
Definition SIGCHLD : Z := 17.
Definition SS_DISABLE : Z := 2.
Definition RT_SIGRETURN : Z := 15.

(** ** Signal sets *)

Definition sig_bit (sig : Z) : Z * Z :=
  ((sig -w 1) / 64, Z.shiftl 1 ((sig -w 1) mod 64)).

Definition sigset_contains (set : SigSet) (sig : Z) : M Kernel bool :=
  let '(idx, bit) := sig_bit sig in
  let* w := unwrap (zget (sig_bits set) idx) in
  retM (has_bits w bit).

Definition sigset_add (set : SigSet) (sig : Z) : M Kernel SigSet :=
  let '(idx, bit) := sig_bit sig in
  let* w := unwrap (zget (sig_bits set) idx) in
  retM (mkSigSet (zset (sig_bits set) idx (w .| bit))).

Definition sigset_remove (set : SigSet) (sig : Z) : M Kernel SigSet :=
  let '(idx, bit) := sig_bit sig in
  let* w := unwrap (zget (sig_bits set) idx) in
  retM (mkSigSet (zset (sig_bits set) idx (w & not64 bit))).

Definition sanitize_sigmask (set : SigSet) : M Kernel SigSet := sigset_remove set SIGKILL.

(** The word-by-word loops over two masks, [*dst |= *src] and [*dst &= !*src]. *)
Definition sigset_or (dst src : SigSet) : SigSet := mkSigSet (zip_with Z.lor (sig_bits dst) (sig_bits src)).
Definition sigset_andnot (dst src : SigSet) : SigSet :=
  mkSigSet (zip_with (fun d s => d & not64 s) (sig_bits dst) (sig_bits src)).

(** ** Sending *)

Definition queue_signal (slot sig : Z) : M Kernel bool :=
  let* process := process_at slot in
  match process with
  | None => retM false
  | Some process =>
      let* set := sigset_add (p_sig_pending process) sig in
      set_process slot (Some (process <| p_sig_pending := set |>)) ;;;
      retM true
  end.

Definition queue_thread_signal (slot sig : Z) : M Kernel bool :=
  let* thread := thread_at slot in
  match thread with
  | None => retM false
  | Some thread =>
      let* set := sigset_add (th_sig_pending thread) sig in
      set_thread slot (Some (thread <| th_sig_pending := set |>)) ;;;
      retM true
  end.

Definition notify_parent_exit (parent_pid : Z) : M Kernel unit :=
  if parent_pid =? 0 then retM tt
  else
    let* k := getM in
    match find_slot_by_pid parent_pid k with
    | Some parent_slot => queue_signal parent_slot SIGCHLD ;;; retM tt
    | None => retM tt
    end.

Definition signal_default_ignored (sig : Z) : bool := sig =? SIGCHLD.
Definition signal_default_terminates (sig : Z) : bool := negb (signal_default_ignored sig).

(** One round of the loop over [THREADS]. *)
Definition terminate_thread (group_slot slot : Z) : M Kernel unit :=
  let* t := thread_at slot in
  match t with
  | None => retM tt
  | Some t =>
      if negb (th_group_slot t =? group_slot) then retM tt
      else
        set_thread slot (Some (t <| th_state := TZombie |>)) ;;;
        kill_task slot
  end.

Definition terminate_process_group (group_slot sig : Z) : M Kernel unit :=
  let* process := process_at group_slot in
  let parent_pid := match process with Some process => p_parent_pid process | None => 0 end in
  (match process with
   | Some process =>
       set_process group_slot
         (Some (process <| p_state := PZombie |> <| p_exit_code := 128 + sig |> <| p_thread_count := 0 |>))
   | None => retM tt
   end) ;;;
  forM (seqZ 0 8) (terminate_thread group_slot) ;;;
  notify_parent_exit parent_pid.

(** ** The frame of the interrupted program *)

(** [current_frame]: the address stands for the reference. *)
Definition current_frame (frame_ptr : Z) : M Kernel Z :=
  ensure (negb (frame_ptr =? 0)) Invalid ;;; retM frame_ptr.

Definition get_frame (frame : Z) : M Kernel SyscallFrame :=
  let* k := getM in retM (frame_at (ram (k_mach k)) frame).

(** [*frame = f]. *)
Definition put_frame (frame : Z) (f : SyscallFrame) : M Kernel unit :=
  on_mach (modifyM (fun s => set_ram (store_bytes (ram s) frame (SyscallFrame_bytes f)) s)).

(** [frame.rdi = v], [frame.rax = v], [frame.rcx = v], [frame.r10 = v]. *)
Definition put_rdi (frame v : Z) : M Kernel unit := poke64 (frame + 64) v.
Definition put_rax (frame v : Z) : M Kernel unit := poke64 (frame + 88) v.
Definition put_rcx (frame v : Z) : M Kernel unit := poke64 (frame + 96) v.
Definition put_r10 (frame v : Z) : M Kernel unit := poke64 (frame + 112) v.

Definition clone_tls_from_frame (frame_ptr : Z) : M Kernel Z :=
  let* frame := current_frame frame_ptr in
  let* f := get_frame frame in
  retM (f_r8 f).

(** ** Delivery *)

(** The search of [deliver_pending_signal]: the first signal that is pending,
    for the thread or for the process, and not masked. *)
Fixpoint choose_signal (sigs : list Z) (thread : Thread) (process : Process) : M Kernel (option (Z * bool)) :=
  match sigs with
  | [] => retM None
  | sig :: sigs =>
      let* tp := sigset_contains (th_sig_pending thread) sig in
      let* m := sigset_contains (th_sig_mask thread) sig in
      if tp && negb m then retM (Some (sig, true))
      else
        let* pp := sigset_contains (p_sig_pending process) sig in
        if pp && negb m then retM (Some (sig, false))
        else choose_signal sigs thread process
  end.

(** Writing the handler's stack and switching the frame to the handler. *)
Definition enter_handler (frame_ptr tslot : Z) (thread : Thread) (sig : Z) (action : SigAction) : M Kernel Z :=
  ensure (negb (sa_restorer action =? 0)) Invalid ;;;
  let* frame := current_frame frame_ptr in
  let* f := get_frame frame in
  let* (user_rsp, thread) :=
    if has_bits (sa_flags action) SA_ONSTACK && negb (has_bits (ss_flags (th_sig_altstack thread)) SS_DISABLE) then
      let* user_rsp := option_ok (checked_add64 (ss_sp (th_sig_altstack thread)) (ss_size (th_sig_altstack thread))) Range in
      let thread := thread <| th_on_altstack := true |> in
      set_thread tslot (Some thread) ;;;
      retM (user_rsp, thread)
    else
      let thread := thread <| th_on_altstack := false |> in
      set_thread tslot (Some thread) ;;;
      retM (f_r10 f, thread) in
  let* signal_frame_ptr := option_ok (checked_sub64 user_rsp (8 + SyscallFrame_size)) Fault in
  let restorer_ptr := signal_frame_ptr in
  let saved_frame_ptr := signal_frame_ptr +w 8 in
  ensure (user_range_ok signal_frame_ptr (8 + SyscallFrame_size)) Fault ;;;
  let* ok := copy_struct_to_user restorer_ptr (U64V (sa_restorer action)) in
  ensure ok Fault ;;;
  let* f := get_frame frame in
  let* ok := copy_struct_to_user saved_frame_ptr f in
  ensure ok Fault ;;;
  let* combined_mask := sigset_add (th_sig_mask thread) sig in
  let combined_mask := sigset_or combined_mask (sa_mask action) in
  let* combined_mask := sanitize_sigmask combined_mask in
  set_thread tslot (Some (thread <| th_saved_sig_mask := th_sig_mask thread |>
                                 <| th_sig_mask := combined_mask |> <| th_in_signal_handler := true |>)) ;;;
  put_rdi frame sig ;;;
  put_rcx frame (sa_handler action) ;;;
  put_r10 frame restorer_ptr ;;;
  retM 0.

Definition deliver_pending_signal (frame_ptr : Z) : M Kernel Z :=
  let* process := current_process_mut in
  let* (pslot, process) := option_ok process Invalid in
  let* thread := current_thread_mut in
  let* (tslot, thread) := option_ok thread Invalid in
  if th_in_signal_handler thread then retM 0
  else
    let* chosen := choose_signal (seqZ 1 64) thread process in
    match chosen with
    | None => retM 0
    | Some (sig, thread_directed) =>
        let* thread :=
          if (thread_directed : bool) then
            let* set := sigset_remove (th_sig_pending thread) sig in
            let thread := thread <| th_sig_pending := set |> in
            set_thread tslot (Some thread) ;;;
            retM thread
          else
            let* set := sigset_remove (p_sig_pending process) sig in
            set_process pslot (Some (process <| p_sig_pending := set |>)) ;;;
            retM thread in
        let* action := unwrap (zget (p_sig_handlers process) sig) in
        if sa_handler action =? 0 then
          if signal_default_ignored sig then retM 0
          else
            (if signal_default_terminates sig then terminate_process_group (th_group_slot thread) sig else retM tt) ;;;
            retM 0
        else enter_handler frame_ptr tslot thread sig action
    end.

(** [let _ = m]: an error is dropped, its effects stay. *)
Definition ignoreM {A} (m : M Kernel A) : M Kernel unit := fun k =>
  match m k with
  | OOk _ k' => OOk tt k'
  | OErr _ k' => OOk tt k'
  | OPanic => OPanic
  end.

(** [current_frame(frame_ptr).map(|frame| frame.rax).unwrap_or(ret)]. *)
Definition frame_rax (frame_ptr ret : Z) : M Kernel Z :=
  if frame_ptr =? 0 then retM ret
  else let* f := get_frame frame_ptr in retM (f_rax f).

Definition finish_syscall (num frame_ptr ret : Z) : M Kernel Z :=
  (if frame_ptr =? 0 then retM tt else put_rax frame_ptr ret) ;;;
  if num =? RT_SIGRETURN then frame_rax frame_ptr ret
  else
    ignoreM (deliver_pending_signal frame_ptr) ;;;
    frame_rax frame_ptr ret.

(** ** The system calls *)

Definition syscall_rt_sigaction_impl (sig act oldact sigsetsize : Z) : M Kernel Z :=
  ensure ((0 <? sig) && (sig <? 65)) Invalid ;;;
  ensure (sigsetsize =? SIGSET_SIZE) Invalid ;;;
  let* process := current_process_mut in
  let* (slot, process) := option_ok process Invalid in
  (if negb (oldact =? 0) then
     let* current := unwrap (zget (p_sig_handlers process) sig) in
     let* ok := copy_struct_to_user oldact current in
     ensure ok Fault
   else retM tt) ;;;
  (if negb (act =? 0) then
     let* new_action := copy_struct_from_user SigAction act in
     let* new_action := option_ok new_action Fault in
     ensure ((sa_flags new_action & not64 (SA_RESTORER .| SA_ONSTACK)) =? 0) Unsupported ;;;
     (if negb (sa_handler new_action =? 0) then
        ensure (has_bits (sa_flags new_action) SA_RESTORER) Invalid ;;;
        ensure (negb (sa_restorer new_action =? 0)) Invalid
      else retM tt) ;;;
     let* _ := unwrap (zget (p_sig_handlers process) sig) in
     set_process slot (Some (process <| p_sig_handlers := zset (p_sig_handlers process) sig new_action |>))
   else retM tt) ;;;
  retM 0.

Definition syscall_rt_sigprocmask_impl (how set oldset sigsetsize : Z) : M Kernel Z :=
  ensure (sigsetsize =? SIGSET_SIZE) Invalid ;;;
  ensure ((how =? SIG_BLOCK) || (how =? SIG_UNBLOCK) || (how =? SIG_SETMASK)) Invalid ;;;
  let* thread := current_thread_mut in
  let* (slot, thread) := option_ok thread Invalid in
  (if negb (oldset =? 0) then
     let* ok := copy_struct_to_user oldset (th_sig_mask thread) in
     ensure ok Fault
   else retM tt) ;;;
  (if negb (set =? 0) then
     let* new_set := copy_struct_from_user SigSet set in
     let* new_set := option_ok new_set Fault in
     let* new_set := sanitize_sigmask new_set in
     let* mask :=
       if how =? SIG_BLOCK then retM (sigset_or (th_sig_mask thread) new_set)
       else if how =? SIG_UNBLOCK then retM (sigset_andnot (th_sig_mask thread) new_set)
       else if how =? SIG_SETMASK then retM new_set
       else errM Invalid in
     let* mask := sanitize_sigmask mask in
     set_thread slot (Some (thread <| th_sig_mask := mask |>))
   else retM tt) ;;;
  retM 0.

Definition syscall_rt_sigreturn_impl (frame_ptr : Z) : M Kernel Z :=
  let* frame := current_frame frame_ptr in
  let* f := get_frame frame in
  let* saved_frame := copy_struct_from_user SyscallFrame (f_r10 f) in
  let* saved_frame := option_ok saved_frame Fault in
  put_frame frame saved_frame ;;;
  let* thread := current_thread_mut in
  let* (slot, thread) := option_ok thread Invalid in
  set_thread slot (Some (thread <| th_sig_mask := th_saved_sig_mask thread |>
                                <| th_in_signal_handler := false |> <| th_on_altstack := false |>)) ;;;
  let* f := get_frame frame in
  retM (f_rax f).

Definition syscall_kill_impl (pid sig : Z) : M Kernel Z :=
  let* k := getM in
  let* slot := option_ok (find_slot_by_pid pid k) NoEntry in
  if sig =? 0 then retM 0
  else
    ensure (sig <? 65) Invalid ;;;
    if sig =? SIGKILL then
      terminate_process_group slot SIGKILL ;;;
      retM 0
    else
      let* ok := queue_signal slot sig in
      ensure ok NoEntry ;;;
      retM 0.

Definition syscall_tkill_impl (tid sig : Z) : M Kernel Z :=
  ensure (negb (tid =? 0)) Invalid ;;;
  ensure (sig <? 65) Invalid ;;;
  let* k := getM in
  let* slot := option_ok (find_thread_slot_by_tid tid k) NoEntry in
  if sig =? 0 then retM 0
  else if sig =? SIGKILL then
    let* thread := thread_at slot in
    let* thread := option_ok thread NoEntry in
    terminate_process_group (th_group_slot thread) SIGKILL ;;;
    retM 0
  else
    let* ok := queue_thread_signal slot sig in
    ensure ok NoEntry ;;;
    retM 0.

Definition syscall_tgkill_impl (tgid tid sig : Z) : M Kernel Z :=
  ensure (negb (tgid =? 0) && negb (tid =? 0)) Invalid ;;;
  let* k := getM in
  let* slot := option_ok (find_thread_slot_by_tid tid k) NoEntry in
  let* thread := thread_at slot in
  let* thread := option_ok thread NoEntry in
  let* process := process_at (th_group_slot thread) in
  let* process := option_ok process NoEntry in
  ensure (p_pid process =? tgid) NoEntry ;;;
  syscall_tkill_impl tid sig.
