(* ===== verification/Futex.v ===== *)
(** * Futexes and robust lists ([syscall/process.rs])

    The table of waiters, waiting with and without a timeout, waking, and the
    walk of a thread's robust list when it exits. *)

From S2P Require Import Prelude Mem Update Result Pmm Paging Types State Task Proc Fd UserCopy.

Definition FUTEX_WAIT : Z := 0.
Definition FUTEX_WAKE : Z := 1.
Definition FUTEX_PRIVATE_FLAG : Z := 128.
Definition FUTEX_CMD_MASK : Z := not64 FUTEX_PRIVATE_FLAG.
Definition FUTEX_OWNER_DIED : Z := 0x40000000.
Definition FUTEX_TID_MASK : Z := 0x3fffffff.
Definition ROBUST_LIST_LIMIT : Z := 64.

Record RobustList := mkRobustList { rl_next : Z }.
Record RobustListHead := mkRobustListHead { rh_list : RobustList; rh_futex_offset : Z; rh_list_op_pending : Z }.

#[export] Instance UserStruct_RobustList : UserStruct RobustList :=
  {| size_of := 8; bytes_of r := to_le 8 (rl_next r); of_bytes bs := mkRobustList (wrap64 (of_le (take 8 bs))) |}.
#[export] Instance UserStruct_RobustListHead : UserStruct RobustListHead :=
  {| size_of := 24;
     bytes_of r := words [rl_next (rh_list r); i64_bits (rh_futex_offset r); rh_list_op_pending r];
     of_bytes bs := match unwords 3 bs with
                    | [n; o; p] => mkRobustListHead (mkRobustList n) (as_i64 o) p
                    | _ => mkRobustListHead (mkRobustList 0) 0 0
                    end |}.

(** A round of waiting with [yield_now]: other tasks run, then interrupts are
    taken before the next round. *)
Record Pause := mkPause { pa_resume : Kernel -> Kernel; pa_irqs : list Irq }.

Definition pause (p : Pause) : M Kernel unit :=
  yield_now (pa_resume p) ;;; wait_for_event (pa_irqs p).

(** ** Waking *)

(** The loop over the waiters: the new table and the number woken. *)
Fixpoint wake_loop (uaddr count : Z) (ws : list FutexWaiter) (woke : Z) : list FutexWaiter * Z :=
  match ws with
  | [] => ([], woke)
  | w :: ws' =>
      if negb (fw_in_use w) || negb (fw_addr w =? uaddr) then
        let '(r, n) := wake_loop uaddr count ws' woke in (w :: r, n)
      else
        let w := mkWaiter false (fw_addr w) in
        let woke := woke + 1 in
        if woke =? count then (w :: ws', woke)
        else let '(r, n) := wake_loop uaddr count ws' woke in (w :: r, n)
  end.

Definition futex_wake (uaddr count : Z) : M Kernel Z :=
  let* k := getM in
  let '(ws, woke) := wake_loop uaddr count (k_futex k) 0 in
  modifyM (fun k => k <| k_futex := ws |>) ;;;
  retM woke.

(** ** Waiting *)

Definition set_waiter (slot : Z) (w : FutexWaiter) : M Kernel unit :=
  modifyM (fun k => k <| k_futex := zset (k_futex k) slot w |>).

(** The loop of [futex_wait]; [pauses n] is the round with [n] rounds to go. *)
Fixpoint futex_wait_loop (fuel : nat) (pauses : nat -> Pause) (slot uaddr expected start : Z) (limit : option Z)
    : M Kernel (Wait Z) :=
  let* k := getM in
  let* w := unwrap (zget (k_futex k) slot) in
  if negb (fw_in_use w) then retM (Done 0)
  else
    let* current := copy_struct_from_user u32 uaddr in
    let* current := option_ok current Fault in
    if negb (u32_val current =? expected) then
      set_waiter slot FutexWaiter_empty ;;;
      errM Again
    else if match limit with Some limit => limit <=? sat_sub64 (k_ticks k) start | None => false end then
      set_waiter slot FutexWaiter_empty ;;;
      errM TimedOut
    else
      match fuel with
      | O => retM Blocked
      | S f => pause (pauses f) ;;; futex_wait_loop f pauses slot uaddr expected start limit
      end.

(** [total_ns.div_ceil(10_000_000)] of a time in seconds and nanoseconds. *)
Definition timespec_ticks (t : TimeSpec) : Z :=
  div_ceil (sat_add64 (sat_mul64 (tv_sec t) 1000000000) (tv_nsec t)) 10000000.

Definition futex_wait (fuel : nat) (pauses : nat -> Pause) (uaddr expected timeout_ptr : Z) : M Kernel (Wait Z) :=
  let* current := copy_struct_from_user u32 uaddr in
  let* current := option_ok current Fault in
  if negb (u32_val current =? expected) then errM Again
  else
    let* timeout_ticks :=
      if timeout_ptr =? 0 then retM None
      else
        let* timeout := copy_struct_from_user TimeSpec timeout_ptr in
        let* timeout := option_ok timeout Fault in
        ensure ((0 <=? tv_sec timeout) && (0 <=? tv_nsec timeout)) Invalid ;;;
        retM (Some (timespec_ticks timeout)) in
    let* k := getM in
    let* slot := option_ok (zposition (fun w => negb (fw_in_use w)) (k_futex k)) NoMem in
    set_waiter slot (mkWaiter true uaddr) ;;;
    let* k := getM in
    futex_wait_loop fuel pauses slot uaddr expected (k_ticks k) timeout_ticks.

Definition doneM {A} (m : M Kernel A) : M Kernel (Wait A) := let* a := m in retM (Done a).

Definition syscall_futex_impl (fuel : nat) (pauses : nat -> Pause) (uaddr futex_op val timeout_ptr : Z)
    : M Kernel (Wait Z) :=
  ensure (user_range_ok uaddr 4) Fault ;;;
  let op := futex_op & FUTEX_CMD_MASK in
  if op =? FUTEX_WAIT then futex_wait fuel pauses uaddr (wrap32 val) timeout_ptr
  else if op =? FUTEX_WAKE then doneM (futex_wake uaddr val)
  else errM Unsupported.

(** ** Robust lists *)

Definition wake_robust_futex (uaddr tid : Z) : M Kernel unit :=
  if negb (user_range_ok uaddr 4) then retM tt
  else
    let* word := copy_struct_from_user u32 uaddr in
    match word with
    | None => retM tt
    | Some word =>
        let word := u32_val word in
        if negb ((word & FUTEX_TID_MASK) =? tid) then retM tt
        else
          let updated := (word & not32 FUTEX_TID_MASK) .| FUTEX_OWNER_DIED in
          copy_struct_to_user uaddr (U32V updated) ;;;
          futex_wake uaddr 1 ;;;
          retM tt
    end.

(** The address of the futex of a list node. *)
Definition robust_addr (head : RobustListHead) (node_ptr : Z) : Z :=
  if 0 <=? rh_futex_offset head then sat_add64 node_ptr (rh_futex_offset head)
  else sat_sub64 node_ptr (wrap64 (- rh_futex_offset head)).

(** The loop over the list, with [n] nodes left of [ROBUST_LIST_LIMIT]. *)
Fixpoint robust_loop (n : nat) (head : RobustListHead) (head_ptr tid node_ptr : Z) : M Kernel unit :=
  match n with
  | O => retM tt
  | S n =>
      if (node_ptr =? 0) || (node_ptr =? head_ptr) then retM tt
      else
        wake_robust_futex (robust_addr head node_ptr) tid ;;;
        let* node := copy_struct_from_user RobustList node_ptr in
        match node with
        | None => retM tt
        | Some node => robust_loop n head head_ptr tid (rl_next node)
        end
  end.

Definition release_robust_list : M Kernel unit :=
  let* thread := current_thread in
  match thread with
  | None => retM tt
  | Some thread =>
      if (th_robust_list_head thread =? 0) || negb (th_robust_list_len thread =? 24) then retM tt
      else
        let tid := wrap32 (th_tid thread) in
        let head_ptr := th_robust_list_head thread in
        let* head := copy_struct_from_user RobustListHead head_ptr in
        match head with
        | None => retM tt
        | Some head =>
            robust_loop (Z.to_nat ROBUST_LIST_LIMIT) head head_ptr tid (rl_next (rh_list head)) ;;;
            if negb (rh_list_op_pending head =? 0) then
              wake_robust_futex (robust_addr head (rh_list_op_pending head)) tid
            else retM tt
        end
  end.

Definition syscall_set_robust_list_impl (head len : Z) : M Kernel Z :=
  ensure (negb (head =? 0)) Fault ;;;
  ensure (len =? 24) Invalid ;;;
  ensure (user_range_ok head len) Fault ;;;
  let* thread := current_thread_mut in
  let* (slot, thread) := option_ok thread Invalid in
  set_thread slot (Some (thread <| th_robust_list_head := head |> <| th_robust_list_len := len |>)) ;;;
  retM 0.

Definition syscall_get_robust_list_impl (pid head_ptr len_ptr : Z) : M Kernel Z :=
  ensure (negb (head_ptr =? 0) && negb (len_ptr =? 0)) Fault ;;;
  let* slot :=
    if pid =? 0 then current_task_slot
    else let* k := getM in option_ok (find_thread_slot_by_tid pid k) NoEntry in
  let* thread := thread_at slot in
  let* thread := option_ok thread NoEntry in
  let* ok := copy_struct_to_user head_ptr (U64V (th_robust_list_head thread)) in
  ensure ok Fault ;;;
  let* ok := copy_struct_to_user len_ptr (U64V (th_robust_list_len thread)) in
  ensure ok Fault ;;;
  retM 0.

(** [clear_child_tid_and_wake], run when a thread exits. *)
Definition clear_child_tid_and_wake : M Kernel unit :=
  release_robust_list ;;;
  let* thread := current_thread_mut in
  match thread with
  | None => retM tt
  | Some (_, thread) =>
      let clear_child_tid := th_clear_child_tid thread in
      if clear_child_tid =? 0 then retM tt
      else
        copy_struct_to_user clear_child_tid (U32V 0) ;;;
        futex_wake clear_child_tid 1 ;;;
        retM tt
  end.
