(* ===== verification/SysProc.v ===== *)
(** * Process system calls ([syscall/process.rs])

    Identity, creation of processes and threads, waiting, exit, and the
    descriptor calls of this file.  A call that never returns to its caller
    ends in [Blocked]. *)

From S2P Require Import Prelude Mem Update Result Pmm Paging Types State Task Proc Fd UserCopy Signal Futex.

Definition O_CLOEXEC : Z := 0x80000.   (* 0o2000000 *)
Definition F_DUPFD : Z := 0.
Definition F_GETFD : Z := 1.
Definition F_SETFD : Z := 2.
Definition F_GETFL : Z := 3.
Definition F_SETFL : Z := 4.
Definition F_DUPFD_CLOEXEC : Z := 1030.
Definition FCNTL_STATUS_MASK : Z := O_APPEND .| O_NONBLOCK.
Definition UMASK_MASK : Z := 0x1FF.    (* 0o777 *)
Definition CLONE_VM : Z := 0x00000100.
Definition CLONE_FS : Z := 0x00000200.
Definition CLONE_FILES : Z := 0x00000400.
Definition CLONE_SIGHAND : Z := 0x00000800.
Definition CLONE_PIDFD : Z := 0x00001000.
Definition CLONE_PTRACE : Z := 0x00002000.
Definition CLONE_VFORK : Z := 0x00004000.
Definition CLONE_PARENT : Z := 0x00008000.
Definition CLONE_THREAD : Z := 0x00010000.
Definition CLONE_NEWNS : Z := 0x00020000.
Definition CLONE_SYSVSEM : Z := 0x00040000.
Definition CLONE_SETTLS : Z := 0x00080000.
Definition CLONE_PARENT_SETTID : Z := 0x00100000.
Definition CLONE_CHILD_CLEARTID : Z := 0x00200000.
Definition CLONE_DETACHED : Z := 0x00400000.
Definition CLONE_UNTRACED : Z := 0x00800000.
Definition CLONE_CHILD_SETTID : Z := 0x01000000.
Definition CLONE_NEWCGROUP : Z := 0x02000000.
Definition CLONE_NEWUTS : Z := 0x04000000.
Definition CLONE_NEWIPC : Z := 0x08000000.
Definition CLONE_NEWUSER : Z := 0x10000000.
Definition CLONE_NEWPID : Z := 0x20000000.
Definition CLONE_NEWNET : Z := 0x40000000.
Definition CLONE_IO : Z := 0x80000000.
Definition CLONE_SIGNAL_MASK : Z := 0xff.
Definition CLONE_THREAD_FLAGS : Z := CLONE_VM .| CLONE_FS .| CLONE_FILES .| CLONE_SIGHAND .| CLONE_THREAD.
Definition CLONE_SUPPORTED_MASK : Z :=
  CLONE_CHILD_CLEARTID .| CLONE_CHILD_SETTID .| CLONE_SETTLS .| CLONE_PARENT_SETTID.

(** ** Identity *)

Definition syscall_getpid : M Kernel Z := current_pid.
Definition syscall_getppid : M Kernel Z := current_ppid.
Definition syscall_gettid : M Kernel Z := current_tid.

(** [proc::current_process().map(f).unwrap_or(0)]. *)
Definition current_field (f : Process -> Z) : M Kernel Z :=
  let* p := current_process in retM (from_option f 0 p).

Definition syscall_getuid : M Kernel Z := current_field p_uid.
Definition syscall_geteuid : M Kernel Z := current_field p_euid.
Definition syscall_getgid : M Kernel Z := current_field p_gid.
Definition syscall_getegid : M Kernel Z := current_field p_egid.

Definition syscall_setuid_impl (uid : Z) : M Kernel Z :=
  let* process := current_process_mut in
  let* (slot, process) := option_ok process Invalid in
  set_process slot (Some (process <| p_uid := wrap32 uid |> <| p_euid := wrap32 uid |>)) ;;;
  retM 0.

Definition syscall_setgid_impl (gid : Z) : M Kernel Z :=
  let* process := current_process_mut in
  let* (slot, process) := option_ok process Invalid in
  set_process slot (Some (process <| p_gid := wrap32 gid |> <| p_egid := wrap32 gid |>)) ;;;
  retM 0.

Definition syscall_set_tid_address_impl (tidptr : Z) : M Kernel Z :=
  let* thread := current_thread_mut in
  let* (slot, thread) := option_ok thread Invalid in
  set_thread slot (Some (thread <| th_clear_child_tid := tidptr |>)) ;;;
  current_tid.

Definition syscall_getpgrp : M Kernel Z := current_field p_pgid.

Definition syscall_getpgid_impl (pid : Z) : M Kernel Z :=
  if pid =? 0 then current_field p_pgid
  else
    let* k := getM in
    let* slot := option_ok (find_slot_by_pid pid k) NoEntry in
    let* process := process_at slot in
    let* process := option_ok process NoEntry in
    retM (p_pgid process).

Definition syscall_getsid_impl (pid : Z) : M Kernel Z :=
  if pid =? 0 then current_field p_sid
  else
    let* k := getM in
    let* slot := option_ok (find_slot_by_pid pid k) NoEntry in
    let* process := process_at slot in
    let* process := option_ok process NoEntry in
    retM (p_sid process).

Definition syscall_setpgid_impl (pid pgid : Z) : M Kernel Z :=
  let* current_pid := current_pid in
  let target_pid := if pid =? 0 then current_pid else pid in
  ensure (target_pid =? current_pid) Unsupported ;;;
  let* process := current_process_mut in
  let* (slot, process) := option_ok process Invalid in
  let new_pgid := if pgid =? 0 then target_pid else pgid in
  ensure (negb (new_pgid =? 0)) Invalid ;;;
  ensure ((new_pgid =? target_pid) || (new_pgid =? p_pgid process)) Unsupported ;;;
  set_process slot (Some (process <| p_pgid := new_pgid |>)) ;;;
  retM 0.

Definition syscall_umask_impl (mask : Z) : M Kernel Z :=
  let* process := current_process_mut in
  let* (slot, process) := option_ok process Invalid in
  let old := p_umask process in
  set_process slot (Some (process <| p_umask := wrap32 mask & UMASK_MASK |>)) ;;;
  retM old.

Definition syscall_getresuid_impl (ruid_ptr euid_ptr suid_ptr : Z) : M Kernel Z :=
  let* process := current_process in
  let* process := option_ok process Invalid in
  let* ok := copy_struct_to_user ruid_ptr (U32V (p_uid process)) in
  ensure ok Fault ;;;
  let* ok := copy_struct_to_user euid_ptr (U32V (p_euid process)) in
  ensure ok Fault ;;;
  let* ok := copy_struct_to_user suid_ptr (U32V (p_euid process)) in
  ensure ok Fault ;;;
  retM 0.

Definition syscall_getresgid_impl (rgid_ptr egid_ptr sgid_ptr : Z) : M Kernel Z :=
  let* process := current_process in
  let* process := option_ok process Invalid in
  let* ok := copy_struct_to_user rgid_ptr (U32V (p_gid process)) in
  ensure ok Fault ;;;
  let* ok := copy_struct_to_user egid_ptr (U32V (p_egid process)) in
  ensure ok Fault ;;;
  let* ok := copy_struct_to_user sgid_ptr (U32V (p_egid process)) in
  ensure ok Fault ;;;
  retM 0.

(** ** Processes and threads *)

Section Spawn.
Context (fork_return_trampoline : Z).

Definition syscall_fork_impl (frame_ptr : Z) : M Kernel Z :=
  ensure (negb (frame_ptr =? 0)) Invalid ;;;
  let* pml4 := current_pml4 in
  let* child_pml4 := on_mach (clone_user_address_space pml4) in
  let* child_slot := spawn_forked_task fork_return_trampoline frame_ptr child_pml4 in
  let* child_slot := option_ok child_slot Invalid in
  fork_current child_slot.

(** [thread.clear_child_tid = child_tid_ptr] on [THREADS[child_slot]]. *)
Definition put_clear_child_tid (child_slot child_tid_ptr : Z) : M Kernel unit :=
  let* thread := thread_at child_slot in
  let* thread := option_ok thread Invalid in
  set_thread child_slot (Some (thread <| th_clear_child_tid := child_tid_ptr |>)).

(** The checks on the flags: whether a thread is to be created. *)
Definition clone_check (flags : Z) : M Kernel bool :=
  let unsupported := flags & not64 (CLONE_SIGNAL_MASK .| CLONE_SUPPORTED_MASK .| CLONE_THREAD_FLAGS) in
  ensure (unsupported =? 0) Unsupported ;;;
  ensure ((flags & (CLONE_VFORK .| CLONE_PARENT .| CLONE_PIDFD .| CLONE_PTRACE .| CLONE_NEWNS .| CLONE_SYSVSEM
                    .| CLONE_DETACHED .| CLONE_UNTRACED .| CLONE_NEWCGROUP .| CLONE_NEWUTS .| CLONE_NEWIPC
                    .| CLONE_NEWUSER .| CLONE_NEWPID .| CLONE_NEWNET .| CLONE_IO)) =? 0) Unsupported ;;;
  let exit_signal := flags & CLONE_SIGNAL_MASK in
  let thread_clone := has_bits flags CLONE_THREAD in
  (if thread_clone then
     ensure ((flags & CLONE_THREAD_FLAGS) =? CLONE_THREAD_FLAGS) Invalid ;;;
     ensure (exit_signal =? 0) Unsupported
   else ensure ((exit_signal =? 0) || (exit_signal =? SIGCHLD)) Unsupported) ;;;
  retM thread_clone.

Definition syscall_clone_impl (flags child_stack parent_tid_ptr child_tid_ptr frame_ptr : Z) : M Kernel Z :=
  let* thread_clone := clone_check flags in
  let* pml4 := current_pml4 in
  let* child_pml4 := if (thread_clone : bool) then retM pml4 else on_mach (clone_user_address_space pml4) in
  let* child_slot := spawn_forked_task fork_return_trampoline frame_ptr child_pml4 in
  let* child_slot := option_ok child_slot Invalid in
  let* child_id :=
    if thread_clone then
      let* tls := if has_bits flags CLONE_SETTLS then clone_tls_from_frame frame_ptr else current_fs_base in
      spawn_thread_in_group child_slot
        (if has_bits flags CLONE_CHILD_CLEARTID || has_bits flags CLONE_CHILD_SETTID then child_tid_ptr else 0) tls
    else fork_current child_slot in
  (if negb (child_stack =? 0) then
     let* child_task := task_frame_mut child_slot in
     let* child_task := option_ok child_task Invalid in
     put_r10 child_task child_stack
   else retM tt) ;;;
  (if has_bits flags CLONE_CHILD_SETTID then
     put_clear_child_tid child_slot child_tid_ptr ;;;
     let* ok := copy_struct_to_user child_tid_ptr (i32v child_id) in
     ensure ok Fault
   else retM tt) ;;;
  (if has_bits flags CLONE_CHILD_CLEARTID then put_clear_child_tid child_slot child_tid_ptr else retM tt) ;;;
  (if negb (parent_tid_ptr =? 0) then
     let* ok := copy_struct_to_user parent_tid_ptr (i32v child_id) in
     ensure ok Fault
   else retM tt) ;;;
  retM child_id.
End Spawn.

(** [loop { if !is_running_in_slot(slot) { break } yield_now() }]. *)
Fixpoint waitpid_loop (fuel : nat) (pauses : nat -> Pause) (slot : Z) : M Kernel (Wait unit) :=
  let* running := is_running_in_slot slot in
  if negb running then retM (Done tt)
  else
    match fuel with
    | O => retM Blocked
    | S f => pause (pauses f) ;;; waitpid_loop f pauses slot
    end.

Definition syscall_waitpid_impl (fuel : nat) (pauses : nat -> Pause) (pid : Z) : M Kernel (Wait Z) :=
  let target_pid := pid in
  ensure (0 <? target_pid) Invalid ;;;
  let* self_slot := current_task_slot in
  let* k := getM in
  let* slot := option_ok (find_slot_by_pid target_pid k) NoEntry in
  ensure (negb (slot =? self_slot)) Invalid ;;;
  let* self_pid := current_pid in
  let* target := process_at slot in
  let* target := option_ok target NoEntry in
  ensure (p_parent_pid target =? self_pid) Child ;;;
  let* w := waitpid_loop fuel pauses slot in
  match w with
  | Blocked => retM Blocked
  | Done _ =>
      let* code := reap_slot slot in
      let* code := option_ok code Invalid in
      retM (Done (i64_bits code))
  end.

(** The end of both exits: the task is dead and waits to be switched away. *)
Definition leave_task : M Kernel (Wait Z) :=
  let* slot := current_task_slot in
  kill_task slot ;;;
  modifyM (fun k => k <| k_in_syscall := false |>) ;;;
  retM Blocked.

Definition syscall_exit (code : Z) : M Kernel (Wait Z) :=
  let* parent_pid := current_ppid in
  clear_child_tid_and_wake ;;;
  let* group_dead := exit_thread (as_i64 code) false in
  (if (group_dead : bool) then notify_parent_exit parent_pid else retM tt) ;;;
  leave_task.

Definition syscall_exit_group (code : Z) : M Kernel (Wait Z) :=
  let* parent_pid := current_ppid in
  clear_child_tid_and_wake ;;;
  exit_thread (as_i64 code) true ;;;
  notify_parent_exit parent_pid ;;;
  leave_task.

(** ** Descriptors *)

Definition syscall_close_impl (fd : Z) : M Kernel Z :=
  let* ok := close_descriptor fd in
  ensure ok BadFd ;;;
  retM 0.

Definition syscall_dup_impl (oldfd : Z) : M Kernel Z :=
  let* fd := dup_min oldfd 0 false in option_ok fd BadFd.

Definition syscall_dup3_impl (oldfd newfd flags : Z) : M Kernel Z :=
  ensure ((flags & not64 O_CLOEXEC) =? 0) Invalid ;;;
  ensure (negb (oldfd =? newfd)) Invalid ;;;
  let cloexec := has_bits flags O_CLOEXEC in
  let* fd := dup_exact oldfd newfd cloexec in
  option_ok fd BadFd.

Definition syscall_fcntl_impl (fd cmd arg : Z) : M Kernel Z :=
  if cmd =? F_DUPFD then let* r := dup_min fd arg false in option_ok r BadFd
  else if cmd =? F_DUPFD_CLOEXEC then let* r := dup_min fd arg true in option_ok r BadFd
  else if cmd =? F_GETFD then let* r := get_fd_flags fd in option_ok r BadFd
  else if cmd =? F_SETFD then
    let cloexec := has_bits (wrap32 arg) FD_CLOEXEC in
    let* ok := set_cloexec fd cloexec in
    ensure ok BadFd ;;;
    retM 0
  else if cmd =? F_GETFL then
    let* r := get_status_flags fd in
    let* r := option_ok r BadFd in
    retM (r .| O_RDONLY)
  else if cmd =? F_SETFL then
    let flags := wrap32 arg & FCNTL_STATUS_MASK in
    let* ok := set_status_flags fd flags in
    ensure ok BadFd ;;;
    retM 0
  else errM Unsupported.

Definition syscall_pipe_impl (pipefd_ptr : Z) : M Kernel Z :=
  ensure (user_range_ok pipefd_ptr 8) Fault ;;;
  let* fds := create_pipe_pair in
  let* (read_fd, write_fd) := option_ok fds Invalid in
  let bytes := to_le 4 (wrap32 read_fd) ++ to_le 4 (wrap32 write_fd) in
  let* ok := copy_to_user pipefd_ptr bytes in
  if negb ok then
    close_descriptor read_fd ;;;
    close_descriptor write_fd ;;;
    errM Fault
  else retM 0.

(** [fd as usize] of an [i32]. *)
Definition usize_of_i32 (x : Z) : Z := wrap64 (as_i32 x).

Definition pipe2_flag_fd (flags fd : Z) : M Kernel unit :=
  (if has_bits flags O_CLOEXEC then let* ok := set_cloexec fd true in ensure ok BadFd else retM tt) ;;;
  (if has_bits flags O_NONBLOCK then let* ok := set_status_flags fd O_NONBLOCK in ensure ok BadFd else retM tt).

Definition syscall_pipe2_impl (pipefd_ptr flags : Z) : M Kernel Z :=
  ensure ((flags & not64 (O_CLOEXEC .| O_NONBLOCK)) =? 0) Invalid ;;;
  syscall_pipe_impl pipefd_ptr ;;;
  let* raw := copy_from_user pipefd_ptr 8 in
  let* raw := option_ok raw Fault in
  let pipefds := [of_le (take 4 raw); of_le (take 4 (drop 4 raw))] in
  forM (usize_of_i32 <$> pipefds) (pipe2_flag_fd flags) ;;;
  retM 0.
