(* ===== verification/Mm.v ===== *)
(** * Memory system calls ([syscall/mm.rs])

    The program break and the mappings of a process.  The page tables are in
    the machine's memory; the bytes the process sees at the mapped addresses
    are in [k_umem], and a page that is mapped reads as zero.  A loop over
    pages runs once per page of the range. *)

From S2P Require Import Prelude Mem Update Result Pmm Paging RamFs Types State Task Proc Fd UserCopy.

Definition PROT_EXEC : Z := 0x1.
Definition PROT_WRITE : Z := 0x2.
Definition MAP_SHARED : Z := 0x01.
Definition MAP_PRIVATE : Z := 0x02.
Definition MAP_FIXED : Z := 0x10.
Definition MAP_ANONYMOUS : Z := 0x20.

Definition map_flags_from_prot (prot : Z) : MapFlags :=
  {| writable := has_bits prot PROT_WRITE; user := true; executable := has_bits prot PROT_EXEC |}.

(** A frame is mapped at [virt] and filled with zeros through the direct map. *)
Definition map_zeroed (pml4 virt frame : Z) (flags : MapFlags) : M Kernel unit :=
  on_mach (map_page_in pml4 virt frame flags) ;;;
  on_mach (modifyM (fun s => set_ram (fill (ram s) (p2v frame) 0 0x1000) s)) ;;;
  modifyM (fun k => k <| k_umem := fill (k_umem k) virt 0 0x1000 |>).

(** ** The program break *)

(** [while page < end]: [n] pages left. *)
Fixpoint brk_loop (n : nat) (page : Z) : M Kernel bool :=
  match n with
  | O => retM true
  | S n =>
      let* frame := on_mach alloc_frameM in
      if frame =? 0 then retM false
      else
        let* pml4 := current_pml4 in
        map_zeroed pml4 page frame {| writable := true; user := true; executable := false |} ;;;
        brk_loop n (page +w 0x1000)
  end.

(** The rounds of [while page < end { .. page += 0x1000 }]. *)
Definition pages_between (page end_ : Z) : nat := Z.to_nat (div_ceil (end_ - page) 0x1000).

Definition brk_impl (addr : Z) : M Kernel Z :=
  let* current_brk := current_brk in
  if addr =? 0 then retM current_brk
  else
    let new_brk := addr in
    if new_brk <=? current_brk then
      set_brk new_brk ;;;
      retM new_brk
    else
      let page := align_up current_brk in
      let end_ := align_up new_brk in
      let* ok := brk_loop (if page <? end_ then pages_between page end_ else 0) page in
      if negb ok then retM current_brk
      else
        set_brk new_brk ;;;
        retM new_brk.

(** ** Mappings *)

(** [if let Some(f) = unmap_page_in(pml4, start + off) { free_frame(f) }]
    for [n] pages. *)
Fixpoint unmap_loop (n : nat) (pml4 virt : Z) : M Kernel unit :=
  match n with
  | O => retM tt
  | S n =>
      let* frame := on_mach (unmap_page_in pml4 virt) in
      (match frame with Some frame => on_mach (free_frameM frame) | None => retM tt end) ;;;
      unmap_loop n pml4 (virt +w 0x1000)
  end.

(** [if let Some(vma) = find_vma_exact_mut(start, len) { *vma = empty() }]. *)
Definition drop_vma (start len : Z) : M Kernel unit :=
  let* v := find_vma_exact_mut start len in
  match v with
  | Some (slot, _, i, _) => set_vma slot i VmRegion_empty
  | None => retM tt
  end.

(** The loop of [mmap_impl] with [n] pages to go, the page at [off] next. *)
Fixpoint mmap_loop (n : nat) (pml4 start len off : Z) (flags : MapFlags) (file_seed : option (list Z)) : M Kernel unit :=
  match n with
  | O => retM tt
  | S n =>
      let* frame := on_mach alloc_frameM in
      if frame =? 0 then
        unmap_loop (Z.to_nat (off / 0x1000)) pml4 start ;;;
        drop_vma start len ;;;
        errM NoMem
      else
        map_zeroed pml4 (start +w off) frame flags ;;;
        (match file_seed with
         | Some bytes =>
             let src := Z.min off (vlen bytes) in
             let end_ := Z.min (off +w 0x1000) (vlen bytes) in
             if src <? end_ then
               let* chunk := unwrap (slice bytes src end_) in
               modifyM (fun k => k <| k_umem := store_bytes (k_umem k) (start +w off) chunk |>)
             else retM tt
         | None => retM tt
         end) ;;;
        mmap_loop n pml4 start len (off + 0x1000) flags file_seed
  end.

Definition mmap_impl (addr len prot flags fd off : Z) : M Kernel Z :=
  ensure (negb (len =? 0)) Invalid ;;;
  ensure (has_bits flags (MAP_PRIVATE .| MAP_SHARED)) Invalid ;;;
  ensure (negb (has_bits flags MAP_SHARED)) Unsupported ;;;
  let anonymous := has_bits flags MAP_ANONYMOUS in
  (if anonymous then ensure ((fd =? -1) && (off =? 0)) Invalid
   else
     ensure (0 <=? fd) BadFd ;;;
     ensure ((0 <=? off) && ((off & 0xFFF) =? 0)) Invalid) ;;;
  let len := align_up len in
  let* start :=
    if addr =? 0 then
      let* base := reserve_mmap_base len in
      option_ok base Invalid
    else
      let addr := addr & not64 0xFFF in
      let* conflict := region_conflicts addr len in
      ensure (has_bits flags MAP_FIXED && negb conflict) Invalid ;;;
      retM addr in
  let* conflict := region_conflicts start len in
  ensure (negb conflict) Invalid ;;;
  let* ok := alloc_vma start len prot flags in
  ensure ok Invalid ;;;
  let* pml4 := current_pml4 in
  let map_flags := map_flags_from_prot prot in
  let* file_seed :=
    if anonymous then retM None
    else
      let* d := descriptor_info fd in
      match d with
      | Some (DFile file_idx _) =>
          let* bytes := on_fs (vfs_read_range file_idx off len) in
          retM (Some (default [] bytes))
      | _ => errM BadFd
      end in
  mmap_loop (Z.to_nat (len / 0x1000)) pml4 start len 0 map_flags file_seed ;;;
  retM start.

Definition mmap (addr len prot flags fd off : Z) : M Kernel Z :=
  mmap_impl addr len (wrap32 prot) (wrap32 flags) (as_i32 fd) (as_i64 off).

Definition munmap_impl (addr len : Z) : M Kernel Z :=
  ensure (negb (addr =? 0) && negb (len =? 0)) Invalid ;;;
  let start := addr & not64 0xFFF in
  let len := align_up len in
  let* pml4 := current_pml4 in
  let* vma := find_vma_exact_mut start len in
  let* (slot, _, i, _) := option_ok vma Invalid in
  unmap_loop (Z.to_nat (len / 0x1000)) pml4 start ;;;
  set_vma slot i VmRegion_empty ;;;
  retM 0.

Fixpoint protect_loop (n : nat) (pml4 virt : Z) (flags : MapFlags) : M Kernel unit :=
  match n with
  | O => retM tt
  | S n =>
      let* ok := on_mach (protect_page_in pml4 virt flags) in
      if negb ok then errM Invalid else protect_loop n pml4 (virt +w 0x1000) flags
  end.

Definition mprotect_impl (addr len prot : Z) : M Kernel Z :=
  ensure (negb (addr =? 0) && negb (len =? 0)) Invalid ;;;
  let start := addr & not64 0xFFF in
  let len := align_up len in
  let* pml4 := current_pml4 in
  let* vma := find_vma_exact_mut start len in
  let* (slot, _, i, v) := option_ok vma Invalid in
  let flags := map_flags_from_prot (wrap32 prot) in
  protect_loop (Z.to_nat (len / 0x1000)) pml4 start flags ;;;
  set_vma slot i (v <| vm_prot := wrap32 prot |>) ;;;
  retM 0.
