(* ===== verification/MmSpec.v ===== *)
(** * Growing a process: what [brk] gives a program

    The memory of the running process is described twice: by its page tables,
    and by the bytes it reads ([k_umem]).  [agree] says that the two
    descriptions match wherever a page is mapped; the system calls that add
    memory keep them in step. *)

From S2P Require Import Prelude Mem Update Result Boot Pmm Paging PageTables AddressSpace UserImage RamFs.
From S2P Require Import Types State Task Proc UserCopy Mm.

(** The running thread, its process and its address space. *)
Record running (k : Kernel) (r slot : Z) (p : Process) : Prop := {
  run_task : exists t, zget (k_tasks k) (k_current k) = Some (Some t) /\ tk_pml4 t = r;
  run_thread : exists th, zget (k_threads k) (k_current k) = Some (Some th) /\ th_group_slot th = slot;
  run_process : zget (k_processes k) slot = Some (Some p);
}.

Definition agree (r : Z) (k : Kernel) : Prop :=
  forall v b, is_user v -> ubyte (ram (k_mach k)) r v = Some b -> k_umem k v = b.

Lemma running_pml4 k r slot p : running k r slot p -> current_pml4 k = OOk r k.
Proof.
  intros [(t & Ht & <-) _ _]. unfold current_pml4. rewrite getM_bind, Ht. by rewrite (bind_ok (unwrap (Some (Some t))) _ k (Some t) k eq_refl).
Qed.

Lemma running_current k r slot p : running k r slot p -> current_process_mut k = OOk (Some (slot, p)) k.
Proof.
  intros [_ (th & Hth & <-) Hp]. unfold current_process_mut.
  rewrite (bind_ok current_thread _ k (Some th) k).
  - rewrite (bind_ok (process_at (th_group_slot th)) _ k (Some p) k); [done|]. unfold process_at. by rewrite getM_bind, Hp.
  - unfold current_thread. rewrite (bind_ok current_thread_mut _ k (Some (k_current k, th)) k); [done|].
    unfold current_thread_mut, current_task_slot. rewrite (bind_ok _ _ k (k_current k) k) by done.
    rewrite (bind_ok (thread_at (k_current k)) _ k (Some th) k); [done|]. unfold thread_at. by rewrite getM_bind, Hth.
Qed.

Section Grow.
Context (own0 : gmap Z Owner) (r : Z).
Context (Hroot : own0 !! r = Some (OUser r [])).
Local Abbreviation space := (space own0 r).
Local Abbreviation repainted := (repainted own0 r).

(** One more page. *)
Lemma map_zeroed_spec own k page fl :
  space own (k_mach k) -> page mod 4096 = 0 -> 0 <= page -> page + 4096 <= 2 ^ 47 -> 4 <= nfree (k_mach k) -> agree r k ->
  exists frame s1 own' s', alloc_frameM (k_mach k) = OOk frame s1 /\ frame <> 0 /\
    let k' := k <| k_mach := s' |> <| k_umem := fill (k_umem k) page 0 0x1000 |> in
    map_zeroed r page frame fl (k <| k_mach := s1 |>) = OOk tt k' /\
    repainted (k_mach k) own' s' (wiped (ubyte (ram (k_mach k)) r) page (page + 4096)) 4 /\ agree r k'.
Proof.
  intros Hs Hm Hp Hb Hn Hag. assert (is_user page) as Hu by (unfold is_user; lia).
  destruct (fresh_page own0 r Hroot own (k_mach k) page fl Hs Hu Hn) as (f & s1 & s2 & own' & Ea & Hf & Em & R & _).
  set (s' := set_ram (fill (ram s2) (p2v f) 0 4096) s2) in *.
  assert (repainted (k_mach k) own' s' (wiped (ubyte (ram (k_mach k)) r) page (page + 4096)) 4) as R'.
  { eapply repainted_ext; [|reflexivity|exact R]. intros v Hv. cbv beta. unfold wiped.
    pose proof (Z.div_mod v 4096 ltac:(lia)). pose proof (Z.div_mod page 4096 ltac:(lia)). pose proof (Z.mod_pos_bound v 4096 ltac:(lia)).
    destruct (Z.eqb_spec (v / 4096) (page / 4096)), (Z.leb_spec page v), (Z.ltb_spec v (page + 4096)); done || lia. }
  exists f, s1, own', s'. split; [done|]. split; [done|]. cbv zeta. split; [|split; [done|]].
  - unfold map_zeroed. rewrite (bind_ok _ _ _ _ _ (on_mach_next _ k _ _ _ Em)).
    rewrite (bind_ok _ _ (k <| k_mach := s2 |>) tt (k <| k_mach := s' |>)) by (apply on_mach_next; done). done.
  - intros v b Hv. cbn [set_field k_mach k_umem]. rewrite (rp_bytes _ _ _ _ _ _ _ R') by done. unfold wiped, fill.
    destruct (Z.leb_spec page v), (Z.ltb_spec v (page + 4096)); cbn [andb].
    + rewrite (proj2 (in_range_spec _ _ _)) by lia. by intros [= <-].
    + rewrite (proj2 (in_range_false _ _ _)) by lia. by apply Hag.
    + rewrite (proj2 (in_range_false _ _ _)) by lia. by apply Hag.
    + rewrite (proj2 (in_range_false _ _ _)) by lia. by apply Hag.
Qed.

Lemma brk_loop_spec n slot p : forall own k page,
  space own (k_mach k) -> page mod 4096 = 0 -> 0 <= page -> page + Z.of_nat n * 4096 <= 2 ^ 47 ->
  4 * Z.of_nat n <= nfree (k_mach k) -> running k r slot p -> agree r k ->
  exists own' s' m', let k' := k <| k_mach := s' |> <| k_umem := m' |> in
    brk_loop n page k = OOk true k' /\ agree r k' /\
    repainted (k_mach k) own' s' (wiped (ubyte (ram (k_mach k)) r) page (page + Z.of_nat n * 4096)) (4 * Z.of_nat n) /\
    (forall v, v < page \/ page + Z.of_nat n * 4096 <= v -> m' v = k_umem k v).
Proof.
  induction n as [|n IH]; intros own k page Hs Hm Hp Hb Hn Hrun Hag; cbn [brk_loop].
  - exists own, (k_mach k), (k_umem k). cbv zeta. split_and!; [by destruct k|done| |done].
    eapply repainted_ext; [|reflexivity|by apply repainted_refl]. intros v _. unfold wiped.
    destruct (Z.leb_spec page v), (Z.ltb_spec v (page + Z.of_nat 0 * 4096)); done || lia.
  - destruct (map_zeroed_spec own k page {| writable := true; user := true; executable := false |} Hs Hm Hp ltac:(lia) ltac:(lia) Hag)
      as (f & s1 & own1 & s2 & Ea & Hf & Em & R1 & Hag1).
    rewrite (bind_ok _ _ _ _ _ (on_mach_ok _ _ _ _ Ea)), (proj2 (Z.eqb_neq _ _) Hf).
    assert (running (k <| k_mach := s1 |>) r slot p) as Hrun1 by (destruct Hrun; constructor; done).
    rewrite (bind_ok _ _ _ _ _ (running_pml4 _ _ _ _ Hrun1)), (bind_ok _ _ _ _ _ Em).
    set (k1 := k <| k_mach := s2 |> <| k_umem := _ |>) in *. rewrite wrap64_small by (unfold U64; lia).
    pose proof (rp_free _ _ _ _ _ _ _ R1).
    destruct (IH own1 k1 (page + 0x1000)) as (own' & s' & m' & E & Hag' & R2 & Hout); [apply R1| |lia|lia| | |done|].
    { rewrite <- Z.add_mod_idemp_l, Hm by lia. done. } { change (k_mach k1) with s2. lia. } { destruct Hrun; constructor; done. }
    exists own', s', m'. cbv zeta. split_and!; [exact E|exact Hag'| |].
    + change (k_mach k1) with s2 in R2.
      eapply repainted_ext; [| |exact (repainted_trans _ _ _ _ _ _ _ _ _ _ _ R1 R2)]; [|lia]. intros v Hv. unfold wiped.
      rewrite (rp_bytes _ _ _ _ _ _ _ R1) by done. unfold wiped.
      destruct (Z.leb_spec (page + 4096) v), (Z.ltb_spec v (page + 4096 + Z.of_nat n * 4096)), (Z.leb_spec page v), (Z.ltb_spec v (page + 4096)),
        (Z.ltb_spec v (page + Z.of_nat (S n) * 4096)); done || lia.
    + intros v Hv. rewrite Hout by lia. change (k_umem k1) with (fill (k_umem k) page 0 0x1000). unfold fill.
      by rewrite (proj2 (in_range_false _ _ _)) by lia.
Qed.
End Grow.

(** ** The break *)

Lemma align_up_spec x : 0 <= x <= 2 ^ 47 -> x <= align_up x < x + 4096 /\ align_up x mod 4096 = 0 /\ align_up x <= 2 ^ 47.
Proof.
  intros Hx. destruct (align_up_ge x) as [H1 H2]; [lia|unfold U64; lia|]. fold (align_up x) in H1, H2. split_and!; [lia|lia|done|].
  pose proof (Z.div_mod (align_up x) 4096 ltac:(lia)). lia.
Qed.

Lemma align_up_aligned x : 0 <= x <= 2 ^ 47 -> x mod 4096 = 0 -> align_up x = x.
Proof.
  intros Hx Hm. destruct (align_up_spec x Hx) as (H1 & H2 & _).
  pose proof (Z.div_mod x 4096 ltac:(lia)). pose proof (Z.div_mod (align_up x) 4096 ltac:(lia)). lia.
Qed.

Lemma pages_between_spec lo hi : lo <= hi -> lo mod 4096 = 0 -> hi mod 4096 = 0 -> hi = lo + Z.of_nat (pages_between lo hi) * 4096.
Proof.
  intros Hle Hl Hh. unfold pages_between, div_ceil.
  assert ((hi - lo) mod 0x1000 = 0) as -> by (by rewrite Zminus_mod, Hl, Hh). cbn [Z.eqb].
  pose proof (Z.div_mod lo 4096 ltac:(lia)). pose proof (Z.div_mod hi 4096 ltac:(lia)).
  replace (hi - lo) with ((hi / 4096 - lo / 4096) * 4096) by lia. rewrite Z.div_mul by lia. lia.
Qed.

Lemma set_brk_running k r slot p b : running k r slot p ->
  set_brk b k = OOk tt (k <| k_processes := zset (k_processes k) slot (Some (p <| p_program_break := b |>)) |>).
Proof.
  intros Hrun. unfold set_brk. rewrite (bind_ok _ _ _ _ _ (running_current _ _ _ _ Hrun)). unfold set_process, process_at.
  rewrite (bind_ok _ _ k (Some p) k); [done|]. by rewrite getM_bind, (run_process _ _ _ _ Hrun).
Qed.

Lemma running_set k r slot p p' : running k r slot p ->
  forall s m, running (k <| k_mach := s |> <| k_umem := m |> <| k_processes := zset (k_processes k) slot (Some p') |>) r slot p'.
Proof.
  intros [Ht Hth Hp] s m. constructor; [exact Ht|exact Hth|]. cbn. apply zget_zset_eq. by apply zget_Some in Hp.
Qed.

Lemma current_brk_running k r slot p : running k r slot p -> current_brk k = OOk (p_program_break p) k.
Proof.
  intros Hrun. unfold current_brk, current_process. rewrite (bind_ok _ _ k (Some p) k); [done|].
  by rewrite (bind_ok _ _ _ _ _ (running_current _ _ _ _ Hrun)).
Qed.

(** The break moves up, the pages up to it are mapped, and the two
    descriptions of the memory stay in step. *)
Lemma brk_up own0 own k r slot p a :
  own0 !! r = Some (OUser r []) -> space own0 r own (k_mach k) -> running k r slot p -> agree r k ->
  0 < p_program_break p <= a -> a <= 2 ^ 47 ->
  let lo := align_up (p_program_break p) in let hi := align_up a in
  (hi - lo) / 1024 <= nfree (k_mach k) ->
  exists own' s' m', let k' := k <| k_mach := s' |> <| k_umem := m' |>
      <| k_processes := zset (k_processes k) slot (Some (p <| p_program_break := a |>)) |> in
    brk_impl a k = OOk a k' /\ agree r k' /\
    repainted own0 r (k_mach k) own' s' (wiped (ubyte (ram (k_mach k)) r) lo hi) ((hi - lo) / 1024) /\
    (forall v, v < lo \/ hi <= v -> m' v = k_umem k v).
Proof.
  intros Hroot Hs Hrun Hag Hb Ha lo hi Hn. destruct (align_up_spec (p_program_break p) ltac:(lia)) as (L1 & L2 & L3).
  destruct (align_up_spec a ltac:(lia)) as (A1 & A2 & A3). fold lo in L1, L2, L3. fold hi in A1, A2, A3.
  assert (lo <= hi) as Hle.
  { pose proof (Z.div_mod lo 4096 ltac:(lia)). pose proof (Z.div_mod hi 4096 ltac:(lia)). lia. }
  pose proof (pages_between_spec lo hi Hle L2 A2) as Hpg. set (n := pages_between lo hi) in *.
  assert ((hi - lo) / 1024 = 4 * Z.of_nat n) as Hcost by (replace (hi - lo) with (4 * Z.of_nat n * 1024) by lia; by rewrite Z.div_mul).
  rewrite Hcost in *.
  destruct (brk_loop_spec own0 r Hroot n slot p own k lo Hs L2 ltac:(lia) ltac:(lia) Hn Hrun Hag) as (own' & s' & m' & E & Hag' & R & Hout).
  rewrite <- Hpg in R, Hout.
  assert (running (k <| k_mach := s' |> <| k_umem := m' |>) r slot p) as Hrun' by (destruct Hrun; constructor; done).
  exists own', s', m'. cbv zeta. split_and!; [|exact Hag'|exact R|exact Hout].
  unfold brk_impl. rewrite (bind_ok _ _ _ _ _ (current_brk_running _ _ _ _ Hrun)), (proj2 (Z.eqb_neq a 0)) by lia.
  destruct (Z.leb_spec a (p_program_break p)) as [Hab|Hab].
  - assert (n = 0%nat) as Hn0 by (assert (a = p_program_break p) as Hab' by lia; unfold lo, hi in Hpg; rewrite Hab' in Hpg; lia).
    rewrite Hn0 in E. cbn [brk_loop] in E. injection E as Ek. rewrite Ek at 1.
    rewrite (bind_ok _ _ _ _ _ (set_brk_running _ _ _ _ a Hrun')). done.
  - cbv zeta. fold lo hi. rewrite (bind_ok _ _ k true (k <| k_mach := s' |> <| k_umem := m' |>)).
    + cbn [negb]. by rewrite (bind_ok _ _ _ _ _ (set_brk_running _ _ _ _ a Hrun')).
    + destruct (Z.ltb_spec lo hi); [exact E|]. rewrite <- E. f_equal. lia.
Qed.
