(* ===== verification/SysIo.v ===== *)
(** * I/O system calls ([syscall/io.rs])

    Reads and writes through descriptors, at an offset, and over vectors. *)

From S2P Require Import Prelude Mem Update Result Pmm Paging RamFs Types Vga State Task Proc Fd UserCopy.

#[export] Instance UserStruct_WinSize : UserStruct WinSize :=
  {| size_of := 8; bytes_of := WinSize_bytes;
     of_bytes bs := mkWinSize (of_le (take 2 bs)) (of_le (take 2 (drop 2 bs))) (of_le (take 2 (drop 4 bs)))
                              (of_le (take 2 (drop 6 bs))) |}.

(** Three bytes of padding follow [c_cc]. *)
Definition Termios_bytes (t : Termios) : list Z :=
  to_le 4 (c_iflag t) ++ to_le 4 (c_oflag t) ++ to_le 4 (c_cflag t) ++ to_le 4 (c_lflag t) ++
  [c_line t] ++ c_cc t ++ replicate 3 0 ++ to_le 4 (c_ispeed t) ++ to_le 4 (c_ospeed t).

#[export] Instance UserStruct_Termios : UserStruct Termios :=
  {| size_of := 60; bytes_of := Termios_bytes;
     of_bytes bs := mkTermios (of_le (take 4 bs)) (of_le (take 4 (drop 4 bs))) (of_le (take 4 (drop 8 bs)))
                      (of_le (take 4 (drop 12 bs))) (of_le (take 1 (drop 16 bs))) (take 32 (drop 17 bs))
                      (of_le (take 4 (drop 52 bs))) (of_le (take 4 (drop 56 bs))) |}.

(** The bytes of a user buffer. *)
Definition user_bytes (buf len : Z) : M Kernel (list Z) :=
  let* k := getM in retM (load_bytes (k_umem k) buf len).

Definition write_impl (fd buf_ptr count : Z) : M Kernel Z :=
  let len := count in
  ensure (user_range_ok buf_ptr len) Fault ;;;
  let* bytes := user_bytes buf_ptr len in
  let* w := write_to_fd fd bytes in
  option_ok w BadFd.

(** A result that may still be waited for. *)
Definition wait_ok {A} (w : Wait (option A)) (e : SysError) : M Kernel (Wait A) :=
  match w with
  | Blocked => retM Blocked
  | Done o => let* a := option_ok o e in retM (Done a)
  end.

Definition read_impl (fuel : nat) (irqs : nat -> list Irq) (fd buf_ptr count : Z) : M Kernel (Wait Z) :=
  ensure (user_range_ok buf_ptr count) Fault ;;;
  let* r := read_from_fd fuel irqs fd buf_ptr count in
  wait_ok r BadFd.

(** ** Vectors *)

Fixpoint writev_loop (fd : Z) (iovs : list Iovec) (total : Z) : M Kernel Z :=
  match iovs with
  | [] => retM total
  | iov :: iovs =>
      let len := iov_len iov in
      ensure (user_range_ok (iov_base iov) len) Fault ;;;
      let* bytes := user_bytes (iov_base iov) len in
      let* w := write_to_fd fd bytes in
      match w with
      | Some written =>
          let total := sat_add64 total written in
          if negb (written =? len) then retM total else writev_loop fd iovs total
      | None => errM BadFd
      end
  end.

Definition writev_impl (fd iov_ptr iovcnt : Z) : M Kernel Z :=
  let* v := copy_iovecs_from_user iov_ptr iovcnt in
  let* (iovs, count) := option_ok v Fault in
  writev_loop fd (take (Z.to_nat count) iovs) 0.

Fixpoint readv_loop (fuel : nat) (irqs : nat -> list Irq) (fd : Z) (iovs : list Iovec) (total : Z) : M Kernel (Wait Z) :=
  match iovs with
  | [] => retM (Done total)
  | iov :: iovs =>
      let len := iov_len iov in
      ensure (user_range_ok (iov_base iov) len) Fault ;;;
      let* r := read_from_fd fuel irqs fd (iov_base iov) len in
      match r with
      | Blocked => retM Blocked
      | Done (Some read) =>
          let total := sat_add64 total read in
          if negb (read =? len) then retM (Done total) else readv_loop fuel irqs fd iovs total
      | Done None => errM BadFd
      end
  end.

Definition readv_impl (fuel : nat) (irqs : nat -> list Irq) (fd iov_ptr iovcnt : Z) : M Kernel (Wait Z) :=
  let* v := copy_iovecs_from_user iov_ptr iovcnt in
  let* (iovs, count) := option_ok v Fault in
  readv_loop fuel irqs fd (take (Z.to_nat count) iovs) 0.

(** ** Terminal control *)

Definition termios_zero : Termios := mkTermios 0 0 0 0 0 (replicate 32 0) 0 0.

Definition ioctl_impl (fd req argp : Z) : M Kernel Z :=
  let* t := get_fd_target fd in
  ensure (match t with Some (Stdio _) | Some TtyDev => true | _ => false end) NotTty ;;;
  if req =? TCGETS then
    ensure (user_range_ok argp (size_of Termios)) Fault ;;;
    let* ok := copy_struct_to_user argp termios_zero in
    ensure ok Fault ;;;
    retM 0
  else if req =? TIOCGWINSZ then
    ensure (user_range_ok argp (size_of WinSize)) Fault ;;;
    let* k := getM in
    let '(rows, cols, xpixel, ypixel) := tty_winsize (k_vga k) in
    let* ok := copy_struct_to_user argp (mkWinSize rows cols xpixel ypixel) in
    ensure ok Fault ;;;
    retM 0
  else errM NotTty.

(** ** At an offset *)

(** [let DescriptorInfo::File { file_idx, .. } = option(..)? else { err }]. *)
Definition file_of_fd (fd : Z) (e : SysError) : M Kernel Z :=
  let* d := descriptor_info fd in
  let* d := option_ok d BadFd in
  match d with
  | DFile file_idx _ => retM file_idx
  | _ => errM e
  end.

Definition pread64_impl (fd buf_ptr count offset : Z) : M Kernel Z :=
  let len := count in
  ensure (user_range_ok buf_ptr len) Fault ;;;
  let* status := get_status_flags fd in
  let* status := option_ok status BadFd in
  ensure (negb ((status & O_ACCMODE) =? O_WRONLY)) BadFd ;;;
  let* file_idx := file_of_fd fd NotSeekable in
  let* bytes := on_fs (fs_read_to_vec file_idx offset len) in
  let* bytes := option_ok bytes BadFd in
  let* ok := copy_to_user buf_ptr bytes in
  ensure ok Fault ;;;
  retM (vlen bytes).

Definition pwrite64_impl (fd buf_ptr count offset : Z) : M Kernel Z :=
  let len := count in
  ensure (user_range_ok buf_ptr len) Fault ;;;
  let* status := get_status_flags fd in
  let* status := option_ok status BadFd in
  ensure (negb ((status & O_ACCMODE) =? O_RDONLY)) BadFd ;;;
  let* file_idx := file_of_fd fd NotSeekable in
  let* bytes := copy_from_user buf_ptr len in
  let* bytes := option_ok bytes Fault in
  let* ok := on_fs (fs_write_at file_idx offset bytes) in
  ensure ok BadFd ;;;
  retM len.

Fixpoint preadv_loop (fd : Z) (iovs : list Iovec) (total cur_off : Z) : M Kernel Z :=
  match iovs with
  | [] => retM total
  | iov :: iovs =>
      let len := iov_len iov in
      ensure (user_range_ok (iov_base iov) len) Fault ;;;
      let* bytes := pread64_impl fd (iov_base iov) (iov_len iov) cur_off in
      let total := sat_add64 total bytes in
      let cur_off := sat_add64 cur_off bytes in
      if negb (bytes =? len) then retM total else preadv_loop fd iovs total cur_off
  end.

Definition preadv_impl (fd iov_ptr iovcnt offset : Z) : M Kernel Z :=
  let* v := copy_iovecs_from_user iov_ptr iovcnt in
  let* (iovs, count) := option_ok v Fault in
  preadv_loop fd (take (Z.to_nat count) iovs) 0 offset.

Fixpoint pwritev_loop (fd : Z) (iovs : list Iovec) (total cur_off : Z) : M Kernel Z :=
  match iovs with
  | [] => retM total
  | iov :: iovs =>
      let* written := pwrite64_impl fd (iov_base iov) (iov_len iov) cur_off in
      let total := sat_add64 total written in
      let cur_off := sat_add64 cur_off written in
      if negb (written =? iov_len iov) then retM total else pwritev_loop fd iovs total cur_off
  end.

Definition pwritev_impl (fd iov_ptr iovcnt offset : Z) : M Kernel Z :=
  let* v := copy_iovecs_from_user iov_ptr iovcnt in
  let* (iovs, count) := option_ok v Fault in
  pwritev_loop fd (take (Z.to_nat count) iovs) 0 offset.

Definition sendfile_impl (out_fd in_fd offset_ptr count : Z) : M Kernel Z :=
  let* status := get_status_flags in_fd in
  let* status := option_ok status BadFd in
  ensure (negb ((status & O_ACCMODE) =? O_WRONLY)) BadFd ;;;
  let* file_idx := file_of_fd in_fd NotSeekable in
  let* start_offset :=
    if negb (offset_ptr =? 0) then
      let* offset := copy_struct_from_user u64 offset_ptr in
      let* offset := option_ok offset Fault in
      let offset := as_i64 (u64_val offset) in
      ensure (0 <=? offset) Invalid ;;;
      retM offset
    else
      let* o := with_fd_mut in_fd (fun file => retM (of_offset file, file)) in
      option_ok o BadFd in
  let* bytes := on_fs (fs_read_to_vec file_idx start_offset count) in
  let* bytes := option_ok bytes BadFd in
  let* w := write_to_fd out_fd bytes in
  let* written := option_ok w BadFd in
  (if negb (offset_ptr =? 0) then
     let new_offset := start_offset +w written in
     let* ok := copy_struct_to_user offset_ptr (U64V new_offset) in
     ensure ok Fault
   else
     let* o := with_fd_mut in_fd (fun file => retM (tt, file <| of_offset := start_offset +w written |>)) in
     option_ok o BadFd) ;;;
  retM written.
