(* ===== verification/SysVfs.v ===== *)
(** * File system calls ([syscall/vfs.rs])

    Opening, the special device paths, status, seeking, truncation, removal
    and the listing. *)

From Stdlib Require Import Ascii String.
From S2P Require Import Prelude Mem Update Fmt Pci Bench Result Pmm Paging RamFs Types State Task Proc Fd UserCopy SysIo.

Definition S_IFREG : Z := 0x8000.              (* 0o100000 *)
Definition S_IFCHR : Z := 0x2000.              (* 0o020000 *)
Definition S_IFIFO : Z := 0x1000.              (* 0o010000 *)
Definition DEFAULT_FILE_MODE : Z := S_IFREG .| 0x1A4.   (* 0o644 *)
Definition DEFAULT_CHAR_MODE : Z := S_IFCHR .| 0x1B6.   (* 0o666 *)
Definition DEFAULT_PIPE_MODE : Z := S_IFIFO .| 0x1B6.
Definition AT_FDCWD : Z := -100.
Definition AT_REMOVEDIR : Z := 0x200.
Definition PROC_SELF_EXE : list Z := lit "/proc/self/exe".
Definition F_OK : Z := 0.
Definition X_OK : Z := 1.
Definition W_OK : Z := 2.
Definition R_OK : Z := 4.
Definition O_LARGEFILE : Z := 0x8000.          (* 0o100000 *)
Definition DEV_NULL : list Z := lit "/dev/null".
Definition DEV_ZERO : list Z := lit "/dev/zero".
Definition DEV_TTY : list Z := lit "/dev/tty".
Definition DEV_STDIN : list Z := lit "/dev/stdin".
Definition DEV_STDOUT : list Z := lit "/dev/stdout".
Definition DEV_STDERR : list Z := lit "/dev/stderr".

Definition is_path (p q : list Z) : bool := bool_decide (p = q).

#[export] Instance UserStruct_Stat : UserStruct Stat :=
  {| size_of := 88; bytes_of := Stat_bytes;
     of_bytes bs :=
       let w n := of_le (take 8 (drop n bs)) in
       let h n := of_le (take 4 (drop n bs)) in
       mkStat (w 0%nat) (w 8%nat) (h 16%nat) (h 20%nat) (h 24%nat) (h 28%nat) (w 32%nat) (as_i64 (w 40%nat))
              (as_i64 (w 48%nat)) (as_i64 (w 56%nat)) (as_i64 (w 64%nat)) (as_i64 (w 72%nat)) (as_i64 (w 80%nat)) |}.

Definition char_stat : Stat := mkStat 3 1 DEFAULT_CHAR_MODE 1 0 0 0 0 1 0 0 0 0.

(** [FS] operations that return a flag. *)
Definition fs_do (f : FS -> bool * FS) : M Kernel bool := fun k =>
  let '(b, fs) := f (k_fs k) in OOk b (k <| k_fs := fs |>).

(** ** Opening *)

Definition valid_open_flags (flags : Z) : bool :=
  let allowed := O_ACCMODE .| O_CREAT .| O_EXCL .| O_TRUNC .| O_APPEND .| O_NONBLOCK .| O_LARGEFILE .| 0x80000 in
  (flags & not64 allowed) =? 0.

Definition open_path (path : list Z) (flags : Z) : M Kernel Z :=
  ensure (valid_open_flags flags) Invalid ;;;
  let accmode := flags & O_ACCMODE in
  ensure ((accmode =? O_RDONLY) || (accmode =? O_WRONLY) || (accmode =? O_RDWR)) Invalid ;;;
  ensure (negb (has_bits flags O_TRUNC) || negb (accmode =? O_RDONLY)) Invalid ;;;
  let* k := getM in
  let* file_idx :=
    match fs_find_idx path (k_fs k) with
    | None =>
        ensure (has_bits flags O_CREAT) NoEntry ;;;
        let* ok := fs_do (vfs_create path) in
        ensure ok Invalid ;;;
        let* k := getM in
        retM (fs_find_idx path (k_fs k))
    | Some i =>
        if has_bits flags O_CREAT && has_bits flags O_EXCL then errM Invalid else retM (Some i)
    end in
  let* file_idx := option_ok file_idx NoEntry in
  (if has_bits flags O_TRUNC && negb (accmode =? O_RDONLY) then
     let* ok := on_fs (fs_resize file_idx 0) in
     ensure ok Invalid
   else retM tt) ;;;
  let status_flags := wrap32 flags & (O_ACCMODE .| O_APPEND .| O_NONBLOCK) in
  let* fd := open_file file_idx status_flags in
  option_ok fd BadFd.

(** [Some(match r { Some(fd) => ok(fd), None => err(BadFd) })]. *)
Definition special (r : M Kernel (option Z)) : M Kernel (option Z) :=
  let* fd := r in
  let* fd := option_ok fd BadFd in
  retM (Some fd).

(** [None]: not a special path. *)
Definition open_special_path (raw_path : list Z) (flags : Z) : M Kernel (option Z) :=
  if negb (valid_open_flags flags) then errM Invalid
  else if is_path raw_path DEV_NULL then special (open_char_device Null)
  else if is_path raw_path DEV_ZERO then special (open_char_device Zero)
  else if is_path raw_path DEV_TTY then special (open_char_device TtyDev)
  else if is_path raw_path DEV_STDIN then special (dup_min 0 3 false)
  else if is_path raw_path DEV_STDOUT then special (dup_min 1 3 false)
  else if is_path raw_path DEV_STDERR then special (dup_min 2 3 false)
  else if is_path raw_path PROC_SELF_EXE then
    let* (exe_path, exe_len) := current_exe_path in
    if exe_len =? 0 then errM NoEntry
    else
      let* fd := open_path (take (Z.to_nat exe_len) exe_path) flags in
      retM (Some fd)
  else retM None.

Definition open_impl (path_ptr flags mode : Z) : M Kernel Z :=
  let* raw := copy_cstr_from_user path_ptr in
  let* raw := option_ok raw Fault in
  let* special := open_special_path (prefix_of raw) flags in
  match special with
  | Some fd => retM fd
  | None =>
      let* name := copy_path_cstr_from_user path_ptr in
      let* name := option_ok name Fault in
      open_path (prefix_of name) flags
  end.

Definition openat_impl (dirfd path_ptr flags mode : Z) : M Kernel Z :=
  ensure (as_i64 dirfd =? AT_FDCWD) Unsupported ;;;
  open_impl path_ptr flags mode.

(** ** Status *)

Definition fsize_impl (fd : Z) : M Kernel Z :=
  let* s := file_size fd in option_ok s BadFd.

(** [size] is an [i64]. *)
Definition stat_for_file_idx (file_idx size : Z) : Stat :=
  mkStat 1 (file_idx +w 1) DEFAULT_FILE_MODE 1 0 0 0 size 4096 (as_i64 (div_ceil (i64_bits size +w 511) 512)) 0 0 0.

Definition fstat_impl (fd stat_ptr : Z) : M Kernel Z :=
  let* d := descriptor_info fd in
  let* d := option_ok d BadFd in
  let stat :=
    match d with
    | DStdio index => mkStat 0 index DEFAULT_CHAR_MODE 1 0 0 0 0 1 0 0 0 0
    | DCharDevice => char_stat
    | DFile file_idx size => stat_for_file_idx file_idx (as_i64 size)
    | DPipe => mkStat 2 fd DEFAULT_PIPE_MODE 1 0 0 0 0 1024 0 0 0 0
    end in
  let* ok := copy_struct_to_user stat_ptr stat in
  ensure ok Fault ;;;
  retM 0.

Definition is_device (p : list Z) : bool :=
  is_path p DEV_NULL || is_path p DEV_ZERO || is_path p DEV_TTY || is_path p DEV_STDIN || is_path p DEV_STDOUT
  || is_path p DEV_STDERR.

(** The status of the file with a name. *)
Definition stat_name (name : list Z) (stat_ptr : Z) : M Kernel Z :=
  let* k := getM in
  let* file_idx := option_ok (fs_find_idx name (k_fs k)) NoEntry in
  let stat := stat_for_file_idx file_idx (as_i64 (fs_file_size file_idx (k_fs k))) in
  let* ok := copy_struct_to_user stat_ptr stat in
  ensure ok Fault ;;;
  retM 0.

Definition fstatat_impl (dirfd path_ptr stat_ptr flags : Z) : M Kernel Z :=
  ensure (as_i64 dirfd =? AT_FDCWD) Unsupported ;;;
  ensure (flags =? 0) Unsupported ;;;
  let* raw := copy_cstr_from_user path_ptr in
  let* raw := option_ok raw Fault in
  let path := prefix_of raw in
  if is_device path then
    let* ok := copy_struct_to_user stat_ptr char_stat in
    ensure ok Fault ;;;
    retM 0
  else if is_path path PROC_SELF_EXE then
    let* (exe_path, exe_len) := current_exe_path in
    ensure (0 <? exe_len) NoEntry ;;;
    stat_name (take (Z.to_nat exe_len) exe_path) stat_ptr
  else
    let* name := copy_path_cstr_from_user path_ptr in
    let* name := option_ok name Fault in
    stat_name (prefix_of name) stat_ptr.

Definition faccessat_impl (dirfd path_ptr mode flags : Z) : M Kernel Z :=
  ensure (as_i64 dirfd =? AT_FDCWD) Unsupported ;;;
  ensure (flags =? 0) Unsupported ;;;
  ensure (((mode & not64 (R_OK .| W_OK .| X_OK)) =? 0) || (mode =? F_OK)) Invalid ;;;
  let* raw := copy_cstr_from_user path_ptr in
  let* raw := option_ok raw Fault in
  let path := prefix_of raw in
  if is_device path || is_path path PROC_SELF_EXE then
    ensure ((mode & X_OK) =? 0) Access ;;;
    retM 0
  else if is_path path [SLASH] then
    ensure ((mode & W_OK) =? 0) Access ;;;
    retM 0
  else
    let* name := copy_path_cstr_from_user path_ptr in
    let* name := option_ok name Fault in
    let* k := getM in
    let* _ := option_ok (fs_find_idx (prefix_of name) (k_fs k)) NoEntry in
    ensure ((mode & X_OK) =? 0) Access ;;;
    retM 0.

Definition lseek_impl (fd offset whence : Z) : M Kernel Z :=
  let* d := descriptor_info fd in
  let* d := option_ok d BadFd in
  match d with
  | DFile _ _ =>
      let* r := seek fd (as_i64 offset) whence in
      option_ok r Invalid
  | DPipe | DStdio _ | DCharDevice => errM NotSeekable
  end.

(** ** Contents and names *)

Definition truncate_impl (path_ptr len : Z) : M Kernel Z :=
  let* name := copy_path_cstr_from_user path_ptr in
  let* name := option_ok name Fault in
  let* k := getM in
  let* file_idx := option_ok (fs_find_idx (prefix_of name) (k_fs k)) NoEntry in
  let* ok := on_fs (fs_resize file_idx len) in
  ensure ok Invalid ;;;
  retM 0.

Definition ftruncate_impl (fd len : Z) : M Kernel Z :=
  let* file_idx := file_of_fd fd Invalid in
  let* ok := on_fs (fs_resize file_idx len) in
  ensure ok Invalid ;;;
  retM 0.

Definition touch_impl (name_ptr name_len : Z) : M Kernel Z :=
  let* name := copy_path_from_user name_ptr name_len in
  let* name := option_ok name Fault in
  let* ok := fs_do (vfs_create (prefix_of name)) in
  ensure ok Invalid ;;;
  retM 0.

Definition rm_impl (name_ptr name_len : Z) : M Kernel Z :=
  let* name := copy_path_from_user name_ptr name_len in
  let* name := option_ok name Fault in
  let* ok := fs_do (vfs_remove (prefix_of name)) in
  ensure ok NoEntry ;;;
  retM 0.

Definition unlinkat_impl (dirfd path_ptr path_len flags : Z) : M Kernel Z :=
  ensure (as_i64 dirfd =? AT_FDCWD) Unsupported ;;;
  ensure ((flags =? 0) || (flags =? AT_REMOVEDIR)) Invalid ;;;
  ensure ((flags & AT_REMOVEDIR) =? 0) Unsupported ;;;
  let* raw := copy_cstr_from_user path_ptr in
  let* raw := option_ok raw Fault in
  if is_device (prefix_of raw) || is_path (prefix_of raw) PROC_SELF_EXE then errM Access
  else
    let* name := copy_path_cstr_from_user path_ptr in
    let* name := option_ok name Fault in
    let* ok := fs_do (vfs_remove (prefix_of name)) in
    ensure ok NoEntry ;;;
    retM 0.

(** The target of [/proc/self/exe] and its length. *)
Definition build_proc_self_exe_target : M Kernel (list Z * Z) :=
  let* (exe_path, exe_len) := current_exe_path in
  if (exe_len =? 0) || (MAX_PATH_LEN <? exe_len + 1) then retM (replicate (Z.to_nat MAX_PATH_LEN) 0, 0)
  else
    let out := SLASH :: take (Z.to_nat exe_len) exe_path in
    retM (out ++ replicate (Z.to_nat MAX_PATH_LEN - List.length out) 0, exe_len + 1).

Definition readlink_common (path : list Z) (buf_ptr buf_len : Z) : M Kernel Z :=
  ensure (user_range_ok buf_ptr buf_len) Fault ;;;
  ensure (is_path path PROC_SELF_EXE) NoEntry ;;;
  let* (target, target_len) := build_proc_self_exe_target in
  ensure (0 <? target_len) NoEntry ;;;
  let count := Z.min target_len buf_len in
  let* ok := copy_to_user buf_ptr (take (Z.to_nat count) target) in
  ensure ok Fault ;;;
  retM count.

Definition readlink_impl (path_ptr buf_ptr buf_len : Z) : M Kernel Z :=
  let* path := copy_cstr_from_user path_ptr in
  let* path := option_ok path Fault in
  readlink_common (prefix_of path) buf_ptr buf_len.

Definition readlinkat_impl (dirfd path_ptr buf_ptr buf_len : Z) : M Kernel Z :=
  ensure (as_i64 dirfd =? AT_FDCWD) Unsupported ;;;
  readlink_impl path_ptr buf_ptr buf_len.

(** The two words at [args_ptr], read in place. *)
Definition copy_file_payload_args (args_ptr : Z) : M Kernel (option (Z * Z)) :=
  if negb (user_range_ok args_ptr 16) then retM None
  else
    let* k := getM in
    let data_ptr := read64 (k_umem k) args_ptr in
    let data_len := read64 (k_umem k) (args_ptr + 8) in
    if negb (user_range_ok data_ptr data_len) then retM None else retM (Some (data_ptr, data_len)).

Definition write_file_impl (name_ptr name_len args_ptr : Z) : M Kernel Z :=
  let* name := copy_path_from_user name_ptr name_len in
  let* name := option_ok name Fault in
  let* args := copy_file_payload_args args_ptr in
  let* (data_ptr, data_len) := option_ok args Fault in
  let* src := user_bytes data_ptr data_len in
  let* ok := fs_do (vfs_replace_all (prefix_of name) src) in
  ensure ok NoEntry ;;;
  retM 0.

Definition push_file_impl (name_ptr name_len args_ptr : Z) : M Kernel Z :=
  let* name := copy_path_from_user name_ptr name_len in
  let* name := option_ok name Fault in
  let* args := copy_file_payload_args args_ptr in
  let* (data_ptr, data_len) := option_ok args Fault in
  let* src := user_bytes data_ptr data_len in
  let* ok := fs_do (vfs_append_all (prefix_of name) src) in
  ensure ok NoEntry ;;;
  retM 0.

(** ** The listing *)

(** [for &b in bytes { if pos + 1 >= buf_len { break } buf.add(pos).write(b); pos += 1 }]. *)
Fixpoint emit (bytes : list Z) (buf buf_len pos : Z) : M Kernel Z :=
  match bytes with
  | [] => retM pos
  | b :: bytes =>
      if buf_len <=? pos +w 1 then retM pos
      else
        modifyM (fun k => k <| k_umem := store_bytes (k_umem k) (buf + pos) [b] |>) ;;;
        emit bytes buf buf_len (pos + 1)
  end.

(** The digits of a size, last digit first: at most 20 rounds. *)
Fixpoint digits_loop (n : nat) (value : Z) : list Z :=
  match n with
  | O => []
  | S n => if 0 <? value then (0x30 + value mod 10) :: digits_loop n (value / 10) else []
  end.

Definition digits_of (size : Z) : list Z := if size =? 0 then [0x30] else rev (digits_loop 20 size).

Fixpoint ls_loop (files : list File) (buf buf_len pos : Z) : M Kernel Z :=
  match files with
  | [] => retM pos
  | file :: files =>
      let* pos := emit (wrap8 <$> name file) buf buf_len pos in
      let size := vlen (data file) in
      let* pos := emit (lit " (") buf buf_len pos in
      let* pos := emit (digits_of size) buf buf_len pos in
      let* pos := emit (lit " bytes)" ++ [0x0A]) buf buf_len pos in
      ls_loop files buf buf_len pos
  end.

Definition ls_impl (buf_ptr buf_len : Z) : M Kernel Z :=
  ensure (user_range_ok buf_ptr buf_len) Fault ;;;
  let* k := getM in
  let files := default [] (vfs_list (k_fs k)) in
  let* pos := ls_loop files buf_ptr buf_len 0 in
  (if pos <? buf_len then modifyM (fun k => k <| k_umem := store_bytes (k_umem k) (buf_ptr + pos) [0] |>)
   else retM tt) ;;;
  retM pos.
