(* ===== verification/Time.v ===== *)
(** * Time system calls ([syscall/time.rs], [hw/pit.rs])

    The clocks count timer ticks of 10 ms; sleeping yields until enough ticks
    have passed. *)

From S2P Require Import Prelude Mem Update Fmt Pci Bench Result Pmm Paging Types State Task Proc Fd UserCopy Futex.

Definition CLOCK_REALTIME : Z := 0.
Definition CLOCK_MONOTONIC : Z := 1.
Definition NANOS_PER_SEC : Z := 1000000000.
Definition PIT_HZ : Z := 100.
Definition TIMER_ABSTIME : Z := 1.

Definition ticks : M Kernel Z := let* k := getM in retM (k_ticks k).

(** [while ticks() - start < wait_ticks { yield_now(); .. }]. *)
Fixpoint sleep_loop (fuel : nat) (pauses : nat -> Pause) (start wait_ticks : Z) : M Kernel (Wait unit) :=
  let* t := ticks in
  if t -w start <? wait_ticks then
    match fuel with
    | O => retM Blocked
    | S f => pause (pauses f) ;;; sleep_loop f pauses start wait_ticks
    end
  else retM (Done tt).

Definition sleep_yield (fuel : nat) (pauses : nat -> Pause) (wait_ticks : Z) : M Kernel (Wait unit) :=
  let* start := ticks in
  sleep_loop fuel pauses start wait_ticks.

Definition timespec_valid (req : TimeSpec) : bool :=
  (0 <=? tv_sec req) && (0 <=? tv_nsec req) && (tv_nsec req <? NANOS_PER_SEC).

(** [if rem_ptr != 0 { copy a zero Timespec }]. *)
Definition write_rem (rem_ptr : Z) : M Kernel unit :=
  if negb (rem_ptr =? 0) then
    let* ok := copy_struct_to_user rem_ptr (mkTimeSpec 0 0) in
    ensure ok Fault
  else retM tt.

Definition sleep_timespec (fuel : nat) (pauses : nat -> Pause) (req : TimeSpec) (rem_ptr : Z) : M Kernel (Wait Z) :=
  ensure (timespec_valid req) Invalid ;;;
  let total_ns := sat_add64 (sat_mul64 (tv_sec req) NANOS_PER_SEC) (tv_nsec req) in
  let ticks := div_ceil total_ns (NANOS_PER_SEC / PIT_HZ) in
  let* w := sleep_yield fuel pauses ticks in
  match w with
  | Blocked => retM Blocked
  | Done _ =>
      write_rem rem_ptr ;;;
      retM (Done 0)
  end.

Definition nanosleep_impl (fuel : nat) (pauses : nat -> Pause) (req_ptr rem_ptr : Z) : M Kernel (Wait Z) :=
  let* req := copy_struct_from_user TimeSpec req_ptr in
  let* req := option_ok req Fault in
  sleep_timespec fuel pauses req rem_ptr.

Definition valid_clock (clockid : Z) : bool := (clockid =? CLOCK_REALTIME) || (clockid =? CLOCK_MONOTONIC).

(** The time since boot. *)
Definition timespec_of_ticks (ticks : Z) : TimeSpec :=
  mkTimeSpec (as_i64 (ticks / PIT_HZ)) (as_i64 ((ticks mod PIT_HZ) *w (NANOS_PER_SEC / PIT_HZ))).

Definition clock_gettime_impl (clockid tp_ptr : Z) : M Kernel Z :=
  ensure (valid_clock clockid) Invalid ;;;
  let* ticks := ticks in
  let* ok := copy_struct_to_user tp_ptr (timespec_of_ticks ticks) in
  ensure ok Fault ;;;
  retM 0.

Record Timeval := mkTimeval { tvl_sec : Z; tvl_usec : Z }.

#[export] Instance UserStruct_Timeval : UserStruct Timeval :=
  {| size_of := 16; bytes_of t := words [i64_bits (tvl_sec t); i64_bits (tvl_usec t)];
     of_bytes bs := match unwords 2 bs with [s; u] => mkTimeval (as_i64 s) (as_i64 u) | _ => mkTimeval 0 0 end |}.

Definition gettimeofday_impl (tv_ptr tz_ptr : Z) : M Kernel Z :=
  let* ticks := ticks in
  let tv := mkTimeval (as_i64 (ticks / PIT_HZ)) (as_i64 ((ticks mod PIT_HZ) *w (1000000 / PIT_HZ))) in
  let* ok := copy_struct_to_user tv_ptr tv in
  ensure ok Fault ;;;
  retM 0.

(** Nanoseconds as an [i128]. *)
Definition nanos (t : TimeSpec) : Z := tv_sec t * NANOS_PER_SEC + tv_nsec t.

Definition clock_nanosleep_impl (fuel : nat) (pauses : nat -> Pause) (clockid flags req_ptr rem_ptr : Z)
    : M Kernel (Wait Z) :=
  ensure (valid_clock clockid) Invalid ;;;
  if flags =? 0 then nanosleep_impl fuel pauses req_ptr rem_ptr
  else
    ensure (flags =? TIMER_ABSTIME) Invalid ;;;
    let* req := copy_struct_from_user TimeSpec req_ptr in
    let* req := option_ok req Fault in
    ensure (timespec_valid req) Invalid ;;;
    let* ticks := ticks in
    let now := timespec_of_ticks ticks in
    if nanos req <=? nanos now then
      write_rem rem_ptr ;;;
      retM (Done 0)
    else
      let delta_ns := wrap64 (nanos req - nanos now) in
      let rel := mkTimeSpec (as_i64 (delta_ns / NANOS_PER_SEC)) (as_i64 (delta_ns mod NANOS_PER_SEC)) in
      sleep_timespec fuel pauses rel rem_ptr.

Definition boottime_impl (buf_ptr buf_len : Z) : M Kernel Z :=
  let* k := getM in
  let bytes := report (k_bench k) in
  let count := Z.min buf_len (Z.of_nat (length bytes)) in
  let* ok := copy_to_user buf_ptr (take (Z.to_nat count) bytes) in
  ensure ok Fault ;;;
  retM count.

Definition sys_uptime_seconds : M Kernel Z := let* k := getM in retM (uptime_seconds k).
Definition sys_ticks : M Kernel Z := ticks.

Definition sleep_ticks (fuel : nat) (pauses : nat -> Pause) (wait : Z) : M Kernel (Wait Z) :=
  let* w := sleep_yield fuel pauses wait in
  match w with Blocked => retM Blocked | Done _ => retM (Done 0) end.
