(* ===== verification/Sys.v ===== *)
(** * System information calls ([syscall/sys.rs], [syscall/net.rs])

    Names, limits, the working directory, the alternate signal stack, the
    thread pointer, random bytes; the network calls, which are stubs. *)

From Stdlib Require Import Ascii String.
From S2P Require Import Prelude Mem Update Fmt Pci Bench Result Pmm Paging Types State Task Proc UserCopy SysVfs.

(** ** [uname] *)

Record UtsName := mkUtsName {
  sysname : list Z; nodename : list Z; release : list Z; version : list Z; machine : list Z; domainname : list Z;
}.

(** [uts.field[..s.len()].copy_from_slice(s)] on [[0; 65]]. *)
Definition uts_field (s : list Z) : list Z := s ++ replicate (65 - List.length s) 0.

Definition UtsName_new : UtsName :=
  mkUtsName (uts_field (lit "CoreOS")) (uts_field (lit "localhost")) (uts_field (lit "0.1.0"))
            (uts_field (lit "#1 SMP Sat Mar 21 2026")) (uts_field (lit "x86_64")) (uts_field (lit "(none)")).

#[export] Instance UserStruct_UtsName : UserStruct UtsName :=
  {| size_of := 390;
     bytes_of u := (sysname u ++ nodename u ++ release u ++ version u ++ machine u ++ domainname u)%list;
     of_bytes bs := mkUtsName (take 65 bs) (take 65 (drop 65 bs)) (take 65 (drop 130 bs)) (take 65 (drop 195 bs))
                              (take 65 (drop 260 bs)) (take 65 (drop 325 bs)) |}.

Definition syscall_uname_impl (buf : Z) : M Kernel Z :=
  ensure (negb (buf =? 0)) Fault ;;;
  let* ok := copy_struct_to_user buf UtsName_new in
  ensure ok Fault ;;;
  retM 0.

(** ** Limits *)

Record RLimit := mkRLimit { rlim_cur : Z; rlim_max : Z }.

#[export] Instance UserStruct_RLimit : UserStruct RLimit :=
  {| size_of := 16; bytes_of r := words [rlim_cur r; rlim_max r];
     of_bytes bs := match unwords 2 bs with [c; m] => mkRLimit c m | _ => mkRLimit 0 0 end |}.

Definition RLIM_INFINITY : Z := not64 0.
Definition RLIMIT_NOFILE : Z := 7.
Definition RLIMIT_STACK : Z := 3.
Definition RLIMIT_AS : Z := 9.
Definition RLIMIT_DATA : Z := 2.
Definition RLIMIT_CORE : Z := 4.
Definition ROOT_DIR : list Z := [SLASH; 0].
Definition ARCH_SET_FS : Z := 0x1002.
Definition ARCH_GET_FS : Z := 0x1003.
Definition GRND_NONBLOCK : Z := 0x0001.
Definition GRND_RANDOM : Z := 0x0002.

Definition rlimit_of (resource : Z) : option RLimit :=
  if resource =? RLIMIT_NOFILE then Some (mkRLimit 1024 4096)
  else if resource =? RLIMIT_STACK then Some (mkRLimit (8 * 1024 * 1024) RLIM_INFINITY)
  else if (resource =? RLIMIT_AS) || (resource =? RLIMIT_DATA) then Some (mkRLimit RLIM_INFINITY RLIM_INFINITY)
  else if resource =? RLIMIT_CORE then Some (mkRLimit 0 RLIM_INFINITY)
  else None.

Definition syscall_getrlimit_impl (resource rlim : Z) : M Kernel Z :=
  ensure (negb (rlim =? 0)) Fault ;;;
  let* limit := option_ok (rlimit_of resource) Invalid in
  let* ok := copy_struct_to_user rlim limit in
  ensure ok Fault ;;;
  retM 0.

Definition syscall_setrlimit (resource rlim : Z) : M Kernel Z := retM 0.

(** [pid] is an [i32]. *)
Definition syscall_prlimit64_impl (pid resource new_limit old_limit : Z) : M Kernel Z :=
  let* me := current_pid in
  ensure ((pid =? 0) || (wrap64 pid =? me)) NoEntry ;;;
  (if negb (old_limit =? 0) then syscall_getrlimit_impl resource old_limit ;;; retM tt else retM tt) ;;;
  retM 0.

(** ** The working directory *)

Definition syscall_getcwd_impl (buf size : Z) : M Kernel Z :=
  ensure (negb (buf =? 0)) Fault ;;;
  ensure (2 <=? size) Range ;;;
  let* ok := copy_to_user buf ROOT_DIR in
  ensure ok Fault ;;;
  retM buf.

Definition syscall_chdir_impl (path_ptr : Z) : M Kernel Z :=
  let* raw := copy_cstr_from_user path_ptr in
  let* raw := option_ok raw Fault in
  if is_path (prefix_of raw) [SLASH] then retM 0
  else
    let* name := copy_path_cstr_from_user path_ptr in
    let* name := option_ok name Fault in
    ensure (is_path (prefix_of name) [0x2E]) NoEntry ;;;
    retM 0.

(** ** Threads *)

Definition syscall_sigaltstack_impl (ss_ptr old_ss_ptr : Z) : M Kernel Z :=
  let* thread := current_thread_mut in
  let* (slot, thread) := option_ok thread Invalid in
  (if negb (old_ss_ptr =? 0) then
     let current := th_sig_altstack thread in
     let current := if th_on_altstack thread
                    then mkStackT (ss_sp current) (ss_flags current .| 1) (ss_size current) else current in
     let* ok := copy_struct_to_user old_ss_ptr current in
     ensure ok Fault
   else retM tt) ;;;
  (if negb (ss_ptr =? 0) then
     let* new_stack := copy_struct_from_user StackT ss_ptr in
     let* new_stack := option_ok new_stack Fault in
     let* new_stack :=
       if has_bits (ss_flags new_stack) 2 then retM StackT_disabled
       else
         ensure (negb (ss_sp new_stack =? 0) && negb (ss_size new_stack =? 0)) Invalid ;;;
         retM (mkStackT (ss_sp new_stack) 0 (ss_size new_stack)) in
     set_thread slot (Some (thread <| th_sig_altstack := new_stack |>))
   else retM tt) ;;;
  retM 0.

(** [procs] is followed by six bytes of padding, the structure by four. *)
Definition SysInfo_bytes (s : SysInfo) : list Z :=
  (words ([i64_bits (si_uptime s)] ++ si_loads s ++ [si_totalram s; si_freeram s; si_sharedram s; si_bufferram s;
          si_totalswap s; si_freeswap s]) ++
   to_le 2 (si_procs s) ++ replicate 6 0 ++ words [si_totalhigh s; si_freehigh s] ++
   to_le 4 (si_mem_unit s) ++ replicate 8 0 ++ replicate 4 0)%list.

#[export] Instance UserStruct_SysInfo : UserStruct SysInfo :=
  {| size_of := 120; bytes_of := SysInfo_bytes;
     of_bytes bs :=
       let w n := of_le (take 8 (drop n bs)) in
       mkSysInfo (as_i64 (w 0%nat)) [w 8%nat; w 16%nat; w 24%nat] (w 32%nat) (w 40%nat) (w 48%nat) (w 56%nat) (w 64%nat)
         (w 72%nat) (of_le (take 2 (drop 80 bs))) (w 88%nat) (w 96%nat) (of_le (take 4 (drop 104 bs))) |}.

Definition syscall_sysinfo_impl (info_ptr : Z) : M Kernel Z :=
  let* k := getM in
  let info := mkSysInfo (as_i64 (uptime_seconds k)) [0; 0; 0] (total_bytes (pmm (k_mach k))) (free_bytes (pmm (k_mach k)))
                0 0 0 0 (wrap16 (active_process_count k)) 0 0 1 in
  let* ok := copy_struct_to_user info_ptr info in
  ensure ok Fault ;;;
  retM 0.

(** The thread pointer: the register is loaded with the same value. *)
Definition syscall_arch_prctl_impl (code addr : Z) : M Kernel Z :=
  if code =? ARCH_SET_FS then
    ensure (addr <? USER_TOP) Invalid ;;;
    let* thread := current_thread_mut in
    let* (slot, thread) := option_ok thread Invalid in
    set_thread slot (Some (thread <| th_fs_base := addr |>)) ;;;
    retM 0
  else if code =? ARCH_GET_FS then
    ensure (negb (addr =? 0)) Fault ;;;
    let* fs_base := current_fs_base in
    let* ok := copy_struct_to_user addr (U64V fs_base) in
    ensure ok Fault ;;;
    retM 0
  else errM Invalid.

(** ** Random bytes *)

Definition shl64 (x n : Z) : Z := wrap64 (Z.shiftl x n).

Definition xorshift (state : Z) : Z :=
  let state := state ^^ shl64 state 13 in
  let state := state ^^ (state >> 7) in
  state ^^ shl64 state 17.

Definition next_random_u64 : M Kernel Z :=
  let* k := getM in
  let* state :=
    if k_rng k =? 0 then
      let* pid := current_pid in
      retM (k_ticks k ^^ shl64 pid 32 ^^ 0x9E3779B97F4A7C15)
    else retM (k_rng k) in
  let state := xorshift state in
  modifyM (fun k => k <| k_rng := state |>) ;;;
  retM state.

(** [for byte in bytes.iter_mut()], with [n] bytes left. *)
Fixpoint random_loop (n : nat) (remaining : Z) : M Kernel (list Z) :=
  match n with
  | O => retM []
  | S n =>
      let* remaining := if remaining =? 0 then next_random_u64 else retM remaining in
      let* rest := random_loop n (remaining >> 8) in
      retM (wrap8 remaining :: rest)
  end.

Definition syscall_getrandom_impl (buf_ptr len flags : Z) : M Kernel Z :=
  ensure ((flags & not64 (GRND_NONBLOCK .| GRND_RANDOM)) =? 0) Invalid ;;;
  ensure (user_range_ok buf_ptr len) Fault ;;;
  let* bytes := random_loop (Z.to_nat len) 0 in
  let* ok := copy_to_user buf_ptr bytes in
  ensure ok Fault ;;;
  retM len.

(** ** Network stubs *)

Definition syscall_socket : M Kernel Z := errM AddrFamilyNotSupported.

(** [bind], [connect], [listen], [accept], [accept4], [sendto], [recvfrom],
    [shutdown], [setsockopt], [getsockopt], [getsockname], [getpeername],
    [socketpair]. *)
Definition net_stub : M Kernel Z := errM NoSys.
