(* ===== verification/Elf.v ===== *)
(** * The ELF loader ([proc/elf.rs])

    The header checks, the walk of the program headers and the loading of a
    segment: its pages are mapped, and its bytes are copied into their frames
    through the direct map.  An index outside the file panics. *)

From S2P Require Import Prelude Mem Update Result Pmm Paging RamFs.

Inductive ElfError :=
| TooSmall | BadMagic | Not64Bit | NotLittleEndian | NotExecutable | NotX86_64 | NoProgramHeaders | OomLoadingSegment.

Record LoadedImage := mkImage { im_entry : Z; im_phdr : Z; im_phent : Z; im_phnum : Z }.

Definition ELFMAG : list Z := [0x7F; 0x45; 0x4C; 0x46].
Definition ELFCLASS64 : Z := 2.
Definition ELFDATA2LSB : Z := 1.
Definition ET_EXEC : Z := 2.
Definition EM_X86_64 : Z := 62.
Definition PT_LOAD : Z := 1.

Definition OFF_CLASS : Z := 4.
Definition OFF_DATA : Z := 5.
Definition OFF_TYPE : Z := 16.
Definition OFF_MACHINE : Z := 18.
Definition OFF_ENTRY : Z := 24.
Definition OFF_PHOFF : Z := 32.
Definition OFF_PHENTSIZE : Z := 54.
Definition OFF_PHNUM : Z := 56.
Definition PH_TYPE : Z := 0.
Definition PH_OFFSET : Z := 8.
Definition PH_VADDR : Z := 16.
Definition PH_FILESZ : Z := 32.
Definition PH_MEMSZ : Z := 40.

(** [uN::from_le_bytes(data[offset..offset + n].try_into().unwrap())]. *)
Definition read_n (n : Z) (data : list Z) (offset : Z) : M Machine Z :=
  let* bs := unwrap (slice data offset (offset +w n)) in retM (of_le bs).

Definition read_u16 : list Z -> Z -> M Machine Z := read_n 2.
Definition read_u32 : list Z -> Z -> M Machine Z := read_n 4.
Definition read_u64 : list Z -> Z -> M Machine Z := read_n 8.

(** [return Err(e)] ends the loader with [inl e]. *)
Definition Elf (A : Type) : Type := M Machine (ElfError + A).

Definition bindE {A B} (m : Elf A) (f : A -> Elf B) : Elf B :=
  let* r := m in match r with inl e => retM (inl e) | inr a => f a end.
Definition liftE {A} (m : M Machine A) : Elf A := let* a := m in retM (inr a).
Definition failE {A} (e : ElfError) : Elf A := retM (inl e).
Definition okE {A} (a : A) : Elf A := retM (inr a).

Notation "'elf' x ':=' c 'in' k" := (bindE c (fun x => k))
  (at level 10, x pattern, c at level 100, k at level 200) : coreos_scope.

(** ** Segments *)

(** One round of the mapping loop: a page that is not mapped yet gets a
    zeroed frame. *)
Definition map_segment_page (pml4 page : Z) : Elf unit :=
  elf s := liftE getM in
  match translate_page (ram s) pml4 page with
  | Some _ => okE tt
  | None =>
      elf frame := liftE alloc_frameM in
      if frame =? 0 then failE OomLoadingSegment
      else
        liftE (map_page_in pml4 page frame {| writable := true; user := true; executable := true |} ;;;
               modifyM (fun s => set_ram (fill (ram s) (p2v frame) 0 PAGE_SIZE) s))
  end.

(** Mapping the pages of a segment: [n] pages left, [page] next. *)
Fixpoint map_loop (n : nat) (pml4 page : Z) : Elf unit :=
  match n with
  | O => okE tt
  | S n =>
      elf _ := map_segment_page pml4 page in
      map_loop n pml4 (page +w PAGE_SIZE)
  end.

(** The rounds of [while page < page_end { .. page += PAGE_SIZE }]; both are
    multiples of the page size. *)
Definition pages (page_start page_end : Z) : nat :=
  if page_start <? page_end then Z.to_nat ((page_end - page_start) / PAGE_SIZE) else 0.

(** Copying [src] into the frames of its pages: one round per page, [n]
    rounds left, [page_off] the offset in the page [cur_page]. *)
Fixpoint copy_loop (n : nat) (pml4 cur_page page_off : Z) (src : list Z) : Elf unit :=
  match n with
  | O => okE tt
  | S n =>
      let chunk := Z.min (vlen src) (PAGE_SIZE - page_off) in
      elf s := liftE getM in
      match translate_page (ram s) pml4 cur_page with
      | None => failE OomLoadingSegment
      | Some frame =>
          let dst := p2v frame +w page_off in
          elf _ := liftE (modifyM (fun s => set_ram (store_bytes (ram s) dst (take (Z.to_nat chunk) src)) s)) in
          copy_loop n pml4 (cur_page +w PAGE_SIZE) 0 (drop (Z.to_nat chunk) src)
      end
  end.

(** [while copied < p_filesz]: the first page takes [PAGE_SIZE - page_off]
    bytes, the others [PAGE_SIZE] each. *)
Definition copy_rounds (page_off filesz : Z) : nat := Z.to_nat (div_ceil (page_off + filesz) PAGE_SIZE).

Record Phdr := mkPhdr { p_type : Z; p_offset : Z; p_vaddr : Z; p_filesz : Z; p_memsz : Z }.

Definition load_segment (pml4 : Z) (data : list Z) (ph : Phdr) : Elf unit :=
  let page_start := p_vaddr ph & not64 (PAGE_SIZE - 1) in
  let page_end := (p_vaddr ph +w p_memsz ph +w PAGE_SIZE -w 1) & not64 (PAGE_SIZE - 1) in
  elf _ := map_loop (pages page_start page_end) pml4 page_start in
  if 0 <? p_filesz ph then
    elf src := liftE (unwrap (slice data (p_offset ph) (p_offset ph +w p_filesz ph))) in
    let page_off := p_vaddr ph & (PAGE_SIZE - 1) in
    elf _ := copy_loop (copy_rounds page_off (p_filesz ph)) pml4 page_start page_off src in
    elf s := liftE getM in
    match translate_page (ram s) pml4 page_start with
    | None => failE OomLoadingSegment
    | Some _ => okE tt
    end
  else okE tt.

(** ** Headers *)

Definition read_phdr (data : list Z) (ph_start phentsize : Z) : M Machine Phdr :=
  let* ph := unwrap (slice data ph_start (ph_start +w phentsize)) in
  let* ty := read_u32 ph PH_TYPE in
  let* off := read_u64 ph PH_OFFSET in
  let* va := read_u64 ph PH_VADDR in
  let* fsz := read_u64 ph PH_FILESZ in
  let* msz := read_u64 ph PH_MEMSZ in
  retM (mkPhdr ty off va fsz msz).

(** [for i in 0..phnum], with [n] headers left; the result is [phdr_vaddr]. *)
Fixpoint phdr_loop (n : nat) (pml4 : Z) (data : list Z) (phoff phentsize i phdr_vaddr : Z) : Elf Z :=
  match n with
  | O => okE phdr_vaddr
  | S n =>
      let ph_start := phoff +w i *w phentsize in
      if vlen data <? ph_start +w phentsize then failE TooSmall
      else
        elf ph := liftE (read_phdr data ph_start phentsize) in
        if negb (p_type ph =? PT_LOAD) || (p_memsz ph =? 0) then phdr_loop n pml4 data phoff phentsize (i + 1) phdr_vaddr
        else if match checked_add64 (p_offset ph) (p_filesz ph) with
                | None => true
                | Some end_ => vlen data <? end_
                end then failE TooSmall
        else
          let phdr_vaddr :=
            if (phdr_vaddr =? 0) && (p_offset ph <=? phoff) && (phoff <? p_offset ph +w p_filesz ph)
            then p_vaddr ph +w (phoff - p_offset ph) else phdr_vaddr in
          elf _ := load_segment pml4 data ph in
          phdr_loop n pml4 data phoff phentsize (i + 1) phdr_vaddr
  end.

Definition load_into (pml4 : Z) (data : list Z) : Elf LoadedImage :=
  if vlen data <? 64 then failE TooSmall
  else if negb (bool_decide (take 4 data = ELFMAG)) then failE BadMagic
  else
    elf class := liftE (unwrap (zget data OFF_CLASS)) in
    if negb (class =? ELFCLASS64) then failE Not64Bit
    else
      elf enc := liftE (unwrap (zget data OFF_DATA)) in
      if negb (enc =? ELFDATA2LSB) then failE NotLittleEndian
      else
        elf ty := liftE (read_u16 data OFF_TYPE) in
        if negb (ty =? ET_EXEC) then failE NotExecutable
        else
          elf mach := liftE (read_u16 data OFF_MACHINE) in
          if negb (mach =? EM_X86_64) then failE NotX86_64
          else
            elf entry := liftE (read_u64 data OFF_ENTRY) in
            elf phoff := liftE (read_u64 data OFF_PHOFF) in
            elf phentsize := liftE (read_u16 data OFF_PHENTSIZE) in
            elf phnum := liftE (read_u16 data OFF_PHNUM) in
            if phnum =? 0 then failE NoProgramHeaders
            else
              elf phdr_vaddr := phdr_loop (Z.to_nat phnum) pml4 data phoff phentsize 0 0 in
              okE (mkImage entry phdr_vaddr phentsize phnum).
