(* ===== verification/ElfLoad.v ===== *)
(** * What loading an ELF file leaves in memory

    The address space a program starts in is the fold of its program headers
    over the empty one: each segment adds zeroed pages where none are mapped
    yet and puts the bytes of the file at its address. *)

From S2P Require Import Prelude Mem Update Result Boot Pmm Paging PageTables AddressSpace UserImage RamFs Elf.

(** ** Specification *)

Definition page_floor (v : Z) : Z := v / 4096 * 4096.
Definition page_ceil (v : Z) : Z := page_floor (v + 4095).

(** The bytes [off .. off + n) of the file. *)
Definition file_bytes (data : list Z) (off n : Z) : list Z := take (Z.to_nat n) (drop (Z.to_nat off) data).

(** A segment placed over the image [f]. *)
Definition place (data : list Z) (f : Image) (ph : Phdr) : Image :=
  overlay (zeroed f (page_floor (p_vaddr ph)) (page_ceil (p_vaddr ph + p_memsz ph)))
    (p_vaddr ph) (file_bytes data (p_offset ph) (p_filesz ph)).

(** The pages a segment spans. *)
Definition span (ph : Phdr) : Z := (page_ceil (p_vaddr ph + p_memsz ph) - page_floor (p_vaddr ph)) / 4096.

(** A segment inside the file and inside the user half, as the format
    requires. *)
Definition segment_ok (data : list Z) (ph : Phdr) : Prop :=
  0 <= p_offset ph /\ 0 <= p_filesz ph <= p_memsz ph /\ 0 < p_memsz ph /\ 0 <= p_vaddr ph /\
  p_offset ph + p_filesz ph <= vlen data /\ p_vaddr ph + p_memsz ph <= 2 ^ 47.

(** A little-endian field of [n] bytes. *)
Definition le_at (data : list Z) (off n : Z) : Z := of_le (file_bytes data off n).

Definition phdr_at (data : list Z) (start : Z) : Phdr :=
  {| p_type := le_at data start 4; p_offset := le_at data (start + 8) 8; p_vaddr := le_at data (start + 16) 8;
     p_filesz := le_at data (start + 32) 8; p_memsz := le_at data (start + 40) 8 |}.

Definition e_entry (data : list Z) : Z := le_at data 24 8.
Definition e_phoff (data : list Z) : Z := le_at data 32 8.
Definition e_phentsize (data : list Z) : Z := le_at data 54 2.
Definition e_phnum (data : list Z) : Z := le_at data 56 2.

Definition loadable (ph : Phdr) : bool := (p_type ph =? PT_LOAD) && negb (p_memsz ph =? 0).

(** The program headers in the file, and the segments among them. *)
Definition phdrs (data : list Z) : list Phdr :=
  (fun i => phdr_at data (e_phoff data + i * e_phentsize data)) <$> seqZ 0 (e_phnum data).
Definition segments (data : list Z) : list Phdr := filter loadable (phdrs data).

(** Where the program headers are in memory: the first segment with them. *)
Definition phdr_addr (phoff acc : Z) (ph : Phdr) : Z :=
  if (acc =? 0) && (p_offset ph <=? phoff) && (phoff <? p_offset ph + p_filesz ph) then p_vaddr ph + (phoff - p_offset ph) else acc.

Record elf_ok (data : list Z) : Prop := {
  ok_bytes : Forall is_u8 data;
  ok_size : 64 <= vlen data < U64;
  ok_magic : file_bytes data 0 4 = ELFMAG;
  ok_class : le_at data 4 1 = ELFCLASS64;
  ok_encoding : le_at data 5 1 = ELFDATA2LSB;
  ok_type : le_at data 16 2 = ET_EXEC;
  ok_machine : le_at data 18 2 = EM_X86_64;
  ok_phnum : 0 < e_phnum data;
  ok_phentsize : 48 <= e_phentsize data;
  ok_phdrs : e_phoff data + e_phnum data * e_phentsize data <= vlen data;
  ok_segments : Forall (segment_ok data) (segments data);
}.

(** The frames a program's segments need, page tables included. *)
Definition image_cost (segs : list Phdr) : Z := foldr (fun ph n => 4 * span ph + n) 0 segs.

Lemma page_floor_spec v : page_floor v <= v < page_floor v + 4096 /\ page_floor v mod 4096 = 0.
Proof. unfold page_floor. split; [|by rewrite Z.mod_mul]. pose proof (Z.div_mod v 4096 ltac:(lia)). pose proof (Z.mod_pos_bound v 4096 ltac:(lia)). lia. Qed.

Lemma page_floor_mono v w : v <= w -> page_floor v <= page_floor w.
Proof. intros H. unfold page_floor. pose proof (Z.div_le_mono v w 4096). lia. Qed.

(** ** The loops *)

Section Load.
Context (own0 : gmap Z Owner) (r : Z).
Context (Hroot : own0 !! r = Some (OUser r [])).
Local Abbreviation space := (space own0 r).
Local Abbreviation repainted := (repainted own0 r).

Lemma bindE_ok {A B} (m : Elf A) (f : A -> Elf B) s a s' : m s = OOk (inr a) s' -> bindE m f s = f a s'.
Proof. intros H. unfold bindE. by rewrite (bind_ok _ _ _ _ _ H). Qed.

Lemma liftE_ok {A} (m : M Machine A) s a s' : m s = OOk a s' -> liftE m s = OOk (inr a) s'.
Proof. intros H. unfold liftE. by rewrite (bind_ok _ _ _ _ _ H). Qed.

(** A mapped page is mapped throughout. *)
Lemma ubyte_page own s v v' : space own s -> is_user v -> is_user v' -> v / 4096 = v' / 4096 ->
  ubyte (ram s) r v = None <-> ubyte (ram s) r v' = None.
Proof.
  intros Hs Hv Hv' Hpg. pose proof (space_root own0 r own s r Hs Hroot) as Hr. pose proof (sp_wf _ _ _ _ Hs) as Hwf.
  rewrite !(ubyte_upte own) by done. unfold upte. apply (same_path v v') in Hpg as [-> ->]; [|done..].
  by case_goal.
Qed.

Lemma map_segment_page_spec own s page :
  space own s -> page mod 4096 = 0 -> 0 <= page -> page + 4096 <= 2 ^ 47 -> 4 <= nfree s ->
  exists own' s', map_segment_page r page s = OOk (inr tt) s' /\
    repainted s own' s' (zeroed (ubyte (ram s) r) page (page + 4096)) 4.
Proof.
  intros Hs Hm Hp Hb Hn. unfold map_segment_page. rewrite (bindE_ok (liftE getM) _ s s s) by done.
  assert (is_user page) as Hu by (unfold is_user; lia).
  assert (forall v, v / 4096 = page / 4096 <-> page <= v < page + 4096) as Hin.
  { intros v. pose proof (Z.div_mod v 4096 ltac:(lia)). pose proof (Z.div_mod page 4096 ltac:(lia)).
    pose proof (Z.mod_pos_bound v 4096 ltac:(lia)). lia. }
  pose proof (ubyte_mapped own0 r own s page Hs Hu) as Hmap. destruct (translate_page (ram s) r page) as [f|].
  - exists own, s. split; [done|]. eapply (repainted_ext own0 r _ _ _ _ _ 0); [|lia|by apply repainted_refl].
    intros v Hv. unfold zeroed. destruct (_ && _) eqn:E; [|done]. breflect. destruct (ubyte (ram s) r v) eqn:Eb; [done|].
    apply (ubyte_page own s v page Hs Hv Hu) in Eb; [|apply Hin; lia]. apply Hmap in Eb. done.
  - destruct (fresh_page own0 r Hroot own s page {| writable := true; user := true; executable := true |} Hs Hu Hn)
      as (f & s1 & s2 & own' & Ea & Hf & Em & R & _).
    rewrite (bindE_ok _ _ _ _ _ (liftE_ok _ _ _ _ Ea)), (proj2 (Z.eqb_neq _ _) Hf).
    exists own', (set_ram (fill (ram s2) (p2v f) 0 4096) s2). split.
    { apply liftE_ok. by rewrite (bind_ok _ _ _ _ _ Em). }
    eapply repainted_ext; [|reflexivity|exact R]. intros v Hv. cbv beta. unfold zeroed.
    destruct (Z.eqb_spec (v / 4096) (page / 4096)) as [E|E].
    + assert (ubyte (ram s) r v = None) as -> by (apply (ubyte_page own s v page Hs Hv Hu E); by apply Hmap).
      apply Hin in E. by rewrite (proj2 (Z.leb_le _ _)), (proj2 (Z.ltb_lt _ _)) by lia.
    + destruct (_ && _) eqn:E2; [|done]. breflect. destruct E. apply Hin. lia.
Qed.

Lemma map_loop_spec n : forall own s page,
  space own s -> page mod 4096 = 0 -> 0 <= page -> page + Z.of_nat n * 4096 <= 2 ^ 47 -> 4 * Z.of_nat n <= nfree s ->
  exists own' s', map_loop n r page s = OOk (inr tt) s' /\
    repainted s own' s' (zeroed (ubyte (ram s) r) page (page + Z.of_nat n * 4096)) (4 * Z.of_nat n).
Proof.
  induction n as [|n IH]; intros own s page Hs Hm Hp Hb Hn; cbn [map_loop].
  - exists own, s. split; [done|]. eapply repainted_ext; [|reflexivity|by apply repainted_refl].
    intros v _. unfold zeroed. destruct (Z.leb_spec page v), (Z.ltb_spec v (page + Z.of_nat 0 * 4096)); done || lia.
  - destruct (map_segment_page_spec own s page Hs Hm Hp ltac:(lia) ltac:(lia)) as (own1 & s1 & E1 & R1).
    rewrite (bindE_ok _ _ _ _ _ E1). change PAGE_SIZE with 4096. rewrite wrap64_small by (unfold U64; lia).
    pose proof (rp_free _ _ _ _ _ _ _ R1).
    destruct (IH own1 s1 (page + 4096)) as (own2 & s2 & E2 & R2); [apply R1| |lia..|].
    { rewrite <- Z.add_mod_idemp_l, Hm by lia. done. }
    exists own2, s2. split; [exact E2|]. eapply repainted_ext; [| |exact (repainted_trans _ _ _ _ _ _ _ _ _ _ _ R1 R2)]; [|lia].
    intros v Hv. cbv beta. replace (page + 4096 + Z.of_nat n * 4096) with (page + Z.of_nat (S n) * 4096) by lia.
    rewrite <- (zeroed_app _ page (page + 4096)) by lia. unfold zeroed at 1 3. by rewrite (rp_bytes _ _ _ _ _ _ _ R1) by done.
Qed.

(** [bs] can be written at [v]: it is mapped there. *)
Definition mapped_at (f : Image) (v n : Z) : Prop := forall v', v <= v' < v + n -> f v' <> None.

Lemma mapped_overlay f v bs a n : mapped_at f a n -> mapped_at (overlay f v bs) a n.
Proof.
  intros H v' Hv'. unfold overlay. destruct (_ && _) eqn:E; [|by apply H]. breflect.
  destruct (zget_is_Some bs (v' - v)) as [b ->]; [lia|done].
Qed.

Lemma write_page own s v bs :
  space own s -> is_user v -> v mod 4096 + vlen bs <= 4096 -> Forall is_u8 bs -> mapped_at (ubyte (ram s) r) v 1 ->
  exists frame, translate_page (ram s) r v = Some frame /\
    repainted s own (set_ram (store_bytes (ram s) (p2v frame +w v mod 4096) bs) s) (overlay (ubyte (ram s) r) v bs) 0.
Proof.
  intros Hs Hv Hl Hbs Hmap. specialize (Hmap v ltac:(lia)). unfold ubyte in Hmap.
  destruct (translate_page (ram s) r v) as [frame|] eqn:E; [|done]. exists frame. split; [done|]. by eapply write_chunk.
Qed.

Lemma take_drop_len (k : Z) (bs : list Z) : 0 <= k <= vlen bs ->
  vlen (take (Z.to_nat k) bs) = k /\ vlen (drop (Z.to_nat k) bs) = vlen bs - k.
Proof. unfold vlen. intros H. rewrite length_take, length_drop. lia. Qed.

Lemma page_of_offset cur off : cur mod 4096 = 0 -> 0 <= off < 4096 -> (cur + off) mod 4096 = off /\ (cur + off) / 4096 = cur / 4096.
Proof.
  intros Hm Ho. pose proof (Z.div_mod cur 4096 ltac:(lia)). split.
  - rewrite <- Z.add_mod_idemp_l, Hm by lia. by apply Z.mod_small.
  - symmetry. apply (Z.div_unique _ _ _ off); lia.
Qed.

Lemma copy_loop_spec n : forall own s cur off src,
  space own s -> cur mod 4096 = 0 -> 0 <= cur -> 0 <= off < 4096 -> cur + off + vlen src <= 2 ^ 47 -> Forall is_u8 src ->
  (Z.of_nat n - 1) * 4096 < off + vlen src <= Z.of_nat n * 4096 -> (vlen src = 0 -> off = 0) ->
  mapped_at (ubyte (ram s) r) (cur + off) (vlen src) ->
  exists s', copy_loop n r cur off src s = OOk (inr tt) s' /\
    repainted s own s' (overlay (ubyte (ram s) r) (cur + off) src) 0.
Proof.
  induction n as [|n IH]; intros own s cur off src Hs Hm Hc Ho Hb Hbs Hn Hz Hmap; cbn [copy_loop]; pose proof (Nat2Z.is_nonneg (length src)).
  - assert (src = []) as -> by (destruct src; [done|unfold vlen in *; cbn [length] in *; lia]).
    exists s. split; [done|]. eapply repainted_ext; [|reflexivity|by apply repainted_refl]. intros v _. by rewrite overlay_nil.
  - rewrite (bindE_ok (liftE getM) _ s s s) by done. cbv zeta. change PAGE_SIZE with 4096.
    set (chunk := Z.min _ _). assert (0 < vlen src) by (unfold vlen in *; lia).
    assert (0 < chunk <= vlen src /\ chunk <= 4096 - off) as Hch by (unfold chunk; lia).
    destruct (take_drop_len chunk src ltac:(lia)) as [Ht Hd]. destruct (page_of_offset cur off Hm Ho) as [Hmo Hpg].
    assert (is_user cur /\ is_user (cur + off)) as [Hu Hu'] by (unfold is_user; unfold vlen in *; lia).
    destruct (write_page own s (cur + off) (take (Z.to_nat chunk) src)) as (frame & Htr & R1); try done.
    { rewrite Hmo. lia. } { by apply Forall_take. } { intros v' Hv'. apply Hmap. lia. }
    assert (translate_page (ram s) r cur = Some frame) as ->.
    { pose proof (sp_wf _ _ _ _ Hs) as Hwf. pose proof (space_root own0 r own s r Hs Hroot) as Hr.
      rewrite <- Htr, !(translate_upte own) by done. unfold upte. by apply (same_path (cur + off) cur) in Hpg as [-> ->]. }
    rewrite Hmo in R1. set (s1 := set_ram _ s) in R1. rewrite (bindE_ok _ _ s tt s1) by done.
    pose proof (Z.div_mod cur 4096 ltac:(lia)).
    destruct (IH own s1 (cur + 4096) 0 (drop (Z.to_nat chunk) src)) as (s2 & E2 & R2); [apply R1| |lia|lia|lia|by apply Forall_drop|lia|done| |].
    { rewrite <- Z.add_mod_idemp_l, Hm by lia. done. }
    { intros v' Hv'. rewrite (rp_bytes _ _ _ _ _ _ _ R1) by (unfold is_user; lia).
      apply (mapped_overlay _ _ _ (cur + off) (vlen src) Hmap). lia. }
    rewrite (wrap64_small (cur + 4096)) by (unfold U64; lia). exists s2. split; [exact E2|].
    eapply repainted_ext; [| |exact (repainted_trans _ _ _ _ _ _ _ _ _ _ _ R1 R2)]; [|lia]. intros v Hv.
    transitivity (overlay (ubyte (ram s1) r) (cur + off + chunk) (drop (Z.to_nat chunk) src) v).
    { destruct (Z.le_gt_cases (vlen src) (4096 - off)) as [Hle|Hgt].
      - rewrite drop_ge by (unfold chunk, vlen in *; lia). by rewrite !overlay_nil.
      - f_equal. unfold chunk. lia. }
    rewrite <- (take_drop (Z.to_nat chunk) src) at 2. rewrite <- overlay_app by lia. fold (vlen (take (Z.to_nat chunk) src)). rewrite Ht.
    unfold overlay at 1 2. case_goal; [done|]. by apply R1.
Qed.

Lemma mask_floor v : 0 <= v < U64 -> v & not64 (PAGE_SIZE - 1) = page_floor v.
Proof.
  intros Hv. change (PAGE_SIZE - 1) with (2 ^ 12 - 1). rewrite land_not64_mask by lia. unfold page_floor.
  change (2 ^ 12) with 4096. pose proof (Z.div_mod v 4096 ltac:(lia)). lia.
Qed.

Lemma segment_pages data ph : segment_ok data ph ->
  let lo := page_floor (p_vaddr ph) in let hi := page_ceil (p_vaddr ph + p_memsz ph) in
  p_vaddr ph & not64 (PAGE_SIZE - 1) = lo /\
  (p_vaddr ph +w p_memsz ph +w PAGE_SIZE -w 1) & not64 (PAGE_SIZE - 1) = hi /\
  p_vaddr ph & (PAGE_SIZE - 1) = p_vaddr ph - lo /\
  hi = lo + Z.of_nat (pages lo hi) * 4096 /\ Z.of_nat (pages lo hi) = span ph /\ lo <= p_vaddr ph /\ p_vaddr ph + p_memsz ph <= hi <= 2 ^ 47.
Proof.
  intros (H1 & H2 & H3 & H4 & H5 & H6) lo hi. unfold lo, hi, page_ceil.
  destruct (page_floor_spec (p_vaddr ph)) as [F1 F2]. destruct (page_floor_spec (p_vaddr ph + p_memsz ph + 4095)) as [G1 G2].
  assert (page_floor (p_vaddr ph + p_memsz ph + 4095) <= 2 ^ 47) as Hhi.
  { transitivity (page_floor (2 ^ 47 + 4095)); [apply page_floor_mono; lia|done]. }
  split_and!; try lia.
  - apply mask_floor. unfold U64. lia.
  - change PAGE_SIZE with 4096 at 1. rewrite (wrap64_small (p_vaddr ph + _)), !wrap64_small by (rewrite ?wrap64_small; unfold U64; lia).
    rewrite mask_floor by (unfold U64; lia). f_equal. lia.
  - change (PAGE_SIZE - 1) with (2 ^ 12 - 1). rewrite land_ones_mod by lia. unfold page_floor. change (2 ^ 12) with 4096.
    pose proof (Z.div_mod (p_vaddr ph) 4096 ltac:(lia)). lia.
  - unfold pages. rewrite (proj2 (Z.ltb_lt _ _)) by lia. change PAGE_SIZE with 4096. unfold page_floor in *.
    rewrite <- Z.mul_sub_distr_r, Z.div_mul by lia. lia.
  - unfold pages, span, page_ceil. rewrite (proj2 (Z.ltb_lt _ _)) by lia. change PAGE_SIZE with 4096.
    rewrite Z2Nat.id; [done|]. apply Z.div_pos; lia.
Qed.

Lemma copy_rounds_spec off n : 0 <= off -> 0 <= n ->
  (Z.of_nat (copy_rounds off n) - 1) * 4096 < off + n <= Z.of_nat (copy_rounds off n) * 4096.
Proof.
  intros Ho Hn. unfold copy_rounds, div_ceil. change PAGE_SIZE with 4096.
  pose proof (Z.div_mod (off + n) 4096 ltac:(lia)). pose proof (Z.mod_pos_bound (off + n) 4096 ltac:(lia)).
  destruct (Z.eqb_spec ((off + n) mod 4096) 0); lia.
Qed.

Lemma load_segment_spec own s data ph :
  space own s -> segment_ok data ph -> Forall is_u8 data -> vlen data < U64 -> 4 * span ph <= nfree s ->
  exists own' s', load_segment r data ph s = OOk (inr tt) s' /\
    repainted s own' s' (place data (ubyte (ram s) r) ph) (4 * span ph).
Proof.
  intros Hs Hok Hdata Hvl Hn. destruct (segment_pages data ph Hok) as (Elo & Ehi & Eoff & Hhi & Hspan & Hlo & Hend).
  pose proof Hok as (H1 & H2 & H3 & H4 & H5 & H6).
  set (lo := page_floor (p_vaddr ph)) in *. set (hi := page_ceil _) in *.
  destruct (page_floor_spec (p_vaddr ph)) as [F1 F2]. fold lo in F1, F2.
  assert (0 <= lo) as Hlo0 by (unfold lo, page_floor; pose proof (Z.div_pos (p_vaddr ph) 4096); lia).
  unfold load_segment. cbv zeta. rewrite Elo, Ehi, Eoff.
  destruct (map_loop_spec (pages lo hi) own s lo Hs F2 Hlo0 ltac:(lia) ltac:(lia)) as (own1 & s1 & E1 & R1).
  rewrite (bindE_ok _ _ _ _ _ E1). rewrite <- Hhi, Hspan in R1.
  assert (mapped_at (ubyte (ram s1) r) lo (hi - lo)) as Hmap.
  { intros v Hv. rewrite (rp_bytes _ _ _ _ _ _ _ R1) by (unfold is_user; lia). unfold zeroed.
    by rewrite (proj2 (Z.leb_le _ _)), (proj2 (Z.ltb_lt _ _)) by lia. }
  destruct (Z.ltb_spec 0 (p_filesz ph)) as [Hf|Hf].
  - rewrite wrap64_small by lia. rewrite slice_full by lia.
    replace (p_offset ph + p_filesz ph - p_offset ph) with (p_filesz ph) by lia. fold (file_bytes data (p_offset ph) (p_filesz ph)).
    set (src := file_bytes _ _ _). rewrite (bindE_ok _ _ s1 src s1) by done.
    assert (vlen src = p_filesz ph) as Hlen.
    { unfold src, file_bytes, vlen in *. rewrite length_take, length_drop. lia. }
    destruct (copy_loop_spec (copy_rounds (p_vaddr ph - lo) (p_filesz ph)) own1 s1 lo (p_vaddr ph - lo) src) as (s2 & E2 & R2);
      [apply R1|done|lia..|by apply Forall_take, Forall_drop|rewrite Hlen; apply copy_rounds_spec; lia|lia| |].
    { intros v Hv. apply Hmap. lia. }
    replace (lo + (p_vaddr ph - lo)) with (p_vaddr ph) in R2 by lia. rewrite (bindE_ok _ _ _ _ _ E2), (bindE_ok (liftE getM) _ s2 s2 s2) by done.
    exists own1, s2. split.
    + destruct (translate_page (ram s2) r lo) eqn:Et; [done|]. exfalso. apply (ubyte_mapped own0 r own1) in Et; [|apply R2|unfold is_user; lia].
      rewrite (rp_bytes _ _ _ _ _ _ _ R2) in Et by (unfold is_user; lia).
      apply (mapped_overlay _ (p_vaddr ph) src _ _ Hmap lo) in Et; [done|lia].
    + eapply repainted_ext; [| |exact (repainted_trans _ _ _ _ _ _ _ _ _ _ _ R1 R2)]; [|lia].
      intros v Hv. unfold place. fold lo hi src. unfold overlay. case_goal; [done|]. by apply R1.
  - exists own1, s1. split; [done|]. eapply repainted_ext; [|reflexivity|exact R1]. intros v _. unfold place. fold lo hi.
    assert (file_bytes data (p_offset ph) (p_filesz ph) = []) as ->; [|by rewrite overlay_nil].
    unfold file_bytes. by replace (p_filesz ph) with 0 by lia.
Qed.

(** *** Headers *)

Lemma file_bytes_sub data a k b n : 0 <= a -> 0 <= b -> 0 <= n -> b + n <= k -> file_bytes (file_bytes data a k) b n = file_bytes data (a + b) n.
Proof.
  intros Ha Hb Hn Hk. unfold file_bytes. rewrite skipn_firstn_comm, drop_drop, take_take. f_equal; [lia|]. f_equal. lia.
Qed.

Lemma vlen_file_bytes data a n : 0 <= a -> 0 <= n -> a + n <= vlen data -> vlen (file_bytes data a n) = n.
Proof. intros Ha Hn Hl. unfold file_bytes, vlen in *. rewrite length_take, length_drop. lia. Qed.

Lemma read_n_at data off n s : 0 <= off -> 0 <= n -> off + n <= vlen data -> vlen data < U64 ->
  read_n n data off s = OOk (le_at data off n) s.
Proof.
  intros Ho Hn Hl Hv. unfold read_n. rewrite wrap64_small by lia. rewrite slice_full by lia.
  by replace (off + n - off) with n by lia.
Qed.

Lemma read_phdr_at data start size s : 0 <= start -> 48 <= size -> start + size <= vlen data -> vlen data < U64 ->
  read_phdr data start size s = OOk (phdr_at data start) s.
Proof.
  intros H0 H1 H2 H3. unfold read_phdr. rewrite wrap64_small, slice_full by lia.
  replace (start + size - start) with size by lia. fold (file_bytes data start size).
  rewrite (bind_ok _ _ s (file_bytes data start size) s eq_refl). pose proof (vlen_file_bytes data start size ltac:(lia) ltac:(lia) H2) as Hl.
  assert (forall off n, 0 <= off -> 0 <= n -> off + n <= 48 ->
    read_n n (file_bytes data start size) off s = OOk (le_at data (start + off) n) s) as Hrd.
  { intros off n Ho Hn Hs. rewrite read_n_at by lia. unfold le_at. by rewrite file_bytes_sub by lia. }
  unfold read_u32, read_u64, PH_TYPE, PH_OFFSET, PH_VADDR, PH_FILESZ, PH_MEMSZ.
  do 5 (erewrite bind_ok by (apply Hrd; lia)). unfold phdr_at. by rewrite Z.add_0_r.
Qed.

Lemma of_le_nonneg bs : Forall is_u8 bs -> 0 <= of_le bs.
Proof. induction 1 as [|b bs Hb _ IH]; cbn [of_le]; [lia|]. unfold is_u8 in Hb. lia. Qed.

Lemma le_at_nonneg data off n : Forall is_u8 data -> 0 <= le_at data off n.
Proof. intros H. by apply of_le_nonneg, Forall_take, Forall_drop. Qed.

Lemma foldl_place_ext data segs : forall f g, (forall v, is_user v -> f v = g v) ->
  forall v, is_user v -> foldl (place data) f segs v = foldl (place data) g segs v.
Proof.
  induction segs as [|ph segs IH]; intros f g Hfg v Hv; [by apply Hfg|]. apply IH; [|done]. intros v' Hv'.
  unfold place, overlay, zeroed. by rewrite Hfg.
Qed.

Lemma image_cost_nonneg data segs : Forall (segment_ok data) segs -> 0 <= image_cost segs.
Proof.
  induction 1 as [|ph segs Hph _ IH]; [done|]. destruct (segment_pages data ph Hph) as (_ & _ & _ & _ & Hs & _). unfold image_cost in *. cbn [foldr]. lia.
Qed.

Lemma skip_header ph : negb (p_type ph =? PT_LOAD) || (p_memsz ph =? 0) = negb (loadable ph).
Proof. unfold loadable. by destruct (p_type ph =? PT_LOAD), (p_memsz ph =? 0). Qed.

Lemma phdr_loop_spec data : elf_ok data -> forall n i own s acc,
  space own s -> 0 <= i -> i + Z.of_nat n <= e_phnum data ->
  let segs := filter loadable ((fun i => phdr_at data (e_phoff data + i * e_phentsize data)) <$> seqZ i (Z.of_nat n)) in
  Forall (segment_ok data) segs -> image_cost segs <= nfree s ->
  exists own' s', phdr_loop n r data (e_phoff data) (e_phentsize data) i acc s =
      OOk (inr (foldl (phdr_addr (e_phoff data)) acc segs)) s' /\
    repainted s own' s' (foldl (place data) (ubyte (ram s) r) segs) (image_cost segs).
Proof.
  intros Hok. induction n as [|n IH]; intros i own s acc Hs Hi Hin segs Hsegs Hn; cbn [phdr_loop].
  - exists own, s. split; [done|]. by apply repainted_refl.
  - pose proof (ok_phdrs _ Hok). pose proof (ok_phentsize _ Hok). pose proof (ok_size _ Hok).
    pose proof (le_at_nonneg data 32 8 (ok_bytes _ Hok)) as Hoff. fold (e_phoff data) in Hoff.
    assert (e_phoff data + i * e_phentsize data + e_phentsize data <= vlen data) as Hend by nia.
    assert (0 <= i * e_phentsize data) as Hnn by nia.
    rewrite (wrap64_small (i * _)) by lia. rewrite (wrap64_small (e_phoff data + i * _)) by lia. rewrite (wrap64_small (_ + e_phentsize data)) by lia.
    rewrite (proj2 (Z.ltb_ge _ _)) by lia. set (start := e_phoff data + i * e_phentsize data) in *.
    rewrite (bindE_ok _ _ _ _ _ (liftE_ok _ _ _ _ (read_phdr_at data start (e_phentsize data) s ltac:(lia) ltac:(lia) ltac:(lia) ltac:(lia)))).
    unfold segs in *. rewrite Nat2Z.inj_succ, (seqZ_cons i) in * by lia. rewrite Z.pred_succ in *. cbn [fmap list_fmap] in *.
    fold start in Hsegs, Hn |- *. rewrite <- Z.add_1_r in *.
    specialize (IH (i + 1)). set (rest := filter _ (_ <$> seqZ (i + 1) (Z.of_nat n))) in *. set (ph := phdr_at data start) in *.
    rewrite skip_header. rewrite filter_cons in *. fold rest in Hsegs, Hn |- *. destruct (decide (loadable ph)) as [Hl|Hl].
    + rewrite (Is_true_true_1 _ Hl). cbn [negb]. apply Forall_cons_1 in Hsegs as [Hph Hsegs]. change (4 * span ph + image_cost rest <= nfree s) in Hn.
      pose proof Hph as (P1 & P2 & P3 & P4 & P5 & P6). unfold checked_add64.
      rewrite (proj2 (Z.ltb_lt (p_offset ph + _) _)), (proj2 (Z.ltb_ge (vlen data) _)) by lia.
      destruct (load_segment_spec own s data ph Hs Hph (ok_bytes _ Hok) ltac:(lia) ltac:(pose proof (image_cost_nonneg _ _ Hsegs); lia))
        as (own1 & s1 & E1 & R1).
      rewrite (bindE_ok _ _ _ _ _ E1). pose proof (rp_free _ _ _ _ _ _ _ R1).
      destruct (IH own1 s1 (phdr_addr (e_phoff data) acc ph)) as (own2 & s2 & E2 & R2); [apply R1|lia|lia|done|unfold image_cost in *; lia|].
      exists own2, s2. split.
      * etransitivity; [|exact E2]. unfold phdr_addr. rewrite (wrap64_small (p_offset ph + _)) by lia.
        destruct (acc =? 0), (Z.leb_spec (p_offset ph) (e_phoff data)), (Z.ltb_spec (e_phoff data) (p_offset ph + p_filesz ph)); try done.
        cbn [andb]. by rewrite wrap64_small by (unfold U64; lia).
      * eapply repainted_ext; [| |exact (repainted_trans _ _ _ _ _ _ _ _ _ _ _ R1 R2)]; [|done].
        cbn [foldl]. apply foldl_place_ext. apply R1.
    + apply Is_true_false in Hl. rewrite Hl. cbn [negb]. apply (IH own); done || lia.
Qed.

Definition loaded_image (data : list Z) : LoadedImage :=
  {| im_entry := e_entry data; im_phdr := foldl (phdr_addr (e_phoff data)) 0 (segments data);
     im_phent := e_phentsize data; im_phnum := e_phnum data |}.

Lemma byte_at data off (s : Machine) : 0 <= off -> off + 1 <= vlen data -> unwrap (zget data off) s = OOk (le_at data off 1) s.
Proof.
  intros Ho Hl. unfold vlen in Hl. destruct (zget_is_Some data off ltac:(lia)) as [b Hb]. rewrite Hb. unfold le_at, file_bytes.
  unfold zget in Hb. rewrite (proj2 (Z.leb_le _ _)) in Hb by lia. rewrite (drop_S _ _ _ Hb). change (Z.to_nat 1) with 1%nat. change (OOk b s = OOk (b + 256 * 0) s). by rewrite Z.add_0_r.
Qed.

Lemma load_into_spec own s data :
  space own s -> elf_ok data -> image_cost (segments data) <= nfree s ->
  exists own' s', load_into r data s = OOk (inr (loaded_image data)) s' /\
    repainted s own' s' (foldl (place data) (ubyte (ram s) r) (segments data)) (image_cost (segments data)).
Proof.
  intros Hs Hok Hn. pose proof (ok_size _ Hok) as Hsz. unfold load_into, read_u16, read_u64. rewrite (proj2 (Z.ltb_ge _ _)) by lia.
  change (take 4 data) with (file_bytes data 0 4). rewrite (ok_magic _ Hok), bool_decide_true by done. cbn [negb].
  rewrite (bindE_ok _ _ _ _ _ (liftE_ok _ _ _ _ (byte_at data OFF_CLASS s ltac:(done) ltac:(unfold OFF_CLASS; lia)))).
  change OFF_CLASS with 4. rewrite (ok_class _ Hok), Z.eqb_refl. cbn [negb].
  rewrite (bindE_ok _ _ _ _ _ (liftE_ok _ _ _ _ (byte_at data OFF_DATA s ltac:(done) ltac:(unfold OFF_DATA; lia)))).
  change OFF_DATA with 5. rewrite (ok_encoding _ Hok), Z.eqb_refl. cbn [negb].
  assert (forall off n, 0 <= off -> 0 <= n -> off + n <= 64 -> liftE (read_n n data off) s = OOk (inr (le_at data off n)) s) as Hrd.
  { intros off n ???. apply liftE_ok, read_n_at; lia. }
  unfold OFF_TYPE, OFF_MACHINE, OFF_ENTRY, OFF_PHOFF, OFF_PHENTSIZE, OFF_PHNUM.
  rewrite (bindE_ok _ _ _ _ _ (Hrd 16 2 ltac:(lia) ltac:(lia) ltac:(lia))), (ok_type _ Hok), Z.eqb_refl. cbn [negb].
  rewrite (bindE_ok _ _ _ _ _ (Hrd 18 2 ltac:(lia) ltac:(lia) ltac:(lia))), (ok_machine _ Hok), Z.eqb_refl. cbn [negb].
  do 4 (erewrite bindE_ok by (apply Hrd; lia)). fold (e_entry data) (e_phoff data) (e_phentsize data) (e_phnum data).
  pose proof (ok_phnum _ Hok). rewrite (proj2 (Z.eqb_neq _ _)) by lia.
  destruct (phdr_loop_spec data Hok (Z.to_nat (e_phnum data)) 0 own s 0) as (own' & s' & E & R); rewrite ?Z2Nat.id in * by lia; try done.
  { apply (ok_segments _ Hok). }
  exists own', s'. split; [|exact R]. by rewrite (bindE_ok _ _ _ _ _ E).
Qed.
End Load.
