(* ===== verification/Exec.v ===== *)
(** * Starting a program ([proc/exec.rs])

    A new address space, the ELF image, the user stack with its argument
    block, and the task and process that run it. *)

From S2P Require Import Prelude Mem Update Result Pmm Paging RamFs Types State Task Proc UserCopy Elf.

Definition USER_STACK_PAGES : Z := 16.
Definition USER_STACK_TOP : Z := 0x0000000080000000.
Definition AT_NULL : Z := 0.
Definition AT_PHDR : Z := 3.
Definition AT_PHENT : Z := 4.
Definition AT_PHNUM : Z := 5.
Definition AT_PAGESZ : Z := 6.
Definition AT_ENTRY : Z := 9.
Definition AT_UID : Z := 11.
Definition AT_EUID : Z := 12.
Definition AT_GID : Z := 13.
Definition AT_EGID : Z := 14.
Definition AT_SECURE : Z := 23.
Definition AT_RANDOM : Z := 25.
Definition AT_EXECFN : Z := 31.

Record AuxEntry := mkAux { ax_key : Z; ax_value : Z }.

(** ** Writing to the new address space *)

(** [while written < bytes.len()]: one round per page touched. *)
Fixpoint write_user_loop (n : nat) (pml4 user_addr : Z) (bytes : list Z) : M Machine bool :=
  match bytes with
  | [] => retM true
  | _ =>
      match n with
      | O => retM false
      | S n =>
          let* s := getM in
          match translate_page (ram s) pml4 user_addr with
          | None => retM false
          | Some frame =>
              let page_off := user_addr & (PAGE_SIZE - 1) in
              let chunk := Z.min (PAGE_SIZE - page_off) (vlen bytes) in
              let dst := p2v frame +w page_off in
              modifyM (fun s => set_ram (store_bytes (ram s) dst (take (Z.to_nat chunk) bytes)) s) ;;;
              write_user_loop n pml4 (user_addr +w chunk) (drop (Z.to_nat chunk) bytes)
          end
      end
  end.

(** Every round takes at least one byte. *)
Definition write_user_bytes (pml4 user_addr : Z) (bytes : list Z) : M Machine bool :=
  write_user_loop (length bytes) pml4 user_addr bytes.

(** The new stack pointer, and the address when the bytes were written. *)
Definition push_user_bytes (pml4 sp : Z) (bytes : list Z) (align : Z) : M Machine (Z * option Z) :=
  let mask := not64 (sat_sub64 align 1) in
  match checked_sub64 sp (vlen bytes) with
  | None => retM (sp, None)
  | Some sp =>
      let sp := sp & mask in
      let* ok := write_user_bytes pml4 sp bytes in
      retM (sp, if ok then Some sp else None)
  end.

Definition push_user_u64 (pml4 sp value : Z) : M Machine (Z * option Z) :=
  push_user_bytes pml4 sp (to_le 8 value) 8.

(** [push_user_u64(pml4, &mut stack_top, v)?] for each value in turn. *)
Fixpoint push_all_u64 (pml4 sp : Z) (values : list Z) : M Machine (option Z) :=
  match values with
  | [] => retM (Some sp)
  | v :: values =>
      let* r := push_user_u64 pml4 sp v in
      match snd r with
      | None => retM None
      | Some _ => push_all_u64 pml4 (fst r) values
      end
  end.

(** ** The initial stack *)

Definition random_bytes : list Z :=
  [0x13; 0x37; 0xca; 0xfe; 0xba; 0xbe; 0xde; 0xad; 0xfa; 0xce; 0x12; 0x34; 0x56; 0x78; 0xab; 0xcd].

Definition execfn_of (name : list Z) : list Z :=
  SLASH :: (wrap8 <$> take (Z.to_nat EXE_PATH_MAX) name) ++ [0].

Definition auxv_of (image : LoadedImage) (uid euid gid egid random_ptr execfn_ptr : Z) : list AuxEntry :=
  [mkAux AT_PHDR (im_phdr image); mkAux AT_PHENT (im_phent image); mkAux AT_PHNUM (im_phnum image);
   mkAux AT_PAGESZ PAGE_SIZE; mkAux AT_ENTRY (im_entry image); mkAux AT_UID uid; mkAux AT_EUID euid;
   mkAux AT_GID gid; mkAux AT_EGID egid; mkAux AT_SECURE 0; mkAux AT_RANDOM random_ptr;
   mkAux AT_EXECFN execfn_ptr; mkAux AT_NULL 0].

(** The values pushed after the strings, in the order of the pushes. *)
Definition stack_values (auxv : list AuxEntry) (execfn_ptr : Z) : list Z :=
  mjoin ((fun e => [ax_value e; ax_key e]) <$> rev auxv) ++ [0; 0; execfn_ptr; 1].

Definition build_initial_stack (pml4 stack_top : Z) (name : list Z) (image : LoadedImage) : M Kernel (option Z) :=
  let* (sp, execfn_ptr) := on_mach (push_user_bytes pml4 stack_top (execfn_of name) 1) in
  match execfn_ptr with
  | None => retM None
  | Some execfn_ptr =>
      let* (sp, random_ptr) := on_mach (push_user_bytes pml4 sp random_bytes 16) in
      match random_ptr with
      | None => retM None
      | Some random_ptr =>
          let* process := current_process in
          let field f := from_option f 0 process in
          let auxv := auxv_of image (field p_uid) (field p_euid) (field p_gid) (field p_egid) random_ptr execfn_ptr in
          let* sp := on_mach (push_all_u64 pml4 sp (stack_values auxv execfn_ptr)) in
          retM ((fun sp => sp & not64 0xF) <$> sp)
      end
  end.

(** ** The program *)

(** The pages of the user stack: [n] left, [off] next; [false] when memory
    runs out. *)
Fixpoint stack_loop (n : nat) (pml4 base off : Z) : M Machine bool :=
  match n with
  | O => retM true
  | S n =>
      let* frame := alloc_framesM 1 in
      if frame =? 0 then retM false
      else
        map_page_in pml4 (base + off) frame {| writable := true; user := true; executable := false |} ;;;
        modifyM (fun s => set_ram (fill (ram s) (p2v frame) 0 PAGE_SIZE) s) ;;;
        stack_loop n pml4 base (off + PAGE_SIZE)
  end.

(** The memory of the program: its PML4, the loaded image and the stack
    pointer; [None] is failure. *)
Definition program_memory (elf_data name : list Z) : M Kernel (option (Z * LoadedImage * Z)) :=
  let* new_pml4 := on_mach clone_kernel_address_space in
  let* image := on_mach (load_into new_pml4 elf_data) in
  match image with
  | inl _ => retM None
  | inr image =>
      let user_stack_base := USER_STACK_TOP - USER_STACK_PAGES * PAGE_SIZE in
      let* ok := on_mach (stack_loop (Z.to_nat USER_STACK_PAGES) new_pml4 user_stack_base 0) in
      if negb ok then retM None
      else
        let* user_stack_top := build_initial_stack new_pml4 (USER_STACK_TOP & not64 0xF) name image in
        retM ((fun sp => (new_pml4, image, sp)) <$> user_stack_top)
  end.

(** The process identifier and the slot; [(0, 0)] is failure. *)
Definition exec_as_task (user_task_trampoline : Z) (elf_data name : list Z) : M Kernel (Z * Z) :=
  let* memory := program_memory elf_data name in
  match memory with
  | None => retM (0, 0)
  | Some (new_pml4, image, user_stack_top) =>
      let* slot := spawn_user_task user_task_trampoline (im_entry image) user_stack_top new_pml4 in
      match slot with
      | None => retM (0, 0)
      | Some slot =>
          let* pid := spawn_named slot name in
          retM (pid, slot)
      end
  end.

(** [syscall_exec_impl] of [syscall/process.rs]. *)
Definition syscall_exec_impl (user_task_trampoline path_ptr argv_ptr envp_ptr : Z) : M Kernel Z :=
  let* name := copy_path_cstr_from_user path_ptr in
  let* name := option_ok name Fault in
  let* k := getM in
  let* elf_bytes := option_ok (vfs_clone_bytes (prefix_of name) (k_fs k)) NoEntry in
  let* (pid, _) := exec_as_task user_task_trampoline elf_bytes (prefix_of name) in
  ensure (negb (pid =? 0)) Invalid ;;;
  retM pid.
