(* ===== verification/ExecImage.v ===== *)
(** * The memory a new program starts with

    [program_memory] builds the address space of a program: the segments of
    its ELF file, a zeroed stack of sixteen pages and, at its top, the block
    of the System V ABI (argument count, argument and environment vectors,
    auxiliary vector) below the strings it points to. *)

From S2P Require Import Prelude Mem Update Result Boot Pmm Paging PageTables AddressSpace UserImage RamFs.
From S2P Require Import Types State Task Elf ElfLoad Exec.

(** ** Specification *)

Definition stack_base : Z := USER_STACK_TOP - USER_STACK_PAGES * PAGE_SIZE.

(** The words at the stack pointer: [argc], [argv], [envp] and the auxiliary
    vector. *)
Definition initial_words (auxv : list AuxEntry) (execfn_ptr : Z) : list Z :=
  [1; execfn_ptr; 0; 0] ++ mjoin ((fun e => [ax_key e; ax_value e]) <$> auxv).

Definition words (ws : list Z) : list Z := mjoin (to_le 8 <$> ws).

(** The path string is at the top, the random bytes below it on a multiple
    of sixteen, the thirty words below them. *)
Definition execfn_at (name : list Z) : Z := USER_STACK_TOP - vlen (execfn_of name).
Definition random_at (name : list Z) : Z := (execfn_at name - 16) / 16 * 16.
Definition sp_at (name : list Z) : Z := random_at name - 240.

(** The argument block. *)
Definition with_arguments (f : Image) (name : list Z) (image : LoadedImage) (process : option Process) : Image :=
  let field f := from_option f 0 process in
  let auxv := auxv_of image (field p_uid) (field p_euid) (field p_gid) (field p_egid) (random_at name) (execfn_at name) in
  overlay (overlay (overlay f (execfn_at name) (execfn_of name)) (random_at name) random_bytes)
    (sp_at name) (words (initial_words auxv (execfn_at name))).

(** The whole address space of the program. *)
Definition program_image (data name : list Z) (process : option Process) : Image :=
  let segs := foldl (place data) (fun _ => None) (segments data) in
  with_arguments (wiped segs stack_base USER_STACK_TOP) name (loaded_image data) process.

Section Stack.
Context (own0 : gmap Z Owner) (r : Z).
Context (Hroot : own0 !! r = Some (OUser r [])).
Local Abbreviation space := (space own0 r).
Local Abbreviation repainted := (repainted own0 r).

Lemma stack_loop_spec n : forall own s base off,
  space own s -> (base + off) mod 4096 = 0 -> 0 <= base + off -> base + off + Z.of_nat n * 4096 <= 2 ^ 47 ->
  4 * Z.of_nat n <= nfree s ->
  exists own' s', stack_loop n r base off s = OOk true s' /\
    repainted s own' s' (wiped (ubyte (ram s) r) (base + off) (base + off + Z.of_nat n * 4096)) (4 * Z.of_nat n).
Proof.
  induction n as [|n IH]; intros own s base off Hs Hm Hp Hb Hn; cbn [stack_loop].
  - exists own, s. split; [done|]. eapply repainted_ext; [|reflexivity|by apply repainted_refl]. intros v _. unfold wiped.
    destruct (Z.leb_spec (base + off) v), (Z.ltb_spec v (base + off + Z.of_nat 0 * 4096)); done || lia.
  - destruct (fresh_page own0 r Hroot own s (base + off) {| writable := true; user := true; executable := false |} Hs)
      as (f & s1 & s2 & own1 & Ea & Hf & Em & R1 & _); [unfold is_user; lia|lia|].
    change (alloc_framesM 1) with alloc_frameM. rewrite (bind_ok _ _ _ _ _ Ea), (proj2 (Z.eqb_neq _ _) Hf), (bind_ok _ _ _ _ _ Em).
    change PAGE_SIZE with 4096. rewrite (bind_ok (modifyM _) _ s2 tt (set_ram (fill (ram s2) (p2v f) 0 4096) s2)) by done.
    set (s3 := set_ram _ s2) in *. pose proof (rp_free _ _ _ _ _ _ _ R1).
    destruct (IH own1 s3 base (off + 4096)) as (own2 & s4 & E2 & R2); [apply R1| |lia..|].
    { rewrite Z.add_assoc, <- Z.add_mod_idemp_l, Hm by lia. done. }
    exists own2, s4. split; [exact E2|]. eapply repainted_ext; [| |exact (repainted_trans _ _ _ _ _ _ _ _ _ _ _ R1 R2)]; [|lia].
    intros v Hv. unfold wiped. rewrite (rp_bytes _ _ _ _ _ _ _ R1) by done.
    pose proof (Z.div_mod v 4096 ltac:(lia)). pose proof (Z.div_mod (base + off) 4096 ltac:(lia)). pose proof (Z.mod_pos_bound v 4096 ltac:(lia)).
    destruct (Z.eqb_spec (v / 4096) ((base + off) / 4096)), (Z.leb_spec (base + (off + 4096)) v), (Z.leb_spec (base + off) v),
      (Z.ltb_spec v (base + (off + 4096) + Z.of_nat n * 4096)), (Z.ltb_spec v (base + off + Z.of_nat (S n) * 4096)); done || lia.
Qed.

Lemma write_user_spec n : forall own s v bs,
  space own s -> (length bs <= n)%nat -> 0 <= v -> v + vlen bs <= 2 ^ 47 -> Forall is_u8 bs ->
  mapped_at (ubyte (ram s) r) v (vlen bs) ->
  exists s', write_user_loop n r v bs s = OOk true s' /\ repainted s own s' (overlay (ubyte (ram s) r) v bs) 0.
Proof.
  induction n as [|n IH]; intros own s v bs Hs Hn Hv Hb Hbs Hmap; (destruct bs as [|b bs0];
    [exists s; split; [done|]; eapply repainted_ext; [|reflexivity|by apply repainted_refl]; intros v' _; by rewrite overlay_nil|]).
  - cbn in Hn. lia.
  - set (bs := b :: bs0) in *.
    change (write_user_loop (S n) r v bs) with (let* s := getM in
      match translate_page (ram s) r v with
      | None => retM false
      | Some frame =>
          let page_off := v & (PAGE_SIZE - 1) in
          let chunk := Z.min (PAGE_SIZE - page_off) (vlen bs) in
          let dst := p2v frame +w page_off in
          modifyM (fun s => set_ram (store_bytes (ram s) dst (take (Z.to_nat chunk) bs)) s) ;;;
          write_user_loop n r (v +w chunk) (drop (Z.to_nat chunk) bs)
      end). rewrite getM_bind.
    assert (0 < vlen bs) by (unfold vlen, bs; cbn [length]; lia). pose proof (Z.mod_pos_bound v 4096 ltac:(lia)).
    assert (v & (PAGE_SIZE - 1) = v mod 4096) as Hoff by (change (PAGE_SIZE - 1) with (2 ^ 12 - 1); by rewrite land_ones_mod).
    cbv zeta. rewrite Hoff. change PAGE_SIZE with 4096. set (chunk := Z.min _ _).
    assert (0 < chunk <= vlen bs /\ chunk <= 4096 - v mod 4096) as Hch by (unfold chunk; lia).
    destruct (take_drop_len chunk bs ltac:(lia)) as [Ht Hd].
    destruct (write_page own0 r Hroot own s v (take (Z.to_nat chunk) bs)) as (frame & -> & R1);
      [done|unfold is_user; lia|lia|by apply Forall_take|intros v' Hv'; apply Hmap; lia|].
    set (s1 := set_ram _ s) in R1. rewrite (bind_ok _ _ s tt s1) by done. rewrite (wrap64_small (v + chunk)) by (unfold U64; lia).
    destruct (IH own s1 (v + chunk) (drop (Z.to_nat chunk) bs)) as (s2 & E2 & R2); [apply R1|rewrite length_drop; lia|lia|lia|by apply Forall_drop| |].
    { intros v' Hv'. rewrite (rp_bytes _ _ _ _ _ _ _ R1) by (unfold is_user; lia). apply (mapped_overlay _ _ _ v (vlen bs) Hmap). lia. }
    exists s2. split; [exact E2|]. eapply repainted_ext; [| |exact (repainted_trans _ _ _ _ _ _ _ _ _ _ _ R1 R2)]; [|lia]. intros v' Hv'.
    rewrite <- (take_drop (Z.to_nat chunk) bs) at 2. rewrite <- overlay_app by lia. fold (vlen (take (Z.to_nat chunk) bs)). rewrite Ht.
    unfold overlay at 1 2. case_goal; [done|]. by apply R1.
Qed.

(** A push of [bs] aligned to [2 ^ k]. *)
Lemma push_spec own s sp bs k :
  space own s -> 0 <= k <= 12 -> vlen bs <= sp -> sp <= 2 ^ 47 -> Forall is_u8 bs ->
  let p := (sp - vlen bs) / 2 ^ k * 2 ^ k in
  mapped_at (ubyte (ram s) r) p (vlen bs) ->
  exists s', push_user_bytes r sp bs (2 ^ k) s = OOk (p, Some p) s' /\ repainted s own s' (overlay (ubyte (ram s) r) p bs) 0.
Proof.
  intros Hs Hk Hlen Hsp Hbs p Hmap. unfold push_user_bytes, checked_sub64. cbv zeta. rewrite (proj2 (Z.leb_le _ _)) by lia.
  pose proof (Z.pow_pos_nonneg 2 k ltac:(lia) ltac:(lia)). pose proof (Nat2Z.is_nonneg (length bs)) as Hnn. fold (vlen bs) in Hnn.
  pose proof (Z.div_mod (sp - vlen bs) (2 ^ k) ltac:(lia)). pose proof (Z.mod_pos_bound (sp - vlen bs) (2 ^ k) ltac:(lia)).
  replace (sat_sub64 (2 ^ k) 1) with (2 ^ k - 1) by (unfold sat_sub64; lia).
  rewrite land_not64_mask by (unfold U64; lia). replace (sp - vlen bs - _) with p by (unfold p; lia).
  assert (0 <= p) by (unfold p; pose proof (Z.div_pos (sp - vlen bs) (2 ^ k)); nia).
  destruct (write_user_spec (length bs) own s p bs Hs ltac:(done) ltac:(done) ltac:(unfold p; lia) Hbs Hmap) as (s' & E & R).
  exists s'. split; [|exact R]. unfold write_user_bytes. by rewrite (bind_ok _ _ _ _ _ E).
Qed.

Lemma overlay_below f a bs1 bs2 v : overlay (overlay f (a + vlen bs1) bs2) a bs1 v = overlay f a (bs1 ++ bs2) v.
Proof.
  unfold overlay, vlen. rewrite length_app, Nat2Z.inj_add. set (n1 := Z.of_nat (length bs1)). set (n2 := Z.of_nat (length bs2)).
  destruct (Z.leb_spec a v), (Z.ltb_spec v (a + n1)), (Z.leb_spec (a + n1) v), (Z.ltb_spec v (a + n1 + n2)),
    (Z.ltb_spec v (a + (n1 + n2))); try lia; cbn [andb]; try done; unfold zget; rewrite !(proj2 (Z.leb_le 0 _)) by lia.
  - by rewrite lookup_app_l by lia.
  - rewrite lookup_app_r by lia. f_equal. lia.
Qed.

Lemma words_app ws1 ws2 : words (ws1 ++ ws2) = words ws1 ++ words ws2.
Proof. unfold words. by rewrite fmap_app, join_app. Qed.

Lemma vlen_words ws : vlen (words ws) = 8 * Z.of_nat (length ws).
Proof.
  induction ws as [|w ws IH]; [done|]. rewrite (words_app [w] ws : words (w :: ws) = _). unfold vlen in *.
  change (words [w]) with (to_le 8 w ++ []). rewrite !length_app, length_to_le. cbn [length]. lia.
Qed.

Lemma push_all_u64_spec vs : forall own s sp,
  space own s -> sp mod 8 = 0 -> 8 * Z.of_nat (length vs) <= sp -> sp <= 2 ^ 47 ->
  let p := sp - 8 * Z.of_nat (length vs) in
  mapped_at (ubyte (ram s) r) p (8 * Z.of_nat (length vs)) ->
  exists s', push_all_u64 r sp vs s = OOk (Some p) s' /\ repainted s own s' (overlay (ubyte (ram s) r) p (words (rev vs))) 0.
Proof.
  induction vs as [|x vs IH]; intros own s sp Hs Hm Hl Hsp p Hmap; cbn [push_all_u64].
  - exists s. split; [unfold p; cbn [length]; by rewrite Z.sub_0_r|]. eapply repainted_ext; [|reflexivity|by apply repainted_refl].
    intros v _. by rewrite overlay_nil.
  - cbn [length] in *. destruct (push_spec own s sp (to_le 8 x) 3 Hs ltac:(lia)) as (s1 & E1 & R1);
      [change (vlen (to_le 8 x)) with 8; lia|done|apply to_le_bytes| |].
    all: change (vlen (to_le 8 x)) with 8 in *; change (2 ^ 3) with 8 in *;
      assert ((sp - 8) / 8 * 8 = sp - 8) as Hp8 by (pose proof (Z.div_mod (sp - 8) 8 ltac:(lia)); pose proof (Z.mod_pos_bound (sp - 8) 8 ltac:(lia));
        pose proof (Z.div_mod sp 8 ltac:(lia)); lia); rewrite Hp8 in *.
    { intros v Hv. apply Hmap. unfold p. lia. }
    unfold push_user_u64. rewrite (bind_ok _ _ _ _ _ E1). cbn [fst snd].
    destruct (IH own s1 (sp - 8)) as (s2 & E2 & R2); [apply R1| |lia|lia| |].
    { by rewrite <- Zminus_mod_idemp_l, Hm. }
    { intros v Hv. rewrite (rp_bytes _ _ _ _ _ _ _ R1) by (unfold is_user; lia).
      apply (mapped_overlay _ _ _ p _ Hmap). unfold p. lia. }
    replace (sp - 8 - 8 * Z.of_nat (length vs)) with p in * by (unfold p; lia). exists s2. split; [exact E2|].
    eapply repainted_ext; [| |exact (repainted_trans _ _ _ _ _ _ _ _ _ _ _ R1 R2)]; [|lia]. intros v Hv.
    cbn [rev]. rewrite words_app. change (words [x]) with (to_le 8 x ++ []). rewrite app_nil_r, <- overlay_below, vlen_words, length_rev.
    replace (p + 8 * Z.of_nat (length vs)) with (sp - 8) by (unfold p; lia).
    unfold overlay at 1 2. case_goal; [done|]. by apply R1.
Qed.

Lemma execfn_bytes name : Forall is_u8 (execfn_of name) /\ 2 <= vlen (execfn_of name) <= EXE_PATH_MAX + 2.
Proof.
  split.
  - unfold execfn_of. constructor; [done|]. apply Forall_app. split; [|by repeat constructor].
    apply Forall_fmap, Forall_true. intros x. unfold is_u8, compose, wrap8. apply Z.mod_pos_bound. done.
  - unfold execfn_of, vlen. cbn [length]. rewrite length_app, length_fmap, length_take. cbn [length]. unfold EXE_PATH_MAX. lia.
Qed.

Lemma stack_addresses name : let e := execfn_at name in
  (USER_STACK_TOP - vlen (execfn_of name)) / 2 ^ 0 * 2 ^ 0 = e /\ (e - vlen random_bytes) / 2 ^ 4 * 2 ^ 4 = random_at name /\
  stack_base < sp_at name /\ sp_at name + 240 = random_at name /\ random_at name + 16 <= e /\ e + vlen (execfn_of name) = USER_STACK_TOP /\
  random_at name mod 16 = 0 /\ sp_at name mod 16 = 0.
Proof.
  destruct (execfn_bytes name) as [_ Hl]. unfold sp_at, random_at, execfn_at, stack_base, EXE_PATH_MAX, USER_STACK_TOP, USER_STACK_PAGES in *.
  change PAGE_SIZE with 4096. change (vlen random_bytes) with 16. change (2 ^ 0) with 1. change (2 ^ 4) with 16.
  remember (0x80000000 - vlen (execfn_of name)) as e eqn:Ee.
  pose proof (Z.div_mod (e - 16) 16 ltac:(lia)). pose proof (Z.mod_pos_bound (e - 16) 16 ltac:(lia)).
  assert (((e - 16) / 16 * 16) mod 16 = 0) as Hm by by rewrite Z.mod_mul.
  split_and!; [by rewrite Z.div_1_r, Z.mul_1_r|done|lia..|done|by rewrite <- Zminus_mod_idemp_l, Hm].
Qed.

Lemma build_initial_stack_spec own k name image process :
  space own (k_mach k) -> mapped_at (ubyte (ram (k_mach k)) r) stack_base (USER_STACK_TOP - stack_base) ->
  (forall m, current_process (k <| k_mach := m |>) = OOk process (k <| k_mach := m |>)) ->
  exists s', build_initial_stack r USER_STACK_TOP name image k = OOk (Some (sp_at name)) (k <| k_mach := s' |>) /\
    repainted (k_mach k) own s' (with_arguments (ubyte (ram (k_mach k)) r) name image process) 0.
Proof.
  intros Hs Hmap Hproc. destruct (stack_addresses name) as (A1 & A2 & A3 & A4 & A5 & A6 & A7 & A8). destruct (execfn_bytes name) as [Hb Hl].
  unfold build_initial_stack.
  destruct (push_spec own (k_mach k) USER_STACK_TOP (execfn_of name) 0 Hs) as (s1 & E1 & R1);
    [done|unfold USER_STACK_TOP, EXE_PATH_MAX in *; lia|done|done| |].
  { rewrite A1. intros v Hv. apply Hmap. lia. }
  rewrite A1 in E1, R1. rewrite (bind_ok _ _ _ _ _ (on_mach_ok _ _ _ _ E1)). cbv beta iota.
  change (vlen random_bytes) with 16 in A2.
  assert (forall s' f, repainted (k_mach k) own s' f 0 -> mapped_at f stack_base (USER_STACK_TOP - stack_base) ->
    mapped_at (ubyte (ram s') r) stack_base (USER_STACK_TOP - stack_base)) as Hkeep.
  { intros s' f R Hf v Hv. rewrite (rp_bytes _ _ _ _ _ _ _ R); [by apply Hf|].
    unfold is_user, stack_base, USER_STACK_TOP, USER_STACK_PAGES in *. change PAGE_SIZE with 4096 in Hv. lia. }
  pose proof (Hkeep _ _ R1 (mapped_overlay _ _ _ _ _ Hmap)) as Hmap1.
  assert (0 < stack_base) by done.
  destruct (push_spec own s1 (execfn_at name) random_bytes 4) as (s2 & E2 & R2); 
    [apply R1|done|change (vlen random_bytes) with 16; lia|unfold USER_STACK_TOP in *; lia|by repeat constructor| |].
  all: change (vlen random_bytes) with 16 in *; rewrite A2 in *.
  { intros v Hv. apply Hmap1. lia. }
  change (2 ^ 4) with 16 in E2.
  rewrite (bind_ok _ _ _ _ _ (on_mach_next _ k _ _ _ E2)). cbv beta iota.
  rewrite (bind_ok _ _ _ _ _ (Hproc s2)). cbv zeta.
  pose proof (repainted_trans _ _ _ _ _ _ _ _ _ _ _ R1 R2) as R12.
  pose proof (Hkeep _ _ R12 (mapped_overlay _ _ _ _ _ Hmap1)) as Hmap2.
  set (auxv := auxv_of _ _ _ _ _ _ _).
  destruct (push_all_u64_spec (stack_values auxv (execfn_at name)) own s2 (random_at name)) as (s3 & E3 & R3); [apply R2| | | | |].
  all: change (8 * Z.of_nat (length (stack_values auxv (execfn_at name)))) with 240 in *.
  { rewrite (Z.div_mod (random_at name) 16), A7 by lia. replace (16 * (random_at name / 16) + 0) with (random_at name / 16 * 2 * 8) by lia. by apply Z.mod_mul. }
  { lia. } { unfold USER_STACK_TOP in *; lia. } { intros v Hv. apply Hmap2. lia. }
  replace (random_at name - 240) with (sp_at name) in E3, R3 by lia.
  rewrite (bind_ok _ _ _ _ _ (on_mach_next _ k _ _ _ E3)).
  exists s3. split.
  - cbn [fmap option_fmap option_map]. change 0xF with (2 ^ 4 - 1). rewrite land_not64_mask by (unfold U64, USER_STACK_TOP in *; lia).
    change (2 ^ 4) with 16. by rewrite A8, Z.sub_0_r.
  - eapply repainted_ext; [| |exact (repainted_trans _ _ _ _ _ _ _ _ _ _ _ R12 R3)]; [|lia]. intros v Hv.
    unfold with_arguments. fold auxv. change (rev (stack_values auxv (execfn_at name))) with (initial_words auxv (execfn_at name)).
    unfold overlay at 1 2. case_goal; [done|]. rewrite (rp_bytes _ _ _ _ _ _ _ R12) by done.
    unfold overlay at 1 2. case_goal; [done|]. by apply R1.
Qed.
End Stack.

(** ** The program *)

Lemma current_process_mach k m p : current_process k = OOk p k ->
  current_process (k <| k_mach := m |>) = OOk p (k <| k_mach := m |>).
Proof.
  unfold current_process, current_process_mut, current_thread, current_thread_mut, current_task_slot, thread_at, process_at, bindM, getM.
  cbn [set_field k_threads k_processes k_current retM]. destruct (zget (k_threads k) (k_current k)) as [[t|]|];
    cbn [unwrap retM fmap option_fmap option_map snd panicM]; [|by intros [= <-]|done].
  destruct (zget (k_processes k) (th_group_slot t)) eqn:E; cbn; rewrite E; [by intros [= <-]|done].
Qed.

Lemma with_arguments_at f g name image process v : f v = g v -> with_arguments f name image process v = with_arguments g name image process v.
Proof. intros H. unfold with_arguments, overlay. by rewrite H. Qed.

Lemma ubyte_same own own' s s' r' v : pt_wf own s -> pt_wf own' s' -> own ⊆ own' ->
  (forall t o, own !! t = Some o -> same_page (ram s) (ram s') t) ->
  own !! r' = Some (OUser r' []) -> is_user v -> ubyte (ram s') r' v = ubyte (ram s) r' v.
Proof.
  intros Hwf Hwf' Hsub Hpg Hr Hv. rewrite (ubyte_upte own'), (ubyte_upte own) by (done || exact (lookup_weaken _ _ _ _ Hr Hsub)).
  rewrite (upte_tables own s (ram s') r' v Hwf Hr Hv).
  2: { intros t rt p i Ht Hi. exact (same_page_ent _ _ _ _ (Hpg _ _ Ht) (wf_frame _ _ Hwf _ _ Ht) Hi). }
  destruct (present (upte (ram s) r' v)) eqn:Hp; [|done]. f_equal.
  exact (Hpg _ _ (upte_data own s r' v Hwf Hr Hv Hp) _ (Z.mod_pos_bound v 4096 eq_refl)).
Qed.

(** C5: The memory of a new program.  For a well-formed executable, and with
    frames for its segments (at most four for each of their pages, page
    tables included), for the sixteen pages of the stack and for the root,
    [exec_as_task]'s address space is complete and exact: every user address
    reads as [program_image] says (the segments with the bytes of the file
    and zeroes after them, the zeroed stack, the path string, the random
    bytes, and the words of [argc], [argv], [envp] and the auxiliary vector
    at the stack pointer, which is a multiple of sixteen), everything else is
    unmapped, and no existing address space changes. *)
Theorem exec_memory_exact own k data name process :
  pt_wf own (k_mach k) -> own !! kernel_pml4 (k_mach k) = Some (OKernel 0) -> elf_ok data ->
  1 + image_cost (segments data) + 4 * USER_STACK_PAGES <= nfree (k_mach k) -> current_process k = OOk process k ->
  exists a own' s', program_memory data name k = OOk (Some (a, loaded_image data, sp_at name)) (k <| k_mach := s' |>) /\
    own !! a = None /\ pt_wf own' s' /\ own' !! a = Some (OUser a []) /\ sp_at name mod 16 = 0 /\
    (forall v, is_user v -> ubyte (ram s') a v = program_image data name process v) /\
    (forall r v, own !! r = Some (OUser r []) -> is_user v -> ubyte (ram s') r v = ubyte (ram (k_mach k)) r v) /\
    (forall r v, own !! r = Some (OUser r []) -> 256 <= idx v 39 ->
       translate_page (ram s') r v = translate_page (ram (k_mach k)) r v).
Proof.
  intros Hwf Hk Hok Hn Hproc. unfold USER_STACK_PAGES in Hn.
  pose proof (image_cost_nonneg _ _ (ok_segments _ Hok)) as Hc.
  destruct (clone_kernel_spec own (k_mach k) Hwf Hk ltac:(lia)) as (a & s1 & E1 & Ha & _ & Hwf1 & Hpg & Hent & Hn1 & _).
  set (own1 := <[a := OUser a []]> own) in *. assert (own1 !! a = Some (OUser a [])) as Hroot by apply lookup_insert_eq.
  pose proof (empty_root _ _ _ Hent) as Hempty. assert (own ⊆ own1) as Hsub by by apply insert_subseteq.
  assert (space own1 a own1 s1) as Hs1.
  { constructor; [done|done|]. intros r' v v' _ Hv _ Hp. by rewrite Hempty in Hp. }
  destruct (load_into_spec own1 a Hroot own1 s1 data Hs1 Hok ltac:(lia)) as (own2 & s2 & E2 & R2).
  pose proof (rp_free _ _ _ _ _ _ _ R2).
  destruct (stack_loop_spec own1 a Hroot 16 own2 s2 stack_base 0) as (own3 & s3 & E3 & R3); [apply R2|done|done|done|lia|].
  change (stack_base + 0 + Z.of_nat 16 * 4096) with USER_STACK_TOP in R3. change (stack_base + 0) with stack_base in R3.
  unfold program_memory. rewrite (bind_ok _ _ _ _ _ (on_mach_ok _ _ _ _ E1)), (bind_ok _ _ _ _ _ (on_mach_next _ k _ _ _ E2)).
  change (USER_STACK_TOP - USER_STACK_PAGES * PAGE_SIZE) with stack_base. change (Z.to_nat USER_STACK_PAGES) with 16%nat.
  cbv zeta. rewrite (bind_ok _ _ _ _ _ (on_mach_next _ k _ _ _ E3)). cbn [negb].
  destruct (build_initial_stack_spec own1 a Hroot own3 (k <| k_mach := s3 |>) name (loaded_image data) process) as (s4 & E4 & R4).
  { apply R3. }
  { intros v Hv. cbn [set_field k_mach]. rewrite (rp_bytes _ _ _ _ _ _ _ R3).
    - unfold wiped. by rewrite (proj2 (Z.leb_le _ _)), (proj2 (Z.ltb_lt _ _)) by lia.
    - unfold is_user, stack_base, USER_STACK_TOP, USER_STACK_PAGES in *. change PAGE_SIZE with 4096 in Hv. lia. }
  { intros m. exact (current_process_mach k m process Hproc). }
  change (USER_STACK_TOP & not64 0xF) with USER_STACK_TOP. rewrite (bind_ok _ _ _ _ _ E4).
  change (k_mach (k <| k_mach := s3 |>)) with s3 in R4.
  pose proof (repainted_trans _ _ _ _ _ _ _ _ _ _ _ (repainted_trans _ _ _ _ _ _ _ _ _ _ _ R2 R3) R4) as R.
  exists a, own3, s4. split; [reflexivity|]. split_and!; [done|apply R4|exact (space_root _ _ _ _ _ (rp_space _ _ _ _ _ _ _ R4) Hroot)|apply stack_addresses|..].
  - intros v Hv. rewrite (rp_bytes _ _ _ _ _ _ _ R4) by done. apply with_arguments_at. rewrite (rp_bytes _ _ _ _ _ _ _ R3) by done.
    unfold wiped. case_goal; [done|]. rewrite (rp_bytes _ _ _ _ _ _ _ R2) by done. apply foldl_place_ext; [|done].
    intros v' Hv'. by rewrite (ubyte_upte own1), Hempty.
  - intros r v Hr Hv. rewrite (rp_other _ _ _ _ _ _ _ R) by (congruence || done || exact (lookup_weaken _ _ _ _ Hr Hsub)).
    by apply (ubyte_same own own1).
  - intros r v Hr Hv. rewrite (rp_kernel _ _ _ _ _ _ _ R) by (done || exact (lookup_weaken _ _ _ _ Hr Hsub)).
    apply (kernel_translate own); [done| | |done|done].
    + intros t l i Ht Hi. exact (same_page_ent _ _ _ _ (Hpg _ _ Ht) (wf_frame _ _ Hwf _ _ Ht) Hi).
    + intros t i Ht Hi. apply (same_page_ent _ _ _ _ (Hpg _ _ Ht) (wf_frame _ _ Hwf _ _ Ht)). split; lia.
Qed.

(** ** A program *)

(** An executable of one segment: the headers and four bytes of code, in two
    pages from 0x400000. *)
Definition sample_elf : list Z :=
  ELFMAG ++ [2; 1; 1; 0] ++ replicate 8 0 ++ to_le 2 2 ++ to_le 2 62 ++ to_le 4 1 ++ to_le 8 0x400078 ++ to_le 8 64 ++
  to_le 8 0 ++ to_le 4 0 ++ to_le 2 64 ++ to_le 2 56 ++ to_le 2 1 ++ replicate 6 0 ++
  to_le 4 1 ++ to_le 4 5 ++ to_le 8 0 ++ to_le 8 0x400000 ++ to_le 8 0x400000 ++ to_le 8 124 ++ to_le 8 0x1800 ++ to_le 8 0x1000 ++
  [0x0F; 0x05; 0xEB; 0xFE].

Lemma sample_elf_segments : segments sample_elf =
  [{| p_type := 1; p_offset := 0; p_vaddr := 0x400000; p_filesz := 124; p_memsz := 0x1800 |}].
Proof. vm_compute. reflexivity. Qed.

Lemma sample_elf_ok : elf_ok sample_elf.
Proof.
  split.
  - unfold sample_elf, ELFMAG. repeat (apply Forall_app; split); first [apply to_le_bytes|by repeat constructor].
  - change (vlen sample_elf) with 124. unfold U64. lia.
  - reflexivity.
  - reflexivity.
  - reflexivity.
  - reflexivity.
  - reflexivity.
  - change (e_phnum sample_elf) with 1. lia.
  - change (e_phentsize sample_elf) with 56. lia.
  - change (e_phnum sample_elf) with 1. change (e_phoff sample_elf) with 64. change (e_phentsize sample_elf) with 56.
    change (vlen sample_elf) with 124. lia.
  - rewrite sample_elf_segments. constructor; [|constructor]. unfold segment_ok. cbn [p_offset p_filesz p_memsz p_vaddr].
    change (vlen sample_elf) with 124. lia.
Qed.

(** Four megabytes. *)
Definition large_boot_info : CoreOS_BootInfo := {|
  fb_base := 0x80000000; fb_size := 0x300000; width := 1024; height := 768; pitch := 1024;
  mmap := [sample_entry 0 1024 7]; mmap_count := 1; kernel_phys_base := 0x9000; kernel_alloc_size := 0x1800;
  user_elf_base := 0; user_elf_size := 0; font_base := 0; font_size := 0; tsc_bootloader_start := 0 |}.

Definition large_machine : Machine :=
  {| pmm := Pmm.init PMMState_new large_boot_info; ram := fun _ => 0; kernel_pml4 := 0; cr3 := 0; invlpgs := [] |}.

Lemma large_machine_wf : pt_wf ∅ large_machine.
Proof. apply blank_machine_wf, init_spec; [repeat constructor; done|done]. Qed.

Lemma large_machine_nfree : nfree large_machine = 1021.
Proof. vm_compute. reflexivity. Qed.

Lemma exec_memory_exact_witness :
  exists own k a s', pt_wf own (k_mach k) /\
    program_memory sample_elf [115; 104] k = OOk (Some (a, loaded_image sample_elf, 0x7FFFFEF0)) (k <| k_mach := s' |>) /\
    ubyte (ram s') a 0x400000 = Some 0x7F /\ ubyte (ram s') a 0x401000 = Some 0 /\ ubyte (ram s') a 0x402000 = None /\
    ubyte (ram s') a 0x7FFFFEF0 = Some 1.
Proof.
  pose proof large_machine_nfree as Hn. destruct (space_from _ large_machine_wf ltac:(lia)) as (own & s & _ & _ & Hwf & _ & _ & Hk & Hs).
  exists own, (init_kernel s (fun _ => 0xFFFFFFFF)).
  destruct (exec_memory_exact own (init_kernel s (fun _ => 0xFFFFFFFF)) sample_elf [115; 104] None Hwf Hk sample_elf_ok)
    as (a & own' & s' & E & _ & _ & _ & _ & Hb & _).
  - change (k_mach (init_kernel s (fun _ => 0xFFFFFFFF))) with s. rewrite Hs, Hn, sample_elf_segments. vm_compute. congruence.
  - reflexivity.
  - exists a, s'. split; [exact Hwf|]. split; [exact E|]. rewrite !Hb by (unfold is_user; lia). vm_compute. split_and!; reflexivity.
Defined.
