(* ===== verification/Libc.v ===== *)
(** * The C library of the test programs ([user/libcshim])

    The allocator over [brk] and the formatting of [printf].  The allocator
    runs on the kernel: its system calls are the kernel's [brk], and the
    theorem about it is about the page tables of the process. *)

From Stdlib Require Import Ascii String.
From S2P Require Import Prelude Mem Update Fmt Result Boot Pmm Paging PageTables AddressSpace UserImage RamFs.
From S2P Require Import Types State Task Proc UserCopy Mm MmSpec ExecImage.

(** ** The heap *)

(** [heap_ptr] and the kernel. *)
Record User := mkUser { u_heap : Z; u_kernel : Kernel }.

#[export] Instance eta_user : Eta User := fun u => mkUser (u_heap u) (u_kernel u).

(** [syscall_ret]: an error of the kernel becomes -1. *)
Definition syscall_ret (ret : Z) : Z := if (as_i64 ret <? 0) && (-4095 <=? as_i64 ret) then U64 - 1 else ret.

(** [brk] has no errors. *)
Definition sys_brk (addr : Z) : M User Z :=
  let* ret := zoom u_kernel (fun k u => u <| u_kernel := k |>) (brk_impl addr) in
  retM (syscall_ret ret).

Definition HEAP_CHUNK : Z := 64 * 1024.

Definition malloc (size : Z) : M User Z :=
  let size := (size +w 15) & not64 15 in
  let* u := getM in
  (if u_heap u =? 0 then let* b := sys_brk 0 in modifyM (fun u => u <| u_heap := b |>) else retM tt) ;;;
  let* u := getM in
  let result := u_heap u in
  let new_ptr := u_heap u +w size in
  let* current_end := sys_brk 0 in
  let* got :=
    if current_end <? new_ptr then
      let extra := new_ptr -w current_end in
      let extra := (extra +w HEAP_CHUNK -w 1) & not64 (HEAP_CHUNK - 1) in
      sys_brk (current_end +w extra)
    else retM new_ptr in
  if got <? new_ptr then retM 0
  else
    modifyM (fun u => u <| u_heap := new_ptr |>) ;;;
    retM result.

(** A program's requests, one after the other. *)
Fixpoint mallocs (sizes : list Z) : M User (list Z) :=
  match sizes with
  | [] => retM []
  | n :: sizes => let* p := malloc n in let* ps := mallocs sizes in retM (p :: ps)
  end.

(** ** Numbers *)

(** The digits of [_fmt_uint], last first; [tmp] holds 24. *)
Fixpoint fmt_loop (n : nat) (v base : Z) : list Z :=
  match n with
  | O => []
  | S n => if 0 <? v then digit (v mod base) :: fmt_loop n (v / base) base else []
  end.

Definition fmt_uint (v base : Z) : list Z := if v =? 0 then [0x30] else rev (fmt_loop 24 v base).

(** An argument of [printf]: a string (or a null pointer) or a number. *)
Inductive Arg := AStr (s : option (list Z)) | ANum (v : Z).

(** [va_arg]: an argument that is missing or of another type is undefined. *)
Definition str_arg (args : list Arg) : option (list Z * list Arg) :=
  match args with AStr s :: args => Some (default (lit "(null)"%string) s, args) | _ => None end.
Definition num_arg (args : list Arg) : option (Z * list Arg) :=
  match args with ANum v :: args => Some (v, args) | _ => None end.

(** [case 'd']: the sign, then the magnitude as [unsigned long long]. *)
Definition signed_text (v : Z) : list Z := if v <? 0 then 0x2D :: fmt_uint (wrap64 (- v)) 10 else fmt_uint v 10.

(** The [switch]: the bytes written and the arguments left. *)
Definition convert (is_long : bool) (c : Z) (args : list Arg) : option (list Z * list Arg) :=
  let number (text : Z -> list Z) := prod_map text id <$> num_arg args in
  let unsigned v := if is_long then v else wrap32 v in
  if c =? 0x25 then Some ([0x25], args)
  else if c =? 0x63 then number (fun v => [wrap8 v])
  else if c =? 0x73 then str_arg args
  else if c =? 0x64 then number (fun v => signed_text (if is_long then as_i64 v else as_i32 (wrap32 v)))
  else if c =? 0x75 then number (fun v => fmt_uint (unsigned v) 10)
  else if c =? 0x78 then number (fun v => fmt_uint (unsigned v) 16)
  else Some ([0x25; c], args).

(** [fmt] is the memory from the format string on, its terminator and what
    follows it included; the result is the bytes written.  [None] where the
    loop leaves that memory or [va_arg] is undefined. *)
Fixpoint printf (fmt : list Z) (args : list Arg) : option (list Z) :=
  match fmt with
  | [] => None
  | c :: fmt =>
      if c =? 0 then Some []
      else if negb (c =? 0x25) then cons c <$> printf fmt args
      else
        match fmt with
        | [] => None
        | c :: fmt' =>
            if c =? 0x6C then
              match fmt' with
              | [] => None
              | c :: fmt'' => r ← convert true c args; app (fst r) <$> printf fmt'' (snd r)
              end
            else r ← convert false c args; app (fst r) <$> printf fmt' (snd r)
        end
  end.

(** ** The allocator's promise *)

Definition round16 (n : Z) : Z := (n + 15) / 16 * 16.

Definition mapped (r : Z) (k : Kernel) (lo hi : Z) : Prop := forall v, lo <= v < hi -> is_Some (ubyte (ram (k_mach k)) r v).

(** Where the next block goes. *)
Definition heap_start (u : User) (p : Process) : Z := if u_heap u =? 0 then p_program_break p else u_heap u.

Section Malloc.
Context (own0 : gmap Z Owner) (r slot : Z).
Context (Hroot : own0 !! r = Some (OUser r [])).

(** Between two calls: the memory from the next block to the break is mapped
    and belongs to nobody. *)
Record heap_ok (own : gmap Z Owner) (u : User) (p : Process) : Prop := {
  h_space : space own0 r own (k_mach (u_kernel u));
  h_run : running (u_kernel u) r slot p;
  h_agree : agree r (u_kernel u);
  h_break : p_program_break p mod 4096 = 0 /\ 0 < p_program_break p;
  h_start : 0 < heap_start u p <= p_program_break p /\ heap_start u p mod 16 = 0;
  h_mapped : mapped r (u_kernel u) (heap_start u p) (p_program_break p);
}.

Lemma round16_nonneg n : 0 <= n -> n <= round16 n.
Proof. intros Hn. unfold round16. pose proof (Z.div_mod (n + 15) 16 ltac:(lia)). pose proof (Z.mod_pos_bound (n + 15) 16 ltac:(lia)). lia. Qed.

Lemma round_up n m : (m = 16 \/ m = 65536) -> 0 <= n -> n + m < U64 ->
  exists q, (n +w (m - 1)) & not64 (m - 1) = q /\ q mod m = 0 /\ n <= q < n + m.
Proof.
  intros Hm Hn Hu. exists ((n + (m - 1)) - (n + (m - 1)) mod m). rewrite wrap64_small by lia.
  assert (exists e, 0 <= e <= 64 /\ m = 2 ^ e) as (e & He & Ee) by (destruct Hm as [-> | ->]; [exists 4|exists 16]; done).
  pose proof (Z.mod_pos_bound (n + (m - 1)) m ltac:(lia)). split_and!; [|by rewrite Zminus_mod_idemp_r, Z.sub_diag|lia|lia].
  rewrite Ee at 2 3. rewrite land_not64_mask by lia. by rewrite <- Ee.
Qed.

Lemma round16_spec n : 0 <= n -> n + 16 < U64 -> (n +w 15) & not64 15 = round16 n /\ n <= round16 n /\ round16 n mod 16 = 0.
Proof.
  intros Hn Hu. destruct (round_up n 16) as (q & Eq & Hq & Hb); [by left|done|done|]. change (16 - 1) with 15 in Eq.
  unfold round16. rewrite Eq. pose proof (Z.div_mod q 16 ltac:(lia)). pose proof (Z.div_mod (n + 15) 16 ltac:(lia)).
  pose proof (Z.mod_pos_bound (n + 15) 16 ltac:(lia)). rewrite Z.mod_mul by lia. lia.
Qed.

Lemma syscall_ret_small x : 0 <= x <= 2 ^ 47 -> syscall_ret x = x.
Proof. intros Hx. unfold syscall_ret, as_i64. repeat case_goal; breflect; unfold U64 in *; lia. Qed.

(** [sys_brk(0)]. *)
Lemma sys_brk_0 u p : running (u_kernel u) r slot p -> 0 <= p_program_break p <= 2 ^ 47 -> sys_brk 0 u = OOk (p_program_break p) u.
Proof.
  intros Hrun Hb. unfold sys_brk. rewrite (bind_ok _ _ u (p_program_break p) u).
  - by rewrite syscall_ret_small by lia.
  - unfold zoom, brk_impl. rewrite (bind_ok _ _ _ _ _ (current_brk_running _ _ _ _ Hrun)). by destruct u.
Qed.

(** The break moves up to another page boundary. *)
Lemma sys_brk_up own u p a : heap_ok own u p -> p_program_break p <= a <= 2 ^ 47 -> a mod 4096 = 0 ->
  a - p_program_break p <= 1024 * nfree (k_mach (u_kernel u)) ->
  exists own' u' p', sys_brk a u = OOk a u' /\ heap_ok own' u' p' /\ p_program_break p' = a /\ u_heap u' = u_heap u /\
    1024 * nfree (k_mach (u_kernel u)) + p_program_break p <= 1024 * nfree (k_mach (u_kernel u')) + a /\
    (forall v, is_user v -> v < p_program_break p -> ubyte (ram (k_mach (u_kernel u'))) r v = ubyte (ram (k_mach (u_kernel u))) r v).
Proof.
  intros [Hs Hrun Hag [Hb1 Hb2] [Hst Hst16] Hm] Ha Ha4 Hn. set (b := p_program_break p) in *. set (k := u_kernel u) in *.
  assert (align_up b = b) as Eb by (apply align_up_aligned; [lia|done]). assert (align_up a = a) as Ea by (apply align_up_aligned; [lia|done]).
  assert (1024 * ((a - b) / 1024) <= a - b) as Hd by (apply Z.mul_div_le; lia).
  destruct (brk_up own0 own k r slot p a Hroot Hs Hrun Hag ltac:(fold b; lia) ltac:(lia)) as (own' & s' & m' & E & Hag' & R & _).
  { fold b. rewrite Eb, Ea. apply Z.div_le_upper_bound; lia. }
  fold b in E, R. rewrite Eb, Ea in R. pose proof (rp_free _ _ _ _ _ _ _ R) as Hf.
  set (k' := k <| k_mach := s' |> <| k_umem := m' |> <| k_processes := _ |>) in *. change s' with (k_mach k') in R, Hf.
  assert (forall v, is_user v -> ubyte (ram (k_mach k')) r v = wiped (ubyte (ram (k_mach k)) r) b a v) as Hbytes by apply R.
  exists own', (u <| u_kernel := k' |>), (p <| p_program_break := a |>). split_and!; [|constructor|reflexivity|reflexivity|change (u_kernel (u <| u_kernel := k' |>)) with k'; lia|].
  - unfold sys_brk. rewrite (bind_ok _ _ u a (u <| u_kernel := k' |>)); [by rewrite syscall_ret_small by lia|].
    unfold zoom. fold k. by rewrite E.
  - apply R.
  - exact (running_set k r slot p _ Hrun s' m').
  - exact Hag'.
  - cbn. lia.
  - unfold heap_start in *. cbn. fold b in Hst, Hst16. destruct (u_heap u =? 0); [|split; [lia|done]].
    split; [lia|]. apply Z.mod_divide; [done|]. apply (Z.divide_trans _ 4096); [by exists 256|by apply Z.mod_divide].
  - intros v. unfold heap_start in *. cbn. fold b in Hm, Hst. destruct (u_heap u =? 0); [lia|]. intros Hv.
    rewrite Hbytes by (unfold is_user; lia). unfold wiped. destruct (Z.leb_spec b v), (Z.ltb_spec v a); cbn [andb]; eauto; [lia|apply Hm; lia..].
  - intros v Hv Hlt. cbn. rewrite Hbytes by done. unfold wiped. repeat case_goal; breflect; done || lia.
Qed.

(** The next block moves up within the heap. *)
Lemma heap_ok_advance own u p h : heap_ok own u p -> heap_start u p <= h <= p_program_break p -> h mod 16 = 0 ->
  heap_ok own (u <| u_heap := h |>) p /\ heap_start (u <| u_heap := h |>) p = h.
Proof.
  intros [Hs Hrun Hag Hb [Hst _] Hm] Hh Hh16. assert (heap_start (u <| u_heap := h |>) p = h) as E.
  { unfold heap_start at 1. cbn. by rewrite (proj2 (Z.eqb_neq h 0)) by lia. }
  split; [|exact E]. constructor; [exact Hs|exact Hrun|exact Hag|exact Hb| |]; rewrite E; [split; [lia|exact Hh16]|].
  intros v Hv. apply Hm. lia.
Qed.

(** [malloc] makes room for the block. *)
Lemma extend_spec own u p new : heap_ok own u p -> heap_start u p <= new -> new + HEAP_CHUNK <= 2 ^ 47 -> p_program_break p <= 2 ^ 47 ->
  new + HEAP_CHUNK - p_program_break p <= 1024 * nfree (k_mach (u_kernel u)) ->
  let b := p_program_break p in
  exists got own' u' p', (if b <? new then sys_brk (b +w ((new -w b +w HEAP_CHUNK -w 1) & not64 (HEAP_CHUNK - 1))) else retM new) u = OOk got u' /\
    new <= got /\ heap_ok own' u' p' /\ new <= p_program_break p' /\ b <= p_program_break p' <= 2 ^ 47 /\ u_heap u' = u_heap u /\
    1024 * nfree (k_mach (u_kernel u)) + b <= 1024 * nfree (k_mach (u_kernel u')) + p_program_break p' /\
    (forall v, is_user v -> v < b -> ubyte (ram (k_mach (u_kernel u'))) r v = ubyte (ram (k_mach (u_kernel u))) r v).
Proof.
  intros H Hq Hnew Hb47 Hn b. destruct (h_break _ _ _ H) as [Hb4 Hb0]. fold b in Hb4, Hb0, Hb47, Hn. unfold HEAP_CHUNK in *.
  destruct (Z.ltb_spec b new) as [Hlt|Hge].
  - destruct (round_up (new - b) 65536) as (x & Ex & Hx & Hxb); [by right|lia|unfold U64; lia|].
    assert ((new -w b +w 64 * 1024 -w 1) = (new - b) +w (65536 - 1)) as ->.
    { rewrite (wrap64_small (new - b)), (wrap64_small (new - b + _)) by (unfold U64; lia). f_equal. lia. }
    change (64 * 1024 - 1) with (65536 - 1). rewrite Ex, (wrap64_small (b + x)) by (unfold U64; lia).
    destruct (sys_brk_up own u p (b + x) H) as (own' & u' & p' & E & H' & Ep & Eu & Hf & Hby); [fold b; lia| |fold b; lia|].
    { rewrite Z.add_mod, Hb4 by lia. apply Z.mod_divide in Hx as [c ->]; [|lia]. replace (c * 65536) with (c * 16 * 4096) by lia. by rewrite Z.mod_mul. }
    exists (b + x), own', u', p'. fold b in Hf, Hby. rewrite Ep. split_and!; [exact E|lia|exact H'|lia|lia|lia|exact Eu|lia|exact Hby].
  - exists new, own, u, p. fold b. split_and!; [reflexivity|lia|exact H|lia|lia|lia|reflexivity|lia|reflexivity].
Qed.

(** One request. *)
Lemma malloc_spec own u p n : heap_ok own u p -> p_program_break p <= 2 ^ 47 -> 0 <= n ->
  let q := heap_start u p in
  q + round16 n + HEAP_CHUNK <= 2 ^ 47 -> q + round16 n + HEAP_CHUNK - p_program_break p <= 1024 * nfree (k_mach (u_kernel u)) ->
  exists own' u' p', malloc n u = OOk q u' /\ heap_ok own' u' p' /\ heap_start u' p' = q + round16 n /\
    p_program_break p <= p_program_break p' <= 2 ^ 47 /\
    1024 * nfree (k_mach (u_kernel u)) + p_program_break p <= 1024 * nfree (k_mach (u_kernel u')) + p_program_break p' /\
    mapped r (u_kernel u') q (q + n) /\
    (forall v, is_user v -> v < p_program_break p -> ubyte (ram (k_mach (u_kernel u'))) r v = ubyte (ram (k_mach (u_kernel u))) r v).
Proof.
  intros H Hb47 Hn0 q Hq Hn. destruct (h_break _ _ _ H) as [_ Hb0]. destruct (h_start _ _ _ H) as [Hst Hst16]. fold q in Hst, Hst16.
  pose proof (round16_nonneg n Hn0) as Hge0.
  destruct (round16_spec n Hn0) as (Er & Hge & Hr16); [unfold HEAP_CHUNK, U64 in *; lia|].
  destruct (heap_ok_advance own u p q H ltac:(fold q; lia) Hst16) as [H0 E0]. set (u0 := u <| u_heap := q |>) in *.
  destruct (extend_spec own u0 p (q + round16 n) H0 ltac:(lia) Hq Hb47 Hn) as (got & own' & u1 & p' & E & Hgot & H1 & Hnew & Hbb & Eu & Hf & Hby).
  assert (heap_start u1 p' = q) as E1.
  { unfold heap_start. rewrite Eu. change (u_heap u0) with q. by rewrite (proj2 (Z.eqb_neq q 0)) by lia. }
  destruct (heap_ok_advance own' u1 p' (q + round16 n) H1 ltac:(lia)) as [H2 E2]; [by rewrite Z.add_mod, Hst16, Hr16 by lia|].
  exists own', (u1 <| u_heap := q + round16 n |>), p'. split_and!; [|exact H2|exact E2|lia|lia|exact Hf| |exact Hby].
  - unfold malloc. rewrite Er, getM_bind. rewrite (bind_ok _ _ u tt u0).
    + rewrite getM_bind. change (u_heap u0) with q. rewrite (wrap64_small (q + _)) by (unfold HEAP_CHUNK, U64 in *; lia).
      rewrite (bind_ok _ _ u0 (p_program_break p) u0) by (apply sys_brk_0; [apply H0|lia]).
      rewrite (bind_ok _ _ _ _ _ E). by rewrite (proj2 (Z.ltb_ge _ _) Hgot).
    + unfold u0, q, heap_start. clear - H Hb47 Hb0. destruct (Z.eqb_spec (u_heap u) 0); [|by destruct u].
      by rewrite (bind_ok _ _ u (p_program_break p) u) by (apply sys_brk_0; [apply H|lia]).
  - intros v Hv. apply (h_mapped _ _ _ H1). rewrite E1. lia.
Qed.

(** Every block lies at or above [lo], after the one before it. *)
Fixpoint consecutive (lo : Z) (ps sizes : list Z) : Prop :=
  match ps, sizes with
  | [], [] => True
  | q :: ps, n :: sizes => lo <= q /\ q mod 16 = 0 /\ consecutive (q + n) ps sizes
  | _, _ => False
  end.

Definition total (sizes : list Z) : Z := foldr (fun n => Z.add (round16 n)) 0 sizes.

Lemma total_nonneg sizes : Forall (Z.le 0) sizes -> 0 <= total sizes.
Proof. induction 1 as [|n sizes Hn _ IH]; cbn; [lia|]. pose proof (round16_nonneg n Hn). unfold total in IH. lia. Qed.

Lemma consecutive_weaken lo lo' ps sizes : lo' <= lo -> consecutive lo ps sizes -> consecutive lo' ps sizes.
Proof. destruct ps, sizes; cbn; intuition lia. Qed.

Lemma mallocs_spec sizes : Forall (Z.le 0) sizes -> forall own u p, heap_ok own u p -> p_program_break p <= 2 ^ 47 ->
  let q := heap_start u p in
  q + total sizes + HEAP_CHUNK <= 2 ^ 47 -> q + total sizes + HEAP_CHUNK - p_program_break p <= 1024 * nfree (k_mach (u_kernel u)) ->
  exists ps u', mallocs sizes u = OOk ps u' /\ consecutive q ps sizes /\ agree r (u_kernel u') /\
    Forall2 (fun q n => mapped r (u_kernel u') q (q + n)) ps sizes /\
    (forall v, is_user v -> v < p_program_break p -> ubyte (ram (k_mach (u_kernel u'))) r v = ubyte (ram (k_mach (u_kernel u))) r v).
Proof.
  induction 1 as [|n sizes Hn0 Hs IH]; intros own u p H Hb47 q Hq Hn; cbn [mallocs].
  - exists [], u. split_and!; [reflexivity|exact I|apply H|constructor|reflexivity].
  - pose proof (total_nonneg sizes Hs) as Ht0. pose proof (round16_nonneg n Hn0) as Hr0.
    change (total (n :: sizes)) with (round16 n + total sizes) in Hq, Hn. destruct (h_start _ _ _ H) as [Hst Hst16]. fold q in Hst, Hst16.
    destruct (malloc_spec own u p n H Hb47 Hn0) as (own1 & u1 & p1 & E1 & H1 & Est & Hbb & Hf & Hm & Hby); [fold q; lia..|]. fold q in E1, Est, Hm.
    destruct (IH own1 u1 p1 H1 ltac:(lia)) as (ps & u' & E & Hc & Hag & Hms & Hby'); [rewrite Est; lia..|]. rewrite Est in Hc.
    destruct (h_start _ _ _ H1) as [Hst1 _]. rewrite Est in Hst1.
    exists (q :: ps), u'. split_and!; [|split_and!|exact Hag|constructor; [|exact Hms]|].
    + rewrite (bind_ok _ _ _ _ _ E1), (bind_ok _ _ _ _ _ E). reflexivity.
    + lia.
    + exact Hst16.
    + eapply consecutive_weaken; [|exact Hc]. lia.
    + intros v Hv. rewrite Hby' by (unfold is_user; lia). by apply Hm.
    + intros v Hv Hlt. rewrite Hby', Hby by (done || lia). reflexivity.
Qed.
End Malloc.

(** C8: a program's requests to [malloc], made from the start on a process
    whose break is a page boundary and with enough free frames, all succeed:
    the blocks are aligned to sixteen bytes, follow one another without
    overlap from the break on, every byte of every block is mapped in the
    page tables of the process, and the memory below the break is unchanged. *)
Theorem malloc_blocks own0 own r slot k p sizes :
  own0 !! r = Some (OUser r []) -> space own0 r own (k_mach k) -> running k r slot p -> agree r k ->
  p_program_break p mod 4096 = 0 -> 0 < p_program_break p -> Forall (Z.le 0) sizes ->
  p_program_break p + total sizes + HEAP_CHUNK <= 2 ^ 47 -> total sizes + HEAP_CHUNK <= 1024 * nfree (k_mach k) ->
  exists ps u', mallocs sizes (mkUser 0 k) = OOk ps u' /\ consecutive (p_program_break p) ps sizes /\ agree r (u_kernel u') /\
    Forall2 (fun q n => mapped r (u_kernel u') q (q + n)) ps sizes /\
    (forall v, is_user v -> v < p_program_break p -> ubyte (ram (k_mach (u_kernel u'))) r v = ubyte (ram (k_mach k)) r v).
Proof.
  intros Hroot Hs Hrun Hag Hb4 Hb0 Hsz Hq Hn. pose proof (total_nonneg sizes Hsz). unfold HEAP_CHUNK in *.
  refine (mallocs_spec own0 r slot Hroot sizes Hsz own (mkUser 0 k) p _ _ _ _); [|lia|exact Hq|unfold HEAP_CHUNK; cbn -[nfree total]; lia].
  constructor; [exact Hs|exact Hrun|exact Hag|done| |].
  - split; [unfold heap_start; cbn; lia|]. apply Z.mod_divide; [done|]. apply (Z.divide_trans _ 4096); [by exists 256|by apply Z.mod_divide].
  - intros v Hv. unfold heap_start in Hv. cbn in Hv. lia.
Qed.

(** ** The text of a number *)

(** The loop and the digits of the kernel's formatting are the same. *)
Lemma fmt_loop_digits base n v : 1 < base -> 0 < v -> v < base ^ Z.of_nat n -> fmt_loop n v base = rev_digits base n v.
Proof.
  intros Hb. revert v. induction n as [|n IH]; intros v Hv Hlt; [change (base ^ Z.of_nat 0) with 1 in Hlt; lia|].
  cbn [fmt_loop rev_digits]. rewrite (proj2 (Z.ltb_lt 0 v)) by lia. f_equal.
  destruct (Z.eqb_spec (v / base) 0) as [E|E]; [rewrite E; by destruct n|]. apply IH.
  - pose proof (Z.div_pos v base ltac:(lia) ltac:(lia)). lia.
  - apply Z.div_lt_upper_bound; [lia|]. rewrite <- Z.pow_succ_r by lia. by rewrite <- Nat2Z.inj_succ.
Qed.

Lemma fmt_loop_fuel base n m v : 1 < base -> 0 <= v -> v < base ^ Z.of_nat n -> (n <= m)%nat -> fmt_loop m v base = fmt_loop n v base.
Proof.
  intros Hb. revert m v. induction n as [|n IH]; intros m v H0 Hlt Hm.
  - change (base ^ Z.of_nat 0) with 1 in Hlt. replace v with 0 by lia. by destruct m.
  - destruct m as [|m]; [lia|]. cbn [fmt_loop]. case_goal; [|done]. f_equal. apply IH; [apply Z.div_pos; lia| |lia].
    apply Z.div_lt_upper_bound; [lia|]. rewrite <- Z.pow_succ_r by lia. by rewrite <- Nat2Z.inj_succ.
Qed.

(** The digits end before the 24 bytes of [tmp] do, and the text reads back
    as the number. *)
Lemma fmt_uint_value base v : (base = 10 \/ base = 16) -> is_u64 v ->
  value base (fmt_uint v base) = v /\ fmt_loop 24 v base = fmt_loop 20 v base.
Proof.
  intros Hb [H0 H1]. assert (1 < base <= 36) as Hr by lia.
  assert (forall n, n = 20%nat \/ n = 24%nat -> v < base ^ Z.of_nat n) as Hp.
  { intros n Hn. apply (Z.lt_le_trans _ U64); [exact H1|]. destruct Hb as [-> | ->], Hn as [-> | ->]; vm_compute; discriminate. }
  pose proof (Hp 20%nat (or_introl eq_refl)) as H20. pose proof (Hp 24%nat (or_intror eq_refl)) as H24. clear Hp.
  unfold fmt_uint. split; [|apply fmt_loop_fuel; [apply Hr|exact H0|exact H20|repeat constructor]].
  destruct (Z.eqb_spec v 0) as [->|Hv]; [by destruct Hb as [-> | ->]|]. assert (0 < v) as Hv0 by (clear H20 H24; lia).
  unfold value. rewrite rev_involutive, (fmt_loop_digits base 24 v (proj1 Hr) Hv0 H24). exact (rev_value_digits base 24 v Hr (conj H0 H24)).
Qed.

(** A [%] at the end of the format: the terminator is written, and the loop
    goes on behind it. *)
Lemma printf_leaves_format rest args : printf (0x25 :: 0 :: rest) args = app [0x25; 0] <$> printf rest args.
Proof. reflexivity. Qed.

(** ** A run of the allocator *)

(** Process 1 in slot 0, on a new address space. *)
Definition malloc_kernel (s : Machine) (r : Z) : Kernel :=
  sample_proc <| k_mach := s |> <| k_tasks := zset (replicate 8 None) 0 (Some (mkTask 0 0x1000 Running 0 true r)) |>.

Lemma malloc_blocks_witness : exists k q1 q2 q3 u',
  mallocs [100; 70000; 1] (mkUser 0 k) = OOk [q1; q2; q3] u' /\ 0x40000000 <= q1 /\ q1 + 100 <= q2 /\ q2 + 70000 <= q3 /\ q3 mod 16 = 0.
Proof.
  pose proof large_machine_nfree as Hn. destruct (space_from _ large_machine_wf ltac:(lia)) as (own & s & _ & _ & Hwf & _ & _ & Hk & Hs).
  destruct (clone_kernel_spec own s Hwf Hk ltac:(lia)) as (r & s1 & _ & _ & _ & Hwf1 & _ & Hent & Hn1 & _).
  pose proof (empty_root _ _ _ Hent) as Hempty.
  destruct (malloc_blocks (<[r := OUser r []]> own) (<[r := OUser r []]> own) r 0 (malloc_kernel s1 r) (Process_new_leader 1 0 [105]) [100; 70000; 1])
    as (ps & u' & E & Hc & _).
  - apply lookup_insert_eq.
  - constructor; [exact Hwf1|reflexivity|]. intros r' v v' _ Hv _ Hp. rewrite Hempty in Hp by exact Hv. discriminate Hp.
  - constructor; [exists (mkTask 0 0x1000 Running 0 true r)|exists (Thread_new_leader 1 0 0 0)|]; try split; reflexivity.
  - intros v b Hv Hb. change (k_mach (malloc_kernel s1 r)) with s1 in Hb.
    rewrite (ubyte_upte (<[r := OUser r []]> own)), Hempty in Hb by (exact Hv || exact Hwf1 || apply lookup_insert_eq). discriminate Hb.
  - reflexivity.
  - reflexivity.
  - repeat constructor; lia.
  - vm_compute. congruence.
  - change (k_mach (malloc_kernel s1 r)) with s1. rewrite Hn1, Hs, Hn. vm_compute. congruence.
  - destruct ps as [|q1 [|q2 [|q3 [|]]]]; cbn in Hc; try tauto. exists (malloc_kernel s1 r), q1, q2, q3, u'. split; [exact E|]. tauto.
Defined.
