(* ===== verification/Dispatch.v ===== *)
(** * The system-call table ([syscall/nr.rs], [syscall/dispatch.rs], [syscall/mod.rs])

    The numbers, the table that routes a number to its handler, and the entry
    from user mode: the registers are saved as a frame on the kernel stack,
    the call is dispatched, and a pending signal is delivered on the way
    back.  The addresses of the two assembly trampolines and what a device
    makes of a write to its configuration space are arguments. *)

From S2P Require Import Prelude Mem Update Fmt Pci Bench Result Pmm Paging RamFs Types Vga State Task Proc Fd UserCopy Signal.
From S2P Require Import Futex SysProc Mm SysIo SysVfs Time Sys Elf Exec.

Module Nr.
Definition READ : Z := 0.
Definition WRITE : Z := 1.
Definition OPEN : Z := 2.
Definition CLOSE : Z := 3.
Definition FSTAT : Z := 5.
Definition LSEEK : Z := 8.
Definition MMAP : Z := 9.
Definition MPROTECT : Z := 10.
Definition MUNMAP : Z := 11.
Definition BRK : Z := 12.
Definition RT_SIGACTION : Z := 13.
Definition RT_SIGPROCMASK : Z := 14.
Definition RT_SIGRETURN : Z := 15.
Definition IOCTL : Z := 16.
Definition PREAD64 : Z := 17.
Definition PWRITE64 : Z := 18.
Definition READV : Z := 19.
Definition WRITEV : Z := 20.
Definition PIPE : Z := 22.
Definition DUP : Z := 32.
Definition NANOSLEEP : Z := 35.
Definition GETPID : Z := 39.
Definition SENDFILE : Z := 40.
Definition SOCKET : Z := 41.
Definition CONNECT : Z := 42.
Definition ACCEPT : Z := 43.
Definition SENDTO : Z := 44.
Definition RECVFROM : Z := 45.
Definition SHUTDOWN : Z := 48.
Definition BIND : Z := 49.
Definition LISTEN : Z := 50.
Definition GETSOCKNAME : Z := 51.
Definition GETPEERNAME : Z := 52.
Definition SOCKETPAIR : Z := 53.
Definition SETSOCKOPT : Z := 54.
Definition GETSOCKOPT : Z := 55.
Definition CLONE : Z := 56.
Definition FORK : Z := 57.
Definition EXEC : Z := 59.
Definition EXIT : Z := 60.
Definition WAITPID : Z := 61.
Definition KILL : Z := 62.
Definition UNAME : Z := 63.
Definition FCNTL : Z := 72.
Definition TRUNCATE : Z := 76.
Definition FTRUNCATE : Z := 77.
Definition GETCWD : Z := 79.
Definition CHDIR : Z := 80.
Definition READLINK : Z := 89.
Definition UMASK : Z := 95.
Definition GETTIMEOFDAY : Z := 96.
Definition GETRLIMIT : Z := 97.
Definition SYSINFO : Z := 99.
Definition GETUID : Z := 102.
Definition GETGID : Z := 104.
Definition SETUID : Z := 105.
Definition SETGID : Z := 106.
Definition GETEUID : Z := 107.
Definition GETEGID : Z := 108.
Definition SETPGID : Z := 109.
Definition GETPPID : Z := 110.
Definition GETPGRP : Z := 111.
Definition GETRESUID : Z := 118.
Definition GETRESGID : Z := 120.
Definition GETPGID : Z := 121.
Definition GETSID : Z := 124.
Definition SIGALTSTACK : Z := 131.
Definition ARCH_PRCTL : Z := 158.
Definition SETRLIMIT : Z := 160.
Definition GETTID : Z := 186.
Definition TKILL : Z := 200.
Definition FUTEX : Z := 202.
Definition SET_TID_ADDRESS : Z := 218.
Definition CLOCK_GETTIME : Z := 228.
Definition CLOCK_NANOSLEEP : Z := 230.
Definition EXIT_GROUP : Z := 231.
Definition TGKILL : Z := 234.
Definition OPENAT : Z := 257.
Definition FSTATAT : Z := 262.
Definition UNLINKAT : Z := 263.
Definition READLINKAT : Z := 267.
Definition FACCESSAT : Z := 269.
Definition SET_ROBUST_LIST : Z := 273.
Definition GET_ROBUST_LIST : Z := 274.
Definition ACCEPT4 : Z := 288.
Definition DUP3 : Z := 292.
Definition PIPE2 : Z := 293.
Definition PREADV : Z := 295.
Definition PWRITEV : Z := 296.
Definition PRLIMIT64 : Z := 302.
Definition GETRANDOM : Z := 318.
Definition FSIZE : Z := 1024.
Definition LS : Z := 1025.
Definition TOUCH : Z := 1026.
Definition RM : Z := 1027.
Definition WRITE_FILE : Z := 1028.
Definition PUSH_FILE : Z := 1029.
Definition UPTIME_SECONDS : Z := 1030.
Definition REBOOT : Z := 1031.
Definition PANIC : Z := 1032.
Definition BOOTTIME : Z := 1033.
Definition CLEAR_TERMINAL : Z := 1034.
Definition SLEEP_TICKS : Z := 1035.
Definition SET_FONT_SCALE : Z := 1036.
Definition FREE_BYTES : Z := 1037.
Definition TICKS : Z := 1038.
Definition PCI_LIST : Z := 1067.
Definition PCI_TEST : Z := 1068.
End Nr.

(** ** Results *)

(** [result::ret]: an error becomes the negated error number. *)
Definition retW (m : M Kernel (Wait Z)) : M Kernel (Wait Z) := fun k =>
  match m k with
  | OOk w k' => OOk w k'
  | OErr e k' => OOk (Done (errno e)) k'
  | OPanic => OPanic
  end.

Definition ret (m : M Kernel Z) : M Kernel (Wait Z) := retW (doneM m).

(** ** Handlers of [dispatch.rs] itself and of [syscall/pci.rs] *)

Definition clear_terminal_impl : M Kernel Z :=
  modifyM (fun k => k <| k_vga := set_userspace_cursor 20 120 (clear_terminal_area (k_vga k)) |>) ;;; retM 0.

Definition set_font_scale_impl (scale : Z) : M Kernel Z :=
  modifyM (fun k => k <| k_vga := set_font_scale scale (k_vga k) |>) ;;; retM 0.

Definition free_bytes_impl : M Kernel Z := let* k := getM in retM (free_bytes (pmm (k_mach k))).

Definition pci_list_impl (buf_ptr buf_len : Z) : M Kernel Z :=
  modifyM (fun k => k <| k_pci := enumerate_pci (k_pci k) |>) ;;;
  let* k := getM in
  let bytes := list_text (device_list (k_pci k)) in
  let count := Z.min buf_len (Z.of_nat (length bytes)) in
  let* ok := copy_to_user buf_ptr (take (Z.to_nat count) bytes) in
  ensure ok Fault ;;;
  retM count.

Definition pci_test (bus_write : (Z -> Z) -> Z -> Z -> (Z -> Z)) : M Kernel Z :=
  let* k := getM in
  let '(failures, p) := pci_self_test bus_write (k_pci k) in
  modifyM (fun k => k <| k_pci := p |>) ;;;
  retM failures.

(** ** Routing *)

Section Route.
Context (fuel : nat) (pauses : nat -> Pause) (irqs : nat -> list Irq).
Context (fork_return_trampoline user_task_trampoline : Z) (bus_write : (Z -> Z) -> Z -> Z -> (Z -> Z)).

Definition routes (arg1 arg2 arg3 arg4 arg5 arg6 frame : Z) : list (Z * M Kernel (Wait Z)) :=
  [ (Nr.READ, retW (read_impl fuel irqs arg1 arg2 arg3));
    (Nr.WRITE, ret (write_impl arg1 arg2 arg3));
    (Nr.OPEN, ret (open_impl arg1 arg2 arg3));
    (Nr.CLOSE, ret (syscall_close_impl arg1));
    (Nr.FSTAT, ret (fstat_impl arg1 arg2));
    (Nr.LSEEK, ret (lseek_impl arg1 arg2 arg3));
    (Nr.MMAP, ret (mmap arg1 arg2 arg3 arg4 arg5 arg6));
    (Nr.MPROTECT, ret (mprotect_impl arg1 arg2 arg3));
    (Nr.MUNMAP, ret (munmap_impl arg1 arg2));
    (Nr.BRK, ret (brk_impl arg1));
    (Nr.RT_SIGACTION, ret (syscall_rt_sigaction_impl arg1 arg2 arg3 arg4));
    (Nr.RT_SIGPROCMASK, ret (syscall_rt_sigprocmask_impl arg1 arg2 arg3 arg4));
    (Nr.RT_SIGRETURN, ret (syscall_rt_sigreturn_impl frame));
    (Nr.IOCTL, ret (ioctl_impl arg1 arg2 arg3));
    (Nr.PREAD64, ret (pread64_impl arg1 arg2 arg3 arg4));
    (Nr.PWRITE64, ret (pwrite64_impl arg1 arg2 arg3 arg4));
    (Nr.READV, retW (readv_impl fuel irqs arg1 arg2 arg3));
    (Nr.WRITEV, ret (writev_impl arg1 arg2 arg3));
    (Nr.PIPE, ret (syscall_pipe_impl arg1));
    (Nr.DUP, ret (syscall_dup_impl arg1));
    (Nr.NANOSLEEP, retW (nanosleep_impl fuel pauses arg1 arg2));
    (Nr.GETPID, ret syscall_getpid);
    (Nr.SENDFILE, ret (sendfile_impl arg1 arg2 arg3 arg4));
    (Nr.SOCKET, ret syscall_socket);
    (Nr.CONNECT, ret net_stub);
    (Nr.ACCEPT, ret net_stub);
    (Nr.SENDTO, ret net_stub);
    (Nr.RECVFROM, ret net_stub);
    (Nr.SHUTDOWN, ret net_stub);
    (Nr.BIND, ret net_stub);
    (Nr.LISTEN, ret net_stub);
    (Nr.GETSOCKNAME, ret net_stub);
    (Nr.GETPEERNAME, ret net_stub);
    (Nr.SOCKETPAIR, ret net_stub);
    (Nr.SETSOCKOPT, ret net_stub);
    (Nr.GETSOCKOPT, ret net_stub);
    (Nr.CLONE, ret (syscall_clone_impl fork_return_trampoline arg1 arg2 arg3 arg4 frame));
    (Nr.FORK, ret (syscall_fork_impl fork_return_trampoline frame));
    (Nr.EXEC, ret (syscall_exec_impl user_task_trampoline arg1 arg2 arg3));
    (Nr.EXIT, retW (syscall_exit arg1));
    (Nr.WAITPID, retW (syscall_waitpid_impl fuel pauses arg1));
    (Nr.KILL, ret (syscall_kill_impl arg1 arg2));
    (Nr.UNAME, ret (syscall_uname_impl arg1));
    (Nr.FCNTL, ret (syscall_fcntl_impl arg1 arg2 arg3));
    (Nr.TRUNCATE, ret (truncate_impl arg1 arg2));
    (Nr.FTRUNCATE, ret (ftruncate_impl arg1 arg2));
    (Nr.GETCWD, ret (syscall_getcwd_impl arg1 arg2));
    (Nr.CHDIR, ret (syscall_chdir_impl arg1));
    (Nr.READLINK, ret (readlink_impl arg1 arg2 arg3));
    (Nr.UMASK, ret (syscall_umask_impl arg1));
    (Nr.GETTIMEOFDAY, ret (gettimeofday_impl arg1 arg2));
    (Nr.GETRLIMIT, ret (syscall_getrlimit_impl (as_i32 arg1) arg2));
    (Nr.SYSINFO, ret (syscall_sysinfo_impl arg1));
    (Nr.GETUID, ret syscall_getuid);
    (Nr.GETGID, ret syscall_getgid);
    (Nr.SETUID, ret (syscall_setuid_impl arg1));
    (Nr.SETGID, ret (syscall_setgid_impl arg1));
    (Nr.GETEUID, ret syscall_geteuid);
    (Nr.GETEGID, ret syscall_getegid);
    (Nr.SETPGID, ret (syscall_setpgid_impl arg1 arg2));
    (Nr.GETPPID, ret syscall_getppid);
    (Nr.GETPGRP, ret syscall_getpgrp);
    (Nr.GETRESUID, ret (syscall_getresuid_impl arg1 arg2 arg3));
    (Nr.GETRESGID, ret (syscall_getresgid_impl arg1 arg2 arg3));
    (Nr.GETPGID, ret (syscall_getpgid_impl arg1));
    (Nr.GETSID, ret (syscall_getsid_impl arg1));
    (Nr.SIGALTSTACK, ret (syscall_sigaltstack_impl arg1 arg2));
    (Nr.ARCH_PRCTL, ret (syscall_arch_prctl_impl arg1 arg2));
    (Nr.SETRLIMIT, ret (syscall_setrlimit (as_i32 arg1) arg2));
    (Nr.GETTID, ret syscall_gettid);
    (Nr.TKILL, ret (syscall_tkill_impl arg1 arg2));
    (Nr.FUTEX, retW (syscall_futex_impl fuel pauses arg1 arg2 arg3 arg4));
    (Nr.SET_TID_ADDRESS, ret (syscall_set_tid_address_impl arg1));
    (Nr.CLOCK_GETTIME, ret (clock_gettime_impl arg1 arg2));
    (Nr.CLOCK_NANOSLEEP, retW (clock_nanosleep_impl fuel pauses arg1 arg2 arg3 arg4));
    (Nr.EXIT_GROUP, retW (syscall_exit_group arg1));
    (Nr.TGKILL, ret (syscall_tgkill_impl arg1 arg2 arg3));
    (Nr.OPENAT, ret (openat_impl arg1 arg2 arg3 arg4));
    (Nr.FSTATAT, ret (fstatat_impl arg1 arg2 arg3 arg4));
    (Nr.UNLINKAT, ret (unlinkat_impl arg1 arg2 arg3 arg4));
    (Nr.READLINKAT, ret (readlinkat_impl arg1 arg2 arg3 arg4));
    (Nr.FACCESSAT, ret (faccessat_impl arg1 arg2 arg3 arg4));
    (Nr.SET_ROBUST_LIST, ret (syscall_set_robust_list_impl arg1 arg2));
    (Nr.GET_ROBUST_LIST, ret (syscall_get_robust_list_impl arg1 arg2 arg3));
    (Nr.ACCEPT4, ret net_stub);
    (Nr.DUP3, ret (syscall_dup3_impl arg1 arg2 arg3));
    (Nr.PIPE2, ret (syscall_pipe2_impl arg1 arg2));
    (Nr.PREADV, ret (preadv_impl arg1 arg2 arg3 arg4));
    (Nr.PWRITEV, ret (pwritev_impl arg1 arg2 arg3 arg4));
    (Nr.PRLIMIT64, ret (syscall_prlimit64_impl (as_i32 arg1) (as_i32 arg2) arg3 arg4));
    (Nr.GETRANDOM, ret (syscall_getrandom_impl arg1 arg2 arg3));
    (Nr.FSIZE, ret (fsize_impl arg1));
    (Nr.LS, ret (ls_impl arg1 arg2));
    (Nr.TOUCH, ret (touch_impl arg1 arg2));
    (Nr.RM, ret (rm_impl arg1 arg2));
    (Nr.WRITE_FILE, ret (write_file_impl arg1 arg2 arg3));
    (Nr.PUSH_FILE, ret (push_file_impl arg1 arg2 arg3));
    (Nr.UPTIME_SECONDS, ret sys_uptime_seconds);
    (Nr.REBOOT, retM Blocked);
    (Nr.PANIC, panicM);
    (Nr.BOOTTIME, ret (boottime_impl arg1 arg2));
    (Nr.CLEAR_TERMINAL, ret clear_terminal_impl);
    (Nr.SLEEP_TICKS, retW (sleep_ticks fuel pauses arg1));
    (Nr.SET_FONT_SCALE, ret (set_font_scale_impl arg1));
    (Nr.FREE_BYTES, ret free_bytes_impl);
    (Nr.TICKS, ret sys_ticks);
    (Nr.PCI_LIST, ret (pci_list_impl arg1 arg2));
    (Nr.PCI_TEST, ret (pci_test bus_write)) ].

Definition route (num arg1 arg2 arg3 arg4 arg5 arg6 frame : Z) : M Kernel (Wait Z) :=
  match List.find (fun r => fst r =? num) (routes arg1 arg2 arg3 arg4 arg5 arg6 frame) with
  | Some (_, handler) => handler
  | None => ret (errM NoSys)
  end.

Definition syscall_dispatch (num arg1 arg2 arg3 arg4 frame : Z) : M Kernel (Wait Z) :=
  let* f := get_frame frame in
  let '(arg5, arg6) := if negb (frame =? 0) then (f_r8 f, f_r9 f) else (0, 0) in
  let* r := route num arg1 arg2 arg3 arg4 arg5 arg6 frame in
  match r with
  | Blocked => retM Blocked
  | Done ret => let* v := finish_syscall num frame ret in retM (Done v)
  end.

(** The registers at [syscall]: [f_rax] is the number, [f_r10] the user stack
    pointer, [arg4] the register [r10] itself.  The result is the registers
    at [sysret]. *)
Definition syscall_entry (regs : SyscallFrame) (arg4 : Z) : M Kernel (Wait SyscallFrame) :=
  let* k := getM in
  let frame := k_rsp0 k -w 8 -w SyscallFrame_size in
  poke64 (k_rsp0 k -w 8) (f_r10 regs) ;;;
  put_frame frame regs ;;;
  modifyM (fun k => k <| k_in_syscall := true |>) ;;;
  let* r := syscall_dispatch (f_rax regs) (f_rdi regs) (f_rsi regs) (f_rdx regs) arg4 frame in
  match r with
  | Blocked => retM Blocked
  | Done v =>
      put_rax frame v ;;;
      modifyM (fun k => k <| k_in_syscall := false |>) ;;;
      let* f := get_frame frame in
      retM (Done f)
  end.
End Route.
