(* ===== verification/Abi.v ===== *)
(** * The system call numbers on both sides

    The table of the kernel ([syscall/nr.rs]), the header of the C library
    ([user/libcshim/sysnr.h]), and that the dispatcher serves exactly the
    numbers of the header. *)

From Stdlib Require Import Ascii String.
From S2P Require Import Prelude Result Types State Fd Dispatch.

Local Open Scope string_scope.
Local Open Scope Z_scope.

(** [nr::ALL]. *)
Definition ALL : list (Z * string) :=
  [ (Nr.READ, "read"); (Nr.WRITE, "write"); (Nr.OPEN, "open"); (Nr.CLOSE, "close"); (Nr.FSTAT, "fstat");
    (Nr.LSEEK, "lseek"); (Nr.MMAP, "mmap"); (Nr.MPROTECT, "mprotect"); (Nr.MUNMAP, "munmap"); (Nr.BRK, "brk");
    (Nr.RT_SIGACTION, "rt_sigaction"); (Nr.RT_SIGPROCMASK, "rt_sigprocmask"); (Nr.RT_SIGRETURN, "rt_sigreturn");
    (Nr.IOCTL, "ioctl"); (Nr.PREAD64, "pread64"); (Nr.PWRITE64, "pwrite64"); (Nr.READV, "readv");
    (Nr.WRITEV, "writev"); (Nr.PIPE, "pipe"); (Nr.DUP, "dup"); (Nr.NANOSLEEP, "nanosleep"); (Nr.GETPID, "getpid");
    (Nr.SENDFILE, "sendfile"); (Nr.SOCKET, "socket"); (Nr.CONNECT, "connect"); (Nr.ACCEPT, "accept");
    (Nr.SENDTO, "sendto"); (Nr.RECVFROM, "recvfrom"); (Nr.SHUTDOWN, "shutdown"); (Nr.BIND, "bind");
    (Nr.LISTEN, "listen"); (Nr.GETSOCKNAME, "getsockname"); (Nr.GETPEERNAME, "getpeername");
    (Nr.SOCKETPAIR, "socketpair"); (Nr.SETSOCKOPT, "setsockopt"); (Nr.GETSOCKOPT, "getsockopt"); (Nr.CLONE, "clone");
    (Nr.FORK, "fork"); (Nr.EXEC, "execve"); (Nr.EXIT, "exit"); (Nr.WAITPID, "waitpid"); (Nr.KILL, "kill");
    (Nr.UNAME, "uname"); (Nr.FCNTL, "fcntl"); (Nr.TRUNCATE, "truncate"); (Nr.FTRUNCATE, "ftruncate");
    (Nr.GETCWD, "getcwd"); (Nr.CHDIR, "chdir"); (Nr.READLINK, "readlink"); (Nr.UMASK, "umask");
    (Nr.GETTIMEOFDAY, "gettimeofday"); (Nr.GETRLIMIT, "getrlimit"); (Nr.SYSINFO, "sysinfo"); (Nr.GETUID, "getuid");
    (Nr.GETGID, "getgid"); (Nr.SETUID, "setuid"); (Nr.SETGID, "setgid"); (Nr.GETEUID, "geteuid");
    (Nr.GETEGID, "getegid"); (Nr.SETPGID, "setpgid"); (Nr.GETPPID, "getppid"); (Nr.GETPGRP, "getpgrp");
    (Nr.GETRESUID, "getresuid"); (Nr.GETRESGID, "getresgid"); (Nr.GETPGID, "getpgid"); (Nr.GETSID, "getsid");
    (Nr.SIGALTSTACK, "sigaltstack"); (Nr.ARCH_PRCTL, "arch_prctl"); (Nr.SETRLIMIT, "setrlimit");
    (Nr.GETTID, "gettid"); (Nr.TKILL, "tkill"); (Nr.FUTEX, "futex"); (Nr.SET_TID_ADDRESS, "set_tid_address");
    (Nr.CLOCK_GETTIME, "clock_gettime"); (Nr.CLOCK_NANOSLEEP, "clock_nanosleep"); (Nr.EXIT_GROUP, "exit_group");
    (Nr.TGKILL, "tgkill"); (Nr.OPENAT, "openat"); (Nr.FSTATAT, "fstatat"); (Nr.UNLINKAT, "unlinkat");
    (Nr.READLINKAT, "readlinkat"); (Nr.FACCESSAT, "faccessat"); (Nr.SET_ROBUST_LIST, "set_robust_list");
    (Nr.GET_ROBUST_LIST, "get_robust_list"); (Nr.ACCEPT4, "accept4"); (Nr.DUP3, "dup3"); (Nr.PIPE2, "pipe2");
    (Nr.PREADV, "preadv"); (Nr.PWRITEV, "pwritev"); (Nr.PRLIMIT64, "prlimit64"); (Nr.GETRANDOM, "getrandom");
    (Nr.FSIZE, "fsize"); (Nr.LS, "ls"); (Nr.TOUCH, "touch"); (Nr.RM, "rm"); (Nr.WRITE_FILE, "write_file");
    (Nr.PUSH_FILE, "push_file"); (Nr.UPTIME_SECONDS, "uptime_seconds"); (Nr.REBOOT, "reboot"); (Nr.PANIC, "panic");
    (Nr.BOOTTIME, "boottime"); (Nr.CLEAR_TERMINAL, "clear_terminal"); (Nr.SLEEP_TICKS, "sleep_ticks");
    (Nr.SET_FONT_SCALE, "set_font_scale"); (Nr.FREE_BYTES, "free_bytes"); (Nr.TICKS, "ticks");
    (Nr.PCI_LIST, "pci_list"); (Nr.PCI_TEST, "pci_test") ].

(** The arms of [nr::name]; the first that matches answers. *)
Definition name_arms : list (Z * string) :=
  [ (Nr.READ, "read"); (Nr.WRITE, "write"); (Nr.OPEN, "open"); (Nr.CLOSE, "close"); (Nr.FSTAT, "fstat");
    (Nr.LSEEK, "lseek"); (Nr.MMAP, "mmap"); (Nr.MPROTECT, "mprotect"); (Nr.MUNMAP, "munmap"); (Nr.BRK, "brk");
    (Nr.RT_SIGACTION, "rt_sigaction"); (Nr.RT_SIGPROCMASK, "rt_sigprocmask"); (Nr.RT_SIGRETURN, "rt_sigreturn");
    (Nr.IOCTL, "ioctl"); (Nr.PREAD64, "pread64"); (Nr.PWRITE64, "pwrite64"); (Nr.READV, "readv");
    (Nr.WRITEV, "writev"); (Nr.PIPE, "pipe"); (Nr.DUP, "dup"); (Nr.NANOSLEEP, "nanosleep"); (Nr.GETPID, "getpid");
    (Nr.SENDFILE, "sendfile"); (Nr.SOCKET, "socket"); (Nr.CONNECT, "connect"); (Nr.ACCEPT, "accept");
    (Nr.SENDTO, "sendto"); (Nr.RECVFROM, "recvfrom"); (Nr.SHUTDOWN, "shutdown"); (Nr.BIND, "bind");
    (Nr.LISTEN, "listen"); (Nr.GETSOCKNAME, "getsockname"); (Nr.GETPEERNAME, "getpeername");
    (Nr.SOCKETPAIR, "socketpair"); (Nr.SETSOCKOPT, "setsockopt"); (Nr.GETSOCKOPT, "getsockopt"); (Nr.CLONE, "clone");
    (Nr.FORK, "fork"); (Nr.EXEC, "execve"); (Nr.EXIT, "exit"); (Nr.WAITPID, "waitpid"); (Nr.KILL, "kill");
    (Nr.UNAME, "uname"); (Nr.FCNTL, "fcntl"); (Nr.TRUNCATE, "truncate"); (Nr.FTRUNCATE, "ftruncate");
    (Nr.GETCWD, "getcwd"); (Nr.CHDIR, "chdir"); (Nr.READLINK, "readlink"); (Nr.UMASK, "umask");
    (Nr.GETTIMEOFDAY, "gettimeofday"); (Nr.GETRLIMIT, "getrlimit"); (Nr.SYSINFO, "sysinfo"); (Nr.GETUID, "getuid");
    (Nr.GETGID, "getgid"); (Nr.SETUID, "setuid"); (Nr.SETGID, "setgid"); (Nr.GETEUID, "geteuid");
    (Nr.GETEGID, "getegid"); (Nr.SETPGID, "setpgid"); (Nr.GETPPID, "getppid"); (Nr.GETPGRP, "getpgrp");
    (Nr.GETRESUID, "getresuid"); (Nr.GETRESGID, "getresgid"); (Nr.GETPGID, "getpgid"); (Nr.GETSID, "getsid");
    (Nr.SIGALTSTACK, "sigaltstack"); (Nr.ARCH_PRCTL, "arch_prctl"); (Nr.SETRLIMIT, "setrlimit");
    (Nr.GETTID, "gettid"); (Nr.TKILL, "tkill"); (Nr.FUTEX, "futex"); (Nr.SET_TID_ADDRESS, "set_tid_address");
    (Nr.CLOCK_GETTIME, "clock_gettime"); (Nr.CLOCK_NANOSLEEP, "clock_nanosleep"); (Nr.EXIT_GROUP, "exit_group");
    (Nr.TGKILL, "tgkill"); (Nr.OPENAT, "openat"); (Nr.FSTATAT, "fstatat"); (Nr.UNLINKAT, "unlinkat");
    (Nr.READLINKAT, "readlinkat"); (Nr.FACCESSAT, "faccessat"); (Nr.SET_ROBUST_LIST, "set_robust_list");
    (Nr.GET_ROBUST_LIST, "get_robust_list"); (Nr.ACCEPT4, "accept4"); (Nr.DUP3, "dup3"); (Nr.PIPE2, "pipe2");
    (Nr.PREADV, "preadv"); (Nr.PWRITEV, "pwritev"); (Nr.PRLIMIT64, "prlimit64"); (Nr.GETRANDOM, "getrandom");
    (Nr.FSIZE, "fsize"); (Nr.LS, "ls"); (Nr.TOUCH, "touch"); (Nr.RM, "rm"); (Nr.WRITE_FILE, "write_file");
    (Nr.PUSH_FILE, "push_file"); (Nr.UPTIME_SECONDS, "uptime_seconds"); (Nr.REBOOT, "reboot"); (Nr.PANIC, "panic");
    (Nr.BOOTTIME, "boottime"); (Nr.CLEAR_TERMINAL, "clear_terminal"); (Nr.SLEEP_TICKS, "sleep_ticks");
    (Nr.SET_FONT_SCALE, "set_font_scale"); (Nr.FREE_BYTES, "free_bytes"); (Nr.TICKS, "ticks");
    (Nr.PCI_LIST, "pci_list"); (Nr.PCI_TEST, "pci_test") ].

Definition name (number : Z) : option string := snd <$> List.find (fun a => fst a =? number) name_arms.

(** The macros of [sysnr.h], without the prefix [COREOS_SYS_]. *)
Definition sysnr_h : list (string * Z) :=
  [ ("READ", 0); ("WRITE", 1); ("OPEN", 2); ("CLOSE", 3); ("FSTAT", 5); ("LSEEK", 8); ("MMAP", 9); ("MPROTECT", 10);
    ("MUNMAP", 11); ("BRK", 12); ("RT_SIGACTION", 13); ("RT_SIGPROCMASK", 14); ("RT_SIGRETURN", 15); ("IOCTL", 16);
    ("PREAD64", 17); ("PWRITE64", 18); ("READV", 19); ("WRITEV", 20); ("PIPE", 22); ("DUP", 32); ("NANOSLEEP", 35);
    ("GETPID", 39); ("SENDFILE", 40); ("SOCKET", 41); ("CONNECT", 42); ("ACCEPT", 43); ("SENDTO", 44);
    ("RECVFROM", 45); ("SHUTDOWN", 48); ("BIND", 49); ("LISTEN", 50); ("GETSOCKNAME", 51); ("GETPEERNAME", 52);
    ("SOCKETPAIR", 53); ("SETSOCKOPT", 54); ("GETSOCKOPT", 55); ("CLONE", 56); ("FORK", 57); ("EXEC", 59);
    ("EXIT", 60); ("WAITPID", 61); ("KILL", 62); ("UNAME", 63); ("FCNTL", 72); ("TRUNCATE", 76); ("FTRUNCATE", 77);
    ("GETCWD", 79); ("CHDIR", 80); ("READLINK", 89); ("UMASK", 95); ("GETTIMEOFDAY", 96); ("GETRLIMIT", 97);
    ("SYSINFO", 99); ("GETUID", 102); ("GETGID", 104); ("SETUID", 105); ("SETGID", 106); ("GETEUID", 107);
    ("GETEGID", 108); ("SETPGID", 109); ("GETPPID", 110); ("GETPGRP", 111); ("GETRESUID", 118); ("GETRESGID", 120);
    ("GETPGID", 121); ("GETSID", 124); ("SIGALTSTACK", 131); ("ARCH_PRCTL", 158); ("SETRLIMIT", 160);
    ("GETTID", 186); ("TKILL", 200); ("FUTEX", 202); ("SET_TID_ADDRESS", 218); ("CLOCK_GETTIME", 228);
    ("CLOCK_NANOSLEEP", 230); ("EXIT_GROUP", 231); ("TGKILL", 234); ("OPENAT", 257); ("FSTATAT", 262);
    ("UNLINKAT", 263); ("READLINKAT", 267); ("FACCESSAT", 269); ("SET_ROBUST_LIST", 273); ("GET_ROBUST_LIST", 274);
    ("ACCEPT4", 288); ("DUP3", 292); ("PIPE2", 293); ("PREADV", 295); ("PWRITEV", 296); ("PRLIMIT64", 302);
    ("GETRANDOM", 318); ("FSIZE", 1024); ("LS", 1025); ("TOUCH", 1026); ("RM", 1027); ("WRITE_FILE", 1028);
    ("PUSH_FILE", 1029); ("UPTIME_SECONDS", 1030); ("REBOOT", 1031); ("PANIC", 1032); ("BOOTTIME", 1033);
    ("CLEAR_TERMINAL", 1034); ("SLEEP_TICKS", 1035); ("SET_FONT_SCALE", 1036); ("FREE_BYTES", 1037); ("TICKS", 1038);
    ("PCI_LIST", 1067); ("PCI_TEST", 1068) ].

Definition numbers : list Z := snd <$> sysnr_h.

Lemma numbers_nodup : NoDup numbers.
Proof. apply (bool_decide_unpack _). vm_compute. exact I. Qed.

(** Searching a table by its key. *)
Lemma find_key_None {A} (l : list (Z * A)) n : ~ n ∈ (fst <$> l) -> List.find (fun r => fst r =? n) l = None.
Proof.
  intros Hn. induction l as [|[m x] l IH]; [done|]. rewrite fmap_cons, elem_of_cons in Hn. cbn. destruct (Z.eqb_spec m n); [subst; tauto|].
  apply IH. tauto.
Qed.

Lemma find_key_Some {A} (l : list (Z * A)) n x : NoDup (fst <$> l) ->
  snd <$> List.find (fun r => fst r =? n) l = Some x <-> (n, x) ∈ l.
Proof.
  induction l as [|[m y] l IH]; intros Hd; [split; [done|by intros ?%elem_of_nil]|].
  rewrite fmap_cons in Hd. apply list.NoDup_cons in Hd as [Hm Hd]. rewrite elem_of_cons. cbn. destruct (Z.eqb_spec m n) as [<-|Hne].
  - split; [intros [= ->]; by left|]. intros [[= ->]|Hin]; [done|]. destruct Hm. apply list_elem_of_fmap. by exists (m, x).
  - rewrite IH by done. split; [by right|]. intros [[= -> ->]|]; [done|done].
Qed.

(** C40: the two sides of the system call boundary agree.  The numbers of the
    C header are those the dispatcher has a handler for, in the same order and
    without repetition; the dispatcher answers [ENOSYS] to every other number,
    without changing the kernel; and [nr::name] names exactly the numbers of
    [nr::ALL]. *)
Theorem abi_agrees fuel pauses irqs fork_tramp user_tramp bus_write num a1 a2 a3 a4 a5 a6 frame k :
  fst <$> routes fuel pauses irqs fork_tramp user_tramp bus_write a1 a2 a3 a4 a5 a6 frame = numbers /\ NoDup numbers /\
  (~ num ∈ numbers ->
     route fuel pauses irqs fork_tramp user_tramp bus_write num a1 a2 a3 a4 a5 a6 frame k = OOk (Done (errno NoSys)) k /\ name num = None) /\
  (forall s, name num = Some s <-> (num, s) ∈ ALL).
Proof.
  assert (fst <$> routes fuel pauses irqs fork_tramp user_tramp bus_write a1 a2 a3 a4 a5 a6 frame = numbers) as Hr by reflexivity.
  assert (fst <$> name_arms = numbers) as Ha by reflexivity.
  split_and!; [exact Hr|exact numbers_nodup| |].
  - intros Hn. unfold route, name. rewrite (find_key_None _ num) by (by rewrite Hr). rewrite (find_key_None _ num) by (by rewrite Ha). done.
  - intros s. change ALL with name_arms. apply find_key_Some. rewrite Ha. exact numbers_nodup.
Qed.
