(* ===== verification/CString.v ===== *)
(** * Strings and memory of the C library ([user/libcshim])

    The loops over characters, on byte memory.  A loop that ends at a
    terminator has fuel; [None] says that it ran out. *)

From S2P Require Import Prelude Mem Update.

Definition store (m : Mem) (a c : Z) : Mem := fun x => if x =? a then c else m x.

(** [str_len], and [strlen] that calls it. *)
Fixpoint str_len (fuel : nat) (m : Mem) (s n : Z) : option Z :=
  match fuel with
  | O => None
  | S f => if m (s + n) =? 0 then Some n else str_len f m s (n + 1)
  end.

Definition strlen (fuel : nat) (m : Mem) (s : Z) : option Z := str_len fuel m s 0.

(** One byte per round, the terminator last. *)
Fixpoint strcpy (fuel : nat) (m : Mem) (d src : Z) : option Mem :=
  match fuel with
  | O => None
  | S f =>
      let c := m src in
      let m := store m d c in
      if c =? 0 then Some m else strcpy f m (d + 1) (src + 1)
  end.

(** The second loop of [strncpy]: [n] bytes left. *)
Fixpoint zero_bytes (n : nat) (m : Mem) (d : Z) : Mem :=
  match n with O => m | S n => zero_bytes n (store m d 0) (d + 1) end.

Fixpoint strncpy (n : nat) (m : Mem) (d src : Z) : Mem :=
  match n with
  | O => m
  | S n' => if m src =? 0 then zero_bytes n m d else strncpy n' (store m d (m src)) (d + 1) (src + 1)
  end.

Fixpoint strcmp (fuel : nat) (m : Mem) (a b : Z) : option Z :=
  match fuel with
  | O => None
  | S f => if negb (m a =? 0) && (m a =? m b) then strcmp f m (a + 1) (b + 1) else Some (m a - m b)
  end.

Fixpoint strncmp (n : nat) (m : Mem) (a b : Z) : Z :=
  match n with
  | O => 0
  | S n => if negb (m a =? m b) then m a - m b else if m a =? 0 then 0 else strncmp n m (a + 1) (b + 1)
  end.

(** The pointer found, [NULL] as 0. *)
Fixpoint strchr (fuel : nat) (m : Mem) (s c : Z) : option Z :=
  match fuel with
  | O => None
  | S f =>
      if m s =? 0 then Some (if c =? 0 then s else 0)
      else if m s =? wrap8 c then Some s
      else strchr f m (s + 1) c
  end.

Fixpoint memset (n : nat) (m : Mem) (d c : Z) : Mem :=
  match n with O => m | S n => memset n (store m d (wrap8 c)) (d + 1) c end.

Fixpoint memcpy (n : nat) (m : Mem) (d s : Z) : Mem :=
  match n with O => m | S n => memcpy n (store m d (m s)) (d + 1) (s + 1) end.

Fixpoint memcmp (n : nat) (m : Mem) (p q : Z) : Z :=
  match n with O => 0 | S n => if negb (m p =? m q) then m p - m q else memcmp n m (p + 1) (q + 1) end.

(** [str_eq]: 1 when the strings are equal. *)
Fixpoint str_eq (fuel : nat) (m : Mem) (a b : Z) : option bool :=
  match fuel with
  | O => None
  | S f =>
      if negb (m a =? 0) && negb (m b =? 0) && (m a =? m b) then str_eq f m (a + 1) (b + 1)
      else Some (m a =? m b)
  end.

Fixpoint str_starts (fuel : nat) (m : Mem) (s prefix : Z) : option bool :=
  match fuel with
  | O => None
  | S f =>
      if m prefix =? 0 then Some true
      else if negb (m s =? m prefix) then Some false
      else str_starts f m (s + 1) (prefix + 1)
  end.

(** [readline]: the line so far, last character first, and the characters
    typed; the result is the line, what was echoed and the input left. *)
Fixpoint readline (buf_len : Z) (line input : list Z) : option (list Z * list Z * list Z) :=
  if Z.of_nat (length line) <? buf_len - 1 then
    match input with
    | [] => None
    | c :: input =>
        if c =? 0 then readline buf_len line input
        else if (c =? 0x0A) || (c =? 0x0D) then Some (rev line, [0x0A], input)
        else if c =? 0x08 then
          match line with
          | [] => readline buf_len [] input
          | _ :: line' => (fun '(l, e, r) => (l, [0x08; 0x20; 0x08] ++ e, r)) <$> readline buf_len line' input
          end
        else (fun '(l, e, r) => (l, c :: e, r)) <$> readline buf_len (c :: line) input
    end
  else Some (rev line, [], input).

(** ** C strings *)

(** The string [s] with its terminator lies at [p]. *)
Fixpoint cstr (m : Mem) (p : Z) (s : list Z) : Prop :=
  match s with
  | [] => m p = 0
  | c :: s => m p = c /\ 0 < c < 256 /\ cstr m (p + 1) s
  end.

(** What [strcmp] returns: the difference at the first place where the strings
    differ, the terminators included. *)
Fixpoint compare_spec (a b : list Z) : Z :=
  match a, b with
  | [], [] => 0
  | [], y :: _ => - y
  | x :: _, [] => x
  | x :: a, y :: b => if x =? y then compare_spec a b else x - y
  end.

Lemma strlen_spec m s p n fuel : cstr m (p + n) s -> (length s < fuel)%nat -> str_len fuel m p n = Some (n + Z.of_nat (length s)).
Proof.
  revert n fuel. induction s as [|c s IH]; intros n [|f] Hs Hf; cbn [length] in Hf; [lia| |lia|]; cbn [cstr] in Hs; cbn [str_len].
  - rewrite Hs. cbn. f_equal. lia.
  - destruct Hs as (-> & Hc & Hs). rewrite (proj2 (Z.eqb_neq c 0)) by lia. rewrite IH; [f_equal; cbn [length]; lia| |lia]. by rewrite Z.add_assoc.
Qed.

Lemma strcmp_spec m a b pa pb fuel : cstr m pa a -> cstr m pb b -> (length a < fuel)%nat -> strcmp fuel m pa pb = Some (compare_spec a b).
Proof.
  revert b pa pb fuel. induction a as [|x a IH]; intros b pa pb [|f] Ha Hb Hf; cbn [length] in Hf; [lia| |lia|]; cbn [cstr strcmp] in *.
  - rewrite Ha. cbn. destruct b as [|y b]; cbn [cstr compare_spec] in *; [by rewrite Hb|]. destruct Hb as (-> & _). done.
  - destruct Ha as (-> & Hx & Ha). rewrite (proj2 (Z.eqb_neq x 0)) by lia. cbn [negb andb]. destruct b as [|y b]; cbn [cstr compare_spec] in *.
    + rewrite Hb, (proj2 (Z.eqb_neq x 0)) by lia. f_equal. lia.
    + destruct Hb as (-> & Hy & Hb). destruct (Z.eqb_spec x y); [|done]. apply IH; [done|done|lia].
Qed.

Lemma compare_spec_zero m a b pa pb : cstr m pa a -> cstr m pb b -> compare_spec a b = 0 <-> a = b.
Proof.
  revert b pa pb. induction a as [|x a IH]; intros [|y b] pa pb Ha Hb; cbn [cstr compare_spec] in *; [done| | |].
  - destruct Hb as (_ & ? & _). split; [lia|done].
  - destruct Ha as (_ & ? & _). split; [lia|done].
  - destruct Ha as (_ & _ & Ha), Hb as (_ & _ & Hb). destruct (Z.eqb_spec x y) as [->|]; [|split; [lia|congruence]].
    rewrite (IH b _ _ Ha Hb). split; congruence.
Qed.

Lemma cstr_ext m m' p s : cstr m p s -> (forall x, p <= x <= p + Z.of_nat (length s) -> m' x = m x) -> cstr m' p s.
Proof.
  revert p. induction s as [|c s IH]; intros p Hs Hx; cbn [cstr length] in *; [rewrite Hx by lia; done|].
  destruct Hs as (H1 & H2 & H3). split_and!; [rewrite Hx by lia; done|lia|lia|]. apply IH; [done|]. intros x H. apply Hx. lia.
Qed.

(** Copying to memory that does not meet the string. *)
Lemma strcpy_spec m s p d fuel : cstr m p s -> (length s < fuel)%nat -> d + Z.of_nat (length s) < p \/ p + Z.of_nat (length s) < d ->
  exists m', strcpy fuel m d p = Some m' /\ cstr m' d s /\ forall x, x < d \/ d + Z.of_nat (length s) < x -> m' x = m x.
Proof.
  revert m p d fuel. induction s as [|c s IH]; intros m p d [|f] Hs Hf Hd; cbn [length] in *; [lia| |lia|]; cbn [cstr strcpy] in *; cbv zeta.
  - rewrite Hs. eexists. split; [reflexivity|]. split; [unfold store; by rewrite Z.eqb_refl|]. intros x Hx. unfold store. by rewrite (proj2 (Z.eqb_neq x d)) by lia.
  - destruct Hs as (-> & Hc & Hs). rewrite (proj2 (Z.eqb_neq c 0)) by lia.
    destruct (IH (store m d c) (p + 1) (d + 1) f) as (m' & E & Hm & Ho); [|lia|lia|].
    { apply (cstr_ext m); [done|]. intros x Hx. unfold store. by rewrite (proj2 (Z.eqb_neq x d)) by lia. }
    exists m'. split; [exact E|]. split; [split; [|done]|].
    + rewrite Ho by lia. unfold store. by rewrite Z.eqb_refl.
    + intros x Hx. rewrite Ho by lia. unfold store. by rewrite (proj2 (Z.eqb_neq x d)) by lia.
Qed.

Lemma strchr_spec m s p c fuel : cstr m p s -> 0 <= c < 256 -> (length s < fuel)%nat ->
  strchr fuel m p c = Some (match position (Z.eqb c) (s ++ [0]) with Some i => p + Z.of_nat i | None => 0 end).
Proof.
  revert p fuel. induction s as [|x s IH]; intros p [|f] Hs Hc Hf; cbn [length] in *; [lia| |lia|]; cbn [cstr strchr] in *.
  - rewrite Hs. cbn. destruct (Z.eqb_spec c 0); cbn; f_equal; lia.
  - destruct Hs as (-> & Hx & Hs). rewrite (proj2 (Z.eqb_neq x 0)) by lia. unfold wrap8. rewrite Z.mod_small by (unfold U8; lia).
    cbn [app position]. rewrite (Z.eqb_sym c x). destruct (x =? c); [f_equal; lia|]. rewrite IH by (done || lia).
    destruct (position (Z.eqb c) (s ++ [0])) as [i|]; cbn; [f_equal; lia|done].
Qed.

Lemma strncmp_spec m a b pa pb n : cstr m pa a -> cstr m pb b -> strncmp n m pa pb = compare_spec (take n a) (take n b).
Proof.
  revert a b pa pb. induction n as [|n IH]; intros a b pa pb Ha Hb; cbn [strncmp]; [by rewrite !take_0|].
  destruct a as [|x a], b as [|y b]; cbn [cstr] in *.
  - rewrite Ha, Hb. done.
  - rewrite Ha. destruct Hb as (-> & Hy & _). by rewrite (proj2 (Z.eqb_neq 0 y)) by lia.
  - rewrite Hb. destruct Ha as (-> & Hx & _). rewrite (proj2 (Z.eqb_neq x 0)) by lia. cbn. lia.
  - destruct Ha as (-> & Hx & Ha), Hb as (-> & Hy & Hb). rewrite !firstn_cons. cbn [compare_spec]. destruct (Z.eqb_spec x y) as [->|]; [|done].
    cbn [negb]. rewrite (proj2 (Z.eqb_neq y 0)) by lia. by apply IH.
Qed.

Lemma str_eq_spec m a b pa pb fuel : cstr m pa a -> cstr m pb b -> (length a < fuel)%nat -> str_eq fuel m pa pb = Some (bool_decide (a = b)).
Proof.
  revert b pa pb fuel. induction a as [|x a IH]; intros b pa pb [|f] Ha Hb Hf; cbn [length] in Hf; [lia| |lia|]; cbn [cstr str_eq] in *.
  - rewrite Ha. change (0 =? 0) with true. cbn [negb andb]. destruct b as [|y b]; cbn [cstr] in Hb; [by rewrite Hb|]. destruct Hb as (-> & Hy & _). by rewrite (proj2 (Z.eqb_neq 0 y)) by lia.
  - destruct Ha as (-> & Hx & Ha). rewrite (proj2 (Z.eqb_neq x 0)) by lia. destruct b as [|y b]; cbn [cstr] in *.
    + rewrite Hb, (proj2 (Z.eqb_neq x 0)) by lia. done.
    + destruct Hb as (-> & Hy & Hb). rewrite (proj2 (Z.eqb_neq y 0)) by lia. cbn [negb andb]. destruct (Z.eqb_spec x y) as [->|Hne].
      * rewrite IH with (b := b) by (done || lia). f_equal. apply bool_decide_ext. split; congruence.
      * by rewrite bool_decide_eq_false_2 by congruence.
Qed.

(** Storing a list of bytes one by one. *)
Lemma store_run (f : nat -> Mem -> Z -> Mem) (v : nat -> Z) m0 n d m :
  (forall k m d, f (S k) m d = f k (store m d (v (n - S k)%nat)) (d + 1)) -> (forall m d, f O m d = m) -> m = m0 ->
  forall x, f n m d x = if in_range x d (Z.of_nat n) then v (Z.to_nat (x - d)) else m0 x.
Proof.
  intros HS HO ->. assert (forall k m, (k <= n)%nat -> (forall x, m x = if in_range x d (Z.of_nat (n - k)) then v (Z.to_nat (x - d)) else m0 x) ->
    forall x, f k m (d + Z.of_nat (n - k)) x = if in_range x d (Z.of_nat n) then v (Z.to_nat (x - d)) else m0 x) as H.
  { induction k as [|k IH]; intros m Hk Hm x; [rewrite HO, Hm; by rewrite Nat.sub_0_r|]. rewrite HS.
    replace (d + Z.of_nat (n - S k) + 1) with (d + Z.of_nat (n - k)) by lia. apply IH; [lia|]. intros y. unfold store.
    destruct (Z.eqb_spec y (d + Z.of_nat (n - S k))) as [->|Hne].
    - rewrite (proj2 (in_range_spec _ _ _)) by lia. f_equal. lia.
    - rewrite Hm. destruct (in_range y d (Z.of_nat (n - S k))) eqn:E1, (in_range y d (Z.of_nat (n - k))) eqn:E2; try done;
        rewrite ?in_range_spec, ?in_range_false in *; lia. }
  intros x. pose proof (H n m0 (Nat.le_refl n)) as H'. rewrite Nat.sub_diag, Z.add_0_r in H'. apply H'. intros y.
  destruct (in_range y d (Z.of_nat 0)) eqn:E; [apply in_range_spec in E; lia|done].
Qed.

Lemma memset_spec n m d c x : memset n m d c x = if in_range x d (Z.of_nat n) then wrap8 c else m x.
Proof. apply (store_run (fun n m d => memset n m d c) (fun _ => wrap8 c)); done. Qed.

Lemma memcpy_spec n m d s x : d + Z.of_nat n <= s \/ s + Z.of_nat n <= d ->
  memcpy n m d s x = if in_range x d (Z.of_nat n) then m (s + (x - d)) else m x.
Proof.
  revert m d s. induction n as [|n IH]; intros m d s Hd; cbn [memcpy].
  { destruct (in_range x d (Z.of_nat 0)) eqn:E; [apply in_range_spec in E; lia|done]. }
  rewrite IH by lia. unfold store. destruct (in_range x (d + 1) (Z.of_nat n)) eqn:E1, (in_range x d (Z.of_nat (S n))) eqn:E2;
    rewrite ?in_range_spec, ?in_range_false in *; try lia.
  - replace (s + 1 + (x - (d + 1))) with (s + (x - d)) by lia. by rewrite (proj2 (Z.eqb_neq _ d)) by lia.
  - replace x with d by lia. rewrite Z.eqb_refl. f_equal. lia.
  - by rewrite (proj2 (Z.eqb_neq x d)) by lia.
Qed.

(** C21: The string functions of the C library on terminated strings: they end
    at the terminator (so fuel for the length of the string is enough),
    [strlen], [strcmp], [strncmp], [str_eq] and [strchr] give the length, the
    lexicographic difference, equality and the first occurrence, and
    [strcpy], [memcpy] and [memset] write exactly their range when the ranges
    do not overlap. *)
Theorem string_functions_exact m a b pa pb d c n fuel :
  cstr m pa a -> cstr m pb b -> 0 <= c < 256 -> (length a < fuel)%nat ->
  d + Z.max (Z.of_nat n) (Z.of_nat (length a) + 1) <= pa \/ pa + Z.max (Z.of_nat n) (Z.of_nat (length a) + 1) <= d ->
  strlen fuel m pa = Some (Z.of_nat (length a)) /\
  strcmp fuel m pa pb = Some (compare_spec a b) /\ (compare_spec a b = 0 <-> a = b) /\
  strncmp n m pa pb = compare_spec (take n a) (take n b) /\
  str_eq fuel m pa pb = Some (bool_decide (a = b)) /\
  strchr fuel m pa c = Some (match position (Z.eqb c) (a ++ [0]) with Some i => pa + Z.of_nat i | None => 0 end) /\
  (exists m', strcpy fuel m d pa = Some m' /\ cstr m' d a /\ forall x, x < d \/ d + Z.of_nat (length a) < x -> m' x = m x) /\
  (forall x, memcpy n m d pa x = if in_range x d (Z.of_nat n) then m (pa + (x - d)) else m x) /\
  (forall x, memset n m d c x = if in_range x d (Z.of_nat n) then c else m x).
Proof.
  intros Ha Hb Hc Hf Hd. split_and!.
  - unfold strlen. rewrite (strlen_spec m a pa 0) by (done || by rewrite Z.add_0_r). done.
  - by apply strcmp_spec.
  - by apply (compare_spec_zero m a b pa pb).
  - by apply strncmp_spec.
  - by apply str_eq_spec.
  - by apply strchr_spec.
  - apply strcpy_spec; [done|done|lia].
  - intros x. apply memcpy_spec. lia.
  - intros x. rewrite memset_spec. unfold wrap8. by rewrite Z.mod_small by (unfold U8; lia).
Qed.

Lemma string_functions_exact_witness :
  let m := store_bytes (fun _ => 0) 0x1000 [104; 105; 0; 104; 111; 0] in strcmp 5 m 0x1000 0x1003 = Some (-6).
Proof.
  intros m. destruct (string_functions_exact m [104; 105] [104; 111] 0x1000 0x1003 0x2000 105 2 5) as (_ & H & _);
    [vm_compute; repeat split; congruence|vm_compute; repeat split; congruence|lia|cbn; lia|cbn; lia|]. exact H.
Defined.
