(* ===== verification/Invariant.v ===== *)
(** * The invariant of the system calls

    What every system call keeps: the tables are well formed, the signal sets
    have their size and never mask [SIGKILL], the pipes are bounded queues,
    and, where a memory [m0] is given, memory outside the user half is that
    of [m0].  The lemmas here are for
    the operations on the tables, for user memory and for waiting; a called
    operation's lemma is a hint. *)

From S2P Require Import Prelude Mem Update Result Logic Pmm Paging RamFs Ring Tty Types Vga State Task Proc Fd.
From S2P Require Import Pipes UserCopy Signal Futex.

(** ** Good entries *)

Definition opt {A} (Q : A -> Prop) (o : option A) : Prop := match o with Some a => Q a | None => True end.

Definition set_len (s : SigSet) : Prop := length (sig_bits s) = 16%nat.

(** [SIGKILL] is bit 8 of the first word. *)
Definition no_kill (s : SigSet) : Prop := forall w, zget (sig_bits s) 0 = Some w -> Z.testbit w 8 = false.

Record thread_ok (t : Thread) : Prop := {
  to_pending : set_len (th_sig_pending t);
  to_mask : set_len (th_sig_mask t) /\ no_kill (th_sig_mask t);
  to_saved : set_len (th_saved_sig_mask t) /\ no_kill (th_saved_sig_mask t);
  to_clear : 0 <= th_clear_child_tid t;
}.

Record process_ok (p : Process) : Prop := {
  po_pending : set_len (p_sig_pending p);
  po_handlers : Forall (fun a => set_len (sa_mask a)) (p_sig_handlers p);
}.

Definition good_thread (s : Z) (t : Thread) : Prop := 0 <= s < 8 /\ thread_wf s t /\ thread_ok t.
Definition good_process (s : Z) (p : Process) : Prop := 0 <= s < 8 /\ process_wf p /\ process_ok p.

(** [Some m0]: user memory is [m0] outside the user half; [None]: no claim. *)
Definition memory_ok (m0 : option Mem) (k : Kernel) : Prop :=
  match m0 with Some m0 => confined m0 k | None => True end.

Record sys_inv (m0 : option Mem) (k : Kernel) : Prop := {
  si_wf : kernel_wf k;
  si_thread : forall s t, zget (k_threads k) s = Some (Some t) -> thread_ok t;
  si_process : forall s p, zget (k_processes k) s = Some (Some p) -> process_ok p;
  si_pipes : forall i p, zget (k_pipes k) i = Some p -> pipe_ok p;
  si_memory : memory_ok m0 k;
}.

(** ** Field updates *)

Ltac inv_update :=
  intros [[] ? ? ? ?]; constructor; [constructor; cbn in *; rewrite ?length_zset in *; try done..|done|done|done|done].

Section Updates.
Context (m0 : option Mem) (k : Kernel).

Lemma inv_mach v : sys_inv m0 k -> sys_inv m0 (k <| k_mach := v |>). Proof. inv_update. Qed.
Lemma inv_fs v : sys_inv m0 k -> sys_inv m0 (k <| k_fs := v |>). Proof. inv_update. Qed.
Lemma inv_tty v : sys_inv m0 k -> sys_inv m0 (k <| k_tty := v |>). Proof. inv_update. Qed.
Lemma inv_out v : sys_inv m0 k -> sys_inv m0 (k <| k_out := v |>). Proof. inv_update. Qed.
Lemma inv_vga v : sys_inv m0 k -> sys_inv m0 (k <| k_vga := v |>). Proof. inv_update. Qed.
Lemma inv_next_id v : sys_inv m0 k -> sys_inv m0 (k <| k_next_id := v |>). Proof. inv_update. Qed.
Lemma inv_in_syscall v : sys_inv m0 k -> sys_inv m0 (k <| k_in_syscall := v |>). Proof. inv_update. Qed.
Lemma inv_next_pid v : sys_inv m0 k -> sys_inv m0 (k <| k_next_pid := v |>). Proof. inv_update. Qed.
Lemma inv_ticks v : sys_inv m0 k -> sys_inv m0 (k <| k_ticks := v |>). Proof. inv_update. Qed.
Lemma inv_rng v : sys_inv m0 k -> sys_inv m0 (k <| k_rng := v |>). Proof. inv_update. Qed.
Lemma inv_pci v : sys_inv m0 k -> sys_inv m0 (k <| k_pci := v |>). Proof. inv_update. Qed.
Lemma inv_bench v : sys_inv m0 k -> sys_inv m0 (k <| k_bench := v |>). Proof. inv_update. Qed.
Lemma inv_rsp0 v : sys_inv m0 k -> sys_inv m0 (k <| k_rsp0 := v |>). Proof. inv_update. Qed.
Lemma inv_current v : 0 <= v < 8 -> sys_inv m0 k -> sys_inv m0 (k <| k_current := v |>).
Proof. intros H. inv_update. Qed.
Lemma inv_tasks v : length v = 8%nat -> sys_inv m0 k -> sys_inv m0 (k <| k_tasks := v |>).
Proof. intros H. inv_update. Qed.
Lemma inv_open_files v : length v = 32%nat -> sys_inv m0 k -> sys_inv m0 (k <| k_open_files := v |>).
Proof. intros H. inv_update. Qed.
Lemma inv_futex v : length v = 16%nat -> sys_inv m0 k -> sys_inv m0 (k <| k_futex := v |>).
Proof. intros H. inv_update. Qed.

Lemma inv_write_bytes bs : sys_inv m0 k -> sys_inv m0 (write_bytes bs k).
Proof. unfold write_bytes. inv_update. Qed.

Lemma inv_umem m p n : sys_inv m0 k -> 0 <= p -> p + n <= USER_TOP ->
  (forall a, a < p \/ p + n <= a -> m a = k_umem k a) -> sys_inv m0 (k <| k_umem := m |>).
Proof.
  intros Hk Hp Hn Hm. assert (memory_ok m0 (k <| k_umem := m |>)) as Ho.
  { pose proof (si_memory _ _ Hk) as Hc. destruct m0 as [m1|]; [|done]. exact (confined_write m1 k p n m Hc Hp Hn Hm). }
  destruct Hk as [[] ? ? ? ?]. constructor; [by constructor|done..].
Qed.

Lemma inv_store p bs : sys_inv m0 k -> 0 <= p -> p + Z.of_nat (length bs) <= USER_TOP ->
  sys_inv m0 (k <| k_umem := store_bytes (k_umem k) p bs |>).
Proof. intros Hk Hp Hb. apply (inv_umem _ p (Z.of_nat (length bs))); try done. apply store_bytes_outside. Qed.

Lemma inv_pipes i p : sys_inv m0 k -> pipe_ok p -> 0 <= i -> sys_inv m0 (k <| k_pipes := zset (k_pipes k) i p |>).
Proof.
  intros [[] Ht Hp Hq Hm] Hok Hi. constructor; [constructor; cbn in *; rewrite ?length_zset; done|done|done| |done].
  cbn. intros j q Hj. destruct (decide (j = i)) as [->|Hne].
  - pose proof (zget_Some _ _ _ Hj) as Hb. rewrite length_zset in Hb. rewrite zget_zset_eq in Hj by done. by simplify_eq.
  - rewrite zget_zset_ne in Hj by auto. by eapply Hq.
Qed.

Lemma inv_set_thread s t : sys_inv m0 k -> good_thread s t ->
  sys_inv m0 (k <| k_threads := zset (k_threads k) s (Some t) |>).
Proof.
  intros [Hwf Ht Hp Hq Hm] (Hs & Hw & Hok). constructor; try done; [apply wf_set_thread; done || lia|].
  cbn. intros s' t' Hs'. destruct (decide (s' = s)) as [->|Hne].
  - rewrite zget_zset_eq in Hs' by (rewrite (wf_threads _ Hwf); lia). by simplify_eq.
  - rewrite zget_zset_ne in Hs' by (auto; lia). by eapply Ht.
Qed.

Lemma inv_drop_thread s : sys_inv m0 k -> 0 <= s < 8 -> sys_inv m0 (k <| k_threads := zset (k_threads k) s None |>).
Proof.
  intros [Hwf Ht Hp Hq Hm] Hs. constructor; try done; [by apply wf_drop_thread|].
  cbn. intros s' t' Hs'. destruct (decide (s' = s)) as [->|Hne].
  - rewrite zget_zset_eq in Hs' by (rewrite (wf_threads _ Hwf); lia). done.
  - rewrite zget_zset_ne in Hs' by (auto; lia). by eapply Ht.
Qed.

Lemma inv_set_process s p : sys_inv m0 k -> good_process s p ->
  sys_inv m0 (k <| k_processes := zset (k_processes k) s (Some p) |>).
Proof.
  intros [Hwf Ht Hp Hq Hm] (Hs & Hw & Hok). constructor; try done; [by apply wf_set_process|].
  cbn. intros s' t' Hs'. destruct (decide (s' = s)) as [->|Hne].
  - rewrite zget_zset_eq in Hs' by (rewrite (wf_processes _ Hwf); lia). by simplify_eq.
  - rewrite zget_zset_ne in Hs' by (auto; lia). by eapply Hp.
Qed.

Lemma inv_drop_process s : sys_inv m0 k -> 0 <= s < 8 -> sys_inv m0 (k <| k_processes := zset (k_processes k) s None |>).
Proof.
  intros [Hwf Ht Hp Hq Hm] Hs. pose proof Hwf as [].
  assert (forall s' t', zget (zset (k_processes k) s None) s' = Some (Some t') -> zget (k_processes k) s' = Some (Some t')) as Hget.
  { intros s' t' Hs'. destruct (decide (s' = s)) as [->|Hne]; [rewrite zget_zset_eq in Hs' by (rewrite wf_processes; lia); done|].
    rewrite zget_zset_ne in Hs' by (auto; lia). done. }
  constructor; try done; [constructor; cbn; rewrite ?length_zset; try done; eauto|cbn; eauto].
Qed.
End Updates.

#[export] Hint Resolve inv_mach inv_fs inv_tty inv_out inv_vga inv_next_id inv_in_syscall inv_next_pid inv_ticks inv_rng inv_pci inv_bench
  inv_write_bytes : safe.

(** ** Table operations *)

Section Tables.
Context (P : Prop) (m0 : option Mem).
#[local] Abbreviation safe := (safe P (sys_inv m0)).

Lemma safe_process_at s : 0 <= s < 8 -> safe (process_at s) (opt (good_process s)).
Proof.
  intros Hs k Hk. destruct (wf_slot_process k s (si_wf _ _ Hk) Hs) as [p Hp]. rewrite (process_at_run _ _ _ Hp).
  split; [done|]. destruct p as [p|]; [|done]. split_and!; [lia|lia|by eapply (wf_process _ (si_wf _ _ Hk))|by eapply (si_process _ _ Hk)].
Qed.

Lemma safe_thread_at s : 0 <= s < 8 -> safe (thread_at s) (opt (good_thread s)).
Proof.
  intros Hs k Hk. destruct (wf_slot_thread k s (si_wf _ _ Hk) Hs) as [p Hp]. rewrite (thread_at_run _ _ _ Hp).
  split; [done|]. destruct p as [p|]; [|done]. split_and!; [lia|lia|by eapply (wf_thread _ (si_wf _ _ Hk))|by eapply (si_thread _ _ Hk)].
Qed.

Lemma safe_set_process s p : good_process s p -> safe (set_process s (Some p)) (fun _ => True).
Proof.
  intros Hp k Hk. destruct (wf_slot_process k s (si_wf _ _ Hk)) as [q Hq]; [by destruct Hp|].
  rewrite (set_process_run _ _ _ _ Hq). split; [by apply inv_set_process|done].
Qed.

Lemma safe_set_thread s t : good_thread s t -> safe (set_thread s (Some t)) (fun _ => True).
Proof.
  intros Hp k Hk. destruct (wf_slot_thread k s (si_wf _ _ Hk)) as [q Hq]; [by destruct Hp|].
  rewrite (set_thread_run _ _ _ _ Hq). split; [by apply inv_set_thread|done].
Qed.

Lemma safe_clear_process s : 0 <= s < 8 -> safe (set_process s None) (fun _ => True).
Proof.
  intros Hs k Hk. destruct (wf_slot_process k s (si_wf _ _ Hk)) as [q Hq]; [lia|].
  rewrite (set_process_run _ _ _ _ Hq). split; [by apply inv_drop_process|done].
Qed.

Lemma safe_clear_thread s : 0 <= s < 8 -> safe (set_thread s None) (fun _ => True).
Proof.
  intros Hs k Hk. destruct (wf_slot_thread k s (si_wf _ _ Hk)) as [q Hq]; [lia|].
  rewrite (set_thread_run _ _ _ _ Hq). split; [by apply inv_drop_thread|done].
Qed.

Lemma safe_set_task s t : 0 <= s < 8 -> safe (set_task s t) (fun _ => True).
Proof.
  intros Hs k Hk. destruct (wf_slot_task k s (si_wf _ _ Hk)) as [q Hq]; [lia|].
  rewrite (set_task_run _ _ _ _ Hq). split; [|done]. apply inv_tasks; [|done]. rewrite length_zset. apply (wf_tasks _ (si_wf _ _ Hk)).
Qed.

Lemma safe_current_task_slot : safe current_task_slot (fun s => 0 <= s < 8).
Proof. intros k Hk. split; [done|]. apply (wf_current _ (si_wf _ _ Hk)). Qed.

Lemma safe_current_thread_mut : safe current_thread_mut (opt (fun st => good_thread (fst st) (snd st))).
Proof.
  unfold current_thread_mut. eapply safe_bind; [apply safe_current_task_slot|]. intros s Hs. cbn beta in Hs.
  eapply safe_bind; [by apply safe_thread_at|]. intros [t|] Ht; apply safe_ret; [exact Ht|done].
Qed.

Lemma safe_current_thread : safe current_thread (opt (fun t => exists s, good_thread s t)).
Proof.
  unfold current_thread. eapply safe_bind; [apply safe_current_thread_mut|].
  intros [[s t]|] Ht; apply safe_ret; [by exists s|done].
Qed.

Lemma safe_current_process_mut : safe current_process_mut (opt (fun sp => good_process (fst sp) (snd sp))).
Proof.
  unfold current_process_mut. eapply safe_bind; [apply safe_current_thread|]. intros [t|] Ht; [|by apply safe_ret].
  destruct Ht as (s & _ & [Hg _] & _). eapply safe_bind; [by apply safe_process_at|].
  intros [p|] Hp; apply safe_ret; [exact Hp|done].
Qed.

Lemma safe_current_process : safe current_process (opt (fun p => exists s, good_process s p)).
Proof.
  unfold current_process. eapply safe_bind; [apply safe_current_process_mut|].
  intros [[s t]|] Ht; apply safe_ret; [by exists s|done].
Qed.

Lemma safe_kill_task s : 0 <= s < 8 -> safe (kill_task s) (fun _ => True).
Proof.
  intros Hs k Hk. destruct (wf_slot_task k s (si_wf _ _ Hk)) as [q Hq]; [lia|]. unfold kill_task.
  rewrite getM_bind, Hq. cbn. destruct q as [t|]; [|done]. by apply safe_set_task.
Qed.

Lemma safe_on_mach {A} (m : M Machine A) : (P \/ forall s, m s <> OPanic) -> safe (on_mach m) (fun _ => True).
Proof. intros H. apply safe_zoom; [|done]. intros s t. apply inv_mach. Qed.

Lemma safe_on_fs {A} (m : M FS A) : (P \/ forall s, m s <> OPanic) -> safe (on_fs m) (fun _ => True).
Proof. intros H. apply safe_zoom; [|done]. intros s t. apply inv_fs. Qed.

Lemma safe_poke a v : safe (poke64 a v) (fun _ => True).
Proof. apply safe_on_mach. right. done. Qed.

Lemma safe_current_pml4 : safe current_pml4 (fun _ => True).
Proof.
  intros k Hk. unfold current_pml4. rewrite getM_bind.
  destruct (wf_slot_task k _ (si_wf _ _ Hk) (wf_current _ (si_wf _ _ Hk))) as [q Hq]. rewrite Hq. done.
Qed.

(** ** User memory *)

Lemma safe_copy_from_user src len : safe (copy_from_user src len) (fun _ => True).
Proof. intros k Hk. unfold copy_from_user. by case_goal. Qed.

Lemma safe_copy_to_user dst bs : 0 <= dst -> safe (copy_to_user dst bs) (fun _ => True).
Proof.
  intros Hd k Hk. unfold copy_to_user. destruct (user_range_ok dst _) eqn:E; cbn [negb]; [|done].
  cbn. split; [|done]. apply user_range_ok_bound in E as [_ E]. by apply inv_store.
Qed.

Lemma safe_copy_struct_from_user T `{UserStruct T} p :
  safe (copy_struct_from_user T p) (opt (fun x => exists bs, x = of_bytes bs)).
Proof.
  intros k Hk. rewrite copy_struct_from_user_eq. split; [done|]. case_goal; [|done]. cbn. eauto.
Qed.

Lemma safe_copy_struct_to_user T `{UserStruct T} p (x : T) : 0 <= p -> safe (copy_struct_to_user p x) (fun _ => True).
Proof. intros Hp. unfold copy_struct_to_user. case_goal; [by apply safe_ret|by apply safe_copy_to_user]. Qed.

Lemma safe_cstr n p i raw : safe (cstr_loop n p i raw) (fun _ => True).
Proof. intros k Hk. by destruct (cstr_loop_total n k p i raw) as [r ->]. Qed.

Lemma safe_copy_cstr_from_user p : safe (copy_cstr_from_user p) (fun _ => True).
Proof. unfold copy_cstr_from_user. case_goal; [by apply safe_ret|apply safe_cstr]. Qed.

Lemma safe_copy_path_cstr_from_user p : safe (copy_path_cstr_from_user p) (fun _ => True).
Proof. unfold copy_path_cstr_from_user. eapply safe_bind; [apply safe_copy_cstr_from_user|]. intros. by apply safe_ret. Qed.

Lemma safe_copy_path_from_user p n : safe (copy_path_from_user p n) (fun _ => True).
Proof.
  unfold copy_path_from_user. case_goal; [by apply safe_ret|]. eapply safe_bind; [apply safe_copy_from_user|].
  intros. by apply safe_ret.
Qed.
End Tables.

#[export] Hint Resolve safe_current_task_slot safe_current_thread_mut safe_current_thread safe_current_process_mut
  safe_current_process safe_poke safe_current_pml4 safe_copy_from_user safe_copy_to_user safe_copy_struct_from_user
  safe_copy_struct_to_user safe_copy_cstr_from_user safe_copy_path_cstr_from_user safe_copy_path_from_user
  safe_set_task safe_kill_task safe_clear_thread safe_clear_process : safe.

(** Facts about values read from the tables. *)
Ltac facts :=
  repeat match goal with
  | H : opt _ (Some _) |- _ => cbn in H
  | H : opt _ None |- _ => clear H
  | H : opt _ ?o, E : ?o = Some _ |- _ => rewrite E in H; cbn in H
  | H : exists _, _ |- _ => destruct H
  | H : _ /\ _ |- _ => destruct H
  | H : (_, _) = (_, _) |- _ => injection H as ? ?; subst
  | H : Some _ = Some _ |- _ => injection H as ?; subst
  | H : good_process _ _ |- _ => destruct H as (? & ? & ?)
  | H : good_thread _ _ |- _ => destruct H as (? & ? & ?)
  | H : thread_ok _ |- _ => destruct H as [? ? ? ?]
  | H : process_ok _ |- _ => destruct H as [? ?]
  | H : process_wf _ |- _ => destruct H as (? & ? & ? & ?)
  | H : thread_wf _ _ |- _ => destruct H as (? & ?)
  end.

(** An entry with some fields changed is still good. *)
Ltac good :=
  cbn [fst snd] in *; facts;
  lazymatch goal with
  | |- good_process _ _ => split; [lia|split; [unfold process_wf; cbn; rewrite ?length_zset; split_and!; first [done|lia]|constructor; cbn; auto; lia]]
  | |- good_thread _ _ => split; [lia|split; [unfold thread_wf; cbn; split_and!; first [done|lia]|constructor; cbn; auto; lia]]
  | |- 0 <= _ < 8 => cbn; lia
  | |- 0 <= wrap64 _ => apply wrap64_range
  | |- 0 <= _ => cbn; lia
  end.

#[export] Hint Extern 1 (good_process _ _) => solve [good] : safe.
#[export] Hint Extern 1 (good_thread _ _) => solve [good] : safe.
#[export] Hint Extern 2 (0 <= _ < 8) => solve [good] : safe.
#[export] Hint Extern 2 (0 <= _) => solve [good] : safe.
#[export] Hint Resolve safe_process_at safe_thread_at safe_set_process safe_set_thread : safe.

(** ** Signal sets *)

Lemma sig_bit_small sig : 1 <= sig <= 64 -> sig_bit sig = (0, Z.shiftl 1 (sig - 1)).
Proof.
  intros H. unfold sig_bit. rewrite wrap64_small by (unfold U64; lia). rewrite Z.div_small, Z.mod_small by lia. done.
Qed.

Section Sets.
Context (P : Prop) (m0 : option Mem).
#[local] Abbreviation safe := (safe P (sys_inv m0)).

Lemma set_len_0 s : set_len s -> exists w, zget (sig_bits s) 0 = Some w.
Proof. intros H. apply zget_is_Some. rewrite H. lia. Qed.

Lemma safe_sigset_contains s sig : set_len s -> 1 <= sig <= 64 -> safe (sigset_contains s sig) (fun _ => True).
Proof.
  intros Hs Hsig. unfold sigset_contains. rewrite sig_bit_small by done.
  eapply safe_bind; [apply safe_unwrap; by apply set_len_0|]. intros. by apply safe_ret.
Qed.

Lemma safe_sigset_add s sig : set_len s -> 1 <= sig <= 64 -> safe (sigset_add s sig) set_len.
Proof.
  intros Hs Hsig. unfold sigset_add. rewrite sig_bit_small by done.
  eapply safe_bind; [apply safe_unwrap; by apply set_len_0|]. intros. apply safe_ret. unfold set_len. cbn. by rewrite length_zset.
Qed.

Lemma safe_sigset_remove s sig : set_len s -> 1 <= sig <= 64 -> safe (sigset_remove s sig) set_len.
Proof.
  intros Hs Hsig. unfold sigset_remove. rewrite sig_bit_small by done.
  eapply safe_bind; [apply safe_unwrap; by apply set_len_0|]. intros. apply safe_ret. unfold set_len. cbn. by rewrite length_zset.
Qed.

Lemma safe_sanitize s : set_len s -> safe (sanitize_sigmask s) (fun s => set_len s /\ no_kill s).
Proof.
  intros Hs. unfold sanitize_sigmask, sigset_remove. rewrite sig_bit_small by (unfold SIGKILL; lia).
  eapply safe_bind; [apply safe_unwrap; by apply set_len_0|]. intros w Hw. cbn beta in Hw. apply safe_ret.
  split; [unfold set_len; cbn; by rewrite length_zset|]. intros w' Hw'. cbn [sig_bits] in Hw'.
  rewrite zget_zset_eq in Hw' by (rewrite Hs; lia). injection Hw' as <-.
  rewrite Z.land_spec. unfold SIGKILL. rewrite not64_testbit by lia. apply andb_false_r.
Qed.

Lemma set_len_or a b : set_len a -> set_len b -> set_len (sigset_or a b).
Proof. unfold set_len, sigset_or. cbn. intros Ha Hb. by rewrite length_zip_with, Ha, Hb. Qed.

Lemma set_len_andnot a b : set_len a -> set_len b -> set_len (sigset_andnot a b).
Proof. unfold set_len, sigset_andnot. cbn. intros Ha Hb. by rewrite length_zip_with, Ha, Hb. Qed.

Lemma length_unwords n bs : length (unwords n bs) = n.
Proof. revert bs. induction n as [|n IH]; intros bs; cbn; [done|]. by rewrite IH. Qed.

Lemma set_len_of bs : set_len (SigSet_of bs).
Proof. apply length_unwords. Qed.

Lemma set_len_action bs : set_len (sa_mask (SigAction_of bs)).
Proof. unfold SigAction_of. repeat (case_goal; try done). Qed.

Lemma handler_len p sig a : process_ok p -> zget (p_sig_handlers p) sig = Some a -> set_len (sa_mask a).
Proof. intros [_ H] Ha. apply zget_elem in Ha. by apply (proj1 (list.Forall_forall _ _) H). Qed.
End Sets.

#[export] Hint Resolve safe_sigset_contains safe_sigset_add safe_sigset_remove safe_sanitize set_len_or set_len_andnot
  set_len_of set_len_action : safe.

Section Signals.
Context (P : Prop) (m0 : option Mem).
#[local] Abbreviation safe := (safe P (sys_inv m0)).

Lemma safe_queue_signal s sig : 0 <= s < 8 -> 1 <= sig <= 64 -> safe (queue_signal s sig) (fun _ => True).
Proof.
  intros Hs Hsig. unfold queue_signal. safe_step. safe_step; [|by apply safe_ret]. facts.
  eapply safe_bind; [by apply safe_sigset_add|]. intros set Hset. safe_go. done.
Qed.

Lemma safe_queue_thread_signal s sig : 0 <= s < 8 -> 1 <= sig <= 64 -> safe (queue_thread_signal s sig) (fun _ => True).
Proof.
  intros Hs Hsig. unfold queue_thread_signal. safe_step. safe_step; [|by apply safe_ret]. facts.
  eapply safe_bind; [by apply safe_sigset_add|]. intros set Hset. safe_go. done.
Qed.

Lemma safe_terminate_thread g s : 0 <= s < 8 -> safe (terminate_thread g s) (fun _ => True).
Proof. intros Hs. unfold terminate_thread. safe_go; done. Qed.

Lemma find_slot_range k pid s : sys_inv m0 k -> find_slot_by_pid pid k = Some s -> 0 <= s < 8.
Proof. intros Hk (x & _ & _ & H)%zposition_Some. rewrite (wf_processes _ (si_wf _ _ Hk)) in H. lia. Qed.

Lemma find_thread_slot_range k tid s : sys_inv m0 k -> find_thread_slot_by_tid tid k = Some s -> 0 <= s < 8.
Proof. intros Hk (x & _ & _ & H)%zposition_Some. rewrite (wf_threads _ (si_wf _ _ Hk)) in H. lia. Qed.

Lemma safe_notify_parent_exit pid : safe (notify_parent_exit pid) (fun _ => True).
Proof.
  unfold notify_parent_exit. safe_step; [by apply safe_ret|]. safe_step. safe_step; [|by apply safe_ret].
  eapply safe_bind; [apply safe_queue_signal; [by eapply find_slot_range|unfold SIGCHLD; lia]|]. intros. by apply safe_ret.
Qed.

Lemma safe_terminate_process_group g sig : 0 <= g < 8 -> safe (terminate_process_group g sig) (fun _ => True).
Proof.
  intros Hg. unfold terminate_process_group. safe_step. apply (safe_bind _ _ _ _ (fun _ => True)).
  { safe_go. done. }
  intros _ _. apply (safe_bind _ _ _ _ (fun _ => True)); [|intros; apply safe_notify_parent_exit].
  apply safe_forM. intros s Hs%elem_of_seqZ. by apply safe_terminate_thread.
Qed.

Lemma safe_choose_signal sigs t p : thread_ok t -> process_ok p -> Forall (fun s => 1 <= s <= 64) sigs ->
  safe (choose_signal sigs t p) (opt (fun c => 1 <= fst c <= 64)).
Proof.
  intros Ht Hp. pose proof Ht as [? [? _] _ _]. pose proof Hp as [? _]. induction 1 as [|s sigs Hs _ IH]; cbn [choose_signal].
  { by apply safe_ret. }
  safe_step. safe_step. safe_step; [by apply safe_ret|]. safe_step. safe_step; [by apply safe_ret|done].
Qed.

Lemma safe_current_frame f : safe (current_frame f) (fun _ => True).
Proof. unfold current_frame. safe_go. done. Qed.

Lemma safe_get_frame f : safe (get_frame f) (fun _ => True).
Proof. unfold get_frame. safe_go. done. Qed.

Lemma safe_put_frame p f : safe (put_frame p f) (fun _ => True).
Proof. apply safe_on_mach. right. done. Qed.
End Signals.

#[export] Hint Resolve safe_queue_signal safe_queue_thread_signal safe_notify_parent_exit safe_terminate_process_group
  safe_current_frame safe_get_frame safe_put_frame : safe.

(** ** Delivery *)

Section Delivery.
Context (P : Prop) (m0 : option Mem).
#[local] Abbreviation safe := (safe P (sys_inv m0)).

(** The stack of the handler and the thread that enters it. *)
Lemma safe_signal_stack tslot thread action f : good_thread tslot thread ->
  safe (if has_bits (sa_flags action) SA_ONSTACK && negb (has_bits (ss_flags (th_sig_altstack thread)) SS_DISABLE) then
          let* user_rsp := option_ok (checked_add64 (ss_sp (th_sig_altstack thread)) (ss_size (th_sig_altstack thread))) Range in
          let thread := thread <| th_on_altstack := true |> in
          set_thread tslot (Some thread) ;;;
          retM (user_rsp, thread)
        else
          let thread := thread <| th_on_altstack := false |> in
          set_thread tslot (Some thread) ;;;
          retM (f_r10 f, thread))
       (fun r => good_thread tslot (snd r)).
Proof. intros Ht. safe_go; good. Qed.

Lemma safe_enter_handler fp tslot thread sig action :
  good_thread tslot thread -> 1 <= sig <= 64 -> set_len (sa_mask action) ->
  safe (enter_handler fp tslot thread sig action) (fun _ => True).
Proof.
  intros Ht Hsig Ha. unfold enter_handler. do 3 safe_step.
  eapply safe_bind; [by apply safe_signal_stack|]. intros [user_rsp t] Ht'. cbn [snd] in Ht'.
  eapply safe_bind; [apply safe_option_ok|]. intros sp Hsp. cbn beta in Hsp.
  assert (0 <= sp) as Hsp0. { unfold checked_sub64 in Hsp. case_match; [|done]. simplify_eq. breflect. lia. }
  facts. do 7 safe_step.
  eapply safe_bind; [apply safe_sanitize; apply set_len_or; done|]. intros mask [Hm1 Hm2]. safe_go; done.
Qed.

Lemma safe_deliver fp : safe (deliver_pending_signal fp) (fun _ => True).
Proof.
  unfold deliver_pending_signal. do 2 safe_step. destruct a0 as [pslot p]. do 2 safe_step. destruct a1 as [tslot t].
  subst. cbn in *. safe_step; [by apply safe_ret|].
  eapply safe_bind; [apply safe_choose_signal; [by destruct H1 as (_ & _ & ?)|by destruct H as (_ & _ & ?)|]|].
  { apply list.Forall_forall. intros s Hs%elem_of_seqZ. lia. }
  intros [[sig td]|] Hsig; [|by apply safe_ret]. cbn in Hsig.
  apply (safe_bind _ _ _ _ (good_thread tslot)).
  { destruct H as (? & ? & [? ?]), H1 as (? & ? & [? ? ? ?]). destruct td.
    - eapply safe_bind; [by apply safe_sigset_remove|]. intros set Hset. cbn beta in Hset. safe_go. good.
    - eapply safe_bind; [by apply safe_sigset_remove|]. intros set Hset. cbn beta in Hset. safe_go. good. }
  intros t' Ht'. assert (exists a, zget (p_sig_handlers p) sig = Some a) as Ha.
  { apply zget_is_Some. destruct H as (_ & (_ & _ & _ & ->) & _). lia. }
  eapply safe_bind; [by apply safe_unwrap|]. intros action Haction. cbn beta in Haction.
  safe_step.
  - safe_step; [by apply safe_ret|]. destruct Ht' as (_ & [? _] & _). safe_go; done.
  - apply safe_enter_handler; [done|lia|]. eapply handler_len; [|done]. by destruct H as (_ & _ & ?).
Qed.

Lemma safe_ignore {A} (m : M Kernel A) Q : safe m Q -> safe (ignoreM m) (fun _ => True).
Proof. intros H k Hk. unfold ignoreM. specialize (H k Hk). destruct (m k); [by destruct H|done..]. Qed.

Lemma safe_finish_syscall num fp r : safe (finish_syscall num fp r) (fun _ => True).
Proof.
  unfold finish_syscall, frame_rax. apply (safe_bind _ _ _ _ (fun _ => True)); [safe_go; done|]. intros _ _.
  safe_step; [safe_go; done|]. apply (safe_bind _ _ _ _ (fun _ => True)); [eapply safe_ignore, safe_deliver|].
  intros _ _. safe_go; done.
Qed.
End Delivery.
