(* ===== verification/SigReturn.v ===== *)
(** * Delivering a signal and returning from its handler

    [deliver_pending_signal] saves the registers of the program on its stack
    and enters the handler; [rt_sigreturn] restores them.  Between the two
    the handler runs: all that is asked of it is that it leaves the saved
    registers alone. *)

From S2P Require Import Prelude Mem Update Result Logic Pmm Paging Types State Task Proc Fd UserCopy Signal Pipes.
From S2P Require Import Futex Invariant.

(** ** Inverting a run *)

Section Inversion.
Context {S : Type}.

Lemma bind_inv {A B} (m : M S A) (f : A -> M S B) s b s' :
  bindM m f s = OOk b s' -> exists a s1, m s = OOk a s1 /\ f a s1 = OOk b s'.
Proof. unfold bindM. destruct (m s) as [a s1| |]; [|done..]. eauto. Qed.

Lemma ret_inv {A} (a b : A) (s s' : S) : retM a s = OOk b s' -> b = a /\ s' = s.
Proof. by intros [= -> ->]. Qed.

Lemma ensure_inv c e (s s' : S) u : ensure c e s = OOk u s' -> c = true /\ s' = s.
Proof. unfold ensure. destruct c; [|done]. by intros [= _ ->]. Qed.

Lemma option_ok_inv {A} (o : option A) e (s s' : S) a : option_ok o e s = OOk a s' -> o = Some a /\ s' = s.
Proof. unfold option_ok. destruct o; [|done]. by intros [= -> ->]. Qed.

Lemma unwrap_inv {A} (o : option A) (s s' : S) a : unwrap o s = OOk a s' -> o = Some a /\ s' = s.
Proof. unfold unwrap. destruct o; [|done]. by intros [= -> ->]. Qed.
End Inversion.

Lemma set_thread_inv s t k u k' : set_thread s t k = OOk u k' ->
  k' = k <| k_threads := zset (k_threads k) s t |> /\ exists o, zget (k_threads k) s = Some o.
Proof.
  unfold set_thread, thread_at, bindM, getM, unwrap. destruct (zget (k_threads k) s) as [o|]; [|done]. cbn. intros [= _ <-]. eauto.
Qed.

Lemma set_process_inv s p k u k' : set_process s p k = OOk u k' ->
  k' = k <| k_processes := zset (k_processes k) s p |> /\ exists o, zget (k_processes k) s = Some o.
Proof.
  unfold set_process, process_at, bindM, getM, unwrap. destruct (zget (k_processes k) s) as [o|]; [|done]. cbn. intros [= _ <-]. eauto.
Qed.

Lemma copy_struct_to_user_inv {T} `{UserStruct T} p (x : T) k b k' :
  copy_struct_to_user p x k = OOk b k' -> b = true -> k' = k <| k_umem := store_bytes (k_umem k) p (bytes_of x) |>.
Proof.
  unfold copy_struct_to_user, copy_to_user. intros Hrun ->. repeat case_hyp Hrun; try done. by injection Hrun as <-.
Qed.

(** Take the next step of a run apart. *)
Ltac inv_step H :=
  let a := fresh "a" in let s := fresh "s" in let E := fresh "E" in
  apply bind_inv in H as (a & s & E & H);
  first [ apply ensure_inv in E as [E ->]
        | apply option_ok_inv in E as [E ->]
        | apply unwrap_inv in E as [E ->]
        | apply ret_inv in E as [-> ->]
        | idtac ].

(** ** The frame in kernel memory *)

Lemma load_bytes_app m a x y : 0 <= x -> 0 <= y -> load_bytes m a (x + y) = load_bytes m a x ++ load_bytes m (a + x) y.
Proof.
  intros Hx Hy. unfold load_bytes. rewrite seqZ_app, fmap_app by lia. f_equal. rewrite Z.add_0_l.
  rewrite <- (Z.add_0_r x) at 1. rewrite <- fmap_add_seqZ, <- list_fmap_compose.
  apply list_fmap_ext. intros i z _. cbn. by rewrite Z.add_assoc.
Qed.

Lemma unwords_load n m a : mem_ok m ->
  unwords n (load_bytes m a (8 * Z.of_nat n)) = (fun i => read64 m (a + 8 * i)) <$> seqZ 0 (Z.of_nat n).
Proof.
  intros Hm. revert a. induction n as [|n IH]; intros a; [done|].
  replace (8 * Z.of_nat (S n)) with (8 + 8 * Z.of_nat n) by lia. rewrite load_bytes_app by lia. cbn [unwords].
  rewrite take_app_length', drop_app_length' by (by rewrite length_load_bytes). rewrite IH.
  rewrite (seqZ_cons 0 (Z.of_nat (S n))) by lia. cbn [fmap list_fmap]. f_equal.
  - change 8 with (Z.of_nat 8) at 1. rewrite of_le_load, wrap64_small by (by apply read64_range).
    unfold read64. by replace (a + 8 * 0) with a by lia.
  - replace (Z.pred (Z.of_nat (S n))) with (Z.of_nat n) by lia. rewrite <- (Z.add_0_r (Z.succ 0)), <- fmap_add_seqZ.
    rewrite <- list_fmap_compose. apply list_fmap_ext. intros i z _. cbn [compose].
    by replace (a + 8 * (Z.succ 0 + z)) with (a + 8 + 8 * z) by lia.
Qed.

Lemma frame_at_load m a : mem_ok m -> frame_at m a = SyscallFrame_of (load_bytes m a SyscallFrame_size).
Proof. intros Hm. unfold frame_at, SyscallFrame_of. change SyscallFrame_size with (8 * Z.of_nat 15). by rewrite unwords_load. Qed.

Lemma frame_at_store m a f : mem_ok m -> frame_ok f -> frame_at (store_bytes m a (SyscallFrame_bytes f)) a = f.
Proof.
  intros Hm Hf. rewrite frame_at_load by (apply store_bytes_ok; [apply words_bytes|done]).
  change SyscallFrame_size with (Z.of_nat (length (SyscallFrame_bytes f))). rewrite load_store_bytes.
  by apply SyscallFrame_roundtrip.
Qed.

Lemma frame_at_ok m a : mem_ok m -> frame_ok (frame_at m a).
Proof.
  intros Hm. unfold frame_at, frame_ok. change (seqZ 0 15) with [0; 1; 2; 3; 4; 5; 6; 7; 8; 9; 10; 11; 12; 13; 14].
  cbn [fmap list_fmap frame_of_words frame_words]. repeat constructor; by apply read64_range.
Qed.

Lemma frame_of_ok bs : frame_ok (SyscallFrame_of bs).
Proof. unfold SyscallFrame_of, frame_ok. cbn. repeat constructor; apply wrap64_range. Qed.

(** The frame with the handler's argument, address and stack. *)
Lemma frame_at_handler m a sig h sp : is_u64 sig -> is_u64 h -> is_u64 sp ->
  frame_at (write64 (write64 (write64 m (a + 64) sig) (a + 96) h) (a + 112) sp) a =
  (frame_at m a) <| f_rdi := sig |> <| f_rcx := h |> <| f_r10 := sp |>.
Proof.
  intros H1 H2 H3.
  assert (forall i, 0 <= i < 15 ->
    read64 (write64 (write64 (write64 m (a + 64) sig) (a + 96) h) (a + 112) sp) (a + 8 * i) =
    if i =? 14 then sp else if i =? 12 then h else if i =? 8 then sig else read64 m (a + 8 * i)) as E.
  { intros i Hi.
    destruct (Z.eqb_spec i 14) as [->|]; [by apply read64_write64_same|rewrite read64_write64_disj by lia].
    destruct (Z.eqb_spec i 12) as [->|]; [by apply read64_write64_same|rewrite read64_write64_disj by lia].
    destruct (Z.eqb_spec i 8) as [->|]; [by apply read64_write64_same|by rewrite read64_write64_disj by lia]. }
  unfold frame_at. change (seqZ 0 15) with [0; 1; 2; 3; 4; 5; 6; 7; 8; 9; 10; 11; 12; 13; 14].
  cbn [fmap list_fmap]. rewrite !E by lia. reflexivity.
Qed.

(** ** Signals in a set *)

Definition sig_in (s : SigSet) (sig : Z) : bool :=
  match zget (sig_bits s) 0 with Some w => Z.testbit w (sig - 1) | None => false end.

Section Sets.
Context (k : Kernel).

Lemma sigset_add_run s sig : set_len s -> 1 <= sig <= 64 ->
  exists s', sigset_add s sig k = OOk s' k /\ set_len s' /\
    forall j, 1 <= j <= 64 -> sig_in s' j = sig_in s j || (j =? sig).
Proof.
  intros Hs Hsig. destruct (set_len_0 s Hs) as [w Hw]. unfold sigset_add. rewrite sig_bit_small, Hw by done. cbn.
  eexists. split; [done|]. split; [unfold set_len; cbn; by rewrite length_zset|]. intros j Hj. unfold sig_in. cbn [sig_bits].
  rewrite zget_zset_eq by (rewrite Hs; lia). rewrite Hw, Z.lor_spec, Z.shiftl_1_l, Z.pow2_bits_eqb by lia.
  f_equal. destruct (Z.eqb_spec j sig); [subst; apply Z.eqb_refl|]. apply Z.eqb_neq. lia.
Qed.

Lemma sigset_remove_run s sig : set_len s -> 1 <= sig <= 64 ->
  exists s', sigset_remove s sig k = OOk s' k /\ set_len s' /\
    forall j, 1 <= j <= 64 -> sig_in s' j = sig_in s j && negb (j =? sig).
Proof.
  intros Hs Hsig. destruct (set_len_0 s Hs) as [w Hw]. unfold sigset_remove. rewrite sig_bit_small, Hw by done. cbn.
  eexists. split; [done|]. split; [unfold set_len; cbn; by rewrite length_zset|]. intros j Hj. unfold sig_in. cbn [sig_bits].
  rewrite zget_zset_eq by (rewrite Hs; lia). rewrite Hw, Z.land_spec, not64_testbit, Z.shiftl_1_l, Z.pow2_bits_eqb by lia.
  f_equal. f_equal. destruct (Z.eqb_spec j sig); [subst; apply Z.eqb_refl|]. apply Z.eqb_neq. lia.
Qed.

Lemma sig_in_or a b j : set_len a -> set_len b -> 1 <= j <= 64 -> sig_in (sigset_or a b) j = sig_in a j || sig_in b j.
Proof.
  intros Ha Hb Hj. destruct (set_len_0 a Ha) as [x Hx], (set_len_0 b Hb) as [y Hy]. unfold sig_in. rewrite Hx, Hy.
  unfold sigset_or, zget in *. cbn in *. rewrite lookup_zip_with, Hx, Hy. cbn. by rewrite Z.lor_spec.
Qed.

Lemma sigset_contains_run s sig : set_len s -> 1 <= sig <= 64 -> sigset_contains s sig k = OOk (sig_in s sig) k.
Proof.
  intros Hs Hsig. destruct (set_len_0 s Hs) as [w Hw]. unfold sigset_contains, sig_in. rewrite sig_bit_small, Hw by done. cbn.
  by rewrite Z.shiftl_1_l, has_bits_pow2 by lia.
Qed.
End Sets.

(** ** Entering the handler *)

(** What [deliver_pending_signal] leaves behind when it enters the handler of
    [sig] for the thread [t] in slot [s], the handler's stack at [sp]. *)
Record entered (k k1 : Kernel) (fp s : Z) (t : Thread) (sig : Z) (a : SigAction) (sp : Z) (t1 : Thread) : Prop := {
  en_stack : 0 <= sp /\ user_range_ok sp (8 + SyscallFrame_size) = true;
  en_memory : k_umem k1 = store_bytes (store_bytes (k_umem k) sp (to_le 8 (sa_restorer a))) (sp + 8)
                (SyscallFrame_bytes (frame_at (ram (k_mach k)) fp));
  en_frame : ram (k_mach k1) =
    write64 (write64 (write64 (ram (k_mach k)) (fp + 64) sig) (fp + 96) (sa_handler a)) (fp + 112) sp;
  en_thread : zget (k_threads k1) s = Some (Some t1);
  en_saved : th_saved_sig_mask t1 = th_sig_mask t;
  en_state : th_in_signal_handler t1 = true;
  en_pending : th_sig_pending t1 = th_sig_pending t;
  en_mask : forall j, 1 <= j <= 64 ->
    sig_in (th_sig_mask t1) j = (sig_in (th_sig_mask t) j || (j =? sig) || sig_in (sa_mask a) j) && negb (j =? SIGKILL);
  en_current : k_current k1 = k_current k;
}.

Lemma checked_sub64_Some a b c : checked_sub64 a b = Some c -> c = a - b /\ 0 <= c.
Proof. unfold checked_sub64. case_goal; [|done]. breflect. intros [= <-]. lia. Qed.

Lemma signal_stack_inv tslot thread (action : SigAction) f k r k1 :
  (if has_bits (sa_flags action) SA_ONSTACK && negb (has_bits (ss_flags (th_sig_altstack thread)) SS_DISABLE) then
     let* user_rsp := option_ok (checked_add64 (ss_sp (th_sig_altstack thread)) (ss_size (th_sig_altstack thread))) Range in
     let thread := thread <| th_on_altstack := true |> in
     set_thread tslot (Some thread) ;;;
     retM (user_rsp, thread)
   else
     let thread := thread <| th_on_altstack := false |> in
     set_thread tslot (Some thread) ;;;
     retM (f_r10 f, thread)) k = OOk r k1 ->
  exists b, snd r = thread <| th_on_altstack := b |> /\ k1 = k <| k_threads := zset (k_threads k) tslot (Some (snd r)) |>.
Proof.
  case_goal; intros Hrun; [inv_step Hrun|]; cbv zeta in Hrun; apply bind_inv in Hrun as (u & s & Hs & Hrun);
    apply set_thread_inv in Hs as [-> _]; apply ret_inv in Hrun as [-> ->]; eexists; done.
Qed.

Lemma current_frame_inv fp k a k' : current_frame fp k = OOk a k' -> a = fp /\ k' = k.
Proof. unfold current_frame. intros H. inv_step H. by apply ret_inv in H. Qed.

Lemma put_handler_run fp sig h sp k :
  (put_rdi fp sig ;;; put_rcx fp h ;;; put_r10 fp sp ;;; retM 0) k =
  OOk 0 (with_ram (write64 (write64 (write64 (ram (k_mach k)) (fp + 64) sig) (fp + 96) h) (fp + 112) sp) k).
Proof. done. Qed.

Lemma enter_handler_inv k fp s t sig a r k1 :
  set_len (th_sig_mask t) -> set_len (sa_mask a) -> 1 <= sig <= 64 ->
  enter_handler fp s t sig a k = OOk r k1 -> exists sp t1, entered k k1 fp s t sig a sp t1.
Proof.
  intros Ht Ha Hsig Hrun. unfold enter_handler in Hrun. do 2 inv_step Hrun. apply current_frame_inv in E0 as [-> ->].
  inv_step Hrun. apply bind_inv in Hrun as ([rsp t'] & k2 & Hst & Hrun).
  apply signal_stack_inv in Hst as (b & Et & ->). cbn [snd] in Et. subst t'.
  inv_step Hrun. apply checked_sub64_Some in E0 as [_ Hsp]. cbv zeta in Hrun. inv_step Hrun. pose proof E0 as Hr.
  apply user_range_ok_bound in Hr as [_ Hr].
  do 2 inv_step Hrun. apply copy_struct_to_user_inv in E1; [|done]. subst s0.
  do 3 inv_step Hrun. apply copy_struct_to_user_inv in E1; [|done]. subst s0.
  rewrite wrap64_small in Hrun by (unfold U64, USER_TOP, SyscallFrame_size in *; lia).
  match type of Hrun with bindM _ _ ?ks = _ => destruct (sigset_add_run ks (th_sig_mask t) sig Ht Hsig) as (s1 & Hadd & Hl1 & Hin1) end.
  rewrite (bind_ok _ _ _ _ _ Hadd) in Hrun. cbv zeta in Hrun.
  match type of Hrun with bindM _ _ ?ks = _ =>
    destruct (sigset_remove_run ks (sigset_or s1 (sa_mask a)) SIGKILL (set_len_or _ _ Hl1 Ha) ltac:(unfold SIGKILL; lia))
      as (s2 & Hrem & Hl2 & Hin2) end.
  unfold sanitize_sigmask in Hrun. rewrite (bind_ok _ _ _ _ _ Hrem) in Hrun.
  apply bind_inv in Hrun as (u & k3 & Hset & Hrun). apply set_thread_inv in Hset as [-> [o Ho]].
  rewrite put_handler_run in Hrun. injection Hrun as <- <-. exists a1, (t <| th_on_altstack := b |> <| th_saved_sig_mask := th_sig_mask t |> <| th_sig_mask := s2 |>
                                                        <| th_in_signal_handler := true |>).
  constructor; try reflexivity; [done|apply zget_zset_eq; apply zget_Some in Ho; exact Ho|].
  intros j Hj. change (sig_in s2 j = (sig_in (th_sig_mask t) j || (j =? sig) || sig_in (sa_mask a) j) && negb (j =? SIGKILL)).
  rewrite Hin2, sig_in_or, Hin1 by done. done.
Qed.

(** ** Delivery *)

Definition deliverable (t : Thread) (p : Process) (sig : Z) : bool :=
  (sig_in (th_sig_pending t) sig || sig_in (p_sig_pending p) sig) && negb (sig_in (th_sig_mask t) sig).

(** The first deliverable signal, and whether it is the thread's own. *)
Lemma choose_signal_run t p k sigs : thread_ok t -> process_ok p -> Forall (fun s => 1 <= s <= 64) sigs ->
  choose_signal sigs t p k = OOk ((fun sig => (sig, sig_in (th_sig_pending t) sig)) <$> List.find (deliverable t p) sigs) k.
Proof.
  intros Ht Hp. pose proof Ht as [H1 [H2 _] _ _]. pose proof Hp as [H3 _]. induction 1 as [|s sigs Hs _ IH]; [done|].
  cbn [choose_signal List.find]. unfold deliverable at 1.
  rewrite (bind_ok _ _ _ _ _ (sigset_contains_run k _ s H1 Hs)), (bind_ok _ _ _ _ _ (sigset_contains_run k _ s H2 Hs)).
  destruct (sig_in (th_sig_pending t) s) eqn:E1, (sig_in (th_sig_mask t) s) eqn:E2; cbn [andb orb negb].
  2: { unfold retM. cbn. by rewrite E1. }
  all: rewrite (bind_ok _ _ _ _ _ (sigset_contains_run k _ s H3 Hs)).
  all: destruct (sig_in (p_sig_pending p) s); cbn [andb orb negb]; try exact IH.
  unfold retM. cbn. by rewrite E1.
Qed.

Lemma all_signals : Forall (fun s => 1 <= s <= 64) (seqZ 1 64).
Proof. apply list.Forall_forall. intros s Hs%elem_of_seqZ. lia. Qed.

(** The state once the signal is no longer pending. *)
Lemma deliver_inv k fp t ps p sig a r k1 :
  kernel_wf k -> cur_thread k = Some t -> cur_proc k = Some (ps, p) -> thread_ok t -> process_ok p ->
  th_in_signal_handler t = false -> List.find (deliverable t p) (seqZ 1 64) = Some sig ->
  zget (p_sig_handlers p) sig = Some a -> sa_handler a <> 0 ->
  deliver_pending_signal fp k = OOk r k1 ->
  exists k' t' sp t1, entered k' k1 fp (k_current k) t' sig a sp t1 /\ k_umem k' = k_umem k /\ k_mach k' = k_mach k /\
    k_current k' = k_current k /\ th_sig_mask t' = th_sig_mask t /\
    sig_in (th_sig_pending t') sig = false.
Proof.
  intros Hk Ht Hp Hto Hpo Hih Hfind Ha Hh Hrun. pose proof (find_some _ _ Hfind) as [Hin Hdel].
  apply list_elem_of_In, elem_of_seqZ in Hin. assert (1 <= sig <= 64) as Hsig by lia. clear Hin.
  unfold deliver_pending_signal in Hrun.
  rewrite (bind_ok _ _ _ _ _ (current_process_mut_eq k Hk)), Hp in Hrun. inv_step Hrun. injection E as <-.
  rewrite (bind_ok _ _ _ _ _ (current_thread_mut_eq k Hk)), Ht in Hrun. inv_step Hrun. injection E as <-.
  rewrite Hih in Hrun. rewrite (bind_ok _ _ _ _ _ (choose_signal_run t p k _ Hto Hpo all_signals)) in Hrun.
  rewrite Hfind in Hrun. cbn [fmap option_fmap option_map] in Hrun.
  assert (set_len (sa_mask a)) as Hal by (by eapply handler_len). pose proof Hto as [Hp1 [Hm1 _] _ _]. pose proof Hpo as [Hp2 _].
  apply bind_inv in Hrun as (t' & k' & Hst & Hrun). inv_step Hrun. rewrite Ha in E. injection E as <-.
  rewrite (proj2 (Z.eqb_neq _ _) Hh) in Hrun.
  assert (k_umem k' = k_umem k /\ k_mach k' = k_mach k /\ k_current k' = k_current k /\ th_sig_mask t' = th_sig_mask t /\
          sig_in (th_sig_pending t') sig = false) as (H1 & H2 & H3 & H4 & H5).
  { destruct (sig_in (th_sig_pending t) sig) eqn:Es.
    - destruct (sigset_remove_run k _ sig Hp1 Hsig) as (s & Hs & _ & Hj). rewrite (bind_ok _ _ _ _ _ Hs) in Hst.
      cbv zeta in Hst. inv_step Hst. apply set_thread_inv in E as [-> _]. apply ret_inv in Hst as [-> ->].
      split_and!; try done. cbn [th_sig_pending set_field]. rewrite Hj by done. by rewrite Z.eqb_refl, andb_false_r.
    - inv_step Hst. destruct (sigset_remove_run k _ sig Hp2 Hsig) as (s1 & Hs & _). rewrite Hs in E. injection E as <- <-.
      inv_step Hst. apply set_process_inv in E as [-> _]. apply ret_inv in Hst as [-> ->]. done. }
  rewrite <- H4 in Hm1. destruct (enter_handler_inv _ _ _ _ _ _ _ _ Hm1 Hal Hsig Hrun) as (sp & t1 & He).
  exists k', t', sp, t1. done.
Qed.

(** ** Returning *)

Lemma current_frame_run fp k : fp <> 0 -> current_frame fp k = OOk fp k.
Proof. intros H. unfold current_frame. by rewrite (proj2 (Z.eqb_neq _ _) H). Qed.

Lemma get_frame_run fp k : get_frame fp k = OOk (frame_at (ram (k_mach k)) fp) k.
Proof. done. Qed.

Lemma put_frame_run fp f k : put_frame fp f k = OOk tt (with_ram (store_bytes (ram (k_mach k)) fp (SyscallFrame_bytes f)) k).
Proof. done. Qed.

Lemma sigreturn_run k fp t :
  kernel_wf k -> mem_ok (ram (k_mach k)) -> cur_thread k = Some t -> fp <> 0 ->
  user_range_ok (f_r10 (frame_at (ram (k_mach k)) fp)) SyscallFrame_size = true ->
  let f := SyscallFrame_of (load_bytes (k_umem k) (f_r10 (frame_at (ram (k_mach k)) fp)) SyscallFrame_size) in
  exists k' t', syscall_rt_sigreturn_impl fp k = OOk (f_rax f) k' /\ frame_at (ram (k_mach k')) fp = f /\
    cur_thread k' = Some t' /\ th_sig_mask t' = th_saved_sig_mask t /\ th_in_signal_handler t' = false /\
    th_on_altstack t' = false /\ k_umem k' = k_umem k.
Proof.
  intros Hk Hm Ht Hfp Hr f. unfold syscall_rt_sigreturn_impl.
  rewrite (bind_ok _ _ _ _ _ (current_frame_run fp k Hfp)), (bind_ok _ _ _ _ _ (get_frame_run fp k)).
  change SyscallFrame_size with (size_of SyscallFrame) in Hr.
  rewrite (bind_ok _ _ _ _ _ (copy_struct_from_user_run (T := SyscallFrame) k _ Hr)).
  change (of_bytes (load_bytes (k_umem k) (f_r10 (frame_at (ram (k_mach k)) fp)) (size_of SyscallFrame))) with f.
  rewrite (bind_ok _ _ _ f k eq_refl), (bind_ok _ _ _ _ _ (put_frame_run fp f k)).
  set (k1 := with_ram _ k). assert (kernel_wf k1) as Hk1 by (destruct Hk; by constructor).
  rewrite (bind_ok _ _ _ _ _ (current_thread_mut_eq k1 Hk1)). change (cur_thread k1) with (cur_thread k). rewrite Ht.
  rewrite (bind_ok _ _ _ (k_current k, t) k1 eq_refl). destruct (cur_thread_wf k t Hk Ht) as [Hz _].
  rewrite (bind_ok _ _ _ _ _ (set_thread_run k1 (k_current k) _ _ Hz)), (bind_ok _ _ _ _ _ (get_frame_run fp _)).
  assert (frame_at (ram (k_mach k1)) fp = f) as Hf by (apply frame_at_store; [done|apply frame_of_ok]).
  eexists _, (t <| th_sig_mask := th_saved_sig_mask t |> <| th_in_signal_handler := false |> <| th_on_altstack := false |>).
  split; [unfold retM; cbn [k_mach set_field]; do 2 f_equal; exact Hf|]. split; [exact Hf|].
  split; [|done]. unfold cur_thread. cbn [k_threads k_current set_field]. rewrite zget_zset_eq; [done|]. by apply zget_Some in Hz.
Qed.

Lemma read64_stored m p v bs : is_u64 v ->
  read64 (store_bytes (store_bytes m p (to_le 8 v)) (p + 8) bs) p = v.
Proof.
  intros Hv. trans (read64 (store_bytes m p (to_le 8 v)) p).
  { apply read_le_ext. intros x Hx. apply store_bytes_outside. lia. }
  unfold read64. rewrite <- of_le_load. change (Z.of_nat 8) with (Z.of_nat (length (to_le 8 v))).
  rewrite load_store_bytes. by apply of_to_le.
Qed.

(** C6: Signal delivery and return.  When a system call returns to a program
    with a deliverable signal that has a handler, the program continues in the
    handler with the signal number as argument and the restorer as return
    address, the signal and the handler's mask are blocked but never
    [SIGKILL], and the signal is no longer pending.  However the handler runs,
    if it leaves the saved registers alone, [rt_sigreturn] resumes the program
    with exactly the registers it was interrupted with and its old mask. *)
Theorem signal_roundtrip k fp t ps p sig a k1 :
  kernel_wf k -> mem_ok (ram (k_mach k)) -> cur_thread k = Some t -> cur_proc k = Some (ps, p) ->
  thread_ok t -> process_ok p -> th_in_signal_handler t = false ->
  List.find (deliverable t p) (seqZ 1 64) = Some sig -> zget (p_sig_handlers p) sig = Some a ->
  is_u64 (sa_handler a) -> is_u64 (sa_restorer a) -> sa_handler a <> 0 ->
  deliver_pending_signal fp k = OOk 0 k1 ->
  let f := frame_at (ram (k_mach k)) fp in
  exists sp t1,
    frame_at (ram (k_mach k1)) fp = f <| f_rdi := sig |> <| f_rcx := sa_handler a |> <| f_r10 := sp |> /\
    read64 (k_umem k1) sp = sa_restorer a /\ cur_thread k1 = Some t1 /\
    (forall j, 1 <= j <= 64 -> sig_in (th_sig_mask t1) j =
       (sig_in (th_sig_mask t) j || (j =? sig) || sig_in (sa_mask a) j) && negb (j =? SIGKILL)) /\
    sig_in (th_sig_pending t1) sig = false /\
    forall k2 fp2 t2,
      kernel_wf k2 -> mem_ok (ram (k_mach k2)) -> cur_thread k2 = Some t2 ->
      th_saved_sig_mask t2 = th_saved_sig_mask t1 -> fp2 <> 0 ->
      f_r10 (frame_at (ram (k_mach k2)) fp2) = sp + 8 ->
      (forall x, sp + 8 <= x < sp + 8 + SyscallFrame_size -> k_umem k2 x = k_umem k1 x) ->
      exists k3 t3, syscall_rt_sigreturn_impl fp2 k2 = OOk (f_rax f) k3 /\ frame_at (ram (k_mach k3)) fp2 = f /\
        cur_thread k3 = Some t3 /\ th_sig_mask t3 = th_sig_mask t /\ th_in_signal_handler t3 = false.
Proof.
  intros Hk Hm Ht Hp Hto Hpo Hih Hfind Ha Hh Hr Hne Hrun f.
  destruct (deliver_inv _ _ _ _ _ _ _ _ _ Hk Ht Hp Hto Hpo Hih Hfind Ha Hne Hrun)
    as (k' & t' & sp & t1 & [[Hsp Hrange] Hmem Hframe Hthread Hsaved _ Hpend Hmask Hcur] & Hu & Hma & Hc & Htm & Hps).
  rewrite Hu, Hma in *. fold f in Hmem. pose proof (user_range_ok_bound _ _ Hrange) as [Hs1 Hs2].
  assert (is_u64 sp) as Hspu by (unfold is_u64, U64, USER_TOP in *; lia).
  apply find_some in Hfind as [Hin _]. apply list_elem_of_In, elem_of_seqZ in Hin.
  exists sp, t1. split; [rewrite Hframe; apply frame_at_handler; [unfold is_u64, U64; lia|done..]|].
  split; [rewrite Hmem; by apply read64_stored|].
  split; [unfold cur_thread; by rewrite Hcur, Hc, Hthread|]. split; [by rewrite <- Htm|]. split; [by rewrite Hpend|].
  intros k2 fp2 t2 Hk2 Hm2 Ht2 Hsv Hfp Hr10 Hsame.
  assert (user_range_ok (f_r10 (frame_at (ram (k_mach k2)) fp2)) SyscallFrame_size = true) as Hrange2.
  { rewrite Hr10. apply user_range_ok_spec; unfold is_u64, U64, USER_TOP, SyscallFrame_size in *; lia. }
  destruct (sigreturn_run k2 fp2 t2 Hk2 Hm2 Ht2 Hfp Hrange2) as (k3 & t3 & Hret & Hf3 & Ht3 & Hm3 & Hh3 & _).
  rewrite Hr10 in *. assert (SyscallFrame_of (load_bytes (k_umem k2) (sp + 8) SyscallFrame_size) = f) as Hload.
  { rewrite (load_bytes_ext _ (k_umem k1)) by done. rewrite Hmem.
    change SyscallFrame_size with (Z.of_nat (length (SyscallFrame_bytes f))). rewrite load_store_bytes.
    apply SyscallFrame_roundtrip. by apply frame_at_ok. }
  rewrite Hload in *. exists k3, t3. split_and!; try done. by rewrite Hm3, Hsv, Hsaved, Htm.
Qed.

(** Process 1 has a handler for signal 10, which is pending; its frame is at
    [0x1000] of kernel memory, with the stack pointer [0x7000]. *)
Definition sample_action : SigAction := mkSigAction 0x4000 SA_RESTORER 0x5000 SigSet_empty.
Definition sample_pending : Process :=
  (Process_new_leader 1 0 [105])
    <| p_sig_handlers := zset (replicate 65 SigAction_empty) 10 sample_action |>
    <| p_sig_pending := mkSigSet (512 :: replicate 15 0) |>.
Definition sample_signal : Kernel :=
  sample_proc
    <| k_processes := zset (replicate 8 None) 0 (Some sample_pending) |>
    <| k_mach := mkMachine PMMState_new (write64 (fun _ => 0) (0x1000 + 112) 0x7000) 0 0 [] |>.

Lemma sample_signal_wf : kernel_wf sample_signal.
Proof.
  pose proof (wf_set_process sample_proc 0 sample_pending sample_proc_wf ltac:(done)) as [].
  constructor; done.
Qed.

Lemma sample_signal_ram : mem_ok (ram (k_mach sample_signal)).
Proof. apply write64_ok. intros x. done. Qed.

Lemma sample_thread_ok : thread_ok (Thread_new_leader 1 0 0 0).
Proof. constructor; try done; split; try done; intros w [= <-]; done. Qed.

Lemma sample_pending_ok : process_ok sample_pending.
Proof. constructor; [done|]. by repeat constructor. Qed.

Lemma sample_find : List.find (deliverable (Thread_new_leader 1 0 0 0) sample_pending) (seqZ 1 64) = Some 10.
Proof. vm_compute. reflexivity. Qed.

Lemma signal_roundtrip_witness :
  exists k1 sp t1, deliver_pending_signal 0x1000 sample_signal = OOk 0 k1 /\
    f_rdi (frame_at (ram (k_mach k1)) 0x1000) = 10 /\ f_rcx (frame_at (ram (k_mach k1)) 0x1000) = 0x4000 /\
    read64 (k_umem k1) sp = 0x5000 /\ cur_thread k1 = Some t1 /\ sig_in (th_sig_mask t1) 10 = true.
Proof.
  destruct (deliver_pending_signal 0x1000 sample_signal) as [r k1| |] eqn:Hrun.
  2, 3: exfalso; assert (match deliver_pending_signal 0x1000 sample_signal with OOk _ _ => True | _ => False end) as H
          by (vm_compute; exact I); rewrite Hrun in H; exact H.
  assert (r = 0) as ->.
  { assert (match deliver_pending_signal 0x1000 sample_signal with OOk r _ => r = 0 | _ => False end) as H
      by (vm_compute; reflexivity). by rewrite Hrun in H. }
  destruct (signal_roundtrip sample_signal 0x1000 (Thread_new_leader 1 0 0 0) 0 sample_pending 10 sample_action k1
    sample_signal_wf sample_signal_ram eq_refl eq_refl sample_thread_ok sample_pending_ok eq_refl sample_find eq_refl
    ltac:(vm_compute; intuition discriminate) ltac:(vm_compute; intuition discriminate) ltac:(vm_compute; discriminate) Hrun)
    as (sp & t1 & Hf & Hm & Ht & Hmask & _).
  exists k1, sp, t1. rewrite Hf. split; [reflexivity|]. split; [reflexivity|]. split; [reflexivity|].
  split; [exact Hm|]. split; [exact Ht|]. rewrite Hmask by lia. vm_compute. reflexivity.
Defined.
