(* ===== verification/Wrappers.v ===== *)
(** * The system-call wrappers of the C library ([user/libcshim])

    The inline functions of [libcshim.h] and the functions of [libcshim.c]
    that only pass their arguments to a system call, as tables, with the C
    conversions of their arguments and results; and the meeting point with
    the kernel's dispatcher. *)

From Stdlib Require Import Ascii String.
From S2P Require Import Prelude Mem Update Result Pmm Paging PageTables Types State Task Proc Fd Futex Signal SigReturn Dispatch Abi Libc.

Local Open Scope string_scope.
Local Open Scope Z_scope.

(** ** C values *)

(** The types of parameters: [int], [unsigned int], and the 64-bit types. *)
Inductive CType := CInt | CUInt | CWord.

(** The register contents of a value of the type. *)
Definition conv (t : CType) (v : Z) : Z :=
  match t with CInt => wrap64 (as_i32 (wrap32 v)) | CUInt => wrap32 v | CWord => wrap64 v end.

(** Result types: [int], [unsigned int], the 64-bit types, none. *)
Inductive CResult := RInt | RUInt | RLong | RVoid.

Definition conv_result (r : CResult) (v : Z) : Z :=
  match r with RInt => conv CInt v | RUInt => conv CUInt v | RLong => v | RVoid => 0 end.

(** An argument that is passed on: a parameter, a constant, or the mode of
    [open], which is read when the flags have [O_CREAT]. *)
Inductive CArg := P (i : nat) | K (v : Z) | Mode (flags mode : nat).

Definition O_CREAT : Z := 64.

Definition eval_arg (vs : list Z) (a : CArg) : Z :=
  match a with
  | P i => default 0 (vs !! i)
  | K v => wrap64 v
  | Mode f m => if default 0 (vs !! f) & O_CREAT =? 0 then 0 else default 0 (vs !! m)
  end.

(** A function: its parameters, what it calls with which arguments, and its
    result type. *)
Record Wrapper := W { w_name : string; w_params : list CType; w_target : string; w_args : list CArg; w_result : CResult }.

(** ** The tables *)

(** [sys_read] to [sys_rm].  [syscall2] is [syscall3] with a zero. *)
Definition file_wrappers : list Wrapper :=
  [ W "sys_read" [CInt; CWord; CWord] "READ" [P 0; P 1; P 2] RLong;
    W "sys_write" [CInt; CWord; CWord] "WRITE" [P 0; P 1; P 2] RLong;
    W "sys_open" [CWord; CInt; CInt] "OPEN" [P 0; P 1; P 2] RInt;
    W "sys_close" [CInt] "CLOSE" [P 0] RInt;
    W "sys_fsize" [CInt] "FSIZE" [P 0] RLong;
    W "sys_fstat" [CInt; CWord] "FSTAT" [P 0; P 1; K 0] RInt;
    W "sys_pci_list" [CWord; CWord] "PCI_LIST" [P 0; P 1; K 0] RLong;
    W "sys_pci_test" [] "PCI_TEST" [] RLong;
    W "sys_lseek" [CInt; CWord; CInt] "LSEEK" [P 0; P 1; P 2] RLong;
    W "sys_ls" [CWord; CWord] "LS" [P 0; P 1; K 0] RLong;
    W "sys_touch" [CWord; CWord] "TOUCH" [P 0; P 1; K 0] RInt;
    W "sys_ioctl" [CInt; CWord; CWord] "IOCTL" [P 0; P 1; P 2] RInt;
    W "sys_fcntl" [CInt; CInt; CWord] "FCNTL" [P 0; P 1; P 2] RInt;
    W "sys_pread64" [CInt; CWord; CWord; CWord] "PREAD64" [P 0; P 1; P 2; P 3] RLong;
    W "sys_pwrite64" [CInt; CWord; CWord; CWord] "PWRITE64" [P 0; P 1; P 2; P 3] RLong;
    W "sys_sendfile" [CInt; CInt; CWord; CWord] "SENDFILE" [P 0; P 1; P 2; P 3] RLong;
    W "sys_readv" [CInt; CWord; CInt] "READV" [P 0; P 1; P 2] RLong;
    W "sys_preadv" [CInt; CWord; CInt; CWord] "PREADV" [P 0; P 1; P 2; P 3] RLong;
    W "sys_pwritev" [CInt; CWord; CInt; CWord] "PWRITEV" [P 0; P 1; P 2; P 3] RLong;
    W "sys_rm" [CWord; CWord] "RM" [P 0; P 1; K 0] RInt ].

(** [sys_pipe] to [sys_nanosleep]. *)
Definition process_wrappers : list Wrapper :=
  [ W "sys_pipe" [CWord] "PIPE" [P 0] RInt;
    W "sys_pipe2" [CWord; CInt] "PIPE2" [P 0; P 1; K 0] RInt;
    W "sys_exec" [CWord] "EXEC" [P 0; K 0; K 0] RLong;
    W "sys_getpid" [] "GETPID" [K 0] RLong;
    W "sys_getppid" [] "GETPPID" [K 0] RLong;
    W "sys_getuid" [] "GETUID" [K 0] RLong;
    W "sys_geteuid" [] "GETEUID" [K 0] RLong;
    W "sys_getgid" [] "GETGID" [K 0] RLong;
    W "sys_getegid" [] "GETEGID" [K 0] RLong;
    W "sys_gettid" [] "GETTID" [K 0] RLong;
    W "sys_getpgrp" [] "GETPGRP" [K 0] RLong;
    W "sys_getpgid" [CInt] "GETPGID" [P 0] RLong;
    W "sys_getsid" [CInt] "GETSID" [P 0] RLong;
    W "sys_setuid" [CInt] "SETUID" [P 0] RInt;
    W "sys_setgid" [CInt] "SETGID" [P 0] RInt;
    W "sys_setpgid" [CInt; CInt] "SETPGID" [P 0; P 1; K 0] RInt;
    W "sys_kill" [CInt; CInt] "KILL" [P 0; P 1; K 0] RInt;
    W "sys_getresuid" [CWord; CWord; CWord] "GETRESUID" [P 0; P 1; P 2] RInt;
    W "sys_getresgid" [CWord; CWord; CWord] "GETRESGID" [P 0; P 1; P 2] RInt;
    W "sys_rt_sigaction" [CInt; CWord; CWord; CWord] "RT_SIGACTION" [P 0; P 1; P 2; P 3] RInt;
    W "sys_rt_sigprocmask" [CInt; CWord; CWord; CWord] "RT_SIGPROCMASK" [P 0; P 1; P 2; P 3] RInt;
    W "sys_rt_sigreturn" [] "RT_SIGRETURN" [] RInt;
    W "sys_getcwd" [CWord; CWord] "GETCWD" [P 0; P 1; K 0] RLong;
    W "sys_chdir" [CWord] "CHDIR" [P 0] RInt;
    W "sys_truncate" [CWord; CWord] "TRUNCATE" [P 0; P 1; K 0] RInt;
    W "sys_ftruncate" [CInt; CWord] "FTRUNCATE" [P 0; P 1; K 0] RInt;
    W "sys_getrlimit" [CInt; CWord] "GETRLIMIT" [P 0; P 1; K 0] RInt;
    W "sys_gettimeofday" [CWord; CWord] "GETTIMEOFDAY" [P 0; P 1; K 0] RInt;
    W "sys_sigaltstack" [CWord; CWord] "SIGALTSTACK" [P 0; P 1; K 0] RInt;
    W "sys_umask" [CUInt] "UMASK" [P 0] RUInt;
    W "sys_faccessat" [CInt; CWord; CInt; CInt] "FACCESSAT" [P 0; P 1; P 2; P 3] RInt;
    W "sys_sysinfo" [CWord] "SYSINFO" [P 0] RInt;
    W "sys_set_tid_address" [CWord] "SET_TID_ADDRESS" [P 0] RInt;
    W "sys_mmap" [CWord; CWord; CInt; CInt; CInt; CWord] "MMAP" [P 0; P 1; P 2; P 3; P 4; P 5] RLong;
    W "sys_mprotect" [CWord; CWord; CInt] "MPROTECT" [P 0; P 1; P 2] RInt;
    W "sys_munmap" [CWord; CWord] "MUNMAP" [P 0; P 1; K 0] RInt;
    W "sys_nanosleep" [CWord; CWord] "NANOSLEEP" [P 0; P 1; K 0] RInt ].

(** [sys_dup] to [sys_set_font_scale]. *)
Definition more_wrappers : list Wrapper :=
  [ W "sys_dup" [CInt] "DUP" [P 0] RInt;
    W "sys_clock_gettime" [CInt; CWord] "CLOCK_GETTIME" [P 0; P 1; K 0] RInt;
    W "sys_clock_nanosleep" [CInt; CInt; CWord; CWord] "CLOCK_NANOSLEEP" [P 0; P 1; P 2; P 3] RInt;
    W "sys_fork" [] "FORK" [K 0] RInt;
    W "sys_clone" [CWord; CWord; CWord; CWord; CWord] "CLONE" [P 0; P 1; P 2; P 3; P 4] RInt;
    W "sys_futex" [CWord; CInt; CUInt; CWord] "FUTEX" [P 0; P 1; P 2; P 3] RInt;
    W "sys_tkill" [CInt; CInt] "TKILL" [P 0; P 1; K 0] RInt;
    W "sys_tgkill" [CInt; CInt; CInt] "TGKILL" [P 0; P 1; P 2] RInt;
    W "sys_set_robust_list" [CWord; CWord] "SET_ROBUST_LIST" [P 0; P 1; K 0] RInt;
    W "sys_get_robust_list" [CInt; CWord; CWord] "GET_ROBUST_LIST" [P 0; P 1; P 2] RInt;
    W "sys_dup3" [CInt; CInt; CInt] "DUP3" [P 0; P 1; P 2] RInt;
    W "sys_writev" [CInt; CWord; CInt] "WRITEV" [P 0; P 1; P 2] RLong;
    W "sys_openat" [CInt; CWord; CInt; CInt] "OPENAT" [P 0; P 1; P 2; P 3] RInt;
    W "sys_unlinkat" [CInt; CWord; CInt] "UNLINKAT" [P 0; P 1; P 2; K 0] RInt;
    W "sys_readlink" [CWord; CWord; CWord] "READLINK" [P 0; P 1; P 2] RLong;
    W "sys_readlinkat" [CInt; CWord; CWord; CWord] "READLINKAT" [P 0; P 1; P 2; P 3] RLong;
    W "sys_fstatat" [CInt; CWord; CWord; CInt] "FSTATAT" [P 0; P 1; P 2; P 3] RInt;
    W "sys_getrandom" [CWord; CWord; CUInt] "GETRANDOM" [P 0; P 1; P 2] RLong;
    W "sys_arch_prctl" [CInt; CWord] "ARCH_PRCTL" [P 0; P 1; K 0] RInt;
    W "sys_waitpid" [CWord] "WAITPID" [P 0] RLong;
    W "sys_exit" [CInt] "EXIT" [P 0] RVoid;
    W "sys_exit_group" [CInt] "EXIT_GROUP" [P 0] RVoid;
    W "sys_brk" [CWord] "BRK" [P 0] RLong;
    W "sys_meminfo" [] "FREE_BYTES" [K 0] RLong;
    W "sys_uptime" [] "UPTIME_SECONDS" [K 0] RLong;
    W "sys_ticks" [] "TICKS" [K 0] RLong;
    W "sys_reboot" [] "REBOOT" [K 0] RVoid;
    W "sys_panic" [] "PANIC" [K 0] RVoid;
    W "sys_boottime" [CWord; CInt] "BOOTTIME" [P 0; P 1; K 0] RLong;
    W "sys_clear" [] "CLEAR_TERMINAL" [K 0] RVoid;
    W "sys_sleep" [CWord] "SLEEP_TICKS" [P 0] RVoid;
    W "sys_set_font_scale" [CInt] "SET_FONT_SCALE" [P 0] RVoid ].

Definition wrappers : list Wrapper := file_wrappers ++ process_wrappers ++ more_wrappers.

(** The functions of [libcshim.c] from [read] to [ftruncate]. *)
Definition io_functions : list Wrapper :=
  [ W "read" [CInt; CWord; CWord] "sys_read" [P 0; P 1; P 2] RLong;
    W "write" [CInt; CWord; CWord] "sys_write" [P 0; P 1; P 2] RLong;
    W "ioctl" [CInt; CWord; CWord] "sys_ioctl" [P 0; P 1; P 2] RInt;
    W "fcntl" [CInt; CInt; CWord] "sys_fcntl" [P 0; P 1; P 2] RInt;
    W "pipe" [CWord] "sys_pipe" [P 0] RInt;
    W "pipe2" [CWord; CInt] "sys_pipe2" [P 0; P 1] RInt;
    W "readv" [CInt; CWord; CInt] "sys_readv" [P 0; P 1; P 2] RLong;
    W "writev" [CInt; CWord; CInt] "sys_writev" [P 0; P 1; P 2] RLong;
    W "preadv" [CInt; CWord; CInt; CWord] "sys_preadv" [P 0; P 1; P 2; P 3] RLong;
    W "pwritev" [CInt; CWord; CInt; CWord] "sys_pwritev" [P 0; P 1; P 2; P 3] RLong;
    W "lseek" [CInt; CWord; CInt] "sys_lseek" [P 0; P 1; P 2] RLong;
    W "fstat" [CInt; CWord] "sys_fstat" [P 0; P 1] RInt;
    W "getpid" [] "sys_getpid" [] RInt;
    W "getppid" [] "sys_getppid" [] RInt;
    W "getuid" [] "sys_getuid" [] RInt;
    W "geteuid" [] "sys_geteuid" [] RInt;
    W "getgid" [] "sys_getgid" [] RInt;
    W "getegid" [] "sys_getegid" [] RInt;
    W "gettid" [] "sys_gettid" [] RInt;
    W "setuid" [CInt] "sys_setuid" [P 0] RInt;
    W "setgid" [CInt] "sys_setgid" [P 0] RInt;
    W "kill" [CInt; CInt] "sys_kill" [P 0; P 1] RInt;
    W "getpgrp" [] "sys_getpgrp" [] RInt;
    W "setpgid" [CInt; CInt] "sys_setpgid" [P 0; P 1] RInt;
    W "getpgid" [CInt] "sys_getpgid" [P 0] RInt;
    W "getsid" [CInt] "sys_getsid" [P 0] RInt;
    W "getresuid" [CWord; CWord; CWord] "sys_getresuid" [P 0; P 1; P 2] RInt;
    W "getresgid" [CWord; CWord; CWord] "sys_getresgid" [P 0; P 1; P 2] RInt;
    W "getcwd" [CWord; CWord] "sys_getcwd" [P 0; P 1] RLong;
    W "chdir" [CWord] "sys_chdir" [P 0] RInt;
    W "truncate" [CWord; CWord] "sys_truncate" [P 0; P 1] RInt;
    W "ftruncate" [CInt; CWord] "sys_ftruncate" [P 0; P 1] RInt ].

(** From [getrlimit] to [stat]; [sizeof(sigset_t)] is 128 and [AT_FDCWD] is
    -100. *)
Definition more_functions : list Wrapper :=
  [ W "getrlimit" [CInt; CWord] "sys_getrlimit" [P 0; P 1] RInt;
    W "gettimeofday" [CWord; CWord] "sys_gettimeofday" [P 0; P 1] RInt;
    W "sigaltstack" [CWord; CWord] "sys_sigaltstack" [P 0; P 1] RInt;
    W "sigaction" [CInt; CWord; CWord] "sys_rt_sigaction" [P 0; P 1; P 2; K 128] RInt;
    W "sigprocmask" [CInt; CWord; CWord] "sys_rt_sigprocmask" [P 0; P 1; P 2; K 128] RInt;
    W "umask" [CUInt] "sys_umask" [P 0] RUInt;
    W "pread" [CInt; CWord; CWord; CWord] "sys_pread64" [P 0; P 1; P 2; P 3] RLong;
    W "pwrite" [CInt; CWord; CWord; CWord] "sys_pwrite64" [P 0; P 1; P 2; P 3] RLong;
    W "sendfile" [CInt; CInt; CWord; CWord] "sys_sendfile" [P 0; P 1; P 2; P 3] RLong;
    W "faccessat" [CInt; CWord; CInt; CInt] "sys_faccessat" [P 0; P 1; P 2; P 3] RInt;
    W "sysinfo" [CWord] "sys_sysinfo" [P 0] RInt;
    W "mmap" [CWord; CWord; CInt; CInt; CInt; CWord] "sys_mmap" [P 0; P 1; P 2; P 3; P 4; P 5] RLong;
    W "munmap" [CWord; CWord] "sys_munmap" [P 0; P 1] RInt;
    W "mprotect" [CWord; CWord; CInt] "sys_mprotect" [P 0; P 1; P 2] RInt;
    W "nanosleep" [CWord; CWord] "sys_nanosleep" [P 0; P 1] RInt;
    W "clock_gettime" [CInt; CWord] "sys_clock_gettime" [P 0; P 1] RInt;
    W "clock_nanosleep" [CInt; CInt; CWord; CWord] "sys_clock_nanosleep" [P 0; P 1; P 2; P 3] RInt;
    W "dup" [CInt] "sys_dup" [P 0] RInt;
    W "dup2" [CInt; CInt] "sys_dup3" [P 0; P 1; K 0] RInt;
    W "dup3" [CInt; CInt; CInt] "sys_dup3" [P 0; P 1; P 2] RInt;
    W "fork" [] "sys_fork" [] RInt;
    W "open" [CWord; CInt; CInt] "sys_open" [P 0; P 1; Mode 1 2] RInt;
    W "openat" [CInt; CWord; CInt; CInt] "sys_openat" [P 0; P 1; P 2; Mode 2 3] RInt;
    W "unlinkat" [CInt; CWord; CInt] "sys_unlinkat" [P 0; P 1; P 2] RInt;
    W "readlink" [CWord; CWord; CWord] "sys_readlink" [P 0; P 1; P 2] RLong;
    W "readlinkat" [CInt; CWord; CWord; CWord] "sys_readlinkat" [P 0; P 1; P 2; P 3] RLong;
    W "getrandom" [CWord; CWord; CUInt] "sys_getrandom" [P 0; P 1; P 2] RLong;
    W "arch_prctl" [CInt; CWord] "sys_arch_prctl" [P 0; P 1] RInt;
    W "stat" [CWord; CWord] "sys_fstatat" [K (-100); P 0; P 1; K 0] RInt ].

Definition c_functions : list Wrapper := io_functions ++ more_functions.

(** ** A call *)

(** The arguments a function passes on, its own converted first. *)
Definition passed (w : Wrapper) (vs : list Z) : list Z := eval_arg (zip_with conv (w_params w) vs) <$> w_args w.

Definition number_of (s : string) : option Z := snd <$> List.find (fun p => String.eqb (fst p) s) sysnr_h.

Definition find_wrapper (s : string) : option Wrapper := List.find (fun w => String.eqb (w_name w) s) wrappers.

(** The value a function returns for the kernel's result. *)
Definition returned (r : CResult) (ret : Z) : Z := conv_result r (syscall_ret ret).

(** The registers at the [syscall] instruction of [syscall0] to [syscall6]:
    the number in [rax], the arguments in [rdi], [rsi], [rdx], [r10], [r8] and
    [r9], and what was in the others before.  The fourth argument is apart
    because the kernel's frame has the user stack pointer in its place. *)
Definition call_regs (n : Z) (args : list Z) (before : SyscallFrame) (r10 : Z) : SyscallFrame * Z :=
  (before <| f_rax := n |> <| f_rdi := default (f_rdi before) (args !! 0%nat) |> <| f_rsi := default (f_rsi before) (args !! 1%nat) |>
     <| f_rdx := default (f_rdx before) (args !! 2%nat) |> <| f_r8 := default (f_r8 before) (args !! 4%nat) |>
     <| f_r9 := default (f_r9 before) (args !! 5%nat) |>,
   default r10 (args !! 3%nat)).

(** ** What the wrappers should do *)

(** Parameter [i] of a call, as the register holds it. *)
Definition param (w : Wrapper) (vs : list Z) (i : nat) : Z := default 0 (zip_with conv (w_params w) vs !! i).

(** A wrapper has the kernel's own name ([nr::name]) of its number after
    [sys_], but for five of them. *)
Definition renamed : list (string * string) :=
  [("sys_exec", "execve"); ("sys_meminfo", "free_bytes"); ("sys_uptime", "uptime_seconds"); ("sys_clear", "clear_terminal");
   ("sys_sleep", "sleep_ticks")].

Definition kernel_name (w : Wrapper) : string :=
  match List.find (fun p => String.eqb (fst p) (w_name w)) renamed with
  | Some (_, s) => s
  | None => substring 4 (String.length (w_name w)) (w_name w)
  end.

(** The functions that do more than pass their parameters on: the wrapper
    they call and the arguments they call it with. *)
Definition adapted : list (string * (string * (list Z -> list Z))) :=
  let mode flags mode := if flags & O_CREAT =? 0 then 0 else mode in
  [ ("sigaction", ("sys_rt_sigaction", fun a => a ++ [SIGSET_SIZE]));
    ("sigprocmask", ("sys_rt_sigprocmask", fun a => a ++ [SIGSET_SIZE]));
    ("pread", ("sys_pread64", id)); ("pwrite", ("sys_pwrite64", id));
    ("dup2", ("sys_dup3", fun a => a ++ [0]));
    ("open", ("sys_open", fun a => match a with [p; f; m] => [p; f; mode f m] | _ => [] end));
    ("openat", ("sys_openat", fun a => match a with [d; p; f; m] => [d; p; f; mode f m] | _ => [] end));
    ("stat", ("sys_fstatat", fun a => U64 - 100 :: a ++ [0])) ]%list.

Definition adaptation (f : Wrapper) : string * (list Z -> list Z) :=
  match List.find (fun p => String.eqb (fst p) (w_name f)) adapted with
  | Some (_, r) => r
  | None => (String.append "sys_" (w_name f), id)
  end.

(** ** From the instruction to the handler *)

Section Call.
Context (fuel : nat) (pauses : nat -> Pause) (irqs : nat -> list Irq).
Context (fork_return_trampoline user_task_trampoline : Z) (bus_write : (Z -> Z) -> Z -> Z -> (Z -> Z)).
#[local] Abbreviation route := (route fuel pauses irqs fork_return_trampoline user_task_trampoline bus_write).
#[local] Abbreviation syscall_entry := (syscall_entry fuel pauses irqs fork_return_trampoline user_task_trampoline bus_write).

(** What follows the handler: the signals, the result in its slot of the
    frame, and the registers popped from the frame. *)
Definition back_to_user (num frame : Z) (r : Wait Z) : M Kernel (Wait SyscallFrame) :=
  match r with
  | Blocked => retM Blocked
  | Done v =>
      let* v := finish_syscall num frame v in
      put_rax frame v ;;;
      modifyM (fun k => k <| k_in_syscall := false |>) ;;;
      let* f := get_frame frame in
      retM (Done f)
  end.

(** The state the handler runs in: the registers are on the kernel stack. *)
Definition entered (regs : SyscallFrame) (k : Kernel) : Kernel :=
  (with_ram (store_bytes (write64 (ram (k_mach k)) (k_rsp0 k -w 8) (f_r10 regs)) (k_rsp0 k -w 8 -w SyscallFrame_size)
     (SyscallFrame_bytes regs)) k) <| k_in_syscall := true |>.

Lemma frame_address x : 128 < x < U64 -> x -w 8 -w SyscallFrame_size = x - 128.
Proof. intros H. unfold SyscallFrame_size. rewrite (wrap64_small (x - 8)), wrap64_small by (unfold U64 in *; lia). lia. Qed.

Lemma entry_runs_handler regs arg4 k : mem_ok (ram (k_mach k)) -> frame_ok regs -> 128 < k_rsp0 k < U64 ->
  let frame := k_rsp0 k - 128 in
  get_frame frame (entered regs k) = OOk regs (entered regs k) /\
  syscall_entry regs arg4 k =
    (let* r := route (f_rax regs) (f_rdi regs) (f_rsi regs) (f_rdx regs) arg4 (f_r8 regs) (f_r9 regs) frame in
     back_to_user (f_rax regs) frame r) (entered regs k).
Proof.
  intros Hm Hf Hb frame. pose proof (frame_address _ Hb) as Ef.
  assert (get_frame frame (entered regs k) = OOk regs (entered regs k)) as Hg.
  { rewrite get_frame_run. f_equal. unfold entered. rewrite Ef. fold frame. cbn [k_mach set_field].
    apply frame_at_store; [|done]. by apply write64_ok. }
  split; [exact Hg|]. unfold Dispatch.syscall_entry. rewrite getM_bind. cbv zeta. rewrite (bind_ok _ _ _ _ _ (poke64_run _ _ _)).
  rewrite (bind_ok _ _ _ _ _ (put_frame_run _ _ _)). unfold modifyM at 1. unfold bindM at 1.
  match goal with |- _ ?k2 = _ => change k2 with (entered regs k) end.
  rewrite Ef. fold frame. unfold Dispatch.syscall_dispatch. unfold bindM at 1. rewrite (bind_ok _ _ _ _ _ Hg).
  rewrite (proj2 (Z.eqb_neq frame 0)) by (unfold frame; lia). cbn [negb]. unfold bindM.
  destruct (route _ _ _ _ _ _ _ _ _) as [[|v] k3| |]; try done. cbn [back_to_user retM]. unfold bindM.
  by destruct (finish_syscall _ _ _ _) as [v' k4| |].
Qed.
End Call.

(** ** The registers of a call *)

Lemma conv_range t v : is_u64 (conv t v).
Proof.
  destruct t; cbn [conv]; [apply wrap64_range| |apply wrap64_range].
  unfold wrap32. pose proof (Z.mod_pos_bound v U32 ltac:(done)). unfold is_u64, U32, U64 in *. lia.
Qed.

Lemma converted_range ts vs : Forall is_u64 (zip_with conv ts vs).
Proof. revert vs. induction ts as [|t ts IH]; intros [|v vs]; cbn; constructor; [apply conv_range|apply IH]. Qed.

Lemma default_range (l : list Z) i d : Forall is_u64 l -> is_u64 d -> is_u64 (default d (l !! i)).
Proof. intros Hl Hd. destruct (l !! i) eqn:E; [|done]. cbn. by apply (list.Forall_lookup_1 _ _ _ _ Hl E). Qed.

Lemma passed_range w vs : Forall is_u64 (passed w vs).
Proof.
  unfold passed. apply list.Forall_fmap, Forall_true. intros [i|v|f m]; cbn [eval_arg compose].
  - apply default_range; [apply converted_range|done].
  - apply wrap64_range.
  - case_goal; [done|]. apply default_range; [apply converted_range|done].
Qed.

Lemma call_regs_ok n args before r10 : is_u64 n -> Forall is_u64 args -> frame_ok before -> frame_ok (fst (call_regs n args before r10)).
Proof.
  intros Hn Ha Hb. unfold frame_ok, frame_words in *. rewrite !list.Forall_cons in Hb. destruct_and! Hb.
  unfold call_regs. cbn. repeat (apply list.Forall_cons; split); first [done | by apply default_range | by apply Forall_nil].
Qed.

Section Match.
Context (fuel : nat) (pauses : nat -> Pause) (irqs : nat -> list Irq).
Context (fork_return_trampoline user_task_trampoline : Z) (bus_write : (Z -> Z) -> Z -> Z -> (Z -> Z)).
#[local] Abbreviation route := (route fuel pauses irqs fork_return_trampoline user_task_trampoline bus_write).

(** The handler of number [n] with the registers of a call is the handler
    with the parameters in order; a register the wrapper leaves alone is not
    looked at. *)
Definition takes_params (w : Wrapper) (n : Z) : Prop :=
  forall vs before r10, length vs = length (w_params w) ->
    let '(regs, arg4) := call_regs n (passed w vs) before r10 in
    (n = Nr.CLONE -> f_r8 regs = param w vs 4) /\
    route n (f_rdi regs) (f_rsi regs) (f_rdx regs) arg4 (f_r8 regs) (f_r9 regs) =
    route n (param w vs 0) (param w vs 1) (param w vs 2) (param w vs 3) (param w vs 4) (param w vs 5).

Lemma wrappers_take_params :
  Forall (fun w => exists n, number_of (w_target w) = Some n /\ is_u64 n /\ name n = Some (kernel_name w) /\ takes_params w n) wrappers.
Proof.
  unfold wrappers. repeat (apply Forall_cons; [eexists; split; [reflexivity|]; split; [split; done|]; split; [reflexivity|];
    intros vs before r10 Hl; cbn in Hl; repeat (destruct vs as [|? vs]; try discriminate Hl);
    (split; [first [discriminate | reflexivity]|reflexivity])|]). apply Forall_nil.
Qed.
End Match.

Lemma returned_error r e : r = RInt \/ r = RLong -> returned r (errno e) = U64 - 1.
Proof. by intros [-> | ->]; destruct e. Qed.


