(* ===== verification/SafeFd.v ===== *)
(** * The invariant, below the system calls

    Waiting, the open files, the pipes and the descriptors keep the invariant
    of [Invariant.v].  [P] is what a panic implies: the lemmas that hold for
    every [P] are of operations that cannot panic. *)

From S2P Require Import Prelude Mem Update Result Logic Pmm Paging RamFs Ring Tty Types Vga State Task Proc Fd.
From S2P Require Import Pipes UserCopy Signal Futex Invariant.

(** ** Waiting *)

(** The part of the invariant that is not about the sizes of the tables. *)
Definition contents_ok (m0 : option Mem) (k : Kernel) : Prop :=
  (forall s t, zget (k_threads k) s = Some (Some t) -> thread_ok t) /\
  (forall s p, zget (k_processes k) s = Some (Some p) -> process_ok p) /\
  (forall i p, zget (k_pipes k) i = Some p -> pipe_ok p) /\ memory_ok m0 k.

Lemma inv_contents m0 k : sys_inv m0 k <-> kernel_wf k /\ contents_ok m0 k.
Proof. split; [intros [? ? ? ? ?]; by split_and!|]. intros (? & ? & ? & ? & ?). by constructor. Qed.

Lemma zget_zset_inv {A} (l : list A) s x i y : zget (zset l s x) i = Some y -> y = x \/ zget l i = Some y.
Proof.
  unfold zget, zset. case_goal; [|done]. intros H. destruct (decide (Z.to_nat i = Z.to_nat s)) as [E|E].
  - rewrite E in *. pose proof (lookup_lt_Some _ _ _ H) as Hl. rewrite length_insert in Hl.
    rewrite list_lookup_insert_eq in H by done. left. congruence.
  - rewrite list_lookup_insert_ne in H by done. by right.
Qed.

Section Sched.
Context (m0 : option Mem).
#[local] Abbreviation thin := (safe True (contents_ok m0)).

Lemma thin_get_table {A} (f : Kernel -> option A) :
  thin (let* k := getM in unwrap (f k)) (fun _ => True).
Proof. intros k Hk. rewrite getM_bind. unfold unwrap. by destruct (f k). Qed.

Lemma thin_set_task s t : thin (set_task s t) (fun _ => True).
Proof. intros k Hk. unfold set_task. rewrite getM_bind. destruct (zget (k_tasks k) s); done. Qed.

Lemma thin_reaped s : thin (task_slot_reaped s) (fun _ => True).
Proof.
  unfold task_slot_reaped. eapply safe_bind; [apply thin_get_table|]. intros [t|] _; [|by apply safe_ret].
  safe_step; [|by apply safe_ret]. unfold set_thread. eapply safe_bind; [apply thin_get_table|]. intros _ _.
  apply safe_modify. intros k (H1 & H2 & H3 & H4). split_and!; try done. cbn. intros s' t' Hs.
  apply zget_zset_inv in Hs as [|]; [done|]. by eapply H1.
Qed.

Lemma thin_retire c : thin (retire_current c) (fun _ => True).
Proof.
  unfold retire_current. safe_step. eapply safe_bind; [by apply safe_unwrap_any|]. intros [t|] _; [|by apply safe_ret].
  cbv zeta. safe_step.
  - eapply safe_bind; [apply thin_reaped|]. intros _ _. eapply safe_bind; [apply thin_set_task|]. intros. by apply safe_ret.
  - eapply safe_bind; [apply thin_set_task|]. intros. by apply safe_ret.
Qed.

Lemma thin_switch : thin next_task_switch (fun _ => True).
Proof.
  unfold next_task_switch. safe_step. safe_step; [|by apply safe_ret].
  eapply safe_bind; [apply thin_retire|]. intros ptr _. safe_step. eapply safe_bind; [by apply safe_unwrap_any|].
  intros t _. eapply safe_bind; [apply thin_set_task|]. intros _ _. cbv zeta.
  eapply safe_bind; [apply safe_modify; done|]. intros _ _.
  eapply safe_bind; [apply thin_get_table|]. intros. by apply safe_ret.
Qed.
End Sched.

Section Wait.
Context (P : Prop) (m0 : option Mem).
#[local] Abbreviation safe := (safe P (sys_inv m0)).

Lemma safe_next_task_switch : safe next_task_switch (fun _ => True).
Proof.
  intros k Hk. pose proof (proj1 (inv_contents m0 k) Hk) as [Hwf Hc]. pose proof (thin_switch m0 k Hc) as Ht.
  destruct (next_idx k) as [next|] eqn:En.
  - destruct (wf_slot_task k _ Hwf (wf_current _ Hwf)) as [o Ho].
    destruct (next_task_switch_run k next o Hwf En Ho) as (t & ptr & fs & k' & _ & Hrun & Hk' & _). rewrite Hrun in *.
    split; [|done]. apply inv_contents. split; [done|apply Ht].
  - unfold next_task_switch. rewrite getM_bind, En. done.
Qed.

Lemma safe_try_switch : safe try_switch (fun _ => True).
Proof. unfold try_switch. safe_step. safe_step; [by apply safe_ret|apply safe_next_task_switch]. Qed.

Lemma safe_pit_handler : safe pit_handler (fun _ => True).
Proof.
  unfold pit_handler, tick. eapply safe_bind; [apply safe_modify; eauto with safe|]. intros _ _.
  safe_step. safe_step; [apply safe_try_switch|by apply safe_ret].
Qed.

Lemma safe_wait_for_event irqs : safe (wait_for_event irqs) (fun _ => True).
Proof.
  unfold wait_for_event. apply safe_forM. intros [|b] _; cbn [take_irq].
  - eapply safe_bind; [apply safe_pit_handler|]. intros. by apply safe_ret.
  - apply safe_modify. intros k Hk. destruct (input_char b (k_tty k)) as [e t]. apply inv_write_bytes. by apply inv_tty.
Qed.

(** Other tasks keep the invariant while this one is switched away. *)
Definition pauses_ok (pauses : nat -> Pause) : Prop :=
  forall n k, sys_inv m0 k -> sys_inv m0 (pa_resume (pauses n) k).

Lemma safe_pause pauses n : pauses_ok pauses -> safe (pause (pauses n)) (fun _ => True).
Proof.
  intros Hp. unfold pause, yield_now. apply (safe_bind _ _ _ _ (fun _ => True)); [|intros; apply safe_wait_for_event].
  safe_step. cbv zeta. eapply safe_bind; [apply safe_modify; eauto with safe|]. intros _ _.
  eapply safe_bind; [apply safe_try_switch|]. intros sw _. apply (safe_bind _ _ _ _ (fun _ => True)).
  { safe_step; [apply safe_modify; apply Hp|by apply safe_ret]. }
  intros _ _. apply safe_modify. eauto with safe.
Qed.
End Wait.

#[export] Hint Resolve safe_wait_for_event safe_pause : safe.

(** ** Open files and pipes *)

Lemma Pipe_empty_ok : pipe_ok Pipe_empty.
Proof. split_and!; done || (unfold PIPE_CAPACITY; cbn; lia). Qed.

Section Files.
Context (P : Prop) (m0 : option Mem).
#[local] Abbreviation safe := (safe P (sys_inv m0)).

Lemma safe_set_file i f : safe (FdOpen.set_file i f) (fun _ => True).
Proof.
  apply safe_modify. intros k Hk. apply inv_open_files; [|done]. rewrite length_zset. apply (wf_open_files _ (si_wf _ _ Hk)).
Qed.

Lemma pipe_used k i p : sys_inv m0 k -> FdPipe.used k i = Some p -> pipe_ok p /\ 0 <= i.
Proof.
  intros Hk. unfold FdPipe.used. case_goal; [|done]. destruct (zget (k_pipes k) i) as [q|] eqn:E; [|done].
  destruct (pp_in_use q); [|done]. intros [= ->]. split; [by eapply (si_pipes _ _ Hk)|]. apply zget_Some in E. lia.
Qed.

Lemma safe_set_pipe i p : 0 <= i -> pipe_ok p -> safe (FdPipe.set_pipe i p) (fun _ => True).
Proof. intros Hi Hp. apply safe_modify. intros k Hk. by apply inv_pipes. Qed.

Lemma reclaim_ok p : pipe_ok p -> pipe_ok (FdPipe.reclaim p).
Proof. intros H. unfold FdPipe.reclaim. case_goal; [apply Pipe_empty_ok|done]. Qed.

Lemma safe_open_retain i : safe (FdOpen.retain i) (fun _ => True).
Proof. unfold FdOpen.retain. safe_step. safe_step; [|by apply safe_ret]. eapply safe_bind; [apply safe_set_file|]. intros. by apply safe_ret. Qed.

Lemma safe_open_release i : safe (FdOpen.release i) (fun _ => True).
Proof. unfold FdOpen.release. safe_step. safe_step; [|by apply safe_ret]. safe_step; apply safe_set_file. Qed.

Lemma safe_open_alloc i f : safe (FdOpen.alloc i f) (fun _ => True).
Proof. unfold FdOpen.alloc. safe_step. safe_step; [|by apply safe_ret]. eapply safe_bind; [apply safe_set_file|]. intros. by apply safe_ret. Qed.

Lemma safe_open_set_status i f : safe (FdOpen.set_status_flags i f) (fun _ => True).
Proof. unfold FdOpen.set_status_flags. safe_step. safe_step; [|by apply safe_ret]. eapply safe_bind; [apply safe_set_file|]. intros. by apply safe_ret. Qed.

Lemma safe_with_mut {R} i (f : OpenFile -> M Kernel (R * OpenFile)) Q :
  (forall file, safe (f file) (fun r => Q (fst r))) -> safe (FdOpen.with_mut i f) (opt Q).
Proof.
  intros Hf. unfold FdOpen.with_mut. safe_step. safe_step; [|by apply safe_ret].
  eapply safe_bind; [apply Hf|]. intros r Hr. eapply safe_bind; [apply safe_set_file|]. intros. by apply safe_ret.
Qed.

Lemma safe_pipe_retain_read i : safe (FdPipe.retain_read i) (fun _ => True).
Proof.
  unfold FdPipe.retain_read. safe_step. safe_step; [|by apply safe_ret]. destruct (pipe_used _ _ _ H Heqo) as [Hp Hi].
  eapply safe_bind; [by apply safe_set_pipe|]. intros. by apply safe_ret.
Qed.

Lemma safe_pipe_retain_write i : safe (FdPipe.retain_write i) (fun _ => True).
Proof.
  unfold FdPipe.retain_write. safe_step. safe_step; [|by apply safe_ret]. destruct (pipe_used _ _ _ H Heqo) as [Hp Hi].
  eapply safe_bind; [by apply safe_set_pipe|]. intros. by apply safe_ret.
Qed.

Lemma safe_pipe_release_read i : safe (FdPipe.release_read i) (fun _ => True).
Proof.
  unfold FdPipe.release_read. safe_step. safe_step; [|by apply safe_ret]. destruct (pipe_used _ _ _ H Heqo) as [Hp Hi].
  cbv zeta. apply safe_set_pipe; [done|]. apply reclaim_ok. by case_goal.
Qed.

Lemma safe_pipe_release_write i : safe (FdPipe.release_write i) (fun _ => True).
Proof.
  unfold FdPipe.release_write. safe_step. safe_step; [|by apply safe_ret]. destruct (pipe_used _ _ _ H Heqo) as [Hp Hi].
  cbv zeta. apply safe_set_pipe; [done|]. apply reclaim_ok. by case_goal.
Qed.

Lemma safe_retain t : safe (retain_fd_target t) (fun _ => True).
Proof.
  destruct t; cbn; first [by apply safe_ret|apply safe_open_retain|apply safe_pipe_retain_read|apply safe_pipe_retain_write].
Qed.

Lemma safe_release t : safe (release_fd_target t) (fun _ => True).
Proof.
  destruct t; cbn; first [by apply safe_ret|apply safe_open_release|apply safe_pipe_release_read|apply safe_pipe_release_write].
Qed.

Lemma safe_release_fds fds : safe (release_fds fds) (fun _ => True).
Proof. apply safe_forM. intros t _. apply safe_release. Qed.

Lemma safe_fork_retain t : safe (fork_retain t) (fun _ => True).
Proof.
  unfold fork_retain. safe_step. destruct t; try by apply safe_ret.
  - safe_step; [apply safe_set_file|by apply safe_ret].
  - safe_step; [|by apply safe_ret]. destruct (pipe_used _ _ _ H Heqo) as [Hp Hi]. by apply safe_set_pipe.
  - safe_step; [|by apply safe_ret]. destruct (pipe_used _ _ _ H Heqo) as [Hp Hi]. by apply safe_set_pipe.
Qed.

Lemma safe_pipe_alloc : safe FdPipe.alloc (opt (fun i => 0 <= i)).
Proof.
  unfold FdPipe.alloc. safe_step. safe_step; [|by apply safe_ret]. apply zposition_Some in Heqo as (_ & _ & _ & Hz).
  eapply safe_bind; [apply safe_set_pipe; [lia|apply Pipe_new_ok]|]. intros. apply safe_ret. cbn. lia.
Qed.

Lemma safe_pipe_clear i : 0 <= i -> safe (FdPipe.clear i) (fun _ => True).
Proof. intros Hi. unfold FdPipe.clear. safe_step; [|by apply safe_ret]. apply safe_set_pipe; [done|apply Pipe_empty_ok]. Qed.

(** ** Descriptors *)

(** A descriptor the table has. *)
Lemma fds_get {A} (l : list A) fd : length l = 16%nat -> 0 <= fd -> (MAX_FDS <=? fd) = false -> exists t, zget l fd = Some t.
Proof. intros Hl H0 H. breflect. apply zget_is_Some. unfold MAX_FDS in H. lia. Qed.

Lemma safe_get_fd_target fd : 0 <= fd -> safe (get_fd_target fd) (fun _ => True).
Proof.
  intros Hfd. unfold get_fd_target. safe_step. safe_step; [|by apply safe_ret]. subst. cbn in H. facts.
  safe_step; [by apply safe_ret|]. eapply safe_bind; [apply safe_unwrap; by apply fds_get|]. intros. by apply safe_ret.
Qed.
End Files.

#[export] Hint Resolve safe_open_retain safe_open_release safe_open_alloc safe_open_set_status safe_pipe_alloc safe_pipe_clear
  safe_retain safe_release safe_release_fds safe_fork_retain safe_get_fd_target : safe.

(** ** Descriptors *)

(** A buffer in user memory. *)
Definition user_buf (buf n : Z) : Prop := 0 <= buf /\ 0 <= n /\ buf + n <= USER_TOP.

Lemma free_fd_range fds from fd : 0 <= from -> free_fd fds from = Some fd -> 0 <= fd < 16.
Proof. intros H0 H. apply find_some in H as [H _]. apply list_elem_of_In, elem_of_seqZ in H. unfold MAX_FDS in H. lia. Qed.

Lemma free_fd_bound fds from fd : free_fd fds from = Some fd -> 0 <= from -> 0 <= fd < 16.
Proof. intros H H0. by apply free_fd_range in H. Qed.

Lemma fd_bound fd : (MAX_FDS <=? fd) = false -> 0 <= fd -> 0 <= fd < 16.
Proof. intros H H0. breflect. unfold MAX_FDS in H. lia. Qed.

Lemma free_fd_nonneg fds from fd : free_fd fds from = Some fd -> 0 <= from -> 0 <= fd.
Proof. intros H H0. apply free_fd_range in H; lia. Qed.

#[export] Hint Resolve free_fd_nonneg free_fd_bound fd_bound : safe.

Lemma pipe_push_all_ok bytes p : pipe_ok p -> pipe_ok (push_all bytes p).
Proof. revert p. induction bytes as [|b bytes IH]; intros p Hp; [done|]. apply IH. by apply pipe_push_ok. Qed.

Lemma length_read_round n t : (length (fst (read_round n t)) <= n)%nat.
Proof.
  revert t. induction n as [|n IH]; intros t; cbn [read_round]; [done|]. destruct (cooked_pop t) as [[b|] t']; [|cbn; lia].
  destruct (b =? 10); [cbn; lia|]. specialize (IH t'). destruct (read_round n t') as [l u]. cbn in *. lia.
Qed.

Lemma fs_read_outside i o buf count fs m : 0 <= count ->
  forall a, a < buf \/ buf + count <= a -> snd (fs_read i o buf count fs m) a = m a.
Proof.
  intros Hc a Ha. unfold fs_read. destruct fs as [files|]; [|done]. destruct (file_at files i) as [f|]; [|done].
  cbv zeta. case_goal; [done|]. cbn [snd]. apply store_bytes_outside. rewrite length_take.
  pose proof (Z.le_min_l count (sat_sub64 (vlen (data f)) o)). lia.
Qed.

(** Step through an operation, opening what is read from the tables. *)
Ltac safe_next := safe_step; cbn beta in *; cbn [fst snd opt] in *; facts; try solve [done | eauto 3 with safe].
Ltac safe_auto := repeat safe_next.

Section Descriptors.
Context (P : Prop) (m0 : option Mem).
#[local] Abbreviation safe := (safe P (sys_inv m0)).

Lemma safe_fd_entry {A} (l : list A) fd : length l = 16%nat -> 0 <= fd -> (MAX_FDS <=? fd) = false ->
  safe (unwrap (zget l fd)) (fun _ => True).
Proof. intros Hl H0 H. eapply safe_any, safe_unwrap. by apply fds_get. Qed.


Lemma safe_set_fd slot p fd t flags : good_process slot p -> safe (set_fd slot p fd t flags) (fun _ => True).
Proof. intros Hp. unfold set_fd. safe_auto. Qed.

Lemma safe_put_fd_target slot fd t : 0 <= slot < 8 -> safe (put_fd_target slot fd t) (fun _ => True).
Proof. intros H. unfold put_fd_target. safe_auto. Qed.

Lemma safe_put_fd_flags slot fd t : 0 <= slot < 8 -> safe (put_fd_flags slot fd t) (fun _ => True).
Proof. intros H. unfold put_fd_flags. safe_auto. Qed.
End Descriptors.

#[export] Hint Resolve safe_fd_entry safe_set_fd safe_put_fd_target safe_put_fd_flags : safe.

Section Descriptors2.
Context (P : Prop) (m0 : option Mem).
#[local] Abbreviation safe := (safe P (sys_inv m0)).
#[local] Abbreviation fd_result := (opt (fun fd => 0 <= fd)).

Lemma safe_alloc_fd_with_flags i f : safe (alloc_fd_with_flags i f) fd_result.
Proof. unfold alloc_fd_with_flags. safe_auto. Qed.

Lemma safe_close_fd fd : 0 <= fd -> safe (close_fd fd) (fun _ => True).
Proof. intros Hfd. unfold close_fd. safe_auto. Qed.

Lemma safe_alloc_specific_fd t f : safe (alloc_specific_fd t f) fd_result.
Proof. unfold alloc_specific_fd. safe_auto. Qed.

Lemma safe_dup_to slot p t fd c : good_process slot p -> 0 <= fd < 16 -> safe (dup_to slot p t fd c) fd_result.
Proof.
  intros Hp Hfd. unfold dup_to. eapply safe_bind; [apply safe_fd_entry; [by destruct Hp as (_ & (? & _) & _)|lia|]|].
  { apply Z.leb_gt. unfold MAX_FDS. lia. }
  intros old _. safe_auto.
Qed.

Lemma safe_dup_fd old_fd min_fd new_fd c : 0 <= old_fd -> 0 <= min_fd -> opt (fun fd => 0 <= fd) new_fd ->
  safe (dup_fd old_fd min_fd new_fd c) fd_result.
Proof. intros Ho Hm Hn. unfold dup_fd. safe_auto; apply safe_dup_to; eauto 3 with safe. Qed.

Lemma safe_get_fd_flags fd : 0 <= fd -> safe (get_fd_flags fd) (fun _ => True).
Proof. intros Hfd. unfold get_fd_flags. safe_auto. Qed.

Lemma safe_set_fd_flags fd f : 0 <= fd -> safe (set_fd_flags fd f) (fun _ => True).
Proof. intros Hfd. unfold set_fd_flags. safe_auto. Qed.

Lemma safe_open_info i : safe (FdOpen.descriptor_info i) (fun _ => True).
Proof. unfold FdOpen.descriptor_info. safe_auto. Qed.

Lemma safe_open_status i : safe (FdOpen.status_flags i) (fun _ => True).
Proof. unfold FdOpen.status_flags. safe_auto. Qed.

Lemma safe_pipe_status fd : 0 <= fd -> safe (FdPipe.status_flags fd) (fun _ => True).
Proof. intros Hfd. unfold FdPipe.status_flags. safe_auto. Qed.

Lemma safe_pipe_set_status fd f : 0 <= fd -> safe (FdPipe.set_status_flags fd f) (fun _ => True).
Proof.
  intros Hfd. unfold FdPipe.set_status_flags. do 2 safe_step.
  destruct a as [[]|]; try (by apply safe_ret); (safe_step; [|by apply safe_ret]);
    destruct (pipe_used m0 _ _ _ ltac:(done) Heqo) as [Hp Hi]; (eapply safe_bind; [by apply safe_set_pipe|intros; by apply safe_ret]).
Qed.

Lemma safe_peer_closed fd : 0 <= fd -> safe (FdPipe.peer_closed fd) (fun _ => True).
Proof. intros Hfd. unfold FdPipe.peer_closed. safe_auto. Qed.

Lemma safe_get_mut fd : 0 <= fd -> safe (FdPipe.get_mut fd) (opt (fun r => 0 <= fst (fst r) /\ pipe_ok (snd (fst r)))).
Proof.
  intros Hfd. unfold FdPipe.get_mut. do 2 safe_step. cbn beta in *. apply safe_ret.
  destruct a as [[]|]; try done; (destruct (FdPipe.used a0 _) eqn:E; [|done]); cbn;
    destruct (pipe_used m0 _ _ _ ltac:(done) E); done.
Qed.
End Descriptors2.

#[export] Hint Resolve safe_alloc_fd_with_flags safe_close_fd safe_alloc_specific_fd safe_dup_to safe_dup_fd safe_get_fd_flags
  safe_set_fd_flags safe_open_info safe_open_status safe_pipe_status safe_pipe_set_status safe_peer_closed safe_get_mut : safe.

(** ** Reading and writing *)

Section Transfer.
Context (P : Prop) (m0 : option Mem).
#[local] Abbreviation safe := (safe P (sys_inv m0)).

Lemma safe_on_pipe {A} i p (m : M Pipe A) (Q : A -> Prop) : 0 <= i ->
  (exists a p', m p = OOk a p' /\ pipe_ok p' /\ Q a) -> safe (FdPipe.on_pipe i p m) Q.
Proof. intros Hi (a & p' & Hm & Hp & HQ) k Hk. unfold FdPipe.on_pipe. rewrite Hm. split; [by apply inv_pipes|done]. Qed.

Lemma safe_pipe_write fd bs : 0 <= fd -> safe (FdPipe.write fd bs) (fun _ => True).
Proof.
  intros Hfd. unfold FdPipe.write. safe_step. destruct a as [[[i p] e]|]; [|by apply safe_ret]. cbn in H. destruct H as [Hi Hp].
  safe_step; [by apply safe_ret|]. safe_step; [by apply safe_ret|].
  eapply safe_bind; [apply (safe_on_pipe _ _ _ (fun _ => True)); [done|]|intros; by apply safe_ret].
  eexists _, _. split; [by apply write_loop_spec|]. split; [by apply pipe_push_all_ok|done].
Qed.

Lemma safe_store buf bs n : user_buf buf n -> Z.of_nat (length bs) <= n ->
  safe (modifyM (fun k => k <| k_umem := store_bytes (k_umem k) buf bs |>)) (fun _ => True).
Proof. intros (H1 & H2 & H3) Hl. apply safe_modify. intros k Hk. apply inv_store; done || lia. Qed.

Lemma safe_pipe_read fuel irqs fd buf n : 0 <= fd -> user_buf buf n -> safe (FdPipe.read fuel irqs fd buf n) (fun _ => True).
Proof.
  intros Hfd Hbuf. induction fuel as [|f IH]; cbn [FdPipe.read].
  all: safe_step; safe_step; [|by apply safe_ret]; safe_step.
  all: destruct a0 as [[[i p] e]|]; [|by apply safe_ret].
  all: match goal with H : opt _ _ |- _ => cbn in H; destruct H as [Hi Hp] end.
  all: safe_step; [by apply safe_ret|]; safe_step.
  all: first [apply (safe_bind _ _ _ _ (fun l => Z.of_nat (length l) <= n)) | safe_auto].
  1,3: apply safe_on_pipe; [done|]; destruct (read_loop_spec (Z.to_nat n) p Hp) as (p' & Hr & Hp' & _);
    eexists _, _; split; [exact Hr|]; split; [done|]; rewrite length_take; destruct Hbuf; lia.
  all: intros l Hl; cbn beta in Hl; eapply safe_bind; [by eapply safe_store|]; intros; by apply safe_ret.
Qed.

Lemma safe_tty_write bs : safe (tty_write bs) (fun _ => True).
Proof. unfold tty_write. eapply safe_bind; [apply safe_modify; eauto with safe|]. intros. by apply safe_ret. Qed.

Lemma safe_tty_read fuel irqs buf n : user_buf buf n -> safe (tty_read fuel irqs buf n) (fun _ => True).
Proof.
  intros (H1 & H2 & H3). induction fuel as [|f IH]; cbn [tty_read].
  all: safe_step; [by apply safe_ret|]; safe_step.
  all: match goal with |- context [read_round ?c ?t] => pose proof (length_read_round c t) as Hl;
         destruct (read_round c t) as [bs t'] end; cbn in Hl.
  all: eapply safe_bind; [apply safe_modify; intros k Hk;
         apply (inv_store m0 (k <| k_tty := t' |>) buf bs (inv_tty _ _ _ Hk)); [done|lia]|intros _ _]; safe_auto.
Qed.

Lemma safe_write_char_device t bs : safe (write_char_device t bs) (fun _ => True).
Proof. unfold write_char_device. destruct t; first [apply safe_tty_write|by apply safe_ret]. Qed.

Lemma safe_read_char_device fuel irqs t buf n : user_buf buf n -> safe (read_char_device fuel irqs t buf n) (fun _ => True).
Proof.
  intros Hb. unfold read_char_device. destruct t; try (by apply safe_ret); [by apply safe_tty_read|].
  eapply safe_bind; [apply safe_modify|intros; by apply safe_ret]. intros k Hk. destruct Hb as (H1 & H2 & H3).
  apply (inv_umem _ _ _ buf n); try done. intros a Ha. unfold fill, in_range. case_goal; [|done]. breflect. lia.
Qed.
End Transfer.

#[export] Hint Resolve safe_pipe_write safe_pipe_read safe_tty_write safe_tty_read safe_write_char_device
  safe_read_char_device : safe.

Section FdIo.
Context (P : Prop) (m0 : option Mem).
#[local] Abbreviation safe := (safe P (sys_inv m0)).

Lemma safe_descriptor_info fd : 0 <= fd -> safe (descriptor_info fd) (fun _ => True).
Proof. intros Hfd. unfold descriptor_info. safe_auto. Qed.

Lemma safe_with_fd_mut {R} fd (f : OpenFile -> M Kernel (R * OpenFile)) : 0 <= fd ->
  (forall file, safe (f file) (fun _ => True)) -> safe (with_fd_mut fd f) (fun _ => True).
Proof.
  intros Hfd Hf. unfold with_fd_mut. safe_step. destruct a as [[]|]; try (by apply safe_ret).
  eapply safe_any. apply (safe_with_mut _ _ _ _ (fun _ => True)). apply Hf.
Qed.

Lemma safe_get_status_flags fd : 0 <= fd -> safe (get_status_flags fd) (fun _ => True).
Proof. intros Hfd. unfold get_status_flags. safe_auto. Qed.

Lemma safe_set_status_flags fd f : 0 <= fd -> safe (set_status_flags fd f) (fun _ => True).
Proof. intros Hfd. unfold set_status_flags. safe_auto. Qed.

Lemma safe_seek fd o w : 0 <= fd -> safe (seek fd o w) (fun _ => True).
Proof.
  intros Hfd. unfold seek. eapply safe_bind; [apply safe_with_fd_mut; [done|]|intros; by apply safe_ret].
  intros file. safe_auto.
Qed.

Lemma safe_read_file fd buf n : 0 <= fd -> user_buf buf n -> safe (read_file fd buf n) (fun _ => True).
Proof.
  intros Hfd (H1 & H2 & H3). unfold read_file. eapply safe_bind; [apply safe_with_fd_mut; [done|]|intros; by apply safe_ret].
  intros file. safe_step; [by apply safe_ret|].
  intros k Hk. rewrite getM_bind. pose proof (fs_read_outside (of_file_idx file) (of_offset file) buf n (k_fs k) (k_umem k) H2) as Ho.
  destruct (fs_read _ _ _ _ _ _) as [r m]. split; [|done]. by apply (inv_umem _ _ _ buf n).
Qed.

(** A write at an offset beyond the largest vector panics. *)
Lemma safe_write_file fd bs : P -> 0 <= fd -> safe (write_file fd bs) (fun _ => True).
Proof.
  intros HP Hfd. unfold write_file. eapply safe_bind; [apply safe_with_fd_mut; [done|]|intros; by apply safe_ret].
  intros file. cbv zeta. safe_step; [by apply safe_ret|]. safe_step.
  eapply safe_bind; [apply safe_on_fs; by left|]. intros ok _. safe_auto.
Qed.
End FdIo.

#[export] Hint Resolve safe_descriptor_info safe_get_status_flags safe_set_status_flags safe_seek safe_read_file
  safe_write_file : safe.

Section FdIo2.
Context (P : Prop) (m0 : option Mem).
#[local] Abbreviation safe := (safe P (sys_inv m0)).

Lemma safe_file_size fd : 0 <= fd -> safe (file_size fd) (fun _ => True).
Proof. intros Hfd. unfold file_size. safe_auto. Qed.

Lemma safe_is_stdin fd : 0 <= fd -> safe (is_stdin fd) (fun _ => True).
Proof. intros Hfd. unfold is_stdin. safe_auto. Qed.

Lemma safe_is_stdout fd : 0 <= fd -> safe (is_stdout_or_stderr fd) (fun _ => True).
Proof. intros Hfd. unfold is_stdout_or_stderr. safe_auto. Qed.

Lemma safe_alloc_pipe : safe alloc_pipe (opt (fun r => 0 <= fst r /\ 0 <= snd r)).
Proof. unfold alloc_pipe. safe_auto. Qed.

Lemma safe_open_char_device t : safe (open_char_device t) (opt (fun fd => 0 <= fd)).
Proof. unfold open_char_device. destruct t; first [by apply safe_ret|apply safe_alloc_specific_fd]. Qed.

Lemma safe_write_to_fd fd bs : P -> 0 <= fd -> safe (write_to_fd fd bs) (fun _ => True).
Proof.
  intros HP Hfd. unfold write_to_fd. eapply safe_bind; [by apply safe_is_stdout|]. unfold write_pipe. intros out _. safe_auto.
Qed.

Lemma safe_read_from_fd fuel irqs fd buf n : 0 <= fd -> user_buf buf n -> safe (read_from_fd fuel irqs fd buf n) (fun _ => True).
Proof.
  intros Hfd Hb. unfold read_from_fd. safe_step; [by apply safe_ret|]. eapply safe_bind; [by apply safe_is_stdin|].
  unfold read_pipe. intros out _. safe_auto.
Qed.

Lemma safe_reap_slot s : 0 <= s < 8 -> safe (reap_slot s) (fun _ => True).
Proof. intros Hs. unfold reap_slot. safe_auto. Qed.
End FdIo2.

#[export] Hint Resolve safe_file_size safe_is_stdin safe_is_stdout safe_alloc_pipe safe_open_char_device safe_write_to_fd
  safe_read_from_fd safe_reap_slot : safe.

(** ** A sample state *)

Lemma no_kill_empty : no_kill SigSet_empty. Proof. intros w [= <-]. done. Qed.

Lemma sample_proc_inv m0 : memory_ok m0 sample_proc -> sys_inv m0 sample_proc.
Proof.
  intros Hm. constructor; [apply sample_proc_wf|..|done].
  - intros s t Hs. apply zget_zset_inv in Hs as [[= ->]|Hs]; [|by apply zget_replicate in Hs].
    constructor; try done; split; try done; apply no_kill_empty.
  - intros s p Hs. apply zget_zset_inv in Hs as [[= ->]|Hs]; [|by apply zget_replicate in Hs].
    constructor; [done|]. by apply Forall_replicate.
  - intros i p Hi. apply zget_replicate in Hi as ->. apply Pipe_empty_ok.
Qed.
