(* ===== verification/Waiting.v ===== *)
(** * Waiting ends

    A task that sleeps, or waits for a futex with a time limit, gives way to
    the other tasks in rounds; here each round is shown to move the clock
    on, and the waits to end when they should. *)

From S2P Require Import Prelude Mem Update Result Logic Ring Tty Types State Task Proc Fd UserCopy Futex Time Invariant SafeFd.

(** ** The clock in a round of waiting *)

(** A computation that leaves the clock alone. *)
#[local] Abbreviation still T := (safe True (fun k : Kernel => k_ticks k = T)).

Ltac read_state := eapply safe_bind; [apply safe_get|]; intros ? _.

Section Clock.
Context (T : Z).

Lemma still_unwrap {A} (o : option A) : still T (unwrap o) (fun _ => True).
Proof. eapply safe_any. by apply safe_unwrap_any. Qed.

Lemma still_set_task s t : still T (set_task s t) (fun _ => True).
Proof.
  unfold set_task. read_state. eapply safe_bind; [apply still_unwrap|]. intros. by apply safe_modify.
Qed.

Lemma still_thread_at s : still T (thread_at s) (fun _ => True).
Proof. unfold thread_at. read_state. apply still_unwrap. Qed.

Lemma still_reaped s : still T (task_slot_reaped s) (fun _ => True).
Proof.
  unfold task_slot_reaped. eapply safe_bind; [apply still_thread_at|]. intros [t|] _; [|by apply safe_ret].
  safe_step; [|by apply safe_ret]. unfold set_thread. eapply safe_bind; [apply still_thread_at|]. intros. by apply safe_modify.
Qed.

Lemma still_retire c : still T (retire_current c) (fun _ => True).
Proof.
  unfold retire_current. read_state. eapply safe_bind; [apply still_unwrap|]. intros [t|] _; [|by apply safe_ret]. cbv zeta. safe_step.
  - eapply safe_bind; [apply still_reaped|]. intros _ _. eapply safe_bind; [apply still_set_task|]. intros. by apply safe_ret.
  - eapply safe_bind; [apply still_set_task|]. intros. by apply safe_ret.
Qed.

Lemma still_try_switch : still T try_switch (fun _ => True).
Proof.
  unfold try_switch, next_task_switch. read_state. safe_step; [by apply safe_ret|]. read_state. safe_step; [|by apply safe_ret].
  eapply safe_bind; [apply still_retire|]. intros ptr _. read_state. eapply safe_bind; [apply still_unwrap|].
  intros t _. eapply safe_bind; [apply still_set_task|]. intros _ _. cbv zeta.
  eapply safe_bind; [by apply safe_modify|]. intros _ _. eapply safe_bind; [apply still_thread_at|]. intros. by apply safe_ret.
Qed.
End Clock.

Lemma try_switch_total m0 k : sys_inv m0 k ->
  exists r k', try_switch k = OOk r k' /\ sys_inv m0 k' /\ k_ticks k' = k_ticks k.
Proof.
  intros Hk. pose proof (still_try_switch (k_ticks k) k eq_refl) as Ht. pose proof (safe_try_switch False m0 k Hk) as Hs.
  assert (forall e k', try_switch k <> OErr e k') as Hne.
  { intros e k'. unfold try_switch. rewrite getM_bind. destruct (k_in_syscall k); [done|].
    destruct (next_idx k) as [next|] eqn:En; [|unfold next_task_switch; by rewrite getM_bind, En].
    destruct (wf_slot_task k _ (si_wf _ _ Hk) (wf_current _ (si_wf _ _ Hk))) as [o Ho].
    destruct (next_task_switch_run k next o (si_wf _ _ Hk) En Ho) as (t & ptr & fs & k1 & _ & -> & _). done. }
  destruct (try_switch k) as [r k'|e k'|]; [|by destruct (Hne e k')|done]. exists r, k'. split; [done|]. by split; [apply Hs|apply Ht].
Qed.

Definition is_timer (i : Irq) : bool := match i with TimerIrq => true | _ => false end.

(** Each timer interrupt is one tick. *)
Lemma irqs_clock m0 irqs k : sys_inv m0 k -> 0 <= k_ticks k -> k_ticks k + Z.of_nat (length (List.filter is_timer irqs)) < U64 ->
  exists k', wait_for_event irqs k = OOk tt k' /\ sys_inv m0 k' /\
    k_ticks k' = k_ticks k + Z.of_nat (length (List.filter is_timer irqs)).
Proof.
  unfold wait_for_event. revert k. induction irqs as [|i irqs IH]; intros k Hk H0 Hb; cbn [forM List.filter] in *.
  - exists k. split; [done|]. split; [done|]. cbn. lia.
  - assert (exists k1, take_irq i k = OOk tt k1 /\ sys_inv m0 k1 /\ k_ticks k1 = k_ticks k + if is_timer i then 1 else 0)
      as (k1 & Hrun & Hk1 & Ht1).
    { destruct i as [|b]; cbn [take_irq is_timer].
      - set (k1 := k <| k_ticks := k_ticks k +w 1 |>). assert (k_ticks k1 = k_ticks k + 1) as E.
        { unfold k1. cbn in Hb |- *. apply wrap64_small. lia. }
        assert (sys_inv m0 k1) as Hk1 by by apply inv_ticks.
        destruct (try_switch_total m0 k1 Hk1) as (r & k2 & Hsw & Hk2 & Ht2).
        unfold pit_handler, tick. unfold bindM at 1 2, modifyM at 1. fold k1. rewrite getM_bind.
        destruct (k_ticks k1 mod 10 =? 0); [|exists k1; done]. rewrite Hsw. exists k2. split; [done|]. split; [done|]. lia.
      - eexists. split; [reflexivity|]. destruct (input_char b (k_tty k)) as [e t].
        split; [apply inv_write_bytes; by apply inv_tty|]. cbn. lia. }
    rewrite (bind_ok _ _ _ _ _ Hrun). destruct (IH k1 Hk1) as (k' & -> & Hk' & Ht').
    + destruct (is_timer i); lia.
    + destruct (is_timer i); cbn [length] in Hb; lia.
    + exists k'. split; [done|]. split; [done|]. destruct (is_timer i); cbn [length]; lia.
Qed.

(** A round: the other tasks keep the invariant and do not turn the clock
    back, and at least one and at most [d] timer interrupts arrive, as many
    while the task is switched away. *)
Record round_ok (d : Z) (p : Pause) : Prop := {
  ro_inv : forall k, sys_inv None k -> sys_inv None (pa_resume p k);
  ro_ticks : forall k, k_ticks k <= k_ticks (pa_resume p k) <= k_ticks k + d;
  ro_timer : 1 <= Z.of_nat (length (List.filter is_timer (pa_irqs p))) <= d;
}.

Lemma pause_clock d p k : round_ok d p -> sys_inv None k -> 0 <= k_ticks k -> k_ticks k + 2 * d < U64 ->
  exists k', pause p k = OOk tt k' /\ sys_inv None k' /\ k_ticks k + 1 <= k_ticks k' <= k_ticks k + 2 * d.
Proof.
  intros [Hinv Hticks Htimer] Hk H0 Hb. unfold pause, yield_now.
  assert (exists k1, yield_now (pa_resume p) k = OOk tt k1 /\ sys_inv None k1 /\ k_ticks k <= k_ticks k1 <= k_ticks k + d)
    as (k1 & Hy & Hk1 & Ht1).
  { unfold yield_now. rewrite getM_bind. cbv zeta. unfold bindM at 1, modifyM at 1. set (ka := k <| k_in_syscall := false |>).
    assert (sys_inv None ka) as Hka by by apply inv_in_syscall.
    destruct (try_switch_total None ka Hka) as (r & kb & Hsw & Hkb & Htb). change (k_ticks ka) with (k_ticks k) in Htb.
    rewrite (bind_ok _ _ _ _ _ Hsw). destruct r as [sw|]; eexists; (split; [reflexivity|]); (split; [apply inv_in_syscall; auto|]).
    - pose proof (Hticks kb) as Hr. rewrite Htb in Hr. exact Hr.
    - assert (k_ticks k <= k_ticks kb <= k_ticks k + d) as Hr by lia. exact Hr. }
  fold (yield_now (pa_resume p)). rewrite (bind_ok _ _ _ _ _ Hy).
  destruct (irqs_clock None (pa_irqs p) k1) as (k' & -> & Hk' & Ht'); [done|lia|lia|].
  exists k'. split; [done|]. split; [done|]. lia.
Qed.

(** ** Sleeping *)

Section Sleep.
Context (d : Z) (pauses : nat -> Pause) (Hpauses : forall n, round_ok d (pauses n)).

Lemma sleep_loop_ends fuel k start wait : sys_inv None k -> 0 <= start <= k_ticks k -> k_ticks k - start < wait + 2 * d ->
  start + wait + 2 * d < U64 -> start + wait - k_ticks k <= Z.of_nat fuel ->
  exists k', sleep_loop fuel pauses start wait k = OOk (Done tt) k' /\ sys_inv None k' /\
    wait <= k_ticks k' - start < wait + 2 * d.
Proof.
  revert k. induction fuel as [|fuel IH]; intros k Hk Hs Hw Hb Hf; cbn [sleep_loop]; unfold ticks.
  all: unfold bindM at 1; cbn [getM bindM retM]; cbv beta iota; rewrite wrap64_small by (unfold U64 in *; lia).
  all: destruct (Z.ltb_spec (k_ticks k - start) wait) as [Hlt|Hge]; [|exists k; split; [reflexivity|split; [done|lia]]].
  - lia.
  - destruct (pause_clock d (pauses fuel) k (Hpauses fuel) Hk ltac:(lia) ltac:(lia)) as (k1 & Hp & Hk1 & Ht1).
    rewrite (bind_ok _ _ _ _ _ Hp). apply IH; lia || done.
Qed.

Lemma sleep_yield_ends fuel k wait : sys_inv None k -> 0 <= k_ticks k -> 0 <= wait -> 1 <= d ->
  k_ticks k + wait + 2 * d < U64 -> wait <= Z.of_nat fuel ->
  exists k', sleep_yield fuel pauses wait k = OOk (Done tt) k' /\ sys_inv None k' /\
    wait <= k_ticks k' - k_ticks k < wait + 2 * d.
Proof.
  intros Hk H0 Hw Hd Hb Hf. unfold sleep_yield, ticks.
  destruct (sleep_loop_ends fuel k (k_ticks k) wait Hk) as (k' & Hrun & H); try lia. exists k'. split; [exact Hrun|done].
Qed.
End Sleep.

(** ** [nanosleep] *)

Definition NANOS_PER_TICK : Z := 10000000.

(** The time asked for in nanoseconds, at most what 64 bits hold. *)
Definition total_ns (req : TimeSpec) : Z := Z.min (tv_sec req * NANOS_PER_SEC + tv_nsec req) (U64 - 1).

(** The time the caller asks for, if its pointer is good. *)
Definition requested (k : Kernel) (req_ptr : Z) : option TimeSpec :=
  if user_range_ok req_ptr (size_of TimeSpec) then Some (of_bytes (load_bytes (k_umem k) req_ptr (size_of TimeSpec))) else None.

Lemma requested_run k req_ptr : copy_struct_from_user TimeSpec req_ptr k = OOk (requested k req_ptr) k.
Proof. rewrite copy_struct_from_user_eq. unfold requested. by case_goal. Qed.

Lemma sleep_ticks_of req : timespec_valid req = true ->
  let n := div_ceil (sat_add64 (sat_mul64 (tv_sec req) NANOS_PER_SEC) (tv_nsec req)) (NANOS_PER_SEC / PIT_HZ) in
  0 <= n /\ total_ns req <= n * NANOS_PER_TICK < total_ns req + NANOS_PER_TICK.
Proof.
  intros Hv n. unfold timespec_valid in *. breflect.
  assert (sat_add64 (sat_mul64 (tv_sec req) NANOS_PER_SEC) (tv_nsec req) = total_ns req) as E
    by (unfold sat_add64, sat_mul64, total_ns, U64; lia).
  unfold n. rewrite E. assert (0 <= total_ns req) by (unfold total_ns, NANOS_PER_SEC, U64; lia).
  unfold NANOS_PER_TICK, NANOS_PER_SEC, PIT_HZ in *. change (1000000000 / 100) with 10000000.
  set (t := total_ns req) in *. clearbody t. unfold div_ceil.
  pose proof (Z.div_mod t 10000000 ltac:(lia)). pose proof (Z.mod_pos_bound t 10000000 ltac:(lia)).
  pose proof (Z.div_pos t 10000000 ltac:(lia) ltac:(lia)). case_goal; breflect; lia.
Qed.

Lemma zero_time_size : Z.of_nat (length (bytes_of (mkTimeSpec 0 0))) = size_of TimeSpec.
Proof. reflexivity. Qed.

(** Whether the remaining time can be reported. *)
Definition rem_ok (rem_ptr : Z) : bool := (rem_ptr =? 0) || user_range_ok rem_ptr (size_of TimeSpec).

Lemma write_rem_run m0 k rem_ptr : sys_inv m0 k -> 0 <= rem_ptr -> rem_ok rem_ptr = true ->
  exists k', write_rem rem_ptr k = OOk tt k' /\ sys_inv m0 k' /\ k_ticks k' = k_ticks k /\
    (rem_ptr <> 0 -> load_bytes (k_umem k') rem_ptr (size_of TimeSpec) = replicate 16 0).
Proof.
  intros Hk H0 Hr. unfold write_rem, rem_ok in *. destruct (Z.eqb_spec rem_ptr 0) as [->|Hne]; [exists k; done|]. cbn [orb] in Hr.
  cbn [negb]. rewrite (bind_ok _ _ _ _ _ (copy_struct_to_user_run k rem_ptr (mkTimeSpec 0 0) zero_time_size Hr)).
  eexists. split; [reflexivity|]. split; [|split; [done|intros _; rewrite <- zero_time_size; exact (load_store_bytes (k_umem k) rem_ptr (bytes_of (mkTimeSpec 0 0)))]].
  apply inv_store; [done|done|]. unfold user_range_ok, checked_add64 in Hr. apply andb_true_iff in Hr as [_ Hr].
  rewrite zero_time_size. case_hyp Hr; [|done]. by breflect.
Qed.

Lemma write_rem_fault k rem_ptr : rem_ok rem_ptr = false -> write_rem rem_ptr k = OErr Fault k.
Proof.
  unfold rem_ok, write_rem. intros [Hn Hr]%orb_false_iff. rewrite Hn. cbn [negb]. unfold copy_struct_to_user. by rewrite Hr.
Qed.

(** C15: [nanosleep] ends, and not early: if in every round of waiting at
    least one timer tick arrives (and at most [d] from the interrupts and [d]
    from the other tasks), and the tick counter does not overflow meanwhile,
    then after at most as many rounds as the requested time has ticks the
    sleep is over; the clock has then moved by at least the requested time
    (at most 2^64 - 1 nanoseconds) and by less than that time plus one tick
    and one round.  The call then returns 0 with a remaining time of zero
    written, or, where the pointer for the remaining time is bad, fails only
    now, after the whole sleep.  A bad pointer to the request or an invalid
    time fails at once and changes nothing. *)
Theorem nanosleep_ends d pauses fuel k req_ptr rem_ptr :
  sys_inv None k -> 1 <= d -> (forall n, round_ok d (pauses n)) -> 0 <= k_ticks k -> 0 <= rem_ptr ->
  match requested k req_ptr with
  | None => nanosleep_impl fuel pauses req_ptr rem_ptr k = OErr Fault k
  | Some req =>
      if timespec_valid req then
        total_ns req <= Z.of_nat fuel * NANOS_PER_TICK -> k_ticks k + Z.of_nat fuel + 2 * d < U64 ->
        exists k', sys_inv None k' /\
          total_ns req <= (k_ticks k' - k_ticks k) * NANOS_PER_TICK < total_ns req + (2 * d + 1) * NANOS_PER_TICK /\
          if rem_ok rem_ptr then
            nanosleep_impl fuel pauses req_ptr rem_ptr k = OOk (Done 0) k' /\
            (rem_ptr <> 0 -> load_bytes (k_umem k') rem_ptr (size_of TimeSpec) = replicate 16 0)
          else nanosleep_impl fuel pauses req_ptr rem_ptr k = OErr Fault k'
      else nanosleep_impl fuel pauses req_ptr rem_ptr k = OErr Invalid k
  end.
Proof.
  intros Hk Hd Hp H0 Hr0. unfold nanosleep_impl. rewrite (bind_ok _ _ _ _ _ (requested_run k req_ptr)).
  destruct (requested k req_ptr) as [req|]; [|reflexivity]. rewrite (bind_ok (option_ok (Some req) Fault) _ k req k eq_refl).
  unfold sleep_timespec. destruct (timespec_valid req) eqn:Hv; [|reflexivity]. intros Hf Hov.
  rewrite (bind_ok (ensure true Invalid) _ k tt k eq_refl). cbv zeta.
  destruct (sleep_ticks_of req Hv) as [Hn0 Hn]. set (n := div_ceil _ _) in *.
  assert (n <= Z.of_nat fuel) as Hnf by (unfold NANOS_PER_TICK in *; lia).
  destruct (sleep_yield_ends d pauses Hp fuel k n Hk H0 Hn0 Hd ltac:(lia) Hnf) as (k1 & Hrun & Hk1 & Ht1).
  rewrite (bind_ok _ _ _ _ _ Hrun). destruct (rem_ok rem_ptr) eqn:Hr.
  - destruct (write_rem_run None k1 rem_ptr Hk1 Hr0 Hr) as (k2 & Hw & Hk2 & Ht2 & Hm).
    rewrite (bind_ok _ _ _ _ _ Hw). exists k2. split; [done|]. split; [|done]. rewrite Ht2. unfold NANOS_PER_TICK in *. lia.
  - exists k1. split; [done|]. split; [unfold NANOS_PER_TICK in *; lia|]. unfold bindM. by rewrite write_rem_fault.
Qed.

(** A sleep of 25 ms, with one tick in every round. *)
Definition sleeper : Kernel := sample_proc <| k_umem := store_bytes (fun _ => 0) 0x1000 (bytes_of (mkTimeSpec 0 25000000)) |>.

Definition one_tick (n : nat) : Pause := mkPause (fun k => k) [TimerIrq].

Lemma sleeper_inv : sys_inv None sleeper.
Proof. apply (inv_store None sample_proc); [by apply sample_proc_inv|lia|done]. Qed.

Lemma one_tick_ok n : round_ok 1 (one_tick n).
Proof. constructor; [done|intros; cbn; lia|cbn; lia]. Qed.

(** Without a place for the remaining time, and with one in the kernel half. *)
Lemma nanosleep_ends_witness :
  (exists k', nanosleep_impl 3 one_tick 0x1000 0 sleeper = OOk (Done 0) k' /\ 25000000 <= k_ticks k' * NANOS_PER_TICK < 55000000) /\
  (exists k', nanosleep_impl 3 one_tick 0x1000 USER_TOP sleeper = OErr Fault k' /\ 25000000 <= k_ticks k' * NANOS_PER_TICK < 55000000).
Proof.
  assert (requested sleeper 0x1000 = Some (mkTimeSpec 0 25000000)) as E by (vm_compute; reflexivity).
  split.
  - pose proof (nanosleep_ends 1 one_tick 3 sleeper 0x1000 0 sleeper_inv ltac:(lia) one_tick_ok ltac:(cbn; lia) ltac:(lia)) as H.
    rewrite E in H. destruct H as (k' & _ & Ht & Hrun & _); [done|done|]. exists k'. split; [exact Hrun|].
    rewrite Z.sub_0_r in Ht. exact Ht.
  - pose proof (nanosleep_ends 1 one_tick 3 sleeper 0x1000 USER_TOP sleeper_inv ltac:(lia) one_tick_ok ltac:(cbn; lia) ltac:(done)) as H.
    rewrite E in H. destruct H as (k' & _ & Ht & Hrun); [done|done|]. exists k'. split; [exact Hrun|].
    rewrite Z.sub_0_r in Ht. exact Ht.
Defined.

(** ** Futexes: waking *)

Definition waits_on (uaddr : Z) (w : FutexWaiter) : bool := fw_in_use w && (fw_addr w =? uaddr).

Definition waiters (uaddr : Z) (ws : list FutexWaiter) : Z := Z.of_nat (length (List.filter (waits_on uaddr) ws)).

Definition released (uaddr : Z) (w : FutexWaiter) : FutexWaiter := if waits_on uaddr w then mkWaiter false (fw_addr w) else w.

Lemma wake_loop_spec uaddr count ws woke : 0 <= woke -> woke < count \/ count <= 0 ->
  exists l1 l2, ws = l1 ++ l2 /\
    wake_loop uaddr count ws woke = ((released uaddr <$> l1) ++ l2, woke + waiters uaddr l1) /\
    (waiters uaddr l2 = 0 \/ 0 < count /\ woke + waiters uaddr l1 = count) /\ (0 < count -> woke + waiters uaddr l1 <= count).
Proof.
  revert woke. induction ws as [|w ws IH]; intros woke H0 Hc.
  - exists [], []. change (waiters uaddr []) with 0. split_and!; [done|cbn; f_equal; lia|by left|lia].
  - cbn [wake_loop]. assert (negb (fw_in_use w) || negb (fw_addr w =? uaddr) = negb (waits_on uaddr w)) as E
      by (unfold waits_on; by rewrite negb_andb). rewrite E.
    assert (forall l, waiters uaddr (w :: l) = (if waits_on uaddr w then 1 else 0) + waiters uaddr l) as Hcons.
    { intros l. unfold waiters. cbn [List.filter]. destruct (waits_on uaddr w); cbn [length]; lia. }
    assert (released uaddr w = if waits_on uaddr w then mkWaiter false (fw_addr w) else w) as Er by done.
    destruct (waits_on uaddr w) eqn:Ew; cbn [negb].
    + destruct (Z.eqb_spec (woke + 1) count) as [Ec|Hne].
      * exists [w], ws. split_and!; [done| |right|]; cbn [fmap list_fmap app]; rewrite ?Hcons, ?Er; change (waiters uaddr []) with 0; [f_equal; lia|lia|lia].
      * destruct (IH (woke + 1) ltac:(lia) ltac:(lia)) as (l1 & l2 & -> & -> & Hl & Hb). exists (w :: l1), l2.
        split_and!; [done| | |]; cbn [fmap list_fmap app]; rewrite ?Hcons, ?Er; [f_equal; lia| |lia]. destruct Hl; [by left|right; lia].
    + destruct (IH woke H0 Hc) as (l1 & l2 & -> & -> & Hl & Hb). exists (w :: l1), l2.
      split_and!; [done| | |]; cbn [fmap list_fmap app]; rewrite ?Hcons, ?Er; [f_equal; lia| |lia]. destruct Hl; [by left|right; lia].
Qed.

Lemma waiters_app uaddr l1 l2 : waiters uaddr (l1 ++ l2) = waiters uaddr l1 + waiters uaddr l2.
Proof. unfold waiters. rewrite List.filter_app, length_app. lia. Qed.

(** A wake-up wakes exactly the waiters it should: [futex_wake(addr, n)]
    with [n > 0] releases the first waiters of that address in the table, as
    many as there are but at most [n], leaves every other entry and the rest
    of the kernel as it was, and returns the number released; with [n = 0] it
    releases all of them. *)
Theorem futex_wake_exact uaddr count k : 0 <= count ->
  exists l1 l2 n, k_futex k = l1 ++ l2 /\
    futex_wake uaddr count k = OOk n (k <| k_futex := (released uaddr <$> l1) ++ l2 |>) /\
    n = waiters uaddr l1 /\
    n = (if count =? 0 then waiters uaddr (k_futex k) else Z.min count (waiters uaddr (k_futex k))).
Proof.
  intros Hc. unfold futex_wake. rewrite getM_bind.
  destruct (wake_loop_spec uaddr count (k_futex k) 0 ltac:(lia) ltac:(lia)) as (l1 & l2 & E & Hrun & Hl & Hb).
  rewrite Hrun. exists l1, l2, (waiters uaddr l1). split; [done|]. split; [reflexivity|]. split; [done|].
  assert (0 <= waiters uaddr l1) by (unfold waiters; lia). assert (0 <= waiters uaddr l2) by (unfold waiters; lia).
  rewrite E, waiters_app. case_goal; breflect; destruct Hl as [->|Hl]; lia.
Qed.

Lemma futex_wake_exact_witness :
  let k := sample_proc <| k_futex := zset (zset (k_futex sample_proc) 2 (mkWaiter true 64)) 5 (mkWaiter true 64) |> in
  exists n k', futex_wake 64 1 k = OOk n k' /\ n = 1.
Proof.
  intros k. destruct (futex_wake_exact 64 1 k ltac:(lia)) as (l1 & l2 & n & _ & Hrun & _ & Hn).
  exists n. eexists. split; [exact Hrun|]. vm_compute in Hn. exact Hn.
Defined.

(** ** Futexes: waiting with a time limit *)

Section TimedWait.
Context (d : Z) (pauses : nat -> Pause) (Hpauses : forall n, round_ok d (pauses n)).

(** How a wait that began at [start] may end. *)
Definition wait_ended (start limit slot : Z) (o : Out Kernel (Wait Z)) : Prop :=
  let free k := exists w, zget (k_futex k) slot = Some w /\ fw_in_use w = false in
  match o with
  | OOk (Done v) k' => v = 0 /\ sys_inv None k' /\ free k'
  | OErr Again k' => sys_inv None k' /\ free k'
  | OErr TimedOut k' => sys_inv None k' /\ free k' /\ limit <= k_ticks k' - start
  | _ => False
  end.

Lemma clear_waiter k slot : sys_inv None k -> 0 <= slot < 16 ->
  exists k', set_waiter slot FutexWaiter_empty k = OOk tt k' /\ sys_inv None k' /\ k_ticks k' = k_ticks k /\
    exists w, zget (k_futex k') slot = Some w /\ fw_in_use w = false.
Proof.
  intros Hk Hs. pose proof (wf_futex _ (si_wf _ _ Hk)) as Hl. eexists. split; [reflexivity|].
  split; [apply inv_futex; [by rewrite length_zset|done]|]. split; [done|].
  exists FutexWaiter_empty. split; [cbn; apply zget_zset_eq; lia|done].
Qed.

Lemma timed_wait_loop fuel k slot uaddr expected start limit :
  sys_inv None k -> 0 <= slot < 16 -> user_range_ok uaddr (size_of u32) = true -> 0 <= start <= k_ticks k ->
  k_ticks k - start < limit + 2 * d -> start + limit + 2 * d < U64 -> start + limit - k_ticks k <= Z.of_nat fuel -> 0 <= limit ->
  wait_ended start limit slot (futex_wait_loop fuel pauses slot uaddr expected start (Some limit) k).
Proof.
  revert k. induction fuel as [|fuel IH]; intros k Hk Hslot Hr Hs Hw Hb Hf Hl.
  all: destruct (zget_is_Some (k_futex k) slot) as [w Ew]; [rewrite (wf_futex _ (si_wf _ _ Hk)); lia|].
  all: cbn [futex_wait_loop]; rewrite getM_bind, Ew, (bind_ok (unwrap (Some w)) _ k w k eq_refl).
  all: destruct (fw_in_use w) eqn:Eu; cbn [negb]; [|by split; [|split; [|exists w]]].
  all: rewrite (bind_ok _ _ _ _ _ (copy_struct_from_user_run k uaddr Hr)).
  all: set (cur := of_bytes _); rewrite (bind_ok (option_ok (Some cur) Fault) _ k cur k eq_refl).
  all: destruct (clear_waiter k slot Hk Hslot) as (kc & Hclear & Hkc & Htc & Hfree).
  all: destruct (negb (u32_val cur =? expected)); [by rewrite (bind_ok _ _ _ _ _ Hclear)|].
  all: destruct (Z.leb_spec limit (sat_sub64 (k_ticks k) start)) as [Hle|Hgt]; unfold sat_sub64 in *.
  1, 3: rewrite (bind_ok _ _ _ _ _ Hclear); cbn [errM wait_ended]; rewrite Htc; split; [done|split; [done|lia]].
  - lia.
  - destruct (pause_clock d (pauses fuel) k (Hpauses fuel) Hk ltac:(lia) ltac:(lia)) as (k1 & Hp & Hk1 & Ht1).
    rewrite (bind_ok _ _ _ _ _ Hp). apply IH; done || lia.
Qed.

(** How a call with a time limit may end: it never stays blocked. *)
Definition call_ended (start limit : Z) (o : Out Kernel (Wait Z)) : Prop :=
  match o with
  | OOk (Done v) k' => v = 0 /\ sys_inv None k'
  | OErr TimedOut k' => sys_inv None k' /\ limit <= k_ticks k' - start
  | OErr e k' => sys_inv None k' /\ e ∈ [Fault; Again; Invalid; NoMem]
  | _ => False
  end.

Lemma wait_call_ended start limit slot o : wait_ended start limit slot o -> call_ended start limit o.
Proof.
  destruct o as [[|v] k'|[] k'|]; cbn; try done.
  - intros (-> & H & _). done.
  - intros [H _]. split; [done|]. set_solver.
  - intros (H & _ & Ht). done.
Qed.

(** C16: A futex wait with a time limit ends: if in every round of waiting at
    least one timer tick arrives, then after at most as many rounds as the
    limit has ticks the call has returned - woken, or with an error - and it
    has timed out only when the whole limit has passed. *)
Theorem timed_wait_ends fuel k uaddr expected timeout_ptr t :
  sys_inv None k -> 1 <= d -> 0 <= k_ticks k -> timeout_ptr <> 0 -> requested k timeout_ptr = Some t ->
  0 <= tv_sec t -> 0 <= tv_nsec t -> timespec_ticks t <= Z.of_nat fuel -> k_ticks k + Z.of_nat fuel + 2 * d < U64 ->
  call_ended (k_ticks k) (timespec_ticks t) (futex_wait fuel pauses uaddr expected timeout_ptr k).
Proof.
  intros Hk Hd H0 Hp Ht Hsec Hns Hf Hb. unfold futex_wait.
  destruct (user_range_ok uaddr (size_of u32)) eqn:Hr.
  2:{ rewrite (bind_ok _ _ k None k) by (rewrite copy_struct_from_user_eq; by rewrite Hr). split; [done|set_solver]. }
  rewrite (bind_ok _ _ _ _ _ (copy_struct_from_user_run k uaddr Hr)).
  set (cur := of_bytes _). rewrite (bind_ok (option_ok (Some cur) Fault) _ k cur k eq_refl).
  destruct (negb (u32_val cur =? expected)); [split; [done|set_solver]|].
  rewrite (proj2 (Z.eqb_neq timeout_ptr 0)) by done.
  assert ((let* timeout := copy_struct_from_user TimeSpec timeout_ptr in
           let* timeout := option_ok timeout Fault in
           ensure ((0 <=? tv_sec timeout) && (0 <=? tv_nsec timeout)) Invalid ;;;
           retM (Some (timespec_ticks timeout))) k = OOk (Some (timespec_ticks t)) k) as Hlim.
  { rewrite (bind_ok _ _ _ _ _ (requested_run k timeout_ptr)), Ht, (bind_ok (option_ok (Some t) Fault) _ k t k eq_refl).
    by rewrite !(proj2 (Z.leb_le 0 _)) by done. }
  rewrite (bind_ok _ _ _ _ _ Hlim), getM_bind.
  destruct (zposition (fun w => negb (fw_in_use w)) (k_futex k)) as [slot|] eqn:Ep; [|split; [done|set_solver]].
  rewrite (bind_ok (option_ok (Some slot) NoMem) _ k slot k eq_refl).
  destruct (zposition_Some _ _ _ Ep) as (w & Hw%zget_Some & _). rewrite (wf_futex _ (si_wf _ _ Hk)) in Hw.
  set (k1 := k <| k_futex := zset (k_futex k) slot (mkWaiter true uaddr) |>).
  assert (sys_inv None k1) as Hk1 by (apply inv_futex; [rewrite length_zset; apply (wf_futex _ (si_wf _ _ Hk))|done]).
  rewrite (bind_ok (set_waiter slot (mkWaiter true uaddr)) _ k tt k1 eq_refl), getM_bind.
  apply (wait_call_ended _ _ slot). change (k_ticks k1) with (k_ticks k).
  assert (0 <= timespec_ticks t) as Hn.
  { unfold timespec_ticks, div_ceil, sat_add64, sat_mul64. case_goal; [apply Z.div_pos; [|lia]|
      apply Z.add_nonneg_nonneg; [apply Z.div_pos; [|lia]|lia]]; unfold U64; lia. }
  apply timed_wait_loop; try done; change (k_ticks k1) with (k_ticks k); lia.
Qed.
End TimedWait.

Lemma timed_wait_ends_witness :
  exists k', futex_wait 3 one_tick 0x2000 0 0x1000 sleeper = OErr TimedOut k' /\ 3 <= k_ticks k'.
Proof.
  assert (requested sleeper 0x1000 = Some (mkTimeSpec 0 25000000)) as E by (vm_compute; reflexivity).
  pose proof (timed_wait_ends 1 one_tick one_tick_ok 3 sleeper 0x2000 0 0x1000 (mkTimeSpec 0 25000000) sleeper_inv
    ltac:(lia) ltac:(cbn; lia) ltac:(lia) E ltac:(cbn; lia) ltac:(cbn; lia) ltac:(done) ltac:(done)) as H.
  assert (match futex_wait 3 one_tick 0x2000 0 0x1000 sleeper with OErr e _ => e = TimedOut | _ => False end) as Hr
    by (vm_compute; reflexivity).
  destruct (futex_wait 3 one_tick 0x2000 0 0x1000 sleeper) as [r k'|e k'|]; [done| |done]. subst e. exists k'.
  split; [reflexivity|]. destruct H as [_ H]. change (k_ticks sleeper) with 0 in H. rewrite Z.sub_0_r in H. exact H.
Defined.
