(* ===== verification/SafeCalls.v ===== *)
(** * The handlers keep the invariant

    One lemma per system call, by the lemmas of the operations it calls. *)

From S2P Require Import Prelude Mem Update Fmt Pci Bench Result Logic Pmm Paging RamFs Ring Tty Types Vga State Task Proc Fd.
From S2P Require Import Pipes UserCopy Signal Futex SysProc Mm SysIo SysVfs Time Sys Elf Exec Dispatch Invariant.
From S2P Require Import SafeFd Interrupts.

(** ** Signals *)

Lemma handler_get (l : list SigAction) sig : length l = 65%nat -> 0 <= sig < 65 -> exists a, zget l sig = Some a.
Proof. intros Hl Hs. apply zget_is_Some. lia. Qed.

Lemma Forall_zset {A} (Q : A -> Prop) l i x : Forall Q l -> Q x -> Forall Q (zset l i x).
Proof. intros Hl Hx. unfold zset. by apply Forall_insert. Qed.

#[local] Hint Resolve Forall_zset : core.
#[export] Hint Resolve find_slot_range find_thread_slot_range : safe.

Section Signals.
Context (P : Prop) (m0 : option Mem).
#[local] Abbreviation safe := (safe P (sys_inv m0)).

Lemma safe_sigaction sig act oldact size : 0 <= oldact -> safe (syscall_rt_sigaction_impl sig act oldact size) (fun _ => True).
Proof.
  intros Ho. unfold syscall_rt_sigaction_impl. do 4 safe_next. destruct a2 as [slot p]. subst. facts. breflect.
  destruct (handler_get (p_sig_handlers p) sig) as [act0 Hact]; [done|lia|]. rewrite Hact.
  apply (safe_bind _ _ _ _ (fun _ => True)); [safe_auto|]. intros _ _.
  apply (safe_bind _ _ _ _ (fun _ => True)); [|intros; by apply safe_ret].
  do 3 safe_next. assert (set_len (sa_mask a2)) as Hm by (subst; apply set_len_of). safe_auto.
Qed.

Lemma safe_sigprocmask how set oldset size : 0 <= oldset -> safe (syscall_rt_sigprocmask_impl how set oldset size) (fun _ => True).
Proof.
  intros Ho. unfold syscall_rt_sigprocmask_impl. do 4 safe_next. destruct a2 as [slot t]. subst. facts.
  apply (safe_bind _ _ _ _ (fun _ => True)); [safe_auto|]. intros _ _.
  apply (safe_bind _ _ _ _ (fun _ => True)); [|intros; by apply safe_ret].
  do 3 safe_next. assert (set_len a2) as Hm by (subst; apply set_len_of).
  eapply safe_bind; [by apply safe_sanitize|]. intros s [Hs _].
  apply (safe_bind _ _ _ _ set_len); [safe_auto|]. intros s' Hs'.
  eapply safe_bind; [by apply safe_sanitize|]. intros s2 [Hs2 Hk]. safe_auto.
Qed.

Lemma safe_sigreturn f : safe (syscall_rt_sigreturn_impl f) (fun _ => True).
Proof. unfold syscall_rt_sigreturn_impl. safe_auto. Qed.

Lemma sig_range sig : (sig =? 0) = false -> (sig <? 65) = true -> 0 <= sig -> 1 <= sig <= 64.
Proof. intros. breflect. lia. Qed.

Lemma safe_kill pid sig : 0 <= sig -> safe (syscall_kill_impl pid sig) (fun _ => True).
Proof.
  intros Hs. unfold syscall_kill_impl. do 2 safe_step. cbn beta in *. pose proof (find_slot_range _ _ _ _ H H0) as Hr.
  safe_step; [by apply safe_ret|]. safe_step. pose proof (sig_range _ Heqb H1 Hs). safe_auto.
Qed.

Lemma safe_tkill tid sig : 0 <= sig -> safe (syscall_tkill_impl tid sig) (fun _ => True).
Proof.
  intros Hs. unfold syscall_tkill_impl. do 4 safe_step. cbn beta in *. pose proof (find_thread_slot_range _ _ _ _ H1 H2) as Hr.
  safe_step; [by apply safe_ret|]. pose proof (sig_range _ Heqb H0 Hs). safe_auto.
Qed.

Lemma safe_tgkill tgid tid sig : 0 <= sig -> safe (syscall_tgkill_impl tgid tid sig) (fun _ => True).
Proof.
  intros Hs. unfold syscall_tgkill_impl. do 3 safe_step. cbn beta in *. pose proof (find_thread_slot_range _ _ _ _ H0 H1) as Hr.
  do 5 safe_next. by apply safe_tkill.
Qed.
End Signals.

#[export] Hint Resolve safe_sigaction safe_sigprocmask safe_sigreturn safe_kill safe_tkill safe_tgkill : safe.

(** ** Futexes *)

Lemma length_wake_loop uaddr count ws n : length (fst (wake_loop uaddr count ws n)) = length ws.
Proof.
  revert n. induction ws as [|w ws IH]; intros n; cbn [wake_loop]; [done|].
  case_goal; [|case_goal; [done|]]; match goal with |- context [wake_loop _ _ _ ?m] => specialize (IH m);
    destruct (wake_loop _ _ _ m) end; cbn in *; congruence.
Qed.

Section Futexes.
Context (P : Prop) (m0 : option Mem).
#[local] Abbreviation safe := (safe P (sys_inv m0)).

Lemma safe_futex_wake uaddr count : safe (futex_wake uaddr count) (fun _ => True).
Proof.
  intros k Hk. unfold futex_wake. rewrite getM_bind. pose proof (length_wake_loop uaddr count (k_futex k) 0) as Hl.
  destruct (wake_loop _ _ _ _) as [ws n]. split; [|done]. apply inv_futex; [|done]. cbn in Hl. rewrite Hl. apply (wf_futex _ (si_wf _ _ Hk)).
Qed.

Lemma safe_set_waiter s w : safe (set_waiter s w) (fun _ => True).
Proof. apply safe_modify. intros k Hk. apply inv_futex; [|done]. rewrite length_zset. apply (wf_futex _ (si_wf _ _ Hk)). Qed.

#[local] Hint Resolve safe_futex_wake safe_set_waiter : safe.

Lemma safe_futex_wait_loop fuel pauses slot uaddr e start limit : pauses_ok m0 pauses -> 0 <= slot < 16 ->
  safe (futex_wait_loop fuel pauses slot uaddr e start limit) (fun _ => True).
Proof.
  intros Hp Hs. induction fuel as [|f IH]; cbn [futex_wait_loop].
  all: safe_step; eapply safe_bind;
    [apply safe_unwrap, zget_is_Some; match goal with H : sys_inv _ _ |- _ => rewrite (wf_futex _ (si_wf _ _ H)); lia end|].
  all: intros w _; safe_step; [by apply safe_ret|]; safe_step; safe_step.
  all: safe_step; [eapply safe_bind; [apply safe_set_waiter|]; intros; apply safe_err|].
  all: destruct (match limit with Some _ => _ | None => _ end);
    [eapply safe_bind; [apply safe_set_waiter|]; intros; apply safe_err|]; safe_auto.
Qed.

Lemma safe_futex_wait fuel pauses uaddr e t : pauses_ok m0 pauses -> safe (futex_wait fuel pauses uaddr e t) (fun _ => True).
Proof.
  intros Hp. unfold futex_wait. do 2 safe_step. safe_step; [apply safe_err|].
  apply (safe_bind _ _ _ _ (fun _ => True)); [safe_auto|]. intros ticks _. do 2 safe_step. cbn beta in *.
  apply zposition_Some in H2 as (_ & _ & _ & Hz). rewrite (wf_futex _ (si_wf _ _ H1)) in Hz.
  eapply safe_bind; [apply safe_set_waiter|]. intros _ _. safe_step. apply safe_futex_wait_loop; [done|lia].
Qed.

Lemma safe_doneM {A} (m : M Kernel A) Q : safe m Q -> safe (doneM m) (fun _ => True).
Proof. intros H. unfold doneM. eapply safe_bind; [exact H|]. intros. by apply safe_ret. Qed.

Lemma safe_futex fuel pauses uaddr op v t : pauses_ok m0 pauses -> safe (syscall_futex_impl fuel pauses uaddr op v t) (fun _ => True).
Proof.
  intros Hp. unfold syscall_futex_impl. safe_step. cbv zeta. safe_step; [by apply safe_futex_wait|].
  safe_step; [eapply safe_doneM, safe_futex_wake|apply safe_err].
Qed.

Lemma safe_wake_robust uaddr tid : 0 <= uaddr -> safe (wake_robust_futex uaddr tid) (fun _ => True).
Proof.
  intros Hu. unfold wake_robust_futex. safe_auto.
Qed.

Lemma robust_addr_range head p : 0 <= p -> 0 <= robust_addr head p.
Proof.
  intros Hp. unfold robust_addr, sat_add64, sat_sub64. case_goal; breflect; unfold U64; lia.
Qed.

Lemma safe_robust_loop n head hp tid p : 0 <= p -> safe (robust_loop n head hp tid p) (fun _ => True).
Proof.
  revert p. induction n as [|n IH]; intros p Hp; cbn [robust_loop]; [by apply safe_ret|]. safe_step; [by apply safe_ret|].
  eapply safe_bind; [apply safe_wake_robust; by apply robust_addr_range|]. intros _ _. safe_step. destruct a as [node|]; [|by apply safe_ret].
  apply IH. destruct H as [bs ->]. apply wrap64_range.
Qed.
End Futexes.

#[export] Hint Resolve safe_futex_wake safe_futex safe_wake_robust safe_robust_loop robust_addr_range : safe.

Lemma robust_head_range bs : 0 <= rl_next (rh_list (of_bytes (T := RobustListHead) bs)) /\
  0 <= rh_list_op_pending (of_bytes (T := RobustListHead) bs).
Proof. cbn. split; apply wrap64_range. Qed.

(** ** Processes *)

Section Processes.
Context (P : Prop) (m0 : option Mem).
#[local] Abbreviation safe := (safe P (sys_inv m0)).

Lemma safe_release_robust_list : safe release_robust_list (fun _ => True).
Proof.
  unfold release_robust_list. do 3 safe_next. safe_step. destruct a0 as [head|]; [|by apply safe_ret].
  cbn [opt] in *. match goal with H : exists bs, head = _ |- _ => destruct H as [bs ->] end.
  destruct (robust_head_range bs) as [Hh1 Hh2]. eapply safe_bind; [by apply safe_robust_loop|]. intros _ _.
  safe_step; [apply safe_wake_robust; by apply robust_addr_range|by apply safe_ret].
Qed.

Lemma safe_set_robust_list head len : safe (syscall_set_robust_list_impl head len) (fun _ => True).
Proof. unfold syscall_set_robust_list_impl. safe_auto. Qed.

Lemma safe_get_robust_list pid hp lp : 0 <= hp -> 0 <= lp -> safe (syscall_get_robust_list_impl pid hp lp) (fun _ => True).
Proof.
  intros Hh Hl. unfold syscall_get_robust_list_impl. safe_next.
  apply (safe_bind _ _ _ _ (fun s => 0 <= s < 8)); [|intros s Hs; safe_auto].
  safe_step; [apply safe_current_task_slot|]. safe_step. eapply safe_weaken; [apply safe_option_ok|]. intros s Hs.
  exact (find_thread_slot_range m0 _ _ _ ltac:(eassumption) Hs).
Qed.

#[local] Hint Resolve safe_release_robust_list : safe.

Lemma safe_clear_child_tid : safe clear_child_tid_and_wake (fun _ => True).
Proof. unfold clear_child_tid_and_wake. safe_auto. Qed.

Lemma safe_exit_group_thread a b s : 0 <= s < 8 -> safe (exit_group_thread a b s) (fun _ => True).
Proof. intros Hs. unfold exit_group_thread. safe_auto. Qed.

Lemma safe_exit_group_loop a b : safe (forM (seqZ 0 8) (exit_group_thread a b)) (fun _ => True).
Proof. apply safe_forM. intros s Hs%elem_of_seqZ. apply safe_exit_group_thread. lia. Qed.

#[local] Hint Resolve safe_exit_group_loop : safe.

Lemma safe_exit_thread code whole : safe (exit_thread code whole) (fun _ => True).
Proof. unfold exit_thread. safe_auto. Qed.

Lemma safe_current_pid : safe current_pid (fun _ => True). Proof. unfold current_pid. safe_auto. Qed.
Lemma safe_current_ppid : safe current_ppid (fun _ => True). Proof. unfold current_ppid. safe_auto. Qed.
Lemma safe_current_tid : safe current_tid (fun _ => True). Proof. unfold current_tid. safe_auto. Qed.
Lemma safe_current_brk : safe current_brk (fun _ => True). Proof. unfold current_brk. safe_auto. Qed.
Lemma safe_current_fs_base : safe current_fs_base (fun _ => True). Proof. unfold current_fs_base. safe_auto. Qed.
Lemma safe_current_field f : safe (current_field f) (fun _ => True). Proof. unfold current_field. safe_auto. Qed.

#[local] Hint Resolve safe_clear_child_tid safe_exit_thread safe_current_ppid safe_current_pid safe_current_tid
  safe_current_field : safe.

Lemma safe_default_exception f : safe (default_exception f) (fun _ => True).
Proof. unfold default_exception, exit. safe_auto. Qed.

Lemma safe_leave_task : safe leave_task (fun _ => True).
Proof.
  unfold leave_task. do 2 safe_next. eapply safe_bind; [apply safe_modify; eauto with safe|]. intros. by apply safe_ret.
Qed.

#[local] Hint Resolve safe_leave_task : safe.

Lemma safe_exit code : safe (syscall_exit code) (fun _ => True).
Proof. unfold syscall_exit. safe_auto. Qed.

Lemma safe_exit_group code : safe (syscall_exit_group code) (fun _ => True).
Proof. unfold syscall_exit_group. safe_auto. Qed.

Lemma safe_setuid uid : safe (syscall_setuid_impl uid) (fun _ => True). Proof. unfold syscall_setuid_impl. safe_auto. Qed.
Lemma safe_setgid gid : safe (syscall_setgid_impl gid) (fun _ => True). Proof. unfold syscall_setgid_impl. safe_auto. Qed.
Lemma safe_set_tid_address p : 0 <= p -> safe (syscall_set_tid_address_impl p) (fun _ => True).
Proof. intros Hp. unfold syscall_set_tid_address_impl. safe_auto. Qed.
Lemma safe_umask p : safe (syscall_umask_impl p) (fun _ => True). Proof. unfold syscall_umask_impl. safe_auto. Qed.
Lemma safe_getpgid pid : safe (syscall_getpgid_impl pid) (fun _ => True).
Proof. unfold syscall_getpgid_impl. safe_auto. Qed.
Lemma safe_getsid pid : safe (syscall_getsid_impl pid) (fun _ => True).
Proof. unfold syscall_getsid_impl. safe_auto. Qed.
Lemma safe_setpgid pid pgid : safe (syscall_setpgid_impl pid pgid) (fun _ => True).
Proof. unfold syscall_setpgid_impl. safe_auto. Qed.
Lemma safe_getresuid a b c : 0 <= a -> 0 <= b -> 0 <= c -> safe (syscall_getresuid_impl a b c) (fun _ => True).
Proof. intros. unfold syscall_getresuid_impl. safe_auto. Qed.
Lemma safe_getresgid a b c : 0 <= a -> 0 <= b -> 0 <= c -> safe (syscall_getresgid_impl a b c) (fun _ => True).
Proof. intros. unfold syscall_getresgid_impl. safe_auto. Qed.
End Processes.

#[export] Hint Resolve safe_release_robust_list safe_set_robust_list safe_get_robust_list safe_exit safe_exit_group
  safe_setuid safe_setgid safe_set_tid_address safe_umask safe_getpgid safe_getsid safe_setpgid safe_getresuid
  safe_getresgid safe_current_pid safe_current_ppid safe_current_tid safe_current_brk safe_current_fs_base
  safe_current_field : safe.

Lemma set_len_empty : set_len SigSet_empty. Proof. done. Qed.
#[local] Hint Resolve set_len_empty no_kill_empty : core.

Section Spawn.
Context (P : Prop) (m0 : option Mem).
#[local] Abbreviation safe := (safe P (sys_inv m0)).

Lemma safe_alloc_frames n : safe (on_mach (alloc_framesM n)) (fun _ => True).
Proof. apply safe_on_mach. right. intros s. unfold alloc_framesM. by destruct (alloc_frames n _ _) as [? [? ?]]. Qed.

Lemma safe_on_mach_modify f : safe (on_mach (modifyM f)) (fun _ => True).
Proof. apply safe_on_mach. right. done. Qed.

Lemma safe_write_zero_context sp : safe (write_zero_context sp) (fun _ => True).
Proof. unfold write_zero_context. apply safe_forM. intros. apply safe_poke. Qed.

Lemma safe_fetch_add_id : safe fetch_add_id (fun _ => True).
Proof. unfold fetch_add_id. safe_step. eapply safe_bind; [apply safe_modify; eauto with safe|]. intros. by apply safe_ret. Qed.

Lemma safe_fetch_add_pid : safe fetch_add_pid (fun _ => True).
Proof. unfold fetch_add_pid. safe_step. eapply safe_bind; [apply safe_modify; eauto with safe|]. intros. by apply safe_ret. Qed.

#[local] Hint Resolve safe_alloc_frames safe_on_mach_modify safe_write_zero_context safe_fetch_add_id safe_fetch_add_pid : safe.

Lemma safe_install_task s sp base pml4 : 0 <= s < 8 -> safe (install_task s sp base pml4) (fun _ => True).
Proof. intros Hs. unfold install_task. safe_auto. Qed.

#[local] Hint Resolve safe_install_task : safe.

Lemma free_task_range k s : sys_inv m0 k -> free_task_slot k = Some s -> 0 <= s < 8.
Proof. intros Hk (_ & _ & _ & H)%zposition_Some. rewrite (wf_tasks _ (si_wf _ _ Hk)) in H. lia. Qed.

Lemma safe_spawn_forked tr f pml4 : safe (spawn_forked_task tr f pml4) (opt (fun s => 0 <= s < 8)).
Proof.
  unfold spawn_forked_task. safe_step. safe_step; [|by apply safe_ret]. pose proof (free_task_range _ _ H Heqo). safe_auto.
Qed.

Lemma safe_spawn_user tr e st pml4 : safe (spawn_user_task tr e st pml4) (opt (fun s => 0 <= s < 8)).
Proof.
  unfold spawn_user_task. safe_step. safe_step; [|by apply safe_ret]. pose proof (free_task_range _ _ H Heqo). safe_auto.
Qed.

Lemma safe_add_task entry : safe (add_task entry) (fun _ => True).
Proof.
  unfold add_task. safe_step. safe_step; [|by apply safe_ret]. pose proof (free_task_range _ _ H Heqo). safe_auto.
Qed.

(** A task without a process panics in [fork_current]. *)
Lemma safe_fork_current s : P -> 0 <= s < 8 -> safe (fork_current s) (fun _ => True).
Proof.
  intros HP Hs. unfold fork_current. do 2 safe_next. eapply safe_bind; [by apply safe_unwrap_any|]. intros p ->. facts.
  safe_next. eapply safe_bind; [by apply safe_unwrap_any|]. intros t ->. facts.
  eapply safe_bind; [apply safe_forM; intros; apply safe_fork_retain|]. intros _ _. safe_auto.
Qed.
End Spawn.

#[export] Hint Resolve safe_alloc_frames safe_on_mach_modify safe_fetch_add_pid safe_spawn_forked safe_spawn_user
  safe_fork_current : safe.

Section Calls.
Context (P : Prop) (m0 : option Mem).
#[local] Abbreviation safe := (safe P (sys_inv m0)).

Lemma safe_fork tr f : P -> safe (syscall_fork_impl tr f) (fun _ => True).
Proof.
  intros HP. unfold syscall_fork_impl. do 2 safe_next. eapply safe_bind; [apply safe_on_mach; by left|]. intros c _. safe_auto.
Qed.

Lemma safe_spawn_thread s c fs : P -> 0 <= s < 8 -> 0 <= c -> safe (spawn_thread_in_group s c fs) (fun _ => True).
Proof.
  intros HP Hs Hc. unfold spawn_thread_in_group. do 2 safe_next.
  eapply safe_bind; [by apply safe_unwrap_any|]. intros t ->. facts. cbv zeta. safe_next.
  eapply safe_bind; [by apply safe_unwrap_any|]. intros p ->. facts. safe_auto.
Qed.

Lemma safe_put_clear s c : 0 <= s < 8 -> 0 <= c -> safe (put_clear_child_tid s c) (fun _ => True).
Proof. intros Hs Hc. unfold put_clear_child_tid. safe_auto. Qed.

Lemma safe_clone_check flags : safe (clone_check flags) (fun _ => True).
Proof. unfold clone_check. safe_auto. Qed.

Lemma safe_clone_tls f : safe (clone_tls_from_frame f) (fun _ => True).
Proof. unfold clone_tls_from_frame. safe_auto. Qed.

Lemma safe_task_frame_mut s : safe (task_frame_mut s) (fun _ => True).
Proof. unfold task_frame_mut. safe_auto. Qed.

#[local] Hint Resolve safe_spawn_thread safe_put_clear safe_clone_check safe_clone_tls safe_task_frame_mut : safe.

Lemma safe_clone tr flags st pt ct f : P -> 0 <= pt -> 0 <= ct -> safe (syscall_clone_impl tr flags st pt ct f) (fun _ => True).
Proof.
  intros HP Hp Hc. unfold syscall_clone_impl. do 2 safe_next. apply (safe_bind _ _ _ _ (fun _ => True)).
  { destruct a; [by apply safe_ret|]. apply safe_on_mach. by left. }
  intros pml4 _. do 2 safe_next. apply (safe_bind _ _ _ _ (fun _ => True)).
  { destruct a; [|safe_auto]. apply (safe_bind _ _ _ _ (fun _ => True)); [safe_auto|].
    intros tls _. apply safe_spawn_thread; [done|lia|]. case_goal; done || lia. }
  intros id _. unfold put_r10. safe_auto.
Qed.

Lemma safe_is_running s : 0 <= s < 8 -> safe (is_running_in_slot s) (fun _ => True).
Proof. intros Hs. unfold is_running_in_slot. safe_auto. Qed.

Lemma safe_waitpid_loop fuel pauses s : pauses_ok m0 pauses -> 0 <= s < 8 -> safe (waitpid_loop fuel pauses s) (fun _ => True).
Proof.
  intros Hp Hs. induction fuel as [|f IH]; cbn [waitpid_loop].
  all: eapply safe_bind; [by apply safe_is_running|]; intros r _; safe_auto.
Qed.

#[local] Hint Resolve safe_waitpid_loop : safe.

Lemma safe_waitpid fuel pauses pid : pauses_ok m0 pauses -> safe (syscall_waitpid_impl fuel pauses pid) (fun _ => True).
Proof.
  intros Hp. unfold syscall_waitpid_impl. cbv zeta. do 4 safe_step. cbn beta in *.
  match goal with H : find_slot_by_pid _ _ = Some _ |- _ => eapply find_slot_range in H; [|eassumption] end. safe_auto.
Qed.

Lemma safe_close fd : 0 <= fd -> safe (syscall_close_impl fd) (fun _ => True).
Proof. intros H. unfold syscall_close_impl, close_descriptor. safe_auto. Qed.

Lemma safe_dup_min fd m c : 0 <= fd -> 0 <= m -> safe (dup_min fd m c) (fun _ => True).
Proof. intros. eapply safe_any. by apply safe_dup_fd. Qed.

Lemma safe_dup_exact fd m c : 0 <= fd -> 0 <= m -> safe (dup_exact fd m c) (fun _ => True).
Proof. intros. eapply safe_any. by apply safe_dup_fd. Qed.

#[local] Hint Resolve safe_dup_min safe_dup_exact : safe.

Lemma safe_dup fd : 0 <= fd -> safe (syscall_dup_impl fd) (fun _ => True).
Proof. intros H. unfold syscall_dup_impl. safe_auto. Qed.

Lemma safe_dup3 a b c : 0 <= a -> 0 <= b -> safe (syscall_dup3_impl a b c) (fun _ => True).
Proof. intros H H'. unfold syscall_dup3_impl. safe_auto. Qed.

Lemma safe_fcntl fd cmd arg : 0 <= fd -> 0 <= arg -> safe (syscall_fcntl_impl fd cmd arg) (fun _ => True).
Proof. intros H H'. unfold syscall_fcntl_impl, set_cloexec. safe_auto. Qed.

Lemma safe_pipe p : 0 <= p -> safe (syscall_pipe_impl p) (fun _ => True).
Proof. intros H. unfold syscall_pipe_impl, create_pipe_pair, close_descriptor. safe_auto. Qed.

Lemma safe_pipe2_flag flags fd : 0 <= fd -> safe (pipe2_flag_fd flags fd) (fun _ => True).
Proof. intros H. unfold pipe2_flag_fd, set_cloexec. safe_auto. Qed.

Lemma safe_pipe2 p flags : 0 <= p -> safe (syscall_pipe2_impl p flags) (fun _ => True).
Proof.
  intros H. unfold syscall_pipe2_impl. safe_step. eapply safe_bind; [by apply safe_pipe|]. intros _ _. do 2 safe_step. cbv zeta.
  eapply safe_bind; [|intros _ _; by apply safe_ret]. apply safe_forM. intros x Hx. apply safe_pipe2_flag.
  apply list_elem_of_fmap in Hx as (y & -> & _). apply wrap64_range.
Qed.
End Calls.

#[export] Hint Resolve safe_fork safe_clone safe_waitpid safe_close safe_dup safe_dup3 safe_fcntl safe_pipe safe_pipe2 : safe.

(** ** Mappings *)

(** What cannot panic on the machine. *)
#[local] Abbreviation total m := (safe False (fun _ : Machine => True) m (fun _ => True)).

Lemma total_no_panic {A} (m : M Machine A) s : total m -> m s <> OPanic.
Proof. intros H E. specialize (H s I). by rewrite E in H. Qed.

Lemma total_rd64 a : total (rd64 a). Proof. intros s _. done. Qed.
Lemma total_wr64 a v : total (wr64 a v). Proof. intros s _. done. Qed.
Lemma total_flush p v : total (flush_if_active p v).
Proof. intros s _. unfold flush_if_active. rewrite getM_bind. by case_goal. Qed.
#[local] Hint Resolve total_rd64 total_wr64 total_flush : safe.

Section Mappings.
Context (P : Prop) (m0 : option Mem).
#[local] Abbreviation safe := (safe P (sys_inv m0)).

Lemma safe_unmap_page pml4 v : safe (on_mach (unmap_page_in pml4 v)) (fun _ => True).
Proof. apply safe_on_mach. right. intros s. apply total_no_panic. unfold unmap_page_in. safe_auto. Qed.

Lemma safe_protect_page pml4 v f : safe (on_mach (protect_page_in pml4 v f)) (fun _ => True).
Proof. apply safe_on_mach. right. intros s. apply total_no_panic. unfold protect_page_in. safe_auto. Qed.

Lemma safe_free_frame a : safe (on_mach (free_frameM a)) (fun _ => True).
Proof. apply safe_on_mach_modify. Qed.

Lemma safe_alloc_frame : safe (on_mach alloc_frameM) (fun _ => True).
Proof. apply safe_on_mach. right. intros s. unfold alloc_frameM. by destruct (alloc_frame _ _) as [? [? ?]]. Qed.

#[local] Hint Resolve safe_unmap_page safe_protect_page safe_free_frame safe_alloc_frame : safe.

Lemma safe_unmap_loop n pml4 v : safe (unmap_loop n pml4 v) (fun _ => True).
Proof.
  revert v. induction n as [|n IH]; intros v; cbn [unmap_loop]; [by apply safe_ret|]. safe_auto.
Qed.

Lemma safe_protect_loop n pml4 v f : safe (protect_loop n pml4 v f) (fun _ => True).
Proof.
  revert v. induction n as [|n IH]; intros v; cbn [protect_loop]; [by apply safe_ret|]. safe_auto.
Qed.

Lemma safe_find_vma start len : safe (find_vma_exact_mut start len) (opt (fun r => 0 <= fst (fst (fst r)) < 8)).
Proof.
  unfold find_vma_exact_mut. safe_step. apply safe_ret. destruct a as [[slot p]|]; [|done]. cbn in H.
  destruct (zposition _ _) as [i|]; [|done]. destruct (zget (p_vmas p) i); [|done]. cbn. by destruct H.
Qed.

Lemma safe_set_vma slot i v : 0 <= slot < 8 -> safe (set_vma slot i v) (fun _ => True).
Proof. intros H. unfold set_vma. safe_auto. Qed.

#[local] Hint Resolve safe_unmap_loop safe_protect_loop safe_find_vma safe_set_vma : safe.

Lemma safe_munmap a l : safe (munmap_impl a l) (fun _ => True).
Proof. unfold munmap_impl. safe_auto. Qed.

Lemma safe_mprotect a l p : safe (mprotect_impl a l p) (fun _ => True).
Proof. unfold mprotect_impl. safe_auto. Qed.

Lemma safe_drop_vma s l : safe (drop_vma s l) (fun _ => True).
Proof. unfold drop_vma. safe_auto. Qed.

Lemma safe_region_conflicts s l : safe (region_conflicts s l) (fun _ => True).
Proof. unfold region_conflicts. safe_auto. Qed.

Lemma safe_reserve l : safe (reserve_mmap_base l) (fun _ => True).
Proof. unfold reserve_mmap_base. safe_auto. Qed.

Lemma safe_alloc_vma s l p f : safe (alloc_vma s l p f) (fun _ => True).
Proof.
  unfold alloc_vma, vmas_alloc. do 3 safe_next. destruct (zposition (fun v => negb (vm_in_use v)) _) as [i|]; safe_auto.
Qed.

Lemma safe_set_brk b : safe (set_brk b) (fun _ => True).
Proof. unfold set_brk. safe_auto. Qed.
End Mappings.

#[export] Hint Resolve safe_unmap_page safe_free_frame safe_alloc_frame safe_unmap_loop safe_munmap safe_mprotect safe_drop_vma safe_region_conflicts safe_reserve
  safe_alloc_vma safe_set_brk : safe.

(** [mmap] and [brk] clear the pages they map, at whatever address that is:
    the memory outside the user half stays only if their range is in it. *)
Definition user_target (m0 : option Mem) (v n : Z) : Prop := m0 = None \/ (0 <= v /\ v + n <= USER_TOP).

Lemma user_target_sub m0 v n v' n' : user_target m0 v n -> v <= v' -> v' + n' <= v + n -> user_target m0 v' n'.
Proof. intros [H|[H1 H2]] ? ?; [by left|right; lia]. Qed.

(** The lemmas of the invariant that need [memory_ok], for any target. *)
Lemma inv_write m0 k m v n : sys_inv m0 k -> user_target m0 v n -> (forall a, a < v \/ v + n <= a -> m a = k_umem k a) ->
  sys_inv m0 (k <| k_umem := m |>).
Proof.
  intros Hk [->|[H1 H2]] Hm; [|by apply (inv_umem m0 k m v n)]. destruct Hk as [[] ? ? ? ?]. constructor; [by constructor|done..].
Qed.

Lemma align_up_eq x : align_up x = (x +w 0xFFF) / 4096 * 4096.
Proof.
  unfold align_up. generalize (wrap64_range (x + 0xFFF)). generalize (x +w 0xFFF) as w. intros w Hr.
  change 0xFFF with (2 ^ 12 - 1). rewrite land_not64_mask by (done || lia). change (2 ^ 12) with 4096.
  pose proof (Z.div_mod w 4096 ltac:(lia)). lia.
Qed.

Lemma align_up_range x : 0 <= align_up x /\ align_up x mod 4096 = 0.
Proof.
  rewrite align_up_eq. split; [|by rewrite Z.mod_mul]. destruct (wrap64_range (x + 0xFFF)) as [H _].
  pose proof (Z.div_pos (x +w 0xFFF) 4096 H ltac:(lia)). lia.
Qed.

Lemma align_up_user x : 0 <= x <= USER_TOP -> align_up x <= USER_TOP.
Proof.
  intros H. rewrite align_up_eq. unfold USER_TOP in *. rewrite wrap64_small by (unfold U64; lia).
  assert ((x + 0xFFF) / 4096 < 0x800000000 + 1) by (apply Z.div_lt_upper_bound; lia). lia.
Qed.

Lemma page_count a b : a mod 4096 = 0 -> b mod 4096 = 0 -> a < b -> a + Z.of_nat (pages_between a b) * 4096 = b.
Proof.
  intros Ha Hb Hlt. apply Z.mod_divide in Ha as [x ->]; [|done]. apply Z.mod_divide in Hb as [y ->]; [|done]. unfold pages_between, div_ceil.
  replace (y * 4096 - x * 4096) with ((y - x) * 4096) by lia. change 0x1000 with 4096. rewrite Z.mod_mul, Z.div_mul by done. cbn [Z.eqb]. lia.
Qed.

Section Maps.
Context (P : Prop) (HP : P) (m0 : option Mem).
#[local] Abbreviation safe := (safe P (sys_inv m0)).

Lemma safe_map_zeroed pml4 v fr fl : user_target m0 v 0x1000 -> safe (map_zeroed pml4 v fr fl) (fun _ => True).
Proof.
  intros Hv. unfold map_zeroed. apply (safe_bind _ _ _ _ (fun _ => True)).
  { apply safe_on_mach. by left. }
  intros _ _. safe_step. apply safe_modify. intros k Hk. apply (inv_write m0 k _ v 0x1000); [done|done|].
  intros x Hx. unfold fill. by rewrite (proj2 (in_range_false _ _ _)) by lia.
Qed.

Lemma safe_brk_loop n page : user_target m0 page (Z.of_nat n * 4096) -> safe (brk_loop n page) (fun _ => True).
Proof.
  revert page. induction n as [|n IH]; intros page Ht; cbn [brk_loop]; [by apply safe_ret|]. safe_step. safe_step; [by apply safe_ret|]. safe_step.
  eapply safe_bind; [apply safe_map_zeroed, (user_target_sub _ _ _ _ _ Ht); lia|]. intros _ _. apply IH.
  destruct Ht as [Ht|[H1 H2]]; [by left|]. right. unfold USER_TOP in *. rewrite wrap64_small by (unfold U64; lia). lia.
Qed.

Lemma safe_brk a : m0 = None \/ 0 <= a <= USER_TOP -> safe (brk_impl a) (fun _ => True).
Proof.
  intros Ha. unfold brk_impl. safe_step. safe_step; [by apply safe_ret|]. cbv zeta. safe_step; [safe_auto|].
  eapply (safe_bind _ _ _ _ (fun _ => True)); [|intros; safe_auto].
  destruct (Z.ltb_spec (align_up a0) (align_up a)) as [Hlt|]; [|by apply safe_ret]. apply safe_brk_loop.
  destruct Ha as [->|Ha]; [by left|]. right. destruct (align_up_range a0), (align_up_range a).
  rewrite page_count by done. pose proof (align_up_user a Ha). lia.
Qed.

Lemma slice_length bs a b chunk : slice bs a b = Some chunk -> Z.of_nat (length chunk) <= Z.max 0 (b - a).
Proof. unfold slice. destruct (_ && _); [|done]. intros [= <-]. rewrite length_take. lia. Qed.

Lemma safe_mmap_loop n pml4 start len off fl seed : 0 <= off -> user_target m0 start (off + Z.of_nat n * 4096) ->
  safe (mmap_loop n pml4 start len off fl seed) (fun _ => True).
Proof.
  revert off. induction n as [|n IH]; intros off Hoff Ht; cbn [mmap_loop]; [by apply safe_ret|]. safe_step. safe_step; [safe_auto|].
  assert (user_target m0 (start +w off) 0x1000) as Hpage.
  { destruct Ht as [Ht|[H1 H2]]; [by left|]. right. unfold USER_TOP in *. rewrite wrap64_small by (unfold U64; lia). lia. }
  eapply safe_bind; [by apply safe_map_zeroed|]. intros _ _.
  apply (safe_bind _ _ _ _ (fun _ => True)); [|intros _ _; apply IH; [lia|]; apply (user_target_sub _ _ _ _ _ Ht); lia].
  safe_step; [|by apply safe_ret]. cbv zeta. safe_step; [|by apply safe_ret].
  eapply safe_bind; [by apply safe_unwrap_any|]. intros chunk Hc%slice_length. apply safe_modify. intros k Hk.
  apply (inv_write m0 k _ (start +w off) 0x1000); [done|done|]. intros x Hx. apply store_bytes_outside.
  pose proof (wrap64_range (off + 0x1000)) as [Hw _]. assert (off +w 0x1000 <= off + 0x1000) by (apply Z.mod_le; [lia|done]). lia.
Qed.

Lemma safe_read_range i off len : safe (on_fs (vfs_read_range i off len)) (fun _ => True).
Proof. apply safe_on_fs. by left. Qed.

#[local] Hint Resolve safe_read_range : safe.

(** Where [mmap] puts the mapping. *)
Definition mmap_start (k : Kernel) (addr : Z) : option Z :=
  if addr =? 0 then (fun sp => align_up (p_next_mmap_base (snd sp))) <$> cur_proc k else Some (addr & not64 0xFFF).

Lemma reserve_start k len : sys_inv m0 k ->
  safe_from P (sys_inv m0) k (reserve_mmap_base len) (fun o => forall start, o = Some start -> mmap_start k 0 = Some start).
Proof.
  intros Hk. pose proof (safe_reserve P m0 len k Hk) as Hs. unfold safe_from. unfold reserve_mmap_base in *.
  rewrite (bind_ok _ _ _ _ _ (current_process_mut_eq k (si_wf _ _ Hk))) in *. unfold mmap_start. cbn [Z.eqb].
  destruct (cur_proc k) as [[slot p]|]; [|done]. cbn [fmap option_fmap option_map snd]. cbv zeta in *.
  destruct (checked_add64 _ _) as [e|]; [|done]. unfold bindM in *.
  destruct (set_process _ _ _) as [[] k1| |]; [|done..]. split; [apply Hs|]. by intros ? [= <-].
Qed.

(** The rest of [mmap], once the place is chosen. *)
Lemma safe_mmap_rest start len prot fl fd off (anonymous : bool) : (anonymous = false -> 0 <= fd) ->
  len mod 4096 = 0 -> 0 <= len -> user_target m0 start len ->
  safe (let* conflict := region_conflicts start len in
        ensure (negb conflict) Invalid ;;;
        let* ok := alloc_vma start len prot fl in
        ensure ok Invalid ;;;
        let* pml4 := current_pml4 in
        let* file_seed :=
          if anonymous then retM None
          else
            let* d := descriptor_info fd in
            match d with
            | Some (DFile file_idx _) =>
                let* bytes := on_fs (vfs_read_range file_idx off len) in
                retM (Some (default [] bytes))
            | _ => errM BadFd
            end in
        mmap_loop (Z.to_nat (len / 0x1000)) pml4 start len 0 (map_flags_from_prot prot) file_seed ;;;
        retM start) (fun _ => True).
Proof.
  intros Hfd Hm Hl Ht. do 5 safe_step. apply (safe_bind _ _ _ _ (fun _ => True)).
  { destruct anonymous; [by apply safe_ret|]. specialize (Hfd eq_refl). safe_auto. }
  intros seed _. eapply safe_bind; [|intros; by apply safe_ret]. apply safe_mmap_loop; [lia|].
  apply (user_target_sub _ _ _ _ _ Ht); [lia|]. change 0x1000 with 4096. pose proof (Z.div_mod len 4096 ltac:(lia)).
  rewrite Z2Nat.id by (apply Z.div_pos; lia). lia.
Qed.

Lemma mmap_safe_from k a l p f fd off : sys_inv m0 k ->
  m0 = None \/ (forall start, mmap_start k a = Some start -> 0 <= start /\ start + align_up l <= USER_TOP) ->
  safe_from P (sys_inv m0) k (mmap a l p f fd off) (fun _ => True).
Proof.
  intros Hk Ht. unfold mmap, mmap_impl. set (fd' := as_i32 fd). set (fl := wrap32 f). cbv zeta. destruct (align_up_range l) as [Hl0 Hlm].
  assert (forall (m : M Kernel unit) (C : Prop) (g : unit -> M Kernel Z), m k = OOk tt k /\ C \/ (exists e, m k = OErr e k) ->
    (C -> safe_from P (sys_inv m0) k (g tt) (fun _ => True)) -> safe_from P (sys_inv m0) k (bindM m g) (fun _ => True)) as Hcheck.
  { intros m C g Hm Hg. unfold safe_from, bindM. destruct Hm as [[-> HC]|[e ->]]; [by apply Hg|exact Hk]. }
  assert (forall c e, ensure c e k = OOk tt k /\ c = true \/ exists e', ensure c e k = OErr e' k) as Hens
    by (intros [] e; [by left|right; by eexists]).
  do 3 (eapply Hcheck; [apply Hens|intros _]). set (anon := has_bits fl MAP_ANONYMOUS).
  apply (Hcheck _ (anon = false -> 0 <= fd')).
  { destruct anon; [destruct (Hens ((fd' =? -1) && (as_i64 off =? 0)) Invalid) as [[H _]|H]; [by left|by right]|].
    unfold bindM. destruct (Hens (0 <=? fd') BadFd) as [[-> H]|[e ->]]; [|by right; eexists].
    destruct (Hens ((0 <=? as_i64 off) && ((as_i64 off & 0xFFF) =? 0)) Invalid) as [[-> _]|[e ->]]; [left|by right; eexists].
    split; [done|]. intros _. lia. }
  intros Hfd. apply (safe_from_bind _ _ _ _ _ (fun start => user_target m0 start (align_up l))).
  - assert (forall start, mmap_start k a = Some start -> user_target m0 start (align_up l)) as Htgt
      by (intros start Hs; destruct Ht as [Ht|Ht]; [by left|right; by apply Ht]).
    destruct (Z.eqb_spec a 0) as [->|Hne].
    + eapply safe_from_bind; [by apply reserve_start|]. intros o Ho. eapply safe_weaken; [apply safe_option_ok|].
      intros start ->. by apply Htgt, Ho.
    + pose proof (safe_region_conflicts P m0 (a & not64 0xFFF) (align_up l) k Hk) as Hs. unfold safe_from, bindM.
      destruct (region_conflicts _ _ k) as [c k1| |]; [|done..]. destruct Hs as [Hk1 _]. unfold ensure.
      destruct (_ && _); [|done]. split; [done|]. apply Htgt. unfold mmap_start. by rewrite (proj2 (Z.eqb_neq _ _) Hne).
  - intros start Hs. by apply safe_mmap_rest.
Qed.
End Maps.

(** ** Input and output *)

Lemma user_range_buf p n : user_range_ok p n = true -> 0 <= p -> 0 <= n -> user_buf p n.
Proof. intros H Hp Hn. apply user_range_ok_bound in H. split_and!; lia. Qed.

Definition good_iov (v : Iovec) : Prop := 0 <= iov_base v /\ 0 <= iov_len v.

Lemma good_iovecs n bs : Forall good_iov (iovecs_of n bs).
Proof. revert bs. induction n as [|n IH]; intros bs; cbn; constructor; [|apply IH]. split; apply wrap64_range. Qed.

Section Io.
Context (P : Prop) (m0 : option Mem).
#[local] Abbreviation safe := (safe P (sys_inv m0)).

Lemma safe_user_bytes b n : safe (user_bytes b n) (fun _ => True).
Proof. unfold user_bytes. safe_auto. Qed.

#[local] Hint Resolve safe_user_bytes : safe.

Lemma safe_iovecs p n : safe (copy_iovecs_from_user p n) (opt (fun r => Forall good_iov (fst r))).
Proof.
  unfold copy_iovecs_from_user. cbv zeta. safe_step; [by apply safe_ret|]. safe_step; [by apply safe_ret|]. safe_step.
  apply safe_ret. destruct a; [|done]. apply Forall_app. split; [apply good_iovecs|]. by apply Forall_replicate.
Qed.

Lemma safe_write fd b n : P -> 0 <= fd -> safe (write_impl fd b n) (fun _ => True).
Proof. intros HP Hf. unfold write_impl. safe_auto. Qed.

Lemma safe_wait_ok {A} (w : Wait (option A)) e : safe (wait_ok w e) (fun _ => True).
Proof. unfold wait_ok. safe_auto. Qed.

#[local] Hint Resolve safe_iovecs safe_wait_ok user_range_buf : safe.

Lemma safe_read fuel irqs fd b n : 0 <= fd -> 0 <= b -> 0 <= n -> safe (read_impl fuel irqs fd b n) (fun _ => True).
Proof. intros Hf Hb Hn. unfold read_impl. safe_auto. Qed.

Lemma safe_writev_loop fd vs total : P -> 0 <= fd -> Forall good_iov vs -> safe (writev_loop fd vs total) (fun _ => True).
Proof.
  intros HP Hfd Hv. revert total. induction Hv as [|v vs Hv _ IH]; intros total; cbn [writev_loop]; [by apply safe_ret|]. safe_auto.
Qed.

Lemma safe_readv_loop fuel irqs fd vs total : 0 <= fd -> Forall good_iov vs -> safe (readv_loop fuel irqs fd vs total) (fun _ => True).
Proof.
  intros Hfd Hv. revert total. induction Hv as [|v vs [Hv1 Hv2] _ IH]; intros total; cbn [readv_loop]; [by apply safe_ret|]. safe_auto.
Qed.

Lemma safe_writev fd p n : P -> 0 <= fd -> safe (writev_impl fd p n) (fun _ => True).
Proof. intros HP Hfd. unfold writev_impl. safe_auto. apply safe_writev_loop; try done. by apply Forall_take. Qed.

Lemma safe_readv fuel irqs fd p n : 0 <= fd -> safe (readv_impl fuel irqs fd p n) (fun _ => True).
Proof. intros Hfd. unfold readv_impl. safe_auto. apply safe_readv_loop; try done. by apply Forall_take. Qed.

Lemma safe_ioctl fd r a : 0 <= fd -> 0 <= a -> safe (ioctl_impl fd r a) (fun _ => True).
Proof. intros Hf Ha. unfold ioctl_impl. safe_auto. Qed.

Lemma safe_file_of_fd fd e : 0 <= fd -> safe (file_of_fd fd e) (fun _ => True).
Proof. intros Hf. unfold file_of_fd. safe_auto. Qed.

Lemma safe_fs_any {A} (m : M FS A) : P -> safe (on_fs m) (fun _ => True).
Proof. intros HP. apply safe_on_fs. by left. Qed.

#[local] Hint Resolve safe_file_of_fd safe_fs_any : safe.

Lemma safe_pread64 fd b n o : P -> 0 <= fd -> 0 <= b -> safe (pread64_impl fd b n o) (fun _ => True).
Proof. intros HP Hf Hb. unfold pread64_impl. safe_auto. Qed.

Lemma safe_pwrite64 fd b n o : P -> 0 <= fd -> safe (pwrite64_impl fd b n o) (fun _ => True).
Proof. intros HP Hf. unfold pwrite64_impl. safe_auto. Qed.

#[local] Hint Resolve safe_pread64 safe_pwrite64 : safe.

Lemma safe_preadv_loop fd vs t o : P -> 0 <= fd -> Forall good_iov vs -> safe (preadv_loop fd vs t o) (fun _ => True).
Proof.
  intros HP Hfd Hv. revert t o. induction Hv as [|v vs [Hv1 Hv2] _ IH]; intros t o; cbn [preadv_loop]; [by apply safe_ret|]. safe_auto.
Qed.

Lemma safe_pwritev_loop fd vs t o : P -> 0 <= fd -> Forall good_iov vs -> safe (pwritev_loop fd vs t o) (fun _ => True).
Proof.
  intros HP Hfd Hv. revert t o. induction Hv as [|v vs [Hv1 Hv2] _ IH]; intros t o; cbn [pwritev_loop]; [by apply safe_ret|]. safe_auto.
Qed.

Lemma safe_preadv fd p n o : P -> 0 <= fd -> safe (preadv_impl fd p n o) (fun _ => True).
Proof. intros HP Hfd. unfold preadv_impl. safe_auto. apply safe_preadv_loop; try done. by apply Forall_take. Qed.

Lemma safe_pwritev fd p n o : P -> 0 <= fd -> safe (pwritev_impl fd p n o) (fun _ => True).
Proof. intros HP Hfd. unfold pwritev_impl. safe_auto. apply safe_pwritev_loop; try done. by apply Forall_take. Qed.

Lemma safe_offset {R} fd (f : OpenFile -> R * OpenFile) : 0 <= fd ->
  safe (with_fd_mut fd (fun file => retM (f file))) (fun _ => True).
Proof. intros Hfd. apply safe_with_fd_mut; [done|]. intros. by apply safe_ret. Qed.

Lemma safe_sendfile o i p n : P -> 0 <= o -> 0 <= i -> 0 <= p -> safe (sendfile_impl o i p n) (fun _ => True).
Proof.
  intros HP Ho Hi Hp. unfold sendfile_impl. do 4 safe_next. apply (safe_bind _ _ _ _ (fun _ => True)).
  { safe_step; [safe_auto|]. eapply safe_bind; [by apply (safe_offset _ (fun file => (of_offset file, file)))|]. intros. safe_auto. }
  intros off _. do 4 safe_next. apply (safe_bind _ _ _ _ (fun _ => True)); [|intros; by apply safe_ret].
  safe_step; [safe_auto|]. eapply safe_bind; [by apply (safe_offset _ (fun file => (tt, file <| of_offset := off +w a6 |>)))|].
  intros. safe_auto.
Qed.
End Io.

#[export] Hint Resolve safe_user_bytes safe_write safe_read safe_writev safe_readv safe_ioctl safe_pread64 safe_pwrite64
  safe_preadv safe_pwritev safe_sendfile safe_file_of_fd safe_fs_any : safe.

(** ** Files *)

Section Vfs.
Context (P : Prop) (m0 : option Mem).
#[local] Abbreviation safe := (safe P (sys_inv m0)).

Lemma safe_fs_do f : safe (fs_do f) (fun _ => True).
Proof. intros k Hk. unfold fs_do. destruct (f (k_fs k)) as [b fs]. split; [by apply inv_fs|done]. Qed.

Lemma safe_truncate_zero i : safe (on_fs (fs_resize i 0)) (fun _ => True).
Proof.
  apply safe_on_fs. right. intros [files|]; [|done]. unfold fs_resize. destruct (file_at files i) as [f|]; [|done].
  unfold vec_resize. rewrite (proj2 (Z.ltb_ge _ _)) by (unfold vlen; lia). done.
Qed.

#[local] Hint Resolve safe_fs_do safe_truncate_zero : safe.

Lemma safe_open_path path flags : safe (open_path path flags) (fun _ => True).
Proof. unfold open_path, open_file. safe_auto. Qed.

Lemma safe_exe_path : safe current_exe_path (fun _ => True).
Proof. unfold current_exe_path. safe_auto. Qed.

Lemma safe_special r Q : safe r Q -> safe (special r) (fun _ => True).
Proof. intros H. unfold special. eapply safe_bind; [exact H|]. intros. safe_auto. Qed.

#[local] Hint Resolve safe_open_path safe_exe_path : safe.

Lemma safe_open_special path flags : safe (open_special_path path flags) (fun _ => True).
Proof.
  unfold open_special_path. safe_step; [apply safe_err|].
  do 3 (safe_step; [eapply safe_special, safe_open_char_device|]).
  do 3 (safe_step; [eapply safe_special; by apply safe_dup_min|]). safe_auto.
Qed.

#[local] Hint Resolve safe_open_special : safe.

Lemma safe_open p f md : safe (open_impl p f md) (fun _ => True).
Proof. unfold open_impl. safe_auto. Qed.

Lemma safe_openat d p f md : safe (openat_impl d p f md) (fun _ => True).
Proof. unfold openat_impl. safe_step. apply safe_open. Qed.

Lemma safe_fsize fd : 0 <= fd -> safe (fsize_impl fd) (fun _ => True).
Proof. intros. unfold fsize_impl. safe_auto. Qed.

Lemma safe_fstat fd p : 0 <= fd -> 0 <= p -> safe (fstat_impl fd p) (fun _ => True).
Proof. intros. unfold fstat_impl. safe_auto. Qed.

Lemma safe_stat_name n p : 0 <= p -> safe (stat_name n p) (fun _ => True).
Proof. intros. unfold stat_name. safe_auto. Qed.

#[local] Hint Resolve safe_stat_name : safe.

Lemma safe_fstatat d p s f : 0 <= s -> safe (fstatat_impl d p s f) (fun _ => True).
Proof. intros. unfold fstatat_impl. safe_auto. Qed.

Lemma safe_faccessat d p md f : safe (faccessat_impl d p md f) (fun _ => True).
Proof. unfold faccessat_impl. safe_auto. Qed.

Lemma safe_lseek fd o w : 0 <= fd -> safe (lseek_impl fd o w) (fun _ => True).
Proof. intros. unfold lseek_impl. safe_auto. Qed.

Lemma safe_truncate p l : P -> safe (truncate_impl p l) (fun _ => True).
Proof. intros. unfold truncate_impl. safe_auto. Qed.

Lemma safe_ftruncate fd l : P -> 0 <= fd -> safe (ftruncate_impl fd l) (fun _ => True).
Proof. intros. unfold ftruncate_impl. safe_auto. Qed.

Lemma safe_touch p l : safe (touch_impl p l) (fun _ => True). Proof. unfold touch_impl. safe_auto. Qed.
Lemma safe_rm p l : safe (rm_impl p l) (fun _ => True). Proof. unfold rm_impl. safe_auto. Qed.
Lemma safe_unlinkat d p l f : safe (unlinkat_impl d p l f) (fun _ => True). Proof. unfold unlinkat_impl. safe_auto. Qed.

Lemma safe_exe_target : safe build_proc_self_exe_target (fun _ => True).
Proof. unfold build_proc_self_exe_target. safe_auto. Qed.

#[local] Hint Resolve safe_exe_target : safe.

Lemma safe_readlink p b l : 0 <= b -> safe (readlink_impl p b l) (fun _ => True).
Proof. intros. unfold readlink_impl, readlink_common. safe_auto. Qed.

Lemma safe_readlinkat d p b l : 0 <= b -> safe (readlinkat_impl d p b l) (fun _ => True).
Proof. intros. unfold readlinkat_impl. safe_step. by apply safe_readlink. Qed.

Lemma safe_payload p : safe (copy_file_payload_args p) (fun _ => True).
Proof. unfold copy_file_payload_args. safe_auto. Qed.

#[local] Hint Resolve safe_payload : safe.

Lemma safe_write_file_call n l p : safe (write_file_impl n l p) (fun _ => True).
Proof. unfold write_file_impl. safe_auto. Qed.

Lemma safe_push_file n l p : safe (push_file_impl n l p) (fun _ => True).
Proof. unfold push_file_impl. safe_auto. Qed.

Lemma safe_emit bytes buf n pos : user_buf buf n -> 0 <= pos <= n -> safe (emit bytes buf n pos) (fun pos => 0 <= pos <= n).
Proof.
  intros Hb. pose proof Hb as (H1 & H2 & H3). revert pos.
  induction bytes as [|b bytes IH]; intros pos Hp; cbn [emit]; [by apply safe_ret|]. safe_step; [by apply safe_ret|].
  breflect. rewrite wrap64_small in Heqb0 by (unfold U64, USER_TOP in *; lia).
  eapply safe_bind; [apply (safe_store _ _ _ _ 1)|]; [unfold user_buf; lia|done|]. intros. apply IH. lia.
Qed.

Lemma safe_ls_loop files buf n pos : user_buf buf n -> 0 <= pos <= n ->
  safe (ls_loop files buf n pos) (fun pos => 0 <= pos <= n).
Proof.
  intros Hb. revert pos. induction files as [|f files IH]; intros pos Hp; cbn [ls_loop]; [by apply safe_ret|]. cbv zeta.
  do 4 (eapply safe_bind; [by apply safe_emit|]; intros ? ?). by apply IH.
Qed.

Lemma safe_ls p n : 0 <= p -> 0 <= n -> safe (ls_impl p n) (fun _ => True).
Proof.
  intros Hp Hn. unfold ls_impl. do 2 safe_step. cbv zeta. cbn beta in *. pose proof (user_range_buf _ _ H Hp Hn) as Hb.
  pose proof Hb as (_ & _ & H3). eapply safe_bind; [apply safe_ls_loop; [done|lia]|]. intros pos Hpos. cbn beta in Hpos.
  apply (safe_bind _ _ _ _ (fun _ => True)); [|intros; by apply safe_ret]. safe_step; [|by apply safe_ret]. breflect.
  eapply safe_store; [|done]. unfold user_buf. cbn. lia.
Qed.
End Vfs.

#[export] Hint Resolve safe_open safe_openat safe_fsize safe_fstat safe_fstatat safe_faccessat safe_lseek safe_truncate
  safe_ftruncate safe_touch safe_rm safe_unlinkat safe_readlink safe_readlinkat safe_write_file_call safe_push_file
  safe_ls : safe.

(** ** Time and system information *)

Section Misc.
Context (P : Prop) (m0 : option Mem).
#[local] Abbreviation safe := (safe P (sys_inv m0)).

Lemma safe_ticks : safe ticks (fun _ => True). Proof. unfold ticks. safe_auto. Qed.
#[local] Hint Resolve safe_ticks : safe.

Lemma safe_sleep_loop fuel pauses start w : pauses_ok m0 pauses -> safe (sleep_loop fuel pauses start w) (fun _ => True).
Proof. intros Hp. induction fuel as [|f IH]; cbn [sleep_loop]; safe_auto. Qed.

Lemma safe_sleep_yield fuel pauses w : pauses_ok m0 pauses -> safe (sleep_yield fuel pauses w) (fun _ => True).
Proof. intros Hp. unfold sleep_yield. safe_step. by apply safe_sleep_loop. Qed.

Lemma safe_write_rem p : 0 <= p -> safe (write_rem p) (fun _ => True).
Proof. intros. unfold write_rem. safe_auto. Qed.
#[local] Hint Resolve safe_sleep_yield safe_write_rem : safe.

Lemma safe_sleep_timespec fuel pauses r p : pauses_ok m0 pauses -> 0 <= p -> safe (sleep_timespec fuel pauses r p) (fun _ => True).
Proof. intros. unfold sleep_timespec. safe_auto. Qed.
#[local] Hint Resolve safe_sleep_timespec : safe.

Lemma safe_nanosleep fuel pauses r p : pauses_ok m0 pauses -> 0 <= p -> safe (nanosleep_impl fuel pauses r p) (fun _ => True).
Proof. intros. unfold nanosleep_impl. safe_auto. Qed.
#[local] Hint Resolve safe_nanosleep : safe.

Lemma safe_clock_gettime c p : 0 <= p -> safe (clock_gettime_impl c p) (fun _ => True).
Proof. intros. unfold clock_gettime_impl. safe_auto. Qed.
Lemma safe_gettimeofday p z : 0 <= p -> safe (gettimeofday_impl p z) (fun _ => True).
Proof. intros. unfold gettimeofday_impl. safe_auto. Qed.
Lemma safe_clock_nanosleep fuel pauses c f r p : pauses_ok m0 pauses -> 0 <= p ->
  safe (clock_nanosleep_impl fuel pauses c f r p) (fun _ => True).
Proof. intros. unfold clock_nanosleep_impl. safe_auto. Qed.
Lemma safe_boottime p n : 0 <= p -> safe (boottime_impl p n) (fun _ => True).
Proof. intros. unfold boottime_impl. safe_auto. Qed.
Lemma safe_uptime : safe sys_uptime_seconds (fun _ => True). Proof. unfold sys_uptime_seconds. safe_auto. Qed.
Lemma safe_sys_ticks : safe sys_ticks (fun _ => True). Proof. apply safe_ticks. Qed.
Lemma safe_sleep_ticks fuel pauses w : pauses_ok m0 pauses -> safe (sleep_ticks fuel pauses w) (fun _ => True).
Proof. intros. unfold sleep_ticks. safe_auto. Qed.

Lemma safe_uname p : 0 <= p -> safe (syscall_uname_impl p) (fun _ => True).
Proof. intros. unfold syscall_uname_impl. safe_auto. Qed.
Lemma safe_getrlimit r p : 0 <= p -> safe (syscall_getrlimit_impl r p) (fun _ => True).
Proof. intros. unfold syscall_getrlimit_impl. safe_auto. Qed.
Lemma safe_setrlimit r p : safe (syscall_setrlimit r p) (fun _ => True). Proof. by apply safe_ret. Qed.
#[local] Hint Resolve safe_getrlimit : safe.
Lemma safe_prlimit64 p r n o : 0 <= o -> safe (syscall_prlimit64_impl p r n o) (fun _ => True).
Proof. intros. unfold syscall_prlimit64_impl. safe_auto. Qed.
Lemma safe_getcwd p n : 0 <= p -> safe (syscall_getcwd_impl p n) (fun _ => True).
Proof. intros. unfold syscall_getcwd_impl. safe_auto. Qed.
Lemma safe_chdir p : safe (syscall_chdir_impl p) (fun _ => True).
Proof. unfold syscall_chdir_impl. safe_auto. Qed.
Lemma safe_sigaltstack p o : 0 <= o -> safe (syscall_sigaltstack_impl p o) (fun _ => True).
Proof. intros. unfold syscall_sigaltstack_impl. safe_auto. Qed.
Lemma safe_sysinfo p : 0 <= p -> safe (syscall_sysinfo_impl p) (fun _ => True).
Proof. intros. unfold syscall_sysinfo_impl. safe_auto. Qed.
Lemma safe_arch_prctl c p : 0 <= p -> safe (syscall_arch_prctl_impl c p) (fun _ => True).
Proof. intros. unfold syscall_arch_prctl_impl. safe_auto. Qed.

Lemma safe_next_random : safe next_random_u64 (fun _ => True).
Proof.
  unfold next_random_u64. safe_step. apply (safe_bind _ _ _ _ (fun _ => True)); [safe_auto|]. intros s _. cbv zeta.
  eapply safe_bind; [apply safe_modify; eauto with safe|]. intros. by apply safe_ret.
Qed.
#[local] Hint Resolve safe_next_random : safe.

Lemma safe_random_loop n r : safe (random_loop n r) (fun _ => True).
Proof. revert r. induction n as [|n IH]; intros r; cbn [random_loop]; [by apply safe_ret|]. safe_auto. Qed.
#[local] Hint Resolve safe_random_loop : safe.

Lemma safe_getrandom p n f : 0 <= p -> safe (syscall_getrandom_impl p n f) (fun _ => True).
Proof. intros. unfold syscall_getrandom_impl. safe_auto. Qed.

Lemma safe_set_vga f : safe (modifyM (fun k => k <| k_vga := f k |>)) (fun _ => True).
Proof. apply safe_modify. intros k. apply inv_vga. Qed.
#[local] Hint Resolve safe_set_vga : safe.

Lemma safe_clear_terminal : safe clear_terminal_impl (fun _ => True).
Proof. unfold clear_terminal_impl. safe_auto. Qed.
Lemma safe_set_font_scale s : safe (set_font_scale_impl s) (fun _ => True).
Proof. unfold set_font_scale_impl. safe_auto. Qed.
Lemma safe_free_bytes : safe free_bytes_impl (fun _ => True). Proof. unfold free_bytes_impl. safe_auto. Qed.
Lemma safe_pci_list p n : 0 <= p -> safe (pci_list_impl p n) (fun _ => True).
Proof.
  intros. unfold pci_list_impl. eapply safe_bind; [apply safe_modify; eauto with safe|]. intros _ _. safe_auto.
Qed.

Lemma safe_pci_test bw : safe (pci_test bw) (fun _ => True).
Proof.
  unfold pci_test. eapply safe_bind; [apply safe_get|]. intros k _. destruct (pci_self_test bw (k_pci k)) as [f p].
  eapply safe_bind; [apply safe_modify; eauto with safe|]. intros _ _. by apply safe_ret.
Qed.

Lemma safe_mach_any {A} (m : M Machine A) : P -> safe (on_mach m) (fun _ => True).
Proof. intros HP. apply safe_on_mach. by left. Qed.
#[local] Hint Resolve safe_mach_any : safe.

Lemma safe_initial_stack pml4 top name im : P -> safe (build_initial_stack pml4 top name im) (fun _ => True).
Proof. intros HP. unfold build_initial_stack. safe_auto. Qed.

Lemma set_len_replicate n : Forall (fun a => set_len (sa_mask a)) (replicate n SigAction_empty).
Proof. by apply Forall_replicate. Qed.
#[local] Hint Resolve set_len_replicate : core.

Lemma good_new_leader s pid ppid name : 0 <= s < 8 -> good_process s (Process_new_leader pid ppid name).
Proof. intros Hs. split; [done|]. split; [apply Process_new_leader_wf|]. constructor; [done|apply set_len_replicate]. Qed.
#[local] Hint Resolve good_new_leader : safe.

Lemma safe_spawn_named s name : 0 <= s < 8 -> safe (spawn_named s name) (fun _ => True).
Proof. intros Hs. unfold spawn_named. safe_auto. Qed.
#[local] Hint Resolve safe_initial_stack safe_spawn_named : safe.

Lemma safe_exec_as_task tr bin name : P -> safe (exec_as_task tr bin name) (fun r => 0 <= snd r < 8).
Proof. intros HP. unfold exec_as_task, program_memory. safe_auto; apply safe_ret; cbn; lia || done. Qed.
#[local] Hint Resolve safe_exec_as_task : safe.

Lemma safe_exec tr p a e : P -> safe (syscall_exec_impl tr p a e) (fun _ => True).
Proof. intros HP. unfold syscall_exec_impl. safe_auto. Qed.
End Misc.

#[export] Hint Resolve safe_nanosleep safe_clock_gettime safe_gettimeofday safe_clock_nanosleep safe_boottime safe_uptime
  safe_sys_ticks safe_sleep_ticks safe_uname safe_getrlimit safe_setrlimit safe_prlimit64 safe_getcwd safe_chdir
  safe_sigaltstack safe_sysinfo safe_arch_prctl safe_getrandom safe_clear_terminal safe_set_font_scale safe_free_bytes
  safe_pci_list safe_pci_test safe_exec safe_finish_syscall : safe.
