(* ===== verification/Safety.v ===== *)
(** * Every system call keeps the invariant

    From the entry of a system call to its return, with the registers as the
    user left them. *)

From S2P Require Import Prelude Mem Update Fmt Pci Bench Result Logic Pmm Paging RamFs Ring Tty Types Vga State Task Proc Fd.
From S2P Require Import Pipes UserCopy Signal Futex SysProc Mm SysIo SysVfs Time Sys Elf Exec Dispatch Invariant.
From S2P Require Import SigReturn SafeFd SafeCalls Interrupts.

(** ** The dispatcher *)


(** A computation that does not return an error. *)
Definition no_err {A} (m : M Kernel A) : Prop := forall k e k', m k <> OErr e k'.

Lemma no_err_bind {A B} (m : M Kernel A) (f : A -> M Kernel B) : no_err m -> (forall a, no_err (f a)) -> no_err (bindM m f).
Proof. intros Hm Hf k e k'. unfold bindM. destruct (m k) eqn:E; [apply Hf| |done]. by apply Hm in E. Qed.

Lemma no_err_retW m : no_err (retW m).
Proof. intros k e k'. unfold retW. by destruct (m k). Qed.

Lemma no_err_ignore {A} (m : M Kernel A) : no_err (ignoreM m).
Proof. intros k e k'. unfold ignoreM. by destruct (m k). Qed.

Lemma no_err_ret {A} (a : A) : no_err (retM a). Proof. done. Qed.
Lemma no_err_get : no_err getM. Proof. done. Qed.
Lemma no_err_modify f : no_err (modifyM f). Proof. done. Qed.
Lemma no_err_poke a v : no_err (poke64 a v). Proof. done. Qed.
Lemma no_err_put_frame a f : no_err (put_frame a f). Proof. done. Qed.
Lemma no_err_get_frame f : no_err (get_frame f). Proof. done. Qed.

#[local] Hint Resolve no_err_retW no_err_ignore no_err_ret no_err_get no_err_modify no_err_poke no_err_put_frame
  no_err_get_frame : safe.

Ltac quiet := repeat first
  [ solve [eauto 2 with safe]
  | apply no_err_bind; [|intros]
  | match goal with |- no_err (let _ := _ in _) => cbv zeta
    | |- no_err (if ?b then _ else _) => destruct b
    | |- no_err (match ?x with _ => _ end) => destruct x end ].

Lemma no_err_finish num fp r : no_err (finish_syscall num fp r).
Proof. unfold finish_syscall, frame_rax, put_rax. quiet. Qed.

(** The calls that can panic: [PANIC]; the writes and resizes of a file whose
    size a vector cannot have; the reads at an offset past the end; mapping
    without memory; [fork] and [clone] of a task without a process. *)
Definition may_panic : list Z :=
  [Nr.WRITE; Nr.MMAP; Nr.BRK; Nr.PREAD64; Nr.PWRITE64; Nr.WRITEV; Nr.SENDFILE; Nr.CLONE; Nr.FORK; Nr.EXEC;
   Nr.TRUNCATE; Nr.FTRUNCATE; Nr.PREADV; Nr.PWRITEV; Nr.PANIC].

Ltac panics := apply (bool_decide_unpack _); vm_compute; exact I.

#[local] Hint Extern 1 (_ ∈ may_panic) => panics : safe.

(** The system calls that map pages do it at user addresses: [brk] up to the
    user half's end, [mmap] with its range, at the place it is going to take,
    inside.  The kernel does not check it. *)
Definition maps_user (num a1 a2 : Z) (k : Kernel) : Prop :=
  (num = Nr.BRK -> a1 <= USER_TOP) /\
  (num = Nr.MMAP -> forall start, mmap_start k a1 = Some start -> 0 <= start /\ start + align_up a2 <= USER_TOP).

Section Dispatch.
Context (fuel : nat) (pauses : nat -> Pause) (irqs : nat -> list Irq).
Context (fork_return_trampoline user_task_trampoline : Z) (bus_write : (Z -> Z) -> Z -> Z -> (Z -> Z)).
Context (m0 : option Mem) (Hpauses : pauses_ok m0 pauses).
#[local] Abbreviation routes := (routes fuel pauses irqs fork_return_trampoline user_task_trampoline bus_write).
#[local] Abbreviation route := (route fuel pauses irqs fork_return_trampoline user_task_trampoline bus_write).

Lemma safe_retW (P : Prop) I m Q : safe P I m Q -> safe P I (retW m) (fun _ => True).
Proof. intros H k Hk. unfold retW. specialize (H k Hk). destruct (m k); [by destruct H|done..]. Qed.

Lemma safe_ret_call (P : Prop) I (m : M Kernel Z) Q : safe P I m Q -> safe P I (ret m) (fun _ => True).
Proof.
  intros H. unfold ret, doneM. eapply (safe_retW _ _ _ (fun _ => True)). eapply safe_bind; [exact H|]. intros. by apply safe_ret.
Qed.

Lemma safe_from_ret_call (P : Prop) (I : Kernel -> Prop) k (m : M Kernel Z) Q : safe_from P I k m Q -> safe_from P I k (ret m) (fun _ => True).
Proof. unfold safe_from, ret, retW, doneM, bindM. destruct (m k); [by intros []|done..]. Qed.

Section Args.
Context (a1 a2 a3 a4 a5 a6 frame : Z) (H1 : 0 <= a1) (H2 : 0 <= a2) (H3 : 0 <= a3) (H4 : 0 <= a4).

Lemma routes_safe : Forall (fun r => bool_decide (fst r = Nr.MMAP) = false ->
    (bool_decide (fst r = Nr.BRK) = true -> m0 = None \/ 0 <= a1 <= USER_TOP) ->
    safe (fst r ∈ may_panic) (sys_inv m0) (snd r) (fun _ => True))
  (routes a1 a2 a3 a4 a5 a6 frame).
Proof.
  unfold Dispatch.routes. repeat (apply list.Forall_cons; split); [..|done]; cbn [fst snd]; intros Hm Hb.
  all: try (vm_compute in Hm; discriminate Hm).
  all: try (specialize (Hb eq_refl); eapply safe_ret_call, safe_brk; [panics|exact Hb]).
  all: clear Hm Hb.
  all: try first [apply safe_panic; panics | by apply safe_ret].
  all: try first [eapply safe_ret_call | eapply safe_retW].
  all: try first [apply safe_err | by apply safe_ret].
  all: eauto 2 with safe.
Qed.

Lemma safe_from_route num k : sys_inv m0 k -> m0 = None \/ maps_user num a1 a2 k ->
  safe_from (num ∈ may_panic) (sys_inv m0) k (route num a1 a2 a3 a4 a5 a6 frame) (fun _ => True).
Proof.
  intros Hk Hm. destruct (decide (num = Nr.MMAP)) as [->|Hne].
  { change (route Nr.MMAP a1 a2 a3 a4 a5 a6 frame) with (ret (mmap a1 a2 a3 a4 a5 a6)). eapply safe_from_ret_call, mmap_safe_from; [panics|done|].
    destruct Hm as [Hm|[_ Hm]]; [by left|right; by apply Hm]. }
  unfold Dispatch.route. destruct (List.find _ _) as [[n h]|] eqn:E.
  - apply find_some in E as [Hin En]. cbn [fst] in En. apply Z.eqb_eq in En as ->. apply list_elem_of_In in Hin.
    apply (proj1 (list.Forall_forall _ _) routes_safe _ Hin); [by apply bool_decide_eq_false| |done].
    intros Hb%bool_decide_eq_true. destruct Hm as [Hm|[Hm _]]; [by left|right; split; [done|by apply Hm]].
  - by apply (safe_ret_call _ _ _ (fun _ => True)), Hk; apply safe_err.
Qed.
End Args.

Lemma no_err_route num a1 a2 a3 a4 a5 a6 frame : no_err (route num a1 a2 a3 a4 a5 a6 frame).
Proof.
  unfold Dispatch.route. destruct (List.find _ _) as [[n h]|] eqn:E; [|apply no_err_retW].
  apply find_some in E as [Hin _]. apply list_elem_of_In in Hin.
  assert (Forall (fun r => no_err (snd r)) (routes a1 a2 a3 a4 a5 a6 frame)) as H.
  { unfold Dispatch.routes. repeat (apply list.Forall_cons; split); [..|done]; cbn [snd]; first [apply no_err_retW|done]. }
  exact (proj1 (list.Forall_forall _ _) H _ Hin).
Qed.

#[local] Abbreviation syscall_dispatch :=
  (syscall_dispatch fuel pauses irqs fork_return_trampoline user_task_trampoline bus_write).

Lemma safe_from_dispatch num a1 a2 a3 a4 frame k : 0 <= a1 -> 0 <= a2 -> 0 <= a3 -> 0 <= a4 -> sys_inv m0 k ->
  m0 = None \/ maps_user num a1 a2 k ->
  safe_from (num ∈ may_panic) (sys_inv m0) k (syscall_dispatch num a1 a2 a3 a4 frame) (fun _ => True).
Proof.
  intros H1 H2 H3 H4 Hk Hm. unfold Dispatch.syscall_dispatch, safe_from. rewrite (bind_ok _ _ _ _ _ (get_frame_run frame k)).
  destruct (if negb (frame =? 0) then _ else _) as [a5 a6].
  eapply (safe_from_bind _ _ k _ _ (fun _ => True)); [by apply safe_from_route|]. intros [|v] _; [by apply safe_ret|].
  eapply safe_bind; [apply safe_finish_syscall|]. intros. by apply safe_ret.
Qed.

Lemma no_err_dispatch num a1 a2 a3 a4 frame : no_err (syscall_dispatch num a1 a2 a3 a4 frame).
Proof.
  unfold Dispatch.syscall_dispatch. apply no_err_bind; [apply no_err_get_frame|]. intros f.
  destruct (if negb (frame =? 0) then _ else _) as [a5 a6]. apply no_err_bind; [apply no_err_route|].
  intros [|v]; [done|]. apply no_err_bind; [apply no_err_finish|done].
Qed.

#[local] Abbreviation syscall_entry :=
  (syscall_entry fuel pauses irqs fork_return_trampoline user_task_trampoline bus_write).

Lemma safe_from_entry regs arg4 k : 0 <= f_rdi regs -> 0 <= f_rsi regs -> 0 <= f_rdx regs -> 0 <= arg4 -> sys_inv m0 k ->
  m0 = None \/ maps_user (f_rax regs) (f_rdi regs) (f_rsi regs) k ->
  safe_from (f_rax regs ∈ may_panic) (sys_inv m0) k (syscall_entry regs arg4) (fun _ => True).
Proof.
  intros H1 H2 H3 H4 Hk Hm. unfold Dispatch.syscall_entry, put_rax, safe_from. rewrite getM_bind. cbv zeta.
  rewrite (bind_ok _ _ _ _ _ (poke64_run _ _ _)), (bind_ok _ _ _ _ _ (put_frame_run _ _ _)), (bind_ok (modifyM _) _ _ tt _ eq_refl).
  set (k2 := _ <| k_in_syscall := true |>). assert (sys_inv m0 k2) as Hk2 by (apply inv_in_syscall, inv_mach, inv_mach, Hk).
  eapply (safe_from_bind _ _ k2 _ _ (fun _ => True)); [by apply safe_from_dispatch|]. intros [|v] _; [by apply safe_ret|].
  eapply safe_bind; [apply safe_poke|]. intros _ _.
  eapply safe_bind; [apply safe_modify; eauto with safe|]. intros _ _.
  eapply safe_bind; [apply safe_get_frame|]. intros. by apply safe_ret.
Qed.

Lemma no_err_entry regs arg4 : no_err (syscall_entry regs arg4).
Proof.
  unfold Dispatch.syscall_entry, put_rax. apply no_err_bind; [done|]. intros k. cbv zeta.
  do 3 (apply no_err_bind; [done|intros _]). apply no_err_bind; [apply no_err_dispatch|].
  intros [|v]; [done|]. do 3 (apply no_err_bind; [done|intros ?]). done.
Qed.
End Dispatch.

(** The registers a program can enter the kernel with. *)
Definition regs_ok (regs : SyscallFrame) (arg4 : Z) : Prop :=
  is_u64 (f_rdi regs) /\ is_u64 (f_rsi regs) /\ is_u64 (f_rdx regs) /\ is_u64 arg4.

(** A call outside the list returns. *)
Lemma syscall_entry_total fuel pauses irqs fork_tramp user_tramp bus_write k regs arg4 :
  pauses_ok None pauses -> sys_inv None k -> regs_ok regs arg4 -> f_rax regs ∉ may_panic ->
  exists r k', syscall_entry fuel pauses irqs fork_tramp user_tramp bus_write regs arg4 k = OOk r k'.
Proof.
  intros Hp Hk (H1 & H2 & H3 & H4) Hn.
  pose proof (safe_from_entry fuel pauses irqs fork_tramp user_tramp bus_write None Hp regs arg4 k
    (proj1 H1) (proj1 H2) (proj1 H3) (proj1 H4) Hk (or_introl eq_refl)) as Hs.
  pose proof (no_err_entry fuel pauses irqs fork_tramp user_tramp bus_write regs arg4 k) as He. unfold safe_from in Hs.
  destruct (syscall_entry _ _ _ _ _ _ _ _ _) as [r k'|e k'|]; [by exists r, k'|by destruct (He e k')|done].
Qed.


(** ** Reachable states *)

Section Runs.
Context (fork_tramp user_tramp : Z) (bus_write : (Z -> Z) -> Z -> Z -> (Z -> Z)).

(** What happens to the kernel, in any order and any number: a program makes a
    system call; an interrupt is taken, among them the timer that switches
    tasks; a program faults; user memory changes, by a program or with the
    address space.  What other tasks do while a system call waits is itself
    such a run.  With [c] set, the calls map pages at user addresses only. *)
Inductive runs (c : bool) : Kernel -> Kernel -> Prop :=
| runs_none k : runs c k k
| runs_then k1 k2 k3 : runs c k1 k2 -> runs c k2 k3 -> runs c k1 k3
| runs_call fuel pauses irqs regs arg4 r k k' :
    (forall n k, runs c k (pa_resume (pauses n) k)) -> regs_ok regs arg4 ->
    (c = true -> maps_user (f_rax regs) (f_rdi regs) (f_rsi regs) k) ->
    syscall_entry fuel pauses irqs fork_tramp user_tramp bus_write regs arg4 k = OOk r k' -> runs c k k'
| runs_irq i k k' : take_irq i k = OOk tt k' -> runs c k k'
| runs_exception f r k k' : default_exception f k = OOk r k' -> runs c k k'
| runs_user k m : (forall a, a < 0 \/ USER_TOP <= a -> m a = k_umem k a) -> runs c k (k <| k_umem := m |>).

(** With [m0 = Some m] the invariant also says that memory outside the user
    half is that of [m]. *)
Lemma runs_inv c m0 k k' : m0 = None \/ c = true -> runs c k k' -> sys_inv m0 k -> sys_inv m0 k'.
Proof.
  intros Hc. induction 1 as [k|k1 k2 k3 _ IH1 _ IH2|fuel pauses irqs regs arg4 r k k' _ IH (H1 & H2 & H3 & H4) Hm Hrun|i k k' Hrun|f r k k' Hrun|k m' Hm]; intros Hk.
  - done.
  - auto.
  - assert (m0 = None \/ maps_user (f_rax regs) (f_rdi regs) (f_rsi regs) k) as Hg by (destruct Hc; auto).
    pose proof (safe_from_entry fuel pauses irqs fork_tramp user_tramp bus_write m0 IH regs arg4 k
      (proj1 H1) (proj1 H2) (proj1 H3) (proj1 H4) Hk Hg) as Hs. unfold safe_from in Hs. rewrite Hrun in Hs. apply Hs.
  - pose proof (safe_wait_for_event False m0 [i] k Hk) as Hs. unfold wait_for_event in Hs. cbn [forM] in Hs.
    rewrite (bind_ok _ _ _ _ _ Hrun) in Hs. apply Hs.
  - pose proof (safe_default_exception False m0 f k Hk) as Hs. rewrite Hrun in Hs. apply Hs.
  - apply (inv_umem _ k m' 0 USER_TOP); [done|lia|lia|]. intros a Ha. apply Hm. lia.
Qed.

Lemma runs_pauses c pauses : (forall n k, runs c k (pa_resume (pauses n) k)) -> pauses_ok None pauses.
Proof. intros H n k. by apply (runs_inv c); [left|]. Qed.
End Runs.

(** Memory as it is can be taken as the memory to keep. *)
Lemma inv_start (c : bool) k : sys_inv None k -> sys_inv (if c then Some (k_umem k) else None) k.
Proof. intros [? ? ? ? _]. constructor; [done..|]. by destruct c. Qed.

Lemma inv_weaken m0 k : sys_inv m0 k -> sys_inv None k.
Proof. intros [? ? ? ? _]. by constructor. Qed.

Lemma init_kernel_inv m bus : sys_inv None (init_kernel m bus).
Proof.
  constructor; [apply init_kernel_wf|..|done].
  1, 2: intros s t Hs; apply zget_replicate in Hs; done.
  intros i p Hi. apply zget_replicate in Hi as ->. apply Pipe_empty_ok.
Qed.

(** ** Witnesses *)

(** A bus whose devices ignore writes. *)
Definition no_write (cfg : Z -> Z) (_ _ : Z) : Z -> Z := cfg.

Definition sample_regs (num a1 : Z) : SyscallFrame := mkFrame 0 0 0 0 0 0 0 0 a1 0 0 num 0x1000 0x202 0x7FFF0000.
Definition no_pause (n : nat) : Pause := mkPause (fun k => k) [].

Definition boot_machine : Machine := mkMachine PMMState_new (fun _ => 0) 0 0 [].

