(* ===== verification/KernelBoot.v ===== *)
(** * Bringing the kernel up ([kernel_boot/], [mem/pmm_test.rs])

    The boot sequence from the boot loader's information to the state in
    which the first user program is started: the frame allocator and its
    self test, the assets saved in static buffers, the page tables, the files
    of the RAM disk, the main task and the background task.  The bytes of the
    embedded programs, the link addresses and the time stamps are arguments. *)

From Stdlib Require Import Ascii String.
From S2P Require Import Prelude Mem Update Fmt Bench Result Logic Boot Pmm Paging PageTables AddressSpace PagingInit RamFs Types Vga State Task Proc Fd Futex Exec Invariant SafeFd SafeCalls Safety.

Local Open Scope string_scope.
Local Open Scope Z_scope.

(** ** [mem/pmm_test.rs] *)

(** The first loop: [n] frames, or the panic. *)
Fixpoint test_alloc (n : nat) : M Machine (list Z) :=
  match n with
  | O => retM []
  | S n =>
      let* p := alloc_frameM in
      if p =? 0 then panicM
      else let* pages := test_alloc n in retM (p :: pages)
  end.

(** The second loop: two equal addresses. *)
Fixpoint test_duplicate (pages : list Z) : bool :=
  match pages with
  | [] => false
  | p :: pages => existsb (Z.eqb p) pages || test_duplicate pages
  end.

Definition test_pmm_basic : M Machine unit :=
  let* pages := test_alloc 128 in
  if test_duplicate pages then panicM
  else forM pages free_frameM.

(** ** [kernel_boot/assets.rs] *)

Definition ELF_BUF_LEN : Z := 64 * 1024.
Definition FONT_BUF_LEN : Z := 16 * 1024.

(** The lengths, with the static buffers' bytes in use: the first [elf_len]
    and [font_len] of them. *)
Record BootAssets := mkAssets { elf_buf : list Z; font_buf : list Z }.

(** A blob of the boot loader that fits its buffer. *)
Definition save_asset (m : Mem) (base size limit : Z) : list Z :=
  if negb (base =? 0) && (0 <? size) && (size <=? limit) then load_bytes m base size else [].

(** The assignments to the boot information. *)
Definition set_font (base size : Z) (bi : CoreOS_BootInfo) : CoreOS_BootInfo := {|
  Boot.fb_base := Boot.fb_base bi; fb_size := fb_size bi; width := width bi; height := height bi; pitch := pitch bi;
  mmap := mmap bi; mmap_count := mmap_count bi; kernel_phys_base := kernel_phys_base bi; kernel_alloc_size := kernel_alloc_size bi;
  user_elf_base := user_elf_base bi; user_elf_size := user_elf_size bi; Boot.font_base := base; font_size := size;
  tsc_bootloader_start := tsc_bootloader_start bi |}.

(** [font_ptr] is [FONT_BUF.as_ptr()]. *)
Definition cache_boot_assets (font_ptr : Z) (m : Mem) (bi : CoreOS_BootInfo) : BootAssets * CoreOS_BootInfo :=
  let font := save_asset m (Boot.font_base bi) (font_size bi) FONT_BUF_LEN in
  let elf := save_asset m (user_elf_base bi) (user_elf_size bi) ELF_BUF_LEN in
  (mkAssets elf font, if 0 <? vlen font then set_font font_ptr (vlen font) bi else bi).

(** The memory glyphs are read from: the static buffer, elsewhere [ram]. *)
Definition font_memory (font_ptr : Z) (a : BootAssets) (m : Mem) : Mem := fun x =>
  if in_range x font_ptr FONT_BUF_LEN then default 0 (zget (font_buf a) (x - font_ptr)) else m x.

Definition preload_ramfs_file (n bytes : list Z) (fs : FS) : FS :=
  match bytes with
  | [] => fs
  | _ =>
      match vfs_find n fs with
      | Some _ => fs
      | None =>
          let '(created, fs) := vfs_create n fs in
          if created then snd (vfs_append_all n bytes fs) else fs
      end
  end.

(** The programs embedded in the kernel image. *)
Record Embedded := mkEmbedded {
  EMBEDDED_SHELL : list Z; EMBEDDED_SYSCALL_TEST : list Z; EMBEDDED_SYSCALL_CHILD : list Z;
  EMBEDDED_POSIX_NEWSYS_TEST : list Z; EMBEDDED_MUSL_HELLO : list Z; EMBEDDED_READ_STDIN_TEST : list Z;
}.

Definition payloads (e : Embedded) : list (list Z * list Z) :=
  [(lit "test", EMBEDDED_SHELL e); (lit "syscall_test", EMBEDDED_SYSCALL_TEST e); (lit "syscall_child", EMBEDDED_SYSCALL_CHILD e);
   (lit "posix_newsys_test", EMBEDDED_POSIX_NEWSYS_TEST e); (lit "musl_hello", EMBEDDED_MUSL_HELLO e);
   (lit "read_stdin_test", EMBEDDED_READ_STDIN_TEST e)].

(** The message about the boot loader's program reads the first four bytes of
    the file. *)
Definition install_boot_elf (elf : list Z) : M FS unit := fun fs =>
  let n := lit "boot_test" in
  let '(created, fs) := vfs_create n fs in
  if negb created then OOk tt fs
  else
    let '(appended, fs) := vfs_append_all n elf fs in
    if negb appended then OOk tt fs
    else match vfs_find n fs with
         | Some file => if vlen (data file) <? 4 then OPanic else OOk tt fs
         | None => OOk tt fs
         end.

Definition install_ramfs_payloads (e : Embedded) (a : BootAssets) : M FS unit :=
  modifyM vfs_init ;;;
  modifyM (fun fs => fold_left (fun fs p => preload_ramfs_file (fst p) (snd p) fs) (payloads e) fs) ;;;
  if 0 <? vlen (elf_buf a) then install_boot_elf (elf_buf a) else retM tt.

(** ** [kernel_boot/runtime.rs] and [kernel_boot/mod.rs] *)

Section BootKernel.
Context (tsc : Phase -> Z) (e : Embedded) (font_ptr stack_top stack_bottom background_task user_task_trampoline : Z).

Definition stampK (p : Phase) : M Kernel unit := modifyM (fun k => k <| k_bench := stamp p (tsc p) (k_bench k) |>).

(** The descriptor tables, the system-call registers and the timer are not
    part of the state. *)
Definition init_runtime (a : BootAssets) (bi : CoreOS_BootInfo) : M Kernel unit :=
  modifyM (fun k =>
    let v := (k_vga k) <| font := font_memory font_ptr a (ram (k_mach k)) |> in
    k <| k_vga := init_global (Boot.fb_base bi) (pitch bi) (width bi) (height bi) (Boot.font_base bi) v |>) ;;;
  stampK GdtDone ;;;
  modifyM (fun k => k <| k_rsp0 := stack_top |>) ;;;
  stampK IdtDone ;;;
  stampK SyscallDone ;;;
  stampK PitDone ;;;
  init_main_task stack_bottom.

Definition heap_smoke_test : M Kernel unit := stampK HeapDone.

(** [boot_kernel] up to the first user program. *)
Definition boot_setup (boot_info_phys : CoreOS_BootInfo) : M Kernel CoreOS_BootInfo :=
  let bi := boot_info_high_half boot_info_phys in
  if negb (validate_mmap bi) then panicM
  else
    stampK KernelEntry ;;;
    modifyM (fun k => k <| k_bench := set_bootloader_tsc (tsc_bootloader_start bi) (k_bench k) |>) ;;;
    on_mach (modifyM (fun s => set_pmm (Pmm.init (pmm s) bi) s)) ;;;
    stampK PmmDone ;;;
    on_mach test_pmm_basic ;;;
    let* k := getM in
    let '(assets, bi) := cache_boot_assets font_ptr (ram (k_mach k)) bi in
    on_mach (Paging.init bi) ;;;
    stampK PagingDone ;;;
    on_fs (install_ramfs_payloads e assets) ;;;
    init_runtime assets bi ;;;
    heap_smoke_test ;;;
    let* _ := add_task background_task in
    stampK RamfsDone ;;;
    retM bi.

(** The processor halts: other tasks run, and interrupts are taken. *)
Definition halt (p : Pause) : M Kernel unit := modifyM (pa_resume p) ;;; wait_for_event (pa_irqs p).

(** [while proc::is_running_in_slot(slot) { hlt }]. *)
Fixpoint run_wait (fuel : nat) (pauses : nat -> Pause) (slot : Z) : M Kernel (Wait unit) :=
  let* running := is_running_in_slot slot in
  if negb running then retM (Done tt)
  else match fuel with
       | O => retM Blocked
       | S f => halt (pauses f) ;;; run_wait f pauses slot
       end.

Definition run_embedded_userspace_test (fuel : nat) (pauses : nat -> Pause) (n : list Z) : M Kernel (Wait unit) :=
  let* k := getM in
  match vfs_clone_bytes n (k_fs k) with
  | None => retM (Done tt)
  | Some data =>
      let* r := exec_as_task user_task_trampoline data n in
      let '(pid, slot) := r in
      if pid =? 0 then retM (Done tt)
      else
        let* w := run_wait fuel pauses slot in
        match w with
        | Blocked => retM Blocked
        | Done _ => let* _ := reap_slot slot in retM (Done tt)
        end
  end.

(** The three programs run one after the other. *)
Fixpoint run_tests (fuel : nat) (pauses : nat -> Pause) (names : list (list Z)) : M Kernel (Wait unit) :=
  match names with
  | [] => retM (Done tt)
  | n :: names =>
      let* w := run_embedded_userspace_test fuel pauses n in
      match w with
      | Blocked => retM Blocked
      | Done _ => run_tests fuel pauses names
      end
  end.

Definition boot_kernel (fuel : nat) (pauses : nat -> Pause) (boot_info_phys : CoreOS_BootInfo) : M Kernel (Wait CoreOS_BootInfo) :=
  let* bi := boot_setup boot_info_phys in
  let* w := run_tests fuel pauses [lit "posix_newsys_test"; lit "musl_stage1_test"; lit "musl_hello"] in
  retM (match w with Blocked => Blocked | Done _ => Done bi end).
End BootKernel.

(** ** The self test of the frame allocator *)

(** Addresses outside the free frames. *)
Definition outside_free (p : PMMState) (x : Z) : Prop :=
  forall f, f ∈ free_set p -> in_range x (p2v (f * PAGE_SIZE)) PAGE_SIZE = false.

Lemma test_alloc_spec n s : pmm_ok (pmm s) -> Z.of_nat n <= nfree s ->
  exists l s', test_alloc n s = OOk l s' /\ pmm_ok (pmm s') /\ NoDup l /\
    Forall (fun a => a / PAGE_SIZE ∈ free_set (pmm s) /\ a = a / PAGE_SIZE * PAGE_SIZE) l /\
    free_set (pmm s) = free_set (pmm s') ∪ list_to_set ((fun a => a / PAGE_SIZE) <$> l) /\
    (forall a, a ∈ l -> a / PAGE_SIZE ∉ free_set (pmm s')) /\
    (forall x, outside_free (pmm s) x -> ram s' x = ram s x) /\ (mem_ok (ram s) -> mem_ok (ram s')) /\
    s' = set_ram (ram s') (set_pmm (pmm s') s).
Proof.
  revert s. induction n as [|n IH]; intros s Hok Hn.
  { exists [], s. split_and!; [done|done|constructor|constructor|cbn; set_solver|set_solver|done|done|by destruct s]. }
  cbn [test_alloc]. unfold alloc_frameM at 1.
  destruct (alloc_frame_cases (pmm s) (ram s) Hok) as [[E HF]|(f & p' & E & Hin & _ & HF & Hok')].
  { unfold nfree in Hn. destruct Hok as [[_ Hc] _]. rewrite Hc, HF, size_empty in Hn. lia. }
  pose proof (pmm_ok_pos (pmm s) f Hok Hin) as Hpos. set (s1 := set_ram (fill (ram s) (p2v (f * PAGE_SIZE)) 0 PAGE_SIZE) (set_pmm p' s)).
  destruct (IH s1 Hok') as (l & s' & E' & Hok2 & Hnd & Hall & Hset & Hno & Hmem & Hmo & Hs').
  { unfold nfree in *. destruct Hok as [[_ Hc] _], Hok' as [[_ Hc'] _]. change (pmm s1) with p'. rewrite Hc', HF, size_remove by done. lia. }
  change (pmm s1) with p' in *. assert (f * PAGE_SIZE / PAGE_SIZE = f) as Ef by (by apply Z.div_mul).
  exists (f * PAGE_SIZE :: l), s'. split_and!; [|done| | | | | | |].
  - rewrite (bind_ok _ _ s (f * PAGE_SIZE) s1) by (by rewrite E). rewrite (proj2 (Z.eqb_neq _ 0)) by (unfold PAGE_SIZE; lia). by rewrite (bind_ok _ _ _ _ _ E').
  - constructor; [|done]. intros Hel. eapply list.Forall_forall in Hall; [|exact Hel]. rewrite Ef, HF in Hall. set_solver.
  - constructor; [by rewrite Ef|]. eapply Forall_impl; [|exact Hall]. cbn. intros a [Ha Ea]. split; [|done]. rewrite HF in Ha. set_solver.
  - rewrite fmap_cons. cbn [list_to_set]. rewrite Ef. rewrite (union_difference_singleton_L f (free_set (pmm s)) Hin), <- HF, Hset. set_solver.
  - intros a [->|Ha]%elem_of_cons; [rewrite Ef|by apply Hno]. intros Hf. assert (f ∈ free_set p') as Hf' by (rewrite Hset; set_solver). rewrite HF in Hf'. set_solver.
  - intros x Hx. rewrite Hmem by (intros g Hg; apply Hx; rewrite HF in Hg; set_solver). cbn. unfold fill. by rewrite (Hx f Hin).
  - intros Hm. apply Hmo. intros x. cbn. unfold fill. destruct (in_range _ _ _); [done|apply Hm].
  - rewrite Hs'. done.
Qed.

Lemma test_duplicate_spec l : NoDup l -> test_duplicate l = false.
Proof.
  induction 1 as [|p l Hp _ IH]; [done|]. cbn. rewrite IH, orb_false_r. apply not_true_iff_false. intros (q & Hq & E)%existsb_exists.
  apply Z.eqb_eq in E as ->. by apply Hp, list_elem_of_In.
Qed.

Lemma test_free_spec l s : pmm_ok (pmm s) -> Forall (fun a => 1 <= a / PAGE_SIZE < MAX_FRAMES /\ 0 <= a) l ->
  exists p, forM l free_frameM s = OOk tt (set_pmm p s) /\ pmm_ok p /\ free_set p = free_set (pmm s) ∪ list_to_set ((fun a => a / PAGE_SIZE) <$> l).
Proof.
  revert s. induction l as [|a l IH]; intros s Hok Hl.
  { exists (pmm s). split_and!; [by destruct s|done|cbn; set_solver]. }
  apply list.Forall_cons in Hl as [[Ha Ha0] Hl]. destruct (free_frame_spec (pmm s) a Hok Ha0) as [H1 H2].
  destruct (IH (set_pmm (free_frame (pmm s) a) s) H1 Hl) as (p & E & Hp & HF). exists p. split_and!; [exact E|done|].
  rewrite HF. cbn [set_pmm pmm]. rewrite H2, (proj2 (andb_true_iff _ _)) by (split; [apply Z.leb_le|apply Z.ltb_lt]; lia).
  rewrite fmap_cons. cbn [list_to_set]. set_solver.
Qed.

(** With 128 free frames the self test passes and gives every frame back;
    it clears free frames only. *)
Lemma test_pmm_basic_spec s : pmm_ok (pmm s) -> mem_ok (ram s) -> 128 <= nfree s ->
  exists p m, test_pmm_basic s = OOk tt (set_ram m (set_pmm p s)) /\ pmm_ok p /\ free_set p = free_set (pmm s) /\ mem_ok m /\
    forall x, outside_free (pmm s) x -> m x = ram s x.
Proof.
  intros Hok Hm Hn. destruct (test_alloc_spec 128 s Hok ltac:(lia)) as (l & s1 & E & Hok1 & Hnd & Hall & Hset & _ & Hmem & Hmo & Hs1).
  destruct (test_free_spec l s1 Hok1) as (p & E2 & Hp & HF).
  { eapply Forall_impl; [|exact Hall]. cbn. intros a [Ha Ea]. pose proof (pmm_ok_pos (pmm s) _ Hok Ha). split; [done|]. rewrite Ea. unfold PAGE_SIZE in *. lia. }
  exists p, (ram s1). split_and!; [|done|by rewrite HF, Hset|auto|done].
  unfold test_pmm_basic. rewrite (bind_ok _ _ _ _ _ E), (test_duplicate_spec l Hnd), E2. by rewrite Hs1.
Qed.

(** ** The files of the RAM disk *)

Definition preloaded (m : gmap (list Z) (list Z)) (p : list Z * list Z) : gmap (list Z) (list Z) :=
  match snd p with [] => m | _ => <[fst p := snd p]> m end.

(** The files after boot: the embedded programs that are not empty and the
    boot loader's program. *)
Definition boot_files (e : Embedded) (elf : list Z) : gmap (list Z) (list Z) :=
  preloaded (fold_left preloaded (payloads e) ∅) (lit "boot_test", elf).

(** Creating a file and writing its bytes. *)
Lemma create_append n bytes files : fs_ok files -> n <> [] -> abs files !! n = None ->
  exists files1 files2, vfs_create n (Some files) = (true, Some files1) /\ vfs_append_all n bytes (Some files1) = (true, Some files2) /\
    fs_ok files2 /\ abs files2 = <[n := bytes]> (abs files) /\ data <$> vfs_find n (Some files2) = Some bytes.
Proof.
  intros Hok Hn Hnone. pose proof (RamFS_create_spec n files Hok) as Hc. unfold vfs_create, with_fs_mut.
  destruct (RamFS_create n files) as [r files1]. destruct Hc as (Hok1 & _ & Hc). rewrite decide_False in Hc by (rewrite Hnone; intros [Hx|[x Hx]]; [exact (Hn Hx)|discriminate Hx]).
  destruct Hc as [-> Ha1]. pose proof (RamFS_update_spec n (fun f => mkFile (name f) (data f ++ bytes)) files1 Hok1 ltac:(done)) as Hu.
  pose proof (abs_find files1 n Hok1) as Hf. rewrite Ha1, lookup_insert_eq in Hf.
  destruct (RamFS_update _ _ files1) as [r files2] eqn:Eu. destruct (RamFS_find n files1) as [f|]; [|done]. destruct Hu as (Hok2 & -> & Ha2).
  injection Hf as Hd. cbn [data] in Ha2. rewrite <- Hd, Ha1, insert_insert_eq in Ha2. exists files1, files2. split; [done|]. split; [unfold vfs_append_all, with_fs_mut; by rewrite Eu|]. split; [exact Hok2|]. split; [exact Ha2|].
  cbn. rewrite <- (abs_find files2 n Hok2), Ha2. apply lookup_insert_eq.
Qed.

Lemma vfs_find_None n files : fs_ok files -> abs files !! n = None -> vfs_find n (Some files) = None.
Proof. intros Hok H. rewrite (abs_find files n Hok) in H. cbn. by destruct (RamFS_find n files). Qed.

Lemma preload_spec n bytes files : fs_ok files -> n <> [] -> abs files !! n = None ->
  exists files', preload_ramfs_file n bytes (Some files) = Some files' /\ fs_ok files' /\ abs files' = preloaded (abs files) (n, bytes).
Proof.
  intros Hok Hn Hnone. unfold preloaded. cbn [fst snd]. destruct bytes as [|b bytes]; [by exists files|]. unfold preload_ramfs_file.
  rewrite (vfs_find_None n files Hok Hnone). destruct (create_append n (b :: bytes) files Hok Hn Hnone) as (f1 & f2 & E1 & E2 & H1 & H2 & _).
  rewrite E1, E2. by exists f2.
Qed.

Lemma preloaded_None m p n : fst p <> n -> preloaded m p !! n = m !! n.
Proof. intros Hne. unfold preloaded. destruct (snd p); [done|]. by rewrite lookup_insert_ne. Qed.

Lemma preload_all l files : fs_ok files -> NoDup (fst <$> l) -> Forall (fun p => fst p <> [] /\ abs files !! fst p = None) l ->
  exists files', fold_left (fun fs p => preload_ramfs_file (fst p) (snd p) fs) l (Some files) = Some files' /\ fs_ok files' /\
    abs files' = fold_left preloaded l (abs files).
Proof.
  revert files. induction l as [|[n b] l IH]; intros files Hok Hnd Hl; [by exists files|].
  apply list.NoDup_cons in Hnd as [Hn Hnd]. apply list.Forall_cons in Hl as [[Hn0 Hnone] Hl]. cbn [fst] in *.
  destruct (preload_spec n b files Hok Hn0 Hnone) as (f1 & E1 & Hok1 & Ha1). cbn [fold_left fst snd]. rewrite E1, <- Ha1. apply IH; [done|done|].
  apply list.Forall_forall. intros p Hp. eapply list.Forall_forall in Hl as [H1 H2]; [|exact Hp]. split; [done|].
  rewrite Ha1, preloaded_None; [done|]. cbn. intros ->. by apply Hn, list_elem_of_fmap_2.
Qed.

(** The names are distinct. *)
Lemma payload_names e : NoDup (lit "boot_test" :: (fst <$> payloads e)) /\ Forall (fun p => fst p <> [] /\ abs [] !! fst p = None) (payloads e).
Proof. split; [apply NoDup_ListNoDup; cbn; repeat (constructor; [cbn; intuition discriminate|]); constructor|repeat constructor; done]. Qed.

Lemma fold_preloaded_None l m n : n ∉ (fst <$> l) -> fold_left preloaded l m !! n = m !! n.
Proof.
  revert m. induction l as [|p l IH]; intros m Hn; [done|]. rewrite fmap_cons, not_elem_of_cons in Hn. destruct Hn as [H1 H2].
  cbn [fold_left]. rewrite IH by done. apply preloaded_None. congruence.
Qed.

(** The files installed at boot; a boot program of one to three bytes panics
    in the message about its magic number. *)
Lemma install_ramfs_payloads_spec e a fs : vlen (elf_buf a) = 0 \/ 4 <= vlen (elf_buf a) ->
  exists files, install_ramfs_payloads e a fs = OOk tt (Some files) /\ fs_ok files /\ abs files = boot_files e (elf_buf a).
Proof.
  intros Hl. destruct (payload_names e) as [[Hb Hnd]%list.NoDup_cons Hall].
  destruct (preload_all (payloads e) [] ltac:(split; constructor) Hnd Hall) as (files & E & Hok & Ha). change (abs []) with (∅ : gmap (list Z) (list Z)) in Ha.
  unfold install_ramfs_payloads. change (modifyM vfs_init fs) with (OOk (S := FS) tt (Some RamFS_new)). rewrite (bind_ok _ _ fs tt (Some RamFS_new)) by done.
  rewrite (bind_ok _ _ (Some RamFS_new) tt (Some files)) by (unfold modifyM; by rewrite <- E).
  unfold boot_files. rewrite <- Ha. unfold preloaded. cbn [fst snd]. destruct (elf_buf a) as [|x l] eqn:El; [by exists files|].
  assert (abs files !! lit "boot_test" = None) as Hnone by (rewrite Ha, fold_preloaded_None by done; apply lookup_empty).
  destruct (create_append (lit "boot_test") (x :: l) files Hok ltac:(done) Hnone) as (f1 & f2 & E1 & E2 & H1 & H2 & H3).
  rewrite (proj2 (Z.ltb_lt 0 (vlen (x :: l)))) by (unfold vlen; cbn [length]; lia).
  exists f2. split; [|done]. unfold install_boot_elf. rewrite E1, E2. cbn [negb]. destruct (vfs_find _ _) as [f|]; [|done]. injection H3 as ->.
  by rewrite (proj2 (Z.ltb_ge _ 4)) by (unfold vlen in *; cbn [length] in *; lia).
Qed.

(** ** The background task *)

(** Owned pages and pages of free frames do not meet. *)
Lemma pt_wf_outside own s p m : pt_wf own s -> pmm_ok p -> free_set p ⊆ free_set (pmm s) -> mem_ok m ->
  (forall x, outside_free (pmm s) x -> m x = ram s x) ->
  pt_wf own (set_ram m (set_pmm p s)) /\ (forall t o i, own !! t = Some o -> is_idx i -> ent m t i = ent (ram s) t i).
Proof.
  intros Hwf Hp Hsub Hm Hx. assert (forall t o, own !! t = Some o -> same_page (ram s) m t) as Hsame.
  { intros t o Ht x Hxr. apply Hx. intros f Hf. pose proof (wf_frame _ _ Hwf t o Ht) as Hft. pose proof (pmm_ok_pos (pmm s) f (wf_pmm _ _ Hwf) Hf) as Hfp.
    pose proof (is_frame_mul f Hfp) as Hff. rewrite !p2v_frame0 by done. apply in_range_false.
    assert (t <> f * PAGE_SIZE) as Hne by (intros ->; apply (wf_used _ _ Hwf _ _ Ht); by rewrite Z.div_mul).
    pose proof (is_frame_apart t (f * PAGE_SIZE) Hft Hff Hne). unfold PAGE_SIZE in *. lia. }
  assert (forall t o i, own !! t = Some o -> is_idx i -> ent m t i = ent (ram s) t i) as Hent by (intros t o i Ht Hi; apply same_page_ent; eauto using wf_frame).
  split; [|exact Hent]. destruct Hwf as [H1 H2 H3 H4 H5]. split; cbn; [done|done|done| |].
  - intros t o Ht Hin. apply (H4 t o Ht), Hsub, Hin.
  - intros t o i Ht Hi. rewrite (Hent t o i Ht Hi). by apply H5.
Qed.

(** The kernel's root translates alike when its tables are the same. *)
Lemma root_translate own s m K v : pt_wf own s -> own !! K = Some (OKernel 0) ->
  (forall t o i, own !! t = Some o -> is_idx i -> ent m t i = ent (ram s) t i) -> translate_page m K v = translate_page (ram s) K v.
Proof.
  intros Hwf HK Hent. rewrite !translate_child, !pte_ptr_child.
  assert (is_idx (idx v 39) /\ is_idx (idx v 30) /\ is_idx (idx v 21) /\ is_idx (idx v 12)) as (I4 & I3 & I2 & I1) by (split_and!; apply idx_is_idx; lia).
  assert (forall t o i, own !! t = Some o -> is_idx i -> child m t i = child (ram s) t i) as Hch by (intros t o i Ht Hi; unfold child; by rewrite (Hent t o i)).
  rewrite (Hch K _ _ HK I4). destruct (child (ram s) K _) as [pdpt|] eqn:E1; [|done].
  destruct (kernel_child own s K 0 _ pdpt Hwf HK ltac:(lia) I4 E1) as [[? _]|O1]; [done|].
  rewrite (Hch pdpt _ _ O1 I3). destruct (child (ram s) pdpt _) as [pd|] eqn:E2; [|done].
  destruct (kernel_child own s pdpt 1 _ pd Hwf O1 ltac:(lia) I3 E2) as [[? _]|O2]; [done|].
  rewrite !(Hent pd _ _ O2 I2), (Hch pd _ _ O2 I2). destruct (huge (ent (ram s) pd (idx v 21))) eqn:Eh; [done|].
  destruct (child (ram s) pd _) as [pt|] eqn:E3; [|done].
  destruct (kernel_child own s pd 2 _ pt Hwf O2 ltac:(lia) I2 E3) as [[_ ?]|O3]; [congruence|].
  change (read64 m (slot pt (idx v 12))) with (ent m pt (idx v 12)). by rewrite (Hent pt _ _ O3 I1).
Qed.

Lemma zero_context_mem_ok sp m : mem_ok m -> mem_ok (zero_context sp m).
Proof. intros Hm. unfold zero_context. change (seqZ 0 6) with [0; 1; 2; 3; 4; 5]. cbn [fold_left]. by repeat apply write64_ok. Qed.

(** The four frames of a stack are free before. *)
Lemma stack_outside st base x p : 1 <= st -> st + 4 <= MAX_FRAMES -> frames st 4 ⊆ free_set p -> base = st * PAGE_SIZE + PHYSICAL_OFFSET ->
  outside_free p x -> in_range x base 16384 = false.
Proof.
  intros H1 H2 Hsub -> Hx. apply in_range_false.
  assert (forall j, 0 <= j < 4 -> x < (st + j) * PAGE_SIZE + PHYSICAL_OFFSET \/ (st + j) * PAGE_SIZE + PHYSICAL_OFFSET + PAGE_SIZE <= x) as Hj.
  { intros j Hj. assert (st + j ∈ free_set p) as Hin by (apply Hsub, elem_of_frames; lia). specialize (Hx _ Hin).
    rewrite p2v_frame0 in Hx by (apply is_frame_mul; lia). by apply in_range_false in Hx. }
  pose proof (Hj 0 ltac:(lia)). pose proof (Hj 1 ltac:(lia)). pose proof (Hj 2 ltac:(lia)). pose proof (Hj 3 ltac:(lia)). unfold PAGE_SIZE in *. lia.
Qed.

Lemma add_task_outcome own entry k : pt_wf own (k_mach k) ->
  exists b s' n ts, add_task entry k = OOk b (k <| k_mach := s' |> <| k_next_id := n |> <| k_tasks := ts |>) /\
    pt_wf own s' /\ kernel_pml4 s' = kernel_pml4 (k_mach k) /\ cr3 s' = cr3 (k_mach k) /\
    (forall t o i, own !! t = Some o -> is_idx i -> ent (ram s') t i = ent (ram (k_mach k)) t i) /\
    length ts = length (k_tasks k) /\ (forall i t, zget (k_tasks k) i = Some (Some t) -> zget ts i = Some (Some t)).
Proof.
  intros Hwf. assert (k = k <| k_mach := k_mach k |> <| k_next_id := k_next_id k |> <| k_tasks := k_tasks k |>) as Ek by (by destruct k).
  unfold add_task. rewrite getM_bind. destruct (free_task_slot k) as [slot|] eqn:Es.
  2:{ exists false, (k_mach k), (k_next_id k), (k_tasks k). split_and!; [by rewrite <- Ek|done..]. }
  destruct (zposition_Some _ _ _ Es) as (o & Ho & Hnone & Hslot).
  destruct (alloc_frames_cases (pmm (k_mach k)) (ram (k_mach k)) 4 (wf_pmm _ _ Hwf) ltac:(lia)) as [[E _]|(st & p' & E & H1 & H2 & H3 & _ & H4 & H5)].
  { rewrite (bind_ok _ _ k 0 k); [|unfold on_mach, zoom, alloc_framesM, STACK_PAGES; rewrite E; by rewrite same_mach].
    exists false, (k_mach k), (k_next_id k), (k_tasks k). split_and!; [cbn [Z.eqb]; by rewrite <- Ek|done..]. }
  set (base := st * PAGE_SIZE + PHYSICAL_OFFSET). assert (p2v (st * PAGE_SIZE) = base) as Ep
    by (rewrite MAX_FRAMES_eq in H2; apply p2v_small; unfold PAGE_SIZE, PHYS_TOP, PHYSICAL_OFFSET, U64; lia).
  assert (4096 <= base /\ base + 16384 < U64) as Hb by (rewrite MAX_FRAMES_eq in H2; unfold base, PAGE_SIZE, PHYSICAL_OFFSET, U64; lia).
  set (m1 := fill (ram (k_mach k)) base 0 16384). set (s1 := set_ram m1 (set_pmm p' (k_mach k))).
  rewrite (bind_ok _ _ k (st * PAGE_SIZE) (k <| k_mach := s1 |>)) by (unfold on_mach, zoom, alloc_framesM, STACK_PAGES; rewrite E, Ep; done).
  rewrite (proj2 (Z.eqb_neq _ _)) by (unfold PAGE_SIZE; lia). cbv zeta. rewrite Ep. change (STACK_PAGES *w PAGE_SIZE) with 16384. change CONTEXT_SIZE with 48.
  rewrite (wrap64_small (base + 16384)), (wrap64_small (base + 16384 - 8)), (wrap64_small (base + 16384 - 8 - 48)) by lia.
  set (m2 := zero_context (base + 16384 - 8 - 48) (write64 m1 (base + 16384 - 8) entry)).
  rewrite (bind_ok _ _ _ _ _ (poke64_run _ _ _)), (bind_ok _ _ _ _ _ (write_zero_context_run _ _)), getM_bind.
  erewrite bind_ok; [|apply (install_task_run _ slot _ _ _ o); exact Ho].
  destruct (pt_wf_outside own (k_mach k) p' m2 Hwf H5) as [W1 W2].
  { rewrite H4. set_solver. }
  { apply zero_context_mem_ok, write64_ok. intros x. unfold m1, fill. destruct (in_range _ _ _); [done|apply (wf_mem _ _ Hwf)]. }
  { intros x Hx. assert (in_range x base 16384 = false) as Hout by (apply (stack_outside st base x (pmm (k_mach k))); done).
    apply in_range_false in Hout. unfold m2. rewrite zero_context_other by lia. unfold write64, write_le, m1, fill.
    rewrite !(proj2 (in_range_false _ _ _)) by lia. done. }
  eexists true, (set_ram m2 (set_pmm p' (k_mach k))), _, _. split_and!; [reflexivity|exact W1|done|done|exact W2|by rewrite length_zset|].
  intros i t Hi. rewrite zget_zset_ne; [done| |lia]. intros ->. rewrite Hi in Ho. injection Ho as <-. done.
Qed.

(** ** The boot sequence *)

(** A region of the boot loader outside the frames the allocator hands out. *)
Definition asset_kept (p : PMMState) (base size : Z) : Prop := forall x, base <= x < base + size -> outside_free p x.

(** What the boot sequence needs of the boot information and of memory. *)
Record boot_ok (bi : CoreOS_BootInfo) (m : Mem) : Prop := {
  bo_valid : validate_mmap bi = true;
  bo_regions : Forall (fun r => 0 <= physical_start r) (entries bi);
  bo_image : 0 <= kernel_phys_base bi /\ kernel_phys_base bi mod 4096 = 0;
  bo_size : let n := div_ceil (kernel_alloc_size bi) 0x1000 in 0 <= n < 2 ^ 19 - 256 /\ kernel_phys_base bi + n * 4096 <= 2 ^ 52;
  bo_frames : Z.max 128 (8 + 2 * regions (div_ceil (kernel_alloc_size bi) 0x1000) + 2 * fb_pages bi) <= free_frames (Pmm.init PMMState_new bi);
  bo_elf : asset_kept (Pmm.init PMMState_new bi) (user_elf_base bi) (user_elf_size bi);
  bo_font : asset_kept (Pmm.init PMMState_new bi) (Boot.font_base bi) (font_size bi);
  bo_elf_len : let elf := save_asset m (user_elf_base bi) (user_elf_size bi) ELF_BUF_LEN in vlen elf = 0 \/ 4 <= vlen elf;
}.

Lemma save_asset_same m m' p base size limit : asset_kept p base size -> (forall x, outside_free p x -> m' x = m x) ->
  save_asset m' base size limit = save_asset m base size limit.
Proof.
  intros Hk Hm. unfold save_asset. destruct (_ && _); [|done]. unfold load_bytes. apply list_fmap_ext. intros i x Hx.
  apply lookup_seqZ in Hx as [-> Hi]. apply Hm, Hk. lia.
Qed.

Lemma modify_bind {S A} (f : S -> S) (g : unit -> M S A) s : bindM (modifyM f) g s = g tt (f s).
Proof. done. Qed.

(** The memory part: the allocator, its self test and the page tables. *)
Lemma boot_memory bi s : boot_ok bi (ram s) -> mem_ok (ram s) -> pmm s = PMMState_new ->
  exists p m own s', test_pmm_basic (set_pmm (Pmm.init (pmm s) bi) s) = OOk tt (set_ram m (set_pmm p s)) /\
    free_set p = free_set (Pmm.init (pmm s) bi) /\
    (forall b sz l, asset_kept (Pmm.init PMMState_new bi) b sz -> save_asset m b sz l = save_asset (ram s) b sz l) /\
    forall bi', Boot.fb_base bi' = Boot.fb_base bi -> fb_size bi' = fb_size bi -> kernel_phys_base bi' = kernel_phys_base bi -> kernel_alloc_size bi' = kernel_alloc_size bi ->
    Paging.init bi' (set_ram m (set_pmm p s)) = OOk tt s' /\ pt_wf own s' /\ own !! kernel_pml4 s' = Some (OKernel 0) /\ cr3 s' = kernel_pml4 s' /\
    (v2p (Boot.fb_base bi) < 2 ^ 32 ->
      (forall q, 0 <= q < 2 ^ 32 -> translate_page (ram s') (kernel_pml4 s') (PHYSICAL_OFFSET + q) = Some q /\ translate_page (ram s') (kernel_pml4 s') q = Some q) /\
      (forall j, 0 <= j < div_ceil (kernel_alloc_size bi) 0x1000 ->
         translate_page (ram s') (kernel_pml4 s') (KERNEL_IMAGE_BASE + j * 4096) = Some (kernel_phys_base bi + j * 4096))).
Proof.
  intros B Hm Hp. destruct (init_spec bi (bo_regions _ _ B) (proj1 (bo_image _ _ B))) as [Hok _]. rewrite Hp. set (p0 := Pmm.init PMMState_new bi) in *.
  pose proof (bo_frames _ _ B) as Hf. fold p0 in Hf. destruct (bo_image _ _ B) as [I1 I2]. destruct (bo_size _ _ B) as [I3 I4].
  destruct (test_pmm_basic_spec (set_pmm p0 s) Hok Hm ltac:(unfold nfree; cbn [set_pmm pmm]; lia)) as (p & m & E & Hpo & HF & Hmo & Hx).
  assert (pt_wf ∅ (set_ram m (set_pmm p s))) as Hwf by (split; [done|done|intros; by simplify_map_eq..]).
  assert (free_frames p = free_frames p0) as Hff by (destruct Hpo as [[_ ->] _], Hok as [[_ ->] _]; by rewrite HF).
  destruct (paging_init_correct bi (set_ram m (set_pmm p s)) Hwf I3 I1 I2 I4) as (own & s' & Ei & W & HK & Hc & Ht).
  { unfold nfree. cbn [set_ram set_pmm pmm]. lia. }
  exists p, m, own, s'. split; [exact E|]. split; [exact HF|]. split; [intros b sz l Hk; by eapply save_asset_same|].
  intros bi' E1 E2 E3 E4. split_and!; [|done|done|done|].
  - rewrite <- Ei. unfold Paging.init. by rewrite E1, E2, E3, E4.
  - exact Ht.
Qed.

(** A font that fits the static buffer. *)
Lemma saved_font font_ptr m m' bi elf : 0 < font_size bi <= FONT_BUF_LEN -> Boot.font_base bi <> 0 ->
  let font := save_asset m (Boot.font_base bi) (font_size bi) FONT_BUF_LEN in
  Boot.font_base (if 0 <? vlen font then set_font font_ptr (vlen font) bi else bi) = font_ptr /\
  forall i, 0 <= i < font_size bi -> font_memory font_ptr (mkAssets elf font) m' (font_ptr + i) = m (Boot.font_base bi + i).
Proof.
  intros Hs Hb font. assert (font = load_bytes m (Boot.font_base bi) (font_size bi)) as Ef.
  { unfold font, save_asset. by rewrite (proj2 (Z.eqb_neq _ 0) Hb), (proj2 (Z.ltb_lt 0 _)), (proj2 (Z.leb_le _ FONT_BUF_LEN)) by lia. }
  assert (vlen font = font_size bi) as El by (rewrite Ef; unfold vlen, load_bytes; rewrite length_fmap, length_seqZ; lia).
  rewrite El, (proj2 (Z.ltb_lt 0 _)) by lia. split; [done|]. intros i Hi. unfold font_memory.
  rewrite (proj2 (in_range_spec _ _ _)) by lia. cbn [font_buf]. rewrite Z.add_simpl_l, Ef. unfold zget, load_bytes. rewrite (proj2 (Z.leb_le 0 i)) by lia.
  rewrite list_lookup_fmap, lookup_seqZ_lt by lia. cbn. f_equal. lia.
Qed.

(** The screen after [init_global]. *)
Definition boot_vga (font_ptr : Z) (a : BootAssets) (bi : CoreOS_BootInfo) (m : Mem) : Vga :=
  mkVga (Boot.fb_base bi) (pitch bi) (width bi) (height bi) (Boot.font_base bi) (font_memory font_ptr a m) 20 0 1 (fun _ => 0).

(** The kernel before the background task is added. *)
Definition main_task (stack_bottom : Z) (s : Machine) : Task := mkTask 0 stack_bottom Running 0 true (kernel_pml4 s).

Definition runtime_kernel (s : Machine) (bus : Z -> Z) (fs : FS) (v : Vga) (stack_top stack_bottom : Z) (b : Bench) : Kernel :=
  (init_kernel s bus) <| k_fs := fs |> <| k_vga := v |> <| k_tasks := zset (replicate 8 None) 0 (Some (main_task stack_bottom s)) |>
    <| k_rsp0 := stack_top |> <| k_bench := b |>.

Lemma boot_setup_run tsc e font_ptr stack_top stack_bottom background_task bi0 s bus s1 a bi' s2 fs :
  validate_mmap (boot_info_high_half bi0) = true ->
  test_pmm_basic (set_pmm (Pmm.init (pmm s) (boot_info_high_half bi0)) s) = OOk tt s1 ->
  cache_boot_assets font_ptr (ram s1) (boot_info_high_half bi0) = (a, bi') ->
  Paging.init bi' s1 = OOk tt s2 -> install_ramfs_payloads e a None = OOk tt fs ->
  exists b, boot_setup tsc e font_ptr stack_top stack_bottom background_task bi0 (init_kernel s bus) =
    (let* _ := add_task background_task in stampK tsc RamfsDone ;;; retM bi')
      (runtime_kernel s2 bus fs (boot_vga font_ptr a bi' (ram s2)) stack_top stack_bottom b).
Proof.
  intros Hv E1 E2 E3 E4. unfold boot_setup. cbv zeta. rewrite Hv. cbn [negb]. unfold stampK at 1. rewrite !modify_bind.
  set (k1 := _ <| k_bench := _ |>). rewrite (bind_ok _ _ k1 tt (k1 <| k_mach := set_pmm (Pmm.init (pmm s) (boot_info_high_half bi0)) s |>)) by done.
  unfold stampK at 1. rewrite modify_bind. set (k2 := _ <| k_bench := _ |>).
  rewrite (bind_ok _ _ k2 tt (k2 <| k_mach := s1 |>)) by (by apply on_mach_ok). rewrite getM_bind. change (k_mach (k2 <| k_mach := s1 |>)) with s1. rewrite E2.
  set (k3 := k2 <| k_mach := s1 |>). rewrite (bind_ok _ _ k3 tt (k3 <| k_mach := s2 |>)) by (by apply on_mach_ok).
  unfold stampK at 1. rewrite modify_bind. set (k4 := _ <| k_bench := _ |>).
  rewrite (bind_ok _ _ k4 tt (k4 <| k_fs := fs |>)) by (unfold on_fs, zoom; change (k_fs k4) with (None : FS); by rewrite E4).
  eexists. reflexivity.
Qed.

(** The kernel once the boot sequence is through. *)
Lemma boot_setup_outcome tsc e font_ptr stack_top stack_bottom background_task bi0 s bus :
  let bi := boot_info_high_half bi0 in
  boot_ok bi (ram s) -> mem_ok (ram s) -> pmm s = PMMState_new ->
  exists bi' k own files, boot_setup tsc e font_ptr stack_top stack_bottom background_task bi0 (init_kernel s bus) = OOk bi' k /\
    pt_wf own (k_mach k) /\ own !! kernel_pml4 (k_mach k) = Some (OKernel 0) /\ cr3 (k_mach k) = kernel_pml4 (k_mach k) /\
    (v2p (Boot.fb_base bi) < 2 ^ 32 ->
      (forall q, 0 <= q < 2 ^ 32 -> translate_page (ram (k_mach k)) (kernel_pml4 (k_mach k)) (PHYSICAL_OFFSET + q) = Some q) /\
      (forall j, 0 <= j < div_ceil (kernel_alloc_size bi) 0x1000 ->
         translate_page (ram (k_mach k)) (kernel_pml4 (k_mach k)) (KERNEL_IMAGE_BASE + j * 4096) = Some (kernel_phys_base bi + j * 4096))) /\
    k_fs k = Some files /\ fs_ok files /\ abs files = boot_files e (save_asset (ram s) (user_elf_base bi) (user_elf_size bi) ELF_BUF_LEN) /\
    (0 < font_size bi <= FONT_BUF_LEN -> Boot.font_base bi <> 0 ->
       Vga.font_base (k_vga k) = font_ptr /\ forall i, 0 <= i < font_size bi -> font (k_vga k) (font_ptr + i) = ram s (Boot.font_base bi + i)) /\
    zget (k_tasks k) 0 = Some (Some (mkTask 0 stack_bottom Running 0 true (kernel_pml4 (k_mach k)))) /\ k_current k = 0.
Proof.
  intros bi B Hm Hp. destruct (boot_memory bi s B Hm Hp) as (p & m & own & s2 & Et & _ & Ha & Hpg).
  set (font := save_asset (ram s) (Boot.font_base bi) (font_size bi) FONT_BUF_LEN). set (elf := save_asset (ram s) (user_elf_base bi) (user_elf_size bi) ELF_BUF_LEN).
  set (bi' := if 0 <? vlen font then set_font font_ptr (vlen font) bi else bi). set (a := mkAssets elf font).
  assert (cache_boot_assets font_ptr m bi = (a, bi')) as Ec
    by (unfold cache_boot_assets; rewrite (Ha (Boot.font_base bi)), (Ha (user_elf_base bi)) by apply B; done).
  destruct (Hpg bi') as (Ei & W & HK & Hc & Ht); [unfold bi'; by case_goal..|].
  destruct (install_ramfs_payloads_spec e a None (bo_elf_len _ _ B)) as (files & Ef & Hok & Hab).
  destruct (boot_setup_run tsc e font_ptr stack_top stack_bottom background_task bi0 s bus _ a bi' s2 _ (bo_valid _ _ B) Et Ec Ei Ef) as (b & E).
  set (k0 := runtime_kernel _ _ _ _ _ _ _) in E.
  destruct (add_task_outcome own background_task k0 W) as (r & s3 & n & ts & Ead & W3 & P3 & C3 & Hent & Hlen & Hts).
  change (k_mach k0) with s2 in *. rewrite (bind_ok _ _ _ _ _ Ead) in E. eexists bi', _, own, files. split; [exact E|]. cbn [bi'].
  assert (forall v, translate_page (ram s3) (kernel_pml4 s3) v = translate_page (ram s2) (kernel_pml4 s2) v) as Htr
    by (intros v; rewrite P3; by apply (root_translate own s2)).
  split; [exact W3|]. split; [change (own !! kernel_pml4 s3 = Some (OKernel 0)); by rewrite P3|]. split; [change (cr3 s3 = kernel_pml4 s3); by rewrite P3, C3|].
  split; [|split; [reflexivity|split; [exact Hok|split; [exact Hab|split; [|split; [|reflexivity]]]]]].
  - intros Hlow. destruct (Ht Hlow) as [T1 T2]. split; [intros q Hq|intros j Hj]; (etrans; [apply Htr|]); [by apply T1|by apply T2].
  - intros Hs Hb. apply (saved_font font_ptr (ram s) (ram s2) bi elf Hs Hb).
  - change (zget ts 0 = Some (Some (main_task stack_bottom s3))). rewrite (Hts 0 (main_task stack_bottom s2)) by done. unfold main_task. by rewrite P3.
Qed.

(** C3: The boot sequence up to the first embedded test program: it comes up
    without a panic on boot information that passes the validation, with
    enough free frames for the self test and the page tables, the boot
    loader's program and font outside the free frames, a page-aligned kernel
    image and a boot program that is empty or at least four bytes long
    ([boot_ok]).  The self test gives every frame back; the new page tables
    are active, satisfy the ownership invariant and, if the framebuffer lies
    below four gigabytes, translate the direct map and the kernel image; the
    RAM disk holds exactly the embedded programs and the boot loader's
    program, byte for byte; glyphs are read from a copy of the boot loader's
    font; the main task runs in slot 0. *)
Theorem boot_setup_ready tsc e font_ptr stack_top stack_bottom background_task bi0 s bus :
  let bi := boot_info_high_half bi0 in
  boot_ok bi (ram s) -> mem_ok (ram s) -> pmm s = PMMState_new ->
  (exists s1, test_pmm_basic (set_pmm (Pmm.init (pmm s) bi) s) = OOk tt s1 /\ free_set (pmm s1) = free_set (Pmm.init (pmm s) bi)) /\
  exists bi' k own files, boot_setup tsc e font_ptr stack_top stack_bottom background_task bi0 (init_kernel s bus) = OOk bi' k /\
    pt_wf own (k_mach k) /\ own !! kernel_pml4 (k_mach k) = Some (OKernel 0) /\ cr3 (k_mach k) = kernel_pml4 (k_mach k) /\
    (v2p (Boot.fb_base bi) < 2 ^ 32 ->
      (forall q, 0 <= q < 2 ^ 32 -> translate_page (ram (k_mach k)) (kernel_pml4 (k_mach k)) (PHYSICAL_OFFSET + q) = Some q) /\
      (forall j, 0 <= j < div_ceil (kernel_alloc_size bi) 0x1000 ->
         translate_page (ram (k_mach k)) (kernel_pml4 (k_mach k)) (KERNEL_IMAGE_BASE + j * 4096) = Some (kernel_phys_base bi + j * 4096))) /\
    k_fs k = Some files /\ fs_ok files /\ abs files = boot_files e (save_asset (ram s) (user_elf_base bi) (user_elf_size bi) ELF_BUF_LEN) /\
    (0 < font_size bi <= FONT_BUF_LEN -> Boot.font_base bi <> 0 ->
       Vga.font_base (k_vga k) = font_ptr /\ forall i, 0 <= i < font_size bi -> font (k_vga k) (font_ptr + i) = ram s (Boot.font_base bi + i)) /\
    zget (k_tasks k) 0 = Some (Some (mkTask 0 stack_bottom Running 0 true (kernel_pml4 (k_mach k)))) /\ k_current k = 0.
Proof.
  intros bi B Hm Hp. destruct (boot_memory bi s B Hm Hp) as (p & m & own & s2 & Et & HF & Ha & Hpg).
  split; [exists (set_ram m (set_pmm p s)); by split|].
  exact (boot_setup_outcome tsc e font_ptr stack_top stack_bottom background_task bi0 s bus B Hm Hp).
Qed.

(** ** The embedded programs *)

Section RunTests.
Context (user_task_trampoline : Z) (pauses : nat -> Pause) (Hpauses : pauses_ok None pauses).
#[local] Abbreviation safe := (safe True (sys_inv None)).

Lemma safe_run_wait fuel slot : 0 <= slot < 8 -> safe (run_wait fuel pauses slot) (fun _ => True).
Proof.
  intros Hs. induction fuel as [|f IH]; cbn [run_wait]; (eapply safe_bind; [by apply safe_is_running|]; intros r _); destruct (negb r); try by apply safe_ret.
  eapply (safe_bind _ _ _ _ (fun _ => True)); [|intros _ _; exact IH].
  eapply safe_bind; [apply safe_modify, Hpauses|]. intros _ _. apply safe_wait_for_event.
Qed.

Lemma safe_run_test fuel n : safe (run_embedded_userspace_test user_task_trampoline fuel pauses n) (fun _ => True).
Proof.
  eapply safe_bind; [apply safe_get|]. intros k _. destruct (vfs_clone_bytes n (k_fs k)) as [d|]; [|by apply safe_ret].
  eapply safe_bind; [by apply safe_exec_as_task|]. intros [pid slot] Hs. cbn [snd] in Hs. destruct (pid =? 0); [by apply safe_ret|].
  eapply safe_bind; [by apply safe_run_wait|]. intros [|[]] _; [by apply safe_ret|].
  eapply safe_bind; [by apply safe_reap_slot|]. intros c _. by apply safe_ret.
Qed.

Lemma safe_run_tests fuel names : safe (run_tests user_task_trampoline fuel pauses names) (fun _ => True).
Proof.
  induction names as [|n names IH]; [by apply safe_ret|]. eapply safe_bind; [apply safe_run_test|]. intros [|[]] _; [by apply safe_ret|exact IH].
Qed.

Lemma safe_stampK tsc p : safe (stampK tsc p) (fun _ => True).
Proof. apply safe_modify. intros k. apply inv_bench. Qed.

Lemma safe_init_runtime tsc font_ptr stack_top stack_bottom a bi : safe (init_runtime tsc font_ptr stack_top stack_bottom a bi) (fun _ => True).
Proof.
  unfold init_runtime, init_main_task.
  eapply safe_bind; [apply safe_modify; intros k; apply inv_vga|]. intros _ _. eapply safe_bind; [apply safe_stampK|]. intros _ _.
  eapply safe_bind; [apply safe_modify; intros k; apply inv_rsp0|]. intros _ _. do 3 (eapply safe_bind; [apply safe_stampK|]; intros _ _).
  eapply safe_bind; [apply safe_get|]. intros k _. eapply safe_bind; [apply safe_set_task; lia|]. intros _ _.
  apply safe_modify. intros k'. apply inv_current. lia.
Qed.

(** The boot sequence starts from the kernel's static data. *)
Lemma safe_boot_setup tsc e font_ptr stack_top stack_bottom background_task bi0 :
  safe (boot_setup tsc e font_ptr stack_top stack_bottom background_task bi0) (fun _ => True).
Proof.
  unfold boot_setup. cbv zeta. destruct (negb _); [by apply safe_panic|].
  eapply safe_bind; [apply safe_stampK|]. intros _ _. eapply safe_bind; [apply safe_modify; intros k; apply inv_bench|]. intros _ _.
  eapply safe_bind; [apply safe_on_mach; by left|]. intros _ _. eapply safe_bind; [apply safe_stampK|]. intros _ _.
  eapply safe_bind; [apply safe_on_mach; by left|]. intros _ _. eapply safe_bind; [apply safe_get|]. intros k _.
  destruct (cache_boot_assets _ _ _) as [a bi]. eapply safe_bind; [apply safe_on_mach; by left|]. intros _ _.
  eapply safe_bind; [apply safe_stampK|]. intros _ _. eapply safe_bind; [apply safe_on_fs; by left|]. intros _ _.
  eapply safe_bind; [apply safe_init_runtime|]. intros _ _. eapply safe_bind; [apply safe_stampK|]. intros _ _.
  eapply safe_bind; [apply safe_add_task|]. intros b _. eapply safe_bind; [apply safe_stampK|]. intros _ _. by apply safe_ret.
Qed.

(** The embedded programs, with other tasks running while the boot task
    waits, keep the invariant that the boot sequence established. *)
Lemma safe_boot_kernel tsc e font_ptr stack_top stack_bottom background_task fuel bi0 :
  safe (boot_kernel tsc e font_ptr stack_top stack_bottom background_task user_task_trampoline fuel pauses bi0) (fun _ => True).
Proof.
  eapply safe_bind; [apply safe_boot_setup|]. intros bi _. eapply safe_bind; [apply safe_run_tests|]. intros w _. by apply safe_ret.
Qed.
End RunTests.

(** A machine with four megabytes of memory and a framebuffer at two
    gigabytes; the boot loader's program lies above, in memory of its own. *)
Definition small_boot_info : CoreOS_BootInfo := {|
  Boot.fb_base := 0x80000000; fb_size := 0x300000; width := 1024; height := 768; pitch := 1024;
  mmap := [sample_entry 0 1024 7]; mmap_count := 1; kernel_phys_base := 0x9000; kernel_alloc_size := 0x1800;
  user_elf_base := 0x500000; user_elf_size := 5; Boot.font_base := 0; font_size := 0; tsc_bootloader_start := 0 |}.

Definition small_machine : Machine := mkMachine PMMState_new (fun x => if x =? PHYSICAL_OFFSET + 0x500000 then 0x7F else 0) 0 0 [].

Definition small_embedded : Embedded := mkEmbedded [1; 2; 3] [] [] [] [] [].

Lemma small_boot_ok : boot_ok (boot_info_high_half small_boot_info) (ram small_machine).
Proof.
  set (bi := boot_info_high_half small_boot_info). destruct (init_spec bi) as [Hok Hfree]; [repeat constructor; done|done|].
  constructor; [done|repeat constructor; done|done|split; [split|]; vm_compute; congruence|vm_compute; congruence| | |right; vm_compute; congruence].
  - intros x Hx f Hf. apply Hfree in Hf as (Hf & (r & Hr & _ & Hrf) & _).
    change (entries bi) with [sample_entry 0 1024 7] in Hr. apply list_elem_of_singleton in Hr as ->.
    change (user_elf_base bi) with (PHYSICAL_OFFSET + 0x500000) in Hx. change (user_elf_size bi) with 5 in Hx.
    rewrite p2v_frame0 by (by apply is_frame_mul). apply in_range_false. unfold entry_frames in Hrf. cbn [sample_entry physical_start num_pages] in Hrf. change (0 / PAGE_SIZE +w 1024) with 1024 in Hrf. unfold PAGE_SIZE in *. lia.
  - intros x Hx. change (font_size bi) with 0 in Hx. lia.
Qed.

Lemma boot_setup_ready_witness :
  exists bi' k files, boot_setup (fun _ => 1) small_embedded 0x1000 0x2000 0x3000 0x4000 small_boot_info (init_kernel small_machine (fun _ => 0)) = OOk bi' k /\
    k_fs k = Some files /\ abs files !! lit "boot_test" = Some [0x7F; 0; 0; 0; 0] /\ abs files !! lit "test" = Some [1; 2; 3].
Proof.
  destruct (boot_setup_ready (fun _ => 1) small_embedded 0x1000 0x2000 0x3000 0x4000 small_boot_info small_machine (fun _ => 0) small_boot_ok)
    as (_ & bi' & k & own & files & E & _ & _ & _ & _ & Hf & _ & Ha & _).
  - intros x. cbn. by destruct (_ =? _).
  - reflexivity.
  - exists bi', k, files. split; [exact E|]. split; [exact Hf|]. rewrite Ha. split; vm_compute; reflexivity.
Defined.
