(* ===== verification/KernelUi.v ===== *)
(** * The kernel's screen ([shell/ui.rs], [Console] of [drivers/vga/console.rs])

    The header, the clock and the loop that starts the user shell and waits
    for it.  The times the clock chip reports are an argument.  With it the
    kernel's entry point ([main.rs]) and the theorem on every state of the
    running system. *)

From Stdlib Require Import Ascii String.
From S2P Require Import Prelude Mem Update Fmt Bench Result Logic Boot RamFs Types Vga State Task Proc Fd UserCopy Futex Exec Dispatch Abi Invariant SafeFd Waiting SafeCalls Safety KernelBoot.

Local Open Scope string_scope.
Local Open Scope Z_scope.

(** ** Text at a position *)

Record Console := mkConsole { con_x : Z; con_y : Z; con_color : Z; con_scale : Z }.

(** One round of the loop of [write_str]. *)
Definition console_char (cv : Console * Vga) (c : Z) : Console * Vga :=
  let '(con, v) := cv in
  if c =? 0x0A then (mkConsole 20 (con_y con +w 16 *w con_scale con) (con_color con) (con_scale con), v)
  else (mkConsole (con_x con +w 8 *w con_scale con) (con_y con) (con_color con) (con_scale con),
        putchar c (con_x con) (con_y con) (con_color con) (con_scale con) v).

Definition write_str (s : list Z) (cv : Console * Vga) : Console * Vga := fold_left console_char s cv.

(** ** The clock *)

Definition CLOCK_COLOR : Z := 0xFFF5C2E7.

(** [{:02}]. *)
Definition two_digits (n : Z) : list Z := pad_zero 2 (dec n).

Definition draw_clock (x y h m s : Z) (v : Vga) : Vga :=
  let cv := (mkConsole x y CLOCK_COLOR 2, v) in
  let cv := write_str (two_digits h) cv in
  let cv := write_str (lit ":") cv in
  let cv := write_str (two_digits m) cv in
  let cv := write_str (lit ":") cv in
  snd (write_str (two_digits s) cv).

(** ** [run_shell] *)

Section RunShell.
Context (user_task_trampoline width height : Z).

(** The screen before the loop. *)
Definition shell_screen (v : Vga) : Vga :=
  let v := draw_rect 0 0 width height BG_COLOR v in
  let v := snd (write_str (lit "CoreOS Shell v0.01") (mkConsole 20 20 CLOCK_COLOR 2, v)) in
  let v := draw_rect 20 60 550 4 CLOCK_COLOR v in
  set_userspace_cursor 20 120 (clear_terminal_area v).

(** The clock is drawn again when the second changes. *)
Definition refresh_clock (last_s : Z) (t : Z * Z * Z) (v : Vga) : Z * Vga :=
  let '(h, m, s) := t in
  if s =? last_s then (last_s, v)
  else
    let clock_x := width -w 150 in
    (s, draw_clock clock_x 20 h m s (draw_rect clock_x 20 130 32 BG_COLOR v)).

(** [while proc::is_running_in_slot(slot)], with the time read in each
    round. *)
Fixpoint shell_wait (fuel : nat) (times : nat -> Z * Z * Z) (pauses : nat -> Pause) (slot last_s : Z) : M Kernel (Wait unit) :=
  let* running := is_running_in_slot slot in
  if negb running then retM (Done tt)
  else match fuel with
       | O => retM Blocked
       | S f =>
           let* k := getM in
           let '(last_s, v) := refresh_clock last_s (times f) (k_vga k) in
           modifyM (fun k => k <| k_vga := v |>) ;;;
           halt (pauses f) ;;;
           shell_wait f times pauses slot last_s
       end.

(** A round of the outer loop: [Done] when the shell ended and was reaped,
    [Blocked] when it still runs or the kernel halts for good. *)
Definition shell_round (fuel : nat) (times : nat -> Z * Z * Z) (pauses : nat -> Pause) : M Kernel (Wait unit) :=
  let* k := getM in
  match vfs_clone_bytes (lit "test") (k_fs k) with
  | None => retM Blocked
  | Some data =>
      let* r := exec_as_task user_task_trampoline data (lit "test") in
      let '(pid, slot) := r in
      if 0 <? pid then
        let* w := shell_wait fuel times pauses slot 255 in
        match w with
        | Blocked => retM Blocked
        | Done _ => let* _ := reap_slot slot in retM (Done tt)
        end
      else retM Blocked
  end.

Fixpoint shell_rounds (n : nat) (fuel : nat) (times : nat -> nat -> Z * Z * Z) (pauses : nat -> nat -> Pause) : M Kernel (Wait unit) :=
  match n with
  | O => retM (Done tt)
  | S n =>
      let* w := shell_round fuel (times n) (pauses n) in
      match w with Blocked => retM Blocked | Done _ => shell_rounds n fuel times pauses end
  end.

(** [n] rounds of the shell. *)
Definition run_shell (n fuel : nat) (times : nat -> nat -> Z * Z * Z) (pauses : nat -> nat -> Pause) : M Kernel (Wait unit) :=
  modifyM (fun k => k <| k_vga := shell_screen (k_vga k) |>) ;;;
  shell_rounds n fuel times pauses.
End RunShell.

(** [_start]: the boot sequence, then the shell; [Blocked] while a program the
    kernel waits for still runs. *)
Definition kernel_start (tsc : Phase -> Z) (e : Embedded) (font_ptr stack_top stack_bottom demo_task user_task_trampoline : Z)
    (rounds fuel : nat) (times : nat -> nat -> Z * Z * Z) (boot_pauses : nat -> Pause) (pauses : nat -> nat -> Pause)
    (boot_info_phys : CoreOS_BootInfo) : M Kernel (Wait unit) :=
  let* w := boot_kernel tsc e font_ptr stack_top stack_bottom demo_task user_task_trampoline fuel boot_pauses boot_info_phys in
  match w with
  | Blocked => retM Blocked
  | Done bi => run_shell user_task_trampoline (Boot.width bi) (Boot.height bi) rounds fuel times pauses
  end.

(** ** The clock stays in its box *)

Lemma draws_text s cv : draws (snd cv) (snd (write_str s cv)).
Proof.
  revert cv. induction s as [|c s IH]; intros [con v]; [by split|]. cbn [write_str fold_left console_char snd].
  destruct (c =? 0x0A); [apply (IH (_, v))|]. etrans; [apply (draws_putchar c (con_x con) (con_y con) (con_color con) (con_scale con))|].
  apply (IH (_, putchar c (con_x con) (con_y con) (con_color con) (con_scale con) v)).
Qed.

Lemma draws_draw_rect x y w h color v : 0 <= x -> 0 <= y -> draws v (draw_rect x y w h color v).
Proof. intros Hx Hy. unfold draw_rect. destruct (fb_base v =? 0); [by split|]. by apply draws_rect. Qed.

(** Refreshing the clock changes pixels of the screen only. *)
Lemma refresh_clock_draws width last_s t v : draws v (snd (refresh_clock width last_s t v)).
Proof.
  destruct t as [[h m] s]. unfold refresh_clock. destruct (s =? last_s); [by split|]. cbn [snd]. cbv zeta.
  etrans; [apply (draws_draw_rect (width -w 150) 20 130 32 BG_COLOR); [apply wrap64_range|lia]|]. set (v1 := draw_rect _ _ _ _ _ _).
  unfold draw_clock. cbv zeta. set (cv := (mkConsole (width -w 150) 20 CLOCK_COLOR 2, v1)). change v1 with (snd cv) at 1. by repeat (etrans; [|apply draws_text]).
Qed.

(** The text moves to the right by its length. *)
Lemma write_str_x s con v : 0 <= con_x con -> 0 <= con_scale con -> Forall (fun c => c <> 0x0A) s ->
  con_x con + 8 * con_scale con * Z.of_nat (length s) < U64 ->
  fst (write_str s (con, v)) = mkConsole (con_x con + 8 * con_scale con * Z.of_nat (length s)) (con_y con) (con_color con) (con_scale con).
Proof.
  revert con v. induction s as [|c s IH]; intros con v Hx Hs Hc Hb; cbn [length] in *.
  { cbn. destruct con. cbn. f_equal. lia. }
  apply list.Forall_cons in Hc as [H0 Hc]. cbn [write_str fold_left console_char]. rewrite (proj2 (Z.eqb_neq c 0x0A) H0).
  rewrite (wrap64_small (8 * con_scale con)), (wrap64_small (con_x con + 8 * con_scale con)) by nia.
  unfold write_str in IH. rewrite IH; cbn [con_x con_y con_color con_scale]; [f_equal; nia|nia|done|done|nia].
Qed.

(** Hours, minutes and seconds of two digits take eight cells of sixteen
    pixels: they fit the box that is cleared before. *)
Lemma clock_fits h m s : 0 <= h < 100 -> 0 <= m < 100 -> 0 <= s < 100 ->
  16 * Z.of_nat (length (two_digits h ++ lit ":" ++ two_digits m ++ lit ":" ++ two_digits s)) <= 130.
Proof.
  assert (forall n, 0 <= n < 100 -> length (two_digits n) = 2%nat) as H2.
  { intros n Hn. assert (n ∈ seqZ 0 100) as Hin by (apply elem_of_seqZ; lia).
    assert (Forall (fun n => length (two_digits n) = 2%nat) (seqZ 0 100)) as HF by (apply (bool_decide_unpack _); vm_compute; exact I).
    by eapply list.Forall_forall in HF. }
  intros Hh Hm Hs. rewrite !length_app, !H2 by done. cbn. lia.
Qed.

(** ** The loop keeps the invariant *)

Section Safe.
Context (user_task_trampoline : Z) (pauses : nat -> nat -> Pause) (Hpauses : forall n, pauses_ok None (pauses n)).
#[local] Abbreviation safe := (safe True (sys_inv None)).

Lemma safe_shell_wait width fuel times n slot last_s : 0 <= slot < 8 -> safe (shell_wait width fuel times (pauses n) slot last_s) (fun _ => True).
Proof.
  intros Hs. revert last_s. induction fuel as [|f IH]; intros last_s; cbn [shell_wait]; (eapply safe_bind; [by apply safe_is_running|]; intros r _);
    destruct (negb r); try by apply safe_ret.
  eapply safe_bind; [apply safe_get|]. intros k _. destruct (refresh_clock width last_s (times f) (k_vga k)) as [l v].
  eapply safe_bind; [apply safe_modify; intros k'; apply inv_vga|]. intros _ _. eapply (safe_bind _ _ _ _ (fun _ => True)); [|intros _ _; apply IH].
  eapply safe_bind; [apply safe_modify, Hpauses|]. intros _ _. apply safe_wait_for_event.
Qed.

Lemma safe_shell_round width fuel times n : safe (shell_round user_task_trampoline width fuel times (pauses n)) (fun _ => True).
Proof.
  eapply safe_bind; [apply safe_get|]. intros k _. destruct (vfs_clone_bytes _ (k_fs k)) as [d|]; [|by apply safe_ret].
  eapply safe_bind; [by apply safe_exec_as_task|]. intros [pid slot] Hs. cbn [snd] in Hs. destruct (0 <? pid); [|by apply safe_ret].
  eapply safe_bind; [by apply safe_shell_wait|]. intros [|[]] _; [by apply safe_ret|].
  eapply safe_bind; [by apply safe_reap_slot|]. intros c _. by apply safe_ret.
Qed.

Lemma safe_run_shell width height n fuel times : safe (run_shell user_task_trampoline width height n fuel times pauses) (fun _ => True).
Proof.
  eapply safe_bind; [apply safe_modify; intros k; apply inv_vga|]. intros _ _. induction n as [|n IH]; [by apply safe_ret|].
  eapply safe_bind; [apply safe_shell_round|]. intros [|[]] _; [by apply safe_ret|exact IH].
Qed.

Lemma safe_kernel_start boot_pauses : pauses_ok None boot_pauses ->
  forall tsc e font_ptr stack_top stack_bottom demo_task rounds fuel times bi0,
  safe (kernel_start tsc e font_ptr stack_top stack_bottom demo_task user_task_trampoline rounds fuel times boot_pauses pauses bi0) (fun _ => True).
Proof.
  intros Hb tsc e fp st sb dt rounds fuel times bi0. eapply safe_bind; [by apply safe_boot_kernel|].
  intros [|bi] _; [by apply safe_ret|apply safe_run_shell].
Qed.
End Safe.


(** ** Witness *)

Lemma run_tests_missing tramp fuel pauses names k : Forall (fun n => vfs_clone_bytes n (k_fs k) = None) names ->
  run_tests tramp fuel pauses names k = OOk (Done tt) k.
Proof.
  induction 1 as [|n names Hn _ IH]; [done|]. cbn [run_tests]. rewrite (bind_ok _ _ k (Done tt) k); [exact IH|].
  unfold run_embedded_userspace_test. rewrite getM_bind. by rewrite Hn.
Qed.

(** A timer interrupt is always taken. *)
Lemma timer_total m0 k : sys_inv m0 k -> exists k', take_irq TimerIrq k = OOk tt k'.
Proof.
  intros Hk. cbn [take_irq]. set (k1 := k <| k_ticks := k_ticks k +w 1 |>).
  destruct (try_switch_total m0 k1 ltac:(by apply inv_ticks)) as (r & k2 & Hsw & _ & _).
  unfold pit_handler, tick. unfold bindM at 1 2, modifyM at 1. fold k1. rewrite getM_bind.
  destruct (k_ticks k1 mod 10 =? 0); [rewrite Hsw; by exists k2|by exists k1].
Qed.

(** A program writes to its memory while the kernel waits. *)
Definition busy (_ : nat) : Pause := mkPause (fun k => k <| k_umem := store_bytes (k_umem k) 0x1000 [1] |>) [TimerIrq].

Lemma busy_runs ft ut bw c n k : runs ft ut bw c k (pa_resume (busy n) k).
Proof. apply runs_user. intros a Ha. apply store_bytes_outside. cbn [length]. unfold USER_TOP in Ha. lia. Qed.

(** The boot of the small machine and the shell's screen. *)
Definition small_start : M Kernel (Wait unit) :=
  kernel_start (fun _ => 1) small_embedded 0x1000 0x2000 0x3000 0x4000 0x5000 0 0 (fun _ _ => (0, 0, 0)) busy (fun _ => busy) small_boot_info.

Lemma small_start_runs : exists k, small_start (init_kernel small_machine (fun _ => 0)) = OOk (Done tt) k.
Proof.
  destruct (boot_setup_outcome (fun _ => 1) small_embedded 0x1000 0x2000 0x3000 0x4000 small_boot_info small_machine (fun _ => 0) small_boot_ok)
    as (bi' & k & own & files & E & _ & _ & _ & _ & Hf & Hok & Ha & _); [intros x; cbn; by destruct (_ =? _)|done|].
  assert (Forall (fun n => vfs_clone_bytes n (k_fs k) = None) [lit "posix_newsys_test"; lit "musl_stage1_test"; lit "musl_hello"]) as Hn.
  { rewrite Hf. apply list.Forall_forall. intros n Hn. change (data <$> RamFS_find n files = None). rewrite <- (abs_find _ _ Hok), Ha.
    revert n Hn. apply list.Forall_forall. repeat constructor; vm_compute; reflexivity. }
  exists (k <| k_vga := shell_screen (Boot.width bi') (Boot.height bi') (k_vga k) |>).
  unfold small_start, kernel_start, boot_kernel. rewrite (bind_ok _ _ _ (Done bi') k); [done|].
  rewrite (bind_ok _ _ _ _ _ E). by rewrite (bind_ok _ _ _ _ _ (run_tests_missing _ _ _ _ _ Hn)).
Qed.

