(* ===== verification/Commands.v ===== *)
(** * The shell inside the kernel ([shell/mod.rs], [shell/commands.rs])

    The line buffer and the commands on the files of the RAM disk.  The user
    shell has taken its place on the screen; the code is still part of the
    kernel. *)

From Stdlib Require Import Ascii String.
From S2P Require Import Prelude Mem Update Fmt Bench Result Boot Pmm Paging RamFs Types Vga State Fd Futex Time Exec.

Local Open Scope string_scope.
Local Open Scope Z_scope.
Local Open Scope list_scope.

Definition BUF_LEN : Z := 64.

Record Shell := mkShell { buffer : list Z; cursor : Z }.

Definition Shell_new : Shell := mkShell (replicate (Z.to_nat BUF_LEN) 0) 0.

Definition push (c : Z) (s : Shell) : Shell :=
  if cursor s <? BUF_LEN - 1 then mkShell (zset (buffer s) (cursor s) c) (cursor s + 1) else s.

Definition pop (s : Shell) : Shell :=
  if 0 <? cursor s then mkShell (zset (buffer s) (cursor s - 1) 0) (cursor s - 1) else s.

(** The character at [i]; the buffer has [BUF_LEN]. *)
Definition char_at (b : list Z) (i : Z) : Z := default 0 (zget b i).

(** The loop over the characters of [cmd], from position [i]. *)
Fixpoint cmd_loop (b cmd : list Z) (i : Z) : option Z :=
  match cmd with
  | [] => Some i
  | c :: cmd => if (BUF_LEN <=? i) || negb (char_at b i =? c) then None else cmd_loop b cmd (i + 1)
  end.

Definition cmd_is (b cmd : list Z) : bool :=
  match cmd_loop b cmd 0 with
  | None => false
  | Some i => (BUF_LEN <=? i) || (char_at b i =? 0) || (char_at b i =? 0x20)
  end.

(** [while end < BUF_LEN && buffer[end] != '\0' { .. }], for both functions. *)
Fixpoint take_word (stop_at_space : bool) (l : list Z) : list Z :=
  match l with
  | [] => []
  | c :: l => if (c =? 0) || (stop_at_space && (c =? 0x20)) then [] else c :: take_word stop_at_space l
  end.

Definition get_arg (b : list Z) (cmd_len : Z) : list Z :=
  let start := cmd_len + 1 in
  if (BUF_LEN <=? start) || (char_at b start =? 0) then [] else take_word true (drop (Z.to_nat start) b).

Definition get_rest (b : list Z) (skip : Z) : list Z :=
  if (BUF_LEN <=? skip) || (char_at b skip =? 0) then [] else take_word false (drop (Z.to_nat skip) b).

(** ** Commands *)

Record ShellContext := mkContext { filesystem : FS; global_scale : Z; current_y : Z; screen_h : Z; kernel : Kernel }.

#[export] Instance eta_context : Eta ShellContext := fun c =>
  mkContext (filesystem c) (global_scale c) (current_y c) (screen_h c) (kernel c).

Inductive ShellOutput :=
| Print (s : list Z)
| PrintLines (l : list (list Z))
| Clear
| NoOutput.

Abbreviation Cmd := (M ShellContext ShellOutput).

Definition on_kernel {A} : M Kernel A -> M ShellContext A := zoom kernel (fun k c => c <| kernel := k |>).

Definition cmd_meminfo : Cmd :=
  let* c := getM in
  let free_mb := free_bytes (pmm (k_mach (kernel c))) / (1024 * 1024) in
  retM (Print (lit "Free physical RAM: " ++ dec free_mb ++ lit " MB")).

Definition cmd_ls : Cmd :=
  let* c := getM in
  match filesystem c with
  | None => retM NoOutput
  | Some files =>
      retM (PrintLines (lit "Files in RAM:" ::
        ((fun f => lit "  " ++ name f ++ lit " (" ++ dec (vlen (data f)) ++ lit " bytes)") <$> files)))
  end.

Definition cmd_touch (b : list Z) : Cmd :=
  let filename := get_arg b 5 in
  let* c := getM in
  match filesystem c with
  | None => retM NoOutput
  | Some files =>
      let '(ok, files) := RamFS_create filename files in
      modifyM (fun c => c <| filesystem := Some files |>) ;;;
      retM (Print (if ok then lit "File created." else lit "Error: file exists or invalid name."))
  end.

Definition cmd_rm (b : list Z) : Cmd :=
  let filename := get_arg b 2 in
  let* c := getM in
  match filesystem c with
  | None => retM NoOutput
  | Some files =>
      let '(ok, files) := RamFS_remove filename files in
      modifyM (fun c => c <| filesystem := Some files |>) ;;;
      retM (Print (if ok then lit "File removed." else lit "Error: file not found."))
  end.

(** Bytes become characters one by one. *)
Definition cmd_cat (b : list Z) (cmd_len : Z) : Cmd :=
  let filename := get_arg b cmd_len in
  let* c := getM in
  match filesystem c with
  | None => retM NoOutput
  | Some files =>
      match RamFS_find filename files with
      | Some file => retM (Print (data file))
      | None => retM (Print (lit "Error: file not found."))
      end
  end.

Definition cmd_write (b : list Z) : Cmd :=
  let filename := get_arg b 5 in
  let content := get_rest b (6 + vlen filename) in
  let* c := getM in
  match filesystem c with
  | None => retM NoOutput
  | Some files =>
      let '(ok, files) := RamFS_update filename (fun f => mkFile (name f) (wrap8 <$> content)) files in
      modifyM (fun c => c <| filesystem := Some files |>) ;;;
      retM (Print (if ok then lit "Overwritten." else lit "Error: file not found."))
  end.

Definition cmd_push (b : list Z) : Cmd :=
  let filename := get_arg b 4 in
  let content := get_rest b (5 + vlen filename) in
  let* c := getM in
  match filesystem c with
  | None => retM NoOutput
  | Some files =>
      let '(ok, files) := RamFS_update filename (fun f => mkFile (name f) (data f ++ (wrap8 <$> content))) files in
      modifyM (fun c => c <| filesystem := Some files |>) ;;;
      retM (Print (if ok then lit "Appended." else lit "Error: file not found."))
  end.

Definition cmd_echo (b : list Z) : Cmd := retM (Print (take_word false (drop 5 b))).

Definition cmd_uptime : Cmd :=
  let* c := getM in retM (Print (lit "Uptime: " ++ dec (k_ticks (kernel c) / 100) ++ lit " seconds")).

Definition cmd_ticks : Cmd :=
  let* c := getM in retM (Print (lit "Kernel ticks: " ++ dec (k_ticks (kernel c)))).

(** Characters that are not digits are skipped. *)
Definition sleep_seconds (arg : list Z) : Z :=
  fold_left (fun n c => if (0x30 <=? c) && (c <=? 0x39) then n *w 10 +w (c - 0x30) else n) arg 0.

Definition cmd_sleep (fuel : nat) (pauses : nat -> Pause) (b : list Z) : M ShellContext (Wait ShellOutput) :=
  let* w := on_kernel (sleep_yield fuel pauses (sleep_seconds (get_arg b 5) *w 100)) in
  retM (match w with Blocked => Blocked | Done _ => Done NoOutput end).

Definition cmd_font (b : list Z) : Cmd :=
  let* c := getM in
  let k := char_at b 5 in
  let s := global_scale c in
  (if (k =? 0x2B) && (s <? 4) then modifyM (fun c => c <| global_scale := s + 1 |>)
   else if (k =? 0x2D) && (1 <? s) then modifyM (fun c => c <| global_scale := s - 1 |>)
   else retM tt) ;;;
  retM NoOutput.

Definition cmd_exec (user_task_trampoline : Z) (b : list Z) : Cmd :=
  let filename := get_arg b 4 in
  let* c := getM in
  match filesystem c with
  | None => retM (Print (lit "Error: no filesystem."))
  | Some files =>
      match RamFS_find filename files with
      | None => retM (Print (lit "Error: file not found."))
      | Some file =>
          on_kernel (modifyM (fun k => k <| k_vga := set_userspace_cursor 20 (current_y c +w 16 *w global_scale c) (k_vga k) |>)) ;;;
          let* r := on_kernel (exec_as_task user_task_trampoline (data file) filename) in
          retM (Print (if fst r =? 0 then lit "exec failed." else lit "spawned pid=" ++ dec (fst r)))
      end
  end.

(** [str::lines]: the text between line ends, nothing after the last. *)
Fixpoint lines_from (line l : list Z) : list (list Z) :=
  match l with
  | [] => match line with [] => [] | _ => [rev line] end
  | c :: l => if c =? 0x0A then rev line :: lines_from [] l else lines_from (c :: line) l
  end.

Definition cmd_boottime : Cmd :=
  let* c := getM in retM (PrintLines (lines_from [] (report (k_bench (kernel c))))).

Definition return_output (c : Cmd) : M ShellContext (Wait ShellOutput) := let* o := c in retM (Done o).

(** [Blocked] stands for the machine that restarts, and for a sleep that has
    not ended. *)
Definition dispatch (fuel : nat) (pauses : nat -> Pause) (user_task_trampoline : Z) (b : list Z) : M ShellContext (Wait ShellOutput) :=
  if cmd_is b (lit "clear") then retM (Done Clear)
  else if cmd_is b (lit "meminfo") then return_output cmd_meminfo
  else if cmd_is b (lit "ls") then return_output cmd_ls
  else if cmd_is b (lit "touch") then return_output (cmd_touch b)
  else if cmd_is b (lit "rm") then return_output (cmd_rm b)
  else if cmd_is b (lit "cat") then return_output (cmd_cat b 3)
  else if cmd_is b (lit "print") then return_output (cmd_cat b 5)
  else if cmd_is b (lit "write") then return_output (cmd_write b)
  else if cmd_is b (lit "push") then return_output (cmd_push b)
  else if cmd_is b (lit "echo") then return_output (cmd_echo b)
  else if cmd_is b (lit "uptime") then return_output cmd_uptime
  else if cmd_is b (lit "ticks") then return_output cmd_ticks
  else if cmd_is b (lit "sleep") then cmd_sleep fuel pauses b
  else if cmd_is b (lit "font") then return_output (cmd_font b)
  else if cmd_is b (lit "exec") then return_output (cmd_exec user_task_trampoline b)
  else if cmd_is b (lit "boottime") then return_output cmd_boottime
  else if cmd_is b (lit "panic") then panicM
  else if cmd_is b (lit "reboot") then retM Blocked
  else retM (Done NoOutput).

(** The line is cleared afterwards; the copy of the line on the serial port is
    a log message. *)
Definition execute (fuel : nat) (pauses : nat -> Pause) (user_task_trampoline : Z) (s : Shell) : M ShellContext (Wait ShellOutput * Shell) :=
  let* o := dispatch fuel pauses user_task_trampoline (buffer s) in
  retM (o, Shell_new).

(** ** Typing a line *)

(** The buffer that holds the line [l]. *)
Definition typed (l : list Z) : Shell := mkShell (l ++ replicate (64 - length l) 0) (vlen l).

Lemma push_typed l c : (length l < 63)%nat -> push c (typed l) = typed (l ++ [c]).
Proof.
  intros Hl. unfold push, typed, vlen. cbn [buffer cursor]. rewrite (proj2 (Z.ltb_lt _ _)) by (unfold BUF_LEN; lia).
  rewrite length_app. cbn [length]. f_equal; [|lia]. unfold zset. rewrite Nat2Z.id.
  replace (64 - length l)%nat with (S (64 - (length l + 1))) by lia. cbn [replicate].
  rewrite insert_app_r_alt, Nat.sub_diag by lia. cbn. by rewrite <- app_assoc.
Qed.

Lemma push_full l c : length l = 63%nat -> push c (typed l) = typed l.
Proof. intros Hl. unfold push, typed, vlen. cbn [cursor]. rewrite Hl. done. Qed.

Lemma pop_typed l c : (length l < 63)%nat -> pop (typed (l ++ [c])) = typed l.
Proof.
  intros Hl. unfold pop, typed, vlen. cbn [buffer cursor]. rewrite length_app. cbn [length]. rewrite (proj2 (Z.ltb_lt 0 _)) by lia.
  f_equal; [|lia]. unfold zset. replace (Z.to_nat (Z.of_nat (length l + 1) - 1)) with (length l) by lia.
  rewrite <- app_assoc, insert_app_r_alt, Nat.sub_diag by lia. cbn. by replace (64 - length l)%nat with (S (64 - (length l + 1))) by lia.
Qed.

(** The first 63 characters typed are the line; the others are dropped. *)
Lemma typing l : fold_left (fun s c => push c s) l Shell_new = typed (take 63 l).
Proof.
  induction l as [|c l IH] using rev_ind; [done|]. rewrite fold_left_app, IH. cbn [fold_left].
  destruct (decide (length l < 63)%nat) as [Hl|Hl].
  - rewrite !take_ge by (rewrite ?length_app; cbn; lia). by apply push_typed.
  - rewrite push_full by (rewrite length_take; lia). by rewrite take_app_le by lia.
Qed.

(** ** Words of a line *)

Definition no_break (c : Z) : Prop := c <> 0 /\ c <> 0x20.

Lemma take_word_stop n r : Forall no_break n -> (forall c, head r = Some c -> c = 0 \/ c = 0x20) -> take_word true (n ++ r) = n.
Proof.
  intros Hn Hr. induction Hn as [|c n [H1 H2] _ IH]; cbn.
  - destruct r as [|c r]; [done|]. cbn. destruct (Hr c eq_refl) as [-> | ->]; done.
  - by rewrite (proj2 (Z.eqb_neq c 0) H1), (proj2 (Z.eqb_neq c 32) H2), IH.
Qed.

Lemma take_word_rest t k : Forall (fun c => c <> 0) t -> take_word false (t ++ replicate k 0) = t.
Proof.
  induction 1 as [|c t H1 _ IH]; cbn; [by destruct k|]. by rewrite (proj2 (Z.eqb_neq c 0) H1), IH.
Qed.

Lemma char_at_app b1 b2 i : Z.of_nat (length b1) = i -> char_at (b1 ++ b2) i = default 0 (head b2).
Proof.
  intros <-. unfold char_at, zget. rewrite (proj2 (Z.leb_le 0 _)), Nat2Z.id, lookup_app_r, Nat.sub_diag by lia. by destruct b2.
Qed.

(** The first argument and the rest of a line [w n r]. *)
Lemma get_arg_spec w n r : Forall no_break n -> n <> [] -> (forall c, head r = Some c -> c = 0 \/ c = 0x20) -> Z.of_nat (length w) < 63 ->
  get_arg (w ++ 0x20 :: n ++ r) (Z.of_nat (length w)) = n.
Proof.
  intros Hn Hne Hr Hl. unfold get_arg. rewrite (proj2 (Z.leb_gt _ _)) by (unfold BUF_LEN; lia). cbn [orb].
  change (w ++ 0x20 :: n ++ r) with (w ++ [0x20] ++ n ++ r). rewrite app_assoc, char_at_app by (rewrite length_app; cbn; lia).
  destruct n as [|c n]; [done|]. cbn [app head default]. assert (c <> 0) as H0 by (by apply list.Forall_cons in Hn as [[? _] _]).
  cbn. rewrite (proj2 (Z.eqb_neq c 0) H0), drop_app_length' by (rewrite length_app; cbn; lia). by apply (take_word_stop (c :: n)).
Qed.

Lemma get_rest_spec w t k i : Forall (fun c => c <> 0) t -> i = Z.of_nat (length w) -> i < 64 -> get_rest (w ++ t ++ replicate k 0) i = t.
Proof.
  intros Ht -> Hl. unfold get_rest. rewrite (proj2 (Z.leb_gt _ _)) by (unfold BUF_LEN; lia). cbn [orb]. rewrite char_at_app by done.
  destruct t as [|c t]; [by destruct k|]. cbn [app head default]. assert (c <> 0) as H0 by (by apply list.Forall_cons in Ht as [? _]).
  cbn. rewrite (proj2 (Z.eqb_neq c 0) H0), Nat2Z.id, drop_app_length. by apply (take_word_rest (c :: t)).
Qed.

(** ** The commands on files *)

Definition line1 (w n : list Z) : list Z := w ++ 0x20 :: n.
Definition line2 (w n t : list Z) : list Z := w ++ 0x20 :: n ++ 0x20 :: t.

Lemma buffer_line1 w n : buffer (typed (line1 w n)) = w ++ 0x20 :: n ++ replicate (64 - length (line1 w n)) 0.
Proof. unfold typed, line1. cbn [buffer]. by rewrite <- app_assoc. Qed.

Lemma buffer_line2 w n t : buffer (typed (line2 w n t)) = w ++ 0x20 :: n ++ 0x20 :: t ++ replicate (64 - length (line2 w n t)) 0.
Proof. unfold typed, line2. cbn [buffer]. by rewrite <- app_assoc, <- app_comm_cons, <- app_assoc. Qed.

Lemma head_zeros k c : head (replicate k 0) = Some c -> c = 0 \/ c = 0x20.
Proof. destruct k; [done|]. intros [= <-]. by left. Qed.

Section Words.
Context (n t : list Z) (Hn : Forall no_break n) (Hne : n <> []) (Ht : Forall (fun c => c <> 0) t).

Lemma arg1 w : Z.of_nat (length w) < 63 -> get_arg (buffer (typed (line1 w n))) (Z.of_nat (length w)) = n.
Proof. intros Hw. rewrite buffer_line1. apply get_arg_spec; try done. intros c. apply head_zeros. Qed.

Lemma arg2 w : Z.of_nat (length w) < 63 -> get_arg (buffer (typed (line2 w n t))) (Z.of_nat (length w)) = n.
Proof. intros Hw. rewrite buffer_line2. apply get_arg_spec; try done. intros c [= <-]. by right. Qed.

(** The rest starts with the blank after the file name. *)
Lemma rest2 w : Z.of_nat (length w) + vlen n < 62 -> get_rest (buffer (typed (line2 w n t))) (Z.of_nat (length w) + 1 + vlen n) = 0x20 :: t.
Proof.
  intros Hw. unfold vlen in *. rewrite buffer_line2. change (w ++ 0x20 :: n ++ ?r) with (w ++ (0x20 :: n) ++ r). rewrite app_assoc.
  apply (get_rest_spec (w ++ 0x20 :: n) (0x20 :: t)); [by constructor|rewrite length_app; cbn; lia|lia].
Qed.
End Words.

(** What a command prints and what becomes of the files. *)
Definition command_result (fuel : nat) (pauses : nat -> Pause) (tramp : Z) (l : list Z) (c : ShellContext) (out : list Z) (after : gmap (list Z) (list Z)) : Prop :=
  exists files, execute fuel pauses tramp (typed l) c = OOk (Done (Print out), Shell_new) (c <| filesystem := Some files |>) /\ fs_ok files /\ abs files = after.

Lemma same_files c files : filesystem c = Some files -> c <| filesystem := Some files |> = c.
Proof. intros H. destruct c. cbn in *. by subst. Qed.

(** The branch of [dispatch] that a line takes. *)
Lemma run_command fuel pauses tramp l c (cmd : Cmd) out out' files after : dispatch fuel pauses tramp (buffer (typed l)) = return_output cmd ->
  cmd c = OOk (Print out') (c <| filesystem := Some files |>) -> out' = out -> fs_ok files -> abs files = after ->
  command_result fuel pauses tramp l c out after.
Proof.
  intros E1 E2 <- Hok Ha. exists files. split; [|done]. unfold execute. rewrite E1. unfold return_output.
  rewrite (bind_ok _ _ c (Done (Print out')) (c <| filesystem := Some files |>)); [done|]. by rewrite (bind_ok _ _ _ _ _ E2).
Qed.

Lemma wrap8_text t : Forall (fun ch => 0 < ch < 256) t -> wrap8 <$> t = t.
Proof. induction 1 as [|ch t H _ IH]; [done|]. rewrite fmap_cons, IH. f_equal. apply Z.mod_small. unfold U8. lia. Qed.

Section Runs.
Context (b : list Z) (c : ShellContext) (files : RamFS) (n : list Z) (Hf : filesystem c = Some files).

Lemma cmd_touch_run r files' : get_arg b 5 = n -> RamFS_create n files = (r, files') ->
  cmd_touch b c = OOk (Print (if r then lit "File created." else lit "Error: file exists or invalid name.")) (c <| filesystem := Some files' |>).
Proof. intros Ea E. unfold cmd_touch. by rewrite getM_bind, Hf, Ea, E. Qed.

Lemma cmd_rm_run r files' : get_arg b 2 = n -> RamFS_remove n files = (r, files') ->
  cmd_rm b c = OOk (Print (if r then lit "File removed." else lit "Error: file not found.")) (c <| filesystem := Some files' |>).
Proof. intros Ea E. unfold cmd_rm. by rewrite getM_bind, Hf, Ea, E. Qed.

Lemma cmd_cat_run : get_arg b 3 = n ->
  cmd_cat b 3 c = OOk (Print (default (lit "Error: file not found.") (data <$> RamFS_find n files))) (c <| filesystem := Some files |>).
Proof. intros Ea. unfold cmd_cat. rewrite getM_bind, Hf, Ea, (same_files c files Hf). by destruct (RamFS_find n files). Qed.

Lemma cmd_write_run t r files' : get_arg b 5 = n -> get_rest b (6 + vlen n) = t -> RamFS_update n (fun f => mkFile (name f) (wrap8 <$> t)) files = (r, files') ->
  cmd_write b c = OOk (Print (if r then lit "Overwritten." else lit "Error: file not found.")) (c <| filesystem := Some files' |>).
Proof. intros Ea Er E. unfold cmd_write. by rewrite Ea, Er, getM_bind, Hf, E. Qed.

Lemma cmd_push_run t r files' : get_arg b 4 = n -> get_rest b (5 + vlen n) = t -> RamFS_update n (fun f => mkFile (name f) (data f ++ (wrap8 <$> t))) files = (r, files') ->
  cmd_push b c = OOk (Print (if r then lit "Appended." else lit "Error: file not found.")) (c <| filesystem := Some files' |>).
Proof. intros Ea Er E. unfold cmd_push. by rewrite Ea, Er, getM_bind, Hf, E. Qed.
End Runs.

(** C20: The file commands of the kernel's shell, on a typed line with a file
    name and a text: [touch] and [rm] create and remove exactly the file
    named, [cat] prints its bytes, [write] replaces and [push] extends its
    contents.  The blank that separates the name from the text is stored with
    the text.  No other file changes, and a name that is not there is an
    error that changes nothing. *)
Theorem shell_file_commands fuel pauses tramp c files n t :
  filesystem c = Some files -> fs_ok files -> Forall no_break n -> n <> [] -> Forall (fun ch => 0 < ch < 256) t -> vlen n + vlen t <= 56 ->
  let run := command_result fuel pauses tramp in let m := abs files in let there := bool_decide (is_Some (m !! n)) in
  run (line1 (lit "touch") n) c (if there then lit "Error: file exists or invalid name." else lit "File created.") (if there then m else <[n := []]> m) /\
  run (line1 (lit "rm") n) c (if there then lit "File removed." else lit "Error: file not found.") (delete n m) /\
  run (line1 (lit "cat") n) c (default (lit "Error: file not found.") (m !! n)) m /\
  run (line2 (lit "write") n t) c (if there then lit "Overwritten." else lit "Error: file not found.") (if there then <[n := 0x20 :: t]> m else m) /\
  run (line2 (lit "push") n t) c (if there then lit "Appended." else lit "Error: file not found.")
    (match m !! n with Some d => <[n := d ++ 0x20 :: t]> m | None => m end).
Proof.
  intros Hf Hok Hn Hne Ht Hlen run m there. assert (Forall (fun ch => ch <> 0) t) as Ht0 by (eapply Forall_impl; [|exact Ht]; cbn; lia).
  assert (wrap8 <$> (0x20 :: t) = 0x20 :: t) as Hw by (rewrite fmap_cons, wrap8_text by done; done).
  assert (0 <= vlen n /\ 0 <= vlen t) as [Hn0 Ht00] by (unfold vlen; lia). pose proof (abs_find files n Hok) as Hfind. fold m in Hfind.
  assert (there = if m !! n is Some _ then true else false) as Eth by (unfold there; destruct (m !! n); case_bool_decide as Hx; [done|by destruct Hx|by destruct Hx|done]).
  split; [|split; [|split; [|split]]].
  - pose proof (RamFS_create_spec n files Hok) as H. destruct (RamFS_create n files) as [r files'] eqn:E. destruct H as (Hok' & _ & H).
    pose proof (cmd_touch_run _ c files n Hf r files' (arg1 n Hn Hne (lit "touch") ltac:(done)) E) as Er.
    eapply run_command; [reflexivity|exact Er| |exact Hok'|].
    all: fold m in H; rewrite Eth; destruct (m !! n) as [d|]; [rewrite decide_True in H by eauto|rewrite decide_False in H by (intros [?|[? ?]]; done)].
    all: destruct H as [-> H]; by rewrite ?H.
  - pose proof (RamFS_remove_spec n files Hok) as H. destruct (RamFS_remove n files) as [r files'] eqn:E.
    pose proof (cmd_rm_run _ c files n Hf r files' (arg1 n Hn Hne (lit "rm") ltac:(done)) E) as Er.
    destruct H as (Hok' & Ha & Hr). eapply run_command; [reflexivity|exact Er| |exact Hok'|exact Ha].
    replace there with r; [done|]. apply eq_bool_prop_intro. unfold there. rewrite bool_decide_spec. destruct r; naive_solver.
  - eapply run_command; [reflexivity|apply (cmd_cat_run _ c files n Hf), (arg1 n Hn Hne (lit "cat")); done| |exact Hok|done]. by rewrite Hfind.
  - pose proof (RamFS_update_spec n (fun f => mkFile (name f) (wrap8 <$> (0x20 :: t))) files Hok ltac:(done)) as H.
    destruct (RamFS_update n _ files) as [r files'] eqn:E. destruct H as [Hok' H].
    pose proof (cmd_write_run _ c files n Hf (0x20 :: t) r files' (arg2 n t Hn Hne (lit "write") ltac:(done)) (rest2 n t Ht0 (lit "write") ltac:(cbn; lia)) E) as Er.
    eapply run_command; [reflexivity|exact Er| |exact Hok'|].
    all: rewrite Eth, Hfind; destruct (RamFS_find n files) as [f|]; destruct H as [-> H]; cbn [fmap option_fmap option_map]; [rewrite ?H|by rewrite ?H].
    all: cbn [data]; by rewrite ?Hw.
  - pose proof (RamFS_update_spec n (fun f => mkFile (name f) (data f ++ (wrap8 <$> (0x20 :: t)))) files Hok ltac:(done)) as H.
    destruct (RamFS_update n _ files) as [r files'] eqn:E. destruct H as [Hok' H].
    pose proof (cmd_push_run _ c files n Hf (0x20 :: t) r files' (arg2 n t Hn Hne (lit "push") ltac:(done)) (rest2 n t Ht0 (lit "push") ltac:(cbn; lia)) E) as Er.
    eapply run_command; [reflexivity|exact Er| |exact Hok'|].
    all: rewrite ?Eth, Hfind; destruct (RamFS_find n files) as [f|]; destruct H as [-> H]; cbn [fmap option_fmap option_map]; [rewrite ?H|by rewrite ?H].
    all: cbn [data]; by rewrite ?Hw.
Qed.

Lemma shell_file_commands_witness :
  exists k, let c := mkContext (Some sample_files) 1 120 768 k in
  command_result 0 (fun _ => mkPause id []) 0 (line2 (lit "write") [97] (lit "hi")) c (lit "Overwritten.") (<[[97] := 0x20 :: lit "hi"]> (abs sample_files)).
Proof.
  set (k := init_kernel (mkMachine PMMState_new (fun _ => 0) 0 0 []) (fun _ => 0)). exists k.
  destruct (shell_file_commands 0 (fun _ => mkPause id []) 0 (mkContext (Some sample_files) 1 120 768 k) sample_files [97] (lit "hi")) as (_ & _ & _ & H & _);
    [done|apply sample_files_ok|repeat constructor; done|done|repeat constructor; done|vm_compute; congruence|].
  exact H.
Defined.
